(* ===== verification/_CoqProject ===== *)
-Q . S2P
Prelude.v
Words.v
Memory.v
KHeap.v
Pte.v
PageManager.v
PageHeap.v
PageDirectory.v
UserSpace.v
AddressSpace.v
UserWalk.v
NewDirectory.v
TableHeap.v
Interrupts.v
Tasks.v
Family.v
Sync.v
Devices.v
Screen.v
Fs.v
Tty.v
Cpio.v
FileManager.v
Multiboot.v
Terminals.v
IntUtil.v
Pools.v
DescTables.v
Elf.v
Processes.v
Kernel.v
Fork.v
Stacks.v
Loading.v
Clone.v
Syscalls.v
Dispatch.v
Returns.v
Boot.v
Kmain.v
Linked.v
KernelPages.v
PowerOn.v
