(* ===== verification/Prelude.v ===== *)
(** * A verification library for the flix kernel

    flix is a small x86-64 kernel in C++.  The loader hands it a list of tags; the kernel marks
    the memory that is taken, makes the page tables, a heap, the interrupt tables, a file system from
    the archive in memory, and starts tasks that use it through system calls.  This library models
    the C++ under [src/source] as executable Rocq definitions and proves what makes them correct.

    ** Conventions

    An operation of the kernel is a function in [ST S A] (this file): from a state [S] to a value and
    a new state, or to a [failure].  An assertion that fails, a [PANIC] and an operation with no
    outcome in C++ (a null or dangling pointer, an index out of range, a [memcpy] of regions that overlap) are failures with a name, so
    that a theorem says which inputs lead there.  [Runs m s Q] says that the operation ends without failure, in a
    value and state of which [Q] holds; [Fails m s e] that it fails with [e].  [zoom] runs the
    operation of a part on the whole.  A machine word is an integer whose wrap-around is written out
    ([Words]).  Objects that C++ shares by pointer are in a store, a finite map from
    addresses, 0 being null.  A loop without a structural bound takes fuel, and the theorems state
    how much is enough: they are about runs that end.

    ** The files

    - [Prelude]: outcomes, the state monad and its rules, lists; [Words]: [Types.hpp] and the
      arithmetic of [Util.hpp].
    - [Memory] ([Memory.cpp]): the map of physical pages and its allocator.
    - [KHeap] ([KHeap.cpp]): the kernel heap as a chain of headers in a byte memory, and the abstract list
      of blocks it implements.  The pages come through the class [HeapMapper].
    - [Pte] (the bit fields of a table entry and their word), [PageManager] ([PageManager.hpp]: the four levels
      of linked tables, their image in memory and the walk of the processor, the class [TableAllocator]),
      [PageHeap] ([PageHeap.cpp]), [PageDirectory] ([PageDirectory.cpp]: mapping, unmapping, faults; it
      ties the knot between the page heap and the tables it allocates).  The linker's symbols are the
      class [Symbols].
    - [Interrupts] (RAII masking, spin lock, [Util.hpp], [SpinLock.hpp]), [Sync] (semaphore, mutex,
      condition variable: the waiter queues in a store, the semaphore's spin lock and the count of the locks that [down] and
      [putMeToSleep] assert, and a step relation for the interleavings of the tasks), [Tasks] ([TaskManager.cpp]: the scheduler, sleeping, ending and waiting for a task).
    - [Devices] (ports, interrupt controller, serial line, timer), [Screen] ([Screen.cpp]), [Tty]
      ([Tty.cpp], [Keyboard.cpp]).
    - [Fs] ([Fs.cpp] and the classes of inodes and handles), [Cpio] ([Cpio.cpp]), [FileManager]
      ([FileManager.cpp]), [Terminals] (the terminal and the screen as the [Console] of the file system),
      [Multiboot] ([Multiboot.cpp]).
    - [UserSpace] (the class [UserMemory]: what a program is to the kernel that fills its memory), [AddressSpace]
      (the instance: the page directories of all tasks over the memory of the machine), [Elf] ([Elf.cpp],
      proved against the class), [Processes] (both together).
    - [Kernel] (all parts as one state; [clone], the end of a task, the saved registers), [Syscalls]
      ([Syscall.cpp], [Syscall.hpp]), [Dispatch] ([Interrupt.cpp], the stack trace of [Debug.cpp]).
    - [IntUtil], [Pools] ([StaticMemoryPool], [ForwardAllocator], [BitVector]), [DescTables] ([DescTables.cpp]: the
      tables, and the registers of the processor that lead to them).
    - [UserWalk] (the pages of a task in the order in which [forEachUserPage] visits them), [NewDirectory] (a new directory and
      the gigabyte that the kernel shares with it), [Family] (the tree of the tasks, behind [addTask] and [wait]), [Stacks] (the heap
      of kernel stacks), [Fork] and [Clone] ([TaskManager::clone]: the copy of an address space, then the whole call),
      [Returns] (what the kernel goes back to), [Loading] (the second pass of [Multiboot] over page tables and files), [Boot]
      ([main.cpp]), [Kmain] ([kmain.cpp]: the steps of the boot on the whole machine, and the handler of the log).
    - [TableHeap]: the interface between the page tables and their allocator ([TableAllocatorLaws] of [PageManager], [MemoryLaws]
      of [AddressSpace]), for the allocator the kernel uses: [getPdPageHeap()], which maps its blocks through the tables it extends.
      [Linked]: the tables and that heap as [PageDirectory.makeKernelDirectory] leaves them (the write of EFER before it is in
      [Kernel.initKernelDirectory]); [KernelPages] and [PowerOn]: pages for a task, and
      the whole boot, with both.

    ** What the theorems show

    Each allocator gives what is free and keeps the rest: [Memory.getFreePage_spec], [KHeap.kmalloc_spec],
    [KHeap.kfree_spec], [Pools.pool_blocks]; the chain of headers implements first fit
    ([KHeap.kmalloc_refines]), but for a free block of exactly the size, which it passes over ([KHeap.kmalloc_exact_passed]).  The tables the kernel follows are those the processor walks
    ([PageDirectory.resolve_is_mmu]); mapping, unmapping and a page fault change one page
    ([PageDirectory._mapPageTo_spec], [unmapPage_spec], [handleFault_spec]), and the recursion of mapping
    through the page heap is at most two deep.  Under any interleaving, a semaphore admits as many
    holders as its count, wakes the waiters in order and loses no wake-up; every runnable
    task gets its turn.  A text that stays on the screen is typed there, and the first scroll is undefined ([Screen.putString_refines]); the terminal
    is a queue edited line by line; the keys of a US keyboard type their characters.  The archive reads back as the tree of its
    paths, and a file opened by its path gives its data ([FileManager.boot_and_read_spec]).  The
    interrupt controller implements a set of masked lines, the gates decode to their handlers, and the
    first pass over the boot information marks the pages of the sections that it names as taken.

    The last files compose the parts.  What is stored through the addresses of a task is what that task reads, and no other
    task sees it ([AddressSpace.store_isolated]); memory mapped without pages gets them at the first store
    ([AddressSpace.demand_paging], and from the system call on, [Syscalls.mmap_store_spec]), and the program that faulted
    does not notice ([Dispatch.page_fault_resumes]).  A program file becomes a task in user mode
    ([Processes.exec_process_spec]); a program that opens and reads a file by system calls finds its data in
    its buffer ([Syscalls.open_read_calls]); the timer saves and restores all registers ([Dispatch.timer_preempts]).  [clone]
    makes a child with a copy of the memory on pages of its own ([Clone.clone_spec]), [wait] removes the child that has ended from the
    tree ([Family.wait_reaps]), [exit] wakes the parent up and goes to the next task ([Dispatch.exit_switches]), and the kernel always
    goes back to registers that may be interrupted ([Returns.kernel_returns_typed]).  From a machine with paging and a module of the loader, [kmain] makes the task segment and the system calls
    and comes to the program "/bin/sh" of the archive ([Kmain.kmain_to_shell_spec]).

    These theorems are proved against the class of allocators; their witnesses use one that only has static blocks.  For the
    kernel's own heap the class is an instance ([TableHeap.kernel_laws], [TableHeap.kernel_memory_laws]): while a block is being
    mapped the tables come from the pool, and the pool never runs dry, because it always has a block for each last-level table
    that the area of the heap still misses.  So the kernel maps the pages of a task with tables that it maps itself
    ([KernelPages.kernel_maps_pages]), and it comes from power-on to the shell ([PowerOn.power_on_spec]).

    ** Fuel

    [KHeap] takes as much fuel as there are blocks, [Tasks.getNext] twice the greatest identifier,
    [Fs.lookup] one round for each link that is followed, [Cpio.readArchive] the length of the archive,
    [Multiboot] one step for each tag and entry, [Dispatch.printStackTrace] one frame
    for each address above the first.  The nesting of [mapPage] is two by a theorem.
    Filling the pool again takes sixteen steps, the size of the pool, and no more.

    The budget of [PowerOn.power_on_spec] is the 256 blocks whose tables the first table of the heap's area can map: eight are used
    by [initKernelDirectory], sixteen are for the pool, and each page is counted with the three tables that it needs at
    most.  [Linked] has the layout of "linker.ld" with sections of chosen sizes, and the theorem is about that one layout; everything
    else there is evaluated.

    ** Not modelled

    Assembly (the entry stubs, [hlt], the caches of translations), the calls of
    the log, which write to a port and nothing else ([Kmain.log_line_run]), the constants of the linker, the function of [main.cpp]
    that is compiled out, and the tests.  Destructors that only free memory
    of the heap are modelled where the freed object is part of a component's state. *)

From Stdlib Require Import ZArith Lia.
From stdpp Require Export base tactics option list strings numbers gmap.

#[export] Set Default Goal Selector "!".
#[global] Open Scope Z_scope.

(** ** Outcomes of kernel code

    The kernel has no exceptions.  An [assert] that fails calls [assert_fail],
    which ends in [PANIC]; [PANIC] masks the interrupts and halts the CPU.  Both
    are values here, so that a theorem can say which one happens.  [Undefined]
    marks the C++ operations that have no defined outcome (a null or dangling
    pointer, an index out of range), and [OutOfFuel] a recursion that used up
    the fuel of its model. *)
Inductive failure : Type :=
  | AssertionFailed (condition : string)
  | Panicked (message : string)
  | Undefined (what : string)
  | OutOfFuel.

#[export] Instance failure_eq_dec : EqDecision failure.
Proof. solve_decision. Defined.

Inductive result (A : Type) : Type :=
  | Ok (a : A)
  | Err (e : failure).
Arguments Ok {A} a.
Arguments Err {A} e.

#[export] Instance result_ret : MRet result := fun A a => Ok a.
#[export] Instance result_bind : MBind result :=
  fun A B f m => match m with Ok a => f a | Err e => Err e end.
#[export] Instance result_fmap : FMap result :=
  fun A B f m => match m with Ok a => Ok (f a) | Err e => Err e end.

Definition is_ok {A} (r : result A) : bool :=
  match r with Ok _ => true | Err _ => false end.

(** ** Stateful code: a state and error monad *)
Definition ST (S A : Type) : Type := S -> result (A * S).

#[export] Instance ST_ret S : MRet (ST S) := fun A a s => Ok (a, s).
#[export] Instance ST_bind S : MBind (ST S) :=
  fun A B f m s => match m s with Ok (a, s') => f a s' | Err e => Err e end.

Section operations.
Context {S : Type}.

Definition fail {A} (e : failure) : ST S A := fun _ => Err e.
Definition read_state : ST S S := fun s => Ok (s, s).
Definition modify (f : S -> S) : ST S unit := fun s => Ok (tt, f s).
Definition gets {A} (f : S -> A) : ST S A := fun s => Ok (f s, s).
(** [assert(condition)] *)
Definition assertion (b : bool) (condition : string) : ST S unit :=
  fun s => if b then Ok (tt, s) else Err (AssertionFailed condition).
(** [PANIC(message)] *)
Definition panic {A} (message : string) : ST S A := fail (Panicked message).
Definition lift_result {A} (r : result A) : ST S A :=
  fun s => match r with Ok a => Ok (a, s) | Err e => Err e end.
Definition from_option {A} (o : option A) (e : failure) : ST S A :=
  fun s => match o with Some a => Ok (a, s) | None => Err e end.

(** [for (x : l) body(x)] *)
Fixpoint for_each {A} (l : list A) (body : A -> ST S unit) : ST S unit :=
  match l with
  | [] => mret tt
  | x :: l' => body x ;; for_each l' body
  end.
End operations.

(** Code that runs on a part [T] of the state [S]. *)
Definition zoom {S T A} (get : S -> T) (set : T -> S -> S) (m : ST T A) : ST S A :=
  fun s => match m (get s) with
           | Ok (a, t) => Ok (a, set t s)
           | Err e => Err e
           end.

(** ** Total correctness: [Runs m s Q]: [m] run from [s] succeeds, and the value and
    the final state satisfy [Q]. *)
Definition Runs {S A} (m : ST S A) (s : S) (Q : A -> S -> Prop) : Prop :=
  match m s with Ok (a, s') => Q a s' | Err _ => False end.

(** [Fails m s e]: [m] run from [s] ends in the failure [e]. *)
Definition Fails {S A} (m : ST S A) (s : S) (e : failure) : Prop := m s = Err e.

(** Partial correctness: [Safe m s Q] holds of a run that fails too. *)
Definition Holds {S A} (m : ST S A) (s : S) (Q : A -> S -> Prop) : Prop :=
  match m s with Ok (a, s') => Q a s' | Err _ => True end.

Section runs_lemmas.
Context {S : Type}.
Implicit Types s : S.

Lemma Runs_ok {A} (m : ST S A) s Q :
  Runs m s Q <-> exists a s', m s = Ok (a, s') /\ Q a s'.
Proof.
  unfold Runs. destruct (m s) as [[a s']|e]; split.
  - eauto.
  - intros (a' & s'' & [= -> ->] & H); exact H.
  - intros [].
  - intros (a' & s'' & H & _); discriminate.
Qed.

Lemma Runs_bind {A B} (m : ST S A) (k : A -> ST S B) s Q :
  Runs m s (fun a s' => Runs (k a) s' Q) -> Runs (m ≫= k) s Q.
Proof. unfold Runs, mbind, ST_bind. by destruct (m s) as [[]|]. Qed.

Lemma Runs_mono {A} (m : ST S A) s (P Q : A -> S -> Prop) :
  Runs m s P -> (forall a s', P a s' -> Q a s') -> Runs m s Q.
Proof. unfold Runs. destruct (m s) as [[]|]; auto. Qed.

Lemma Runs_ret {A} (a : A) s (Q : A -> S -> Prop) : Q a s -> Runs (mret a) s Q.
Proof. done. Qed.

Lemma Runs_read s (Q : S -> S -> Prop) : Q s s -> Runs read_state s Q.
Proof. done. Qed.

Lemma Runs_gets {A} (f : S -> A) s (Q : A -> S -> Prop) : Q (f s) s -> Runs (gets f) s Q.
Proof. done. Qed.

Lemma Runs_modify f s (Q : unit -> S -> Prop) : Q tt (f s) -> Runs (modify f) s Q.
Proof. done. Qed.

Lemma Runs_assertion b c s (Q : unit -> S -> Prop) :
  b = true -> Q tt s -> Runs (assertion b c) s Q.
Proof. by intros ->. Qed.

Lemma Runs_from_option {A} (o : option A) (a : A) e s (Q : A -> S -> Prop) :
  o = Some a -> Q a s -> Runs (from_option o e) s Q.
Proof. by intros ->. Qed.

Lemma Runs_of_ok {A} (m : ST S A) s a s' (Q : A -> S -> Prop) :
  m s = Ok (a, s') -> Q a s' -> Runs m s Q.
Proof. unfold Runs. by intros ->. Qed.

Lemma Runs_zoom {T A} (get : S -> T) (set : T -> S -> S) (m : ST T A) s (Q : A -> S -> Prop) :
  Runs m (get s) (fun a t => Q a (set t s)) -> Runs (zoom get set m) s Q.
Proof. unfold Runs, zoom. by destruct (m (get s)) as [[]|]. Qed.

(** A loop with an invariant on the state and the elements still to come. *)
Lemma Runs_for_each {A} (I : list A -> S -> Prop) (body : A -> ST S unit) l s
    (Q : unit -> S -> Prop) :
  I l s ->
  (forall x l' s, I (x :: l') s -> Runs (body x) s (fun _ => I l')) ->
  (forall s, I [] s -> Q tt s) ->
  Runs (for_each l body) s Q.
Proof.
  intros HI Hstep Hend. revert s HI. induction l as [|x l' IH]; intros s HI.
  - by apply Hend.
  - apply Runs_bind. eapply Runs_mono; [by apply Hstep|]. intros [] s2. apply IH.
Qed.

Lemma Holds_bind {A B} (m : ST S A) (k : A -> ST S B) s Q :
  Holds m s (fun a s' => Holds (k a) s' Q) -> Holds (m ≫= k) s Q.
Proof. unfold Holds, mbind, ST_bind. by destruct (m s) as [[]|]. Qed.

Lemma Holds_mono {A} (m : ST S A) s (P Q : A -> S -> Prop) :
  Holds m s P -> (forall a s', P a s' -> Q a s') -> Holds m s Q.
Proof. unfold Holds. destruct (m s) as [[]|]; auto. Qed.

Lemma Holds_then {A B} (m : ST S A) (k : A -> ST S B) s Q : (forall a s', Holds (k a) s' Q) -> Holds (m ≫= k) s Q.
Proof. unfold Holds, mbind, ST_bind. intros H. destruct (m s) as [[a s']|]; [apply H|done]. Qed.

Lemma Holds_assert {B} b c (k : unit -> ST S B) s Q : (b = true -> Holds (k tt) s Q) -> Holds (assertion b c ≫= k) s Q.
Proof. intros H. destruct b; [by apply H|done]. Qed.

Lemma Holds_zoom {T A} (get : S -> T) (set : T -> S -> S) (m : ST T A) s (P : A -> Prop) :
  Holds m (get s) (fun a _ => P a) -> Holds (zoom get set m) s (fun a _ => P a).
Proof. unfold Holds, zoom. by destruct (m (get s)) as [[]|]. Qed.

Lemma Holds_ok {A} (m : ST S A) s a s' (P : A -> Prop) : Holds m s (fun a _ => P a) -> m s = Ok (a, s') -> P a.
Proof. unfold Holds. intros H E. by rewrite E in H. Qed.

Lemma Runs_Holds {A} (m : ST S A) s Q : Runs m s Q -> Holds m s Q.
Proof. unfold Runs, Holds. by destruct (m s) as [[]|]. Qed.

Lemma Runs_and {A} (m : ST S A) s Q P : Runs m s Q -> Holds m s P -> Runs m s (fun a s' => Q a s' /\ P a s').
Proof. unfold Runs, Holds. by destruct (m s) as [[]|]. Qed.

Lemma bind_ok {A B} (m : ST S A) (k : A -> ST S B) s b s2 :
  (m ≫= k) s = Ok (b, s2) <-> exists a s1, m s = Ok (a, s1) /\ k a s1 = Ok (b, s2).
Proof.
  unfold mbind, ST_bind. destruct (m s) as [[a s1]|e]; split.
  - eauto.
  - by intros (? & ? & [= <- <-] & ?).
  - discriminate.
  - by intros (? & ? & ? & ?).
Qed.

Lemma bind_run {A B} (m : ST S A) (k : A -> ST S B) s a s1 :
  m s = Ok (a, s1) -> (m ≫= k) s = k a s1.
Proof. unfold mbind, ST_bind. by intros ->. Qed.

Lemma bind_fail {A B} (m : ST S A) (k : A -> ST S B) s e :
  m s = Err e -> (m ≫= k) s = Err e.
Proof. unfold mbind, ST_bind. by intros ->. Qed.

Lemma bind_read {B} (k : S -> ST S B) s : (read_state ≫= k) s = k s s.
Proof. done. Qed.

Lemma bind_assertion {B} b c (k : unit -> ST S B) s :
  b = true -> (assertion b c ≫= k) s = k tt s.
Proof. by intros ->. Qed.

Lemma bind_modify {B} f (k : unit -> ST S B) s : (modify f ≫= k) s = k tt (f s).
Proof. done. Qed.
End runs_lemmas.

(** ** Runs that end: [Ends m s Q]: [m] run from [s] does not lack fuel, and when it succeeds the value and
    the state satisfy [Q] *)
Definition Ends {S A} (m : ST S A) (s : S) (Q : A -> S -> Prop) : Prop :=
  match m s with Ok (a, s') => Q a s' | Err e => e <> OutOfFuel end.

Section ends_lemmas.
Context {S : Type}.
Implicit Types s : S.

Lemma Ends_bind {A B} (m : ST S A) (k : A -> ST S B) s Q :
  Ends m s (fun a s' => Ends (k a) s' Q) -> Ends (m ≫= k) s Q.
Proof. unfold Ends, mbind, ST_bind. by destruct (m s) as [[]|]. Qed.

Lemma Ends_mono {A} (m : ST S A) s (P Q : A -> S -> Prop) :
  Ends m s P -> (forall a s', P a s' -> Q a s') -> Ends m s Q.
Proof. unfold Ends. destruct (m s) as [[]|]; auto. Qed.

Lemma Ends_ret {A} (a : A) s Q : Q a s -> Ends (mret a) s Q.
Proof. done. Qed.
Lemma Ends_read s (Q : S -> S -> Prop) : Q s s -> Ends read_state s Q.
Proof. done. Qed.
Lemma Ends_gets {A} (f : S -> A) s (Q : A -> S -> Prop) : Q (f s) s -> Ends (gets f) s Q.
Proof. done. Qed.
Lemma Ends_modify f s (Q : unit -> S -> Prop) : Q tt (f s) -> Ends (modify f) s Q.
Proof. done. Qed.
Lemma Ends_fail {A} e s (Q : A -> S -> Prop) : e <> OutOfFuel -> Ends (fail e) s Q.
Proof. done. Qed.
Lemma Ends_assertion b c s (Q : unit -> S -> Prop) : Q tt s -> Ends (assertion b c) s Q.
Proof. unfold Ends, assertion. by destruct b. Qed.
Lemma Ends_from_option {A} (o : option A) e s (Q : A -> S -> Prop) :
  e <> OutOfFuel -> (forall a, Q a s) -> Ends (from_option o e) s Q.
Proof. unfold Ends, from_option. by destruct o. Qed.
Lemma Ends_zoom {T A} (get : S -> T) (set : T -> S -> S) (m : ST T A) s (Q : A -> S -> Prop) :
  Ends m (get s) (fun a t => Q a (set t s)) -> Ends (zoom get set m) s Q.
Proof. unfold Ends, zoom. by destruct (m (get s)) as [[]|]. Qed.
End ends_lemmas.

(** [ends_step] advances an [Ends] goal over the next primitive operation. *)
Ltac ends_step :=
  lazymatch goal with
  | |- Ends (_ ≫= _) _ _ => apply Ends_bind
  | |- Ends (mret _) _ _ => apply Ends_ret
  | |- Ends read_state _ _ => apply Ends_read
  | |- Ends (gets _) _ _ => apply Ends_gets
  | |- Ends (modify _) _ _ => apply Ends_modify
  | |- Ends (fail _) _ _ => apply Ends_fail; [discriminate]
  | |- Ends (assertion _ _) _ _ => apply Ends_assertion
  | |- Ends (from_option _ _) _ _ => apply Ends_from_option; [discriminate|intros ?]
  | |- Ends (zoom _ _ _) _ _ => apply Ends_zoom
  | |- Ends (if ?b then _ else _) _ _ => destruct b
  | |- Ends (match ?o with Some _ => _ | None => _ end) _ _ => destruct o
  end; cbn beta.
Ltac ends_steps := repeat ends_step.

(** ** Automation

    [run_step] advances a [Runs] goal over the next primitive operation, and
    [run_steps] repeats it, leaving the assertions' conditions and the calls of the
    components' operations, for which the component gives its own [Runs] lemmas. *)
Create HintDb kernel discriminated.
#[export] Hint Resolve Runs_ret Runs_read : kernel.

Ltac run_step :=
  lazymatch goal with
  | |- Runs (_ ≫= _) _ _ => apply Runs_bind
  | |- Runs (mret _) _ _ => apply Runs_ret
  | |- Runs (fun s => Ok (_, s)) _ _ => apply Runs_ret
  | |- Runs read_state _ _ => apply Runs_read
  | |- Runs (gets _) _ _ => apply Runs_gets
  | |- Runs (modify _) _ _ => apply Runs_modify
  | |- Runs (assertion _ _) _ _ => apply Runs_assertion
  | |- Runs (from_option _ _) _ _ => eapply Runs_from_option
  end; cbn beta.
Ltac run_steps := repeat run_step.

(** [ok_inv H] takes apart the equation of a successful run. *)
Ltac ok_inv H :=
  lazymatch type of H with
  | (_ ≫= _) _ = Ok (_, _) =>
      let a := fresh "a" in let s := fresh "s" in let H1 := fresh "Hrun" in
      apply bind_ok in H as (a & s & H1 & H); ok_inv H1; ok_inv H
  | Ok _ = Ok _ => injection H as ?; subst
  | Err _ = Ok _ => discriminate H
  | _ => idtac
  end.

(** Case analysis on the boolean comparisons of the code. *)
Ltac bcases :=
  repeat match goal with
  | H : context [(?x <? ?y)%Z] |- _ => destruct (Z.ltb_spec x y)
  | H : context [(?x <=? ?y)%Z] |- _ => destruct (Z.leb_spec x y)
  | H : context [(?x =? ?y)%Z] |- _ => destruct (Z.eqb_spec x y)
  | |- context [(?x <? ?y)%Z] => destruct (Z.ltb_spec x y)
  | |- context [(?x <=? ?y)%Z] => destruct (Z.leb_spec x y)
  | |- context [(?x =? ?y)%Z] => destruct (Z.eqb_spec x y)
  end.

(** ** Lists *)

(** How many elements of [l] are set. *)
Fixpoint count_true (l : list bool) : Z :=
  match l with
  | [] => 0
  | b :: l' => (if b then 1 else 0) + count_true l'
  end.

Lemma count_true_app l1 l2 : count_true (l1 ++ l2) = count_true l1 + count_true l2.
Proof. induction l1 as [|b l1 IH]; simpl; [done|]. rewrite IH. lia. Qed.

Lemma count_true_bounds l : 0 <= count_true l <= Z.of_nat (length l).
Proof. induction l as [|[] l IH]; simpl; lia. Qed.

Lemma count_true_replicate_false n : count_true (replicate n false) = 0.
Proof. by induction n. Qed.

Lemma count_true_insert (l : list bool) (i : nat) (b c : bool) :
  l !! i = Some b ->
  count_true (<[i := c]> l) = count_true l - (if b then 1 else 0) + (if c then 1 else 0).
Proof.
  revert i. induction l as [|x l IH]; intros [|i] H; simplify_eq/=.
  - lia.
  - apply IH in H. rewrite H. lia.
Qed.

(** The boolean at a position, [false] past the end. *)
Definition nth_bool (l : list bool) (i : Z) : bool :=
  bool_decide (0 <= i) && default false (l !! Z.to_nat i).

Lemma nth_bool_insert (l : list bool) i j b :
  0 <= i < Z.of_nat (length l) ->
  nth_bool (<[Z.to_nat i := b]> l) j = if (i =? j)%Z then b else nth_bool l j.
Proof.
  intros Hi. unfold nth_bool. destruct (Z.eqb_spec i j) as [->|Hne].
  - rewrite bool_decide_true by lia. rewrite list_lookup_insert_eq by lia. done.
  - case_bool_decide; [|done]. rewrite list_lookup_insert_ne by lia. done.
Qed.

Lemma nth_bool_Some l i : nth_bool l i = true <-> 0 <= i /\ l !! Z.to_nat i = Some true.
Proof.
  unfold nth_bool. rewrite andb_true_iff, bool_decide_eq_true.
  destruct (l !! Z.to_nat i) as [[]|]; simpl; intuition congruence.
Qed.

Lemma nth_bool_range l i : nth_bool l i = true -> 0 <= i < Z.of_nat (length l).
Proof. intros [Hi Hl]%nth_bool_Some. apply lookup_lt_Some in Hl. lia. Qed.

Lemma nth_bool_app_false (l : list bool) n i : nth_bool (l ++ replicate n false) i = nth_bool l i.
Proof.
  unfold nth_bool. case_bool_decide; [simpl|done].
  destruct (decide (Z.to_nat i < length l)%nat) as [Hlt|Hge].
  - by rewrite lookup_app_l.
  - rewrite lookup_app_r by lia. rewrite (lookup_ge_None_2 l) by lia.
    destruct (replicate n false !! _) as [b|] eqn:E; [|done].
    apply lookup_replicate in E as [-> _]. done.
Qed.

(** [find_clear l i]: the first position of a clear element of [l], counted from [i]. *)
Fixpoint find_clear (l : list bool) (i : Z) : option Z :=
  match l with
  | [] => None
  | b :: l' => if b then find_clear l' (i + 1) else Some i
  end.

Lemma find_clear_Some l i j :
  find_clear l i = Some j ->
  i <= j < i + Z.of_nat (length l) /\ l !! Z.to_nat (j - i) = Some false /\
  (forall k, i <= k < j -> l !! Z.to_nat (k - i) = Some true).
Proof.
  revert i. induction l as [|[] l IH]; intros i H; simplify_eq/=.
  - apply IH in H as (Hr & Hj & Hk). split_and!; [lia|lia| |].
    + replace (Z.to_nat (j - i)) with (S (Z.to_nat (j - (i + 1)))) by lia. done.
    + intros k Hki. destruct (decide (k = i)) as [->|].
      * by rewrite Z.sub_diag.
      * replace (Z.to_nat (k - i)) with (S (Z.to_nat (k - (i + 1)))) by lia.
        apply Hk. lia.
  - rewrite Z.sub_diag. split_and!; [lia|lia|done|]. intros; lia.
Qed.

Lemma find_clear_None l i k :
  find_clear l i = None -> i <= k < i + Z.of_nat (length l) ->
  l !! Z.to_nat (k - i) = Some true.
Proof.
  revert i. induction l as [|[] l IH]; intros i H Hk; simplify_eq/=; [lia|].
  destruct (decide (k = i)) as [->|].
  - by rewrite Z.sub_diag.
  - replace (Z.to_nat (k - i)) with (S (Z.to_nat (k - (i + 1)))) by lia.
    apply IH; [done|lia].
Qed.

(** ** Programs that do the same from the states of [P], and end in those of [Q] *)
Definition agree {S A} (P Q : S -> Prop) (m1 m2 : ST S A) : Prop :=
  forall s, P s -> m1 s = m2 s /\ (forall a s', m1 s = Ok (a, s') -> Q s').

Section agree_lemmas.
Context {S : Type} (P : S -> Prop).

Lemma agree_bind {A B} (R Q : S -> Prop) (m1 m2 : ST S A) (k1 k2 : A -> ST S B) :
  agree P R m1 m2 -> (forall a, agree R Q (k1 a) (k2 a)) -> agree P Q (m1 ≫= k1) (m2 ≫= k2).
Proof.
  intros Hm Hk s Hs. destruct (Hm s Hs) as [E HP]. unfold mbind, ST_bind. rewrite <- E.
  destruct (m1 s) as [[a s']|e]; [|done]. apply (Hk a s'). by apply (HP a s').
Qed.

Lemma agree_read_bind {B} (Q : S -> Prop) (k1 k2 : S -> ST S B) :
  (forall s, P s -> agree (eq s) Q (k1 s) (k2 s)) ->
  agree P Q (read_state ≫= k1) (read_state ≫= k2).
Proof. intros Hk s Hs. by apply (Hk s Hs). Qed.

Lemma agree_refl {A} (m : ST S A) :
  (forall s a s', P s -> m s = Ok (a, s') -> P s') -> agree P P m m.
Proof. intros Hm s Hs. split; [done|]. intros a s'. by apply Hm. Qed.

(** A program that leaves the state alone. *)
Lemma agree_same {A} (m : ST S A) : (forall s a s', m s = Ok (a, s') -> s' = s) -> agree P P m m.
Proof. intros Hm. apply agree_refl. intros s a s' Hs E. by rewrite (Hm _ _ _ E). Qed.

Lemma agree_ret {A} (a : A) : agree P P (mret a) (mret a).
Proof. by apply agree_refl; intros s a' s' Hs [= _ <-]. Qed.
Lemma agree_read : agree P P read_state read_state.
Proof. by apply agree_refl; intros s a' s' Hs [= _ <-]. Qed.
Lemma agree_gets {A} (f : S -> A) : agree P P (gets f) (gets f).
Proof. by apply agree_refl; intros s a' s' Hs [= _ <-]. Qed.
Lemma agree_fail {A} e : agree P P (@fail S A e) (fail e).
Proof. by apply agree_refl; intros s a' s' Hs [=]. Qed.
Lemma agree_assertion b c : agree P P (assertion b c) (assertion b c).
Proof. apply agree_refl. intros s a s' Hs. unfold assertion. by destruct b; intros [= _ <-]. Qed.
Lemma agree_from_option {A} (o : option A) e : agree P P (from_option o e) (from_option o e).
Proof. apply agree_refl. intros s a s' Hs. unfold from_option. by destruct o; intros [= _ <-]. Qed.
Lemma agree_modify f : (forall s, P s -> P (f s)) -> agree P P (modify f) (modify f).
Proof. intros Hf. apply agree_refl. intros s a s' Hs [= _ <-]. by apply Hf. Qed.
Lemma agree_for_each {A} (l : list A) (f1 f2 : A -> ST S unit) :
  (forall x, agree P P (f1 x) (f2 x)) -> agree P P (for_each l f1) (for_each l f2).
Proof.
  intros Hf. induction l as [|x l IH]; [apply agree_ret|]. by apply (agree_bind P P); [apply Hf|].
Qed.

(** A program on a part of the state that [P] does not constrain. *)
Lemma agree_zoom {T A} get set (m : ST T A) :
  (forall s t, P s -> P (set t s)) -> agree P P (zoom get set m) (zoom get set m).
Proof.
  intros HP. apply agree_refl. intros s a s' Hs. unfold zoom.
  destruct (m (get s)) as [[b t]|]; intros [= _ <-]. by apply HP.
Qed.
End agree_lemmas.

Create HintDb agree discriminated.
#[export] Hint Resolve agree_ret agree_read agree_gets agree_fail agree_assertion
  agree_from_option agree_modify agree_for_each agree_zoom : agree.

(** Goes through two programs in parallel. *)
Ltac agree_step :=
  lazymatch goal with
  | |- agree ?P ?P (_ ≫= _) (_ ≫= _) => apply (agree_bind P P); [|intros ?]
  | |- agree _ _ (if ?b then _ else _) (if ?b then _ else _) => destruct b eqn:?
  | |- agree _ _ (match ?o with Some _ => _ | None => _ end) _ => destruct o eqn:?
  | |- agree _ _ (panic _) (panic _) => apply agree_fail
  | |- agree _ _ _ _ => solve [auto with agree]
  end.
Ltac agree_steps := repeat agree_step.
