(* ===== verification/Words.v ===== *)
(** * Machine words, the constants of [Types.hpp] and the helpers of [Util.hpp]

    A [w]-bit unsigned integer is a [Z] in [[0, 2^w)], kept there by [wrap w].  A
    signed integer is a [Z] in [[-2^(w-1), 2^(w-1))], kept there by [wrap_signed w].
    Pointers are 64-bit unsigned integers. *)

From Stdlib Require Import ZArith Lia.
From S2P Require Import Prelude.

Definition wrap (w : Z) (z : Z) : Z := z mod 2 ^ w.
Definition wrap_signed (w : Z) (z : Z) : Z :=
  (z + 2 ^ (w - 1)) mod 2 ^ w - 2 ^ (w - 1).

Abbreviation u8 := (wrap 8).
Abbreviation u16 := (wrap 16).
Abbreviation u32 := (wrap 32).
Abbreviation u64 := (wrap 64).

Definition in_word (w z : Z) : Prop := 0 <= z < 2 ^ w.

Section words.
Implicit Types w z : Z.

Lemma wrap_range w z : 0 <= w -> in_word w (wrap w z).
Proof. intros Hw. apply Z.mod_pos_bound. by apply Z.pow_pos_nonneg. Qed.

Lemma wrap_small w z : in_word w z -> wrap w z = z.
Proof. apply Z.mod_small. Qed.

Lemma wrap_wrap w z : 0 <= w -> wrap w (wrap w z) = wrap w z.
Proof. intros. by apply wrap_small, wrap_range. Qed.

Lemma wrap_ones w z : 0 <= w -> wrap w z = Z.land z (Z.ones w).
Proof. intros. unfold wrap. by rewrite Z.land_ones. Qed.

Lemma wrap_add_l w a b : wrap w (wrap w a + b) = wrap w (a + b).
Proof. apply Zplus_mod_idemp_l. Qed.

Lemma wrap_add_r w a b : wrap w (a + wrap w b) = wrap w (a + b).
Proof. apply Zplus_mod_idemp_r. Qed.

Lemma wrap_testbit w z i :
  0 <= w -> 0 <= i -> Z.testbit (wrap w z) i = (i <? w) && Z.testbit z i.
Proof. intros. apply Z.testbit_mod_pow2; lia. Qed.

Lemma wrap_signed_small w z :
  0 < w -> - 2 ^ (w - 1) <= z < 2 ^ (w - 1) -> wrap_signed w z = z.
Proof.
  intros Hw Hz. unfold wrap_signed. rewrite Z.mod_small; [lia|].
  assert (2 ^ w = 2 * 2 ^ (w - 1)) by (rewrite <- Z.pow_succ_r by lia; f_equal; lia).
  lia.
Qed.

(** Clearing the low [k] bits rounds down to a multiple of [2^k]. *)
Lemma ldiff_ones_mul a k : 0 <= k -> Z.ldiff a (Z.ones k) = 2 ^ k * (a / 2 ^ k).
Proof.
  intros. rewrite Z.ldiff_ones_r, Z.shiftl_mul_pow2, Z.shiftr_div_pow2 by done. lia.
Qed.

Lemma land_wrap_lnot w a b :
  0 <= w -> in_word w a -> Z.land a (wrap w (Z.lnot b)) = Z.ldiff a b.
Proof.
  intros Hw Ha. rewrite <- (wrap_small w a) by done. apply Z.bits_inj'. intros i Hi.
  rewrite Z.land_spec, Z.ldiff_spec, !wrap_testbit, Z.lnot_spec by lia.
  destruct (i <? w), (Z.testbit a i), (Z.testbit b i); done.
Qed.
End words.

(** Closes a goal [wrap w z = z] or rewrites with it, for constant [w]. *)
Ltac word_small := rewrite ?wrap_small by (unfold in_word; lia).

(** ** [Types.hpp] *)
Definition LOG_PAGE_SIZE : Z := 12.
Definition PAGE_SIZE : Z := Z.shiftl 1 LOG_PAGE_SIZE.
Definition VIRT_ADDRESS_BITS : Z := 48.
Definition VIRT_ADDRESS_MASK : Z := u64 (Z.shiftl 1 VIRT_ADDRESS_BITS - 1).
Definition PHYS_ADDRESS_BITS : Z := 52.
Definition PHYS_ADDRESS_MASK : Z := u64 (Z.shiftl 1 PHYS_ADDRESS_BITS - 1).
Definition INVALID_PAGE : Z :=
  Z.shiftr (Z.land (u64 (-1)) PHYS_ADDRESS_MASK) LOG_PAGE_SIZE.
Definition INVALID_PHYS : Z := u64 (Z.shiftl INVALID_PAGE LOG_PAGE_SIZE).

Lemma PAGE_SIZE_eq : PAGE_SIZE = 4096.
Proof. done. Qed.
Lemma INVALID_PAGE_eq : INVALID_PAGE = 2 ^ 40 - 1.
Proof. done. Qed.
Lemma INVALID_PHYS_eq : INVALID_PHYS = 2 ^ 52 - 2 ^ 12.
Proof. done. Qed.

(** ** [Util.hpp]: pointer and alignment helpers *)

(** [ptrAdd(ptr, val)]: a byte offset, whatever the pointer's type. *)
Definition ptrAdd (ptr val : Z) : Z := u64 (ptr + val).

(** [ptrDiff(ptr1, ptr2)] *)
Definition ptrDiff (ptr1 ptr2 : Z) : Z := u64 (ptr1 - ptr2).

(** [intAlignSup<T>(base, val)] for an unsigned [T] of [w] bits; [val] is a [uint32_t],
    so [val-1] is computed in 32 bits before the cast to [T], while the sum
    [base + val-1] is computed in [T]. *)
Definition intAlignSup (w base val : Z) : Z :=
  Z.land (wrap w (base + val - 1)) (wrap w (Z.lnot (wrap w (u32 (val - 1))))).

(** [ptrAlignSup(ptr, val)] *)
Definition ptrAlignSup (ptr val : Z) : Z :=
  Z.land (u64 (ptr + val - 1)) (u64 (Z.lnot (u64 (u32 (val - 1))))).

Lemma ptrAlignSup_int ptr val : ptrAlignSup ptr val = intAlignSup 64 ptr val.
Proof. done. Qed.

(** The documented meaning: the least multiple of [val] that is at least [base]. *)
Lemma intAlignSup_spec w base k :
  0 <= k <= 31 -> k < w -> 0 <= base -> base + 2 ^ k - 1 < 2 ^ w ->
  intAlignSup w base (2 ^ k) = 2 ^ k * ((base + 2 ^ k - 1) / 2 ^ k).
Proof.
  intros Hk Hw Hb Hlt. assert (0 < 2 ^ k) by (apply Z.pow_pos_nonneg; lia).
  assert (2 ^ k <= 2 ^ 31) by (apply Z.pow_le_mono_r; lia).
  assert (2 ^ k <= 2 ^ w) by (apply Z.pow_le_mono_r; lia).
  unfold intAlignSup. rewrite (wrap_small 32) by (unfold in_word; lia).
  rewrite (wrap_small w (2 ^ k - 1)) by (unfold in_word; lia).
  rewrite (wrap_small w (_ - 1)) by (unfold in_word; lia).
  rewrite land_wrap_lnot by (unfold in_word; lia).
  replace (2 ^ k - 1) with (Z.ones k) by (rewrite Z.ones_equiv; lia).
  by rewrite ldiff_ones_mul by lia.
Qed.

Lemma intAlignSup_bounds w base k :
  0 <= k <= 31 -> k < w -> 0 <= base -> base + 2 ^ k - 1 < 2 ^ w ->
  base <= intAlignSup w base (2 ^ k) < base + 2 ^ k /\ (2 ^ k | intAlignSup w base (2 ^ k)).
Proof.
  intros Hk Hw Hb Hlt. rewrite intAlignSup_spec by done.
  assert (0 < 2 ^ k) by (apply Z.pow_pos_nonneg; lia).
  split; [|by apply Z.divide_factor_l].
  pose proof (Z.div_mod (base + 2 ^ k - 1) (2 ^ k)).
  pose proof (Z.mod_pos_bound (base + 2 ^ k - 1) (2 ^ k)). lia.
Qed.
