(* ===== verification/Memory.v ===== *)
(** * The physical frame map: [Memory.hpp], [Memory.cpp]

    [Memory] keeps one bit per physical page in a [std::vector<bool>] that grows on
    demand, and a counter of the used pages.  A page past the end of the vector is
    free.  The singleton [Memory::get()] is the state argument of the operations;
    the vector's own storage (on the kernel heap) is not modelled. *)

From Stdlib Require Import ZArith Lia.
From stdpp Require Import list numbers.
From S2P Require Import Prelude Words.

Record Memory : Type := mkMemory {
  frames : list bool;       (** [_frames] *)
  usedPageCount : Z;        (** [_usedPageCount] *)
}.

Definition frames_size (m : Memory) : Z := Z.of_nat (length (frames m)).

(** [_frames.resize(size, false)] *)
Definition resize_frames (size : Z) (m : Memory) : Memory :=
  mkMemory (resize (Z.to_nat size) false (frames m)) (usedPageCount m).

Definition getUsedPageCount : ST Memory Z := gets usedPageCount.

Definition setPageFree (page : Z) : ST Memory unit :=
  m ← read_state;
  assertion (page <? frames_size m) "_frames.size() > page" ;;
  assertion (nth_bool (frames m) page) "_frames[page]" ;;
  modify (fun m => mkMemory (<[Z.to_nat page := false]> (frames m))
                            (u64 (usedPageCount m - 1))).

Definition setPageUsed (page : Z) : ST Memory unit :=
  m ← read_state;
  (if frames_size m <=? page
   then modify (resize_frames (intAlignSup 64 (u64 (page + 1)) 16))
   else mret tt) ;;
  m ← read_state;
  assertion (page <? frames_size m) "_frames.size() > page" ;;
  assertion (negb (nth_bool (frames m) page)) "!_frames[page]" ;;
  modify (fun m => mkMemory (<[Z.to_nat page := true]> (frames m))
                            (u64 (usedPageCount m + 1))).

Definition getFreePage : ST Memory Z :=
  m ← read_state;
  match find_clear (frames m) 0 with
  | Some i => setPageUsed i ;; mret i
  | None =>
      let i := frames_size m in
      modify (resize_frames (u64 (i + 16))) ;;
      setPageUsed i ;;
      mret i
  end.

Definition setRangeUsed (from to : Z) : ST Memory unit :=
  assertion (from <=? to) "from <= to" ;;
  for_each (seqZ from (to - from)) setPageUsed.

Definition completeRangeUsed (from to : Z) : ST Memory unit :=
  assertion (from <=? to) "from <= to" ;;
  for_each (seqZ from (to - from)) (fun page =>
    m ← read_state;
    if (frames_size m <=? page) || negb (nth_bool (frames m) page)
    then setPageUsed page
    else mret tt).

(** ** What the operations mean: the set of used pages *)
Definition used (m : Memory) (page : Z) : bool := nth_bool (frames m) page.

Definition memory_wf (m : Memory) : Prop :=
  usedPageCount m = count_true (frames m) /\ frames_size m < 2 ^ 63.

(** Two maps are equivalent when they say the same of every page; they may differ in
    how far their vectors have grown. *)
#[export] Instance memory_equiv : Equiv Memory :=
  fun m1 m2 => usedPageCount m1 = usedPageCount m2 /\ forall page, used m1 page = used m2 page.

#[export] Instance memory_equivalence : Equivalence (≡@{Memory}).
Proof.
  split.
  - done.
  - intros m1 m2 [Hc Hu]. split; [done|]. intros p. by rewrite Hu.
  - intros m1 m2 m3 [Hc1 Hu1] [Hc2 Hu2]. split; [congruence|]. intros p. by rewrite Hu1.
Qed.

#[export] Instance used_proper : Proper ((≡) ==> (=) ==> (=)) used.
Proof. intros m1 m2 [_ Hu] p ? <-. apply Hu. Qed.

(** The vector seen as padded with clear bits. *)
Lemma resize_grow (l : list bool) n :
  (length l <= n)%nat -> resize n false l = l ++ replicate (n - length l) false.
Proof. intros. by rewrite resize_ge. Qed.

Section memory_lemmas.
Implicit Types m : Memory.

Lemma frames_size_nonneg m : 0 <= frames_size m.
Proof. unfold frames_size. lia. Qed.

Lemma used_range m page : used m page = true -> 0 <= page < frames_size m.
Proof. apply nth_bool_range. Qed.

Lemma used_resize m n page :
  frames_size m <= n -> used (resize_frames n m) page = used m page.
Proof.
  unfold used, frames_size. intros. simpl. rewrite resize_grow by lia.
  apply nth_bool_app_false.
Qed.

Lemma frames_size_resize m n : 0 <= n -> frames_size (resize_frames n m) = n.
Proof. intros. unfold frames_size. simpl. rewrite length_resize. lia. Qed.

Lemma count_resize m n :
  frames_size m <= n -> count_true (frames (resize_frames n m)) = count_true (frames m).
Proof.
  unfold frames_size. intros. simpl. rewrite resize_grow by lia.
  by rewrite count_true_app, count_true_replicate_false, Z.add_0_r.
Qed.

Lemma used_insert m (page : Z) (b : bool) c p :
  0 <= page < frames_size m ->
  used (mkMemory (<[Z.to_nat page := b]> (frames m)) c) p
  = if page =? p then b else used m p.
Proof. intros. unfold used. simpl. by rewrite nth_bool_insert. Qed.

Lemma count_insert m (page : Z) (b : bool) :
  0 <= page < frames_size m ->
  count_true (<[Z.to_nat page := b]> (frames m))
  = count_true (frames m) - (if used m page then 1 else 0) + (if b then 1 else 0).
Proof.
  intros H. unfold frames_size in H.
  destruct (lookup_lt_is_Some_2 (frames m) (Z.to_nat page)) as [x Hx]; [lia|].
  erewrite count_true_insert by done. unfold used, nth_bool.
  rewrite bool_decide_true, Hx by lia. done.
Qed.

Lemma frames_size_insert m (page : Z) (b : bool) c :
  frames_size (mkMemory (<[Z.to_nat page := b]> (frames m)) c) = frames_size m.
Proof. unfold frames_size. simpl. by rewrite length_insert. Qed.

Lemma memory_wf_count m : memory_wf m -> 0 <= usedPageCount m < 2 ^ 63.
Proof.
  intros [-> H]. pose proof (count_true_bounds (frames m)). unfold frames_size in H. lia.
Qed.
End memory_lemmas.

(** The vector's size after [setPageUsed] has made room for [page]. *)
Definition grown (m : Memory) (page : Z) : Memory :=
  if frames_size m <=? page then resize_frames (intAlignSup 64 (u64 (page + 1)) 16) m else m.

Section operations.
Implicit Types m : Memory.

Lemma align_frames page :
  0 <= page < 2 ^ 62 -> page < intAlignSup 64 (u64 (page + 1)) 16 <= page + 16.
Proof.
  intros. rewrite wrap_small by (unfold in_word; lia). change 16 with (2 ^ 4).
  pose proof (intAlignSup_bounds 64 (page + 1) 4). lia.
Qed.

Lemma grown_spec m page :
  memory_wf m -> 0 <= page < 2 ^ 62 ->
  memory_wf (grown m page) /\ page < frames_size (grown m page) /\
  frames_size m <= frames_size (grown m page) /\
  (forall p, used (grown m page) p = used m p) /\
  usedPageCount (grown m page) = usedPageCount m.
Proof.
  intros [Hc Hs] Hp. unfold grown. pose proof (align_frames page Hp).
  pose proof (frames_size_nonneg m).
  destruct (Z.leb_spec (frames_size m) page) as [Hle|Hgt]; [|done].
  unfold memory_wf. rewrite frames_size_resize, count_resize by lia.
  split_and!; [done|lia|lia|lia| |done].
  intros p. apply used_resize. lia.
Qed.

(** The room that is made is not far beyond the page. *)
Lemma grown_bound m page b : 0 <= page < 2 ^ 62 -> frames_size m <= b -> page + 16 <= b -> frames_size (grown m page) <= b.
Proof.
  intros Hp Hm Hb. unfold grown. pose proof (align_frames page Hp). pose proof (frames_size_nonneg m).
  destruct (_ <=? page); [rewrite frames_size_resize by lia; lia|done].
Qed.

(** [setPageUsed] in one step: room is made, the page's bit is tested and set. *)
Lemma setPageUsed_eq m page :
  memory_wf m -> 0 <= page < 2 ^ 62 ->
  setPageUsed page m =
  (if used m page then Err (AssertionFailed "!_frames[page]")
   else Ok (tt, mkMemory (<[Z.to_nat page := true]> (frames (grown m page)))
                         (u64 (usedPageCount m + 1)))).
Proof.
  intros Hwf Hp. destruct (grown_spec m page Hwf Hp) as (_ & Hlt & _ & Hu & Hc).
  transitivity ((assertion (page <? frames_size (grown m page)) "_frames.size() > page" ;;
    assertion (negb (used (grown m page) page)) "!_frames[page]" ;;
    modify (fun m => mkMemory (<[Z.to_nat page := true]> (frames m))
                              (u64 (usedPageCount m + 1)))) (grown m page)).
  { unfold setPageUsed, grown, used. unfold mbind, ST_bind, read_state. simpl.
    by destruct (frames_size m <=? page). }
  rewrite <- Hc, <- Hu. unfold mbind, ST_bind, assertion. rewrite (proj2 (Z.ltb_lt _ _) Hlt).
  by destruct (used (grown m page) page).
Qed.

Lemma setPageUsed_run m page :
  memory_wf m -> 0 <= page < 2 ^ 62 -> used m page = false ->
  Runs (setPageUsed page) m (fun _ m' =>
    memory_wf m' /\ usedPageCount m' = usedPageCount m + 1 /\
    (forall p, used m' p = (page =? p) || used m p) /\
    frames_size m' = frames_size (grown m page)).
Proof.
  intros Hwf Hp Hu. eapply Runs_of_ok; [rewrite setPageUsed_eq, Hu by done; done|].
  destruct (grown_spec m page Hwf Hp) as ([Hc' Hs'] & Hlt & _ & Hu' & Hc).
  pose proof (memory_wf_count m Hwf).
  rewrite frames_size_insert. split_and!; [split|simpl| |done].
  - simpl. rewrite count_insert, Hu', Hu by lia.
    rewrite wrap_small by (unfold in_word; lia). lia.
  - by rewrite frames_size_insert.
  - apply wrap_small. unfold in_word. lia.
  - intros p. rewrite used_insert by lia. by destruct (page =? p).
Qed.
End operations.

Section theorems.
Implicit Types m : Memory.

Lemma getFreePage_run m :
  memory_wf m -> frames_size m < 2 ^ 62 ->
  Runs getFreePage m (fun page m' =>
    (0 <= page /\ used m page = false /\
     (forall p, 0 <= p < page -> used m p = true) /\
     memory_wf m' /\ usedPageCount m' = usedPageCount m + 1 /\
     (forall p, used m' p = (page =? p) || used m p)) /\
    page <= frames_size m /\ frames_size m' <= frames_size m + 16).
Proof.
  intros Hwf Hs. pose proof (frames_size_nonneg m). unfold getFreePage. run_steps.
  destruct (find_clear (frames m) 0) as [i|] eqn:Hf.
  - apply find_clear_Some in Hf as (Hr & Hi & Hk). rewrite Z.sub_0_r in Hi.
    unfold frames_size in Hs.
    run_steps. eapply Runs_mono; [apply setPageUsed_run; [done|lia|]|].
    { unfold used, nth_bool. rewrite bool_decide_true, Hi by lia. done. }
    intros _ m' (Hwf' & Hc & Hu & Hsz). unfold grown in Hsz.
    rewrite (proj2 (Z.leb_gt _ _)) in Hsz by (unfold frames_size; lia).
    run_steps. split_and!; try done; [lia| | |unfold frames_size; lia|lia].
    + unfold used, nth_bool. rewrite bool_decide_true, Hi by lia. done.
    + intros p Hp. unfold used, nth_bool. rewrite bool_decide_true by lia.
      specialize (Hk p). rewrite Z.sub_0_r in Hk. by rewrite Hk by lia.
  - assert (Hwf' : memory_wf (resize_frames (u64 (frames_size m + 16)) m)).
    { rewrite wrap_small by (unfold in_word; lia). destruct Hwf.
      split; [by rewrite count_resize by lia|rewrite frames_size_resize; lia]. }
    rewrite wrap_small in * by (unfold in_word; lia).
    assert (Hfree : used m (frames_size m) = false).
    { destruct (used m (frames_size m)) eqn:E; [|done]. apply used_range in E. lia. }
    run_steps. eapply Runs_mono.
    { apply setPageUsed_run; [done|lia|by rewrite used_resize by lia]. }
    intros _ m' (Hwf2 & Hc & Hu & Hsz). unfold grown in Hsz.
    rewrite frames_size_resize, (proj2 (Z.leb_gt _ _)), frames_size_resize in Hsz by lia.
    run_steps. split_and!; try (done || lia).
    + intros p Hp. unfold used, nth_bool. rewrite bool_decide_true by lia.
      pose proof (find_clear_None _ _ p Hf) as Hn. unfold frames_size in Hp.
      rewrite Z.sub_0_r in Hn. by rewrite Hn by lia.
    + intros p. rewrite Hu, used_resize by lia. done.
Qed.

(** C21. [getFreePage] always succeeds on a well-formed map: it hands out the lowest free
    page, which becomes used, and no other page changes. *)
Theorem getFreePage_spec m :
  memory_wf m -> frames_size m < 2 ^ 62 ->
  Runs getFreePage m (fun page m' =>
    0 <= page /\ used m page = false /\
    (forall p, 0 <= p < page -> used m p = true) /\
    memory_wf m' /\ usedPageCount m' = usedPageCount m + 1 /\
    (forall p, used m' p = (page =? p) || used m p)).
Proof.
  intros Hwf Hs. eapply Runs_mono; [by apply getFreePage_run|]. by intros page m' [H _].
Qed.

Lemma setPageFree_run m page :
  memory_wf m -> used m page = true ->
  Runs (setPageFree page) m (fun _ m' =>
    memory_wf m' /\ usedPageCount m' = usedPageCount m - 1 /\
    (forall p, used m' p = negb (page =? p) && used m p) /\
    frames_size m' = frames_size m).
Proof.
  intros Hwf Hu. pose proof (used_range _ _ Hu). pose proof (memory_wf_count m Hwf).
  destruct Hwf as [Hc Hs]. pose proof (count_insert m page false) as Hi. rewrite Hu in Hi.
  pose proof (count_true_bounds (<[Z.to_nat page:=false]> (frames m))).
  unfold setPageFree. run_steps; [apply Z.ltb_lt; lia|exact Hu|].
  simpl. rewrite wrap_small by (unfold in_word; lia).
  split_and!; [split; simpl|lia| |].
  - lia.
  - by rewrite frames_size_insert.
  - intros p. rewrite used_insert by lia. by destruct (page =? p).
  - apply frames_size_insert.
Qed.

(** Freeing a used page frees it and nothing else. *)
Theorem setPageFree_spec m page :
  memory_wf m -> used m page = true ->
  Runs (setPageFree page) m (fun _ m' =>
    memory_wf m' /\ usedPageCount m' = usedPageCount m - 1 /\
    (forall p, used m' p = negb (page =? p) && used m p)).
Proof.
  intros Hwf Hu. eapply Runs_mono; [by apply setPageFree_run|]. intros _ m' (? & ? & ? & _).
  done.
Qed.

(** Freeing a page that is not used fails, and names the assertion. *)
Theorem setPageFree_unused m page :
  0 <= page -> used m page = false ->
  Fails (setPageFree page) m
    (AssertionFailed (if page <? frames_size m then "_frames[page]"
                      else "_frames.size() > page")).
Proof.
  intros Hp Hu. unfold used in Hu.
  unfold Fails, setPageFree, mbind, ST_bind, read_state, assertion.
  by destruct (page <? frames_size m); [rewrite Hu|].
Qed.

(** A page cannot be handed out twice: marking a used page fails. *)
Theorem setPageUsed_twice m page :
  memory_wf m -> frames_size m < 2 ^ 62 -> used m page = true ->
  Fails (setPageUsed page) m (AssertionFailed "!_frames[page]").
Proof.
  intros Hwf Hs Hu. pose proof (used_range _ _ Hu). unfold Fails.
  rewrite setPageUsed_eq by (done || lia). by rewrite Hu.
Qed.

(** Taking a free page and giving it back restores the map. *)
Theorem getFreePage_setPageFree m :
  memory_wf m -> frames_size m < 2 ^ 62 ->
  Runs (page ← getFreePage; setPageFree page) m (fun _ m' => m' ≡ m).
Proof.
  intros Hwf Hs. apply Runs_bind. eapply Runs_mono; [by apply getFreePage_run|].
  intros page m1 [(Hp & Hfree & _ & Hwf1 & Hc1 & Hu1) _].
  eapply Runs_mono; [apply setPageFree_run; [done|]|].
  { by rewrite Hu1, Z.eqb_refl. }
  intros _ m2 (_ & Hc2 & Hu2 & _). split; [lia|]. intros p. rewrite Hu2, Hu1.
  destruct (Z.eqb_spec page p) as [<-|]; simpl; [by rewrite Hfree|done].
Qed.

(** The page handed out depends on the set of used pages alone. *)
Theorem getFreePage_proper m1 m2 page1 page2 m1' m2' :
  memory_wf m1 -> memory_wf m2 -> frames_size m1 < 2 ^ 62 -> frames_size m2 < 2 ^ 62 ->
  m1 ≡ m2 ->
  getFreePage m1 = Ok (page1, m1') -> getFreePage m2 = Ok (page2, m2') ->
  page1 = page2 /\ m1' ≡ m2'.
Proof.
  intros Hwf1 Hwf2 Hs1 Hs2 [Hc Hu] H1 H2.
  pose proof (getFreePage_run m1 Hwf1 Hs1) as S1. unfold Runs in S1. rewrite H1 in S1.
  pose proof (getFreePage_run m2 Hwf2 Hs2) as S2. unfold Runs in S2. rewrite H2 in S2.
  destruct S1 as [(Hp1 & Hf1 & Hl1 & _ & Hc1 & Hu1) _].
  destruct S2 as [(Hp2 & Hf2 & Hl2 & _ & Hc2 & Hu2) _].
  assert (page1 = page2) as <-.
  { destruct (Z.lt_total page1 page2) as [Hlt|[->|Hlt]]; [|done|].
    - assert (used m2 page1 = true) by (apply Hl2; lia). rewrite <- Hu in *. congruence.
    - assert (used m1 page2 = true) by (apply Hl1; lia). rewrite Hu in *. congruence. }
  split; [done|]. split; [lia|]. intros p. by rewrite Hu1, Hu2, Hu.
Qed.

Definition in_range (from to p : Z) : bool := (from <=? p) && (p <? to).

(** The loop shared by the two range operations, with the pages done so far. *)
Lemma mark_loop (body : Z -> ST Memory unit) m from to :
  memory_wf m -> 0 <= from <= to -> to <= 2 ^ 62 ->
  (forall page m1, memory_wf m1 -> from <= page < to ->
     (forall p, used m1 p = in_range from page p || used m p) ->
     Runs (body page) m1 (fun _ m2 =>
       memory_wf m2 /\ (forall p, used m2 p = (page =? p) || used m1 p) /\
       frames_size m2 <= Z.max (frames_size m1) (page + 16))) ->
  Runs (for_each (seqZ from (to - from)) body) m (fun _ m' =>
    memory_wf m' /\ (forall p, used m' p = in_range from to p || used m p) /\
    frames_size m' <= Z.max (frames_size m) (to + 16)).
Proof.
  intros Hwf Hft Hto Hbody.
  apply (Runs_for_each (fun l m1 => exists page, from <= page <= to /\
    l = seqZ page (to - page) /\ memory_wf m1 /\
    (forall p, used m1 p = in_range from page p || used m p) /\ frames_size m1 <= Z.max (frames_size m) (to + 16))).
  - exists from. split_and!; try done; [lia| |lia]. intros p. unfold in_range. by bcases; try lia.
  - intros x l' m1 (page & Hp & Hl & Hwf1 & Hu1 & Hs1).
    destruct (decide (page = to)) as [->|]; [by rewrite Z.sub_diag in Hl|].
    rewrite seqZ_cons in Hl by lia. injection Hl as -> ->.
    eapply Runs_mono; [apply Hbody; [done|lia|done]|].
    intros _ m2 (Hwf2 & Hu2 & Hs2). exists (Z.succ page).
    split_and!; [lia|lia|f_equal; lia|done| |lia].
    intros p. rewrite Hu2, Hu1. unfold in_range. by bcases; try lia.
  - intros m1 (page & Hp & Hl & Hwf1 & Hu1 & Hs1). split; [done|].
    destruct (decide (page = to)) as [->|]; [split; done|]. by rewrite seqZ_cons in Hl by lia.
Qed.

(** [setRangeUsed] marks exactly the pages of a range that is free. *)
Theorem setRangeUsed_spec m from to :
  memory_wf m -> 0 <= from <= to -> to <= 2 ^ 62 ->
  (forall p, from <= p < to -> used m p = false) ->
  Runs (setRangeUsed from to) m (fun _ m' =>
    memory_wf m' /\ (forall p, used m' p = in_range from to p || used m p) /\
    frames_size m' <= Z.max (frames_size m) (to + 16)).
Proof.
  intros Hwf Hft Hto Hfree. unfold setRangeUsed. run_steps; [apply Z.leb_le; lia|].
  apply mark_loop; try done. intros page m1 Hwf1 Hp Hu1.
  eapply Runs_mono; [apply setPageUsed_run; [done|lia|]|].
  - rewrite Hu1, Hfree by lia. unfold in_range. bcases; simpl; (done || lia).
  - intros _ m2 (? & _ & ? & ->). split; [done|]. split; [done|]. apply grown_bound; lia.
Qed.

(** [completeRangeUsed] never fails, whatever of the range is used already. *)
Theorem completeRangeUsed_spec m from to :
  memory_wf m -> 0 <= from <= to -> to <= 2 ^ 62 ->
  Runs (completeRangeUsed from to) m (fun _ m' =>
    memory_wf m' /\ (forall p, used m' p = in_range from to p || used m p) /\
    frames_size m' <= Z.max (frames_size m) (to + 16)).
Proof.
  intros Hwf Hft Hto. unfold completeRangeUsed. run_steps; [apply Z.leb_le; lia|].
  apply mark_loop; try done. intros page m1 Hwf1 Hp Hu1. run_steps.
  fold (used m1 page). destruct (used m1 page) eqn:Hx.
  - pose proof (used_range _ _ Hx). rewrite (proj2 (Z.leb_gt _ _)) by lia. simpl.
    run_steps. split; [done|]. split; [|lia]. intros p. by destruct (Z.eqb_spec page p) as [<-|].
  - rewrite orb_true_r. eapply Runs_mono; [apply setPageUsed_run; (done || lia)|].
    intros _ m2 (? & _ & ? & ->). split; [done|]. split; [done|]. apply grown_bound; lia.
Qed.
End theorems.

(** ** The theorems at work *)
Definition small_memory : Memory := mkMemory [true; true; false; true] 3.

Lemma small_memory_wf : memory_wf small_memory /\ frames_size small_memory < 2 ^ 62.
Proof. done. Qed.

Lemma getFreePage_spec_witness :
  Runs getFreePage small_memory (fun page m' =>
    0 <= page /\ used small_memory page = false /\
    (forall p, 0 <= p < page -> used small_memory p = true) /\
    memory_wf m' /\ usedPageCount m' = 3 + 1 /\
    (forall p, used m' p = (page =? p) || used small_memory p)).
Proof. apply (getFreePage_spec small_memory); done. Defined.

Lemma getFreePage_setPageFree_witness :
  Runs (page ← getFreePage; setPageFree page) small_memory (fun _ m' => m' ≡ small_memory).
Proof. apply (getFreePage_setPageFree small_memory); done. Defined.

Lemma setPageUsed_twice_witness :
  Fails (setPageUsed 3) small_memory (AssertionFailed "!_frames[page]").
Proof. apply (setPageUsed_twice small_memory 3); done. Defined.

Lemma completeRangeUsed_spec_witness :
  Runs (completeRangeUsed 1 6) small_memory (fun _ m' =>
    memory_wf m' /\ (forall p, used m' p = in_range 1 6 p || used small_memory p) /\ frames_size m' <= 22).
Proof. apply (completeRangeUsed_spec small_memory 1 6); done. Defined.

Lemma setPageFree_spec_witness :
  Runs (setPageFree 3) small_memory (fun _ m' =>
    memory_wf m' /\ usedPageCount m' = 3 - 1 /\
    (forall p, used m' p = negb (3 =? p) && used small_memory p)).
Proof. apply (setPageFree_spec small_memory 3); done. Defined.

Lemma setRangeUsed_spec_witness :
  Runs (setRangeUsed 4 21) small_memory (fun _ m' =>
    memory_wf m' /\ (forall p, used m' p = in_range 4 21 p || used small_memory p) /\ frames_size m' <= 37).
Proof.
  apply (setRangeUsed_spec small_memory 4 21); [done..|].
  intros p Hp. unfold used, nth_bool. destruct (bool_decide_reflect (0 <= p)) as [|]; [|done].
  by rewrite lookup_ge_None_2 by (simpl; lia).
Defined.
