(* ===== verification/KHeap.v ===== *)
(** * The kernel heap: [KHeap.hpp], [KHeap.cpp]

    The heap is a chain of blocks between [m_heapStart] and [m_heapEnd].  A block is
    a 4-byte header ([KHeap::HeapBlock]) followed by its data; the next block starts
    [getSize()] bytes further on.  The model keeps the headers in a map from
    addresses; [fresh] is what memory that no heap operation has written holds (a
    page that was just mapped is not cleared).  The data bytes are the clients'.

    [m_mutex] is modelled with the other locks, in [Sync]. *)

From Stdlib Require Import ZArith Lia.
From stdpp Require Import list numbers gmap.
From S2P Require Import Prelude Words.

Definition HEADER_SIZE : Z := 4.
Definition BLOCK_ALIGN_SHIFT : Z := 2.
Definition BLOCK_ALIGN : Z := Z.shiftl 1 BLOCK_ALIGN_SHIFT.
Definition BLOCK_MIN_SIZE : Z := HEADER_SIZE + 4.

(** [HeapBlock::State]; [bsizeUpper] is a 30-bit field. *)
Record BlockState : Type := mkBlock {
  bused : bool;
  bavl : bool;
  bsizeUpper : Z;
}.

(** [HeapBlock::getSize]: the 30-bit field is promoted to [int] and shifted. *)
Definition block_getSize (b : BlockState) : Z := u32 (Z.shiftl (bsizeUpper b) BLOCK_ALIGN_SHIFT).
Definition block_setSize (asize : Z) (b : BlockState) : BlockState :=
  mkBlock (bused b) (bavl b) (wrap 30 (Z.shiftr asize BLOCK_ALIGN_SHIFT)).
Definition block_setUsed (u : bool) (b : BlockState) : BlockState :=
  mkBlock u (bavl b) (bsizeUpper b).
(** [HeapBlock::getData] *)
Definition block_getData (block : Z) : Z := u64 (block + HEADER_SIZE).

Record KHeap : Type := mkKHeap {
  heapStart : Z;                  (** [m_heapStart] *)
  heapEnd : Z;                    (** [m_heapEnd] *)
  lastBlock : Z;                  (** [m_lastBlock] *)
  headers : gmap Z BlockState;    (** the memory under the block headers *)
}.

(** What the heap asks of the kernel's page directory: to map a page at the end of
    the heap.  [heap_ready e a] says that the pages from [a] on can be mapped. *)
Class HeapMapper (E : Type) := {
  map_heap_page : Z -> ST E unit;
  heap_ready : E -> Z -> Prop;
  map_heap_page_ok : forall e a,
    heap_ready e a -> Runs (map_heap_page a) e (fun _ e' => heap_ready e' (a + PAGE_SIZE));
}.

Section kheap.
Context {E : Type} `{HeapMapper E} (fresh : Z -> BlockState).

Abbreviation HST := (ST (KHeap * E)).

Definition heap : HST KHeap := gets fst.
Definition modify_heap (f : KHeap -> KHeap) : HST unit := modify (fun '(h, e) => (f h, e)).
Definition with_lastBlock (b : Z) (h : KHeap) : KHeap :=
  mkKHeap (heapStart h) (heapEnd h) b (headers h).
Definition with_heapEnd (a : Z) (h : KHeap) : KHeap :=
  mkKHeap (heapStart h) a (lastBlock h) (headers h).
Definition set_lastBlock (b : Z) : HST unit := modify_heap (with_lastBlock b).
Definition set_heapEnd (a : Z) : HST unit := modify_heap (with_heapEnd a).

Definition header (h : KHeap) (block : Z) : BlockState :=
  default (fresh block) (headers h !! block).
Definition put_header (block : Z) (f : BlockState -> BlockState) (h : KHeap) : KHeap :=
  mkKHeap (heapStart h) (heapEnd h) (lastBlock h)
          (<[block := f (header h block)]> (headers h)).
Definition update_header (block : Z) (f : BlockState -> BlockState) : HST unit :=
  modify_heap (put_header block f).

Definition getSize (block : Z) : HST Z := h ← heap; mret (block_getSize (header h block)).
Definition getUsed (block : Z) : HST bool := h ← heap; mret (bused (header h block)).
Definition setSize (block asize : Z) : HST unit :=
  assertion (asize mod BLOCK_ALIGN =? 0) "asize % BLOCK_ALIGN == 0" ;;
  update_header block (block_setSize asize).
Definition setUsed (block : Z) (u : bool) : HST unit :=
  update_header block (block_setUsed u).

(** [KHeap::init].  The boot code has put the multiboot information, which starts
    with its size, where the first block's data are 8-aligned. *)
Definition init (heapBase mbSize : Z) : HST unit :=
  let initialSize := 2097152 in
  modify_heap (fun h => mkKHeap heapBase (ptrAdd heapBase initialSize)
                                (lastBlock h) (headers h)) ;;
  let blockSize := u32 (intAlignSup 32 mbSize BLOCK_ALIGN + HEADER_SIZE) in
  assertion (BLOCK_MIN_SIZE <? blockSize) "blockSize > BLOCK_MIN_SIZE" ;;
  setSize heapBase blockSize ;;
  setUsed heapBase true ;;
  let block := ptrAdd heapBase blockSize in
  let initialSize := u32 (initialSize - blockSize) in
  setSize block initialSize ;;
  setUsed block false ;;
  set_lastBlock block.

(** [KHeap::splitBlock] *)
Definition splitBlock (block size : Z) : HST (Z * Z) :=
  u ← getUsed block;
  assertion (negb u) "!block->getUsed()" ;;
  fullSize ← getSize block;
  assertion (size <=? u32 (fullSize - BLOCK_MIN_SIZE))
    "size <= block->getSize() - BLOCK_MIN_SIZE" ;;
  let nextBlock := ptrAdd block size in
  setSize block (u32 size) ;;
  setSize nextBlock (u32 (fullSize - size)) ;;
  setUsed nextBlock false ;;
  mret (block, nextBlock).

(** The body of the loop of [KHeap::enlargeHeap] *)
Definition enlarge_page : HST unit :=
  h ← heap;
  zoom snd (fun e '(h, _) => (h, e)) (map_heap_page (heapEnd h)) ;;
  set_heapEnd (ptrAdd (heapEnd h) PAGE_SIZE) ;;
  h ← heap;
  let last := lastBlock h in
  u ← getUsed last;
  block ← (if u : bool then
             lastSize ← getSize last;
             let block := ptrAdd last lastSize in
             assertion (block mod PAGE_SIZE =? 0) "block % PAGE_SIZE == 0" ;;
             assertion (block <? heapEnd h) "block < m_heapEnd" ;;
             setSize block 0 ;;
             set_lastBlock block ;;
             mret block
           else mret last);
  s ← getSize block;
  setSize block (u32 (s + PAGE_SIZE)).

(** [KHeap::enlargeHeap] *)
Definition enlargeHeap (pageCount : Z) : HST unit :=
  for_each (seqZ 0 pageCount) (fun _ => enlarge_page) ;;
  h ← heap;
  assertion (ptrAdd (lastBlock h) (block_getSize (header h (lastBlock h))) =? heapEnd h)
    "m_lastBlock + m_lastBlock->getSize() == m_heapEnd".

(** The [while] loop of [KHeap::kmalloc]: the data of the block it returns, or the
    last block it has visited when the end of the heap is reached. *)
Fixpoint kmalloc_search (fuel : nat) (size ptr block : Z) : HST (Z + Z) :=
  match fuel with
  | O => fail OutOfFuel
  | S fuel =>
      h ← heap;
      if ptr <? heapEnd h then
        let block := ptr in
        blockSize ← getSize block;
        assertion (block <=? lastBlock h) "block <= m_lastBlock" ;;
        assertion (BLOCK_MIN_SIZE <=? blockSize) "blockSize >= BLOCK_MIN_SIZE" ;;
        u ← getUsed block;
        if negb u && (size <? blockSize) then
          if u32 (blockSize - BLOCK_MIN_SIZE) <=? size then
            setUsed block true ;;
            s ← getSize block;
            assertion (size <=? s) "block->getSize() >= size" ;;
            mret (inl (block_getData block))
          else
            '(first, second) ← splitBlock block size;
            (if block =? lastBlock h then set_lastBlock second else mret tt) ;;
            setUsed first true ;;
            u2 ← getUsed second;
            assertion (negb u2) "!blocks.second->getUsed()" ;;
            s2 ← getSize second;
            assertion (BLOCK_MIN_SIZE <=? s2) "blocks.second->getSize() >= BLOCK_MIN_SIZE" ;;
            s ← getSize first;
            assertion (size <=? s) "block->getSize() >= size" ;;
            mret (inl (block_getData first))
        else kmalloc_search fuel size (ptrAdd ptr blockSize) block
      else mret (inr block)
  end.

(** Every block is at least [BLOCK_MIN_SIZE] long, which bounds the search. *)
Definition search_fuel (h : KHeap) : nat :=
  S (Z.to_nat ((heapEnd h - heapStart h) / BLOCK_MIN_SIZE)).

(** What follows the loop: the heap is enlarged, and its last block split. *)
Definition kmalloc_enlarge (size block : Z) : HST Z :=
  h ← heap;
  assertion (block =? lastBlock h) "block == m_lastBlock" ;;
  u ← getUsed block;
  s ← getSize block;
  let blockSize := if u : bool then 0 else s in
  let neededPages := u32 (size - blockSize + 4096 - 1) / 4096 in
  enlargeHeap neededPages ;;
  h ← heap;
  let block := lastBlock h in
  s ← getSize block;
  assertion (size <=? s) "size <= block->getSize()" ;;
  block ← (if size <=? u32 (s - BLOCK_MIN_SIZE) then
             '(first, second) ← splitBlock block size;
             set_lastBlock second ;;
             mret first
           else mret block);
  setUsed block true ;;
  s ← getSize block;
  assertion (size <=? s) "block->getSize() >= size" ;;
  h ← heap;
  assertion (ptrAdd (lastBlock h) (block_getSize (header h (lastBlock h))) =? heapEnd h)
    "m_lastBlock + m_lastBlock->getSize() == m_heapEnd" ;;
  mret (block_getData block).

(** [KHeap::kmalloc]; 0 is the null pointer. *)
Definition kmalloc (size : Z) : HST Z :=
  if size =? 0 then mret 0
  else
    let size := u32 (size + HEADER_SIZE) in
    let size := intAlignSup 32 size BLOCK_ALIGN in
    h ← heap;
    r ← kmalloc_search (search_fuel h) size (heapStart h) 0;
    match r with
    | inl data => mret data
    | inr block => kmalloc_enlarge size block
    end.

(** [KHeap::kfree] *)
Definition kfree (ptr : Z) : HST unit :=
  if ptr =? 0 then mret tt
  else setUsed (ptrAdd ptr (- HEADER_SIZE)) false.

(** [malloc] passes its [size_t] to the [uint32_t] parameter of [kmalloc]. *)
Definition malloc (size : Z) : HST Z := kmalloc (u32 size).
Definition free (ptr : Z) : HST unit := kfree ptr.
End kheap.

(** ** The layout of the heap

    A layout lists the blocks from [m_heapStart] on: the size of each and whether it
    is used.  [chain m a l e] says that the headers in [m] spell the layout [l]
    between the addresses [a] and [e]. *)
Definition layout : Type := list (Z * bool).

Definition total (l : layout) : Z := foldr (fun b t => fst b + t) 0 l.

Definition is_block (m : gmap Z BlockState) (a sz : Z) (u : bool) : Prop :=
  (exists b, m !! a = Some b /\ block_getSize b = sz /\ bused b = u) /\
  BLOCK_MIN_SIZE <= sz /\ sz mod BLOCK_ALIGN = 0.

Fixpoint chain (m : gmap Z BlockState) (a : Z) (l : layout) (e : Z) : Prop :=
  match l with
  | [] => a = e
  | (sz, u) :: l' => is_block m a sz u /\ chain m (a + sz) l' e
  end.

Lemma block_size_roundtrip asize b :
  0 <= asize < 2 ^ 32 -> asize mod BLOCK_ALIGN = 0 ->
  block_getSize (block_setSize asize b) = asize.
Proof.
  change BLOCK_ALIGN with 4. intros Ha Hm. unfold block_getSize, block_setSize. simpl.
  unfold BLOCK_ALIGN_SHIFT. rewrite Z.shiftr_div_pow2, Z.shiftl_mul_pow2 by lia.
  change (2 ^ 2) with 4. pose proof (Z.div_mod asize 4).
  rewrite (wrap_small 30) by (unfold in_word; lia).
  apply Z.eq_trans with (u32 asize); [f_equal; lia|apply wrap_small; unfold in_word; lia].
Qed.

Lemma block_getSize_range b : 0 <= block_getSize b < 2 ^ 32.
Proof. by apply wrap_range. Qed.

Section layouts.
Implicit Types (m : gmap Z BlockState) (l : layout).

Lemma total_app l1 l2 : total (l1 ++ l2) = total l1 + total l2.
Proof. induction l1 as [|[sz u] l1 IH]; simpl; lia. Qed.

Lemma chain_total m a l e : chain m a l e -> e = a + total l.
Proof.
  revert a. induction l as [|[sz u] l IH]; simpl; intros a; [lia|].
  intros [_ H%IH]. lia.
Qed.

Lemma chain_total_nonneg m a l e : chain m a l e -> 0 <= total l.
Proof.
  revert a. induction l as [|[sz u] l IH]; simpl; intros a; [lia|].
  intros [(_ & Hs & _) H%IH]. unfold BLOCK_MIN_SIZE, HEADER_SIZE in *. lia.
Qed.

Lemma chain_length m a l e : chain m a l e -> 8 * Z.of_nat (length l) <= total l.
Proof.
  revert a. induction l as [|[sz u] l IH]; intros a; [done|]. simpl length. simpl total.
  intros [(_ & Hs & _) H%IH]. unfold BLOCK_MIN_SIZE, HEADER_SIZE in *. lia.
Qed.

Lemma chain_app m a l1 l2 e :
  chain m a (l1 ++ l2) e <-> chain m a l1 (a + total l1) /\ chain m (a + total l1) l2 e.
Proof.
  revert a. induction l1 as [|[sz u] l1 IH]; simpl; intros a.
  - rewrite Z.add_0_r. tauto.
  - rewrite IH, <- Z.add_assoc. tauto.
Qed.

Lemma is_block_insert_ne m a sz u c b :
  c <> a -> is_block (<[c := b]> m) a sz u <-> is_block m a sz u.
Proof. intros. unfold is_block. by rewrite lookup_insert_ne. Qed.

(** A header written outside a part of the chain leaves that part alone. *)
Lemma chain_insert_out m a l e c b :
  c < a \/ e <= c -> chain m a l e -> chain (<[c := b]> m) a l e.
Proof.
  revert a. induction l as [|[sz u] l IH]; simpl; intros a Hc; [done|]. intros [Hb Hl].
  pose proof (chain_total _ _ _ _ Hl). pose proof (chain_total_nonneg _ _ _ _ Hl).
  destruct Hb as (Hb & Hs & Hm). unfold BLOCK_MIN_SIZE, HEADER_SIZE in *.
  split.
  - apply is_block_insert_ne; [lia|]. by repeat split.
  - apply IH; [lia|done].
Qed.

Lemma is_block_insert m a sz u b :
  block_getSize b = sz -> bused b = u -> BLOCK_MIN_SIZE <= sz -> sz mod BLOCK_ALIGN = 0 ->
  is_block (<[a := b]> m) a sz u.
Proof. intros. split; [|done]. exists b. by rewrite lookup_insert_eq. Qed.

(** Rewriting the header of one block of the chain. *)
Lemma chain_update m a l1 sz u l2 e b sz' u' :
  chain m a (l1 ++ (sz, u) :: l2) e ->
  block_getSize b = sz' -> bused b = u' -> sz' = sz ->
  chain (<[a + total l1 := b]> m) a (l1 ++ (sz', u') :: l2) e.
Proof.
  intros Hc Hs Hu ->. apply chain_app in Hc as [H1 [Hb H2]]. apply chain_app.
  destruct Hb as (_ & Hmin & Hmod). simpl.
  pose proof (chain_total _ _ _ _ H2). pose proof (chain_total_nonneg _ _ _ _ H2).
  unfold BLOCK_MIN_SIZE, HEADER_SIZE in *.
  split_and!.
  - apply chain_insert_out; [lia|done].
  - by apply is_block_insert.
  - apply chain_insert_out; [lia|done].
Qed.

(** Splitting one block of the chain in two. *)
Lemma chain_split m a l1 sz u l2 e b1 b2 sz1 u1 u2 :
  chain m a (l1 ++ (sz, u) :: l2) e ->
  block_getSize b1 = sz1 -> bused b1 = u1 -> BLOCK_MIN_SIZE <= sz1 ->
  sz1 mod BLOCK_ALIGN = 0 ->
  block_getSize b2 = sz - sz1 -> bused b2 = u2 -> BLOCK_MIN_SIZE <= sz - sz1 ->
  chain (<[a + total l1 + sz1 := b2]> (<[a + total l1 := b1]> m)) a
        (l1 ++ (sz1, u1) :: (sz - sz1, u2) :: l2) e.
Proof.
  intros Hc Hs1 Hu1 Hmin1 Hmod1 Hs2 Hu2 Hmin2. change BLOCK_ALIGN with 4 in *.
  apply chain_app in Hc as [H1 [Hb H2]]. destruct Hb as (_ & Hmin & Hmod).
  change BLOCK_ALIGN with 4 in *.
  assert (Hmod2 : (sz - sz1) mod 4 = 0) by (rewrite Zminus_mod, Hmod, Hmod1; done).
  pose proof (chain_total _ _ _ _ H2). pose proof (chain_total_nonneg _ _ _ _ H2).
  unfold BLOCK_MIN_SIZE, HEADER_SIZE in *.
  apply chain_app. simpl. split_and!.
  - do 2 (apply chain_insert_out; [lia|]). done.
  - apply is_block_insert_ne; [lia|]. by apply is_block_insert.
  - apply is_block_insert; try done.
  - replace (a + total l1 + sz1 + (sz - sz1)) with (a + total l1 + sz) by lia.
    do 2 (apply chain_insert_out; [lia|]). done.
Qed.
End layouts.

(** ** The abstract allocator

    What [kmalloc] promises, on layouts: first fit among the free blocks that are
    strictly larger than the request; the block found is given whole when what would
    remain cannot hold a block ([BLOCK_MIN_SIZE] or less), and is split otherwise; when
    no block is found the heap grows by whole pages behind, or by enlarging, its last
    block.  Offsets are relative to the start of the heap. *)
Definition fits (size : Z) (b : Z * bool) : bool := negb (snd b) && (size <? fst b).

Definition place (size sz : Z) (rest : layout) : layout :=
  if sz - BLOCK_MIN_SIZE <=? size then (sz, true) :: rest
  else (size, true) :: (sz - size, false) :: rest.

Fixpoint first_fit (size off : Z) (l : layout) : option (Z * layout) :=
  match l with
  | [] => None
  | b :: l' =>
      if fits size b then Some (off, place size (fst b) l')
      else '(o, r) ← first_fit size (off + fst b) l'; Some (o, b :: r)
  end.

(** The free space at the end of the heap, and the blocks before it. *)
Definition free_tail (l : layout) : Z :=
  match last l with Some (sz, false) => sz | _ => 0 end.
Definition before_tail (l : layout) : layout :=
  match last l with Some (_, false) => removelast l | _ => l end.

Definition needed_pages (size : Z) (l : layout) : Z := (size - free_tail l + 4095) / 4096.

Definition grow_fit (size : Z) (l : layout) : Z * layout :=
  let s := free_tail l + 4096 * needed_pages size l in
  (total (before_tail l),
   before_tail l ++ (if size <=? s - BLOCK_MIN_SIZE then [(size, true); (s - size, false)]
                     else [(s, true)])).

Definition alloc (size : Z) (l : layout) : Z * layout :=
  match first_fit size 0 l with Some r => r | None => grow_fit size l end.

(** The allocator that the comments of the code describe: first fit among the free blocks that are large enough, a block of exactly the
    size included.  As long as there is no free block of exactly the size, the two are the same. *)
Fixpoint first_fit_exact (size off : Z) (l : layout) : option (Z * layout) :=
  match l with
  | [] => None
  | b :: l' =>
      if negb (snd b) && (size <=? fst b) then Some (off, place size (fst b) l')
      else '(o, r) ← first_fit_exact size (off + fst b) l'; Some (o, b :: r)
  end.

Definition alloc_exact (size : Z) (l : layout) : Z * layout :=
  match first_fit_exact size 0 l with Some r => r | None => grow_fit size l end.

Lemma first_fit_exact_eq size off l : (size, false) ∉ l -> first_fit_exact size off l = first_fit size off l.
Proof.
  revert off. induction l as [|[sz u] l IH]; intros off Hn; [done|]. apply not_elem_of_cons in Hn as [Hb Hl].
  cbn [first_fit_exact first_fit]. unfold fits. cbn [fst snd].
  assert (negb u && (size <=? sz) = negb u && (size <? sz)) as ->.
  { destruct u; [done|]. cbn. destruct (Z.leb_spec size sz), (Z.ltb_spec size sz); (done || (try lia)). destruct Hb. f_equal. lia. }
  by rewrite IH.
Qed.

Lemma alloc_exact_eq size l : (size, false) ∉ l -> alloc_exact size l = alloc size l.
Proof. intros Hn. unfold alloc_exact, alloc. by rewrite first_fit_exact_eq. Qed.

(** ** Representation *)
Definition heap_chain (h : KHeap) (l : layout) : Prop :=
  chain (headers h) (heapStart h) l (heapEnd h) /\
  0 < heapStart h /\ heapEnd h < 2 ^ 64 /\ heapEnd h - heapStart h < 2 ^ 32 /\
  heapEnd h mod PAGE_SIZE = 0 /\
  (forall a, heapEnd h <= a -> headers h !! a = None).

Definition last_ok (h : KHeap) (l : layout) : Prop :=
  exists l0 b, l = l0 ++ [b] /\ lastBlock h = heapStart h + total l0.

Definition heap_layout (h : KHeap) (l : layout) : Prop := heap_chain h l /\ last_ok h l.

(** A block of the heap, free or used. *)
Definition block_at (h : KHeap) (l1 : layout) : Z := heapStart h + total l1.

Section representation.
Context {E : Type} `{HeapMapper E} (fresh : Z -> BlockState).
Implicit Types (h : KHeap) (e : E) (l : layout).

Lemma chain_header h l1 sz u l2 :
  heap_chain h (l1 ++ (sz, u) :: l2) ->
  block_getSize (header fresh h (block_at h l1)) = sz /\
  bused (header fresh h (block_at h l1)) = u /\
  BLOCK_MIN_SIZE <= sz < 2 ^ 32 /\ sz mod BLOCK_ALIGN = 0 /\
  block_at h l1 + sz = heapEnd h - total l2 /\
  heapStart h <= block_at h l1 < heapEnd h /\ 0 <= total l2.
Proof.
  intros (Hc & Hs & He & Hl & _). pose proof (chain_total _ _ _ _ Hc) as Ht.
  apply chain_app in Hc as [H1 [((b & Hb & Hsz & Hu) & Hmin & Hmod) H2]].
  pose proof (chain_total_nonneg _ _ _ _ H1). pose proof (chain_total_nonneg _ _ _ _ H2).
  rewrite total_app in Ht. simpl in Ht. pose proof (block_getSize_range b).
  change BLOCK_MIN_SIZE with 8 in *.
  unfold header, block_at. rewrite Hb. simpl. repeat split; (done || lia).
Qed.

Lemma last_ok_ge h l1 b l2 :
  heap_chain h (l1 ++ b :: l2) -> last_ok h (l1 ++ b :: l2) ->
  block_at h l1 <= lastBlock h /\ (lastBlock h = block_at h l1 <-> l2 = []).
Proof.
  intros Hc (l0 & b' & Heq & ->). unfold block_at.
  destruct l2 as [|x l2 _] using rev_ind.
  - apply app_inj_tail in Heq as [<- _]. split; [lia|done].
  - rewrite app_comm_cons, app_assoc in Heq. apply app_inj_tail in Heq as [<- _].
    rewrite total_app. destruct b as [sz u].
    pose proof (chain_header _ _ _ _ _ Hc) as (_ & _ & Hmin & _).
    assert (0 <= total l2).
    { destruct Hc as (Hc & _). apply chain_app in Hc as [_ [_ Hc]].
      apply chain_app in Hc as [Hc _]. by eapply chain_total_nonneg. }
    change BLOCK_MIN_SIZE with 8 in *. simpl. split; [lia|]. split; [lia|].
    intros Hn. by destruct l2.
Qed.

Lemma Runs_heap h e Q : Q h (h, e) -> Runs heap (h, e) Q.
Proof. done. Qed.
Lemma Runs_modify_heap f h e Q : Q tt (f h, e) -> Runs (modify_heap f) (h, e) Q.
Proof. done. Qed.
Lemma Runs_getSize a h e Q :
  Q (block_getSize (header fresh h a)) (h, e) -> Runs (getSize fresh a) (h, e) Q.
Proof. done. Qed.
Lemma Runs_getUsed a h e Q :
  Q (bused (header fresh h a)) (h, e) -> Runs (getUsed fresh a) (h, e) Q.
Proof. done. Qed.
Lemma Runs_setUsed a u h e Q :
  Q tt (put_header fresh a (block_setUsed u) h, e) -> Runs (setUsed fresh a u) (h, e) Q.
Proof. done. Qed.
Lemma Runs_setSize a sz h e Q :
  sz mod BLOCK_ALIGN = 0 ->
  Q tt (put_header fresh a (block_setSize sz) h, e) -> Runs (setSize fresh a sz) (h, e) Q.
Proof. intros Hm HQ. apply Runs_bind, Runs_assertion; [by apply Z.eqb_eq|done]. Qed.
Lemma Runs_set_lastBlock a h e Q :
  Q tt (with_lastBlock a h, e) -> Runs (set_lastBlock a) (h, e) Q.
Proof. done. Qed.
Lemma Runs_set_heapEnd a h e Q :
  Q tt (with_heapEnd a h, e) -> Runs (set_heapEnd a) (h, e) Q.
Proof. done. Qed.

Lemma header_put h a f c :
  header fresh (put_header fresh a f h) c =
  if decide (a = c) then f (header fresh h a) else header fresh h c.
Proof.
  unfold header, put_header. simpl. case_decide as Hac.
  - subst. by rewrite lookup_insert_eq.
  - by rewrite lookup_insert_ne.
Qed.
End representation.

Ltac heap_step :=
  first
    [ run_step
    | lazymatch goal with
      | |- Runs heap _ _ => apply Runs_heap
      | |- Runs (modify_heap _) _ _ => apply Runs_modify_heap
      | |- Runs (getSize _ _) _ _ => apply Runs_getSize
      | |- Runs (getUsed _ _) _ _ => apply Runs_getUsed
      | |- Runs (setUsed _ _ _) _ _ => apply Runs_setUsed
      | |- Runs (setSize _ _ _) _ _ => apply Runs_setSize
      | |- Runs (set_lastBlock _) _ _ => apply Runs_set_lastBlock
      | |- Runs (set_heapEnd _) _ _ => apply Runs_set_heapEnd
      end ]; cbn beta.
Ltac heap_steps := repeat heap_step.

Section blocks.
Context {E : Type} `{HeapMapper E} (fresh : Z -> BlockState).
Implicit Types (h : KHeap) (e : E) (l : layout).

Lemma last_ok_swap h h' l1 sz u u' l2 :
  lastBlock h' = lastBlock h -> heapStart h' = heapStart h ->
  last_ok h (l1 ++ (sz, u) :: l2) -> last_ok h' (l1 ++ (sz, u') :: l2).
Proof.
  intros Hl Hs (l0 & b & Heq & Hb). destruct l2 as [|x l2 _] using rev_ind.
  - apply app_inj_tail in Heq as [<- _]. exists l1, (sz, u'). split; [done|congruence].
  - exists (l1 ++ (sz, u') :: l2), x. split; [by rewrite <- app_assoc|].
    rewrite app_comm_cons, app_assoc in Heq. apply app_inj_tail in Heq as [<- _].
    rewrite Hl, Hb, Hs, !total_app. done.
Qed.

Lemma heap_chain_setUsed h l1 sz u u' l2 :
  heap_chain h (l1 ++ (sz, u) :: l2) ->
  heap_chain (put_header fresh (block_at h l1) (block_setUsed u') h) (l1 ++ (sz, u') :: l2).
Proof.
  intros Hc. pose proof (chain_header fresh _ _ _ _ _ Hc) as (Hsz & _ & _ & _ & _ & Hr & _).
  destruct Hc as (Hc & Hs & He & Hlen & Hpg & Hb).
  split_and!; try done.
  - eapply chain_update; done.
  - intros a Ha. simpl in *. rewrite lookup_insert_ne by lia. by apply Hb.
Qed.

Lemma layout_setUsed h l1 sz u u' l2 :
  heap_layout h (l1 ++ (sz, u) :: l2) ->
  heap_layout (put_header fresh (block_at h l1) (block_setUsed u') h) (l1 ++ (sz, u') :: l2).
Proof.
  intros [Hc Hl]. split; [by eapply heap_chain_setUsed|by eapply last_ok_swap].
Qed.

Lemma splitBlock_spec h e l1 sz l2 size :
  heap_chain h (l1 ++ (sz, false) :: l2) ->
  BLOCK_MIN_SIZE <= size <= sz - BLOCK_MIN_SIZE -> size mod BLOCK_ALIGN = 0 ->
  Runs (splitBlock fresh (block_at h l1) size) (h, e) (fun '(first, second) '(h', e') =>
    e' = e /\ first = block_at h l1 /\ second = block_at h l1 + size /\
    lastBlock h' = lastBlock h /\ heapStart h' = heapStart h /\ heapEnd h' = heapEnd h /\
    heap_chain h' (l1 ++ (size, false) :: (sz - size, false) :: l2)).
Proof.
  intros Hc Hsize Hmod.
  pose proof (chain_header fresh _ _ _ _ _ Hc) as (Hsz & Hu & Hmin & Hmodsz & Hend & Hr & Ht).
  destruct Hc as (Hc & Hs & He & Hlen & Hpg & Hb).
  assert (Hmod2 : (sz - size) mod BLOCK_ALIGN = 0).
  { change BLOCK_ALIGN with 4 in *. by rewrite Zminus_mod, Hmod, Hmodsz. }
  change BLOCK_MIN_SIZE with 8 in *. unfold splitBlock. heap_steps.
  { by rewrite Hu. }
  { rewrite Hsz, wrap_small by (unfold in_word; change BLOCK_MIN_SIZE with 8; lia).
    change BLOCK_MIN_SIZE with 8. apply Z.leb_le. lia. }
  { by rewrite wrap_small by (unfold in_word; lia). }
  { rewrite Hsz, wrap_small by (unfold in_word; lia). done. }
  unfold ptrAdd. rewrite Hsz, !(wrap_small 32), (wrap_small 64) by (unfold in_word; lia).
  split_and!; try done. unfold heap_chain. split_and!; try done.
  - unfold block_at in *. simpl. rewrite insert_insert_eq.
    eapply chain_split; try done.
    + apply block_size_roundtrip; [lia|done].
    + change BLOCK_MIN_SIZE with 8. lia.
    + rewrite header_put, decide_True by done. apply block_size_roundtrip; [lia|done].
    + change BLOCK_MIN_SIZE with 8. lia.
  - intros a Ha. unfold block_at in *. simpl in *. rewrite !lookup_insert_ne by lia. by apply Hb.
Qed.

(** The address of the block behind the first block of a split, as the last block. *)
Lemma last_ok_split h h' l1 sz u l2 size u1 :
  heap_chain h (l1 ++ (sz, u) :: l2) -> last_ok h (l1 ++ (sz, u) :: l2) ->
  heapStart h' = heapStart h ->
  lastBlock h' = (if block_at h l1 =? lastBlock h then block_at h l1 + size else lastBlock h) ->
  last_ok h' (l1 ++ (size, u1) :: (sz - size, false) :: l2).
Proof.
  intros Hc Hl Hs Hb. pose proof (last_ok_ge fresh _ _ _ _ Hc Hl) as [_ Hlast].
  destruct l2 as [|x l2 _] using rev_ind.
  - exists (l1 ++ [(size, u1)]), (sz - size, false). split; [by rewrite <- app_assoc|].
    rewrite (proj2 Hlast), Z.eqb_refl in Hb by done.
    rewrite Hb, Hs, total_app. unfold block_at. simpl. lia.
  - exists (l1 ++ (size, u1) :: (sz - size, false) :: l2), x. split; [by rewrite <- app_assoc|].
    destruct (Z.eqb_spec (block_at h l1) (lastBlock h)) as [Heq|_].
    { symmetry in Heq. apply Hlast in Heq. by destruct l2. }
    destruct Hl as (l0 & b & Heq & Hl). rewrite app_comm_cons, app_assoc in Heq.
    apply app_inj_tail in Heq as [<- _]. rewrite Hb, Hl, Hs, !total_app. simpl. lia.
Qed.
End blocks.

Section search.
Context {E : Type} `{HeapMapper E} (fresh : Z -> BlockState).
Implicit Types (h : KHeap) (e : E) (l : layout).

(** What the search loop does from a block on, in terms of [first_fit]. *)
Definition search_post (size : Z) h e (l1 l2 : layout) (blk : Z) (r : Z + Z)
    (s : KHeap * E) : Prop :=
  match first_fit size (total l1) l2 with
  | Some (off, l2') =>
      r = inl (heapStart h + off + HEADER_SIZE) /\ snd s = e /\
      heapStart (fst s) = heapStart h /\ heapEnd (fst s) = heapEnd h /\
      heap_layout (fst s) (l1 ++ l2')
  | None => s = (h, e) /\ r = inr (if l2 is [] then blk else lastBlock h)
  end.

(** The block at the loop's pointer is free and large enough. *)
Lemma search_take fuel size h e l1 sz l2 blk :
  heap_layout h (l1 ++ (sz, false) :: l2) ->
  BLOCK_MIN_SIZE <= size < sz -> size mod BLOCK_ALIGN = 0 ->
  Runs (kmalloc_search fresh (S fuel) size (block_at h l1) blk) (h, e)
    (search_post size h e l1 ((sz, false) :: l2) blk).
Proof.
  intros [Hc Hl] Hsize Hmod.
  pose proof (chain_header fresh _ _ _ _ _ Hc) as (Hsz & Hu & Hmin & Hmodsz & Hend & Hr & Ht).
  pose proof (last_ok_ge fresh _ _ _ _ Hc Hl) as [Hle Hlast].
  assert (Hptr : u64 (block_at h l1 + 4) = block_at h l1 + 4).
  { destruct Hc as (_ & ? & ? & _). apply wrap_small. unfold in_word.
    change BLOCK_MIN_SIZE with 8 in *. lia. }
  unfold search_post. simpl first_fit. unfold fits, place. simpl.
  rewrite (proj2 (Z.ltb_lt _ _)) by lia.
  heap_step. heap_step. rewrite (proj2 (Z.ltb_lt _ _)) by lia. heap_steps.
  { by apply Z.leb_le. } { apply Z.leb_le. lia. }
  rewrite Hsz, Hu. simpl. rewrite (proj2 (Z.ltb_lt _ _)) by lia.
  rewrite wrap_small by (unfold in_word; change BLOCK_MIN_SIZE with 8 in *; lia).
  destruct (Z.leb_spec (sz - BLOCK_MIN_SIZE) size) as [Hwhole|Hsplit].
  - heap_steps.
    { rewrite header_put, decide_True by done. apply Z.leb_le.
      change (size <= block_getSize (header fresh h (block_at h l1))). lia. }
    split_and!; try done.
    { unfold block_getData. change HEADER_SIZE with 4. rewrite Hptr. f_equal. }
    simpl. by eapply layout_setUsed.
  - apply Runs_bind. eapply Runs_mono; [apply splitBlock_spec; [done|lia|done]|].
    intros [first second] [h1 e1] (-> & -> & -> & Hl1 & Hs1 & He1 & Hc1).
    apply Runs_bind.
    apply Runs_of_ok with tt (with_lastBlock
      (if block_at h l1 =? lastBlock h then block_at h l1 + size else lastBlock h) h1, e).
    { destruct (block_at h l1 =? lastBlock h); [done|]. destruct h1; simpl in *; subst. done. }
    set (h2 := with_lastBlock _ h1).
    assert (Hl2 : heap_layout h2 (l1 ++ (size, false) :: (sz - size, false) :: l2)).
    { split; [exact Hc1|]. eapply last_ok_split; done. }
    assert (Hat : block_at h l1 = block_at h2 l1) by (unfold block_at; simpl; lia).
    assert (Hat2 : block_at h l1 + size = block_at h2 (l1 ++ [(size, true)])).
    { unfold block_at. rewrite total_app. simpl. lia. }
    rewrite Hat2, Hat. set (h3 := put_header fresh (block_at h2 l1) (block_setUsed true) h2).
    assert (Hl3 : heap_layout h3 (l1 ++ (size, true) :: (sz - size, false) :: l2)).
    { by apply layout_setUsed with (u := false). }
    pose proof (chain_header fresh _ _ _ _ _ (proj1 Hl3)) as (Hsz3 & _).
    pose proof Hl3 as [Hc3 _]. rewrite cons_middle, app_assoc in Hc3.
    pose proof (chain_header fresh _ _ _ _ _ Hc3) as (Hsz4 & Hu4 & Hmin4 & _).
    change (block_at h3) with (block_at h2) in Hsz3, Hsz4, Hu4.
    heap_steps; fold h3.
    { by rewrite Hu4. } { rewrite Hsz4. apply Z.leb_le. lia. }
    { rewrite Hsz3. apply Z.leb_le. lia. }
    split_and!; try done. unfold block_getData. change HEADER_SIZE with 4. rewrite <- Hat, Hptr. f_equal.
Qed.

Lemma kmalloc_search_spec fuel size h e l1 l2 blk :
  heap_layout h (l1 ++ l2) -> (length l2 < fuel)%nat ->
  BLOCK_MIN_SIZE <= size -> size mod BLOCK_ALIGN = 0 ->
  Runs (kmalloc_search fresh fuel size (block_at h l1) blk) (h, e)
    (search_post size h e l1 l2 blk).
Proof.
  intros Hl Hfuel Hsize Hmod. revert l1 fuel blk Hl Hfuel.
  induction l2 as [|[sz u] l2 IH]; intros l1 [|fuel] blk Hl Hfuel; simpl in Hfuel; try lia.
  - destruct Hl as [(Hc & _) _]. apply chain_total in Hc. rewrite app_nil_r in Hc.
    simpl. heap_step. heap_step. rewrite (proj2 (Z.ltb_ge _ _)) by (unfold block_at; lia).
    heap_steps. done.
  - destruct (fits size (sz, u)) eqn:Hfit.
    { unfold fits in Hfit. simpl in Hfit. destruct u; [done|]. apply Z.ltb_lt in Hfit.
      apply search_take; [done|lia|done]. }
    pose proof Hl as [Hc Hlast].
    pose proof (chain_header fresh _ _ _ _ _ Hc) as (Hsz & Hu & Hmin & Hmodsz & Hend & Hr & Ht).
    pose proof (last_ok_ge fresh _ _ _ _ Hc Hlast) as [Hle Hlast2].
    simpl kmalloc_search. heap_step. heap_step.
    rewrite (proj2 (Z.ltb_lt _ _)) by lia. heap_steps.
    { by apply Z.leb_le. } { apply Z.leb_le. lia. }
    rewrite Hsz, Hu. unfold fits in Hfit. simpl in Hfit. rewrite Hfit.
    assert (Hnext : ptrAdd (block_at h l1) sz = block_at h (l1 ++ [(sz, u)])).
    { unfold ptrAdd, block_at in *. rewrite total_app. simpl.
      change BLOCK_MIN_SIZE with 8 in *. destruct Hc as (_ & ? & ? & _). rewrite wrap_small by (unfold in_word; lia). lia. }
    rewrite Hnext. eapply Runs_mono; [apply IH; [by rewrite <- app_assoc|lia]|].
    intros r [h' e']. unfold search_post. simpl first_fit. unfold fits. simpl.
    rewrite Hfit, total_app. simpl. rewrite Z.add_0_r.
    destruct (first_fit size (total l1 + sz) l2) as [[off l2']|]; simpl.
    + by rewrite <- app_assoc.
    + intros [? ->]. split; [done|]. f_equal. destruct l2; [|done]. symmetry. by apply Hlast2.
Qed.
End search.

(** ** Enlarging the heap *)
Lemma before_tail_snoc l0 sz u :
  before_tail (l0 ++ [(sz, u)]) = if u : bool then l0 ++ [(sz, u)] else l0.
Proof.
  unfold before_tail. rewrite last_snoc. destruct u; [done|].
  rewrite removelast_app by done. apply app_nil_r.
Qed.

Lemma free_tail_snoc l0 sz u : free_tail (l0 ++ [(sz, u)]) = if u : bool then 0 else sz.
Proof. unfold free_tail. by rewrite last_snoc. Qed.

(** The layout after [n] pages have been added. *)
Definition grow_pages (n : Z) (l : layout) : layout :=
  if n <=? 0 then l else before_tail l ++ [(free_tail l + 4096 * n, false)].

Section enlarge.
Context {E : Type} `{HeapMapper E} (fresh : Z -> BlockState).
(** The pages the kernel maps behind the heap read as zero where a header goes. *)
Context (fresh_clear : forall a, bused (fresh a) = false).
Implicit Types (h : KHeap) (e : E) (l : layout).

Lemma layout_last_size h l0 sz u :
  heap_layout h (l0 ++ [(sz, u)]) ->
  lastBlock h = block_at h l0 /\ lastBlock h + sz = heapEnd h.
Proof.
  intros [Hc (l1 & b & [-> <-]%app_inj_tail & Hl)]. split; [done|].
  pose proof (chain_header fresh _ _ _ _ _ Hc) as (_ & _ & _ & _ & Hend & _).
  simpl in Hend. unfold block_at in Hend. lia.
Qed.

(** Adding the mapped page to the last block, or a new last block. *)
Lemma heap_chain_grow h l0 sz b :
  heap_chain h (l0 ++ [(sz, false)]) \/ (heap_chain h l0 /\ sz = 0) ->
  heapEnd h + 4096 < 2 ^ 64 -> heapEnd h - heapStart h + 4096 < 2 ^ 32 ->
  block_getSize b = sz + 4096 -> bused b = false -> (sz + 4096) mod BLOCK_ALIGN = 0 ->
  heap_chain (mkKHeap (heapStart h) (heapEnd h + 4096) (block_at h l0)
                      (<[block_at h l0 := b]> (headers h)))
             (l0 ++ [(sz + 4096, false)]).
Proof.
  intros Hor He1 He2 Hb Hu Hmod.
  assert (Hpre : chain (headers h) (heapStart h) l0 (block_at h l0) /\
                 block_at h l0 + sz = heapEnd h /\ 0 <= sz).
  { destruct Hor as [Hc|[Hc ->]].
    - pose proof (chain_header fresh _ _ _ _ _ Hc) as (_ & _ & ? & _ & Hend & _).
      simpl in Hend. change BLOCK_MIN_SIZE with 8 in *.
      destruct Hc as [Hc _]. apply chain_app in Hc as [Hc _]. split_and!; [done|lia|lia].
    - destruct Hc as [Hc _]. pose proof (chain_total _ _ _ _ Hc). unfold block_at.
      split_and!; [|lia|lia]. by rewrite <- H0. }
  destruct Hpre as (Hpre & Hend & Hsz).
  assert (Hrest : 0 < heapStart h /\ heapEnd h mod PAGE_SIZE = 0 /\
                  forall a, heapEnd h <= a -> headers h !! a = None).
  { destruct Hor as [(_ & ? & _ & _ & ? & ?)|[(_ & ? & _ & _ & ? & ?) _]]; done. }
  destruct Hrest as (Hst & Hpg & Hnone). unfold heap_chain. simpl. split_and!; try done; try lia.
  - apply chain_app. simpl. split.
    + apply chain_insert_out; [unfold block_at; lia|exact Hpre].
    + split; [|unfold block_at in *; lia]. apply is_block_insert; try done.
      change BLOCK_MIN_SIZE with 8. lia.
  - rewrite <- Zplus_mod_idemp_l, Hpg. done.
  - intros a Ha. rewrite lookup_insert_ne by lia. apply Hnone. lia.
Qed.

Lemma enlarge_page_spec h e l :
  heap_layout h l -> heap_ready e (heapEnd h) ->
  heapEnd h + 4096 < 2 ^ 64 -> heapEnd h - heapStart h + 4096 < 2 ^ 32 ->
  Runs (enlarge_page fresh) (h, e) (fun _ '(h', e') =>
    heap_ready e' (heapEnd h') /\ heapStart h' = heapStart h /\
    heapEnd h' = heapEnd h + 4096 /\ heap_layout h' (grow_pages 1 l)).
Proof.
  intros Hl Hready He1 He2. unfold enlarge_page. heap_step. heap_step. apply Runs_bind.
  pose proof (map_heap_page_ok e (heapEnd h) Hready) as Hmap. unfold Runs, zoom in *. simpl.
  destruct (map_heap_page (heapEnd h) e) as [[[] e']|]; [|done].
  change PAGE_SIZE with 4096 in Hmap.
  match goal with |- match ?m ?s with _ => _ end => change (Runs m s
    (fun _ '(h', e') => heap_ready e' (heapEnd h') /\ heapStart h' = heapStart h /\
    heapEnd h' = heapEnd h + 4096 /\ heap_layout h' (grow_pages 1 l))) end.
  pose proof Hl as [Hc (l0 & [sz u] & -> & _)].
  pose proof (layout_last_size _ _ _ _ Hl) as [Hlast Hend].
  pose proof (chain_header fresh _ _ _ _ _ Hc) as (Hsz & Hu & Hmin & Hmod & _ & Hr & _).
  pose proof Hc as (_ & Hst & _ & _ & Hpg & Hnone).
  unfold grow_pages. simpl. rewrite before_tail_snoc, free_tail_snoc.
  assert (HendE : ptrAdd (heapEnd h) PAGE_SIZE = heapEnd h + 4096).
  { unfold ptrAdd. change PAGE_SIZE with 4096. apply wrap_small. unfold in_word. lia. }
  heap_steps. rewrite HendE. change (lastBlock (with_heapEnd _ _)) with (lastBlock h).
  rewrite Hlast. change (header fresh (with_heapEnd _ _)) with (header fresh h). rewrite Hu.
  destruct u.
  - cbn iota. do 3 heap_step.
    change (header fresh (with_heapEnd _ _)) with (header fresh h). rewrite Hsz.
    assert (Hnew : ptrAdd (block_at h l0) sz = block_at h (l0 ++ [(sz, true)])).
    { unfold ptrAdd. rewrite wrap_small by (unfold in_word; lia).
      unfold block_at. rewrite total_app. simpl. lia. }
    assert (Hnew2 : block_at h (l0 ++ [(sz, true)]) = heapEnd h).
    { rewrite <- Hnew. unfold ptrAdd. rewrite wrap_small by (unfold in_word; lia). lia. }
    rewrite Hnew. heap_steps.
    { apply Z.eqb_eq. by rewrite Hnew2. } { apply Z.ltb_lt. simpl. lia. } { done. }
    { change (header fresh (with_lastBlock ?b ?k)) with (header fresh k).
      rewrite header_put, decide_True by done. done. }
    change (header fresh (with_lastBlock ?b ?k)) with (header fresh k).
    rewrite header_put, decide_True by done.
    change (header fresh (with_heapEnd _ _)) with (header fresh h).
    change (block_getSize (block_setSize 0 _)) with 0.
    set (a := block_at h _) in *. simpl.
    unfold put_header. simpl.
    rewrite insert_insert_eq. split_and!; try done.
    split; [|by exists (l0 ++ [(sz, true)]), (4096, false)].
    eapply (heap_chain_grow h (l0 ++ [(sz, true)]) 0); [by right|lia|lia|done| |done].
    unfold header. simpl. rewrite lookup_insert_eq. simpl. unfold header. simpl.
    rewrite Hnone by (unfold a; lia). apply fresh_clear.
  - cbn iota. heap_step. heap_step.
    change PAGE_SIZE with 4096 in *.
    assert (Hm : (sz + 4096) mod BLOCK_ALIGN = 0).
    { change BLOCK_ALIGN with 4 in *. by rewrite <- Zplus_mod_idemp_l, Hmod. }
    change BLOCK_MIN_SIZE with 8 in *.
    do 1 heap_step. change (header fresh (with_heapEnd _ _)) with (header fresh h).
    rewrite Hsz, wrap_small by (unfold in_word; lia). heap_steps; [exact Hm|].
    split_and!; try done. split; [|by exists l0, (sz + 4096, false)].
    unfold put_header. simpl. rewrite Hlast.
    apply heap_chain_grow; [by left|lia|lia| |done|done].
    apply block_size_roundtrip; [lia|done].
Qed.
End enlarge.

Section kmalloc_correct.
Context {E : Type} `{HeapMapper E} (fresh : Z -> BlockState).
Context (fresh_clear : forall a, bused (fresh a) = false).
Implicit Types (h : KHeap) (e : E) (l : layout).

Lemma grow_pages_S n l :
  0 <= n -> l <> [] -> grow_pages 1 (grow_pages n l) = grow_pages (n + 1) l.
Proof.
  intros Hn Hl. unfold grow_pages. destruct (Z.leb_spec n 0), (Z.leb_spec (n + 1) 0); try lia; simpl.
  - replace n with 0 by lia. done.
  - rewrite before_tail_snoc, free_tail_snoc. do 3 f_equal. lia.
Qed.

Lemma heap_layout_nonempty h l : heap_layout h l -> l <> [].
Proof. intros [_ (l0 & b & -> & _)]. by destruct l0. Qed.

Lemma enlargeHeap_spec h e l n :
  heap_layout h l -> heap_ready e (heapEnd h) -> 0 <= n ->
  heapEnd h + 4096 * n < 2 ^ 64 -> heapEnd h - heapStart h + 4096 * n < 2 ^ 32 ->
  Runs (enlargeHeap fresh n) (h, e) (fun _ '(h', e') =>
    heap_ready e' (heapEnd h') /\ heapStart h' = heapStart h /\
    heapEnd h' = heapEnd h + 4096 * n /\ heap_layout h' (grow_pages n l)).
Proof.
  intros Hl Hready Hn He1 He2. unfold enlargeHeap. apply Runs_bind.
  apply (Runs_for_each (fun todo '(h', e') => exists k, 0 <= k <= n /\ todo = seqZ k (n - k) /\
    heap_ready e' (heapEnd h') /\ heapStart h' = heapStart h /\
    heapEnd h' = heapEnd h + 4096 * k /\ heap_layout h' (grow_pages k l))).
  - exists 0. rewrite Z.sub_0_r, Z.add_0_r. split_and!; (done || lia).
  - intros x todo [h1 e1] (k & Hk & Htodo & Hr1 & Hs1 & Hend1 & Hl1).
    destruct (decide (k = n)) as [->|]; [by rewrite Z.sub_diag in Htodo|].
    rewrite seqZ_cons in Htodo by lia. injection Htodo as -> ->.
    eapply Runs_mono; [apply enlarge_page_spec; (done || lia)|].
    intros _ [h2 e2] (Hr2 & Hs2 & Hend2 & Hl2). exists (Z.succ k).
    rewrite grow_pages_S in Hl2 by (done || lia || by eapply heap_layout_nonempty).
    split_and!; (done || lia || by f_equal; lia || congruence).
  - intros [h1 e1] (k & Hk & Htodo & Hr1 & Hs1 & Hend1 & Hl1).
    destruct (decide (k = n)) as [->|]; [|by rewrite seqZ_cons in Htodo by lia].
    pose proof Hl1 as [Hc1 (l0 & [sz u] & Heq & _)]. rewrite Heq in Hc1, Hl1.
    pose proof (layout_last_size fresh _ _ _ _ Hl1) as [Hlast Hend].
    pose proof (chain_header fresh _ _ _ _ _ Hc1) as (Hsz & _ & Hmin & _ & _ & Hr & _).
    rewrite <- Heq in Hl1. heap_steps; [|done].
    apply Z.eqb_eq. rewrite Hlast, Hsz. unfold ptrAdd.
    change BLOCK_MIN_SIZE with 8 in *. destruct Hc1 as (_ & ? & ? & _).
    rewrite wrap_small by (unfold in_word; lia). lia.
Qed.

(** The shape of the layout once enough pages have been added. *)
Lemma grow_pages_tail size l0 sz u :
  let l := l0 ++ [(sz, u)] in
  BLOCK_MIN_SIZE <= size -> (u = false -> 0 <= sz <= size) ->
  grow_pages (needed_pages size l) l
  = before_tail l ++ [(free_tail l + 4096 * needed_pages size l, false)] /\
  0 <= needed_pages size l /\
  size <= free_tail l + 4096 * needed_pages size l < size + 4096 /\
  0 <= free_tail l <= size.
Proof.
  simpl. change BLOCK_MIN_SIZE with 8. intros Hsize Hfree.
  unfold needed_pages, grow_pages. rewrite before_tail_snoc, free_tail_snoc.
  set (t := if u : bool then 0 else sz).
  assert (0 <= t <= size) by (unfold t; destruct u; lia).
  pose proof (Z.div_mod (size - t + 4095) 4096). pose proof (Z.mod_pos_bound (size - t + 4095) 4096).
  split_and!; try lia. destruct (Z.leb_spec ((size - t + 4095) / 4096) 0); [|done].
  unfold t in *. destruct u; [lia|]. do 3 f_equal. lia.
Qed.

Lemma kmalloc_enlarge_spec h e l size :
  heap_layout h l -> heap_ready e (heapEnd h) ->
  BLOCK_MIN_SIZE <= size -> size mod BLOCK_ALIGN = 0 ->
  first_fit size 0 l = None -> (forall l0 sz, l = l0 ++ [(sz, false)] -> sz <= size) ->
  heapEnd h + size + 4096 < 2 ^ 64 -> heapEnd h - heapStart h + size + 4096 < 2 ^ 32 ->
  Runs (kmalloc_enlarge fresh size (lastBlock h)) (h, e) (fun p '(h', e') =>
    let '(off, l') := grow_fit size l in
    p = heapStart h + off + HEADER_SIZE /\ heapStart h' = heapStart h /\
    heap_ready e' (heapEnd h') /\ heap_layout h' l').
Proof.
  intros Hl Hready Hsize Hmod _ Hfree He1 He2. change BLOCK_MIN_SIZE with 8 in *.
  pose proof Hl as [Hc (l0 & [sz u] & -> & _)].
  pose proof (layout_last_size fresh _ _ _ _ Hl) as [Hlast Hend].
  pose proof (chain_header fresh _ _ _ _ _ Hc) as (Hsz & Hu & Hmin & Hmodsz & _ & Hr & _).
  change BLOCK_MIN_SIZE with 8 in *.
  destruct (grow_pages_tail size l0 sz u) as (Hgp & Hn0 & Hn & Ht); [done| |].
  { intros ->. specialize (Hfree l0 sz eq_refl). lia. }
  unfold kmalloc_enlarge. heap_steps; [by rewrite Z.eqb_refl|].
  rewrite Hlast, Hu, Hsz.
  assert (Hpages : u32 (size - (if u then 0 else sz) + 4096 - 1) / 4096
                   = needed_pages size (l0 ++ [(sz, u)])).
  { unfold needed_pages in *. rewrite free_tail_snoc in *. rewrite wrap_small.
    - f_equal. lia.
    - unfold in_word. lia. }
  rewrite Hpages. eapply Runs_mono; [apply (enlargeHeap_spec _ _ (l0 ++ [(sz, u)])); (done || lia)|].
  intros _ [h1 e1] (Hr1 & Hs1 & Hend1 & Hl1). rewrite Hgp in Hl1. unfold grow_fit.
  set (l := l0 ++ [(sz, u)]) in *. set (bt := before_tail l) in *.
  set (s := free_tail l + 4096 * needed_pages size l) in *.
  pose proof Hl1 as [Hc1 Hlo1]. pose proof (layout_last_size fresh _ _ _ _ Hl1) as [Hlast1 Hend1'].
  pose proof (chain_header fresh _ _ _ _ _ Hc1) as (Hsz1 & Hu1 & Hmin1 & Hmod1 & Hend2 & Hr2 & _).
  assert (Hptr : block_getData (block_at h1 bt) = heapStart h + total bt + HEADER_SIZE).
  { unfold block_getData, block_at in *. rewrite Hs1 in *. change HEADER_SIZE with 4.
    destruct Hc1 as (_ & ? & ? & _). rewrite wrap_small by (unfold in_word; lia). lia. }
  heap_steps. { rewrite Hlast1, Hsz1. apply Z.leb_le. lia. }
  rewrite Hlast1, Hsz1, wrap_small by (unfold in_word; change BLOCK_MIN_SIZE with 8; lia).
  change BLOCK_MIN_SIZE with 8. destruct (Z.leb_spec size (s - 8)) as [Hsplit|Hwhole].
  - heap_step. eapply Runs_mono; [apply splitBlock_spec; [done| |done]|].
    { change BLOCK_MIN_SIZE with 8. lia. }
    intros [first second] [h2 e2] (-> & -> & -> & Hl2 & Hs2 & He2' & Hc2).
    do 3 heap_step. set (h3 := with_lastBlock _ h2).
    assert (Hl3 : heap_layout h3 (bt ++ [(size, false); (s - size, false)])).
    { split; [exact Hc2|]. exists (bt ++ [(size, false)]), (s - size, false).
      split; [by rewrite <- app_assoc|]. unfold h3, block_at in *. simpl in *.
      rewrite total_app, Hs2. simpl. lia. }
    replace (block_at h1 bt) with (block_at h3 bt) by (unfold block_at; simpl; lia).
    assert (Hl4 : heap_layout (put_header fresh (block_at h3 bt) (block_setUsed true) h3)
                    (bt ++ [(size, true); (s - size, false)])).
    { by apply layout_setUsed with (u := false). }
    set (h4 := put_header _ _ _ _) in *.
    pose proof (chain_header fresh _ _ _ _ _ (proj1 Hl4)) as (Hsz4 & _).
    pose proof Hl4 as Hl4'. rewrite cons_middle, app_assoc in Hl4'.
    pose proof (layout_last_size fresh _ _ _ _ Hl4') as [Hlast4 Hend4].
    pose proof (chain_header fresh _ _ _ _ _ (proj1 Hl4')) as (Hsz4' & _ & _ & _ & _ & Hr4 & _).
    change (block_at h4) with (block_at h3) in Hsz4.
    assert (Hat : block_at h3 bt = block_at h1 bt) by (unfold block_at; simpl; lia).
    heap_steps.
    { fold h4. rewrite Hsz4. apply Z.leb_le. lia. }
    { fold h4. rewrite Hlast4, Hsz4', <- Hlast4. unfold ptrAdd. rewrite Hend4. apply Z.eqb_eq.
      apply wrap_small. destruct Hl4' as [(_ & ? & ? & _) _]. unfold in_word. lia. }
    split_and!; [by rewrite Hat, Hptr|simpl; congruence| |exact Hl4].
    simpl. by rewrite He2'.
  - assert (Hsame : block_getSize (header fresh
      (put_header fresh (block_at h1 bt) (block_setUsed true) h1) (block_at h1 bt)) = s).
    { by rewrite header_put, decide_True by done. }
    heap_steps.
    { rewrite Hsame. apply Z.leb_le. lia. }
    { simpl. rewrite Hlast1, Hsame. unfold ptrAdd. apply Z.eqb_eq.
      destruct Hc1 as (_ & ? & ? & _). rewrite wrap_small by (unfold in_word; lia). lia. }
    split_and!; [by rewrite Hptr|simpl; congruence|done|].
    by apply layout_setUsed with (u := false).
Qed.
End kmalloc_correct.

(** ** The blocks in use: address and size (header included) of each *)
Fixpoint used_blocks (a : Z) (l : layout) : list (Z * Z) :=
  match l with
  | [] => []
  | (sz, u) :: l' => (if u then [(a, sz)] else []) ++ used_blocks (a + sz) l'
  end.

(** The size of the block that serves a request of [size] bytes. *)
Definition rounded (size : Z) : Z := 4 * ((size + 7) / 4).

Section abstract_facts.
Implicit Types l : layout.

Lemma used_blocks_app a l1 l2 :
  used_blocks a (l1 ++ l2) = used_blocks a l1 ++ used_blocks (a + total l1) l2.
Proof.
  revert a. induction l1 as [|[sz u] l1 IH]; simpl; intros a.
  - by rewrite Z.add_0_r.
  - by rewrite IH, <- app_assoc, Z.add_assoc.
Qed.

Lemma first_fit_None size off l :
  first_fit size off l = None -> Forall (fun b => fits size b = false) l.
Proof.
  revert off. induction l as [|b l IH]; simpl; intros off; [by constructor|].
  destruct (fits size b) eqn:Hb; [done|].
  destruct (first_fit size (off + fst b) l) as [[]|] eqn:Hf; [done|].
  intros _. constructor; [done|by eapply IH].
Qed.

Lemma first_fit_used size a off l o l' :
  first_fit size off l = Some (o, l') ->
  exists sz, size <= sz /\
    used_blocks (a + off) l' ≡ₚ (a + o, sz) :: used_blocks (a + off) l.
Proof.
  revert off l'. induction l as [|[bs u] l IH]; simpl; intros off l'; [done|].
  unfold fits. simpl. destruct (negb u && (size <? bs)) eqn:Hb.
  - destruct u; [done|]. apply Z.ltb_lt in Hb. intros [= <- <-]. unfold place.
    destruct (bs - BLOCK_MIN_SIZE <=? size); simpl.
    + exists bs. split; [lia|done].
    + exists size. split; [lia|]. by replace (a + off + size + (bs - size)) with (a + off + bs) by lia.
  - destruct (first_fit size (off + bs) l) as [[o1 r]|] eqn:Hf; [|done].
    intros [= <- <-]. destruct (IH _ _ Hf) as (sz & Hsz & Hperm). exists sz. split; [done|].
    simpl. rewrite <- Z.add_assoc, Hperm. symmetry. apply Permutation_middle.
Qed.

Lemma alloc_used size a l off l' :
  l <> [] -> alloc size l = (off, l') ->
  (forall l0 sz, l = l0 ++ [(sz, false)] -> first_fit size 0 l = None -> 0 <= sz <= size) ->
  BLOCK_MIN_SIZE <= size ->
  exists sz, size <= sz /\ used_blocks a l' ≡ₚ (a + off, sz) :: used_blocks a l.
Proof.
  intros Hne Halloc Htail Hsize. unfold alloc in Halloc.
  destruct (first_fit size 0 l) as [[o r]|] eqn:Hf.
  { injection Halloc as -> ->. destruct (first_fit_used _ a _ _ _ _ Hf) as (sz & ? & Hp).
    exists sz. split; [done|]. by rewrite Z.add_0_r in Hp. }
  destruct l as [|[sz u] l0 _] using rev_ind; [done|].
  unfold grow_fit in Halloc. injection Halloc as <- <-.
  destruct (grow_pages_tail size l0 sz u) as (_ & _ & Hs & _); [done| |].
  { intros ->. by apply (Htail l0). }
  rewrite before_tail_snoc in *.
  set (s := _ + 4096 * _) in *.
  exists (if size <=? s - BLOCK_MIN_SIZE then size else s). split; [destruct (_ <=? _); lia|].
  rewrite used_blocks_app. destruct (size <=? s - BLOCK_MIN_SIZE); simpl; destruct u.
  all: by rewrite ?used_blocks_app, ?app_nil_r, Permutation_app_comm.
Qed.

(** Blocks in use never overlap. *)
Lemma used_blocks_ge m a l e x s :
  chain m a l e -> (x, s) ∈ used_blocks a l -> a <= x /\ x + s <= e.
Proof.
  revert a. induction l as [|[sz u] l IH]; simpl; intros a; [by rewrite elem_of_nil|].
  intros [(_ & Hmin & _) Hc]. change BLOCK_MIN_SIZE with 8 in *.
  pose proof (chain_total _ _ _ _ Hc). pose proof (chain_total_nonneg _ _ _ _ Hc).
  rewrite elem_of_app. intros [Hin|Hin].
  - destruct u; [|by apply elem_of_nil in Hin]. apply list_elem_of_singleton in Hin as [= -> ->]. lia.
  - apply (IH _ Hc) in Hin. lia.
Qed.
End abstract_facts.

Definition disjoint (b1 b2 : Z * Z) : Prop := fst b1 + snd b1 <= fst b2 \/ fst b2 + snd b2 <= fst b1.

Section main.
Context {E : Type} `{HeapMapper E} (fresh : Z -> BlockState).
Implicit Types (h : KHeap) (e : E) (l : layout).

Lemma rounded_eq size :
  0 < size -> size + 7 < 2 ^ 32 ->
  intAlignSup 32 (u32 (size + HEADER_SIZE)) BLOCK_ALIGN = rounded size /\
  BLOCK_MIN_SIZE <= rounded size /\ size + HEADER_SIZE <= rounded size < size + 8 /\
  rounded size mod BLOCK_ALIGN = 0.
Proof.
  intros H0 Hb. unfold HEADER_SIZE, BLOCK_MIN_SIZE, rounded. change BLOCK_ALIGN with (2 ^ 2).
  rewrite wrap_small by (unfold in_word; lia).
  rewrite intAlignSup_spec by lia. change (2 ^ 2) with 4.
  replace (size + 4 + 4 - 1) with (size + 7) by lia.
  pose proof (Z.div_mod (size + 7) 4). pose proof (Z.mod_pos_bound (size + 7) 4).
  change HEADER_SIZE with 4.
  split_and!; [done|lia|lia|lia|]. rewrite Z.mul_comm. apply Z_mod_mult.
Qed.

(** The room a request needs above the heap. *)
Definition heap_room h (size : Z) : Prop :=
  heapEnd h + size + 8192 < 2 ^ 64 /\ heapEnd h - heapStart h + size + 8192 < 2 ^ 32.

Lemma kmalloc_layout h e l size :
  (forall a, bused (fresh a) = false) ->
  heap_layout h l -> heap_ready e (heapEnd h) -> 0 < size -> heap_room h size ->
  Runs (kmalloc fresh size) (h, e) (fun p '(h', e') =>
    let '(off, l') := alloc (rounded size) l in
    p = heapStart h + off + HEADER_SIZE /\ heapStart h' = heapStart h /\
    heap_ready e' (heapEnd h') /\ heap_layout h' l').
Proof.
  intros Hfresh Hl Hready Hsize [Hr1 Hr2].
  pose proof Hl as [(Hc & Hst & Hen & Hlen & _) _].
  pose proof (chain_length _ _ _ _ Hc) as Hll. pose proof (chain_total _ _ _ _ Hc) as Ht.
  pose proof (chain_total_nonneg _ _ _ _ Hc).
  destruct (rounded_eq size) as (Hrd & Hmin & Hrs & Hmod); [lia|lia|].
  change HEADER_SIZE with 4 in Hrs.
  unfold kmalloc. rewrite (proj2 (Z.eqb_neq _ _)) by lia. rewrite Hrd. heap_step. heap_step.
  heap_step. replace (heapStart h) with (block_at h []) at 1 by (unfold block_at; simpl; lia).
  eapply Runs_mono; [apply (kmalloc_search_spec fresh _ _ h e [] l); try done|].
  { unfold search_fuel. change BLOCK_MIN_SIZE with 8.
    pose proof (Z.div_mod (heapEnd h - heapStart h) 8).
    pose proof (Z.mod_pos_bound (heapEnd h - heapStart h) 8). lia. }
  intros r [h' e']. unfold search_post, alloc. simpl.
  destruct (first_fit (rounded size) 0 l) as [[off l']|] eqn:Hf.
  - intros (-> & He & Hs & Hend & Hl'). simpl in *. subst e'. run_steps.
    split_and!; [done|done|by rewrite Hend|done].
  - intros [[= -> ->] ->]. assert (Hne : l <> []) by by eapply heap_layout_nonempty.
    destruct l as [|b l0] eqn:El; [done|]. rewrite <- El in *.
    apply kmalloc_enlarge_spec; try done; try lia.
    intros l1 sz Heq. apply first_fit_None in Hf. rewrite Heq in Hf.
    apply Forall_app in Hf as [_ Hf]. apply Forall_cons_1 in Hf as [Hf _].
    unfold fits in Hf. simpl in Hf. apply Z.ltb_ge in Hf. lia.
Qed.

(** [kmalloc] succeeds; the block it returns is large enough, is disjoint from the
    blocks in use (by [used_blocks_disjoint]), and these stay in use. *)
Theorem kmalloc_spec h e l size :
  (forall a, bused (fresh a) = false) ->
  heap_layout h l -> heap_ready e (heapEnd h) -> 0 < size -> heap_room h size ->
  Runs (kmalloc fresh size) (h, e) (fun p '(h', e') =>
    exists l' sz, heap_layout h' l' /\ heap_ready e' (heapEnd h') /\
      size + HEADER_SIZE <= sz /\
      used_blocks (heapStart h') l' ≡ₚ (p - HEADER_SIZE, sz) :: used_blocks (heapStart h) l).
Proof.
  intros Hfresh Hl Hready Hsize Hroom.
  eapply Runs_mono; [by apply (kmalloc_layout _ _ l)|].
  intros p [h' e']. destruct (alloc (rounded size) l) as [off l'] eqn:Ha.
  intros (-> & Hs & Hr & Hl').
  destruct Hroom as [Hr1 Hr2]. pose proof Hl as [(Hc & ? & ? & ? & _) _].
  pose proof (chain_total _ _ _ _ Hc). pose proof (chain_total_nonneg _ _ _ _ Hc).
  destruct (rounded_eq size) as (_ & Hmin & Hrs & _); [lia|lia|].
  destruct (alloc_used (rounded size) (heapStart h) l off l') as (sz & Hsz & Hp); try done.
  { by eapply heap_layout_nonempty. }
  { intros l1 s -> Hf. apply first_fit_None, Forall_app in Hf as [_ Hf].
    apply Forall_cons_1 in Hf as [Hf _]. unfold fits in Hf. simpl in Hf.
    apply Z.ltb_ge in Hf. destruct Hl as [Hc' _].
    pose proof (chain_header fresh _ _ _ _ _ Hc') as (_ & _ & Hm & _).
    change BLOCK_MIN_SIZE with 8 in Hm. lia. }
  exists l', sz. split_and!; [done|done|lia|].
  by rewrite Hs, Hp, Z.add_simpl_r.
Qed.

(** Two blocks in use never overlap, and they lie within the heap. *)
Theorem used_blocks_disjoint h l b1 b2 i j :
  heap_layout h l ->
  used_blocks (heapStart h) l !! i = Some b1 -> used_blocks (heapStart h) l !! j = Some b2 ->
  i <> j -> disjoint b1 b2 /\ heapStart h <= fst b1 /\ fst b1 + snd b1 <= heapEnd h.
Proof.
  intros [(Hc & _) _] H1 H2 Hij. split.
  2: { destruct b1 as [x s]. apply list_elem_of_lookup_2 in H1.
       by apply (used_blocks_ge _ _ _ _ _ _ Hc) in H1. }
  revert i j H1 H2 Hij. generalize (heapStart h) (heapEnd h) Hc. clear Hc.
  induction l as [|[sz u] l IH]; intros a e Hc i j H1 H2 Hij; [done|].
  destruct Hc as [_ Hc]. destruct u; simpl in *; [|by eapply IH].
  assert (Hge : forall k b, used_blocks (a + sz) l !! k = Some b -> a + sz <= fst b).
  { intros k [x s] Hk. apply list_elem_of_lookup_2 in Hk.
    by apply (used_blocks_ge _ _ _ _ _ _ Hc) in Hk as [Hk _]. }
  destruct i as [|i], j as [|j]; simplify_eq/=.
  - left. simpl. by eapply Hge.
  - right. simpl. by eapply Hge.
  - eapply IH; (done || lia).
Qed.

Lemma used_blocks_split a l x s :
  (x, s) ∈ used_blocks a l ->
  exists l1 l2, l = l1 ++ (s, true) :: l2 /\ x = a + total l1.
Proof.
  revert a. induction l as [|[sz u] l IH]; simpl; intros a; [by rewrite elem_of_nil|].
  rewrite elem_of_app. intros [Hin|Hin].
  - destruct u; [|by apply elem_of_nil in Hin]. apply list_elem_of_singleton in Hin as [= -> ->].
    exists [], l. simpl. split; [done|lia].
  - apply IH in Hin as (l1 & l2 & -> & ->). exists ((sz, u) :: l1), l2. simpl. split; [done|lia].
Qed.

Lemma kfree_layout h e l1 sz l2 :
  heap_layout h (l1 ++ (sz, true) :: l2) ->
  Runs (kfree fresh (block_at h l1 + HEADER_SIZE)) (h, e) (fun _ '(h', e') =>
    e' = e /\ heapEnd h' = heapEnd h /\ heapStart h' = heapStart h /\
    heap_layout h' (l1 ++ (sz, false) :: l2)).
Proof.
  intros Hl. pose proof Hl as [Hc _].
  pose proof (chain_header fresh _ _ _ _ _ Hc) as (_ & _ & Hm & _ & Hend & Hr & Ht).
  destruct Hc as (_ & Hst & Hen & _). change BLOCK_MIN_SIZE with 8 in *.
  unfold kfree. rewrite (proj2 (Z.eqb_neq _ _)) by (change HEADER_SIZE with 4; lia).
  assert (Hptr : ptrAdd (block_at h l1 + HEADER_SIZE) (- HEADER_SIZE) = block_at h l1).
  { unfold ptrAdd. change HEADER_SIZE with 4. rewrite wrap_small; [lia|].
    unfold in_word. lia. }
  rewrite Hptr. heap_step. split_and!; try done. by eapply layout_setUsed.
Qed.

(** [kfree] of a block in use succeeds and frees that block alone. *)
Theorem kfree_spec h e l p sz :
  heap_layout h l -> (p - HEADER_SIZE, sz) ∈ used_blocks (heapStart h) l ->
  Runs (kfree fresh p) (h, e) (fun _ '(h', e') =>
    e' = e /\ heapEnd h' = heapEnd h /\ heapStart h' = heapStart h /\
    exists l', heap_layout h' l' /\
      used_blocks (heapStart h) l ≡ₚ (p - HEADER_SIZE, sz) :: used_blocks (heapStart h') l').
Proof.
  intros Hl Hin. apply used_blocks_split in Hin as (l1 & l2 & -> & Hp).
  replace p with (block_at h l1 + HEADER_SIZE) by (unfold block_at; lia).
  eapply Runs_mono; [by apply kfree_layout|]. intros [] [h' e'] (-> & He & Hs & Hl').
  split_and!; try done. eexists. split; [done|].
  rewrite Hs, Z.add_simpl_r, !used_blocks_app. simpl. symmetry. apply Permutation_middle.
Qed.
End main.

Section boot.
Context {E : Type} `{HeapMapper E} (fresh : Z -> BlockState).
Implicit Types (h : KHeap) (e : E) (l : layout).

(** The block [init] makes of the multiboot information. *)
Definition boot_block (mbSize : Z) : Z := 4 * ((mbSize + 3) / 4) + 4.

Lemma init_layout h e heapBase mbSize :
  headers h = ∅ -> 0 < heapBase -> heapBase mod PAGE_SIZE = 0 ->
  heapBase + 2097152 < 2 ^ 64 -> 4 < mbSize <= 2097152 - 16 ->
  Runs (init fresh heapBase mbSize) (h, e) (fun _ '(h', e') =>
    e' = e /\ heapStart h' = heapBase /\ heapEnd h' = heapBase + 2097152 /\
    heap_layout h' [(boot_block mbSize, true); (2097152 - boot_block mbSize, false)]).
Proof.
  intros Hh Hb0 Hpg Hb Hmb. unfold init, ptrAdd. change HEADER_SIZE with 4.
  change BLOCK_ALIGN with (2 ^ 2). rewrite intAlignSup_spec by lia. change (2 ^ 2) with 4.
  replace (mbSize + 4 - 1) with (mbSize + 3) by lia.
  pose proof (Z.div_mod (mbSize + 3) 4). pose proof (Z.mod_pos_bound (mbSize + 3) 4).
  rewrite !(wrap_small 32) by (unfold in_word; lia).
  rewrite !(wrap_small 64) by (unfold in_word; lia).
  fold (boot_block mbSize). set (bs := boot_block mbSize) in *.
  assert (Hbs : 8 < bs <= 2097152 - 8) by (unfold bs, boot_block; lia).
  assert (Hm1 : bs mod 4 = 0).
  { unfold bs, boot_block. rewrite Z.mul_comm, Z.add_comm.
    rewrite <- (Z.mul_1_l 4) at 1. rewrite <- Z.mul_add_distr_r. apply Z_mod_mult. }
  assert (Hm2 : (2097152 - bs) mod 4 = 0) by (by rewrite Zminus_mod, Hm1).
  heap_steps; try done. { apply Z.ltb_lt. change BLOCK_MIN_SIZE with 8. lia. }
  split_and!; try done. split.
  - unfold heap_chain. simpl. rewrite Hh. split_and!; try (done || lia).
    + apply is_block_insert_ne; [lia|]. apply is_block_insert_ne; [lia|].
      apply is_block_insert; try done.
      { rewrite header_put, decide_True by done. apply block_size_roundtrip; [lia|done]. }
      change BLOCK_MIN_SIZE with 8. lia.
    + apply is_block_insert; try done. 2: { change BLOCK_MIN_SIZE with 8. lia. }
      rewrite header_put, decide_True by done. apply block_size_roundtrip; [lia|done].
    + rewrite <- Zplus_mod_idemp_l, Hpg. done.
    + intros a Ha. rewrite !lookup_insert_ne by lia. apply lookup_empty.
  - exists [(bs, true)], (2097152 - bs, false). split; [done|]. simpl. lia.
Qed.

(** The multiboot information starts 8 bytes into the heap, not 4: its last four
    bytes lie under the header of the block behind it. *)
Theorem init_overlaps_multiboot_info heapBase mbSize :
  0 <= heapBase -> heapBase mod PAGE_SIZE = 0 -> heapBase + 2097152 < 2 ^ 64 ->
  0 <= mbSize -> mbSize mod 4 = 0 ->
  ptrAlignSup (heapBase + HEADER_SIZE) 8 + mbSize = heapBase + boot_block mbSize + 4.
Proof.
  intros H0 Hpg Hb Hmb Hm. rewrite ptrAlignSup_int. change 8 with (2 ^ 3).
  change HEADER_SIZE with 4. change PAGE_SIZE with 4096 in Hpg.
  rewrite intAlignSup_spec by lia. change (2 ^ 3) with 8. unfold boot_block.
  pose proof (Z.div_mod heapBase 4096). pose proof (Z.div_mod mbSize 4).
  replace (heapBase + 4 + 8 - 1) with (8 + 3 + (heapBase / 4096 * 512) * 8) by lia.
  rewrite Z.div_add by lia. change ((8 + 3) / 8) with 1.
  replace (mbSize + 3) with (3 + mbSize / 4 * 4) by lia. rewrite Z.div_add by lia.
  change (3 / 4) with 0. lia.
Qed.

(** Allocating and freeing [k] times in a row. *)
Fixpoint malloc_free (k : nat) (size : Z) : ST (KHeap * E) unit :=
  match k with
  | O => mret tt
  | S k => p ← kmalloc fresh size; kfree fresh p ;; malloc_free k size
  end.

Lemma first_fit_skip size off pre l :
  Forall (fun b => fits size b = false) pre ->
  first_fit size off (pre ++ l) =
  '(o, r) ← first_fit size (off + total pre) l; Some (o, pre ++ r).
Proof.
  intros Hpre. revert off. induction Hpre as [|b pre Hb Hpre IH]; intros off; simpl.
  - rewrite Z.add_0_r. by destruct (first_fit size off l) as [[]|].
  - rewrite Hb, IH, Z.add_assoc. by destruct (first_fit size _ l) as [[]|].
Qed.

(** A freed block of exactly the needed size is never given out again: the code
    takes only blocks that are strictly larger.  A loop that allocates and frees one
    block therefore cuts a new block off the free space in each round. *)
Theorem malloc_free_leaks k h e pre size rest :
  (forall a, bused (fresh a) = false) ->
  heap_layout h (pre ++ [(rest, false)]) -> heap_ready e (heapEnd h) ->
  0 < size -> heap_room h size ->
  Forall (fun b => fits (rounded size) b = false) pre ->
  Z.of_nat k * rounded size + BLOCK_MIN_SIZE < rest ->
  Runs (malloc_free k size) (h, e) (fun _ '(h', _) =>
    heap_layout h' (pre ++ replicate k (rounded size, false)
                        ++ [(rest - Z.of_nat k * rounded size, false)])).
Proof.
  intros Hfresh. revert h e pre rest. induction k as [|k IH]; intros h e pre rest Hl Hready
    Hsize Hroom Hpre Hrest; simpl.
  - by rewrite Z.sub_0_r.
  - set (n := rounded size) in *. change BLOCK_MIN_SIZE with 8 in *.
    destruct Hroom as [Hr1 Hr2]. pose proof Hl as [(Hc & Hst & Hen & Hlen & _) _].
    pose proof (chain_total _ _ _ _ Hc) as Ht. pose proof (chain_total_nonneg _ _ _ _ Hc).
    destruct (rounded_eq size) as (_ & Hmin & Hrs & _); [lia|lia|]. fold n in Hmin, Hrs.
    change BLOCK_MIN_SIZE with 8 in *.
    apply Runs_bind. eapply Runs_mono; [by apply (kmalloc_layout _ _ _ _ _ Hfresh Hl)|].
    intros p [h1 e1]. fold n. unfold alloc. rewrite first_fit_skip by done. simpl.
    unfold fits. simpl. rewrite (proj2 (Z.ltb_lt _ _)) by lia. simpl.
    unfold place. rewrite (proj2 (Z.leb_gt _ _)) by (change BLOCK_MIN_SIZE with 8; lia). simpl.
    intros (-> & Hs1 & Hre1 & Hl1).
    replace (heapStart h) with (heapStart h1) by done.
    change (heapStart h1 + total pre) with (block_at h1 pre).
    apply Runs_bind. eapply Runs_mono; [by apply kfree_layout|].
    intros [] [h2 e2] (-> & He2 & Hs2 & Hl2).
    pose proof Hl2 as [(Hc2 & _) _]. pose proof (chain_total _ _ _ _ Hc2) as Ht2.
    rewrite total_app in Ht, Ht2. simpl in Ht, Ht2.
    eapply Runs_mono; [apply (IH h2 e1 (pre ++ [(n, false)]) (rest - n))|].
    + by rewrite <- app_assoc.
    + by rewrite He2.
    + done.
    + unfold heap_room. lia.
    + apply Forall_app. split; [done|]. apply Forall_singleton. unfold fits. simpl. lia.
    + fold n. change BLOCK_MIN_SIZE with 8. lia.
    + intros [] [h3 e3]. fold n. rewrite <- app_assoc. simpl.
      replace (rest - n - Z.of_nat k * n) with (rest - Z.of_nat (S k) * n) by lia. done.
Qed.
End boot.

(** ** The heap on a concrete machine

    A page directory that only remembers which heap pages it has mapped, and the heap
    as it is right after [init]. *)
Definition page_set_map (a : Z) : ST (gset Z) unit :=
  s ← read_state;
  assertion (negb (bool_decide (a ∈ s))) "Page already mapped" ;;
  modify (fun s => {[a]} ∪ s).

Lemma page_set_map_ok (s : gset Z) (a : Z) :
  (forall x, x ∈ s -> x < a) ->
  Runs (page_set_map a) s (fun _ s' => forall x, x ∈ s' -> x < a + PAGE_SIZE).
Proof.
  intros Hs. unfold page_set_map. run_steps.
  - rewrite bool_decide_false; [done|]. intros Ha%Hs. lia.
  - intros x. rewrite elem_of_union, elem_of_singleton. change PAGE_SIZE with 4096.
    intros [->|Hx%Hs]; lia.
Qed.

#[export] Instance page_set_mapper : HeapMapper (gset Z) := {
  map_heap_page := page_set_map;
  heap_ready s a := forall x, x ∈ s -> x < a;
  map_heap_page_ok := page_set_map_ok;
}.

Definition clear_memory : Z -> BlockState := fun _ => mkBlock false false 0.
Definition dirty_memory : Z -> BlockState := fun _ => mkBlock true false 0.
(** [_heapBase] of the linker script, and a multiboot information of 1000 bytes. *)
Definition heapBase : Z := 18446744073441116160.
Definition unborn_heap : KHeap := mkKHeap 0 0 0 ∅.
Definition booted (fresh : Z -> BlockState) : KHeap :=
  match init (E := gset Z) fresh heapBase 1000 (unborn_heap, ∅) with
  | Ok (_, (h, _)) => h
  | Err _ => unborn_heap
  end.

Lemma booted_layout :
  heap_layout (booted clear_memory) [(1004, true); (2097152 - 1004, false)] /\
  heapStart (booted clear_memory) = heapBase /\
  heapEnd (booted clear_memory) = heapBase + 2097152.
Proof.
  pose proof (init_layout (E := gset Z) clear_memory unborn_heap ∅ heapBase 1000) as Hi.
  unfold Runs, booted in *. destruct (init _ _ _ _) as [[[] [h e]]|].
  - destruct Hi as (_ & Hs & He & Hl); (done || lia || auto).
  - destruct Hi; (done || lia).
Defined.

(** C2. [kmalloc] implements first fit: on a heap with layout [l] without a free block of exactly the size it succeeds, returns the data
    of the first free block that is large enough, and leaves that block whole or split, or grows the last block by
    whole pages; none of the assertions on the way fails.  (A free block of exactly the size is passed over, against the
    comment: [kmalloc_exact_passed].)  The pages that the heap gets are cleared, and it has room to grow. *)
Theorem kmalloc_refines {E} `{HeapMapper E} (fresh : Z -> BlockState) h (e : E) l size :
  (forall a, bused (fresh a) = false) ->
  heap_layout h l -> heap_ready e (heapEnd h) -> 0 < size -> heap_room h size -> (rounded size, false) ∉ l ->
  Runs (kmalloc fresh size) (h, e) (fun p '(h', e') =>
    let '(off, l') := alloc_exact (rounded size) l in
    p = heapStart h + off + HEADER_SIZE /\ heapStart h' = heapStart h /\
    heap_ready e' (heapEnd h') /\ heap_layout h' l').
Proof. intros Hfresh Hl He H0 Hroom Hn. rewrite (alloc_exact_eq _ _ Hn). by apply kmalloc_layout. Qed.

Lemma kmalloc_refines_witness :
  Runs (kmalloc clear_memory 24) (booted clear_memory, (∅ : gset Z)) (fun p '(h', e') =>
    let '(off, l') := alloc_exact (rounded 24) [(1004, true); (2097152 - 1004, false)] in
    p = heapStart (booted clear_memory) + off + HEADER_SIZE /\
    heapStart h' = heapStart (booted clear_memory) /\
    heap_ready e' (heapEnd h') /\ heap_layout h' l').
Proof.
  destruct booted_layout as (Hl & Hs & He).
  apply kmalloc_refines; [done|exact Hl|by intros x ?%elem_of_empty|lia| |].
  - unfold heap_room. rewrite Hs, He. unfold heapBase. lia.
  - apply (bool_decide_unpack _). by vm_compute.
Defined.

(** A block that has just been freed is not taken by a request of its size: the next block is. *)
Theorem kmalloc_exact_passed :
  Runs (p ← kmalloc clear_memory 24; kmalloc clear_memory 8 ;; kfree clear_memory p ;; q ← kmalloc clear_memory 24; mret (p, q))
       (booted clear_memory, (∅ : gset Z)) (fun pq _ => pq.1 < pq.2).
Proof. by vm_compute. Qed.

(** A request of the last four sizes before 2^32 wraps around when the header is
    counted: the block that is returned has no room for data, and the heap it leaves is
    broken: the next request that passes over the block fails. *)
Theorem kmalloc_size_overflow :
  Runs (p ← kmalloc clear_memory 4294967295; getSize clear_memory (p - HEADER_SIZE))
       (booted clear_memory, (∅ : gset Z)) (fun sz _ => sz = HEADER_SIZE) /\
  Fails (kmalloc clear_memory 4294967295 ;; kmalloc clear_memory 16)
        (booted clear_memory, (∅ : gset Z)) (AssertionFailed "blockSize >= BLOCK_MIN_SIZE").
Proof. split; vm_compute; reflexivity. Qed.

(** A page that was just mapped is not cleared, and a new last block keeps whatever used
    bit lies there.  When the bit is set, [kmalloc] fails on a heap that has to grow. *)
Theorem kmalloc_dirty_page :
  Fails (kmalloc dirty_memory 2096140 ;; kmalloc dirty_memory 16)
        (booted dirty_memory, (∅ : gset Z)) (AssertionFailed "!block->getUsed()").
Proof. vm_compute. reflexivity. Qed.

(** [malloc] drops the upper half of its [size_t]. *)
Theorem malloc_truncates (size : Z) {E} `{HeapMapper E} fresh (s : KHeap * E) :
  malloc fresh (2 ^ 32 + size) s = malloc fresh size s.
Proof.
  unfold malloc. f_equal. unfold wrap. rewrite Z.add_comm, <- (Z.mul_1_l (2 ^ 32)) at 1.
  by rewrite Z_mod_plus_full.
Qed.

(** ** The theorems at work, on the heap as it is after [init] *)
Lemma booted_room size : 0 < size < 4096 -> heap_room (booted clear_memory) size.
Proof.
  intros Hs. destruct booted_layout as (_ & H1 & H2). unfold heap_room. rewrite H1, H2.
  unfold heapBase. lia.
Qed.

Lemma kmalloc_spec_witness :
  Runs (kmalloc clear_memory 24) (booted clear_memory, (∅ : gset Z)) (fun p '(h', e') =>
    exists l' sz, heap_layout h' l' /\ heap_ready e' (heapEnd h') /\ 24 + HEADER_SIZE <= sz /\
      used_blocks (heapStart h') l' ≡ₚ (p - HEADER_SIZE, sz) ::
        used_blocks (heapStart (booted clear_memory)) [(1004, true); (2097152 - 1004, false)]).
Proof.
  apply kmalloc_spec; [done|apply booted_layout|by intros x ?%elem_of_empty|lia|].
  apply booted_room. lia.
Defined.

Lemma kfree_spec_witness :
  Runs (kfree clear_memory (heapBase + HEADER_SIZE)) (booted clear_memory, (∅ : gset Z))
    (fun _ '(h', e') =>
      e' = (∅ : gset Z) /\ heapEnd h' = heapEnd (booted clear_memory) /\
      heapStart h' = heapStart (booted clear_memory) /\
      exists l', heap_layout h' l' /\
        used_blocks (heapStart (booted clear_memory)) [(1004, true); (2097152 - 1004, false)]
        ≡ₚ (heapBase + HEADER_SIZE - HEADER_SIZE, 1004) :: used_blocks (heapStart h') l').
Proof.
  destruct booted_layout as (Hl & Hs & He).
  apply (kfree_spec clear_memory _ _ [(1004, true); (2097152 - 1004, false)]); [exact Hl|].
  rewrite Hs. left.
Defined.

(** The heap after one allocation has two blocks in use. *)
Lemma used_blocks_disjoint_witness :
  Runs (kmalloc clear_memory 24) (booted clear_memory, (∅ : gset Z)) (fun _ '(h, _) =>
    disjoint (heapBase, 1004) (heapBase + 1004, 28) /\
    heapStart h <= heapBase /\ heapBase + 1004 <= heapEnd h).
Proof.
  destruct booted_layout as (Hl & Hs & He).
  eapply Runs_mono.
  - apply (kmalloc_layout clear_memory _ _ [(1004, true); (2097152 - 1004, false)] 24); [done|exact Hl|by intros x ?%elem_of_empty|lia|].
    apply booted_room. lia.
  - intros p [h e]. change (alloc (rounded 24) [(1004, true); (2097152 - 1004, false)])
      with (1004, [(1004, true); (28, true); (2097152 - 1004 - 28, false)]).
    rewrite Hs. intros (_ & Hs' & _ & Hl').
    apply (used_blocks_disjoint h _ (heapBase, 1004) (heapBase + 1004, 28) 0 1 Hl'); by rewrite ?Hs'.
Defined.

Lemma malloc_free_leaks_witness :
  Runs (malloc_free clear_memory 3 24) (booted clear_memory, (∅ : gset Z)) (fun _ '(h', _) =>
    heap_layout h' ([(1004, true)] ++ replicate 3 (28, false)
                      ++ [(2097152 - 1004 - Z.of_nat 3 * 28, false)])).
Proof.
  destruct booted_layout as (Hl & Hs & He).
  apply (malloc_free_leaks clear_memory 3 _ _ [(1004, true)] 24 (2097152 - 1004));
    [done|exact Hl|by intros x ?%elem_of_empty|lia|apply booted_room; lia| |].
  - by apply Forall_singleton.
  - vm_compute. done.
Defined.

Lemma init_overlaps_multiboot_info_witness :
  ptrAlignSup (heapBase + HEADER_SIZE) 8 + 1000 = heapBase + boot_block 1000 + 4.
Proof. apply (init_overlaps_multiboot_info heapBase 1000); (done || (unfold heapBase; lia)). Defined.
