(* ===== verification/Pte.v ===== *)
(** * Page table entries: [PageDirectory::PageTableEntry], and the addresses

    The entry of every level is the same 64-bit structure of bit-fields, here a record
    with a boolean for each one-bit field.  [pte_encode] is its memory image, which is
    what the processor reads; the compiler allocates bit-fields from the lowest bit. *)

From Stdlib Require Import ZArith Lia.
From stdpp Require Import list numbers.
From S2P Require Import Prelude Words.

Definition BASE_SHIFT : Z := 12.
Definition ATTR_RW : Z := 1.
Definition ATTR_PUBLIC : Z := 2.
Definition ATTR_NOEXEC : Z := 4.
Definition ATTR_DEFER : Z := 8.

Record PageTableEntry : Type := mkPte {
  pte_p : bool;       (** present *)
  pte_rw : bool;
  pte_us : bool;
  pte_pwt : bool;
  pte_pcd : bool;
  pte_a : bool;
  pte_d : bool;
  pte_pat : bool;
  pte_g : bool;
  pte_avl : Z;        (** 3 bits *)
  pte_base : Z;       (** 40 bits *)
  pte_avl2 : Z;       (** 11 bits *)
  pte_nx : bool;
}.

#[export] Instance pte_eq_dec : EqDecision PageTableEntry.
Proof. solve_decision. Defined.

(** What the constructors of [PageManager], which clear themselves with [memset], leave in an entry. *)
Definition zero_pte : PageTableEntry :=
  mkPte false false false false false false false false false 0 0 0 false.

(** Assignments to the fields the code writes. *)
Definition set_p (b : bool) (e : PageTableEntry) : PageTableEntry :=
  mkPte b (pte_rw e) (pte_us e) (pte_pwt e) (pte_pcd e) (pte_a e) (pte_d e) (pte_pat e)
        (pte_g e) (pte_avl e) (pte_base e) (pte_avl2 e) (pte_nx e).
Definition set_rw (b : bool) (e : PageTableEntry) : PageTableEntry :=
  mkPte (pte_p e) b (pte_us e) (pte_pwt e) (pte_pcd e) (pte_a e) (pte_d e) (pte_pat e)
        (pte_g e) (pte_avl e) (pte_base e) (pte_avl2 e) (pte_nx e).
Definition set_us (b : bool) (e : PageTableEntry) : PageTableEntry :=
  mkPte (pte_p e) (pte_rw e) b (pte_pwt e) (pte_pcd e) (pte_a e) (pte_d e) (pte_pat e)
        (pte_g e) (pte_avl e) (pte_base e) (pte_avl2 e) (pte_nx e).
Definition set_nx (b : bool) (e : PageTableEntry) : PageTableEntry :=
  mkPte (pte_p e) (pte_rw e) (pte_us e) (pte_pwt e) (pte_pcd e) (pte_a e) (pte_d e) (pte_pat e)
        (pte_g e) (pte_avl e) (pte_base e) (pte_avl2 e) b.
Definition set_base (b : Z) (e : PageTableEntry) : PageTableEntry :=
  mkPte (pte_p e) (pte_rw e) (pte_us e) (pte_pwt e) (pte_pcd e) (pte_a e) (pte_d e) (pte_pat e)
        (pte_g e) (pte_avl e) (wrap 40 b) (pte_avl2 e) (pte_nx e).

(** [PageTableEntry::getAttributes] *)
Definition getAttributes (e : PageTableEntry) : Z :=
  let attr := 0 in
  let attr := if pte_rw e then Z.lor attr ATTR_RW else attr in
  let attr := if pte_us e then Z.lor attr ATTR_PUBLIC else attr in
  let attr := if pte_nx e then Z.lor attr ATTR_NOEXEC else attr in
  if negb (pte_p e) && (pte_base e =? INVALID_PAGE) then Z.lor attr ATTR_DEFER else attr.

(** [PageTableEntry::isValid] *)
Definition isValid (e : PageTableEntry) : bool := pte_p e || (pte_base e =? INVALID_PAGE).

Definition has_attr (attributes flag : Z) : bool := negb (Z.land attributes flag =? 0).

(** [AttributeSetter<Attr>] *)
Definition AttributeSetter (Attr : Z) (e : PageTableEntry) : PageTableEntry :=
  let e := if has_attr Attr ATTR_RW then set_rw true e else e in
  let e := if has_attr Attr ATTR_PUBLIC then set_us true e else e in
  let e := if has_attr Attr ATTR_NOEXEC then set_nx true e else e in
  if has_attr Attr ATTR_DEFER then set_p false e else e.

(** ** The memory image *)
Definition bit (b : bool) (n : Z) : Z := Z.shiftl (Z.b2z b) n.

Definition pte_encode (e : PageTableEntry) : Z :=
  bit (pte_p e) 0 + bit (pte_rw e) 1 + bit (pte_us e) 2 + bit (pte_pwt e) 3 +
  bit (pte_pcd e) 4 + bit (pte_a e) 5 + bit (pte_d e) 6 + bit (pte_pat e) 7 +
  bit (pte_g e) 8 + Z.shiftl (pte_avl e) 9 + Z.shiftl (pte_base e) 12 +
  Z.shiftl (pte_avl2 e) 52 + bit (pte_nx e) 63.

Definition field (v lo width : Z) : Z := wrap width (Z.shiftr v lo).

Definition pte_decode (v : Z) : PageTableEntry :=
  mkPte (Z.testbit v 0) (Z.testbit v 1) (Z.testbit v 2) (Z.testbit v 3) (Z.testbit v 4)
        (Z.testbit v 5) (Z.testbit v 6) (Z.testbit v 7) (Z.testbit v 8)
        (field v 9 3) (field v 12 40) (field v 52 11) (Z.testbit v 63).

(** The fields are within their widths. *)
Definition pte_wf (e : PageTableEntry) : Prop :=
  in_word 3 (pte_avl e) /\ in_word 40 (pte_base e) /\ in_word 11 (pte_avl2 e).

Lemma div_pow2_split a b k : 0 <= k -> 0 <= a < 2 ^ k -> (a + b * 2 ^ k) / 2 ^ k = b.
Proof.
  intros Hk Ha. rewrite Z.div_add by lia. rewrite Z.div_small by lia. lia.
Qed.

Lemma pte_encode_sum e :
  pte_encode e =
  Z.b2z (pte_p e) + 2 * (Z.b2z (pte_rw e) + 2 * (Z.b2z (pte_us e) + 2 * (Z.b2z (pte_pwt e) +
  2 * (Z.b2z (pte_pcd e) + 2 * (Z.b2z (pte_a e) + 2 * (Z.b2z (pte_d e) +
  2 * (Z.b2z (pte_pat e) + 2 * (Z.b2z (pte_g e) + 2 * (pte_avl e + 2 ^ 3 * (pte_base e +
  2 ^ 40 * (pte_avl2 e + 2 ^ 11 * Z.b2z (pte_nx e)))))))))))).
Proof. unfold pte_encode, bit. rewrite !Z.shiftl_mul_pow2 by lia. lia. Qed.

Lemma peel_bit b n : Z.odd (Z.b2z b + 2 * n) = b /\ (Z.b2z b + 2 * n) / 2 = n.
Proof.
  split.
  - rewrite Z.odd_add, Z.odd_mul. simpl. by destruct b.
  - rewrite Z.mul_comm, Z.div_add by lia. by destruct b; rewrite Z.div_small by (simpl; lia).
Qed.

Lemma b2z_range b : 0 <= Z.b2z b <= 1.
Proof. destruct b; simpl; lia. Qed.

Lemma testbit_head b n : Z.testbit (Z.b2z b + 2 * n) 0 = b.
Proof. rewrite Z.add_comm. apply Z.testbit_0_r. Qed.

Lemma testbit_skip b n i : 0 < i -> Z.testbit (Z.b2z b + 2 * n) i = Z.testbit n (i - 1).
Proof.
  intros Hi. rewrite Z.add_comm. replace i with (Z.succ (i - 1)) at 1 by lia.
  by rewrite Z.testbit_succ_r by lia.
Qed.

Lemma testbit_above_field a n w i :
  0 <= w -> in_word w a -> w <= i -> Z.testbit (a + 2 ^ w * n) i = Z.testbit n (i - w).
Proof.
  intros Hw Ha Hi. replace i with (i - w + w) at 1 by lia. rewrite <- Z.div_pow2_bits by lia.
  rewrite (Z.mul_comm (2 ^ w)), Z.div_add, Z.div_small by (unfold in_word in Ha; lia).
  f_equal.
Qed.

Lemma field_skip b n lo w :
  0 < lo -> 0 <= w -> field (Z.b2z b + 2 * n) lo w = field n (lo - 1) w.
Proof.
  intros Hlo Hw. unfold field. f_equal.
  replace lo with (1 + (lo - 1)) at 1 by lia. rewrite <- Z.shiftr_shiftr by lia.
  f_equal. rewrite Z.shiftr_div_pow2 by lia. apply peel_bit.
Qed.

Lemma field_head a n w : 0 <= w -> in_word w a -> field (a + 2 ^ w * n) 0 w = a.
Proof.
  intros Hw Ha. unfold field, wrap. rewrite Z.shiftr_0_r, Z.add_comm, Z.mul_comm.
  rewrite Z.add_comm, Z_mod_plus_full. by apply Z.mod_small.
Qed.

Lemma field_below a n w lo w' :
  0 <= w -> in_word w a -> w <= lo -> field (a + 2 ^ w * n) lo w' = field n (lo - w) w'.
Proof.
  intros Hw Ha Hlo. unfold field. f_equal. replace lo with (w + (lo - w)) at 1 by lia.
  rewrite <- Z.shiftr_shiftr by lia. f_equal. rewrite Z.shiftr_div_pow2 by lia.
  rewrite Z.mul_comm, Z.div_add, Z.div_small by (unfold in_word in Ha; lia). lia.
Qed.

(** Skips the one-bit fields below the one a decoded field reads. *)
Ltac compute_position i := let j := eval compute in i in change i with j.
Ltac next_position :=
  match goal with
  | |- Z.testbit _ ?i = _ => compute_position i
  | |- field _ ?i _ = _ => compute_position i
  end.
Ltac skip_bits :=
  repeat (first [rewrite testbit_skip by lia | rewrite field_skip by lia]; next_position).

Lemma decode_encode e : pte_wf e -> pte_decode (pte_encode e) = e.
Proof.
  intros (Havl & Hbase & Havl2). rewrite pte_encode_sum.
  destruct e as [? ? ? ? ? ? ? ? ? avl base avl2 nx].
  cbn [pte_p pte_rw pte_us pte_pwt pte_pcd pte_a pte_d pte_pat pte_g pte_avl pte_base
       pte_avl2 pte_nx] in *.
  replace (2 ^ 11 * Z.b2z nx) with (2 ^ 11 * (Z.b2z nx + 2 * 0)) by lia.
  unfold pte_decode. f_equal; skip_bits; try apply testbit_head.
  - by apply (field_head avl _ 3).
  - rewrite (field_below avl _ 3) by (done || lia). next_position.
    by apply (field_head base _ 40).
  - rewrite (field_below avl _ 3) by (done || lia). next_position.
    rewrite (field_below base _ 40) by (done || lia). next_position.
    by apply (field_head avl2 _ 11).
  - rewrite (testbit_above_field avl _ 3) by (done || lia). next_position.
    rewrite (testbit_above_field base _ 40) by (done || lia). next_position.
    rewrite (testbit_above_field avl2 _ 11) by (done || lia). next_position.
    apply testbit_head.
Qed.

(** The bits the processor reads, which the walk of the tables uses: P is bit 0, the page base is bits 12 to 51, and the
    entry fits in 64 bits. *)
Theorem pte_encode_bits e :
  pte_wf e ->
  Z.testbit (pte_encode e) 0 = pte_p e /\
  field (pte_encode e) 12 40 = pte_base e /\
  Z.testbit (pte_encode e) 63 = pte_nx e /\
  in_word 64 (pte_encode e).
Proof.
  intros Hwf. pose proof (decode_encode e Hwf) as Hd. unfold pte_decode in Hd.
  split_and!; try (rewrite <- Hd at 2; done).
  destruct Hwf as (Havl & Hbase & Havl2). rewrite pte_encode_sum. unfold in_word in *.
  repeat match goal with
    |- context [Z.b2z ?b] => pose proof (b2z_range b); generalize dependent (Z.b2z b); intros
  end. lia.
Qed.

Lemma shiftr_bit v i j :
  0 <= i -> j = i + 1 -> Z.shiftr v i = Z.b2z (Z.testbit v i) + 2 * Z.shiftr v j.
Proof.
  intros Hi ->. rewrite <- Z.shiftr_shiftr by lia. rewrite (Z.shiftr_div_pow2 (Z.shiftr v i)) by lia.
  change (2 ^ 1) with 2. replace (Z.testbit v i) with (Z.testbit (Z.shiftr v i) 0).
  - pose proof (Z.bit0_mod (Z.shiftr v i)) as E. pose proof (Z.div_mod (Z.shiftr v i) 2). lia.
  - by rewrite Z.shiftr_spec by lia.
Qed.

Lemma shiftr_field v i w j :
  0 <= i -> 0 <= w -> j = i + w -> Z.shiftr v i = field v i w + 2 ^ w * Z.shiftr v j.
Proof.
  intros Hi Hw ->. rewrite <- Z.shiftr_shiftr by lia. rewrite (Z.shiftr_div_pow2 (Z.shiftr v i)) by lia.
  unfold field, wrap. pose proof (Z.div_mod (Z.shiftr v i) (2 ^ w)).
  assert (0 < 2 ^ w) by (apply Z.pow_pos_nonneg; lia). lia.
Qed.

(** The structure has no padding: its memory image determines an entry and conversely,
    every 64-bit word being the image of one well-formed entry. *)
Theorem pte_roundtrip e v :
  pte_wf e -> in_word 64 v ->
  pte_decode (pte_encode e) = e /\ pte_encode (pte_decode v) = v /\ pte_wf (pte_decode v).
Proof.
  intros He Hv. split_and!; [by apply decode_encode| |by split_and!; apply wrap_range].
  rewrite pte_encode_sum. unfold pte_decode.
  cbn [pte_p pte_rw pte_us pte_pwt pte_pcd pte_a pte_d pte_pat pte_g pte_avl pte_base
       pte_avl2 pte_nx].
  unfold in_word in Hv.
  assert (Z.shiftr v 64 = 0) as Z64 by (rewrite Z.shiftr_div_pow2 by done; by apply Z.div_small).
  rewrite <- (Z.shiftr_0_r v) at 14.
  rewrite (shiftr_bit v 0 1), (shiftr_bit v 1 2), (shiftr_bit v 2 3), (shiftr_bit v 3 4),
    (shiftr_bit v 4 5), (shiftr_bit v 5 6), (shiftr_bit v 6 7), (shiftr_bit v 7 8),
    (shiftr_bit v 8 9), (shiftr_field v 9 3 12), (shiftr_field v 12 40 52),
    (shiftr_field v 52 11 63), (shiftr_bit v 63 64), Z64 by lia.
  lia.
Qed.

Lemma pte_roundtrip_witness :
  pte_decode (pte_encode (set_base 5 (set_p true zero_pte))) = set_base 5 (set_p true zero_pte) /\
  pte_encode (pte_decode 0x8000000000005007) = 0x8000000000005007 /\
  pte_wf (pte_decode 0x8000000000005007).
Proof. apply (pte_roundtrip (set_base 5 (set_p true zero_pte)) 0x8000000000005007); done. Defined.

(** ** Attributes *)
Section attributes.
Implicit Types e : PageTableEntry.

Lemma set_base_wf e b : pte_wf e -> pte_wf (set_base b e).
Proof. intros (? & _ & ?). split_and!; [done|by apply wrap_range|done]. Qed.

Lemma AttributeSetter_base Attr e : pte_base (AttributeSetter Attr e) = pte_base e.
Proof. unfold AttributeSetter. by repeat case_match. Qed.

Lemma AttributeSetter_p Attr e :
  pte_p (AttributeSetter Attr e) = negb (has_attr Attr ATTR_DEFER) && pte_p e.
Proof. unfold AttributeSetter. by repeat case_match. Qed.

Lemma AttributeSetter_wf Attr e : pte_wf e -> pte_wf (AttributeSetter Attr e).
Proof. unfold AttributeSetter. intros. by repeat case_match. Qed.
End attributes.

(** The attributes a page is mapped with are those it has, when no rights of an earlier mapping are left in its entry. *)
Definition no_rights (e : PageTableEntry) : bool := negb (pte_rw e) && negb (pte_us e) && negb (pte_nx e).

Lemma attributes_set attributes base e :
  0 <= attributes < 16 -> no_rights e = true -> has_attr attributes ATTR_DEFER = false \/ base = INVALID_PAGE ->
  getAttributes (AttributeSetter attributes (set_base base (set_p true e))) = attributes.
Proof.
  intros Ha He Hb. unfold no_rights in He. apply andb_true_iff in He as [[Hrw Hus]%andb_true_iff Hnx].
  apply negb_true_iff in Hrw, Hus, Hnx.
  assert (attributes ∈ seqZ 0 16) as Hin by (apply elem_of_seqZ; lia).
  change (seqZ 0 16) with [0; 1; 2; 3; 4; 5; 6; 7; 8; 9; 10; 11; 12; 13; 14; 15] in Hin.
  destruct e. cbn in Hrw, Hus, Hnx. subst.
  destruct Hb as [Hd| ->].
  - revert Hd. unfold getAttributes. rewrite AttributeSetter_p. intros Hd. rewrite Hd. cbn [negb andb pte_p set_base set_p].
    revert Hd. repeat (apply elem_of_cons in Hin as [->|Hin]; [by vm_compute|]). by apply elem_of_nil in Hin.
  - repeat (apply elem_of_cons in Hin as [->|Hin]; [by vm_compute|]). by apply elem_of_nil in Hin.
Qed.

Lemma attributes_kept attributes base :
  0 <= attributes < 16 -> has_attr attributes ATTR_DEFER = false \/ base = INVALID_PAGE ->
  getAttributes (AttributeSetter attributes (set_base base (set_p true zero_pte))) = attributes.
Proof. intros Ha. by apply attributes_set. Qed.
