(* ===== verification/PageManager.v ===== *)
(** * The multi-level page tables: [PageManager.hpp]

    The template [PageManager<Allocator, CurLevel, NextLevels...>] is a tree of tables
    of 512 entries: four levels for [X86_64PageManager].  Each table that is not of
    the last level keeps, beside the entries the processor reads, the virtual address
    of the table every entry leads to ([m_nextLayouts]).  The tables live in a store
    indexed by their virtual address, so that two directories may share one (the
    kernel's), and the allocator of the tables is a template parameter: here the
    class [TableAllocator]. *)

From Stdlib Require Import ZArith Lia.
From stdpp Require Import list numbers gmap.
From S2P Require Import Prelude Words Pte.

(** ** A table: [m_entries] and [m_nextLayouts]

    An index that is absent from a map holds what the constructor's [memset] left
    there: a zero entry, a null pointer. *)
Record Table : Type := mkTable {
  m_entries : gmap Z PageTableEntry;
  m_nextLayouts : gmap Z Z;
}.

#[export] Instance Table_eq_dec : EqDecision Table.
Proof. solve_decision. Defined.

(** [PageManager::PageManager] *)
Definition PageManager : Table := mkTable ∅ ∅.

Abbreviation Tables := (gmap Z Table).

Definition entry_at (T : Tables) (p i : Z) : PageTableEntry :=
  default zero_pte (t ← T !! p; m_entries t !! i).
Definition next_at (T : Tables) (p i : Z) : Z := default 0 (t ← T !! p; m_nextLayouts t !! i).

Definition store_entry (p i : Z) (e : PageTableEntry) (T : Tables) : Tables :=
  alter (fun t => mkTable (<[i := e]> (m_entries t)) (m_nextLayouts t)) p T.
Definition store_next (p i q : Z) (T : Tables) : Tables :=
  alter (fun t => mkTable (m_entries t) (<[i := q]> (m_nextLayouts t))) p T.

(** ** Addresses and indices *)
Definition ADD_BITS : Z := 9.

(** [TOTAL_BITS] of the instance with [levels] levels. *)
Fixpoint TOTAL_BITS (levels : nat) : Z :=
  match levels with
  | O => BASE_SHIFT
  | S l => ADD_BITS + TOTAL_BITS l
  end.

Definition indexFromAddress (levels : nat) (address : Z) : Z :=
  Z.land (Z.shiftr address (TOTAL_BITS levels - ADD_BITS)) (Z.shiftl 1 ADD_BITS - 1).
Definition addressFromIndex (levels : nat) (index : Z) : Z :=
  u64 (Z.shiftl index (TOTAL_BITS levels - ADD_BITS)).

(** [getAddress(entry)], the entry being [m_entries[index]]. *)
Definition getAddress (levels : nat) (index : Z) : Z := addressFromIndex levels index.

(** [X86_64PageManager] has four levels. *)
Definition LevelCount : nat := 4.

(** ** The operations, in any state that has tables and an allocator of tables *)
Class TableStore (S : Type) := {
  get_tables : S -> Tables;
  set_tables : Tables -> S -> S;
  get_set_tables T s : get_tables (set_tables T s) = T;
  set_set_tables T T' s : set_tables T (set_tables T' s) = set_tables T s;
}.

(** [Allocator::get()]: a block and the physical address of its first page. *)
Class TableAllocator (S : Type) := {
  table_kmalloc : ST S (Z * Z);
  table_kfree : Z -> ST S unit;
}.

(** [{&m_entries[index], &m_nextLayouts[index]}] of the table at an address. *)
Definition slot : Type := Z * Z.

Section operations.
Context {S : Type} `{!TableStore S, !TableAllocator S}.

Definition update_tables (f : Tables -> Tables) : ST S unit :=
  modify (fun s => set_tables (f (get_tables s)) s).

(** Going through the pointer to a table: it must point to a live one. *)
Definition deref (p : Z) : ST S Tables :=
  s ← read_state;
  match get_tables s !! p with
  | Some _ => mret (get_tables s)
  | None => fail (Undefined "dangling page table")
  end.

(** [getEntryImpl<RevLevel>(address)] *)
Fixpoint getEntryImpl (levels RevLevel : nat) (this address : Z) : ST S (option slot) :=
  let index := indexFromAddress levels address in
  match RevLevel with
  | O => mret (Some (this, index))
  | Datatypes.S rev =>
      T ← deref this;
      let nextLayout := next_at T this index in
      if nextLayout =? 0 then
        assertion (negb (pte_p (entry_at T this index)))
                  "Incoherence between layouts and page directory" ;;
        mret None
      else getEntryImpl (pred levels) rev nextLayout address
  end.

(** What [getEntryImpl] does when there is no next table. *)
Definition create_next (init : PageTableEntry -> PageTableEntry) (T : Tables) (this index : Z)
    : ST S Z :=
  assertion (negb (pte_p (entry_at T this index)))
            "Incoherence between layouts and page directory" ;;
  memory ← table_kmalloc;
  update_tables <[memory.1 := PageManager]> ;;
  update_tables (store_next this index memory.1) ;;
  update_tables (fun T =>
    let e := entry_at T this index in
    let e := set_p true e in
    let e := set_base (Z.shiftr memory.2 BASE_SHIFT) e in
    store_entry this index (init e) T) ;;
  mret memory.1.

(** [getEntryImpl<RevLevel>(address, init)] *)
Fixpoint getEntryImpl_init (init : PageTableEntry -> PageTableEntry) (levels RevLevel : nat)
    (this address : Z) : ST S slot :=
  let index := indexFromAddress levels address in
  match RevLevel with
  | O => mret (this, index)
  | Datatypes.S rev =>
      T ← deref this;
      let nextLayout := next_at T this index in
      nextLayout ← (if nextLayout =? 0 then create_next init T this index else mret nextLayout);
      getEntryImpl_init init (pred levels) rev nextLayout address
  end.

(** [getEntry<Level>] and [getPage] *)
Definition getEntry (Level : nat) (this address : Z) : ST S (option slot) :=
  getEntryImpl LevelCount (LevelCount - Level - 1) this address.
Definition getEntry_init (Level : nat) init (this address : Z) : ST S slot :=
  getEntryImpl_init init LevelCount (LevelCount - Level - 1) this address.
Definition getPage (this address : Z) : ST S (option slot) := getEntry 0 this address.
Definition getPage_init init (this address : Z) : ST S slot := getEntry_init 0 init this address.

(** [mapTo<Level>(other, address, initializer)] *)
Definition mapTo (Level : nat) (this other address : Z) init : ST S unit :=
  otherPair ← getEntry Level other address;
  match otherPair with
  | None => assertion false "Mapping to unmapped address in 'other'"
  | Some (q, j) =>
      thisPair ← getEntry_init Level init this address;
      update_tables (fun T => store_entry thisPair.1 thisPair.2 (entry_at T q j) T) ;;
      update_tables (fun T => store_next thisPair.1 thisPair.2 (next_at T q j) T)
  end.

(** [makeNew] *)
Definition makeNew : ST S (Z * Z) :=
  memory ← table_kmalloc;
  update_tables <[memory.1 := PageManager]> ;;
  mret memory.

(** [~PageManager], in the instance with [levels] levels: the last one has no
    destructor of its own. *)
Fixpoint destructor (levels : nat) (this : Z) : ST S unit :=
  match levels with
  | Datatypes.S ((Datatypes.S _) as l) =>
      for_each (seqZ 0 512) (fun i =>
        if (bool_decide (levels = 3%nat)) && (i =? Z.shiftl 1 ADD_BITS - 1) then mret tt
        else
          T ← deref this;
          let next := next_at T this i in
          if next =? 0 then mret tt
          else destructor l next ;; update_tables (delete next) ;; table_kfree next)
  | _ => mret tt
  end.

(** [release] *)
Definition release (ptr : Z) : ST S unit :=
  if ptr =? 0 then mret tt
  else destructor LevelCount ptr ;; update_tables (delete ptr) ;; table_kfree ptr.
End operations.

(** ** Reading the store after a write *)
Section store_lemmas.
Implicit Types (T : Tables) (p i q : Z) (e : PageTableEntry).

Lemma entry_at_store_entry T p i e p' i' :
  is_Some (T !! p) ->
  entry_at (store_entry p i e T) p' i' =
  if bool_decide (p = p' /\ i = i') then e else entry_at T p' i'.
Proof.
  intros [t Ht]. unfold entry_at, store_entry. case_bool_decide as Hpi.
  - destruct Hpi as [<- <-]. rewrite lookup_alter_eq, Ht. simpl. by rewrite lookup_insert_eq.
  - destruct (decide (p = p')) as [<-|]; [|by rewrite lookup_alter_ne].
    rewrite lookup_alter_eq, Ht. simpl. rewrite lookup_insert_ne by naive_solver. done.
Qed.

Lemma next_at_store_entry T p i e p' i' :
  next_at (store_entry p i e T) p' i' = next_at T p' i'.
Proof.
  unfold next_at, store_entry. destruct (decide (p = p')) as [<-|].
  - rewrite lookup_alter_eq. by destruct (T !! p).
  - by rewrite lookup_alter_ne.
Qed.

Lemma next_at_store_next T p i q p' i' :
  is_Some (T !! p) ->
  next_at (store_next p i q T) p' i' =
  if bool_decide (p = p' /\ i = i') then q else next_at T p' i'.
Proof.
  intros [t Ht]. unfold next_at, store_next. case_bool_decide as Hpi.
  - destruct Hpi as [<- <-]. rewrite lookup_alter_eq, Ht. simpl. by rewrite lookup_insert_eq.
  - destruct (decide (p = p')) as [<-|]; [|by rewrite lookup_alter_ne].
    rewrite lookup_alter_eq, Ht. simpl. rewrite lookup_insert_ne by naive_solver. done.
Qed.

Lemma entry_at_store_next T p i q p' i' :
  entry_at (store_next p i q T) p' i' = entry_at T p' i'.
Proof.
  unfold entry_at, store_next. destruct (decide (p = p')) as [<-|].
  - rewrite lookup_alter_eq. by destruct (T !! p).
  - by rewrite lookup_alter_ne.
Qed.

Lemma is_Some_store_entry T p i e p' :
  is_Some (store_entry p i e T !! p') <-> is_Some (T !! p').
Proof. apply lookup_alter_is_Some. Qed.

Lemma is_Some_store_next T p i q p' :
  is_Some (store_next p i q T !! p') <-> is_Some (T !! p').
Proof. apply lookup_alter_is_Some. Qed.

Lemma entry_at_new T q p i :
  T !! q = None -> entry_at (<[q := PageManager]> T) p i = entry_at T p i.
Proof.
  intros Hq. unfold entry_at. destruct (decide (q = p)) as [<-|].
  - by rewrite lookup_insert_eq, Hq.
  - by rewrite lookup_insert_ne.
Qed.

Lemma next_at_new T q p i :
  T !! q = None -> next_at (<[q := PageManager]> T) p i = next_at T p i.
Proof.
  intros Hq. unfold next_at. destruct (decide (q = p)) as [<-|].
  - by rewrite lookup_insert_eq, Hq.
  - by rewrite lookup_insert_ne.
Qed.

Lemma at_None T p i : T !! p = None -> entry_at T p i = zero_pte /\ next_at T p i = 0.
Proof. unfold entry_at, next_at. by intros ->. Qed.
End store_lemmas.

(** ** Which part of an address selects the tables

    [prefix_of l a] is the part of the 48-bit address [a] above what a table with [l]
    levels translates: [prefix_of 0 a] is the page, [prefix_of LevelCount a] is 0. *)
Definition prefix_of (l : nat) (a : Z) : Z := Z.shiftr (wrap VIRT_ADDRESS_BITS a) (TOTAL_BITS l).

Section prefix_lemmas.
Implicit Types (l : nat) (a i : Z).

Lemma TOTAL_BITS_eq l : TOTAL_BITS l = 12 + 9 * Z.of_nat l.
Proof. induction l as [|l IH]; [done|]. simpl. rewrite IH. unfold ADD_BITS. lia. Qed.

Lemma indexFromAddress_mod l a :
  indexFromAddress (S l) a = Z.shiftr a (TOTAL_BITS l) mod 2 ^ 9.
Proof.
  unfold indexFromAddress. simpl TOTAL_BITS. unfold ADD_BITS.
  replace (9 + TOTAL_BITS l - 9) with (TOTAL_BITS l) by lia.
  change (Z.shiftl 1 9 - 1) with (Z.ones 9). by rewrite Z.land_ones.
Qed.

Lemma indexFromAddress_range l a : 0 <= indexFromAddress (S l) a < 512.
Proof. rewrite indexFromAddress_mod. by apply Z.mod_pos_bound. Qed.

(** The address is the concatenation of the indices. *)
Lemma prefix_step l a :
  (l < LevelCount)%nat ->
  prefix_of l a = prefix_of (S l) a * 512 + indexFromAddress (S l) a.
Proof.
  intros Hl. unfold LevelCount in Hl. rewrite indexFromAddress_mod. unfold prefix_of, wrap, VIRT_ADDRESS_BITS.
  rewrite !TOTAL_BITS_eq, !Z.shiftr_div_pow2 by lia.
  set (k := 12 + 9 * Z.of_nat l).
  replace (12 + 9 * Z.of_nat (S l)) with (k + 9) by lia.
  rewrite Z.pow_add_r, <- Z.div_div by (lia || apply Z.pow_nonzero; lia).
  replace (a / 2 ^ k mod 2 ^ 9) with (a mod 2 ^ 48 / 2 ^ k mod 2 ^ 9).
  { pose proof (Z.div_mod (a mod 2 ^ 48 / 2 ^ k) (2 ^ 9)). change (2 ^ 9) with 512 in *. lia. }
  apply Z.bits_inj'. intros n Hn. rewrite !Z.testbit_mod_pow2 by lia.
  destruct (Z.ltb_spec n 9); [|done]. simpl.
  rewrite !Z.div_pow2_bits by lia. rewrite Z.testbit_mod_pow2 by lia.
  by rewrite (proj2 (Z.ltb_lt _ _)) by lia.
Qed.

Lemma prefix_top a : prefix_of LevelCount a = 0.
Proof.
  unfold prefix_of, wrap, VIRT_ADDRESS_BITS. rewrite TOTAL_BITS_eq, Z.shiftr_div_pow2 by done.
  apply Z.div_small. by apply Z.mod_pos_bound.
Qed.

Lemma prefix_nonneg l a : 0 <= prefix_of l a.
Proof.
  unfold prefix_of. apply Z.shiftr_nonneg. apply Z.mod_pos_bound. done.
Qed.

(** Two addresses with the same page take the same path. *)
Lemma prefix_above l l' a a' :
  (l <= l')%nat -> prefix_of l a = prefix_of l a' -> prefix_of l' a = prefix_of l' a'.
Proof.
  intros Hl H. unfold prefix_of in *. rewrite !TOTAL_BITS_eq in *.
  replace (12 + 9 * Z.of_nat l') with ((12 + 9 * Z.of_nat l) + 9 * Z.of_nat (l' - l)) by lia.
  rewrite <- (Z.shiftr_shiftr (wrap _ a)), <- (Z.shiftr_shiftr (wrap _ a')) by lia. by rewrite H.
Qed.

Lemma prefix_index l a a' :
  (l < LevelCount)%nat -> prefix_of l a = prefix_of l a' ->
  indexFromAddress (S l) a = indexFromAddress (S l) a'.
Proof.
  intros Hl H. pose proof (prefix_step l a Hl). pose proof (prefix_step l a' Hl).
  assert (prefix_of (S l) a = prefix_of (S l) a') by (eapply prefix_above; [|done]; lia). lia.
Qed.

(** [getAddress] gives back the part of an address an index was taken from: the
    address of a page is the [or], here the sum, of the four parts. *)
Lemma getAddress_index l a :
  (l < LevelCount)%nat ->
  getAddress (S l) (indexFromAddress (S l) a) =
  Z.shiftl (indexFromAddress (S l) a) (TOTAL_BITS l).
Proof.
  intros Hl. unfold LevelCount in Hl. unfold getAddress, addressFromIndex. simpl TOTAL_BITS. unfold ADD_BITS.
  replace (9 + TOTAL_BITS l - 9) with (TOTAL_BITS l) by lia.
  apply wrap_small. pose proof (indexFromAddress_range l a).
  rewrite TOTAL_BITS_eq, Z.shiftl_mul_pow2 by lia.
  assert (2 ^ (12 + 9 * Z.of_nat l) <= 2 ^ 39) by (apply Z.pow_le_mono_r; lia).
  assert (0 < 2 ^ (12 + 9 * Z.of_nat l)) by (apply Z.pow_pos_nonneg; lia).
  unfold in_word. nia.
Qed.
End prefix_lemmas.

(** ** The invariant of the tables

    A ghost map records for every live table its number of levels, the part of the
    address its path selects and its physical address.  Every table that is reached
    through a slot has the prefix of that slot, so a table may have several parents (the kernel's
    tables are shared by all the directories) but always covers the same addresses. *)
Record table_info : Type := mkInfo {
  t_levels : nat;
  t_prefix : Z;
  t_phys : Z;
}.

#[export] Instance table_info_eq_dec : EqDecision table_info.
Proof. solve_decision. Defined.

Abbreviation ghost := (gmap Z table_info).

Record tables_wf (G : ghost) (T : Tables) : Prop := {
  wf_dom p : is_Some (T !! p) <-> is_Some (G !! p);
  wf_null : G !! 0 = None;
  wf_levels p g : G !! p = Some g -> (1 <= t_levels g <= LevelCount)%nat;
  wf_phys p g : G !! p = Some g -> in_word 52 (t_phys g) /\ t_phys g mod 4096 = 0;
  wf_phys_inj p p' g g' :
    G !! p = Some g -> G !! p' = Some g' -> t_phys g = t_phys g' -> p = p';
  (** the last level has no pointers *)
  wf_last p i g : G !! p = Some g -> t_levels g = 1%nat -> next_at T p i = 0;
  (** the entries and the pointers agree: [p] is set exactly where there is a next table *)
  wf_coherent p i g :
    G !! p = Some g -> (1 < t_levels g)%nat ->
    pte_p (entry_at T p i) = true <-> next_at T p i <> 0;
  (** a next table translates the addresses of its slot, and the entry holds its
      physical page *)
  wf_child p i g :
    G !! p = Some g -> next_at T p i <> 0 ->
    0 <= i < 512 /\
    exists g', G !! next_at T p i = Some g' /\ t_levels g = S (t_levels g') /\
      t_prefix g' = t_prefix g * 512 + i /\
      pte_base (entry_at T p i) = Z.shiftr (t_phys g') BASE_SHIFT;
  wf_pte p i : pte_wf (entry_at T p i);
}.

(** A directory: a table with all the levels. *)
Definition is_root (G : ghost) (r : Z) : Prop :=
  exists g, G !! r = Some g /\ t_levels g = LevelCount /\ t_prefix g = 0.

(** ** The abstract page tables: the slot of an address, and its entry *)
Fixpoint walk (T : Tables) (levels rev : nat) (p a : Z) : option slot :=
  match rev with
  | O => Some (p, indexFromAddress levels a)
  | S rev' =>
      let q := next_at T p (indexFromAddress levels a) in
      if q =? 0 then None else walk T (pred levels) rev' q a
  end.

(** The last-level entry for an address, in the directory [r]: a missing table
    stands for zero entries. *)
Definition pte_at (T : Tables) (r a : Z) : PageTableEntry :=
  match walk T LevelCount 3 r a with
  | Some (q, i) => entry_at T q i
  | None => zero_pte
  end.

Section walk_lemmas.
Context (G : ghost) (T : Tables) (Hwf : tables_wf G T).

(** The table [p] is on the path of [a]. *)
Definition on_path (levels : nat) (p a : Z) : Prop :=
  exists g, G !! p = Some g /\ t_levels g = levels /\ t_prefix g = prefix_of levels a.

Lemma root_on_path r a : is_root G r -> on_path LevelCount r a.
Proof. intros (g & Hg & Hl & Hp). exists g. by rewrite prefix_top. Qed.

Lemma on_path_live levels p a : on_path levels p a -> is_Some (T !! p).
Proof using Hwf. intros (g & Hg & _). apply (wf_dom _ _ Hwf). by eexists. Qed.

Lemma on_path_next levels p a :
  on_path levels p a -> next_at T p (indexFromAddress levels a) <> 0 ->
  (1 < levels)%nat /\ on_path (pred levels) (next_at T p (indexFromAddress levels a)) a.
Proof using Hwf.
  intros (g & Hg & Hl & Hp) Hn.
  pose proof (wf_levels _ _ Hwf p g Hg) as Hlev.
  destruct (wf_child _ _ Hwf p _ g Hg Hn) as (Hi & g' & Hg' & Hl' & Hp' & _).
  pose proof (wf_levels _ _ Hwf _ g' Hg') as Hlev'.
  destruct levels as [|l]; [lia|].
  split; [lia|]. exists g'. split_and!; [done|simpl; lia|].
  simpl pred. rewrite Hp', Hp. by rewrite (prefix_step l) by lia.
Qed.

(** [getEntryImpl] finds the slot of the path. *)
Lemma walk_on_path levels rev p a q i :
  on_path levels p a -> walk T levels rev p a = Some (q, i) ->
  on_path (levels - rev) q a /\ i = indexFromAddress (levels - rev) a.
Proof using Hwf.
  revert levels p. induction rev as [|rev IH]; intros levels p Hp Hw; simpl in Hw.
  - injection Hw as <- <-. by rewrite Nat.sub_0_r.
  - destruct (Z.eqb_spec (next_at T p (indexFromAddress levels a)) 0) as [|Hn]; [done|].
    apply on_path_next in Hn as [Hl Hn]; [|done].
    apply IH in Hw; [|done]. by replace (levels - S rev)%nat with (pred levels - rev)%nat by lia.
Qed.

(** Two paths that end in the same slot are those of the same page. *)
Lemma walk_same_slot levels rev p p' a a' q i :
  (rev < levels <= LevelCount)%nat -> on_path levels p a -> on_path levels p' a' ->
  walk T levels rev p a = Some (q, i) -> walk T levels rev p' a' = Some (q, i) ->
  prefix_of (levels - rev - 1) a = prefix_of (levels - rev - 1) a'.
Proof using Hwf.
  intros Hr Hp Hp' Hw Hw'.
  apply walk_on_path in Hw as ((g & Hg & _ & Hpre) & Hi); [|done].
  apply walk_on_path in Hw' as ((g' & Hg' & _ & Hpre') & Hi'); [|done].
  rewrite Hg in Hg'. injection Hg' as <-.
  destruct (levels - rev)%nat as [|l] eqn:E; [lia|].
  simpl. rewrite Nat.sub_0_r, (prefix_step l a), (prefix_step l a') by lia. congruence.
Qed.
End walk_lemmas.

(** Addresses of the same page have the same slot. *)
Lemma walk_same_page T levels rev p a a' :
  (rev < levels <= LevelCount)%nat ->
  prefix_of (levels - rev - 1) a = prefix_of (levels - rev - 1) a' ->
  walk T levels rev p a = walk T levels rev p a'.
Proof.
  revert levels p. induction rev as [|rev IH]; intros levels p Hr Hpre; simpl.
  - destruct levels as [|l]; [lia|]. do 2 f_equal. apply prefix_index; [lia|].
    replace l with (S l - 0 - 1)%nat by lia. done.
  - destruct levels as [|l]; [lia|].
    replace (indexFromAddress (S l) a') with (indexFromAddress (S l) a).
    + case_match; [done|]. apply IH; [simpl; lia|].
      by replace (pred (S l) - rev - 1)%nat with (S l - S rev - 1)%nat by lia.
    + apply prefix_index; [lia|]. eapply prefix_above; [|done]. lia.
Qed.

(** ** What walking with an initialiser does to the store

    The allocator of the tables may itself map pages: those of the page heap, [H]
    below.  [heap_slot H g i]: the slot [i] of the table described by [g] is on the path of a page of [H]. *)
Definition heap_slot (H : Z -> Prop) (g : table_info) (i : Z) : Prop :=
  exists n, H n /\ Z.shiftr n (9 * (Z.of_nat (t_levels g) - 1)) = t_prefix g * 512 + i.

(** From [T] to [T'] tables were added, and pages of [H] were mapped; nothing else changed. *)
Record grows (H : Z -> Prop) (G G' : ghost) (T T' : Tables) : Prop := {
  grows_sub : G ⊆ G';
  grows_next p i g : G !! p = Some g -> next_at T p i <> 0 -> next_at T' p i = next_at T p i;
  grows_old p i :
    is_Some (G !! next_at T' p i) -> is_Some (G !! p) /\ next_at T p i = next_at T' p i;
  grows_leaf p i g :
    G !! p = Some g -> t_levels g = 1%nat -> ~ heap_slot H g i -> entry_at T' p i = entry_at T p i;
  grows_new p i g :
    G !! p = None -> G' !! p = Some g -> t_levels g = 1%nat -> ~ heap_slot H g i ->
    entry_at T' p i = zero_pte;
  grows_upper p i g :
    G !! p = Some g -> t_levels g <> 1%nat -> next_at T p i <> 0 ->
    entry_at T' p i = entry_at T p i;
}.

(** The slots on the paths of the pages of [H] are as they were. *)
Definition heap_same (H : Z -> Prop) (G : ghost) (T T' : Tables) : Prop :=
  forall p i g, G !! p = Some g -> heap_slot H g i ->
    entry_at T' p i = entry_at T p i /\ next_at T' p i = next_at T p i.

(** The slots on the paths of the other pages are as they were. *)
Definition others_same (H : Z -> Prop) (G : ghost) (T T' : Tables) : Prop :=
  forall p i g, G !! p = Some g -> ~ heap_slot H g i ->
    entry_at T' p i = entry_at T p i /\ next_at T' p i = next_at T p i.

(** A block that can become a table. *)
Definition fresh_table (G : ghost) (ptr phys : Z) : Prop :=
  ptr <> 0 /\ G !! ptr = None /\ in_word 52 phys /\ phys mod 4096 = 0 /\
  forall p g, G !! p = Some g -> t_phys g <> phys.

(** ** What the tables promise to ask, and the allocator to answer *)
Class TableAllocatorLaws (S : Type) {Rest : Type} (rest : S -> Rest)
    `{!TableStore S, !TableAllocator S} := {
  (** [rest] is the part of the state that neither the tables nor the allocator are in *)
  rest_tables T s : rest (set_tables T s) = rest s;
  (** the pages the allocator maps for itself *)
  heap_pages : Z -> Prop;
  (** [n] more blocks can be allocated *)
  alloc_ready : nat -> ghost -> S -> Prop;
  alloc_ready_stable n G s T' :
    tables_wf G T' -> alloc_ready n G s -> heap_same heap_pages G (get_tables s) T' ->
    alloc_ready n G (set_tables T' s);
  table_kmalloc_spec n G s :
    tables_wf G (get_tables s) -> alloc_ready (Datatypes.S n) G s ->
    Runs table_kmalloc s (fun r s' => exists G',
      rest s' = rest s /\
      tables_wf G' (get_tables s') /\
      grows heap_pages G G' (get_tables s) (get_tables s') /\
      others_same heap_pages G (get_tables s) (get_tables s') /\
      fresh_table G' r.1 r.2 /\
      forall g T2, t_phys g = r.2 ->
        heap_same heap_pages G' (get_tables s') T2 ->
        (forall i, next_at T2 r.1 i = 0) -> tables_wf (<[r.1 := g]> G') T2 ->
        alloc_ready n (<[r.1 := g]> G') (set_tables T2 s'));
}.

(** How many tables are missing on a path, and that no page of [H] would need one of them. *)
Fixpoint misses (T : Tables) (levels rev : nat) (p a : Z) : nat :=
  match rev with
  | O => O
  | S rev' =>
      let q := next_at T p (indexFromAddress levels a) in
      if q =? 0 then rev else misses T (pred levels) rev' q a
  end.

Fixpoint path_clear (H : Z -> Prop) (T : Tables) (levels rev : nat) (p a : Z) : Prop :=
  match rev with
  | O => True
  | S rev' =>
      let q := next_at T p (indexFromAddress levels a) in
      if q =? 0 then
        ~ exists n, H n /\ Z.shiftr n (9 * Z.of_nat (pred levels)) = prefix_of (pred levels) a
      else path_clear H T (pred levels) rev' q a
  end.

(** The tables on the path of an address, and what creating those that are missing leaves of the others *)
Fixpoint path_tables (T : Tables) (levels rev : nat) (p a : Z) : list Z :=
  p :: match rev with
       | O => []
       | S rev' =>
           let q := next_at T p (indexFromAddress levels a) in
           if q =? 0 then [] else path_tables T (pred levels) rev' q a
       end.

Definition off_path (H : Z -> Prop) (G : ghost) (T T' : Tables) (path : list Z) : Prop :=
  forall p i g, G !! p = Some g -> ~ heap_slot H g i -> p ∉ path ->
    entry_at T' p i = entry_at T p i /\ next_at T' p i = next_at T p i.

(** Tables are only added to those there are. *)
Definition extends (G : ghost) (T T' : Tables) : Prop :=
  (forall p i g, G !! p = Some g -> next_at T p i <> 0 -> next_at T' p i = next_at T p i) /\
  (forall p i, is_Some (G !! next_at T' p i) -> is_Some (G !! p) /\ next_at T p i = next_at T' p i).

(** What the initialisers passed by [PageDirectory] satisfy. *)
Definition keeps_p_and_base (init : PageTableEntry -> PageTableEntry) : Prop :=
  forall e, pte_p (init e) = pte_p e /\ pte_base (init e) = pte_base e /\
            (pte_wf e -> pte_wf (init e)).

Lemma grows_refl H G T : tables_wf G T -> grows H G G T T.
Proof.
  intros Hwf. constructor; try done.
  - intros p i Hq. split; [|done]. destruct (G !! p) eqn:E; [done|].
    assert (T !! p = None) as HT.
    { apply eq_None_not_Some. rewrite (wf_dom _ _ Hwf), E. apply is_Some_None. }
    apply (at_None T p i) in HT as [_ HT]. rewrite HT, (wf_null _ _ Hwf) in Hq. done.
  - intros p i g H1 H2. congruence.
Qed.

Lemma grows_trans H G1 G2 G3 T1 T2 T3 :
  tables_wf G1 T1 -> grows H G1 G2 T1 T2 -> grows H G2 G3 T2 T3 -> grows H G1 G3 T1 T3.
Proof.
  intros Hwf A B.
  assert (forall p g, G1 !! p = Some g -> G2 !! p = Some g) as Hsub
    by (intros; eapply lookup_weaken; [done|apply A]).
  constructor.
  - etrans; [apply A|apply B].
  - intros p i g Hg Hn. pose proof (grows_next _ _ _ _ _ A p i g Hg Hn) as E.
    rewrite <- E. eapply grows_next; [apply B|by apply Hsub|]. by rewrite E.
  - intros p i [g Hg]. destruct (grows_old _ _ _ _ _ B p i) as [_ E]; [eexists; by apply Hsub|].
    rewrite <- E. apply A. rewrite E. by eexists.
  - intros p i g Hg Hl Hh. etrans; [by eapply (grows_leaf _ _ _ _ _ B); [apply Hsub|..]|].
    by eapply (grows_leaf _ _ _ _ _ A).
  - intros p i g Hg Hg3 Hl Hh. destruct (G2 !! p) as [g2|] eqn:E.
    + assert (g2 = g) as -> by (eapply lookup_weaken in E; [|apply B]; congruence).
      etrans; [by eapply (grows_leaf _ _ _ _ _ B)|]. by eapply (grows_new _ _ _ _ _ A).
    + by eapply (grows_new _ _ _ _ _ B).
  - intros p i g Hg Hl Hn. etrans; [eapply (grows_upper _ _ _ _ _ B); [by apply Hsub|done|]|].
    + by rewrite (grows_next _ _ _ _ _ A p i g).
    + by eapply (grows_upper _ _ _ _ _ A).
Qed.

(** ** Growing keeps the mappings *)
Section grows_lemmas.
Context (H : Z -> Prop) (G G' : ghost) (T T' : Tables).
Context (Hwf : tables_wf G T) (Hwf' : tables_wf G' T') (Hgr : grows H G G' T T').

Lemma on_path_grows levels p a : on_path G levels p a -> on_path G' levels p a.
Proof using Hgr.
  intros (g & Hg & ?). exists g. split; [|done]. eapply lookup_weaken; [done|apply Hgr].
Qed.

Lemma walk_grows levels rev p a sl :
  on_path G levels p a -> walk T levels rev p a = Some sl -> walk T' levels rev p a = Some sl.
Proof using Hgr Hwf.
  revert levels p. induction rev as [|rev IH]; intros levels p Hp; simpl; [done|].
  destruct (Z.eqb_spec (next_at T p (indexFromAddress levels a)) 0) as [|Hn]; [done|].
  pose proof Hp as (g & Hg & _). rewrite (grows_next _ _ _ _ _ Hgr _ _ _ Hg Hn).
  rewrite (proj2 (Z.eqb_neq _ _)) by done. apply IH.
  by apply (on_path_next G T).
Qed.

Lemma walk_new levels rev p a q i :
  G !! p = None -> walk T' levels rev p a = Some (q, i) -> G !! q = None.
Proof using Hgr.
  revert levels p. induction rev as [|rev IH]; intros levels p Hp; simpl; [congruence|].
  case_match; [done|]. apply IH.
  destruct (G !! next_at T' p (indexFromAddress levels a)) eqn:E; [|done].
  destruct (grows_old _ _ _ _ _ Hgr p (indexFromAddress levels a)) as [[? Hs] _]; [by rewrite E|].
  congruence.
Qed.

Lemma walk_grows_inv levels rev p a q i :
  on_path G levels p a -> walk T' levels rev p a = Some (q, i) ->
  walk T levels rev p a = Some (q, i) \/ walk T levels rev p a = None /\ G !! q = None.
Proof using Hgr Hwf.
  revert levels p. induction rev as [|rev IH]; intros levels p Hp Hw; simpl in *; [by left|].
  destruct (Z.eqb_spec (next_at T p (indexFromAddress levels a)) 0) as [Hz|Hn].
  - right. split; [done|]. case_match eqn:Hq; [done|]. eapply walk_new; [|done].
    destruct (G !! next_at T' p (indexFromAddress levels a)) eqn:E; [|done].
    destruct (grows_old _ _ _ _ _ Hgr p (indexFromAddress levels a)) as [_ Hs]; [by rewrite E|].
    apply Z.eqb_neq in Hq. congruence.
  - pose proof Hp as (g & Hg & _). rewrite (grows_next _ _ _ _ _ Hgr _ _ _ Hg Hn) in Hw.
    rewrite (proj2 (Z.eqb_neq _ _)) in Hw by done. apply IH; [|done].
    by apply (on_path_next G T).
Qed.

(** The slot of a page in a last-level table. *)
Lemma heap_slot_leaf (G0 : ghost) q a g :
  G0 !! q = Some g -> on_path G0 1 q a ->
  t_levels g = 1%nat /\ (heap_slot H g (indexFromAddress 1 a) <-> H (prefix_of 0 a)).
Proof.
  intros Hg (g0 & Hg0 & Hl & Hp). assert (g0 = g) as -> by congruence. split; [done|].
  unfold heap_slot. rewrite Hl, Hp. change (9 * (Z.of_nat 1 - 1)) with 0.
  rewrite <- (prefix_step 0) by (unfold LevelCount; lia). split.
  - intros (n & Hn & E). rewrite Z.shiftr_0_r in E. by subst.
  - intros Hn. exists (prefix_of 0 a). by rewrite Z.shiftr_0_r.
Qed.

Lemma pte_at_grows r a :
  is_root G r -> ~ H (prefix_of 0 a) -> pte_at T' r a = pte_at T r a.
Proof using Hgr Hwf Hwf'.
  intros Hr Ha. pose proof (root_on_path G r a Hr) as Hp. unfold pte_at.
  destruct (walk T' LevelCount 3 r a) as [[q i]|] eqn:Hw'.
  - pose proof (walk_on_path G' T' Hwf' _ _ _ _ _ _ (on_path_grows _ _ _ Hp) Hw') as [Hq Hi].
    change (LevelCount - 3)%nat with 1%nat in *.
    pose proof Hq as (g & Hg & _). destruct (heap_slot_leaf G' q a g Hg Hq) as [Hl Hh].
    rewrite <- Hi in Hh.
    destruct (walk_grows_inv _ _ _ _ _ _ Hp Hw') as [->|[-> Hnew]].
    + destruct (G !! q) as [g0|] eqn:E.
      * assert (g0 = g) as -> by (eapply lookup_weaken in E; [|apply Hgr]; congruence).
        eapply (grows_leaf _ _ _ _ _ Hgr); [done|done|by rewrite Hh].
      * assert (T !! q = None) as HT.
        { apply eq_None_not_Some. rewrite (wf_dom _ _ Hwf), E. apply is_Some_None. }
        rewrite (proj1 (at_None T q i HT)).
        eapply (grows_new _ _ _ _ _ Hgr); [done|done|done|by rewrite Hh].
    + eapply (grows_new _ _ _ _ _ Hgr); [done|done|done|by rewrite Hh].
  - destruct (walk T LevelCount 3 r a) as [sl|] eqn:Hw; [|done].
    eapply walk_grows in Hw; [|done]. congruence.
Qed.

Lemma is_root_grows r : is_root G r -> is_root G' r.
Proof using Hgr.
  intros (g & Hg & ?). exists g. split; [|done]. eapply lookup_weaken; [done|apply Hgr].
Qed.
End grows_lemmas.

(** ** Adding a table *)
Section add_table.
Context (G : ghost) (T : Tables) (Hwf : tables_wf G T).
Context (p i ptr phys : Z) (g : table_info) (e : PageTableEntry).
Context (Hg : G !! p = Some g) (Hl : (1 < t_levels g)%nat) (Hi : 0 <= i < 512).
Context (Hnext : next_at T p i = 0) (Hfresh : fresh_table G ptr phys).
Context (Hp : pte_p e = true) (Hbase : pte_base e = Z.shiftr phys BASE_SHIFT) (Hpte : pte_wf e).

Definition added_info : table_info := mkInfo (pred (t_levels g)) (t_prefix g * 512 + i) phys.
Definition add_table : Tables :=
  store_entry p i e (store_next p i ptr (<[ptr := PageManager]> T)).

Lemma T_ptr : T !! ptr = None.
Proof using Hwf Hfresh.
  apply eq_None_not_Some. rewrite (wf_dom _ _ Hwf). destruct Hfresh as (_ & -> & _).
  apply is_Some_None.
Qed.

Lemma ptr_ne : p <> ptr.
Proof using Hg Hfresh. intros Hpp. destruct Hfresh as (_ & E & _). by rewrite <- Hpp, Hg in E. Qed.

Lemma add_table_live : is_Some ((<[ptr := PageManager]> T : Tables) !! p).
Proof using Hwf Hg Hfresh.
  rewrite lookup_insert_ne by (symmetry; apply ptr_ne). apply (wf_dom _ _ Hwf). by eexists.
Qed.

Lemma next_at_add q j :
  next_at add_table q j = if bool_decide (p = q /\ i = j) then ptr else next_at T q j.
Proof using Hwf Hg Hfresh.
  unfold add_table. rewrite next_at_store_entry, next_at_store_next by apply add_table_live.
  case_bool_decide; [done|]. apply next_at_new, T_ptr.
Qed.

Lemma entry_at_add q j :
  entry_at add_table q j = if bool_decide (p = q /\ i = j) then e else entry_at T q j.
Proof using Hwf Hg Hfresh.
  unfold add_table. rewrite entry_at_store_entry.
  - case_bool_decide; [done|]. rewrite entry_at_store_next. apply entry_at_new, T_ptr.
  - rewrite is_Some_store_next. apply add_table_live.
Qed.

Lemma add_table_dom q : is_Some (add_table !! q) <-> q = ptr \/ is_Some (T !! q).
Proof.
  unfold add_table. rewrite is_Some_store_entry, is_Some_store_next.
  destruct (decide (q = ptr)) as [->|].
  - rewrite lookup_insert_eq. split; [by left|by eexists].
  - rewrite lookup_insert_ne by done. split; [by right|by intros [?|?]].
Qed.

Lemma new_at j : entry_at T ptr j = zero_pte /\ next_at T ptr j = 0.
Proof using Hwf Hfresh. apply at_None, T_ptr. Qed.

Lemma added_lookup q g' :
  (<[ptr := added_info]> G : ghost) !! q = Some g' ->
  q = ptr /\ g' = added_info \/ q <> ptr /\ G !! q = Some g'.
Proof. intros [[-> <-]|[? ?]]%lookup_insert_Some; [by left|right; by split]. Qed.

Lemma added_old q g' : G !! q = Some g' -> (<[ptr := added_info]> G : ghost) !! q = Some g'.
Proof using Hfresh.
  intros Hq. rewrite lookup_insert_ne; [done|]. intros <-. destruct Hfresh as (_ & E & _).
  by rewrite E in Hq.
Qed.

Lemma add_table_child q j g' :
  (<[ptr := added_info]> G : ghost) !! q = Some g' -> next_at add_table q j <> 0 ->
  0 <= j < 512 /\
  exists g2, (<[ptr := added_info]> G : ghost) !! next_at add_table q j = Some g2 /\
    t_levels g' = S (t_levels g2) /\ t_prefix g2 = t_prefix g' * 512 + j /\
    pte_base (entry_at add_table q j) = Z.shiftr (t_phys g2) BASE_SHIFT.
Proof using Hwf Hg Hfresh Hl Hi Hbase.
  rewrite next_at_add, entry_at_add. intros Hq Hn.
  case_bool_decide as Hpi.
  - destruct Hpi as [<- <-]. destruct (added_lookup _ _ Hq) as [[E _]|[_ Hq']].
    { by destruct ptr_ne. }
    rewrite Hg in Hq'. injection Hq' as <-. split; [done|]. exists added_info.
    rewrite lookup_insert_eq. unfold added_info. split_and!; [done|simpl; lia|done|done].
  - destruct (added_lookup _ _ Hq) as [[-> _]|[_ Hq']].
    { by rewrite (proj2 (new_at j)) in Hn. }
    destruct (wf_child _ _ Hwf q j g' Hq' Hn) as (Hj & g2 & Hg2 & ?).
    split; [done|]. exists g2. split; [by apply added_old|done].
Qed.

Lemma add_table_wf : tables_wf (<[ptr := added_info]> G) add_table.
Proof using Hwf Hg Hfresh Hl Hi Hbase Hp Hpte.
  pose proof Hfresh as (Hnz & Hnew & Hph & Hal & Hdist).
  pose proof (wf_levels _ _ Hwf p g Hg) as Hlev.
  constructor.
  - intros q. rewrite add_table_dom, (wf_dom _ _ Hwf).
    rewrite lookup_insert_is_Some'. split; (intros [->|?]; [by left|by right]).
  - rewrite lookup_insert_ne by done. apply Hwf.
  - intros q g' [[-> ->]|[_ Hq]]%added_lookup; [simpl; lia|by eapply wf_levels].
  - intros q g' [[-> ->]|[_ Hq]]%added_lookup; [done|by eapply wf_phys].
  - intros q q' g1 g2 [[-> ->]|[_ Hq]]%added_lookup [[-> ->]|[_ Hq']]%added_lookup E; [done|..].
    + by destruct (Hdist _ _ Hq').
    + by destruct (Hdist _ _ Hq).
    + by eapply (wf_phys_inj _ _ Hwf).
  - intros q j g' Hq Hl'. rewrite next_at_add. case_bool_decide as Hpi.
    + destruct Hpi as [<- <-]. apply added_old in Hg. rewrite Hg in Hq. injection Hq as <-. lia.
    + destruct (added_lookup _ _ Hq) as [[-> _]|[_ Hq']]; [apply new_at|by eapply wf_last].
  - intros q j g' Hq Hl'. rewrite next_at_add, entry_at_add. case_bool_decide as Hpi.
    + rewrite Hp. by split.
    + destruct (added_lookup _ _ Hq) as [[-> _]|[_ Hq']]; [|by eapply wf_coherent].
      destruct (new_at j) as [-> ->]. split; [done|lia].
  - intros q j g'. apply add_table_child.
  - intros q j. rewrite entry_at_add. case_bool_decide; [done|apply Hwf].
Qed.

Lemma add_table_grows H : grows H G (<[ptr := added_info]> G) T add_table.
Proof using Hwf Hg Hfresh Hl Hnext.
  pose proof Hfresh as (Hnz & Hnew & _).
  constructor.
  - by apply insert_subseteq.
  - intros q j g' Hq Hn. rewrite next_at_add. case_bool_decide as Hpi; [|done].
    destruct Hpi as [<- <-]. by rewrite Hnext in Hn.
  - intros q j. rewrite next_at_add. case_bool_decide as Hpi.
    + rewrite Hnew. by intros [? ?].
    + intros Hs. split; [|done]. destruct (G !! q) eqn:E; [by eexists|].
      assert (T !! q = None) as HT.
      { apply eq_None_not_Some. rewrite (wf_dom _ _ Hwf), E. apply is_Some_None. }
      rewrite (proj2 (at_None T q j HT)), (wf_null _ _ Hwf) in Hs. by destruct Hs.
  - intros q j g' Hq Hl' _. rewrite entry_at_add. case_bool_decide as Hpi; [|done].
    destruct Hpi as [<- <-]. rewrite Hg in Hq. injection Hq as <-. lia.
  - intros q j g' Hq [[-> ->]|[_ Hq']]%added_lookup Hl' _; [|congruence].
    rewrite entry_at_add. case_bool_decide as Hpi; [|apply new_at].
    destruct Hpi as [E _]. by destruct ptr_ne.
  - intros q j g' Hq _ Hn. rewrite entry_at_add. case_bool_decide as Hpi; [|done].
    destruct Hpi as [<- <-]. by rewrite Hnext in Hn.
Qed.

Lemma add_table_heap_same H : ~ heap_slot H g i -> heap_same H G T add_table.
Proof using Hwf Hg Hfresh.
  intros Hh q j g' Hq Hs. rewrite next_at_add, entry_at_add.
  case_bool_decide as Hpi; [|done]. destruct Hpi as [<- <-].
  rewrite Hg in Hq. injection Hq as <-. done.
Qed.
End add_table.

(** ** The operations against the abstract tables *)
Lemma prefix_shift l k a : prefix_of (l + k) a = Z.shiftr (prefix_of l a) (9 * Z.of_nat k).
Proof.
  unfold prefix_of. rewrite !TOTAL_BITS_eq, Z.shiftr_shiftr by lia. f_equal. lia.
Qed.

(** The slot of a path is a slot of [H] when a page of [H] has the same prefix. *)
Lemma heap_slot_path H levels a g :
  (0 < levels <= LevelCount)%nat -> t_levels g = levels -> t_prefix g = prefix_of levels a ->
  heap_slot H g (indexFromAddress levels a) <->
  exists n, H n /\ Z.shiftr n (9 * Z.of_nat (pred levels)) = prefix_of (pred levels) a.
Proof.
  intros Hlev Hl Hp. unfold heap_slot. rewrite Hl, Hp. destruct levels as [|l]; [lia|].
  rewrite <- (prefix_step l) by lia. simpl pred.
  by replace (Z.of_nat (S l) - 1) with (Z.of_nat l) by lia.
Qed.

Section empty_path.
Context (T : Tables) (p : Z) (Hempty : forall i, next_at T p i = 0).

Lemma misses_empty levels rev a : misses T levels rev p a = rev.
Proof using Hempty. destruct rev; simpl; [done|]. by rewrite Hempty. Qed.

Lemma path_tables_empty levels rev a : path_tables T levels rev p a = [p].
Proof using Hempty. destruct rev; simpl; [done|]. by rewrite Hempty. Qed.

Lemma path_clear_empty H levels rev a :
  (~ exists n, H n /\ Z.shiftr n (9 * Z.of_nat levels) = prefix_of levels a) ->
  path_clear H T levels rev p a.
Proof using Hempty.
  intros Hno. destruct rev as [|rev]; simpl; [done|]. rewrite Hempty. simpl.
  intros (n & Hn & E). apply Hno. exists n. split; [done|].
  destruct levels as [|l]; [done|]. simpl pred in E.
  replace (S l) with (l + 1)%nat by lia. rewrite prefix_shift, <- E.
  rewrite Z.shiftr_shiftr by lia. f_equal. lia.
Qed.
End empty_path.

(** The entry that leads to a new table. *)
Lemma init_entry_ok init (Hinit : keeps_p_and_base init) e phys :
  in_word 52 phys -> pte_wf e ->
  let e' := init (set_base (Z.shiftr phys BASE_SHIFT) (set_p true e)) in
  pte_p e' = true /\ pte_base e' = Z.shiftr phys BASE_SHIFT /\ pte_wf e'.
Proof.
  intros Hphys Hwf e'.
  destruct (Hinit (set_base (Z.shiftr phys BASE_SHIFT) (set_p true e))) as (Hp & Hb & Hw).
  split_and!.
  - unfold e'. by rewrite Hp.
  - unfold e'. rewrite Hb. cbn [pte_base set_base]. apply wrap_small.
    unfold in_word in *. change BASE_SHIFT with 12. rewrite Z.shiftr_div_pow2 by done.
    split; [apply Z.div_pos; lia|apply Z.div_lt_upper_bound; lia].
  - apply Hw. by apply set_base_wf.
Qed.

Section specs.
Context {S : Type} `{!TableStore S, !TableAllocator S}.

Lemma Runs_deref p s (Q : Tables -> S -> Prop) :
  is_Some (get_tables s !! p) -> Q (get_tables s) s -> Runs (deref p) s Q.
Proof. intros [t Ht] HQ. unfold deref. apply Runs_bind, Runs_read. by rewrite Ht. Qed.

Lemma getEntryImpl_run G levels rev p a s :
  tables_wf G (get_tables s) -> on_path G levels p a -> (rev < levels)%nat ->
  getEntryImpl levels rev p a s = Ok (walk (get_tables s) levels rev p a, s).
Proof.
  intros Hwf. revert levels p. induction rev as [|rev IH]; intros levels p Hp Hr; [done|].
  cbn [getEntryImpl walk].
  destruct (on_path_live _ _ Hwf _ _ _ Hp) as [t Ht].
  erewrite bind_run; [|unfold deref; erewrite bind_run; [|done]; by rewrite Ht].
  destruct (Z.eqb_spec (next_at (get_tables s) p (indexFromAddress levels a)) 0) as [Hz|Hn].
  - pose proof Hp as (g & Hg & Hl & _).
    pose proof (wf_coherent _ _ Hwf p (indexFromAddress levels a) g Hg ltac:(lia)) as Hc.
    destruct (pte_p _); [by destruct (proj1 Hc eq_refl)|done].
  - destruct (on_path_next _ _ Hwf _ _ _ Hp Hn) as [Hl Hp']. apply IH; [done|lia].
Qed.

(** Where nothing is missing nothing is created. *)
Lemma getEntryImpl_init_found init G levels rev p a s sl :
  tables_wf G (get_tables s) -> on_path G levels p a ->
  walk (get_tables s) levels rev p a = Some sl ->
  getEntryImpl_init init levels rev p a s = Ok (sl, s).
Proof.
  intros Hwf. revert levels p. induction rev as [|rev IH]; intros levels p Hp Hw.
  - by injection Hw as <-.
  - cbn [getEntryImpl_init]. cbn [walk] in Hw.
    destruct (on_path_live _ _ Hwf _ _ _ Hp) as [t Ht].
    erewrite bind_run; [|unfold deref; erewrite bind_run; [|done]; by rewrite Ht].
    destruct (Z.eqb_spec (next_at (get_tables s) p (indexFromAddress levels a)) 0) as [|Hn]; [done|].
    destruct (on_path_next _ _ Hwf _ _ _ Hp Hn) as [_ Hp']. by apply IH.
Qed.

Context {Rest : Type} (rest : S -> Rest) `{!TableAllocatorLaws S rest}.

(** Creating one table that is missing on the path of [a]. *)
Lemma create_next_spec init (Hinit : keeps_p_and_base init) levels p a n G s :
  let i := indexFromAddress levels a in
  tables_wf G (get_tables s) -> on_path G levels p a -> (1 < levels <= LevelCount)%nat ->
  next_at (get_tables s) p i = 0 ->
  (~ exists n, heap_pages n /\ Z.shiftr n (9 * Z.of_nat (pred levels)) = prefix_of (pred levels) a) ->
  alloc_ready (Datatypes.S n) G s ->
  Runs (create_next init (get_tables s) p i) s (fun ptr s' => exists G',
    rest s' = rest s /\
    tables_wf G' (get_tables s') /\
    grows heap_pages G G' (get_tables s) (get_tables s') /\
    ptr <> 0 /\ next_at (get_tables s') p i = ptr /\ on_path G' (pred levels) ptr a /\
    (forall j, next_at (get_tables s') ptr j = 0) /\
    G !! ptr = None /\ off_path heap_pages G (get_tables s) (get_tables s') [p] /\
    alloc_ready n G' s').
Proof.
  intros i Hwf Hp Hlev Hz Hclear Hready. pose proof Hp as (g & Hg & Hl & Hpre).
  assert (1 < t_levels g)%nat as Hl1 by lia. unfold create_next.
  apply Runs_bind, Runs_assertion.
  { pose proof (wf_coherent _ _ Hwf p i g Hg Hl1) as Hc.
    destruct (pte_p _); [by destruct (proj1 Hc eq_refl)|done]. }
  apply Runs_bind. eapply Runs_mono; [by apply (table_kmalloc_spec n G)|].
  intros [ptr phys] s1 (G1 & Hrest1 & Hwf1 & Hgr1 & Hsame & Hfresh & Hready1). simpl in Hfresh, Hready1.
  cbn [fst snd]. unfold update_tables. repeat (apply Runs_bind, Runs_modify || apply Runs_ret).
  rewrite !get_set_tables, !set_set_tables.
  assert (G1 !! p = Some g) as Hg1 by (eapply lookup_weaken; [done|apply Hgr1]).
  assert (~ heap_slot heap_pages g i) as Hnh by (unfold i; rewrite heap_slot_path by (done || lia); done).
  destruct (Hsame p i g Hg Hnh) as [_ Hn1]. rewrite Hz in Hn1.
  match goal with |- context [store_entry p i ?e' _] => set (e := e') end.
  destruct (init_entry_ok init Hinit
    (entry_at (store_next p i ptr (<[ptr:=PageManager]> (get_tables s1))) p i) phys)
    as (Hpe & Hbe & Hwe); [by destruct Hfresh as (_ & _ & ? & _)|..].
  { rewrite entry_at_store_next, entry_at_new by (by eapply T_ptr). apply Hwf1. }
  fold e in Hpe, Hbe, Hwe.
  assert (0 <= i < 512) as Hi by (unfold i; destruct levels; [lia|apply indexFromAddress_range]).
  change (store_entry p i e _) with (add_table (get_tables s1) p i ptr e).
  exists (<[ptr := added_info i phys g]> G1).
  assert (next_at (add_table (get_tables s1) p i ptr e) p i = ptr) as Hnp.
  { rewrite (next_at_add G1) with (phys := phys) (g := g) by done. by rewrite bool_decide_true. }
  assert (forall j, next_at (add_table (get_tables s1) p i ptr e) ptr j = 0) as Hempty.
  { intros j. rewrite (next_at_add G1) with (phys := phys) (g := g) by done.
    case_bool_decide as Hpi; [|by eapply new_at].
    destruct Hpi as [E _]. by destruct (ptr_ne G1 p ptr phys g Hg1 Hfresh). }
  assert (G !! ptr = None) as HGptr.
  { destruct Hfresh as (_ & Hnew & _). eapply lookup_weaken_None; [exact Hnew|apply Hgr1]. }
  assert (off_path heap_pages G (get_tables s) (add_table (get_tables s1) p i ptr e) [p]) as Hoff.
  { intros p' j g' Hg' Hnh' Hp'. rewrite list_elem_of_singleton in Hp'.
    rewrite (entry_at_add G1) with (phys := phys) (g := g) by done.
    rewrite (next_at_add G1) with (phys := phys) (g := g) by done.
    rewrite bool_decide_false by (intros [E _]; by apply Hp').
    exact (Hsame p' j g' Hg' Hnh'). }
  split_and!; [by rewrite rest_tables|..|done|done|done|].
  - by apply add_table_wf.
  - eapply grows_trans; [done..|]. by apply add_table_grows.
  - by destruct Hfresh.
  - done.
  - exists (added_info i phys g). rewrite lookup_insert_eq. split_and!; [done|simpl; lia|].
    unfold added_info. cbn [t_prefix]. rewrite Hpre. destruct levels as [|l]; [lia|].
    simpl pred. by rewrite (prefix_step l) by lia.
  - apply Hready1; [done| |done|by apply add_table_wf]. by eapply add_table_heap_same.
Qed.

(** Creating the tables that miss on a path. *)
Lemma getEntryImpl_init_spec init (Hinit : keeps_p_and_base init) levels rev p a n G s :
  tables_wf G (get_tables s) -> on_path G levels p a -> (rev < levels <= LevelCount)%nat ->
  path_clear heap_pages (get_tables s) levels rev p a ->
  alloc_ready (misses (get_tables s) levels rev p a + n) G s ->
  Runs (getEntryImpl_init init levels rev p a) s (fun sl s' => exists G',
    rest s' = rest s /\
    tables_wf G' (get_tables s') /\
    grows heap_pages G G' (get_tables s) (get_tables s') /\
    walk (get_tables s') levels rev p a = Some sl /\
    off_path heap_pages G (get_tables s) (get_tables s') (path_tables (get_tables s) levels rev p a) /\
    alloc_ready n G' s').
Proof.
  revert levels p G s. induction rev as [|rev IH]; intros levels p G s Hwf Hp Hr Hclear Hready.
  - exists G. split_and!; [done|done|by apply grows_refl|done|done|done].
  - cbn [getEntryImpl_init path_tables]. cbn [misses path_clear] in Hready, Hclear.
    apply Runs_bind. apply Runs_deref; [by eapply on_path_live|]. apply Runs_bind.
    pose proof Hp as (g & Hg & _).
    destruct (Z.eqb_spec (next_at (get_tables s) p (indexFromAddress levels a)) 0) as [Hz|Hn].
    + eapply Runs_mono; [by apply (create_next_spec init Hinit levels p a (rev + n) G s); [..|lia| | |]|].
      intros ptr s1 (G1 & Hrest1 & Hwf1 & Hgr1 & Hnz & Hnp & Hp1 & Hempty & Hnew & Hoff1 & Hready1).
      eapply Runs_mono.
      { apply (IH (pred levels) ptr G1 s1); [done|done|lia| |].
        - by apply path_clear_empty.
        - by rewrite misses_empty. }
      intros sl s2 (G2 & Hrest2 & Hwf2 & Hgr2 & Hw & Hoff2 & Hr2). exists G2.
      split_and!; [congruence|done|by eapply grows_trans| | |done].
      2:{ intros p' j g' Hg' Hnh Hp'. destruct (Hoff1 p' j g' Hg' Hnh) as [<- <-]; [exact Hp'|].
          eapply Hoff2; [eapply lookup_weaken; [exact Hg'|apply Hgr1]|done|].
          rewrite (path_tables_empty _ ptr Hempty), list_elem_of_singleton. intros ->. congruence. }
      assert (G1 !! p = Some g) as Hg1 by (eapply lookup_weaken; [done|apply Hgr1]).
      simpl. rewrite (grows_next _ _ _ _ _ Hgr2 p _ g Hg1) by (by rewrite Hnp).
      rewrite Hnp. by rewrite (proj2 (Z.eqb_neq _ _)) by done.
    + apply Runs_ret. destruct (on_path_next _ _ Hwf _ _ _ Hp Hn) as [Hl1 Hp'].
      eapply Runs_mono; [by apply (IH _ _ G); [..|lia| |]|].
      intros sl s2 (G3 & Hrest3 & Hwf3 & Hgr3 & Hw & Hoff3 & Hr3). exists G3. split_and!; [done|done|done| | |done].
      2:{ intros p' j g' Hg' Hnh Hout. eapply Hoff3; [done|done|]. intros Hin. by apply Hout, elem_of_cons; right. }
      simpl. rewrite (grows_next _ _ _ _ _ Hgr3 p _ g Hg Hn).
      by rewrite (proj2 (Z.eqb_neq _ _)) by done.
Qed.
End specs.

(** ** Paths and what changes off them *)
Lemma walk_path_tables T levels rev p a q i : walk T levels rev p a = Some (q, i) -> q ∈ path_tables T levels rev p a.
Proof.
  revert levels p. induction rev as [|rev IH]; intros levels p Hw; simpl in *.
  - injection Hw as -> _. left.
  - case_match; [done|]. right. by apply IH.
Qed.

Lemma walk_nexts T T' levels rev p a :
  (forall p j, next_at T' p j = next_at T p j) -> walk T' levels rev p a = walk T levels rev p a.
Proof.
  intros Hn. revert levels p. induction rev as [|rev IH]; intros levels p; cbn [walk]; [done|].
  rewrite Hn. destruct (_ =? 0); [done|]. apply IH.
Qed.

Lemma path_tables_nexts T T' levels rev p a :
  (forall p j, next_at T' p j = next_at T p j) -> path_tables T' levels rev p a = path_tables T levels rev p a.
Proof.
  intros Hn. revert levels p. induction rev as [|rev IH]; intros levels p; cbn [path_tables]; [done|].
  rewrite Hn. destruct (_ =? 0); [done|]. by rewrite IH.
Qed.

Lemma grows_extends H G G' T T' : grows H G G' T T' -> extends G T T'.
Proof. intros Hg. split; [apply Hg|apply Hg]. Qed.

Lemma off_path_refl H G T path : off_path H G T T path.
Proof. done. Qed.

(** A path whose tables are off the path that changed is as it was. *)
Lemma path_kept H G T T' path levels rev p a :
  tables_wf G T -> off_path H G T T' path -> on_path G levels p a -> (rev < levels <= LevelCount)%nat ->
  (forall l, (0 < l <= levels)%nat ->
     ~ exists n, H n /\ Z.shiftr n (9 * Z.of_nat (pred l)) = prefix_of (pred l) a) ->
  (forall q, q ∈ path_tables T levels rev p a -> q ∉ path) ->
  path_tables T' levels rev p a = path_tables T levels rev p a /\
  walk T' levels rev p a = walk T levels rev p a /\
  forall q i, walk T levels rev p a = Some (q, i) -> entry_at T' q i = entry_at T q i.
Proof.
  intros Hwf Hoff. revert levels p. induction rev as [|rev IH]; intros levels p Hp Hr Hclear Hout;
    pose proof Hp as (g & Hg & Hl & Hpre); cbn [path_tables walk] in *;
    (assert (~ heap_slot H g (indexFromAddress levels a)) as Hnh
       by (rewrite heap_slot_path by (done || lia); apply Hclear; lia));
    destruct (Hoff p (indexFromAddress levels a) g Hg Hnh) as [He Hn]; try (apply Hout; left).
  - split_and!; [done|done|]. by intros q i [= <- <-].
  - rewrite Hn. destruct (Z.eqb_spec (next_at T p (indexFromAddress levels a)) 0) as [|Hnz]; [done|].
    destruct (on_path_next G T Hwf _ _ _ Hp Hnz) as [Hl1 Hp'].
    destruct (IH (pred levels) (next_at T p (indexFromAddress levels a))) as (E1 & E2 & E3); [done|lia| | |].
    + intros l Hl'. apply Hclear. lia.
    + intros q Hq. apply Hout. by right.
    + rewrite E1, E2. done.
Qed.

(** The tables of a path are those it had, and new ones. *)
Lemma path_extends G T T' levels rev p a q :
  tables_wf G T -> extends G T T' -> q ∈ path_tables T' levels rev p a ->
  q ∈ path_tables T levels rev p a \/ G !! q = None.
Proof.
  intros Hwf [Hnext Hold]. revert levels p. induction rev as [|rev IH]; intros levels p Hq; cbn [path_tables] in *; [by left|].
  apply elem_of_cons in Hq as [->|Hq]; [left; left|]. set (i := indexFromAddress levels a) in *.
  destruct (Z.eqb_spec (next_at T' p i) 0) as [|Hn]; [by apply elem_of_nil in Hq|].
  destruct (IH _ _ Hq) as [Hin|]; [|by right].
  destruct (G !! next_at T' p i) as [g'|] eqn:E.
  - destruct (Hold p i) as [_ Heq]; [by rewrite E|]. left. right. rewrite Heq.
    by rewrite (proj2 (Z.eqb_neq _ _)) by done.
  - right. assert (T !! next_at T' p i = None) as HT.
    { apply eq_None_not_Some. rewrite (wf_dom _ _ Hwf), E. apply is_Some_None. }
    rewrite path_tables_empty, list_elem_of_singleton in Hin by (intros j; apply (at_None _ _ j HT)). by subst.
Qed.

(** ** Writing a last-level entry *)
Section store_leaf.
Context (G : ghost) (T : Tables) (Hwf : tables_wf G T).
Context (q i : Z) (g : table_info) (e : PageTableEntry).
Context (Hg : G !! q = Some g) (Hl : t_levels g = 1%nat) (Hpte : pte_wf e).

Lemma leaf_live : is_Some (T !! q).
Proof using Hwf Hg. apply (wf_dom _ _ Hwf). by eexists. Qed.

Lemma entry_at_leaf p j :
  entry_at (store_entry q i e T) p j = if bool_decide (q = p /\ i = j) then e else entry_at T p j.
Proof using Hwf Hg. apply entry_at_store_entry, leaf_live. Qed.

Lemma entry_at_upper p j g' :
  G !! p = Some g' -> (1 < t_levels g')%nat -> entry_at (store_entry q i e T) p j = entry_at T p j.
Proof using Hwf Hg Hl.
  intros Hg' Hl'. rewrite entry_at_leaf. rewrite bool_decide_false; [done|].
  intros [<- _]. rewrite Hg in Hg'. injection Hg' as <-. lia.
Qed.

Lemma store_leaf_wf : tables_wf G (store_entry q i e T).
Proof using Hwf Hg Hl Hpte.
  constructor; try apply Hwf.
  - intros p. rewrite is_Some_store_entry. apply Hwf.
  - intros p j g' Hg' Hl'. rewrite next_at_store_entry. by eapply (wf_last _ _ Hwf).
  - intros p j g' Hg' Hl'. rewrite next_at_store_entry, (entry_at_upper _ _ g') by done.
    by eapply (wf_coherent _ _ Hwf).
  - intros p j g' Hg'. rewrite next_at_store_entry. intros Hn.
    destruct (wf_child _ _ Hwf p j g' Hg' Hn) as (Hj & g2 & Hg2 & Hl2 & Hp2 & Hb2).
    rewrite (entry_at_upper _ _ g') by (done || pose proof (wf_levels _ _ Hwf _ _ Hg2); lia).
    split; [done|]. by exists g2.
  - intros p j. rewrite entry_at_leaf. case_bool_decide; [done|apply Hwf].
Qed.

Lemma walk_store levels rev p a : walk (store_entry q i e T) levels rev p a = walk T levels rev p a.
Proof.
  revert levels p. induction rev as [|rev IH]; intros levels p; simpl; [done|].
  by rewrite next_at_store_entry, IH.
Qed.

Lemma pte_at_store r a :
  pte_at (store_entry q i e T) r a =
  if bool_decide (walk T LevelCount 3 r a = Some (q, i)) then e else pte_at T r a.
Proof using Hwf Hg.
  unfold pte_at. rewrite walk_store.
  destruct (walk T LevelCount 3 r a) as [[q' i']|]; [|by rewrite bool_decide_false].
  rewrite entry_at_leaf. by rewrite (bool_decide_ext (q = q' /\ i = i') (Some (q', i') = Some (q, i))) by (split; [by intros [-> ->]|by intros [= -> ->]]).
Qed.
End store_leaf.

(** In one directory the slot is that of the page. *)
Lemma walk_slot_page G T r a a' sl :
  tables_wf G T -> is_root G r -> walk T LevelCount 3 r a = Some sl ->
  walk T LevelCount 3 r a' = Some sl <-> prefix_of 0 a' = prefix_of 0 a.
Proof.
  intros Hwf Hr Hw. split.
  - intros Hw'. destruct sl as [q i].
    eapply (walk_same_slot G T Hwf LevelCount 3 r r); [unfold LevelCount; lia|..];
      by try apply root_on_path.
  - intros Hp. rewrite <- Hw. apply walk_same_page; [unfold LevelCount; lia|done].
Qed.

Lemma walk_leaf G T r a q i :
  tables_wf G T -> is_root G r -> walk T LevelCount 3 r a = Some (q, i) ->
  on_path G 1 q a /\ i = indexFromAddress 1 a.
Proof.
  intros Hwf Hr Hw. by apply (walk_on_path G T Hwf LevelCount 3 r a q i (root_on_path G r a Hr)).
Qed.

(** ** The processor's view

    The four-level translation of the AMD64 manual: every level reads the 64-bit word at
    the index the address selects, and goes on if its P bit is set.  [memory] is the
    physical memory as 64-bit words. *)
Fixpoint mmu_walk (memory : Z -> Z) (levels : nat) (base address : Z) : option Z :=
  match levels with
  | O => None
  | S l =>
      let word := memory (base + 8 * Z.land (Z.shiftr address (12 + 9 * Z.of_nat l)) 511) in
      if Z.testbit word 0 then
        match l with
        | O => Some word
        | S _ => mmu_walk memory l (Z.shiftl (field word 12 40) 12) address
        end
      else None
  end.

(** The tables are in physical memory. *)
Definition in_memory (G : ghost) (T : Tables) (memory : Z -> Z) : Prop :=
  forall p g i, G !! p = Some g -> 0 <= i < 512 ->
    memory (t_phys g + 8 * i) = pte_encode (entry_at T p i).

Lemma page_of_phys phys : phys mod 4096 = 0 -> Z.shiftl (Z.shiftr phys BASE_SHIFT) 12 = phys.
Proof.
  intros Hm. change BASE_SHIFT with 12. rewrite Z.shiftl_mul_pow2, Z.shiftr_div_pow2 by done.
  pose proof (Z.div_mod phys 4096). change (2 ^ 12) with 4096. lia.
Qed.

(** What the bits of an entry's image mean, for the lemmas that follow. *)
Lemma encode_p_base e :
  pte_wf e -> Z.testbit (pte_encode e) 0 = pte_p e /\ field (pte_encode e) 12 40 = pte_base e.
Proof.
  intros Hwf. pose proof (decode_encode e Hwf) as Hd. unfold pte_decode in Hd.
  split; by rewrite <- Hd at 2.
Qed.

Lemma mmu_walk_tables G T memory levels p g a :
  tables_wf G T -> in_memory G T memory -> on_path G (S levels) p a -> G !! p = Some g ->
  mmu_walk memory (S levels) (t_phys g) a =
  match walk T (S levels) levels p a with
  | Some (q, i) =>
      if pte_p (entry_at T q i) then Some (pte_encode (entry_at T q i)) else None
  | None => None
  end.
Proof.
  intros Hwf Hmem. revert p g. induction levels as [|l IH]; intros p g Hp Hg;
    pose proof Hp as (g' & Hg' & Hl & _); assert (g' = g) as -> by congruence.
  - cbn [mmu_walk walk]. change (12 + 9 * Z.of_nat 0) with 12.
    change (Z.land (Z.shiftr a 12) 511) with (indexFromAddress 1 a).
    rewrite (Hmem p g) by (done || apply indexFromAddress_range).
    by rewrite (proj1 (encode_p_base _ (wf_pte _ _ Hwf _ _))).
  - cbn [walk]. remember (S l) as l1 eqn:El. cbn [mmu_walk].
    replace (Z.land (Z.shiftr a (12 + 9 * Z.of_nat l1)) 511) with (indexFromAddress (S l1) a).
    2:{ unfold indexFromAddress. simpl TOTAL_BITS. rewrite TOTAL_BITS_eq. unfold ADD_BITS.
        by replace (9 + (12 + 9 * Z.of_nat l1) - 9) with (12 + 9 * Z.of_nat l1) by lia. }
    rewrite (Hmem p g) by (done || apply indexFromAddress_range).
    destruct (encode_p_base _ (wf_pte _ _ Hwf p (indexFromAddress (S l1) a))) as [-> ->].
    pose proof (wf_coherent _ _ Hwf p (indexFromAddress (S l1) a) g Hg ltac:(lia)) as Hc.
    destruct (Z.eqb_spec (next_at T p (indexFromAddress (S l1) a)) 0) as [Hz|Hn].
    + destruct (pte_p _); [by destruct (proj1 Hc eq_refl)|done].
    + rewrite (proj2 Hc Hn).
      destruct (wf_child _ _ Hwf p _ g Hg Hn) as (_ & g2 & Hg2 & _ & _ & ->).
      rewrite page_of_phys by (by eapply wf_phys).
      destruct (on_path_next _ _ Hwf _ _ _ Hp Hn) as [_ Hp2]. simpl pred in *.
      rewrite El in *. by apply IH.
Qed.

(** The translation of the processor is the abstract one. *)
Lemma mmu_walk_pte_at G T memory r g a :
  tables_wf G T -> in_memory G T memory -> is_root G r -> G !! r = Some g ->
  mmu_walk memory LevelCount (t_phys g) a =
  (if pte_p (pte_at T r a) then Some (pte_encode (pte_at T r a)) else None).
Proof.
  intros Hwf Hmem Hr Hg. unfold LevelCount at 1.
  rewrite (mmu_walk_tables G T) with (p := r) by (done || by apply root_on_path).
  unfold pte_at. change LevelCount with 4%nat. by destruct (walk T 4 3 r a) as [[]|].
Qed.

(** A directory that was just created. *)
Lemma tables_wf_root r phys :
  r <> 0 -> in_word 52 phys -> phys mod 4096 = 0 ->
  tables_wf {[ r := mkInfo LevelCount 0 phys ]} {[ r := PageManager ]}.
Proof.
  intros Hr Hphys Hmod.
  assert (forall p i, entry_at {[ r := PageManager ]} p i = zero_pte /\
                      next_at {[ r := PageManager ]} p i = 0) as Hat.
  { intros p i. destruct (decide (p = r)) as [->|]; unfold entry_at, next_at.
    - by rewrite lookup_singleton_eq.
    - by rewrite lookup_singleton_ne by done. }
  constructor.
  - intros p. by rewrite !lookup_singleton_is_Some.
  - by rewrite lookup_singleton_ne.
  - intros p g [<- <-]%lookup_singleton_Some. unfold LevelCount. simpl. lia.
  - intros p g [<- <-]%lookup_singleton_Some. done.
  - intros p p' g g' [<- <-]%lookup_singleton_Some [<- <-]%lookup_singleton_Some _. done.
  - intros p i g _ _. apply Hat.
  - intros p i g _ _. destruct (Hat p i) as [-> ->]. split; [done|lia].
  - intros p i g _ Hn. by rewrite (proj2 (Hat p i)) in Hn.
  - intros p i. by rewrite (proj1 (Hat p i)).
Qed.

(** A physical memory that holds the tables: there is one for every well-formed store. *)
Definition memory_image (G : ghost) (T : Tables) (a : Z) : Z :=
  match list_find (fun pg : Z * table_info => t_phys pg.2 = a - a mod 4096) (map_to_list G) with
  | Some (_, (p, _)) => pte_encode (entry_at T p (a mod 4096 / 8))
  | None => 0
  end.

Lemma memory_image_ok G T : tables_wf G T -> in_memory G T (memory_image G T).
Proof.
  intros Hwf p g i Hg Hi. pose proof (wf_phys _ _ Hwf p g Hg) as [Hphys Hmod].
  unfold memory_image.
  assert ((t_phys g + 8 * i) mod 4096 = 8 * i) as Hoff.
  { rewrite Z.add_mod, Hmod, Z.add_0_l, Z.mod_mod by done. apply Z.mod_small. lia. }
  rewrite Hoff. replace (t_phys g + 8 * i - 8 * i) with (t_phys g) by lia.
  destruct (list_find _ _) as [[n [p' g']]|] eqn:Hf.
  - apply list_find_Some in Hf as (Hn & Heq & _). simpl in Heq.
    apply list_elem_of_lookup_2, elem_of_map_to_list in Hn.
    rewrite (wf_phys_inj _ _ Hwf p' p g' g) by done. do 2 f_equal.
    rewrite Z.mul_comm, Z.div_mul by done. done.
  - apply list_find_None in Hf. rewrite Forall_forall in Hf.
    destruct (Hf (p, g)); [by apply elem_of_map_to_list|done].
Qed.
