(* ===== verification/PageHeap.v ===== *)
(** * The heaps of page blocks: [PageHeap.hpp], [PageHeap.cpp]

    [PageHeap<BSize, PSize, SSize>] hands out blocks of [BSize] virtually contiguous
    pages, mapped on demand in the kernel's directory; the first [SSize] pages are
    mapped at boot.  Mapping a page may need a page table, and the page tables are blocks of
    such a heap: an allocation made during an allocation ([m_allocating]) takes its block
    from a pool of [PSize] blocks. *)

From Stdlib Require Import ZArith Lia.
From stdpp Require Import list numbers.
From S2P Require Import Prelude Words Pte.

Record PageHeap : Type := mkPageHeap {
  m_usedBlockCount : Z;
  m_allocating : bool;
  m_map : list bool;
  m_pool : list (Z * Z);
}.

(** The state after the constructor; [m_heapStart] is a parameter of the operations. *)
Definition new_PageHeap : PageHeap := mkPageHeap 0 false [] [].

Definition set_usedBlockCount (n : Z) (h : PageHeap) : PageHeap :=
  mkPageHeap n (m_allocating h) (m_map h) (m_pool h).
Definition set_allocating (b : bool) (h : PageHeap) : PageHeap :=
  mkPageHeap (m_usedBlockCount h) b (m_map h) (m_pool h).
Definition set_map (m : list bool) (h : PageHeap) : PageHeap :=
  mkPageHeap (m_usedBlockCount h) (m_allocating h) m (m_pool h).
Definition set_pool (p : list (Z * Z)) (h : PageHeap) : PageHeap :=
  mkPageHeap (m_usedBlockCount h) (m_allocating h) (m_map h) p.

Definition map_size (h : PageHeap) : Z := Z.of_nat (length (m_map h)).

(** An instance of the template, and what its code calls. *)
Record HeapConfig (S : Type) : Type := mkHeapConfig {
  BlockSize : Z;
  PoolSize : Z;
  StaticSize : Z;
  m_heapStart : Z;
  (** [Symbols::getKernelPageHeapStart()] *)
  pageHeapStart : Z;
  get_heap : S -> PageHeap;
  set_heap : PageHeap -> S -> S;
  (** [Memory::get().setPageFree] *)
  heap_setPageFree : Z -> ST S unit;
  (** [PageDirectory::getKernelDirectory()->unmapPage] *)
  kernel_unmapPage : Z -> ST S Z;
}.
Arguments BlockSize {S}.
Arguments PoolSize {S}.
Arguments StaticSize {S}.
Arguments m_heapStart {S}.
Arguments pageHeapStart {S}.
Arguments get_heap {S}.
Arguments set_heap {S}.
Arguments heap_setPageFree {S}.
Arguments kernel_unmapPage {S}.

Section operations.
Context {S : Type} (c : HeapConfig S).
(** [PageDirectory::getKernelDirectory()->mapPage(vaddr, attributes, &phys)], which
    may allocate page tables and so call this heap again *)
Context (kernel_mapPage : Z -> Z -> ST S Z).

Definition heap_update (f : PageHeap -> PageHeap) : ST S unit :=
  modify (fun s => set_heap c (f (get_heap c s)) s).

Definition getUsedBlockCount : ST S Z := gets (fun s => m_usedBlockCount (get_heap c s)).

(** [index] and the sizes are 32-bit: the product wraps before it is added to the pointer. *)
Definition pageToPtr (index : Z) : Z :=
  u64 (m_heapStart c + u32 (u32 (index * PAGE_SIZE) * BlockSize c)).

(** A signed difference, converted to unsigned by the division. *)
Definition ptrToPage (ptr : Z) : Z :=
  u32 (u64 (ptr - m_heapStart c) / PAGE_SIZE / BlockSize c).

Definition isStatic (index : Z) : bool := u32 (index * BlockSize c) <? StaticSize c.

Definition heap_attributes : Z := Z.lor ATTR_RW ATTR_NOEXEC.

(** The physical address of a block of the static part. *)
Definition static_phys (index : Z) : Z :=
  u64 (pageHeapStart c + u32 (u32 (index * PAGE_SIZE) * BlockSize c)).

(** The two branches of [allocPage] on [StaticSize]. *)
Definition map_block (index : Z) : ST S Z :=
  phys ← kernel_mapPage (pageToPtr index) heap_attributes;
  for_each (seqZ 1 (BlockSize c - 1)) (fun n =>
    kernel_mapPage (u64 (pageToPtr index + u32 (n * PAGE_SIZE))) heap_attributes ;; mret tt) ;;
  mret phys.

Definition allocPage (index : Z) : ST S (Z * Z) :=
  heap_update (set_allocating true) ;;
  s ← read_state;
  assertion ((map_size (get_heap c s) <=? index) || negb (nth_bool (m_map (get_heap c s)) index))
            "index >= m_map.size() || !m_map[index]" ;;
  (if map_size (get_heap c s) <=? index then
     assertion (index =? map_size (get_heap c s)) "index == m_map.size()" ;;
     heap_update (fun h => set_map (resize (Z.to_nat (u32 (index + 1))) false (m_map h)) h)
   else mret tt) ;;
  heap_update (fun h => set_map (<[Z.to_nat index := true]> (m_map h)) h) ;;
  phys ← (if isStatic index then mret (static_phys index) else map_block index);
  heap_update (fun h => set_usedBlockCount (u64 (m_usedBlockCount h + 1)) h) ;;
  heap_update (set_allocating false) ;;
  mret (index, phys).

Definition allocBlock : ST S (Z * Z) :=
  s ← read_state;
  let h := get_heap c s in
  if m_allocating h then
    assertion (negb (PoolSize c =? 0)) "PoolSize" ;;
    match last (m_pool h) with
    | None => assertion false "!m_pool.empty()" ;; fail (Undefined "back() of an empty vector")
    | Some ret =>
        heap_update (fun h => set_pool (take (length (m_pool h) - 1) (m_pool h)) h) ;;
        mret ret
    end
  else
    match find_clear (m_map h) 0 with
    | Some i => allocPage i
    | None =>
        let index := u32 (map_size h) in
        heap_update (fun h => set_map (resize (Z.to_nat (u32 (index + 1))) false (m_map h)) h) ;;
        allocPage index
    end.

Definition kmalloc : ST S (Z * Z) :=
  item ← allocBlock;
  mret (pageToPtr item.1, item.2).

Definition kfree (ptr : Z) : ST S unit :=
  if ptr =? 0 then mret tt
  else
    let index := ptrToPage ptr in
    s ← read_state;
    assertion (index <? map_size (get_heap c s)) "index < m_map.size()" ;;
    assertion (nth_bool (m_map (get_heap c s)) index) "m_map[index]" ;;
    (if isStatic index then mret tt
     else for_each (seqZ 0 (BlockSize c)) (fun n =>
       phys ← kernel_unmapPage c (u64 (ptr + u32 (n * PAGE_SIZE)));
       heap_setPageFree c (phys / PAGE_SIZE))) ;;
    heap_update (fun h => set_usedBlockCount (u64 (m_usedBlockCount h - 1)) h) ;;
    heap_update (fun h => set_map (<[Z.to_nat index := false]> (m_map h)) h).

(** [while (m_pool.size() < PoolSize)]: [fuel] bounds the iterations. *)
Fixpoint refill_loop (fuel : nat) : ST S unit :=
  s ← read_state;
  if Z.of_nat (length (m_pool (get_heap c s))) <? PoolSize c then
    match fuel with
    | O => fail OutOfFuel
    | Datatypes.S fuel =>
        block ← allocBlock;
        heap_update (fun h => set_pool (m_pool h ++ [block]) h) ;;
        refill_loop fuel
    end
  else mret tt.

Definition refillPool (fuel : nat) : ST S unit :=
  s ← read_state;
  if m_allocating (get_heap c s) then mret tt else refill_loop fuel.
End operations.
