(* ===== verification/PageDirectory.v ===== *)
(** * The address spaces: [PageDirectory.hpp], [PageDirectory.cpp]

    [MM] is the state of the memory management: the frame map, the page tables, the
    heap of page tables, the [PageDirectory] objects and the static variables of
    [PageDirectory.cpp].  The operations that create tables are written against the class
    [TableAllocator]; the end of the file ties the knot between [mapPage] and the heap. *)

From Stdlib Require Import ZArith Lia.
From stdpp Require Import list numbers gmap.
From S2P Require Import Prelude Words Memory Pte PageManager PageHeap.

(** ** What the linker provides: [Symbols] *)
Class Symbols := {
  getKernelBootstrapStart : Z;
  getKernelTextStart : Z;
  getKernelRodataStart : Z;
  getKernelDataStart : Z;
  getKernelBssEnd : Z;
  getKernelPageHeapStart : Z;
  getKernelVTextStart : Z;
  getKernelVTextEnd : Z;
  getKernelVRodataStart : Z;
  getKernelVRodataEnd : Z;
  getKernelVDataStart : Z;
  getKernelVBssEnd : Z;
  getKernelVVga : Z;
  getStackBase : Z;
  getPageHeapBase : Z;
  getStackPageHeapBase : Z;
  getHeapBase : Z;
}.

Definition getKernelVBase `{Symbols} : Z := getKernelVTextStart.

(** ** The objects *)
Record PageDirectory : Type := mkPageDirectory {
  m_directory : Z;     (** [m_directory.value], the value of CR3 *)
  m_manager : Z;       (** 0 for a null pointer *)
}.

#[export] Instance PageDirectory_eq_dec : EqDecision PageDirectory.
Proof. solve_decision. Defined.

Definition new_PageDirectory : PageDirectory := mkPageDirectory 0 0.

(** [PageDirectory::isValid] *)
Definition PD_isValid (d : PageDirectory) : bool := negb (m_manager d =? 0).

(** The move constructor: the new object and what is left of the other. *)
Definition PD_move (pd : PageDirectory) : PageDirectory * PageDirectory := (pd, new_PageDirectory).

Record MM : Type := mkMM {
  mm_memory : Memory;                    (** [Memory::get()] *)
  mm_tables : Tables;                    (** the [PageManager] objects *)
  mm_pageHeap : PageHeap;                (** [getPdPageHeap()] *)
  mm_directories : gmap Z PageDirectory;
  g_kernelDirectory : Z;
  g_currentPageDirectory : Z;
  g_pagingReady : bool;
  cpu_cr3 : Z;
}.

Definition set_mm_memory (m : Memory) (s : MM) : MM :=
  mkMM m (mm_tables s) (mm_pageHeap s) (mm_directories s) (g_kernelDirectory s)
       (g_currentPageDirectory s) (g_pagingReady s) (cpu_cr3 s).
Definition set_mm_tables (T : Tables) (s : MM) : MM :=
  mkMM (mm_memory s) T (mm_pageHeap s) (mm_directories s) (g_kernelDirectory s)
       (g_currentPageDirectory s) (g_pagingReady s) (cpu_cr3 s).
Definition set_mm_pageHeap (h : PageHeap) (s : MM) : MM :=
  mkMM (mm_memory s) (mm_tables s) h (mm_directories s) (g_kernelDirectory s)
       (g_currentPageDirectory s) (g_pagingReady s) (cpu_cr3 s).
Definition set_mm_directories (d : gmap Z PageDirectory) (s : MM) : MM :=
  mkMM (mm_memory s) (mm_tables s) (mm_pageHeap s) d (g_kernelDirectory s)
       (g_currentPageDirectory s) (g_pagingReady s) (cpu_cr3 s).
Definition set_kernelDirectory (p : Z) (s : MM) : MM :=
  mkMM (mm_memory s) (mm_tables s) (mm_pageHeap s) (mm_directories s) p
       (g_currentPageDirectory s) (g_pagingReady s) (cpu_cr3 s).
Definition set_currentPageDirectory (p : Z) (s : MM) : MM :=
  mkMM (mm_memory s) (mm_tables s) (mm_pageHeap s) (mm_directories s) (g_kernelDirectory s)
       p (g_pagingReady s) (cpu_cr3 s).
Definition set_pagingReady (b : bool) (s : MM) : MM :=
  mkMM (mm_memory s) (mm_tables s) (mm_pageHeap s) (mm_directories s) (g_kernelDirectory s)
       (g_currentPageDirectory s) b (cpu_cr3 s).
Definition set_cr3 (v : Z) (s : MM) : MM :=
  mkMM (mm_memory s) (mm_tables s) (mm_pageHeap s) (mm_directories s) (g_kernelDirectory s)
       (g_currentPageDirectory s) (g_pagingReady s) v.

#[export] Instance MM_tables : TableStore MM :=
  {| get_tables := mm_tables; set_tables := set_mm_tables;
     get_set_tables := fun T s => eq_refl; set_set_tables := fun T T' s => eq_refl |}.

(** Calls of [Memory::get()]. *)
Definition memory {A} (m : ST Memory A) : ST MM A := zoom mm_memory set_mm_memory m.

(** [m_manager] of the object [this] points to. *)
Definition directory (this : Z) : ST MM PageDirectory :=
  s ← read_state;
  from_option (mm_directories s !! this) (Undefined "dangling PageDirectory").
Definition manager (this : Z) : ST MM Z :=
  d ← directory this;
  mret (m_manager d).
Definition set_directory (this : Z) (d : PageDirectory) : ST MM unit :=
  modify (fun s => set_mm_directories (<[this := d]> (mm_directories s)) s).

(** Reading and writing through a [PageTableEntry*]. *)
Definition load (sl : slot) : ST MM PageTableEntry :=
  gets (fun s => entry_at (mm_tables s) sl.1 sl.2).
Definition store (sl : slot) (f : PageTableEntry -> PageTableEntry) : ST MM unit :=
  modify (fun s => set_mm_tables
    (store_entry sl.1 sl.2 (f (entry_at (mm_tables s) sl.1 sl.2)) (mm_tables s)) s).

Definition ready_assert : ST MM unit :=
  s ← read_state;
  assertion (g_pagingReady s) "g_pagingReady".

(** [base << BASE_SHIFT] *)
Definition phys_of_base (base : Z) : Z := u64 (Z.shiftl base BASE_SHIFT).

Definition extendSign (ptr : Z) : Z :=
  u64 (Z.shiftr (wrap_signed 64 (Z.shiftl ptr (64 - (4 * 9 + 12)))) (64 - (4 * 9 + 12))).

(** ** The operations that create no table *)
Section lookups.
(** [getPage] without an initialiser calls no allocator. *)
Definition getPage_of (this vaddr : Z) : ST MM (option slot) :=
  m ← manager this;
  getPage m vaddr.

Definition unmapPage (this vaddr : Z) : ST MM Z :=
  ready_assert ;;
  page ← getPage_of this vaddr;
  match page with
  | None => assertion false "page && page->p" ;; fail (Undefined "null pointer")
  | Some sl =>
      e ← load sl;
      assertion (pte_p e) "page && page->p" ;;
      store sl (set_p false) ;;
      e ← load sl;
      let base := pte_base e in
      store sl (set_base 0) ;;
      mret (phys_of_base base)
  end.

Definition resolve (this vaddr : Z) : ST MM Z :=
  ready_assert ;;
  page ← getPage_of this vaddr;
  match page with
  | None => mret INVALID_PHYS
  | Some sl =>
      e ← load sl;
      if negb (pte_p e) then mret INVALID_PHYS else mret (phys_of_base (pte_base e))
  end.

Definition handleFault (this vaddr : Z) : ST MM bool :=
  entry ← getPage_of this vaddr;
  match entry with
  | None => mret false
  | Some sl =>
      e ← load sl;
      if pte_p e || negb (pte_base e =? INVALID_PAGE) then mret false
      else
        page ← memory getFreePage;
        store sl (set_p true) ;;
        store sl (set_base page) ;;
        mret true
  end.

Definition isPageMapped (this vaddr : Z) : ST MM bool :=
  ready_assert ;;
  page ← getPage_of this vaddr;
  match page with
  | None => mret false
  | Some sl => e ← load sl; mret (pte_p e)
  end.

Definition getPhysicalAddress (this vaddr : Z) : ST MM (option Z) :=
  ready_assert ;;
  page ← getPage_of this vaddr;
  match page with
  | None => mret None
  | Some sl =>
      e ← load sl;
      if negb (pte_p e) then mret None else mret (Some (phys_of_base (pte_base e)))
  end.

(** [use()]; [var] is the address of the local variable the assertion resolves. *)
Definition use (this var : Z) : ST MM unit :=
  s ← read_state;
  (if g_pagingReady s then
     a ← resolve (g_currentPageDirectory s) var;
     b ← resolve this var;
     assertion (a =? b) "!g_pagingReady || getCurrent()->resolve(&var) == resolve(&var)"
   else modify (set_pagingReady true)) ;;
  d ← directory this;
  modify (set_cr3 (m_directory d)) ;;
  modify (set_currentPageDirectory this).

(** One level of [forEachUserPage]: the indices of a table with the tables below them.  The function that is called may
    work on more than the memory management: [lift] runs an operation of the latter. *)
Section user_pages.
Context {S : Type} (lift : forall A, ST MM A -> ST S A).

Definition for_next (table : Z) (body : Z -> Z -> ST S unit) : ST S unit :=
  for_each (seqZ 0 512) (fun i =>
    T ← lift _ (deref table);
    let next := next_at T table i in
    body i next).

Definition forEachUserPage_in (this : Z) (f : slot -> Z -> Z -> ST S unit) : ST S unit :=
  m ← lift _ (manager this);
  for_next m (fun i4 level3 =>
    let add4 := extendSign (getAddress 4 i4) in
    if level3 =? 0 then mret tt
    else for_next level3 (fun i3 level2 =>
      let add3 := getAddress 3 i3 in
      if 0xffff00000000 <=? Z.lor add4 add3 then mret tt
      else if level2 =? 0 then mret tt
      else for_next level2 (fun i2 level1 =>
        let add2 := getAddress 2 i2 in
        if level1 =? 0 then mret tt
        else for_each (seqZ 0 512) (fun i1 =>
          entry ← lift _ (load (level1, i1));
          if negb (isValid entry) then mret tt
          else
            let add1 := getAddress 1 i1 in
            let fullAddr := Z.lor (Z.lor (Z.lor add4 add3) add2) add1 in
            f (level1, i1) fullAddr (phys_of_base (pte_base entry)))))).
End user_pages.

Definition forEachUserPage : Z -> (slot -> Z -> Z -> ST MM unit) -> ST MM unit :=
  forEachUserPage_in (fun _ m => m).
End lookups.

(** ** The operations that create tables *)

(** The addresses of [for (p = vastart; p < vaend; p += 0x1000)]. *)
Definition page_steps (vastart vaend : Z) : list Z :=
  map (fun i => vastart + i * 0x1000) (seqZ 0 ((vaend - vastart + 0xfff) / 0x1000)).

Section mapping.
Context `{!TableAllocator MM}.
(** [getPdPageHeap().refillPool()] *)
Context (refillPool : ST MM unit).

(** Map [vaddr] to [paddr] and apply [f] to the last-level entry. *)
Definition mapPageToF (this vaddr paddr : Z) (f : PageTableEntry -> PageTableEntry) : ST MM unit :=
  m ← manager this;
  page ← getPage_init (AttributeSetter 0x3) m vaddr;
  e ← load page;
  assertion (negb (pte_p e)) "Page already mapped" ;;
  store page (set_p true) ;;
  store page (set_base (Z.shiftr paddr BASE_SHIFT)) ;;
  store page f.

Definition _mapPageTo (this vaddr paddr attributes : Z) : ST MM unit :=
  (if (vaddr <? 0xffffffff00000000) && negb (has_attr attributes ATTR_PUBLIC)
   then panic "Mapping private page in user space" else mret tt) ;;
  (if (0xffffffffc0000000 <? vaddr) && has_attr attributes ATTR_PUBLIC
   then panic "Mapping public page in kernel space" else mret tt) ;;
  if (0 <=? attributes) && (attributes <=? 0xf)
  then mapPageToF this vaddr paddr (AttributeSetter attributes)
  else panic "Invalid page attributes parameter".

Definition mapRangeTo (this vastart vaend pastart attributes : Z) : ST MM unit :=
  for_each (page_steps vastart vaend) (fun va =>
    _mapPageTo this va (u64 (pastart + (va - vastart))) attributes).

Definition mapPageTo (this vaddr paddr attributes : Z) : ST MM unit :=
  ready_assert ;;
  _mapPageTo this vaddr paddr attributes ;;
  refillPool.

(** [mapPage]; the value is what it stores in [*paddr]. *)
Definition mapPage (this vaddr attributes : Z) : ST MM Z :=
  ready_assert ;;
  target ← (if has_attr attributes ATTR_DEFER then mret INVALID_PHYS
            else
              page ← memory getFreePage;
              assertion (negb (page =? INVALID_PAGE)) "page != INVALID_PAGE" ;;
              mret (u64 (page * PAGE_SIZE)));
  mapPageTo this vaddr target attributes ;;
  mret target.

Definition mapRange (this vastart vaend attributes : Z) : ST MM unit :=
  for_each (page_steps vastart vaend) (fun va => mapPage this va attributes ;; mret tt).

(** [m_manager = std::move(ptr)]: the previous manager is released. *)
Definition createPm (this : Z) : ST MM unit :=
  pm ← makeNew;
  d ← directory this;
  set_directory this (mkPageDirectory (m_directory d) pm.1) ;;
  release (m_manager d) ;;
  set_directory this
    (mkPageDirectory (Z.shiftl (wrap 40 (Z.shiftr pm.2 BASE_SHIFT)) 12) pm.1).

Definition mapKernel `{Symbols} (this : Z) : ST MM unit :=
  createPm this ;;
  s ← read_state;
  kernel ← manager (g_kernelDirectory s);
  m ← manager this;
  mapTo 2 m kernel getKernelVBase (AttributeSetter ATTR_RW) ;;
  entry ← getEntry 3 m 0xffffffff00000000;
  match entry with
  | None => fail (Undefined "null pointer")
  | Some sl => store sl (set_us true)
  end.

(** [MAP_RANGE] *)
Definition map_range (this from to phys attr : Z) : ST MM unit :=
  mapRangeTo this from to phys attr ;;
  memory (setRangeUsed (phys / 0x1000) (u64 (phys + u64 (to - from)) / 0x1000)).

Definition initWithDefaultPaging `{Symbols} (this : Z) : ST MM unit :=
  createPm this ;;
  _mapPageTo this getKernelVVga 0xB8000 ATTR_RW ;;
  memory (setPageUsed (0xB8000 / 0x1000)) ;;
  map_range this getKernelVTextStart getKernelVTextEnd getKernelTextStart 0 ;;
  map_range this getKernelVRodataStart getKernelVRodataEnd getKernelRodataStart ATTR_NOEXEC ;;
  map_range this getKernelVDataStart getKernelVBssEnd getKernelDataStart (Z.lor ATTR_NOEXEC ATTR_RW) ;;
  let addr := intAlignSup 64 getKernelBssEnd 0x200000 in
  map_range this (getStackBase - 0x4000) getStackBase (u64 (addr + 0x200000 - 0x4000))
            (Z.lor ATTR_NOEXEC ATTR_RW) ;;
  let addr := u64 (addr + 0x200000) in
  map_range this getPageHeapBase (getPageHeapBase + 32 * 0x1000) addr (Z.lor ATTR_NOEXEC ATTR_RW) ;;
  let addr := u64 (addr + 0x200000) in
  map_range this getHeapBase (getHeapBase + 0x200000) addr (Z.lor ATTR_NOEXEC ATTR_RW).

(** What [initKernelDirectory] does to the tables, behind the write of the register EFER ([Kernel.initKernelDirectory]);
    [object] is the address [new] returns. *)
Definition makeKernelDirectory `{Symbols} (object : Z) : ST MM Z :=
  s ← read_state;
  (if g_kernelDirectory s =? 0 then
     set_directory object new_PageDirectory ;;
     modify (set_kernelDirectory object) ;;
     initWithDefaultPaging object
   else mret tt) ;;
  gets g_kernelDirectory.

(** [unmapUserSpace]; [newPd] and [var] are the addresses of the local objects. *)
Definition unmapUserSpace `{Symbols} (this newPd var : Z) : ST MM unit :=
  s ← read_state;
  let mainIsMe := this =? g_currentPageDirectory s in
  set_directory newPd new_PageDirectory ;;
  mapKernel newPd ;;
  (if mainIsMe then use newPd var else mret tt) ;;
  d1 ← directory this;
  d2 ← directory newPd;
  set_directory this d2 ;;
  set_directory newPd d1 ;;
  (if mainIsMe then modify (set_currentPageDirectory this) else mret tt) ;;
  forEachUserPage newPd (fun sl addr phys =>
    e ← load sl;
    if negb (pte_p e) then assertion (phys =? INVALID_PHYS) "phys == INVALID_PHYS"
    else memory (setPageFree (phys / PAGE_SIZE))) ;;
  (** the destructor of [newPd] *)
  old ← manager newPd;
  release old ;;
  modify (fun s => set_mm_directories (delete newPd (mm_directories s)) s).
End mapping.

(** ** The knot: the page tables are blocks of a heap that maps its pages *)
Section knot.
Context `{Symbols}.

(** [getPdPageHeap()]: [PageHeap<2, 16, 32>] *)
Definition pdPageHeap : HeapConfig MM :=
  mkHeapConfig MM 2 16 32 getPageHeapBase getKernelPageHeapStart mm_pageHeap set_mm_pageHeap
    (fun page => memory (setPageFree page))
    (fun vaddr => k ← gets g_kernelDirectory; unmapPage k vaddr).

(** The allocator of tables and the refilling of the pool when the heap maps its
    pages with [rec]. *)
Definition on_kernel (rec : Z -> Z -> Z -> ST MM Z) (vaddr attributes : Z) : ST MM Z :=
  k ← gets g_kernelDirectory;
  rec k vaddr attributes.

Definition pd_allocator (rec : Z -> Z -> Z -> ST MM Z) : TableAllocator MM :=
  {| table_kmalloc := kmalloc pdPageHeap (on_kernel rec);
     table_kfree := kfree pdPageHeap |}.

(** [nesting] bounds how deep [mapPage] calls itself, and [fuel] the loop of [refillPool]. *)
Fixpoint mapPage_nested (fuel nesting : nat) (this vaddr attributes : Z) : ST MM Z :=
  match nesting with
  | O => fail OutOfFuel
  | S n =>
      let rec := mapPage_nested fuel n in
      @mapPage (pd_allocator rec) (refillPool pdPageHeap (on_kernel rec) fuel) this vaddr attributes
  end.
End knot.

(** ** The nesting of the allocations is bounded

    The operations below touch the heap of page tables through [table_kmalloc] and [refillPool] alone. *)
Section mapping_agree.
Context (P : MM -> Prop).
Context (P_tables : forall s T, P s -> P (set_mm_tables T s)).
Context (P_memory : forall s m, P s -> P (set_mm_memory m s)).
Context (A1 A2 : TableAllocator MM) (refill1 refill2 : ST MM unit).
Context (Hkmalloc : agree P P (@table_kmalloc MM A1) (@table_kmalloc MM A2)).
Context (Hrefill : agree P P refill1 refill2).

Lemma agree_deref p : agree P P (deref (S := MM) p) (deref p).
Proof. unfold deref. agree_steps. Qed.

Lemma agree_manager this : agree P P (manager this) (manager this).
Proof. unfold manager, directory. agree_steps. Qed.

Lemma agree_store sl f : agree P P (store sl f) (store sl f).
Proof using P_tables. unfold store. apply agree_modify. intros. by apply P_tables. Qed.

Lemma agree_update_tables f : agree P P (update_tables (S := MM) f) (update_tables f).
Proof using P_tables. unfold update_tables. apply agree_modify. intros. by apply P_tables. Qed.

Lemma agree_load sl : agree P P (load sl) (load sl).
Proof. apply agree_gets. Qed.

Hint Resolve agree_load agree_deref agree_manager agree_store agree_update_tables Hkmalloc Hrefill : agree.

Lemma agree_getEntryImpl_init init levels rev p a :
  agree P P (@getEntryImpl_init MM _ A1 init levels rev p a)
          (@getEntryImpl_init MM _ A2 init levels rev p a).
Proof using P_tables Hkmalloc.
  revert levels p. induction rev as [|rev IH]; intros levels p; cbn [getEntryImpl_init]; agree_steps.
  - unfold create_next. agree_steps.
Qed.

Lemma agree_mapPageToF this vaddr paddr f :
  agree P P (@mapPageToF A1 this vaddr paddr f) (@mapPageToF A2 this vaddr paddr f).
Proof using P_tables Hkmalloc.
  unfold mapPageToF. agree_steps. apply agree_getEntryImpl_init.
Qed.

Lemma agree_mapPage this vaddr attributes :
  agree P P (@mapPage A1 refill1 this vaddr attributes) (@mapPage A2 refill2 this vaddr attributes).
Proof using P_tables P_memory Hkmalloc Hrefill.
  unfold mapPage, mapPageTo, _mapPageTo, ready_assert, memory.
  repeat first [agree_step | apply agree_mapPageToF].
Qed.
End mapping_agree.

Section nesting.
Context `{Symbols} (fuel : nat).

Definition allocating (b : bool) (s : MM) : Prop := m_allocating (mm_pageHeap s) = b.

Section two_recs.
Context (rec1 rec2 : Z -> Z -> Z -> ST MM Z).

(** While the heap is allocating its blocks come from the pool. *)
Lemma agree_allocBlock_nested :
  agree (allocating true) (allocating true) (allocBlock pdPageHeap (on_kernel rec1))
                          (allocBlock pdPageHeap (on_kernel rec2)).
Proof.
  intros s Hs. unfold allocBlock, mbind, ST_bind, read_state. cbn [get_heap pdPageHeap].
  rewrite Hs. split; [done|]. unfold assertion. cbn. intros a s'.
  destruct (last (m_pool (mm_pageHeap s))); [|done]. cbn. by intros [= _ <-].
Qed.

Lemma agree_refill_nested :
  agree (allocating true) (allocating true) (refillPool pdPageHeap (on_kernel rec1) fuel)
                          (refillPool pdPageHeap (on_kernel rec2) fuel).
Proof.
  intros s Hs. unfold refillPool, mbind, ST_bind, read_state. cbn [get_heap pdPageHeap].
  rewrite Hs. split; [done|]. by intros a s' [= _ <-].
Qed.

Lemma agree_mapPage_nested this vaddr attributes :
  agree (allocating true) (allocating true)
    (@mapPage (pd_allocator rec1) (refillPool pdPageHeap (on_kernel rec1) fuel) this vaddr attributes)
    (@mapPage (pd_allocator rec2) (refillPool pdPageHeap (on_kernel rec2) fuel) this vaddr attributes).
Proof.
  apply agree_mapPage; [done|done| |apply agree_refill_nested].
  cbn. unfold kmalloc. eapply agree_bind; [apply agree_allocBlock_nested|intros; apply agree_ret].
Qed.

Context (Hrec : forall this vaddr attributes,
  agree (allocating true) (allocating true) (rec1 this vaddr attributes) (rec2 this vaddr attributes)).

Lemma agree_heap_update (P Q : MM -> Prop) f :
  (forall s, P s -> Q (set_mm_pageHeap (f (mm_pageHeap s)) s)) ->
  agree P Q (heap_update pdPageHeap f) (heap_update pdPageHeap f).
Proof. intros Hf s Hs. split; [done|]. intros a s' [= _ <-]. by apply Hf. Qed.

Lemma agree_on_kernel P Q va at_ :
  (forall this, agree P Q (rec1 this va at_) (rec2 this va at_)) ->
  agree P Q (on_kernel rec1 va at_) (on_kernel rec2 va at_).
Proof. intros Hf. unfold on_kernel. apply (agree_bind P P); [apply agree_gets|done]. Qed.

(** [allocPage] sets the flag, maps the pages, and clears the flag. *)
Lemma agree_allocPage index P :
  agree P (allocating false) (allocPage pdPageHeap (on_kernel rec1) index)
                             (allocPage pdPageHeap (on_kernel rec2) index).
Proof using Hrec.
  unfold allocPage. apply (agree_bind _ (allocating true)); [by apply agree_heap_update|intros _].
  apply (agree_bind _ (allocating true)); [apply agree_read|intros ?].
  apply (agree_bind _ (allocating true)); [apply agree_assertion|intros _].
  apply (agree_bind _ (allocating true)); [agree_steps; by apply agree_heap_update|intros _].
  apply (agree_bind _ (allocating true)); [by apply agree_heap_update|intros _].
  apply (agree_bind _ (allocating true)); [|intros phys].
  - destruct (isStatic _ _); [apply agree_ret|]. unfold map_block.
    repeat first [agree_step | apply agree_for_each; intros ? | by apply agree_on_kernel].
  - apply (agree_bind _ (allocating true)); [by apply agree_heap_update|intros _].
    apply (agree_bind _ (allocating false)); [by apply agree_heap_update|intros _].
    apply agree_ret.
Qed.

Lemma agree_allocBlock :
  agree (allocating false) (allocating false) (allocBlock pdPageHeap (on_kernel rec1))
                                              (allocBlock pdPageHeap (on_kernel rec2)).
Proof using Hrec.
  unfold allocBlock. apply agree_read_bind. intros s Hs. cbn [get_heap pdPageHeap].
  rewrite Hs. destruct (find_clear _ _) as [i|]; [apply agree_allocPage|].
  eapply agree_bind; [|intros _; apply agree_allocPage].
  by apply (agree_heap_update _ (fun _ => True)).
Qed.

Lemma agree_refill_loop n :
  agree (allocating false) (allocating false) (refill_loop pdPageHeap (on_kernel rec1) n)
                                              (refill_loop pdPageHeap (on_kernel rec2) n).
Proof using Hrec.
  induction n as [|n IH]; cbn [refill_loop]; repeat agree_step.
  - apply agree_allocBlock.
  - by apply agree_heap_update.
Qed.

Lemma agree_refillPool :
  agree (allocating false) (allocating false) (refillPool pdPageHeap (on_kernel rec1) fuel)
                                              (refillPool pdPageHeap (on_kernel rec2) fuel).
Proof using Hrec.
  unfold refillPool. agree_steps. apply agree_refill_loop.
Qed.

Lemma agree_mapPage_outer this vaddr attributes :
  agree (allocating false) (allocating false)
    (@mapPage (pd_allocator rec1) (refillPool pdPageHeap (on_kernel rec1) fuel) this vaddr attributes)
    (@mapPage (pd_allocator rec2) (refillPool pdPageHeap (on_kernel rec2) fuel) this vaddr attributes).
Proof using Hrec.
  apply agree_mapPage; [done|done| |apply agree_refillPool].
  cbn. unfold kmalloc. eapply agree_bind; [apply agree_allocBlock|intros; apply agree_ret].
Qed.
End two_recs.

Lemma mapPage_nested_S n this vaddr attributes :
  mapPage_nested fuel (S n) this vaddr attributes =
  @mapPage (pd_allocator (mapPage_nested fuel n))
    (refillPool pdPageHeap (on_kernel (mapPage_nested fuel n)) fuel) this vaddr attributes.
Proof. reflexivity. Qed.

(** C36. Mapping a page maps a page of the heap of page tables at most one level deeper:
    [mapPage] calls itself through the allocator of page tables, and that inner call
    takes its tables from the pool.  So two levels of the unfolding are all of it. *)
Theorem mapPage_nesting n this vaddr attributes s :
  mapPage_nested fuel (2 + n) this vaddr attributes s =
  mapPage_nested fuel 2 this vaddr attributes s.
Proof.
  change (2 + n)%nat with (S (S n)). rewrite !mapPage_nested_S.
  destruct (m_allocating (mm_pageHeap s)) eqn:Ha.
  - apply (agree_mapPage_nested (mapPage_nested fuel (S n)) (mapPage_nested fuel 1)
             this vaddr attributes s Ha).
  - apply (agree_mapPage_outer (mapPage_nested fuel (S n)) (mapPage_nested fuel 1)); [|done].
    intros. rewrite !mapPage_nested_S. apply agree_mapPage_nested.
Qed.
End nesting.

(** ** The operations on the abstract page tables *)

(** The object [this] has the tables of [r] and their physical address: the value for CR3. *)
Definition directory_of (G : ghost) (s : MM) (this r : Z) : Prop :=
  exists g, G !! r = Some g /\ mm_directories s !! this = Some (mkPageDirectory (t_phys g) r).

Lemma directory_of_grown G G' s s' this r :
  G ⊆ G' -> mm_directories s' !! this = mm_directories s !! this -> directory_of G s this r -> directory_of G' s' this r.
Proof. intros HG E (g & Hg & Hd). exists g. split; [by apply (lookup_weaken G)|by rewrite E]. Qed.

(** ... well-formed. *)
Record directory_ok (G : ghost) (s : MM) (this r : Z) : Prop := {
  dir_wf : tables_wf G (mm_tables s);
  dir_root : is_root G r;
  dir_object : directory_of G s this r;
}.

Lemma directory_cr3 G s this r : directory_ok G s this r -> exists cr3, mm_directories s !! this = Some (mkPageDirectory cr3 r).
Proof. intros [_ _ (g & _ & Hd)]. by eexists. Qed.

Definition same_page (a a' : Z) : bool := prefix_of 0 a =? prefix_of 0 a'.

Section lookups_spec.
Context (G : ghost) (s : MM) (this r : Z) (Hok : directory_ok G s this r).

Lemma manager_run : manager this s = Ok (r, s).
Proof using Hok.
  destruct (directory_cr3 _ _ _ _ Hok) as [cr3 Hd]. unfold manager, directory, mbind, ST_bind, read_state.
  by rewrite Hd.
Qed.

Lemma getPage_of_run a : getPage_of this a s = Ok (walk (mm_tables s) LevelCount 3 r a, s).
Proof using Hok.
  unfold getPage_of. rewrite (bind_run _ _ _ _ _ manager_run).
  unfold getPage, getEntry. change (LevelCount - 0 - 1)%nat with 3%nat.
  change (mm_tables s) with (get_tables s).
  eapply getEntryImpl_run; [apply Hok|apply root_on_path, Hok|unfold LevelCount; lia].
Qed.

(** A missing table stands for entries that are not present. *)
Lemma resolve_run a :
  g_pagingReady s = true ->
  resolve this a s =
  Ok (if pte_p (pte_at (mm_tables s) r a) then phys_of_base (pte_base (pte_at (mm_tables s) r a))
      else INVALID_PHYS, s).
Proof using Hok.
  intros Hr. unfold resolve, ready_assert.
  erewrite bind_run; [|unfold mbind, ST_bind, read_state, assertion; by rewrite Hr].
  rewrite (bind_run _ _ _ _ _ (getPage_of_run a)). unfold pte_at.
  destruct (walk _ _ _ _ _) as [[q i]|]; [|done].
  unfold load, mbind, ST_bind, gets. cbn. by destruct (pte_p _).
Qed.

(** [store] on the slot of a page. *)
Lemma store_directory_ok q i a f :
  walk (mm_tables s) LevelCount 3 r a = Some (q, i) ->
  (pte_wf (entry_at (mm_tables s) q i) -> pte_wf (f (entry_at (mm_tables s) q i))) ->
  directory_ok G (set_mm_tables
    (store_entry q i (f (entry_at (mm_tables s) q i)) (mm_tables s)) s) this r.
Proof using Hok.
  intros Hw Hf. destruct Hok as [Hwf Hroot Hobj]. split; [|done|done].
  destruct (walk_leaf G _ r a q i Hwf Hroot Hw) as [(g & Hg & Hl & _) _].
  eapply store_leaf_wf; [done|done|done|]. apply Hf, Hwf.
Qed.

Lemma pte_at_stored q i a e a' :
  walk (mm_tables s) LevelCount 3 r a = Some (q, i) ->
  pte_at (store_entry q i e (mm_tables s)) r a' =
  if same_page a' a then e else pte_at (mm_tables s) r a'.
Proof using Hok.
  intros Hw. destruct Hok as [Hwf Hroot _].
  destruct (walk_leaf G _ r a q i Hwf Hroot Hw) as [(g & Hg & _) _].
  rewrite (pte_at_store G _ Hwf _ _ g) by done. unfold same_page.
  destruct (Z.eqb_spec (prefix_of 0 a') (prefix_of 0 a)) as [He|He].
  - rewrite bool_decide_true; [done|]. by apply (walk_slot_page G _ r a a').
  - rewrite bool_decide_false; [done|]. intros Hw'. by apply (walk_slot_page G _ r a a') in Hw'.
Qed.
End lookups_spec.

Lemma same_page_refl a : same_page a a = true.
Proof. apply Z.eqb_refl. Qed.

(** [s'] differs from [s] in one entry: that of the page of [a] in the directory of [r],
    which is now [e].  In another directory the same entry may be seen. *)
Record entry_set (G : ghost) (s s' : MM) (this r a q i : Z) (e : PageTableEntry) : Prop := {
  set_ok : directory_ok G s' this r;
  set_walk : walk (mm_tables s') LevelCount 3 r a = Some (q, i);
  set_entry : entry_at (mm_tables s') q i = e;
  set_pte a' : pte_at (mm_tables s') r a' = if same_page a' a then e else pte_at (mm_tables s) r a';
  set_others r' a' :
    same_page a' a = false -> is_root G r' -> pte_at (mm_tables s') r' a' = pte_at (mm_tables s) r' a';
  set_rest : s' = set_mm_tables (mm_tables s') s;
  set_slots p j : (p, j) <> (q, i) -> entry_at (mm_tables s') p j = entry_at (mm_tables s) p j;
  set_nexts p j : next_at (mm_tables s') p j = next_at (mm_tables s) p j;
}.

Lemma entry_set_refl G s this r a q i :
  directory_ok G s this r -> walk (mm_tables s) LevelCount 3 r a = Some (q, i) ->
  entry_set G s s this r a q i (pte_at (mm_tables s) r a).
Proof.
  intros Hok Hw. split; [done|done| | |done|by destruct s|done|done].
  - unfold pte_at. by rewrite Hw.
  - intros a'. destruct (same_page a' a) eqn:E; [|done]. unfold pte_at.
    rewrite (walk_same_page _ LevelCount 3 r a' a); [done|unfold LevelCount; lia|].
    by apply Z.eqb_eq.
Qed.

Lemma Runs_store G s s1 this r a q i e f (Q : unit -> MM -> Prop) :
  entry_set G s s1 this r a q i e -> (pte_wf e -> pte_wf (f e)) ->
  (forall s2, entry_set G s s2 this r a q i (f e) -> Q tt s2) ->
  Runs (store (q, i) f) s1 Q.
Proof.
  intros [Hok Hw He Hpte Hoth Hrest Hslots Hnexts] Hf HQ. unfold store. apply Runs_modify. cbn [fst snd].
  apply HQ. rewrite <- He in Hf. split.
  - by eapply store_directory_ok.
  - cbn [mm_tables set_mm_tables]. by rewrite walk_store.
  - pose proof (pte_at_stored G s1 this r Hok q i a (f (entry_at (mm_tables s1) q i)) a Hw) as E.
    rewrite same_page_refl in E. unfold pte_at in E. rewrite walk_store, Hw in E. by rewrite <- He.
  - intros a'. cbn [mm_tables set_mm_tables].
    rewrite (pte_at_stored G s1 this r Hok q i a) by done. rewrite He, Hpte. by destruct (same_page a' a).
  - intros r' a' Hne Hr'. cbn [mm_tables set_mm_tables]. rewrite <- Hoth by done.
    destruct Hok as [Hwf Hroot _].
    destruct (walk_leaf G _ r a q i Hwf Hroot Hw) as [(g & Hg & _) _].
    rewrite (pte_at_store G _ Hwf _ _ g) by done. rewrite bool_decide_false; [done|]. intros Hw'.
    apply Z.eqb_neq in Hne. apply Hne.
    apply (walk_same_slot G _ Hwf LevelCount 3 r' r a' a q i);
      [unfold LevelCount; lia|by apply root_on_path|by apply root_on_path|done|done].
  - rewrite Hrest. done.
  - intros p j Hne. cbn [mm_tables set_mm_tables]. rewrite <- Hslots by done.
    destruct Hok as [Hwf Hroot _].
    destruct (walk_leaf G _ r a q i Hwf Hroot Hw) as [(g & Hg & _) _].
    rewrite (entry_at_leaf G _ Hwf q i g) by done. rewrite bool_decide_false; [done|].
    by intros [<- <-].
  - intros p j. cbn [mm_tables set_mm_tables]. by rewrite next_at_store_entry.
Qed.

(** The slots of the pages of [H] are as they were when the page set is not in [H]. *)
Lemma entry_set_heap_same H G s s' this r a q i e :
  ~ H (prefix_of 0 a) -> entry_set G s s' this r a q i e ->
  heap_same H G (mm_tables s) (mm_tables s').
Proof.
  intros Ha Hset p j g Hg Hh. destruct Hset as [[Hwf Hroot _] Hw _ _ _ _ Hslots Hnexts].
  split; [|apply Hnexts]. apply Hslots. intros [= -> ->]. apply Ha.
  destruct (walk_leaf G _ r a q i Hwf Hroot Hw) as [Hq ->].
  by apply (heap_slot_leaf H G q a g Hg Hq).
Qed.

Lemma Runs_load G s s1 this r a q i e (Q : PageTableEntry -> MM -> Prop) :
  entry_set G s s1 this r a q i e -> Q e s1 -> Runs (load (q, i)) s1 Q.
Proof. intros Hset HQ. unfold load. apply Runs_gets. cbn. by rewrite (set_entry _ _ _ _ _ _ _ _ _ Hset). Qed.

(** The lookups only read. *)
Lemma getPage_ends this a m (Q : option slot -> MM -> Prop) : (forall o, Q o m) -> Ends (getPage_of this a) m Q.
Proof.
  intros HQ. unfold getPage_of, manager, directory. ends_steps. unfold getPage, getEntry.
  generalize (LevelCount - 0 - 1)%nat as n. intros n. generalize LevelCount as levels. generalize (m_manager a0) as r.
  induction n as [|n IH]; intros r levels; cbn [getEntryImpl]; [apply HQ|].
  unfold deref. ends_steps; [apply HQ|apply IH].
Qed.

Lemma isPageMapped_ends this a m (Q : bool -> MM -> Prop) : (forall b, Q b m) -> Ends (isPageMapped this a) m Q.
Proof.
  intros HQ. unfold isPageMapped, ready_assert. ends_steps. apply getPage_ends. intros o. unfold load. ends_steps; apply HQ.
Qed.

Lemma resolve_ends this a m (Q : Z -> MM -> Prop) : (forall x, Q x m) -> Ends (resolve this a) m Q.
Proof.
  intros HQ. unfold resolve, ready_assert. ends_steps. apply getPage_ends. intros o. unfold load. ends_steps; apply HQ.
Qed.

Section theorems.
Context (G : ghost) (s : MM) (this r : Z) (Hok : directory_ok G s this r).

Lemma use_loads var d s' :
  mm_directories s !! this = Some d -> use this var s = Ok (tt, s') -> cpu_cr3 s' = m_directory d.
Proof using All.
  clear Hok. intros Hd Hrun. unfold use in Hrun. rewrite bind_read in Hrun. apply bind_ok in Hrun as ([] & s1 & H1 & Hrun).
  assert (mm_directories s1 = mm_directories s) as E.
  { destruct (g_pagingReady s); [|by injection H1 as <-]. apply bind_ok in H1 as (pa & s2 & Ha & H1). apply bind_ok in H1 as (pb & s3 & Hb & H1).
    unfold assertion in H1. destruct (pa =? pb); [injection H1 as <-|done].
    pose proof (resolve_ends (g_currentPageDirectory s) var s (fun _ s' => s' = s) (fun _ => eq_refl)) as Ea. unfold Ends in Ea. rewrite Ha in Ea. subst s2.
    pose proof (resolve_ends this var s (fun _ s' => s' = s) (fun _ => eq_refl)) as Eb. unfold Ends in Eb. rewrite Hb in Eb. by subst s3. }
  apply bind_ok in Hrun as (d' & s2 & H2 & Hrun). unfold directory, mbind, ST_bind, read_state, from_option in H2. rewrite E, Hd in H2.
  injection H2 as <- <-. by injection Hrun as <-.
Qed.

(** C1. [resolve] returns the physical page that the processor finds for the address and [INVALID_PHYS] where it faults, in the
    memory that holds the tables, starting from the value of the directory object, which is the one that [use] loads in CR3. *)
Theorem resolve_is_mmu memory d a :
  mm_directories s !! this = Some d -> in_memory G (mm_tables s) memory -> g_pagingReady s = true ->
  resolve this a s =
  Ok (match mmu_walk memory LevelCount (m_directory d) a with
      | Some word => Z.shiftl (field word 12 40) 12
      | None => INVALID_PHYS
      end, s) /\
  forall var s', use this var s = Ok (tt, s') -> cpu_cr3 s' = m_directory d.
Proof using Hok.
  intros Hd Hmem Hr. split; [|intros var s'; by apply use_loads].
  rewrite (resolve_run G s this r Hok) by done. pose proof Hok as [Hwf Hroot (g & Hg & Ed)].
  rewrite Hd in Ed. injection Ed as ->. cbn [m_directory].
  rewrite (mmu_walk_pte_at G (mm_tables s)) with (r := r) by done.
  destruct (pte_p _) eqn:Hp; [|done].
  assert (pte_wf (pte_at (mm_tables s) r a)) as Hpte.
  { unfold pte_at. destruct (walk _ _ _ _ _) as [[]|]; [apply Hwf|done]. }
  rewrite (proj2 (encode_p_base _ Hpte)). do 2 f_equal. unfold phys_of_base.
  apply wrap_small. destruct Hpte as (_ & Hb & _). unfold in_word in *.
  rewrite Z.shiftl_mul_pow2 by done. change BASE_SHIFT with 12. lia.
Qed.

Lemma unmapPage_run a q i :
  g_pagingReady s = true -> pte_p (pte_at (mm_tables s) r a) = true ->
  walk (mm_tables s) LevelCount 3 r a = Some (q, i) ->
  Runs (unmapPage this a) s (fun phys s' =>
    phys = phys_of_base (pte_base (pte_at (mm_tables s) r a)) /\
    entry_set G s s' this r a q i (set_base 0 (set_p false (pte_at (mm_tables s) r a)))).
Proof using Hok.
  intros Hr Hp Hw. pose proof (getPage_of_run G s this r Hok a) as Hpage. rewrite Hw in Hpage.
  pose proof (entry_set_refl G s this r a q i Hok Hw) as H0.
  unfold unmapPage, ready_assert. run_steps; [done|].
  eapply Runs_of_ok; [exact Hpage|]. cbn beta iota.
  run_step. eapply Runs_load; [done|]. run_steps; [done|].
  eapply Runs_store; [done|done|]. intros s1 H1.
  run_step. eapply Runs_load; [done|]. run_step.
  eapply Runs_store; [done|apply set_base_wf|]. intros s2 H2. run_steps. done.
Qed.

(** [unmapPage] returns the page that was mapped and unmaps it, and no other page. *)
Theorem unmapPage_spec a :
  g_pagingReady s = true -> pte_p (pte_at (mm_tables s) r a) = true ->
  Runs (unmapPage this a) s (fun phys s' =>
    phys = phys_of_base (pte_base (pte_at (mm_tables s) r a)) /\
    directory_ok G s' this r /\ mm_memory s' = mm_memory s /\
    forall a', pte_at (mm_tables s') r a' =
      if same_page a' a then set_base 0 (set_p false (pte_at (mm_tables s) r a))
      else pte_at (mm_tables s) r a').
Proof using Hok.
  intros Hr Hp. destruct (walk (mm_tables s) LevelCount 3 r a) as [[q i]|] eqn:Hw.
  2:{ unfold pte_at in Hp. by rewrite Hw in Hp. }
  eapply Runs_mono; [by apply (unmapPage_run a q i)|]. intros phys s' [-> H2].
  split_and!; [done|apply H2|by rewrite (set_rest _ _ _ _ _ _ _ _ _ H2)|apply H2].
Qed.

(** Unmapping a page that is not mapped fails. *)
Theorem unmapPage_unmapped a :
  g_pagingReady s = true -> pte_p (pte_at (mm_tables s) r a) = false ->
  Fails (unmapPage this a) s (AssertionFailed "page && page->p").
Proof using Hok.
  intros Hr Hp. pose proof (getPage_of_run G s this r Hok a) as Hpage.
  unfold Fails, unmapPage, ready_assert.
  erewrite bind_run; [|unfold mbind, ST_bind, read_state, assertion; by rewrite Hr].
  rewrite (bind_run _ _ _ _ _ Hpage). unfold pte_at in Hp.
  destruct (walk (mm_tables s) LevelCount 3 r a) as [[q i]|]; [|done].
  unfold load, mbind, ST_bind, gets. cbn [fst snd]. by rewrite Hp.
Qed.

(** [isPageMapped] and [getPhysicalAddress] agree with [resolve]. *)
Theorem lookups_agree a :
  g_pagingReady s = true ->
  let e := pte_at (mm_tables s) r a in
  isPageMapped this a s = Ok (pte_p e, s) /\
  getPhysicalAddress this a s = Ok (if pte_p e then Some (phys_of_base (pte_base e)) else None, s) /\
  resolve this a s = Ok (if pte_p e then phys_of_base (pte_base e) else INVALID_PHYS, s).
Proof using Hok.
  intros Hr e. pose proof (getPage_of_run G s this r Hok a) as Hpage.
  split_and!; [| |by apply resolve_run with G].
  all: unfold isPageMapped, getPhysicalAddress, ready_assert.
  all: erewrite bind_run; [|unfold mbind, ST_bind, read_state, assertion; by rewrite Hr].
  all: rewrite (bind_run _ _ _ _ _ Hpage); unfold e, pte_at.
  all: destruct (walk (mm_tables s) LevelCount 3 r a) as [[q i]|]; [|done].
  all: unfold load, mbind, ST_bind, gets; cbn [fst snd]; by destruct (pte_p _).
Qed.

Definition is_deferred (e : PageTableEntry) : bool := negb (pte_p e) && (pte_base e =? INVALID_PAGE).

(** A fault on a deferred page gives it a page that was free, with the attributes
    recorded when it was mapped; every other fault is refused and changes nothing. *)
Theorem handleFault_spec a :
  memory_wf (mm_memory s) -> frames_size (mm_memory s) < 2 ^ 40 ->
  Runs (handleFault this a) s (fun handled s' =>
    handled = is_deferred (pte_at (mm_tables s) r a) /\
    if handled then exists page,
      used (mm_memory s) page = false /\
      (forall p, used (mm_memory s') p = (page =? p) || used (mm_memory s) p) /\
      directory_ok G s' this r /\
      forall a', pte_at (mm_tables s') r a' =
        if same_page a' a then set_base page (set_p true (pte_at (mm_tables s) r a))
        else pte_at (mm_tables s) r a'
    else s' = s).
Proof using Hok.
  intros Hm Hsz. pose proof (getPage_of_run G s this r Hok a) as Hpage.
  unfold handleFault. run_step. eapply Runs_of_ok; [exact Hpage|].
  destruct (walk (mm_tables s) LevelCount 3 r a) as [[q i]|] eqn:Hw.
  2:{ run_steps. unfold pte_at. by rewrite Hw. }
  pose proof (entry_set_refl G s this r a q i Hok Hw) as H0.
  run_step. eapply Runs_load; [done|].
  unfold is_deferred. destruct (pte_p (pte_at (mm_tables s) r a)) eqn:Hp; [by run_steps|].
  destruct (pte_base (pte_at (mm_tables s) r a) =? INVALID_PAGE) eqn:Hb; [|by run_steps].
  cbn [orb negb andb]. run_step. unfold memory, zoom, Runs at 1.
  pose proof (getFreePage_run (mm_memory s) Hm ltac:(lia)) as Hfree. unfold Runs in Hfree.
  destruct (getFreePage (mm_memory s)) as [[page m']|]; [|done].
  destruct Hfree as ((_ & Hu & _ & _ & _ & Hused) & _).
  assert (entry_set G (set_mm_memory m' s) (set_mm_memory m' s) this r a q i
            (pte_at (mm_tables s) r a)) as H1.
  { by apply (entry_set_refl G (set_mm_memory m' s)); [destruct Hok|]. }
  run_step. eapply Runs_store; [exact H1|done|]. intros s1 H2. run_step.
  eapply Runs_store; [exact H2|apply set_base_wf|]. intros s2 H3. run_steps.
  split; [done|]. exists page. split_and!; [done| |apply H3|apply H3].
  rewrite (set_rest _ _ _ _ _ _ _ _ _ H3). exact Hused.
Qed.
End theorems.

(** ** Mapping, against what the tables promise and the allocator answers *)
Definition mm_rest (s : MM) : gmap Z PageDirectory * Z * Z * bool * Z :=
  (mm_directories s, g_kernelDirectory s, g_currentPageDirectory s, g_pagingReady s, cpu_cr3 s).

Lemma AttributeSetter_keeps Attr : has_attr Attr ATTR_DEFER = false -> keeps_p_and_base (AttributeSetter Attr).
Proof.
  intros Hd e. split_and!.
  - by rewrite AttributeSetter_p, Hd.
  - apply AttributeSetter_base.
  - apply AttributeSetter_wf.
Qed.

Section mapping_spec.
Context `{!TableAllocator MM, !TableAllocatorLaws MM mm_rest}.

(** What a mapping needs: the page is not one of the allocator's own, no table on its
    path would hold one of those, and the tables that miss can be allocated. *)
Record can_map (n : nat) (G : ghost) (s : MM) (this r a : Z) : Prop := {
  can_ok : directory_ok G s this r;
  can_page : ~ heap_pages (prefix_of 0 a);
  can_path : path_clear heap_pages (mm_tables s) LevelCount 3 r a;
  can_alloc : alloc_ready (misses (mm_tables s) LevelCount 3 r a + n) G s;
}.

(** What it does: one page of the directory changes, of those that are not the
    allocator's. *)
Definition mapped (n : nat) (G G' : ghost) (s s' : MM) (this r a : Z) (e : PageTableEntry) : Prop :=
  directory_ok G' s' this r /\ G ⊆ G' /\ alloc_ready n G' s' /\ mm_rest s' = mm_rest s /\
  forall a', ~ heap_pages (prefix_of 0 a') ->
    pte_at (mm_tables s') r a' = (if same_page a' a then e else pte_at (mm_tables s) r a') /\
    (same_page a' a = false -> forall r', is_root G r' ->
       pte_at (mm_tables s') r' a' = pte_at (mm_tables s) r' a').

(** And what it does to the tables: some are added, on the path of the page alone. *)
Definition mapped_tables (G G' : ghost) (s s' : MM) (r a : Z) : Prop :=
  extends G (mm_tables s) (mm_tables s') /\
  off_path heap_pages G (mm_tables s) (mm_tables s') (path_tables (mm_tables s) LevelCount 3 r a).

Lemma mapPageToF_run n G s this r a paddr f :
  can_map n G s this r a -> pte_p (pte_at (mm_tables s) r a) = false ->
  (forall e, pte_wf e -> pte_wf (f e)) ->
  Runs (mapPageToF this a paddr f) s (fun _ s' => exists G',
    mapped n G G' s s' this r a
      (f (set_base (Z.shiftr paddr BASE_SHIFT) (set_p true (pte_at (mm_tables s) r a)))) /\
    mapped_tables G G' s s' r a).
Proof.
  intros [Hok Hpage Hpath Halloc] Hp Hf. pose proof (manager_run G s this r Hok) as Hman.
  destruct Hok as [Hwf Hroot Hobj].
  unfold mapPageToF. run_step. eapply Runs_of_ok; [exact Hman|]. run_step.
  eapply Runs_mono.
  { apply (getEntryImpl_init_spec mm_rest (AttributeSetter 3) (AttributeSetter_keeps 3 eq_refl)
             LevelCount 3 r a n G s); [done|by apply root_on_path|unfold LevelCount; lia|done|done]. }
  intros [q i] s1 (G1 & Hrest & Hwf1 & Hgr & Hw & Hoff & Hready). cbn beta.
  assert (directory_ok G1 s1 this r) as Hok1.
  { split; [done|by eapply is_root_grows|]. eapply directory_of_grown; [apply Hgr| |exact Hobj]. by injection Hrest as -> _ _ _ _. }
  pose proof (entry_set_refl G1 s1 this r a q i Hok1 Hw) as H0.
  assert (forall r' a', is_root G r' -> ~ heap_pages (prefix_of 0 a') ->
            pte_at (mm_tables s1) r' a' = pte_at (mm_tables s) r' a') as Hsame.
  { intros. by eapply (pte_at_grows heap_pages G G1). }
  rewrite Hsame in H0 by done.
  run_step. eapply Runs_load; [exact H0|]. run_step. apply Runs_assertion; [by rewrite Hp|].
  run_step. eapply Runs_store; [exact H0|done|]. intros s2 H2.
  run_step. eapply Runs_store; [exact H2|apply set_base_wf|]. intros s3 H3.
  eapply Runs_store; [exact H3|apply Hf|]. intros s4 H4. exists G1.
  set (e := f _) in *. split; [split_and!; [apply H4|apply Hgr| | |]|split].
  - pose proof (set_rest _ _ _ _ _ _ _ _ _ H4) as E. rewrite E.
    change (set_mm_tables (mm_tables s4) s1) with (set_tables (mm_tables s4) s1).
    apply (alloc_ready_stable (rest := mm_rest)); [apply H4|done|]. by eapply entry_set_heap_same.
  - rewrite (set_rest _ _ _ _ _ _ _ _ _ H4). done.
  - intros a' Ha'. rewrite (set_pte _ _ _ _ _ _ _ _ _ H4), Hsame by done. split; [done|].
    intros Hne r' Hr'. rewrite (set_others _ _ _ _ _ _ _ _ _ H4) by (done || by eapply is_root_grows).
    by apply Hsame.
  - destruct (grows_extends _ _ _ _ _ Hgr) as [H1 H5].
    split; intros; rewrite (set_nexts _ _ _ _ _ _ _ _ _ H4) in *; eauto.
  - intros p j g Hg Hnh Hp'. rewrite (set_nexts _ _ _ _ _ _ _ _ _ H4), (set_slots _ _ _ _ _ _ _ _ _ H4).
    + by eapply Hoff.
    + intros [= -> ->]. apply Hp'.
      destruct (walk_grows_inv _ _ _ _ _ Hwf Hgr LevelCount 3 r a q i (root_on_path G r a Hroot) Hw) as [Hw0|[_ Hnew]];
        [by eapply walk_path_tables|congruence].
Qed.

(** The addresses and attributes [_mapPageTo] accepts. *)
Definition allowed (vaddr attributes : Z) : bool :=
  negb ((vaddr <? 0xffffffff00000000) && negb (has_attr attributes ATTR_PUBLIC)) &&
  negb ((0xffffffffc0000000 <? vaddr) && has_attr attributes ATTR_PUBLIC) &&
  ((0 <=? attributes) && (attributes <=? 0xf)).

Lemma _mapPageTo_run n G s this r a paddr attributes :
  can_map n G s this r a -> pte_p (pte_at (mm_tables s) r a) = false ->
  allowed a attributes = true ->
  Runs (_mapPageTo this a paddr attributes) s (fun _ s' => exists G',
    mapped n G G' s s' this r a
      (AttributeSetter attributes
         (set_base (Z.shiftr paddr BASE_SHIFT) (set_p true (pte_at (mm_tables s) r a)))) /\
    mapped_tables G G' s s' r a).
Proof.
  intros Hcan Hp Hal. unfold allowed in Hal. apply andb_true_iff in Hal as [[H1 H2]%andb_true_iff H3].
  apply negb_true_iff in H1, H2. unfold _mapPageTo. rewrite H1, H2, H3. run_steps.
  apply mapPageToF_run; [done|done|apply AttributeSetter_wf].
Qed.

(** C15. [_mapPageTo] maps the page that was asked for to the physical page that was asked for, with exactly the attributes that
    were asked for, when its entry has no rights left from an earlier mapping (which [_mapPageTo] would add to); a deferred page
    is recorded without being present.  It changes no other page of any directory; the tables stay well-formed. *)
Theorem _mapPageTo_spec n G s this r a paddr attributes :
  can_map n G s this r a -> pte_p (pte_at (mm_tables s) r a) = false -> no_rights (pte_at (mm_tables s) r a) = true ->
  allowed a attributes = true -> 0 <= paddr < 2 ^ 52 -> has_attr attributes ATTR_DEFER = false \/ paddr / 4096 = INVALID_PAGE ->
  Runs (_mapPageTo this a paddr attributes) s (fun _ s' => exists G' e,
    mapped n G G' s s' this r a e /\ getAttributes e = attributes /\
    pte_p e = negb (has_attr attributes ATTR_DEFER) /\ pte_base e = paddr / 4096).
Proof.
  intros Hcan Hp Hr Hal Hpa Hd. eapply Runs_mono; [by apply _mapPageTo_run|].
  intros [] s' (G' & Hmap & _). eexists G', _. split; [exact Hmap|].
  assert (Z.shiftr paddr BASE_SHIFT = paddr / 4096) as -> by (by rewrite Z.shiftr_div_pow2).
  unfold allowed in Hal. apply andb_true_iff in Hal as [_ [H1%Z.leb_le H2%Z.leb_le]%andb_true_iff].
  split; [by apply attributes_set; [lia|..]|]. rewrite AttributeSetter_p, AttributeSetter_base. cbn [pte_p pte_base set_base set_p].
  split; [by destruct (has_attr _ _)|]. apply wrap_small. unfold in_word. Z.to_euclidean_division_equations; lia.
Qed.

(** Otherwise it panics. *)
Theorem _mapPageTo_refused s this a paddr attributes :
  allowed a attributes = false ->
  exists message, Fails (_mapPageTo this a paddr attributes) s (Panicked message).
Proof.
  unfold allowed, Fails, _mapPageTo, mbind, ST_bind. intros Hal.
  destruct ((a <? 0xffffffff00000000) && negb (has_attr attributes ATTR_PUBLIC));
    [eexists; reflexivity|].
  destruct ((0xffffffffc0000000 <? a) && has_attr attributes ATTR_PUBLIC); [eexists; reflexivity|].
  cbn [negb andb] in Hal. rewrite Hal. eexists; reflexivity.
Qed.

(** A page that is mapped cannot be mapped again. *)
Theorem mapPageToF_twice G s this r a paddr f :
  directory_ok G s this r -> pte_p (pte_at (mm_tables s) r a) = true ->
  Fails (mapPageToF this a paddr f) s (AssertionFailed "Page already mapped").
Proof.
  intros Hok Hp. pose proof (manager_run G s this r Hok) as Hman. unfold Fails, mapPageToF.
  rewrite (bind_run _ _ _ _ _ Hman). unfold pte_at in Hp.
  destruct (walk (mm_tables s) LevelCount 3 r a) as [sl|] eqn:Hw; [|done].
  destruct Hok as [Hwf Hroot _].
  erewrite bind_run; [|exact (getEntryImpl_init_found _ G LevelCount 3 r a s sl Hwf
    (root_on_path G r a Hroot) Hw)].
  destruct sl as [q i]. unfold load, mbind, ST_bind, gets, assertion. cbn [fst snd]. by rewrite Hp.
Qed.
End mapping_spec.

(** ** The walk over the user pages *)

(** A loop whose body does nothing. *)
Lemma for_each_skip {S A} (l : list A) (body : A -> ST S unit) s :
  (forall x, x ∈ l -> body x s = Ok (tt, s)) -> for_each l body s = Ok (tt, s).
Proof.
  induction l as [|x l IH]; intros Hb; [done|]. cbn [for_each].
  rewrite (bind_run _ _ _ _ _ (Hb x ltac:(by left))). apply IH. intros y Hy. apply Hb. by right.
Qed.

Lemma for_next_skip s table body :
  is_Some (mm_tables s !! table) ->
  (forall i, 0 <= i < 512 -> body i (next_at (mm_tables s) table i) s = Ok (tt, s)) ->
  for_next (fun _ m => m) table body s = Ok (tt, s).
Proof.
  intros [t Ht] Hb. apply for_each_skip. intros i Hi%elem_of_seqZ.
  erewrite bind_run; [|unfold deref; erewrite bind_run; [|done]; cbn; by rewrite Ht].
  apply Hb. lia.
Qed.

(** [add4] is sign-extended before it is compared with a constant of 48 bits, so the
    comparison holds of the whole upper half. *)
Lemma upper_half_address i4 i3 :
  256 <= i4 < 512 -> 0 <= i3 < 512 ->
  0xffff00000000 <= Z.lor (extendSign (getAddress 4 i4)) (getAddress 3 i3).
Proof.
  intros H4 H3.
  assert (extendSign (getAddress 4 i4) = 2 ^ 39 * i4 + 2 ^ 64 - 2 ^ 48) as ->.
  { unfold extendSign, getAddress, addressFromIndex. rewrite TOTAL_BITS_eq. unfold ADD_BITS.
    change (12 + 9 * Z.of_nat 4 - 9) with 39. change (64 - (4 * 9 + 12)) with 16.
    rewrite !Z.shiftl_mul_pow2, Z.shiftr_div_pow2 by done.
    rewrite (wrap_small 64 (i4 * 2 ^ 39)) by (unfold in_word; lia). unfold wrap_signed.
    replace ((i4 * 2 ^ 39 * 2 ^ 16 + 2 ^ (64 - 1)) mod 2 ^ 64)
      with (i4 * 2 ^ 39 * 2 ^ 16 + 2 ^ 63 - 2 ^ 64)
      by (apply (Z.mod_unique_pos _ _ 1); lia).
    replace (i4 * 2 ^ 39 * 2 ^ 16 + 2 ^ 63 - 2 ^ 64 - 2 ^ (64 - 1)) with ((i4 * 2 ^ 39 - 2 ^ 48) * 2 ^ 16) by lia.
    rewrite Z.div_mul by done. unfold wrap. symmetry. apply (Z.mod_unique_pos _ _ (-1)); lia. }
  assert (0 <= getAddress 3 i3) as Hn by (apply wrap_range; done).
  pose proof (Z.lor_nonneg (2 ^ 39 * i4 + 2 ^ 64 - 2 ^ 48) (getAddress 3 i3)).
  assert (2 ^ 39 * i4 + 2 ^ 64 - 2 ^ 48 <= Z.lor (2 ^ 39 * i4 + 2 ^ 64 - 2 ^ 48) (getAddress 3 i3)); [|lia].
  pose proof (Z.ldiff_le (2 ^ 39 * i4 + 2 ^ 64 - 2 ^ 48)
                (Z.lor (2 ^ 39 * i4 + 2 ^ 64 - 2 ^ 48) (getAddress 3 i3))) as Hle.
  apply Hle; [lia|]. apply Z.bits_inj'. intros n _.
  rewrite Z.ldiff_spec, Z.lor_spec, Z.bits_0. by destruct (Z.testbit _ n), (Z.testbit _ n).
Qed.

(** [forEachUserPage] visits no page of the upper half of the address space: where the
    lower half is empty it calls nothing, whatever is mapped below the kernel's base. *)
Theorem forEachUserPage_low_half G s this r f :
  directory_ok G s this r ->
  (forall i, 0 <= i < 256 -> next_at (mm_tables s) r i = 0) ->
  forEachUserPage this f s = Ok (tt, s).
Proof.
  intros Hok Hlow. unfold forEachUserPage, forEachUserPage_in.
  rewrite (bind_run _ _ _ _ _ (manager_run G s this r Hok)). destruct Hok as [Hwf (g & Hg & _) _].
  apply for_next_skip; [apply (wf_dom _ _ Hwf), (mk_is_Some _ _ Hg)|]. intros i4 H4.
  destruct (Z.eqb_spec (next_at (mm_tables s) r i4) 0) as [|Hn]; [done|].
  assert (256 <= i4) by (destruct (Z.lt_ge_cases i4 256); [by rewrite Hlow in Hn by lia|done]).
  destruct (wf_child _ _ Hwf r i4 g Hg Hn) as (_ & g' & Hg' & _).
  apply for_next_skip; [apply (wf_dom _ _ Hwf), (mk_is_Some _ _ Hg')|]. intros i3 H3.
  by rewrite (proj2 (Z.leb_le _ _) (upper_half_address i4 i3 ltac:(lia) H3)).
Qed.

(** Unmapping clears the present bit and the base, and mapping sets bits alone: a page that is mapped
    again keeps the rights it had before, whatever the attributes asked for. *)
Section remap.
Context `{!TableAllocator MM}.

Lemma mapPageToF_found G s s1 this r a q i e paddr f (Q : unit -> MM -> Prop) :
  entry_set G s s1 this r a q i e -> pte_p e = false -> (forall e, pte_wf e -> pte_wf (f e)) ->
  (forall s2, entry_set G s s2 this r a q i
     (f (set_base (Z.shiftr paddr BASE_SHIFT) (set_p true e))) -> Q tt s2) ->
  Runs (mapPageToF this a paddr f) s1 Q.
Proof.
  intros H1 Hp Hf HQ. pose proof (set_ok _ _ _ _ _ _ _ _ _ H1) as Hok.
  pose proof (manager_run G s1 this r Hok) as Hman. destruct Hok as [Hwf Hroot _].
  unfold mapPageToF. run_step. eapply Runs_of_ok; [exact Hman|]. run_step.
  eapply Runs_of_ok; [exact (getEntryImpl_init_found _ G LevelCount 3 r a s1 (q, i) Hwf
    (root_on_path G r a Hroot) (set_walk _ _ _ _ _ _ _ _ _ H1))|].
  run_step. eapply Runs_load; [exact H1|]. run_steps; [by rewrite Hp|].
  eapply Runs_store; [exact H1|done|]. intros s2 H2. run_step.
  eapply Runs_store; [exact H2|apply set_base_wf|]. intros s3 H3.
  eapply Runs_store; [exact H3|apply Hf|]. done.
Qed.

(** A page that is unmapped and mapped again keeps the rights it had, whatever the
    attributes asked for. *)
Theorem remap_keeps_rights G s this r a paddr attributes :
  directory_ok G s this r -> g_pagingReady s = true ->
  pte_p (pte_at (mm_tables s) r a) = true -> allowed a attributes = true ->
  Runs (unmapPage this a ;; _mapPageTo this a paddr attributes) s (fun _ s' =>
    let old := pte_at (mm_tables s) r a in
    let new := pte_at (mm_tables s') r a in
    (pte_rw old = true -> pte_rw new = true) /\ (pte_us old = true -> pte_us new = true) /\
    (pte_nx old = true -> pte_nx new = true)).
Proof.
  intros Hok Hr Hp Hal. apply Runs_bind.
  destruct (walk (mm_tables s) LevelCount 3 r a) as [[q i]|] eqn:Hw.
  2:{ unfold pte_at in Hp. by rewrite Hw in Hp. }
  eapply Runs_mono; [by apply (unmapPage_run G s this r Hok)|]. intros phys s1 [_ H1].
  unfold allowed in Hal. apply andb_true_iff in Hal as [[G1 G2]%andb_true_iff G3].
  apply negb_true_iff in G1, G2. unfold _mapPageTo. rewrite G1, G2, G3. run_steps.
  eapply mapPageToF_found; [exact H1|done|apply AttributeSetter_wf|].
  intros s2 H2. rewrite (set_pte _ _ _ _ _ _ _ _ _ H2 a), same_page_refl.
  unfold AttributeSetter. repeat case_match; by split_and!.
Qed.
End remap.

(** Going from the directory in use to another one that maps the local variable [var] alike *)
Lemma use_run G s current this r r' var :
  g_currentPageDirectory s = current -> directory_ok G s current r -> directory_ok G s this r' ->
  g_pagingReady s = true -> pte_at (mm_tables s) r var = pte_at (mm_tables s) r' var ->
  exists cr3, use this var s = Ok (tt, set_currentPageDirectory this (set_cr3 cr3 s)).
Proof.
  intros Hcur Hok Hok' Hrdy Hvar. destruct (directory_cr3 _ _ _ _ Hok') as [cr3 Hd]. exists cr3.
  unfold use. rewrite bind_read, Hrdy. erewrite bind_run.
  2:{ rewrite Hcur, (bind_run _ _ _ _ _ (resolve_run G s current r Hok var Hrdy)),
        (bind_run _ _ _ _ _ (resolve_run G s this r' Hok' var Hrdy)), Hvar.
      unfold assertion. by rewrite Z.eqb_refl. }
  assert (directory this s = Ok (mkPageDirectory cr3 r', s)) as E
    by (unfold directory, mbind, ST_bind, read_state, from_option; by rewrite Hd).
  unfold mbind, ST_bind, modify. by rewrite E.
Qed.

(** ** The pool answers the tables' requests during an allocation *)
Section pool.
Context `{Symbols} (rec : Z -> Z -> Z -> ST MM Z).

Definition block_ptr (b : Z * Z) : Z := pageToPtr pdPageHeap b.1.

Record pool_ready (n : nat) (G : ghost) (s : MM) : Prop := {
  pool_allocating : m_allocating (mm_pageHeap s) = true;
  pool_enough : (n <= length (m_pool (mm_pageHeap s)))%nat;
  pool_fresh b : b ∈ m_pool (mm_pageHeap s) -> fresh_table G (block_ptr b) b.2;
  pool_ptrs : NoDup (map block_ptr (m_pool (mm_pageHeap s)));
  pool_phys : NoDup (map snd (m_pool (mm_pageHeap s)));
}.

Lemma pool_pop (p : list (Z * Z)) b :
  last (p ++ [b]) = Some b /\ take (length (p ++ [b]) - 1) (p ++ [b]) = p.
Proof.
  split; [apply last_snoc|]. rewrite length_app. simpl.
  replace (length p + 1 - 1)%nat with (length p) by lia. apply take_app_length.
Qed.

Lemma NoDup_snoc {A} (l : list A) x : NoDup (l ++ [x]) -> NoDup l /\ x ∉ l.
Proof. intros (Hl & Hd & _)%NoDup_app. split; [done|]. intros Hx. by apply (Hd x Hx), list_elem_of_singleton. Qed.

#[export, refine] Instance pool_laws :
  @TableAllocatorLaws MM _ mm_rest MM_tables (pd_allocator rec) :=
  @Build_TableAllocatorLaws MM _ mm_rest MM_tables (pd_allocator rec)
    (fun T s => eq_refl) (fun _ => False) pool_ready _ _.
Proof.
  - intros n G s T _ [H1 H2 H3 H4 H5] _. by split.
  - intros n G s Hwf [Hal Hn Hfresh Hptrs Hphys].
    destruct (m_pool (mm_pageHeap s)) as [|b p _] eqn:Hpool using rev_ind; [simpl in Hn; lia|].
    destruct (pool_pop p b) as [Hlast Htake].
    cbn [table_kmalloc pd_allocator]. unfold kmalloc, allocBlock. run_steps.
    cbn [get_heap pdPageHeap]. rewrite Hal, Hpool, Hlast. run_steps; [done|].
    unfold heap_update. run_steps. cbn [get_heap set_heap pdPageHeap fst snd].
    rewrite Hpool, Htake. exists G.
    split_and!; [done|done|by apply grows_refl|done|by apply Hfresh, elem_of_app; right; left|].
    intros g T2 Hg _ _ _. rewrite map_app in Hptrs, Hphys.
    apply NoDup_snoc in Hptrs as [Hptrs Hb], Hphys as [Hphys Hb2].
    rewrite length_app in Hn. simpl in Hn. split; cbn; [done|lia| |done|done].
    intros b' Hb'.
    destruct (Hfresh b') as (Hnz & Hnew & Hin & Hmod & Hdist); [apply elem_of_app; by left|].
    split_and!; [done| |done|done|].
    + rewrite lookup_insert_ne; [done|]. intros E. apply Hb.
      change (pageToPtr _ b.1) with (block_ptr b) in E. rewrite E. by apply list_elem_of_fmap_2.
    + intros q g' [[<- <-]|[_ Hq]]%lookup_insert_Some; [|by eapply Hdist].
      rewrite Hg. intros E. apply Hb2. rewrite E. by apply list_elem_of_fmap_2.
Defined.
End pool.

(** ** A concrete state: the directory of a kernel, with one page mapped *)
#[local] Instance example_symbols : Symbols := {|
  getKernelBootstrapStart := 0x100000;
  getKernelTextStart := 0x104000;
  getKernelRodataStart := 0x160000;
  getKernelDataStart := 0x170000;
  getKernelBssEnd := 0x190000;
  getKernelPageHeapStart := 0x400000;
  getKernelVTextStart := 0xffffffffc0000000;
  getKernelVTextEnd := 0xffffffffc0050000;
  getKernelVRodataStart := 0xffffffffc005c000;
  getKernelVRodataEnd := 0xffffffffc0060000;
  getKernelVDataStart := 0xffffffffc006c000;
  getKernelVBssEnd := 0xffffffffc008c000;
  getKernelVVga := 0xffffffffcf000000;
  getStackBase := 0xffffffffd0000000;
  getPageHeapBase := 0xffffffffe0000000;
  getStackPageHeapBase := 0xffffffffe8000000;
  getHeapBase := 0xfffffffff0000000;
|}.

(** The first four blocks of the heap of page tables. *)
Definition block (k : Z) : Z * Z := (pageToPtr pdPageHeap k, static_phys pdPageHeap k).
Definition block_of (k : Z) : Z * Z := (k, static_phys pdPageHeap k).
Definition example_object : Z := 0xfffffffff0000100.
Definition example_page : Z := 0xffffffffc0003000.

Definition upper_entry (k : Z) : PageTableEntry :=
  AttributeSetter 3 (set_base (Z.shiftr (block k).2 BASE_SHIFT) (set_p true zero_pte)).
Definition leaf_entry : PageTableEntry := set_base 0x1234 (set_p true zero_pte).
Definition deferred_entry : PageTableEntry := set_base INVALID_PAGE zero_pte.

Definition empty_tables : Tables := {[ (block 0).1 := PageManager ]}.
Definition empty_ghost : ghost := {[ (block 0).1 := mkInfo LevelCount 0 (block 0).2 ]}.

(** Adding the table [block k] on the path of [example_page]. *)
Definition add_path (TG : Tables * ghost) (k : Z) : Tables * ghost :=
  let p := (block (k - 1)).1 in
  let i := indexFromAddress (Z.to_nat (5 - k)) example_page in
  let g := default (mkInfo 0 0 0) (TG.2 !! p) in
  (add_table TG.1 p i (block k).1 (upper_entry k),
   <[(block k).1 := added_info i (block k).2 g]> TG.2).

Definition example_path : Tables * ghost := foldl add_path (empty_tables, empty_ghost) [1; 2; 3].
Definition example_ghost : ghost := example_path.2.
Definition example_tables (e : PageTableEntry) : Tables :=
  store_entry (block 3).1 (indexFromAddress 1 example_page) e example_path.1.

Definition example_mm (alloc : bool) (T : Tables) : MM :=
  mkMM small_memory T (mkPageHeap 4 alloc [true; true; true; true] (map block_of [1; 2; 3]))
       {[ example_object := mkPageDirectory (block 0).2 (block 0).1 ]} example_object example_object true 0.

Lemma fresh_table_dec G ptr phys :
  ptr <> 0 -> G !! ptr = None -> in_word 52 phys -> phys mod 4096 = 0 ->
  map_Forall (fun _ g => t_phys g <> phys) G -> fresh_table G ptr phys.
Proof. intros. by split_and!. Qed.

Lemma add_path_wf TG k g :
  tables_wf TG.2 TG.1 -> TG.2 !! (block (k - 1)).1 = Some g -> (1 < t_levels g)%nat ->
  1 <= k <= 3 -> fresh_table TG.2 (block k).1 (block k).2 ->
  tables_wf (add_path TG k).2 (add_path TG k).1.
Proof.
  intros Hwf Hg Hl Hk Hfresh. unfold add_path. cbn [fst snd]. rewrite Hg. cbn [default].
  assert (k = 1 \/ k = 2 \/ k = 3) as Hcases by lia.
  eapply add_table_wf; [exact Hwf|exact Hg|exact Hl| |exact Hfresh|done| |].
  all: destruct Hcases as [-> | [-> | ->]]; done.
Qed.

Lemma example_path_wf : tables_wf example_ghost example_path.1.
Proof.
  unfold example_ghost, example_path. cbn [foldl].
  assert (tables_wf empty_ghost empty_tables) as H0 by (apply tables_wf_root; done).
  do 3 (eapply add_path_wf; [|vm_compute; reflexivity|cbn; lia|lia
    |apply fresh_table_dec; [done..|refine (bool_decide_unpack _ _); by vm_compute]]).
  exact H0.
Qed.

Lemma example_ok b e : pte_wf e ->
  directory_ok example_ghost (example_mm b (example_tables e)) example_object (block 0).1.
Proof.
  intros He. split.
  - eapply (store_leaf_wf example_ghost example_path.1 example_path_wf); [vm_compute; reflexivity|done|done].
  - eexists. split; [vm_compute; reflexivity|done].
  - exists (mkInfo LevelCount 0 (block 0).2). by split; [vm_compute|].
Qed.

Lemma example_pte b e :
  pte_at (mm_tables (example_mm b (example_tables e))) (block 0).1 example_page = e.
Proof. by vm_compute. Qed.

Lemma small_memory_small : frames_size small_memory < 2 ^ 40.
Proof. done. Qed.

Lemma resolve_is_mmu_witness :
  let s := example_mm false (example_tables leaf_entry) in
  resolve example_object example_page s =
  Ok (match mmu_walk (memory_image example_ghost (mm_tables s)) LevelCount 0x400000 example_page with
      | Some word => Z.shiftl (field word 12 40) 12
      | None => INVALID_PHYS
      end, s) /\
  resolve example_object example_page s = Ok (0x1234000, s) /\
  forall var s', use example_object var s = Ok (tt, s') -> cpu_cr3 s' = 0x400000.
Proof.
  intros s.
  assert (directory_ok example_ghost s example_object (block 0).1) as Hok by (apply example_ok; done).
  destruct (resolve_is_mmu example_ghost s example_object (block 0).1 Hok (memory_image example_ghost (mm_tables s))
    (mkPageDirectory (block 0).2 (block 0).1) example_page) as [H1 H2]; [done|apply memory_image_ok, Hok|done|].
  split; [exact H1|]. split; [by vm_compute|exact H2].
Defined.

Lemma unmapPage_spec_witness :
  let s := example_mm false (example_tables leaf_entry) in
  Runs (unmapPage example_object example_page) s (fun phys s' =>
    phys = 0x1234000 /\ pte_p (pte_at (mm_tables s') (block 0).1 example_page) = false).
Proof.
  intros s. eapply Runs_mono.
  - apply (unmapPage_spec example_ghost s example_object (block 0).1 (example_ok false leaf_entry ltac:(done))
             example_page); done.
  - intros phys s' (-> & _ & _ & Hp). split; [by vm_compute|]. by rewrite Hp, same_page_refl.
Defined.

Lemma handleFault_spec_witness :
  let s := example_mm false (example_tables deferred_entry) in
  Runs (handleFault example_object example_page) s (fun handled s' =>
    handled = true /\ pte_p (pte_at (mm_tables s') (block 0).1 example_page) = true).
Proof.
  intros s. eapply Runs_mono.
  - apply (handleFault_spec example_ghost s example_object (block 0).1 (example_ok false deferred_entry ltac:(done))
             example_page); [done|].
    apply small_memory_small.
  - intros handled s' [-> H]. subst s. rewrite example_pte in H |- *.
    split; [done|].
    destruct H as (page & _ & _ & _ & Hp). by rewrite Hp, same_page_refl.
Defined.

(** The blocks of the pool make the tables of the first page that is mapped. *)
Definition no_mapPage (this vaddr attributes : Z) : ST MM Z := fail OutOfFuel.

Lemma example_pool : pool_ready 3 empty_ghost (example_mm true empty_tables).
Proof.
  split; [done|done| | |].
  - cbn [m_pool mm_pageHeap example_mm map]. intros b Hb.
    repeat (apply elem_of_cons in Hb as [->|Hb];
      [apply fresh_table_dec; [done..|refine (bool_decide_unpack _ _); by vm_compute]|]).
    by apply elem_of_nil in Hb.
  - refine (bool_decide_unpack _ _). by vm_compute.
  - refine (bool_decide_unpack _ _). by vm_compute.
Qed.

Lemma example_can_map :
  @can_map (pd_allocator no_mapPage) (pool_laws no_mapPage) 0 empty_ghost
    (example_mm true empty_tables) example_object (block 0).1 example_page.
Proof.
  split.
  - split; [by apply tables_wf_root|eexists; split; [vm_compute; reflexivity|done]|by exists (mkInfo LevelCount 0 (block 0).2)].
  - intros Hf. exact Hf.
  - vm_compute. by intros (n & [] & _).
  - exact example_pool.
Qed.

Lemma _mapPageTo_spec_witness :
  Runs (@_mapPageTo (pd_allocator no_mapPage) example_object example_page 0x5000 1)
    (example_mm true empty_tables) (fun _ s' =>
      let e := pte_at (mm_tables s') (block 0).1 example_page in
      pte_p e = true /\ getAttributes e = ATTR_RW /\ pte_base e = 5).
Proof.
  eapply Runs_mono.
  - apply (@_mapPageTo_spec (pd_allocator no_mapPage) (pool_laws no_mapPage) 0 empty_ghost
             (example_mm true empty_tables) example_object (block 0).1 example_page 0x5000 1
             example_can_map); [by vm_compute..|lia|by left].
  - intros _ s' (G' & e & (_ & _ & _ & _ & Hpte) & Hattr & Hp & Hb).
    destruct (Hpte example_page) as [-> _]; [intros Hf; exact Hf|]. by rewrite same_page_refl.
Defined.

Lemma remap_keeps_rights_witness :
  let s := example_mm true (example_tables (set_rw true leaf_entry)) in
  Runs (unmapPage example_object example_page ;;
        @_mapPageTo (pd_allocator no_mapPage) example_object example_page 0x5000 0) s
    (fun _ s' => pte_rw (pte_at (mm_tables s') (block 0).1 example_page) = true).
Proof.
  intros s. eapply Runs_mono.
  - apply (@remap_keeps_rights (pd_allocator no_mapPage) example_ghost s example_object (block 0).1
             example_page 0x5000 0); [by apply example_ok|done|by vm_compute|by vm_compute].
  - intros _ s' (Hrw & _). apply Hrw. by vm_compute.
Defined.

Lemma _mapPageTo_refused_witness :
  allowed 0x400000 0 = false /\
  exists message, Fails (@_mapPageTo (pd_allocator no_mapPage) example_object 0x400000 0x5000 0)
    (example_mm true empty_tables) (Panicked message).
Proof.
  split; [done|].
  by apply (@_mapPageTo_refused (pd_allocator no_mapPage) (example_mm true empty_tables)
           example_object 0x400000 0x5000 0).
Defined.

(** [example_page] is mapped in the upper half; a callback that fails is not called. *)
Lemma forEachUserPage_low_half_witness :
  let f _ _ _ := fail (Panicked "visited") in
  forEachUserPage example_object f (example_mm false (example_tables leaf_entry)) =
  Ok (tt, example_mm false (example_tables leaf_entry)).
Proof.
  intros f. apply (forEachUserPage_low_half example_ghost _ example_object (block 0).1); [by apply example_ok|].
  intros i Hi. unfold next_at.
  change (mm_tables (example_mm false (example_tables leaf_entry)) !! (block 0).1)
    with ((example_tables leaf_entry) !! (block 0).1).
  assert (exists e, example_tables leaf_entry !! (block 0).1 =
                    Some (mkTable e {[ 511 := (block 1).1 ]})) as [e ->].
  { eexists. by vm_compute. }
  cbn. by rewrite lookup_singleton_ne by lia.
Defined.

Lemma unmapPage_unmapped_witness :
  Fails (unmapPage example_object 0x4000) (example_mm false (example_tables leaf_entry))
    (AssertionFailed "page && page->p").
Proof.
  apply (unmapPage_unmapped example_ghost _ example_object (block 0).1
           (example_ok false leaf_entry ltac:(done)) 0x4000); [done|by vm_compute].
Defined.

Lemma lookups_agree_witness :
  let s := example_mm false (example_tables leaf_entry) in
  isPageMapped example_object example_page s = Ok (true, s) /\
  getPhysicalAddress example_object example_page s = Ok (Some 0x1234000, s) /\
  resolve example_object example_page s = Ok (0x1234000, s).
Proof.
  intros s. apply (lookups_agree example_ghost s example_object (block 0).1
           (example_ok false leaf_entry ltac:(done)) example_page). done.
Defined.

Lemma mapPageToF_twice_witness :
  Fails (@mapPageToF (pd_allocator no_mapPage) example_object example_page 0x5000 id)
    (example_mm true (example_tables leaf_entry)) (AssertionFailed "Page already mapped").
Proof.
  apply (@mapPageToF_twice (pd_allocator no_mapPage) example_ghost _ example_object (block 0).1);
    [by apply example_ok|by vm_compute].
Defined.
