(* ===== verification/UserSpace.v ===== *)
(** * The memory of a task, as the loader and the system calls use it

    What [elf::exec] asks of the address space of the active task: to map a page, and that what it
    stores through its pointers can be read there.  [UserOps] are the operations, [UserLaws] what
    they promise; [AddressSpace] implements both with the page directory of the task. *)

From Stdlib Require Import ZArith Lia.
From stdpp Require Import list numbers gmap.
From S2P Require Import Prelude Words PageManager PageDirectory.

(** ** Numbers in memory, lowest byte first *)
Fixpoint le_bytes (n : nat) (z : Z) : list Z :=
  match n with O => [] | S n => z mod 256 :: le_bytes n (z / 256) end.
Fixpoint le_value (l : list Z) : Z :=
  match l with [] => 0 | b :: l => b + 256 * le_value l end.

Lemma length_le_bytes n z : length (le_bytes n z) = n.
Proof. revert z. induction n as [|n IH]; intros z; [done|]. cbn. by rewrite IH. Qed.

Lemma le_bytes_word n z : Forall (in_word 8) (le_bytes n z).
Proof.
  revert z. induction n as [|n IH]; intros z; cbn [le_bytes]; [by constructor|]. apply Forall_cons. split; [|apply IH].
  unfold in_word. pose proof (Z.mod_pos_bound z 256). change (2 ^ 8) with 256. lia.
Qed.

Lemma le_roundtrip n z : 0 <= z < 256 ^ Z.of_nat n -> le_value (le_bytes n z) = z.
Proof.
  revert z. induction n as [|n IH]; intros z Hz; [cbn in Hz |- *; lia|].
  cbn [le_bytes le_value]. rewrite Nat2Z.inj_succ, Z.pow_succ_r in Hz by lia.
  rewrite IH; [pose proof (Z.div_mod z 256); lia|].
  split; [apply Z.div_pos; lia|apply Z.div_lt_upper_bound; lia].
Qed.

(** ** The interface *)

(** The lower half of the address space *)
Definition user (a : Z) : Prop := 0 <= a < 2 ^ 47.

Class UserOps (K : Type) : Type := {
  us_mapPage : Z -> Z -> ST K unit;
  us_write : Z -> list Z -> ST K unit;
}.

Definition ATTR_USER : Z := Z.lor Pte.ATTR_RW Pte.ATTR_PUBLIC.

Class UserLaws (K : Type) `{!UserOps K} : Type := {
  (** well-formed, and that many more pages can be mapped *)
  us_ready : nat -> K -> Prop;
  (** what is at an address: [None] where no page is mapped *)
  us_byte : K -> Z -> option Z;
  us_byte_page k a a' :
    user a -> user a' -> a / 4096 = a' / 4096 -> us_byte k a = None -> us_byte k a' = None;
  us_mapPage_spec b k a :
    us_ready (S b) k -> user a -> us_byte k a = None ->
    Runs (us_mapPage a ATTR_USER) k (fun _ k' => us_ready b k' /\
      forall a', user a' ->
        if a' / 4096 =? a / 4096 then is_Some (us_byte k' a') else us_byte k' a' = us_byte k a');
  us_write_spec b k a l :
    us_ready b k -> Forall (in_word 8) l ->
    (forall i, 0 <= i < Z.of_nat (length l) -> user (a + i) /\ is_Some (us_byte k (a + i))) ->
    Runs (us_write a l) k (fun _ k' => us_ready b k' /\
      forall a', user a' -> us_byte k' a' =
        if (a <=? a') && (a' <? a + Z.of_nat (length l)) then l !! Z.to_nat (a' - a)
        else us_byte k a');
}.

(** ** What follows for ranges *)
Section ranges.
Context {K : Type} `{!UserOps K, !UserLaws K}.
Implicit Types (k : K) (a : Z) (l : list Z).

(** The pages of a range, rounded to whole pages *)
Definition in_pages (a n a' : Z) : Prop := a / 4096 <= a' / 4096 < (a + n + 4095) / 4096.
#[export] Instance in_pages_dec a n a' : Decision (in_pages a n a').
Proof. unfold in_pages. apply _. Defined.

Definition unmapped k a n : Prop := forall a', user a' -> in_pages a n a' -> us_byte k a' = None.
Definition all_mapped k a n : Prop := forall i, 0 <= i < n -> user (a + i) /\ is_Some (us_byte k (a + i)).

(** The bytes at an address *)
Definition holds k a l : Prop :=
  forall i x, l !! i = Some x -> user (a + Z.of_nat i) /\ us_byte k (a + Z.of_nat i) = Some x.

(** What a step left of a part of the memory *)
Definition same_on (P : Z -> Prop) k k' : Prop := forall a, user a -> P a -> us_byte k' a = us_byte k a.

Lemma same_on_refl P k : same_on P k k.
Proof. done. Qed.
Lemma same_on_trans (P : Z -> Prop) k1 k2 k3 : same_on P k1 k2 -> same_on P k2 k3 -> same_on P k1 k3.
Proof. intros H1 H2 a Hu Ha. rewrite H2 by done. by apply H1. Qed.
Lemma same_on_mono (P Q : Z -> Prop) k k' : same_on P k k' -> (forall a, Q a -> P a) -> same_on Q k k'.
Proof. intros H HPQ a Hu Ha. apply H; [done|]. by apply HPQ. Qed.

Lemma holds_same P k k' a l :
  same_on P k k' -> holds k a l -> (forall i, 0 <= i < Z.of_nat (length l) -> P (a + i)) -> holds k' a l.
Proof.
  intros Hs Hh HP i x Hi. destruct (Hh i x Hi) as [Hu Hb]. split; [done|]. rewrite Hs; [done|done|].
  apply HP. apply lookup_lt_Some in Hi. lia.
Qed.

Lemma write_run b k a l :
  us_ready b k -> Forall (in_word 8) l -> all_mapped k a (Z.of_nat (length l)) ->
  Runs (us_write a l) k (fun _ k' => us_ready b k' /\ holds k' a l /\
    (forall a', user a' -> is_Some (us_byte k a') -> is_Some (us_byte k' a')) /\
    same_on (fun a' => ~ (a <= a' < a + Z.of_nat (length l))) k k').
Proof.
  intros Hr Hl Hm. eapply Runs_mono; [by apply (us_write_spec b)|]. intros _ k' [Hr' Hb]. split_and!; [done| | |].
  - intros i x Hi. pose proof (lookup_lt_Some _ _ _ Hi) as Hlen.
    destruct (Hm (Z.of_nat i) ltac:(lia)) as [Hu _]. split; [done|]. rewrite Hb by done.
    rewrite (proj2 (Z.leb_le _ _)), (proj2 (Z.ltb_lt _ _)) by lia. cbn [andb].
    by replace (Z.to_nat (a + Z.of_nat i - a)) with i by lia.
  - intros a' Hu Ha'. rewrite Hb by done. destruct ((a <=? a') && (a' <? a + Z.of_nat (length l))) eqn:E; [|done].
    apply andb_true_iff in E as [E1%Z.leb_le E2%Z.ltb_lt]. apply lookup_lt_is_Some. lia.
  - intros a' Hu Ha'. rewrite Hb by done. destruct ((a <=? a') && (a' <? a + Z.of_nat (length l))) eqn:E; [|done].
    apply andb_true_iff in E as [E1%Z.leb_le E2%Z.ltb_lt]. lia.
Qed.

(** The loop over the pages of a range that starts a page *)
Lemma map_pages_run b k a m :
  us_ready (m + b) k -> a mod 4096 = 0 -> 0 <= a -> a + 4096 * Z.of_nat m <= 2 ^ 47 ->
  unmapped k a (4096 * Z.of_nat m) ->
  Runs (for_each (map (fun i => a + i * 0x1000) (seqZ 0 (Z.of_nat m))) (fun cur => us_mapPage cur ATTR_USER)) k
    (fun _ k' => us_ready b k' /\ all_mapped k' a (4096 * Z.of_nat m) /\
       same_on (fun a' => ~ in_pages a (4096 * Z.of_nat m) a') k k').
Proof.
  revert a k. induction m as [|m IH]; intros a k Hr Ha H0 Hend Hun.
  { apply Runs_ret. split_and!; [done|intros i ?; lia|done]. }
  assert (map (fun i => a + i * 0x1000) (seqZ 0 (Z.of_nat (S m))) =
          a :: map (fun i => (a + 4096) + i * 0x1000) (seqZ 0 (Z.of_nat m))) as ->.
  { rewrite seqZ_cons by lia. cbn [map]. f_equal; [lia|].
    replace (Z.pred (Z.of_nat (S m))) with (Z.of_nat m) by lia.
    change (Z.succ 0) with (1 + 0). rewrite <- fmap_add_seqZ.
    change (fmap (Z.add 1) (seqZ 0 (Z.of_nat m))) with (map (Z.add 1) (seqZ 0 (Z.of_nat m))).
    rewrite map_map. apply map_ext. intros i. lia. }
  cbn [for_each]. apply Runs_bind.
  assert (forall a', a' / 4096 = a / 4096 -> in_pages a (4096 * Z.of_nat (S m)) a') as Hin.
  { intros a' E. unfold in_pages. Z.to_euclidean_division_equations. lia. }
  eapply Runs_mono; [apply (us_mapPage_spec (m + b)); [done|unfold user; lia|apply Hun; [unfold user; lia|by apply Hin]]|].
  intros [] k1 [Hr1 H1]. eapply Runs_mono.
  { apply (IH (a + 4096)); [done| |lia|lia|].
    - rewrite <- Zplus_mod_idemp_l, Ha. done.
    - intros a' Hu Hp. specialize (H1 a' Hu). unfold in_pages in Hp.
      rewrite (proj2 (Z.eqb_neq _ _)) in H1 by (Z.to_euclidean_division_equations; lia). rewrite H1. apply Hun; [done|].
      unfold in_pages. Z.to_euclidean_division_equations. lia. }
  intros [] k2 (Hr2 & Hm2 & Hs2). split_and!; [done| |].
  - intros i Hi. split; [unfold user; lia|]. destruct (Z_lt_ge_dec i 4096).
    + rewrite Hs2; [|unfold user; lia|unfold in_pages; Z.to_euclidean_division_equations; lia].
      specialize (H1 (a + i) ltac:(unfold user; lia)).
      by rewrite (proj2 (Z.eqb_eq _ _)) in H1 by (Z.to_euclidean_division_equations; lia).
    + replace (a + i) with (a + 4096 + (i - 4096)) by lia. apply Hm2. lia.
  - intros a' Hu Hn. rewrite Hs2; [|done|contradict Hn; unfold in_pages in *; Z.to_euclidean_division_equations; lia].
    specialize (H1 a' Hu). rewrite (proj2 (Z.eqb_neq _ _)) in H1; [done|]. contradict Hn. by apply Hin.
Qed.
End ranges.

(** ** The abstract memory

    The interface as a specification: a set of mapped pages, and what is at each address. *)
Record PageStore : Type := mkPageStore {
  ps_pages : gset Z;
  ps_bytes : Z -> Z;
  ps_room : nat;
}.

Definition ps_mapPage (a attributes : Z) : ST PageStore unit :=
  k ← read_state;
  assertion (negb (bool_decide (a / 4096 ∈ ps_pages k))) "Page already mapped" ;;
  match ps_room k with
  | O => fail OutOfFuel
  | S n => modify (fun k => mkPageStore ({[ a / 4096 ]} ∪ ps_pages k) (ps_bytes k) n)
  end.

Definition ps_write_byte (a x : Z) : ST PageStore unit :=
  k ← read_state;
  if bool_decide (a / 4096 ∈ ps_pages k)
  then modify (fun k => mkPageStore (ps_pages k) (fun a' => if a' =? a then x else ps_bytes k a') (ps_room k))
  else fail (Undefined "page fault").

Fixpoint ps_write (a : Z) (l : list Z) : ST PageStore unit :=
  match l with
  | [] => mret tt
  | x :: l => ps_write_byte a x ;; ps_write (a + 1) l
  end.

#[export] Instance ps_ops : UserOps PageStore := {| us_mapPage := ps_mapPage; us_write := ps_write |}.

Definition ps_byte (k : PageStore) (a : Z) : option Z :=
  if bool_decide (a / 4096 ∈ ps_pages k) then Some (ps_bytes k a) else None.

Lemma ps_byte_mapped k a : is_Some (ps_byte k a) <-> a / 4096 ∈ ps_pages k.
Proof.
  unfold ps_byte. destruct (bool_decide_reflect (a / 4096 ∈ ps_pages k)); split; [done|by eexists|by intros []|done].
Qed.

Lemma ps_write_run k a l :
  (forall i, 0 <= i < Z.of_nat (length l) -> is_Some (ps_byte k (a + i))) ->
  Runs (ps_write a l) k (fun _ k' => ps_room k' = ps_room k /\ ps_pages k' = ps_pages k /\
    forall a', ps_byte k' a' = if (a <=? a') && (a' <? a + Z.of_nat (length l)) then l !! Z.to_nat (a' - a) else ps_byte k a').
Proof.
  revert a k. induction l as [|x l IH]; intros a k Hm; cbn [ps_write].
  { apply Runs_ret. split_and!; [done|done|]. intros a'.
    destruct (Z.leb_spec a a'), (Z.ltb_spec a' (a + Z.of_nat (@length Z []))); cbn [andb length] in *; try done; lia. }
  assert (a / 4096 ∈ ps_pages k) as Ha.
  { apply ps_byte_mapped. replace a with (a + 0) by lia. apply Hm. cbn [length]. lia. }
  apply Runs_bind. unfold ps_write_byte. run_step. run_step. rewrite bool_decide_true by done. run_step.
  set (k1 := mkPageStore _ _ _).
  assert (forall a', ps_byte k1 a' = if a' =? a then Some x else ps_byte k a') as Hk1.
  { intros a'. unfold ps_byte, k1. cbn [ps_pages ps_bytes].
    destruct (Z.eqb_spec a' a) as [->|]; [by rewrite bool_decide_true|done]. }
  eapply Runs_mono; [apply IH|].
  { intros i Hi. replace (a + 1 + i) with (a + (i + 1)) by lia. apply ps_byte_mapped. cbn [k1 ps_pages].
    apply ps_byte_mapped, Hm. cbn [length]. lia. }
  intros [] k2 (Hr & Hp & Hb). split_and!; [done|done|]. intros a'. rewrite Hb, Hk1. cbn [length].
  destruct (Z.leb_spec (a + 1) a'), (Z.ltb_spec a' (a + 1 + Z.of_nat (length l))), (Z.leb_spec a a'),
    (Z.ltb_spec a' (a + Z.of_nat (S (length l)))), (Z.eqb_spec a' a); cbn [andb]; try lia; try done.
  - by replace (Z.to_nat (a' - a)) with (S (Z.to_nat (a' - (a + 1)))) by lia.
  - by replace (Z.to_nat (a' - a)) with O by lia.
Qed.

#[export, refine] Instance ps_laws : UserLaws PageStore :=
  {| us_ready b k := (b <= ps_room k)%nat; us_byte := ps_byte |}.
Proof.
  - intros k a a' _ _ E. unfold ps_byte. rewrite E. by destruct (bool_decide _).
  - intros b k a Hr Hu Hn. cbn [us_mapPage ps_ops]. unfold ps_mapPage. run_steps.
    { apply negb_true_iff, bool_decide_false. intros Hin%ps_byte_mapped. rewrite Hn in Hin. by destruct Hin. }
    destruct (ps_room k) as [|n]; [lia|]. run_steps. cbn [ps_room]. split; [lia|]. intros a' Hu'.
    destruct (Z.eqb_spec (a' / 4096) (a / 4096)) as [E|E].
    + apply ps_byte_mapped. cbn [ps_pages]. set_solver.
    + unfold ps_byte. cbn [ps_pages ps_bytes].
      rewrite (bool_decide_ext (a' / 4096 ∈ {[a / 4096]} ∪ ps_pages k) (a' / 4096 ∈ ps_pages k)) by (rewrite elem_of_union, elem_of_singleton; intuition congruence). done.
  - intros b k a l Hr _ Hm. eapply Runs_mono; [apply ps_write_run; intros i Hi; by apply Hm|].
    intros [] k' (Hroom & _ & Hb). rewrite Hroom. split; [done|]. intros a' _. apply Hb.
Defined.
