(* ===== verification/AddressSpace.v ===== *)
(** * The address spaces of the tasks: [PageDirectory] over the physical memory

    What a program sees: the bytes of the physical pages its directory maps.  [spaces] is the
    invariant of the directories of the tasks: they share no table of the lower half and no
    physical page.  Mapping a page keeps it, and with it the memory of every task but for that page; the stores of the
    kernel through user addresses, which may fault on deferred pages, change one byte of one task. *)

From Stdlib Require Import ZArith Lia.
From stdpp Require Import list numbers gmap.
From S2P Require Import Prelude Words Memory Pte PageManager PageHeap PageDirectory UserSpace.

(** ** The pages of the lower half *)
Lemma user_prefix l a : (l <= 4)%nat -> user a -> prefix_of l a = a / 2 ^ (12 + 9 * Z.of_nat l).
Proof.
  intros Hl [H0 H1]. unfold prefix_of. rewrite TOTAL_BITS_eq, wrap_small by (unfold in_word, VIRT_ADDRESS_BITS; lia).
  by rewrite Z.shiftr_div_pow2 by lia.
Qed.

Lemma user_page a : user a -> prefix_of 0 a = a / 4096.
Proof. intros Hu. by rewrite user_prefix by (done || lia). Qed.

Lemma same_page_user a a' : user a -> user a' -> same_page a a' = (a / 4096 =? a' / 4096).
Proof. intros H1 H2. unfold same_page. by rewrite !user_page. Qed.

Lemma user_clear (H : Z -> Prop) a l :
  (forall n, H n -> 2 ^ 35 <= n) -> user a -> (l <= 3)%nat ->
  ~ exists n, H n /\ Z.shiftr n (9 * Z.of_nat l) = prefix_of l a.
Proof.
  intros Hup [Ha0 Ha1] Hl (n & Hn & E). apply Hup in Hn. rewrite user_prefix, Z.shiftr_div_pow2 in E by (done || lia).
  assert (a / 2 ^ (12 + 9 * Z.of_nat l) < 2 ^ (35 - 9 * Z.of_nat l)) as Hlt.
  { apply Z.div_lt_upper_bound; [lia|]. rewrite <- Z.pow_add_r by lia.
    by replace (12 + 9 * Z.of_nat l + (35 - 9 * Z.of_nat l)) with 47 by lia. }
  assert (2 ^ (35 - 9 * Z.of_nat l) <= n / 2 ^ (9 * Z.of_nat l)); [|lia].
  apply Z.div_le_lower_bound; [lia|]. rewrite <- Z.pow_add_r by lia.
  by replace (9 * Z.of_nat l + (35 - 9 * Z.of_nat l)) with 35 by lia.
Qed.

Lemma user_not_heap (H : Z -> Prop) a : (forall n, H n -> 2 ^ 35 <= n) -> user a -> ~ H (prefix_of 0 a).
Proof.
  intros Hup Hu Hh. apply (user_clear H a 0 Hup Hu ltac:(lia)). exists (prefix_of 0 a). split; [done|].
  by rewrite Z.shiftr_0_r.
Qed.

Lemma user_path_clear (H : Z -> Prop) T levels rev p a :
  (forall n, H n -> 2 ^ 35 <= n) -> user a -> (rev < levels <= LevelCount)%nat -> path_clear H T levels rev p a.
Proof.
  intros Hup Hu. revert levels p. induction rev as [|rev IH]; intros levels p Hr; cbn [path_clear]; [done|].
  unfold LevelCount in *. destruct (_ =? 0); [apply user_clear; [done|done|lia]|apply IH; lia].
Qed.

Lemma misses_le T levels rev p a : (misses T levels rev p a <= rev)%nat.
Proof.
  revert levels p. induction rev as [|rev IH]; intros levels p; cbn [misses]; [done|].
  destruct (_ =? 0); [done|]. etransitivity; [apply IH|]. lia.
Qed.

(** Tables are added, and the pointers to tables stay. *)
Definition grown (G G' : ghost) (s s' : MM) : Prop :=
  G ⊆ G' /\
  forall p i g, G !! p = Some g -> next_at (mm_tables s) p i <> 0 ->
    next_at (mm_tables s') p i = next_at (mm_tables s) p i.

Lemma grown_same G s s' : mm_tables s' = mm_tables s -> grown G G s s'.
Proof. intros E. split; [done|]. by rewrite E. Qed.

Lemma grown_nexts G s s' : (forall p i, next_at (mm_tables s') p i = next_at (mm_tables s) p i) -> grown G G s s'.
Proof. intros E. split; [done|]. intros. apply E. Qed.

Lemma grown_trans G1 G2 G3 s1 s2 s3 : grown G1 G2 s1 s2 -> grown G2 G3 s2 s3 -> grown G1 G3 s1 s3.
Proof.
  intros [H1 H2] [H3 H4]. split; [by etransitivity|]. intros p i g Hg Hn.
  rewrite (H4 p i g); [by eapply H2|by eapply lookup_weaken|by rewrite (H2 p i g)].
Qed.

(** ** What the allocators do to the map of the physical pages *)

(** No page is freed, and the map grows by at most [16 c] entries. *)
Definition mem_le (c : Z) (m m' : Memory) : Prop :=
  memory_wf m' /\ (forall p, used m p = true -> used m' p = true) /\ frames_size m' <= frames_size m + 16 * c.

Lemma mem_le_refl c m : 0 <= c -> memory_wf m -> mem_le c m m.
Proof. intros. split_and!; [done|done|lia]. Qed.

Lemma mem_le_trans c1 c2 m1 m2 m3 : mem_le c1 m1 m2 -> mem_le c2 m2 m3 -> mem_le (c1 + c2) m1 m3.
Proof. intros (H1 & H2 & H3) (H4 & H5 & H6). split_and!; [done|auto|lia]. Qed.

Lemma mem_le_mono c c' m m' : c <= c' -> mem_le c m m' -> mem_le c' m m'.
Proof. intros Hc (H1 & H2 & H3). split_and!; [done|done|lia]. Qed.

(** Neither the kernel's directory nor the tables out of [F] lead to a table of [F]. *)
Definition unreached (s : MM) (F : Z -> Prop) : Prop :=
  (forall d, mm_directories s !! g_kernelDirectory s = Some d -> ~ F (m_manager d)) /\
  forall p i, ~ F p -> ~ F (next_at (mm_tables s) p i).

(** The slots of the tables out of [F] are as they were. *)
Definition same_but (F : Z -> Prop) (T T' : Tables) : Prop :=
  forall p i, ~ F p -> entry_at T' p i = entry_at T p i /\ next_at T' p i = next_at T p i.

Class MemoryLaws `{!TableAllocator MM, !TableAllocatorLaws MM mm_rest} (refillPool : ST MM unit) := {
  (** how many physical pages a table, or the refilling of the pool, may take *)
  table_cost : Z;
  table_cost_nonneg : 0 <= table_cost;
  kmalloc_memory s r s' :
    memory_wf (mm_memory s) -> frames_size (mm_memory s) < 2 ^ 40 -> table_kmalloc s = Ok (r, s') -> mem_le table_cost (mm_memory s) (mm_memory s');
  alloc_ready_le n m G s : (n <= m)%nat -> alloc_ready m G s -> alloc_ready n G s;
  (** a page that is taken, as long as there is room for the tables *)
  alloc_ready_memory n G s m :
    alloc_ready n G s -> mem_le 1 (mm_memory s) m -> frames_size m < 2 ^ 39 -> alloc_ready n G (set_mm_memory m s);
  alloc_ready_use n G s d cr3 : alloc_ready n G s -> alloc_ready n G (set_currentPageDirectory d (set_cr3 cr3 s));
  (** another directory, or a table that the kernel's directory does not lead to, does not matter *)
  alloc_ready_directory n G s this d :
    alloc_ready n G s -> this <> g_kernelDirectory s -> alloc_ready n G (set_mm_directories (<[this := d]> (mm_directories s)) s);
  alloc_ready_unreached n G s T' F :
    alloc_ready n G s -> unreached s F -> same_but F (mm_tables s) T' -> tables_wf G T' -> alloc_ready n G (set_mm_tables T' s);
  (** the heap of page tables is in the part of the upper half that all directories share *)
  heap_kernel n : heap_pages n -> 2 ^ 36 - 2 ^ 18 <= n;
  refill_spec n G s :
    tables_wf G (mm_tables s) -> alloc_ready n G s -> memory_wf (mm_memory s) ->
    Runs refillPool s (fun _ s' => exists G',
      mm_rest s' = mm_rest s /\ tables_wf G' (mm_tables s') /\
      grows heap_pages G G' (mm_tables s) (mm_tables s') /\
      others_same heap_pages G (mm_tables s) (mm_tables s') /\
      alloc_ready n G' s' /\ mem_le table_cost (mm_memory s) (mm_memory s'));
}.

Lemma heap_upper `{!TableAllocator MM, !TableAllocatorLaws MM mm_rest} {refillPool : ST MM unit} `{!MemoryLaws refillPool} n :
  heap_pages n -> 2 ^ 35 <= n.
Proof. intros H%heap_kernel. lia. Qed.

(** Of the pages that are not the allocator's, only those of [P] changed. *)
Definition grown_but `{!TableAllocator MM, !TableAllocatorLaws MM mm_rest} (P : Z -> Prop) (G G' : ghost) (s s' : MM) : Prop :=
  grown G G' s s' /\
  forall r a, is_root G r -> ~ heap_pages (prefix_of 0 a) -> ~ P a -> pte_at (mm_tables s') r a = pte_at (mm_tables s) r a.

Definition page_of (a a' : Z) : Prop := same_page a' a = true.

Section grown_but.
Context `{!TableAllocator MM, !TableAllocatorLaws MM mm_rest}.
Implicit Types (P : Z -> Prop).

Lemma grown_but_same P G s s' : mm_tables s' = mm_tables s -> grown_but P G G s s'.
Proof. intros E. split; [by apply grown_same|]. intros. by rewrite E. Qed.

Lemma grown_but_trans P G1 G2 G3 s1 s2 s3 : grown_but P G1 G2 s1 s2 -> grown_but P G2 G3 s2 s3 -> grown_but P G1 G3 s1 s3.
Proof.
  intros [H1 H2] [H3 H4]. split; [by eapply grown_trans|]. intros r a Hr Hh HP. rewrite H4, H2; [done|done|done|done| |done|done].
  destruct Hr as (g & Hg & ?). exists g. split; [|done]. eapply lookup_weaken; [done|apply H1].
Qed.

Lemma grown_but_mono P P' G G' s s' : (forall a, P a -> P' a) -> grown_but P G G' s s' -> grown_but P' G G' s s'.
Proof. intros HP [H1 H2]. split; [done|]. intros r a Hr Hh Hn. apply H2; [done|done|]. auto. Qed.
End grown_but.

Section memory_effects.
Context `{!TableAllocator MM, !TableAllocatorLaws MM mm_rest} (refillPool : ST MM unit) `{!MemoryLaws refillPool}.

Lemma create_next_memory init T p i s r s' :
  memory_wf (mm_memory s) -> frames_size (mm_memory s) < 2 ^ 40 -> create_next init T p i s = Ok (r, s') ->
  mem_le table_cost (mm_memory s) (mm_memory s').
Proof.
  intros Hwf Hsz Hrun. unfold create_next in Hrun. apply bind_ok in Hrun as ([] & s1 & Ha & Hrun).
  unfold assertion in Ha. destruct (negb _); [injection Ha as <-|done].
  apply bind_ok in Hrun as (b & s2 & Hk & Hrun). apply kmalloc_memory in Hk; [|done|done].
  unfold update_tables, modify, mbind, ST_bind, mret, ST_ret in Hrun. injection Hrun as _ <-. exact Hk.
Qed.

Lemma getEntryImpl_init_memory init levels rev p a s r s' :
  memory_wf (mm_memory s) -> frames_size (mm_memory s) + 16 * (Z.of_nat rev * table_cost) < 2 ^ 40 ->
  getEntryImpl_init init levels rev p a s = Ok (r, s') ->
  mem_le (Z.of_nat rev * table_cost) (mm_memory s) (mm_memory s').
Proof.
  pose proof table_cost_nonneg as Hc.
  revert levels p s. induction rev as [|rev IH]; intros levels p s Hwf Hsz Hrun; cbn [getEntryImpl_init] in Hrun.
  - injection Hrun as _ <-. by apply mem_le_refl.
  - apply bind_ok in Hrun as (T & s1 & Hd & Hrun).
    assert (s1 = s) as ->.
    { unfold deref in Hd. rewrite bind_read in Hd. destruct (_ !! p); [by injection Hd|done]. }
    apply bind_ok in Hrun as (q & s2 & Hn & Hrun).
    assert (mem_le table_cost (mm_memory s) (mm_memory s2)) as H1.
    { destruct (_ =? 0); [eapply create_next_memory; [done|nia|exact Hn]|]. injection Hn as _ <-. by apply mem_le_refl. }
    eapply mem_le_mono; [|eapply mem_le_trans; [exact H1|eapply IH; [apply H1| |exact Hrun]]]; [lia|].
    destruct H1 as (_ & _ & H1). lia.
Qed.

Lemma mapPageToF_memory this a paddr f s r s' :
  memory_wf (mm_memory s) -> frames_size (mm_memory s) + 16 * (3 * table_cost) < 2 ^ 40 -> mapPageToF this a paddr f s = Ok (r, s') ->
  mem_le (3 * table_cost) (mm_memory s) (mm_memory s').
Proof.
  intros Hwf Hsz Hrun. unfold mapPageToF in Hrun. apply bind_ok in Hrun as (m & s1 & Hm & Hrun).
  assert (s1 = s) as ->.
  { unfold manager, directory in Hm. unfold mbind, ST_bind, read_state, from_option in Hm.
    destruct (_ !! this); [by injection Hm|done]. }
  apply bind_ok in Hrun as (page & s2 & Hp & Hrun). apply getEntryImpl_init_memory in Hp; [|done|done].
  apply bind_ok in Hrun as (e & s3 & Hl & Hrun). injection Hl as _ <-.
  apply bind_ok in Hrun as ([] & s3 & Ha & Hrun). unfold assertion in Ha. destruct (negb _); [injection Ha as <-|done].
  unfold store, modify, mbind, ST_bind in Hrun. injection Hrun as _ <-. exact Hp.
Qed.
End memory_effects.

(** ** The directories of the tasks *)
Abbreviation path r s a := (path_tables (mm_tables s) LevelCount 3 r a).

(** [R]: the first-level tables of the tasks; [n] more tables can be allocated, and the map of the physical
    pages can grow by [16 room] entries. *)
Record spaces {A : TableAllocator MM} {L : TableAllocatorLaws MM mm_rest}
    (R : Z -> Prop) (n : nat) (room : Z) (G : ghost) (s : MM) : Prop := {
  sp_wf : tables_wf G (mm_tables s);
  sp_root r : R r -> is_root G r;
  sp_apart r r' a a' q :
    R r -> R r' -> r <> r' -> user a -> user a' -> q ∈ path r s a -> q ∉ path r' s a';
  sp_ready : g_pagingReady s = true;
  sp_memory : memory_wf (mm_memory s);
  sp_room : frames_size (mm_memory s) + 16 * room < 2 ^ 39;
  sp_alloc : alloc_ready n G s;
  sp_used r a :
    R r -> user a -> pte_p (pte_at (mm_tables s) r a) = true ->
    used (mm_memory s) (pte_base (pte_at (mm_tables s) r a)) = true;
  sp_inj r r' a a' :
    R r -> R r' -> user a -> user a' ->
    pte_p (pte_at (mm_tables s) r a) = true -> pte_p (pte_at (mm_tables s) r' a') = true ->
    pte_base (pte_at (mm_tables s) r a) = pte_base (pte_at (mm_tables s) r' a') ->
    r = r' /\ a / 4096 = a' / 4096;
  (** where the heap of page tables has pages, every directory has the table that leads to them *)
  sp_kernel r n : R r -> heap_pages n -> next_at (mm_tables s) r 511 <> 0;
}.

Lemma path_tables_live G T levels rev p a q :
  tables_wf G T -> on_path G levels p a -> q ∈ path_tables T levels rev p a -> is_Some (G !! q).
Proof.
  intros Hwf. revert levels p. induction rev as [|rev IH]; intros levels p Hp Hq; cbn [path_tables] in Hq;
    apply elem_of_cons in Hq as [->|Hq]; try (destruct Hp as (g & Hg & _); by exists g).
  - by apply elem_of_nil in Hq.
  - destruct (Z.eqb_spec (next_at T p (indexFromAddress levels a)) 0) as [|Hn]; [by apply elem_of_nil in Hq|].
    eapply IH; [|exact Hq]. by apply (on_path_next G T).
Qed.

Section mapping_user_pages.
Context `{!TableAllocator MM, !TableAllocatorLaws MM mm_rest} (refillPool : ST MM unit) `{!MemoryLaws refillPool}.
Context (R : Z -> Prop).
Implicit Types (s : MM) (G : ghost).

(** What is off the paths that changed is as it was. *)
Lemma user_path_kept G s s' path0 r a :
  tables_wf G (mm_tables s) -> off_path heap_pages G (mm_tables s) (mm_tables s') path0 -> is_root G r -> user a ->
  (forall q, q ∈ path r s a -> q ∉ path0) ->
  path r s' a = path r s a /\ pte_at (mm_tables s') r a = pte_at (mm_tables s) r a.
Proof.
  intros Hwf Hoff Hr Hu Hout.
  destruct (path_kept heap_pages G _ _ path0 LevelCount 3 r a Hwf Hoff (root_on_path G r a Hr)) as (E1 & E2 & E3);
    [unfold LevelCount; lia| |done|].
  - intros l Hl. apply user_clear; [apply heap_upper|done|unfold LevelCount in *; lia].
  - split; [done|]. unfold pte_at. rewrite E2. destruct (walk (mm_tables s) LevelCount 3 r a) as [[q i]|] eqn:Hw; [by apply E3|done].
Qed.

(** The pages of the tasks, as an operation that maps none of them leaves them *)
Definition pages_kept s s' : Prop :=
  forall r a, R r -> user a -> pte_at (mm_tables s') r a = pte_at (mm_tables s) r a.

(** An operation that leaves the paths of the tasks and frees no physical page keeps the invariant. *)
Lemma spaces_kept n n' room c G G' s s' :
  spaces R n (room + c) G s -> 0 <= c -> grown G G' s s' -> tables_wf G' (mm_tables s') -> mm_rest s' = mm_rest s ->
  alloc_ready n' G' s' -> mem_le c (mm_memory s) (mm_memory s') ->
  (forall r a, R r -> user a -> path r s' a = path r s a) -> pages_kept s s' ->
  spaces R n' room G' s'.
Proof.
  intros [Hwf Hroot Hap Hrdy Hmem Hroom Hal Hus Hinj Hker] Hc [Hsub Hnexts] Hwf' Hrest Hal' (Hm1 & Hm2 & Hm3) Hpath Hpte.
  split; [done| | | |done| |done| | |].
  - intros r Hr. destruct (Hroot r Hr) as (g & Hg & ?). exists g. split; [by eapply lookup_weaken|done].
  - intros r r' a a' q Hr Hr' Hne Hu Hu'. rewrite !Hpath by done. by apply Hap.
  - by injection Hrest as _ _ _ -> _.
  - lia.
  - intros r a Hr Hu. rewrite Hpte by done. intros Hp. apply Hm2. by apply Hus.
  - intros r r' a a' Hr Hr' Hu Hu'. rewrite !Hpte by done. by apply Hinj.
  - intros r m Hr Hh. destruct (Hroot r Hr) as (g & Hg & _). rewrite (Hnexts r 511 g Hg); by eapply Hker.
Qed.

Lemma refill_spaces n room G s :
  spaces R n (room + table_cost) G s ->
  Runs refillPool s (fun _ s' => exists G', spaces R n room G' s' /\
    grown_but (fun _ => False) G G' s s' /\ mm_rest s' = mm_rest s /\
    mem_le table_cost (mm_memory s) (mm_memory s') /\ pages_kept s s').
Proof.
  intros Hsp. pose proof Hsp as [Hwf Hroot Hap Hrdy Hmem Hroom Hal Hus Hinj Hker].
  eapply Runs_mono; [by apply (refill_spec n G)|].
  intros _ s' (G' & Hrest & Hwf' & Hgr & Hsame & Hal' & Hmem'). exists G'.
  assert (forall r a, R r -> user a -> path r s' a = path r s a /\ pte_at (mm_tables s') r a = pte_at (mm_tables s) r a) as Hkept.
  { intros r a Hr Hu. apply (user_path_kept G s s' []); [done| |by apply Hroot|done|intros q _ Hq; by apply elem_of_nil in Hq].
    intros p i g Hg Hnh _. by apply (Hsame p i g). }
  assert (grown G G' s s') as Hg by (split; [apply Hgr|exact (grows_next _ _ _ _ _ Hgr)]).
  split; [|split; [split; [done|]|split; [done|split; [done|]]]].
  2:{ intros r a Hr Hh _. by apply (pte_at_grows heap_pages G G'). }
  - eapply (spaces_kept n n room table_cost G); try done; [apply table_cost_nonneg| |].
    + intros r a Hr Hu. by apply Hkept.
    + intros r a Hr Hu. by apply Hkept.
  - intros r a Hr Hu. by apply Hkept.
Qed.

(** A physical page is taken: no task has it. *)
Lemma take_page n room G s :
  spaces R n (room + 1) G s -> 0 <= room ->
  Runs (memory getFreePage) s (fun page s' =>
    spaces R n room G s' /\ mm_tables s' = mm_tables s /\ mm_rest s' = mm_rest s /\
    mem_le 1 (mm_memory s) (mm_memory s') /\ 0 <= page < 2 ^ 40 - 1 /\
    used (mm_memory s) page = false /\ used (mm_memory s') page = true /\
    forall r a, R r -> user a -> pte_p (pte_at (mm_tables s') r a) = true ->
      pte_base (pte_at (mm_tables s') r a) <> page).
Proof.
  intros Hsp H0. pose proof Hsp as [Hwf Hroot Hap Hrdy Hmem Hroom Hal Hus Hinj Hker].
  unfold memory. apply Runs_zoom. eapply Runs_mono; [apply getFreePage_run; [done|lia]|].
  intros page m' ((Hp & Hfree & _ & Hwf' & _ & Hused) & Hle & Hsz).
  assert (mem_le 1 (mm_memory s) m') as Hmem'.
  { split_and!; [done| |lia]. intros p Hu. by rewrite Hused, Hu, orb_true_r. }
  split; [|split_and!; try done].
  - eapply (spaces_kept n n room 1 G G s); try done. apply alloc_ready_memory; [done|done|lia].
  - pose proof (frames_size_nonneg (mm_memory s)). lia.
  - rewrite Hused. by rewrite Z.eqb_refl.
  - intros r a Hr Hu Hpres E. cbn [mm_tables set_mm_memory] in *. specialize (Hus r a Hr Hu Hpres). congruence.
Qed.

(** One page of one task is set. *)
Definition page_set s s' (r a : Z) (e : PageTableEntry) : Prop :=
  forall r' a', R r' -> user a' ->
    pte_at (mm_tables s') r' a' =
    if bool_decide (r' = r /\ a' / 4096 = a / 4096) then e else pte_at (mm_tables s) r' a'.

Lemma _mapPageTo_memory this a paddr attributes s s' :
  memory_wf (mm_memory s) -> frames_size (mm_memory s) + 16 * (3 * table_cost) < 2 ^ 40 ->
  _mapPageTo this a paddr attributes s = Ok (tt, s') ->
  mem_le (3 * table_cost) (mm_memory s) (mm_memory s').
Proof.
  intros Hwf Hsz Hrun. unfold _mapPageTo in Hrun. apply bind_ok in Hrun as ([] & s1 & H1 & Hrun).
  assert (s1 = s) as -> by (destruct (_ && _); [done|by injection H1]).
  apply bind_ok in Hrun as ([] & s2 & H2 & Hrun).
  assert (s2 = s) as -> by (destruct (_ && has_attr attributes ATTR_PUBLIC); [done|by injection H2]).
  destruct ((0 <=? attributes) && (attributes <=? 0xf)); [|done]. by eapply mapPageToF_memory.
Qed.

(** The tables on the path of [b] are on no path of another task. *)
Definition apart s (r b : Z) : Prop :=
  forall r' a q, R r' -> r' <> r -> user a -> q ∈ path r s b -> q ∉ path r' s a.

(** One page of a directory is set: what the tasks see of it *)
Definition any_page_set s s' (r b : Z) (e : PageTableEntry) : Prop :=
  forall r' a', R r' -> user a' ->
    pte_at (mm_tables s') r' a' =
    if bool_decide (r' = r /\ prefix_of 0 a' = prefix_of 0 b) then e else pte_at (mm_tables s) r' a'.

(** The physical page of an entry at [b] is in use, and no other page of a task has it. *)
Definition page_owned s (r b : Z) (e : PageTableEntry) : Prop :=
  forall a, R r -> user a -> prefix_of 0 a = prefix_of 0 b -> pte_p e = true ->
    used (mm_memory s) (pte_base e) = true /\
    forall r' a', R r' -> user a' -> ~ (r' = r /\ prefix_of 0 a' = prefix_of 0 b) ->
      pte_p (pte_at (mm_tables s) r' a') = true -> pte_base (pte_at (mm_tables s) r' a') <> pte_base e.

Lemma owned_injective s s' r b e (m' : Memory) :
  page_owned s r b e -> any_page_set s s' r b e ->
  (forall p, used (mm_memory s) p = true -> used m' p = true) ->
  (forall r a, R r -> user a -> pte_p (pte_at (mm_tables s) r a) = true -> used (mm_memory s) (pte_base (pte_at (mm_tables s) r a)) = true) ->
  (forall r r' a a', R r -> R r' -> user a -> user a' ->
    pte_p (pte_at (mm_tables s) r a) = true -> pte_p (pte_at (mm_tables s) r' a') = true ->
    pte_base (pte_at (mm_tables s) r a) = pte_base (pte_at (mm_tables s) r' a') -> r = r' /\ a / 4096 = a' / 4096) ->
  (forall r a, R r -> user a -> pte_p (pte_at (mm_tables s') r a) = true -> used m' (pte_base (pte_at (mm_tables s') r a)) = true) /\
  (forall r r' a a', R r -> R r' -> user a -> user a' ->
    pte_p (pte_at (mm_tables s') r a) = true -> pte_p (pte_at (mm_tables s') r' a') = true ->
    pte_base (pte_at (mm_tables s') r a) = pte_base (pte_at (mm_tables s') r' a') -> r = r' /\ a / 4096 = a' / 4096).
Proof.
  intros Hown Hset Hmem Hus Hinj. split.
  - intros r' a' Hr' Hu'. rewrite Hset by done. case_bool_decide as Hc; [|intros Hp; by apply Hmem, Hus].
    destruct Hc as [-> Hc]. intros Hp. by eapply Hmem, Hown.
  - intros r1 r2 a1 a2 Hr1 Hr2 Hu1 Hu2. rewrite !Hset by done.
    case_bool_decide as Hc1; case_bool_decide as Hc2; intros Hp1 Hp2 E.
    + destruct Hc1 as [-> Hc1], Hc2 as [-> Hc2]. rewrite <- !user_page by done. by rewrite Hc1, Hc2.
    + destruct Hc1 as [-> Hc1]. exfalso. by apply (proj2 (Hown a1 Hr1 Hu1 Hc1 Hp1) r2 a2).
    + destruct Hc2 as [-> Hc2]. exfalso. by apply (proj2 (Hown a2 Hr2 Hu2 Hc2 Hp2) r1 a1).
    + by apply Hinj.
Qed.

(** Any page that is not the allocator's: [_mapPageTo] keeps the tasks apart. *)
Lemma map_any n room G s this r b paddr attributes :
  spaces R (3 + n) (room + 3 * table_cost) G s -> 0 <= room -> directory_ok G s this r ->
  ~ heap_pages (prefix_of 0 b) -> path_clear heap_pages (mm_tables s) LevelCount 3 r b -> apart s r b ->
  pte_p (pte_at (mm_tables s) r b) = false -> allowed b attributes = true ->
  let e := AttributeSetter attributes (set_base (Z.shiftr paddr BASE_SHIFT) (set_p true (pte_at (mm_tables s) r b))) in
  page_owned s r b e ->
  Runs (_mapPageTo this b paddr attributes) s (fun _ s' => exists G',
    spaces R n room G' s' /\ directory_ok G' s' this r /\ grown_but (page_of b) G G' s s' /\ mm_rest s' = mm_rest s /\
    mem_le (3 * table_cost) (mm_memory s) (mm_memory s') /\
    pte_at (mm_tables s') r b = e /\ any_page_set s s' r b e).
Proof.
  intros Hsp H0 Hdir Hheap Hclear Hapart Hnp Hall e He. pose proof Hsp as [Hwf Hroot Hap Hrdy Hmem Hroom Hal Hus Hinj Hker].
  pose proof (misses_le (mm_tables s) LevelCount 3 r b) as Hmiss. pose proof heap_upper as Hup. pose proof table_cost_nonneg as Hcost.
  assert (can_map (3 - misses (mm_tables s) LevelCount 3 r b + n) G s this r b) as Hcan.
  { split; [done|done|done|].
    by replace (misses (mm_tables s) LevelCount 3 r b + (3 - misses (mm_tables s) LevelCount 3 r b + n))%nat with (3 + n)%nat by lia. }
  pose proof (_mapPageTo_run _ _ _ _ _ _ paddr attributes Hcan Hnp Hall) as Hrun.
  apply Runs_ok in Hrun as ([] & s' & Heq & G' & (Hdir' & Hsub & Hal' & Hrest & Hpte) & Hext & Hoff).
  pose proof (_mapPageTo_memory _ _ _ _ _ _ Hmem ltac:(lia) Heq) as Hmem'. fold e in Hpte.
  assert (forall r' a', R r' -> r' <> r -> user a' ->
            path r' s' a' = path r' s a' /\ pte_at (mm_tables s') r' a' = pte_at (mm_tables s) r' a') as Hothers.
  { intros r' a' Hr' Hne Hu'. apply (user_path_kept G s s' (path r s b)); [done|done|by apply Hroot|done|].
    intros q Hq Hq'. by apply (Hapart r' a' q). }
  assert (any_page_set s s' r b e) as Hset.
  { intros r' a' Hr' Hu'. destruct (decide (r' = r)) as [->|Hne].
    - destruct (Hpte a' (user_not_heap _ _ Hup Hu')) as [-> _]. unfold same_page.
      destruct (Z.eqb_spec (prefix_of 0 a') (prefix_of 0 b)); [by rewrite bool_decide_true|by rewrite bool_decide_false by tauto].
    - rewrite bool_decide_false by tauto. by apply Hothers. }
  assert (grown G G' s s') as Hgrown by (split; [done|apply Hext]).
  assert (grown_but (page_of b) G G' s s') as Hbut.
  { split; [done|]. intros r' a' Hr' Hh' Hn. apply Hpte; [done|by apply not_true_is_false|done]. }
  eapply Runs_of_ok; [exact Heq|]. exists G'. split; [|do 4 (split; [done|]); split; [|exact Hset]].
  2:{ destruct (Hpte b Hheap) as [-> _]. by rewrite same_page_refl. }
  destruct Hmem' as (Hm1 & Hm2 & Hm3). destruct (owned_injective s s' r b e (mm_memory s') He Hset Hm2 Hus Hinj) as [Hus' Hinj'].
  split; [apply Hdir'| | | |done|lia| |done|done|].
  - intros r' Hr'. destruct (Hroot r' Hr') as (g & Hg & ?). exists g. split; [by eapply lookup_weaken|done].
  - (** The new tables of [r] are in no other path. *)
    assert (forall r' a1 a2 q, R r -> R r' -> r' <> r -> user a1 -> user a2 -> q ∈ path r s' a1 -> q ∉ path r' s' a2) as Hnew.
    { intros r' a1 a2 q Hr Hr' Hne Hu1 Hu2 Hq Hq'. destruct (Hothers r' a2 Hr' Hne Hu2) as [E _]. rewrite E in Hq'.
      destruct (path_extends G _ _ _ _ _ _ _ Hwf Hext Hq) as [Hold|Hn].
      - by apply (Hap r r' a1 a2 q).
      - destruct (path_tables_live G _ _ _ _ _ _ Hwf (root_on_path G r' a2 (Hroot r' Hr')) Hq') as [g Hg]. congruence. }
    intros r1 r2 a1 a2 q Hr1 Hr2 Hne Hu1 Hu2 Hq1 Hq2. destruct (decide (r1 = r)) as [->|H1].
    + by apply (Hnew r2 a1 a2 q).
    + destruct (decide (r2 = r)) as [->|H2]; [by apply (Hnew r1 a2 a1 q)|].
      rewrite (proj1 (Hothers r1 a1 Hr1 H1 Hu1)) in Hq1. rewrite (proj1 (Hothers r2 a2 Hr2 H2 Hu2)) in Hq2.
      by apply (Hap r1 r2 a1 a2 q).
  - by injection Hrest as _ _ _ -> _.
  - eapply alloc_ready_le; [|exact Hal']. lia.
  - intros r' m Hr' Hh. destruct (Hroot r' Hr') as (g & Hg & _). rewrite (proj2 Hgrown r' 511 g Hg); by eapply Hker.
Qed.

Lemma page_owned_user s r a e :
  user a ->
  (pte_p e = true -> used (mm_memory s) (pte_base e) = true /\
     forall r' a', R r' -> user a' -> ~ (r' = r /\ a' / 4096 = a / 4096) -> pte_p (pte_at (mm_tables s) r' a') = true ->
       pte_base (pte_at (mm_tables s) r' a') <> pte_base e) ->
  page_owned s r a e.
Proof.
  intros Hu He a0 Hr Hu0 E Hp. destruct (He Hp) as [H1 H2]. split; [done|].
  intros r' a' Hr' Hu' Hn. rewrite !user_page in Hn by done. by apply H2.
Qed.

Lemma page_set_user s s' r a e : user a -> any_page_set s s' r a e -> page_set s s' r a e.
Proof. intros Hu Hset r' a' Hr' Hu'. rewrite Hset by done. by rewrite !user_page. Qed.

Lemma apart_user n room G s r a : spaces R n room G s -> R r -> user a -> apart s r a.
Proof. intros Hsp Hr Hu r' a' q Hr' Hne Hu' Hq. by apply (sp_apart _ _ _ _ _ Hsp r r' a a' q). Qed.

Lemma map_user n room G s this r a paddr attributes :
  spaces R (3 + n) (room + 3 * table_cost) G s -> 0 <= room -> directory_ok G s this r -> R r -> user a ->
  pte_p (pte_at (mm_tables s) r a) = false -> allowed a attributes = true ->
  let e := AttributeSetter attributes (set_base (Z.shiftr paddr BASE_SHIFT) (set_p true (pte_at (mm_tables s) r a))) in
  (pte_p e = true -> used (mm_memory s) (pte_base e) = true /\
     forall r' a', R r' -> user a' -> pte_p (pte_at (mm_tables s) r' a') = true ->
       pte_base (pte_at (mm_tables s) r' a') <> pte_base e) ->
  Runs (_mapPageTo this a paddr attributes) s (fun _ s' => exists G',
    spaces R n room G' s' /\ grown_but (page_of a) G G' s s' /\ mm_rest s' = mm_rest s /\
    mem_le (3 * table_cost) (mm_memory s) (mm_memory s') /\ page_set s s' r a e).
Proof.
  intros Hsp H0 Hdir Hr Hu Hnp Hall e He. pose proof heap_upper as Hup. eapply Runs_mono.
  - apply (map_any n room G s this r a paddr attributes); [done|done|done|by apply user_not_heap
      |apply user_path_clear; [done|done|unfold LevelCount; lia]|by eapply apart_user|done|done|].
    apply page_owned_user; [done|]. intros Hp. destruct (He Hp) as [H1 H2]. split; [done|]. intros r' a' Hr' Hu' _. by apply H2.
  - intros [] s' (G' & H1 & _ & H2 & H3 & H4 & _ & H5). exists G'. split_and!; try done. by apply page_set_user.
Qed.

(** What one mapping may take of the physical pages *)
Definition page_cost : Z := 1 + 4 * table_cost.

Lemma ready_run s : g_pagingReady s = true -> ready_assert s = Ok (tt, s).
Proof. intros H. unfold ready_assert. by rewrite bind_read, H. Qed.

Lemma directory_kept n room G G' s s' this r :
  G ⊆ G' -> directory_ok G s this r -> spaces R n room G' s' -> R r -> mm_rest s' = mm_rest s -> directory_ok G' s' this r.
Proof.
  intros HG [_ _ Hobj] [Hwf Hroot _ _ _ _ _ _ _ _] Hr Hrest. split; [done|by apply Hroot|].
  eapply directory_of_grown; [exact HG| |exact Hobj]. by injection Hrest as -> _ _ _ _.
Qed.

Lemma base_shift page : 0 <= page < 2 ^ 40 -> Z.shiftr (u64 (page * PAGE_SIZE)) BASE_SHIFT = page /\ wrap 40 page = page.
Proof.
  intros Hp. rewrite PAGE_SIZE_eq, !wrap_small by (unfold in_word; lia). unfold BASE_SHIFT.
  rewrite Z.shiftr_div_pow2 by lia. change (2 ^ 12) with 4096. by rewrite Z.div_mul.
Qed.

Lemma mapPageTo_user n room G s this r a paddr attributes :
  spaces R (3 + n) (room + 4 * table_cost) G s -> 0 <= room -> directory_ok G s this r -> R r -> user a ->
  pte_p (pte_at (mm_tables s) r a) = false -> allowed a attributes = true ->
  let e := AttributeSetter attributes (set_base (Z.shiftr paddr BASE_SHIFT) (set_p true (pte_at (mm_tables s) r a))) in
  (pte_p e = true -> used (mm_memory s) (pte_base e) = true /\
     forall r' a', R r' -> user a' -> pte_p (pte_at (mm_tables s) r' a') = true ->
       pte_base (pte_at (mm_tables s) r' a') <> pte_base e) ->
  Runs (mapPageTo refillPool this a paddr attributes) s (fun _ s' => exists G',
    spaces R n room G' s' /\ grown_but (page_of a) G G' s s' /\ mm_rest s' = mm_rest s /\
    mem_le (4 * table_cost) (mm_memory s) (mm_memory s') /\ page_set s s' r a e).
Proof.
  intros Hsp H0 Hdir Hr Hu Hnp Hall e He. pose proof table_cost_nonneg as Hcost. unfold mapPageTo. apply Runs_bind.
  eapply Runs_of_ok; [by eapply ready_run, sp_ready|]. apply Runs_bind.
  eapply Runs_mono; [apply (map_user n (room + table_cost) G); try done|].
  { by replace (room + table_cost + 3 * table_cost) with (room + 4 * table_cost) by lia. }
  { lia. }
  intros [] s1 (G1 & Hsp1 & Hsub1 & Hrest1 & Hmem1 & Hset1).
  eapply Runs_mono; [by apply (refill_spaces n room G1)|].
  intros [] s2 (G2 & Hsp2 & Hsub2 & Hrest2 & Hmem2 & Hkept2). exists G2. split; [done|].
  split; [eapply grown_but_trans; [exact Hsub1|by eapply grown_but_mono; [|exact Hsub2]]|]. split; [congruence|]. split.
  - eapply mem_le_mono; [|by eapply mem_le_trans]. lia.
  - intros r' a' Hr' Hu'. rewrite Hkept2 by done. by apply Hset1.
Qed.

Lemma mapPage_user n room G s this r a attributes :
  spaces R (3 + n) (room + page_cost) G s -> 0 <= room -> directory_ok G s this r -> R r -> user a ->
  pte_p (pte_at (mm_tables s) r a) = false -> allowed a attributes = true ->
  Runs (mapPage refillPool this a attributes) s (fun pa s' => exists G' base,
    spaces R n room G' s' /\ grown_but (page_of a) G G' s s' /\ mm_rest s' = mm_rest s /\
    mem_le page_cost (mm_memory s) (mm_memory s') /\
    page_set s s' r a (AttributeSetter attributes (set_base base (set_p true (pte_at (mm_tables s) r a)))) /\
    if has_attr attributes ATTR_DEFER then pa = INVALID_PHYS /\ base = INVALID_PAGE
    else pa = base * 4096 /\ 0 <= base < 2 ^ 40 - 1 /\ used (mm_memory s) base = false).
Proof.
  intros Hsp H0 Hdir Hr Hu Hnp Hall. pose proof table_cost_nonneg as Hcost.
  unfold mapPage. apply Runs_bind. eapply Runs_of_ok; [by eapply ready_run, sp_ready|].
  destruct (has_attr attributes ATTR_DEFER) eqn:Hd.
  - apply Runs_bind, Runs_ret, Runs_bind.
    assert (Z.shiftr INVALID_PHYS BASE_SHIFT = INVALID_PAGE) as Hshift by done.
    replace (room + page_cost) with (room + 1 + 4 * table_cost) in Hsp by (unfold page_cost; lia).
    eapply Runs_mono; [apply (mapPageTo_user n (room + 1) G); [exact Hsp|lia|done|done|done|done|done|]|].
    { by rewrite AttributeSetter_p, Hd. }
    intros [] s1 (G1 & Hsp1 & Hsub1 & Hrest1 & Hmem1 & Hset1). rewrite Hshift in Hset1.
    apply Runs_ret. exists G1, INVALID_PAGE. split; [|split; [done|split; [done|split; [|split; [done|done]]]]].
    + destruct Hsp1. split; try done. lia.
    + eapply mem_le_mono; [|exact Hmem1]. unfold page_cost. lia.
  - apply Runs_bind, Runs_bind. replace (room + page_cost) with (room + 4 * table_cost + 1) in Hsp by (unfold page_cost; lia).
    eapply Runs_mono; [apply (take_page (3 + n) (room + 4 * table_cost) G); [exact Hsp|lia]|].
    intros page s1 (Hsp1 & Htab & Hrest1 & Hmem1 & Hp & Hfree & Hused & Hfresh).
    destruct (base_shift page ltac:(lia)) as [Hshift Hwrap].
    apply Runs_bind, Runs_assertion. { rewrite INVALID_PAGE_eq. apply negb_true_iff, Z.eqb_neq. lia. }
    apply Runs_ret, Runs_bind.
    assert (directory_ok G s1 this r) as Hdir1 by by eapply directory_kept.
    eapply Runs_mono; [apply (mapPageTo_user n room G); try done|].
    { by rewrite Htab. }
    { rewrite Hshift, AttributeSetter_base. cbn [pte_base set_base]. rewrite Hwrap. done. }
    intros [] s2 (G2 & Hsp2 & Hsub2 & Hrest2 & Hmem2 & Hset2). rewrite Hshift in Hset2.
    apply Runs_ret. exists G2, page. split; [done|].
    split; [by eapply grown_but_trans; [by apply grown_but_same|]|]. split; [congruence|]. split.
    { eapply mem_le_mono; [|by eapply mem_le_trans]. unfold page_cost. lia. }
    rewrite PAGE_SIZE_eq, wrap_small by (unfold in_word; lia). split_and!; try done; try lia.
    intros r' a' Hr' Hu'. rewrite Hset2 by done. by rewrite Htab.
Qed.
End mapping_user_pages.
Arguments page_cost {_ _} refillPool {_}.

(** ** The physical memory and the processor *)
Record Space : Type := mkSpace {
  as_mm : MM;
  as_ram : Z -> Z;      (** the bytes of the physical memory *)
}.

Definition on_mm {A} (m : ST MM A) : ST Space A := zoom as_mm (fun s k => mkSpace s (as_ram k)) m.

(** Where the processor finds the byte at [va], through the directory in use.  A page that is not
    present faults; when [handleFault] gives it a page the access is made again. *)
Definition access (va : Z) : ST Space Z :=
  d ← gets (fun k => g_currentPageDirectory (as_mm k));
  pa ← on_mm (resolve d va);
  if negb (pa =? INVALID_PHYS) then mret (pa + va mod 4096)
  else
    handled ← on_mm (handleFault d va);
    if handled : bool then
      pa ← on_mm (resolve d va);
      mret (pa + va mod 4096)
    else fail (Undefined "page fault").

Definition read_byte (va : Z) : ST Space Z :=
  pa ← access va;
  gets (fun k => as_ram k pa).

Definition write_byte (va x : Z) : ST Space unit :=
  pa ← access va;
  modify (fun k => mkSpace (as_mm k) (fun a => if a =? pa then x else as_ram k a)).

Fixpoint read_bytes (n : nat) (va : Z) : ST Space (list Z) :=
  match n with
  | O => mret []
  | S n => x ← read_byte va; l ← read_bytes n (va + 1); mret (x :: l)
  end.

Fixpoint write_bytes (va : Z) (l : list Z) : ST Space unit :=
  match l with
  | [] => mret tt
  | x :: l => write_byte va x ;; write_bytes (va + 1) l
  end.

(** What the task with the tables [r] has at [a] *)
Definition view (k : Space) (r a : Z) : option Z :=
  let e := pte_at (mm_tables (as_mm k)) r a in
  if pte_p e then Some (as_ram k (pte_base e * 4096 + a mod 4096)) else None.

Section processor.
Context `{!TableAllocator MM, !TableAllocatorLaws MM mm_rest} (refillPool : ST MM unit) `{!MemoryLaws refillPool}.
Context (R : Z -> Prop).
Implicit Types (k : Space) (G : ghost).

(** The task with the directory [this] and the tables [r] is running. *)
Record running (n : nat) (room : Z) (G : ghost) (k : Space) (this r : Z) : Prop := {
  run_spaces : spaces R n room G (as_mm k);
  run_room : 0 <= room;
  run_directory : directory_ok G (as_mm k) this r;
  run_current : g_currentPageDirectory (as_mm k) = this;
  run_root : R r;
}.

Lemma used_bound m p : frames_size m < 2 ^ 40 - 1 -> used m p = true -> 0 <= p < 2 ^ 40 - 1.
Proof. intros Hs Hu. apply used_range in Hu. lia. Qed.

Lemma phys_of_base_page base : 0 <= base < 2 ^ 40 - 1 -> phys_of_base base = base * 4096 /\ base * 4096 <> INVALID_PHYS.
Proof.
  intros Hb. unfold phys_of_base, BASE_SHIFT. rewrite Z.shiftl_mul_pow2 by lia. change (2 ^ 12) with 4096.
  rewrite wrap_small by (unfold in_word; lia). rewrite INVALID_PHYS_eq. split; [done|lia].
Qed.

Lemma present_base n room G s r a :
  spaces R n room G s -> 0 <= room -> R r -> user a -> pte_p (pte_at (mm_tables s) r a) = true ->
  0 <= pte_base (pte_at (mm_tables s) r a) < 2 ^ 40 - 1.
Proof.
  intros Hsp H0 Hr Hu Hp. eapply used_bound; [|by eapply sp_used]. pose proof (sp_room _ _ _ _ _ Hsp). lia.
Qed.

(** An access to a page that is present *)
Lemma access_run n room G k this r a x :
  running n room G k this r -> user a -> view k r a = Some x ->
  access a k = Ok (pte_base (pte_at (mm_tables (as_mm k)) r a) * 4096 + a mod 4096, k).
Proof.
  intros [Hsp H0 Hdir Hcur Hr] Hu Hv. unfold view in Hv.
  destruct (pte_p (pte_at (mm_tables (as_mm k)) r a)) eqn:Hp; [|done].
  destruct (phys_of_base_page _ (present_base _ _ _ _ _ _ Hsp H0 Hr Hu Hp)) as [Hpa Hni].
  unfold access, on_mm. unfold mbind, ST_bind, gets, zoom. rewrite Hcur.
  rewrite (resolve_run G (as_mm k) this r Hdir a (sp_ready _ _ _ _ _ Hsp)), Hp, Hpa.
  rewrite (proj2 (Z.eqb_neq _ _) Hni). by destruct k.
Qed.

Lemma read_byte_run n room G k this r a x :
  running n room G k this r -> user a -> view k r a = Some x -> read_byte a k = Ok (x, k).
Proof.
  intros Hrun Hu Hv. unfold read_byte. rewrite (bind_run _ _ _ _ _ (access_run _ _ _ _ _ _ _ _ Hrun Hu Hv)).
  unfold view in Hv. destruct (pte_p _); [|done]. by injection Hv as <-.
Qed.

(** Two addresses of tasks are the same byte of the physical memory only when they are the same. *)
Lemma bytes_apart n room G s r r' a a' :
  spaces R n room G s -> R r -> R r' -> user a -> user a' ->
  pte_p (pte_at (mm_tables s) r a) = true -> pte_p (pte_at (mm_tables s) r' a') = true ->
  pte_base (pte_at (mm_tables s) r a) * 4096 + a mod 4096 = pte_base (pte_at (mm_tables s) r' a') * 4096 + a' mod 4096 ->
  r = r' /\ a = a'.
Proof.
  intros Hsp Hr Hr' Hu Hu' Hp Hp' E.
  pose proof (Z.mod_pos_bound a 4096 ltac:(lia)). pose proof (Z.mod_pos_bound a' 4096 ltac:(lia)).
  destruct (sp_inj _ _ _ _ _ Hsp r r' a a') as [-> Epage]; try done; [lia|]. split; [done|].
  rewrite (Z.div_mod a 4096), (Z.div_mod a' 4096), Epage by lia. f_equal.
  assert (pte_at (mm_tables s) r' a = pte_at (mm_tables s) r' a') as Epte.
  { unfold pte_at. rewrite (walk_same_page _ LevelCount 3 r' a a'); [done|unfold LevelCount; lia|].
    change (LevelCount - 3 - 1)%nat with O. by rewrite !user_page. }
  rewrite Epte in E. lia.
Qed.

(** A store changes that byte of that task, and nothing of any other. *)
Lemma write_byte_run n room G k this r a x y :
  running n room G k this r -> user a -> view k r a = Some y ->
  Runs (write_byte a x) k (fun _ k' => running n room G k' this r /\ as_mm k' = as_mm k /\
    forall r' a', R r' -> user a' -> view k' r' a' = if bool_decide (r' = r /\ a' = a) then Some x else view k r' a').
Proof.
  intros Hrun Hu Hv. pose proof Hrun as [Hsp H0 Hdir Hcur Hr]. unfold write_byte. apply Runs_bind.
  eapply Runs_of_ok; [by eapply access_run|]. apply Runs_modify. split; [by split|]. split; [done|].
  intros r' a' Hr' Hu'. unfold view in *. cbn [as_mm as_ram].
  destruct (pte_p (pte_at (mm_tables (as_mm k)) r a)) eqn:Hp; [|done].
  destruct (pte_p (pte_at (mm_tables (as_mm k)) r' a')) eqn:Hp'.
  - case_bool_decide as Hc; [destruct Hc as [-> ->]; by rewrite Z.eqb_refl|].
    destruct (Z.eqb_spec (pte_base (pte_at (mm_tables (as_mm k)) r' a') * 4096 + a' mod 4096)
      (pte_base (pte_at (mm_tables (as_mm k)) r a) * 4096 + a mod 4096)) as [E|]; [|done].
    exfalso. apply Hc. by apply (bytes_apart n room G (as_mm k)).
  - rewrite bool_decide_false; [done|]. intros [-> ->]. congruence.
Qed.

Lemma write_bytes_run n room G k this r a l :
  running n room G k this r ->
  (forall i, 0 <= i < Z.of_nat (length l) -> user (a + i) /\ is_Some (view k r (a + i))) ->
  Runs (write_bytes a l) k (fun _ k' => running n room G k' this r /\ as_mm k' = as_mm k /\
    forall r' a', R r' -> user a' -> view k' r' a' =
      if bool_decide (r' = r /\ a <= a' < a + Z.of_nat (length l)) then l !! Z.to_nat (a' - a) else view k r' a').
Proof.
  revert a k. induction l as [|x l IH]; intros a k Hrun Hm; cbn [write_bytes length] in *.
  { apply Runs_ret. split; [done|]. split; [done|]. intros r' a' _ _. rewrite bool_decide_false; [done|]. cbn. lia. }
  destruct (Hm 0 ltac:(lia)) as [Hu [y Hy]]. rewrite Z.add_0_r in *.
  apply Runs_bind. eapply Runs_mono; [by eapply write_byte_run|]. intros [] k1 (Hrun1 & Emm1 & Hv1).
  pose proof (run_root _ _ _ _ _ _ Hrun) as Hr.
  eapply Runs_mono; [apply IH; [done|]|].
  { intros i Hi. replace (a + 1 + i) with (a + (i + 1)) by lia. destruct (Hm (i + 1) ltac:(lia)) as [Hui Hvi].
    split; [done|]. rewrite Hv1 by done. rewrite bool_decide_false by lia. done. }
  intros [] k2 (Hrun2 & Emm2 & Hv2). split; [done|]. split; [congruence|]. intros r' a' Hr' Hu'.
  rewrite Hv2, Hv1 by done.
  destruct (decide (r' = r)) as [->|Hne]; [|by rewrite !bool_decide_false by tauto].
  destruct (decide (a' = a)) as [->|Hne].
  - rewrite bool_decide_false by lia. rewrite !bool_decide_true by lia. by rewrite Z.sub_diag.
  - rewrite (bool_decide_false (r = r /\ a' = a)) by tauto.
    destruct (decide (a + 1 <= a' < a + 1 + Z.of_nat (length l))).
    + rewrite !bool_decide_true by lia. by replace (Z.to_nat (a' - a)) with (S (Z.to_nat (a' - (a + 1)))) by lia.
    + by rewrite !bool_decide_false by lia.
Qed.

Lemma read_bytes_run n room G k this r a l :
  running n room G k this r ->
  (forall i x, l !! i = Some x -> user (a + Z.of_nat i) /\ view k r (a + Z.of_nat i) = Some x) ->
  read_bytes (length l) a k = Ok (l, k).
Proof.
  intros Hrun. revert a. induction l as [|x l IH]; intros a Hl; cbn [read_bytes length]; [done|].
  destruct (Hl 0%nat x eq_refl) as [Hu Hx]. rewrite Z.add_0_r in *.
  rewrite (bind_run _ _ _ _ _ (read_byte_run _ _ _ _ _ _ _ _ Hrun Hu Hx)).
  erewrite bind_run; [done|]. apply IH. intros i y Hi. replace (a + 1 + Z.of_nat i) with (a + Z.of_nat (S i)) by lia.
  by apply (Hl (S i)).
Qed.

(** ** Deferred pages *)

(** Writing one entry of a task *)
Lemma spaces_any_set n room G s s' this r b q i e :
  spaces R n room G s -> entry_set G s s' this r b q i e -> is_root G r ->
  ~ heap_pages (prefix_of 0 b) -> apart R s r b -> page_owned R s r b e ->
  spaces R n room G s' /\ any_page_set R s s' r b e.
Proof.
  intros Hsp Hset Hr Hheap Hapart He. pose proof Hsp as [Hwf Hroot Hap Hrdy Hmem Hroom Hal Hus Hinj Hker].
  pose proof (set_ok _ _ _ _ _ _ _ _ _ Hset) as Hdir'.
  pose proof (set_nexts _ _ _ _ _ _ _ _ _ Hset) as Hnexts.
  assert (off_path heap_pages G (mm_tables s) (mm_tables s') (path r s b)) as Hoff.
  { intros p j g Hg Hnh Hp. rewrite Hnexts, (set_slots _ _ _ _ _ _ _ _ _ Hset); [done|].
    intros [= -> ->]. apply Hp.
    assert (walk (mm_tables s) LevelCount 3 r b = Some (q, i)) as Hw; [|by eapply walk_path_tables].
    rewrite <- (set_walk _ _ _ _ _ _ _ _ _ Hset). symmetry. by apply walk_nexts. }
  assert (forall r' a', path r' s' a' = path r' s a') as Hpath by (intros r' a'; by apply path_tables_nexts).
  assert (any_page_set R s s' r b e) as Hps.
  { intros r' a' Hr' Hu'. destruct (decide (r' = r)) as [->|Hne].
    - rewrite (set_pte _ _ _ _ _ _ _ _ _ Hset). unfold same_page.
      destruct (Z.eqb_spec (prefix_of 0 a') (prefix_of 0 b)); [by rewrite bool_decide_true|by rewrite bool_decide_false by tauto].
    - rewrite bool_decide_false by tauto. eapply user_path_kept; [done|exact Hwf|exact Hoff|by apply Hroot|done|].
      intros p Hp Hp'. by apply (Hapart r' a' p). }
  split; [|done]. destruct (owned_injective R s s' r b e (mm_memory s) He Hps ltac:(done) Hus Hinj) as [Hus' Hinj'].
  rewrite (set_rest _ _ _ _ _ _ _ _ _ Hset) in *. cbn [mm_tables mm_memory g_pagingReady set_mm_tables] in *.
  split; try done.
  - apply Hdir'.
  - intros r1 r2 a1 a2 p. cbn [mm_tables set_mm_tables] in *. rewrite !Hpath. apply Hap.
  - cbn [mm_memory set_mm_tables]. change (set_mm_tables (mm_tables s') s) with (set_tables (mm_tables s') s).
    apply (alloc_ready_stable (rest := mm_rest)); [apply Hdir'|done|]. by eapply entry_set_heap_same.
  - intros r' m. cbn [mm_tables set_mm_tables] in *. rewrite Hnexts. apply Hker.
Qed.

Lemma spaces_entry_set n room G s s' this r a q i e :
  spaces R n room G s -> entry_set G s s' this r a q i e -> R r -> user a ->
  (pte_p e = true -> used (mm_memory s) (pte_base e) = true /\
     forall r' a', R r' -> user a' -> ~ (r' = r /\ a' / 4096 = a / 4096) ->
       pte_p (pte_at (mm_tables s) r' a') = true -> pte_base (pte_at (mm_tables s) r' a') <> pte_base e) ->
  spaces R n room G s' /\ page_set R s s' r a e.
Proof.
  intros Hsp Hset Hr Hu He. pose proof heap_upper as Hup.
  destruct (spaces_any_set n room G s s' this r a q i e Hsp Hset) as [H1 H2].
  - by apply (sp_root _ _ _ _ _ Hsp).
  - by apply user_not_heap.
  - by eapply apart_user.
  - by apply page_owned_user.
  - split; [done|]. by apply page_set_user.
Qed.

Lemma handleFault_user n room G s this r a :
  spaces R n (room + 1) G s -> 0 <= room -> directory_ok G s this r -> R r -> user a ->
  is_deferred (pte_at (mm_tables s) r a) = true ->
  Runs (handleFault this a) s (fun handled s' => handled = true /\ exists page,
    spaces R n room G s' /\ directory_ok G s' this r /\ mm_rest s' = mm_rest s /\
    0 <= page < 2 ^ 40 - 1 /\ used (mm_memory s) page = false /\
    page_set R s s' r a (set_base page (set_p true (pte_at (mm_tables s) r a)))).
Proof.
  intros Hsp H0 Hdir Hr Hu Hdef. unfold is_deferred in Hdef. apply andb_true_iff in Hdef as [Hnp%negb_true_iff Hb].
  unfold handleFault. apply Runs_bind. eapply Runs_of_ok; [by apply (getPage_of_run G s this r)|].
  destruct (walk (mm_tables s) LevelCount 3 r a) as [[q i]|] eqn:Hw.
  2:{ unfold pte_at in Hb. by rewrite Hw in Hb. }
  pose proof (entry_set_refl G s this r a q i Hdir Hw) as E0.
  apply Runs_bind. eapply Runs_load; [exact E0|]. rewrite Hnp, Hb. cbn [orb negb].
  apply Runs_bind. eapply Runs_mono; [by apply (take_page refillPool R n room G)|].
  intros page s1 (Hsp1 & Htab & Hrest1 & Hmem1 & Hp & Hfree & Hused & Hfresh).
  assert (directory_ok G s1 this r) as Hdir1 by by eapply directory_kept.
  assert (entry_set G s1 s1 this r a q i (pte_at (mm_tables s) r a)) as E1.
  { rewrite <- Htab. apply entry_set_refl; [done|by rewrite Htab]. }
  apply Runs_bind. eapply Runs_store; [exact E1|done|]. intros s2 E2.
  apply Runs_bind. eapply Runs_store; [exact E2|apply set_base_wf|]. intros s3 E3. apply Runs_ret. split; [done|].
  exists page. destruct (spaces_entry_set n room G s1 s3 this r a q i _ Hsp1 E3 Hr Hu) as [Hsp3 Hps].
  { intros _. cbn [pte_base set_base set_p]. rewrite (wrap_small 40) by (unfold in_word; lia). split; [done|].
    intros r' a' Hr' Hu' _. by apply Hfresh. }
  split; [done|]. split; [apply E3|]. split; [|split; [done|split; [done|]]].
  - rewrite <- Hrest1, (set_rest _ _ _ _ _ _ _ _ _ E3). done.
  - intros r' a' Hr' Hu'. rewrite Hps by done. by rewrite Htab.
Qed.

(** A store to a deferred page *)
Lemma write_deferred_run n room G k this r a x :
  running n (room + 1) G k this r -> 0 <= room -> user a ->
  is_deferred (pte_at (mm_tables (as_mm k)) r a) = true ->
  Runs (write_byte a x) k (fun _ k' => running n room G k' this r /\ view k' r a = Some x /\
    (forall a', user a' -> a' / 4096 = a / 4096 -> is_Some (view k' r a')) /\
    forall r' a', R r' -> user a' -> ~ (r' = r /\ a' / 4096 = a / 4096) -> view k' r' a' = view k r' a').
Proof.
  intros [Hsp _ Hdir Hcur Hr] H0 Hu Hdef. pose proof Hdef as [Hnp%negb_true_iff Hb]%andb_true_iff.
  unfold write_byte, access. apply Runs_bind, Runs_bind, Runs_gets. rewrite Hcur.
  apply Runs_bind, Runs_zoom. eapply Runs_of_ok; [apply (resolve_run G _ this r Hdir a (sp_ready _ _ _ _ _ Hsp))|].
  rewrite Hnp, Z.eqb_refl. cbn [negb]. apply Runs_bind, Runs_zoom. cbn [as_mm].
  eapply Runs_mono; [by apply (handleFault_user n room G _ this r a)|].
  intros handled s1 (-> & page & Hsp1 & Hdir1 & Hrest1 & Hp & Hfree & Hps).
  set (e := set_base page _) in *.
  assert (pte_base e = page) as Hbase by (cbn; apply wrap_small; unfold in_word; lia).
  assert (pte_at (mm_tables s1) r a = e) as He by (rewrite Hps by done; by rewrite bool_decide_true).
  assert (g_currentPageDirectory s1 = this) as Hcur1 by (injection Hrest1 as _ _ -> _ _; done).
  apply Runs_bind, Runs_zoom. cbn [as_mm as_ram].
  eapply Runs_of_ok; [apply (resolve_run G _ this r Hdir1 a (sp_ready _ _ _ _ _ Hsp1))|].
  rewrite He. change (pte_p e) with true. cbv match. rewrite Hbase, (proj1 (phys_of_base_page page Hp)).
  apply Runs_ret, Runs_modify. cbn [as_mm as_ram]. split; [by split|]. split; [|split].
  - unfold view. cbn [as_mm as_ram]. rewrite He. change (pte_p e) with true. cbv match. by rewrite Hbase, Z.eqb_refl.
  - intros a' Hu' Epage. unfold view. cbn [as_mm as_ram]. rewrite Hps by done. by rewrite bool_decide_true.
  - intros r' a' Hr' Hu' Hne. unfold view. cbn [as_mm as_ram]. cbv zeta. rewrite (Hps r' a' Hr' Hu'), bool_decide_false by done.
    destruct (pte_p (pte_at (mm_tables (as_mm k)) r' a')) eqn:Hp'; [|done].
    destruct (Z.eqb_spec (pte_base (pte_at (mm_tables (as_mm k)) r' a') * 4096 + a' mod 4096)
      (page * 4096 + a mod 4096)) as [E|]; [exfalso|done].
    pose proof (sp_used _ _ _ _ _ Hsp r' a' Hr' Hu' Hp') as Hused'.
    pose proof (Z.mod_pos_bound a 4096 ltac:(lia)). pose proof (Z.mod_pos_bound a' 4096 ltac:(lia)).
    assert (pte_base (pte_at (mm_tables (as_mm k)) r' a') = page) by lia. congruence.
Qed.

(** ** Mapping a page of the running task *)
Lemma map_running n room G k this r a attributes :
  running (3 + n) (room + page_cost refillPool) G k this r -> 0 <= room -> user a ->
  pte_p (pte_at (mm_tables (as_mm k)) r a) = false -> allowed a attributes = true ->
  has_attr attributes ATTR_DEFER = false ->
  Runs (on_mm (mapPage refillPool this a attributes)) k (fun _ k' => exists G', running n room G' k' this r /\
    forall r' a', R r' -> user a' ->
      if bool_decide (r' = r /\ a' / 4096 = a / 4096) then is_Some (view k' r' a') else view k' r' a' = view k r' a').
Proof.
  intros [Hsp _ Hdir Hcur Hr] H0 Hu Hnp Hall Hd. unfold on_mm. apply Runs_zoom.
  eapply Runs_mono; [by apply (mapPage_user refillPool R n room G)|].
  intros pa s1 (G1 & base & Hsp1 & Hsub & Hrest & Hmem & Hps & Hpa). exists G1. split.
  - split; [done|done|by eapply directory_kept; [apply Hsub|..]|cbn [as_mm]; injection Hrest as _ _ -> _ _; done|done].
  - intros r' a' Hr' Hu'. unfold view. cbn [as_mm as_ram]. rewrite Hps by done.
    case_bool_decide; [|done]. by rewrite AttributeSetter_p, Hd.
Qed.
End processor.

(** ** The interface of [UserSpace], implemented *)
Section instance.
Context `{!TableAllocator MM, !TableAllocatorLaws MM mm_rest} (refillPool : ST MM unit) `{!MemoryLaws refillPool}.
Context (R : Z -> Prop) (this r : Z).
(** What the other tasks have in memory *)
Context (others : Z -> Z -> option Z).

Definition space_ops : UserOps Space := {|
  us_mapPage a attributes := on_mm (mapPage refillPool this a attributes) ;; mret tt;
  us_write := write_bytes;
|}.

Definition space_ready (b : nat) (k : Space) : Prop :=
  exists G n room, (3 * b <= n)%nat /\ page_cost refillPool * Z.of_nat b <= room /\ running R n room G k this r /\
    forall r' a, R r' -> r' <> r -> user a -> view k r' a = others r' a.

Lemma user_allowed a : user a -> allowed a ATTR_USER = true.
Proof.
  intros [H0 H1]. unfold allowed. change (has_attr ATTR_USER ATTR_PUBLIC) with true. rewrite andb_false_r.
  by rewrite (proj2 (Z.ltb_ge 0xffffffffc0000000 a)) by lia.
Qed.

#[refine] Instance space_laws : @UserLaws Space space_ops :=
  {| us_ready := space_ready; us_byte k a := view k r a |}.
Proof.
  - intros k a a' Hu Hu' E. unfold view.
    assert (pte_at (mm_tables (as_mm k)) r a = pte_at (mm_tables (as_mm k)) r a') as ->; [|by destruct (pte_p _)].
    unfold pte_at. rewrite (walk_same_page _ LevelCount 3 r a a'); [done|unfold LevelCount; lia|].
    change (LevelCount - 3 - 1)%nat with O. by rewrite !user_page.
  - intros b k a (G & n & room & Hn & Hroom & Hrun & Hoth) Hu Hv.
    assert (0 <= page_cost refillPool) by (unfold page_cost; pose proof table_cost_nonneg; lia).
    cbn [us_mapPage space_ops]. apply Runs_bind.
    eapply Runs_mono.
    { apply (map_running refillPool R (n - 3) (room - page_cost refillPool) G k this r a); [|lia|done| |by apply user_allowed|done].
      - replace (room - page_cost refillPool + page_cost refillPool) with room by lia.
        by replace (3 + (n - 3))%nat with n by lia.
      - unfold view in Hv. by destruct (pte_p _). }
    intros pa k' (G' & Hrun' & Hview). apply Runs_ret. split.
    + exists G', (n - 3)%nat, (room - page_cost refillPool). split; [lia|]. split; [lia|]. split; [done|].
      intros r' a' Hr' Hne Hu'. specialize (Hview r' a' Hr' Hu'). rewrite bool_decide_false in Hview by tauto.
      rewrite Hview. by apply Hoth.
    + intros a' Hu'. specialize (Hview r a' (run_root _ _ _ _ _ _ _ Hrun) Hu').
      destruct (Z.eqb_spec (a' / 4096) (a / 4096)).
      * by rewrite bool_decide_true in Hview.
      * rewrite bool_decide_false in Hview by tauto. done.
  - intros b k a l (G & n & room & Hn & Hroom & Hrun & Hoth) Hl Hm. cbn [us_write space_ops].
    eapply Runs_mono; [apply (write_bytes_run R n room G k this r); [done|exact Hm]|].
    intros [] k' (Hrun' & _ & Hview). split.
    { exists G, n, room. do 3 (split; [done|]). intros r' a' Hr' Hne Hu'. rewrite Hview, bool_decide_false by tauto.
      by apply Hoth. }
    intros a' Hu'. rewrite Hview by (done || by eapply run_root).
    destruct ((a <=? a') && (a' <? a + Z.of_nat (length l))) eqn:E.
    + apply andb_true_iff in E as [E1%Z.leb_le E2%Z.ltb_lt]. by rewrite bool_decide_true.
    + rewrite bool_decide_false; [done|]. intros [_ [H1 H2]]. apply Z.leb_le in H1. apply Z.ltb_lt in H2.
      by rewrite H1, H2 in E.
Defined.
End instance.

(** ** The theorems *)
Section theorems.
Context `{!TableAllocator MM, !TableAllocatorLaws MM mm_rest} (refillPool : ST MM unit) `{!MemoryLaws refillPool}.
Context (R : Z -> Prop).

(** Isolation: what the kernel stores through addresses of the running task is what that task reads there
    afterwards, and no other task sees a change. *)
Theorem store_isolated n room G k this r a l :
  running R n room G k this r ->
  (forall i, 0 <= i < Z.of_nat (length l) -> user (a + i) /\ is_Some (view k r (a + i))) ->
  Runs (write_bytes a l ;; read_bytes (length l) a) k (fun l' k' => l' = l /\ running R n room G k' this r /\
    forall r' a', R r' -> user a' -> ~ (r' = r /\ a <= a' < a + Z.of_nat (length l)) -> view k' r' a' = view k r' a').
Proof using All.
  intros Hrun Hm. apply Runs_bind. eapply Runs_mono; [by eapply write_bytes_run|].
  intros [] k' (Hrun' & _ & Hview). eapply Runs_of_ok.
  { eapply read_bytes_run; [exact Hrun'|]. intros i x Hi. pose proof (lookup_lt_Some _ _ _ Hi).
    destruct (Hm (Z.of_nat i) ltac:(lia)) as [Hu _]. split; [done|].
    rewrite Hview, bool_decide_true by (done || lia || by eapply run_root).
    by replace (Z.to_nat (a + Z.of_nat i - a)) with i by lia. }
  split; [done|]. split; [done|]. intros r' a' Hr' Hu' Hn. by rewrite Hview, bool_decide_false.
Qed.

(** C17. Demand paging: a store to a page that was mapped without memory faults, the fault gives it a physical page that no
    task has, and the store is made again and read back; no other page of any task changes. *)
Theorem demand_paging n room G k this r a x :
  running R n (room + 1) G k this r -> 0 <= room -> user a ->
  is_deferred (pte_at (mm_tables (as_mm k)) r a) = true ->
  Runs (write_byte a x ;; read_byte a) k (fun y k' => y = x /\ running R n room G k' this r /\
    (forall a', user a' -> a' / 4096 = a / 4096 -> is_Some (view k' r a')) /\
    forall r' a', R r' -> user a' -> ~ (r' = r /\ a' / 4096 = a / 4096) -> view k' r' a' = view k r' a').
Proof using All.
  intros Hrun H0 Hu Hdef. apply Runs_bind. eapply Runs_mono; [by apply (write_deferred_run refillPool)|].
  intros [] k' (Hrun' & Hx & Hpage & Hoth). eapply Runs_of_ok; [by eapply read_byte_run|]. by split_and!.
Qed.

(** C22. [mapPage] gives a task a physical page that no task has, or records a page without memory; every other
    page of every task is as it was, and the directories go on sharing nothing. *)
Theorem mapPage_spec n room G s this r a attributes :
  spaces R (3 + n) (room + page_cost refillPool) G s -> 0 <= room -> directory_ok G s this r -> R r -> user a ->
  pte_at (mm_tables s) r a = zero_pte -> allowed a attributes = true ->
  Runs (mapPage refillPool this a attributes) s (fun pa s' => exists G',
    spaces R n room G' s' /\ directory_ok G' s' this r /\
    getAttributes (pte_at (mm_tables s') r a) = attributes /\
    (if has_attr attributes ATTR_DEFER then pa = INVALID_PHYS /\ is_deferred (pte_at (mm_tables s') r a) = true
     else pte_p (pte_at (mm_tables s') r a) = true /\ pte_base (pte_at (mm_tables s') r a) * 4096 = pa /\
       used (mm_memory s) (pa / 4096) = false) /\
    forall r' a', R r' -> user a' -> ~ (r' = r /\ a' / 4096 = a / 4096) ->
      pte_at (mm_tables s') r' a' = pte_at (mm_tables s) r' a').
Proof.
  intros Hsp H0 Hdir Hr Hu Hz Hall.
  eapply Runs_mono; [apply (mapPage_user refillPool R n room G s this r a); try done; by rewrite Hz|].
  intros pa s' (G' & base & Hsp' & Hsub & Hrest & Hmem & Hps & Hpa). exists G'. rewrite Hz in Hps.
  split; [done|]. split; [by eapply directory_kept; [apply Hsub|..]|].
  assert (pte_at (mm_tables s') r a = AttributeSetter attributes (set_base base (set_p true zero_pte))) as He
    by (rewrite Hps by done; by rewrite bool_decide_true).
  split; [|split].
  - rewrite He. apply attributes_kept.
    + unfold allowed in Hall. apply andb_true_iff in Hall as [_ [H1%Z.leb_le H2%Z.leb_le]%andb_true_iff]. lia.
    + destruct (has_attr attributes ATTR_DEFER) eqn:Hd; [right; apply Hpa|by left].
  - rewrite He. destruct (has_attr attributes ATTR_DEFER) eqn:Hd.
    + destruct Hpa as [-> ->]. split; [done|]. unfold is_deferred.
      rewrite AttributeSetter_p, AttributeSetter_base, Hd. done.
    + destruct Hpa as (-> & Hb & Hfree). rewrite AttributeSetter_p, AttributeSetter_base, Hd. cbn [pte_base set_base].
      rewrite wrap_small by (unfold in_word; lia). rewrite Z.div_mul by done. done.
  - intros r' a' Hr' Hu' Hn. by rewrite Hps, bool_decide_false.
Qed.
End theorems.

(** ** The pool of the page heap

    During an allocation the tables come from the pool: the map of the physical pages stays as it is. *)
Section pool_memory.
Context `{Symbols}.

Lemma kmalloc_no_map s r s' :
  kmalloc pdPageHeap (on_kernel no_mapPage) s = Ok (r, s') -> mm_memory s' = mm_memory s.
Proof.
  intros Hrun. unfold kmalloc in Hrun. apply bind_ok in Hrun as (item & s1 & Hb & Hrun). injection Hrun as _ <-.
  unfold allocBlock in Hb. rewrite bind_read in Hb. cbn [get_heap pdPageHeap] in Hb.
  assert (forall index t, allocPage pdPageHeap (on_kernel no_mapPage) index t = Ok (item, s1) -> mm_memory s1 = mm_memory t) as Hpage.
  { intros index t Hp. unfold allocPage in Hp. apply bind_ok in Hp as ([] & t0 & H0 & Hp). injection H0 as <-. rewrite bind_read in Hp.
    apply bind_ok in Hp as ([] & t1 & Ha & Hp). unfold assertion in Ha. destruct (_ || _); [injection Ha as <-|done].
    apply bind_ok in Hp as ([] & t2 & Hr & Hp).
    assert (mm_memory t2 = mm_memory t) as E2.
    { destruct (_ <=? index); [|by injection Hr as <-]. apply bind_ok in Hr as ([] & t3 & Ha & Hr). unfold assertion in Ha.
      destruct (index =? _); [injection Ha as <-|done]. by injection Hr as <-. }
    apply bind_ok in Hp as ([] & t4 & H4 & Hp). injection H4 as <-.
    apply bind_ok in Hp as (phys & t3 & Hph & Hp).
    destruct (isStatic pdPageHeap index).
    - injection Hph as _ <-. unfold heap_update, mbind, ST_bind, modify, mret, ST_ret in Hp. injection Hp as _ <-. exact E2.
    - unfold map_block in Hph. vm_compute in Hph. done. }
  destruct (m_allocating (mm_pageHeap s)).
  - apply bind_ok in Hb as ([] & t & Ha & Hb). unfold assertion in Ha. destruct (negb _); [injection Ha as <-|done].
    destruct (last _) as [b|]; [|unfold assertion, mbind, ST_bind in Hb; done].
    unfold heap_update, mbind, ST_bind, modify, mret, ST_ret in Hb. by injection Hb as _ <-.
  - destruct (find_clear _ 0); [by apply Hpage in Hb|].
    apply bind_ok in Hb as ([] & t & H0 & Hb). injection H0 as <-. by apply Hpage in Hb.
Qed.

#[refine] Instance pool_memory_laws fuel :
  @MemoryLaws (pd_allocator no_mapPage) (pool_laws no_mapPage) (refillPool pdPageHeap (on_kernel no_mapPage) fuel) :=
  {| table_cost := 0 |}.
Proof.
  - done.
  - intros s r s' Hwf _ Hrun. apply kmalloc_no_map in Hrun. rewrite Hrun. by apply mem_le_refl.
  - intros n m G s Hle [H1 H2 H3 H4 H5]. split; [done|lia|done|done|done].
  - intros n G s m [H1 H2 H3 H4 H5] _ _. by split.
  - intros n G s d cr3 [H1 H2 H3 H4 H5]. by split.
  - intros n G s this d [H1 H2 H3 H4 H5] _. by split.
  - intros n G s T F [H1 H2 H3 H4 H5] _ _ _. by split.
  - intros n [].
  - intros n G s Hwf Hal Hmem. unfold refillPool. apply Runs_bind, Runs_read. cbn [get_heap pdPageHeap].
    rewrite (pool_allocating _ _ _ Hal). apply Runs_ret. exists G.
    split; [done|]. split; [done|]. split; [by apply grows_refl|]. split; [done|]. split; [done|by apply mem_le_refl].
Defined.
End pool_memory.

(** ** A task with an empty lower half *)
Section examples.
Existing Instances example_symbols pd_allocator pool_laws pool_memory_laws.

Definition user_text : Z := 0x400000.
Definition example_task : Z := (block 0).1.
Definition example_tasks (r : Z) : Prop := r = example_task.
Definition example_space : Space := mkSpace (example_mm true empty_tables) (fun _ => 0).
Abbreviation example_allocator := (pd_allocator no_mapPage).
Abbreviation example_laws := (pool_laws no_mapPage).
Abbreviation example_refill := (refillPool pdPageHeap (on_kernel no_mapPage) 0).
Abbreviation example_memory := (pool_memory_laws 0).
Abbreviation example_running := (@running example_allocator example_laws example_tasks).

Lemma example_empty a : pte_at empty_tables example_task a = zero_pte.
Proof. done. Qed.

Lemma example_spaces room : 0 <= room < 2 ^ 32 ->
  @spaces example_allocator example_laws example_tasks 3 room empty_ghost (example_mm true empty_tables).
Proof.
  intros Hroom. split.
  - by apply tables_wf_root.
  - intros r ->. eexists. split; [vm_compute; reflexivity|done].
  - by intros r r' a a' q -> ->.
  - done.
  - apply small_memory_wf.
  - cbn [mm_memory example_mm]. assert (frames_size small_memory = 4) as -> by done. lia.
  - exact example_pool.
  - by intros r a ->.
  - by intros r r' a a' -> ->.
  - by intros r m _ [].
Qed.

Lemma example_directory : directory_ok empty_ghost (example_mm true empty_tables) example_object example_task.
Proof. split; [by apply tables_wf_root|eexists; split; [vm_compute; reflexivity|done]|by exists (mkInfo LevelCount 0 (block 0).2)]. Qed.

Lemma mapPage_spec_witness :
  Runs (@mapPage example_allocator example_refill example_object user_text ATTR_USER)
    (example_mm true empty_tables) (fun pa s' =>
      pa <> 0 /\ pte_p (pte_at (mm_tables s') example_task user_text) = true /\
      getAttributes (pte_at (mm_tables s') example_task user_text) = ATTR_USER).
Proof.
  eapply Runs_mono.
  - apply (@mapPage_spec example_allocator example_laws example_refill example_memory example_tasks 0 0 empty_ghost
      (example_mm true empty_tables) example_object example_task user_text ATTR_USER); [by apply example_spaces|done
      |exact example_directory|done|done|by vm_compute|by vm_compute].
  - intros pa s' (G' & _ & _ & Hattr & (Hp & Hbase & Hfree) & _). split; [|done].
    intros ->. by vm_compute in Hfree.
Defined.

Lemma example_is_running room : 0 <= room < 2 ^ 32 -> example_running 3 room empty_ghost example_space example_object example_task.
Proof. intros Hroom. split; [by apply example_spaces|lia|exact example_directory|done|done]. Qed.

(** A page is mapped, its first bytes are stored and read back. *)
Lemma store_isolated_witness :
  Runs (on_mm (@mapPage example_allocator example_refill example_object user_text ATTR_USER) ;;
        write_bytes user_text [104; 105] ;; read_bytes 2 user_text) example_space (fun l _ => l = [104; 105]).
Proof.
  apply Runs_bind. eapply Runs_mono.
  - apply (@map_running example_allocator example_laws example_refill example_memory example_tasks 0 0 empty_ghost
      example_space example_object example_task user_text ATTR_USER); [by apply example_is_running|done|done|done|done|done].
  - intros pa k (G' & Hrun & Hview). eapply Runs_mono.
    + apply (@store_isolated example_allocator example_laws example_refill example_memory example_tasks 0 0 G' k example_object example_task
        user_text [104; 105]); [exact Hrun|].
      intros i Hi. change (Z.of_nat (length [104; 105])) with 2 in Hi.
      assert (user (user_text + i)) as Hu by (unfold user, user_text; lia). split; [done|].
      specialize (Hview example_task (user_text + i) eq_refl Hu). rewrite bool_decide_true in Hview; [done|].
      split; [done|]. unfold user_text. Z.to_euclidean_division_equations; lia.
    + by intros l k' [-> _].
Defined.

(** A deferred page is mapped, and the first store to it finds a page. *)
Lemma demand_paging_witness :
  Runs (on_mm (@mapPage example_allocator example_refill example_object user_text (Z.lor ATTR_USER ATTR_DEFER)) ;;
        write_byte user_text 7 ;; read_byte user_text) example_space (fun x k' => x = 7 /\ is_Some (view k' example_task (user_text + 4095))).
Proof.
  apply Runs_bind. unfold on_mm. apply Runs_zoom. eapply Runs_mono.
  - apply (@mapPage_user example_allocator example_laws example_refill example_memory example_tasks 0 1 empty_ghost
      (example_mm true empty_tables) example_object example_task user_text (Z.lor ATTR_USER ATTR_DEFER));
      [by apply example_spaces|done|exact example_directory|done|done|done|by vm_compute].
  - intros pa s (G' & base & Hsp & Hsub & Hrest & Hmem & Hset & Hpa).
    change (has_attr (Z.lor ATTR_USER ATTR_DEFER) ATTR_DEFER) with true in Hpa. destruct Hpa as [-> ->].
    assert (example_running 0 1 G' (mkSpace s (as_ram example_space)) example_object example_task) as Hrun.
    { split; [done|done|by eapply directory_kept; [apply Hsub|exact example_directory|..]| |done].
      injection Hrest as _ _ E _ _. exact E. }
    eapply Runs_mono.
    + apply (@demand_paging example_allocator example_laws example_refill example_memory example_tasks 0 0 G'
        (mkSpace s (as_ram example_space)) example_object example_task user_text 7); [exact Hrun|done|done|].
      cbn [as_mm]. rewrite (Hset example_task user_text eq_refl ltac:(done)). by vm_compute.
    + intros x k' (-> & _ & Hpage & _). split; [done|]. by apply Hpage; [|vm_compute].
Defined.
End examples.
