(* ===== verification/UserWalk.v ===== *)
(** * The walk over the pages of a task: [PageDirectory::forEachUserPage]

    Four nested loops over the tables, and a function that may change them as it is called.  [walk_pages] says what
    they amount to: the valid pages of the lower half, one after the other in the order of their addresses, each with
    the slot, the address and the physical address that it has when its turn comes. *)

From Stdlib Require Import ZArith Lia.
From stdpp Require Import list numbers gmap.
From S2P Require Import Prelude Words Memory Pte PageManager PageHeap PageDirectory UserSpace AddressSpace.

(** ** Addresses *)
Lemma lor_add x y n : 0 <= n -> 0 <= y < 2 ^ n -> Z.lor (x * 2 ^ n) y = x * 2 ^ n + y.
Proof.
  intros Hn Hy. assert (Z.land (x * 2 ^ n) y = 0) as E.
  { apply Z.bits_inj'. intros m Hm. rewrite Z.land_spec, Z.bits_0. destruct (Z.lt_ge_cases m n).
    - by rewrite Z.mul_pow2_bits_low.
    - rewrite <- (Z.mod_small y (2 ^ n)), Z.mod_pow2_bits_high by lia. apply andb_false_r. }
  rewrite <- Z.lxor_lor by done. by rewrite <- Z.add_nocarry_lxor.
Qed.

Lemma getAddress_small l i : (1 <= l <= 4)%nat -> 0 <= i < 512 -> getAddress l i = i * 2 ^ (12 + 9 * Z.of_nat (pred l)).
Proof.
  intros Hl Hi. destruct l as [|l]; [lia|]. unfold getAddress, addressFromIndex. rewrite TOTAL_BITS_eq. unfold ADD_BITS.
  replace (12 + 9 * Z.of_nat (S l) - 9) with (12 + 9 * Z.of_nat l) by lia. cbn [pred]. rewrite Z.shiftl_mul_pow2 by lia.
  apply wrap_small. unfold in_word.
  assert (0 < 2 ^ (12 + 9 * Z.of_nat l) <= 2 ^ 39) by (split; [apply Z.pow_pos_nonneg; lia|apply Z.pow_le_mono_r; lia]). nia.
Qed.

Lemma extendSign_low p : 0 <= p < 2 ^ 47 -> extendSign p = p.
Proof.
  intros Hp. unfold extendSign. change (64 - (4 * 9 + 12)) with 16. rewrite Z.shiftl_mul_pow2, Z.shiftr_div_pow2 by done.
  rewrite wrap_signed_small by lia. rewrite Z.div_mul by done. apply wrap_small. unfold in_word. lia.
Qed.

(** The number of a page from its four indices *)
Definition page_number (i4 i3 i2 i1 : Z) : Z := ((i4 * 512 + i3) * 512 + i2) * 512 + i1.

Lemma fullAddr_eq i4 i3 i2 i1 :
  0 <= i4 < 256 -> 0 <= i3 < 512 -> 0 <= i2 < 512 -> 0 <= i1 < 512 ->
  Z.lor (extendSign (getAddress 4 i4)) (getAddress 3 i3) < 0xffff00000000 /\
  Z.lor (Z.lor (Z.lor (extendSign (getAddress 4 i4)) (getAddress 3 i3)) (getAddress 2 i2)) (getAddress 1 i1) =
  page_number i4 i3 i2 i1 * 4096.
Proof.
  intros H4 H3 H2 H1. rewrite !getAddress_small by lia.
  change (12 + 9 * Z.of_nat (pred 4)) with 39. change (12 + 9 * Z.of_nat (pred 3)) with 30.
  change (12 + 9 * Z.of_nat (pred 2)) with 21. change (12 + 9 * Z.of_nat (pred 1)) with 12.
  rewrite extendSign_low by lia.
  rewrite (lor_add i4 (i3 * 2 ^ 30) 39) by lia. split; [lia|].
  replace (i4 * 2 ^ 39 + i3 * 2 ^ 30) with ((i4 * 512 + i3) * 2 ^ 30) by lia. rewrite (lor_add _ (i2 * 2 ^ 21) 30) by lia.
  replace ((i4 * 512 + i3) * 2 ^ 30 + i2 * 2 ^ 21) with (((i4 * 512 + i3) * 512 + i2) * 2 ^ 21) by lia.
  rewrite (lor_add _ (i1 * 2 ^ 12) 21) by lia. unfold page_number. lia.
Qed.

(** ** The tables that the loops are in *)
Section reach.
Context (T : Tables) (r : Z).

(** The table [p] with [l] levels is reached from [r] along the prefix [P]. *)
Inductive reach : nat -> Z -> Z -> Prop :=
  | reach_root : reach LevelCount r 0
  | reach_next l p P i :
      reach (S l) p P -> (1 <= l)%nat -> 0 <= i < 512 -> next_at T p i <> 0 -> reach l (next_at T p i) (P * 512 + i).

Lemma reach_levels l p P : reach l p P -> (1 <= l <= LevelCount)%nat.
Proof. induction 1; unfold LevelCount in *; lia. Qed.

Lemma reach_info G l p P :
  tables_wf G T -> is_root G r -> reach l p P -> exists g, G !! p = Some g /\ t_levels g = l /\ t_prefix g = P.
Proof.
  intros Hwf Hr. induction 1 as [|l p P i Hp IH Hl Hi Hn]; [done|]. destruct IH as (g & Hg & Hgl & Hgp).
  destruct (wf_child _ _ Hwf p i g Hg Hn) as (_ & g' & Hg' & Hl' & Hp' & _). exists g'. split_and!; [done|lia|congruence].
Qed.

(** The part of a page number that a table with [l] levels leaves *)
Lemma prefix_of_page l a : (l <= LevelCount)%nat -> prefix_of l a = prefix_of 0 a / 2 ^ (9 * Z.of_nat l).
Proof. intros Hl. replace l with (0 + l)%nat at 1 by lia. rewrite prefix_shift, Z.shiftr_div_pow2 by lia. done. Qed.

Lemma reach_walk l p P a : reach l p P -> prefix_of l a = P -> walk T LevelCount 3 r a = walk T l (pred l) p a.
Proof.
  intros Hr. revert a. induction Hr as [|l p P i Hp IH Hl Hi Hn]; intros a Ha; [done|].
  pose proof (reach_levels _ _ _ Hp) as Hlev.
  rewrite (prefix_step l) in Ha by (unfold LevelCount in *; lia).
  pose proof (indexFromAddress_range l a).
  assert (prefix_of (S l) a = P /\ indexFromAddress (S l) a = i) as [E1 E2] by lia.
  rewrite (IH a E1). cbn [pred]. destruct l as [|l]; [lia|]. cbn [walk pred]. rewrite E2.
  by rewrite (proj2 (Z.eqb_neq _ _)).
Qed.
End reach.

Lemma reach_grown G G' s s' r l p P :
  tables_wf G (mm_tables s) -> is_root G r -> grown G G' s s' ->
  reach (mm_tables s) r l p P -> reach (mm_tables s') r l p P.
Proof.
  intros Hwf Hr [_ Hn]. induction 1 as [|l p P i Hp IH Hl Hi Hnz]; [constructor|].
  destruct (reach_info _ _ G _ _ _ Hwf Hr Hp) as (g & Hg & _).
  rewrite <- (Hn p i g Hg Hnz). constructor; [done|done|done|]. by rewrite (Hn p i g Hg Hnz).
Qed.

(** ** The loops *)
Section walk.
Context {S : Type} (lift : forall A, ST MM A -> ST S A) (mm : S -> MM).
Context (lift_same : forall A (m : ST MM A) s a, m (mm s) = Ok (a, mm s) -> lift A m s = Ok (a, s)).
Context (this r : Z) (f : slot -> Z -> Z -> ST S unit).
(** [I N G s]: the pages before the page [N] have been visited. *)
Context (I : Z -> ghost -> S -> Prop).

Definition entry (s : S) (N : Z) : PageTableEntry := pte_at (mm_tables (mm s)) r (N * 4096).

Context (I_directory : forall N G s, I N G s -> directory_ok G (mm s) this r).
Context (I_skip : forall N G s, 0 <= N < 2 ^ 35 -> I N G s -> isValid (entry s N) = false -> I (N + 1) G s).
Context (I_visit : forall N G s sl, 0 <= N < 2 ^ 35 -> I N G s -> isValid (entry s N) = true ->
  walk (mm_tables (mm s)) LevelCount 3 r (N * 4096) = Some sl ->
  Runs (f sl (N * 4096) (phys_of_base (pte_base (entry s N)))) s
    (fun _ s' => exists G', I (N + 1) G' s' /\ grown G G' (mm s) (mm s'))).

(** A step from one set of states to another, the tables growing *)
Definition steps (m : ST S unit) (J J' : ghost -> S -> Prop) : Prop :=
  forall G s, J G s -> Runs m s (fun _ s' => exists G', J' G' s' /\ grown G G' (mm s) (mm s')).

Lemma steps_range (J : Z -> ghost -> S -> Prop) (body : Z -> ST S unit) i n :
  0 <= n -> (forall j, i <= j < i + n -> steps (body j) (J j) (J (j + 1))) ->
  steps (for_each (seqZ i n) body) (J i) (J (i + n)).
Proof.
  intros Hn. revert i. pattern n. apply natlike_ind; [| |done].
  - intros i _ G s HJ. rewrite Z.add_0_r. apply Runs_ret. exists G. split; [done|by apply grown_same].
  - clear n Hn. intros n Hn IH i Hb G s HJ. rewrite seqZ_cons by lia. cbn [for_each]. apply Runs_bind.
    eapply Runs_mono; [by apply (Hb i ltac:(lia))|]. intros [] s1 (G1 & HJ1 & Hg1).
    replace (Z.pred (Z.succ n)) with n by lia. replace (Z.succ i) with (i + 1) by lia.
    eapply Runs_mono; [apply (IH (i + 1)); [intros j Hj; apply Hb; lia|exact HJ1]|].
    intros [] s2 (G2 & HJ2 & Hg2). exists G2. split; [by replace (i + Z.succ n) with (i + 1 + n) by lia|].
    by eapply grown_trans.
Qed.

Lemma deref_run p s : is_Some (mm_tables (mm s) !! p) -> lift _ (deref p) s = Ok (mm_tables (mm s), s).
Proof using lift_same.
  intros [t Ht]. apply lift_same. unfold deref. rewrite bind_read. cbn [get_tables MM_tables]. by rewrite Ht.
Qed.

(** Pages without an entry are passed over. *)
Lemma skip_range N n G s :
  0 <= N -> 0 <= n -> N + n <= 2 ^ 35 -> I N G s -> (forall M, N <= M < N + n -> entry s M = zero_pte) -> I (N + n) G s.
Proof using I_skip.
  intros HN Hn. revert N HN. pattern n. apply natlike_ind; [by intros N _ _; rewrite Z.add_0_r| |done].
  clear n Hn. intros n Hn IH N HN Hle HI Hz. replace (N + Z.succ n) with (N + 1 + n) by lia.
  apply IH; [lia|lia| |intros M HM; apply Hz; lia]. apply I_skip; [lia|done|]. by rewrite Hz by lia.
Qed.

(** In the loop over the slots of a table *)
Definition at_slot (l : nat) (p P : Z) (i : Z) (G : ghost) (s : S) : Prop :=
  I ((P * 512 + i) * 2 ^ (9 * Z.of_nat (pred l))) G s /\ reach (mm_tables (mm s)) r l p P.

Lemma at_slot_grown l p P i j G G' s s' :
  at_slot l p P i G s -> grown G G' (mm s) (mm s') ->
  I ((P * 512 + j) * 2 ^ (9 * Z.of_nat (pred l))) G' s' -> at_slot l p P j G' s'.
Proof using I_directory.
  intros [HI Hr] Hg HI'. split; [done|]. pose proof (I_directory _ _ _ HI) as [Hwf Hroot _]. by eapply reach_grown.
Qed.

Lemma reach_live G s l p P N : I N G s -> reach (mm_tables (mm s)) r l p P -> is_Some (mm_tables (mm s) !! p).
Proof using I_directory.
  intros HI Hr. pose proof (I_directory _ _ _ HI) as [Hwf Hroot _].
  destruct (reach_info _ _ G _ _ _ Hwf Hroot Hr) as (g & Hg & _). apply (wf_dom _ _ Hwf). by exists g.
Qed.

(** The prefixes of a page of a slot *)
Lemma page_prefix l N : (l <= LevelCount)%nat -> 0 <= N < 2 ^ 35 -> prefix_of l (N * 4096) = N / 2 ^ (9 * Z.of_nat l).
Proof.
  intros Hl HN. rewrite user_prefix by (done || unfold user; lia).
  rewrite Z.pow_add_r, <- Z.div_div by (lia || (apply Z.pow_nonzero; lia)). by rewrite Z.div_mul.
Qed.

Lemma slot_prefix l p P i N s :
  reach (mm_tables (mm s)) r (Datatypes.S l) p P -> 0 <= i < 512 -> 0 <= N < 2 ^ 35 ->
  N / 2 ^ (9 * Z.of_nat l) = P * 512 + i ->
  prefix_of (Datatypes.S l) (N * 4096) = P /\ indexFromAddress (Datatypes.S l) (N * 4096) = i.
Proof.
  intros Hr Hi HN E. pose proof (reach_levels _ _ _ _ _ Hr) as Hl. unfold LevelCount in Hl.
  rewrite <- page_prefix in E by (unfold LevelCount; lia). rewrite (prefix_step l) in E by (unfold LevelCount; lia).
  pose proof (indexFromAddress_range l (N * 4096)). lia.
Qed.

(** A slot without a table below it has no pages. *)
Lemma slot_empty l p P i G s :
  at_slot (Datatypes.S (Datatypes.S l)) p P i G s -> 0 <= i < 512 -> 0 <= P -> (P * 512 + (i + 1)) * 2 ^ (9 * Z.of_nat (Datatypes.S l)) <= 2 ^ 35 ->
  next_at (mm_tables (mm s)) p i = 0 -> at_slot (Datatypes.S (Datatypes.S l)) p P (i + 1) G s.
Proof using I_skip.
  intros [HI Hr] Hi HP Hle Hz. split; [|done]. cbn [pred] in *. set (k := 9 * Z.of_nat (Datatypes.S l)) in *.
  assert (0 < 2 ^ k) as Hk by (apply Z.pow_pos_nonneg; lia).
  replace ((P * 512 + (i + 1)) * 2 ^ k) with ((P * 512 + i) * 2 ^ k + 2 ^ k) in * by lia.
  apply skip_range; [nia|lia|lia|done|]. intros M HM. unfold entry, pte_at.
  destruct (slot_prefix (Datatypes.S l) p P i M s Hr Hi) as [E1 E2]; [nia| |].
  { fold k. symmetry. apply (Z.div_unique_pos _ _ _ (M - (P * 512 + i) * 2 ^ k)); lia. }
  rewrite (reach_walk _ _ _ _ _ _ Hr E1). cbn [pred walk]. by rewrite E2, Hz.
Qed.

(** The last level: the pages of one table *)
Lemma leaf_steps p P (g : Z -> Z) i :
  0 <= P -> (P + 1) * 512 <= 2 ^ 35 -> 0 <= i < 512 -> g i = (P * 512 + i) * 4096 ->
  steps (entry ← lift _ (load (p, i));
         if negb (isValid entry) then mret tt else f (p, i) (g i) (phys_of_base (pte_base entry)))
    (at_slot 1 p P i) (at_slot 1 p P (i + 1)).
Proof using lift_same I_directory I_skip I_visit.
  intros HP Hle Hi Hg G s Hat. pose proof Hat as [HI Hr]. cbn [pred] in HI. change (2 ^ (9 * Z.of_nat 0)) with 1 in HI.
  rewrite Z.mul_1_r in HI. set (N := P * 512 + i) in *.
  destruct (slot_prefix 0 p P i N s Hr Hi) as [E1 E2]; [lia|change (2 ^ (9 * Z.of_nat 0)) with 1; by rewrite Z.div_1_r|].
  assert (walk (mm_tables (mm s)) LevelCount 3 r (N * 4096) = Some (p, i)) as Hw.
  { rewrite (reach_walk _ _ _ _ _ _ Hr E1). cbn [pred walk]. by rewrite E2. }
  assert (entry_at (mm_tables (mm s)) p i = entry s N) as He by (unfold entry, pte_at; by rewrite Hw).
  apply Runs_bind. eapply Runs_of_ok; [apply lift_same; unfold load, gets; reflexivity|]. cbn [fst snd]. rewrite He, Hg.
  assert (forall G' s', I (N + 1) G' s' -> I ((P * 512 + (i + 1)) * 2 ^ (9 * Z.of_nat (pred 1))) G' s') as Hpos.
  { intros G' s'. cbn [pred]. change (2 ^ (9 * Z.of_nat 0)) with 1. by replace ((P * 512 + (i + 1)) * 1) with (N + 1) by lia. }
  destruct (isValid (entry s N)) eqn:Hv; cbn [negb].
  - eapply Runs_mono; [apply (I_visit N G s (p, i)); (done || lia)|]. intros [] s' (G' & HI' & Hgr). exists G'.
    split; [|done]. eapply at_slot_grown; [exact Hat|exact Hgr|]. by apply Hpos.
  - apply Runs_ret. exists G. split; [|by apply grown_same]. split; [|done]. apply Hpos. apply I_skip; [lia|done|done].
Qed.

(** An inner level: each slot is passed over or its table visited. *)
Lemma next_steps l p P (body : Z -> Z -> ST S unit) i :
  (1 <= l)%nat -> 0 <= P -> (P * 512 + (i + 1)) * 2 ^ (9 * Z.of_nat l) <= 2 ^ 35 -> 0 <= i < 512 ->
  (forall s, body i 0 s = Ok (tt, s)) ->
  (forall q, q <> 0 -> steps (body i q) (at_slot l q (P * 512 + i) 0) (at_slot l q (P * 512 + i) 512)) ->
  steps (T ← lift _ (deref p); body i (next_at T p i)) (at_slot (Datatypes.S l) p P i) (at_slot (Datatypes.S l) p P (i + 1)).
Proof using lift_same I_directory I_skip.
  intros Hl HP Hle Hi Hb0 Hb G s Hat. pose proof Hat as [HI Hr]. apply Runs_bind.
  eapply Runs_of_ok; [by eapply deref_run, reach_live|].
  destruct l as [|l]; [lia|]. assert (0 < 2 ^ (9 * Z.of_nat (Datatypes.S l))) as Hk by (apply Z.pow_pos_nonneg; lia).
  destruct (Z.eqb_spec (next_at (mm_tables (mm s)) p i) 0) as [Hz|Hnz].
  - rewrite Hz. eapply Runs_of_ok; [apply Hb0|]. exists G. split; [|by apply grown_same].
    by apply slot_empty.
  - assert (forall j, (((P * 512 + i) * 512 + j) * 2 ^ (9 * Z.of_nat (pred (Datatypes.S l)))) =
      (P * 512 + i) * 2 ^ (9 * Z.of_nat (Datatypes.S l)) + j * 2 ^ (9 * Z.of_nat l)) as Hpos.
    { intros j. cbn [pred]. replace (9 * Z.of_nat (Datatypes.S l)) with (9 + 9 * Z.of_nat l) by lia. rewrite Z.pow_add_r by lia. lia. }
    eapply Runs_mono.
    + apply (Hb _ Hnz G s). split; [|by constructor]. rewrite Hpos. cbn [pred] in HI. by replace (0 * _) with 0 by lia; rewrite Z.add_0_r.
    + intros [] s' (G' & [HI' _] & Hgr). exists G'. split; [|done]. eapply at_slot_grown; [exact Hat|exact Hgr|].
      rewrite Hpos in HI'. cbn [pred] in *. replace (512 * 2 ^ (9 * Z.of_nat l)) with (2 ^ (9 * Z.of_nat (Datatypes.S l))) in HI'.
      * by replace ((P * 512 + (i + 1)) * 2 ^ (9 * Z.of_nat (Datatypes.S l))) with ((P * 512 + i) * 2 ^ (9 * Z.of_nat (Datatypes.S l)) + 2 ^ (9 * Z.of_nat (Datatypes.S l))) by lia.
      * replace (9 * Z.of_nat (Datatypes.S l)) with (9 + 9 * Z.of_nat l) by lia. rewrite Z.pow_add_r by lia. lia.
Qed.

(** The bodies of the loops *)
Definition body1 (add level1 i1 : Z) : ST S unit :=
  entry ← lift _ (load (level1, i1));
  if negb (isValid entry) then mret tt
  else f (level1, i1) (Z.lor add (getAddress 1 i1)) (phys_of_base (pte_base entry)).
Definition body2 (add i2 level1 : Z) : ST S unit :=
  if level1 =? 0 then mret tt else for_each (seqZ 0 512) (body1 (Z.lor add (getAddress 2 i2)) level1).
Definition body3 (add4 i3 level2 : Z) : ST S unit :=
  if 0xffff00000000 <=? Z.lor add4 (getAddress 3 i3) then mret tt
  else if level2 =? 0 then mret tt else for_next lift level2 (body2 (Z.lor add4 (getAddress 3 i3))).
Definition body4 (i4 level3 : Z) : ST S unit :=
  if level3 =? 0 then mret tt else for_next lift level3 (body3 (extendSign (getAddress 4 i4))).

Lemma for_next_steps l p P (body : Z -> Z -> ST S unit) :
  (1 <= l)%nat -> 0 <= P -> (P + 1) * 512 * 2 ^ (9 * Z.of_nat l) <= 2 ^ 35 ->
  (forall i s, 0 <= i < 512 -> body i 0 s = Ok (tt, s)) ->
  (forall i q, 0 <= i < 512 -> q <> 0 -> steps (body i q) (at_slot l q (P * 512 + i) 0) (at_slot l q (P * 512 + i) 512)) ->
  steps (for_next lift p body) (at_slot (Datatypes.S l) p P 0) (at_slot (Datatypes.S l) p P 512).
Proof using lift_same I_directory I_skip.
  intros Hl HP Hle H0 Hb. apply (steps_range (at_slot (Datatypes.S l) p P) _ 0 512); [lia|]. intros i Hi.
  assert (0 < 2 ^ (9 * Z.of_nat l)) as Hk by (apply Z.pow_pos_nonneg; lia).
  apply next_steps; [done|done|nia|lia|intros s; apply H0; lia|intros q; apply Hb; lia].
Qed.

Lemma body4_steps m i4 : 0 <= i4 < 256 ->
  steps (T ← lift _ (deref m); body4 i4 (next_at T m i4)) (at_slot LevelCount m 0 i4) (at_slot LevelCount m 0 (i4 + 1)).
Proof using lift_same I_directory I_skip I_visit.
  intros H4. apply (next_steps 3); [lia|done|cbn; lia|lia|done|]. intros l3 Hl3. unfold body4.
  rewrite (proj2 (Z.eqb_neq _ _) Hl3). apply for_next_steps; [lia|lia|cbn; lia| |].
  { intros i3 s _. unfold body3. by destruct (_ <=? _). }
  intros i3 l2 H3 Hl2. unfold body3.
  rewrite (proj2 (Z.leb_gt _ _)) by (apply (fullAddr_eq i4 i3 0 0); lia).
  rewrite (proj2 (Z.eqb_neq _ _) Hl2). apply for_next_steps; [lia|lia|cbn; lia|done|].
  intros i2 l1 H2 Hl1. unfold body2. rewrite (proj2 (Z.eqb_neq _ _) Hl1).
  apply (steps_range (at_slot 1 l1 _) _ 0 512); [lia|]. intros i1 H1.
  apply (leaf_steps l1 _ (fun i1 => Z.lor _ (getAddress 1 i1)) i1); [lia|cbn; lia|lia|].
  destruct (fullAddr_eq i4 i3 i2 i1) as [_ E]; [lia|lia|lia|lia|]. rewrite E. unfold page_number. lia.
Qed.

(** The upper half: the loops do nothing. *)
Lemma body4_upper m i4 (J : ghost -> S -> Prop) :
  256 <= i4 < 512 ->
  (forall G s, J G s -> directory_ok G (mm s) this r /\ reach (mm_tables (mm s)) r LevelCount m 0) ->
  steps (T ← lift _ (deref m); body4 i4 (next_at T m i4)) J J.
Proof using lift_same.
  intros Hi HJ G s Hs. destruct (HJ G s Hs) as [[Hwf Hroot _] Hr].
  destruct (reach_info _ _ G _ _ _ Hwf Hroot Hr) as (g & Hg & _).
  apply Runs_bind. eapply Runs_of_ok; [apply deref_run, (wf_dom _ _ Hwf); by exists g|]. unfold body4.
  destruct (Z.eqb_spec (next_at (mm_tables (mm s)) m i4) 0) as [_|Hn].
  { apply Runs_ret. exists G. split; [done|by apply grown_same]. }
  destruct (wf_child _ _ Hwf m i4 g Hg Hn) as (_ & g' & Hg' & _).
  eapply Runs_of_ok; [|exists G; split; [done|by apply grown_same]].
  apply for_each_skip. intros i3 Hi3%elem_of_seqZ.
  erewrite bind_run; [|apply deref_run, (wf_dom _ _ Hwf); by exists g'].
  unfold body3. by rewrite (proj2 (Z.leb_le _ _)) by (apply upper_half_address; lia).
Qed.

(** The valid pages of the lower half are visited, and no others, in the order of their addresses. *)
Lemma walk_pages : steps (forEachUserPage_in lift this f) (I 0) (I (2 ^ 35)).
Proof using lift_same I_directory I_skip I_visit.
  intros G s HI. pose proof (I_directory _ _ _ HI) as Hdir. change (forEachUserPage_in lift this f) with
    (m ← lift _ (manager this); for_next lift m body4).
  apply Runs_bind. eapply Runs_of_ok; [by apply lift_same, (manager_run G (mm s) this r)|].
  assert (forall i, 0 <= i -> i + 1 <= 256 -> Z.min i 256 = i /\ Z.min (i + 1) 256 = i + 1) as Hlow by lia.
  eapply Runs_mono.
  - apply (steps_range (fun i => at_slot LevelCount r 0 (Z.min i 256)) _ 0 512 ltac:(lia)).
    + intros i Hi. destruct (Z.lt_ge_cases i 256) as [Hi'|Hi'].
      * destruct (Hlow i) as [-> ->]; [lia|lia|]. apply body4_steps; lia.
      * rewrite !Z.min_r by lia. apply body4_upper; [lia|]. intros G' s' [HI' Hr']. split; [exact (I_directory _ _ _ HI')|done].
    + split; [exact HI|constructor].
  - intros [] s' (G' & [HI' _] & Hg). exists G'. split; [exact HI'|done].
Qed.
End walk.

(** ** What the walk visits *)

(** The pages with an entry, by number, below [n] *)
Definition valid_pages (T : Tables) (r n : Z) : list Z :=
  filter (fun N => isValid (pte_at T r (N * 4096)) = true) (seqZ 0 n).

Definition page_data (T : Tables) (r N : Z) : Z * Z :=
  (N * 4096, phys_of_base (pte_base (pte_at T r (N * 4096)))).

Lemma valid_pages_next T r n :
  0 <= n -> valid_pages T r (n + 1) = valid_pages T r n ++ (if isValid (pte_at T r (n * 4096)) then [n] else []).
Proof.
  intros Hn. unfold valid_pages. rewrite seqZ_app by lia. rewrite filter_app. f_equal. rewrite Z.add_0_l.
  change (seqZ n 1) with [0 + n]. rewrite Z.add_0_l, filter_cons, filter_nil.
  destruct (isValid _); [by rewrite decide_True|by rewrite decide_False].
Qed.

(** A function that keeps a list of what it is called with *)
Definition on_log {A} (m : ST MM A) : ST (MM * list (Z * Z)) A := zoom fst (fun s k => (s, k.2)) m.
Definition log_page (sl : slot) (addr phys : Z) : ST (MM * list (Z * Z)) unit :=
  modify (fun k => (k.1, k.2 ++ [(addr, phys)])).

(** C24. [forEachUserPage] calls its function for each page of the lower half that is mapped or deferred, and for no other
    page, in the order of the addresses, with the address and the physical address of the page. *)
Theorem forEachUserPage_visits G s this r :
  directory_ok G s this r ->
  Runs (forEachUserPage_in (@on_log) this log_page) (s, []) (fun _ k =>
    k = (s, map (page_data (mm_tables s) r) (valid_pages (mm_tables s) r (2 ^ 35)))).
Proof.
  intros Hdir. set (T := mm_tables s).
  set (I := fun N (G' : ghost) (k : MM * list (Z * Z)) =>
    k = (s, map (page_data T r) (valid_pages T r N)) /\ 0 <= N /\ directory_ok G' s this r).
  eapply Runs_mono; [apply (walk_pages (@on_log) fst) with (r := r) (I := I)|].
  - intros A m k a E. unfold on_log, zoom. rewrite E. by destruct k.
  - intros N G' k (-> & _ & H). exact H.
  - intros N G' k HN (-> & H0 & H) Hv. split; [|split; [lia|done]]. unfold entry in Hv. cbn [fst] in Hv.
    fold T in Hv. by rewrite valid_pages_next, Hv, app_nil_r by done.
  - intros N G' k sl HN (-> & H0 & H) Hv _. unfold log_page. apply Runs_modify. exists G'.
    split; [|by apply grown_same]. split; [|split; [lia|done]]. unfold entry in *. cbn [fst snd] in *.
    fold T in Hv |- *. by rewrite valid_pages_next, Hv, map_app by done.
  - split; [done|]. split; [lia|exact Hdir].
  - intros [] k (G' & (-> & _) & _). done.
Qed.

Lemma valid_pages_elem T r n N :
  N ∈ valid_pages T r n <-> 0 <= N < n /\ isValid (pte_at T r (N * 4096)) = true.
Proof. unfold valid_pages. rewrite list_elem_of_filter, elem_of_seqZ, Z.add_0_l. tauto. Qed.

Lemma page_visited T r n N :
  0 <= N < n -> isValid (pte_at T r (N * 4096)) = true ->
  (N * 4096, phys_of_base (pte_base (pte_at T r (N * 4096)))) ∈ map (page_data T r) (valid_pages T r n).
Proof. intros HN Hv. apply list_elem_of_fmap. exists N. split; [done|]. by apply valid_pages_elem. Qed.

(** ** A task with one page *)
Section examples.
Existing Instances example_symbols pd_allocator pool_laws pool_memory_laws.
Abbreviation example_allocator := (pd_allocator no_mapPage).
Abbreviation example_laws := (pool_laws no_mapPage).
Abbreviation example_refill := (refillPool pdPageHeap (on_kernel no_mapPage) 0).
Abbreviation example_memory := (pool_memory_laws 0).

Lemma forEachUserPage_visits_witness :
  Runs (pa ← on_log (@mapPage example_allocator example_refill example_object user_text ATTR_USER);
        forEachUserPage_in (@on_log) example_object log_page ;; mret pa) (example_mm true empty_tables, [])
    (fun pa k => (user_text, pa) ∈ k.2).
Proof.
  apply Runs_bind. unfold on_log at 1. apply Runs_zoom. eapply Runs_mono.
  - apply (@mapPage_user example_allocator example_laws example_refill example_memory example_tasks 0 0 empty_ghost
      (example_mm true empty_tables) example_object example_task user_text ATTR_USER); [by apply example_spaces|done
      |exact example_directory|done|done|done|by vm_compute].
  - intros pa s (G' & base & Hsp & Hsub & Hrest & _ & Hset & Hpa). change (has_attr ATTR_USER ATTR_DEFER) with false in Hpa.
    destruct Hpa as (-> & Hb & _). cbn [snd].
    assert (directory_ok G' s example_object example_task) as Hdir
      by (eapply directory_kept; [apply Hsub|exact example_directory|exact Hsp|done|exact Hrest]).
    apply Runs_bind. eapply Runs_mono; [apply (forEachUserPage_visits G' s example_object example_task Hdir)|].
    intros [] k ->. apply Runs_ret. cbn [snd].
    assert (pte_at (mm_tables s) example_task user_text = AttributeSetter ATTR_USER (set_base base (set_p true zero_pte))) as He.
    { rewrite (Hset example_task user_text eq_refl ltac:(done)). by rewrite bool_decide_true. }
    pose proof (page_visited (mm_tables s) example_task (2 ^ 35) 0x400) as Hin. change (0x400 * 4096) with user_text in Hin.
    rewrite He, AttributeSetter_base in Hin. cbn [pte_base set_base] in Hin. rewrite wrap_small in Hin by (unfold in_word; lia).
    rewrite (proj1 (phys_of_base_page base Hb)) in Hin. apply Hin; [lia|by vm_compute].
Defined.
End examples.
