(* ===== verification/NewDirectory.v ===== *)
(** * A new address space: [createPm] and [mapKernel]

    A directory starts with a first-level table of its own, and a second one that shares with the kernel's
    directory the table of the highest gigabyte.  [mapKernel_run]: the pages of the new directory in that gigabyte are those
    of the kernel, it has no page in the lower half, and what the other directories have is as it was. *)

From Stdlib Require Import ZArith Lia.
From stdpp Require Import list numbers gmap.
From S2P Require Import Prelude Words Memory Pte PageManager PageHeap PageDirectory UserSpace AddressSpace.

(** ** One slot of the tables *)
Section slot_update.
Context (G : ghost) (T T' : Tables) (p i : Z) (g : table_info) (e : PageTableEntry) (c : Z).

(** [T'] is [T] but for the slot [i] of [p]. *)
Definition slot_update : Prop :=
  (forall q, is_Some (T' !! q) <-> is_Some (T !! q)) /\
  forall q j, entry_at T' q j = (if bool_decide (p = q /\ i = j) then e else entry_at T q j) /\
              next_at T' q j = (if bool_decide (p = q /\ i = j) then c else next_at T q j).

(** The entry and the pointer lead to a table of the next level with the prefix of the slot, or both to none. *)
Definition slot_ok : Prop :=
  (pte_p e = true <-> c <> 0) /\ pte_wf e /\
  (c <> 0 -> exists g', G !! c = Some g' /\ t_levels g = S (t_levels g') /\ t_prefix g' = t_prefix g * 512 + i /\
     pte_base e = Z.shiftr (t_phys g') BASE_SHIFT).

Lemma slot_update_wf :
  tables_wf G T -> G !! p = Some g -> (1 < t_levels g)%nat -> 0 <= i < 512 -> slot_update -> slot_ok -> tables_wf G T'.
Proof.
  intros Hwf Hg Hl Hi [Hdom Hat] (Hp & Hpte & Hc). constructor; try apply Hwf.
  - intros q. rewrite Hdom. apply Hwf.
  - intros q j g' Hq Hl'. rewrite (proj2 (Hat q j)). case_bool_decide as E; [|by eapply (wf_last _ _ Hwf)].
    destruct E as [<- <-]. rewrite Hg in Hq. injection Hq as <-. lia.
  - intros q j g' Hq Hl'. rewrite (proj1 (Hat q j)), (proj2 (Hat q j)). case_bool_decide; [done|by eapply (wf_coherent _ _ Hwf)].
  - intros q j g' Hq. rewrite (proj1 (Hat q j)), (proj2 (Hat q j)). case_bool_decide as E; [|by apply (wf_child _ _ Hwf)].
    destruct E as [<- <-]. rewrite Hg in Hq. injection Hq as <-. intros Hn. split; [done|]. by apply Hc.
  - intros q j. rewrite (proj1 (Hat q j)). case_bool_decide; [done|apply Hwf].
Qed.
End slot_update.

Lemma store_slot_update T p i e c :
  is_Some (T !! p) -> slot_update T (store_entry p i e (store_next p i c T)) p i e c.
Proof.
  intros Hp. split.
  - intros q. by rewrite is_Some_store_entry, is_Some_store_next.
  - intros q j. rewrite entry_at_store_entry, next_at_store_entry, next_at_store_next, entry_at_store_next; [done|done|].
    by apply is_Some_store_next.
Qed.

Lemma store_slot_update' T p i e c :
  is_Some (T !! p) -> slot_update T (store_next p i c (store_entry p i e T)) p i e c.
Proof.
  intros Hp. split.
  - intros q. by rewrite is_Some_store_next, is_Some_store_entry.
  - intros q j. rewrite next_at_store_next, entry_at_store_next, entry_at_store_entry, next_at_store_entry; [done|done|].
    by apply is_Some_store_entry.
Qed.

Lemma store_entry_update T p i e :
  is_Some (T !! p) -> slot_update T (store_entry p i e T) p i e (next_at T p i).
Proof.
  intros Hp. split.
  - intros q. by rewrite is_Some_store_entry.
  - intros q j. rewrite entry_at_store_entry, next_at_store_entry by done. case_bool_decide as E; [by destruct E as [<- <-]|done].
Qed.

Lemma slot_update_same T T' p i e c (F : Z -> Prop) : slot_update T T' p i e c -> F p -> same_but F T T'.
Proof.
  intros [_ Hat] HF q j Hq. rewrite (proj1 (Hat q j)), (proj2 (Hat q j)). rewrite bool_decide_false; [done|]. by intros [<- _].
Qed.

(** A new table, not yet linked to *)
Lemma insert_table_wf G T q g :
  tables_wf G T -> fresh_table G q (t_phys g) -> (1 <= t_levels g <= LevelCount)%nat ->
  tables_wf (<[q := g]> G) (<[q := PageManager]> T).
Proof.
  intros Hwf (Hnz & Hnew & Hph & Hal & Hdist) Hlev.
  assert (T !! q = None) as HTq by (apply eq_None_not_Some; rewrite (wf_dom _ _ Hwf), Hnew; apply is_Some_None).
  assert (forall p g', (<[q := g]> G : ghost) !! p = Some g' -> p = q /\ g' = g \/ p <> q /\ G !! p = Some g') as Hlk.
  { intros p g' [[-> <-]|[? ?]]%lookup_insert_Some; [by left|right; by split]. }
  destruct (at_None T q 0 HTq) as [_ _].
  constructor.
  - intros p. destruct (decide (p = q)) as [->|]; [rewrite !lookup_insert_eq; by split; eexists|].
    rewrite !lookup_insert_ne by done. apply Hwf.
  - rewrite lookup_insert_ne by done. apply Hwf.
  - intros p g' [[-> ->]|[_ Hp]]%Hlk; [done|by eapply wf_levels].
  - intros p g' [[-> ->]|[_ Hp]]%Hlk; [done|by eapply wf_phys].
  - intros p p' g1 g2 [[-> ->]|[_ Hp]]%Hlk [[-> ->]|[_ Hp']]%Hlk E; [done|..].
    + by destruct (Hdist _ _ Hp').
    + by destruct (Hdist _ _ Hp).
    + by eapply (wf_phys_inj _ _ Hwf).
  - intros p i g' Hp Hl. rewrite next_at_new by done. destruct (Hlk _ _ Hp) as [[-> _]|[_ Hp']]; [by apply at_None|by eapply wf_last].
  - intros p i g' Hp Hl. rewrite next_at_new, entry_at_new by done. destruct (Hlk _ _ Hp) as [[-> _]|[_ Hp']]; [|by eapply wf_coherent].
    destruct (at_None T q i HTq) as [-> ->]. split; [done|lia].
  - intros p i g' Hp. rewrite next_at_new, entry_at_new by done. intros Hn. destruct (Hlk _ _ Hp) as [[-> _]|[_ Hp']].
    { by rewrite (proj2 (at_None T q i HTq)) in Hn. }
    destruct (wf_child _ _ Hwf p i g' Hp' Hn) as (Hi & g2 & Hg2 & Hrest). split; [done|]. exists g2. split; [|done].
    rewrite lookup_insert_ne; [done|]. intros E. rewrite E, Hg2 in Hnew. done.
  - intros p i. rewrite entry_at_new by done. apply Hwf.
Qed.

(** What [set_directory] does to the whole state *)
Lemma set_directory_run this d s (Q : unit -> MM -> Prop) :
  Q tt (set_mm_directories (<[this := d]> (mm_directories s)) s) -> Runs (set_directory this d) s Q.
Proof. done. Qed.

Lemma directory_run this d s (Q : PageDirectory -> MM -> Prop) :
  mm_directories s !! this = Some d -> Q d s -> Runs (directory this) s Q.
Proof. intros Hd HQ. unfold directory. apply Runs_bind, Runs_read. by apply Runs_from_option with d. Qed.

Section new_directory.
Context `{!TableAllocator MM, !TableAllocatorLaws MM mm_rest} (refillPool : ST MM unit) `{!MemoryLaws refillPool}.
Context (R : Z -> Prop).
Implicit Types (s : MM) (G : ghost).

(** ** A table of one's own: [makeNew] *)

(** The table [b], which nothing points to, has been added. *)
Record new_table (l : nat) (p : Z) (b : Z * Z) (G G' : ghost) (s s' : MM) : Prop := {
  nt_grown : grown_but (fun _ => False) G G' s s';
  nt_rest : mm_rest s' = mm_rest s;
  nt_memory : mem_le table_cost (mm_memory s) (mm_memory s');
  nt_kept : pages_kept R s s';
  nt_fresh : G !! b.1 = None;
  nt_info : G' !! b.1 = Some (mkInfo l p b.2);
  nt_null : b.1 <> 0;
  nt_empty i : entry_at (mm_tables s') b.1 i = zero_pte /\ next_at (mm_tables s') b.1 i = 0;
  nt_unreached q i : next_at (mm_tables s') q i <> b.1;
  nt_root r i : is_root G r -> i < 511 -> next_at (mm_tables s') r i = next_at (mm_tables s) r i;
  nt_old q i : is_Some (G !! next_at (mm_tables s') q i) -> next_at (mm_tables s) q i = next_at (mm_tables s') q i;
}.

Lemma fresh_unreached G T p phys q i : tables_wf G T -> fresh_table G p phys -> next_at T q i <> p.
Proof.
  intros Hwf (Hnz & Hnew & _) E. destruct (G !! q) as [g|] eqn:Hg.
  - destruct (wf_child _ _ Hwf q i g Hg ltac:(congruence)) as (_ & g' & Hg' & _). rewrite E, Hnew in Hg'. done.
  - destruct (at_None T q i) as [_ En]; [|congruence]. apply eq_None_not_Some. rewrite (wf_dom _ _ Hwf), Hg. apply is_Some_None.
Qed.

Lemma root_slot g i : t_levels g = LevelCount -> t_prefix g = 0 -> i < 511 -> ~ heap_slot heap_pages g i.
Proof.
  intros Hl Hp Hi (m & Hm%heap_kernel & E). rewrite Hl, Hp in E. unfold LevelCount in E.
  change (9 * (Z.of_nat 4 - 1)) with 27 in E. rewrite Z.shiftr_div_pow2 in E by lia.
  assert (511 <= m / 2 ^ 27) by (apply Z.div_le_lower_bound; lia). lia.
Qed.

Lemma insert_table_pte T q r a : T !! q = None -> pte_at (<[q := PageManager]> T) r a = pte_at T r a.
Proof.
  intros Hq. unfold pte_at. rewrite (walk_nexts T) by (intros; by apply next_at_new).
  destruct (walk T _ _ _ _) as [[? ?]|]; [by apply entry_at_new|done].
Qed.

Lemma new_table_run l p n room G s :
  spaces R (S n) (room + table_cost) G s -> 0 <= room -> (1 <= l <= LevelCount)%nat ->
  Runs makeNew s (fun b s' => exists G', spaces R n room G' s' /\ new_table l p b G G' s s').
Proof.
  intros Hsp H0 Hl. pose proof table_cost_nonneg as Hcost. pose proof Hsp as [Hwf Hroot Hap Hrdy Hmem Hroom Hal Hus Hinj Hker].
  pose proof (proj1 (Runs_ok _ _ _) (table_kmalloc_spec n G s Hwf Hal)) as (b & s1 & Heq & G1 & Hrest & Hwf1 & Hgr & Hsame & Hfr & Hal1).
  pose proof (kmalloc_memory s b s1 Hmem ltac:(lia) Heq) as Hmem1.
  unfold makeNew. apply Runs_bind. eapply Runs_of_ok; [exact Heq|]. apply Runs_bind, Runs_modify, Runs_ret.
  change (get_tables s1) with (mm_tables s1) in *. change (get_tables s) with (mm_tables s) in *.
  set (T2 := <[b.1 := PageManager]> (mm_tables s1)). set (g := mkInfo l p b.2).
  change (set_tables T2 s1) with (set_mm_tables T2 s1). exists (<[b.1 := g]> G1).
  pose proof Hfr as (Hnz & Hnew & _).
  assert (mm_tables s1 !! b.1 = None) as HT by (apply eq_None_not_Some; rewrite (wf_dom _ _ Hwf1), Hnew; apply is_Some_None).
  assert (forall q i, next_at T2 q i = next_at (mm_tables s1) q i /\ entry_at T2 q i = entry_at (mm_tables s1) q i) as Hat
    by (intros; split; [by apply next_at_new|by apply entry_at_new]).
  destruct (at_None (mm_tables s1) b.1 0 HT) as [_ _].
  assert (grown_but (fun _ => False) G (<[b.1 := g]> G1) s (set_mm_tables T2 s1)) as Hbut.
  { split.
    - split; [etransitivity; [apply Hgr|by apply insert_subseteq]|]. intros q i g' Hg' Hn. cbn [mm_tables set_mm_tables].
      rewrite (proj1 (Hat q i)). by eapply grows_next.
    - intros r a Hr Hh _. cbn [mm_tables set_mm_tables]. unfold T2. rewrite insert_table_pte by done. by apply (pte_at_grows heap_pages G G1). }
  assert (forall r a, R r -> user a -> path r (set_mm_tables T2 s1) a = path r s a /\ pte_at T2 r a = pte_at (mm_tables s) r a) as Hkept.
  { intros r a Hr Hu. unfold T2. rewrite insert_table_pte by done. cbn [mm_tables set_mm_tables].
    rewrite (path_tables_nexts (mm_tables s1)) by (intros; by apply Hat).
    apply (user_path_kept refillPool G s s1 []); [done| |by apply Hroot|done|intros q _ Hq; by apply elem_of_nil in Hq].
    intros q i g' Hg' Hnh _. by apply (Hsame q i g'). }
  assert (pages_kept R s (set_mm_tables T2 s1)) as Hpk by (intros r a Hr Hu; by apply Hkept).
  split.
  - eapply (spaces_kept R (S n) n room table_cost G); try done; [apply Hbut|by apply insert_table_wf| |].
    + apply Hal1; [done| |intros i; rewrite (proj1 (Hat b.1 i)); by apply at_None|by apply insert_table_wf]. intros q i g' _ _. by split; apply Hat.
    + intros r a Hr Hu. by apply Hkept.
  - split; try done.
    + destruct (G !! b.1) as [g'|] eqn:E; [|done]. pose proof (lookup_weaken _ _ _ _ E (grows_sub _ _ _ _ _ Hgr)). congruence.
    + apply lookup_insert_eq.
    + intros i. cbn [mm_tables set_mm_tables]. rewrite (proj1 (Hat b.1 i)), (proj2 (Hat b.1 i)). by apply at_None.
    + intros q i. cbn [mm_tables set_mm_tables]. rewrite (proj1 (Hat q i)). by eapply fresh_unreached.
    + intros r i (g' & Hg' & Hl' & Hp') Hi. cbn [mm_tables set_mm_tables]. rewrite (proj1 (Hat r i)).
      apply (Hsame r i g' Hg'). by apply root_slot.
    + intros q i. cbn [mm_tables set_mm_tables]. rewrite (proj1 (Hat q i)). intros Ho. by apply (grows_old _ _ _ _ _ Hgr).
Qed.

(** ** A table that nobody reaches may change *)

Lemma unreached_paths s T' F levels rev p a :
  unreached s F -> same_but F (mm_tables s) T' -> ~ F p ->
  path_tables T' levels rev p a = path_tables (mm_tables s) levels rev p a /\
  walk T' levels rev p a = walk (mm_tables s) levels rev p a /\
  forall q, q ∈ path_tables (mm_tables s) levels rev p a -> ~ F q.
Proof.
  intros [_ HF] Hsame. revert levels p. induction rev as [|rev IH]; intros levels p Hp; cbn [path_tables walk].
  { split_and!; [done|done|]. by intros q ->%list_elem_of_singleton. }
  rewrite (proj2 (Hsame p _ Hp)). destruct (_ =? 0); [split_and!; [done|done|]; by intros q ->%list_elem_of_singleton|].
  destruct (IH (pred levels) (next_at (mm_tables s) p (indexFromAddress levels a)) (HF _ _ Hp)) as (-> & -> & Hq).
  split_and!; [done|done|]. intros q [->|H1]%elem_of_cons; [done|by apply Hq].
Qed.

Lemma unreached_pte s T' F r a :
  unreached s F -> same_but F (mm_tables s) T' -> ~ F r -> pte_at T' r a = pte_at (mm_tables s) r a.
Proof.
  intros HF Hsame Hr. unfold pte_at. destruct (unreached_paths s T' F LevelCount 3 r a HF Hsame Hr) as (_ & -> & Hq).
  destruct (walk (mm_tables s) LevelCount 3 r a) as [[q i]|] eqn:Hw; [|done]. apply Hsame, Hq. by eapply walk_path_tables.
Qed.

Lemma spaces_unreached n room G s T' F :
  spaces R n room G s -> unreached s F -> (forall r, R r -> ~ F r) -> same_but F (mm_tables s) T' -> tables_wf G T' ->
  spaces R n room G (set_mm_tables T' s).
Proof.
  intros [Hwf Hroot Hap Hrdy Hmem Hroom Hal Hus Hinj Hker] HF HR Hsame Hwf'. split; cbn [mm_tables mm_memory set_mm_tables]; try done.
  - intros r r' a a' q Hr Hr' Hne Hu Hu'. destruct (unreached_paths s T' F LevelCount 3 r a HF Hsame (HR r Hr)) as [-> _].
    destruct (unreached_paths s T' F LevelCount 3 r' a' HF Hsame (HR r' Hr')) as [-> _]. by apply Hap.
  - by eapply alloc_ready_unreached.
  - intros r a Hr Hu. rewrite (unreached_pte s T' F r a) by auto. by apply Hus.
  - intros r r' a a' Hr Hr' Hu Hu'. rewrite !(unreached_pte s T' F) by auto. by apply Hinj.
  - intros r m Hr Hh. rewrite (proj2 (Hsame r 511 (HR r Hr))). by eapply Hker.
Qed.

Lemma spaces_directory n room G s this d :
  spaces R n room G s -> this <> g_kernelDirectory s ->
  spaces R n room G (set_mm_directories (<[this := d]> (mm_directories s)) s).
Proof.
  intros [Hwf Hroot Hap Hrdy Hmem Hroom Hal Hus Hinj Hker] Hne. split; try done. by apply alloc_ready_directory.
Qed.

(** A directory without pages of its own in the lower half joins the others. *)
Lemma spaces_join n room G s r2 :
  spaces R n room G s -> is_root G r2 -> (forall i, 0 <= i < 256 -> next_at (mm_tables s) r2 i = 0) ->
  next_at (mm_tables s) r2 511 <> 0 -> (forall r a, R r -> user a -> r2 ∉ path r s a) ->
  spaces (fun x => R x \/ x = r2) n room G s /\ forall a, user a -> pte_at (mm_tables s) r2 a = zero_pte.
Proof.
  intros [Hwf Hroot Hap Hrdy Hmem Hroom Hal Hus Hinj Hker] Hr2 Hlow Hhigh Hout.
  assert (forall a, user a -> next_at (mm_tables s) r2 (indexFromAddress LevelCount a) = 0) as Hz.
  { intros a Hu. apply Hlow. pose proof (indexFromAddress_range 3 a). change (S 3) with LevelCount in *. split; [lia|].
    pose proof (prefix_step 3 a ltac:(unfold LevelCount; lia)) as E. rewrite (prefix_top a : prefix_of 4 a = 0), (user_prefix 3 a) in E by (done || lia).
    destruct Hu. change (12 + 9 * Z.of_nat 3) with 39 in E. change (S 3) with LevelCount in E. Z.to_euclidean_division_equations; lia. }
  assert (forall a, user a -> path r2 s a = [r2] /\ pte_at (mm_tables s) r2 a = zero_pte) as Hempty.
  { intros a Hu. unfold pte_at. cbn [path_tables walk]. rewrite (Hz a Hu). done. }
  split; [|intros a Hu; by apply Hempty]. split; try done.
  - by intros r [?| ->]; [apply Hroot|].
  - intros r r' a a' q [Hr| ->] [Hr'| ->] Hne Hu Hu'; [by apply Hap| | |done].
    + rewrite (proj1 (Hempty a' Hu')). intros Hq ->%list_elem_of_singleton. by apply (Hout r a).
    + rewrite (proj1 (Hempty a Hu)). intros ->%list_elem_of_singleton. by apply Hout.
  - intros r a [Hr| ->] Hu; [by apply Hus|]. by rewrite (proj2 (Hempty a Hu)).
  - intros r r' a a' [Hr| ->] [Hr'| ->] Hu Hu'; [by apply Hinj|rewrite (proj2 (Hempty a' Hu'))|rewrite (proj2 (Hempty a Hu))|rewrite (proj2 (Hempty a Hu))]; done.
  - intros r m [Hr| ->] Hm; [by eapply Hker|done].
Qed.

(** ** [createPm] *)
Lemma base_of_table phys : in_word 52 phys -> phys mod 4096 = 0 -> Z.shiftl (wrap 40 (Z.shiftr phys BASE_SHIFT)) 12 = phys.
Proof.
  intros Hw Hm. unfold in_word in Hw. rewrite Z.shiftr_div_pow2, Z.shiftl_mul_pow2 by done. change (2 ^ BASE_SHIFT) with 4096. change (2 ^ 12) with 4096.
  rewrite wrap_small; [|unfold in_word]; Z.to_euclidean_division_equations; lia.
Qed.

Lemma createPm_run n room G s this rk :
  spaces R (S n) (room + table_cost) G s -> 0 <= room -> this <> g_kernelDirectory s -> mm_directories s !! this = Some new_PageDirectory ->
  directory_ok G s (g_kernelDirectory s) rk ->
  Runs (createPm this) s (fun _ s' => exists G' b s1,
    s' = set_mm_directories (<[this := mkPageDirectory b.2 b.1]> (mm_directories s1)) s1 /\
    new_table LevelCount 0 b G G' s s1 /\ spaces R n room G' s' /\
    directory_ok G' s' this b.1 /\ directory_ok G' s' (g_kernelDirectory s') rk).
Proof.
  intros Hsp H0 Hne Hd [_ (gk & Hgk & Hlk) Hko]. unfold createPm. pose proof Hko as (gk' & _ & Hkd). apply Runs_bind.
  eapply Runs_mono; [apply (new_table_run LevelCount 0 n room G s Hsp H0); unfold LevelCount; lia|].
  intros b s1 (G' & Hsp1 & Hnt). pose proof (nt_rest _ _ _ _ _ _ _ Hnt) as Hrest. injection Hrest as Ed Ek _ _ _.
  apply Runs_bind. eapply directory_run; [by rewrite Ed|]. apply Runs_bind, set_directory_run.
  apply Runs_bind, Runs_ret, set_directory_run. cbn [mm_directories set_mm_directories].
  assert (Z.shiftl (wrap 40 (Z.shiftr b.2 BASE_SHIFT)) 12 = b.2) as ->
    by (destruct (wf_phys _ _ (sp_wf _ _ _ _ _ Hsp1) _ _ (nt_info _ _ _ _ _ _ _ Hnt)) as [Hw Hm]; by apply base_of_table).
  rewrite insert_insert_eq. exists G', b, s1. split; [done|]. split; [exact Hnt|]. split; [|split].
  - exact (spaces_directory n room G' s1 this _ Hsp1 ltac:(congruence)).
  - split; [apply Hsp1|eexists; split; [apply (nt_info _ _ _ _ _ _ _ Hnt)|done]|].
    eexists. split; [apply (nt_info _ _ _ _ _ _ _ Hnt)|]. cbn. apply lookup_insert_eq.
  - split; [apply Hsp1|exists gk; split; [eapply lookup_weaken; [exact Hgk|apply (nt_grown _ _ _ _ _ _ _ Hnt)]|done]|].
    cbn [g_kernelDirectory set_mm_directories]. rewrite Ek.
    eapply directory_of_grown; [apply (nt_grown _ _ _ _ _ _ _ Hnt)| |exact Hko]. cbn. rewrite Ed, lookup_insert_ne by congruence. done.
Qed.

(** A new first-level table gets a table, with [create_next]. *)
Lemma create_next_new init T p i s Q :
  pte_p (entry_at T p i) = false ->
  Runs makeNew s (fun b s' =>
    let T' := mm_tables s' in
    let e := init (set_base (Z.shiftr b.2 BASE_SHIFT) (set_p true (entry_at T' p i))) in
    Q b.1 (set_mm_tables (store_entry p i e (store_next p i b.1 T')) s')) ->
  Runs (create_next init T p i) s Q.
Proof.
  intros Hp Hnew. apply Runs_ok in Hnew as (b & s' & Heq & HQ). unfold makeNew in Heq.
  apply bind_ok in Heq as (b' & s1 & Hk & Heq). apply bind_ok in Heq as ([] & s2 & Hu & Heq). injection Heq as -> <-.
  unfold create_next. apply Runs_bind, Runs_assertion; [by rewrite Hp|].
  apply Runs_bind. eapply Runs_of_ok; [exact Hk|]. apply Runs_bind. eapply Runs_of_ok; [exact Hu|].
  apply Runs_bind, Runs_modify, Runs_bind, Runs_modify, Runs_ret.
  cbn beta zeta in HQ |- *. rewrite <- (entry_at_store_next (mm_tables s2) p i b.1) in HQ. exact HQ.
Qed.
End new_directory.

(** ** Sharing the highest gigabyte *)
Lemma VBase_indices a : prefix_of 2 a = 2 ^ 18 - 1 -> indexFromAddress 4 a = 511 /\ indexFromAddress 3 a = 511.
Proof.
  intros Ha.
  pose proof (prefix_step 2 a ltac:(unfold LevelCount; lia)) as E2. pose proof (indexFromAddress_range 2 a) as R2.
  pose proof (prefix_step 3 a ltac:(unfold LevelCount; lia)) as E3. pose proof (indexFromAddress_range 3 a) as R3.
  pose proof (prefix_top a) as E4. unfold LevelCount in E4. lia.
Qed.

(** Two directories with the same tables for it *)
Definition same_gigabyte (T : Tables) (r r' : Z) : Prop :=
  next_at T r 511 <> 0 /\ next_at T r' 511 <> 0 /\ next_at T (next_at T r 511) 511 = next_at T (next_at T r' 511) 511.

Lemma same_gigabyte_pages T r r' a :
  same_gigabyte T r r' -> prefix_of 2 a = 2 ^ 18 - 1 -> pte_at T r a = pte_at T r' a.
Proof.
  intros (H1 & H2 & H3) Ha. destruct (VBase_indices a Ha) as [I4 I3].
  unfold pte_at, LevelCount. cbn [walk pred]. rewrite I4, I3, (proj2 (Z.eqb_neq _ _) H1), (proj2 (Z.eqb_neq _ _) H2).
  cbn [walk pred]. by rewrite H3.
Qed.

(** Tables that are there stay. *)
Lemma same_gigabyte_kept G G' s s' r r' :
  tables_wf G (mm_tables s) -> is_root G r -> is_root G r' -> same_gigabyte (mm_tables s) r r' ->
  next_at (mm_tables s) (next_at (mm_tables s) r' 511) 511 <> 0 -> grown G G' s s' -> same_gigabyte (mm_tables s') r r'.
Proof.
  intros Hwf (g & Hg & _) (g' & Hg' & _) (H1 & H2 & H3) H4 [_ Hn].
  destruct (wf_child _ _ Hwf r 511 g Hg H1) as (_ & c & Hc & _). destruct (wf_child _ _ Hwf r' 511 g' Hg' H2) as (_ & c' & Hc' & _).
  unfold same_gigabyte. rewrite (Hn r 511 g Hg H1), (Hn r' 511 g' Hg' H2), (Hn _ 511 c' Hc' H4), (Hn _ 511 c Hc) by congruence. done.
Qed.

Section sharing.
Context (G : ghost) (T : Tables) (r2 t3 rk phys2 phys3 : Z) (e1 : PageTableEntry).
Context (Hwf : tables_wf G T) (Hr2 : G !! r2 = Some (mkInfo LevelCount 0 phys2)) (Ht3 : G !! t3 = Some (mkInfo 3 511 phys3)).
Context (Hkernel : is_root G rk) (Hq0 : next_at T rk 511 <> 0).
Context (Hrk2 : rk <> r2) (Hrk3 : rk <> t3) (Hq2 : next_at T rk 511 <> r2) (Hq3 : next_at T rk 511 <> t3).
Context (He1 : pte_p e1 = true /\ pte_base e1 = Z.shiftr phys3 BASE_SHIFT /\ pte_wf e1).

(** The table of the kernel *)
Let q := next_at T rk 511.
(** After [create_next], the copy of the slot and the setting of [us] *)
Let Ta := store_entry r2 511 e1 (store_next r2 511 t3 T).
Let Te := store_entry t3 511 (entry_at Ta q 511) Ta.
Let Tb := store_next t3 511 (next_at Te q 511) Te.
Definition shared : Tables := store_entry r2 511 (set_us true (entry_at Tb r2 511)) Tb.

Definition new_tables (p : Z) : Prop := p = r2 \/ p = t3.

Lemma shared_kernel_table : exists g, G !! q = Some g /\ t_levels g = 3%nat /\ t_prefix g = 511.
Proof.
  destruct Hkernel as (g & Hg & Hl & Hp). destruct (wf_child _ _ Hwf rk 511 g Hg Hq0) as (_ & g' & Hg' & Hl' & Hp' & _).
  exists g'. split_and!; [done|rewrite Hl in Hl'; unfold LevelCount in Hl'; lia|by rewrite Hp', Hp].
Qed.

Lemma shared_updates :
  slot_update T Ta r2 511 e1 t3 /\ slot_update Ta Tb t3 511 (entry_at T q 511) (next_at T q 511) /\
  slot_update Tb shared r2 511 (set_us true e1) t3.
Proof.
  assert (r2 <> t3) as Hne by (intros E; rewrite E, Ht3 in Hr2; unfold LevelCount in Hr2; injection Hr2; lia).
  assert (is_Some (T !! r2)) as Hs2 by (apply (wf_dom _ _ Hwf); by eexists).
  assert (is_Some (T !! t3)) as Hs3 by (apply (wf_dom _ _ Hwf); by eexists).
  pose proof (store_slot_update T r2 511 e1 t3 Hs2) as [Hda Hua].
  pose proof (proj2 (Hda t3) Hs3) as Hsa3. pose proof (store_slot_update' Ta t3 511 (entry_at Ta q 511) (next_at Te q 511) Hsa3) as Hub.
  pose proof (Hua q 511) as [E1 E2]. rewrite bool_decide_false in E1, E2 by (intros [E _]; by apply Hq2).
  assert (next_at Te q 511 = next_at T q 511) as E3 by (unfold Te; by rewrite next_at_store_entry).
  split; [by apply store_slot_update|]. split.
  - change Tb with (store_next t3 511 (next_at Te q 511) (store_entry t3 511 (entry_at Ta q 511) Ta)).
    rewrite E3 in *. change (entry_at Ta q 511 = entry_at T q 511) in E1. rewrite E1 in *. exact Hub.
  - destruct Hub as [Hdb Hub]. pose proof (Hub r2 511) as [E4 E5]. rewrite bool_decide_false in E4, E5 by (intros [E _]; done).
    pose proof (Hua r2 511) as [E6 E7]. rewrite bool_decide_true in E6, E7 by done.
    assert (entry_at Tb r2 511 = e1) as E8 by (etransitivity; [exact E4|exact E6]).
    assert (next_at Tb r2 511 = t3) as E9 by (etransitivity; [exact E5|exact E7]).
    unfold shared. rewrite E8, <- E9 at 1. apply store_entry_update. apply (proj2 (Hdb r2)). by apply (proj2 (Hda r2)).
Qed.

Lemma shared_wf : tables_wf G shared.
Proof.
  destruct shared_updates as (Ha & Hb & Hc). destruct shared_kernel_table as (g & Hg & Hgl & Hgp).
  assert (t3 <> 0) as Hn3 by (intros E; pose proof (wf_null _ _ Hwf); congruence).
  destruct He1 as (Hp & Hbase & Hpte).
  assert (forall e, pte_p e = true -> pte_base e = Z.shiftr phys3 BASE_SHIFT -> pte_wf e ->
            slot_ok G 511 (mkInfo LevelCount 0 phys2) e t3) as Hok.
  { intros e H1 H2 H3. split; [done|]. split; [done|]. intros _. by eexists. }
  assert (tables_wf G Ta) as Hwfa by (eapply (slot_update_wf _ _ _ r2 511); [exact Hwf|exact Hr2|unfold LevelCount; cbn; lia|lia|exact Ha|by apply Hok]).
  assert (tables_wf G Tb) as Hwfb.
  { eapply (slot_update_wf _ _ _ t3 511); [exact Hwfa|exact Ht3|unfold LevelCount; cbn; lia|lia|exact Hb|]. split; [|split; [apply Hwf|]].
    - apply (wf_coherent _ _ Hwf q 511 g Hg). lia.
    - intros Hn. destruct (wf_child _ _ Hwf q 511 g Hg Hn) as (_ & g' & Hg' & Hl' & Hp' & Hb'). exists g'.
      cbn [t_levels t_prefix]. rewrite Hgp in Hp'. rewrite Hgl in Hl'. done. }
  eapply (slot_update_wf _ _ _ r2 511); [exact Hwfb|exact Hr2|unfold LevelCount; cbn; lia|lia|exact Hc|]. by apply Hok.
Qed.

Lemma shared_same : same_but new_tables T shared.
Proof.
  destruct shared_updates as (Ha & Hb & Hc). intros p i Hp.
  destruct (slot_update_same _ _ _ _ _ _ new_tables Hc (or_introl eq_refl) p i Hp) as [-> ->].
  destruct (slot_update_same _ _ _ _ _ _ new_tables Hb (or_intror eq_refl) p i Hp) as [-> ->].
  by apply (slot_update_same _ _ _ _ _ _ new_tables Ha (or_introl eq_refl)).
Qed.

Lemma shared_root : next_at shared r2 511 = t3 /\ forall i, i <> 511 -> next_at shared r2 i = next_at T r2 i.
Proof.
  destruct shared_updates as ([_ Ha] & [_ Hb] & [_ Hc]).
  assert (r2 <> t3) as Hne by (intros E; rewrite E, Ht3 in Hr2; unfold LevelCount in Hr2; injection Hr2; lia).
  split; [rewrite (proj2 (Hc r2 511)); by rewrite bool_decide_true|]. intros i Hi.
  rewrite (proj2 (Hc r2 i)), (proj2 (Hb r2 i)), (proj2 (Ha r2 i)). clearbody Tb Ta q.
  rewrite (bool_decide_false (t3 = r2 /\ 511 = i)) by (intros [E _]; congruence).
  by rewrite (bool_decide_false (r2 = r2 /\ 511 = i)) by (intros [_ E]; congruence).
Qed.

(** In that gigabyte the new directory has the tables of the kernel's, and so its pages. *)
Lemma shared_gigabyte : same_gigabyte shared r2 rk.
Proof.
  destruct shared_updates as (_ & [_ Hb] & [_ Hc]).
  assert (r2 <> t3) as Hne by (intros E; rewrite E, Ht3 in Hr2; unfold LevelCount in Hr2; injection Hr2; lia).
  assert (t3 <> 0) as Hn3 by (intros E; pose proof (wf_null _ _ Hwf); congruence).
  assert (next_at shared r2 511 = t3) as N1 by apply shared_root.
  assert (next_at shared rk 511 = q) as N2 by (apply shared_same; by intros [E|E]; [apply Hrk2|apply Hrk3]).
  assert (next_at shared q 511 = next_at T q 511) as N3 by (apply shared_same; by intros [E|E]; [apply Hq2|apply Hq3]).
  assert (next_at shared t3 511 = next_at T q 511) as N4.
  { rewrite (proj2 (Hc t3 511)). rewrite bool_decide_false by (intros [??]; congruence). rewrite (proj2 (Hb t3 511)). by rewrite bool_decide_true. }
  unfold same_gigabyte. by rewrite N1, N2, N3, N4.
Qed.

(** Above the lower half and below that gigabyte it has no pages. *)
Lemma shared_private a :
  (forall i, next_at T t3 i = 0) -> prefix_of 3 a = 511 -> prefix_of 2 a <> 2 ^ 18 - 1 -> pte_at shared r2 a = zero_pte.
Proof.
  intros Hz Ha3 Ha2. destruct shared_updates as ([_ Hua] & [_ Hb] & [_ Hc]).
  assert (r2 <> t3) as Hne by (intros E; rewrite E, Ht3 in Hr2; unfold LevelCount in Hr2; injection Hr2; lia).
  assert (t3 <> 0) as Hn3 by (intros E; pose proof (wf_null _ _ Hwf); congruence).
  pose proof (prefix_step 2 a ltac:(unfold LevelCount; lia)) as E2. pose proof (indexFromAddress_range 2 a) as R2.
  pose proof (prefix_step 3 a ltac:(unfold LevelCount; lia)) as E3. pose proof (prefix_top a) as E4. unfold LevelCount in E4.
  assert (indexFromAddress 4 a = 511) as I4 by lia. assert (indexFromAddress 3 a <> 511) as I3 by lia.
  assert (next_at shared r2 511 = t3) as N1 by apply shared_root.
  assert (next_at shared t3 (indexFromAddress 3 a) = 0) as N2.
  { rewrite (proj2 (Hc t3 _)). rewrite bool_decide_false by (intros [??]; congruence).
    rewrite (proj2 (Hb t3 _)). rewrite bool_decide_false by (intros [? E]; by apply I3).
    rewrite (proj2 (Hua t3 _)). rewrite bool_decide_false by (intros [??]; congruence). apply Hz. }
  unfold pte_at, LevelCount. cbn [walk pred]. rewrite I4, N1, (proj2 (Z.eqb_neq _ _) Hn3). cbn [walk pred]. by rewrite N2.
Qed.
End sharing.

(** ** [mapKernel] *)
Section map_kernel.
Context `{!Symbols} `{!TableAllocator MM, !TableAllocatorLaws MM mm_rest} (refillPool : ST MM unit) `{!MemoryLaws refillPool}.
Context (R : Z -> Prop).
Implicit Types (s : MM) (G : ghost).

(** The object [this] has the new tables [r2]: none in the lower half, and those of the kernel in the highest gigabyte. *)
Record new_directory (n : nat) (room : Z) (G G' : ghost) (s s' : MM) (this rk r2 : Z) : Prop := {
  nd_spaces : spaces (fun x => R x \/ x = r2) n room G' s';
  nd_directory : directory_ok G' s' this r2;
  nd_fresh : G !! r2 = None;
  nd_grown : grown_but (fun _ => False) G G' s s';
  nd_kept : pages_kept R s s';
  nd_empty a : user a -> pte_at (mm_tables s') r2 a = zero_pte;
  nd_kernel a : prefix_of 2 a = 2 ^ 18 - 1 -> pte_at (mm_tables s') r2 a = pte_at (mm_tables s') rk a;
  nd_rest : exists cr3, mm_rest s' = (<[this := mkPageDirectory cr3 r2]> (mm_directories s), g_kernelDirectory s,
    g_currentPageDirectory s, g_pagingReady s, cpu_cr3 s);
  nd_memory : mem_le (2 * table_cost) (mm_memory s) (mm_memory s');
  nd_shared : same_gigabyte (mm_tables s') r2 rk;
  nd_private a : prefix_of 3 a = 511 -> prefix_of 2 a <> 2 ^ 18 - 1 -> pte_at (mm_tables s') r2 a = zero_pte;
}.

(** The two new tables, before they are linked *)
Record unlinked (G G3 : ghost) (s s3 : MM) (rk : Z) (b b' : Z * Z) : Prop := {
  ul_grown : grown_but (fun _ => False) G G3 s s3;
  ul_info : G3 !! b.1 = Some (mkInfo LevelCount 0 b.2) /\ G3 !! b'.1 = Some (mkInfo 3 511 b'.2);
  ul_old x g : G !! x = Some g -> ~ new_tables b.1 b'.1 x;
  ul_unreached : unreached s3 (new_tables b.1 b'.1);
  ul_low i : 0 <= i < 511 -> next_at (mm_tables s3) b.1 i = 0;
  ul_kernel : is_root G3 rk /\ next_at (mm_tables s3) rk 511 <> 0 /\ ~ new_tables b.1 b'.1 (next_at (mm_tables s3) rk 511);
}.

Lemma unlinked_ok G G1 G3 s s1 s3 this rk b b' d :
  let s2 := set_mm_directories (<[this := d]> (mm_directories s1)) s1 in
  new_table refillPool R LevelCount 0 b G G1 s s1 -> new_table refillPool R 3 511 b' G1 G3 s2 s3 ->
  directory_ok G s (g_kernelDirectory s) rk -> next_at (mm_tables s) rk 511 <> 0 -> this <> g_kernelDirectory s ->
  unlinked G G3 s s3 rk b b'.
Proof.
  intros s2 Hn1 Hn2 [_ Hrk (gk & _ & Hkd)] Hk0 Hne.
  destruct Hn1 as [Hg1 Hrest1 _ _ Hf1 Hi1 _ He1' Hun1 _ _]. destruct Hn2 as [Hg2 Hrest2 _ _ Hf2 Hi2 _ _ Hun2 Hlow2 Hold2].
  assert (grown_but (fun _ => False) G G3 s s3) as Hg by (eapply grown_but_trans; [exact Hg1|exact Hg2]).
  assert (G !! b'.1 = None) as Hf3.
  { destruct (G !! b'.1) eqn:E; [|done]. pose proof (lookup_weaken _ _ _ _ E (proj1 (proj1 Hg1))). congruence. }
  assert (forall x g, G !! x = Some g -> ~ new_tables b.1 b'.1 x) as Hold by (intros x g Hx [E|E]; congruence).
  assert (forall q i, ~ new_tables b.1 b'.1 (next_at (mm_tables s3) q i)) as Hnr.
  { intros q i [E|E]; [|by apply (Hun2 q i)]. apply (Hun1 q i). etransitivity; [|exact E]. apply (Hold2 q i). rewrite E. by eexists. }
  split; [exact Hg|split; [|exact Hi2]|exact Hold| | |].
  - eapply lookup_weaken; [exact Hi1|apply Hg2].
  - split; [|intros q i _; apply Hnr].
    intros d' Hd. injection Hrest2 as Ed Ek _ _ _. injection Hrest1 as Ed1 Ek1 _ _ _. rewrite Ek, Ek1, Ed in Hd.
    cbn [mm_directories set_mm_directories] in Hd. rewrite Ed1, lookup_insert_ne, Hkd in Hd by done. injection Hd as <-.
    destruct Hrk as (g & Hrk & _). cbn. by eapply Hold.
  - intros i Hi. rewrite Hlow2 by (lia || (eexists; split; [exact Hi1|done])). apply He1'.
  - destruct Hrk as (g & Hrk & Hl). split; [|split; [|apply Hnr]].
    + exists g. split; [eapply lookup_weaken; [exact Hrk|apply Hg]|done].
    + by rewrite (proj2 (proj1 Hg) rk 511 g Hrk Hk0).
Qed.

(** What linking them does *)
Lemma shared_directory n room G G1 G3 s s1 s3 this rk b b' d e1 :
  let s2 := set_mm_directories (<[this := d]> (mm_directories s1)) s1 in
  let r2 := b.1 in
  let s4 := set_mm_tables (shared (mm_tables s3) r2 b'.1 rk e1) s3 in
  spaces R n room G3 s3 -> new_table refillPool R LevelCount 0 b G G1 s s1 -> new_table refillPool R 3 511 b' G1 G3 s2 s3 ->
  directory_ok G s (g_kernelDirectory s) rk -> next_at (mm_tables s) rk 511 <> 0 -> this <> g_kernelDirectory s ->
  d = mkPageDirectory b.2 r2 -> (forall r, R r -> is_root G r) ->
  pte_p e1 = true /\ pte_base e1 = Z.shiftr b'.2 BASE_SHIFT /\ pte_wf e1 ->
  new_directory n room G G3 s s4 this rk r2.
Proof.
  intros s2 r2 s4 Hsp Hn1 Hn2 Hdk Hk0 Hne -> HR He1. pose proof (sp_wf _ _ _ _ _ Hsp) as Hwf.
  destruct (unlinked_ok G G1 G3 s s1 s3 this rk b b' _ Hn1 Hn2 Hdk Hk0 Hne) as [Hg [Hi3 Hi2] Hold HF Hlow2 (Hrk3 & Hk3 & Hx)].
  destruct Hn1 as [_ Hrest1 Hm1 Hkp1 Hf1 _ _ _ _ _ _]. destruct Hn2 as [_ Hrest2 Hm2 Hkp2 _ _ Hz2 Hz3 _ _ _].
  assert (~ new_tables r2 b'.1 rk) as Hxk by (destruct (dir_root _ _ _ _ Hdk) as (g & Hrk & _); by eapply Hold).
  assert (rk <> r2) as Hx2 by (intros E; apply Hxk; by left). assert (rk <> b'.1) as Hx3 by (intros E; apply Hxk; by right).
  assert (next_at (mm_tables s3) rk 511 <> r2) as Hx4 by (intros E; apply Hx; by left).
  assert (next_at (mm_tables s3) rk 511 <> b'.1) as Hx5 by (intros E; apply Hx; by right).
  pose proof (shared_wf G3 (mm_tables s3) r2 b'.1 rk b.2 b'.2 e1 Hwf Hi3 Hi2 Hrk3 Hk3 Hx2 Hx3 Hx4 Hx5 He1) as Hwf4.
  assert (same_but (new_tables r2 b'.1) (mm_tables s3) (mm_tables s4)) as Hsame by by eapply shared_same.
  assert (next_at (mm_tables s4) r2 511 = b'.1 /\ forall i, i <> 511 -> next_at (mm_tables s4) r2 i = next_at (mm_tables s3) r2 i)
    as [Hrt Hlow] by by eapply shared_root.
  assert (same_gigabyte (mm_tables s4) r2 rk) as Hgiga by (eapply (shared_gigabyte G3 (mm_tables s3) r2); eassumption).
  assert (forall r, is_root G r -> ~ new_tables r2 b'.1 r) as Hnr by (intros r (g & Hgr & _); by eapply Hold).
  assert (is_root G3 r2) as Hroot2 by (eexists; split; [exact Hi3|done]).
  assert (forall r a, is_root G r -> pte_at (mm_tables s4) r a = pte_at (mm_tables s3) r a) as Hpte.
  { intros r a Hr. eapply unreached_pte; [exact HF|exact Hsame|by apply Hnr]. }
  destruct (spaces_join R n room G3 s4 r2) as [Hsp4 Hempty].
  - eapply (spaces_unreached refillPool); [exact Hsp|exact HF|intros r Hr; by apply Hnr, HR|exact Hsame|exact Hwf4].
  - done.
  - intros i Hi. rewrite Hlow, Hlow2 by lia. done.
  - by rewrite Hrt.
  - intros r a Hr Hu Hq. destruct (unreached_paths s3 (mm_tables s4) _ LevelCount 3 r a HF Hsame (Hnr r (HR r Hr))) as (E & _ & Hout).
    rewrite E in Hq. apply (Hout r2 Hq). by left.
  - split; [exact Hsp4| |done| | |exact Hempty| | | | |].
    + split; [exact Hwf4|exact Hroot2|]. exists (mkInfo LevelCount 0 b.2). split; [exact Hi3|]. injection Hrest2 as Ed _ _ _ _. cbn [mm_directories set_mm_tables s4].
      rewrite Ed. cbn. by rewrite lookup_insert_eq.
    + split; [split; [apply Hg|]|].
      * intros p i g Hp Hn. rewrite <- (proj2 (proj1 Hg) p i g Hp Hn). apply Hsame. by eapply Hold.
      * intros r a Hr Hh _. rewrite Hpte by done. apply (proj2 Hg); tauto.
    + intros r a Hr Hu. rewrite Hpte by auto. rewrite Hkp2 by done. by apply Hkp1.
    + intros a Ha. by apply same_gigabyte_pages.
    + exists b.2. injection Hrest2 as Ed Ek Ec Er E3. injection Hrest1 as Ed1 Ek1 Ec1 Er1 E31. unfold mm_rest. cbn.
      rewrite Ed, Ek, Ec, Er, E3. cbn. by rewrite Ed1, Ek1, Ec1, Er1, E31.
    + eapply mem_le_mono; [|eapply mem_le_trans; [exact Hm1|exact Hm2]]. lia.
    + exact Hgiga.
    + intros a Ha3 Ha2. apply (shared_private G3 (mm_tables s3) r2 b'.1 rk b.2 b'.2 e1); try assumption. intros i. apply Hz3.
Qed.

(** The table that [mapTo] creates, in a first-level table that has none *)
Lemma getEntry_init_new init levels r a s Q :
  is_Some (mm_tables s !! r) -> entry_at (mm_tables s) r (indexFromAddress levels a) = zero_pte ->
  next_at (mm_tables s) r (indexFromAddress levels a) = 0 ->
  Runs makeNew s (fun b s' =>
    let e := init (set_base (Z.shiftr b.2 BASE_SHIFT) (set_p true (entry_at (mm_tables s') r (indexFromAddress levels a)))) in
    Q (b.1, indexFromAddress (pred levels) a)
      (set_mm_tables (store_entry r (indexFromAddress levels a) e (store_next r (indexFromAddress levels a) b.1 (mm_tables s'))) s')) ->
  Runs (getEntryImpl_init init levels 1 r a) s Q.
Proof.
  intros Hr He Hn Hnew. cbn [getEntryImpl_init]. apply Runs_bind, Runs_deref; [done|].
  change (get_tables s) with (mm_tables s). rewrite Hn. change (0 =? 0) with true. cbn [negb]. apply Runs_bind.
  apply create_next_new; [by rewrite He|]. eapply Runs_mono; [exact Hnew|]. intros b s' HQ. apply Runs_ret. exact HQ.
Qed.

Lemma mapKernel_run n room G s this rk :
  spaces R (2 + n) (room + 2 * table_cost) G s -> 0 <= room -> mm_directories s !! this = Some new_PageDirectory -> this <> g_kernelDirectory s ->
  directory_ok G s (g_kernelDirectory s) rk -> next_at (mm_tables s) rk 511 <> 0 -> prefix_of 2 getKernelVBase = 2 ^ 18 - 1 ->
  Runs (mapKernel this) s (fun _ s' => exists G' r2, new_directory n room G G' s s' this rk r2).
Proof.
  intros Hsp H0 Hd Hne Hdk Hk0 HV. pose proof table_cost_nonneg as Hcost. pose proof (sp_root _ _ _ _ _ Hsp) as HR. destruct (VBase_indices _ HV) as [I4 I3].
  replace (room + 2 * table_cost) with (room + table_cost + table_cost) in Hsp by lia.
  unfold mapKernel. apply Runs_bind. eapply Runs_mono; [apply (createPm_run refillPool R (1 + n) (room + table_cost) G s this rk); done || lia|].
  intros [] s2' (G1 & b & s1 & -> & Hn1 & Hsp2 & Hdt2 & Hdk2).
  set (s2 := set_mm_directories (<[this := mkPageDirectory b.2 b.1]> (mm_directories s1)) s1) in *.
  assert (next_at (mm_tables s2) rk 511 <> 0) as Hk2.
  { change (mm_tables s2) with (mm_tables s1). destruct (dir_root _ _ _ _ Hdk) as (gk & Hgk & _).
    by rewrite (proj2 (proj1 (nt_grown _ _ _ _ _ _ _ _ _ Hn1)) rk 511 gk Hgk Hk0). }
  destruct (nt_empty _ _ _ _ _ _ _ _ _ Hn1 511) as [He0 Hz0].
  apply Runs_bind, Runs_read, Runs_bind. eapply Runs_of_ok; [by eapply manager_run|].
  apply Runs_bind. eapply Runs_of_ok; [by eapply manager_run|]. apply Runs_bind. unfold mapTo.
  apply Runs_bind. eapply Runs_of_ok.
  { unfold getEntry. eapply (getEntryImpl_run G1); [apply (sp_wf _ _ _ _ _ Hsp2)|by eapply root_on_path, dir_root|unfold LevelCount; lia]. }
  change (LevelCount - 2 - 1)%nat with 1%nat. unfold LevelCount. cbn [walk pred]. rewrite I4, I3.
  change (get_tables s2) with (mm_tables s2). rewrite (proj2 (Z.eqb_neq _ _) Hk2).
  apply Runs_bind. unfold getEntry_init. change (LevelCount - 2 - 1)%nat with 1%nat. change LevelCount with 4%nat.
  apply getEntry_init_new; [apply (wf_dom _ _ (sp_wf _ _ _ _ _ Hsp2)); destruct (dir_root _ _ _ _ Hdt2) as (g & Hg & _); by exists g
    |by rewrite I4|by rewrite I4|].
  rewrite I4. cbn [pred]. rewrite I3.
  eapply Runs_mono; [apply (new_table_run refillPool R 3 511 n room G1 s2 Hsp2 H0); unfold LevelCount; lia|].
  intros b' s3 (G3 & Hsp3 & Hn2). cbn beta zeta.
  set (e1 := AttributeSetter ATTR_RW _).
  apply Runs_bind, Runs_modify, Runs_modify, Runs_bind.
  unfold getEntry. change (LevelCount - 3 - 1)%nat with O. apply Runs_ret.
  change (indexFromAddress LevelCount 0xffffffff00000000) with 511. apply Runs_modify.
  assert (next_at (mm_tables s3) rk 511 = next_at (mm_tables s2) rk 511) as Eq.
  { destruct (dir_root _ _ _ _ Hdk2) as (gk & Hgk & _). by apply (proj2 (proj1 (nt_grown _ _ _ _ _ _ _ _ _ Hn2)) rk 511 gk). }
  exists G3, b.1. change (get_tables s2) with (mm_tables s2). rewrite <- Eq.
  exact (shared_directory n room G G1 G3 s s1 s3 this rk b b' _ e1 Hsp3 Hn1 Hn2 Hdk Hk0 Hne eq_refl HR
    (init_entry_ok _ (AttributeSetter_keeps ATTR_RW eq_refl) _ _ (proj1 (wf_phys _ _ (sp_wf _ _ _ _ _ Hsp3) _ _ (nt_info _ _ _ _ _ _ _ _ _ Hn2)))
      (wf_pte _ _ (sp_wf _ _ _ _ _ Hsp3) _ _))).
Qed.

(** C23. A new directory: nothing in the lower half, the pages of the kernel in the highest gigabyte, and no other directory has
    changed. *)
Theorem mapKernel_spec n room G s this rk :
  spaces R (2 + n) (room + 2 * table_cost) G s -> 0 <= room -> mm_directories s !! this = Some new_PageDirectory -> this <> g_kernelDirectory s ->
  directory_ok G s (g_kernelDirectory s) rk -> next_at (mm_tables s) rk 511 <> 0 -> prefix_of 2 getKernelVBase = 2 ^ 18 - 1 ->
  Runs (mapKernel this) s (fun _ s' => exists G' r2, new_directory n room G G' s s' this rk r2).
Proof. apply mapKernel_run. Qed.
End map_kernel.

(** ** The theorem at work: a kernel with one page in its gigabyte *)
Section examples.
Existing Instances example_symbols pd_allocator pool_laws pool_memory_laws.
Abbreviation example_allocator := (pd_allocator no_mapPage).
Abbreviation example_laws := (pool_laws no_mapPage).
Abbreviation example_refill := (refillPool pdPageHeap (on_kernel no_mapPage) 0).
Abbreviation example_memory := (pool_memory_laws 0).
Abbreviation root := AddressSpace.example_task.

Definition parent_mm : MM :=
  mkMM small_memory example_path.1 (mkPageHeap 32 true (replicate 32 true) (map block_of (seqZ 4 23)))
    {[ example_object := mkPageDirectory (block 0).2 (block 0).1 ]} example_object example_object true 0.

Lemma parent_pool : pool_ready 23 example_ghost parent_mm.
Proof.
  split; [done|done| | |].
  - assert (Forall (fun b => block_ptr b <> 0 /\ example_ghost !! block_ptr b = None /\ in_word 52 b.2 /\ b.2 mod 4096 = 0 /\
      map_Forall (fun _ g => t_phys g <> b.2) example_ghost) (m_pool (mm_pageHeap parent_mm))) as Hall
      by (refine (bool_decide_unpack _ _); by vm_compute).
    intros b Hb. rewrite Forall_forall in Hall. destruct (Hall b Hb) as (? & ? & ? & ? & ?). by apply fresh_table_dec.
  - refine (bool_decide_unpack _ _). by vm_compute.
  - refine (bool_decide_unpack _ _). by vm_compute.
Qed.

Lemma root_next i : next_at example_path.1 root i = if i =? 511 then (block 1).1 else 0.
Proof.
  destruct (Z.eqb_spec i 511) as [->|Hi]; [by vm_compute|]. unfold next_at.
  assert (example_path.1 !! root = Some (mkTable {[ 511 := upper_entry 1 ]} {[ 511 := (block 1).1 ]})) as -> by (vm_compute; reflexivity).
  cbn. by rewrite lookup_singleton_ne by done.
Qed.

Lemma parent_bare a : user a -> path root parent_mm a = [root] /\ pte_at (mm_tables parent_mm) root a = zero_pte.
Proof.
  intros Hu. assert (next_at (mm_tables parent_mm) root (indexFromAddress LevelCount a) = 0) as E.
  { cbn [mm_tables parent_mm]. rewrite root_next. rewrite (proj2 (Z.eqb_neq _ _)); [done|].
    pose proof (prefix_step 3 a ltac:(unfold LevelCount; lia)) as E. rewrite (prefix_top a : prefix_of 4 a = 0), (user_prefix 3 a) in E by (done || lia).
    destruct Hu. change (12 + 9 * Z.of_nat 3) with 39 in E. change (S 3) with LevelCount in E. Z.to_euclidean_division_equations; lia. }
  unfold pte_at. cbn [path_tables walk]. rewrite E. done.
Qed.

Lemma parent_spaces room : 0 <= room < 2 ^ 32 ->
  @spaces example_allocator example_laws AddressSpace.example_tasks 23 room example_ghost parent_mm.
Proof.
  intros Hroom. split.
  - exact example_path_wf.
  - intros r ->. eexists. split; [vm_compute; reflexivity|done].
  - by intros r r' a a' q -> ->.
  - done.
  - apply small_memory_wf.
  - cbn [mm_memory parent_mm]. assert (frames_size small_memory = 4) as -> by done. lia.
  - exact parent_pool.
  - intros r a -> Hu. by rewrite (proj2 (parent_bare a Hu)).
  - intros r r' a a' -> _ Hu _. by rewrite (proj2 (parent_bare a Hu)).
  - by intros r m _ [].
Qed.

Lemma parent_directory : directory_ok example_ghost parent_mm example_object root.
Proof. split; [exact example_path_wf|eexists; split; [vm_compute; reflexivity|done]|by exists (mkInfo LevelCount 0 (block 0).2)]. Qed.

Lemma mapKernel_spec_witness :
  Runs (set_directory 0x8000 new_PageDirectory ;; @mapKernel example_allocator example_symbols 0x8000) parent_mm (fun _ s' =>
    exists r2, r2 <> root /\ pte_at (mm_tables s') r2 0x400000 = zero_pte /\
      pte_at (mm_tables s') r2 example_page = pte_at (mm_tables s') root example_page /\
      pte_at (mm_tables s') root example_page = zero_pte).
Proof.
  apply Runs_bind, set_directory_run. eapply Runs_mono.
  - apply (@mapKernel_spec example_symbols example_allocator example_laws example_refill example_memory AddressSpace.example_tasks
      21 0 example_ghost (set_mm_directories (<[0x8000 := new_PageDirectory]> (mm_directories parent_mm)) parent_mm) 0x8000 root).
    + apply (@spaces_directory example_allocator example_laws example_refill example_memory); [by apply parent_spaces|done].
    + done.
    + done.
    + done.
    + destruct parent_directory as [H1 H2 H3]. split; [exact H1|exact H2|by exists (mkInfo LevelCount 0 (block 0).2)].
    + cbn. by rewrite root_next.
    + by vm_compute.
  - intros [] s' (G' & r2 & [Hsp Hdir Hfresh [_ Hg] Hkept Hempty Hkernel Hrest Hmem]). exists r2.
    split; [|split; [by apply Hempty|split; [by apply Hkernel|]]].
    + intros ->. by vm_compute in Hfresh.
    + rewrite Hg; [by vm_compute|exact (dir_root _ _ _ _ parent_directory)|by intros []|by intros []].
Defined.
End examples.
