(* ===== verification/TableHeap.v ===== *)
(** * The heap of page tables of the running kernel

    [AddressSpace] and the files behind it prove the kernel against what the tables promise to ask of their allocator, and the allocator to
    answer.  This file discharges that interface for the allocator of the kernel: [getPdPageHeap()], which maps its
    blocks with [mapPage], which takes the tables that this needs from a pool that [refillPool] fills again. *)

From Stdlib Require Import ZArith Lia.
From stdpp Require Import list numbers gmap.
From S2P Require Import Prelude Words Memory Pte PageManager PageHeap PageDirectory UserSpace AddressSpace NewDirectory.

(** ** The blocks and their addresses *)
Section blocks.
Context `{Symbols} (limit : Z).

Definition block_page (i j : Z) : Z := getPageHeapBase + i * 8192 + j * 4096.
Definition first_page : Z := prefix_of 0 getPageHeapBase.
(** The pages of the blocks below [limit] *)
Definition in_heap (n : Z) : Prop := first_page <= n < first_page + 2 * limit.

(** What the linker script provides: the heap is in the highest gigabyte. *)
Record heap_layout : Prop := {
  hl_limit : 0 < limit;
  hl_aligned : getPageHeapBase mod 8192 = 0;
  hl_start : 2 ^ 64 - 2 ^ 30 <= getPageHeapBase;
  hl_end : getPageHeapBase + 8192 * limit <= 2 ^ 64;
  hl_static : 0 <= getKernelPageHeapStart <= 2 ^ 51 /\ getKernelPageHeapStart mod 4096 = 0;
}.

Context (Hl : heap_layout).

Lemma high_prefix a : 2 ^ 64 - 2 ^ 30 <= a < 2 ^ 64 -> prefix_of 0 a = a / 4096 - (2 ^ 52 - 2 ^ 36) /\ prefix_of 2 a = 2 ^ 18 - 1.
Proof.
  intros Ha. unfold prefix_of, wrap, VIRT_ADDRESS_BITS. rewrite !TOTAL_BITS_eq, !Z.shiftr_div_pow2 by lia.
  change (2 ^ (12 + 9 * Z.of_nat 0)) with 4096. change (2 ^ (12 + 9 * Z.of_nat 2)) with (2 ^ 30).
  assert (a mod 2 ^ 48 = a - (2 ^ 64 - 2 ^ 48)) as -> by (symmetry; apply (Z.mod_unique_pos _ _ (2 ^ 16 - 1)); lia).
  split; Z.to_euclidean_division_equations; lia.
Qed.

Lemma block_bounds i j : 0 <= i < limit -> 0 <= j < 2 -> 2 ^ 64 - 2 ^ 30 <= block_page i j < 2 ^ 64.
Proof using Hl. destruct Hl. unfold block_page. lia. Qed.

Lemma limit_bound : limit <= 2 ^ 17.
Proof using Hl. destruct Hl. lia. Qed.

Lemma first_page_eq : first_page = getPageHeapBase / 4096 - (2 ^ 52 - 2 ^ 36).
Proof using Hl.
  assert (2 ^ 64 - 2 ^ 30 <= getPageHeapBase < 2 ^ 64) as Hb by (destruct Hl; lia). exact (proj1 (high_prefix getPageHeapBase Hb)).
Qed.

(** The address of a block as [pageToPtr] computes it *)
Lemma block_pageToPtr i : 0 <= i < limit -> pageToPtr pdPageHeap i = block_page i 0.
Proof using Hl.
  intros Hi. pose proof limit_bound. pose proof (block_bounds i 0 Hi). unfold pageToPtr. cbn [m_heapStart BlockSize pdPageHeap].
  rewrite PAGE_SIZE_eq, !(wrap_small 32) by (unfold in_word; lia || rewrite wrap_small; unfold in_word; lia).
  unfold block_page in *. rewrite wrap_small; [lia|]. unfold in_word. lia.
Qed.

Lemma block_second i : 0 <= i < limit -> u64 (block_page i 0 + u32 (1 * PAGE_SIZE)) = block_page i 1.
Proof using Hl.
  intros Hi. pose proof (block_bounds i 1 Hi). rewrite PAGE_SIZE_eq. change (u32 (1 * 4096)) with 4096.
  unfold block_page in *. rewrite wrap_small; [lia|]. unfold in_word. lia.
Qed.

Lemma block_prefix i j : 0 <= i < limit -> 0 <= j < 2 -> prefix_of 0 (block_page i j) = first_page + 2 * i + j.
Proof using Hl.
  intros Hi Hj. rewrite (proj1 (high_prefix _ (block_bounds i j Hi Hj))), first_page_eq.
  unfold block_page. replace (getPageHeapBase + i * 8192 + j * 4096) with (getPageHeapBase + (2 * i + j) * 4096) by lia.
  rewrite Z.div_add by lia. lia.
Qed.

Lemma block_upper i j : 0 <= i < limit -> 0 <= j < 2 -> prefix_of 2 (block_page i j) = 2 ^ 18 - 1.
Proof using Hl. intros Hi Hj. apply high_prefix. by apply block_bounds. Qed.

Lemma block_in_heap i j : 0 <= i < limit -> 0 <= j < 2 -> in_heap (prefix_of 0 (block_page i j)).
Proof using Hl. intros Hi Hj. rewrite block_prefix by done. unfold in_heap. lia. Qed.

Lemma in_heap_block n : in_heap n -> exists i j, 0 <= i < limit /\ 0 <= j < 2 /\ n = prefix_of 0 (block_page i j).
Proof using Hl.
  intros Hn. exists ((n - first_page) / 2), ((n - first_page) mod 2). unfold in_heap in Hn.
  pose proof (Z.mod_pos_bound (n - first_page) 2 ltac:(lia)). pose proof (Z.div_mod (n - first_page) 2 ltac:(lia)).
  assert (0 <= (n - first_page) / 2 < limit) by lia. split; [done|]. split; [done|]. rewrite block_prefix by done. lia.
Qed.

Lemma first_page_even : first_page mod 2 = 0.
Proof using Hl.
  rewrite first_page_eq. pose proof (hl_aligned Hl). Z.to_euclidean_division_equations. lia.
Qed.

(** The slot of a block in the table that leads to its last-level table *)
Definition chunk (i : Z) : Z := indexFromAddress 2 (block_page i 0).

Lemma block_chunk i j : 0 <= i < limit -> 0 <= j < 2 ->
  prefix_of 1 (block_page i j) = (2 ^ 18 - 1) * 512 + chunk i /\ indexFromAddress 2 (block_page i j) = chunk i /\ 0 <= chunk i < 512.
Proof using Hl.
  intros Hi Hj. assert (prefix_of 1 (block_page i j) = prefix_of 1 (block_page i 0)) as E.
  { change 1%nat with (0 + 1)%nat. rewrite !prefix_shift, !block_prefix by lia. rewrite !Z.shiftr_div_pow2 by lia.
    pose proof first_page_even. change (2 ^ (9 * Z.of_nat 1)) with 512. Z.to_euclidean_division_equations. lia. }
  pose proof (prefix_step 1 (block_page i j) ltac:(unfold LevelCount; lia)) as S1.
  pose proof (prefix_step 1 (block_page i 0) ltac:(unfold LevelCount; lia)) as S0.
  rewrite block_upper in S1, S0 by lia. unfold chunk. pose proof (indexFromAddress_range 1 (block_page i 0)). lia.
Qed.

Lemma chunk_eq i : 0 <= i < limit -> chunk i = (first_page + 2 * i) / 512 - (2 ^ 27 - 512).
Proof using Hl.
  intros Hi. destruct (block_chunk i 0 Hi ltac:(lia)) as (E & _). change 1%nat with (0 + 1)%nat in E at 1.
  rewrite prefix_shift, block_prefix, Z.shiftr_div_pow2 in E by lia. change (2 ^ (9 * Z.of_nat 1)) with 512 in E.
  replace (first_page + 2 * i) with (first_page + 2 * i + 0) by lia. lia.
Qed.

(** The slots of all blocks *)
Definition chunks : list Z := seqZ (chunk 0) (chunk (limit - 1) - chunk 0 + 1).

Lemma elem_of_chunks c : c ∈ chunks <-> exists i, 0 <= i < limit /\ c = chunk i.
Proof using Hl.
  pose proof (hl_limit Hl). unfold chunks. rewrite elem_of_seqZ. split.
  - intros Hc. rewrite !chunk_eq in Hc by lia. set (f := first_page) in *.
    exists (Z.max 0 (((c + (2 ^ 27 - 512)) * 512 - f + 1) / 2)). rewrite chunk_eq.
    + Z.to_euclidean_division_equations. lia.
    + Z.to_euclidean_division_equations. lia.
  - intros (i & Hi & ->). rewrite !chunk_eq by lia. Z.to_euclidean_division_equations. lia.
Qed.

Lemma block_same i j i' j' :
  0 <= i < limit -> 0 <= j < 2 -> 0 <= i' < limit -> 0 <= j' < 2 -> same_page (block_page i j) (block_page i' j') = true -> i = i' /\ j = j'.
Proof using Hl. intros Hi Hj Hi' Hj' E%Z.eqb_eq. rewrite !block_prefix in E by done. lia. Qed.
End blocks.

(** ** Tables and pages of the heap *)

(** The slots on the path of a page of [P] *)
Lemma path_heap_slot (P : Z -> Prop) (G : ghost) levels p a g :
  G !! p = Some g -> on_path G levels p a -> (0 < levels <= LevelCount)%nat -> P (prefix_of 0 a) ->
  heap_slot P g (indexFromAddress levels a).
Proof.
  intros Hg (g' & Hg' & Hl & Hp) Hlev HP. assert (g' = g) as -> by congruence.
  apply (heap_slot_path P levels a g); [lia|done|done|]. exists (prefix_of 0 a). split; [done|].
  by rewrite <- (prefix_shift 0 (pred levels)).
Qed.

(** Setting the entry of a page of [P] is growing, and leaves the other pages. *)
Lemma entry_set_grows (P : Z -> Prop) G s s' this r a q i e :
  tables_wf G (mm_tables s) -> P (prefix_of 0 a) -> entry_set G s s' this r a q i e ->
  grows P G G (mm_tables s) (mm_tables s') /\ others_same P G (mm_tables s) (mm_tables s').
Proof.
  intros Hwf HP Hset. destruct (set_ok _ _ _ _ _ _ _ _ _ Hset) as [Hwf' Hroot _].
  destruct (walk_leaf G _ r a q i Hwf' Hroot (set_walk _ _ _ _ _ _ _ _ _ Hset)) as [Hq Hi].
  assert (forall p j g, G !! p = Some g -> t_levels g = 1%nat -> ~ heap_slot P g j ->
            entry_at (mm_tables s') p j = entry_at (mm_tables s) p j) as Hleaf.
  { intros p j g Hg Hl Hn. apply (set_slots _ _ _ _ _ _ _ _ _ Hset). intros [= -> ->]. apply Hn. rewrite Hi.
    apply (path_heap_slot P G 1 q a g Hg Hq); [unfold LevelCount; lia|done]. }
  assert (forall p j g, G !! p = Some g -> t_levels g <> 1%nat -> entry_at (mm_tables s') p j = entry_at (mm_tables s) p j) as Hup.
  { intros p j g Hg Hl. apply (set_slots _ _ _ _ _ _ _ _ _ Hset). intros [= -> ->]. destruct Hq as (g' & Hg' & Hl' & _). congruence. }
  pose proof (set_nexts _ _ _ _ _ _ _ _ _ Hset) as Hn. pose proof (grows_refl P G _ Hwf) as Hr.
  split; [constructor|].
  - done.
  - intros p j g _ _. apply Hn.
  - intros p j. rewrite Hn. apply Hr.
  - apply Hleaf.
  - congruence.
  - intros p j g Hg Hl _. by apply (Hup p j g).
  - intros p j g Hg Hns. split; [|apply Hn]. destruct (decide (t_levels g = 1%nat)); [by apply (Hleaf p j g)|by apply (Hup p j g)].
Qed.

Lemma others_same_trans (P : Z -> Prop) (G1 G2 : ghost) T1 T2 T3 :
  G1 ⊆ G2 -> others_same P G1 T1 T2 -> others_same P G2 T2 T3 -> others_same P G1 T1 T3.
Proof.
  intros Hsub H1 H2 p i g Hg Hn. destruct (H1 p i g Hg Hn) as [<- <-]. apply (H2 p i g); [by eapply lookup_weaken|done].
Qed.

(** The third and the second table on the paths of the highest gigabyte *)
Definition l2_of (T : Tables) (r : Z) : Z := next_at T (next_at T r 511) 511.

Lemma filter_iff_in {A} (P Q : A -> Prop) `{!forall x, Decision (P x), !forall x, Decision (Q x)} (l : list A) :
  (forall x, x ∈ l -> P x <-> Q x) -> filter P l = filter Q l.
Proof.
  induction l as [|x l IH]; intros Hsame; [done|]. rewrite !filter_cons, (decide_ext (P x) (Q x)) by (apply Hsame; left).
  rewrite IH; [done|]. intros y Hy. apply Hsame. by right.
Qed.

(** Two predicates that differ in one place *)
Lemma filter_one {A} (P Q : A -> Prop) `{!forall x, Decision (P x), !forall x, Decision (Q x)} (l : list A) c :
  NoDup l -> c ∈ l -> P c -> ~ Q c -> (forall x, x <> c -> P x <-> Q x) -> length (filter P l) = S (length (filter Q l)).
Proof.
  intros Hnd Hc HP HQ Hsame. induction Hnd as [|x l Hx Hnd IH]; [by apply elem_of_nil in Hc|].
  apply elem_of_cons in Hc as [->|Hc].
  - rewrite filter_cons_True, filter_cons_False by done. cbn [length]. f_equal. f_equal. apply filter_iff_in.
    intros y Hy. apply Hsame. by intros ->.
  - assert (x <> c) as Hne by (by intros ->). specialize (IH Hc). destruct (decide (P x)) as [Hp|Hp].
    + rewrite !filter_cons_True by (done || by apply Hsame). cbn [length]. by rewrite IH.
    + rewrite !filter_cons_False; [done| |done]. by rewrite <- (Hsame x Hne).
Qed.

Section mapper.
Context `{Symbols} (limit : Z) (Hl : heap_layout limit) (fuel nesting : nat).
Implicit Types (s : MM) (G : ghost) (r i j : Z).

Abbreviation pool s := (m_pool (mm_pageHeap s)).
Abbreviation heap := (in_heap limit).

(** What a heap needs to map a page while it allocates a block *)
Record mapper_ok G s r : Prop := {
  mo_directory : directory_ok G s (g_kernelDirectory s) r;
  mo_paging : g_pagingReady s = true;
  mo_l3 : next_at (mm_tables s) r 511 <> 0;
  mo_l2 : l2_of (mm_tables s) r <> 0;
  mo_memory : memory_wf (mm_memory s);
  mo_used p g : G !! p = Some g -> used (mm_memory s) (t_phys g / 4096) = true;
  mo_pool b : b ∈ pool s ->
    0 <= b.1 < limit /\ fresh_table G (block_page b.1 0) b.2 /\ used (mm_memory s) (b.2 / 4096) = true;
  mo_ptrs : NoDup (map fst (pool s));
  mo_phys : NoDup (map snd (pool s));
}.

Lemma l2_info G T r :
  tables_wf G T -> is_root G r -> next_at T r 511 <> 0 -> l2_of T r <> 0 ->
  exists g3 g2, G !! next_at T r 511 = Some g3 /\ G !! l2_of T r = Some g2 /\ t_levels g2 = 2%nat /\ t_prefix g2 = 2 ^ 18 - 1.
Proof.
  intros Hwf (g & Hg & Hlev & Hp) H3 H2. destruct (wf_child _ _ Hwf r 511 g Hg H3) as (_ & g3 & Hg3 & Hl3 & Hp3 & _).
  destruct (wf_child _ _ Hwf _ 511 g3 Hg3 H2) as (_ & g2 & Hg2 & Hl2 & Hp2 & _). exists g3, g2.
  split; [done|]. split; [done|]. unfold LevelCount in Hlev. split; [lia|]. lia.
Qed.

(** The path of a block *)
Lemma block_walk T r i j :
  0 <= i < limit -> 0 <= j < 2 -> next_at T r 511 <> 0 -> l2_of T r <> 0 ->
  walk T LevelCount 3 r (block_page i j) =
  if next_at T (l2_of T r) (chunk i) =? 0 then None else Some (next_at T (l2_of T r) (chunk i), indexFromAddress 1 (block_page i j)).
Proof using Hl.
  intros Hi Hj H3 H2. destruct (VBase_indices _ (block_upper limit Hl i j Hi Hj)) as [I4 I3].
  destruct (block_chunk limit Hl i j Hi Hj) as (_ & I2 & _). unfold LevelCount. cbn [walk pred].
  rewrite I4, I3, (proj2 (Z.eqb_neq _ _) H3). fold (l2_of T r). by rewrite (proj2 (Z.eqb_neq _ _) H2), I2.
Qed.

Lemma l2_on_path G T r i j :
  tables_wf G T -> is_root G r -> next_at T r 511 <> 0 -> l2_of T r <> 0 -> 0 <= i < limit -> 0 <= j < 2 ->
  on_path G 2 (l2_of T r) (block_page i j).
Proof using Hl.
  intros Hwf Hr H3 H2 Hi Hj. destruct (l2_info G T r Hwf Hr H3 H2) as (_ & g2 & _ & Hg2 & Hl2 & Hp2).
  exists g2. split_and!; [done|done|]. rewrite Hp2. symmetry. by apply (block_upper limit).
Qed.

(** The slots that lead to the last-level tables of the heap *)
Lemma chunk_heap_slot G T r g i :
  tables_wf G T -> is_root G r -> next_at T r 511 <> 0 -> l2_of T r <> 0 -> 0 <= i < limit ->
  G !! l2_of T r = Some g -> heap_slot heap g (chunk i).
Proof using Hl.
  intros Hwf Hr H3 H2 Hi Hg. rewrite <- (proj1 (proj2 (block_chunk limit Hl i 0 Hi ltac:(lia)))).
  apply (path_heap_slot heap G 2 (l2_of T r) (block_page i 0) g Hg); [by apply l2_on_path|unfold LevelCount; lia|].
  apply (block_in_heap limit Hl i 0 Hi). lia.
Qed.

(** ** A block of the pool becomes a last-level table *)
Lemma pool_kmalloc rec s p b :
  m_allocating (mm_pageHeap s) = true -> pool s = p ++ [b] -> 0 <= b.1 < limit ->
  kmalloc pdPageHeap (on_kernel rec) s = Ok ((block_page b.1 0, b.2), set_mm_pageHeap (set_pool p (mm_pageHeap s)) s).
Proof using Hl.
  intros Ha Hp Hb. destruct (pool_pop p b) as [Hlast Htake]. unfold kmalloc, allocBlock.
  unfold mbind, ST_bind, read_state, assertion, heap_update, modify. cbn [get_heap set_heap pdPageHeap PoolSize].
  rewrite Ha, Hp, Hlast. cbn -[take]. rewrite Hp, Htake. by rewrite (block_pageToPtr limit Hl).
Qed.

Definition chunk_entry (T : Tables) (p c ptr phys : Z) : PageTableEntry :=
  AttributeSetter 3 (set_base (Z.shiftr phys BASE_SHIFT) (set_p true (entry_at (store_next p c ptr (<[ptr := PageManager]> T)) p c))).

Definition with_chunk (s : MM) (r i : Z) (p : list (Z * Z)) (b : Z * Z) : MM :=
  let l2 := l2_of (mm_tables s) r in
  set_mm_tables (add_table (mm_tables s) l2 (chunk i) (block_page b.1 0) (chunk_entry (mm_tables s) l2 (chunk i) (block_page b.1 0) b.2))
    (set_mm_pageHeap (set_pool p (mm_pageHeap s)) s).

Lemma create_chunk rec G s r i j p b :
  mapper_ok G s r -> m_allocating (mm_pageHeap s) = true -> pool s = p ++ [b] -> 0 <= i < limit -> 0 <= j < 2 ->
  next_at (mm_tables s) (l2_of (mm_tables s) r) (chunk i) = 0 ->
  @getPage_init MM _ (pd_allocator rec) (AttributeSetter 3) r (block_page i j) s =
  Ok ((block_page b.1 0, indexFromAddress 1 (block_page i j)), with_chunk s r i p b).
Proof using Hl.
  intros [[Hwf Hroot _] _ H3 H2 _ _ Hpool _ _] Ha Hp Hi Hj Hz. set (T := mm_tables s) in *.
  destruct (VBase_indices _ (block_upper limit Hl i j Hi Hj)) as [I4 I3]. destruct (block_chunk limit Hl i j Hi Hj) as (_ & I2 & _).
  destruct (l2_info G T r Hwf Hroot H3 H2) as (g3 & g2 & Hg3 & Hg2 & Hl2 & _). pose proof Hroot as (g & Hg & _).
  assert (forall q, is_Some (G !! q) -> deref q s = Ok (T, s)) as Hderef.
  { intros q [x Hx]%(wf_dom _ _ Hwf). unfold deref. rewrite bind_read. cbn. fold T. by rewrite Hx. }
  unfold getPage_init, getEntry_init. change (LevelCount - 0 - 1)%nat with 3%nat. unfold LevelCount. cbn [getEntryImpl_init pred].
  rewrite I4, I3, I2. rewrite (bind_run _ _ _ _ _ (Hderef r (mk_is_Some _ _ Hg))). cbn beta zeta. rewrite (proj2 (Z.eqb_neq _ _) H3).
  rewrite (bind_run (mret _) _ s _ s eq_refl), (bind_run _ _ _ _ _ (Hderef _ (mk_is_Some _ _ Hg3))). cbn beta zeta.
  fold (l2_of T r). rewrite (proj2 (Z.eqb_neq _ _) H2).
  rewrite (bind_run (mret _) _ s _ s eq_refl), (bind_run _ _ _ _ _ (Hderef _ (mk_is_Some _ _ Hg2))). cbn beta zeta. rewrite Hz, Z.eqb_refl.
  assert (pte_p (entry_at T (l2_of T r) (chunk i)) = false) as Hpf.
  { assert (1 < t_levels g2)%nat as H1 by lia. pose proof (wf_coherent _ _ Hwf (l2_of T r) (chunk i) g2 Hg2 H1) as Hc.
    destruct (pte_p (entry_at T (l2_of T r) (chunk i))); [|done]. by destruct (proj1 Hc eq_refl). }
  assert (0 <= b.1 < limit) as Hb by (apply Hpool; rewrite Hp; apply elem_of_app; right; left).
  assert (@create_next MM _ (pd_allocator rec) (AttributeSetter 3) T (l2_of T r) (chunk i) s = Ok (block_page b.1 0, with_chunk s r i p b)) as E.
  { unfold create_next. rewrite Hpf, bind_assertion by done. cbn [table_kmalloc pd_allocator].
    by rewrite (bind_run _ _ _ _ _ (pool_kmalloc rec s p b Ha Hp Hb)). }
  by rewrite (bind_run _ _ _ _ _ E).
Qed.

(** When a table was missing, the block that was last in the pool is a table of [G'] now. *)
Definition pool_taken (missing : bool) (G G' : ghost) (p p' : list (Z * Z)) : Prop :=
  if missing then exists b g, p = p' ++ [b] /\ G' = <[block_page b.1 0 := g]> G /\ t_phys g = b.2
  else G' = G /\ p' = p.

Record chunk_created G s r i (b : Z * Z) (G1 : ghost) (s1 : MM) : Prop := {
  cc_ok : mapper_ok G1 s1 r;
  cc_info : exists g, G1 = <[block_page b.1 0 := g]> G /\ t_phys g = b.2;
  cc_next q c : next_at (mm_tables s1) q c =
    if bool_decide (l2_of (mm_tables s) r = q /\ chunk i = c) then block_page b.1 0 else next_at (mm_tables s) q c;
  cc_l2 : l2_of (mm_tables s1) r = l2_of (mm_tables s) r;
  cc_grows : grows heap G G1 (mm_tables s) (mm_tables s1);
  cc_others : others_same heap G (mm_tables s) (mm_tables s1);
  cc_pte r' a : is_root G r' -> pte_at (mm_tables s1) r' a = pte_at (mm_tables s) r' a;
}.

Lemma fresh_insert G (b b' : Z * Z) g :
  fresh_table G (block_page b'.1 0) b'.2 -> b'.1 <> b.1 -> t_phys g <> b'.2 -> fresh_table (<[block_page b.1 0 := g]> G) (block_page b'.1 0) b'.2.
Proof.
  intros (H1 & H2 & H3 & H4 & H5) Hne Hph. split_and!; [done| |done|done|].
  - rewrite lookup_insert_ne; [done|]. unfold block_page. lia.
  - intros q g' [[_ <-]|[_ Hq]]%lookup_insert_Some; [done|by eapply H5].
Qed.

(** The rest of the pool after its last block has become a table *)
Lemma pool_rest G s r p b g :
  mapper_ok G s r -> pool s = p ++ [b] -> t_phys g = b.2 ->
  NoDup (map fst p) /\ NoDup (map snd p) /\
  (forall b', b' ∈ p -> 0 <= b'.1 < limit /\ fresh_table (<[block_page b.1 0 := g]> G) (block_page b'.1 0) b'.2 /\
     used (mm_memory s) (b'.2 / 4096) = true) /\
  forall q g', (<[block_page b.1 0 := g]> G : ghost) !! q = Some g' -> used (mm_memory s) (t_phys g' / 4096) = true.
Proof.
  intros [_ _ _ _ _ Hused Hpool Hf Hs] Hp Hg. rewrite Hp, map_app in Hf, Hs. cbn [map] in Hf, Hs.
  apply NoDup_snoc in Hf as [Hf Hf'], Hs as [Hs Hs']. split_and!; [done|done| |].
  - intros b' Hb'. destruct (Hpool b') as (H1 & H2 & H3); [rewrite Hp; apply elem_of_app; by left|].
    split; [done|]. split; [|done]. apply fresh_insert; [done|..].
    + intros E. apply Hf'. rewrite <- E. by apply list_elem_of_fmap_2.
    + rewrite Hg. intros E. apply Hs'. rewrite E. by apply list_elem_of_fmap_2.
  - intros q g' [[_ <-]|[_ Hq]]%lookup_insert_Some; [|by eapply Hused]. rewrite Hg. apply Hpool. rewrite Hp. apply elem_of_app. right. left.
Qed.

Lemma with_chunk_ok G s r i p b :
  mapper_ok G s r -> pool s = p ++ [b] -> 0 <= i < limit -> next_at (mm_tables s) (l2_of (mm_tables s) r) (chunk i) = 0 ->
  exists G1, chunk_created G s r i b G1 (with_chunk s r i p b).
Proof using Hl.
  intros Hok Hp Hi Hz. pose proof Hok as [[Hwf Hroot Hobj] Hrdy H3 H2 Hmem Hused Hpool Hf Hs]. set (T := mm_tables s) in *.
  destruct (l2_info G T r Hwf Hroot H3 H2) as (g3 & g2 & Hg3 & Hg2 & Hl2 & Hp2).
  destruct (block_chunk limit Hl i 0 Hi ltac:(lia)) as (_ & _ & Hc).
  destruct (Hpool b) as (Hb & Hfresh & _); [rewrite Hp; apply elem_of_app; right; left|].
  set (ptr := block_page b.1 0) in *. set (e := chunk_entry T (l2_of T r) (chunk i) ptr b.2).
  assert (1 < t_levels g2)%nat as Hl1 by lia.
  assert (pte_p e = true /\ pte_base e = Z.shiftr b.2 BASE_SHIFT /\ pte_wf e) as (He1 & He2 & He3).
  { apply (init_entry_ok _ (AttributeSetter_keeps 3 eq_refl)); [by destruct Hfresh as (_ & _ & ? & _)|].
    rewrite entry_at_store_next, entry_at_new by (by eapply T_ptr). apply Hwf. }
  set (g := added_info (chunk i) b.2 g2). set (T1 := add_table T (l2_of T r) (chunk i) ptr e).
  assert (tables_wf (<[ptr := g]> G) T1) as Hwf1 by (by apply add_table_wf).
  assert (forall P, grows P G (<[ptr := g]> G) T T1) as Hgr by (intros P; by apply add_table_grows).
  assert (forall q c, next_at T1 q c = if bool_decide (l2_of T r = q /\ chunk i = c) then ptr else next_at T q c) as Hnext
    by (intros; by apply (next_at_add G T Hwf (l2_of T r) (chunk i) ptr b.2 g2)).
  assert (forall q c, entry_at T1 q c = if bool_decide (l2_of T r = q /\ chunk i = c) then e else entry_at T q c) as Hentry
    by (intros; by apply (entry_at_add G T Hwf (l2_of T r) (chunk i) ptr b.2 g2)).
  assert (is_root (<[ptr := g]> G) r) as Hroot1 by (by eapply is_root_grows; [apply (Hgr (fun _ => False))|]).
  pose proof Hroot as (gr & Hgrr & Hlr & _). unfold LevelCount in Hlr.
  assert (next_at T1 r 511 = next_at T r 511) as E3 by (by apply (grows_next _ _ _ _ _ (Hgr heap) r 511 gr)).
  assert (l2_of T1 r = l2_of T r) as E2 by (unfold l2_of; rewrite E3; by apply (grows_next _ _ _ _ _ (Hgr heap) _ 511 g3)).
  destruct (pool_rest G s r p b g Hok Hp eq_refl) as (R1 & R2 & R3 & R4).
  exists (<[ptr := g]> G). split; cbn [mm_tables with_chunk set_mm_tables set_mm_pageHeap]; fold T; fold ptr; fold e; fold T1.
  - split; cbn [mm_tables mm_memory mm_pageHeap with_chunk set_mm_tables set_mm_pageHeap]; fold T; fold ptr; fold e; fold T1; try done.
    + split; [done|done|]. eapply directory_of_grown; [apply (Hgr heap)|done|]. apply (dir_object _ _ _ _ (mo_directory _ _ _ Hok)).
    + by rewrite E3.
    + by rewrite E2.
  - by exists g.
  - exact Hnext.
  - exact E2.
  - apply Hgr.
  - intros q c g' Hg' Hn. rewrite Hnext, Hentry. rewrite bool_decide_false; [done|]. intros [<- <-]. apply Hn.
    by apply (chunk_heap_slot G T r).
  - intros r' a Hr'. apply (pte_at_grows (fun _ => False) G (<[ptr := g]> G) T T1); auto.
Qed.

(** ** Mapping a page of the heap while it allocates *)
Abbreviation nested := (mapPage_nested fuel (S nesting)).

(** What [mapPage] does around [mapPageToF] when it is called by the heap *)
Lemma nested_mapPage s this a (Q : Z -> MM -> Prop) :
  m_allocating (mm_pageHeap s) = true -> g_pagingReady s = true -> memory_wf (mm_memory s) -> frames_size (mm_memory s) < 2 ^ 40 - 1 ->
  0xffffffffc0000000 <= a ->
  (forall page m, 0 <= page < 2 ^ 40 - 1 -> used (mm_memory s) page = false -> memory_wf m ->
     (forall p, used m p = (page =? p) || used (mm_memory s) p) -> frames_size m <= frames_size (mm_memory s) + 16 ->
     Runs (@mapPageToF (pd_allocator (mapPage_nested fuel nesting)) this a (page * 4096) (AttributeSetter heap_attributes)) (set_mm_memory m s)
       (fun _ s' => m_allocating (mm_pageHeap s') = true /\ Q (page * 4096) s')) ->
  Runs (nested this a heap_attributes) s Q.
Proof.
  intros Ha Hr Hm Hsz Hva Hmap. rewrite mapPage_nested_S. unfold mapPage, mapPageTo, ready_assert.
  change (has_attr heap_attributes ATTR_DEFER) with false. run_steps; [exact Hr|]. unfold memory. apply Runs_zoom.
  eapply Runs_mono; [apply getFreePage_run; [done|lia]|].
  intros page m ((Hp & Hfree & _ & Hwf & _ & Hused) & Hle & Hsize).
  rewrite INVALID_PAGE_eq, (proj2 (Z.eqb_neq page _)) by lia.
  assert (u64 (page * PAGE_SIZE) = page * 4096) as -> by (rewrite PAGE_SIZE_eq; apply wrap_small; unfold in_word; lia).
  run_steps; [done|exact Hr|]. unfold _mapPageTo. change (has_attr heap_attributes ATTR_PUBLIC) with false.
  rewrite (proj2 (Z.ltb_ge a 0xffffffff00000000)) by lia. rewrite andb_false_r. cbn [andb]. run_steps.
  change ((0 <=? heap_attributes) && (heap_attributes <=? 15)) with true. cbn iota.
  eapply Runs_mono; [apply (Hmap page m); done || lia|]. intros [] s' [Ha' HQ]. cbn beta.
  unfold refillPool. run_steps. cbn [get_heap pdPageHeap]. rewrite Ha'. by run_steps.
Qed.

Record page_mapped G s r i j pa (G' : ghost) (s' : MM) : Prop := {
  pm_ok : mapper_ok G' s' r;
  pm_heap : exists p', mm_pageHeap s' = set_pool p' (mm_pageHeap s) /\
    pool_taken (next_at (mm_tables s) (l2_of (mm_tables s) r) (chunk i) =? 0) G G' (pool s) p';
  pm_rest : mm_rest s' = mm_rest s;
  pm_l2 : l2_of (mm_tables s') r = l2_of (mm_tables s) r;
  pm_next c : c <> chunk i -> next_at (mm_tables s') (l2_of (mm_tables s) r) c = next_at (mm_tables s) (l2_of (mm_tables s) r) c;
  pm_chunk : next_at (mm_tables s') (l2_of (mm_tables s) r) (chunk i) <> 0;
  pm_grows : grows heap G G' (mm_tables s) (mm_tables s');
  pm_others : others_same heap G (mm_tables s) (mm_tables s');
  pm_pte a : pte_p (pte_at (mm_tables s') r a) = same_page a (block_page i j) || pte_p (pte_at (mm_tables s) r a);
  pm_page : exists page, pa = page * 4096 /\ 0 <= page < 2 ^ 40 - 1 /\ used (mm_memory s) page = false /\
    (forall p, used (mm_memory s') p = (page =? p) || used (mm_memory s) p) /\
    frames_size (mm_memory s') <= frames_size (mm_memory s) + 16;
}.

(** The entry of the page, once there is a table for it *)
Lemma set_heap_page rec G s r i j paddr :
  mapper_ok G s r -> 0 <= i < limit -> 0 <= j < 2 -> next_at (mm_tables s) (l2_of (mm_tables s) r) (chunk i) <> 0 ->
  pte_p (pte_at (mm_tables s) r (block_page i j)) = false ->
  Runs (@mapPageToF (pd_allocator rec) (g_kernelDirectory s) (block_page i j) paddr (AttributeSetter heap_attributes)) s (fun _ s' =>
    exists q c e, entry_set G s s' (g_kernelDirectory s) r (block_page i j) q c e /\ pte_p e = true).
Proof using Hl.
  intros [Hdir _ H3 H2 _ _ _ _ _] Hi Hj Hn Hnp. pose proof (block_walk (mm_tables s) r i j Hi Hj H3 H2) as Hw.
  rewrite (proj2 (Z.eqb_neq _ _) Hn) in Hw. eapply mapPageToF_found; [eapply entry_set_refl; [exact Hdir|exact Hw]|exact Hnp|apply AttributeSetter_wf|].
  intros s2 Hset. eexists _, _, _. split; [exact Hset|]. by rewrite AttributeSetter_p.
Qed.

Lemma mapper_memory G s r m :
  mapper_ok G s r -> memory_wf m -> (forall p, used (mm_memory s) p = true -> used m p = true) -> mapper_ok G (set_mm_memory m s) r.
Proof.
  intros [H1 H2 H3 H4 H5 H6 H7 H8 H9] Hwf Hu. split; try done.
  - destruct H1 as [Hw Hr Ho]. by split.
  - intros p g Hg. by eapply Hu, H6.
  - intros b Hb. destruct (H7 b Hb) as (Hb1 & Hb2 & Hb3). split; [done|]. split; [done|]. by apply Hu.
Qed.

Lemma mapper_set G s s' r this a q c e :
  mapper_ok G s r -> entry_set G s s' this r a q c e -> mapper_ok G s' r.
Proof.
  intros [[H0 H0' Hobj] H2 H3 H4 H5 H6 H7 H8 H9] Hset. pose proof (set_rest _ _ _ _ _ _ _ _ _ Hset) as Hrest.
  pose proof (set_nexts _ _ _ _ _ _ _ _ _ Hset) as Hn. destruct (set_ok _ _ _ _ _ _ _ _ _ Hset) as [Hwf _ _].
  rewrite Hrest in *. cbn [mm_tables set_mm_tables] in *. split; cbn [mm_tables set_mm_tables mm_memory mm_pageHeap]; try done.
  - by rewrite Hn.
  - unfold l2_of. by rewrite !Hn.
Qed.

(** What mapping the page of a block amounts to, once there is a table for it *)
Lemma page_set_mapped G s m s' r i j page q c e :
  mapper_ok G s r -> 0 <= i < limit -> 0 <= j < 2 -> next_at (mm_tables s) (l2_of (mm_tables s) r) (chunk i) <> 0 ->
  0 <= page < 2 ^ 40 - 1 -> used (mm_memory s) page = false -> memory_wf m ->
  (forall p, used m p = (page =? p) || used (mm_memory s) p) -> frames_size m <= frames_size (mm_memory s) + 16 ->
  entry_set G (set_mm_memory m s) s' (g_kernelDirectory s) r (block_page i j) q c e -> pte_p e = true ->
  page_mapped G s r i j (page * 4096) G s'.
Proof using Hl.
  intros Hok Hi Hj Hn Hpage Hfree Hwf Hused Hsz Hset He. pose proof (dir_wf _ _ _ _ (mo_directory _ _ _ Hok)) as Hwf0.
  assert (mapper_ok G (set_mm_memory m s) r) as Hok0 by (apply mapper_memory; [done|done|]; intros p Hp; by rewrite Hused, Hp, orb_true_r).
  destruct (entry_set_grows heap G (set_mm_memory m s) s' _ _ _ _ _ _ Hwf0 (block_in_heap limit Hl i j Hi Hj) Hset) as [Hgr Hoth].
  pose proof (set_rest _ _ _ _ _ _ _ _ _ Hset) as Hrest. pose proof (set_nexts _ _ _ _ _ _ _ _ _ Hset) as Hnext.
  cbn [mm_tables set_mm_memory] in *. split.
  - by eapply mapper_set.
  - exists (pool s). rewrite (proj2 (Z.eqb_neq _ _) Hn). rewrite Hrest. cbn [mm_pageHeap set_mm_tables set_mm_memory]. by destruct (mm_pageHeap s).
  - by rewrite Hrest.
  - unfold l2_of. by rewrite !Hnext.
  - intros c' _. apply Hnext.
  - by rewrite Hnext.
  - done.
  - done.
  - intros a. rewrite (set_pte _ _ _ _ _ _ _ _ _ Hset). cbn [mm_tables set_mm_memory]. destruct (same_page _ _); [by rewrite He|done].
  - exists page. rewrite Hrest. cbn [mm_memory set_mm_tables set_mm_memory]. done.
Qed.

(** The same when its table has just been made from a block of the pool *)
Lemma chunk_page_mapped G s r i j b p G1 pa G' s' :
  chunk_created G s r i b G1 (with_chunk s r i p b) -> pool s = p ++ [b] ->
  mapper_ok G s r -> next_at (mm_tables s) (l2_of (mm_tables s) r) (chunk i) = 0 ->
  page_mapped G1 (with_chunk s r i p b) r i j pa G' s' ->
  next_at (mm_tables (with_chunk s r i p b)) (l2_of (mm_tables s) r) (chunk i) <> 0 ->
  page_mapped G s r i j pa G' s'.
Proof.
  intros [Hok1 [g [Eg Hg]] Hnext1 E2 Hgr1 Hoth1 Hpte1] Hp Hok Hz [H1 [p' [Hh Ht]] H3 H4 H5 H6 H7 H8 H9 H10] Hnz.
  rewrite E2 in *. rewrite (proj2 (Z.eqb_neq _ _) Hnz) in Ht. destruct Ht as [-> ->]. split; try done.
  - exists p. rewrite Hz, Z.eqb_refl. split; [by rewrite Hh|]. by exists b, g.
  - intros c Hc. rewrite H5, Hnext1 by done. rewrite bool_decide_false; [done|]. intros [_ E]. by apply Hc.
  - eapply grows_trans; [apply Hok|done|done].
  - eapply others_same_trans; [apply Hgr1|done|done].
  - intros a. rewrite H9, Hpte1 by apply Hok. done.
Qed.

(** Going to the page makes the missing table, and going there again finds it. *)
Lemma mapPageToF_created rec G G1 s r i j p b paddr f :
  mapper_ok G s r -> m_allocating (mm_pageHeap s) = true -> pool s = p ++ [b] -> 0 <= i < limit -> 0 <= j < 2 ->
  next_at (mm_tables s) (l2_of (mm_tables s) r) (chunk i) = 0 -> chunk_created G s r i b G1 (with_chunk s r i p b) ->
  next_at (mm_tables (with_chunk s r i p b)) (l2_of (mm_tables s) r) (chunk i) = block_page b.1 0 -> block_page b.1 0 <> 0 ->
  @mapPageToF (pd_allocator rec) (g_kernelDirectory s) (block_page i j) paddr f s =
  @mapPageToF (pd_allocator rec) (g_kernelDirectory s) (block_page i j) paddr f (with_chunk s r i p b).
Proof using Hl.
  intros Hok Ha Hp Hi Hj Hz [[Hdir1 _ H3 H2 _ _ _ _ _] _ _ E2 _ _ _] Hn Hb. pose proof (create_chunk rec G s r i j p b Hok Ha Hp Hi Hj Hz) as Hc.
  set (s1 := with_chunk s r i p b) in *. unfold mapPageToF.
  rewrite (bind_run _ _ _ _ _ (manager_run G s _ r (mo_directory _ _ _ Hok))), (bind_run _ _ _ _ _ Hc).
  change (g_kernelDirectory s) with (g_kernelDirectory s1). rewrite (bind_run _ _ _ _ _ (manager_run G1 s1 _ r Hdir1)).
  pose proof (block_walk (mm_tables s1) r i j Hi Hj H3 H2) as Hw. rewrite E2, Hn, (proj2 (Z.eqb_neq _ _) Hb) in Hw.
  erewrite (bind_run (getPage_init _ _ _) _ s1); [reflexivity|].
  unfold getPage_init, getEntry_init. change (LevelCount - 0 - 1)%nat with 3%nat.
  eapply getEntryImpl_init_found; [apply Hdir1|apply root_on_path, Hdir1|exact Hw].
Qed.

(** [mapPage] for a page of the heap: it takes a free physical page, and a block of the pool when the page has no table. *)
Lemma map_heap_page G s r i j :
  mapper_ok G s r -> m_allocating (mm_pageHeap s) = true -> frames_size (mm_memory s) < 2 ^ 40 - 1 -> 0 <= i < limit -> 0 <= j < 2 ->
  pte_p (pte_at (mm_tables s) r (block_page i j)) = false ->
  (next_at (mm_tables s) (l2_of (mm_tables s) r) (chunk i) = 0 -> pool s <> []) ->
  Runs (nested (g_kernelDirectory s) (block_page i j) heap_attributes) s (fun pa s' => exists G', page_mapped G s r i j pa G' s').
Proof using Hl.
  intros Hok Ha Hsz Hi Hj Hnp Hpool. pose proof (block_bounds limit Hl i j Hi Hj) as Hb.
  apply nested_mapPage; [done|apply Hok|apply Hok|done|lia|].
  intros page m Hpage Hfree Hwf Hused Hsize. set (s0 := set_mm_memory m s).
  assert (mapper_ok G s0 r) as Hok0 by (apply mapper_memory; [done|done|]; intros p Hp; by rewrite Hused, Hp, orb_true_r).
  destruct (Z.eq_dec (next_at (mm_tables s) (l2_of (mm_tables s) r) (chunk i)) 0) as [Hz|Hn].
  2:{ eapply Runs_mono; [by apply (set_heap_page _ G s0 r i j)|]. intros [] s' (q & c & e & Hset & He).
      split; [by rewrite (set_rest _ _ _ _ _ _ _ _ _ Hset)|]. exists G. by eapply page_set_mapped. }
  destruct (pool s) as [|b p _] eqn:Hp using rev_ind; [by destruct (Hpool Hz)|].
  destruct (with_chunk_ok G s0 r i p b Hok0 Hp Hi Hz) as [G0 Hcc0], (with_chunk_ok G s r i p b Hok Hp Hi Hz) as [G1 Hcc].
  pose proof Hcc as [Hok1 _ Hnext1 E2 _ _ Hpte1]. set (s1 := with_chunk s r i p b) in *.
  assert (next_at (mm_tables s1) (l2_of (mm_tables s) r) (chunk i) = block_page b.1 0) as Hn1 by (by rewrite Hnext1, bool_decide_true).
  assert (block_page b.1 0 <> 0) as Hb0.
  { destruct (mo_pool _ _ _ Hok b) as (_ & (? & _) & _); [|done]. rewrite Hp. apply elem_of_app. right. left. }
  assert (@mapPageToF (pd_allocator (mapPage_nested fuel nesting)) (g_kernelDirectory s) (block_page i j) (page * 4096) (AttributeSetter heap_attributes) s0 =
    @mapPageToF (pd_allocator (mapPage_nested fuel nesting)) (g_kernelDirectory s) (block_page i j) (page * 4096) (AttributeSetter heap_attributes) (set_mm_memory m s1)) as E
    by (by apply (mapPageToF_created _ G G0 s0 r i j p b)).
  unfold Runs. rewrite E. fold (Runs (S := MM) (A := unit)).
  assert (mapper_ok G1 (set_mm_memory m s1) r) as Hok2 by (apply mapper_memory; [done|done|]; intros q Hq; change (mm_memory s1) with (mm_memory s) in Hq; by rewrite Hused, Hq, orb_true_r).
  assert (next_at (mm_tables s1) (l2_of (mm_tables s1) r) (chunk i) <> 0) as Hn2 by (by rewrite E2, Hn1).
  eapply Runs_mono; [apply (set_heap_page _ G1 (set_mm_memory m s1) r i j); [done|done|done|done|]|].
  { cbn [mm_tables set_mm_memory]. by rewrite Hpte1 by apply Hok. }
  intros [] s' (q & c & e & Hset & He). split; [by rewrite (set_rest _ _ _ _ _ _ _ _ _ Hset)|]. exists G1.
  eapply chunk_page_mapped; [exact Hcc|done|done|done| |rewrite E2 in Hn2; exact Hn2]. by eapply page_set_mapped.
Qed.

(** ** Mapping the two pages of a block *)
Record block_mapped G s r i phys (G' : ghost) (s' : MM) : Prop := {
  bm_ok : mapper_ok G' s' r;
  bm_heap : exists p', mm_pageHeap s' = set_pool p' (mm_pageHeap s) /\
    pool_taken (next_at (mm_tables s) (l2_of (mm_tables s) r) (chunk i) =? 0) G G' (pool s) p';
  bm_rest : mm_rest s' = mm_rest s;
  bm_l2 : l2_of (mm_tables s') r = l2_of (mm_tables s) r;
  bm_next c : c <> chunk i -> next_at (mm_tables s') (l2_of (mm_tables s) r) c = next_at (mm_tables s) (l2_of (mm_tables s) r) c;
  bm_chunk : next_at (mm_tables s') (l2_of (mm_tables s) r) (chunk i) <> 0;
  bm_grows : grows heap G G' (mm_tables s) (mm_tables s');
  bm_others : others_same heap G (mm_tables s) (mm_tables s');
  bm_pte i' j' : 0 <= i' < limit -> 0 <= j' < 2 -> i' <> i ->
    pte_p (pte_at (mm_tables s') r (block_page i' j')) = pte_p (pte_at (mm_tables s) r (block_page i' j'));
  bm_memory : mem_le 2 (mm_memory s) (mm_memory s');
  bm_phys : in_word 52 phys /\ phys mod 4096 = 0 /\ used (mm_memory s') (phys / 4096) = true;
  bm_free : used (mm_memory s) (phys / 4096) = false \/ i < 16 /\ phys = static_phys pdPageHeap i;
}.

Lemma block_apart i j i' j' :
  0 <= i < limit -> 0 <= j < 2 -> 0 <= i' < limit -> 0 <= j' < 2 -> (i, j) <> (i', j') -> same_page (block_page i j) (block_page i' j') = false.
Proof using Hl.
  intros Hi Hj Hi' Hj' Hne. apply not_true_is_false. intros E. destruct (block_same limit Hl i j i' j' Hi Hj Hi' Hj' E) as [-> ->]. done.
Qed.

Lemma block_both G G1 G2 s s1 s2 r i pa pa' :
  mapper_ok G s r -> page_mapped G s r i 0 pa G1 s1 -> page_mapped G1 s1 r i 1 pa' G2 s2 -> 0 <= i < limit -> block_mapped G s r i pa G2 s2.
Proof using Hl.
  intros Hok [A1 (p1 & Ah & At) A3 A4 A5 A6 A7 A8 A9 (page & -> & Ar & Af & Au & As)] [B1 (p2 & Bh & Bt) B3 B4 B5 B6 B7 B8 B9 (page' & -> & Br & Bf & Bu & Bs)] Hi.
  rewrite A4 in *. rewrite (proj2 (Z.eqb_neq _ _) A6) in Bt. destruct Bt as [-> ->]. split.
  - done.
  - exists p1. split; [by rewrite Bh, Ah|exact At].
  - congruence.
  - done.
  - intros c Hc. rewrite B5 by done. by apply A5.
  - done.
  - eapply grows_trans; [apply Hok|done|done].
  - eapply others_same_trans; [apply A7|done|done].
  - intros i' j' Hi' Hj' Hne. rewrite B9, A9, !block_apart by (done || lia || congruence). done.
  - split; [apply B1|]. split; [|lia]. intros p Hp. by rewrite Bu, Au, Hp, !orb_true_r.
  - split; [unfold in_word; lia|]. split; [by apply Z.mod_mul|]. rewrite Z.div_mul by done. by rewrite Bu, Au, Z.eqb_refl, orb_true_r.
  - left. by rewrite Z.div_mul.
Qed.

(** The loop of [allocPage] over the pages of a block that is not static *)
Lemma map_block_run G s r i :
  mapper_ok G s r -> m_allocating (mm_pageHeap s) = true -> frames_size (mm_memory s) + 16 < 2 ^ 40 - 1 -> 0 <= i < limit ->
  (forall j, 0 <= j < 2 -> pte_p (pte_at (mm_tables s) r (block_page i j)) = false) ->
  (next_at (mm_tables s) (l2_of (mm_tables s) r) (chunk i) = 0 -> pool s <> []) ->
  Runs (map_block pdPageHeap (on_kernel nested) i) s (fun phys s' => exists G', block_mapped G s r i phys G' s').
Proof using Hl.
  intros Hok Ha Hsz Hi Hnp Hpool. unfold map_block. cbn [BlockSize pdPageHeap]. rewrite (block_pageToPtr limit Hl i Hi).
  apply Runs_bind. unfold on_kernel at 1. apply Runs_bind, Runs_gets.
  eapply Runs_mono; [apply (map_heap_page G s r i 0 Hok Ha); [lia|done|lia|by apply Hnp|done]|].
  intros pa s1 (G1 & H1). pose proof H1 as [Hok1 (p1 & Hh1 & _) Hrest1 El2 _ Hc1 _ _ Hp1 (page & -> & _ & _ & _ & Hsz1)].
  apply Runs_bind. change (seqZ 1 (2 - 1)) with [1]. cbn [for_each]. apply Runs_bind, Runs_bind. rewrite (block_second limit Hl i Hi).
  unfold on_kernel. apply Runs_bind, Runs_gets.
  eapply Runs_mono; [apply (map_heap_page G1 s1 r i 1 Hok1); [by rewrite Hh1|lia|done|lia| |]|].
  - rewrite Hp1, block_apart by (done || lia || congruence). apply Hnp. lia.
  - by rewrite El2.
  - intros pa' s2 (G2 & H2). repeat (apply Runs_bind || apply Runs_ret). exists G2. by eapply block_both.
Qed.

(** ** The heap between its allocations

    The blocks below [k] have their tables, and so have the static ones. *)
Abbreviation clear s i := (nth_bool (m_map (mm_pageHeap s)) i = false).

Record heap_ok (k : Z) G s r : Prop := {
  ho_mapper : mapper_ok G s r;
  ho_size : map_size (mm_pageHeap s) <= limit;
  ho_tables i : 0 <= i < limit -> i < k \/ i < 16 -> next_at (mm_tables s) (l2_of (mm_tables s) r) (chunk i) <> 0;
  (** a block that is free: it is not a table, its pages are not mapped or, if it is static, its physical pages are its own *)
  ho_fresh i : 0 <= i < limit -> clear s i -> G !! block_page i 0 = None;
  ho_pages i j : 16 <= i < limit -> 0 <= j < 2 -> clear s i -> pte_p (pte_at (mm_tables s) r (block_page i j)) = false;
  ho_static i : 0 <= i < 16 -> i < limit -> clear s i ->
    used (mm_memory s) (static_phys pdPageHeap i / 4096) = true /\ (static_phys pdPageHeap i ∉ map snd (pool s)) /\
    (forall p g, G !! p = Some g -> t_phys g <> static_phys pdPageHeap i);
  ho_marked b : b ∈ pool s -> nth_bool (m_map (mm_pageHeap s)) b.1 = true;
  ho_pool : (length (pool s) <= 16)%nat;
}.

Lemma static_phys_eq i : 0 <= i < 16 -> static_phys pdPageHeap i = getKernelPageHeapStart + i * 8192.
Proof using Hl.
  intros Hi. pose proof (hl_static _ Hl) as [Hs _]. unfold static_phys. cbn [pageHeapStart BlockSize pdPageHeap].
  rewrite PAGE_SIZE_eq, (wrap_small 32 (i * 4096)), (wrap_small 32 (i * 4096 * 2)) by (unfold in_word; lia).
  rewrite wrap_small; [lia|]. unfold in_word. lia.
Qed.

Lemma mapper_heap G s r h : mapper_ok G s r -> m_pool h = pool s -> mapper_ok G (set_mm_pageHeap h s) r.
Proof.
  intros [[Hw Hr Ho] H2 H3 H4 H5 H6 H7 H8 H9] E. split; cbn [mm_tables mm_memory mm_pageHeap set_mm_pageHeap]; try (rewrite E); try done.
Qed.

(** A static block is mapped from the start. *)
Lemma static_mapped k G s r i h :
  heap_ok k G s r -> m_pool h = pool s -> 0 <= i < 16 -> i < limit -> clear s i ->
  block_mapped G (set_mm_pageHeap h s) r i (static_phys pdPageHeap i) G (set_mm_pageHeap h s).
Proof using Hl.
  intros [Hok _ Htab _ _ Hst _ _] Hh Hi Hlim Hc. pose proof (mapper_heap G s r h Hok Hh) as Hok'.
  destruct (Hst i Hi Hlim Hc) as (Hu & _ & _). specialize (Htab i ltac:(lia) ltac:(lia)).
  split; cbn [mm_tables mm_memory mm_pageHeap set_mm_pageHeap]; try done.
  - exists (m_pool h). rewrite (proj2 (Z.eqb_neq _ _) Htab). by destruct h.
  - apply grows_refl, Hok.
  - apply mem_le_refl; [lia|apply Hok].
  - pose proof (hl_static _ Hl) as [Hs Hs']. rewrite static_phys_eq in * by done. split; [unfold in_word; lia|]. split; [|done].
    rewrite Z.add_mod, Hs' by done. Z.to_euclidean_division_equations. lia.
  - right. split; [lia|done].
Qed.

(** ** The allocation of a block *)
Record block_given (k : Z) G s r i phys (G' : ghost) (s' : MM) : Prop := {
  bg_ok : heap_ok (Z.max k (i + 1)) G' s' r;
  bg_idle : m_allocating (mm_pageHeap s') = false;
  bg_map : m_map (mm_pageHeap s') = <[Z.to_nat i := true]> (m_map (mm_pageHeap s));
  bg_pool : pool_taken (next_at (mm_tables s) (l2_of (mm_tables s) r) (chunk i) =? 0) G G' (pool s) (pool s');
  bg_rest : mm_rest s' = mm_rest s;
  bg_l2 : l2_of (mm_tables s') r = l2_of (mm_tables s) r;
  bg_next c : c <> chunk i -> next_at (mm_tables s') (l2_of (mm_tables s) r) c = next_at (mm_tables s) (l2_of (mm_tables s) r) c;
  bg_chunk : next_at (mm_tables s') (l2_of (mm_tables s) r) (chunk i) <> 0;
  bg_grows : grows heap G G' (mm_tables s) (mm_tables s');
  bg_others : others_same heap G (mm_tables s) (mm_tables s');
  bg_memory : mem_le 2 (mm_memory s) (mm_memory s');
  bg_fresh : fresh_table G' (block_page i 0) phys;
  bg_used : used (mm_memory s') (phys / 4096) = true;
  bg_phys : phys ∉ map snd (pool s');
  bg_static i' : 0 <= i' < 16 -> i' < limit -> clear s' i' -> static_phys pdPageHeap i' <> phys;
}.

(** What is in the pool afterwards was in it before, and a table that is new was a block of it. *)
Lemma pool_taken_sub missing G G' p p' :
  pool_taken missing G G' p p' ->
  (forall b, b ∈ p' -> b ∈ p) /\ (length p' <= length p)%nat /\
  forall q g, G' !! q = Some g -> G !! q = Some g \/ exists b, b ∈ p /\ q = block_page b.1 0 /\ t_phys g = b.2.
Proof.
  intros Ht. unfold pool_taken in Ht. destruct missing.
  - destruct Ht as (b & g & -> & -> & Hg). split; [intros b' Hb'; apply elem_of_app; by left|]. rewrite length_app. split; [lia|].
    intros q g' [[<- <-]|[_ Hq]]%lookup_insert_Some; [right|by left]. exists b. split; [apply elem_of_app; right; left|done].
  - destruct Ht as [-> ->]. split; [done|]. split; [lia|]. by left.
Qed.

(** The physical page of the block is nobody's. *)
Lemma given_phys k G s h s2 r i phys G2 :
  heap_ok k G s r -> clear s i -> 0 <= i < limit -> m_pool h = pool s -> block_mapped G (set_mm_pageHeap h s) r i phys G2 s2 ->
  fresh_table G2 (block_page i 0) phys /\ (phys ∉ map snd (pool s)) /\
  (forall i', 0 <= i' < 16 -> i' < limit -> i' <> i -> clear s i' -> static_phys pdPageHeap i' <> phys).
Proof using Hl.
  intros [Hok _ _ Hfr _ Hst Hmk _] Hc Hi Hh [_ (p' & _ & Ht) _ _ _ _ _ _ _ _ (Hph & Hal & _) Hfree].
  cbn [mm_memory mm_pageHeap set_mm_pageHeap] in *. rewrite Hh in Ht.
  destruct (pool_taken_sub _ _ _ _ _ Ht) as (_ & _ & Hnew). pose proof (block_bounds limit Hl i 0 Hi ltac:(lia)) as Hb.
  assert (phys ∉ map snd (pool s)) as Hpool.
  { intros (b & Eb & Hbp)%list_elem_of_fmap. destruct Hfree as [Hf|[Hi' ->]].
    - destruct (mo_pool _ _ _ Hok b Hbp) as (_ & _ & Hu). rewrite <- Eb, Hf in Hu. done.
    - destruct (Hst i ltac:(lia) ltac:(lia) Hc) as (_ & Hn & _). apply Hn. rewrite Eb. by apply list_elem_of_fmap_2. }
  assert (forall q g, G !! q = Some g -> t_phys g <> phys) as HG.
  { intros q g Hg. destruct Hfree as [Hf|[Hi' ->]].
    - intros E. pose proof (mo_used _ _ _ Hok q g Hg) as Hu. rewrite E, Hf in Hu. done.
    - destruct (Hst i ltac:(lia) ltac:(lia) Hc) as (_ & _ & Hn). by apply (Hn q). }
  split; [|split; [done|]].
  - split; [lia|]. split; [|split; [done|split; [done|]]].
    + destruct (G2 !! block_page i 0) as [g|] eqn:E; [|done]. destruct (Hnew _ _ E) as [Hold|(b & Hbp & Eb & _)].
      * by rewrite (Hfr i Hi Hc) in Hold.
      * assert (i = b.1) as -> by (unfold block_page in Eb; lia). by rewrite (Hmk b Hbp) in Hc.
    + intros q g Hg. destruct (Hnew _ _ Hg) as [Hold|(b & Hbp & _ & ->)]; [by apply (HG q)|]. intros <-. apply Hpool. by apply list_elem_of_fmap_2.
  - intros i' Hi' Hlim Hne Hc' E. destruct (Hst i' Hi' Hlim Hc') as (Hu & _). destruct Hfree as [Hf|[Hi2 ->]]; [by rewrite E, Hf in Hu|].
    rewrite !static_phys_eq in E by lia. lia.
Qed.

Lemma block_done k G s h1 h' s2 r i phys G2 :
  heap_ok k G s r -> i <= k -> 0 <= i < map_size (mm_pageHeap s) -> clear s i -> m_pool h1 = pool s ->
  block_mapped G (set_mm_pageHeap h1 s) r i phys G2 s2 ->
  m_pool h' = pool s2 -> m_map h' = <[Z.to_nat i := true]> (m_map (mm_pageHeap s)) -> m_allocating h' = false ->
  block_given k G s r i phys G2 (set_mm_pageHeap h' s2).
Proof using Hl.
  intros Hok Hik Hi Hc Hh1 Hbm Hp' Hm' Ha'. pose proof Hok as [Hmap Hsize Htab Hfr Hpages Hst Hmk Hlen].
  destruct (given_phys k G s h1 s2 r i phys G2 Hok Hc ltac:(lia) Hh1 Hbm) as (Hfresh & Hpool & Hstat).
  destruct Hbm as [B1 (p' & Bh & Bt) B3 B4 B5 B6 B7 B8 B9 B10 (_ & _ & B11) _]. rewrite Bh in Hp'. cbn [mm_tables mm_memory mm_pageHeap set_mm_pageHeap m_pool set_pool] in *.
  rewrite Hh1 in Bt. destruct (pool_taken_sub _ _ _ _ _ Bt) as (Hsub & Hlen' & Hnew).
  assert (forall j, nth_bool (m_map h') j = if i =? j then true else nth_bool (m_map (mm_pageHeap s)) j) as Hnth.
  { intros j. rewrite Hm'. apply nth_bool_insert. exact Hi. }
  assert (forall j, nth_bool (m_map h') j = false -> j <> i /\ clear s j) as Hcl.
  { intros j. rewrite Hnth. destruct (Z.eqb_spec i j); [done|]. by split. }
  assert (phys ∉ map snd p') as Hpool'.
  { intros (b & Eb & Hb)%list_elem_of_fmap. apply Hpool. rewrite Eb. by apply list_elem_of_fmap_2, Hsub. }
  split; cbn [mm_tables mm_memory mm_pageHeap set_mm_pageHeap]; try done; try (by rewrite Hp').
  2:{ intros i' Hi' Hlim Hc'. destruct (Hcl i' Hc'). by apply Hstat. }
  split; cbn [mm_tables mm_memory mm_pageHeap set_mm_pageHeap].
  - apply mapper_heap; [done|]. by rewrite Hp', Bh.
  - unfold map_size. rewrite Hm', length_insert. exact Hsize.
  - intros i' Hi' Hor. rewrite B4. destruct (Z.eq_dec (chunk i') (chunk i)) as [->|Hne]; [done|]. rewrite B5 by done. apply Htab; [done|].
    destruct (Z.eq_dec i' i) as [->|]; [done|]. lia.
  - intros i' Hi' Hc'. destruct (Hcl i' Hc') as [Hne Hcs]. destruct (G2 !! block_page i' 0) as [g|] eqn:E; [|done].
    destruct (Hnew _ _ E) as [Hold|(b & Hb & Eb & _)]; [by rewrite (Hfr i' Hi' Hcs) in Hold|].
    assert (i' = b.1) as -> by (unfold block_page in Eb; lia). by rewrite (Hmk b Hb) in Hcs.
  - intros i' j Hi' Hj Hc'. destruct (Hcl i' Hc') as [Hne Hcs]. rewrite B9 by (done || lia). by apply Hpages.
  - intros i' Hi' Hlim Hc'. destruct (Hcl i' Hc') as [Hne Hcs]. destruct (Hst i' Hi' Hlim Hcs) as (Hu & Hn & Hg). rewrite Hp'. split_and!.
    + by apply B10.
    + intros (b & Eb & Hb)%list_elem_of_fmap. apply Hn. rewrite Eb. by apply list_elem_of_fmap_2, Hsub.
    + intros q g Hq. destruct (Hnew _ _ Hq) as [Hold|(b & Hb & _ & ->)]; [by eapply Hg|]. intros E. apply Hn. rewrite <- E. by apply list_elem_of_fmap_2.
  - rewrite Hp'. intros b Hb. rewrite Hnth. destruct (i =? b.1); [done|]. by apply Hmk, Hsub.
  - rewrite Hp'. lia.
Qed.

Lemma allocPage_table_run k G s r i :
  heap_ok k G s r -> i <= k -> 0 <= i < map_size (mm_pageHeap s) -> clear s i -> frames_size (mm_memory s) + 16 < 2 ^ 40 - 1 ->
  (next_at (mm_tables s) (l2_of (mm_tables s) r) (chunk i) = 0 -> pool s <> []) ->
  Runs (allocPage pdPageHeap (on_kernel nested) i) s (fun block s' => block.1 = i /\ exists G', block_given k G s r i block.2 G' s').
Proof using Hl.
  intros Hok Hik Hi Hc Hsz Hpool. pose proof Hok as [Hmap Hsize Htab Hfr Hpages Hst Hmk Hlen].
  unfold allocPage, heap_update. apply Runs_bind, Runs_modify, Runs_bind, Runs_read, Runs_bind. cbn [get_heap set_heap pdPageHeap].
  apply Runs_assertion; [cbn; by rewrite Hc, orb_true_r|].
  change (map_size (mm_pageHeap _)) with (map_size (mm_pageHeap s)). rewrite (proj2 (Z.leb_gt _ _)) by lia.
  apply Runs_bind, Runs_ret, Runs_bind, Runs_modify. apply Runs_bind. cbn [get_heap set_heap pdPageHeap].
  change (set_mm_pageHeap _ (set_mm_pageHeap ?h s)) with (set_mm_pageHeap (set_map (<[Z.to_nat i := true]> (m_map (mm_pageHeap s))) (set_allocating true (mm_pageHeap s))) s).
  set (h1 := set_map _ _). set (s1 := set_mm_pageHeap h1 s).
  assert (Runs (if isStatic pdPageHeap i then mret (static_phys pdPageHeap i) else map_block pdPageHeap (on_kernel nested) i) s1
    (fun phys s2 => exists G', block_mapped G s1 r i phys G' s2)) as Hrun.
  { assert (isStatic pdPageHeap i = (i <? 16)) as ->.
    { pose proof (limit_bound limit Hl). unfold isStatic. cbn [BlockSize StaticSize pdPageHeap]. rewrite wrap_small by (unfold in_word; lia).
      destruct (Z.ltb_spec (i * 2) 32), (Z.ltb_spec i 16); lia || done. }
    destruct (Z.ltb_spec i 16) as [Hlt|Hge].
    - apply Runs_ret. exists G. apply (static_mapped k); [done|done|lia|lia|done].
    - apply (map_block_run G s1 r i); [by apply mapper_heap|done|done|lia| |done]. intros j Hj. apply Hpages; [lia|done|done]. }
  eapply Runs_mono; [exact Hrun|]. intros phys s2 (G' & Hbm). repeat (apply Runs_bind, Runs_modify). apply Runs_ret. split; [done|]. exists G'.
  pose proof Hbm as [_ (p' & Bh & _) _ _ _ _ _ _ _ _ _ _].
  apply (block_done k G s h1 _ s2 r i phys G'); try done; cbn; by rewrite Bh.
Qed.

(** ** How many blocks there are left

    A block that is given may cost a second one, which goes from the pool into the tables: once for each last-level table that the area
    of the heap still misses.  The blocks below [limit] are enough for [n] requests and for filling the pool again. *)
Definition missing (T : Tables) r : Z := Z.of_nat (length (filter (fun c => next_at T (l2_of T r) c = 0) (chunks limit))).

Definition pool_size s : Z := Z.of_nat (length (pool s)).

Record heap_ready (n : nat) G s r : Prop := {
  hr_ok : heap_ok (map_size (mm_pageHeap s)) G s r;
  hr_idle : m_allocating (mm_pageHeap s) = false;
  hr_blocks : map_size (mm_pageHeap s) + Z.of_nat n + (16 - pool_size s) + missing (mm_tables s) r <= limit;
  hr_pool : missing (mm_tables s) r <= pool_size s;
  hr_frames : frames_size (mm_memory s) + 32 * (Z.of_nat n + (16 - pool_size s) + missing (mm_tables s) r) < 2 ^ 39 + 2 ^ 23;
}.

(** What an allocation does: [block] is given. *)
Record block_taken G s r (block : Z * Z) (G' : ghost) s' : Prop := {
  bt_ok : heap_ok (map_size (mm_pageHeap s')) G' s' r;
  bt_idle : m_allocating (mm_pageHeap s') = false;
  bt_index : 0 <= block.1 < limit;
  bt_marked : nth_bool (m_map (mm_pageHeap s')) block.1 = true;
  bt_size : map_size (mm_pageHeap s) <= map_size (mm_pageHeap s') <= map_size (mm_pageHeap s) + 1;
  bt_pool : pool_size s' - missing (mm_tables s') r = pool_size s - missing (mm_tables s) r /\ pool_size s' <= pool_size s;
  bt_rest : mm_rest s' = mm_rest s;
  bt_grows : grows heap G G' (mm_tables s) (mm_tables s');
  bt_others : others_same heap G (mm_tables s) (mm_tables s');
  bt_memory : mem_le 2 (mm_memory s) (mm_memory s');
  bt_fresh : fresh_table G' (block_page block.1 0) block.2;
  bt_used : used (mm_memory s') (block.2 / 4096) = true;
  bt_new : (block.1 ∉ map fst (pool s')) /\ (block.2 ∉ map snd (pool s'));
  bt_static i : 0 <= i < 16 -> i < limit -> clear s' i -> static_phys pdPageHeap i <> block.2;
}.

Lemma chunks_NoDup : NoDup (chunks limit).
Proof. apply NoDup_seqZ. Qed.

(** Using the table of a block, new or not, costs the pool as many blocks as tables are missing less. *)
Lemma pool_missing T T' r i G G' p p' :
  0 <= i < limit -> l2_of T' r = l2_of T r -> (forall c, c <> chunk i -> next_at T' (l2_of T r) c = next_at T (l2_of T r) c) ->
  next_at T' (l2_of T r) (chunk i) <> 0 -> pool_taken (next_at T (l2_of T r) (chunk i) =? 0) G G' p p' ->
  Z.of_nat (length p') - missing T' r = Z.of_nat (length p) - missing T r.
Proof using Hl.
  intros Hi E2 Hoth Hn Ht. unfold missing. rewrite E2. destruct (Z.eqb_spec (next_at T (l2_of T r) (chunk i)) 0) as [Hz|Hnz].
  - destruct Ht as (b & g & -> & _ & _). rewrite length_app. cbn [length].
    rewrite (filter_one (fun c => next_at T (l2_of T r) c = 0) (fun c => next_at T' (l2_of T r) c = 0) (chunks limit) (chunk i));
      [lia|apply chunks_NoDup|by apply elem_of_chunks; [|exists i]|done|done|]. intros c Hc. by rewrite Hoth.
  - destruct Ht as [_ ->]. rewrite (filter_iff_in (fun c => next_at T' (l2_of T r) c = 0) (fun c => next_at T (l2_of T r) c = 0)); [done|].
    intros c _. destruct (Z.eq_dec c (chunk i)) as [->|Hne]; [done|]. by rewrite Hoth.
Qed.

Lemma missing_pos T r i : 0 <= i < limit -> next_at T (l2_of T r) (chunk i) = 0 -> 0 < missing T r.
Proof using Hl.
  intros Hi Hz. unfold missing. destruct (filter _ _) as [|c l] eqn:E; [|cbn [length]; lia].
  assert (chunk i ∈ filter (fun c => next_at T (l2_of T r) c = 0) (chunks limit)) as Hin.
  { apply list_elem_of_filter. split; [done|]. apply elem_of_chunks; [done|]. by exists i. }
  rewrite E in Hin. by apply elem_of_nil in Hin.
Qed.

(** From the block that [allocPage] gives *)
Lemma given_taken k G s r i phys G' s' :
  block_given k G s r i phys G' s' -> 0 <= i < map_size (mm_pageHeap s) -> map_size (mm_pageHeap s) <= limit -> clear s i ->
  (forall b, b ∈ pool s -> nth_bool (m_map (mm_pageHeap s)) b.1 = true) -> Z.max k (i + 1) = map_size (mm_pageHeap s) ->
  block_taken G s r (i, phys) G' s'.
Proof using Hl.
  intros [B1 B2 B3 B4 B5 B6 B7 B8 B9 B10 B11 B12 B13 B14 B15] Hi Hsize Hc Hmk Hk.
  assert (map_size (mm_pageHeap s') = map_size (mm_pageHeap s)) as Ems by (unfold map_size; by rewrite B3, length_insert).
  split; cbn [fst snd]; try done; [..|split; [|done]].
  - by rewrite Ems, <- Hk.
  - lia.
  - rewrite B3, nth_bool_insert, Z.eqb_refl by (unfold map_size in Hi; lia). done.
  - lia.
  - unfold pool_size. split; [eapply (pool_missing _ _ _ i); [lia|done|done|done|exact B4]|].
    destruct (pool_taken_sub _ _ _ _ _ B4) as (_ & Hle & _). lia.
  - intros (b & Eb & Hb)%list_elem_of_fmap. destruct (pool_taken_sub _ _ _ _ _ B4) as (Hsub & _). specialize (Hmk b (Hsub b Hb)). congruence.
Qed.

(** Making room for one more block changes nothing else. *)
Definition one_more s : MM := set_mm_pageHeap (set_map (m_map (mm_pageHeap s) ++ [false]) (mm_pageHeap s)) s.

Lemma one_more_ok k G s r : heap_ok k G s r -> map_size (mm_pageHeap s) < limit -> heap_ok k G (one_more s) r.
Proof.
  intros [Hmap Hsize Htab Hfr Hpages Hst Hmk Hlen] Hlt.
  assert (forall i, nth_bool (m_map (mm_pageHeap s) ++ [false]) i = nth_bool (m_map (mm_pageHeap s)) i) as E by (intros; apply (nth_bool_app_false _ 1)).
  split; unfold one_more; cbn [mm_tables mm_memory mm_pageHeap set_mm_pageHeap m_map set_map m_pool]; try done.
  - by apply mapper_heap.
  - unfold map_size in *. cbn [m_map set_map]. rewrite length_app. cbn [length]. lia.
  - intros i. rewrite E. apply Hfr.
  - intros i j. rewrite E. apply Hpages.
  - intros i. rewrite E. apply Hst.
  - intros b. rewrite E. apply Hmk.
Qed.

Lemma find_clear_nth l i : find_clear l 0 = Some i -> 0 <= i < Z.of_nat (length l) /\ nth_bool l i = false.
Proof.
  intros (Hr & Hi & _)%find_clear_Some. rewrite Z.sub_0_r in Hi. split; [lia|]. unfold nth_bool. rewrite bool_decide_true by lia. by rewrite Hi.
Qed.

(** ** [allocBlock] *)
Lemma allocBlock_run n G s r :
  heap_ready n G s r -> 0 < Z.of_nat n + (16 - pool_size s) ->
  Runs (allocBlock pdPageHeap (on_kernel nested)) s (fun block s' => exists G', block_taken G s r block G' s').
Proof using Hl.
  intros [Hok Hidle Hblocks Hpool Hframes] Hsome. pose proof (limit_bound limit Hl) as Hlim. pose proof Hok as [Hmap Hsize _ _ _ _ Hmk Hlen].
  assert (0 <= missing (mm_tables s) r) as Hm0 by (unfold missing; lia). assert (pool_size s <= 16) as Hp16 by (unfold pool_size; lia).
  assert (forall i, 0 <= i < limit -> next_at (mm_tables s) (l2_of (mm_tables s) r) (chunk i) = 0 -> pool s <> []) as Hne.
  { intros i Hi Hz E. pose proof (missing_pos _ _ _ Hi Hz). unfold pool_size in Hpool. rewrite E in Hpool. cbn in Hpool. lia. }
  unfold allocBlock. apply Runs_bind, Runs_read. cbn [get_heap pdPageHeap]. rewrite Hidle.
  destruct (find_clear (m_map (mm_pageHeap s)) 0) as [i|] eqn:Hf.
  - apply find_clear_nth in Hf as [Hi Hc]. fold (map_size (mm_pageHeap s)) in Hi.
    eapply Runs_mono; [apply (allocPage_table_run _ G s r i Hok); [lia|done|done|lia|apply Hne; lia]|].
    intros [i' phys] s' [Ei (G' & Hg)]. cbn [fst snd] in Ei, Hg. rewrite Ei. exists G'. eapply given_taken; [exact Hg|done|done|done|exact Hmk|lia].
  - set (k := map_size (mm_pageHeap s)) in *. rewrite (wrap_small 32 k) by (unfold in_word, k, map_size in *; lia).
    assert (0 <= k < limit) as Hk by (unfold k, map_size in *; lia).
    apply Runs_bind. unfold heap_update. apply Runs_modify. cbn [get_heap set_heap pdPageHeap].
    rewrite (wrap_small 32 (k + 1)) by (unfold in_word; lia).
    assert (resize (Z.to_nat (k + 1)) false (m_map (mm_pageHeap s)) = m_map (mm_pageHeap s) ++ [false]) as ->.
    { unfold k, map_size. rewrite resize_ge by lia. f_equal. by replace (Z.to_nat _ - length _)%nat with 1%nat by lia. }
    change (set_mm_pageHeap _ s) with (one_more s).
    assert (map_size (mm_pageHeap (one_more s)) = k + 1) as Ek.
    { unfold map_size, one_more. cbn. rewrite length_app. cbn [length]. unfold k, map_size. lia. }
    assert (nth_bool (m_map (mm_pageHeap (one_more s))) k = false) as Hc.
    { unfold one_more. cbn [m_map set_map mm_pageHeap set_mm_pageHeap]. rewrite (nth_bool_app_false _ 1).
      destruct (nth_bool _ k) eqn:E; [|done]. apply nth_bool_range in E. unfold k, map_size in E. lia. }
    eapply Runs_mono; [apply (allocPage_table_run k G (one_more s) r k); [by apply one_more_ok; [|lia]|lia|lia|done|unfold one_more; cbn [mm_memory set_mm_pageHeap]; lia|]|].
    { intros Hz. apply (Hne k); [lia|exact Hz]. }
    intros [i' phys] s' [Ei (G' & Hg)]. cbn [fst snd] in Ei, Hg. rewrite Ei. exists G'.
    pose proof (given_taken k G (one_more s) r k phys G' s' Hg) as Ht. destruct Ht as [T1 T2 T3 T4 T5 T6 T7 T8 T9 T10 T11 T12 T13 T14]; [lia|lia|done| |lia|].
    { intros b. unfold one_more. cbn [m_map set_map mm_pageHeap set_mm_pageHeap m_pool]. rewrite (nth_bool_app_false _ 1). apply Hmk. }
    split; try done. rewrite Ek in T5. unfold k in *. pose proof (bg_map _ _ _ _ _ _ _ _ Hg) as Em. unfold map_size in *. rewrite Em, length_insert. unfold one_more.
    cbn [m_map set_map mm_pageHeap set_mm_pageHeap]. rewrite length_app. cbn [length]. lia.
Qed.

(** ** What the heap sees of the tables *)
Record heap_view (T T2 : Tables) r : Prop := {
  hv_l3 : next_at T2 r 511 = next_at T r 511;
  hv_l2 : l2_of T2 r = l2_of T r;
  hv_next i : 0 <= i < limit -> next_at T2 (l2_of T r) (chunk i) = next_at T (l2_of T r) (chunk i);
  hv_pte i j : 0 <= i < limit -> 0 <= j < 2 -> pte_at T2 r (block_page i j) = pte_at T r (block_page i j);
}.

Lemma heap_same_view G T T2 r :
  tables_wf G T -> is_root G r -> next_at T r 511 <> 0 -> l2_of T r <> 0 -> heap_same heap G T T2 -> heap_view T T2 r.
Proof using Hl.
  intros Hwf Hr H3 H2 Hsame. pose proof (hl_limit _ Hl) as Hlim. destruct (l2_info G T r Hwf Hr H3 H2) as (g3 & g2 & Hg3 & Hg2 & _).
  destruct (VBase_indices _ (block_upper limit Hl 0 0 ltac:(lia) ltac:(lia))) as [I4 I3].
  pose proof (block_in_heap limit Hl 0 0 ltac:(lia) ltac:(lia)) as Hin. pose proof Hr as (g & Hg & _).
  pose proof (root_on_path G r (block_page 0 0) Hr) as P4.
  assert (on_path G 3 (next_at T r 511) (block_page 0 0)) as P3.
  { rewrite <- I4. apply (on_path_next G T Hwf 4 r); [exact P4|by rewrite I4]. }
  assert (next_at T2 r 511 = next_at T r 511) as E3.
  { apply (Hsame r 511 g Hg). rewrite <- I4. apply (path_heap_slot heap G 4 r _ g Hg P4); [unfold LevelCount; lia|exact Hin]. }
  assert (next_at T2 (next_at T r 511) 511 = l2_of T r) as E2.
  { apply (Hsame _ 511 g3 Hg3). rewrite <- I3. apply (path_heap_slot heap G 3 _ _ g3 Hg3 P3); [unfold LevelCount; lia|exact Hin]. }
  assert (l2_of T2 r = l2_of T r) as E2' by (unfold l2_of at 1; by rewrite E3).
  assert (forall i, 0 <= i < limit -> next_at T2 (l2_of T r) (chunk i) = next_at T (l2_of T r) (chunk i)) as E1.
  { intros i Hi. apply (Hsame _ _ g2 Hg2). by apply (chunk_heap_slot G T r). }
  split; [done|done|done|]. intros i j Hi Hj. unfold pte_at.
  rewrite (block_walk T2 r i j Hi Hj), (block_walk T r i j Hi Hj) by (done || by rewrite ?E3, ?E2'). rewrite E2', E1 by done.
  destruct (Z.eqb_spec (next_at T (l2_of T r) (chunk i)) 0) as [|Hn]; [done|].
  pose proof (l2_on_path G T r i j Hwf Hr H3 H2 Hi Hj) as P2. pose proof (proj1 (proj2 (block_chunk limit Hl i j Hi Hj))) as I2.
  rewrite <- I2 in Hn. destruct (on_path_next G T Hwf 2 _ _ P2 Hn) as [_ P1]. rewrite I2 in P1. pose proof P1 as (g1 & Hg1 & _).
  apply (Hsame _ _ g1 Hg1). apply (path_heap_slot heap G 1 _ _ g1 Hg1 P1); [unfold LevelCount; lia|by apply block_in_heap].
Qed.

Lemma unreached_view s T2 F r :
  unreached s F -> same_but F (mm_tables s) T2 -> ~ F r -> heap_view (mm_tables s) T2 r.
Proof.
  intros HF Hsame Hr. pose proof (proj2 HF) as Hclosed.
  assert (next_at T2 r 511 = next_at (mm_tables s) r 511) as E3 by (by apply Hsame).
  assert (l2_of T2 r = l2_of (mm_tables s) r) as E2 by (unfold l2_of; rewrite E3; by apply Hsame, Hclosed).
  split; [done|done| |].
  - intros i _. apply Hsame. unfold l2_of. by do 2 apply Hclosed.
  - intros i j _ _. by apply (unreached_pte s T2 F).
Qed.

Lemma view_missing T T2 r : heap_view T T2 r -> missing T2 r = missing T r.
Proof using Hl.
  intros [_ E2 E1 _]. unfold missing. rewrite E2. do 2 f_equal. apply filter_iff_in.
  intros c (i & Hi & ->)%elem_of_chunks; [|done]. by rewrite E1.
Qed.

(** A table that is added: none of the blocks that the heap still has *)
Definition new_to_heap s (q : Z) (g : table_info) : Prop :=
  used (mm_memory s) (t_phys g / 4096) = true /\
  (forall b, b ∈ pool s -> q <> block_page b.1 0 /\ t_phys g <> b.2) /\
  forall i, 0 <= i < limit -> clear s i -> q <> block_page i 0 /\ (i < 16 -> t_phys g <> static_phys pdPageHeap i).

Lemma heap_ok_view k G s r G2 T2 :
  heap_ok k G s r -> heap_view (mm_tables s) T2 r -> tables_wf G2 T2 -> G ⊆ G2 ->
  (forall q g, G2 !! q = Some g -> G !! q = Some g \/ new_to_heap s q g) ->
  heap_ok k G2 (set_mm_tables T2 s) r.
Proof.
  intros [[[Hwf Hr Ho] M2 M3 M4 M5 M6 M7 M8 M9] Hsize Htab Hfr Hpages Hst Hmk Hlen] [V3 V2 V1 V0] Hwf2 Hsub Hnew.
  split; cbn [mm_tables mm_memory mm_pageHeap set_mm_tables]; try done.
  - split; cbn [mm_tables mm_memory mm_pageHeap set_mm_tables]; try done.
    + split; [done| |by eapply (directory_of_grown G)]. destruct Hr as (g & Hg & ?). exists g. split; [by eapply lookup_weaken|done].
    + by rewrite V3.
    + by rewrite V2.
    + intros q g Hq. destruct (Hnew q g Hq) as [Hold|(Hu & _)]; [by eapply M6|done].
    + intros b Hb. destruct (M7 b Hb) as (H1 & (F1 & F2 & F3 & F4 & F5) & H3). split; [done|]. split; [|done].
      split; [done|]. split; [|split; [done|split; [done|]]].
      * destruct (G2 !! block_page b.1 0) as [g|] eqn:E; [|done]. destruct (Hnew _ _ E) as [Hold|(_ & Hb2 & _)]; [by rewrite F2 in Hold|].
        by destruct (Hb2 b Hb).
      * intros q g Hq. destruct (Hnew q g Hq) as [Hold|(_ & Hb2 & _)]; [by eapply F5|by apply Hb2].
  - intros i Hi Hor. rewrite V2, V1 by done. by apply Htab.
  - intros i Hi Hc. destruct (G2 !! block_page i 0) as [g|] eqn:E; [|done].
    destruct (Hnew _ _ E) as [Hold|(_ & _ & Hc2)]; [by rewrite (Hfr i Hi Hc) in Hold|]. by destruct (Hc2 i Hi Hc).
  - intros i j Hi Hj Hc. rewrite V0 by lia. by apply Hpages.
  - intros i Hi Hlim Hc. destruct (Hst i Hi Hlim Hc) as (H1 & H2 & H3). split; [done|]. split; [done|].
    intros q g Hq. destruct (Hnew q g Hq) as [Hold|(_ & _ & Hc2)]; [by eapply H3|]. apply Hc2; [lia|done|lia].
Qed.

Lemma heap_ready_view n G s r G2 T2 :
  heap_ready n G s r -> heap_view (mm_tables s) T2 r -> tables_wf G2 T2 -> G ⊆ G2 ->
  (forall q g, G2 !! q = Some g -> G !! q = Some g \/ new_to_heap s q g) ->
  heap_ready n G2 (set_mm_tables T2 s) r.
Proof using Hl.
  intros [H1 H2 H3 H4 H5] Hv Hwf Hsub Hnew. pose proof (view_missing _ _ _ Hv) as Em.
  split; cbn [mm_tables mm_memory mm_pageHeap set_mm_tables]; unfold pool_size in *; rewrite ?Em; try done. by eapply heap_ok_view.
Qed.

(** ** The pool is filled again *)
Lemma push_ready n G s r block G' s' :
  block_taken G s r block G' s' -> heap_ready n G s r -> pool_size s < 16 ->
  heap_ready n G' (set_mm_pageHeap (set_pool (pool s' ++ [block]) (mm_pageHeap s')) s') r.
Proof.
  intros [T1 T2 T3 T4 T5 T6 T7 T8 T9 T10 T11 T12 [T13 T14] T15] [_ _ Hblocks Hpool Hframes] H16.
  assert (forall A (f : Z * Z -> A), map f (pool s' ++ [block]) = map f (pool s') ++ [f block]) as Hmap by (intros; apply map_app).
  destruct T10 as (_ & _ & Hsz). unfold pool_size in *.
  split; cbn [mm_tables mm_memory mm_pageHeap set_mm_pageHeap m_pool set_pool m_allocating]; unfold pool_size;
    cbn [mm_tables mm_memory mm_pageHeap set_mm_pageHeap m_pool set_pool]; try (rewrite length_app; cbn [length]); try done.
  - destruct T1 as [[D M2 M3 M4 M5 M6 M7 M8 M9] Hsize Htab Hfr Hpages Hst Hmk Hlen].
    split; cbn [mm_tables mm_memory mm_pageHeap set_mm_pageHeap m_pool set_pool m_map]; try done.
    + split; cbn [mm_tables mm_memory mm_pageHeap set_mm_pageHeap m_pool set_pool]; try done.
      * destruct D as [Hw Hr Ho]. by split.
      * intros b [Hb| ->%list_elem_of_singleton]%elem_of_app; [by apply M7|done].
      * rewrite Hmap. apply NoDup_app. split; [done|]. split; [|apply NoDup_singleton]. by intros x Hx ->%list_elem_of_singleton.
      * rewrite Hmap. apply NoDup_app. split; [done|]. split; [|apply NoDup_singleton]. by intros x Hx ->%list_elem_of_singleton.
    + intros i Hi Hlim Hc. destruct (Hst i Hi Hlim Hc) as (H1 & H2 & H3). split; [done|]. split; [|done].
      rewrite Hmap, elem_of_app, list_elem_of_singleton. intros [?|E]; [done|]. by apply (T15 i Hi Hlim Hc).
    + intros b [Hb| ->%list_elem_of_singleton]%elem_of_app; [by apply Hmk|done].
    + rewrite length_app. cbn [length]. lia.
  - change (map_size (set_pool _ _)) with (map_size (mm_pageHeap s')). lia.
  - lia.
  - lia.
Qed.

(** From [s] to [s'] the heap has mapped pages of its own and taken [c] physical pages at most; it has blocks for [n] more requests. *)
Definition heap_step n c G s r (G' : ghost) s' : Prop :=
  heap_ready n G' s' r /\ mm_rest s' = mm_rest s /\
  grows heap G G' (mm_tables s) (mm_tables s') /\ others_same heap G (mm_tables s) (mm_tables s') /\ mem_le c (mm_memory s) (mm_memory s').

Lemma heap_ready_wf n G s r : heap_ready n G s r -> tables_wf G (mm_tables s) /\ memory_wf (mm_memory s).
Proof. intros [[[[? _ _] _ _ _ ? _ _ _ _] _ _ _ _ _ _ _] _ _ _ _]. done. Qed.

Lemma refill_loop_run n m G s r :
  heap_ready n G s r -> 16 - pool_size s + missing (mm_tables s) r <= Z.of_nat m ->
  Runs (refill_loop pdPageHeap (on_kernel nested) m) s (fun _ s' => exists G', heap_step n (2 * Z.of_nat m) G s r G' s').
Proof using Hl.
  assert (forall T, 0 <= missing T r) as Hmiss by (intros; unfold missing; lia).
  revert G s. induction m as [|m IH]; intros G s Hr Hm; cbn [refill_loop]; apply Runs_bind, Runs_read; cbn [get_heap pdPageHeap PoolSize];
    fold (pool_size s); destruct (heap_ready_wf n G s r Hr) as [Hwf Hmem]; pose proof (Hmiss (mm_tables s)).
  1,2: destruct (Z.ltb_spec (pool_size s) 16) as [Hlt|Hge];
    [|apply Runs_ret; exists G; split; [done|]; split; [done|]; split; [by apply grows_refl|]; split; [done|]; apply mem_le_refl; [lia|done]].
  - lia.
  - apply Runs_bind. eapply Runs_mono; [apply (allocBlock_run n G s r Hr); lia|].
    intros block s1 (G1 & Ht). apply Runs_bind, Runs_modify. cbn [get_heap set_heap pdPageHeap].
    change (set_mm_pageHeap _ s1) with (set_mm_pageHeap (set_pool (pool s1 ++ [block]) (mm_pageHeap s1)) s1).
    set (s2 := set_mm_pageHeap _ s1). pose proof (push_ready n G s r block G1 s1 Ht Hr Hlt) as Hr2. fold s2 in Hr2.
    destruct Ht as [_ _ _ _ _ [T5 _] T6 T7 T8 T9 _ _ _ _].
    eapply Runs_mono; [apply (IH G1 s2 Hr2)|].
    { unfold pool_size in *. cbn [mm_tables mm_pageHeap set_mm_pageHeap m_pool set_pool s2]. rewrite length_app. cbn [length]. lia. }
    intros [] s' (G' & H1 & H2 & H3 & H4 & H5). exists G'. split; [done|]. split; [by rewrite H2|].
    split; [eapply grows_trans; [done|exact T7|exact H3]|]. split; [eapply others_same_trans; [apply T7|exact T8|exact H4]|].
    eapply mem_le_mono; [|eapply mem_le_trans; [exact T9|exact H5]]. lia.
Qed.

Lemma refillPool_run n G s r :
  (16 <= fuel)%nat -> heap_ready n G s r ->
  Runs (refillPool pdPageHeap (on_kernel nested) fuel) s (fun _ s' => exists G', heap_step n (2 * Z.of_nat fuel) G s r G' s').
Proof using Hl.
  intros Hf Hr. unfold refillPool. apply Runs_bind, Runs_read. cbn [get_heap pdPageHeap]. rewrite (hr_idle _ _ _ _ Hr).
  apply refill_loop_run; [done|]. destruct Hr as [_ _ _ Hp _]. lia.
Qed.

(** ** [kmalloc] *)
Lemma taken_ready n G s r block G' s' g T2 :
  block_taken G s r block G' s' -> heap_ready (S n) G s r -> t_phys g = block.2 ->
  heap_same heap G' (mm_tables s') T2 -> tables_wf (<[block_page block.1 0 := g]> G') T2 ->
  heap_ready n (<[block_page block.1 0 := g]> G') (set_mm_tables T2 s') r.
Proof using Hl.
  intros [T1 T2' T3 T4 T5 [T6 T6'] T7 T8 T9 T10 T11 T12 [T13 T14] T15] [_ _ Hblocks Hpool Hframes] Hg Hsame Hwf.
  destruct T10 as (_ & _ & Hsz). pose proof T11 as (_ & Hnew & _).
  apply (heap_ready_view n G'); [|destruct T1 as [[[W R _] _ H3 H2 _ _ _ _ _] _ _ _ _ _ _ _]; by apply (heap_same_view G')|done|by apply insert_subseteq|].
  - split; [done|done|lia|lia|lia].
  - intros q g' [[<- <-]|[_ Hq]]%lookup_insert_Some; [right|by left]. split; [by rewrite Hg|]. split.
    + intros b Hb. split.
      * intros E. apply T13. assert (block.1 = b.1) as -> by (unfold block_page in E; lia). by apply list_elem_of_fmap_2.
      * rewrite Hg. intros E. apply T14. rewrite E. by apply list_elem_of_fmap_2.
    + intros i Hi Hc. split.
      * intros E. assert (block.1 = i) as E' by (unfold block_page in E; lia). rewrite E', Hc in T4. done.
      * intros Hlt. rewrite Hg. intros E. by apply (T15 i ltac:(lia) ltac:(lia) Hc).
Qed.

Lemma table_kmalloc_run n G s r :
  heap_ready (S n) G s r ->
  Runs (kmalloc pdPageHeap (on_kernel nested)) s (fun b s' => exists block G',
    b = (block_page block.1 0, block.2) /\ block_taken G s r block G' s').
Proof using Hl.
  intros Hr. unfold kmalloc. apply Runs_bind. eapply Runs_mono; [apply (allocBlock_run (S n) G s r Hr)|].
  - destruct Hr as [[_ _ _ _ _ _ _ Hlen] _ _ _ _]. unfold pool_size. lia.
  - intros block s' (G' & Ht). apply Runs_ret. exists block, G'. split; [|done]. rewrite (block_pageToPtr limit Hl); [done|]. apply (bt_index _ _ _ _ _ _ Ht).
Qed.

(** ** What any run takes of the physical pages *)
Definition kept (m : Memory) s : Prop := m_allocating (mm_pageHeap s) = true /\ mm_memory s = m.

Lemma pool_kmalloc_kept rec m : agree (kept m) (kept m) (kmalloc pdPageHeap (on_kernel rec)) (kmalloc pdPageHeap (on_kernel rec)).
Proof.
  unfold kmalloc. eapply agree_bind; [|intros; apply agree_ret]. intros s [Ha Hm]. split; [done|]. intros b s' Hrun.
  unfold allocBlock in Hrun. rewrite bind_read in Hrun. cbn [get_heap pdPageHeap] in Hrun. rewrite Ha in Hrun.
  unfold assertion, mbind, ST_bind in Hrun. cbn in Hrun. destruct (last _); [|done]. by injection Hrun as _ <-.
Qed.

Lemma mapPageToF_kept rec m this a paddr f s (r : unit) s' :
  kept m s -> @mapPageToF (pd_allocator rec) this a paddr f s = Ok (r, s') -> kept m s'.
Proof.
  intros Hs Hrun. assert (forall s0 T, kept m s0 -> kept m (set_mm_tables T s0)) as HT by (by intros s0 T []).
  exact (proj2 (agree_mapPageToF (kept m) HT (pd_allocator rec) (pd_allocator rec) (pool_kmalloc_kept rec m) this a paddr f s Hs) r s' Hrun).
Qed.

Lemma nested_memory this a s pa s' :
  m_allocating (mm_pageHeap s) = true -> memory_wf (mm_memory s) -> frames_size (mm_memory s) < 2 ^ 62 ->
  nested this a heap_attributes s = Ok (pa, s') -> m_allocating (mm_pageHeap s') = true /\ mem_le 1 (mm_memory s) (mm_memory s').
Proof.
  intros Ha Hm Hsz Hrun. rewrite mapPage_nested_S in Hrun. unfold mapPage in Hrun. change (has_attr heap_attributes ATTR_DEFER) with false in Hrun.
  apply bind_ok in Hrun as ([] & s0 & H0 & Hrun). unfold ready_assert, assertion, mbind, ST_bind, read_state in H0.
  destruct (g_pagingReady s); [injection H0 as <-|done].
  apply bind_ok in Hrun as (target & s1 & H1 & Hrun). apply bind_ok in H1 as (page & s2 & H2 & H1).
  pose proof (getFreePage_run (mm_memory s) Hm Hsz) as Hfree. unfold Runs in Hfree. unfold memory, zoom in H2.
  destruct (getFreePage (mm_memory s)) as [[page' m']|]; [|done]. injection H2 as -> <-.
  destruct Hfree as ((_ & _ & _ & Hwf & _ & Hused) & _ & Hsize).
  apply bind_ok in H1 as ([] & s2 & H2 & H1). unfold assertion in H2. destruct (negb _); [injection H2 as <-|done]. injection H1 as _ <-.
  apply bind_ok in Hrun as ([] & s2 & Hmap & Hrun). injection Hrun as _ <-.
  unfold mapPageTo in Hmap. apply bind_ok in Hmap as ([] & s3 & H3 & Hmap). unfold ready_assert, assertion, mbind, ST_bind, read_state in H3.
  destruct (g_pagingReady _); [injection H3 as <-|done].
  apply bind_ok in Hmap as ([] & s4 & H4 & Hmap). unfold _mapPageTo in H4.
  apply bind_ok in H4 as ([] & s5 & H5 & H4). destruct (_ && _) in H5; [done|]. injection H5 as <-.
  apply bind_ok in H4 as ([] & s5 & H5 & H4). destruct (_ && _) in H5; [done|]. injection H5 as <-.
  change ((0 <=? heap_attributes) && (heap_attributes <=? 15)) with true in H4. cbn iota in H4.
  apply (mapPageToF_kept _ m') in H4 as [Ha4 Hm4]; [|by split].
  unfold refillPool in Hmap. rewrite bind_read in Hmap. cbn [get_heap pdPageHeap] in Hmap. rewrite Ha4 in Hmap. injection Hmap as <-.
  split; [done|]. rewrite Hm4. split; [done|]. split; [|lia]. intros p Hp. by rewrite Hused, Hp, orb_true_r.
Qed.

Lemma map_block_memory i s phys s' :
  m_allocating (mm_pageHeap s) = true -> memory_wf (mm_memory s) -> frames_size (mm_memory s) < 2 ^ 40 ->
  map_block pdPageHeap (on_kernel nested) i s = Ok (phys, s') -> mem_le 2 (mm_memory s) (mm_memory s').
Proof.
  intros Ha Hm Hsz Hrun. unfold map_block in Hrun. cbn [BlockSize pdPageHeap] in Hrun. change (seqZ 1 (2 - 1)) with [1] in Hrun. cbn [for_each] in Hrun.
  apply bind_ok in Hrun as (pa & s1 & H1 & Hrun). unfold on_kernel in H1. apply bind_ok in H1 as (k & s0 & H0 & H1). injection H0 as <- <-.
  destruct (nested_memory _ _ _ _ _ Ha Hm ltac:(lia) H1) as [Ha1 (Hm1 & Hu1 & Hs1)].
  apply bind_ok in Hrun as ([] & s2 & H2 & Hrun). injection Hrun as _ <-. apply bind_ok in H2 as ([] & s3 & H3 & H2). injection H2 as <-.
  apply bind_ok in H3 as (pa2 & s4 & H3 & H4). injection H4 as <-. unfold on_kernel in H3. apply bind_ok in H3 as (k & s5 & H0 & H3). injection H0 as <- <-.
  destruct (nested_memory _ _ _ _ _ Ha1 Hm1 ltac:(lia) H3) as [_ (Hm2 & Hu2 & Hs2)].
  split; [done|]. split; [auto|lia].
Qed.

Lemma allocPage_memory i s b s' :
  memory_wf (mm_memory s) -> frames_size (mm_memory s) < 2 ^ 40 ->
  allocPage pdPageHeap (on_kernel nested) i s = Ok (b, s') -> mem_le 2 (mm_memory s) (mm_memory s').
Proof.
  intros Hm Hsz Hrun. unfold allocPage, heap_update in Hrun. apply bind_ok in Hrun as ([] & s1 & H1 & Hrun). injection H1 as <-. rewrite bind_read in Hrun.
  apply bind_ok in Hrun as ([] & s1 & H1 & Hrun). unfold assertion in H1. destruct (_ || _) in H1; [injection H1 as <-|done].
  apply bind_ok in Hrun as ([] & s2 & H2 & Hrun).
  assert (mm_memory s2 = mm_memory s /\ m_allocating (mm_pageHeap s2) = true) as [E2 A2].
  { destruct (_ <=? i) in H2; [|by injection H2 as <-]. apply bind_ok in H2 as ([] & s3 & H3 & H2). unfold assertion in H3.
    destruct (i =? _) in H3; [injection H3 as <-|done]. by injection H2 as <-. }
  apply bind_ok in Hrun as ([] & s3 & H3 & Hrun). injection H3 as <-. apply bind_ok in Hrun as (phys & s4 & H4 & Hrun).
  apply bind_ok in Hrun as ([] & s5 & H5 & Hrun). injection H5 as <-. apply bind_ok in Hrun as ([] & s5 & H5 & Hrun). injection H5 as <-.
  injection Hrun as _ <-. cbn [mm_memory set_heap set_mm_pageHeap pdPageHeap].
  destruct (isStatic pdPageHeap i).
  - injection H4 as _ <-. cbn [mm_memory set_heap set_mm_pageHeap pdPageHeap]. rewrite E2. by apply mem_le_refl.
  - rewrite <- E2. apply (map_block_memory i _ phys s4) in H4; cbn [mm_memory mm_pageHeap set_heap set_mm_pageHeap pdPageHeap]; [exact H4|exact A2|by rewrite E2|by rewrite E2].
Qed.

Lemma table_kmalloc_memory s b s' :
  memory_wf (mm_memory s) -> frames_size (mm_memory s) < 2 ^ 40 ->
  kmalloc pdPageHeap (on_kernel nested) s = Ok (b, s') -> mem_le 2 (mm_memory s) (mm_memory s').
Proof.
  intros Hm Hsz Hrun. unfold kmalloc in Hrun. apply bind_ok in Hrun as (item & s1 & Hb & Hrun). injection Hrun as _ <-.
  unfold allocBlock in Hb. rewrite bind_read in Hb. cbn [get_heap pdPageHeap] in Hb. destruct (m_allocating (mm_pageHeap s)).
  - apply bind_ok in Hb as ([] & t & Ha & Hb). unfold assertion in Ha. destruct (negb _) in Ha; [injection Ha as <-|done].
    destruct (last _) as [b0|]; [|unfold assertion, mbind, ST_bind in Hb; done].
    apply bind_ok in Hb as ([] & t & Ha & Hb). injection Ha as <-. injection Hb as _ <-. by apply mem_le_refl.
  - destruct (find_clear _ 0) as [i|]; [by eapply allocPage_memory|].
    apply bind_ok in Hb as ([] & t & H0 & Hb). injection H0 as <-. by eapply (allocPage_memory _ (set_mm_pageHeap _ s)) in Hb.
Qed.
End mapper.

(** ** The allocator of the kernel keeps what the tables ask of it *)
Section instances.
Context `{Symbols} (limit : Z) (Hl : heap_layout limit) (fuel nesting : nat) (Hfuel : (16 <= fuel)%nat).
Implicit Types (s : MM) (G : ghost).

Definition kernel_allocator : TableAllocator MM := pd_allocator (mapPage_nested fuel (S nesting)).
Definition kernel_refill : ST MM unit := refillPool pdPageHeap (on_kernel (mapPage_nested fuel (S nesting))) fuel.

Definition kernel_alloc_ready (n : nat) G s : Prop := exists r, heap_ready limit n G s r.

#[refine] Instance kernel_laws : @TableAllocatorLaws MM _ mm_rest MM_tables kernel_allocator :=
  @Build_TableAllocatorLaws MM _ mm_rest MM_tables kernel_allocator (fun T s => eq_refl) (in_heap limit) kernel_alloc_ready _ _.
Proof.
  - intros n G s T Hwf [r Hr] Hsame. exists r. apply (heap_ready_view limit Hl n G); [done| |done|done|by left].
    destruct Hr as [[[[W R _] _ H3 H2 _ _ _ _ _] _ _ _ _ _ _ _] _ _ _ _]. by apply (heap_same_view limit Hl G).
  - intros n G s Hwf [r Hr]. eapply Runs_mono; [apply (table_kmalloc_run limit Hl fuel nesting n G s r Hr)|].
    intros b s' (block & G' & -> & Ht). exists G'. pose proof Ht as [T1 _ _ _ _ _ T6 T7 T8 _ T10 _ _ _].
    split; [done|]. split; [|split; [done|split; [done|split; [done|]]]].
    + destruct T1 as [[[W _ _] _ _ _ _ _ _ _ _] _ _ _ _ _ _ _]. exact W.
    + intros g T2 Hg Hsame _ Hwf2. exists r. by apply (taken_ready limit Hl n G s).
Defined.

(** Taking a page that is free leaves the heap as it is. *)
Lemma heap_ready_memory n G s r m :
  heap_ready limit n G s r -> memory_wf m -> (forall p, used (mm_memory s) p = true -> used m p = true) -> frames_size m < 2 ^ 39 ->
  heap_ready limit n G (set_mm_memory m s) r.
Proof using Hl.
  clear Hfuel. intros [[Hmap Hsize Htab Hfr Hpages Hst Hmk Hlen] H2 H3 H4 H5] Hwf Hu Hsz. pose proof (limit_bound limit Hl).
  assert (0 <= map_size (mm_pageHeap s)) as Hpos by (unfold map_size; lia).
  split; cbn [mm_tables mm_memory mm_pageHeap set_mm_memory]; unfold pool_size in *; cbn [mm_tables mm_memory mm_pageHeap set_mm_memory]; [|done|done|done|lia].
  split; cbn [mm_tables mm_memory mm_pageHeap set_mm_memory]; try done; [by apply mapper_memory|].
  intros i Hi Hlim Hc. destruct (Hst i Hi Hlim Hc) as (Hst1 & Hst2). split; [by apply Hu|done].
Qed.

#[refine] Instance kernel_memory_laws : @MemoryLaws kernel_allocator kernel_laws kernel_refill := {| table_cost := 2 * Z.of_nat fuel |}.
Proof.
  - lia.
  - intros s b s' Hwf Hsz Hrun. assert (2 <= 2 * Z.of_nat fuel) as Hle by lia.
    exact (mem_le_mono 2 _ _ _ Hle (table_kmalloc_memory fuel nesting s b s' Hwf Hsz Hrun)).
  - intros n m G s Hle [r [H1 H2 H3 H4 H5]]. exists r. split; try done; lia.
  - intros n G s m [r Hr] (Hwf & Hu & _) Hsz. exists r. by apply heap_ready_memory.
  - intros n G s d cr3 [r [[[[W R O] ? ? ? ? ? ? ? ?] ? ? ? ? ? ? ?] ? ? ? ?]]. exists r. by split.
  - intros n G s this d [r [[[[W R (c & Hc & O)] ? ? ? ? ? ? ? ?] ? ? ? ? ? ? ?] ? ? ? ?]] Hne. exists r. split; try done. split; try done. split; try done.
    split; [done|done|]. exists c. cbn. by rewrite lookup_insert_ne.
  - intros n G s T F [r Hr] HF Hsame Hwf. exists r. apply (heap_ready_view limit Hl n G); [done| |done|done|by left].
    apply (unreached_view limit s T F); [done|done|]. destruct Hr as [[[[_ _ (c & Hc & O)] ? ? ? ? ? ? ? ?] ? ? ? ? ? ? ?] ? ? ? ?].
    apply (proj1 HF (mkPageDirectory (t_phys c) r) O).
  - intros n Hn. destruct (in_heap_block limit Hl n Hn) as (i & j & Hi & Hj & ->).
    pose proof (block_upper limit Hl i j Hi Hj) as Hu. change 2%nat with (0 + 2)%nat in Hu. rewrite prefix_shift, Z.shiftr_div_pow2 in Hu by lia.
    change (2 ^ (9 * Z.of_nat 2)) with (2 ^ 18) in Hu. Z.to_euclidean_division_equations. lia.
  - intros n G s Hwf [r Hr] Hmem. eapply Runs_mono; [by apply (refillPool_run limit Hl fuel nesting n G s r)|].
    intros _ s' (G' & H1 & H2 & H3 & H4 & H5). exists G'. split; [done|]. split; [by apply (heap_ready_wf limit n G' s' r)|].
    split; [done|]. split; [done|]. split; [by exists r|done].
Defined.
End instances.

(** ** Many pages for a task *)
Section many_pages.
Context `{!TableAllocator MM, !TableAllocatorLaws MM mm_rest} (refillPool : ST MM unit) `{!MemoryLaws refillPool}.
Context (R : Z -> Prop) (this r attributes : Z) (Hattr : has_attr attributes ATTR_DEFER = false).
Implicit Types (s : MM) (G : ghost) (l : list Z).

(** The pages of [l] can be mapped, and have been. *)
Definition can_map s l : Prop :=
  NoDup (map (fun a => a / 4096) l) /\
  Forall (fun a => user a /\ allowed a attributes = true /\ pte_at (mm_tables s) r a = zero_pte) l.
Definition are_mapped s s' l : Prop :=
  Forall (fun a => let e := pte_at (mm_tables s') r a in
    pte_p e = true /\ getAttributes e = attributes /\ used (mm_memory s) (pte_base e) = false) l /\
  forall r' a', R r' -> user a' -> ~ (r' = r /\ a' / 4096 ∈ map (fun a => a / 4096) l) ->
    pte_at (mm_tables s') r' a' = pte_at (mm_tables s) r' a'.

Lemma map_one n room G s a :
  spaces R (3 + n) (room + page_cost refillPool) G s -> 0 <= room -> directory_ok G s this r -> R r -> can_map s [a] ->
  Runs (mapPage refillPool this a attributes) s (fun _ s' => exists G',
    spaces R n room G' s' /\ directory_ok G' s' this r /\ (forall p, used (mm_memory s) p = true -> used (mm_memory s') p = true) /\
    are_mapped s s' [a]).
Proof using Hattr MemoryLaws0.
  intros Hsp H0 Hdir Hr [_ (Hu & Hall & Hz)%Forall_singleton].
  eapply Runs_mono; [apply (mapPage_user refillPool R n room G s this r a); try done; by rewrite Hz|].
  intros pa s' (G' & base & Hsp' & Hsub & Hrest & (_ & Hkeep & _) & Hps & Hpa). exists G'. rewrite Hz in Hps. rewrite Hattr in Hpa.
  destruct Hpa as (-> & Hb & Hfree).
  assert (pte_at (mm_tables s') r a = AttributeSetter attributes (set_base base (set_p true zero_pte))) as He
    by (rewrite Hps by done; by rewrite bool_decide_true).
  split; [done|]. split; [by eapply directory_kept; [apply Hsub|..]|]. split; [done|]. split.
  - apply Forall_singleton. rewrite He. split; [|split].
    + by rewrite AttributeSetter_p, Hattr.
    + apply attributes_kept; [|by left].
      unfold allowed in Hall. apply andb_true_iff in Hall as [_ [H1%Z.leb_le H2%Z.leb_le]%andb_true_iff]. lia.
    + rewrite AttributeSetter_base. cbn [pte_base set_base]. by rewrite wrap_small by (unfold in_word; lia).
  - intros r' a' Hr' Hu' Hn. rewrite Hps by done. rewrite bool_decide_false; [done|]. intros [-> E]. apply Hn. split; [done|].
    cbn. rewrite E. by left.
Qed.

Lemma map_list_run l n room G s :
  spaces R (3 * length l + n) (room + page_cost refillPool * Z.of_nat (length l)) G s -> 0 <= room -> directory_ok G s this r -> R r ->
  can_map s l ->
  Runs (for_each l (fun a => mapPage refillPool this a attributes ;; mret tt)) s (fun _ s' => exists G',
    spaces R n room G' s' /\ directory_ok G' s' this r /\ are_mapped s s' l).
Proof using Hattr MemoryLaws0.
  pose proof table_cost_nonneg as Hc. intros Hsp H0 Hdir Hr. revert G s Hsp Hdir.
  induction l as [|a l IH]; intros G s Hsp Hdir [Hnd Hall]; cbn [for_each].
  - apply Runs_ret. exists G. cbn [length] in Hsp. rewrite Z.mul_0_r, Z.add_0_r in Hsp. split; [exact Hsp|]. split; [done|].
    split; [by apply Forall_nil|]. done.
  - apply Forall_cons in Hall as [Ha Hall]. cbn [map] in Hnd. apply NoDup_cons in Hnd as [Hout Hnd].
    apply Runs_bind, Runs_bind. eapply Runs_mono.
    { apply (map_one (3 * length l + n) (room + page_cost refillPool * Z.of_nat (length l)) G); try done.
      - replace (3 + (3 * length l + n))%nat with (3 * length (a :: l) + n)%nat by (cbn [length]; lia).
        replace (room + page_cost refillPool * Z.of_nat (length l) + page_cost refillPool)
          with (room + page_cost refillPool * Z.of_nat (length (a :: l))) by (cbn [length]; lia). exact Hsp.
      - unfold page_cost. nia.
      - split; [by apply NoDup_singleton|by apply Forall_singleton]. }
    intros _ s1 (G1 & Hsp1 & Hdir1 & Hkeep & [Ha1 Hoth1]). rewrite Forall_singleton in Ha1. apply Runs_ret.
    assert (forall b, b ∈ l -> user b -> pte_at (mm_tables s1) r b = pte_at (mm_tables s) r b) as Hsame.
    { intros b Hb Hu. apply Hoth1; [done|done|]. intros [_ E%list_elem_of_singleton]. apply Hout. rewrite <- E.
      by apply (list_elem_of_fmap_2 (fun a => a / 4096)). }
    eapply Runs_mono; [apply (IH G1 s1 Hsp1 Hdir1)|].
    { split; [done|]. apply Forall_forall. intros b Hb. destruct (proj1 (Forall_forall _ _) Hall b Hb) as (Hu & Hal & Hz).
      split; [done|]. split; [done|]. by rewrite Hsame. }
    intros _ s' (G' & Hsp' & Hdir' & Hl' & Hoth'). exists G'. split; [done|]. split; [done|]. split.
    + apply Forall_cons. split.
      * rewrite Hoth'; [exact Ha1|done|apply Ha|]. by intros [_ Hin].
      * eapply Forall_impl; [exact Hl'|]. intros b (H1 & H2 & H3). split; [done|]. split; [done|].
        apply not_true_is_false. intros Ht%Hkeep. congruence.
    + intros r' a' Hr' Hu' Hn. rewrite Hoth'; [apply Hoth1; [done|done|]|done|done|]; intros [-> Hin]; apply Hn; (split; [done|]).
      * apply list_elem_of_singleton in Hin. rewrite Hin. by left.
      * by right.
Qed.

Lemma NoDup_bases s l (f : Z -> Z) :
  can_map s l -> (forall a b, a ∈ l -> b ∈ l -> f a = f b -> a / 4096 = b / 4096) -> NoDup (map f l).
Proof.
  intros [Hnd _] Hf. apply NoDup_alt. intros i j x Hi Hj.
  apply list_lookup_fmap_Some in Hi as (a & -> & Ha). apply list_lookup_fmap_Some in Hj as (b & E & Hb).
  apply (proj1 (NoDup_alt _) Hnd i j (a / 4096)); apply list_lookup_fmap_Some; [by exists a|exists b; split; [|done]].
  apply Hf; [by eapply list_elem_of_lookup_2..|done].
Qed.
End many_pages.
