(* ===== verification/Interrupts.v ===== *)
(** * Masking the interrupts, and the spin lock: [Util.hpp], [SpinLock.hpp], [SpinLock.cpp]

    The kernel runs on one processor, so a lock is the masking of the interrupts.  The
    state is the interrupt flag of RFLAGS and the debug counter [g_lockCount]; the RAII
    objects are values, and their constructors and destructors operations. *)

From Stdlib Require Import ZArith Lia.
From S2P Require Import Prelude Words.

Record Cpu : Type := mkCpu {
  rflags_if : bool;      (** [Cpu::rflags() & (1 << 9)] *)
  g_lockCount : Z;       (** [uint8_t SpinLock::g_lockCount] *)
}.

Definition set_if (b : bool) (c : Cpu) : Cpu := mkCpu b (g_lockCount c).
Definition set_lockCount (n : Z) (c : Cpu) : Cpu := mkCpu (rflags_if c) n.

Definition disableInterrupts : ST Cpu unit :=
  c ← read_state;
  assertion (rflags_if c) "interrupts were already off" ;;
  modify (set_if false).

Definition enableInterrupts : ST Cpu unit :=
  c ← read_state;
  assertion (negb (rflags_if c)) "interrupts were already on" ;;
  modify (set_if true).

(** ** [DisableInterrupts] and [EnableInterrupts]: the object is its boolean *)
Module DisableInterrupts.
Definition construct : ST Cpu bool :=
  c ← read_state;
  let _enable := rflags_if c in
  (if _enable then disableInterrupts else mret tt) ;;
  mret _enable.
Definition destroy (_enable : bool) : ST Cpu unit :=
  if _enable then enableInterrupts else mret tt.
(** The new object, and what is left of the other. *)
Definition move (other : bool) : bool * bool := (other, false).
(** [{ DisableInterrupts _; m }] *)
Definition scope {A} (m : ST Cpu A) : ST Cpu A :=
  _enable ← construct;
  a ← m;
  destroy _enable ;;
  mret a.
End DisableInterrupts.

Module EnableInterrupts.
Definition construct : ST Cpu bool :=
  c ← read_state;
  let _disable := negb (rflags_if c) in
  (if _disable then enableInterrupts else mret tt) ;;
  mret _disable.
Definition destroy (_disable : bool) : ST Cpu unit :=
  if _disable then disableInterrupts else mret tt.
Definition scope {A} (m : ST Cpu A) : ST Cpu A :=
  _disable ← construct;
  a ← m;
  destroy _disable ;;
  mret a.
End EnableInterrupts.

(** ** [SpinLock]: its [std::optional<DisableInterrupts>] *)
Definition SpinLock : Type := option bool.
Definition new_SpinLock : SpinLock := None.

Definition spin_lock : ST (Cpu * SpinLock) unit :=
  s ← read_state;
  assertion (negb (bool_decide (is_Some s.2))) "!_disableInterrupts" ;;
  (** [_disableInterrupts = DisableInterrupts()]: the temporary is moved from *)
  di ← zoom fst (fun c s => (c, s.2)) DisableInterrupts.construct;
  modify (fun s => (s.1, Some (DisableInterrupts.move di).1)) ;;
  zoom fst (fun c s => (c, s.2)) (DisableInterrupts.destroy (DisableInterrupts.move di).2) ;;
  modify (fun s => (set_lockCount (u8 (g_lockCount s.1 + 1)) s.1, s.2)).

Definition spin_unlock : ST (Cpu * SpinLock) unit :=
  s ← read_state;
  assertion (bool_decide (is_Some s.2)) "_disableInterrupts" ;;
  modify (fun s => (set_lockCount (u8 (g_lockCount s.1 - 1)) s.1, s.2)) ;;
  let di := default false s.2 in
  (** the optional is emptied before the interrupts are enabled again *)
  zoom fst (fun c s => (c, s.2)) (DisableInterrupts.destroy (DisableInterrupts.move di).2) ;;
  modify (fun s => (s.1, None)) ;;
  zoom fst (fun c s => (c, s.2)) (DisableInterrupts.destroy (DisableInterrupts.move di).1).

(** ** [ScopedLock<T>] and [ScopedUnlock<T>]

    The object is its [_dead] flag and the lock it refers to; [lock] and [unlock] are those of [T]. *)
Record Scoped (L : Type) : Type := mkScoped { dead : bool; scoped_lock : L }.
Arguments mkScoped {L}.
Arguments dead {L}.
Arguments scoped_lock {L}.

Section scoped.
Context {S L : Type} (lock unlock : L -> ST S unit).

Definition ScopedLock (l : L) : ST S (Scoped L) :=
  lock l ;; mret (mkScoped false l).
Definition ScopedLock_destroy (o : Scoped L) : ST S unit :=
  if dead o then mret tt else unlock (scoped_lock o).
(** The move constructor: the new object and what is left of the other. *)
Definition ScopedLock_move (other : Scoped L) : Scoped L * Scoped L :=
  (mkScoped false (scoped_lock other), mkScoped true (scoped_lock other)).
(** The move assignment: a reference cannot be rebound, [this] keeps its lock. *)
Definition ScopedLock_move_assign (this other : Scoped L) : Scoped L * Scoped L :=
  (this, mkScoped true (scoped_lock other)).

Definition ScopedUnlock (l : L) : ST S (Scoped L) :=
  unlock l ;; mret (mkScoped false l).
Definition ScopedUnlock_destroy (o : Scoped L) : ST S unit :=
  if dead o then mret tt else lock (scoped_lock o).

(** [{ auto _ = l.getScoped(); m }] *)
Definition with_lock {A} (l : L) (m : ST S A) : ST S A :=
  o ← ScopedLock l;
  a ← m;
  ScopedLock_destroy o ;;
  mret a.
End scoped.

(** ** Theorems *)

(** Code under [DisableInterrupts] runs with the interrupts masked, and the flag is
    given back as it was found, if the code left it alone: the scopes nest. *)
Theorem DisableInterrupts_scope {A} (m : ST Cpu A) c (Q : A -> Cpu -> Prop) :
  Runs m (set_if false c) (fun a c' => rflags_if c' = false /\ Q a (set_if (rflags_if c) c')) ->
  Runs (DisableInterrupts.scope m) c Q.
Proof.
  intros Hm. unfold DisableInterrupts.scope, DisableInterrupts.construct, DisableInterrupts.destroy.
  run_steps. destruct c as [[] n]; cbn [rflags_if].
  - unfold disableInterrupts. run_steps; [done|]. run_steps. eapply Runs_mono; [exact Hm|].
    intros a [i n'] [Hi HQ]. cbn in Hi. subst i. cbn beta.
    unfold enableInterrupts. run_steps; [done|]. run_steps. exact HQ.
  - run_steps. eapply Runs_mono; [exact Hm|]. intros a [i n'] [Hi HQ]. cbn in Hi. subst i.
    run_steps. exact HQ.
Qed.

Lemma spin_lock_run c :
  spin_lock (c, None) =
  Ok (tt, (mkCpu false (u8 (g_lockCount c + 1)), Some (rflags_if c))).
Proof. by destruct c as [[] n]. Qed.

Lemma spin_unlock_run i n b :
  b && i = false ->
  spin_unlock (mkCpu i n, Some b) = Ok (tt, (mkCpu (b || i) (u8 (n - 1)), None)).
Proof. by destruct i, b. Qed.

(** Taking a spin lock masks the interrupts, and releasing it gives back the flag and the
    lock count as they were found. *)
Theorem spin_lock_unlock c :
  in_word 8 (g_lockCount c) ->
  Runs (spin_lock ;; s ← read_state; spin_unlock ;; mret s) (c, None) (fun locked s' =>
    rflags_if locked.1 = false /\ s' = (c, None)).
Proof.
  intros Hn. run_step. eapply Runs_of_ok; [apply spin_lock_run|]. run_steps.
  eapply Runs_of_ok; [apply spin_unlock_run, andb_false_r|]. run_steps. split; [done|].
  rewrite orb_false_r. destruct c as [i n]. cbn in *. do 2 f_equal.
  unfold wrap. rewrite Zminus_mod_idemp_l. replace (n + 1 - 1) with n by lia. by apply Z.mod_small.
Qed.

Lemma spin_lock_unlock_witness :
  Runs (spin_lock ;; s ← read_state; spin_unlock ;; mret s) (mkCpu true 0, None) (fun locked s' =>
    rflags_if locked.1 = false /\ s' = (mkCpu true 0, None)).
Proof. apply (spin_lock_unlock (mkCpu true 0)). done. Defined.

(** A lock that is held cannot be taken, even by its holder, and one that is not held
    cannot be released. *)
Theorem spin_lock_misuse c b :
  Fails spin_lock (c, Some b) (AssertionFailed "!_disableInterrupts") /\
  Fails spin_unlock (c, None) (AssertionFailed "_disableInterrupts").
Proof. done. Qed.

(** Two locks released in the order they were taken: the interrupts are enabled while
    the second one is still held. *)
Definition two_locks_crossed : ST (Cpu * SpinLock * SpinLock) bool :=
  let first := fun s : Cpu * SpinLock * SpinLock => s.1 in
  let second := fun s : Cpu * SpinLock * SpinLock => (s.1.1, s.2) in
  zoom first (fun a s => (a, s.2)) spin_lock ;;
  zoom second (fun a s => (a.1, s.1.2, a.2)) spin_lock ;;
  zoom first (fun a s => (a, s.2)) spin_unlock ;;
  i ← gets (fun s => rflags_if s.1.1);
  mret i.

(** A crossed release leaves a held lock unprotected: the flag belongs to the lock that
    was taken first, not to the last one released. *)
Theorem spin_lock_crossed n :
  Runs two_locks_crossed (mkCpu true n, None, None) (fun enabled s' =>
    enabled = true /\ s'.2 = Some false /\ s'.1.2 = None).
Proof. by vm_compute. Qed.

(** [ScopedLock] releases what it took when its body succeeds. *)
Theorem with_lock_releases {S L A} (lock unlock : L -> ST S unit) l (m : ST S A) s (Q : A -> S -> Prop) :
  Runs (lock l) s (fun _ s1 => Runs m s1 (fun a s2 => Runs (unlock l) s2 (fun _ s3 => Q a s3))) ->
  Runs (with_lock lock unlock l m) s Q.
Proof.
  intros H. unfold with_lock, ScopedLock, ScopedLock_destroy. run_steps.
  eapply Runs_mono; [exact H|]. intros u s1 H1. run_steps. eapply Runs_mono; [exact H1|].
  intros a s2 H2. run_steps. cbn [dead scoped_lock]. eapply Runs_mono; [exact H2|].
  intros v s3 HQ. run_steps. exact HQ.
Qed.

(** The move assignment of [ScopedLock] drops the other object's lock without taking it over:
    destroying both objects releases the lock of [this] only. *)
Theorem scoped_move_assign_leaks {S L} (unlock : L -> ST S unit) (l1 l2 : L) :
  let '(this, other) := ScopedLock_move_assign (mkScoped false l1) (mkScoped false l2) in
  forall s, (ScopedLock_destroy unlock other ;; ScopedLock_destroy unlock this) s = unlock l1 s.
Proof. intros s. reflexivity. Qed.

(** A scope inside a scope. *)
Lemma DisableInterrupts_scope_witness :
  Runs (DisableInterrupts.scope (DisableInterrupts.scope read_state)) (mkCpu true 0) (fun inside c =>
    rflags_if inside = false /\ c = mkCpu true 0).
Proof.
  apply (DisableInterrupts_scope (DisableInterrupts.scope read_state) (mkCpu true 0)
           (fun inside c => rflags_if inside = false /\ c = mkCpu true 0)).
  by vm_compute.
Defined.
