(* ===== verification/Tasks.v ===== *)
(** * The tasks and the scheduler: [TaskManager.hpp], [TaskManager.cpp]

    [std::set<Task, TaskComparator>] is a map from the task identifiers, visited in
    increasing order.  A [Task*] to a task of the set is its identifier, 0 for null.  The functions
    that do not return ([scheduleNext]) end in an [outcome]. *)

From Stdlib Require Import ZArith Lia Sorted.
From stdpp Require Import list numbers gmap sorting.
From S2P Require Import Prelude Words Interrupts.

(** ** The data *)
Inductive State : Type := Runnable | Sleeping | Zombie.

#[export] Instance State_eq_dec : EqDecision State.
Proof. solve_decision. Defined.

(** [Task::Context] *)
Record Context : Type := mkContext {
  r15 : Z; r14 : Z; r13 : Z; r12 : Z; rbx : Z; rbp : Z;
  r11 : Z; r10 : Z; r9 : Z; r8 : Z; rax : Z; rcx : Z; rdx : Z; rsi : Z; rdi : Z;
  rip : Z; cs : Z; rflags : Z; rsp : Z; ss : Z;
}.

Definition zero_Context : Context := mkContext 0 0 0 0 0 0 0 0 0 0 0 0 0 0 0 0 0 0 0 0.
Definition set_segments (c s f : Z) (x : Context) : Context :=
  mkContext (r15 x) (r14 x) (r13 x) (r12 x) (rbx x) (rbp x) (r11 x) (r10 x) (r9 x) (r8 x)
    (rax x) (rcx x) (rdx x) (rsi x) (rdi x) (rip x) c f (rsp x) s.
Definition set_rax (v : Z) (x : Context) : Context :=
  mkContext (r15 x) (r14 x) (r13 x) (r12 x) (rbx x) (rbp x) (r11 x) (r10 x) (r9 x) (r8 x)
    v (rcx x) (rdx x) (rsi x) (rdi x) (rip x) (cs x) (rflags x) (rsp x) (ss x).

(** [Task::HierarchyHolder], without its mutex *)
Record HierarchyHolder : Type := mkHH {
  parent : Z;
  firstChild : Z;
  nextSibling : Z;
  prevSibling : Z;
}.

Definition new_HH : HierarchyHolder := mkHH 0 0 0 0.

(** The move constructor: the new holder and what is left of the other. *)
Definition HH_move (r : HierarchyHolder) : HierarchyHolder * HierarchyHolder :=
  (mkHH (parent r) (firstChild r) (nextSibling r) 0,
   mkHH 0 (firstChild r) (nextSibling r) (prevSibling r)).

Record Task : Type := mkTask {
  hh : HierarchyHolder;
  state : State;
  stateMutex_held : bool;        (** [sh.stateMutex] is locked *)
  stateCond_waiters : list Z;    (** the tasks waiting on [sh.stateCond] *)
  context : Context;
  pageDirectory : Z;             (** the address of the [PageDirectory] *)
  kernelStackTop : Z;
  kernelStack : Z;
  releaseFunction : bool;        (** it is set, and gives the kernel stack back to its heap *)
}.

#[export] Instance Context_eq_dec : EqDecision Context.
Proof. solve_decision. Defined.
#[export] Instance HH_eq_dec : EqDecision HierarchyHolder.
Proof. solve_decision. Defined.
#[export] Instance Task_eq_dec : EqDecision Task.
Proof. solve_decision. Defined.

Definition set_state (st : State) (t : Task) : Task :=
  mkTask (hh t) st (stateMutex_held t) (stateCond_waiters t) (context t) (pageDirectory t) (kernelStackTop t)
    (kernelStack t) (releaseFunction t).
Definition set_hh (h : HierarchyHolder) (t : Task) : Task :=
  mkTask h (state t) (stateMutex_held t) (stateCond_waiters t) (context t) (pageDirectory t) (kernelStackTop t)
    (kernelStack t) (releaseFunction t).
Definition set_waiters (l : list Z) (t : Task) : Task :=
  mkTask (hh t) (state t) (stateMutex_held t) l (context t) (pageDirectory t) (kernelStackTop t)
    (kernelStack t) (releaseFunction t).
Definition set_context (c : Context) (t : Task) : Task :=
  mkTask (hh t) (state t) (stateMutex_held t) (stateCond_waiters t) c (pageDirectory t) (kernelStackTop t)
    (kernelStack t) (releaseFunction t).

Record TaskManager : Type := mkTM {
  tasks : gmap Z Task;
  activeTask : Z;
  nextTid : Z;
  timer_masked : bool;       (** the mask bit of [IRQ_TIMER] *)
  kernel_stack : Z;          (** [_tss->ist1] and [Cpu::setKernelStack] *)
  current_directory : Z;     (** [pageDirectory.use()] *)
  cpu : Cpu;
}.

Definition set_tasks (ts : gmap Z Task) (m : TaskManager) : TaskManager :=
  mkTM ts (activeTask m) (nextTid m) (timer_masked m) (kernel_stack m) (current_directory m) (cpu m).
Definition set_activeTask (t : Z) (m : TaskManager) : TaskManager :=
  mkTM (tasks m) t (nextTid m) (timer_masked m) (kernel_stack m) (current_directory m) (cpu m).
Definition set_nextTid (t : Z) (m : TaskManager) : TaskManager :=
  mkTM (tasks m) (activeTask m) t (timer_masked m) (kernel_stack m) (current_directory m) (cpu m).
Definition set_timer_masked (b : bool) (m : TaskManager) : TaskManager :=
  mkTM (tasks m) (activeTask m) (nextTid m) b (kernel_stack m) (current_directory m) (cpu m).
Definition set_kernel_stack (p : Z) (m : TaskManager) : TaskManager :=
  mkTM (tasks m) (activeTask m) (nextTid m) (timer_masked m) p (current_directory m) (cpu m).
Definition set_current_directory (p : Z) (m : TaskManager) : TaskManager :=
  mkTM (tasks m) (activeTask m) (nextTid m) (timer_masked m) (kernel_stack m) p (cpu m).
Definition set_cpu (c : Cpu) (m : TaskManager) : TaskManager :=
  mkTM (tasks m) (activeTask m) (nextTid m) (timer_masked m) (kernel_stack m) (current_directory m) c.

Definition on_cpu {A} (m : ST Cpu A) : ST TaskManager A := zoom cpu set_cpu m.

(** [{ DisableInterrupts _; m }] *)
Definition masked {A} (m : ST TaskManager A) : ST TaskManager A :=
  _enable ← on_cpu DisableInterrupts.construct;
  a ← m;
  on_cpu (DisableInterrupts.destroy _enable) ;;
  mret a.

(** ** The set in its order *)
Definition tid_le (a b : Z * Task) : Prop := a.1 <= b.1.
#[export] Instance tid_le_dec : RelDecision tid_le.
Proof. intros a b. apply Z.le_dec. Defined.

Definition ordered (ts : gmap Z Task) : list (Z * Task) := merge_sort tid_le (map_to_list ts).

Definition is_runnable (t : Task) : bool := bool_decide (state t = Runnable).
Definition is_zombie (t : Task) : bool := bool_decide (state t = Zombie).

(** [_tasks.upper_bound(id)]: the first task after [id] *)
Fixpoint upper_bound (id : Z) (l : list (Z * Task)) : option (Z * Task) :=
  match l with
  | [] => None
  | x :: l' => if id <? x.1 then Some x else upper_bound id l'
  end.

(** ** The scheduler *)

(** The loop of [getNext]; the result is the iterator, [None] for [end()]. *)
Fixpoint getNext_loop (fuel : nat) (l : list (Z * Task)) (id : Z) (looped : bool)
    : result (option (Z * Task)) :=
  match fuel with
  | O => Err OutOfFuel
  | S fuel =>
      match upper_bound id l with
      | None => if looped then Ok None else getNext_loop fuel l 0 true
      | Some iter =>
          if is_runnable iter.2 then Ok (Some iter)
          else getNext_loop fuel l (u32 (id + 1)) looped
      end
  end.

(** The identifiers are tried one by one, twice around at most. *)
Definition last_tid (l : list (Z * Task)) : Z := foldr (fun x m => Z.max x.1 m) 0 l.
Definition getNext_fuel (l : list (Z * Task)) : nat := Z.to_nat (2 * last_tid l + 3).

Definition getNext : ST TaskManager (option (Z * Task)) :=
  m ← read_state;
  let l := ordered (tasks m) in
  lift_result (getNext_loop (getNext_fuel l) l (activeTask m) false).

(** The loop of [doInterruptMasking]: whether it returns from inside. *)
Fixpoint two_runnable (foundFirst : bool) (l : list (Z * Task)) : bool :=
  match l with
  | [] => false
  | x :: l' =>
      if is_runnable x.2 then if foundFirst then true else two_runnable true l'
      else two_runnable foundFirst l'
  end.

Definition doInterruptMasking : ST TaskManager unit :=
  masked (m ← read_state;
          if two_runnable false (ordered (tasks m))
          then modify (set_timer_masked false)
          else modify (set_timer_masked true)).

Definition updateTask (tid : Z) (f : Task -> Task) : ST TaskManager unit :=
  modify (fun m => set_tasks (alter f tid (tasks m)) m).

Definition getTask (tid : Z) : ST TaskManager (option Task) :=
  masked (gets (fun m => tasks m !! tid)).

Definition getActive : ST TaskManager (option (Z * Task)) :=
  masked (m ← read_state;
          if activeTask m =? 0 then mret None
          else t ← getTask (activeTask m); mret (pair (activeTask m) <$> t)).

Definition getActiveTask : ST TaskManager (Z * Task) :=
  masked (t ← getActive;
          from_option t (AssertionFailed "task && there is an active task")).

Definition isTaskActive : ST TaskManager bool := gets (fun m => negb (activeTask m =? 0)).
Definition getActiveTid : ST TaskManager Z := gets activeTask.

Definition prepareMeForSleep : ST TaskManager unit :=
  t ← getActiveTask;
  updateTask t.1 (set_state Sleeping) ;;
  doInterruptMasking.

Definition wakeUpTask (tid : Z) : ST TaskManager unit :=
  updateTask tid (set_state Runnable) ;;
  doInterruptMasking.

(** ** Leaving the kernel: the functions that do not return *)
Inductive outcome : Type :=
  | Jump (tid : Z) (ctx : Context)      (** [jump_to_task] *)
  | Halt.                               (** [hlt] in [enterSleep] *)

(** "Interrupts were disabled in a user task" *)
Definition SYSTEM_CS : Z := 0x8.
Definition SYSTEM_DS : Z := 0x10.
Definition USER_CS : Z := 0x20.
Definition USER_DS : Z := 0x18.
Definition context_ok (c : Context) : bool := (cs c =? SYSTEM_CS) || Z.testbit (rflags c) 9.

Section scheduling.
Context (stackBase : Z).      (** [Symbols::getStackBase()] *)

Definition setKernelStack : ST TaskManager unit := modify (set_kernel_stack stackBase).

Definition enterSleep : ST TaskManager outcome :=
  modify (set_activeTask 0) ;;
  setKernelStack ;;
  on_cpu enableInterrupts ;;
  mret Halt.

(** [None] when it returns. *)
Definition tryScheduleNext : ST TaskManager (option outcome) :=
  m ← read_state;
  assertion (negb (forallb (fun x => is_zombie x.2) (ordered (tasks m)))) "!std::all_of(_tasks, Zombie)" ;;
  iter ← getNext;
  match iter with
  | None => mret None
  | Some (tid, nextTask) =>
      modify (set_activeTask tid) ;;
      assertion (context_ok (context nextTask)) "Interrupts were disabled in a user task" ;;
      modify (set_current_directory (pageDirectory nextTask)) ;;
      modify (set_kernel_stack (kernelStackTop nextTask)) ;;
      mret (Some (Jump tid (context nextTask)))
  end.

Definition scheduleNext : ST TaskManager outcome :=
  o ← tryScheduleNext;
  match o with
  | Some o => mret o
  | None => enterSleep
  end.

Definition rescheduleSelf : ST TaskManager outcome :=
  m ← read_state;
  assertion (negb (bool_decide (tasks m = ∅))) "!_tasks.empty()" ;;
  t ← getActiveTask;
  assertion (context_ok (context t.2)) "Interrupts were disabled in a user task" ;;
  mret (Jump t.1 (context t.2)).

Definition saveCurrentTask (ctx : Context) : ST TaskManager unit :=
  masked (t ← getActiveTask;
          updateTask t.1 (set_context ctx) ;;
          assertion (context_ok ctx) "Interrupts were disabled in a user task").

Definition downgradeCurrentTask : ST TaskManager unit :=
  t ← getActiveTask;
  updateTask t.1 (fun t => set_context
    (set_segments (Z.lor USER_CS 3) (Z.lor USER_DS 3) (rflags (context t)) (context t)) t).

(** [putMeToSleep]: [Some] when the processor goes to another task; [saved] is what
    [task_save] stores, and [spinlocks] is [SpinLock::getLockCount()]. *)
Definition putMeToSleep (saved : Context) : ST TaskManager (option outcome) :=
  m ← read_state;
  assertion (g_lockCount (cpu m) =? 0) "SpinLock::getLockCount() == 0" ;;
  t ← getActiveTask;
  _enable ← on_cpu DisableInterrupts.construct;
  m ← read_state;
  match tasks m !! t.1 with
  | None => fail (Undefined "dangling Task")
  | Some task =>
      if negb (bool_decide (state task = Sleeping)) then
        on_cpu (DisableInterrupts.destroy _enable) ;; mret None
      else
        updateTask t.1 (set_context saved) ;;
        assertion (cs saved =? SYSTEM_CS) "putMeToSleep called from userspace" ;;
        o ← scheduleNext;
        mret (Some o)
  end.

(** [sh.stateCond.notify_one()] *)
Definition notify_one (tid : Z) : ST TaskManager unit :=
  m ← read_state;
  match tasks m !! tid with
  | None => fail (Undefined "dangling Task")
  | Some t =>
      match stateCond_waiters t with
      | [] => mret tt
      | w :: l => updateTask tid (set_waiters l) ;; wakeUpTask w
      end
  end.

(** Locking [stateMutex] when no task is active: with contention the semaphore asks for
    the active task, and goes no further. *)
Definition lock_stateMutex (tid : Z) : ST TaskManager unit :=
  m ← read_state;
  match tasks m !! tid with
  | None => fail (Undefined "dangling Task")
  | Some t => if stateMutex_held t then getActiveTask ;; fail (Undefined "not reached") else mret tt
  end.

Definition terminateCurrentTask : ST TaskManager outcome :=
  m ← read_state;
  assertion (negb (rflags_if (cpu m))) "!(Cpu::rflags() & (1 << 9))" ;;
  t ← getActiveTask;
  if t.1 =? 1 then panic "PID 1 is dead"
  else
    on_cpu DisableInterrupts.construct ;;
    modify (set_activeTask 0) ;;
    lock_stateMutex t.1 ;;
    updateTask t.1 (set_state Zombie) ;;
    notify_one t.1 ;;
    doInterruptMasking ;;
    scheduleNext.
End scheduling.

(** ** Adding and removing tasks *)

(** [while (_tasks.find(_nextTid) != _tasks.end()) ++_nextTid;] *)
Fixpoint updateNextTid_loop (fuel : nat) (ts : gmap Z Task) (tid : Z) : result Z :=
  match ts !! tid with
  | None => Ok tid
  | Some _ =>
      match fuel with
      | O => Err OutOfFuel
      | S fuel => updateNextTid_loop fuel ts (u32 (tid + 1))
      end
  end.

Definition updateNextTid : ST TaskManager unit :=
  m ← read_state;
  tid ← lift_result (updateNextTid_loop (size (tasks m)) (tasks m) (nextTid m));
  modify (set_nextTid tid).

(** Reading and writing through the [Task*] of the hierarchy. *)
Definition deref_task (p : Z) : ST TaskManager Task :=
  m ← read_state;
  from_option (tasks m !! p) (Undefined "dangling Task").
Definition update_hh (p : Z) (f : HierarchyHolder -> HierarchyHolder) : ST TaskManager unit :=
  deref_task p ;; updateTask p (fun t => set_hh (f (hh t)) t).

Definition set_parent p (h : HierarchyHolder) := mkHH p (firstChild h) (nextSibling h) (prevSibling h).
Definition set_firstChild p (h : HierarchyHolder) := mkHH (parent h) p (nextSibling h) (prevSibling h).
Definition set_nextSibling p (h : HierarchyHolder) := mkHH (parent h) (firstChild h) p (prevSibling h).
Definition set_prevSibling p (h : HierarchyHolder) := mkHH (parent h) (firstChild h) (nextSibling h) p.

(** [HierarchyHolder::addChild], [this] being the holder of a task. *)
Definition addChild (this child : Z) : ST TaskManager unit :=
  t ← deref_task this;
  (if firstChild (hh t) =? 0 then mret tt
   else
     f ← deref_task (firstChild (hh t));
     assertion (prevSibling (hh f) =? 0) "!firstChild->hh.prevSibling" ;;
     update_hh (firstChild (hh t)) (set_prevSibling child)) ;;
  c ← deref_task child;
  assertion (prevSibling (hh c) =? 0) "!child.hh.prevSibling" ;;
  t ← deref_task this;
  update_hh child (set_nextSibling (firstChild (hh t))) ;;
  update_hh this (set_firstChild child) ;;
  c ← deref_task child;
  assertion (negb (parent (hh c) =? 0)) "child.hh.parent".

(** [HierarchyHolder::~HierarchyHolder] *)
Definition HH_destroy (this : Z) : ST TaskManager unit :=
  t ← deref_task this;
  if parent (hh t) =? 0 then mret tt
  else
    p ← deref_task (parent (hh t));
    (if firstChild (hh p) =? this
     then update_hh (parent (hh t)) (set_firstChild (nextSibling (hh t))) else mret tt) ;;
    (if prevSibling (hh t) =? 0 then mret tt
     else update_hh (prevSibling (hh t)) (set_nextSibling (nextSibling (hh t)))) ;;
    (if nextSibling (hh t) =? 0 then mret tt
     else update_hh (nextSibling (hh t)) (set_prevSibling (prevSibling (hh t)))) ;;
    assertion (firstChild (hh t) =? 0) "!firstChild && making orphans is not implemented".

Definition addTask (t : Task) : ST TaskManager Z :=
  masked (
    updateNextTid ;;
    m ← read_state;
    let tid := nextTid m in
    modify (set_nextTid (u32 (tid + 1))) ;;
    (** [_tasks.insert(std::move(t))] *)
    m ← read_state;
    let '(newHH, oldHH) := HH_move (hh t) in
    assertion (negb (bool_decide (is_Some (tasks m !! tid)))) "ret.second" ;;
    modify (fun m => set_tasks (<[tid := set_hh newHH t]> (tasks m)) m) ;;
    let t := set_hh oldHH t in
    (if 1 <? tid then
       if negb (parent newHH =? 0) then addChild (parent newHH) tid
       else
         activeTask ← getActiveTask;
         update_hh tid (set_parent activeTask.1) ;;
         addChild activeTask.1 tid
     else assertion (parent (hh t) =? 0) "task 1 must have no parent") ;;
    (if is_runnable t then doInterruptMasking else mret tt) ;;
    mret tid).

(** The value [-1] of a [pid_t]. *)
Definition no_pid : Z := u32 (-1).

(** The beginning of [wait]: the child to wait for *)
Definition wait_child (tid : Z) : ST TaskManager (option (Z * Task)) :=
  tid ← (if tid =? no_pid then
           task ← getActiveTask;
           mret (if firstChild (hh task.2) =? 0 then None else Some (firstChild (hh task.2)))
         else mret (Some tid));
  match tid with
  | None => mret None
  | Some tid =>
      task ← getTask tid;
      match task with
      | None => mret None
      | Some task =>
          par ← deref_task (parent (hh task));
          m ← read_state;
          if negb (parent (hh task) =? activeTask m) then mret None
          else mret (Some (tid, task))
      end
  end.

Section waiting.
(** [~Task] works on more than the tasks: [lift] runs an operation on these.  [stateCond_wait] is
    [sh.stateCond.wait(sh.stateMutex)], which blocks, and [Task_destroy] what [~Task] does beside its members. *)
Context {S : Type} (lift : forall A, ST TaskManager A -> ST S A).
Context (stateCond_wait : Z -> ST S unit) (Task_destroy : Z -> Task -> ST S unit).

(** The end of [wait], when the child is a zombie *)
Definition wait_remove (tid : Z) : ST S Z :=
  _enable ← lift _ (on_cpu DisableInterrupts.construct);
  m ← lift _ read_state;
  r ← match tasks m !! tid with
      | None => assertion false "iter != _tasks.end()" ;; mret no_pid
      | Some t =>
          Task_destroy tid t ;;
          lift _ (HH_destroy tid) ;;
          lift _ (modify (fun m => set_tasks (delete tid (tasks m)) m)) ;;
          mret tid
      end;
  lift _ (on_cpu (DisableInterrupts.destroy _enable)) ;;
  mret r.

Definition wait (tid : Z) : ST S Z :=
  c ← lift _ (wait_child tid);
  match c with
  | None => mret no_pid
  | Some (tid, task) =>
      (if is_zombie task then mret tt else stateCond_wait tid) ;;
      wait_remove tid
  end.
End waiting.

(** [TaskManager()] *)
Definition new_TaskManager (c : Cpu) : TaskManager := mkTM ∅ 0 1 true 0 0 c.

(** [newKernelTask] and [newUserTask]; [directory] is where [pageDirectory] is made. *)
Definition newTask (code data directory : Z) : Task :=
  mkTask new_HH Runnable false [] (set_segments code data 0x0200 zero_Context) directory 0 0 false.
Definition newKernelTask : Z -> Task := newTask SYSTEM_CS SYSTEM_DS.
Definition newUserTask : Z -> Task := newTask (Z.lor USER_CS 3) (Z.lor USER_DS 3).

(** ** The order of the set *)
Definition tid_lt (a b : Z * Task) : Prop := a.1 < b.1.

Section order.
Implicit Types (ts : gmap Z Task) (l : list (Z * Task)) (x : Z * Task).

Lemma ordered_perm ts : ordered ts ≡ₚ map_to_list ts.
Proof. apply merge_sort_Permutation. Qed.

Lemma elem_of_ordered ts tid t : (tid, t) ∈ ordered ts <-> ts !! tid = Some t.
Proof. by rewrite ordered_perm, elem_of_map_to_list. Qed.

Lemma ordered_sorted ts : StronglySorted tid_lt (ordered ts).
Proof.
  assert (NoDup (map fst (ordered ts))) as Hnd.
  { rewrite ordered_perm. apply NoDup_fst_map_to_list. }
  assert (StronglySorted tid_le (ordered ts)) as Hs.
  { apply Sorted_StronglySorted; [intros a b c; unfold tid_le; lia|].
    apply Sorted_merge_sort. intros a b. unfold tid_le. lia. }
  induction Hs as [|x l Hs IH Hall]; [constructor|]. rewrite fmap_cons in Hnd.
  apply NoDup_cons in Hnd as [Hx Hnd]. constructor; [by apply IH|].
  rewrite Forall_forall in Hall |- *. intros y Hy. pose proof (Hall y Hy) as Hle.
  unfold tid_le, tid_lt in *. assert (x.1 <> y.1); [|lia].
  intros E. apply Hx. rewrite E. by apply list_elem_of_fmap_2.
Qed.

Lemma sorted_head_min x l y : StronglySorted tid_lt (x :: l) -> y ∈ l -> x.1 < y.1.
Proof. intros [_ Hall]%StronglySorted_inv. rewrite Forall_forall in Hall. apply Hall. Qed.

(** [upper_bound] is the least identifier after [id]. *)
Lemma upper_bound_Some l id x :
  StronglySorted tid_lt l -> upper_bound id l = Some x ->
  x ∈ l /\ id < x.1 /\ forall y, y ∈ l -> id < y.1 -> x.1 <= y.1.
Proof.
  induction l as [|z l IH]; intros Hs H; [done|]. simpl in H.
  destruct (Z.ltb_spec id z.1).
  - injection H as <-. split_and!; [by left|done|].
    intros y [->|Hy]%elem_of_cons _; [lia|]. pose proof (sorted_head_min _ _ _ Hs Hy). lia.
  - pose proof (StronglySorted_inv Hs) as [Hs' _]. destruct (IH Hs' H) as (Hin & Hid & Hmin).
    split_and!; [by right|done|]. intros y [->|Hy]%elem_of_cons Hy'; [lia|by apply Hmin].
Qed.

Lemma upper_bound_None l id y : upper_bound id l = None -> y ∈ l -> y.1 <= id.
Proof.
  induction l as [|z l IH]; intros H Hy; [by apply elem_of_nil in Hy|]. simpl in H.
  destruct (Z.ltb_spec id z.1); [done|]. apply elem_of_cons in Hy as [->|Hy]; [lia|by apply IH].
Qed.

(** Two tasks of the set with one identifier are one task. *)
Lemma sorted_inj l x y : StronglySorted tid_lt l -> x ∈ l -> y ∈ l -> x.1 = y.1 -> x = y.
Proof.
  induction l as [|z l IH]; intros Hs Hx Hy E; [by apply elem_of_nil in Hx|].
  pose proof (StronglySorted_inv Hs) as [Hs' _].
  apply elem_of_cons in Hx as [->|Hx], Hy as [->|Hy]; [done|..].
  - pose proof (sorted_head_min _ _ _ Hs Hy). lia.
  - pose proof (sorted_head_min _ _ _ Hs Hx). lia.
  - by apply IH.
Qed.

Lemma last_tid_ge l x : x ∈ l -> x.1 <= last_tid l.
Proof.
  induction l as [|z l IH]; intros Hx; [by apply elem_of_nil in Hx|]. simpl.
  apply elem_of_cons in Hx as [->|Hx]; [lia|]. apply IH in Hx. lia.
Qed.

Lemma last_tid_nonneg l : 0 <= last_tid l.
Proof. induction l; simpl; lia. Qed.
End order.

(** ** The choice of the next task *)

(** The first runnable task after [id]. *)
Fixpoint next_runnable (id : Z) (l : list (Z * Task)) : option (Z * Task) :=
  match l with
  | [] => None
  | x :: l' => if (id <? x.1) && is_runnable x.2 then Some x else next_runnable id l'
  end.

(** The specification: the first runnable task after the active one, or else the first of all. *)
Definition round_robin (active : Z) (l : list (Z * Task)) : option (Z * Task) :=
  match next_runnable active l with
  | Some x => Some x
  | None => next_runnable 0 l
  end.

Lemma next_runnable_None id l : (forall y : Z * Task, y ∈ l -> y.1 <= id) -> next_runnable id l = None.
Proof.
  induction l as [|z l IH]; intros H; [done|]. simpl.
  rewrite (proj2 (Z.ltb_ge id z.1) (H z ltac:(by left))). apply IH. intros y Hy. apply H. by right.
Qed.

(** The least of the runnable tasks after [id]. *)
Lemma next_runnable_least id l x :
  StronglySorted tid_lt l -> x ∈ l -> id < x.1 -> is_runnable x.2 = true ->
  (forall y, y ∈ l -> id < y.1 -> is_runnable y.2 = true -> x.1 <= y.1) ->
  next_runnable id l = Some x.
Proof.
  induction l as [|z l IH]; intros Hs Hx Hid Hr Hmin; [by apply elem_of_nil in Hx|]. simpl.
  pose proof (StronglySorted_inv Hs) as [Hs' _].
  apply elem_of_cons in Hx as [->|Hx].
  - by rewrite (proj2 (Z.ltb_lt _ _) Hid), Hr.
  - destruct ((id <? z.1) && is_runnable z.2) eqn:E.
    + apply andb_true_iff in E as [E1 E2]. apply Z.ltb_lt in E1.
      pose proof (sorted_head_min _ _ _ Hs Hx).
      pose proof (Hmin z ltac:(by left) E1 E2). lia.
    + apply IH; [done|done|done|done|]. intros y Hy. apply Hmin. by right.
Qed.

Lemma next_runnable_skip id l :
  (forall y : Z * Task, y ∈ l -> y.1 = id + 1 -> is_runnable y.2 = false) ->
  next_runnable (id + 1) l = next_runnable id l.
Proof.
  induction l as [|z l IH]; intros H; [done|]. simpl.
  rewrite IH by (intros y Hy; apply H; by right).
  destruct (Z.ltb_spec (id + 1) z.1), (Z.ltb_spec id z.1); try lia; try done.
  by rewrite H; [|by left|lia].
Qed.

Section getNext_correct.
Context (l : list (Z * Task)) (Hs : StronglySorted tid_lt l).
Context (Htid : forall x : Z * Task, x ∈ l -> 0 <= x.1 < 2 ^ 32).

Lemma getNext_loop_run fuel id (looped : bool) :
  0 <= id < 2 ^ 32 ->
  Z.of_nat fuel > last_tid l - Z.min id (last_tid l) + (if looped then 0 else last_tid l + 1) ->
  getNext_loop fuel l id looped =
  Ok (if looped then next_runnable id l else round_robin id l).
Proof using Hs Htid.
  pose proof (last_tid_nonneg l) as Hnn.
  revert id looped. induction fuel as [|fuel IH]; intros id looped Hid Hfuel.
  { exfalso. destruct looped; lia. }
  simpl. destruct (upper_bound id l) as [x|] eqn:Hub.
  - apply upper_bound_Some in Hub as (Hx & Hlt & Hmin); [|done].
    pose proof (last_tid_ge l x Hx). pose proof (Htid x Hx).
    destruct (is_runnable x.2) eqn:Hr.
    + assert (next_runnable id l = Some x) as E.
      { apply next_runnable_least; [done..|]. intros y Hy Hy' _. by apply Hmin. }
      unfold round_robin. rewrite E. by destruct looped.
    + assert (next_runnable (id + 1) l = next_runnable id l) as E.
      { apply next_runnable_skip. intros y Hy Hy'.
        assert (x = y) as <-; [|done]. apply (sorted_inj l); [done..|].
        pose proof (Hmin y Hy ltac:(lia)). lia. }
      rewrite wrap_small by (unfold in_word; lia). rewrite IH by (destruct looped; lia).
      unfold round_robin. by rewrite E.
  - assert (next_runnable id l = None) as E.
    { apply next_runnable_None. intros y. by apply upper_bound_None. }
    unfold round_robin. rewrite E. destruct looped; [done|]. rewrite IH by lia. done.
Qed.
End getNext_correct.

(** The identifiers of the tasks are values of [pid_t]. *)
Definition tids_ok (ts : gmap Z Task) : Prop := forall tid t, ts !! tid = Some t -> in_word 32 tid.

Lemma ordered_tids ts : tids_ok ts -> forall x, x ∈ ordered ts -> 0 <= x.1 < 2 ^ 32.
Proof. intros Ht [tid t] Hx%elem_of_ordered. by apply (Ht tid t). Qed.

Lemma getNext_run m :
  tids_ok (tasks m) -> in_word 32 (activeTask m) ->
  getNext m = Ok (round_robin (activeTask m) (ordered (tasks m)), m).
Proof.
  intros Ht Ha. unfold getNext, mbind, ST_bind, read_state, lift_result, getNext_fuel.
  pose proof (last_tid_nonneg (ordered (tasks m))).
  rewrite getNext_loop_run; [done|apply ordered_sorted|by apply ordered_tids|done|].
  unfold in_word in Ha. lia.
Qed.

(** [getNext] terminates, although it tries the identifiers one at a time, and returns the
    first runnable task after the active one in the cyclic order of the identifiers, or
    [end()] when no task is runnable. *)
Theorem getNext_round_robin m :
  tids_ok (tasks m) -> in_word 32 (activeTask m) ->
  getNext m = Ok (round_robin (activeTask m) (ordered (tasks m)), m).
Proof. apply getNext_run. Qed.

(** ** Fairness *)
Definition runnables (l : list (Z * Task)) : list (Z * Task) :=
  filter (fun x => is_runnable x.2 = true) l.

Lemma next_runnable_upper_bound id l : next_runnable id l = upper_bound id (runnables l).
Proof.
  induction l as [|z l IH]; [done|]. unfold runnables in *. rewrite filter_cons. simpl.
  destruct (decide (is_runnable z.2 = true)) as [E|E].
  - rewrite E, andb_true_r. simpl. by destruct (id <? z.1).
  - apply not_true_is_false in E. by rewrite E, andb_false_r.
Qed.

Lemma sorted_filter (P : Z * Task -> Prop) `{!forall x, Decision (P x)} l :
  StronglySorted tid_lt l -> StronglySorted tid_lt (filter P l).
Proof.
  induction 1 as [|x l Hs IH Hall]; [constructor|]. rewrite filter_cons. case_decide; [|done].
  constructor; [done|]. rewrite Forall_forall in Hall |- *.
  intros y Hy%list_elem_of_filter. apply Hall, Hy.
Qed.

(** In a sorted list the least element after that of a position is at the next one. *)
Lemma upper_bound_next l i x :
  StronglySorted tid_lt l -> l !! i = Some x -> upper_bound x.1 l = l !! S i.
Proof.
  revert i. induction l as [|z l IH]; intros i Hs Hi; [done|].
  pose proof (StronglySorted_inv Hs) as [Hs' _]. destruct i as [|i]; simpl in *.
  - injection Hi as ->. rewrite (proj2 (Z.ltb_ge _ _)) by lia.
    destruct l as [|y l]; [done|]. simpl.
    pose proof (sorted_head_min x (y :: l) y Hs ltac:(by left)).
    by rewrite (proj2 (Z.ltb_lt _ _)) by done.
  - pose proof (sorted_head_min z l x Hs ltac:(by eapply list_elem_of_lookup_2)).
    rewrite (proj2 (Z.ltb_ge _ _)) by lia. by apply IH.
Qed.

Lemma upper_bound_first l : (forall x, x ∈ l -> 0 < x.1) -> upper_bound 0 l = head l.
Proof.
  destruct l as [|z l]; intros H; [done|]. simpl. by rewrite (proj2 (Z.ltb_lt 0 z.1) (H z ltac:(by left))).
Qed.

(** [Task 0] does not exist: [_activeTask] is 0 when no task is active. *)
Definition no_task_zero (ts : gmap Z Task) : Prop := ts !! 0 = None.

Lemma round_robin_next ts i x :
  tids_ok ts -> no_task_zero ts -> runnables (ordered ts) !! i = Some x ->
  round_robin x.1 (ordered ts) =
  runnables (ordered ts) !! (S i mod length (runnables (ordered ts)))%nat.
Proof.
  intros Ht H0 Hi. pose proof (lookup_lt_Some _ _ _ Hi) as Hlen. unfold round_robin.
  rewrite !next_runnable_upper_bound.
  rewrite (upper_bound_next _ i) by (done || by apply sorted_filter, ordered_sorted).
  destruct (decide (S i = length (runnables (ordered ts)))) as [E|E].
  - rewrite E, Nat.Div0.mod_same, (lookup_ge_None_2 _ (length _)) by lia.
    rewrite upper_bound_first; [by destruct (runnables _)|].
    intros [tid t] Hy. apply list_elem_of_filter in Hy as [_ Hy%elem_of_ordered]. simpl.
    pose proof (Ht tid t Hy) as Hw. unfold in_word in Hw.
    assert (tid <> 0) by (intros ->; by rewrite H0 in Hy). lia.
  - rewrite Nat.mod_small by lia.
    destruct (lookup_lt_is_Some_2 (runnables (ordered ts)) (S i)) as [y ->]; [lia|done].
Qed.

(** The task [getNext] chooses when [a] is active, or [a] if there is none. *)
Definition turn (m : TaskManager) (a : Z) : Z :=
  match getNext (set_activeTask a m) with
  | Ok (Some x, _) => x.1
  | _ => a
  end.

(** C18. No starvation: while the set does not change, any runnable task [y] is chosen within
    as many turns as there are runnable tasks, whichever runnable task [x] is active. *)
Theorem getNext_no_starvation m x y :
  tids_ok (tasks m) -> no_task_zero (tasks m) ->
  x ∈ runnables (ordered (tasks m)) -> y ∈ runnables (ordered (tasks m)) ->
  exists k, (k < length (runnables (ordered (tasks m))))%nat /\ Nat.iter k (turn m) x.1 = y.1.
Proof.
  intros Ht H0 Hx Hy. set (R := runnables (ordered (tasks m))) in *.
  apply list_elem_of_lookup in Hx as [i Hi], Hy as [j Hj].
  pose proof (lookup_lt_Some _ _ _ Hi) as Hli. pose proof (lookup_lt_Some _ _ _ Hj) as Hlj.
  assert (forall z, z ∈ R -> in_word 32 z.1) as Hw.
  { intros [tid t] Hz. apply list_elem_of_filter in Hz as [_ Hz%elem_of_ordered]. by apply (Ht tid t). }
  assert (forall k, exists z, R !! ((i + k) mod length R)%nat = Some z /\
                              Nat.iter k (turn m) x.1 = z.1) as Hk.
  { induction k as [|k (z & Hz & E)].
    - exists x. by rewrite Nat.add_0_r, Nat.mod_small.
    - destruct (lookup_lt_is_Some_2 R ((i + S k) mod length R)%nat) as [z' Hz'].
      { apply Nat.mod_upper_bound. lia. }
      exists z'. split; [done|]. simpl. rewrite E. unfold turn.
      rewrite getNext_run; [|done|]; cbn [tasks activeTask set_activeTask].
      2:{ apply Hw. by eapply list_elem_of_lookup_2. }
      rewrite (round_robin_next _ ((i + k) mod length R) z) by done. fold R.
      replace (S ((i + k) mod length R) mod length R)%nat with ((i + S k) mod length R)%nat.
      + by rewrite Hz'.
      + rewrite <- (Nat.add_1_r (_ mod _)), Nat.Div0.add_mod_idemp_l. f_equal. lia. }
  exists ((j + (length R - i)) mod length R)%nat. split; [apply Nat.mod_upper_bound; lia|].
  destruct (Hk ((j + (length R - i)) mod length R)%nat) as (z & Hz & ->).
  rewrite Nat.Div0.add_mod_idemp_r in Hz.
  replace (i + (j + (length R - i)))%nat with (j + 1 * length R)%nat in Hz by lia.
  rewrite Nat.Div0.mod_add, Nat.mod_small in Hz by lia. congruence.
Qed.

(** ** The timer *)
Lemma two_runnable_count first l :
  two_runnable first l = (2 <=? (if first then 1 else 0) + Z.of_nat (length (runnables l))).
Proof.
  revert first. induction l as [|z l IH]; intros first; unfold runnables in *; [by destruct first|].
  rewrite filter_cons. simpl. destruct (decide (is_runnable z.2 = true)) as [E|E].
  - rewrite E. simpl length. destruct first; [symmetry; apply Z.leb_le; lia|].
    rewrite IH. f_equal. lia.
  - apply not_true_is_false in E. by rewrite E.
Qed.

Lemma construct_run m :
  on_cpu DisableInterrupts.construct m =
  Ok (rflags_if (cpu m), set_cpu (set_if false (cpu m)) m).
Proof. by destruct m as [ts ac nx tm ks cd [[] n]]. Qed.

Lemma destroy_run m b :
  rflags_if (cpu m) = false ->
  on_cpu (DisableInterrupts.destroy b) m = Ok (tt, set_cpu (set_if b (cpu m)) m).
Proof. destruct m as [ts ac nx tm ks cd [i n]]. simpl. intros ->. by destruct b. Qed.

(** A program that leaves the processor alone runs the same with the interrupts masked. *)
Lemma masked_run {A} (op : ST TaskManager A) m a m' :
  (forall c, op (set_cpu c m) = Ok (a, set_cpu c m')) -> cpu m' = cpu m ->
  masked op m = Ok (a, m').
Proof.
  intros Hop Hc. unfold masked. rewrite (bind_run _ _ _ _ _ (construct_run m)).
  rewrite (bind_run _ _ _ _ _ (Hop _)).
  erewrite bind_run; [|by apply destroy_run]. destruct m' as [ts ac nx tm ks cd c]. cbn in *.
  subst c. by destruct (cpu m).
Qed.

Lemma Runs_masked {A} (op : ST TaskManager A) m (Q : A -> TaskManager -> Prop) :
  Runs op (set_cpu (set_if false (cpu m)) m) (fun a m' =>
    cpu m' = set_if false (cpu m) /\ Q a (set_cpu (cpu m) m')) ->
  Runs (masked op) m Q.
Proof.
  intros (a & m' & Heq & Hc & HQ)%Runs_ok. eapply Runs_of_ok; [|exact HQ].
  unfold masked. rewrite (bind_run _ _ _ _ _ (construct_run m)), (bind_run _ _ _ _ _ Heq).
  erewrite bind_run; [|apply destroy_run; by rewrite Hc]. rewrite Hc. by destruct (cpu m).
Qed.

(** The timer ticks exactly when there are two runnable tasks to switch between. *)
Definition should_tick (m : TaskManager) : bool :=
  2 <=? Z.of_nat (length (runnables (ordered (tasks m)))).

Lemma doInterruptMasking_run m :
  doInterruptMasking m = Ok (tt, set_timer_masked (negb (should_tick m)) m).
Proof.
  unfold doInterruptMasking. apply masked_run; [|done]. intros c.
  unfold mbind, ST_bind, read_state, modify. cbn [tasks set_cpu].
  unfold should_tick. rewrite two_runnable_count. simpl. by destruct (2 <=? _).
Qed.

(** The walk over the tasks masks the timer unless it meets a second runnable one, and leaves
    everything else, the interrupt flag included, as it was. *)
Theorem doInterruptMasking_spec m :
  doInterruptMasking m = Ok (tt, set_timer_masked (negb (should_tick m)) m).
Proof. apply doInterruptMasking_run. Qed.

Definition ticking_ok (m : TaskManager) : Prop := timer_masked m = negb (should_tick m).

(** Waking a task up, from any state of the timer, leaves the timer right. *)
Theorem wakeUpTask_spec m tid :
  Runs (wakeUpTask tid) m (fun _ m' =>
    tasks m' = alter (set_state Runnable) tid (tasks m) /\ ticking_ok m' /\
    activeTask m' = activeTask m).
Proof.
  unfold wakeUpTask, updateTask. run_step. apply Runs_modify.
  eapply Runs_of_ok; [apply doInterruptMasking_run|]. done.
Qed.

(** ** The active task *)
Lemma getTask_run m tid : getTask tid m = Ok (tasks m !! tid, m).
Proof. by apply masked_run. Qed.

Lemma getActive_run m :
  getActive m =
  Ok (if activeTask m =? 0 then None else pair (activeTask m) <$> tasks m !! activeTask m, m).
Proof.
  apply masked_run; [|done]. intros c. rewrite bind_read. cbn [activeTask set_cpu].
  destruct (activeTask m =? 0); [done|]. by rewrite (bind_run _ _ _ _ _ (getTask_run _ _)).
Qed.

Lemma getActiveTask_run m t :
  activeTask m <> 0 -> tasks m !! activeTask m = Some t ->
  getActiveTask m = Ok ((activeTask m, t), m).
Proof.
  intros Ha Ht. apply masked_run; [|done]. intros c. rewrite (bind_run _ _ _ _ _ (getActive_run _)).
  cbn [activeTask set_cpu tasks]. rewrite (proj2 (Z.eqb_neq _ _)) by done. by rewrite Ht.
Qed.

Lemma getActiveTask_none m :
  activeTask m = 0 -> getActiveTask m = Err (AssertionFailed "task && there is an active task").
Proof.
  intros Ha. unfold getActiveTask, masked. rewrite (bind_run _ _ _ _ _ (construct_run m)).
  apply bind_fail. rewrite (bind_run _ _ _ _ _ (getActive_run _)). cbn [activeTask set_cpu].
  by rewrite Ha.
Qed.

(** Going to sleep marks the active task, and no other, and adjusts the timer. *)
Theorem prepareMeForSleep_spec m t :
  activeTask m <> 0 -> tasks m !! activeTask m = Some t ->
  Runs prepareMeForSleep m (fun _ m' =>
    tasks m' = <[activeTask m := set_state Sleeping t]> (tasks m) /\ ticking_ok m' /\
    activeTask m' = activeTask m).
Proof.
  intros Ha Ht. unfold prepareMeForSleep, updateTask. run_step.
  eapply Runs_of_ok; [by apply getActiveTask_run|]. run_step. apply Runs_modify.
  eapply Runs_of_ok; [apply doInterruptMasking_run|]. split_and!; [|done|done].
  cbn [tasks set_timer_masked set_tasks fst]. apply map_eq. intros tid.
  destruct (decide (tid = activeTask m)) as [->|Hne].
  - by rewrite lookup_alter_eq, lookup_insert_eq, Ht.
  - by rewrite lookup_alter_ne, lookup_insert_ne.
Qed.

(** ** Switching tasks *)
Lemma round_robin_runnable ts a x :
  round_robin a (ordered ts) = Some x -> ts !! x.1 = Some x.2 /\ state x.2 = Runnable.
Proof.
  assert (forall id, next_runnable id (ordered ts) = Some x ->
            ts !! x.1 = Some x.2 /\ state x.2 = Runnable) as H.
  { intros id. rewrite next_runnable_upper_bound.
    intros [Hx _]%upper_bound_Some; [|apply sorted_filter, ordered_sorted].
    apply list_elem_of_filter in Hx as [Hr Hx]. destruct x as [tid t].
    split; [by apply elem_of_ordered|]. by apply bool_decide_eq_true in Hr. }
  unfold round_robin. destruct (next_runnable a _) eqn:E; [|apply H].
  intros [= ->]. by apply (H a).
Qed.

Lemma round_robin_none ts a :
  tids_ok ts -> no_task_zero ts -> round_robin a (ordered ts) = None ->
  forall tid t, ts !! tid = Some t -> state t <> Runnable.
Proof.
  intros Htid H0. unfold round_robin. destruct (next_runnable a _); [done|].
  rewrite next_runnable_upper_bound. intros Hn tid t Ht Hr.
  assert ((tid, t) ∈ runnables (ordered ts)) as Hin.
  { apply list_elem_of_filter. split; [by apply bool_decide_eq_true|by apply elem_of_ordered]. }
  pose proof (upper_bound_None _ _ _ Hn Hin) as Hle. simpl in Hle.
  pose proof (Htid tid t Ht) as Hw. unfold in_word in Hw.
  assert (tid = 0) as -> by lia. by rewrite H0 in Ht.
Qed.

(** What the scheduler needs: somebody is alive, and no user task was saved with the
    interrupts masked. *)
Record schedulable (m : TaskManager) : Prop := {
  sched_tids : tids_ok (tasks m);
  sched_zero : no_task_zero (tasks m);
  sched_active : in_word 32 (activeTask m);
  sched_if : rflags_if (cpu m) = false;
  sched_alive : exists tid t, tasks m !! tid = Some t /\ state t <> Zombie;
  sched_contexts tid t : tasks m !! tid = Some t -> context_ok (context t) = true;
}.

Lemma scheduleNext_run stackBase m :
  schedulable m ->
  Runs (scheduleNext stackBase) m (fun o m' =>
    tasks m' = tasks m /\
    match round_robin (activeTask m) (ordered (tasks m)) with
    | Some (tid, t) =>
        o = Jump tid (context t) /\ state t = Runnable /\ tasks m !! tid = Some t /\
        activeTask m' = tid /\ current_directory m' = pageDirectory t /\
        kernel_stack m' = kernelStackTop t /\ rflags_if (cpu m') = false
    | None =>
        o = Halt /\ activeTask m' = 0 /\ rflags_if (cpu m') = true /\ kernel_stack m' = stackBase /\
        forall tid t, tasks m !! tid = Some t -> state t <> Runnable
    end).
Proof.
  intros [Htids H0 Hact Hif (tid0 & t0 & Ht0 & Hz) Hctx].
  unfold scheduleNext, tryScheduleNext. run_steps.
  { apply negb_true_iff, not_true_iff_false. rewrite forallb_forall. intros Hall. apply Hz.
    assert ((tid0, t0) ∈ ordered (tasks m)) as Hin by (by apply elem_of_ordered).
    apply list_elem_of_In in Hin. specialize (Hall _ Hin). by apply bool_decide_eq_true in Hall. }
  eapply Runs_of_ok; [by apply getNext_run|]. cbn beta iota.
  destruct (round_robin _ _) as [[tid t]|] eqn:Hr.
  - pose proof (round_robin_runnable _ _ _ Hr) as [Ht Hrun]. simpl in Ht, Hrun.
    run_steps; [by eapply Hctx|]. run_steps. cbn. by split_and!.
  - run_steps. unfold enterSleep, setKernelStack. run_steps.
    eapply Runs_of_ok.
    { unfold on_cpu, zoom, enableInterrupts, mbind, ST_bind, read_state, assertion, modify.
      cbn [cpu set_activeTask set_kernel_stack]. rewrite Hif. done. }
    run_steps. cbn. split_and!; try done. by eapply round_robin_none.
Qed.

(** C29. [scheduleNext] gives the processor to the next runnable task in the round, with its address
    space, its kernel stack and its context; when nobody is runnable it enables the
    interrupts and halts, with no active task. *)
Theorem scheduleNext_spec stackBase m :
  schedulable m ->
  Runs (scheduleNext stackBase) m (fun o m' =>
    tasks m' = tasks m /\
    match round_robin (activeTask m) (ordered (tasks m)) with
    | Some (tid, t) =>
        o = Jump tid (context t) /\ state t = Runnable /\ tasks m !! tid = Some t /\
        activeTask m' = tid /\ current_directory m' = pageDirectory t /\
        kernel_stack m' = kernelStackTop t /\ rflags_if (cpu m') = false
    | None =>
        o = Halt /\ activeTask m' = 0 /\ rflags_if (cpu m') = true /\ kernel_stack m' = stackBase /\
        forall tid t, tasks m !! tid = Some t -> state t <> Runnable
    end).
Proof. apply scheduleNext_run. Qed.

(** ** Dying *)
Lemma notify_one_run m tid t :
  tasks m !! tid = Some t ->
  notify_one tid m =
  match stateCond_waiters t with
  | [] => Ok (tt, m)
  | w :: l => wakeUpTask w (set_tasks (alter (set_waiters l) tid (tasks m)) m)
  end.
Proof.
  intros Ht. unfold notify_one. rewrite bind_read, Ht.
  by destruct (stateCond_waiters t).
Qed.

(** A task that dies while another one holds its [stateMutex] (its parent, in [wait])
    brings the kernel down: no task is active any more when the mutex is locked. *)
Theorem terminate_contended stackBase m t :
  activeTask m <> 0 -> activeTask m <> 1 -> tasks m !! activeTask m = Some t ->
  rflags_if (cpu m) = false -> stateMutex_held t = true ->
  Fails (terminateCurrentTask stackBase) m (AssertionFailed "task && there is an active task").
Proof.
  intros Ha H1 Ht Hif Hheld. unfold Fails, terminateCurrentTask.
  rewrite bind_read, bind_assertion by (by rewrite Hif).
  rewrite (bind_run _ _ _ _ _ (getActiveTask_run m t Ha Ht)). cbn [fst].
  rewrite (proj2 (Z.eqb_neq _ _)) by done.
  rewrite (bind_run _ _ _ _ _ (construct_run m)).
  rewrite bind_modify. apply bind_fail.
  unfold lock_stateMutex. rewrite bind_read. cbn [tasks set_activeTask set_cpu].
  rewrite Ht, Hheld. apply bind_fail. by apply getActiveTask_none.
Qed.

(** The set of tasks after the death of the active one: it is a zombie, and the first of the
    tasks waiting for it is runnable. *)
Definition after_death (m : TaskManager) (t : Task) : gmap Z Task :=
  match stateCond_waiters t with
  | [] => <[activeTask m := set_state Zombie t]> (tasks m)
  | w :: l => alter (set_state Runnable) w
                (<[activeTask m := set_waiters l (set_state Zombie t)]> (tasks m))
  end.

Lemma masking_twice m : set_timer_masked (negb (should_tick m)) m =
  set_timer_masked (negb (should_tick (set_timer_masked (negb (should_tick m)) m)))
    (set_timer_masked (negb (should_tick m)) m).
Proof. done. Qed.

(** Otherwise dying is scheduling, with nobody active, from the set after the death and
    with the timer adjusted to it. *)
Theorem terminate_spec stackBase m t :
  activeTask m <> 0 -> activeTask m <> 1 -> tasks m !! activeTask m = Some t ->
  rflags_if (cpu m) = false -> stateMutex_held t = false ->
  let dead := set_tasks (after_death m t) (set_activeTask 0 m) in
  terminateCurrentTask stackBase m =
  scheduleNext stackBase (set_timer_masked (negb (should_tick dead)) dead).
Proof.
  intros Ha H1 Ht Hif Hheld dead. unfold terminateCurrentTask.
  rewrite bind_read, bind_assertion by (by rewrite Hif).
  rewrite (bind_run _ _ _ _ _ (getActiveTask_run m t Ha Ht)). cbn [fst].
  rewrite (proj2 (Z.eqb_neq _ _)) by done.
  rewrite (bind_run _ _ _ _ _ (construct_run m)).
  assert (set_cpu (set_if false (cpu m)) m = m) as ->.
  { destruct m as [ts ac nx tm ks cd [i n]]. cbn in *. by subst. }
  rewrite bind_modify.
  erewrite bind_run.
  2:{ unfold lock_stateMutex. rewrite bind_read. cbn [tasks set_activeTask]. rewrite Ht, Hheld. done. }
  unfold updateTask at 1. rewrite bind_modify.
  assert (alter (set_state Zombie) (activeTask m) (tasks m) =
          <[activeTask m := set_state Zombie t]> (tasks m)) as Halter.
  { apply map_eq. intros tid. destruct (decide (tid = activeTask m)) as [->|Hne].
    - by rewrite lookup_alter_eq, lookup_insert_eq, Ht.
    - by rewrite lookup_alter_ne, lookup_insert_ne. }
  cbn [tasks set_activeTask]. rewrite Halter.
  unfold dead, after_death. destruct (stateCond_waiters t) as [|w l] eqn:Hw.
  - erewrite bind_run.
    2:{ rewrite (notify_one_run _ _ (set_state Zombie t)); [by cbn; rewrite Hw|].
        cbn. by rewrite lookup_insert_eq. }
    by rewrite (bind_run _ _ _ _ _ (doInterruptMasking_run _)).
  - erewrite bind_run.
    2:{ rewrite (notify_one_run _ _ (set_state Zombie t)); [|cbn; by rewrite lookup_insert_eq].
        cbn [stateCond_waiters set_state]. rewrite Hw. unfold wakeUpTask, updateTask.
        rewrite bind_modify. apply doInterruptMasking_run. }
    rewrite (bind_run _ _ _ _ _ (doInterruptMasking_run _)). cbn [tasks set_tasks set_activeTask].
    assert (alter (set_waiters l) (activeTask m) (<[activeTask m := set_state Zombie t]> (tasks m)) =
            <[activeTask m := set_waiters l (set_state Zombie t)]> (tasks m)) as ->; [|done].
    apply map_eq. intros tid. destruct (decide (tid = activeTask m)) as [->|Hne].
    + by rewrite lookup_alter_eq, !lookup_insert_eq.
    + by rewrite lookup_alter_ne, !lookup_insert_ne.
Qed.

(** ** Identifiers *)

(** The identifiers from [a] on, as the loop tries them. *)
Definition candidate (a : Z) (k : nat) : Z := u32 (a + Z.of_nat k).

Lemma updateNextTid_loop_run ts fuel a :
  in_word 32 a ->
  (exists k, (k <= fuel)%nat /\ ts !! candidate a k = None /\
             (forall j, (j < k)%nat -> is_Some (ts !! candidate a j)) /\
             updateNextTid_loop fuel ts a = Ok (candidate a k)) \/
  (forall k, (k <= fuel)%nat -> is_Some (ts !! candidate a k)).
Proof.
  assert (forall b, in_word 32 b -> candidate b 0 = b) as H0.
  { intros b Hb. unfold candidate. rewrite Z.add_0_r. by apply wrap_small. }
  assert (forall b k, candidate (u32 (b + 1)) k = candidate b (S k)) as HS.
  { intros b k. unfold candidate. rewrite wrap_add_l. f_equal. lia. }
  revert a. induction fuel as [|fuel IH]; intros a Ha; simpl.
  - destruct (ts !! a) eqn:E.
    + right. intros k Hk. assert (k = 0%nat) as -> by lia. rewrite H0, E by done. by eexists.
    + left. exists 0%nat. rewrite H0 by done. split_and!; [lia|done|lia|done].
  - destruct (ts !! a) eqn:E.
    + destruct (IH (u32 (a + 1)) (wrap_range 32 _ ltac:(lia))) as [(k & Hk & Hn & Hall & Hr)|Hall].
      * left. exists (S k). rewrite HS in *. split_and!; [lia|done| |done].
        intros [|j] Hj; [rewrite H0, E by done; by eexists|]. rewrite <- HS. apply Hall. lia.
      * right. intros [|k] Hk; [rewrite H0, E by done; by eexists|]. rewrite <- HS. apply Hall. lia.
    + left. exists 0%nat. rewrite H0 by done. split_and!; [lia|done|lia|done].
Qed.

Lemma candidate_inj a j k :
  Z.of_nat j < 2 ^ 32 -> Z.of_nat k < 2 ^ 32 -> candidate a j = candidate a k -> j = k.
Proof.
  intros Hj Hk E. unfold candidate, wrap in E.
  pose proof (Z.div_mod (a + Z.of_nat j) (2 ^ 32) ltac:(lia)).
  pose proof (Z.div_mod (a + Z.of_nat k) (2 ^ 32) ltac:(lia)).
  assert (Z.of_nat j - Z.of_nat k = 2 ^ 32 * ((a + Z.of_nat j) / 2 ^ 32 - (a + Z.of_nat k) / 2 ^ 32)) by lia.
  nia.
Qed.

Lemma updateNextTid_run m :
  in_word 32 (nextTid m) -> Z.of_nat (size (tasks m)) < 2 ^ 32 ->
  exists k, (k <= size (tasks m))%nat /\ updateNextTid m = Ok (tt, set_nextTid (candidate (nextTid m) k) m) /\
    tasks m !! candidate (nextTid m) k = None /\
    forall j, (j < k)%nat -> is_Some (tasks m !! candidate (nextTid m) j).
Proof.
  intros Hn Hsize.
  destruct (updateNextTid_loop_run (tasks m) (size (tasks m)) (nextTid m) Hn)
    as [(k & Hk & Hnone & Hall & Hr)|Hall].
  - exists k. split_and!; [done| |done|done]. unfold updateNextTid.
    rewrite bind_read. erewrite bind_run; [done|]. unfold lift_result. by rewrite Hr.
  - exfalso.
    set (l := map (candidate (nextTid m)) (seq 0 (S (size (tasks m))))).
    assert (NoDup l) as Hnd.
    { apply NoDup_ListNoDup, Stdlib.Lists.Finite.Injective_map_NoDup_in; [|apply seq_NoDup].
      intros j k Hj%in_seq Hk%in_seq E. eapply candidate_inj; [| |exact E]; lia. }
    assert (list_to_set l ⊆@{gset Z} dom (tasks m)) as Hsub.
    { intros tid. rewrite elem_of_list_to_set. unfold l.
      intros (k & -> & Hk%elem_of_seq)%list_elem_of_fmap. apply elem_of_dom, Hall. lia. }
    apply subseteq_size in Hsub. rewrite size_list_to_set, size_dom in Hsub by done.
    unfold l in Hsub. rewrite length_map, length_seq in Hsub. lia.
Qed.

(** The search for a free identifier ends, wrapping around if it has to, as long as the
    set is not full: it stops at the first identifier that no task has. *)
Theorem updateNextTid_spec m :
  in_word 32 (nextTid m) -> Z.of_nat (size (tasks m)) < 2 ^ 32 ->
  exists k, updateNextTid m = Ok (tt, set_nextTid (candidate (nextTid m) k) m) /\
    tasks m !! candidate (nextTid m) k = None /\
    forall j, (j < k)%nat -> is_Some (tasks m !! candidate (nextTid m) j).
Proof. intros Hn Hsize. destruct (updateNextTid_run m Hn Hsize) as (k & _ & H). by exists k. Qed.

(** When the identifiers wrap around a new task gets the identifier 0, which stands for
    "no task": the set is never searched for it, so the task never runs. *)
Theorem task_zero_never_runs m x m' :
  tids_ok (tasks m) -> in_word 32 (activeTask m) ->
  getNext m = Ok (Some x, m') -> x.1 <> 0.
Proof.
  intros Ht Ha. rewrite getNext_run by done. intros [= Hr _]. revert Hr. unfold round_robin.
  assert (forall id, 0 <= id -> next_runnable id (ordered (tasks m)) = Some x -> x.1 <> 0) as H.
  { intros id Hid. rewrite next_runnable_upper_bound.
    intros (_ & Hlt & _)%upper_bound_Some; [lia|apply sorted_filter, ordered_sorted]. }
  unfold in_word in Ha. destruct (next_runnable (activeTask m) _) eqn:E.
  - intros [= ->]. apply (H (activeTask m)); [lia|done].
  - apply (H 0). lia.
Qed.

(** [wait] on a task that has no parent, as task 1 has none, dereferences a null pointer. *)
Theorem wait_orphan stateCond_wait Task_destroy m tid t :
  tid <> no_pid -> tasks m !! tid = Some t -> parent (hh t) = 0 -> no_task_zero (tasks m) ->
  Fails (wait (fun _ op => op) stateCond_wait Task_destroy tid) m (Undefined "dangling Task").
Proof.
  intros Hne Ht Hp H0. unfold Fails, wait. apply bind_fail. unfold wait_child. rewrite (proj2 (Z.eqb_neq _ _)) by done.
  erewrite bind_run; [|done]. cbn beta iota. rewrite (bind_run _ _ _ _ _ (getTask_run m tid)), Ht.
  apply bind_fail. unfold deref_task. rewrite bind_read, Hp, H0. done.
Qed.

(** ** The theorems at work *)
Definition example_task (p : Z) (st : State) : Task :=
  mkTask (mkHH p 0 0 0) st false [] (set_segments SYSTEM_CS SYSTEM_DS 0x200 zero_Context) 0x1000 0x2000 0 false.
Definition example_tm (active next : Z) : TaskManager :=
  mkTM (<[1 := example_task 0 Runnable]> (<[2 := example_task 1 Sleeping]>
       (<[5 := example_task 1 Runnable]> (<[9 := example_task 1 Zombie]> ∅))))
    active next true 0 0 (mkCpu false 0).

Lemma example_tids active next : tids_ok (tasks (example_tm active next)).
Proof.
  intros tid t Ht. cbn [tasks example_tm] in Ht. unfold in_word.
  repeat (apply lookup_insert_Some in Ht as [[<- _]|[_ Ht]]; [lia|]). by rewrite lookup_empty in Ht.
Qed.

Lemma getNext_round_robin_witness :
  getNext (example_tm 5 10) =
  Ok (round_robin 5 (ordered (tasks (example_tm 5 10))), example_tm 5 10) /\
  fst <$> round_robin 5 (ordered (tasks (example_tm 5 10))) = Some 1.
Proof.
  split; [|by vm_compute]. apply (getNext_round_robin (example_tm 5 10)); [apply example_tids|done].
Defined.

Lemma getNext_no_starvation_witness :
  exists k, (k < 2)%nat /\ Nat.iter k (turn (example_tm 5 10)) 5 = 1.
Proof.
  destruct (getNext_no_starvation (example_tm 5 10) (5, example_task 1 Runnable)
              (1, example_task 0 Runnable)) as (k & Hk & E).
  - apply example_tids.
  - done.
  - apply (bool_decide_unpack _). by vm_compute.
  - apply (bool_decide_unpack _). by vm_compute.
  - exists k. split; [by vm_compute in Hk|done].
Defined.

Lemma example_schedulable : schedulable (example_tm 5 10).
Proof.
  split; [apply example_tids|done|done|done|by exists 1, (example_task 0 Runnable)|].
  intros tid t Ht. cbn [tasks example_tm] in Ht.
  repeat (apply lookup_insert_Some in Ht as [[_ <-]|[_ Ht]]; [done|]). by rewrite lookup_empty in Ht.
Qed.

Lemma scheduleNext_spec_witness :
  Runs (scheduleNext 0x7000) (example_tm 5 10) (fun o m' => activeTask m' = 1).
Proof.
  eapply Runs_mono; [exact (scheduleNext_spec 0x7000 (example_tm 5 10) example_schedulable)|].
  intros o m' [_ H]. cbn [activeTask] in H.
  replace (round_robin (activeTask (example_tm 5 10)) (ordered (tasks (example_tm 5 10))))
    with (Some (1, example_task 0 Runnable)) in H by (by vm_compute).
  by destruct H as (_ & _ & _ & Ha & _).
Defined.

Lemma prepareMeForSleep_spec_witness :
  Runs prepareMeForSleep (example_tm 5 10) (fun _ m' =>
    tasks m' !! 5 = Some (example_task 1 Sleeping) /\ timer_masked m' = true).
Proof.
  eapply Runs_mono; [apply (prepareMeForSleep_spec (example_tm 5 10) (example_task 1 Runnable)); done|].
  intros _ m' (Ht & Hk & _). unfold ticking_ok, should_tick in Hk. rewrite Ht in Hk |- *.
  split; [done|]. rewrite Hk. by vm_compute.
Defined.

Definition contended_tm : TaskManager :=
  set_tasks (alter (fun t => mkTask (hh t) (state t) true [] (context t) 0 0 0 false) 5 (tasks (example_tm 5 10)))
    (example_tm 5 10).

Lemma terminate_contended_witness :
  Fails (terminateCurrentTask 0x7000) contended_tm (AssertionFailed "task && there is an active task").
Proof.
  apply (terminate_contended 0x7000 contended_tm (mkTask (mkHH 1 0 0 0) Runnable true []
    (set_segments SYSTEM_CS SYSTEM_DS 0x200 zero_Context) 0 0 0 false)); done.
Defined.

Lemma terminate_spec_witness :
  let m := example_tm 5 10 in
  let dead := set_tasks (after_death m (example_task 1 Runnable)) (set_activeTask 0 m) in
  terminateCurrentTask 0x7000 m =
  scheduleNext 0x7000 (set_timer_masked (negb (should_tick dead)) dead).
Proof. apply (terminate_spec 0x7000 (example_tm 5 10) (example_task 1 Runnable)); done. Defined.

(** All the identifiers from [nextTid] are taken but 0. *)
Lemma updateNextTid_spec_witness :
  exists k, updateNextTid (example_tm 5 1) = Ok (tt, set_nextTid (candidate 1 k) (example_tm 5 1)) /\
    tasks (example_tm 5 1) !! candidate 1 k = None /\
    forall j, (j < k)%nat -> is_Some (tasks (example_tm 5 1) !! candidate 1 j).
Proof. apply (updateNextTid_spec (example_tm 5 1)); by vm_compute. Defined.

Lemma task_zero_never_runs_witness :
  (exists m', (addTask (example_task 1 Runnable) ;; addTask (example_task 1 Runnable))
                (example_tm 5 (2 ^ 32 - 1)) = Ok (0, m')) /\
  (forall x m', getNext (example_tm 5 0) = Ok (Some x, m') -> x.1 <> 0).
Proof.
  split.
  - eexists. vm_compute. reflexivity.
  - intros x m'. apply task_zero_never_runs; [apply example_tids|done].
Defined.

Lemma wait_orphan_witness :
  Fails (wait (fun _ op => op) (fun _ => mret tt) (fun _ _ => mret tt) 1) (example_tm 5 10) (Undefined "dangling Task").
Proof. apply (wait_orphan _ _ (example_tm 5 10) 1 (example_task 0 Runnable)); done. Defined.
