(* ===== verification/Family.v ===== *)
(** * The family tree of the tasks: [Task::HierarchyHolder]

    Each task has a doubly linked list of children, threaded through the holders.  [family] ties the holders to a function
    from a task to the list of its children; [addTask] puts the new task at the head of the list of its parent, and
    [~HierarchyHolder] takes a task out of the middle of one. *)

From Stdlib Require Import ZArith Lia.
From stdpp Require Import list numbers gmap.
From S2P Require Import Prelude Words Interrupts Tasks.

(** ** The lists *)
Section siblings.
Context (ts : gmap Z Task) (p : Z).

(** The children [l] of [p] from the one after [prev] to the one before [stop] *)
Fixpoint siblings (prev : Z) (l : list Z) (stop : Z) : Prop :=
  match l with
  | [] => True
  | c :: l' =>
      (exists t, ts !! c = Some t /\ parent (hh t) = p /\ prevSibling (hh t) = prev /\ nextSibling (hh t) = hd stop l') /\
      siblings c l' stop
  end.

Definition last_of (prev : Z) (l : list Z) : Z := default prev (last l).

Lemma last_of_cons prev c l : last_of prev (c :: l) = last_of c l.
Proof. unfold last_of. rewrite last_cons. by destruct (last l). Qed.

Lemma hd_app (stop : Z) l1 l2 : hd stop (l1 ++ l2) = hd (hd stop l2) l1.
Proof. by destruct l1. Qed.

Lemma siblings_app prev l1 l2 stop :
  siblings prev (l1 ++ l2) stop <-> siblings prev l1 (hd stop l2) /\ siblings (last_of prev l1) l2 stop.
Proof.
  revert prev. induction l1 as [|c l1 IH]; intros prev; [by split; [|intros [_ ?]]|]. cbn [siblings app].
  rewrite IH, last_of_cons, hd_app. tauto.
Qed.

Lemma siblings_member prev l stop c :
  siblings prev l stop -> c ∈ l -> exists t, ts !! c = Some t /\ parent (hh t) = p.
Proof.
  revert prev. induction l as [|x l IH]; intros prev; cbn [siblings]; [by intros _ ?%elem_of_nil|].
  intros [(t & Ht & Hp & _) Hl] [->|Hc]%elem_of_cons; [by exists t|by eapply IH].
Qed.
End siblings.

(** Only the pointers of a list matter to it. *)
Lemma siblings_same ts ts' p prev l stop :
  siblings ts p prev l stop ->
  (forall c t, c ∈ l -> ts !! c = Some t -> exists t', ts' !! c = Some t' /\ parent (hh t') = parent (hh t) /\
     prevSibling (hh t') = prevSibling (hh t) /\ nextSibling (hh t') = nextSibling (hh t)) ->
  siblings ts' p prev l stop.
Proof.
  revert prev. induction l as [|x l IH]; intros prev; cbn [siblings]; [done|].
  intros [(t & Ht & Hp & Hv & Hn) Hl] Hsame. destruct (Hsame x t ltac:(left) Ht) as (t' & Ht' & <- & <- & <-) in Hp, Hv, Hn |- *.
  split; [by exists t'|]. apply IH; [done|]. intros c u Hc. apply Hsame. by right.
Qed.

(** ** The tree *)
Record family (F : Z -> list Z) (ts : gmap Z Task) : Prop := {
  fam_null : ts !! 0 = None;
  fam_first p t : ts !! p = Some t -> firstChild (hh t) = hd 0 (F p);
  fam_list p : siblings ts p 0 (F p) 0;
  fam_parent c t : ts !! c = Some t -> parent (hh t) <> 0 -> is_Some (ts !! parent (hh t)) /\ c ∈ F (parent (hh t));
  fam_distinct p : NoDup (F p);
  fam_none p : ts !! p = None -> F p = [];
}.

Definition update_family (F : Z -> list Z) (p : Z) (l : list Z) (x : Z) : list Z := if x =? p then l else F x.

(** ** Changing the holders *)
Definition upd (f : HierarchyHolder -> HierarchyHolder) (p : Z) (ts : gmap Z Task) : gmap Z Task :=
  alter (fun t => set_hh (f (hh t)) t) p ts.

Lemma lookup_upd f p ts x : upd f p ts !! x = (fun t => if x =? p then set_hh (f (hh t)) t else t) <$> ts !! x.
Proof.
  unfold upd. destruct (Z.eqb_spec x p) as [->|Hne]; [apply lookup_alter_eq|]. rewrite lookup_alter_ne by done. by destruct (ts !! x).
Qed.

Lemma update_hh_run p f m t :
  tasks m !! p = Some t -> update_hh p f m = Ok (tt, set_tasks (upd f p (tasks m)) m).
Proof. intros Ht. unfold update_hh, deref_task. unfold mbind, ST_bind, read_state. cbn. by rewrite Ht. Qed.

Lemma deref_task_run p m t : tasks m !! p = Some t -> deref_task p m = Ok (t, m).
Proof. intros Ht. unfold deref_task. rewrite bind_read. by rewrite Ht. Qed.

(** The holders of [ts'] are those of [ts] changed by [f]. *)
Definition with_hh (f : Z -> HierarchyHolder -> HierarchyHolder) (ts ts' : gmap Z Task) : Prop :=
  forall x, ts' !! x = (fun t => set_hh (f x (hh t)) t) <$> ts !! x.

(** ** A new child *)
Definition adopted (p c f x : Z) (h : HierarchyHolder) : HierarchyHolder :=
  mkHH (parent h) (if x =? p then c else firstChild h) (if x =? c then f else nextSibling h) (if x =? f then c else prevSibling h).

Lemma adopted_fields p c f x h :
  parent (adopted p c f x h) = parent h /\ firstChild (adopted p c f x h) = (if x =? p then c else firstChild h) /\
  nextSibling (adopted p c f x h) = (if x =? c then f else nextSibling h) /\
  prevSibling (adopted p c f x h) = (if x =? f then c else prevSibling h).
Proof. done. Qed.

Lemma addChild_run p c m tp tc :
  tasks m !! 0 = None -> tasks m !! p = Some tp -> tasks m !! c = Some tc -> p <> c ->
  let f := firstChild (hh tp) in
  f <> c -> (f <> 0 -> exists tf, tasks m !! f = Some tf /\ prevSibling (hh tf) = 0) ->
  prevSibling (hh tc) = 0 -> parent (hh tc) <> 0 ->
  Runs (addChild p c) m (fun _ m' => exists ts', m' = set_tasks ts' m /\ with_hh (adopted p c f) (tasks m) ts').
Proof.
  intros H0 Hp Hc Hpc f Hfc Hf Hprev Hpar. unfold addChild.
  apply Runs_bind. eapply Runs_of_ok; [by apply deref_task_run|]. fold f.
  set (ts1 := upd (set_prevSibling c) f (tasks m)).
  apply Runs_bind. eapply (Runs_of_ok _ _ tt (set_tasks ts1 m)).
  { destruct (Z.eqb_spec f 0) as [E|E].
    - unfold ts1. rewrite E. unfold upd. rewrite alter_id; [by destruct m|]. intros t Ht. congruence.
    - destruct (Hf E) as (tf & Htf & Hz). rewrite (bind_run _ _ _ _ _ (deref_task_run _ _ _ Htf)), Hz.
      rewrite bind_assertion by done. by eapply update_hh_run. }
  assert (ts1 !! c = Some tc) as Hc1 by (unfold ts1; rewrite lookup_upd, Hc; cbn; by rewrite (proj2 (Z.eqb_neq c f))).
  assert (exists tp1, ts1 !! p = Some tp1 /\ firstChild (hh tp1) = f) as (tp1 & Hp1 & Hf1).
  { unfold ts1. rewrite lookup_upd, Hp. cbn. eexists. split; [done|]. by destruct (p =? f). }
  apply Runs_bind. eapply Runs_of_ok; [by apply deref_task_run|]. apply Runs_bind, Runs_assertion; [by rewrite Hprev|].
  apply Runs_bind. eapply Runs_of_ok; [by apply deref_task_run|]. rewrite Hf1.
  apply Runs_bind. eapply Runs_of_ok; [by eapply update_hh_run|].
  set (ts2 := upd (set_nextSibling f) c ts1). change (set_tasks _ (set_tasks ts1 m)) with (set_tasks ts2 m).
  assert (ts2 !! p = Some tp1) as Hp2 by (unfold ts2; rewrite lookup_upd, Hp1; cbn; by rewrite (proj2 (Z.eqb_neq p c))).
  apply Runs_bind. eapply Runs_of_ok; [by eapply update_hh_run|]. set (ts3 := upd (set_firstChild c) p ts2).
  change (set_tasks _ (set_tasks ts2 m)) with (set_tasks ts3 m).
  assert (with_hh (adopted p c f) (tasks m) ts3) as Hw.
  { intros x. unfold ts3, ts2, ts1. rewrite !lookup_upd. destruct (tasks m !! x) as [t|]; [|done]. cbn. f_equal.
    unfold adopted. destruct t as [[]]; cbn. by destruct (x =? f), (x =? c), (x =? p). }
  assert (exists t3, ts3 !! c = Some t3 /\ parent (hh t3) = parent (hh tc)) as (t3 & Hc3 & E3).
  { rewrite Hw, Hc. eexists. split; [done|]. done. }
  apply Runs_bind. eapply Runs_of_ok; [by apply deref_task_run|]. apply Runs_assertion; [rewrite E3; by apply negb_true_iff, Z.eqb_neq|].
  by exists ts3.
Qed.

Lemma family_in F ts p x : family F ts -> x ∈ F p -> x <> 0 /\ exists t, ts !! x = Some t /\ parent (hh t) = p.
Proof.
  intros Hf Hx. destruct (siblings_member ts p 0 (F p) 0 x (fam_list _ _ Hf p) Hx) as (t & Ht & Hp).
  split; [|by exists t]. intros ->. rewrite (fam_null _ _ Hf) in Ht. done.
Qed.

Lemma family_head F ts p : family F ts -> hd 0 (F p) <> 0 -> exists t, ts !! hd 0 (F p) = Some t /\ parent (hh t) = p /\ prevSibling (hh t) = 0.
Proof.
  intros Hf. pose proof (fam_list _ _ Hf p) as Hl. destruct (F p) as [|f l]; [done|]. cbn in *.
  destruct Hl as [(t & ? & ? & ? & _) _]. by exists t.
Qed.

Lemma family_adopt F ts ts' p c t :
  family F ts -> c <> 0 -> ts !! c = None -> is_Some (ts !! p) -> hh t = mkHH p 0 0 0 ->
  with_hh (adopted p c (hd 0 (F p))) (<[c := t]> ts) ts' -> family (update_family F p (c :: F p)) ts'.
Proof.
  intros Hf Hc0 Hc [tp Hp] Ht Hw. set (f := hd 0 (F p)) in *.
  assert (p <> c) as Hpc by congruence. assert (p <> 0) as Hp0 by (intros ->; rewrite (fam_null _ _ Hf) in Hp; done).
  assert (forall x u, ts !! x = Some u -> x <> c /\ ts' !! x = Some (set_hh (adopted p c f x (hh u)) u)) as Hold.
  { intros x u Hx. assert (x <> c) by congruence. split; [done|]. rewrite Hw, lookup_insert_ne, Hx by done. done. }
  assert (ts' !! c = Some (set_hh (adopted p c f c (hh t)) t)) as Hnew by (rewrite Hw, lookup_insert_eq; done).
  assert (forall q, f ∈ F q -> q = p) as Hfp.
  { intros q Hq. destruct (family_in _ _ _ _ Hf Hq) as (Hn & u & Hu & Eq). destruct (family_head F ts p Hf Hn) as (u' & Hu' & Ep & _).
    fold f in Hu'. congruence. }
  assert (f <> c) as Hfc.
  { intros E. destruct (decide (f = 0)) as [|Hn]; [congruence|]. destruct (family_head F ts p Hf Hn) as (u & Hu & _). fold f in Hu. congruence. }
  assert (forall q prev l, siblings ts q prev l 0 -> f ∉ l -> siblings ts' q prev l 0) as Hkeep.
  { intros q prev l Hl Hout. eapply siblings_same; [exact Hl|]. intros x u Hx Hu. destruct (Hold x u Hu) as [Hxc Hx'].
    eexists. split; [exact Hx'|]. cbn. rewrite (proj2 (Z.eqb_neq x c)), (proj2 (Z.eqb_neq x f)) by congruence. done. }
  unfold update_family. split.
  - rewrite Hw, lookup_insert_ne, (fam_null _ _ Hf) by done. done.
  - intros q u'. rewrite Hw. destruct (decide (q = c)) as [->|Hq].
    + rewrite lookup_insert_eq. intros [= <-]. cbn. rewrite (proj2 (Z.eqb_neq c p)), (fam_none _ _ Hf c Hc), Ht by done. done.
    + rewrite lookup_insert_ne by done. destruct (ts !! q) as [u|] eqn:Hu; [|done]. intros [= <-]. cbn.
      destruct (q =? p); [done|]. by apply (fam_first _ _ Hf).
  - intros q. destruct (Z.eqb_spec q p) as [->|Hq].
    + cbn [siblings]. split.
      * eexists. split; [exact Hnew|]. cbn. rewrite Z.eqb_refl, (proj2 (Z.eqb_neq c f)), Ht by congruence. done.
      * pose proof (fam_list _ _ Hf p) as Hl. pose proof (fam_distinct _ _ Hf p) as Hd. subst f. destruct (F p) as [|f l]; [done|].
        cbn [siblings hd] in *. destruct Hl as [(u & Hu & E1 & E2 & E3) Hl]. apply NoDup_cons in Hd as [Hd _]. split; [|by apply Hkeep].
        destruct (Hold f u Hu) as [Hxc Hx']. eexists. split; [exact Hx'|]. cbn. rewrite Z.eqb_refl, (proj2 (Z.eqb_neq f c)) by done. done.
    + apply Hkeep; [apply Hf|]. intros Hin. by apply Hq, Hfp.
  - intros x u'. rewrite Hw. destruct (decide (x = c)) as [->|Hx].
    + rewrite lookup_insert_eq. intros [= <-]. cbn. rewrite Ht. cbn. intros _. rewrite Z.eqb_refl.
      split; [|left]. destruct (Hold p tp Hp) as [_ ->]. done.
    + rewrite lookup_insert_ne by done. destruct (ts !! x) as [u|] eqn:Hu; [|done]. intros [= <-]. cbn. intros Hn.
      destruct (fam_parent _ _ Hf x u Hu Hn) as [[v Hv] Hin]. split; [destruct (Hold _ v Hv) as [_ ->]; done|].
      destruct (Z.eqb_spec (parent (hh u)) p) as [E|]; [right; by rewrite E in Hin|done].
  - intros q. destruct (Z.eqb_spec q p) as [->|Hq]; [|apply Hf]. apply NoDup_cons. split; [|apply Hf].
    intros Hin. destruct (family_in _ _ _ _ Hf Hin) as (_ & u & Hu & _). congruence.
  - intros q. rewrite Hw, fmap_None. intros Hq. destruct (decide (q = c)) as [->|Hqc]; [by rewrite lookup_insert_eq in Hq|].
    rewrite lookup_insert_ne in Hq by done. destruct (Z.eqb_spec q p) as [->|]; [congruence|]. by apply Hf.
Qed.

(** ** [addTask] *)

Lemma adopt_run F (m : TaskManager) p c tp t ts :
  family F ts -> tasks m = <[c := t]> ts -> ts !! p = Some tp -> c <> 0 -> ts !! c = None -> hh t = mkHH p 0 0 0 ->
  Runs (addChild p c) m (fun _ m' => exists ts', m' = set_tasks ts' m /\
    with_hh (adopted p c (hd 0 (F p))) (<[c := t]> ts) ts' /\ family (update_family F p (c :: F p)) ts').
Proof.
  intros Hf Hm Hp Hc0 Hc Ht. assert (p <> c) as Hpc by congruence.
  pose proof (fam_first _ _ Hf p tp Hp) as Ef. eapply Runs_mono.
  - apply (addChild_run p c m tp t); rewrite ?Hm, ?lookup_insert_eq, ?lookup_insert_ne by done; try done.
    + apply Hf.
    + rewrite Ef. intros E. destruct (family_head F ts p Hf) as (u & Hu & _); [by rewrite E|]. congruence.
    + rewrite Ef. intros Hn. destruct (family_head F ts p Hf Hn) as (u & Hu & _ & Hz). exists u.
      rewrite lookup_insert_ne by congruence. done.
    + by rewrite Ht.
    + rewrite Ht. cbn. intros ->. rewrite (fam_null _ _ Hf) in Hp. done.
  - intros [] m' (ts' & -> & Hw). exists ts'. rewrite Ef, Hm in Hw. split; [done|]. split; [done|]. by eapply family_adopt.
Qed.

(** The new task is the first child of the active one; of the others only the pointers of the tree change. *)
Record task_added (F : Z -> list Z) (m m' : TaskManager) (t : Task) (tid : Z) : Prop := {
  added_new : tasks m !! tid = None /\ nextTid m <= tid;
  (** no identifier in between is free *)
  added_least x : nextTid m <= x < tid -> is_Some (tasks m !! x);
  added_next : nextTid m' = u32 (tid + 1);
  added_family : family (update_family F (activeTask m) (tid :: F (activeTask m))) (tasks m');
  added_task : tasks m' !! tid = Some (set_hh (mkHH (activeTask m) 0 (hd 0 (F (activeTask m))) 0) t);
  added_others x u : tasks m !! x = Some u -> exists h, tasks m' !! x = Some (set_hh h u) /\ parent h = parent (hh u);
  added_dom x : tasks m !! x = None -> x <> tid -> tasks m' !! x = None;
  added_rest : activeTask m' = activeTask m /\ cpu m' = cpu m /\ kernel_stack m' = kernel_stack m /\
    current_directory m' = current_directory m;
  added_timer : state t = Runnable -> ticking_ok m';
}.

Lemma set_hh_set h h' t : set_hh h (set_hh h' t) = set_hh h t.
Proof. done. Qed.

Lemma linked_others F ts p tid t ts' :
  with_hh (adopted p tid (hd 0 (F p))) (<[tid := set_hh (mkHH p 0 0 0) t]> ts) ts' -> p <> tid -> hd 0 (F p) <> tid ->
  ts' !! tid = Some (set_hh (mkHH p 0 (hd 0 (F p)) 0) t) /\
  (forall x u, ts !! x = Some u -> x <> tid -> exists h, ts' !! x = Some (set_hh h u) /\ parent h = parent (hh u)) /\
  forall x, ts !! x = None -> x <> tid -> ts' !! x = None.
Proof.
  intros Hw Hp Hh. split; [|split].
  - rewrite Hw, lookup_insert_eq. cbn. f_equal. unfold adopted. cbn.
    by rewrite Z.eqb_refl, (proj2 (Z.eqb_neq tid p)), (proj2 (Z.eqb_neq tid (hd 0 (F p)))).
  - intros x u Hx Hne. rewrite Hw, lookup_insert_ne, Hx by done. by eexists.
  - intros x Hx Hne. rewrite Hw, lookup_insert_ne, Hx by done. done.
Qed.

Lemma addTask_run F m t ta :
  family F (tasks m) -> activeTask m <> 0 -> tasks m !! activeTask m = Some ta -> hh t = new_HH ->
  1 < nextTid m -> nextTid m + Z.of_nat (size (tasks m)) < 2 ^ 32 ->
  Runs (addTask t) m (fun tid m' => task_added F m m' t tid).
Proof.
  intros Hf Ha Hta Ht Hn Hsize. unfold addTask. apply Runs_masked. set (c := set_if false (cpu m)).
  destruct (updateNextTid_run (set_cpu c m)) as (k & Hk & Hup & Hnone & Hused); [cbn; unfold in_word; lia|cbn; lia|].
  cbn [tasks nextTid set_cpu] in *.
  assert (candidate (nextTid m) k = nextTid m + Z.of_nat k) as Ec by (unfold candidate; apply wrap_small; unfold in_word; lia).
  set (tid := candidate (nextTid m) k) in *. assert (1 < tid < 2 ^ 32) as Htid by lia.
  apply Runs_bind. eapply Runs_of_ok; [exact Hup|]. apply Runs_bind, Runs_read. cbn [nextTid set_nextTid].
  apply Runs_bind, Runs_modify, Runs_bind, Runs_read. rewrite Ht. cbn [HH_move new_HH parent firstChild nextSibling prevSibling].
  apply Runs_bind, Runs_assertion; [cbn; rewrite Hnone; done|]. apply Runs_bind, Runs_modify.
  set (t1 := set_hh (mkHH 0 0 0 0) t).
  set (m1 := set_tasks (<[tid := t1]> (tasks m)) (set_nextTid (u32 (tid + 1)) (set_cpu c m))).
  change (set_tasks _ _) with m1. rewrite (proj2 (Z.ltb_lt 1 tid)) by lia. cbn [Z.eqb negb]. apply Runs_bind.
  assert (activeTask m <> tid) as Hat by congruence.
  apply Runs_bind. eapply Runs_of_ok; [apply (getActiveTask_run m1 ta Ha); cbn; by rewrite lookup_insert_ne|]. cbn [fst].
  change (activeTask m1) with (activeTask m). apply Runs_bind.
  eapply Runs_of_ok; [apply (update_hh_run _ _ m1 t1), lookup_insert_eq|].
  assert (upd (set_parent (activeTask m)) tid (tasks m1) = <[tid := set_hh (mkHH (activeTask m) 0 0 0) t]> (tasks m)) as ->.
  { unfold upd. cbn. by rewrite alter_insert_eq. }
  set (t2 := set_hh (mkHH (activeTask m) 0 0 0) t). set (m2 := set_tasks (<[tid := t2]> (tasks m)) m1).
  eapply Runs_mono; [apply (adopt_run F m2 (activeTask m) tid ta t2 (tasks m)); try done; lia|].
  intros [] m3 (ts' & -> & Hw & Hfam).
  assert (hd 0 (F (activeTask m)) <> tid) as Hh.
  { intros E. destruct (family_head F _ (activeTask m) Hf) as (u & Hu & _); [lia|]. congruence. }
  destruct (linked_others F _ _ tid t ts' Hw Hat Hh) as (Hnew & Hothers & Hdom).
  assert (forall x, nextTid m <= x < tid -> is_Some (tasks m !! x)) as Hleast.
  { intros x Hx. pose proof (Hused (Z.to_nat (x - nextTid m)) ltac:(lia)) as H. unfold candidate in H.
    rewrite wrap_small in H by (unfold in_word; lia).
    by replace (nextTid m + Z.of_nat (Z.to_nat (x - nextTid m))) with x in H by lia. }
  assert (forall b, (state t = Runnable -> b = negb (should_tick (set_tasks ts' m2))) ->
            task_added F m (set_cpu (cpu m) (set_timer_masked b (set_tasks ts' m2))) t tid) as Hadded.
  { intros b Hb. split; [split; [done|lia]|exact Hleast|done|exact Hfam|exact Hnew| |exact Hdom|done|exact Hb].
    intros x u Hx. apply Hothers; [done|congruence]. }
  change (is_runnable t1) with (is_runnable t). destruct (is_runnable t) eqn:Hr; apply Runs_bind.
  - eapply Runs_of_ok; [apply doInterruptMasking_run|]. apply Runs_ret. split; [done|]. by apply Hadded.
  - apply Runs_ret, Runs_ret. split; [done|].
    apply (Hadded (timer_masked m)). intros E. unfold is_runnable in Hr. by rewrite E in Hr.
Qed.

(** C19. A task made by [clone] or by the boot gets the first free identifier from [nextTid] on, which
    moves behind it; the new task is the first child of the active one, and the tree of the
    tasks stays one. *)
Theorem addTask_spec F m t ta :
  family F (tasks m) -> activeTask m <> 0 -> tasks m !! activeTask m = Some ta -> hh t = new_HH ->
  1 < nextTid m -> nextTid m + Z.of_nat (size (tasks m)) < 2 ^ 32 ->
  Runs (addTask t) m (fun tid m' => task_added F m m' t tid).
Proof. apply addTask_run. Qed.

(** ** The end of a child *)
Definition orphaned (p c prev next x : Z) (h : HierarchyHolder) : HierarchyHolder :=
  mkHH (parent h) (if (x =? p) && (firstChild h =? c) then next else firstChild h)
    (if x =? prev then next else nextSibling h) (if x =? next then prev else prevSibling h).

(** An update that is made when the pointer is not null *)
Lemma maybe_update_run p f m :
  (p <> 0 -> is_Some (tasks m !! p)) -> tasks m !! 0 = None ->
  (if p =? 0 then mret tt else update_hh p f) m = Ok (tt, set_tasks (upd f p (tasks m)) m).
Proof.
  intros Hp H0. destruct (Z.eqb_spec p 0) as [->|Hn].
  - unfold upd. rewrite alter_id; [by destruct m|]. intros t Ht. congruence.
  - destruct (Hp Hn) as [t Ht]. by eapply update_hh_run.
Qed.

Lemma is_Some_upd f p ts x : is_Some (upd f p ts !! x) <-> is_Some (ts !! x).
Proof. rewrite lookup_upd. by rewrite fmap_is_Some. Qed.

Lemma None_upd f p ts x : ts !! x = None -> upd f p ts !! x = None.
Proof. intros Hx. by rewrite lookup_upd, Hx. Qed.

(** The assertion of the destructor *)
Definition orphans : failure := AssertionFailed "!firstChild && making orphans is not implemented".

Lemma HH_destroy_run m c t tp :
  tasks m !! 0 = None -> tasks m !! c = Some t -> parent (hh t) <> 0 -> tasks m !! parent (hh t) = Some tp ->
  (prevSibling (hh t) <> 0 -> is_Some (tasks m !! prevSibling (hh t))) ->
  (nextSibling (hh t) <> 0 -> is_Some (tasks m !! nextSibling (hh t))) ->
  if firstChild (hh t) =? 0 then Runs (HH_destroy c) m (fun _ m' => exists ts', m' = set_tasks ts' m /\
    with_hh (orphaned (parent (hh t)) c (prevSibling (hh t)) (nextSibling (hh t))) (tasks m) ts')
  else Fails (HH_destroy c) m orphans.
Proof.
  intros H0 Hc Hp Htp Hprev Hnext. set (p := parent (hh t)) in *. set (v := prevSibling (hh t)) in *. set (n := nextSibling (hh t)) in *.
  unfold Fails, Runs, HH_destroy. rewrite !(bind_run _ _ _ _ _ (deref_task_run c m t Hc)). fold p v n.
  rewrite (proj2 (Z.eqb_neq p 0)) by done. rewrite !(bind_run _ _ _ _ _ (deref_task_run p m tp Htp)).
  set (ts1 := upd (fun h => if firstChild h =? c then set_firstChild n h else h) p (tasks m)).
  assert ((if firstChild (hh tp) =? c then update_hh p (set_firstChild n) else mret tt) m = Ok (tt, set_tasks ts1 m)) as E1.
  { assert (ts1 = if firstChild (hh tp) =? c then upd (set_firstChild n) p (tasks m) else tasks m) as ->.
    { apply map_eq. intros x. unfold ts1. rewrite lookup_upd. destruct (Z.eqb_spec x p) as [Ex|Ex].
      - rewrite Ex, Htp. cbn. destruct (firstChild (hh tp) =? c); [by rewrite lookup_upd, Z.eqb_refl, Htp|rewrite Htp; by destruct tp].
      - destruct (firstChild (hh tp) =? c); [rewrite lookup_upd, (proj2 (Z.eqb_neq x p)) by done|]; by destruct (tasks m !! x). }
    destruct (firstChild (hh tp) =? c); [by eapply update_hh_run|by destruct m]. }
  set (ts2 := upd (set_nextSibling n) v ts1).
  assert ((if v =? 0 then mret tt else update_hh v (set_nextSibling n)) (set_tasks ts1 m) = Ok (tt, set_tasks ts2 m)) as E2.
  { etrans; [apply maybe_update_run; cbn [tasks set_tasks]|done].
    - intros Hn0. apply is_Some_upd. by apply Hprev.
    - by apply None_upd. }
  set (ts3 := upd (set_prevSibling v) n ts2).
  assert ((if n =? 0 then mret tt else update_hh n (set_prevSibling v)) (set_tasks ts2 m) = Ok (tt, set_tasks ts3 m)) as E3.
  { etrans; [apply maybe_update_run; cbn [tasks set_tasks]|done].
    - intros Hn0. apply is_Some_upd, is_Some_upd. by apply Hnext.
    - by apply None_upd, None_upd. }
  rewrite !(bind_run _ _ _ _ _ E1), !(bind_run _ _ _ _ _ E2), !(bind_run _ _ _ _ _ E3). unfold assertion.
  destruct (firstChild (hh t) =? 0); [|done].
  clear E1 E2 E3. exists ts3. split; [done|]. intros x. unfold ts3, ts2, ts1. rewrite !lookup_upd. destruct (tasks m !! x) as [[[]]|]; [|done].
  cbn. f_equal. unfold orphaned. cbn. destruct (x =? p), (x =? v), (x =? n); cbn; try done; by destruct (_ =? c).
Qed.

Lemma elem_of_middle (c x : Z) l1 l2 : x ∈ l1 ++ c :: l2 <-> x = c \/ x ∈ l1 ++ l2.
Proof. rewrite !elem_of_app, elem_of_cons. tauto. Qed.

Section orphan.
Context (F : Z -> list Z) (ts ts' : gmap Z Task) (p c : Z) (l1 l2 : list Z).
Context (Hf : family F ts) (Hc : F c = []) (Hp : F p = l1 ++ c :: l2).
Let v := last_of 0 l1.
Let n := hd 0 l2.
Context (Hw : with_hh (orphaned p c v n) ts ts').

Lemma orphan_distinct : NoDup (l1 ++ l2) /\ (c ∉ l1 ++ l2) /\ c <> 0 /\ p <> c /\ (0 ∉ l1 ++ l2).
Proof.
  pose proof (fam_distinct _ _ Hf p) as Hd. rewrite Hp, <- Permutation_middle in Hd. apply NoDup_cons in Hd as [H1 H2].
  split_and!; [done|done| | |].
  - apply (family_in F ts p c Hf). rewrite Hp. apply elem_of_middle. by left.
  - intros E. rewrite E, Hc in Hp. by destruct l1.
  - intros Hin. apply (family_in F ts p 0 Hf); [|done]. rewrite Hp. apply elem_of_middle. by right.
Qed.

Lemma orphan_ends : (v = 0 \/ v ∈ l1) /\ (n = 0 \/ n ∈ l2).
Proof.
  split; [|unfold n; destruct l2; [by left|right; left]]. unfold v, last_of.
  destruct (last l1) as [x|] eqn:E; [|by left]. right. by apply last_Some_elem_of in E.
Qed.

(** The pointers of a task that stays *)
Lemma orphan_lookup x u :
  ts !! x = Some u -> x <> c -> delete c ts' !! x = Some (set_hh (orphaned p c v n x (hh u)) u).
Proof. intros Hx Hne. rewrite lookup_delete_ne by done. by rewrite Hw, Hx. Qed.

Lemma orphan_keep q prev l stop :
  siblings ts q prev l stop -> c ∉ l -> v ∉ l -> n ∉ l -> siblings (delete c ts') q prev l stop.
Proof.
  intros Hl Hcl Hvl Hnl. eapply siblings_same; [exact Hl|]. intros x u Hx Hu.
  eexists. split; [apply orphan_lookup; [done|congruence]|]. cbn.
  rewrite (proj2 (Z.eqb_neq x v)), (proj2 (Z.eqb_neq x n)) by congruence. done.
Qed.

Lemma orphan_before : siblings (delete c ts') p 0 l1 n.
Proof.
  destruct orphan_distinct as (Hd & Hcn & Hc0 & _ & H0). destruct orphan_ends as [_ Hn].
  pose proof (fam_list _ _ Hf p) as Hl. rewrite Hp in Hl. apply siblings_app in Hl as [Hl _]. cbn [hd] in Hl.
  destruct (last l1) as [x|] eqn:E; [|apply last_None in E; by rewrite E].
  assert (v = x) as Ev by (unfold v, last_of; by rewrite E). apply last_Some in E as [l El].
  assert (forall y, y ∈ l1 -> y <> n /\ y <> c) as Hy.
  { intros y Hy. apply NoDup_app in Hd as (_ & Hdl & _). split; [|intros ->; apply Hcn; apply elem_of_app; by left].
    intros ->. destruct Hn as [Hn|Hn]; [apply H0; apply elem_of_app; left; by rewrite <- Hn|by apply (Hdl n)]. }
  assert (x ∉ l) as Hxl.
  { rewrite El, <- app_assoc in Hd. apply NoDup_app in Hd as (_ & Hdl & _). intros Hin. apply (Hdl x Hin). left. }
  rewrite El in Hl, Hy |- *. apply siblings_app in Hl as [Hl [(u & Hu & E1 & E2 & E3) _]]. apply siblings_app. split.
  - cbn [hd] in *. apply orphan_keep; [done| | |].
    + intros Hin. by destruct (Hy c ltac:(apply elem_of_app; by left)).
    + by rewrite Ev.
    + intros Hin. by destruct (Hy n ltac:(apply elem_of_app; by left)).
  - cbn [siblings hd] in *. split; [|done]. destruct (Hy x) as [Hxn Hxc]; [apply elem_of_app; right; left|].
    eexists. split; [apply orphan_lookup; [exact Hu|done]|]. cbn. by rewrite Ev, Z.eqb_refl, (proj2 (Z.eqb_neq x n)).
Qed.

Lemma orphan_after : siblings (delete c ts') p v l2 0.
Proof.
  destruct orphan_distinct as (Hd & Hcn & Hc0 & _ & H0). destruct orphan_ends as [Hv _].
  pose proof (fam_list _ _ Hf p) as Hl. rewrite Hp in Hl. apply siblings_app in Hl as [_ [_ Hl]].
  assert (forall x, x ∈ l2 -> x <> v /\ x <> c) as Hx.
  { intros x Hx. apply NoDup_app in Hd as (_ & Hdl & _). split; [|intros ->; apply Hcn; apply elem_of_app; by right].
    intros ->. destruct Hv as [Hv|Hv]; [apply H0; apply elem_of_app; right; by rewrite <- Hv|by apply (Hdl v Hv)]. }
  apply NoDup_app in Hd as (_ & _ & Hd). assert (n = hd 0 l2) as En by done. clearbody n v.
  destruct l2 as [|y l] eqn:El; [done|]. cbn [siblings hd] in *. apply NoDup_cons in Hd as [Hy _].
  destruct (Hx y ltac:(left)) as [Hyv Hyc]. destruct Hl as [(u & Hu & E1 & E2 & E3) Hl]. split.
  - eexists. split; [apply orphan_lookup; [exact Hu|done]|]. cbn. by rewrite En, Z.eqb_refl, (proj2 (Z.eqb_neq y v)).
  - rewrite <- En in Hy. apply orphan_keep; [done| | |done]; intros Hin; by destruct (Hx _ ltac:(right; exact Hin)).
Qed.

Lemma family_orphan : family (update_family F p (l1 ++ l2)) (delete c ts').
Proof.
  destruct orphan_distinct as (Hd & Hcn & Hc0 & Hpc & H0). destruct orphan_ends as [Hv Hn].
  assert (forall q x, x ∈ F q -> q <> p -> x ∉ F p) as Hother.
  { intros q x Hq Hne Hx. destruct (family_in F ts q x Hf Hq) as (_ & u & Hu & E1).
    destruct (family_in F ts p x Hf Hx) as (_ & u' & Hu' & E2). congruence. }
  assert (forall q, q <> p -> (c ∉ F q) /\ (v ∉ F q) /\ (n ∉ F q)) as Hout.
  { intros q Hq. assert (forall x, x = 0 \/ x ∈ F p -> x ∉ F q) as Hx.
    { intros x [->|Hx] Hin; [by apply (family_in F ts q 0 Hf)|by apply (Hother q x)]. }
    rewrite Hp in Hx. split_and!; apply Hx; rewrite elem_of_middle, elem_of_app; tauto. }
  assert (forall x u', delete c ts' !! x = Some u' -> x <> c /\ exists u, ts !! x = Some u /\ hh u' = orphaned p c v n x (hh u)) as Hinv.
  { intros x u' [Hne Hx]%lookup_delete_Some. split; [done|]. rewrite Hw in Hx. destruct (ts !! x) as [u|]; [|done]. injection Hx as <-. by exists u. }
  unfold update_family. split.
  - rewrite lookup_delete_ne by done. by rewrite Hw, (fam_null _ _ Hf).
  - intros x u' Hx. destruct (Hinv x u' Hx) as (Hne & u & Hu & ->). pose proof (fam_first _ _ Hf x u Hu) as E. cbn.
    destruct (Z.eqb_spec x p) as [->|]; cbn; [|done]. rewrite E, Hp.
    destruct l1 as [|y l]; cbn; [by rewrite Z.eqb_refl|]. rewrite (proj2 (Z.eqb_neq y c)); [done|]. intros ->. apply Hcn. left.
  - intros q. destruct (Z.eqb_spec q p) as [->|Hq].
    + apply siblings_app. split; [apply orphan_before|apply orphan_after].
    + destruct (Hout q Hq) as (H1 & H2 & H3). apply orphan_keep; [apply Hf|done|done|done].
  - intros x u' Hx. destruct (Hinv x u' Hx) as (Hne & u & Hu & ->). cbn. intros Hpar.
    destruct (fam_parent _ _ Hf x u Hu Hpar) as [[w Hwp] Hin].
    assert (parent (hh u) <> c) as Hpc' by (intros E; rewrite E, Hc in Hin; by apply elem_of_nil in Hin).
    split; [rewrite (orphan_lookup _ w) by done; done|]. destruct (Z.eqb_spec (parent (hh u)) p) as [E|]; [|done].
    rewrite E, Hp in Hin. apply elem_of_middle in Hin. tauto.
  - intros q. destruct (q =? p); [done|apply Hf].
  - intros q Hq. destruct (Z.eqb_spec q p) as [->|Hqp].
    + exfalso. destruct (family_in F ts p c Hf) as (_ & u & Hu & Hpu); [rewrite Hp; apply elem_of_middle; by left|].
      assert (parent (hh u) <> 0) as Hn0.
      { intros E. rewrite E in Hpu. subst p. pose proof (fam_none _ _ Hf 0 (fam_null _ _ Hf)) as E0. rewrite Hp in E0. by destruct l1. }
      destruct (fam_parent _ _ Hf c u Hu Hn0) as [[w Hwp] _]. rewrite Hpu in Hwp. rewrite (orphan_lookup p w) in Hq; done.
    + destruct (decide (q = c)) as [->|Hqc]; [done|]. rewrite lookup_delete_ne, Hw, fmap_None in Hq by done. by apply Hf.
Qed.
End orphan.

Lemma filter_middle (c : Z) l1 l2 : c ∉ l1 ++ l2 -> filter (fun x => x <> c) (l1 ++ c :: l2) = l1 ++ l2.
Proof.
  intros Hc. rewrite filter_app, filter_cons_False by tauto. rewrite <- filter_app.
  induction (l1 ++ l2) as [|x l IH]; [done|]. apply not_elem_of_cons in Hc as [Hx Hc].
  rewrite filter_cons_True by done. by rewrite IH.
Qed.

(** The children that are left *)
Definition without (c : Z) (l : list Z) : list Z := filter (fun x => x <> c) l.

Lemma HH_destroy_family F m c t :
  family F (tasks m) -> tasks m !! c = Some t -> parent (hh t) <> 0 ->
  (F c <> [] -> Fails (HH_destroy c) m orphans) /\
  (F c = [] -> Runs (HH_destroy c) m (fun _ m' => exists ts', m' = set_tasks ts' m /\
    family (update_family F (parent (hh t)) (without c (F (parent (hh t))))) (delete c ts') /\
    forall x u, tasks m !! x = Some u -> exists h, ts' !! x = Some (set_hh h u) /\ parent h = parent (hh u))).
Proof.
  intros Hf Hc Hp. destruct (fam_parent _ _ Hf c t Hc Hp) as [[tp Htp] Hin].
  apply list_elem_of_split in Hin as (l1 & l2 & El).
  pose proof (fam_list _ _ Hf (parent (hh t))) as Hl. rewrite El in Hl. apply siblings_app in Hl as [H1 [(t' & Ht' & _ & Ev & En) H2]].
  assert (t' = t) as -> by congruence.
  assert (forall x, x = 0 \/ x ∈ l1 ++ l2 -> x <> 0 -> is_Some (tasks m !! x)) as Hlive.
  { intros x [->|Hx] Hn; [done|]. destruct (family_in F (tasks m) (parent (hh t)) x Hf) as (_ & u & Hu & _); [|by exists u].
    rewrite El. apply elem_of_middle. by right. }
  assert (prevSibling (hh t) = 0 \/ prevSibling (hh t) ∈ l1 ++ l2) as Hv.
  { rewrite Ev. unfold last_of. destruct (last l1) as [x|] eqn:E; [|by left]. right. apply elem_of_app. left. by apply last_Some_elem_of. }
  assert (nextSibling (hh t) = 0 \/ nextSibling (hh t) ∈ l1 ++ l2) as Hn.
  { rewrite En. destruct l2 as [|y l]; [by left|]. right. apply elem_of_app. right. left. }
  pose proof (HH_destroy_run m c t tp (fam_null _ _ Hf) Hc Hp Htp (Hlive _ Hv) (Hlive _ Hn)) as Hrun.
  rewrite (fam_first _ _ Hf c t Hc) in Hrun. split.
  - intros HFc. destruct (F c) as [|x l] eqn:EF; [done|]. cbn [hd] in Hrun.
    assert (x <> 0) as Hx by (apply (family_in F (tasks m) c x Hf); rewrite EF; left).
    by rewrite (proj2 (Z.eqb_neq x 0)) in Hrun.
  - intros HFc. rewrite HFc in Hrun. eapply Runs_mono; [exact Hrun|].
    intros [] m' (ts' & -> & Hw). exists ts'. split; [done|]. rewrite Ev, En in Hw. split.
    + unfold without. rewrite El, filter_middle; [by apply (family_orphan F (tasks m) ts' (parent (hh t)) c l1 l2)|].
      pose proof (fam_distinct _ _ Hf (parent (hh t))) as Hd. rewrite El, <- Permutation_middle in Hd. by apply NoDup_cons in Hd as [? _].
    + intros x u Hx. rewrite Hw, Hx. by eexists.
Qed.

Lemma wait_child_run F m tid c t ta :
  family F (tasks m) -> activeTask m <> 0 -> tasks m !! activeTask m = Some ta ->
  c = (if tid =? no_pid then hd 0 (F (activeTask m)) else tid) -> c ∈ F (activeTask m) -> tasks m !! c = Some t ->
  wait_child tid m = Ok (Some (c, t), m).
Proof.
  intros Hf Ha Hta Ec Hin Hc. destruct (family_in _ _ _ _ Hf Hin) as (Hc0 & t' & Ht' & Hpar). assert (t' = t) as -> by congruence.
  unfold wait_child. erewrite (bind_run _ _ _ (Some c) m).
  - rewrite (bind_run _ _ _ _ _ (getTask_run m c)), Hc. rewrite Hpar, (bind_run _ _ _ _ _ (deref_task_run _ _ _ Hta)), bind_read.
    by rewrite Z.eqb_refl.
  - destruct (tid =? no_pid); [|by rewrite Ec]. rewrite (bind_run _ _ _ _ _ (getActiveTask_run m ta Ha Hta)). cbn [snd].
    rewrite (fam_first _ _ Hf _ _ Hta), <- Ec. by rewrite (proj2 (Z.eqb_neq c 0)).
Qed.

(** The tasks, in a state [S] that [~Task] works on *)
Section reaping.
Context {S : Type} (tm : S -> TaskManager) (set_tm : TaskManager -> S -> S).
Context (tm_set : forall m s, tm (set_tm m s) = m) (set_tm_set : forall m m' s, set_tm m (set_tm m' s) = set_tm m s).
Context (set_tm_same : forall s, set_tm (tm s) s = s).
Abbreviation lift := (fun A (op : ST TaskManager A) => zoom tm set_tm op).

Lemma lift_run {A} (op : ST TaskManager A) s a m :
  op (tm s) = Ok (a, m) -> zoom tm set_tm op s = Ok (a, set_tm m s).
Proof using Type. intros H. unfold zoom. by rewrite H. Qed.

Lemma lift_same {A} (op : ST TaskManager A) s a : op (tm s) = Ok (a, tm s) -> zoom tm set_tm op s = Ok (a, s).
Proof using set_tm_same. intros H. rewrite (lift_run _ _ _ _ H). by rewrite set_tm_same. Qed.

Definition interrupts_off (m : TaskManager) : TaskManager := set_cpu (set_if false (cpu m)) m.

(** C20. [wait] for a child that has ended, by its identifier or for any (then only the first of the children is
    considered): when [~Task] succeeds for it and leaves the tasks alone, the child is removed, from the
    set and from the list of its parent, the tree of the others stays one, and the rest of the
    system is as [~Task] left it.  A child that has children itself is not removed: "making
    orphans is not implemented". *)
Theorem wait_reaps F stateCond_wait Task_destroy s tid c t ta (destroyed : S -> Prop) :
  let m := tm s in
  family F (tasks m) -> activeTask m <> 0 -> tasks m !! activeTask m = Some ta ->
  c = (if tid =? no_pid then hd 0 (F (activeTask m)) else tid) -> c ∈ F (activeTask m) -> tasks m !! c = Some t ->
  is_zombie t = true ->
  Runs (Task_destroy c t) (set_tm (interrupts_off m) s) (fun _ s1 => tm s1 = interrupts_off m /\ destroyed s1) ->
  (F c = [] -> Runs (wait lift stateCond_wait Task_destroy tid) s (fun r s' =>
    r = c /\ tasks (tm s') !! c = None /\ cpu (tm s') = cpu m /\ activeTask (tm s') = activeTask m /\
    family (update_family F (activeTask m) (without c (F (activeTask m)))) (tasks (tm s')) /\
    (forall x u, tasks m !! x = Some u -> x <> c -> exists h, tasks (tm s') !! x = Some (set_hh h u) /\ parent h = parent (hh u)) /\
    exists s1, destroyed s1 /\ s' = set_tm (tm s') s1)) /\
  (F c <> [] -> Fails (wait lift stateCond_wait Task_destroy tid) s orphans).
Proof using tm_set set_tm_set set_tm_same.
  intros m Hf Ha Hta Ec Hin Hc Hz Hd. destruct (family_in _ _ _ _ Hf Hin) as (Hc0 & t' & Ht' & Hpar). assert (t' = t) as -> by congruence.
  apply Runs_ok in Hd as ([] & s1 & Hd & Hs1 & Hq). set (m1 := interrupts_off m) in *.
  assert (zoom tm set_tm (wait_child tid) s = Ok (Some (c, t), s)) as E1.
  { apply lift_same. by eapply wait_child_run. }
  assert (zoom tm set_tm (on_cpu DisableInterrupts.construct) s = Ok (rflags_if (cpu m), set_tm m1 s)) as E2.
  { apply lift_run. apply construct_run. }
  assert (zoom tm set_tm read_state (set_tm m1 s) = Ok (m1, set_tm m1 s)) as E3.
  { unfold zoom, read_state. cbv beta iota. by rewrite !tm_set, set_tm_set. }
  destruct (HH_destroy_family F m1 c t Hf Hc ltac:(by rewrite Hpar)) as [Hfail Hrun].
  set (rest := (zoom tm set_tm (HH_destroy c) ;;
                zoom tm set_tm (modify (fun m => set_tasks (delete c (tasks m)) m)) ;; mret c) : ST S Z).
  assert (wait lift stateCond_wait Task_destroy tid s =
    (r ← rest; zoom tm set_tm (on_cpu (DisableInterrupts.destroy (rflags_if (cpu m)))) ;; mret r) s1) as Ewait.
  { unfold wait. rewrite (bind_run _ _ _ _ _ E1), Hz. rewrite (bind_run _ _ _ tt s) by done.
    unfold wait_remove. rewrite (bind_run _ _ _ _ _ E2), (bind_run _ _ _ _ _ E3).
    change (tasks m1 !! c) with (tasks m !! c). rewrite Hc. unfold mbind at 1, ST_bind at 1.
    by rewrite (bind_run _ _ _ _ _ Hd). }
  split.
  - intros HFc. specialize (Hrun HFc). apply Runs_ok in Hrun as ([] & m2 & Hrun & ts' & -> & Hfam & Hoth).
    unfold Runs. rewrite Ewait.
    assert (zoom tm set_tm (HH_destroy c) s1 = Ok (tt, set_tm (set_tasks ts' m1) s1)) as E4 by (apply lift_run; by rewrite Hs1).
    set (s2 := set_tm (set_tasks (delete c ts') m1) s1).
    assert (zoom tm set_tm (modify (fun m => set_tasks (delete c (tasks m)) m)) (set_tm (set_tasks ts' m1) s1) = Ok (tt, s2)) as E5.
    { unfold zoom, modify. cbv beta iota. by rewrite tm_set, set_tm_set. }
    assert (rest s1 = Ok (c, s2)) as E by (unfold rest; by rewrite (bind_run _ _ _ _ _ E4), (bind_run _ _ _ _ _ E5)).
    rewrite (bind_run _ _ _ _ _ E).
    set (m3 := set_cpu (cpu m) (set_tasks (delete c ts') m1)).
    assert (zoom tm set_tm (on_cpu (DisableInterrupts.destroy (rflags_if (cpu m)))) s2 = Ok (tt, set_tm m3 s1)) as E6.
    { unfold zoom, s2. rewrite tm_set, destroy_run by done. cbv beta iota. rewrite set_tm_set. cbn [cpu set_tasks set_cpu m1 interrupts_off].
      unfold m3. by destruct (cpu m). }
    rewrite (bind_run _ _ _ _ _ E6). cbv beta iota delta [mret ST_ret]. rewrite tm_set. rewrite Hpar in Hfam.
    split_and!; [done|apply lookup_delete_eq|done|done|done| |by exists s1].
    intros x u Hx Hne. cbn [tasks set_tasks set_cpu m3]. rewrite lookup_delete_ne by done. by apply Hoth.
  - intros HFc. specialize (Hfail HFc). unfold Fails in *. rewrite Ewait.
    apply bind_fail, bind_fail. unfold zoom. by rewrite Hs1, Hfail.
Qed.
End reaping.

(** ** The theorems at work: task 1 with the children 3 and 2 *)
Definition example_member (h : HierarchyHolder) (st : State) : Task :=
  mkTask h st false [] (set_segments SYSTEM_CS SYSTEM_DS 0x200 zero_Context) 0x1000 0x2000 0 false.
Definition example_family_tasks : gmap Z Task :=
  <[1 := example_member (mkHH 0 3 0 0) Runnable]> (<[2 := example_member (mkHH 1 0 0 3) Zombie]>
  (<[3 := example_member (mkHH 1 0 2 0) Runnable]> ∅)).
Definition example_children (x : Z) : list Z := if x =? 1 then [3; 2] else [].
Definition example_manager : TaskManager := mkTM example_family_tasks 1 4 true 0 0 (mkCpu true 0).

Lemma example_lookup x t :
  example_family_tasks !! x = Some t ->
  x = 1 /\ t = example_member (mkHH 0 3 0 0) Runnable \/ x = 2 /\ t = example_member (mkHH 1 0 0 3) Zombie \/
  x = 3 /\ t = example_member (mkHH 1 0 2 0) Runnable.
Proof.
  unfold example_family_tasks. intros [[<- <-]|[_ [[<- <-]|[_ [[<- <-]|[_ Hx]]%lookup_insert_Some]]%lookup_insert_Some]]%lookup_insert_Some;
    [tauto..|by rewrite lookup_empty in Hx].
Qed.

Lemma example_family : family example_children example_family_tasks.
Proof.
  split.
  - reflexivity.
  - intros p t [[-> ->]|[[-> ->]|[-> ->]]]%example_lookup; reflexivity.
  - intros p. unfold example_children. destruct (Z.eqb_spec p 1) as [->|]; [|done]. cbn [siblings hd].
    split; [by eexists|]. split; [by eexists|done].
  - intros c t [[-> ->]|[[-> ->]|[-> ->]]]%example_lookup; cbn; [done|..]; intros _; (split; [by eexists|]); [right|]; left.
  - intros p. unfold example_children. destruct (p =? 1); [|by apply NoDup_nil]. by apply (bool_decide_unpack _).
  - intros p Hp. unfold example_children. destruct (Z.eqb_spec p 1) as [->|]; done.
Qed.

(** A task made by the task 1 becomes the first of its three children. *)
Lemma addTask_spec_witness :
  Runs (addTask (newUserTask 0x9000)) example_manager (fun tid m' =>
    task_added example_children example_manager m' (newUserTask 0x9000) tid).
Proof.
  eapply (addTask_spec example_children example_manager (newUserTask 0x9000));
    [apply example_family|by compute|reflexivity|reflexivity|by compute|by vm_compute].
Defined.

(** A system with the tasks and the list of those that were destroyed *)
Definition example_destroy (tid : Z) (_ : Task) : ST (TaskManager * list Z) unit := modify (fun s => (s.1, tid :: s.2)).

(** [wait] of the task 1 for the task 2, the last of its children *)
Lemma wait_reaps_witness :
  Runs (wait (fun A => zoom fst (fun m s => (m, s.2))) (fun _ => mret tt) example_destroy 2) (example_manager, []) (fun r s' =>
    r = 2 /\ s'.2 = [2] /\ tasks s'.1 !! 2 = None /\ cpu s'.1 = cpu example_manager /\
    family (update_family example_children 1 [3]) (tasks s'.1)).
Proof.
  eapply Runs_mono.
  - apply (wait_reaps fst (fun m s => (m, s.2)) (fun _ _ => eq_refl) (fun _ _ _ => eq_refl) ltac:(by intros [])
      example_children (fun _ => mret tt) example_destroy (example_manager, []) 2 2
      (example_member (mkHH 1 0 0 3) Zombie) (example_member (mkHH 0 3 0 0) Runnable) (fun s => s.2 = [2]));
      [apply example_family|by compute|reflexivity|reflexivity|right; left|reflexivity|reflexivity| |reflexivity].
    by split.
  - intros r s' (-> & H1 & H2 & _ & H3 & _ & s1 & E & ->). cbn in *. by split_and!.
Defined.
