(* ===== verification/Sync.v ===== *)
(** * Semaphores, mutexes and condition variables: [Semaphore.hpp], [Semaphore.cpp], [Mutex.hpp], [CondVar.hpp],
    [CondVar.cpp]

    The blocking structures of the kernel keep their waiters in an intrusive list of objects
    that live on the stacks of the waiting tasks.  First the list and the operations, with the
    spin lock they take ([Interrupts]); then the interleavings of the tasks that use one
    semaphore, as a step relation. *)

From Stdlib Require Import ZArith Lia.
From stdpp Require Import list numbers gmap.
From S2P Require Import Prelude Words Interrupts.

(** ** The intrusive list *)

(** [Semaphore::Waiter] and [CondVar::Waiter] *)
Record Waiter : Type := mkWaiter {
  up_flag : bool;
  wtask : Z;
  wnext : Z;
}.

Definition set_up (b : bool) (w : Waiter) : Waiter := mkWaiter b (wtask w) (wnext w).
Definition set_next (n : Z) (w : Waiter) : Waiter := mkWaiter (up_flag w) (wtask w) n.

(** [_firstWaiter] and [_lastWaiter], and the objects they lead to. *)
Record WaitQueue : Type := mkQueue {
  waiters : gmap Z Waiter;
  firstWaiter : Z;
  lastWaiter : Z;
}.

Definition empty_queue : WaitQueue := mkQueue ∅ 0 0.

Definition set_waiters (ws : gmap Z Waiter) (q : WaitQueue) : WaitQueue :=
  mkQueue ws (firstWaiter q) (lastWaiter q).
Definition set_first (p : Z) (q : WaitQueue) : WaitQueue := mkQueue (waiters q) p (lastWaiter q).
Definition set_last (p : Z) (q : WaitQueue) : WaitQueue := mkQueue (waiters q) (firstWaiter q) p.

Definition get_waiter (p : Z) : ST WaitQueue Waiter :=
  q ← read_state;
  from_option (waiters q !! p) (Undefined "dangling Waiter").
Definition update_waiter (p : Z) (f : Waiter -> Waiter) : ST WaitQueue unit :=
  get_waiter p ;; modify (fun q => set_waiters (alter f p (waiters q)) q).

(** [Waiter waiter{ task };] at the address [p], and its end. *)
Definition new_waiter (p task : Z) : ST WaitQueue unit :=
  modify (fun q => set_waiters (<[p := mkWaiter false task 0]> (waiters q)) q).
Definition delete_waiter (p : Z) : ST WaitQueue unit :=
  modify (fun q => set_waiters (delete p (waiters q)) q).

Definition push_waiter (p : Z) : ST WaitQueue unit :=
  q ← read_state;
  if negb (lastWaiter q =? 0) then
    update_waiter (lastWaiter q) (set_next p) ;;
    modify (set_last p)
  else
    assertion (firstWaiter q =? 0) "!_firstWaiter" ;;
    modify (fun q => set_first p (set_last p q)).

(** The first waiter leaves the list. *)
Definition pop_waiter : ST WaitQueue Z :=
  q ← read_state;
  let waiter := firstWaiter q in
  (if firstWaiter q =? lastWaiter q then modify (set_last 0) else mret tt) ;;
  w ← get_waiter waiter;
  modify (set_first (wnext w)) ;;
  mret waiter.

(** *** What the list represents *)
Fixpoint linked (ws : gmap Z Waiter) (p : Z) (l : list Z) : Prop :=
  match l with
  | [] => p = 0
  | w :: l' => p = w /\ w <> 0 /\ exists x, ws !! w = Some x /\ linked ws (wnext x) l'
  end.

Definition queue (q : WaitQueue) (l : list Z) : Prop :=
  linked (waiters q) (firstWaiter q) l /\ lastWaiter q = default 0 (last l) /\ NoDup l.

Section queue_lemmas.
Implicit Types (ws : gmap Z Waiter) (l : list Z) (p w : Z) (q : WaitQueue).

Lemma linked_live ws p l w : linked ws p l -> w ∈ l -> w <> 0 /\ is_Some (ws !! w).
Proof.
  revert p. induction l as [|x l IH]; intros p H Hw; [by apply elem_of_nil in Hw|].
  destruct H as (-> & Hnz & y & Hy & Hl). apply elem_of_cons in Hw as [->|Hw].
  - split; [done|by eexists].
  - by eapply IH.
Qed.

(** Changing objects that are not on the list, or other fields of those that are. *)
Lemma linked_frame ws ws' p l :
  linked ws p l ->
  (forall w, w ∈ l -> forall x, ws !! w = Some x ->
     exists x', ws' !! w = Some x' /\ wnext x' = wnext x) ->
  linked ws' p l.
Proof.
  revert p. induction l as [|w l IH]; intros p H Hf; [done|].
  destruct H as (-> & Hnz & x & Hx & Hl).
  destruct (Hf w ltac:(by left) x Hx) as (x' & Hx' & E). split_and!; [done|done|].
  exists x'. split; [done|]. rewrite E. apply IH; [done|]. intros y Hy. apply Hf. by right.
Qed.

Lemma linked_snoc ws p l z w x :
  linked ws p (l ++ [z]) -> NoDup (l ++ [z]) -> w <> 0 -> w ∉ l ++ [z] ->
  ws !! w = Some x -> wnext x = 0 ->
  linked (alter (set_next w) z ws) p ((l ++ [z]) ++ [w]).
Proof.
  revert p. induction l as [|y l IH]; intros p H Hnd Hw Hin Hx Hxn.
  - destruct H as (-> & Hnz & v & Hv & Hnull). simpl in *. split_and!; [done|done|].
    exists (set_next w v). rewrite lookup_alter_eq, Hv. split; [done|]. split_and!; [done|done|].
    exists x. rewrite lookup_alter_ne; [done|]. intros ->. apply Hin. by left.
  - destruct H as (-> & Hnz & v & Hv & Hl). simpl in Hnd. apply NoDup_cons in Hnd as [Hy Hnd].
    simpl. split_and!; [done|done|]. exists v. split.
    + rewrite lookup_alter_ne; [done|]. intros ->. apply Hy, elem_of_app. right. by left.
    + apply IH; [done|done|done| |done|done]. intros Hc. apply Hin. by right.
Qed.

Lemma queue_empty : queue empty_queue [].
Proof. split_and!; [done|done|constructor]. Qed.

Lemma queue_first q l : queue q l -> firstWaiter q = default 0 (head l).
Proof. intros (H & _ & _). by destruct l as [|w l]; [|destruct H]. Qed.

Lemma queue_last_zero q l : queue q l -> lastWaiter q = 0 <-> l = [].
Proof.
  intros (H & Hl & _). rewrite Hl. destruct l as [|w l _] using rev_ind; [done|].
  rewrite last_snoc. simpl. split; [|by intros [_ ?]%app_nil].
  intros ->. destruct (linked_live _ _ _ 0 H) as [Hnz _]; [|done]. apply elem_of_app. right. by left.
Qed.

Lemma queue_live q l w : queue q l -> w ∈ l -> w <> 0 /\ is_Some (waiters q !! w).
Proof. intros (H & _) Hw. by eapply linked_live. Qed.

(** Adding at the end. *)
Lemma push_waiter_run q l w x (Q : unit -> WaitQueue -> Prop) :
  queue q l -> w <> 0 -> w ∉ l -> waiters q !! w = Some x -> wnext x = 0 ->
  (forall q', queue q' (l ++ [w]) -> waiters q' !! w = Some x ->
     (forall v, up_flag <$> waiters q' !! v = up_flag <$> waiters q !! v /\
                wtask <$> waiters q' !! v = wtask <$> waiters q !! v) -> Q tt q') ->
  Runs (push_waiter w) q Q.
Proof.
  intros Hq Hnz Hin Hx Hn HQ. pose proof (queue_last_zero q l Hq) as Hlast.
  unfold push_waiter. run_steps.
  destruct Hq as (Hlink & Hl & Hnd). destruct l as [|z l _] using rev_ind.
  - rewrite (proj2 (Z.eqb_eq _ _) (proj2 Hlast eq_refl)). cbn [negb]. run_steps.
    { apply Z.eqb_eq. exact Hlink. }
    run_steps. apply HQ; [|done|done]. split_and!; [|done|by apply NoDup_singleton].
    cbn. split_and!; [done|done|]. by exists x.
  - rewrite last_snoc in Hl. simpl in Hl. rewrite Hl in *.
    destruct (linked_live _ _ _ z Hlink) as [Hz [v Hv]]; [apply elem_of_app; right; by left|].
    rewrite (proj2 (Z.eqb_neq _ _) Hz). cbn [negb]. run_steps. unfold update_waiter, get_waiter. run_steps; [done|].
    run_steps. apply HQ; cbn [waiters firstWaiter lastWaiter set_last set_waiters].
    + split_and!.
      * by eapply linked_snoc.
      * by rewrite last_snoc.
      * apply NoDup_app. split_and!; [done| |apply NoDup_singleton].
        intros y Hy ->%list_elem_of_singleton. done.
    + rewrite lookup_alter_ne; [done|]. intros ->. apply Hin, elem_of_app. right. by left.
    + intros y. destruct (decide (y = z)) as [->|].
      * rewrite lookup_alter_eq. by destruct (waiters q !! z).
      * by rewrite lookup_alter_ne.
Qed.

(** Removing at the front. *)
Lemma pop_waiter_run q w l (Q : Z -> WaitQueue -> Prop) :
  queue q (w :: l) ->
  (forall q', queue q' l -> waiters q' = waiters q -> Q w q') ->
  Runs pop_waiter q Q.
Proof.
  intros Hq HQ. pose proof Hq as ((Hf & Hnz & x & Hx & Hlink) & Hl & Hnd).
  apply NoDup_cons in Hnd as [Hw Hnd].
  assert ((firstWaiter q =? lastWaiter q) = bool_decide (l = [])) as Hcmp.
  { rewrite Hf, Hl. destruct l as [|z l _] using rev_ind; [by rewrite Z.eqb_refl|].
    rewrite app_comm_cons, last_snoc. simpl. rewrite bool_decide_false by (by intros [_ ?]%app_nil).
    apply Z.eqb_neq. intros ->. apply Hw, elem_of_app. right. by left. }
  unfold pop_waiter. run_steps. rewrite Hcmp, Hf.
  destruct (bool_decide (l = [])) eqn:Hb.
  - apply bool_decide_eq_true in Hb as ->. unfold get_waiter. run_steps; [done|]. run_steps.
    apply HQ; [|done]. split_and!; [done|done|done].
  - apply bool_decide_eq_false in Hb. unfold get_waiter. run_steps; [done|]. run_steps.
    apply HQ; [|done]. split_and!; [done| |done]. cbn. rewrite Hl. by destruct l.
Qed.
End queue_lemmas.

(** ** [Semaphore]: [_spinlock], and what it protects *)
Record Semaphore : Type := mkSemaphore {
  count : Z;               (** [uint32_t _count] *)
  sem_queue : WaitQueue;
}.

Definition new_Semaphore (init : Z) : Semaphore := mkSemaphore init empty_queue.
Definition set_count (n : Z) (s : Semaphore) : Semaphore := mkSemaphore n (sem_queue s).
Definition set_queue (q : WaitQueue) (s : Semaphore) : Semaphore := mkSemaphore (count s) q.
Definition on_queue {A} (m : ST WaitQueue A) : ST Semaphore A := zoom sem_queue set_queue m.

(** The processor and the semaphore's spin lock, and the rest of the semaphore *)
Definition SemState : Type := Cpu * SpinLock * Semaphore.
Definition on_spinlock {A} (m : ST (Cpu * SpinLock) A) : ST SemState A := zoom fst (fun l s => (l, s.2)) m.

(** [{ auto _ = _spinlock.getScoped(); m }] *)
Definition under_spinlock {A} (m : ST Semaphore A) : ST SemState A :=
  with_lock (fun _ : unit => on_spinlock spin_lock) (fun _ => on_spinlock spin_unlock) tt
    (zoom snd (fun x s => (s.1, x)) m).

(** [SpinLock::getLockCount()] *)
Definition getLockCount : ST SemState Z := gets (fun s => g_lockCount s.1.1).

(** [getActiveTask()]; there is no task with the identifier 0. *)
Definition assert_active (task : Z) : ST Semaphore unit :=
  assertion (negb (task =? 0)) "task && there is an active task".

(** [down()] under the spin lock, up to the loop: [true] when the semaphore is taken, [false]
    when the active task [task] has become a waiter at [p] and goes on with the loop. *)
Definition down_locked (p task : Z) : ST Semaphore bool :=
  s ← read_state;
  if negb (count s =? 0) then
    modify (set_count (count s - 1)) ;; mret true
  else
    assert_active task ;;
    on_queue (new_waiter p task) ;;
    on_queue (push_waiter p) ;;
    mret false.

(** [down()] until it is done or releases the spin lock to sleep *)
Definition down_begin (p task : Z) : ST SemState bool :=
  lockCount ← getLockCount;
  assertion (lockCount =? 0) "no spinlock must be taken during a semaphore down (which might block)" ;;
  under_spinlock (down_locked p task).

(** The assertions of [putMeToSleep], which [down] calls with the spin lock released *)
Definition sleep_begin (task : Z) : ST SemState unit :=
  lockCount ← getLockCount;
  assertion (lockCount =? 0) "no spinlock must be taken while going to sleep" ;;
  assertion (negb (task =? 0)) "task && there is an active task".

(** [while (!waiter.up)], with the spin lock taken again: when the loop ends the waiter goes
    out of scope. *)
Definition recheck_locked (p : Z) : ST Semaphore bool :=
  w ← on_queue (get_waiter p);
  if up_flag w then on_queue (delete_waiter p) ;; mret true else mret false.
Definition down_recheck (p : Z) : ST SemState bool := under_spinlock (recheck_locked p).

(** [up()]; the value is the task it wakes up. *)
Definition up_locked : ST Semaphore (option Z) :=
  s ← read_state;
  if firstWaiter (sem_queue s) =? 0 then
    assertion (lastWaiter (sem_queue s) =? 0) "!_lastWaiter" ;;
    modify (set_count (u32 (count s + 1))) ;;
    mret None
  else
    assertion (negb (lastWaiter (sem_queue s) =? 0)) "_lastWaiter" ;;
    waiter ← on_queue pop_waiter;
    on_queue (update_waiter waiter (set_up true)) ;;
    w ← on_queue (get_waiter waiter);
    mret (Some (wtask w)).
Definition up : ST SemState (option Z) := under_spinlock up_locked.

(** *** What the spin lock adds: it is given back as it was found. *)
Definition on_sem {A} (l : Cpu * SpinLock) (r : result (A * Semaphore)) : result (A * SemState) :=
  match r with Ok (a, x) => Ok (a, (l, x)) | Err e => Err e end.

Lemma under_spinlock_eq {A} (m : ST Semaphore A) c x :
  in_word 8 (g_lockCount c) -> under_spinlock m (c, None, x) = on_sem (c, None) (m x).
Proof.
  intros Hc. unfold under_spinlock, with_lock, ScopedLock, ScopedLock_destroy.
  set (c1 := mkCpu false (u8 (g_lockCount c + 1))).
  assert (on_spinlock spin_lock (c, None, x) = Ok (tt, (c1, Some (rflags_if c), x))) as E1
    by (unfold on_spinlock, zoom; cbn [fst]; by rewrite spin_lock_run).
  erewrite bind_run by (by rewrite (bind_run _ _ _ _ _ E1)). unfold zoom at 1, mbind, ST_bind. cbn [fst snd].
  destruct (m x) as [[a x']|e]; [|done]. cbn [on_sem dead scoped_lock].
  assert (spin_unlock (c1, Some (rflags_if c)) = Ok (tt, (c, None))) as E2.
  { unfold c1. rewrite spin_unlock_run by apply andb_false_r. rewrite orb_false_r.
    destruct c as [i k]. cbn in *. do 4 f_equal.
    unfold wrap. rewrite Zminus_mod_idemp_l. replace (k + 1 - 1) with k by lia. by apply Z.mod_small. }
  unfold on_spinlock, zoom. cbn [fst snd]. by rewrite E2.
Qed.

Definition quiet (l : Cpu * SpinLock) : Prop := g_lockCount l.1 = 0 /\ l.2 = None.

Lemma under_spinlock_quiet {A} (m : ST Semaphore A) l x : quiet l -> under_spinlock m (l, x) = on_sem l (m x).
Proof. destruct l as [c o]. intros [Hc Ho]. cbn in *. subst o. apply under_spinlock_eq. by rewrite Hc. Qed.

Lemma down_begin_quiet p task l x : quiet l -> down_begin p task (l, x) = on_sem l (down_locked p task x).
Proof.
  intros Hl. unfold down_begin, getLockCount. rewrite (bind_run _ _ _ (g_lockCount l.1) (l, x)) by done.
  rewrite bind_assertion by (apply Z.eqb_eq; apply Hl). by apply under_spinlock_quiet.
Qed.

Lemma sleep_begin_quiet task l x : quiet l -> task <> 0 -> sleep_begin task (l, x) = Ok (tt, (l, x)).
Proof.
  intros Hl Ht. unfold sleep_begin, getLockCount. rewrite (bind_run _ _ _ (g_lockCount l.1) (l, x)) by done.
  rewrite bind_assertion by (apply Z.eqb_eq; apply Hl). unfold assertion. by rewrite (proj2 (Z.eqb_neq task 0)).
Qed.

Lemma on_sem_ok {A} l (r : result (A * Semaphore)) a l' x :
  on_sem l r = Ok (a, (l', x)) -> l' = l /\ r = Ok (a, x).
Proof. destruct r as [[a' x']|e]; [|done]. by intros [= -> -> ->]. Qed.

(** The assertions that keep a semaphore out of code that must not block: with any spin lock taken
    [down] fails, free or not, and a task has to be active for it to wait. *)
Theorem down_asserts p task c o x :
  (g_lockCount c <> 0 ->
     down_begin p task (c, o, x) = Err (AssertionFailed "no spinlock must be taken during a semaphore down (which might block)") /\
     sleep_begin task (c, o, x) = Err (AssertionFailed "no spinlock must be taken while going to sleep")) /\
  (quiet (c, o) -> count x = 0 ->
     down_begin p 0 (c, o, x) = Err (AssertionFailed "task && there is an active task")).
Proof.
  split.
  - intros Hc. unfold down_begin, sleep_begin, getLockCount.
    rewrite !(bind_run _ _ _ (g_lockCount c) (c, o, x)) by done. unfold assertion.
    by rewrite (proj2 (Z.eqb_neq _ 0)).
  - intros Hq Hx. rewrite (down_begin_quiet p 0 (c, o) x Hq). unfold down_locked. by rewrite bind_read, Hx.
Qed.

(** ** The tasks that use one semaphore *)

(** Where a task is: [Prepared] after [prepareMeForSleep] and the release of the spin lock,
    [Asleep] inside [putMeToSleep], [Awake] once [putMeToSleep] has returned. *)
Inductive place : Type :=
  | Idle
  | Prepared (w : Z)
  | Asleep (w : Z)
  | Awake (w : Z)
  | Held.

Definition waiting (p : place) (w : Z) : Prop := p = Prepared w \/ p = Asleep w \/ p = Awake w.

Record System : Type := mkSystem {
  lock_ : Cpu * SpinLock;   (** the processor, and the semaphore's spin lock *)
  sem : Semaphore;
  at_ : Z -> place;
  sleeping : Z -> bool;     (** the state of the task is [Sleeping] *)
}.

Definition upd {A} (f : Z -> A) (t : Z) (a : A) : Z -> A := fun t' => if t' =? t then a else f t'.

(** Every step is a stretch of code that runs with the interrupts masked.  A task runs only
    if it is [Runnable], except for the one that has just marked itself and goes on to
    [putMeToSleep]. *)
Inductive step (threads : list Z) (s : System) : System -> Prop :=
  | step_down t w taken l sem' :
      t ∈ threads -> at_ s t = Idle -> sleeping s t = false ->
      w <> 0 -> waiters (sem_queue (sem s)) !! w = None ->
      down_begin w t (lock_ s, sem s) = Ok (taken, (l, sem')) ->
      step threads s (mkSystem l sem' (upd (at_ s) t (if taken then Held else Prepared w))
                               (if taken then sleeping s else upd (sleeping s) t true))
  | step_putMeToSleep t w l sem' :
      at_ s t = Prepared w -> sleep_begin t (lock_ s, sem s) = Ok (tt, (l, sem')) ->
      step threads s (mkSystem l sem' (upd (at_ s) t (if sleeping s t then Asleep w else Awake w))
                               (sleeping s))
  | step_scheduled t w :
      at_ s t = Asleep w -> sleeping s t = false ->
      step threads s (mkSystem (lock_ s) (sem s) (upd (at_ s) t (Awake w)) (sleeping s))
  | step_recheck t w done l sem' :
      at_ s t = Awake w -> down_recheck w (lock_ s, sem s) = Ok (done, (l, sem')) ->
      step threads s (mkSystem l sem' (upd (at_ s) t (if done then Held else Prepared w))
                               (if done then sleeping s else upd (sleeping s) t true))
  | step_up t woken l sem' :
      at_ s t = Held -> up (lock_ s, sem s) = Ok (woken, (l, sem')) ->
      step threads s (mkSystem l sem' (upd (at_ s) t Idle)
                               (match woken with Some t' => upd (sleeping s) t' false | None => sleeping s end))
  | step_other_wakeUp t :
      step threads s (mkSystem (lock_ s) (sem s) (at_ s) (upd (sleeping s) t false)).

(** Nobody has a spin lock, and the interrupts are enabled. *)
Definition initial (n : Z) : System :=
  mkSystem (mkCpu true 0, new_SpinLock) (new_Semaphore n) (fun _ => Idle) (fun _ => false).

Inductive reachable (threads : list Z) (n : Z) : System -> Prop :=
  | reachable_initial : reachable threads n (initial n)
  | reachable_step s s' : reachable threads n s -> step threads s s' -> reachable threads n s'.

(** *** Counting *)
Lemma upd_eq {A} (f : Z -> A) t a : upd f t a t = a.
Proof. unfold upd. by rewrite Z.eqb_refl. Qed.

Lemma upd_ne {A} (f : Z -> A) t a t' : t' <> t -> upd f t a t' = f t'.
Proof. intros. unfold upd. by rewrite (proj2 (Z.eqb_neq _ _)). Qed.

Lemma upd_cases {A} (f : Z -> A) t a t' :
  (t' = t /\ upd f t a t' = a) \/ (t' <> t /\ upd f t a t' = f t').
Proof.
  destruct (decide (t' = t)) as [->|]; [left; by rewrite upd_eq|right; by rewrite upd_ne].
Qed.

Definition total (f : Z -> bool) (threads : list Z) : Z := count_true (map f threads).

Lemma total_ext f g threads : (forall t, t ∈ threads -> f t = g t) -> total f threads = total g threads.
Proof.
  unfold total. induction threads as [|t l IH]; intros H; [done|]. simpl.
  rewrite (H t) by (by left). rewrite IH; [done|]. intros. apply H. by right.
Qed.

Lemma total_upd f threads t b :
  NoDup threads -> t ∈ threads ->
  total (upd f t b) threads = total f threads - (if f t then 1 else 0) + (if b then 1 else 0).
Proof.
  unfold total. induction threads as [|x l IH]; intros Hnd Ht; [by apply elem_of_nil in Ht|].
  apply NoDup_cons in Hnd as [Hx Hnd]. simpl. apply elem_of_cons in Ht as [->|Ht].
  - rewrite upd_eq.
    pose proof (total_ext (upd f x b) f l) as E. unfold total in E. rewrite E; [lia|].
    intros t' Ht'. apply upd_ne. by intros ->.
  - rewrite upd_ne by (by intros ->). rewrite IH by done. lia.
Qed.

Lemma total_le f g threads : (forall t, f t = true -> g t = true) -> total f threads <= total g threads.
Proof.
  unfold total. intros H. induction threads as [|t l IH]; [done|]. simpl.
  destruct (f t) eqn:E; [rewrite (H t) by done|destruct (g t)]; lia.
Qed.

(** *** The invariant *)
Definition flag (s : System) (w : Z) : bool :=
  default false (up_flag <$> waiters (sem_queue (sem s)) !! w).

(** The task has taken the semaphore, or has been given it and is about to find out. *)
Definition owns (s : System) (t : Z) : bool :=
  match at_ s t with
  | Held => true
  | Prepared w | Asleep w | Awake w => flag s w
  | Idle => false
  end.

Record inv (threads : list Z) (n : Z) (s : System) (l : list Z) : Prop := {
  inv_queue : queue (sem_queue (sem s)) l;
  (** every waiting task has its waiter, which is on the list until it is given the semaphore *)
  inv_waiting t w : waiting (at_ s t) w ->
    exists x, waiters (sem_queue (sem s)) !! w = Some x /\ wtask x = t /\ (up_flag x = false <-> w ∈ l);
  inv_listed w : w ∈ l ->
    exists x, waiters (sem_queue (sem s)) !! w = Some x /\ waiting (at_ s (wtask x)) w;
  inv_threads t : at_ s t <> Idle -> t ∈ threads;
  (** no lost wake-up: a task that was given the semaphore is not sleeping *)
  inv_woken t w : waiting (at_ s t) w -> flag s w = true -> sleeping s t = false;
  inv_awake t w : at_ s t = Awake w -> sleeping s t = false;
  inv_active t w : waiting (at_ s t) w -> t <> 0;
  inv_quiet : quiet (lock_ s);
  inv_free : count (sem s) <> 0 -> l = [];
  inv_count : 0 <= count (sem s);
  (** the units of the semaphore are conserved *)
  inv_total : count (sem s) + total (owns s) threads = n;
}.

Lemma waiting_inj p w w' : waiting p w -> waiting p w' -> w = w'.
Proof. unfold waiting. intros [-> | [-> | ->]] [H|[H|H]]; congruence. Qed.

Lemma owns_waiting s t w : waiting (at_ s t) w -> owns s t = flag s w.
Proof. unfold owns. by intros [-> | [-> | ->]]. Qed.

Section preservation.
Context (threads : list Z) (n : Z) (Hnd : NoDup threads) (Hn : n < 2 ^ 32).

(** A task that moves on with its waiter, the semaphore being left alone. *)
Lemma inv_move s l t w p sl :
  inv threads n s l -> waiting (at_ s t) w -> waiting p w ->
  (forall t', sl t' = sleeping s t' \/ sl t' = false) \/
  (flag s w = false /\ sl = upd (sleeping s) t true /\ p = Prepared w) ->
  (p = Awake w -> sl t = false) ->
  inv threads n (mkSystem (lock_ s) (sem s) (upd (at_ s) t p) sl) l.
Proof.
  intros [Hq Hw Hl Ht Hwk Haw Hact Hquiet Hf Hc Htot] Hat Hp Hsl Hpa.
  assert (forall t' w', waiting (upd (at_ s) t p t') w' <-> waiting (at_ s t') w') as Hiff.
  { intros t' w'. destruct (upd_cases (at_ s) t p t') as [[-> ->]|[_ ->]]; [|done].
    split; intros H; [rewrite (waiting_inj _ _ _ H Hp)|rewrite (waiting_inj _ _ _ H Hat)]; done. }
  split; cbn [sem at_ sleeping]; try done.
  - intros t' w' H. apply Hw. by apply Hiff.
  - intros w' H. destruct (Hl w' H) as (x & Hx & H'). exists x. split; [done|]. by apply Hiff.
  - intros t' H. destruct (upd_cases (at_ s) t p t') as [[-> E]|[_ E]]; rewrite E in H; [|by apply Ht].
    apply Ht. by destruct Hat as [-> | [-> | ->]].
  - intros t' w' H%Hiff Hflag.
    pose proof (Hwk t' w' H Hflag) as Hs.
    destruct Hsl as [Hsl|(Hfl & -> & _)]; [destruct (Hsl t') as [-> | ->]; done|].
    rewrite upd_ne; [done|]. intros ->. unfold flag in *. cbn [sem] in Hflag.
    by rewrite (waiting_inj _ _ _ H Hat), Hfl in Hflag.
  - intros t' w' H. destruct (upd_cases (at_ s) t p t') as [[-> E]|[Hne E]]; rewrite E in H.
    + apply Hpa. destruct Hp as [-> | [-> | ->]]; congruence.
    + pose proof (Haw t' w' H) as Hs. destruct Hsl as [Hsl|(_ & -> & _)].
      * destruct (Hsl t') as [-> | ->]; done.
      * by rewrite upd_ne.
  - intros t' w' H%Hiff. exact (Hact t' w' H).
  - rewrite <- Htot. f_equal. apply total_ext. intros t' _.
    unfold owns at 1. cbn [at_]. destruct (upd_cases (at_ s) t p t') as [[-> ->]|[_ ->]].
    + rewrite (owns_waiting s t w) by done. by destruct Hp as [-> | [-> | ->]].
    + done.
Qed.

Lemma inv_initial : 0 <= n -> inv threads n (initial n) [].
Proof.
  intros H0. assert (total (owns (initial n)) threads = 0) as Htot.
  { unfold total. clear. induction threads as [|t l IH]; [done|]. simpl. by rewrite IH. }
  split; cbn [sem at_ sleeping initial new_Semaphore count sem_queue]; try done.
  - apply queue_empty.
  - by intros t w [H|[H|H]].
  - intros w Hw. by apply elem_of_nil in Hw.
  - by intros t w [H|[H|H]].
  - lia.
Qed.

Lemma inv_wake s l t : inv threads n s l -> inv threads n (mkSystem (lock_ s) (sem s) (at_ s) (upd (sleeping s) t false)) l.
Proof.
  intros [Hq Hw Hl Ht Hwk Haw Hact Hquiet Hf Hc Htot].
  assert (forall t', sleeping s t' = false -> upd (sleeping s) t false t' = false) as Hs.
  { intros t' H. by destruct (upd_cases (sleeping s) t false t') as [[_ ->]|[_ ->]]. }
  split; cbn [sem at_ sleeping]; try done.
  - intros t' w H Hfl. apply Hs. by eapply Hwk.
  - intros t' w H. apply Hs. by eapply Haw.
Qed.

(** A waiter belongs to one task. *)
Lemma waiter_owner s l t t' w :
  inv threads n s l -> waiting (at_ s t) w -> waiting (at_ s t') w -> t = t'.
Proof.
  intros Hinv H H'. destruct (inv_waiting _ _ _ _ Hinv t w H) as (x & Hx & <- & _).
  destruct (inv_waiting _ _ _ _ Hinv t' w H') as (x' & Hx' & <- & _). congruence.
Qed.

(** A task [t] that leaves or enters the waiters, the others keeping theirs. *)
Lemma inv_change s l t p sem' l' sl :
  inv threads n s l -> t ∈ threads ->
  queue (sem_queue sem') l' ->
  (forall w, waiting p w -> exists x, waiters (sem_queue sem') !! w = Some x /\ wtask x = t /\
     (up_flag x = false <-> w ∈ l')) ->
  (forall t' w, t' <> t -> waiting (at_ s t') w -> exists x, waiters (sem_queue sem') !! w = Some x /\
     wtask x = t' /\ (up_flag x = false <-> w ∈ l')) ->
  (forall w, w ∈ l' -> waiting p w \/ (w ∈ l /\ ~ waiting (at_ s t) w)) ->
  (forall t' w, (t' = t -> waiting p w) -> (t' <> t -> waiting (at_ s t') w) ->
     flag (mkSystem (lock_ s) sem' (at_ s) sl) w = true -> sl t' = false) ->
  (forall t', t' <> t -> sleeping s t' = false -> sl t' = false) ->
  (forall w, p <> Awake w) -> (forall w, waiting p w -> t <> 0) ->
  (count sem' <> 0 -> l' = []) -> 0 <= count sem' ->
  (count sem' + total (owns (mkSystem (lock_ s) sem' (upd (at_ s) t p) sl)) threads = n) ->
  inv threads n (mkSystem (lock_ s) sem' (upd (at_ s) t p) sl) l'.
Proof.
  intros Hinv Hin Hq Hp Hoth Hl' Hwk Hsl Hpa Hpt Hf Hc Htot.
  split; cbn [sem at_ sleeping]; try done.
  - intros t' w H. destruct (upd_cases (at_ s) t p t') as [[-> E]|[Hne E]]; rewrite E in H.
    + by apply Hp.
    + by apply Hoth.
  - intros w Hw. destruct (Hl' w Hw) as [H|[H Hno]].
    + destruct (Hp w H) as (x & Hx & Ht & _). exists x. split; [done|]. by rewrite Ht, upd_eq.
    + destruct (inv_listed _ _ _ _ Hinv w H) as (x & _ & Hat).
      assert (wtask x <> t) as Hne by (intros E; rewrite E in Hat; done).
      destruct (Hoth _ w Hne Hat) as (x' & Hx' & E & _). exists x'. split; [done|].
      rewrite E. by rewrite upd_ne.
  - intros t' H. destruct (upd_cases (at_ s) t p t') as [[-> E]|[Hne E]]; rewrite E in H; [done|].
    by eapply inv_threads.
  - intros t' w H Hfl. apply (Hwk t' w); [| |done].
    + intros ->. by rewrite upd_eq in H.
    + intros Hne. by rewrite upd_ne in H.
  - intros t' w H. destruct (upd_cases (at_ s) t p t') as [[-> E]|[Hne E]]; rewrite E in H.
    + by destruct (Hpa w).
    + apply Hsl; [done|]. by eapply inv_awake.
  - intros t' w H. destruct (upd_cases (at_ s) t p t') as [[-> E]|[Hne E]]; rewrite E in H.
    + exact (Hpt w H).
    + exact (inv_active _ _ _ _ Hinv t' w H).
  - exact (inv_quiet _ _ _ _ Hinv).
Qed.

(** The tasks other than [t] own what they owned when their flags are as they were. *)
Lemma owns_others s sem' p sl t t' :
  t' <> t ->
  (forall w, waiting (at_ s t') w -> flag (mkSystem (lock_ s) sem' (upd (at_ s) t p) sl) w = flag s w) ->
  owns (mkSystem (lock_ s) sem' (upd (at_ s) t p) sl) t' = owns s t'.
Proof.
  intros Hne Hfl. unfold owns. cbn [at_]. rewrite upd_ne by done.
  destruct (at_ s t') as [|w|w|w|] eqn:E; try done; apply Hfl; unfold waiting; tauto.
Qed.

Lemma total_one s sem' p sl t :
  t ∈ threads ->
  (forall t', t' <> t -> t' ∈ threads ->
     owns (mkSystem (lock_ s) sem' (upd (at_ s) t p) sl) t' = owns s t') ->
  total (owns (mkSystem (lock_ s) sem' (upd (at_ s) t p) sl)) threads =
  total (owns s) threads - (if owns s t then 1 else 0)
    + (if owns (mkSystem (lock_ s) sem' (upd (at_ s) t p) sl) t then 1 else 0).
Proof using Hnd.
  intros Ht Ho. rewrite <- total_upd by done. apply total_ext. intros t' Ht'.
  destruct (upd_cases (owns s) t (owns (mkSystem (lock_ s) sem' (upd (at_ s) t p) sl) t) t')
    as [[-> ->]|[Hne ->]]; [done|by apply Ho].
Qed.

Lemma step_down_inv s l t w taken sem' :
  inv threads n s l -> t ∈ threads -> at_ s t = Idle -> sleeping s t = false ->
  w <> 0 -> waiters (sem_queue (sem s)) !! w = None ->
  down_locked w t (sem s) = Ok (taken, sem') ->
  exists l', inv threads n (mkSystem (lock_ s) sem' (upd (at_ s) t (if taken then Held else Prepared w))
                     (if taken then sleeping s else upd (sleeping s) t true)) l'.
Proof using Hnd.
  intros Hinv Ht Hat Hsl Hw0 Hfresh Hrun. unfold down_locked in Hrun. rewrite bind_read in Hrun.
  pose proof (inv_queue _ _ _ _ Hinv) as Hq.
  assert (owns s t = false) as Hown by (unfold owns; by rewrite Hat).
  destruct (Z.eqb_spec (count (sem s)) 0) as [Hc|Hc]; cbn [negb] in Hrun.
  - (* contention: the task becomes a waiter *)
    assert (t <> 0) as Ht0 by (intros ->; by unfold assert_active in Hrun; apply bind_ok in Hrun as (? & ? & ? & _)).
    assert (assert_active t (sem s) = Ok (tt, sem s)) as Eact
      by (unfold assert_active, assertion; by rewrite (proj2 (Z.eqb_neq t 0))).
    rewrite (bind_run _ _ _ _ _ Eact) in Hrun.
    assert (w ∉ l) as Hwl by (intros H; destruct (queue_live _ _ w Hq H) as [_ [x Hx]]; congruence).
    set (q0 := set_waiters (<[w := mkWaiter false t 0]> (waiters (sem_queue (sem s)))) (sem_queue (sem s))).
    assert (queue q0 l) as Hq0.
    { destruct Hq as (Hlink & Hlast & HndL). split_and!; [|done|done].
      eapply linked_frame; [exact Hlink|]. intros v Hv x Hx. exists x. split; [|done].
      cbn. rewrite lookup_insert_ne; [done|]. intros ->. done. }
    assert (Runs (push_waiter w) q0 (fun _ q' => queue q' (l ++ [w]) /\
      waiters q' !! w = Some (mkWaiter false t 0) /\
      forall v, up_flag <$> waiters q' !! v = up_flag <$> waiters q0 !! v /\
                wtask <$> waiters q' !! v = wtask <$> waiters q0 !! v)) as Hpush.
    { eapply (push_waiter_run q0 l w (mkWaiter false t 0)); [done|done|done| |done|done].
      cbn. by rewrite lookup_insert_eq. }
    apply Runs_ok in Hpush as (u & q' & Hpush & Hq' & Hx & Hsame).
    assert (sem' = set_queue q' (sem s) /\ taken = false) as [-> ->].
    { revert Hrun. unfold on_queue, new_waiter, zoom, mbind, ST_bind, modify. cbn.
      fold q0. change (set_waiters _ (sem_queue (sem s))) with q0. rewrite Hpush. by intros [= <- <-]. }
    assert (forall t' v, waiting (at_ s t') v -> v <> w) as Hvw.
    { intros t' v H ->. destruct (inv_waiting _ _ _ _ Hinv t' w H) as (x & Hx' & _). congruence. }
    assert (forall v, v <> w -> up_flag <$> waiters q' !! v = up_flag <$> waiters (sem_queue (sem s)) !! v /\
              wtask <$> waiters q' !! v = wtask <$> waiters (sem_queue (sem s)) !! v) as Hold.
    { intros v Hv. destruct (Hsame v) as [-> ->]. unfold q0. cbn. by rewrite lookup_insert_ne. }
    exists (l ++ [w]). apply (inv_change s l); try done.
    + intros v Hv. assert (v = w) as -> by (destruct Hv as [H|[H|H]]; congruence).
      exists (mkWaiter false t 0). split_and!; [done|done|]. split; [|done]. intros _.
      apply elem_of_app. right. by left.
    + intros t' v Hne Hv. destruct (inv_waiting _ _ _ _ Hinv t' v Hv) as (x & Hx' & Htask & Hup).
      pose proof (Hvw t' v Hv) as Hvne. destruct (Hold v Hvne) as [E1 E2]. rewrite Hx' in E1, E2.
      destruct (waiters q' !! v) as [x'|] eqn:E; [|done]. injection E1 as E1. injection E2 as E2.
      exists x'. split_and!; [done|congruence|]. rewrite E1, Hup, elem_of_app, list_elem_of_singleton.
      split; [by left|by intros [?|?]].
    + intros v [Hv|Hv%list_elem_of_singleton]%elem_of_app.
      * right. split; [done|]. rewrite Hat. by intros [H|[H|H]].
      * left. left. by subst.
    + intros t' v Hv1 Hv2 Hfl. destruct (decide (t' = t)) as [->|Hne].
      * assert (v = w) as -> by (destruct (Hv1 eq_refl) as [H|[H|H]]; congruence).
        unfold flag in Hfl. cbn in Hfl. by rewrite Hx in Hfl.
      * rewrite upd_ne by done. eapply inv_woken; [done|by apply Hv2|].
        unfold flag in *. cbn in Hfl. pose proof (Hvw t' v (Hv2 Hne)) as Hvne.
        by rewrite (proj1 (Hold v Hvne)) in Hfl.
    + intros t' Hne Hs. by rewrite upd_ne.
    + cbn. by rewrite Hc.
    + rewrite total_one; [|done|].
      * rewrite Hown. set (o := owns (mkSystem _ _ _ _) t). assert (o = false) as ->.
        { unfold o, owns. cbn [at_]. rewrite upd_eq. unfold flag. cbn. by rewrite Hx. }
        pose proof (inv_total _ _ _ _ Hinv). cbn [count set_queue]. lia.
      * intros t' Hne _. apply owns_others; [done|]. intros v Hv. unfold flag. cbn.
        by rewrite (proj1 (Hold v (Hvw t' v Hv))).
  - (* the semaphore is free *)
    injection Hrun as <- <-. pose proof (inv_free _ _ _ _ Hinv Hc) as ->.
    pose proof (inv_count _ _ _ _ Hinv).
    exists []. apply (inv_change s []); try done.
    + by intros v [Hv|[Hv|Hv]].
    + intros t' v Hne Hv. by apply (inv_waiting _ _ _ _ Hinv).
    + intros v Hv. by apply elem_of_nil in Hv.
    + intros t' v Hv1 Hv2 Hfl. destruct (decide (t' = t)) as [->|Hne]; [done|].
      by eapply inv_woken; [done|apply Hv2|].
    + by intros v [Hv|[Hv|Hv]].
    + cbn. lia.
    + rewrite total_one; [|done|].
      * rewrite Hown. set (o := owns (mkSystem _ _ _ _) t). assert (o = true) as ->.
        { unfold o, owns. cbn [at_]. by rewrite upd_eq. }
        pose proof (inv_total _ _ _ _ Hinv). cbn [count set_count]. lia.
      * intros t' Hne _. by apply owns_others.
Qed.

(** The waiter that was given the semaphore goes out of scope. *)
Lemma step_recheck_inv s l t w done sem' :
  inv threads n s l -> at_ s t = Awake w -> recheck_locked w (sem s) = Ok (done, sem') ->
  inv threads n (mkSystem (lock_ s) sem' (upd (at_ s) t (if done then Held else Prepared w))
                   (if done then sleeping s else upd (sleeping s) t true)) l.
Proof using Hnd.
  intros Hinv Hat Hrun.
  assert (waiting (at_ s t) w) as Hwt by (right; right; done).
  destruct (inv_waiting _ _ _ _ Hinv t w Hwt) as (x & Hx & Htask & Hup).
  assert (t ∈ threads) as Ht by (eapply inv_threads; [done|by rewrite Hat]).
  assert (flag s w = up_flag x) as Hflag by (unfold flag; by rewrite Hx).
  unfold recheck_locked in Hrun.
  erewrite bind_run in Hrun; [|unfold on_queue, zoom, get_waiter; rewrite bind_read; unfold from_option; rewrite Hx; done].
  cbn beta in Hrun. destruct (up_flag x) eqn:Hf.
  - injection Hrun as <- <-.
    assert (w ∉ l) as Hwl by (intros H; by apply Hup in H).
    assert (forall t' v, t' <> t -> waiting (at_ s t') v -> v <> w) as Hvw.
    { intros t' v Hne Hv ->. apply Hne. by eapply waiter_owner. }
    pose proof (inv_queue _ _ _ _ Hinv) as (Hlink & Hlast & HndL).
    apply (inv_change s l); try done.
    + split_and!; [|done|done]. eapply linked_frame; [exact Hlink|]. intros v Hv y Hy. exists y.
      split; [|done]. cbn. rewrite lookup_delete_ne; [done|]. by intros ->.
    + by intros v [Hv|[Hv|Hv]].
    + intros t' v Hne Hv. destruct (inv_waiting _ _ _ _ Hinv t' v Hv) as (y & Hy & ?). exists y.
      split; [|done]. cbn. rewrite lookup_delete_ne; [done|]. intros ->. by apply (Hvw t' v).
    + intros v Hv. right. split; [done|]. intros Hv'. apply Hwl. by rewrite (waiting_inj _ _ _ Hwt Hv').
    + intros t' v Hv1 Hv2 Hfl. destruct (decide (t' = t)) as [->|Hne].
      { by destruct (Hv1 eq_refl) as [H|[H|H]]. }
      eapply inv_woken; [done|by apply Hv2|]. unfold flag in *. cbn in Hfl.
      rewrite lookup_delete_ne in Hfl; [done|]. intros ->. by apply (Hvw t' v Hne); [apply Hv2|].
    + by intros v [Hv|[Hv|Hv]].
    + cbn. by eapply inv_free.
    + cbn. by eapply inv_count.
    + rewrite total_one; [|done|].
      * rewrite (owns_waiting s t w), Hflag by done.
        set (o := owns (mkSystem _ _ _ _) t). assert (o = true) as ->.
        { unfold o, owns. cbn [at_]. by rewrite upd_eq. }
        pose proof (inv_total _ _ _ _ Hinv). cbn [count set_queue]. lia.
      * intros t' Hne _. apply owns_others; [done|]. intros v Hv. unfold flag. cbn.
        rewrite lookup_delete_ne; [done|]. intros ->. by apply (Hvw t' v).
  - injection Hrun as <- <-.
    assert (set_queue (sem_queue (sem s)) (sem s) = sem s) as -> by (by destruct (sem s)).
    apply (inv_move s l t w); [done|done|by left|right; done|done].
Qed.

Lemma up_free_inv s l t :
  inv threads n s l -> at_ s t = Held -> l = [] ->
  up_locked (sem s) = Ok (None, set_count (count (sem s) + 1) (sem s)) /\
  inv threads n (mkSystem (lock_ s) (set_count (count (sem s) + 1) (sem s)) (upd (at_ s) t Idle) (sleeping s)) [].
Proof using Hnd Hn.
  intros Hinv Hat ->. pose proof (inv_queue _ _ _ _ Hinv) as Hq.
  assert (t ∈ threads) as Ht by (eapply inv_threads; [done|by rewrite Hat]).
  assert (owns s t = true) as Hown by (unfold owns; by rewrite Hat).
  pose proof (inv_count _ _ _ _ Hinv). pose proof (inv_total _ _ _ _ Hinv) as Htot.
  assert (1 <= total (owns s) threads) as Hpos.
  { pose proof (total_upd (owns s) threads t false Hnd Ht) as E. rewrite Hown in E.
    pose proof (count_true_bounds (map (upd (owns s) t false) threads)). unfold total in *. lia. }
  split.
  - unfold up_locked. rewrite bind_read, (queue_first _ _ Hq). cbn [head default Z.eqb].
    rewrite bind_assertion by (by apply Z.eqb_eq, (queue_last_zero _ _ Hq)).
    rewrite wrap_small by (unfold in_word; lia). done.
  - apply (inv_change s []); try done.
    + by intros v [Hv|[Hv|Hv]].
    + intros t' v Hne Hv. by apply (inv_waiting _ _ _ _ Hinv).
    + intros v Hv. by apply elem_of_nil in Hv.
    + intros t' v Hv1 Hv2 Hfl. destruct (decide (t' = t)) as [->|Hne].
      { by destruct (Hv1 eq_refl) as [H'|[H'|H']]. }
      by eapply inv_woken; [done|apply Hv2|].
    + by intros v [Hv|[Hv|Hv]].
    + cbn. lia.
    + rewrite total_one; [|done|].
      * rewrite Hown. set (o := owns (mkSystem _ _ _ _) t). assert (o = false) as ->.
        { unfold o, owns. cbn [at_]. by rewrite upd_eq. }
        cbn [count set_count]. lia.
      * intros t' Hne _. by apply owns_others.
Qed.

(** The first of the list is given the unit. *)
Lemma up_given_run s l t w :
  inv threads n s (w :: l) -> at_ s t = Held ->
  exists x q', waiters (sem_queue (sem s)) !! w = Some x /\
    up_locked (sem s) = Ok (Some (wtask x), set_queue q' (sem s)) /\
    waiters q' = alter (set_up true) w (waiters (sem_queue (sem s))) /\ queue q' l.
Proof.
  intros Hinv Hat. pose proof (inv_queue _ _ _ _ Hinv) as Hq.
  destruct (queue_live _ _ w Hq ltac:(by left)) as [Hnz [x Hx]].
  assert (NoDup (w :: l)) as HndL by apply Hq. apply NoDup_cons in HndL as [Hwl _].
  assert (Runs pop_waiter (sem_queue (sem s)) (fun r q1 =>
            r = w /\ queue q1 l /\ waiters q1 = waiters (sem_queue (sem s)))) as Hpop
    by (by eapply pop_waiter_run).
  apply Runs_ok in Hpop as (r & q1 & Hpop & -> & Hq1 & Hws).
  exists x, (set_waiters (alter (set_up true) w (waiters q1)) q1). split_and!; [done| |by rewrite <- Hws|].
  - unfold up_locked. rewrite bind_read, (queue_first _ _ Hq). change (default 0 (head (w :: l))) with w.
    rewrite (proj2 (Z.eqb_neq _ _) Hnz).
    rewrite bind_assertion by (apply negb_true_iff, Z.eqb_neq; by rewrite (queue_last_zero _ _ Hq)).
    erewrite bind_run; [|unfold on_queue, zoom; by rewrite Hpop].
    unfold on_queue, update_waiter, get_waiter, zoom, from_option, mbind, ST_bind, read_state, modify.
    cbn. rewrite Hws, Hx. cbn. rewrite lookup_alter_eq, ?Hws, ?Hx. done.
  - destruct Hq1 as (Hlink & Hlast & Hnd1). split_and!; [|done|done].
    eapply linked_frame; [exact Hlink|]. intros v Hv y Hy. exists y. split; [|done].
    cbn. rewrite lookup_alter_ne; [done|]. by intros ->.
Qed.

Lemma up_given_inv s l t w :
  inv threads n s (w :: l) -> at_ s t = Held ->
  exists t' sem', up_locked (sem s) = Ok (Some t', sem') /\ waiting (at_ s t') w /\
    inv threads n (mkSystem (lock_ s) sem' (upd (at_ s) t Idle) (upd (sleeping s) t' false)) l.
Proof using Hnd.
  intros Hinv Hat. destruct (up_given_run s l t w Hinv Hat) as (x & q' & Hx & Hrun & Hws & Hq').
  pose proof (inv_queue _ _ _ _ Hinv) as Hq.
  assert (NoDup (w :: l)) as HndL by apply Hq. apply NoDup_cons in HndL as [Hwl _].
  destruct (inv_listed _ _ _ _ Hinv w ltac:(by left)) as (x0 & Hx0 & Hwt).
  assert (x0 = x) as -> by congruence. set (t' := wtask x) in *.
  exists t', (set_queue q' (sem s)). split_and!; [done|done|].
  assert (t ∈ threads) as Ht by (eapply inv_threads; [done|by rewrite Hat]).
  assert (t' ∈ threads) as Ht' by (eapply inv_threads; [done|by destruct Hwt as [-> | [-> | ->]]]).
  assert (t <> t') as Htt by (intros E; rewrite <- E, Hat in Hwt; by destruct Hwt as [H|[H|H]]).
  assert (forall v, flag (mkSystem (lock_ s) (set_queue q' (sem s)) (upd (at_ s) t Idle) (upd (sleeping s) t' false)) v =
            if bool_decide (v = w) then true else flag s v) as Hflag.
  { intros v. unfold flag. cbn. rewrite Hws. case_bool_decide as E.
    - subst. by rewrite lookup_alter_eq, Hx.
    - by rewrite lookup_alter_ne. }
  assert (flag s w = false) as Hfw.
  { unfold flag. rewrite Hx. cbn. destruct (inv_waiting _ _ _ _ Hinv t' w Hwt) as (y & Hy & _ & Hup).
    assert (y = x) as -> by congruence. apply Hup. by left. }
  assert (forall u v, u <> t' -> waiting (at_ s u) v -> v <> w) as Hvw.
  { intros u v Hne Hv ->. apply Hne. by eapply waiter_owner. }
  apply (inv_change s (w :: l)); try done.
  - by intros v [Hv|[Hv|Hv]].
  - intros u v Hne Hv. destruct (inv_waiting _ _ _ _ Hinv u v Hv) as (y & Hy & Htask & Hup).
    destruct (decide (v = w)) as [->|Hvne].
    + exists (set_up true y). cbn. rewrite Hws, lookup_alter_eq, Hy. split_and!; [done|done|].
      split; [done|by intros ?].
    + exists y. cbn. rewrite Hws, lookup_alter_ne by done. split_and!; [done|done|].
      rewrite Hup, elem_of_cons. split; [by intros [->|?]|by right].
  - intros v Hv. right. split; [by right|]. rewrite Hat. by intros [H|[H|H]].
  - intros u v Hv1 Hv2 Hfl. destruct (decide (u = t)) as [->|Hne].
    { by destruct (Hv1 eq_refl) as [H|[H|H]]. }
    destruct (upd_cases (sleeping s) t' false u) as [[-> ->]|[Hut ->]]; [done|].
    eapply inv_woken; [done|by apply Hv2|].
    pose proof (Hflag v) as E. unfold flag in E, Hfl |- *. cbn in E, Hfl. rewrite E in Hfl.
    rewrite bool_decide_false in Hfl; [done|]. by apply (Hvw u v Hut), Hv2.
  - intros u Hne Hs. by destruct (upd_cases (sleeping s) t' false u) as [[_ ->]|[_ ->]].
  - by intros v [Hv|[Hv|Hv]].
  - cbn. intros Hc. by pose proof (inv_free _ _ _ _ Hinv Hc).
  - cbn. by eapply inv_count.
  - set (s' := mkSystem _ _ _ _).
    assert (total (owns s') threads = total (upd (upd (owns s) t false) t' true) threads) as ->.
    { apply total_ext. intros u _.
      destruct (upd_cases (upd (owns s) t false) t' true u) as [[-> ->]|[Hne ->]].
      - unfold owns, s'. cbn [at_]. rewrite upd_ne by done.
        destruct Hwt as [-> | [-> | ->]]; rewrite Hflag; by rewrite bool_decide_true.
      - destruct (upd_cases (owns s) t false u) as [[-> ->]|[Hne2 ->]].
        + unfold owns, s'. cbn [at_]. by rewrite upd_eq.
        + apply owns_others; [done|]. intros v Hv. rewrite Hflag.
          by rewrite bool_decide_false by (by apply (Hvw u v)). }
    rewrite !total_upd by done. rewrite upd_ne by done.
    rewrite (owns_waiting s t' w), Hfw by done.
    assert (owns s t = true) as -> by (unfold owns; by rewrite Hat).
    pose proof (inv_total _ _ _ _ Hinv). cbn [count set_queue]. lia.
Qed.

(** The invariant holds of every state the tasks can reach. *)
Lemma reachable_inv s : 0 <= n -> reachable threads n s -> exists l, inv threads n s l.
Proof using Hnd Hn.
  intros H0. induction 1 as [|s s' _ [l Hinv] Hstep].
  - exists []. by apply inv_initial.
  - pose proof (inv_quiet _ _ _ _ Hinv) as Hquiet.
    destruct Hstep as [t w taken lk sem' Ht Hat Hsl Hw Hfresh Hrun|t w lk sem' Hat Hrun|t w Hat Hsl
                      |t w done lk sem' Hat Hrun|t woken lk sem' Hat Hrun|t].
    + rewrite down_begin_quiet in Hrun by done. apply on_sem_ok in Hrun as [-> Hrun].
      by eapply step_down_inv.
    + rewrite (sleep_begin_quiet t _ _ Hquiet (inv_active _ _ _ _ Hinv t w ltac:(by left))) in Hrun. injection Hrun as <- <-.
      exists l. apply (inv_move s l t w); [done|by left| |by left; left|].
      * destruct (sleeping s t); [by right; left|by right; right].
      * by destruct (sleeping s t).
    + exists l. apply (inv_move s l t w); [done|by right; left|by right; right|by left; left|done].
    + unfold down_recheck in Hrun. rewrite under_spinlock_quiet in Hrun by done. apply on_sem_ok in Hrun as [-> Hrun].
      exists l. by apply (step_recheck_inv s l t w).
    + unfold up in Hrun. rewrite under_spinlock_quiet in Hrun by done. apply on_sem_ok in Hrun as [-> Hrun].
      destruct l as [|w l].
      * destruct (up_free_inv s [] t Hinv Hat eq_refl) as [E Hi]. rewrite E in Hrun.
        injection Hrun as <- <-. by exists [].
      * destruct (up_given_inv s l t w Hinv Hat) as (t' & sem2 & E & _ & Hi). rewrite E in Hrun.
        injection Hrun as <- <-. by exists l.
    + exists l. by apply inv_wake.
Qed.
End preservation.

(** ** What the semaphore promises *)
Definition is_held (s : System) (t : Z) : bool := match at_ s t with Held => true | _ => false end.

Section promises.
Context (threads : list Z) (n : Z) (Hnd : NoDup threads) (Hn : 0 <= n < 2 ^ 32).

(** C16. At most [n] tasks are between [down] and [up] at any time, whatever the interleaving
    and whoever else wakes the tasks up. *)
Theorem semaphore_bound s : reachable threads n s -> total (is_held s) threads <= n.
Proof using Hnd Hn.
  intros Hr. destruct (reachable_inv threads n Hnd ltac:(lia) s ltac:(lia) Hr) as [l Hinv].
  pose proof (inv_total _ _ _ _ Hinv). pose proof (inv_count _ _ _ _ Hinv).
  pose proof (total_le (is_held s) (owns s) threads) as Hle.
  assert (total (is_held s) threads <= total (owns s) threads); [|lia].
  apply Hle. intros t. unfold is_held, owns. by destruct (at_ s t).
Qed.

(** C27. No operation of a reachable state fails: the spin lock is free between the steps and no other
    is taken, so that [down] may begin for any active task and a waiting task may go to sleep,
    no assertion on the list is violated and no pointer dangles. *)
Theorem semaphore_safe s t w :
  reachable threads n s ->
  quiet (lock_ s) /\
  (t <> 0 -> w <> 0 -> waiters (sem_queue (sem s)) !! w = None -> is_ok (down_begin w t (lock_ s, sem s)) = true) /\
  (at_ s t = Prepared w -> is_ok (sleep_begin t (lock_ s, sem s)) = true) /\
  (at_ s t = Awake w -> is_ok (down_recheck w (lock_ s, sem s)) = true) /\
  (at_ s t = Held -> is_ok (up (lock_ s, sem s)) = true).
Proof using Hnd Hn.
  intros Hr. destruct (reachable_inv threads n Hnd ltac:(lia) s ltac:(lia) Hr) as [l Hinv].
  pose proof (inv_quiet _ _ _ _ Hinv) as Hquiet. split; [done|]. split_and!.
  - intros Ht0 Hw Hfresh. rewrite down_begin_quiet by done. unfold down_locked. rewrite bind_read.
    destruct (count (sem s) =? 0); [cbn [negb]|done].
    assert (assert_active t (sem s) = Ok (tt, sem s)) as Eact
      by (unfold assert_active, assertion; by rewrite (proj2 (Z.eqb_neq t 0))).
    rewrite (bind_run _ _ _ _ _ Eact).
    set (q0 := set_waiters (<[w := mkWaiter false t 0]> (waiters (sem_queue (sem s)))) (sem_queue (sem s))).
    pose proof (inv_queue _ _ _ _ Hinv) as Hq.
    assert (w ∉ l) as Hwl by (intros H; destruct (queue_live _ _ w Hq H) as [_ [x Hx]]; congruence).
    assert (queue q0 l) as Hq0.
    { destruct Hq as (Hlink & Hlast & HndL). split_and!; [|done|done].
      eapply linked_frame; [exact Hlink|]. intros v Hv x Hx. exists x. split; [|done].
      cbn. rewrite lookup_insert_ne; [done|]. intros ->. done. }
    assert (Runs (push_waiter w) q0 (fun _ _ => True)) as Hpush.
    { eapply (push_waiter_run q0 l w (mkWaiter false t 0)); [done|done|done| |done|done].
      cbn. by rewrite lookup_insert_eq. }
    apply Runs_ok in Hpush as (u & q' & Hpush & _).
    rewrite bind_run with (a := tt) (s1 := set_queue q0 (sem s)) by done.
    by rewrite bind_run with (a := u) (s1 := set_queue q' (set_queue q0 (sem s)))
      by (unfold on_queue, zoom; cbn [sem_queue set_queue]; by rewrite Hpush).
  - intros Hat. by rewrite (sleep_begin_quiet t _ _ Hquiet (inv_active _ _ _ _ Hinv t w ltac:(by left))).
  - intros Hat. destruct (inv_waiting _ _ _ _ Hinv t w ltac:(right; right; done)) as (x & Hx & _).
    unfold down_recheck. rewrite under_spinlock_quiet by done. unfold recheck_locked. erewrite bind_run.
    2:{ unfold on_queue, zoom, get_waiter. rewrite bind_read. unfold from_option. by rewrite Hx. }
    by destruct (up_flag x).
  - intros Hat. unfold up. rewrite under_spinlock_quiet by done. destruct l as [|v l].
    + by destruct (up_free_inv threads n Hnd ltac:(lia) s [] t Hinv Hat eq_refl) as [-> _].
    + by destruct (up_given_inv threads n Hnd s l t v Hinv Hat) as (t' & sem' & -> & _).
Qed.

(** A step of the task [t] alone, other than leaving the semaphore. *)
Inductive goes_on (t : Z) (s : System) : System -> Prop :=
  | goes_on_sleep w l sem' :
      at_ s t = Prepared w -> sleep_begin t (lock_ s, sem s) = Ok (tt, (l, sem')) ->
      goes_on t s (mkSystem l sem' (upd (at_ s) t (if sleeping s t then Asleep w else Awake w)) (sleeping s))
  | goes_on_scheduled w :
      at_ s t = Asleep w -> sleeping s t = false ->
      goes_on t s (mkSystem (lock_ s) (sem s) (upd (at_ s) t (Awake w)) (sleeping s))
  | goes_on_recheck w l sem' :
      at_ s t = Awake w -> down_recheck w (lock_ s, sem s) = Ok (true, (l, sem')) ->
      goes_on t s (mkSystem l sem' (upd (at_ s) t Held) (sleeping s)).

(** C14. No wake-up is lost: a task that was given the semaphore gets to hold it by its own
    steps, without waiting for anybody. *)
Theorem semaphore_no_lost_wakeup s t w :
  reachable threads n s -> waiting (at_ s t) w -> flag s w = true ->
  exists s', rtc (goes_on t) s s' /\ at_ s' t = Held.
Proof using Hnd Hn.
  intros Hr Hwt Hfl. destruct (reachable_inv threads n Hnd ltac:(lia) s ltac:(lia) Hr) as [l Hinv].
  pose proof (inv_woken _ _ _ _ Hinv t w Hwt Hfl) as Hsl.
  pose proof (inv_quiet _ _ _ _ Hinv) as Hquiet.
  destruct (inv_waiting _ _ _ _ Hinv t w Hwt) as (x & Hx & _).
  assert (up_flag x = true) as Hf by (unfold flag in Hfl; by rewrite Hx in Hfl).
  assert (forall s1, lock_ s1 = lock_ s -> sem s1 = sem s -> at_ s1 t = Awake w ->
            exists s', rtc (goes_on t) s1 s' /\ at_ s' t = Held) as Hend.
  { intros s1 Hl1 Hs1 Hat. eexists. split.
    - apply rtc_once. eapply goes_on_recheck; [exact Hat|]. rewrite Hl1, Hs1. unfold down_recheck.
      rewrite under_spinlock_quiet by done. unfold recheck_locked. erewrite bind_run.
      2:{ unfold on_queue, zoom, get_waiter. rewrite bind_read. unfold from_option. by rewrite Hx. }
      rewrite Hf. done.
    - cbn. by rewrite upd_eq. }
  destruct Hwt as [Hat|[Hat|Hat]].
  - destruct (Hend (mkSystem (lock_ s) (sem s) (upd (at_ s) t (Awake w)) (sleeping s)) eq_refl eq_refl) as (s' & Hs' & He);
      [cbn; by rewrite upd_eq|].
    exists s'. split; [|done]. eapply rtc_l; [|exact Hs']. pose proof (goes_on_sleep t s w _ _ Hat
      (sleep_begin_quiet t _ (sem s) Hquiet (inv_active _ _ _ _ Hinv t w ltac:(by left)))) as H.
    by rewrite Hsl in H.
  - destruct (Hend (mkSystem (lock_ s) (sem s) (upd (at_ s) t (Awake w)) (sleeping s)) eq_refl eq_refl) as (s' & Hs' & He);
      [cbn; by rewrite upd_eq|].
    exists s'. split; [|done]. eapply rtc_l; [|exact Hs']. by apply goes_on_scheduled.
  - by apply Hend.
Qed.

(** First come, first served: [up] gives the semaphore to the task at the head of the
    list, and [down] adds at its end; the semaphore is free only when nobody waits. *)
Theorem semaphore_fifo s :
  reachable threads n s ->
  exists l, queue (sem_queue (sem s)) l /\ (count (sem s) <> 0 -> l = []) /\
    (forall t, at_ s t = Held ->
       match l with
       | [] => up (lock_ s, sem s) = Ok (None, (lock_ s, set_count (count (sem s) + 1) (sem s)))
       | w :: l' => exists t' sem', up (lock_ s, sem s) = Ok (Some t', (lock_ s, sem')) /\ waiting (at_ s t') w /\
                                    queue (sem_queue sem') l'
       end).
Proof using Hnd Hn.
  intros Hr. destruct (reachable_inv threads n Hnd ltac:(lia) s ltac:(lia) Hr) as [l Hinv].
  exists l. split_and!; [apply Hinv|apply Hinv|]. intros t Hat.
  unfold up. rewrite under_spinlock_quiet by (exact (inv_quiet _ _ _ _ Hinv)). destruct l as [|w l].
  - by destruct (up_free_inv threads n Hnd ltac:(lia) s [] t Hinv Hat eq_refl) as [-> _].
  - destruct (up_given_inv threads n Hnd s l t w Hinv Hat) as (t' & sem' & E & Hw & Hi).
    exists t', sem'. rewrite E. split_and!; [done|done|]. apply Hi.
Qed.
End promises.

(** ** [Mutex]: a semaphore of one unit *)
Definition Mutex : Type := SpinLock * Semaphore.
Definition new_Mutex : Mutex := (new_SpinLock, new_Semaphore 1).
Definition mutex_lock : Z -> Z -> ST SemState bool := down_begin.
Definition mutex_unlock : ST SemState (option Z) := up.

(** Mutual exclusion: two tasks are never both inside. *)
Theorem mutex_exclusion threads s t t' :
  NoDup threads -> reachable threads 1 s ->
  at_ s t = Held -> at_ s t' = Held -> t = t'.
Proof.
  intros Hnd Hr Ht Ht'. destruct (reachable_inv threads 1 Hnd ltac:(lia) s ltac:(lia) Hr) as [l Hinv].
  destruct (decide (t = t')) as [|Hne]; [done|exfalso].
  assert (t ∈ threads) as Hin by (eapply inv_threads; [done|by rewrite Ht]).
  assert (t' ∈ threads) as Hin' by (eapply inv_threads; [done|by rewrite Ht']).
  pose proof (total_upd (owns s) threads t false Hnd Hin) as E1.
  pose proof (total_upd (upd (owns s) t false) threads t' false Hnd Hin') as E2.
  rewrite upd_ne in E2 by done.
  assert (owns s t = true) as O1 by (unfold owns; by rewrite Ht).
  assert (owns s t' = true) as O2 by (unfold owns; by rewrite Ht').
  rewrite O1 in E1. rewrite O2 in E2.
  pose proof (count_true_bounds (map (upd (upd (owns s) t false) t' false) threads)).
  pose proof (inv_total _ _ _ _ Hinv). pose proof (inv_count _ _ _ _ Hinv). unfold total in *. lia.
Qed.

(** ** [CondVar] *)
Record CondVar : Type := mkCondVar {
  cv_queue : WaitQueue;
  waiterCount : Z;          (** [unsigned _waiterCount] *)
}.

(** The constructor leaves [_waiterCount] as it finds it. *)
Definition new_CondVar (garbage : Z) : CondVar := mkCondVar empty_queue garbage.
Definition set_cv_queue (q : WaitQueue) (c : CondVar) : CondVar := mkCondVar q (waiterCount c).
Definition set_waiterCount (n : Z) (c : CondVar) : CondVar := mkCondVar (cv_queue c) n.
Definition on_cv {A} (m : ST WaitQueue A) : ST CondVar A := zoom cv_queue set_cv_queue m.

(** [wait] up to its loop. *)
Definition cond_wait_begin (p task : Z) : ST CondVar unit :=
  assertion (negb (task =? 0)) "task && there is an active task" ;;
  on_cv (new_waiter p task) ;;
  modify (fun c => set_waiterCount (u32 (waiterCount c + 1)) c) ;;
  on_cv (push_waiter p).

(** One turn of the loop of [wait], between the wake-ups: the mutex is released (the value
    tells whom that wakes up), and the flag of the waiter is what the loop tests. *)
Definition cond_wait_turn (p : Z) : ST (CondVar * SemState) (option Z * bool) :=
  woken ← zoom snd (fun m s => (s.1, m)) mutex_unlock;
  w ← zoom fst (fun c s => (c, s.2)) (on_cv (get_waiter p));
  mret (woken, up_flag w).

(** [notify_one]; the value is the task it wakes up. *)
Definition cond_notify_one : ST CondVar (option Z) :=
  c ← read_state;
  if firstWaiter (cv_queue c) =? 0 then
    assertion (lastWaiter (cv_queue c) =? 0) "!_lastWaiter" ;; mret None
  else
    curWaiter ← on_cv pop_waiter;
    modify (fun c => set_waiterCount (u32 (waiterCount c - 1)) c) ;;
    on_cv (update_waiter curWaiter (set_up true)) ;;
    w ← on_cv (get_waiter curWaiter);
    mret (Some (wtask w)).

(** The loop of [notify_all] that collects the waiters. *)
Fixpoint collect (fuel : nat) (q : WaitQueue) (curWaiter : Z) : result (list Z) :=
  if curWaiter =? 0 then Ok []
  else
    match fuel, waiters q !! curWaiter with
    | O, _ => Err OutOfFuel
    | S fuel, None => Err (Undefined "dangling Waiter")
    | S fuel, Some w => l ← collect fuel q (wnext w); mret (curWaiter :: l)
    end.

(** Waking the collected waiters up. *)
Fixpoint wake_all (l : list Z) : ST CondVar (list Z) :=
  match l with
  | [] => mret []
  | p :: l =>
      on_cv (update_waiter p (set_up true)) ;;
      w ← on_cv (get_waiter p);
      tasks ← wake_all l;
      mret (wtask w :: tasks)
  end.

(** [notify_all]; the value is the tasks it wakes up.  There are no more waiters than
    objects. *)
Definition cond_notify_all : ST CondVar (list Z) :=
  c ← read_state;
  l ← lift_result (collect (size (waiters (cv_queue c))) (cv_queue c) (firstWaiter (cv_queue c)));
  modify (fun c => set_waiterCount 0 (set_cv_queue (set_first 0 (set_last 0 (cv_queue c))) c)) ;;
  wake_all l.

Section condvar.
Implicit Types (c : CondVar) (l : list Z).

(** The tasks of the waiters of a list. *)
Definition tasks_of (q : WaitQueue) (l : list Z) : list Z :=
  map (fun p => default 0 (wtask <$> waiters q !! p)) l.

Lemma collect_run q p l fuel :
  linked (waiters q) p l -> (length l <= fuel)%nat -> collect fuel q p = Ok l.
Proof.
  revert p fuel. induction l as [|w l IH]; intros p fuel H Hf.
  - simpl in H. subst. by destruct fuel.
  - destruct H as (-> & Hnz & x & Hx & Hl). destruct fuel as [|fuel]; [simpl in Hf; lia|].
    simpl. rewrite (proj2 (Z.eqb_neq _ _) Hnz), Hx.
    rewrite (IH _ fuel Hl) by (simpl in Hf; lia). done.
Qed.

Lemma queue_length q l : queue q l -> (length l <= size (waiters q))%nat.
Proof.
  intros Hq. assert (NoDup l) as Hnd by apply Hq.
  assert (list_to_set l ⊆@{gset Z} dom (waiters q)) as Hsub.
  { intros w. rewrite elem_of_list_to_set. intros Hw. apply elem_of_dom. by eapply queue_live. }
  apply subseteq_size in Hsub. by rewrite size_list_to_set, size_dom in Hsub.
Qed.

Lemma wake_all_run l c :
  (forall w, w ∈ l -> is_Some (waiters (cv_queue c) !! w)) ->
  exists ws, wake_all l c = Ok (tasks_of (cv_queue c) l, set_cv_queue (set_waiters ws (cv_queue c)) c) /\
    forall p, ws !! p = (if bool_decide (p ∈ l) then set_up true else id) <$> waiters (cv_queue c) !! p.
Proof.
  revert c. induction l as [|w l IH]; intros c Hlive.
  - exists (waiters (cv_queue c)). split; [by destruct c as [[]]|]. intros p. simpl.
    by destruct (waiters (cv_queue c) !! p).
  - destruct (Hlive w ltac:(by left)) as [x Hx]. simpl.
    set (c1 := set_cv_queue (set_waiters (alter (set_up true) w (waiters (cv_queue c))) (cv_queue c)) c).
    assert (on_cv (update_waiter w (set_up true)) c = Ok (tt, c1)) as E1.
    { unfold on_cv, update_waiter, get_waiter, zoom, from_option, mbind, ST_bind, read_state, modify.
      by rewrite Hx. }
    rewrite (bind_run _ _ _ _ _ E1).
    assert (on_cv (get_waiter w) c1 = Ok (set_up true x, c1)) as E2.
    { unfold on_cv, get_waiter, zoom, from_option, mbind, ST_bind, read_state, c1. cbn.
      by rewrite lookup_alter_eq, Hx. }
    rewrite (bind_run _ _ _ _ _ E2).
    destruct (IH c1) as (ws & E3 & Hws).
    { intros v Hv. unfold c1. cbn. rewrite lookup_alter_is_Some. apply Hlive. by right. }
    rewrite (bind_run _ _ _ _ _ E3). exists ws. split.
    + unfold tasks_of. cbn. rewrite Hx. cbn. unfold mret, ST_ret. do 2 f_equal. f_equal.
      apply map_ext. intros p. unfold c1. cbn. destruct (decide (p = w)) as [->|].
      * by rewrite lookup_alter_eq, Hx.
      * by rewrite lookup_alter_ne.
    + intros p. rewrite Hws. unfold c1. cbn. destruct (decide (p = w)) as [->|Hne].
      * rewrite lookup_alter_eq, Hx. rewrite (bool_decide_true (w ∈ w :: l)) by (by left).
        simpl. by case_bool_decide.
      * rewrite lookup_alter_ne by done.
        rewrite (bool_decide_ext (p ∈ w :: l) (p ∈ l)); [done|].
        rewrite elem_of_cons. split; [by intros [?|?]|by right].
Qed.

(** A task that waits comes last in the queue. *)
Lemma cond_wait_begin_run c l p task :
  queue (cv_queue c) l -> task <> 0 -> p <> 0 -> waiters (cv_queue c) !! p = None ->
  Runs (cond_wait_begin p task) c (fun _ c' =>
    queue (cv_queue c') (l ++ [p]) /\ waiters (cv_queue c') !! p = Some (mkWaiter false task 0) /\
    (forall v, v <> p -> up_flag <$> waiters (cv_queue c') !! v = up_flag <$> waiters (cv_queue c) !! v /\
                         wtask <$> waiters (cv_queue c') !! v = wtask <$> waiters (cv_queue c) !! v)).
Proof.
  intros Hq Ht Hp Hfresh. assert (p ∉ l) as Hpl.
  { intros Hin. destruct (queue_live _ _ p Hq Hin) as [_ [x Hx]]. by rewrite Hfresh in Hx. }
  set (q0 := set_waiters (<[p := mkWaiter false task 0]> (waiters (cv_queue c))) (cv_queue c)).
  assert (queue q0 l) as Hq0.
  { destruct Hq as (Hlink & Hlast & Hnd). split_and!; [|done|done].
    eapply linked_frame; [exact Hlink|]. intros v Hv x Hx. exists x. split; [|done].
    cbn. rewrite lookup_insert_ne; [done|]. by intros ->. }
  unfold cond_wait_begin, on_cv, new_waiter. run_step.
  apply Runs_assertion; [by apply negb_true_iff, Z.eqb_neq|]. run_step. apply Runs_zoom, Runs_modify. run_steps.
  apply Runs_zoom. eapply (push_waiter_run q0 l p); [done|done|done|by apply lookup_insert_eq|done|].
  intros q' Hq' Hx Hframe. cbn. split_and!; [done|done|]. intros v Hv.
  destruct (Hframe v) as [E1 E2]. rewrite E1, E2. cbn. by rewrite lookup_insert_ne.
Qed.

Lemma cond_notify_all_run c l :
  queue (cv_queue c) l ->
  Runs cond_notify_all c (fun tasks c' =>
    tasks = tasks_of (cv_queue c) l /\ queue (cv_queue c') [] /\ waiterCount c' = 0 /\
    forall p, waiters (cv_queue c') !! p =
      (if bool_decide (p ∈ l) then set_up true else id) <$> waiters (cv_queue c) !! p).
Proof.
  intros Hq. pose proof Hq as (Hlink & _ & _). unfold cond_notify_all. run_steps.
  eapply Runs_of_ok.
  { unfold lift_result. rewrite (collect_run _ _ l) by (done || by apply queue_length). done. }
  run_steps. set (c1 := set_waiterCount 0 _).
  destruct (wake_all_run l c1) as (ws & E & Hws).
  { intros w Hw. unfold c1. cbn. by eapply queue_live. }
  eapply Runs_of_ok; [exact E|]. split_and!; [done| |done|exact Hws].
  split_and!; [done|done|constructor].
Qed.

(** [notify_all] wakes every waiter up, in the order they came, and leaves no waiter. *)
Theorem notify_all_spec c l :
  queue (cv_queue c) l ->
  Runs cond_notify_all c (fun tasks c' =>
    tasks = tasks_of (cv_queue c) l /\ queue (cv_queue c') [] /\ waiterCount c' = 0 /\
    forall w x, w ∈ l -> waiters (cv_queue c') !! w = Some x -> up_flag x = true).
Proof.
  intros Hq. eapply Runs_mono; [by apply cond_notify_all_run|].
  intros tasks c' (-> & Hq' & Hn & Hws). split_and!; try done.
  intros w x Hw. rewrite Hws, bool_decide_true by done.
  destruct (waiters (cv_queue c) !! w); [|done]. by intros [= <-].
Qed.

(** [notify_one] wakes up the task that has waited longest. *)
Theorem notify_one_spec c w l :
  queue (cv_queue c) (w :: l) ->
  Runs cond_notify_one c (fun task c' =>
    task = wtask <$> waiters (cv_queue c) !! w /\ queue (cv_queue c') l /\
    up_flag <$> waiters (cv_queue c') !! w = Some true).
Proof.
  intros Hq. destruct (queue_live _ _ w Hq ltac:(by left)) as [Hnz [x Hx]].
  assert (NoDup (w :: l)) as HndL by apply Hq. apply NoDup_cons in HndL as [Hwl _].
  assert (Runs pop_waiter (cv_queue c) (fun r q1 =>
            r = w /\ queue q1 l /\ waiters q1 = waiters (cv_queue c))) as Hpop
    by (by eapply pop_waiter_run).
  apply Runs_ok in Hpop as (r & q1 & Hpop & -> & Hq1 & Hws).
  unfold cond_notify_one. run_steps. rewrite (queue_first _ _ Hq).
  change (default 0 (head (w :: l))) with w. rewrite (proj2 (Z.eqb_neq _ _) Hnz). run_step.
  eapply Runs_of_ok; [unfold on_cv, zoom; by rewrite Hpop|]. run_steps.
  eapply Runs_of_ok.
  { unfold on_cv, update_waiter, get_waiter, zoom, from_option, mbind, ST_bind, read_state, modify.
    cbn. rewrite Hws, Hx. done. }
  run_step. eapply Runs_of_ok.
  { unfold on_cv, get_waiter, zoom, from_option, mbind, ST_bind, read_state. cbn.
    rewrite ?Hws, lookup_alter_eq, Hx. done. }
  run_steps. split_and!.
  - by rewrite Hx.
  - destruct Hq1 as (Hlink & Hlast & Hnd1). split_and!; [|done|done].
    eapply linked_frame; [exact Hlink|]. intros v Hv y Hy. exists y. split; [|done].
    cbn. rewrite ?Hws, lookup_alter_ne; [by rewrite <- Hws|]. by intros ->.
  - unfold flag. cbn. by rewrite ?Hws, lookup_alter_eq, Hx.
Qed.
End condvar.

(** Every turn of the loop of [wait] releases the mutex: after one spurious wake-up a mutex
    that was held once has two units, and no longer excludes anybody. *)
Theorem cond_wait_spurious c cpu w x :
  waiters (cv_queue c) !! w = Some x -> up_flag x = false -> in_word 8 (g_lockCount cpu) ->
  Runs (cond_wait_turn w ;; cond_wait_turn w) (c, (cpu, new_SpinLock, mkSemaphore 0 empty_queue)) (fun r s' =>
    r.2 = false /\ count s'.2.2 = 2).
Proof.
  intros Hx Hf Hcpu.
  assert (forall n, 0 <= n < 2 -> cond_wait_turn w (c, (cpu, new_SpinLock, mkSemaphore n empty_queue)) =
            Ok ((None, false), (c, (cpu, new_SpinLock, mkSemaphore (n + 1) empty_queue)))) as Hturn.
  { intros n Hn. unfold cond_wait_turn.
    erewrite bind_run.
    2:{ unfold zoom, mutex_unlock, up. cbn [snd]. rewrite under_spinlock_eq by done.
        unfold up_locked. rewrite bind_read. cbn. rewrite wrap_small by (unfold in_word; lia). done. }
    erewrite bind_run.
    2:{ unfold on_cv, zoom, get_waiter. rewrite bind_read. unfold from_option. cbn. rewrite Hx. done. }
    destruct c as [[ws f la] k]. cbn in *. by rewrite Hf. }
  run_step. eapply Runs_of_ok; [by apply Hturn|]. cbn beta. eapply Runs_of_ok; [by apply Hturn|]. done.
Qed.

(** ** The theorems at work: task 1 holds the mutex, task 2 waits at the address 0x100 *)
Definition contended : System :=
  mkSystem (mkCpu true 0, None) (mkSemaphore 0 (mkQueue {[0x100 := mkWaiter false 2 0]} 0x100 0x100))
    (upd (upd (fun _ => Idle) 1 Held) 2 (Prepared 0x100)) (upd (fun _ => false) 2 true).

Definition taken_once : System :=
  mkSystem (mkCpu true 0, None) (mkSemaphore 0 empty_queue) (upd (fun _ => Idle) 1 Held) (fun _ => false).

Lemma contended_reachable : reachable [1; 2] 1 contended.
Proof.
  apply (reachable_step _ _ taken_once); [apply (reachable_step _ _ (initial 1))|].
  - apply reachable_initial.
  - by apply (step_down [1; 2] (initial 1) 1 0x200 true (mkCpu true 0, None) (mkSemaphore 0 empty_queue)); [left|..].
  - by apply (step_down [1; 2] taken_once 2 0x100 false (mkCpu true 0, None)
      (mkSemaphore 0 (mkQueue {[0x100 := mkWaiter false 2 0]} 0x100 0x100))); [right; left|..].
Qed.

Lemma semaphore_bound_witness : total (is_held contended) [1; 2] <= 1.
Proof. apply (semaphore_bound [1; 2] 1); [|done|apply contended_reachable]. by apply (bool_decide_unpack _). Defined.

Lemma mutex_exclusion_witness : at_ contended 1 = Held /\ at_ contended 2 <> Held.
Proof.
  split; [done|]. intros H2.
  assert (1 = 2) as E; [|done].
  apply (mutex_exclusion [1; 2] contended); [|apply contended_reachable|done|done].
  by apply (bool_decide_unpack _).
Defined.

Lemma semaphore_safe_witness : is_ok (up (lock_ contended, sem contended)) = true.
Proof.
  apply (semaphore_safe [1; 2] 1 ltac:(by apply (bool_decide_unpack _)) ltac:(done) contended 1 0 contended_reachable).
  done.
Defined.

Lemma semaphore_fifo_witness :
  exists l, queue (sem_queue (sem contended)) l /\ (count (sem contended) <> 0 -> l = []) /\
    (forall t, at_ contended t = Held ->
       match l with
       | [] => up (lock_ contended, sem contended) =
                 Ok (None, (lock_ contended, set_count (count (sem contended) + 1) (sem contended)))
       | w :: l' => exists t' sem', up (lock_ contended, sem contended) = Ok (Some t', (lock_ contended, sem')) /\
                      waiting (at_ contended t') w /\ queue (sem_queue sem') l'
       end).
Proof.
  apply (semaphore_fifo [1; 2] 1 ltac:(by apply (bool_decide_unpack _)) ltac:(done) contended contended_reachable).
Defined.

(** Task 1 leaves: task 2 is given the mutex while it is about to sleep. *)
Definition given : System :=
  mkSystem (mkCpu true 0, None) (mkSemaphore 0 (mkQueue {[0x100 := mkWaiter true 2 0]} 0 0))
    (upd (at_ contended) 1 Idle) (upd (sleeping contended) 2 false).

Lemma semaphore_no_lost_wakeup_witness : exists s', rtc (goes_on 2) given s' /\ at_ s' 2 = Held.
Proof.
  apply (semaphore_no_lost_wakeup [1; 2] 1 ltac:(by apply (bool_decide_unpack _)) ltac:(done) given 2 0x100);
    [|by left|done].
  eapply reachable_step; [apply contended_reachable|].
  apply (step_up [1; 2] contended 1 (Some 2) (lock_ given) (sem given)); [done|]. by vm_compute.
Defined.

Definition two_waiters : CondVar :=
  mkCondVar (mkQueue (<[0x100 := mkWaiter false 7 0x200]> {[0x200 := mkWaiter false 8 0]}) 0x100 0x200) 2.

Lemma two_waiters_queue : queue (cv_queue two_waiters) [0x100; 0x200].
Proof.
  split_and!; [|done|by apply (bool_decide_unpack _)].
  split_and!; [done|done|]. eexists. split; [done|]. split_and!; [done|done|]. by eexists.
Qed.

Lemma notify_all_spec_witness :
  Runs cond_notify_all two_waiters (fun tasks c' => tasks = [7; 8] /\ queue (cv_queue c') []).
Proof.
  eapply Runs_mono; [exact (notify_all_spec two_waiters _ two_waiters_queue)|].
  by intros tasks c' (-> & Hq & _).
Defined.

Lemma notify_one_spec_witness :
  Runs cond_notify_one two_waiters (fun task c' => task = Some 7 /\ queue (cv_queue c') [0x200]).
Proof.
  eapply Runs_mono; [exact (notify_one_spec two_waiters _ _ two_waiters_queue)|].
  by intros task c' (-> & Hq & _).
Defined.

Lemma cond_wait_spurious_witness :
  Runs (cond_wait_turn 0x100 ;; cond_wait_turn 0x100) 
    (two_waiters, (mkCpu false 1, new_SpinLock, mkSemaphore 0 empty_queue))
    (fun r s' => r.2 = false /\ count s'.2.2 = 2).
Proof. by eapply (cond_wait_spurious two_waiters (mkCpu false 1) 0x100). Defined.
