(* ===== verification/Devices.v ===== *)
(** * Ports and the devices behind them: [io.hpp], [Serial.cpp], [Timer.cpp], the interrupt
      controller of [Interrupt.cpp], [printE9] of [Debug.cpp]

    The ports are a trace of what was written and read; what a device answers is a function of
    the trace so far.  What the code relies on a device for is a hypothesis on that function. *)

From Stdlib Require Import ZArith Lia.
From stdpp Require Import list numbers.
From S2P Require Import Prelude Words Interrupts.

Inductive IoEvent : Type :=
  | Out (port value : Z)
  | In (port : Z).

#[export] Instance IoEvent_eq_dec : EqDecision IoEvent.
Proof. solve_decision. Defined.

Record Ports : Type := mkPorts {
  device : list IoEvent -> Z -> Z;     (** the answer to a read of a port *)
  trace : list IoEvent;
}.

Definition add_event (e : IoEvent) (p : Ports) : Ports := mkPorts (device p) (trace p ++ [e]).

(** [io::outb(port, value)], the arguments converted to their types *)
Definition outb (port value : Z) : ST Ports unit := modify (add_event (Out (u16 port) (u8 value))).

Definition inb (port : Z) : ST Ports Z :=
  p ← read_state;
  modify (add_event (In (u16 port))) ;;
  mret (u8 (device p (trace p) (u16 port))).

(** ** [Serial] *)
Definition REG_DATA : Z := 0.
Definition REG_INT_ENABLE : Z := 1.
Definition REG_DIVLOW : Z := 0.
Definition REG_DIVHIGH : Z := 1.
Definition REG_FIFO_CONTROL : Z := 2.
Definition REG_LINE_CONTROL : Z := 3.
Definition REG_MODEM_CONTROL : Z := 4.
Definition REG_LINE_STATUS : Z := 5.

(** The object is its [_port]. *)
Definition serial_init (_port : Z) : ST Ports unit :=
  outb (_port + REG_INT_ENABLE) 0x00 ;;
  outb (_port + REG_LINE_CONTROL) 0x80 ;;
  outb (_port + REG_DIVLOW) 12 ;;
  outb (_port + REG_DIVHIGH) 0 ;;
  outb (_port + REG_LINE_CONTROL) 0x03 ;;
  outb (_port + REG_FIFO_CONTROL) 0xC7 ;;
  outb (_port + REG_MODEM_CONTROL) 0x0B.

(** The loop that waits until the line can take a byte; its counter is not used. *)
Fixpoint serial_wait (fuel : nat) (_port : Z) : ST Ports unit :=
  match fuel with
  | O => fail OutOfFuel
  | S fuel =>
      status ← inb (_port + REG_LINE_STATUS);
      if Z.land status 0x20 =? 0 then serial_wait fuel _port else mret tt
  end.

Definition serial_write (fuel : nat) (_port c : Z) : ST Ports unit :=
  serial_wait fuel _port ;;
  outb (_port + REG_DATA) c.

(** ** [Timer::init] *)
Definition Timer_init (frequency : Z) : ST Ports unit :=
  if frequency =? 0 then fail (Undefined "division by zero")
  else
    let divisor := u16 (1193180 / frequency) in
    outb 0x43 0x36 ;;
    let l := u8 (Z.land divisor 0xFF) in
    let h := u8 (Z.land (Z.shiftr divisor 8) 0xFF) in
    outb 0x40 l ;;
    outb 0x40 h.

(** ** The interrupt controller *)
Definition PIC1_CMD : Z := 0x20.
Definition PIC1_DATA : Z := 0x21.
Definition PIC2_CMD : Z := 0xA0.
Definition PIC2_DATA : Z := 0xA1.

Definition initPic : ST Ports unit :=
  outb PIC1_CMD 0x11 ;;
  outb PIC2_CMD 0x11 ;;
  outb PIC1_DATA 0x20 ;;
  outb PIC2_DATA 0x28 ;;
  outb PIC1_DATA 0x04 ;;
  outb PIC2_DATA 0x02 ;;
  outb PIC1_DATA 0x01 ;;
  outb PIC2_DATA 0x01 ;;
  outb PIC1_DATA 0x0 ;;
  outb PIC2_DATA 0x0.

(** The port and the line within its half of the controller *)
Definition mask_port (nb : Z) : Z * Z :=
  if nb <? 8 then (PIC1_DATA, nb) else (PIC2_DATA, u8 (nb - 8)).

(** [1 << nb] is an [int]. *)
Definition updateMask (nb : Z) (op : Z -> Z -> Z) : ST Ports unit :=
  let '(port, nb) := mask_port nb in
  x ← inb port;
  if 32 <=? nb then fail (Undefined "shift")
  else outb port (op x (Z.shiftl 1 nb)).

Definition mask (nb : Z) : ST Ports unit := updateMask nb (fun x y => Z.lor x y).
Definition unmask (nb : Z) : ST Ports unit := updateMask nb (fun x y => Z.land x (Z.lnot y)).

(** The acknowledgement at the start of [Interrupt::handle]; [intNo] is a [uint8_t]. *)
Definition acknowledge (intNo : Z) : ST Ports unit :=
  if intNo <=? 47 then
    (if 40 <=? intNo then outb 0xA0 0x20 else mret tt) ;;
    outb 0x20 0x20
  else mret tt.

(** ** [printE9] and the console's stream: each byte goes to port 0xe9 *)
Definition printE9 (str : list Z) : ST (Interrupts.Cpu * Ports) unit :=
  _enable ← zoom fst (fun c s => (c, s.2)) DisableInterrupts.construct;
  zoom snd (fun p s => (s.1, p)) (for_each str (outb 0xe9)) ;;
  zoom fst (fun c s => (c, s.2)) (DisableInterrupts.destroy _enable).

(** ** The trace *)

(** The byte last written to a port *)
Definition last_out (port : Z) (t : list IoEvent) : option Z :=
  fold_left (fun r e => match e with Out p v => if p =? port then Some v else r | In _ => r end) t None.

Lemma last_out_app port t1 t2 :
  last_out port (t1 ++ t2) =
  fold_left (fun r e => match e with Out p v => if p =? port then Some v else r | In _ => r end) t2
    (last_out port t1).
Proof. apply fold_left_app. Qed.

(** What a byte-wide device shows of a serial line: it is busy [n] more times. *)
Definition busy (p : Ports) (port : Z) (n : nat) : Prop :=
  forall k, (k <= n)%nat ->
    (Z.land (u8 (device p (trace p ++ replicate k (In port)) port)) 0x20 =? 0) = (bool_decide (k < n)%nat).

Lemma add_event_add e1 e2 p : add_event e2 (add_event e1 p) = mkPorts (device p) (trace p ++ [e1; e2]).
Proof. unfold add_event. cbn. by rewrite <- app_assoc. Qed.

(** A byte is given to the line as soon as the line can take it: it is polled until then,
    and written once; the loop ends when the line becomes free. *)
Theorem serial_write_spec p _port c n fuel :
  in_word 8 c -> (n < fuel)%nat -> busy p (u16 (_port + REG_LINE_STATUS)) n ->
  serial_write fuel _port c p =
    Ok (tt, mkPorts (device p) (trace p ++ replicate (S n) (In (u16 (_port + REG_LINE_STATUS))) ++
                                [Out (u16 _port) c])).
Proof.
  intros Hc Hf Hbusy. unfold serial_write. set (port := u16 (_port + REG_LINE_STATUS)) in *.
  rewrite (bind_run _ _ p tt (mkPorts (device p) (trace p ++ replicate (S n) (In port)))).
  - unfold outb, modify, add_event, REG_DATA. cbn [device trace]. rewrite Z.add_0_r, (wrap_small 8 c) by done.
    by rewrite <- app_assoc.
  - clear Hc. revert p n Hf Hbusy. induction fuel as [|fuel IH]; intros p n Hf Hbusy; [lia|].
    cbn [serial_wait]. unfold inb at 1. fold port.
    rewrite (bind_run _ _ p (u8 (device p (trace p) port)) (add_event (In port) p)) by done.
    pose proof (Hbusy 0%nat ltac:(lia)) as H0. cbn [replicate] in H0. rewrite app_nil_r in H0. rewrite H0.
    destruct n as [|n]; cbn [bool_decide].
    + rewrite bool_decide_false by lia. done.
    + rewrite bool_decide_true by lia. rewrite (IH _ n); [|lia|].
      * unfold add_event. cbn [device trace]. by rewrite <- app_assoc.
      * intros k Hk. unfold add_event. cbn [device trace]. rewrite <- app_assoc.
        pose proof (Hbusy (S k) ltac:(lia)) as H. cbn [replicate] in H. cbn [app]. rewrite H.
        apply bool_decide_ext. lia.
Qed.

(** The timer gets a divisor of 16 bits, low byte first: it is the quotient of the clock by
    the frequency exactly when that is at least 19; [Timer_init 1] of the kernel asks for
    1 Hz and sets 88. *)
Theorem Timer_init_spec p frequency :
  0 < frequency < 2 ^ 32 ->
  exists l h,
    Timer_init frequency p = Ok (tt, mkPorts (device p) (trace p ++ [Out 0x43 0x36; Out 0x40 l; Out 0x40 h])) /\
    in_word 8 l /\ in_word 8 h /\ l + 256 * h = (1193180 / frequency) mod 2 ^ 16 /\
    (l + 256 * h = 1193180 / frequency <-> 19 <= frequency).
Proof.
  intros Hf. unfold Timer_init. rewrite (proj2 (Z.eqb_neq frequency 0)) by lia.
  set (d := u16 (1193180 / frequency)).
  assert (0 <= d < 65536) as Hd by (apply (wrap_range 16); done).
  assert (forall z, Z.land z 0xFF = z mod 256) as Hl by (intros z; by apply (Z.land_ones z 8)).
  assert (Z.shiftr d 8 = d / 256) as Hs by (by rewrite Z.shiftr_div_pow2).
  exists (d mod 256), (d / 256).
  pose proof (Z.div_mod d 256 ltac:(lia)). pose proof (Z.mod_pos_bound d 256 ltac:(lia)).
  assert (in_word 8 (d mod 256)) as Hw1 by (unfold in_word; lia).
  assert (in_word 8 (d / 256)) as Hw2 by (unfold in_word; lia).
  split_and!; [| | |unfold d, wrap in *; lia|..]; try done.
  - unfold outb. rewrite !bind_modify. unfold modify. do 2 f_equal.
    rewrite Hs, !Hl, (Z.mod_small (d / 256)) by lia. rewrite !(wrap_small 8 (d mod 256)), !(wrap_small 8 (d / 256)) by done.
    rewrite add_event_add. unfold add_event. cbn. by rewrite <- app_assoc.
  - replace (d mod 256 + 256 * (d / 256)) with d by lia. unfold d, wrap. split; intros Hq.
    + assert (1193180 / frequency < 65536) as Hlt by (rewrite <- Hq; by apply Z.mod_pos_bound).
      destruct (decide (19 <= frequency)); [done|exfalso].
      pose proof (Z.mul_succ_div_gt 1193180 frequency ltac:(lia)). nia.
    + apply Z.mod_small. split; [apply Z.div_pos; lia|]. apply Z.div_lt_upper_bound; lia.
Qed.

(** ** The masks of the controller *)

(** What the code relies on the controller for: once it is initialised, and until it is
    initialised again, reading a data port gives the mask written there last. *)
Definition pic_setup : list IoEvent :=
  [Out 0x20 0x11; Out 0xA0 0x11; Out 0x21 0x20; Out 0xA1 0x28; Out 0x21 4;
   Out 0xA1 2; Out 0x21 1; Out 0xA1 1; Out 0x21 0; Out 0xA1 0].

(** A command word with bit 4 starts an initialisation. *)
Definition starts_init (e : IoEvent) : bool :=
  match e with
  | Out p v => ((p =? 0x20) || (p =? 0xA0)) && Z.testbit v 4
  | In _ => false
  end.

Definition pic_ready (t : list IoEvent) : Prop :=
  exists t1 t2, t = t1 ++ pic_setup ++ t2 /\ forallb (fun e => negb (starts_init e)) t2 = true.

Definition pic_reads_back (d : list IoEvent -> Z -> Z) : Prop :=
  forall t port v, (port = 0x21 \/ port = 0xA1) -> pic_ready t ->
    last_out port t = Some v -> d t port = v.

(** The specification: a set of masked lines. *)
Inductive PicOp : Type :=
  | Mask (nb : Z)
  | Unmask (nb : Z)
  | Acknowledge (intNo : Z).

Definition pic_op (o : PicOp) : ST Ports unit :=
  match o with
  | Mask nb => mask nb
  | Unmask nb => unmask nb
  | Acknowledge intNo => acknowledge intNo
  end.

Definition apply_op (masked : Z -> bool) (o : PicOp) : Z -> bool :=
  match o with
  | Mask nb => fun i => if i =? nb then true else masked i
  | Unmask nb => fun i => if i =? nb then false else masked i
  | Acknowledge _ => masked
  end.

Definition op_ok (o : PicOp) : Prop :=
  match o with
  | Mask nb | Unmask nb => 0 <= nb < 16
  | Acknowledge intNo => in_word 8 intNo
  end.

(** The controller's side, of its own data sheet: the mask of lines 0 to 7 is the byte last
    written to port 0x21, line [i] at bit [i]; that of lines 8 to 15 is the byte last written
    to port 0xA1, line [i] at bit [i - 8]. *)
Definition line_masked (t : list IoEvent) (i : Z) : bool :=
  if i <? 8 then match last_out 0x21 t with Some v => Z.testbit v i | None => false end
  else match last_out 0xA1 t with Some v => Z.testbit v (i - 8) | None => false end.

Section pic.
Context (d : list IoEvent -> Z -> Z) (Hd : pic_reads_back d).
Implicit Types p : Ports.

Record pic_state (masked : Z -> bool) p : Prop := {
  ps_device : device p = d;
  ps_ready : pic_ready (trace p);
  ps_out1 : exists v, last_out PIC1_DATA (trace p) = Some v /\ in_word 8 v;
  ps_out2 : exists v, last_out PIC2_DATA (trace p) = Some v /\ in_word 8 v;
  ps_lines : forall i, 0 <= i < 16 -> line_masked (trace p) i = masked i;
}.

Lemma pic_ready_snoc t e : pic_ready t -> starts_init e = false -> pic_ready (t ++ [e]).
Proof.
  intros (t1 & t2 & -> & H2) He. exists t1, (t2 ++ [e]). rewrite <- !app_assoc. split; [done|].
  rewrite forallb_app, H2. simpl. by rewrite He.
Qed.

Lemma last_out_snoc port t e :
  last_out port (t ++ [e]) =
  match e with Out p v => if p =? port then Some v else last_out port t | In _ => last_out port t end.
Proof. by rewrite last_out_app. Qed.

Lemma mask_port_cases i :
  0 <= i < 16 ->
  (i < 8 /\ mask_port i = (PIC1_DATA, i)) \/ (8 <= i /\ mask_port i = (PIC2_DATA, i - 8)).
Proof.
  intros Hi. unfold mask_port. destruct (Z.ltb_spec i 8); [by left|right].
  rewrite wrap_small; [done|unfold in_word; lia].
Qed.

(** The ports that the code chooses are the controller's. *)
Lemma line_masked_port t i :
  0 <= i < 16 ->
  line_masked t i =
  let '(port, nb) := mask_port i in match last_out port t with Some v => Z.testbit v nb | None => false end.
Proof.
  intros Hi. unfold line_masked.
  destruct (mask_port_cases i Hi) as [[Hi8 ->] | [Hi8 ->]].
  - by rewrite (proj2 (Z.ltb_lt i 8)) by lia.
  - by rewrite (proj2 (Z.ltb_ge i 8)) by lia.
Qed.

(** A byte written to the data port of the half that [nb] is in. *)
Lemma line_masked_write t port n v i nb :
  0 <= i < 16 -> 0 <= nb < 16 -> mask_port nb = (port, n) ->
  line_masked ((t ++ [In port]) ++ [Out port v]) i =
  if bool_decide (i / 8 = nb / 8) then Z.testbit v (i mod 8) else line_masked t i.
Proof.
  intros Hi Hnb E. rewrite !line_masked_port by lia.
  destruct (mask_port_cases i Hi) as [[Hi8 ->] | [Hi8 ->]];
    destruct (mask_port_cases nb Hnb) as [[Hn8 E'] | [Hn8 E']]; rewrite E' in E; injection E as <- <-;
    rewrite last_out_snoc; cbn [Z.eqb PIC1_DATA PIC2_DATA Pos.eqb].
  - rewrite bool_decide_true by (rewrite !Z.div_small by lia; done). by rewrite Z.mod_small by lia.
  - rewrite bool_decide_false.
    2:{ rewrite (Z.div_small i) by lia. intros E0. apply eq_sym, Z.div_small_iff in E0; lia. }
    by rewrite last_out_snoc.
  - rewrite bool_decide_false.
    2:{ rewrite (Z.div_small nb) by lia. intros E0. apply Z.div_small_iff in E0; lia. }
    by rewrite last_out_snoc.
  - rewrite bool_decide_true.
    2:{ rewrite <- (Z.div_unique i 8 1 (i - 8)), <- (Z.div_unique nb 8 1 (nb - 8)) by lia. done. }
    by rewrite <- (Z.mod_unique i 8 1 (i - 8)) by lia.
Qed.

Lemma updateMask_run masked p nb op (f : bool) :
  pic_state masked p -> 0 <= nb < 16 ->
  (forall x k i, 0 <= k < 8 -> 0 <= i < 8 -> Z.testbit (op x (Z.shiftl 1 k)) i = if i =? k then f else Z.testbit x i) ->
  Runs (updateMask nb op) p (fun _ p' => pic_state (fun i => if i =? nb then f else masked i) p').
Proof.
  intros [Hdev Hready H1 H2 Hlines] Hnb Hop.
  assert (exists port n v, mask_port nb = (port, n) /\ 0 <= n < 8 /\ n = nb mod 8 /\
            (port = PIC1_DATA \/ port = PIC2_DATA) /\ last_out port (trace p) = Some v /\ in_word 8 v)
    as (port & n & v & E & Hn & Hnm & Hport & Hlast & Hv).
  { destruct (mask_port_cases nb Hnb) as [[Hn8 E] | [Hn8 E]].
    - destruct H1 as (v & ? & ?). exists PIC1_DATA, nb, v. split_and!; try done; try lia. by rewrite Z.mod_small by lia.
    - destruct H2 as (v & ? & ?). exists PIC2_DATA, (nb - 8), v. split_and!; try done; try lia. apply (Z.mod_unique nb 8 1); lia. }
  unfold updateMask. rewrite E.
  assert (u16 port = port) as Hp by (by destruct Hport as [-> | ->]).
  unfold inb. run_steps. rewrite Hp, Hdev, (Hd _ port v) by done. rewrite (wrap_small 8 v) by done.
  rewrite (proj2 (Z.leb_gt 32 n)) by lia. unfold outb. run_steps. rewrite Hp.
  set (w := u8 (op v (Z.shiftl 1 n))).
  assert (in_word 8 w) as Hw by (by apply wrap_range).
  split; cbn [device trace add_event].
  - done.
  - assert (starts_init (Out port w) = false) as Hs by (by destruct Hport as [-> | ->]).
    apply pic_ready_snoc; [|exact Hs]. by apply pic_ready_snoc.
  - rewrite last_out_snoc. destruct (port =? PIC1_DATA); [by exists w|]. by rewrite last_out_snoc.
  - rewrite last_out_snoc. destruct (port =? PIC2_DATA); [by exists w|]. by rewrite last_out_snoc.
  - intros i Hi. rewrite (line_masked_write _ port n w i nb) by done.
    case_bool_decide as Hhalf.
    + pose proof (Z.mod_pos_bound i 8 ltac:(lia)).
      unfold w. rewrite wrap_testbit by lia. rewrite (proj2 (Z.ltb_lt _ 8)) by lia. simpl.
      rewrite Hop by lia. rewrite Hnm.
      pose proof (Z.mod_pos_bound nb 8 ltac:(lia)).
      pose proof (Z.div_mod i 8 ltac:(lia)). pose proof (Z.div_mod nb 8 ltac:(lia)).
      destruct (Z.eqb_spec i nb) as [->|Hne].
      * by rewrite Z.eqb_refl.
      * rewrite (proj2 (Z.eqb_neq (i mod 8) (nb mod 8))) by lia.
        rewrite <- Hlines by done. rewrite !line_masked_port by lia.
        destruct (mask_port_cases i Hi) as [[Hi8 Ei] | [Hi8 Ei]]; rewrite Ei;
        destruct (mask_port_cases nb Hnb) as [[Hn8 En] | [Hn8 En]]; rewrite En in E; injection E as <- <-;
          rewrite ?Hlast.
        -- by rewrite Z.mod_small by lia.
        -- exfalso. lia.
        -- exfalso. lia.
        -- by rewrite <- (Z.mod_unique i 8 1 (i - 8)) by lia.
    + rewrite (proj2 (Z.eqb_neq i nb)) by (by intros ->). by apply Hlines.
Qed.

Lemma acknowledge_run masked p intNo :
  pic_state masked p -> Runs (acknowledge intNo) p (fun _ p' => pic_state masked p').
Proof.
  intros Hp. assert (forall c, c = PIC1_CMD \/ c = PIC2_CMD -> forall p, pic_state masked p ->
    Runs (outb c 0x20) p (fun _ p' => pic_state masked p')) as Hout.
  { clear p Hp. intros c Hc p [Hdev Hready H1 H2 Hlines]. unfold outb. run_steps.
    split; cbn [device trace add_event]; [done| | | |].
    - apply pic_ready_snoc; [done|]. by destruct Hc as [-> | ->].
    - rewrite last_out_snoc. by destruct Hc as [-> | ->].
    - rewrite last_out_snoc. by destruct Hc as [-> | ->].
    - intros i Hi. rewrite <- Hlines by done. rewrite !line_masked_port by lia.
      destruct (mask_port_cases i Hi) as [[_ ->] | [_ ->]]; rewrite last_out_snoc; by destruct Hc as [-> | ->]. }
  unfold acknowledge. destruct (intNo <=? 47); [|done]. apply Runs_bind.
  destruct (40 <=? intNo).
  - eapply Runs_mono; [by apply (Hout PIC2_CMD); [right|]|]. intros [] p' Hp'. apply Hout; [by left|done].
  - apply Runs_ret. apply Hout; [by left|done].
Qed.

Lemma mask_bits x k i :
  0 <= k < 8 -> 0 <= i < 8 ->
  Z.testbit (Z.lor x (Z.shiftl 1 k)) i = if i =? k then true else Z.testbit x i.
Proof.
  intros Hk Hi. rewrite Z.lor_spec, Z.shiftl_1_l, Z.pow2_bits_eqb, Z.eqb_sym by lia.
  destruct (i =? k); [apply orb_true_r|apply orb_false_r].
Qed.

Lemma unmask_bits x k i :
  0 <= k < 8 -> 0 <= i < 8 ->
  Z.testbit (Z.land x (Z.lnot (Z.shiftl 1 k))) i = if i =? k then false else Z.testbit x i.
Proof.
  intros Hk Hi. rewrite Z.land_spec, Z.lnot_spec, Z.shiftl_1_l, Z.pow2_bits_eqb, Z.eqb_sym by lia.
  destruct (i =? k); [apply andb_false_r|apply andb_true_r].
Qed.

Lemma pic_op_run masked p o :
  pic_state masked p -> op_ok o -> Runs (pic_op o) p (fun _ p' => pic_state (apply_op masked o) p').
Proof.
  intros Hp Ho. destruct o as [nb|nb|intNo]; cbn [pic_op apply_op].
  - apply updateMask_run; [done|done|]. intros. by apply mask_bits.
  - apply updateMask_run; [done|done|]. intros. by apply unmask_bits.
  - by apply acknowledge_run.
Qed.

Lemma initPic_run p :
  device p = d -> initPic p = Ok (tt, mkPorts d (trace p ++ pic_setup)) /\
                  pic_state (fun _ => false) (mkPorts d (trace p ++ pic_setup)).
Proof.
  intros Hdev. split.
  - unfold initPic, outb. rewrite !bind_modify. unfold modify, add_event. cbn [device trace].
    rewrite <- !app_assoc, Hdev. done.
  - split; cbn [device trace].
    + done.
    + exists (trace p), []. by rewrite app_nil_r.
    + rewrite last_out_app. by exists 0.
    + rewrite last_out_app. by exists 0.
    + intros i Hi. rewrite !line_masked_port by lia.
      destruct (mask_port_cases i Hi) as [[_ ->] | [_ ->]]; rewrite last_out_app; cbn; by rewrite Z.bits_0.
Qed.

(** C38. The controller implements a set of masked lines: after its initialisation, any sequence
    of [mask], [unmask] and acknowledgements leaves a line masked exactly when the last of
    [mask] and [unmask] for that line was [mask], and every other line as it was. *)
Theorem pic_refines_set p ops :
  device p = d -> Forall op_ok ops ->
  Runs (initPic ;; for_each ops pic_op) p (fun _ p' =>
    forall i, 0 <= i < 16 -> line_masked (trace p') i = fold_left apply_op ops (fun _ => false) i).
Proof.
  intros Hdev Hops. apply Runs_bind. destruct (initPic_run p Hdev) as [E Hp].
  eapply Runs_of_ok; [exact E|]. revert Hp. generalize (mkPorts d (trace p ++ pic_setup)). clear p Hdev E.
  generalize (fun _ : Z => false). induction Hops as [|o ops Ho Hops IH]; intros masked p Hp.
  - apply Runs_ret. apply Hp.
  - cbn [for_each fold_left]. apply Runs_bind. eapply Runs_mono; [by apply (pic_op_run masked)|].
    intros [] p' Hp'. by apply IH.
Qed.
End pic.

(** ** The theorems at work *)

(** A controller that answers the masks, and a serial line that is free *)
Definition example_device (t : list IoEvent) (port : Z) : Z :=
  if port =? 0x3fd then 0x20 else default 0 (last_out port t).

Lemma serial_write_spec_witness :
  serial_write 1 0x3f8 65 (mkPorts example_device []) =
  Ok (tt, mkPorts example_device [In 0x3fd; Out 0x3f8 65]).
Proof.
  apply (serial_write_spec (mkPorts example_device []) 0x3f8 65 0 1); [done|lia|].
  intros k Hk. replace k with 0%nat by lia. done.
Defined.

Lemma Timer_init_spec_witness :
  exists l h, Timer_init 1 (mkPorts example_device []) =
    Ok (tt, mkPorts example_device [Out 0x43 0x36; Out 0x40 l; Out 0x40 h]) /\ l + 256 * h = 13532.
Proof.
  destruct (Timer_init_spec (mkPorts example_device []) 1 ltac:(lia)) as (l & h & E & _ & _ & Hq & _).
  by exists l, h.
Defined.

Lemma pic_refines_set_witness :
  Runs (initPic ;; for_each [Mask 0; Acknowledge 40; Mask 9; Unmask 0] pic_op) (mkPorts example_device [])
    (fun _ p' => line_masked (trace p') 0 = false /\ line_masked (trace p') 9 = true).
Proof.
  eapply Runs_mono.
  - apply (pic_refines_set example_device); [|done|by repeat constructor].
    intros t port v Hport _ Hlast. unfold example_device. rewrite Hlast. by destruct Hport as [-> | ->].
  - intros [] p' H. split; by rewrite H.
Defined.
