(* ===== verification/Screen.v ===== *)
(** * The text screen: [Screen.hpp], [Screen.cpp]

    The video memory is the list of its 16-bit cells, 25 rows of 80, of which the code uses
    the first 24.  Its operations run under the screen's spin lock, which is modelled with the
    processor's interrupt flag ([Interrupts]); the controller of the cursor is behind the ports
    ([Devices]). *)

From Stdlib Require Import ZArith Lia.
From stdpp Require Import list numbers.
From S2P Require Import Prelude Words Interrupts Devices.

Inductive Color : Type :=
  | Black | Blue | Green | Cyan | Red | Magenta | Brown | LightGrey
  | DarkGrey | LightBlue | LightGreen | LightCyan | LightRed | LightMagenta | LightBrown | White.

Definition color_value (c : Color) : Z :=
  match c with
  | Black => 0 | Blue => 1 | Green => 2 | Cyan => 3 | Red => 4 | Magenta => 5 | Brown => 6
  | LightGrey => 7 | DarkGrey => 8 | LightBlue => 9 | LightGreen => 10 | LightCyan => 11
  | LightRed => 12 | LightMagenta => 13 | LightBrown => 14 | White => 15
  end.

Record Position : Type := mkPosition { x : Z; y : Z }.

Record Screen : Type := mkScreen {
  screen_cpu : Cpu;
  _lock : SpinLock;
  cells : list Z;             (** the video memory *)
  _cursor : Position;
  ports : Ports;
}.

Definition set_lock_state (l : Cpu * SpinLock) (s : Screen) : Screen :=
  mkScreen l.1 l.2 (cells s) (_cursor s) (ports s).
Definition set_cells (m : list Z) (s : Screen) : Screen :=
  mkScreen (screen_cpu s) (_lock s) m (_cursor s) (ports s).
Definition set_cursor (p : Position) (s : Screen) : Screen :=
  mkScreen (screen_cpu s) (_lock s) (cells s) p (ports s).
Definition set_ports (p : Ports) (s : Screen) : Screen :=
  mkScreen (screen_cpu s) (_lock s) (cells s) (_cursor s) p.
Definition outb (port value : Z) : ST Screen unit := zoom ports set_ports (Devices.outb port value).

Definition columns : Z := 80.
Definition rows : Z := 24.

(** [{ auto _ = _lock.getScoped(); m }] *)
Definition on_lock (m : ST (Cpu * SpinLock) unit) : ST Screen unit :=
  zoom (fun s => (screen_cpu s, _lock s)) set_lock_state m.
Definition locked {A} (m : ST Screen A) : ST Screen A :=
  with_lock (fun _ : unit => on_lock spin_lock) (fun _ => on_lock spin_unlock) tt m.

(** A byte as a [char], which is signed. *)
Definition to_char (byte : Z) : Z := wrap_signed 8 byte.

(** [c | fg << 8 | bg << 12], the [char] promoted to [int]. *)
Definition cell_value (byte : Z) (fg bg : Color) : Z :=
  u16 (Z.lor (Z.lor (to_char byte) (Z.shiftl (color_value fg) 8)) (Z.shiftl (color_value bg) 12)).

(** [putChar] at a position *)
Definition putChar_at (pos : Position) (byte : Z) (fg bg : Color) : ST Screen unit :=
  assertion ((x pos <? 80) && (0 <=? x pos)) "pos.x < 80 && pos.x >= 0" ;;
  assertion ((y pos <? 24) && (0 <=? y pos)) "pos.y < 24 && pos.y >= 0" ;;
  modify (fun s => set_cells (<[Z.to_nat (y pos * 80 + x pos) := cell_value byte fg bg]> (cells s)) s).

Definition clear : ST Screen unit :=
  locked (modify (fun s => set_cursor (mkPosition 0 0)
    (set_cells (replicate 2000 0 ++ drop 2000 (cells s)) s))).

Definition updateCursor : ST Screen unit :=
  locked (
    s ← read_state;
    let cursorLocation := u16 (y (_cursor s) * 80 + x (_cursor s)) in
    outb 0x3D4 14 ;;
    outb 0x3D5 (Z.shiftr cursorLocation 8) ;;
    outb 0x3D4 15 ;;
    outb 0x3D5 cursorLocation).

(** [memcpy] of [n] cells from cell [src] of the memory to its cell [dst]: ISO C leaves it
    undefined for regions that overlap. *)
Definition memcpy (dst src n : nat) (m : list Z) : option (list Z) :=
  if bool_decide (dst < src + n /\ src < dst + n)%nat then None
  else Some (take dst m ++ take n (drop src m) ++ drop (dst + n) m).

(** The undefined behaviour of the copy *)
Definition overlapping : failure := Undefined "memcpy of regions that overlap".

(** Rows 1 to 24 are copied over rows 0 to 23. *)
Definition scrollOneLine : ST Screen unit :=
  s ← read_state;
  m ← from_option (memcpy 0 80 1920 (cells s)) overlapping;
  modify (set_cells m) ;;
  modify (fun s => set_cells (take 1920 (cells s) ++ replicate 80 0 ++ drop 2000 (cells s)) s).

Definition newline (p : Position) : Position := mkPosition 0 (y p + 1).

(** The [switch] of [putChar] *)
Definition putChar_switch (c : Z) (fg bg : Color) : ST Screen unit :=
  s ← read_state;
  let p := _cursor s in
  if c =? 10 then modify (set_cursor (newline p))
  else if c =? 13 then modify (set_cursor (mkPosition 0 (y p)))
  else if c =? 8 then
    let p := if x p =? 0 then p else mkPosition (x p - 1) (y p) in
    modify (set_cursor p) ;;
    putChar_at p 0 fg bg
  else if c =? 9 then
    let nx := x p + (8 - Z.rem (x p) 8) in
    modify (set_cursor (if 80 <=? nx then newline p else mkPosition nx (y p)))
  else
    putChar_at p c fg bg ;;
    let nx := x p + 1 in
    modify (set_cursor (if nx =? 80 then newline p else mkPosition nx (y p))).

Definition putChar_body (c : Z) (fg bg : Color) : ST Screen unit :=
  putChar_switch c fg bg ;;
  s ← read_state;
  (if y (_cursor s) =? 24 then
     scrollOneLine ;;
     modify (fun s => set_cursor (mkPosition (x (_cursor s)) (y (_cursor s) - 1)) s)
   else mret tt) ;;
  s ← read_state;
  assertion ((x (_cursor s) <? 80) && (0 <=? x (_cursor s))) "_cursor.x < 80 && _cursor.x >= 0" ;;
  assertion ((y (_cursor s) <? 24) && (0 <=? y (_cursor s))) "_cursor.y < 24 && _cursor.y >= 0".

Definition putChar (c : Z) (fg bg : Color) : ST Screen unit := locked (putChar_body c fg bg).

(** [putString] with a size; the other one stops at a zero byte. *)
Definition putString (s : list Z) (fg bg : Color) : ST Screen unit :=
  for_each s (fun c => putChar c fg bg) ;;
  updateCursor.

(** ** The screen is safe to print on *)

(** The lock is free and the cursor is on the screen. *)
Record screen_wf (s : Screen) : Prop := {
  wf_lock : _lock s = None;
  wf_count : in_word 8 (g_lockCount (screen_cpu s));
  wf_cells : length (cells s) = 2000%nat;
  wf_x : 0 <= x (_cursor s) < 80;
  wf_y : 0 <= y (_cursor s) < 24;
}.

Lemma locked_run {A} (m : ST Screen A) s (Q : A -> Screen -> Prop) :
  _lock s = None -> in_word 8 (g_lockCount (screen_cpu s)) ->
  Runs m (set_lock_state (mkCpu false (u8 (g_lockCount (screen_cpu s) + 1)),
                          Some (rflags_if (screen_cpu s))) s)
    (fun a s' => screen_cpu s' = mkCpu false (u8 (g_lockCount (screen_cpu s) + 1)) /\
                 _lock s' = Some (rflags_if (screen_cpu s)) /\
                 Q a (set_lock_state (screen_cpu s, None) s')) ->
  Runs (locked m) s Q.
Proof.
  intros Hl Hc Hm. unfold locked, with_lock, ScopedLock, ScopedLock_destroy. run_steps.
  destruct s as [cpu lock m0 cur out]. cbn in Hl, Hc. subst lock.
  eapply Runs_of_ok; [unfold on_lock, zoom; cbn [screen_cpu _lock]; by rewrite spin_lock_run|].
  run_steps. eapply Runs_mono; [exact Hm|]. intros a s' (Hcpu & Hlock & HQ). run_steps. cbn [dead scoped_lock].
  eapply Runs_of_ok.
  { unfold on_lock, zoom. rewrite Hcpu, Hlock, spin_unlock_run by (cbn; apply andb_false_r). done. }
  run_steps. cbn [screen_cpu] in *. rewrite orb_false_r.
  replace (u8 (u8 (g_lockCount cpu + 1) - 1)) with (g_lockCount cpu); [by destruct cpu|].
  unfold wrap. rewrite Zminus_mod_idemp_l, Z.add_simpl_r. by rewrite Z.mod_small.
Qed.

Lemma locked_fails {A} (m : ST Screen A) s e :
  _lock s = None ->
  m (set_lock_state (mkCpu false (u8 (g_lockCount (screen_cpu s) + 1)), Some (rflags_if (screen_cpu s))) s) = Err e ->
  locked m s = Err e.
Proof.
  intros Hl Hm. unfold locked, with_lock, ScopedLock. destruct s as [cpu lock m0 cur out]. cbn in Hl. subst lock.
  erewrite bind_run.
  2:{ erewrite bind_run; [done|]. unfold on_lock, zoom. cbn [screen_cpu _lock]. by rewrite spin_lock_run. }
  by apply bind_fail.
Qed.

(** ** What the screen promises: a sheet of paper

    The sheet is numbered cell by cell, 80 to a line; every character is typed at a position of
    the sheet and moves that position.  The screen shows the sheet's first 24 lines. *)
Record Sheet : Type := mkSheet { ink : Z -> Z; place : Z }.

Definition type_char (fg bg : Color) (t : Sheet) (c : Z) : Sheet :=
  let k := place t in
  if c =? 10 then mkSheet (ink t) (80 * (k / 80) + 80)
  else if c =? 13 then mkSheet (ink t) (80 * (k / 80))
  else if c =? 8 then
    let k := if k mod 80 =? 0 then k else k - 1 in
    mkSheet (fun j => if j =? k then cell_value 0 fg bg else ink t j) k
  else if c =? 9 then mkSheet (ink t) (8 * (k / 8) + 8)
  else mkSheet (fun j => if j =? k then cell_value c fg bg else ink t j) (k + 1).

Record shows (t : Sheet) (s : Screen) : Prop := {
  shows_wf : screen_wf s;
  shows_cells : forall i, 0 <= i < 2000 -> cells s !! Z.to_nat i = Some (ink t i);
  shows_place : place t = 80 * y (_cursor s) + x (_cursor s);
}.

(** The text stays on the 24 lines: no character of it moves the position behind them. *)
Fixpoint stays (fg bg : Color) (t : Sheet) (l : list Z) : bool :=
  match l with
  | [] => true
  | c :: l => let t' := type_char fg bg t c in (place t' <? 80 * 24) && stays fg bg t' l
  end.

Lemma stays_app fg bg t a b :
  stays fg bg t (a ++ b) = stays fg bg t a && stays fg bg (fold_left (type_char fg bg) a t) b.
Proof. revert t. induction a as [|c a IH]; intros t; [done|]. cbn. by rewrite IH, andb_assoc. Qed.

(** The same while the lock is held and before the screen is scrolled. *)
Record shows_inside (t : Sheet) (s : Screen) : Prop := {
  in_length : length (cells s) = 2000%nat;
  in_x : 0 <= x (_cursor s) < 80;
  in_y : 0 <= y (_cursor s) <= 24;
  in_cells : forall i, 0 <= i < 2000 -> cells s !! Z.to_nat i = Some (ink t i);
  in_place : place t = 80 * y (_cursor s) + x (_cursor s);
}.

(** The registers and the log of the ports, which [putChar] leaves alone. *)
Definition same_frame (s s' : Screen) : Prop :=
  screen_cpu s' = screen_cpu s /\ _lock s' = _lock s /\ ports s' = ports s.

(** The condition [v < bound && v >= 0] of the assertions. *)
Ltac range_check := apply andb_true_intro; split; [apply Z.ltb_lt|apply Z.leb_le]; cbn; lia.

Lemma putChar_at_run t s p c fg bg :
  shows_inside t s -> 0 <= x p < 80 -> 0 <= y p < 24 ->
  let k := 80 * y p + x p in
  exists m, putChar_at p c fg bg s = Ok (tt, set_cells m s) /\
    length m = 2000%nat /\
    (forall i, 0 <= i < 2000 -> m !! Z.to_nat i =
       Some (if i =? k then cell_value c fg bg else ink t i)).
Proof.
  intros Hs Hx Hy k. unfold putChar_at.
  rewrite bind_assertion by range_check.
  rewrite bind_assertion by range_check.
  eexists. split; [done|]. destruct Hs as [Hlen _ _ Hcells _].
  split; [by rewrite length_insert|]. intros i Hi.
  destruct (Z.eqb_spec i k) as [E|E].
  - replace i with (y p * 80 + x p) by lia. rewrite list_lookup_insert_eq by lia. done.
  - rewrite list_lookup_insert_ne by lia. by apply Hcells.
Qed.

Lemma putChar_switch_run t s c fg bg :
  shows_inside t s -> y (_cursor s) < 24 ->
  Runs (putChar_switch c fg bg) s (fun _ s' =>
    shows_inside (type_char fg bg t c) s' /\ same_frame s s').
Proof.
  intros Hs Hy24. pose proof Hs as [Hlen Hx Hy Hcells Hplace].
  assert (place t / 80 = y (_cursor s)) as Hdiv
    by (symmetry; apply (Z.div_unique _ 80 _ (x (_cursor s))); lia).
  assert (place t mod 80 = x (_cursor s)) as Hmod
    by (symmetry; apply (Z.mod_unique _ 80 (y (_cursor s))); lia).
  unfold putChar_switch, type_char. apply Runs_bind, Runs_read. cbv zeta.
  destruct (Z.eqb_spec c 10) as [->|]; [|destruct (Z.eqb_spec c 13) as [->|];
    [|destruct (Z.eqb_spec c 8) as [->|]; [|destruct (Z.eqb_spec c 9) as [->|]]]].
  - apply Runs_modify. split; [|done]. split; cbn; try done; lia.
  - apply Runs_modify. split; [|done]. split; cbn; try done; lia.
  - rewrite Hmod. apply Runs_bind, Runs_modify.
    set (p := if x (_cursor s) =? 0 then _ else _).
    assert (0 <= x p < 80 /\ y p = y (_cursor s) /\
            (if x (_cursor s) =? 0 then place t else place t - 1) = 80 * y p + x p)
      as (Hpx & Hpy & Hpk) by (unfold p; destruct (Z.eqb_spec (x (_cursor s)) 0); cbn; lia).
    rewrite Hpk.
    assert (shows_inside (mkSheet (ink t) (80 * y p + x p)) (set_cursor p s)) as Hs1
      by (split; cbn; try done; lia).
    destruct (putChar_at_run _ _ p 0 fg bg Hs1 Hpx ltac:(lia)) as (m & E & Hm & Hl).
    eapply Runs_of_ok; [exact E|]. split; [|done].
    split; cbn; try done; lia.
  - apply Runs_modify. split; [|done]. rewrite Z.rem_mod_nonneg by lia.
    assert (place t / 8 = 10 * y (_cursor s) + x (_cursor s) / 8) as Hdiv8.
    { rewrite Hplace. replace (80 * y (_cursor s) + x (_cursor s)) with
        (x (_cursor s) + 10 * y (_cursor s) * 8) by lia. rewrite Z.div_add by lia. lia. }
    pose proof (Z.div_mod (x (_cursor s)) 8 ltac:(lia)) as Hdm.
    pose proof (Z.mod_pos_bound (x (_cursor s)) 8 ltac:(lia)) as Hmb.
    set (q := x (_cursor s) / 8) in *. set (r := x (_cursor s) mod 8) in *.
    destruct (Z.leb_spec 80 (x (_cursor s) + (8 - r))); split; cbn; try done; try lia.
  - destruct (putChar_at_run _ _ (_cursor s) c fg bg Hs Hx ltac:(lia)) as (m & E & Hm & Hl).
    apply Runs_bind. eapply Runs_of_ok; [exact E|]. apply Runs_modify. split; [|done].
    rewrite Hplace. destruct (Z.eqb_spec (x (_cursor s) + 1) 80); split; cbn; try done; lia.
Qed.

(** Scrolling copies rows over each other: what it does is undefined. *)
Lemma scrollOneLine_fails s : scrollOneLine s = Err overlapping.
Proof. done. Qed.

(** What [m] does for a text that stays on the screen, and for another *)
Definition prints {A} (m : ST Screen A) (s : Screen) (stay : bool) (Q : A -> Screen -> Prop) : Prop :=
  if stay then Runs m s Q else m s = Err overlapping.

Lemma prints_in {A} (m : ST Screen A) s stay Q : prints m s stay Q -> stay = true -> Runs m s Q.
Proof. by intros H ->. Qed.

Lemma prints_out {A} (m : ST Screen A) s stay Q : prints m s stay Q -> stay = false -> m s = Err overlapping.
Proof. by intros H ->. Qed.

Lemma putChar_body_run t s c fg bg :
  shows_inside t s -> y (_cursor s) < 24 ->
  let t' := type_char fg bg t c in
  prints (putChar_body c fg bg) s (place t' <? 80 * 24) (fun _ s' =>
    shows_inside t' s' /\ y (_cursor s') < 24 /\ same_frame s s').
Proof.
  intros Hs Hy t'. pose proof (putChar_switch_run t s c fg bg Hs Hy) as Hswitch.
  unfold Runs in Hswitch. destruct (putChar_switch c fg bg s) as [[[] s1]|] eqn:E; [|done].
  destruct Hswitch as [Hs1 Hf]. fold t' in Hs1. pose proof Hs1 as [Hlen Hx Hy1 Hcells Hplace].
  unfold prints, Runs, putChar_body. rewrite !(bind_run _ _ _ _ _ E), !bind_read.
  destruct (Z.ltb_spec (place t') (80 * 24)).
  - rewrite (proj2 (Z.eqb_neq _ _)) by lia. change (Runs (A:=unit) (mret tt ;; s ← read_state;
      assertion ((x (_cursor s) <? 80) && (0 <=? x (_cursor s))) "_cursor.x < 80 && _cursor.x >= 0" ;;
      assertion ((y (_cursor s) <? 24) && (0 <=? y (_cursor s))) "_cursor.y < 24 && _cursor.y >= 0") s1
      (fun _ s' => shows_inside t' s' /\ y (_cursor s') < 24 /\ same_frame s s')).
    run_steps; [range_check|range_check|]. split_and!; [done|lia|done].
  - rewrite (proj2 (Z.eqb_eq _ _)) by lia. by rewrite !(bind_fail _ _ _ overlapping).
Qed.

Lemma shows_inside_of t s l :
  shows t s -> shows_inside t (set_lock_state l s) /\ y (_cursor (set_lock_state l s)) < 24.
Proof. intros [[? ? ? ? ?] ? ?]. split; [split; cbn; try done; lia|cbn; lia]. Qed.

Lemma shows_of_inside t s cpu :
  in_word 8 (g_lockCount cpu) -> shows_inside t s -> y (_cursor s) < 24 ->
  shows t (set_lock_state (cpu, None) s).
Proof. intros Hc [? ? ? ? ?] ?. split; cbn; try done. split; cbn; try done; lia. Qed.

Lemma putChar_run t s c fg bg :
  shows t s ->
  let t' := type_char fg bg t c in
  prints (putChar c fg bg) s (place t' <? 80 * 24) (fun _ s' => shows t' s' /\ same_frame s s').
Proof.
  intros Hs t'. pose proof (shows_wf _ _ Hs) as [Hl Hc _ _ _].
  set (l := (mkCpu false (u8 (g_lockCount (screen_cpu s) + 1)), Some (rflags_if (screen_cpu s)))).
  destruct (shows_inside_of t s l Hs) as [Hin Hy].
  pose proof (putChar_body_run t (set_lock_state l s) c fg bg Hin Hy) as Hbody. fold t' in Hbody.
  unfold prints in *. destruct (place t' <? 80 * 24).
  - apply locked_run; [done|done|]. eapply Runs_mono; [exact Hbody|].
    intros [] s' (Hs' & Hy' & E1 & E2 & E3). split_and!; [done|done| |].
    + by apply shows_of_inside.
    + by split_and!; cbn.
  - by apply locked_fails.
Qed.

(** The four bytes that tell the controller the cursor is at [k]. *)
Definition told (k : Z) (p : Ports) : Ports :=
  mkPorts (device p) (trace p ++ [Out 0x3D4 14; Out 0x3D5 (k / 256); Out 0x3D4 15; Out 0x3D5 (k mod 256)]).

Lemma updateCursor_run t s :
  shows t s ->
  let k := y (_cursor s) * 80 + x (_cursor s) in
  Runs updateCursor s (fun _ s' => shows t s' /\
    screen_cpu s' = screen_cpu s /\ _cursor s' = _cursor s /\ cells s' = cells s /\
    ports s' = told k (ports s)).
Proof.
  intros Hs k. pose proof Hs as [[Hl Hc Hlen Hx Hy] ? ?].
  pose proof (Z.div_mod k 256 ltac:(lia)). pose proof (Z.mod_pos_bound k 256 ltac:(lia)).
  apply locked_run; [done|done|]. run_steps.
  assert (forall c v s1, 0 <= c < 65536 -> outb c v s1 =
    Ok (tt, set_ports (add_event (Out c (u8 v)) (ports s1)) s1)) as Hout.
  { intros c v s1 Hc1. unfold outb, zoom, Devices.outb, modify. by rewrite (wrap_small 16 c) by done. }
  cbv zeta. run_steps. do 3 (eapply Runs_of_ok; [by apply Hout|]; run_steps). eapply Runs_of_ok; [by apply Hout|].
  split_and!; [done|done|by split; cbn|done|done|done|].
  unfold told, add_event. cbn [ports set_ports set_lock_state device trace _cursor]. rewrite <- !app_assoc.
  cbn [app]. fold k. rewrite (wrap_small 16 k) by (unfold in_word; lia).
  rewrite Z.shiftr_div_pow2 by lia. change (2 ^ 8) with 256.
  rewrite (wrap_small 8 (k / 256)) by (unfold in_word; lia). done.
Qed.

(** The characters of a text, without the cursor's controller *)
Lemma putChars_run t s l fg bg :
  shows t s ->
  prints (for_each l (fun c => putChar c fg bg)) s (stays fg bg t l) (fun _ s' =>
    shows (fold_left (type_char fg bg) l t) s' /\ screen_cpu s' = screen_cpu s /\ ports s' = ports s).
Proof.
  revert t s. induction l as [|c l IH]; intros t s Hs; [done|]. cbn [stays for_each fold_left].
  pose proof (putChar_run t s c fg bg Hs) as Hc. unfold prints in *.
  destruct (place (type_char fg bg t c) <? 80 * 24); cbn [andb]; [|by apply bind_fail].
  unfold Runs in Hc. destruct (putChar c fg bg s) as [[[] s1]|] eqn:E; [|done].
  destruct Hc as (Hs1 & E1 & _ & E3). specialize (IH _ _ Hs1).
  unfold Runs. rewrite !(bind_run _ _ _ _ _ E).
  destruct (stays fg bg (type_char fg bg t c) l); [|done].
  eapply Runs_mono; [exact IH|]. intros [] s2 (Hs2 & F1 & F3). split_and!; [done|by rewrite F1|by rewrite F3].
Qed.

Lemma putString_run t s l fg bg :
  shows t s ->
  prints (putString l fg bg) s (stays fg bg t l) (fun _ s' =>
    let k := y (_cursor s') * 80 + x (_cursor s') in
    shows (fold_left (type_char fg bg) l t) s' /\ screen_cpu s' = screen_cpu s /\
    ports s' = told k (ports s)).
Proof.
  intros Hs. pose proof (putChars_run t s l fg bg Hs) as Hl. unfold prints, putString in *.
  destruct (stays fg bg t l); [|by apply bind_fail].
  apply Runs_bind. eapply Runs_mono; [exact Hl|].
  intros [] s1 (Hs1 & E1 & E3). eapply Runs_mono; [by apply (updateCursor_run _ _ Hs1)|].
  intros [] s2 (Hs2 & F1 & F2 & F3 & F4). cbv zeta.
  split_and!; [done|by rewrite F1|by rewrite F4, F2, E3].
Qed.

(** C30. Printing a text, whatever its bytes are, control characters included: while it stays on the
    24 lines, its characters are typed one after the other at the cursor and every cell of the
    screen is the sheet's, nothing having moved; the lock is released, the interrupt flag is as
    found and the controller is told the cursor's place in two bytes.  The first character that
    moves behind the last line scrolls the screen by a copy of overlapping rows, which is
    undefined, and nothing short of that fails. *)
Theorem putString_refines t s l fg bg :
  shows t s ->
  prints (putString l fg bg) s (stays fg bg t l) (fun _ s' =>
    shows (fold_left (type_char fg bg) l t) s' /\
    screen_cpu s' = screen_cpu s /\
    exists hi lo, ports s' = mkPorts (device (ports s))
        (trace (ports s) ++ [Out 0x3D4 14; Out 0x3D5 hi; Out 0x3D4 15; Out 0x3D5 lo]) /\
      in_word 8 hi /\ in_word 8 lo /\ 256 * hi + lo = place (fold_left (type_char fg bg) l t)).
Proof.
  intros Hs. pose proof (putString_run t s l fg bg Hs) as Hrun. unfold prints in *.
  destruct (stays fg bg t l); [|done]. eapply Runs_mono; [exact Hrun|].
  intros [] s' (Hs' & E1 & E2). cbv zeta in E2. split_and!; [done|done|].
  pose proof Hs' as [[_ _ _ Hx Hy] _ Hp]. rewrite Hp.
  set (k := y (_cursor s') * 80 + x (_cursor s')) in *.
  pose proof (Z.div_mod k 256 ltac:(lia)). pose proof (Z.mod_pos_bound k 256 ltac:(lia)).
  exists (k / 256), (k mod 256). unfold in_word. split_and!; [done|..]; lia.
Qed.

(** [clear] empties the screen and puts the cursor in the corner. *)
Lemma clear_run s :
  _lock s = None -> in_word 8 (g_lockCount (screen_cpu s)) -> length (cells s) = 2000%nat ->
  Runs clear s (fun _ s' => shows (mkSheet (fun _ => 0) 0) s' /\ screen_cpu s' = screen_cpu s).
Proof.
  intros Hl Hc Hlen. apply locked_run; [done|done|]. run_steps. split_and!; [done|done| |done].
  split; cbn -[replicate]; try done.
  - split; cbn -[replicate]; try done; try lia. rewrite length_app, length_replicate, length_drop. lia.
  - intros i Hi. rewrite lookup_app_l by (rewrite length_replicate; lia).
    by rewrite lookup_replicate_2 by lia.
Qed.
(** A byte of 0x80 or above is a negative [char]: it fills the attribute byte as well, and
    the colours that were asked for are lost. *)
Theorem high_byte_loses_colour c fg bg :
  128 <= c < 256 -> cell_value c fg bg = 0xff00 + c.
Proof.
  intros Hc. assert (to_char c = c - 256) as E.
  { unfold to_char, wrap_signed. change (2 ^ (8 - 1)) with 128. change (2 ^ 8) with 256.
    rewrite <- (Z.mod_add _ (-1)) by done. rewrite Z.mod_small; lia. }
  assert (c - 256 = Z.lor c (Z.shiftl (-1) 8)) as Es.
  { change (Z.shiftl (-1) 8) with (-256). rewrite <- Z.add_nocarry_lor; [lia|].
    change (-256) with (Z.lnot (Z.ones 8)). rewrite <- Z.ldiff_land.
    rewrite ldiff_ones_mul by done. change (2 ^ 8) with 256. by rewrite Z.div_small by lia. }
  assert (forall d, Z.lor (c - 256) (Z.shiftl d 8) = c - 256) as H.
  { intros d. rewrite Es, <- Z.lor_assoc, <- Z.shiftl_lor. by rewrite Z.lor_m1_l. }
  unfold cell_value. rewrite E, H.
  replace (Z.shiftl (color_value bg) 12) with (Z.shiftl (Z.shiftl (color_value bg) 4) 8)
    by (by rewrite Z.shiftl_shiftl).
  rewrite H. unfold wrap. change (2 ^ 16) with 65536.
  rewrite <- (Z.mod_add _ 1) by done. rewrite Z.mod_small; lia.
Qed.

(** ** A screen whose cursor stands on the last line but one *)
Definition blank_screen : Screen :=
  mkScreen (mkCpu true 0) None (replicate 2000 0) (mkPosition 40 22) (mkPorts (fun _ _ => 0) []).

(** The sheet it shows *)
Definition example_sheet : Sheet := mkSheet (fun _ => 0) 1800.

Lemma blank_screen_shows : shows example_sheet blank_screen.
Proof.
  split.
  - by split.
  - intros i Hi. apply lookup_replicate_2. lia.
  - done.
Qed.

Lemma putString_refines_witness :
  Runs (putString [72; 105; 8; 9; 13; 33] LightGrey Black) blank_screen (fun _ s' =>
    shows (fold_left (type_char LightGrey Black) [72; 105; 8; 9; 13; 33] example_sheet) s') /\
  putString [72; 10; 33; 10] LightGrey Black blank_screen = Err overlapping.
Proof.
  split.
  - refine (Runs_mono _ _ _ _ (prints_in _ _ _ _ (putString_refines _ _ [72; 105; 8; 9; 13; 33] LightGrey Black blank_screen_shows) _) _).
    + by vm_compute.
    + intros [] s' H. exact (proj1 H).
  - refine (prints_out _ _ _ _ (putString_refines _ _ [72; 10; 33; 10] LightGrey Black blank_screen_shows) _). by vm_compute.
Defined.

Lemma high_byte_loses_colour_witness : cell_value 0xe9 Red Green = 0xffe9.
Proof. by apply high_byte_loses_colour. Defined.
