(* ===== verification/Fs.v ===== *)
(** * The virtual file system: [Fs.hpp], [Fs.cpp], [defs.hpp], [stat.h] and the inodes and
      handles of [Cpio.cpp] and [FileManager.cpp]

    Inodes and handles are objects behind [std::shared_ptr]; a pointer is an integer, 0 for
    null.  Objects are never reused: one that is no longer referred to stays in the model's
    store and cannot be reached.  The classes that derive from [Inode] and [Handle] are the
    constructors of [body] and [Handle], and a virtual method is a function by cases.

    Strings and buffers are lists of bytes.  The terminal and the screen, which two of the
    handles use, are behind the class [Console]. *)

From Stdlib Require Import ZArith Lia Ascii.
From stdpp Require Import list numbers gmap strings.
From S2P Require Import Prelude Words.

Abbreviation str := (list Z).

(** The bytes of a literal. *)
Definition chars (s : string) : str := map (fun c => Z.of_nat (nat_of_ascii c)) (String.list_ascii_of_string s).

(** What a [const char*] to the bytes of [s] denotes: up to the first zero. *)
Fixpoint c_str (s : str) : str :=
  match s with
  | [] => []
  | c :: s' => if c =? 0 then [] else c :: c_str s'
  end.

Definition slash : Z := 47.

(** ** [defs.hpp] and [stat.h] *)
Definition MAX_SYMLINK_INDIRECTIONS : Z := 128.
Definition MAX_PATH_LENGTH : Z := 256.
Definition S_IFMT : Z := 0xf000.
Definition S_IFLNK : Z := 0xa000.
Definition S_IFREG : Z := 0x8000.
Definition S_IFDIR : Z := 0x4000.

(** ** Errors *)
Inductive IoError : Type :=
  | IoError_InvalidPath
  | IoError_NotFound
  | IoError_NotSeekable
  | IoError_NotReadable
  | IoError_NotWritable
  | IoError_NotADirectory
  | IoError_NotAFile.

Inductive IoExpected (A : Type) : Type :=
  | Value (a : A)
  | Unexpected (e : IoError).
Arguments Value {A} a.
Arguments Unexpected {A} e.

Inductive Whence : Type := Begin | Current | WhenceEnd.

Definition LookupOptions_None : Z := 0.
Definition LookupOptions_NoFollowSymlink : Z := 1.

(** ** Inodes and handles *)
Inductive body : Type :=
  | CpioFolderInode (children : list Z)
  | CpioFileInode (data : str).

(** [i_ino] is left out: nothing writes or reads it. *)
Record Inode : Type := mkInode {
  i_mode : Z;
  i_size : Z;
  i_name : str;
  i_body : body;
}.

(** [std::make_shared<CpioFolderInode>()] and [std::make_shared<CpioFileInode>()]: neither
    class has a constructor of its own, so the members are zero. *)
Definition new_folder : Inode := mkInode 0 0 [] (CpioFolderInode []).
Definition new_file : Inode := mkInode 0 0 [] (CpioFileInode []).

Definition set_i_mode (m : Z) (i : Inode) : Inode := mkInode m (i_size i) (i_name i) (i_body i).
Definition set_i_size (n : Z) (i : Inode) : Inode := mkInode (i_mode i) n (i_name i) (i_body i).
Definition set_i_name (s : str) (i : Inode) : Inode := mkInode (i_mode i) (i_size i) s (i_body i).
Definition set_i_body (b : body) (i : Inode) : Inode := mkInode (i_mode i) (i_size i) (i_name i) b.

Inductive Handle : Type :=
  | NullHandle
  | StdIn
  | StdOut
  | CpioFileHandle (_file _pos : Z).

Record FsState (C : Type) : Type := mkFs {
  inodes : gmap Z Inode;
  handles : gmap Z Handle;
  next_object : Z;         (** where the next object is made *)
  g_root : Z;              (** [g_rootSb->getRoot()], 0 when no root was set *)
  console : C;
}.
Arguments mkFs {C}.
Arguments inodes {C}.
Arguments handles {C}.
Arguments next_object {C}.
Arguments g_root {C}.
Arguments console {C}.

(** ** What the base classes answer where a class does not override the method *)
Definition Handle_getInode {A} : IoExpected A := Unexpected IoError_NotFound.
Definition Handle_lseek {A} : IoExpected A := Unexpected IoError_NotSeekable.
Definition Handle_read {A} : IoExpected A := Unexpected IoError_NotReadable.
Definition Handle_write {A} : IoExpected A := Unexpected IoError_NotWritable.
Definition Inode_lookup {A} : IoExpected A := Unexpected IoError_NotADirectory.
Definition Inode_open {A} : IoExpected A := Unexpected IoError_NotAFile.

(** What the handles ask of the terminal and the screen. *)
Class Console (C : Type) : Type := {
  (** [Tty::readInto]; [None]: the caller sleeps until there is input *)
  tty_readInto : Z -> ST C (option str);
  (** [Screen::putString] *)
  screen_putString : str -> ST C unit;
}.

(** ** [split] *)
Fixpoint split_loop (val : Z) (merge : bool) (seg rest : str) : list str :=
  match rest with
  | [] => if bool_decide (seg <> []) || negb merge then [seg] else []
  | c :: rest' =>
      if c =? val then
        (if negb merge || bool_decide (seg <> []) then [seg] else []) ++ split_loop val merge [] rest'
      else split_loop val merge (seg ++ [c]) rest'
  end.

Definition split (s : str) (val : Z) (merge : bool) : list str := split_loop val merge [] s.

Section operations.
Context {C : Type} `{!Console C}.

Definition set_inodes (m : gmap Z Inode) (s : FsState C) : FsState C :=
  mkFs m (handles s) (next_object s) (g_root s) (console s).
Definition set_handles (m : gmap Z Handle) (s : FsState C) : FsState C :=
  mkFs (inodes s) m (next_object s) (g_root s) (console s).
Definition set_next_object (p : Z) (s : FsState C) : FsState C :=
  mkFs (inodes s) (handles s) p (g_root s) (console s).
Definition set_g_root (p : Z) (s : FsState C) : FsState C :=
  mkFs (inodes s) (handles s) (next_object s) p (console s).
Definition set_console (c : C) (s : FsState C) : FsState C :=
  mkFs (inodes s) (handles s) (next_object s) (g_root s) c.

Definition on_console {A} (m : ST C A) : ST (FsState C) A := zoom console set_console m.

Definition deref_inode (p : Z) : ST (FsState C) Inode :=
  s ← read_state;
  from_option (inodes s !! p) (Undefined "dereference of an inode").

Definition update_inode (p : Z) (f : Inode -> Inode) : ST (FsState C) unit :=
  i ← deref_inode p;
  modify (fun s => set_inodes (<[p := f i]> (inodes s)) s).

(** [std::make_shared<T>()] for an inode *)
Definition make_inode (i : Inode) : ST (FsState C) Z :=
  s ← read_state;
  let p := next_object s in
  modify (fun s => set_next_object (p + 1) (set_inodes (<[p := i]> (inodes s)) s)) ;;
  mret p.

Definition make_handle (h : Handle) : ST (FsState C) Z :=
  s ← read_state;
  let p := next_object s in
  modify (fun s => set_next_object (p + 1) (set_handles (<[p := h]> (handles s)) s)) ;;
  mret p.

Definition setRoot (root : Z) : ST (FsState C) unit := modify (set_g_root root).

Definition getRootInode : ST (FsState C) Z :=
  s ← read_state;
  if g_root s =? 0 then fail (Undefined "g_rootSb is null") else mret (g_root s).

(** ** The virtual methods of [Inode] *)

(** The loop of [CpioFolderInode::lookup]; the children are alive, the folder owns them. *)
Fixpoint find_child (m : gmap Z Inode) (name : str) (children : list Z) : option Z :=
  match children with
  | [] => None
  | c :: l =>
      if bool_decide (i_name <$> m !! c = Some name) then Some c else find_child m name l
  end.

Definition inode_lookup (this : Z) (name : str) : ST (FsState C) (IoExpected Z) :=
  i ← deref_inode this;
  match i_body i with
  | CpioFileInode _ => mret Inode_lookup
  | CpioFolderInode children =>
      s ← read_state;
      mret (match find_child (inodes s) name children with
            | Some c => Value c
            | None => Unexpected IoError_NotFound
            end)
  end.

Definition inode_open (this : Z) : ST (FsState C) (IoExpected Handle) :=
  i ← deref_inode this;
  mret (match i_body i with
        | CpioFileInode _ => Value (CpioFileHandle this 0)
        | CpioFolderInode _ => Inode_open
        end).

(** ** The virtual methods of [Handle]: the result, and the handle afterwards *)
Definition handle_getInode (h : Handle) : IoExpected Z :=
  match h with
  | CpioFileHandle f _ => Value f
  | _ => Handle_getInode
  end.

(** [_file->_data] *)
Definition file_data (f : Z) : ST (FsState C) str :=
  i ← deref_inode f;
  match i_body i with
  | CpioFileInode data => mret data
  | CpioFolderInode _ => fail (Undefined "data of a folder")
  end.

Definition data_size (data : str) : Z := Z.of_nat (length data).

Definition handle_lseek (h : Handle) (position : Z) (whence : Whence)
    : ST (FsState C) (IoExpected Z * Handle) :=
  match h with
  | CpioFileHandle f pos =>
      data ← file_data f;
      let pos' := match whence with
                  | Begin => position
                  | Current => u64 (pos + position)
                  | WhenceEnd => u64 (data_size data + position)
                  end in
      mret (Value pos', CpioFileHandle f pos')
  | _ => mret (Handle_lseek, h)
  end.

(** The bytes [memcpy] takes from the file: it reads outside the vector when they are not
    all in it. *)
Definition file_bytes (data : str) (pos size : Z) : ST (FsState C) str :=
  if pos + size <=? data_size data then mret (take (Z.to_nat size) (drop (Z.to_nat pos) data))
  else if size =? 0 then mret []
  else fail (Undefined "memcpy from outside a file").

(** [None]: the caller sleeps. *)
Definition handle_read (h : Handle) (size : Z)
    : ST (FsState C) (option (IoExpected str) * Handle) :=
  match h with
  | CpioFileHandle f pos =>
      data ← file_data f;
      let size := Z.min size (u64 (data_size data - pos)) in
      bytes ← file_bytes data pos size;
      mret (Some (Value bytes), CpioFileHandle f (u64 (pos + size)))
  | StdIn =>
      r ← on_console (tty_readInto size);
      mret (Value <$> r, h)
  | _ => mret (Some Handle_read, h)
  end.

Definition handle_write (h : Handle) (bytes : str) : ST (FsState C) (IoExpected Z) :=
  match h with
  | StdOut => on_console (screen_putString bytes) ;; mret (Value (data_size bytes))
  | _ => mret Handle_write
  end.

(** ** [lookup] *)

(** The loop over the parts: where it ends, and the inode before. *)
Fixpoint lookup_parts (curInode lastLevel : Z) (parts : list str)
    : ST (FsState C) (IoExpected (Z * Z)) :=
  match parts with
  | [] => mret (Value (curInode, lastLevel))
  | part :: parts' =>
      expCurInode ← inode_lookup curInode (c_str part);
      match expCurInode with
      | Unexpected _ => mret (Unexpected IoError_NotFound)
      | Value next => lookup_parts next curInode parts'
      end
  end.

(** The contents of [buf] as a path: the bytes read, and zeros. *)
Definition link_target (r : option (IoExpected str)) : str :=
  match r with
  | Some (Value bytes) => c_str bytes
  | _ => []
  end.

(** The recursion follows one symbolic link; the fuel bounds their number, which the code
    does not. *)
Fixpoint lookup (fuel : nat) (inode : Z) (path : str) (options indirectionLeft : Z)
    : ST (FsState C) (IoExpected Z) :=
  match fuel with
  | O => fail OutOfFuel
  | S fuel =>
      match path with
      | [] => mret (Value inode)
      | c0 :: _ =>
          curInode ← (if c0 =? slash then getRootInode else mret inode);
          r ← lookup_parts curInode 0 (split path slash true);
          match r with
          | Unexpected e => mret (Unexpected e)
          | Value (curInode, lastLevel) =>
              i ← deref_inode curInode;
              if negb (Z.land (i_mode i) S_IFMT =? S_IFLNK) ||
                 (options =? LookupOptions_NoFollowSymlink)
              then mret (Value curInode)
              else if MAX_PATH_LENGTH <? i_size i then mret (Unexpected IoError_InvalidPath)
              else
                exphandle ← inode_open curInode;
                match exphandle with
                | Unexpected e => mret (Unexpected e)
                | Value handle =>
                    buf ← handle_read handle (i_size i);
                    lookup fuel lastLevel (link_target buf.1) options (u8 (indirectionLeft - 1))
                end
          end
      end
  end.

(** The overload for absolute paths. *)
Definition lookup_path (fuel : nat) (path : str) (options : Z) : ST (FsState C) (IoExpected Z) :=
  match path with
  | [] => mret (Unexpected IoError_InvalidPath)
  | c0 :: path' =>
      if negb (c0 =? slash) then mret (Unexpected IoError_InvalidPath)
      else
        root ← getRootInode;
        lookup fuel root (c_str path') options MAX_SYMLINK_INDIRECTIONS
  end.
End operations.

(** ** Paths

    A path name is good when a directory can hold it: it is not empty and has no slash and
    no zero byte. *)
Definition good_name (p : str) : Prop := p <> [] /\ (slash ∉ p) /\ (0 ∉ p).

(** The absolute path ["/p1/p2/..."], and the same without its first slash. *)
Definition path_of (parts : list str) : str := concat (map (cons slash) parts).
Definition relative_path (parts : list str) : str := tail (path_of parts).

Section paths.
Implicit Types (s seg p : str) (parts : list str).

Lemma split_loop_name seg p rest :
  slash ∉ p -> split_loop slash true seg (p ++ rest) = split_loop slash true (seg ++ p) rest.
Proof.
  revert seg. induction p as [|c p IH]; intros seg Hp; [by rewrite app_nil_r|].
  apply not_elem_of_cons in Hp as [Hc Hp]. simpl. rewrite (proj2 (Z.eqb_neq _ _)) by done.
  rewrite IH by done. by rewrite <- app_assoc.
Qed.

Lemma split_loop_parts seg parts :
  Forall good_name parts ->
  split_loop slash true seg (path_of parts) =
  (if bool_decide (seg <> []) then [seg] else []) ++ parts.
Proof.
  intros Hp. revert seg. induction Hp as [|p parts (Hne & Hs & _) Hp IH]; intros seg; simpl.
  - by rewrite orb_false_r, app_nil_r.
  - f_equal. rewrite split_loop_name by done. change (concat _) with (path_of parts).
    by rewrite IH, bool_decide_true.
Qed.

Lemma split_path parts : Forall good_name parts -> split (path_of parts) slash true = parts.
Proof. intros Hp. unfold split. by rewrite split_loop_parts. Qed.

Lemma split_relative parts :
  Forall good_name parts -> split (relative_path parts) slash true = parts.
Proof.
  intros Hp. unfold split, relative_path. destruct Hp as [|p parts (Hne & Hs & H0) Hp]; [done|].
  simpl. rewrite split_loop_name by done. change (concat _) with (path_of parts).
  rewrite split_loop_parts by done. by rewrite bool_decide_true.
Qed.

Lemma split_loop_good seg s :
  slash ∉ seg -> 0 ∉ seg -> 0 ∉ s -> Forall good_name (split_loop slash true seg s).
Proof.
  revert seg. induction s as [|c s IH]; intros seg Hseg H0 Hs; simpl.
  - rewrite orb_false_r. case_bool_decide; [|done]. by repeat constructor.
  - apply not_elem_of_cons in Hs as [Hc Hs]. destruct (Z.eqb_spec c slash) as [->|Hne].
    + apply Forall_app. split; [|by apply IH; [apply not_elem_of_nil|apply not_elem_of_nil|]].
      simpl. case_bool_decide; [|done]. by repeat constructor.
    + apply IH; [| |done]; rewrite elem_of_app, list_elem_of_singleton; intros [?|?]; by subst.
Qed.

Lemma split_loop_concat seg s :
  slash ∉ seg -> concat (split_loop slash true seg s) = seg ++ filter (fun c => c <> slash) s.
Proof.
  revert seg. induction s as [|c s IH]; intros seg Hseg; simpl.
  - rewrite orb_false_r, app_nil_r. case_bool_decide as Hd; simpl; [apply app_nil_r|].
    destruct seg; [done|]. by destruct Hd.
  - destruct (Z.eqb_spec c slash) as [->|Hne].
    + rewrite filter_cons_False by (by intros []). rewrite concat_app, IH by apply not_elem_of_nil.
      simpl. f_equal. case_bool_decide as Hd; simpl; [apply app_nil_r|].
      destruct seg; [done|]. by destruct Hd.
    + rewrite filter_cons_True by done. rewrite IH.
      * by rewrite <- app_assoc.
      * rewrite elem_of_app, list_elem_of_singleton. intros [?|?]; by subst.
Qed.

(** Splitting and joining: the parts of a path are good names, and hold its bytes other
    than the slashes, in order; and a path joined from good names splits into them, with
    or without the first slash. *)
Theorem split_join s parts :
  0 ∉ s -> Forall good_name parts ->
  Forall good_name (split s slash true) /\
  concat (split s slash true) = filter (fun c => c <> slash) s /\
  split (path_of parts) slash true = parts /\
  split (relative_path parts) slash true = parts.
Proof.
  intros Hs Hp. split_and!; [|by apply split_loop_concat, not_elem_of_nil|by apply split_path|by apply split_relative].
  apply split_loop_good; [apply not_elem_of_nil|apply not_elem_of_nil|done].
Qed.

Lemma c_str_id s : 0 ∉ s -> c_str s = s.
Proof.
  induction s as [|c s IH]; intros Hs; [done|]. apply not_elem_of_cons in Hs as [Hc Hs]. simpl.
  rewrite (proj2 (Z.eqb_neq _ _)) by done. by rewrite IH.
Qed.

Lemma path_no_zero parts : Forall good_name parts -> 0 ∉ path_of parts.
Proof.
  induction 1 as [|p parts (_ & _ & H0) Hp IH]; [apply not_elem_of_nil|].
  change (path_of (p :: parts)) with (slash :: p ++ path_of parts).
  rewrite not_elem_of_cons, not_elem_of_app. done.
Qed.

Lemma relative_path_spec parts :
  Forall good_name parts -> parts <> [] ->
  path_of parts = slash :: relative_path parts /\ (0 ∉ relative_path parts) /\
  exists c p, relative_path parts = c :: p /\ c <> slash.
Proof.
  intros Hp Hne. pose proof (path_no_zero parts Hp) as H0.
  destruct Hp as [|p parts (Hp & Hs & _) _]; [done|].
  unfold relative_path in *. change (path_of (p :: parts)) with (slash :: p ++ path_of parts) in *.
  cbn [tail]. apply not_elem_of_cons in H0 as [_ H0]. split_and!; [done|done|].
  destruct p as [|c p]; [done|]. apply not_elem_of_cons in Hs as [Hc _]. by exists c, (p ++ path_of parts).
Qed.
End paths.

(** ** What a lookup finds *)

(** The inode the parts lead to, following folders alone. *)
Fixpoint resolve (m : gmap Z Inode) (cur : Z) (parts : list str) : option Z :=
  match parts with
  | [] => Some cur
  | p :: parts' =>
      match i_body <$> m !! cur with
      | Some (CpioFolderInode children) =>
          c ← find_child m p children;
          resolve m c parts'
      | _ => None
      end
  end.

(** The inode before the last one: the folder of what the parts lead to. *)
Definition last_level (m : gmap Z Inode) (cur last : Z) (parts : list str) : Z :=
  match parts with
  | [] => last
  | _ => default last (resolve m cur (removelast parts))
  end.

Definition is_link (i : Inode) : bool := Z.land (i_mode i) S_IFMT =? S_IFLNK.

Section lookup_lemmas.
Context {C : Type} `{!Console C}.
Implicit Types (s : FsState C) (m : gmap Z Inode) (parts : list str).

Lemma find_child_Some m name l c :
  find_child m name l = Some c -> c ∈ l /\ exists i, m !! c = Some i /\ i_name i = name.
Proof.
  induction l as [|x l IH]; simpl; [done|]. case_bool_decide as Hx.
  - intros [= <-]. split; [by left|]. destruct (m !! x) as [i|]; [|done].
    exists i. split; [done|]. by injection Hx.
  - intros Hc. destruct (IH Hc) as [Hin Hi]. split; [by right|done].
Qed.

Lemma resolve_app m cur p q : resolve m cur (p ++ q) = c ← resolve m cur p; resolve m c q.
Proof.
  revert cur. induction p as [|x p IH]; intros cur; [done|]. simpl.
  destruct (i_body <$> m !! cur) as [[ch|]|]; [|done..].
  destruct (find_child m x ch) as [c|]; [|done]. simpl. apply IH.
Qed.

Lemma resolve_live m cur parts c :
  is_Some (m !! cur) -> resolve m cur parts = Some c -> is_Some (m !! c).
Proof.
  revert cur. induction parts as [|p parts IH]; intros cur Hcur H; simpl in H; [by injection H as <-|].
  destruct (i_body <$> m !! cur) as [[ch|]|]; [|done..].
  destruct (find_child m p ch) as [x|] eqn:Hx; [|done]. simpl in H.
  apply find_child_Some in Hx as (_ & i & Hi & _). eapply IH; [|exact H]. by exists i.
Qed.

Lemma deref_inode_run s p i : inodes s !! p = Some i -> deref_inode p s = Ok (i, s).
Proof. intros Hi. unfold deref_inode. by rewrite bind_read, Hi. Qed.

Lemma inode_lookup_run s p i name :
  inodes s !! p = Some i ->
  inode_lookup p name s =
  Ok (match i_body i with
      | CpioFileInode _ => Unexpected IoError_NotADirectory
      | CpioFolderInode children =>
          match find_child (inodes s) name children with
          | Some c => Value c
          | None => Unexpected IoError_NotFound
          end
      end, s).
Proof.
  intros Hi. unfold inode_lookup. rewrite (bind_run _ _ _ _ _ (deref_inode_run _ _ _ Hi)).
  by destruct (i_body i).
Qed.

Lemma lookup_parts_run s cur last parts :
  is_Some (inodes s !! cur) -> Forall good_name parts ->
  lookup_parts cur last parts s =
  Ok (match resolve (inodes s) cur parts with
      | Some c => Value (c, last_level (inodes s) cur last parts)
      | None => Unexpected IoError_NotFound
      end, s).
Proof.
  intros Hcur Hp. revert cur last Hcur. induction Hp as [|p parts (_ & _ & H0) Hp IH]; intros cur last [i Hi].
  - done.
  - cbn [lookup_parts]. rewrite c_str_id by done.
    rewrite (bind_run _ _ _ _ _ (inode_lookup_run s cur i p Hi)). cbn [resolve]. rewrite Hi.
    cbn [fmap option_fmap option_map]. destruct (i_body i) as [ch|d] eqn:Hb; [|done].
    destruct (find_child (inodes s) p ch) as [c|] eqn:Hc; [|done].
    cbn [mbind option_bind]. pose proof Hc as (_ & j & Hj & _)%find_child_Some.
    rewrite IH by (by exists j). destruct (resolve (inodes s) c parts) as [r|] eqn:Hr; [|done].
    do 3 f_equal. destruct parts as [|q parts]; [done|].
    unfold last_level. change (removelast (p :: q :: parts)) with (p :: removelast (q :: parts)).
    cbn [resolve]. rewrite Hi. cbn [fmap option_fmap option_map]. rewrite Hb, Hc.
    cbn [mbind option_bind].
    destruct (resolve (inodes s) c (removelast (q :: parts))) as [l|] eqn:Hl; [done|exfalso].
    rewrite (app_removelast_last [] (l := q :: parts)), resolve_app, Hl in Hr by done. done.
Qed.
(** Looking up a relative path from a live inode. *)
Lemma lookup_relative fuel s cur i0 parts options ind :
  inodes s !! cur = Some i0 -> Forall good_name parts -> parts <> [] ->
  lookup (S fuel) cur (relative_path parts) options ind s =
  match resolve (inodes s) cur parts with
  | None => Ok (Unexpected IoError_NotFound, s)
  | Some c =>
      (i ← deref_inode c;
       if negb (is_link i) || (options =? LookupOptions_NoFollowSymlink) then mret (Value c)
       else if MAX_PATH_LENGTH <? i_size i then mret (Unexpected IoError_InvalidPath)
       else
         exphandle ← inode_open c;
         match exphandle with
         | Unexpected e => mret (Unexpected e)
         | Value handle =>
             buf ← handle_read handle (i_size i);
             lookup fuel (last_level (inodes s) cur 0 parts) (link_target buf.1) options (u8 (ind - 1))
         end) s
  end.
Proof.
  intros Hcur Hp Hne. destruct (relative_path_spec parts Hp Hne) as (_ & _ & c0 & p & Hpath & Hc0).
  rewrite Hpath. cbn [lookup]. rewrite (proj2 (Z.eqb_neq c0 slash)) by done.
  rewrite (bind_run (mret cur : ST (FsState C) Z) _ s cur s eq_refl).
  rewrite <- Hpath, split_relative by done.
  rewrite (bind_run _ _ _ _ _ (lookup_parts_run s cur 0 parts (mk_is_Some _ _ Hcur) Hp)).
  by destruct (resolve (inodes s) cur parts) as [c|].
Qed.

Lemma lookup_found fuel s cur i0 parts options ind :
  inodes s !! cur = Some i0 -> Forall good_name parts -> parts <> [] ->
  (forall c i, resolve (inodes s) cur parts = Some c -> inodes s !! c = Some i ->
     is_link i = false \/ options = LookupOptions_NoFollowSymlink) ->
  lookup (S fuel) cur (relative_path parts) options ind s =
  Ok (match resolve (inodes s) cur parts with
      | Some c => Value c
      | None => Unexpected IoError_NotFound
      end, s).
Proof.
  intros Hcur Hp Hne Hlink. erewrite lookup_relative by done.
  destruct (resolve (inodes s) cur parts) as [c|] eqn:Hr; [|done].
  destruct (resolve_live _ _ _ _ (mk_is_Some _ _ Hcur) Hr) as [i Hi].
  rewrite (bind_run _ _ _ _ _ (deref_inode_run _ _ _ Hi)).
  destruct (Hlink c i eq_refl Hi) as [-> | ->]; [done|]. by rewrite orb_true_r.
Qed.

Lemma lookup_path_run fuel s i0 parts options :
  g_root s <> 0 -> inodes s !! g_root s = Some i0 -> Forall good_name parts -> parts <> [] ->
  (forall c i, resolve (inodes s) (g_root s) parts = Some c -> inodes s !! c = Some i ->
     is_link i = false \/ options = LookupOptions_NoFollowSymlink) ->
  lookup_path (S fuel) (path_of parts) options s =
  Ok (match resolve (inodes s) (g_root s) parts with
      | Some c => Value c
      | None => Unexpected IoError_NotFound
      end, s).
Proof.
  intros Hroot Hi0 Hp Hne Hlink. destruct (relative_path_spec parts Hp Hne) as (Hpath & H0 & _).
  rewrite Hpath. unfold lookup_path. cbn [Z.eqb Pos.eqb negb slash].
  unfold getRootInode at 1. erewrite bind_run.
  2:{ rewrite bind_read. by rewrite (proj2 (Z.eqb_neq _ _)) by done. }
  rewrite c_str_id by done. by eapply lookup_found.
Qed.

(** C26. An absolute path leads to the inode its parts lead to from the root, links in it not
    followed; a path that leads nowhere is not found.  One round of the recursion is
    enough when the inode is not a link, or links must not be followed. *)
Theorem lookup_path_spec fuel s i0 parts options :
  g_root s <> 0 -> inodes s !! g_root s = Some i0 -> Forall good_name parts -> parts <> [] ->
  (forall c i, resolve (inodes s) (g_root s) parts = Some c -> inodes s !! c = Some i ->
     is_link i = false \/ options = LookupOptions_NoFollowSymlink) ->
  lookup_path (S fuel) (path_of parts) options s =
  Ok (match resolve (inodes s) (g_root s) parts with
      | Some c => Value c
      | None => Unexpected IoError_NotFound
      end, s).
Proof. apply lookup_path_run. Qed.

(** A symbolic link is followed: the lookup of a link is the lookup of its contents from the
    link's folder. *)
Definition link_at (m : gmap Z Inode) (c : Z) (target : str) : Prop :=
  exists i, m !! c = Some i /\ is_link i = true /\ i_body i = CpioFileInode target /\
    i_size i = data_size target /\ data_size target <= MAX_PATH_LENGTH /\ 0 ∉ target.

Lemma data_size_nonneg data : 0 <= data_size data.
Proof. apply Nat2Z.is_nonneg. Qed.

Lemma file_data_run s c i data :
  inodes s !! c = Some i -> i_body i = CpioFileInode data -> file_data c s = Ok (data, s).
Proof.
  intros Hi Hb. unfold file_data. rewrite (bind_run _ _ _ _ _ (deref_inode_run _ _ _ Hi)). by rewrite Hb.
Qed.

(** Reading from a position in the file. *)
Lemma handle_read_run s c i data pos size :
  inodes s !! c = Some i -> i_body i = CpioFileInode data ->
  0 <= pos <= data_size data -> data_size data < 2 ^ 64 -> 0 <= size ->
  let n := Z.min size (data_size data - pos) in
  handle_read (CpioFileHandle c pos) size s =
  Ok ((Some (Value (take (Z.to_nat n) (drop (Z.to_nat pos) data))), CpioFileHandle c (pos + n)), s).
Proof.
  intros Hi Hb Hpos Hlen Hsize n.
  unfold handle_read. rewrite (bind_run _ _ _ _ _ (file_data_run _ _ _ _ Hi Hb)). cbv zeta.
  rewrite (wrap_small 64 (data_size data - pos)) by (unfold in_word; lia). fold n.
  rewrite (wrap_small 64 (pos + n)) by (unfold in_word; lia).
  unfold file_bytes. by rewrite (proj2 (Z.leb_le (pos + n) (data_size data))) by lia.
Qed.

Lemma handle_read_whole s c i data :
  inodes s !! c = Some i -> i_body i = CpioFileInode data -> data_size data < 2 ^ 64 ->
  handle_read (CpioFileHandle c 0) (data_size data) s =
  Ok ((Some (Value data), CpioFileHandle c (data_size data)), s).
Proof.
  intros Hi Hb Hlen. pose proof (data_size_nonneg data).
  rewrite (handle_read_run _ _ _ _ 0 _ Hi Hb) by lia.
  rewrite Z.sub_0_r, Z.min_id, Z.add_0_l, drop_0. unfold data_size at 1. by rewrite Nat2Z.id, firstn_all.
Qed.

Lemma lookup_link fuel s cur i0 parts c target options ind :
  inodes s !! cur = Some i0 -> Forall good_name parts -> parts <> [] ->
  resolve (inodes s) cur parts = Some c -> link_at (inodes s) c target ->
  options <> LookupOptions_NoFollowSymlink ->
  lookup (S fuel) cur (relative_path parts) options ind s =
  lookup fuel (last_level (inodes s) cur 0 parts) target options (u8 (ind - 1)) s.
Proof.
  intros Hcur Hp Hne Hr (i & Hi & Hlink & Hb & Hsz & Hmax & H0) Hopt.
  erewrite lookup_relative, Hr by done. rewrite (bind_run _ _ _ _ _ (deref_inode_run _ _ _ Hi)).
  rewrite Hlink, (proj2 (Z.eqb_neq _ _)) by done. cbn [negb orb].
  rewrite Hsz, (proj2 (Z.ltb_ge _ _)) by done. cbv iota.
  erewrite bind_run.
  2:{ unfold inode_open. rewrite (bind_run _ _ _ _ _ (deref_inode_run _ _ _ Hi)). by rewrite Hb. }
  cbv iota. erewrite bind_run.
  2:{ eapply handle_read_whole; [done..|]. unfold MAX_PATH_LENGTH in Hmax. lia. }
  cbn [fst link_target]. by rewrite c_str_id.
Qed.

(** Links that lead to a file or a folder are followed, and count as the file itself. *)
Theorem lookup_follows_link fuel s dir i0 parts c target :
  inodes s !! dir = Some i0 -> Forall good_name parts -> parts <> [] ->
  resolve (inodes s) dir parts = Some c -> link_at (inodes s) c (relative_path target) ->
  Forall good_name target -> target <> [] ->
  let folder := last_level (inodes s) dir 0 parts in
  (forall f i, resolve (inodes s) folder target = Some f -> inodes s !! f = Some i -> is_link i = false) ->
  lookup (S (S fuel)) dir (relative_path parts) LookupOptions_None MAX_SYMLINK_INDIRECTIONS s =
  Ok (match resolve (inodes s) folder target with
      | Some f => Value f
      | None => Unexpected IoError_NotFound
      end, s).
Proof.
  intros Hdir Hp Hne Hr Hl Ht Htne folder Hf. erewrite lookup_link by done.
  assert (exists j, inodes s !! folder = Some j) as [j Hj].
  { unfold folder, last_level. destruct parts as [|p parts]; [done|].
    rewrite (app_removelast_last [] (l := p :: parts)), resolve_app in Hr by done.
    destruct (resolve (inodes s) dir (removelast (p :: parts))) as [x|] eqn:Hx; [|done]. simpl.
    by eapply resolve_live; [|exact Hx]; exists i0. }
  eapply lookup_found; [done..|]. intros f i Hrf Hi. left. by eapply Hf.
Qed.

(** The number of links followed is not bounded: nothing reads [indirectionLeft].  The
    lookup of a link to itself recurses for ever, whatever the number of indirections. *)
Theorem lookup_link_to_itself s dir i0 name c fuel ind :
  inodes s !! dir = Some i0 -> good_name name -> resolve (inodes s) dir [name] = Some c ->
  link_at (inodes s) c name ->
  Fails (lookup fuel dir name LookupOptions_None ind) s OutOfFuel.
Proof.
  intros Hdir Hname Hr Hl. unfold Fails. revert ind. induction fuel as [|fuel IH]; intros ind; [done|].
  assert (relative_path [name] = name) as Hrel by (unfold relative_path, path_of; simpl; by rewrite app_nil_r).
  pose proof (lookup_link fuel s dir i0 [name] c name LookupOptions_None ind Hdir) as E.
  rewrite Hrel in E. rewrite E by (done || by apply Forall_singleton). apply IH.
Qed.

(** ** Reading a file *)

(** Reads of the given sizes, one after the other: the bytes, and the handle. *)
Fixpoint read_chunks (h : Handle) (sizes : list Z) : ST (FsState C) (str * Handle) :=
  match sizes with
  | [] => mret ([], h)
  | n :: sizes' =>
      r ← handle_read h n;
      rest ← read_chunks r.2 sizes';
      mret (match r.1 with Some (Value bytes) => bytes | _ => [] end ++ rest.1, rest.2)
  end.

Definition total_size (sizes : list Z) : Z := foldr Z.add 0 sizes.

(** C31. However a file is cut into reads, what they return is its contents from the position of
    the handle, in order and without repetition, and at its end nothing. *)
Theorem read_chunks_spec s c i data pos sizes :
  inodes s !! c = Some i -> i_body i = CpioFileInode data ->
  0 <= pos <= data_size data -> data_size data < 2 ^ 64 -> Forall (fun n => 0 <= n) sizes ->
  read_chunks (CpioFileHandle c pos) sizes s =
  Ok ((take (Z.to_nat (total_size sizes)) (drop (Z.to_nat pos) data),
       CpioFileHandle c (Z.min (data_size data) (pos + total_size sizes))), s).
Proof.
  intros Hi Hb Hpos Hlen Hs. revert pos Hpos. induction Hs as [|n sizes Hn Hs IH]; intros pos Hpos; cbn [read_chunks total_size foldr].
  - rewrite Z.add_0_r, Z.min_r by lia. done.
  - assert (0 <= total_size sizes) as Ht.
    { clear IH. induction Hs; simpl; [done|]. unfold total_size in *. lia. }
    rewrite (bind_run _ _ _ _ _ (handle_read_run s c i data pos n Hi Hb Hpos Hlen Hn)). cbn [fst snd].
    erewrite bind_run by (apply IH; lia). cbn [fst snd]. fold (total_size sizes).
    unfold mret, ST_ret. do 2 f_equal. f_equal; [|f_equal; lia].
    assert (0 <= data_size data - pos) as Hd by lia.
    replace (Z.to_nat (n + total_size sizes)) with (Z.to_nat n + Z.to_nat (total_size sizes))%nat by lia.
    rewrite Z2Nat.inj_min. unfold data_size in *.
    destruct (decide (n <= Z.of_nat (length data) - pos)) as [Hle|Hgt].
    + rewrite Z.min_l, Nat.min_l, Z2Nat.inj_add, <- drop_drop by lia. by rewrite take_take_drop.
    + rewrite Z.min_r, Nat.min_r by lia. rewrite !(take_ge (drop _ _)) by (rewrite length_drop; lia).
      rewrite (drop_ge data (Z.to_nat (pos + _))) by lia. by rewrite app_nil_r.
Qed.

(** Seeking past the end is accepted, and a read from there copies from outside the file:
    the bytes that are left, a difference of unsigned numbers, wrap around. *)
Theorem read_past_end s c i data offset size :
  inodes s !! c = Some i -> i_body i = CpioFileInode data ->
  0 < offset -> 0 < size -> data_size data + offset + size < 2 ^ 64 ->
  (r ← handle_lseek (CpioFileHandle c 0) offset WhenceEnd; handle_read r.2 size) s =
  Err (Undefined "memcpy from outside a file").
Proof.
  intros Hi Hb Ho Hsize Hw. pose proof (data_size_nonneg data).
  erewrite bind_run.
  2:{ unfold handle_lseek. by rewrite (bind_run _ _ _ _ _ (file_data_run _ _ _ _ Hi Hb)). }
  cbv zeta. cbn [snd]. rewrite (wrap_small 64 (data_size data + offset)) by (unfold in_word; lia).
  unfold handle_read. rewrite (bind_run _ _ _ _ _ (file_data_run _ _ _ _ Hi Hb)). cbv zeta.
  replace (u64 (data_size data - (data_size data + offset))) with (2 ^ 64 - offset).
  2:{ unfold wrap. apply (Z.mod_unique_pos _ _ (-1)); lia. }
  rewrite Z.min_l by lia. apply bind_fail. unfold file_bytes.
  rewrite (proj2 (Z.leb_gt (data_size data + offset + size) (data_size data))) by lia.
  by rewrite (proj2 (Z.eqb_neq size 0)) by lia.
Qed.
End lookup_lemmas.

(** ** A small tree: a folder, a file in it, a link to the file and a link to itself *)
Definition example_inodes : gmap Z Inode := list_to_map [
  (1, mkInode 0 0 [] (CpioFolderInode [2; 4; 5]));
  (2, mkInode S_IFDIR 0 (chars "etc") (CpioFolderInode [3]));
  (3, mkInode S_IFREG 5 (chars "motd") (CpioFileInode (chars "hello")));
  (4, mkInode S_IFLNK 8 (chars "link") (CpioFileInode (chars "etc/motd")));
  (5, mkInode S_IFLNK 4 (chars "self") (CpioFileInode (chars "self")))].

Definition example_fs : FsState unit := mkFs example_inodes ∅ 6 1 tt.

#[local] Instance no_console : Console unit := {|
  tty_readInto _ := mret None;
  screen_putString _ := mret tt;
|}.

(** [computed H] evaluates the closed left side of [H : t = Some x] and substitutes [x]. *)
Ltac computed H :=
  lazymatch type of H with
  | ?t = Some ?x =>
      let v := eval vm_compute in t in
      let E := fresh in
      assert (t = v) as E by (by vm_compute);
      rewrite E in H; clear E; injection H as <-
  end.

Ltac names := apply (bool_decide_unpack _); by vm_compute.

Lemma good_names (l : list str) :
  forallb (fun p => bool_decide (p <> []) && bool_decide (slash ∉ p) && bool_decide (0 ∉ p)) l = true ->
  Forall good_name l.
Proof.
  intros H. apply Forall_forall. intros p Hp. rewrite forallb_forall in H.
  apply list_elem_of_In in Hp. specialize (H p Hp).
  apply andb_true_iff in H as [[H1 H2]%andb_true_iff H3]. split_and!; by eapply bool_decide_eq_true.
Qed.

Lemma split_join_witness :
  concat (split (chars "//usr/bin/") slash true) = chars "usrbin" /\
  split (path_of [chars "usr"; chars "bin"]) slash true = [chars "usr"; chars "bin"].
Proof.
  destruct (split_join (chars "//usr/bin/") [chars "usr"; chars "bin"]) as (_ & E1 & E2 & _).
  - names.
  - by apply good_names; vm_compute.
  - split; [rewrite E1; by vm_compute|exact E2].
Defined.

Lemma lookup_path_spec_witness :
  lookup_path 1 (path_of [chars "etc"; chars "motd"]) LookupOptions_None example_fs = Ok (Value 3, example_fs) /\
  lookup_path 1 (path_of [chars "link"]) LookupOptions_NoFollowSymlink example_fs = Ok (Value 4, example_fs).
Proof.
  split.
  - apply (lookup_path_spec 0 example_fs (mkInode 0 0 [] (CpioFolderInode [2; 4; 5]))
             [chars "etc"; chars "motd"]); [done|done|by apply good_names; vm_compute|done|].
    intros c i Hc Hi. computed Hc. computed Hi. by left.
  - apply (lookup_path_spec 0 example_fs (mkInode 0 0 [] (CpioFolderInode [2; 4; 5]))
             [chars "link"]); [done|done|by apply good_names; vm_compute|done|].
    intros. by right.
Defined.

Lemma lookup_follows_link_witness :
  lookup 2 1 (relative_path [chars "link"]) LookupOptions_None MAX_SYMLINK_INDIRECTIONS example_fs =
  Ok (Value 3, example_fs).
Proof.
  apply (lookup_follows_link 0 example_fs 1 (mkInode 0 0 [] (CpioFolderInode [2; 4; 5]))
           [chars "link"] 4 [chars "etc"; chars "motd"]);
    [done|by apply good_names; vm_compute|done|by vm_compute| |by apply good_names; vm_compute|done|].
  - exists (mkInode S_IFLNK 8 (chars "link") (CpioFileInode (chars "etc/motd"))).
    split_and!; try done. names.
  - intros f i Hf Hi. computed Hf. by computed Hi.
Defined.

Lemma lookup_link_to_itself_witness :
  Fails (lookup 1000 1 (chars "self") LookupOptions_None MAX_SYMLINK_INDIRECTIONS) example_fs OutOfFuel.
Proof.
  apply (lookup_link_to_itself example_fs 1 (mkInode 0 0 [] (CpioFolderInode [2; 4; 5])) (chars "self") 5);
    [done| |by vm_compute|].
  - split_and!; [done|names|names].
  - exists (mkInode S_IFLNK 4 (chars "self") (CpioFileInode (chars "self"))). split_and!; try done. names.
Defined.

Lemma read_chunks_spec_witness :
  read_chunks (CpioFileHandle 3 0) [2; 0; 7; 1] example_fs =
  Ok ((chars "hello", CpioFileHandle 3 5), example_fs).
Proof.
  apply (read_chunks_spec example_fs 3 (mkInode S_IFREG 5 (chars "motd") (CpioFileInode (chars "hello")))
           (chars "hello") 0 [2; 0; 7; 1]); [done|done|done|done|by repeat constructor].
Defined.

Lemma read_past_end_witness :
  (r ← handle_lseek (CpioFileHandle 3 0) 1 WhenceEnd; handle_read r.2 1) example_fs =
  Err (Undefined "memcpy from outside a file").
Proof.
  apply (read_past_end example_fs 3 (mkInode S_IFREG 5 (chars "motd") (CpioFileInode (chars "hello")))
           (chars "hello")); done.
Defined.
