(* ===== verification/Tty.v ===== *)
(** * The terminal and the keyboard: [Tty.cpp], [Keyboard.cpp]

    The mutex and the condition variable of the terminal are those of [Sync].  An operation runs
    for a task; [None] stands for a task that goes to sleep, in the queue of the mutex or in that
    of the condition variable, and the operation goes on from there once it is woken up.
    A waiter is on the stack of its task, at the address [p] given to the operation. *)

From Stdlib Require Import ZArith Lia.
From stdpp Require Import list numbers gmap.
From S2P Require Import Prelude Words Interrupts Devices Sync Screen Fs.

Record Tty : Type := mkTty {
  stdin : list Z;          (** [std::deque<char>] *)
  tty_mutex : Mutex;
  tty_condvar : CondVar;
}.

Definition new_Tty (garbage : Z) : Tty := mkTty [] new_Mutex (new_CondVar garbage).

(** The terminal, and the screen it echoes on *)
Definition Terminal : Type := Tty * Screen.

Definition set_stdin (l : list Z) (s : Terminal) : Terminal :=
  (mkTty l (tty_mutex s.1) (tty_condvar s.1), s.2).
Definition set_tty_mutex (m : Mutex) (s : Terminal) : Terminal :=
  (mkTty (stdin s.1) m (tty_condvar s.1), s.2).
Definition set_tty_condvar (c : CondVar) (s : Terminal) : Terminal :=
  (mkTty (stdin s.1) (tty_mutex s.1) c, s.2).
(** The mutex has its spin lock and the processor that the spin lock masks, which is the screen's. *)
Definition mutex_state (s : Terminal) : SemState := (screen_cpu s.2, (tty_mutex s.1).1, (tty_mutex s.1).2).
Definition set_mutex_state (x : SemState) (s : Terminal) : Terminal :=
  set_tty_mutex (x.1.2, x.2) (s.1, set_lock_state (x.1.1, _lock s.2) s.2).
Definition on_mutex {A} (m : ST SemState A) : ST Terminal A := zoom mutex_state set_mutex_state m.
Definition on_condvar {A} (m : ST CondVar A) : ST Terminal A :=
  zoom (fun s => tty_condvar s.1) set_tty_condvar m.
Definition on_screen {A} (m : ST Screen A) : ST Terminal A := zoom snd (fun c s => (s.1, c)) m.

(** The echo has the colours [putChar] and [putString] default to. *)
Definition echo (c : Z) : ST Terminal unit := on_screen (putChar c LightGrey Black).

(** [feedInput] once it has the mutex; the value is the tasks it wakes up. *)
Definition feedInput_locked (data : Z) : ST Terminal (list Z) :=
  s ← read_state;
  if data =? 8 then
    match stdin s.1 with
    | [] => mret []
    | _ => modify (fun s => set_stdin (removelast (stdin s.1)) s) ;; echo data ;; mret []
    end
  else
    modify (fun s => set_stdin (stdin s.1 ++ [data]) s) ;;
    echo data ;;
    if data =? 10 then on_condvar cond_notify_all else mret [].

(** The task that the release of the mutex wakes up comes last. *)
Definition option_tasks (o : option Z) : list Z := match o with Some t => [t] | None => [] end.

Definition feedInput (p task data : Z) : ST Terminal (option (list Z)) :=
  taken ← on_mutex (mutex_lock p task);
  if negb taken then mret None
  else
    woken ← feedInput_locked data;
    next ← on_mutex mutex_unlock;
    mret (Some (woken ++ option_tasks next)).

(** [print] *)
Definition tty_print (buf : list Z) : ST Terminal unit :=
  on_screen (putString buf LightGrey Black).

(** The loop that moves [toRead] bytes to the buffer *)
Fixpoint read_loop (toRead : nat) : ST Terminal (list Z) :=
  match toRead with
  | O => mret []
  | S n =>
      s ← read_state;
      match stdin s.1 with
      | [] => fail (Undefined "front of an empty deque")
      | c :: l => modify (set_stdin l) ;; rest ← read_loop n; mret (c :: rest)
      end
  end.

(** [readInto] once it has the mutex: without input, the task gets in the queue of the condition
    variable and releases the mutex. *)
Definition readInto_locked (p task size : Z) : ST Terminal (option (list Z) * list Z) :=
  s ← read_state;
  match stdin s.1 with
  | [] =>
      on_condvar (cond_wait_begin p task) ;;
      next ← on_mutex mutex_unlock;
      mret (None, option_tasks next)
  | _ =>
      let toRead := Z.min size (Z.of_nat (length (stdin s.1))) in
      bytes ← read_loop (Z.to_nat toRead);
      next ← on_mutex mutex_unlock;
      mret (Some bytes, option_tasks next)
  end.

(** The bytes read, [None] for a task that sleeps, and the tasks woken up. *)
Definition readInto (p task size : Z) : ST Terminal (option (list Z) * list Z) :=
  if size =? 0 then mret (Some [], [])
  else
    taken ← on_mutex (mutex_lock p task);
    if negb taken then mret (None, []) else readInto_locked p task size.

(** The rest of [readInto] for a task that wakes up in the condition variable: a spurious wake-up
    releases the mutex again and sleeps on; else the mutex is taken, and the loop tested. *)
Definition readInto_woken (p task size : Z) : ST Terminal (option (list Z) * list Z) :=
  w ← on_condvar (on_cv (get_waiter p));
  if up_flag w then
    on_condvar (on_cv (delete_waiter p)) ;;
    taken ← on_mutex (mutex_lock p task);
    if negb taken then mret (None, []) else readInto_locked p task size
  else
    next ← on_mutex mutex_unlock;
    mret (None, option_tasks next).

(** ** [Keyboard]: the maps, of 60 bytes with the zero that ends a literal *)
Definition NUL : list Z := [0].

Definition QwertyUpMap : list Z :=
  [0; 27] ++ chars "!@#$%^&*()_+" ++ [8; 9] ++
  chars "QWERTYUIOP{}" ++ [10; 0] ++ chars "AS" ++
  chars "DFGHJKL:" ++ [34] ++ chars "~" ++ [0] ++ chars "|ZXCV" ++
  chars "BNM<>?" ++ [0] ++ chars "*" ++ [0] ++ chars " " ++ [0] ++ NUL.

Definition QwertyLowMap : list Z :=
  [0; 27] ++ chars "1234567890-=" ++ [8; 9] ++
  chars "qwertyuiop[]" ++ [10; 0] ++ chars "as" ++
  chars "dfghjkl;'`" ++ [0; 92] ++ chars "zxcv" ++
  chars "bnm,./" ++ [0] ++ chars "*" ++ [0] ++ chars " " ++ [0] ++ NUL.

(** [lshift], [rshift] and the terminal *)
Record Keyboard : Type := mkKeyboard {
  lshift : bool;
  rshift : bool;
  terminal : Terminal;
}.

Definition set_lshift (b : bool) (k : Keyboard) : Keyboard := mkKeyboard b (rshift k) (terminal k).
Definition set_rshift (b : bool) (k : Keyboard) : Keyboard := mkKeyboard (lshift k) b (terminal k).
Definition set_terminal (t : Terminal) (k : Keyboard) : Keyboard := mkKeyboard (lshift k) (rshift k) t.

(** The [switch] of [handleInterrupt]; [None]: the task sleeps *)
Definition handle_scancode (p task in_ : Z) : ST Keyboard (option (list Z)) :=
  if in_ =? 0x2A then modify (set_lshift true) ;; mret (Some [])
  else if in_ =? 0xAA then modify (set_lshift false) ;; mret (Some [])
  else if in_ =? 0x36 then modify (set_rshift true) ;; mret (Some [])
  else if in_ =? 0xB6 then modify (set_rshift false) ;; mret (Some [])
  else if (in_ =? 0x1D) || (in_ =? 0x38) || (in_ =? 0x3A) then mret (Some [])
  else if in_ <? Z.of_nat (length QwertyUpMap) then
    k ← read_state;
    let map := if lshift k || rshift k then QwertyUpMap else QwertyLowMap in
    data ← from_option (map !! Z.to_nat in_) (Undefined "index out of the map");
    zoom terminal set_terminal (feedInput p task data)
  else mret (Some []).

Definition handleInterrupt (p task : Z) : ST Keyboard (option (list Z)) :=
  in_ ← zoom (fun k => ports (terminal k).2)
          (fun q k => set_terminal ((terminal k).1, Screen.set_ports q (terminal k).2) k) (inb 0x60);
  handle_scancode p task in_.

Example map_sizes : length QwertyUpMap = 60%nat /\ length QwertyLowMap = 60%nat.
Proof. done. Qed.

(** ** The discipline of the line

    The specification is a queue of characters, whose last one a backspace erases; what is
    typed is echoed, but for a backspace that finds the queue empty. *)
Definition edit (l : list Z) (c : Z) : list Z := if c =? 8 then removelast l else l ++ [c].

Definition echoed (l : list Z) (t : Sheet) (c : Z) : Sheet :=
  if (c =? 8) && bool_decide (l = []) then t else type_char LightGrey Black t c.

(** What is typed on the queue [l] stays on the screen as it is echoed. *)
Fixpoint line_stays (l : list Z) (t : Sheet) (typed : list Z) : bool :=
  match typed with
  | [] => true
  | c :: typed => (place (echoed l t c) <? 80 * 24) && line_stays (edit l c) (echoed l t c) typed
  end.

(** Typing [typed] on the queue [l] and the sheet [t] *)
Fixpoint type_line (l : list Z) (t : Sheet) (typed : list Z) : list Z * Sheet :=
  match typed with
  | [] => (l, t)
  | c :: typed => type_line (edit l c) (echoed l t c) typed
  end.

Lemma type_line_fst l t typed : (type_line l t typed).1 = fold_left edit typed l.
Proof. revert l t. by induction typed as [|c typed IH]; intros l t; [|apply IH]. Qed.

Lemma line_stays_app l t a b :
  line_stays l t (a ++ b) = line_stays l t a && line_stays (type_line l t a).1 (type_line l t a).2 b.
Proof.
  revert l t. induction a as [|c a IH]; intros l t; [done|]. cbn [app line_stays type_line]. by rewrite IH, andb_assoc.
Qed.

Definition mutex_free (m : Mutex) : Prop :=
  m.1 = None /\ count m.2 = 1 /\ firstWaiter (sem_queue m.2) = 0 /\ lastWaiter (sem_queue m.2) = 0.

(** No spin lock is taken. *)
Definition unlocked (s : Terminal) : Prop := g_lockCount (screen_cpu s.2) = 0.

(** No spin lock is taken and no task holds the mutex, those of [lq] wait for input, and the screen shows [t]. *)
Record idle (t : Sheet) (lq : list Z) (s : Terminal) : Prop := {
  idle_count : unlocked s;
  idle_mutex : mutex_free (tty_mutex s.1);
  idle_queue : queue (cv_queue (tty_condvar s.1)) lq;
  idle_screen : shows t s.2;
}.

(** Taking the free mutex, and giving it back *)
Definition taken_mutex (m : Mutex) : Mutex := (m.1, set_count 0 m.2).

Lemma lock_free p task s :
  unlocked s -> mutex_free (tty_mutex s.1) ->
  on_mutex (mutex_lock p task) s = Ok (true, set_tty_mutex (taken_mutex (tty_mutex s.1)) s).
Proof.
  intros Hu (Hl & Hc & _). unfold on_mutex, zoom, mutex_lock, mutex_state.
  rewrite down_begin_quiet by done. unfold down_locked. rewrite bind_read, Hc. cbn.
  by destruct s as [[] []].
Qed.

Lemma unlock_taken m s :
  unlocked s -> mutex_free m -> tty_mutex s.1 = taken_mutex m ->
  on_mutex mutex_unlock s = Ok (None, set_tty_mutex m s).
Proof.
  intros Hu (Ho & Hc & Hf & Hl) Hm. unfold on_mutex, zoom, mutex_unlock, up, mutex_state. rewrite Hm.
  rewrite under_spinlock_quiet by done. unfold up_locked. rewrite bind_read. cbn.
  rewrite Hf, Hl. cbn. unfold set_mutex_state. cbn. destruct m as [o [n q]]. cbn in *. subst n.
  by destruct s as [[] []].
Qed.

Lemma set_mutex_back m m' s : tty_mutex s.1 = m -> set_tty_mutex m (set_tty_mutex m' s) = s.
Proof. intros <-. by destruct s as [[]]. Qed.

(** [{ auto _ = _mutex.getScoped(); ... }] for a mutex that is free *)
Lemma with_mutex {A} p task (body : ST Terminal A) s (Q : A -> Terminal -> Prop) :
  unlocked s -> mutex_free (tty_mutex s.1) ->
  Runs body (set_tty_mutex (taken_mutex (tty_mutex s.1)) s) (fun a s' =>
    unlocked s' /\ tty_mutex s'.1 = taken_mutex (tty_mutex s.1) /\ Q a (set_tty_mutex (tty_mutex s.1) s')) ->
  Runs (on_mutex (mutex_lock p task)) s (fun taken s1 => taken = true /\
    Runs body s1 (fun a s2 => Runs (on_mutex mutex_unlock) s2 (fun next s' => next = None /\ Q a s'))).
Proof.
  intros Hu Hfree Hbody. eapply Runs_of_ok; [by apply lock_free|]. split; [done|].
  eapply Runs_mono; [exact Hbody|]. intros a s2 (Hu2 & Hm & HQ).
  eapply Runs_of_ok; [by apply unlock_taken|]. done.
Qed.

Lemma echo_run c t s (Q : unit -> Terminal -> Prop) :
  shows t s.2 -> (place (type_char LightGrey Black t c) <? 80 * 24) = true ->
  (forall scr, shows (type_char LightGrey Black t c) scr -> screen_cpu scr = screen_cpu s.2 -> Q tt (s.1, scr)) ->
  Runs (echo c) s Q.
Proof.
  intros Hs Hstay HQ. apply Runs_zoom. pose proof (putChar_run t s.2 c LightGrey Black Hs) as Hrun.
  eapply Runs_mono; [exact (prints_in _ _ _ _ Hrun Hstay)|].
  intros [] scr [Hscr [Hcpu _]]. by apply HQ.
Qed.

(** What the operations promise of the queue of waiters when [lq] are left of it *)
Definition waiters_kept (s s' : Terminal) : Prop :=
  cv_queue (tty_condvar s'.1) = cv_queue (tty_condvar s.1).

Lemma feedInput_run p task c t lq s :
  idle t lq s -> (place (echoed (stdin s.1) t c) <? 80 * 24) = true ->
  Runs (feedInput p task c) s (fun r s' =>
    stdin s'.1 = edit (stdin s.1) c /\
    unlocked s' /\ tty_mutex s'.1 = tty_mutex s.1 /\
    shows (echoed (stdin s.1) t c) s'.2 /\
    if c =? 10 then
      r = Some (tasks_of (cv_queue (tty_condvar s.1)) lq) /\
      queue (cv_queue (tty_condvar s'.1)) [] /\
      (forall w, waiters (cv_queue (tty_condvar s'.1)) !! w =
         (if bool_decide (w ∈ lq) then set_up true else id) <$> waiters (cv_queue (tty_condvar s.1)) !! w)
    else r = Some [] /\ waiters_kept s s').
Proof.
  intros [Hu Hm Hq Hscr] Hstay. unfold feedInput. apply Runs_bind.
  eapply Runs_mono.
  { apply (with_mutex p task (feedInput_locked c) s (fun woken s' =>
      stdin s'.1 = edit (stdin s.1) c /\ unlocked s' /\ tty_mutex s'.1 = tty_mutex s.1 /\
      shows (echoed (stdin s.1) t c) s'.2 /\
      if c =? 10 then
        woken = tasks_of (cv_queue (tty_condvar s.1)) lq /\ queue (cv_queue (tty_condvar s'.1)) [] /\
        (forall w, waiters (cv_queue (tty_condvar s'.1)) !! w =
           (if bool_decide (w ∈ lq) then set_up true else id) <$> waiters (cv_queue (tty_condvar s.1)) !! w)
      else woken = [] /\ waiters_kept s s')); [done|done|].
    unfold feedInput_locked, edit, echoed, waiters_kept in *. apply Runs_bind, Runs_read.
    destruct (Z.eqb_spec c 8) as [->|Hc8]; cbn [Z.eqb Pos.eqb andb] in *.
    - change (stdin (set_tty_mutex (taken_mutex (tty_mutex s.1)) s).1) with (stdin s.1).
      destruct (stdin s.1) as [|c l] eqn:Hl.
      + apply Runs_ret. rewrite bool_decide_true by done. cbn. by rewrite Hl.
      + rewrite bool_decide_false in Hstay by done.
        apply Runs_bind, Runs_modify, Runs_bind. eapply echo_run; [exact Hscr|exact Hstay|].
        intros scr Hscr' Hcpu. apply Runs_ret. rewrite bool_decide_false by done. cbn -[removelast].
        unfold unlocked in *. cbn in *. by rewrite Hl, Hcpu.
    - apply Runs_bind, Runs_modify, Runs_bind. eapply echo_run; [exact Hscr|exact Hstay|].
      intros scr Hscr' Hcpu. assert (unlocked (s.1, scr)) as Hu' by (unfold unlocked in *; cbn in *; by rewrite Hcpu).
      destruct (Z.eqb_spec c 10) as [->|Hc10]; [|by apply Runs_ret].
      apply Runs_zoom. eapply Runs_mono; [by apply (cond_notify_all_run _ lq)|].
      intros tasks cv (-> & Hq' & _ & Hws). cbn. by split_and!. }
  intros taken s1 [-> Hrun]. cbn [negb]. apply Runs_bind. eapply Runs_mono; [exact Hrun|].
  intros woken s2 H2. apply Runs_bind. eapply Runs_mono; [exact H2|].
  intros next s3 (-> & E1 & Eu & E2 & E3 & E4). apply Runs_ret. cbn [option_tasks]. rewrite app_nil_r.
  split_and!; try done. destruct (c =? 10).
  - destruct E4 as (-> & ? & ?). by split_and!.
  - by destruct E4 as [-> ?].
Qed.

(** Typing what does not end the line *)
Fixpoint feed_all (p task : Z) (typed : list Z) : ST Terminal (list (option (list Z))) :=
  match typed with
  | [] => mret []
  | c :: typed => r ← feedInput p task c; rs ← feed_all p task typed; mret (r :: rs)
  end.

Lemma feed_all_run p task typed t lq s :
  idle t lq s -> 10 ∉ typed -> line_stays (stdin s.1) t typed = true ->
  Runs (feed_all p task typed) s (fun rs s' =>
    stdin s'.1 = (type_line (stdin s.1) t typed).1 /\
    idle (type_line (stdin s.1) t typed).2 lq s' /\ waiters_kept s s' /\
    rs = replicate (length typed) (Some [])).
Proof.
  revert t s. induction typed as [|c typed IH]; intros t s Hs Hnl Hstay; [by apply Runs_ret|].
  apply not_elem_of_cons in Hnl as [Hc Hnl]. cbn [feed_all type_line line_stays] in *.
  apply andb_true_iff in Hstay as [Hc1 Hstay]. apply Runs_bind.
  eapply Runs_mono; [by apply (feedInput_run p task c t lq)|].
  intros r s1 (E1 & Eu & E2 & E3 & E4). rewrite (proj2 (Z.eqb_neq c 10)) in E4 by done.
  destruct E4 as [-> Hk]. apply Runs_bind. eapply Runs_mono.
  { apply (IH (echoed (stdin s.1) t c)); [|done|by rewrite E1]. split; [done|by rewrite E2; apply Hs|rewrite Hk; apply Hs|done]. }
  intros rs s2 (F1 & F2 & F3 & ->). apply Runs_ret. rewrite E1 in F1, F2.
  split_and!; [done|done|by unfold waiters_kept; rewrite F3|done].
Qed.

Lemma read_loop_run n s :
  (n <= length (stdin s.1))%nat ->
  read_loop n s = Ok (take n (stdin s.1), set_stdin (drop n (stdin s.1)) s).
Proof.
  revert s. induction n as [|n IH]; intros s Hn; [by destruct s as [[]]|].
  cbn [read_loop]. rewrite bind_read. destruct (stdin s.1) as [|c l] eqn:El; [cbn in Hn; lia|].
  rewrite bind_modify. rewrite (bind_run _ _ _ _ _ (IH (set_stdin l s) ltac:(cbn in *; lia))).
  by destruct s as [[]].
Qed.

(** A task that reads with input in the queue takes the first characters of it. *)
Lemma readInto_locked_some p task size m s (Q : option (list Z) * list Z -> Terminal -> Prop) :
  unlocked s -> mutex_free m -> tty_mutex s.1 = taken_mutex m -> stdin s.1 <> [] -> 0 <= size ->
  Q (Some (take (Z.to_nat size) (stdin s.1)), [])
    (set_tty_mutex m (set_stdin (drop (Z.to_nat size) (stdin s.1)) s)) ->
  Runs (readInto_locked p task size) s Q.
Proof.
  intros Hu Hfree Hm Hne Hsize HQ. unfold readInto_locked. apply Runs_bind, Runs_read.
  destruct (stdin s.1) as [|c l] eqn:El; [done|]. rewrite <- El in *. apply Runs_bind.
  set (n := Z.to_nat (Z.min size (Z.of_nat (length (stdin s.1))))).
  assert (take n (stdin s.1) = take (Z.to_nat size) (stdin s.1) /\
          drop n (stdin s.1) = drop (Z.to_nat size) (stdin s.1)) as [Et Ed].
  { destruct (decide (size <= Z.of_nat (length (stdin s.1)))) as [Hle|Hgt].
    - unfold n. by rewrite Z.min_l.
    - rewrite !take_ge, !drop_ge by lia. done. }
  eapply Runs_of_ok; [apply read_loop_run; lia|]. rewrite Et, Ed. apply Runs_bind.
  eapply Runs_of_ok; [by apply (unlock_taken m)|]. by apply Runs_ret.
Qed.

Lemma readInto_some p task size s (Q : option (list Z) * list Z -> Terminal -> Prop) :
  unlocked s -> mutex_free (tty_mutex s.1) -> stdin s.1 <> [] -> 0 < size ->
  Q (Some (take (Z.to_nat size) (stdin s.1)), []) (set_stdin (drop (Z.to_nat size) (stdin s.1)) s) ->
  Runs (readInto p task size) s Q.
Proof.
  intros Hu Hfree Hne Hsize HQ. unfold readInto. rewrite (proj2 (Z.eqb_neq size 0)) by lia. apply Runs_bind.
  eapply Runs_of_ok; [by apply lock_free|]. cbn [negb].
  apply (readInto_locked_some _ _ _ (tty_mutex s.1)); [done|done|done|done|lia|].
  by destruct s as [[]].
Qed.

(** A task that reads with no input sleeps in the queue of the condition variable. *)
Lemma readInto_none p task size lq s :
  unlocked s -> mutex_free (tty_mutex s.1) -> stdin s.1 = [] -> 0 < size -> task <> 0 ->
  queue (cv_queue (tty_condvar s.1)) lq -> p <> 0 -> waiters (cv_queue (tty_condvar s.1)) !! p = None ->
  Runs (readInto p task size) s (fun r s' =>
    r = (None, []) /\ stdin s'.1 = [] /\ tty_mutex s'.1 = tty_mutex s.1 /\ s'.2 = s.2 /\
    queue (cv_queue (tty_condvar s'.1)) (lq ++ [p]) /\
    waiters (cv_queue (tty_condvar s'.1)) !! p = Some (mkWaiter false task 0) /\
    tasks_of (cv_queue (tty_condvar s'.1)) lq = tasks_of (cv_queue (tty_condvar s.1)) lq).
Proof.
  intros Hu Hfree Hl Hsize Htask Hq Hp Hfresh. unfold readInto. rewrite (proj2 (Z.eqb_neq size 0)) by lia.
  assert (p ∉ lq) as Hpl.
  { intros Hin. destruct (queue_live _ _ p Hq Hin) as [_ [x Hx]]. by rewrite Hfresh in Hx. }
  apply Runs_bind. eapply Runs_of_ok; [by apply lock_free|]. cbn [negb]. unfold readInto_locked.
  apply Runs_bind, Runs_read. change (stdin (set_tty_mutex _ s).1) with (stdin s.1). rewrite Hl.
  apply Runs_bind, Runs_zoom. eapply Runs_mono; [by apply (cond_wait_begin_run _ lq)|].
  intros [] c' (Hq' & Hx & Hframe). apply Runs_bind.
  eapply Runs_of_ok; [by apply (unlock_taken (tty_mutex s.1))|]. apply Runs_ret. cbn.
  split_and!; try done. apply map_ext_in. intros v Hv. apply list_elem_of_In in Hv.
  destruct (Hframe v ltac:(by intros ->)) as [_ E]. by rewrite E.
Qed.

(** C28. A task that finds no input sleeps, after those that sleep already; it is not woken by the
    characters of the line, but by the newline, together with the others and in the order they
    came; it then reads the beginning of the line as it was edited, newline included, and
    leaves the rest for the next read.  The echo of the line stays on the screen. *)
Theorem read_line p task size kp kb typed t lq s :
  idle t lq s -> stdin s.1 = [] -> 0 < size ->
  task <> 0 -> p <> 0 -> waiters (cv_queue (tty_condvar s.1)) !! p = None -> 10 ∉ typed ->
  line_stays [] t (typed ++ [10]) = true ->
  let line := fold_left edit typed [] ++ [10] in
  Runs (r1 ← readInto p task size;
        rs ← feed_all kp kb typed;
        woken ← feedInput kp kb 10;
        r2 ← readInto_woken p task size;
        mret (r1, rs, woken, r2)) s (fun '(r1, rs, woken, r2) s' =>
    r1 = (None, []) /\ rs = replicate (length typed) (Some []) /\
    woken = Some (tasks_of (cv_queue (tty_condvar s.1)) lq ++ [task]) /\
    r2 = (Some (take (Z.to_nat size) line), []) /\ stdin s'.1 = drop (Z.to_nat size) line /\
    idle (echoed (fold_left edit typed []) (type_line [] t typed).2 10) [] s').
Proof.
  intros Hs Hl Hsize Htask Hp Hfresh Hnl Hstay line. rewrite line_stays_app in Hstay.
  apply andb_true_iff in Hstay as [Hstay Hnewline]. cbn [line_stays] in Hnewline. rewrite andb_true_r in Hnewline.
  rewrite type_line_fst in Hnewline. pose proof (idle_mutex _ _ _ Hs) as Hfree. pose proof (idle_count _ _ _ Hs) as Hu. apply Runs_bind.
  eapply Runs_mono; [by apply (readInto_none p task size lq); [..|apply Hs| |]|].
  intros r1 s1 (-> & El1 & Em1 & Es1 & Hq1 & Hx1 & Et1). apply Runs_bind.
  assert (idle t (lq ++ [p]) s1) as Hs1 by (split; [unfold unlocked; by rewrite Es1|by rewrite Em1|done|rewrite Es1; apply Hs]).
  eapply Runs_mono; [by apply (feed_all_run kp kb typed t (lq ++ [p])); [..|rewrite El1]|].
  rewrite El1, type_line_fst. intros rs s2 (El2 & Hs2 & Hk2 & ->). apply Runs_bind.
  eapply Runs_mono; [by apply (feedInput_run kp kb 10 (type_line [] t typed).2 (lq ++ [p])); [|rewrite El2]|].
  cbn [Z.eqb Pos.eqb]. rewrite El2. intros woken s3 (El3 & Eu3 & Em3 & Hscr3 & -> & Hq3 & Hws3).
  change (edit (fold_left edit typed []) 10) with line in El3. apply Runs_bind.
  assert (waiters (cv_queue (tty_condvar s3.1)) !! p = Some (mkWaiter true task 0)) as Hx3.
  { rewrite Hws3, bool_decide_true by (apply elem_of_app; right; by apply list_elem_of_singleton).
    by rewrite Hk2, Hx1. }
  assert (tasks_of (cv_queue (tty_condvar s2.1)) (lq ++ [p]) =
          tasks_of (cv_queue (tty_condvar s.1)) lq ++ [task]) as ->.
  { unfold tasks_of. rewrite map_app. rewrite Hk2. f_equal; [exact Et1|]. simpl. by rewrite Hx1. }
  unfold readInto_woken. apply Runs_bind, Runs_zoom, Runs_zoom. unfold get_waiter.
  apply Runs_bind, Runs_read. eapply Runs_from_option; [exact Hx3|]. cbn [up_flag]. cbv iota.
  unfold on_condvar, on_cv, delete_waiter. apply Runs_bind, Runs_zoom, Runs_zoom, Runs_modify.
  apply Runs_bind. eapply Runs_of_ok; [apply lock_free; [exact Eu3|cbn; rewrite Em3; apply Hs2]|]. cbn [negb].
  eapply (readInto_locked_some _ _ _ (tty_mutex s3.1)); [exact Eu3|rewrite Em3; apply Hs2|done| |lia|].
  { cbn. rewrite El3. unfold line. by destruct (fold_left edit typed []). }
  apply Runs_ret. cbn. rewrite El3. split_and!; try done. split; cbn; [exact Eu3|rewrite Em3; apply Hs2| |done].
  destruct Hq3 as (Hlink & Hlast & Hnd). by split_and!.
Qed.

(** ** First in, first out *)
Inductive TtyOp : Type :=
  | Feed (c : Z)
  | Read (size : Z).

(** One operation, whose result is the bytes read *)
Definition tty_op (p task : Z) (o : TtyOp) : ST Terminal (list Z) :=
  match o with
  | Feed c => feedInput p task c ;; mret []
  | Read size => r ← readInto p task size; mret (default [] r.1)
  end.

Fixpoint tty_run (p task : Z) (ops : list TtyOp) : ST Terminal (list Z) :=
  match ops with
  | [] => mret []
  | o :: ops => r ← tty_op p task o; rs ← tty_run p task ops; mret (r ++ rs)
  end.

Definition fed (ops : list TtyOp) : list Z :=
  omap (fun o => match o with Feed c => Some c | Read _ => None end) ops.

(** The reads find input: the queue has at least one character before each. *)
Fixpoint reads_ready (n : Z) (ops : list TtyOp) : Prop :=
  match ops with
  | [] => True
  | Feed c :: ops => c <> 8 /\ reads_ready (n + 1) ops
  | Read size :: ops => 0 < size /\ 0 < n /\ reads_ready (Z.max 0 (n - size)) ops
  end.

(** ** The keyboard

    The specification of a scan code: the state of the two shift keys, and the character. *)
Definition decode (shifts : bool * bool) (code : Z) : (bool * bool) * option Z :=
  let '(l, r) := shifts in
  if code =? 0x2A then ((true, r), None)
  else if code =? 0xAA then ((false, r), None)
  else if code =? 0x36 then ((l, true), None)
  else if code =? 0xB6 then ((l, false), None)
  else if bool_decide (code ∈ [0x1D; 0x38; 0x3A]) then (shifts, None)
  else (shifts, (if l || r then QwertyUpMap else QwertyLowMap) !! Z.to_nat code).

(** The keyboard itself, in the scan codes of set 1: each row of the US layout from the code of
    its first key, with what is printed on the lower and on the upper half of its keys; the
    other codes are those of escape, backspace, tab, enter and the space bar. *)
Definition us_layout : list (Z * list Z * list Z) :=
  [(0x02, chars "1234567890-=", chars "!@#$%^&*()_+");
   (0x10, chars "qwertyuiop[]", chars "QWERTYUIOP{}");
   (0x1E, chars "asdfghjkl;'`", chars "ASDFGHJKL:" ++ [34] ++ chars "~");
   (0x2B, [92] ++ chars "zxcvbnm,./", chars "|ZXCVBNM<>?");
   (0x01, [27], []); (0x0E, [8], []); (0x0F, [9], []); (0x1C, [10], []); (0x39, chars " ", [])].

(** The code of the key with [c] on its lower or on its upper half *)
Definition key_of (upper : bool) (c : Z) : option Z :=
  head (omap (fun '(first, low, up) =>
    '(i, _) ← list_find (fun x => x = c) (if upper then up else low); Some (first + Z.of_nat i)) us_layout).

(** A key sends its code when it is pressed, and its code with bit 7 when it is released; a
    character of the upper half needs the left shift key, whose code is 0x2A. *)
Definition press (c : Z) : list Z :=
  match key_of false c, key_of true c with
  | Some code, _ => [code; code + 0x80]
  | None, Some code => [0x2A; code; code + 0x80; 0xAA]
  | None, None => []
  end.

(** The characters on the keyboard *)
Definition us_characters : list Z := concat (map (fun '(_, low, up) => low ++ up) us_layout).

Definition typeable (c : Z) : Prop := c ∈ us_characters.

(** The scan codes of several interrupts; the value is the tasks woken up. *)
Fixpoint scan_all (p task : Z) (codes : list Z) : ST Keyboard (list Z) :=
  match codes with
  | [] => mret []
  | c :: codes => r ← handle_scancode p task c; rs ← scan_all p task codes; mret (default [] r ++ rs)
  end.

Fixpoint type_all (p task : Z) (text : list Z) : ST Terminal (list Z) :=
  match text with
  | [] => mret []
  | c :: text => r ← feedInput p task c; rs ← type_all p task text; mret (default [] r ++ rs)
  end.

Lemma handle_scancode_decode p task code l r t :
  0 <= code ->
  handle_scancode p task code (mkKeyboard l r t) =
  let '((l', r'), o) := decode (l, r) code in
  match o with
  | Some c => zoom terminal set_terminal (feedInput p task c) (mkKeyboard l' r' t)
  | None => Ok (Some [], mkKeyboard l' r' t)
  end.
Proof.
  intros Hc. unfold handle_scancode, decode.
  destruct (Z.eqb_spec code 0x2A) as [|H1]; [done|]. destruct (Z.eqb_spec code 0xAA) as [|H2]; [done|].
  destruct (Z.eqb_spec code 0x36) as [|H3]; [done|]. destruct (Z.eqb_spec code 0xB6) as [|H4]; [done|].
  rewrite (bool_decide_ext _ (code = 0x1D \/ code = 0x38 \/ code = 0x3A)) by (by rewrite !elem_of_cons, elem_of_nil; tauto).
  destruct (Z.eqb_spec code 0x1D) as [->|H5]; [done|]. destruct (Z.eqb_spec code 0x38) as [->|H6]; [done|].
  destruct (Z.eqb_spec code 0x3A) as [->|H7]; [done|]. cbn [orb].
  rewrite bool_decide_false by tauto. cbn [lshift rshift].
  change (Z.of_nat (length QwertyUpMap)) with 60.
  assert (forall m : list Z, length m = 60%nat -> (m !! Z.to_nat code = None <-> 60 <= code)) as Hm.
  { intros m Hl. rewrite lookup_ge_None, Hl. lia. }
  set (m := if l || r then QwertyUpMap else QwertyLowMap).
  assert (length m = 60%nat) as Hl by (unfold m; by destruct (l || r)).
  destruct (Z.ltb_spec code 60) as [Hlt|Hge].
  - rewrite bind_read. cbn [lshift rshift]. fold m.
    destruct (m !! Z.to_nat code) as [c|] eqn:E; [|apply (Hm m Hl) in E; lia]. done.
  - by rewrite (proj2 (Hm m Hl) Hge).
Qed.

(** A code that is no character, and one that is *)
Lemma scan_silent p task code codes s s' t :
  0 <= code -> decode s code = (s', None) ->
  scan_all p task (code :: codes) (mkKeyboard s.1 s.2 t) = scan_all p task codes (mkKeyboard s'.1 s'.2 t).
Proof.
  intros Hc Hd. destruct s as [l r], s' as [l' r']. cbn [scan_all fst snd].
  erewrite bind_run by (rewrite handle_scancode_decode, Hd by done; done).
  unfold mbind, ST_bind. by destruct (scan_all p task codes _) as [[]|].
Qed.

Lemma scan_char p task code codes s c t :
  0 <= code -> decode s code = (s, Some c) ->
  scan_all p task (code :: codes) (mkKeyboard s.1 s.2 t) =
  match feedInput p task c t with
  | Ok (r, t') =>
      match scan_all p task codes (mkKeyboard s.1 s.2 t') with
      | Ok (rs, k) => Ok (default [] r ++ rs, k)
      | Err e => Err e
      end
  | Err e => Err e
  end.
Proof.
  intros Hc Hd. destruct s as [l r]. cbn [scan_all fst snd].
  assert (handle_scancode p task code (mkKeyboard l r t) =
    zoom terminal set_terminal (feedInput p task c) (mkKeyboard l r t)) as E
    by (rewrite handle_scancode_decode, Hd by done; done).
  unfold zoom in E. cbn [terminal] in E. unfold mbind, ST_bind. rewrite E.
  by destruct (feedInput p task c t) as [[]|].
Qed.

(** Each character is typed by its keys, from and to a state with the shift keys released. *)
Definition press_ok (c : Z) : bool :=
  match press c with
  | [code; up] =>
      bool_decide (0 <= code /\ 0 <= up) &&
      bool_decide (decode (false, false) code = ((false, false), Some c)) &&
      bool_decide (decode (false, false) up = ((false, false), None))
  | [down; code; up; release] =>
      bool_decide (0 <= down /\ 0 <= code /\ 0 <= up /\ 0 <= release) &&
      bool_decide (decode (false, false) down = ((true, false), None)) &&
      bool_decide (decode (true, false) code = ((true, false), Some c)) &&
      bool_decide (decode (true, false) up = ((true, false), None)) &&
      bool_decide (decode (true, false) release = ((false, false), None))
  | _ => false
  end.

Lemma typeable_press c : typeable c -> press_ok c = true.
Proof.
  intros Hin. assert (forallb press_ok us_characters = true) as H by (by vm_compute).
  rewrite forallb_forall in H. exact (H c (proj1 (list_elem_of_In _ _) Hin)).
Qed.

Lemma scan_press p task c codes t :
  typeable c ->
  scan_all p task (press c ++ codes) (mkKeyboard false false t) =
  match feedInput p task c t with
  | Ok (r, t') =>
      match scan_all p task codes (mkKeyboard false false t') with
      | Ok (rs, k) => Ok (default [] r ++ rs, k)
      | Err e => Err e
      end
  | Err e => Err e
  end.
Proof.
  intros Hc%typeable_press. unfold press_ok in Hc.
  destruct (press c) as [|c1 [|c2 [|c3 [|c4 [|? ?]]]]]; try discriminate;
    rewrite !andb_true_iff, !bool_decide_eq_true in Hc; cbn [app].
  - destruct Hc as [[[H1 H2] E1] E2].
    rewrite (scan_char p task c1 _ (false, false) c) by done.
    destruct (feedInput p task c t) as [[r t']|e]; [|done]. cbn [fst snd].
    by rewrite (scan_silent p task c2 codes (false, false) (false, false)).
  - destruct Hc as [[[[(H1 & H2 & H3 & H4) E1] E2] E3] E4].
    rewrite (scan_silent p task c1 _ (false, false) (true, false)) by done.
    rewrite (scan_char p task c2 _ (true, false) c) by done.
    destruct (feedInput p task c t) as [[r t']|e]; [|done]. cbn [fst snd].
    rewrite (scan_silent p task c3 _ (true, false) (true, false)) by done.
    by rewrite (scan_silent p task c4 codes (true, false) (false, false)).
Qed.

(** C34. The keyboard round trip: when a text of the characters of a US keyboard is typed, key by
    key, on a keyboard that sends the scan codes of set 1, with a shift key pressed and released
    around the characters on the upper half of a key, the interrupts feed the terminal that
    text, character by character, wake the same tasks up, and leave the shift keys released. *)
Theorem keyboard_types p task text t :
  Forall typeable text ->
  scan_all p task (concat (map press text)) (mkKeyboard false false t) =
  zoom terminal set_terminal (type_all p task text) (mkKeyboard false false t).
Proof.
  intros Htext. revert t. induction Htext as [|c text Hc Htext IH]; intros t; [done|].
  cbn [map concat type_all]. rewrite scan_press by done. unfold zoom, mbind, ST_bind. cbn [terminal].
  destruct (feedInput p task c t) as [[r t']|e]; [|done]. rewrite IH. unfold zoom. cbn [terminal].
  by destruct (type_all p task text t') as [[rs t'']|e].
Qed.

(** The test against the size of the map lets its last byte through: the key F1, scan code 59,
    types the zero that ends the literal. *)
Theorem f1_types_zero p task l r t :
  handle_scancode p task 0x3B (mkKeyboard l r t) =
  zoom terminal set_terminal (feedInput p task 0) (mkKeyboard l r t).
Proof. rewrite handle_scancode_decode by done. by destruct l, r. Qed.
(** ** The theorems at work: a terminal just made *)
Definition example_tty : Terminal := (mkTty [] new_Mutex (mkCondVar empty_queue 0), blank_screen).

Lemma example_idle : idle example_sheet [] example_tty.
Proof. split; [done|done|apply queue_empty|apply blank_screen_shows]. Qed.

Lemma read_line_witness :
  Runs (r1 ← readInto 0x100 5 3;
        rs ← feed_all 0 1 [97; 98; 8; 99];
        woken ← feedInput 0 1 10;
        r2 ← readInto_woken 0x100 5 3;
        mret (r1, rs, woken, r2)) example_tty (fun '(r1, rs, woken, r2) s' =>
    woken = Some [5] /\ r2 = (Some [97; 99; 10], []) /\ stdin s'.1 = []).
Proof.
  eapply Runs_mono.
  - apply (read_line 0x100 5 3 0 1
      [97; 98; 8; 99] example_sheet []); [exact example_idle|done|done|done|done|done| |by vm_compute].
    rewrite !not_elem_of_cons. split_and!; try done. apply not_elem_of_nil.
  - by intros [[[r1 rs] woken] r2] s' (_ & _ & -> & -> & -> & _).
Defined.


Lemma keyboard_types_witness :
  scan_all 0 1 [0x23; 0xA3; 0x2A; 0x17; 0x97; 0xAA] (mkKeyboard false false example_tty) =
  zoom terminal set_terminal (type_all 0 1 (chars "hI")) (mkKeyboard false false example_tty).
Proof.
  assert ([0x23; 0xA3; 0x2A; 0x17; 0x97; 0xAA] = concat (map press (chars "hI"))) as -> by (by vm_compute).
  apply (keyboard_types 0 1 (chars "hI") example_tty).
  assert (forall c, bool_decide (c ∈ us_characters) = true -> typeable c) as Ht
    by (by intros c H%bool_decide_eq_true).
  constructor; [apply Ht; by vm_compute|]. constructor; [apply Ht; by vm_compute|constructor].
Defined.
