(* ===== verification/Cpio.v ===== *)
(** * The archive the root file system is read from: [Cpio.cpp]

    The archive is in memory, as the list of bytes from its first one on; reading outside of
    it has no defined outcome.  [readArchive] makes an inode for each entry, and folders for
    the paths of the entries.  The virtual methods of its inodes are in [Fs]. *)

From Stdlib Require Import ZArith Lia.
From stdpp Require Import list numbers gmap strings.
From S2P Require Import Prelude Words Fs.

(** ** [CpioFs::makeFile] *)
Section make_file.
Context {C : Type}.

(** [curInode->_children.push_back(child)] *)
Definition push_child (this child : Z) : ST (FsState C) unit :=
  i ← deref_inode this;
  match i_body i with
  | CpioFolderInode children =>
      update_inode this (set_i_body (CpioFolderInode (children ++ [child])))
  | CpioFileInode _ => fail (Undefined "children of a file")
  end.

(** The loop, at [path] in the string that starts with [seg] at [start]. *)
Fixpoint makeFile_loop (curInode : Z) (seg path : str) : ST (FsState C) (option Z) :=
  match path with
  | [] =>
      assertion (bool_decide (seg <> [])) "start < path" ;;
      finalInode ← make_inode (set_i_name seg new_file);
      push_child curInode finalInode ;;
      mret (Some finalInode)
  | c :: path' =>
      if c =? slash then
        assertion (bool_decide (seg <> [])) "start < path" ;;
        expChild ← inode_lookup curInode (c_str seg);
        match expChild with
        | Value child =>
            i ← deref_inode child;
            if negb (Z.land (i_mode i) S_IFMT =? S_IFDIR) then mret None
            else
              match i_body i with
              | CpioFolderInode _ => makeFile_loop child [] path'
              | CpioFileInode _ => fail (Undefined "a file cast to a folder")
              end
        | Unexpected _ =>
            newFolder ← make_inode (set_i_mode S_IFDIR (set_i_name seg new_folder));
            push_child curInode newFolder ;;
            makeFile_loop newFolder [] path'
        end
      else makeFile_loop curInode (seg ++ [c]) path'
  end.

(** The inode of the file, or null when a part of the path is not a folder. *)
Definition makeFile (_root : Z) (path : str) : ST (FsState C) (option Z) :=
  makeFile_loop _root [] (c_str path).

(** ** [readArchive] *)

(** A 16-bit member of [CpioFileBlock], at its offset. *)
Definition u16_at (ptr : str) (offset : nat) : ST (FsState C) Z :=
  match drop offset ptr with
  | lo :: hi :: _ => mret (lo + 256 * hi)
  | _ => fail (Undefined "read past the archive")
  end.

Definition bytes_at (ptr : str) (n : Z) : ST (FsState C) str :=
  if n <=? data_size ptr then mret (take (Z.to_nat n) ptr)
  else fail (Undefined "read past the archive").

Definition CPIO_MAGIC : Z := 29127.               (** [070707] *)
Definition CPIO_BLOCK_SIZE : nat := 26.           (** [sizeof(CpioFileBlock)] *)
Definition TRAILER : str := chars "TRAILER!!!".

(** The pointer moved over [n] bytes, and over one more when [n] is odd. *)
Definition skip_padded (n : Z) (ptr : str) : str :=
  drop (Z.to_nat (n + (if Z.odd n then 1 else 0))) ptr.

(** The loop; an archive of [k] bytes has less than [k] entries. *)
Fixpoint readArchive_loop (fuel : nat) (cpiofs : Z) (ptr : str) : ST (FsState C) unit :=
  match fuel with
  | O => fail OutOfFuel
  | S fuel =>
      magic ← u16_at ptr 0;
      if negb (magic =? CPIO_MAGIC) then panic "invalid magic number in cpio file"
      else
        filesize_hi ← u16_at ptr 22;
        filesize_lo ← u16_at ptr 24;
        let filesize := u32 (Z.lor (Z.shiftl filesize_hi 16) filesize_lo) in
        namesize ← u16_at ptr 20;
        mode ← u16_at ptr 6;
        let ptr := drop CPIO_BLOCK_SIZE ptr in
        if namesize =? 0 then fail (Undefined "std::length_error")
        else
          sname ← bytes_at ptr (namesize - 1);
          if bool_decide (sname = TRAILER) then mret tt
          else
            let ptr := skip_padded namesize ptr in
            file ← makeFile cpiofs sname;
            match file with
            | Some file =>
                data ← bytes_at ptr filesize;
                update_inode file (fun i => set_i_mode mode (set_i_size filesize
                  (set_i_body (CpioFileInode data) i)))
            | None => mret tt
            end ;;
            readArchive_loop fuel cpiofs (skip_padded filesize ptr)
  end.

(** The root of the new file system. *)
Definition readArchive (data : str) : ST (FsState C) Z :=
  cpiofs ← make_inode new_folder;
  readArchive_loop (length data) cpiofs data ;;
  mret cpiofs.
End make_file.

(** ** The tree of an archive

    [G] gives each inode of the tree its path from the root. *)
Definition is_folder (i : Inode) : Prop := exists ch, i_body i = CpioFolderInode ch.
Definition is_dir_mode (mode : Z) : bool := Z.land mode S_IFMT =? S_IFDIR.

Record tree (G : gmap Z (list str)) (m : gmap Z Inode) (root : Z) : Prop := {
  tree_root : G !! root = Some [];
  tree_root_folder i : m !! root = Some i -> is_folder i;
  tree_live p path : G !! p = Some path -> is_Some (m !! p);
  tree_child p path i ch c :
    G !! p = Some path -> m !! p = Some i -> i_body i = CpioFolderInode ch -> c ∈ ch ->
    exists j, m !! c = Some j /\ G !! c = Some (path ++ [i_name j]);
  tree_dir p path i :
    G !! p = Some path -> path <> [] -> m !! p = Some i ->
    (is_folder i <-> is_dir_mode (i_mode i) = true);
}.

(** [m'] has what [m] has: the paths of the tree lead where they led. *)
Definition leads (G : gmap Z (list str)) (m m' : gmap Z Inode) : Prop :=
  forall x q r, is_Some (G !! x) -> resolve m x q = Some r -> resolve m' x q = Some r.

Section trees.
Context (G : gmap Z (list str)) (m : gmap Z Inode) (root : Z) (Htree : tree G m root).

Lemma tree_find p path i ch name c :
  G !! p = Some path -> m !! p = Some i -> i_body i = CpioFolderInode ch ->
  find_child m name ch = Some c -> G !! c = Some (path ++ [name]).
Proof using Htree.
  intros Hp Hi Hb (Hc & j & Hj & <-)%find_child_Some.
  destruct (tree_child _ _ _ Htree p path i ch c) as (j' & Hj' & Hg); [done..|].
  by rewrite Hj in Hj'; injection Hj' as <-.
Qed.

Lemma resolve_tree x path q c :
  G !! x = Some path -> resolve m x q = Some c -> G !! c = Some (path ++ q).
Proof using Htree.
  revert x path. induction q as [|name q IH]; intros x path Hx H; simpl in H.
  - injection H as <-. by rewrite app_nil_r.
  - destruct (m !! x) as [i|] eqn:Hi; [|done]. simpl in H.
    destruct (i_body i) as [ch|] eqn:Hb; [|done].
    destruct (find_child m name ch) as [y|] eqn:Hy; [|done]. simpl in H.
    rewrite cons_middle, app_assoc. apply (IH y); [|done]. by eapply tree_find.
Qed.

(** Adding a child [c], the new inode [j], to the folder [cur]. *)
Context (cur : Z) (path : list str) (i : Inode) (ch : list Z) (c : Z) (j : Inode).
Context (Hcur : G !! cur = Some path) (Hi : m !! cur = Some i)
  (Hb : i_body i = CpioFolderInode ch) (Hc : m !! c = None).

Definition added_inodes : gmap Z Inode :=
  <[cur := set_i_body (CpioFolderInode (ch ++ [c])) i]> (<[c := j]> m).
Definition added_paths : gmap Z (list str) := <[c := path ++ [i_name j]]> G.

Lemma added_ne : cur <> c.
Proof using Hi Hc. intros E. pose proof Hi as H. by rewrite E, Hc in H. Qed.

Lemma added_fresh : G !! c = None.
Proof using Htree Hc.
  clear Hcur Hi Hb. destruct (G !! c) as [q|] eqn:E; [|done]. apply (tree_live _ _ _ Htree) in E as [x Hx].
  by rewrite Hx in Hc.
Qed.

Lemma added_name p : is_Some (m !! p) -> i_name <$> added_inodes !! p = i_name <$> m !! p.
Proof using Hi Hc.
  clear Hcur Htree Hb. intros [x Hx]. unfold added_inodes. destruct (decide (p = cur)) as [->|].
  - by rewrite lookup_insert_eq, Hi.
  - rewrite lookup_insert_ne, lookup_insert_ne by congruence. done.
Qed.

Lemma added_find name l :
  (forall x, x ∈ l -> is_Some (m !! x)) -> find_child added_inodes name l = find_child m name l.
Proof using Hi Hc.
  induction l as [|x l IH]; intros Hl; [done|]. simpl.
  rewrite added_name by (apply Hl; by left). rewrite IH; [done|]. intros y Hy. apply Hl. by right.
Qed.

Lemma find_child_app m' name l1 l2 :
  find_child m' name (l1 ++ l2) =
  match find_child m' name l1 with Some x => Some x | None => find_child m' name l2 end.
Proof. induction l1 as [|x l1 IH]; [done|]. simpl. by case_bool_decide. Qed.

Lemma children_live p q x l y :
  G !! p = Some q -> m !! p = Some x -> i_body x = CpioFolderInode l -> y ∈ l -> is_Some (m !! y).
Proof using Htree.
  intros Hp Hx Hl Hy. destruct (tree_child _ _ _ Htree p q x l y) as (z & Hz & _); [done..|]. by exists z.
Qed.

Lemma added_leads : leads G m added_inodes.
Proof using Htree Hcur Hi Hb Hc.
  intros x q r [px Hx]. revert x px Hx. induction q as [|name q IH]; intros x px Hx H; [done|].
  cbn [resolve] in *. destruct (m !! x) as [ix|] eqn:Hix; [|done]. simpl in H.
  destruct (i_body ix) as [l|] eqn:Hl; [|done].
  destruct (find_child m name l) as [y|] eqn:Hy; [|done]. simpl in H.
  pose proof (tree_find _ _ _ _ _ _ Hx Hix Hl Hy) as Hyp.
  unfold added_inodes at 1. destruct (decide (x = cur)) as [->|Hne].
  - rewrite lookup_insert_eq. simpl. rewrite Hi in Hix. injection Hix as <-.
    rewrite Hb in Hl. injection Hl as <-.
    rewrite find_child_app, added_find, Hy by (intros y' Hy'; by apply (children_live cur px i ch)).
    simpl. by eapply IH.
  - rewrite lookup_insert_ne, lookup_insert_ne by congruence. rewrite Hix. simpl. rewrite Hl.
    rewrite added_find, Hy by (intros y' Hy'; by apply (children_live x px ix l)). simpl. by eapply IH.
Qed.

Lemma added_new :
  find_child m (i_name j) ch = None -> resolve added_inodes cur [i_name j] = Some c.
Proof using Htree Hcur Hi Hb Hc.
  intros Hn. cbn [resolve]. unfold added_inodes at 1. rewrite lookup_insert_eq. simpl.
  rewrite find_child_app, added_find, Hn by (intros y Hy; by apply (children_live cur path i ch)). simpl.
  unfold added_inodes. rewrite lookup_insert_ne, lookup_insert_eq by apply added_ne.
  by rewrite bool_decide_true.
Qed.

Lemma added_tree :
  (is_folder j <-> is_dir_mode (i_mode j) = true) -> (forall l, i_body j = CpioFolderInode l -> l = []) ->
  tree added_paths added_inodes root.
Proof using Htree Hcur Hi Hb Hc.
  intros Hdir Hempty. pose proof added_ne as Hne. pose proof added_fresh as Hfresh.
  assert (forall p q, added_paths !! p = Some q -> p <> c -> G !! p = Some q) as Hold.
  { intros p q Hp Hpc. unfold added_paths in Hp. by rewrite lookup_insert_ne in Hp. }
  assert (forall p, p <> cur -> p <> c -> added_inodes !! p = m !! p) as Hsame.
  { intros p H1 H2. unfold added_inodes. by rewrite !lookup_insert_ne by done. }
  assert (added_inodes !! c = Some j) as Hcj.
  { unfold added_inodes. by rewrite lookup_insert_ne, lookup_insert_eq. }
  assert (added_inodes !! cur = Some (set_i_body (CpioFolderInode (ch ++ [c])) i)) as Hcuri.
  { unfold added_inodes. by rewrite lookup_insert_eq. }
  assert (forall y z, m !! y = Some z -> exists z', added_inodes !! y = Some z' /\ i_name z' = i_name z) as Hnames.
  { intros y z Hy. pose proof (added_name y (mk_is_Some _ _ Hy)) as E. rewrite Hy in E.
    destruct (added_inodes !! y) as [z'|]; [|done]. exists z'. split; [done|]. by injection E. }
  split.
  - unfold added_paths. rewrite lookup_insert_ne; [apply Htree|]. intros <-.
    by rewrite (tree_root _ _ _ Htree) in Hfresh.
  - intros x Hx. destruct (decide (root = cur)) as [E|Hrc].
    + rewrite E, Hcuri in Hx. injection Hx as <-. by eexists.
    + rewrite Hsame in Hx; [by eapply tree_root_folder|done|]. intros E.
      rewrite <- E, (tree_root _ _ _ Htree) in Hfresh. done.
  - intros p q Hp. destruct (decide (p = c)) as [->|Hpc]; [by rewrite Hcj|].
    apply Hold in Hp; [|done]. apply (tree_live _ _ _ Htree) in Hp as [x Hx].
    by apply Hnames in Hx as (z & -> & _).
  - intros p q x l y Hp Hx Hl Hy. destruct (decide (p = c)) as [->|Hpc].
    { rewrite Hcj in Hx. injection Hx as <-. apply Hempty in Hl as ->. by apply elem_of_nil in Hy. }
    apply Hold in Hp; [|done]. destruct (decide (p = cur)) as [->|Hpcur].
    + rewrite Hcuri in Hx. injection Hx as <-. injection Hl as <-. rewrite Hcur in Hp. injection Hp as <-.
      apply elem_of_app in Hy as [Hy|Hy%list_elem_of_singleton].
      * destruct (tree_child _ _ _ Htree cur path i ch y) as (z & Hz & Hg); [done..|].
        destruct (Hnames y z Hz) as (z' & Hz' & En). exists z'. split; [done|]. rewrite En.
        unfold added_paths. rewrite lookup_insert_ne; [done|]. intros <-. by rewrite Hg in Hfresh.
      * subst y. exists j. split; [done|]. unfold added_paths. by rewrite lookup_insert_eq.
    + rewrite Hsame in Hx by done.
      destruct (tree_child _ _ _ Htree p q x l y) as (z & Hz & Hg); [done..|].
      destruct (Hnames y z Hz) as (z' & Hz' & En). exists z'. split; [done|]. rewrite En.
      unfold added_paths. rewrite lookup_insert_ne; [done|]. intros <-. by rewrite Hg in Hfresh.
  - intros p q x Hp Hq Hx. destruct (decide (p = c)) as [->|Hpc].
    { rewrite Hcj in Hx. by injection Hx as <-. }
    apply Hold in Hp; [|done]. destruct (decide (p = cur)) as [->|Hpcur].
    + rewrite Hcuri in Hx. injection Hx as <-. simpl.
      destruct (tree_dir _ _ _ Htree cur q i Hp Hq Hi) as [Hd _]. split; intros _.
      * apply Hd. by eexists.
      * by eexists.
    + rewrite Hsame in Hx by done. by eapply tree_dir.
Qed.
End trees.

(** ** Making the file of a path *)
Section make_file_spec.
Context {C : Type} (root : Z).
Implicit Types (s : FsState C) (G : gmap Z (list str)) (parts : list str).

Record archive G s : Prop := {
  archive_tree : tree G (inodes s) root;
  archive_fresh p : next_object s <= p -> inodes s !! p = None;
}.

Record extends G s G' s' : Prop := {
  ext_paths : G ⊆ G';
  ext_leads : leads G (inodes s) (inodes s');
  ext_old p i : is_Some (G !! p) -> inodes s !! p = Some i ->
    exists i', inodes s' !! p = Some i' /\ (i' = i \/ is_folder i /\ is_folder i');
  ext_rest : s' = set_next_object (next_object s') (set_inodes (inodes s') s);
}.

Lemma extends_trans G1 s1 G2 s2 G3 s3 :
  extends G1 s1 G2 s2 -> extends G2 s2 G3 s3 -> extends G1 s1 G3 s3.
Proof.
  intros [P1 L1 O1 R1] [P2 L2 O2 R2].
  assert (forall p, is_Some (G1 !! p) -> is_Some (G2 !! p)) as Hsub.
  { intros p [q Hq]. exists q. by eapply lookup_weaken. }
  split.
  - by etrans.
  - intros x q r Hx Hr. apply L2; [by apply Hsub|]. by apply L1.
  - intros p i Hp Hi. destruct (O1 p i Hp Hi) as (i2 & Hi2 & H2).
    destruct (O2 p i2 (Hsub p Hp) Hi2) as (i3 & Hi3 & H3). exists i3. split; [done|].
    destruct H2 as [-> | [? ?]], H3 as [-> | [? ?]]; first [by left | by right].
  - rewrite R2. rewrite R1. done.
Qed.

(** A new inode, made the last child of the folder [cur]. *)
Definition with_child s (cur : Z) (i : Inode) (ch : list Z) (j : Inode) : FsState C :=
  set_next_object (next_object s + 1)
    (set_inodes (added_inodes (inodes s) cur i ch (next_object s) j) s).

Lemma add_child_run {A} s cur i ch j (k : Z -> ST (FsState C) A) :
  (forall p, next_object s <= p -> inodes s !! p = None) ->
  inodes s !! cur = Some i -> i_body i = CpioFolderInode ch ->
  (p ← make_inode j; push_child cur p ;; k p) s = k (next_object s) (with_child s cur i ch j).
Proof.
  intros Hfresh Hi Hb. assert (cur <> next_object s) as Hne.
  { intros ->. by rewrite (Hfresh (next_object s)) in Hi by lia. }
  unfold make_inode. erewrite bind_run; [|by rewrite bind_read, bind_modify].
  assert (<[next_object s:=j]> (inodes s) !! cur = Some i) as Hi'.
  { by rewrite lookup_insert_ne by congruence. }
  unfold push_child. erewrite bind_run; [done|].
  rewrite (bind_run _ _ _ _ _ (deref_inode_run (set_next_object _ (set_inodes _ s)) cur i Hi')), Hb.
  unfold update_inode.
  by rewrite (bind_run _ _ _ _ _ (deref_inode_run (set_next_object _ (set_inodes _ s)) cur i Hi')).
Qed.

Lemma with_child_ok G s cur path i ch j :
  archive G s -> G !! cur = Some path -> inodes s !! cur = Some i -> i_body i = CpioFolderInode ch ->
  (is_folder j <-> is_dir_mode (i_mode j) = true) -> (forall l, i_body j = CpioFolderInode l -> l = []) ->
  let G' := added_paths G path (next_object s) j in
  let s' := with_child s cur i ch j in
  archive G' s' /\ extends G s G' s' /\ G !! next_object s = None /\ inodes s' !! next_object s = Some j /\
  G' !! next_object s = Some (path ++ [i_name j]) /\
  (find_child (inodes s) (i_name j) ch = None -> resolve (inodes s') cur [i_name j] = Some (next_object s)).
Proof.
  intros [Ht Hf] Hcur Hi Hb Hdir Hempty G' s'. pose proof (Hf (next_object s) ltac:(lia)) as Hnew.
  assert (G !! next_object s = None) as HG by (by eapply added_fresh).
  assert (cur <> next_object s) as Hne by (by eapply added_ne).
  split_and!; [split| |done| | |].
  - by apply (added_tree G (inodes s) root Ht cur path).
  - cbn. intros p Hp. unfold added_inodes.
    rewrite !lookup_insert_ne; [apply Hf; lia|lia|]. intros ->. by rewrite Hf in Hi by lia.
  - split; [by apply insert_subseteq|by eapply added_leads| |done].
    intros p x Hp Hx. cbn. unfold added_inodes. destruct (decide (cur = p)) as [<-|Hpc].
    + rewrite lookup_insert_eq. eexists. split; [done|]. right. rewrite Hi in Hx. injection Hx as <-.
      split; by eexists.
    + rewrite lookup_insert_ne by done. exists x. split; [|by left].
      rewrite lookup_insert_ne; [done|]. intros <-. destruct Hp as [? Hp]. by rewrite HG in Hp.
  - cbn. unfold added_inodes. by rewrite lookup_insert_ne, lookup_insert_eq.
  - unfold G', added_paths. by rewrite lookup_insert_eq.
  - intros Hn. by eapply (added_new G (inodes s) root Ht).
Qed.

Lemma makeFile_loop_name (cur : Z) seg p rest :
  slash ∉ p -> @makeFile_loop C cur seg (p ++ rest) = makeFile_loop cur (seg ++ p) rest.
Proof.
  revert seg. induction p as [|c p IH]; intros seg Hp; [by rewrite app_nil_r|].
  apply not_elem_of_cons in Hp as [Hc Hp]. simpl. rewrite (proj2 (Z.eqb_neq _ _)) by done.
  rewrite IH by done. by rewrite <- app_assoc.
Qed.

(** What the loop does with the parts that are left, [cur] being the folder of [path]. *)
Definition made G s (cur : Z) (path parts : list str) : Prop :=
  exists G' s' f nm,
    makeFile_loop cur [] (relative_path parts) s = Ok (Some f, s') /\
    archive G' s' /\ extends G s G' s' /\ G !! f = None /\
    resolve (inodes s') cur parts = Some f /\ inodes s' !! f = Some (set_i_name nm new_file) /\
    forall p q, G' !! p = Some q -> G !! p = None -> p <> f ->
      (exists i, inodes s' !! p = Some i /\ is_folder i) /\ exists r, r <> [] /\ path ++ parts = q ++ r.

Definition no_conflict s (cur : Z) parts : Prop :=
  resolve (inodes s) cur parts = None /\
  forall q r c, parts = q ++ r -> q <> [] -> r <> [] -> resolve (inodes s) cur q = Some c ->
    exists i, inodes s !! c = Some i /\ is_folder i.

Lemma relative_path_one (p : str) : relative_path [p] = p ++ [].
Proof. done. Qed.

Lemma relative_path_cons (p q : str) parts :
  relative_path (p :: q :: parts) = p ++ slash :: relative_path (q :: parts).
Proof. done. Qed.

Lemma resolve_cons m cur i ch p parts :
  m !! cur = Some i -> i_body i = CpioFolderInode ch ->
  resolve m cur (p :: parts) = c ← find_child m p ch; resolve m c parts.
Proof. intros Hi Hb. simpl. rewrite Hi. simpl. by rewrite Hb. Qed.

(** The last part: the file. *)
Lemma made_file G s cur path i ch p :
  archive G s -> G !! cur = Some path -> inodes s !! cur = Some i -> i_body i = CpioFolderInode ch ->
  good_name p -> find_child (inodes s) p ch = None -> made G s cur path [p].
Proof.
  intros Ha Hcur Hi Hb (Hne & Hs & H0) Hn.
  destruct (with_child_ok G s cur path i ch (set_i_name p new_file) Ha Hcur Hi Hb) as (Ha' & Hx & Hg & Hj & Hg' & Hr).
  { split; [by intros [l Hl]|done]. } { done. }
  exists (added_paths G path (next_object s) (set_i_name p new_file)),
    (with_child s cur i ch (set_i_name p new_file)), (next_object s), p.
  split_and!; try done; [|by apply Hr|].
  - rewrite relative_path_one, makeFile_loop_name by done. cbn [makeFile_loop app].
    rewrite bind_assertion by (by rewrite bool_decide_true).
    by rewrite (add_child_run s cur i ch) by (done || apply Ha).
  - intros x q Hq Hold Hxf. unfold added_paths in Hq.
    rewrite lookup_insert_ne in Hq by done. by rewrite Hq in Hold.
Qed.

(** The part of a folder that exists. *)
Lemma made_existing G s cur path i ch p q parts c :
  archive G s -> G !! cur = Some path -> inodes s !! cur = Some i -> i_body i = CpioFolderInode ch ->
  good_name p -> find_child (inodes s) p ch = Some c ->
  (exists ic, inodes s !! c = Some ic /\ is_folder ic) ->
  made G s c (path ++ [p]) (q :: parts) -> made G s cur path (p :: q :: parts).
Proof.
  intros Ha Hcur Hi Hb (Hne & Hs & H0) Hc (ic & Hic & [l Hl]) (G' & s' & f & nm & Hrun & Ha' & Hx & Hg & Hr & Hf & Hnew).
  pose proof (tree_find G _ root (archive_tree _ _ Ha) cur path i ch p c Hcur Hi Hb Hc) as HGc.
  exists G', s', f, nm. split_and!; try done.
  - rewrite relative_path_cons, makeFile_loop_name by done. cbn [makeFile_loop app].
    rewrite Z.eqb_refl. rewrite bind_assertion by (by rewrite bool_decide_true).
    rewrite c_str_id by done. rewrite (bind_run _ _ _ _ _ (inode_lookup_run s cur i p Hi)), Hb, Hc.
    cbv iota. rewrite (bind_run _ _ _ _ _ (deref_inode_run _ _ _ Hic)).
    assert (is_dir_mode (i_mode ic) = true) as Hd.
    { apply (tree_dir _ _ _ (archive_tree _ _ Ha) c (path ++ [p]) ic); [done| |done|by exists l].
      by intros []%app_eq_nil. }
    unfold is_dir_mode in Hd. rewrite Hd, Hl. done.
  - pose proof (ext_leads _ _ _ _ Hx cur [p] c (mk_is_Some _ _ Hcur)) as Hlead.
    change (p :: q :: parts) with ([p] ++ q :: parts). rewrite resolve_app, Hlead; [done|].
    rewrite (resolve_cons _ _ _ _ _ _ Hi Hb), Hc. done.
  - intros x y Hy Hold Hxf. destruct (Hnew x y Hy Hold Hxf) as [Hfold (r & Hrne & Hpath)].
    split; [done|]. exists r. split; [done|]. by rewrite <- Hpath, <- app_assoc.
Qed.

(** The part of a folder that is made. *)
Lemma made_created G s cur path i ch p q parts :
  let j := set_i_mode S_IFDIR (set_i_name p new_folder) in
  let s1 := with_child s cur i ch j in
  archive G s -> G !! cur = Some path -> inodes s !! cur = Some i -> i_body i = CpioFolderInode ch ->
  good_name p -> find_child (inodes s) p ch = None ->
  made (added_paths G path (next_object s) j) s1 (next_object s) (path ++ [p]) (q :: parts) ->
  made G s cur path (p :: q :: parts).
Proof.
  intros j s1 Ha Hcur Hi Hb (Hne & Hs & H0) Hn (G' & s' & f & nm & Hrun & Ha' & Hx & Hg & Hr & Hf & Hnew).
  destruct (with_child_ok G s cur path i ch j Ha Hcur Hi Hb) as (Ha1 & Hx1 & Hg1 & Hj & Hg1' & Hr1).
  { split; [done|by eexists]. } { by intros l [= <-]. }
  fold s1 in Ha1, Hx1, Hj, Hr1. exists G', s', f, nm. split_and!; try done.
  - rewrite relative_path_cons, makeFile_loop_name by done. cbn [makeFile_loop app].
    rewrite Z.eqb_refl. rewrite bind_assertion by (by rewrite bool_decide_true).
    rewrite c_str_id by done. rewrite (bind_run _ _ _ _ _ (inode_lookup_run s cur i p Hi)), Hb, Hn.
    cbv iota. rewrite (add_child_run s cur i ch) by (done || apply Ha). done.
  - by eapply extends_trans.
  - destruct (G !! f) as [y|] eqn:E; [|done]. exfalso.
    by rewrite (lookup_weaken _ _ _ _ E (ext_paths _ _ _ _ Hx1)) in Hg.
  - pose proof (ext_leads _ _ _ _ Hx cur [p] (next_object s)) as Hlead.
    change (p :: q :: parts) with ([p] ++ q :: parts). rewrite resolve_app, Hlead; [done| |by apply Hr1].
    exists path. eapply lookup_weaken; [exact Hcur|apply Hx1].
  - intros x y Hy Hold Hxf.
    destruct (decide (x = next_object s)) as [->|Hxn].
    + assert (y = path ++ [p]) as ->.
      { pose proof (lookup_weaken _ _ _ _ Hg1' (ext_paths _ _ _ _ Hx)) as E. rewrite Hy in E.
        by injection E. }
      split; [|exists (q :: parts); split; [done|by rewrite <- app_assoc]].
      destruct (ext_old _ _ _ _ Hx (next_object s) j (mk_is_Some _ _ Hg1') Hj) as (j' & Hj' & [-> | [_ ?]]).
      * exists j. split; [done|by eexists].
      * by exists j'.
    + destruct (Hnew x y Hy) as [Hfold (r & Hrne & Hpath)]; [|done|].
      { unfold added_paths. by rewrite lookup_insert_ne. }
      split; [done|]. exists r. split; [done|]. by rewrite <- Hpath, <- app_assoc.
Qed.

Lemma makeFile_loop_parts G s cur path i parts :
  archive G s -> G !! cur = Some path -> inodes s !! cur = Some i -> is_folder i ->
  Forall good_name parts -> parts <> [] -> no_conflict s cur parts -> made G s cur path parts.
Proof.
  revert G s cur path i. induction parts as [|p parts IH]; intros G s cur path i Ha Hcur Hi [ch Hb] Hp Hne [Hnone Hconf]; [done|].
  apply Forall_cons_1 in Hp as [Hgood Hp].
  rewrite (resolve_cons _ _ _ _ _ _ Hi Hb) in Hnone.
  destruct (find_child (inodes s) p ch) as [c|] eqn:Hc.
  - simpl in Hnone. destruct parts as [|q parts]; [done|].
    assert (resolve (inodes s) cur [p] = Some c) as Hrc by (by rewrite (resolve_cons _ _ _ _ _ _ Hi Hb), Hc).
    destruct (Hconf [p] (q :: parts) c) as (ic & Hic & Hfold); [done..|].
    eapply made_existing; [done..|by exists ic|].
    eapply IH; [done| |exact Hic|done|done|done|].
    + by eapply tree_find; [apply Ha|..].
    + split; [done|]. intros q' r c' Heq Hq' Hr' Hres. apply (Hconf (p :: q') r c'); [by rewrite Heq|done|done|].
      by rewrite (resolve_cons _ _ _ _ _ _ Hi Hb), Hc.
  - destruct parts as [|q parts]; [by eapply made_file|].
    set (j := set_i_mode S_IFDIR (set_i_name p new_folder)).
    destruct (with_child_ok G s cur path i ch j Ha Hcur Hi Hb) as (Ha1 & Hx1 & Hg1 & Hj & Hg1' & Hr1).
    { split; [done|by eexists]. } { by intros l [= <-]. }
    eapply made_created; [done..|]. fold j.
    assert (forall q' parts', resolve (inodes (with_child s cur i ch j)) (next_object s) (q' :: parts') = None) as Hempty.
    { intros q' parts'. rewrite (resolve_cons _ _ j []) by done. done. }
    eapply IH; [exact Ha1|done|exact Hj|by eexists|done|done|].
    split; [apply Hempty|]. intros [|q' qs] r c' _ Hq' _ Hres; [done|]. by rewrite Hempty in Hres.
Qed.
End make_file_spec.

(** ** Archives

    An entry of an archive: the parts of its path, its mode, its data, and the members of
    its block that are not read (device and inode, owners to modification time). *)
Record entry : Type := mkEntry {
  e_parts : list str;
  e_mode : Z;
  e_data : str;
  e_head : str;
  e_mid : str;
}.

Definition le16 (v : Z) : str := [v mod 256; v / 256].
Definition padded (s : str) : str := s ++ (if Z.odd (data_size s) then [0] else []).

Definition encode_file (name : str) (e : entry) : str :=
  (le16 CPIO_MAGIC ++ e_head e ++ le16 (e_mode e) ++ e_mid e ++ le16 (data_size name + 1) ++
   le16 (data_size (e_data e) / 2 ^ 16) ++ le16 (data_size (e_data e) mod 2 ^ 16)) ++
  padded (name ++ [0]) ++ padded (e_data e).

Definition encode_entry (e : entry) : str := encode_file (relative_path (e_parts e)) e.
Definition trailer_entry : entry := mkEntry [] 0 [] (replicate 4 0) (replicate 12 0).

(** The entries, the trailer, and whatever follows. *)
Definition encode_archive (entries : list entry) (rest : str) : str :=
  concat (map encode_entry entries) ++ encode_file TRAILER trailer_entry ++ rest.

Record block_ok (name : str) (e : entry) : Prop := {
  block_name : data_size name + 1 < 2 ^ 16;
  block_mode : in_word 16 (e_mode e);
  block_data : data_size (e_data e) < 2 ^ 32;
  block_head : length (e_head e) = 4%nat;
  block_mid : length (e_mid e) = 12%nat;
}.

Record entry_ok (e : entry) : Prop := {
  entry_names : Forall good_name (e_parts e);
  entry_nonempty : e_parts e <> [];
  entry_not_trailer : relative_path (e_parts e) <> TRAILER;
  entry_mode : is_dir_mode (e_mode e) = false;
  entry_block : block_ok (relative_path (e_parts e)) e;
}.

Section encoding.
Context {C : Type}.
Implicit Types s : FsState C.

Lemma le16_value v : v mod 256 + 256 * (v / 256) = v.
Proof. pose proof (Z.div_mod v 256). lia. Qed.

Lemma filesize_value n : in_word 32 n -> u32 (Z.lor (Z.shiftl (n / 2 ^ 16) 16) (n mod 2 ^ 16)) = n.
Proof.
  intros Hn. rewrite <- Z.add_nocarry_lor.
  - rewrite Z.shiftl_mul_pow2 by lia. pose proof (Z.div_mod n (2 ^ 16)).
    rewrite wrap_small; [lia|]. replace (_ + _) with n by lia. done.
  - apply Z.bits_inj'. intros k Hk. rewrite Z.land_spec, Z.bits_0.
    destruct (decide (k < 16)).
    + by rewrite Z.shiftl_spec_low by lia.
    + by rewrite Z.mod_pow2_bits_high, andb_false_r by lia.
Qed.

Lemma skip_padded_app l rest : skip_padded (data_size l) (padded l ++ rest) = rest.
Proof.
  unfold skip_padded, padded. pose proof (data_size_nonneg l).
  assert (length (l ++ (if Z.odd (data_size l) then [0] else [])) =
          Z.to_nat (data_size l + (if Z.odd (data_size l) then 1 else 0))) as <-.
  { rewrite length_app. unfold data_size in *. destruct (Z.odd _); simpl; lia. }
  apply drop_app_length.
Qed.

Lemma bytes_at_app l rest s : bytes_at (l ++ rest) (data_size l) s = Ok (l, s).
Proof.
  unfold bytes_at. unfold data_size. rewrite length_app, (proj2 (Z.leb_le _ _)) by lia.
  by rewrite Nat2Z.id, take_app_length.
Qed.

(** One round of the loop, on an encoded file. *)
Lemma readArchive_loop_file fuel root name e rest s :
  block_ok name e ->
  readArchive_loop (S fuel) root (encode_file name e ++ rest) s =
  (if bool_decide (name = TRAILER) then mret tt
   else
     file ← makeFile root name;
     match file with
     | Some file =>
         update_inode file (fun i => set_i_mode (e_mode e) (set_i_size (data_size (e_data e))
           (set_i_body (CpioFileInode (e_data e)) i)))
     | None => mret tt
     end ;;
     readArchive_loop fuel root rest) s.
Proof.
  intros [Hname Hmode Hdata Hhead Hmid]. pose proof (data_size_nonneg name). pose proof (data_size_nonneg (e_data e)).
  set (ptr := encode_file name e ++ rest).
  destruct (e_head e) as [|h0 [|h1 [|h2 [|h3 [|]]]]] eqn:Hh; try done.
  destruct (e_mid e) as [|m0 [|m1 [|m2 [|m3 [|m4 [|m5 [|m6 [|m7 [|m8 [|m9 [|m10 [|m11 [|]]]]]]]]]]]]] eqn:Hm; try done.
  assert (u16_at ptr 0 s = Ok (CPIO_MAGIC, s) /\ u16_at ptr 22 s = Ok (data_size (e_data e) / 2 ^ 16, s) /\
          u16_at ptr 24 s = Ok (data_size (e_data e) mod 2 ^ 16, s) /\
          u16_at ptr 20 s = Ok (data_size name + 1, s) /\ u16_at ptr 6 s = Ok (e_mode e, s))
    as (R0 & R22 & R24 & R20 & R6).
  { unfold u16_at, ptr, encode_file. rewrite Hh, Hm. unfold le16. cbn [app drop].
    by rewrite !le16_value. }
  cbn [readArchive_loop]. rewrite (bind_run _ _ _ _ _ R0).
  rewrite Z.eqb_refl. cbn [negb].
  rewrite (bind_run _ _ _ _ _ R22), (bind_run _ _ _ _ _ R24).
  cbv zeta. rewrite filesize_value by (unfold in_word; lia).
  rewrite (bind_run _ _ _ _ _ R20), (bind_run _ _ _ _ _ R6).
  rewrite (proj2 (Z.eqb_neq (data_size name + 1) 0)) by lia.
  replace (drop CPIO_BLOCK_SIZE ptr) with (padded (name ++ [0]) ++ padded (e_data e) ++ rest).
  2:{ unfold ptr, encode_file. rewrite Hh, Hm. unfold le16. cbn [app drop CPIO_BLOCK_SIZE]. by rewrite <- app_assoc. }
  rewrite Z.add_simpl_r. erewrite bind_run.
  2:{ unfold padded at 1. rewrite <- !app_assoc. apply bytes_at_app. }
  destruct (bool_decide (name = TRAILER)); [done|].
  replace (data_size name + 1) with (data_size (name ++ [0])) by (unfold data_size; rewrite length_app; simpl; lia).
  rewrite skip_padded_app, skip_padded_app.
  destruct (makeFile root name s) as [[[file|] s']|err] eqn:Emk;
    [rewrite !(bind_run _ _ _ _ _ Emk)|by rewrite !(bind_run _ _ _ _ _ Emk)|by rewrite !(bind_fail _ _ _ _ Emk)].
  unfold mbind, ST_bind. unfold padded at 1. rewrite <- app_assoc, bytes_at_app. done.
Qed.
End encoding.

(** ** Reading an archive back *)
Definition holds_entry (i : Inode) (e : entry) : Prop :=
  i_body i = CpioFileInode (e_data e) /\ i_mode i = e_mode e /\ i_size i = data_size (e_data e).

(** No path is that of another entry, or leads through it. *)
Definition compatible (entries : list entry) : Prop :=
  forall k1 k2 e1 e2, entries !! k1 = Some e1 -> entries !! k2 = Some e2 -> k1 <> k2 ->
    ~ e_parts e1 `prefix_of` e_parts e2.

Section reading.
Context {C : Type} (root : Z).
Implicit Types (s : FsState C) (G : gmap Z (list str)) (entries : list entry).

(** What has been read, when the entries of [l] have. *)
Record read_so_far G s (l : list entry) : Prop := {
  so_archive : archive root G s;
  so_found e : e ∈ l -> exists c i,
    resolve (inodes s) root (e_parts e) = Some c /\ inodes s !! c = Some i /\ holds_entry i e;
  so_nothing_else p q i : G !! p = Some q -> inodes s !! p = Some i ->
    (is_folder i /\ (q = [] \/ exists e r, e ∈ l /\ r <> [] /\ e_parts e = q ++ r)) \/
    (exists e, e ∈ l /\ q = e_parts e /\ holds_entry i e);
}.

(** Writing the data of a file changes no path. *)
Lemma resolve_write m f i i' x q :
  m !! f = Some i -> i_name i' = i_name i -> ~ is_folder i -> ~ is_folder i' ->
  resolve (<[f := i']> m) x q = resolve m x q.
Proof.
  intros Hf Hname Hi Hi'. revert x. induction q as [|name q IH]; intros x; [done|]. cbn [resolve].
  destruct (decide (f = x)) as [<-|Hne].
  - rewrite lookup_insert_eq, Hf. simpl. destruct (i_body i) eqn:E1; [by destruct Hi; eexists|].
    destruct (i_body i') eqn:E2; [by destruct Hi'; eexists|done].
  - rewrite lookup_insert_ne by done. destruct (m !! x) as [ix|]; [|done]. simpl.
    destruct (i_body ix) as [ch|]; [|done].
    assert (find_child (<[f:=i']> m) name ch = find_child m name ch) as ->.
    { clear IH. induction ch as [|c ch IHc]; [done|]. simpl. rewrite IHc.
      destruct (decide (f = c)) as [<-|]; [|by rewrite lookup_insert_ne].
      rewrite lookup_insert_eq, Hf. simpl. by rewrite Hname. }
    destruct (find_child m name ch); [apply IH|done].
Qed.

Lemma archive_write G s f i i' :
  archive root G s -> inodes s !! f = Some i -> i_name i' = i_name i -> ~ is_folder i -> ~ is_folder i' ->
  is_dir_mode (i_mode i') = false -> archive root G (set_inodes (<[f := i']> (inodes s)) s).
Proof.
  intros [Ht Hfresh] Hf Hname Hi Hi' Hdir. set (m := inodes s) in *. split.
  2:{ cbn. intros p Hp. rewrite lookup_insert_ne; [by apply Hfresh|]. intros <-. by rewrite Hfresh in Hf. }
  assert (forall p x, <[f:=i']> m !! p = Some x -> p = f /\ x = i' \/ p <> f /\ m !! p = Some x) as Hcase.
  { intros p x. destruct (decide (f = p)) as [<-|Hne]; [rewrite lookup_insert_eq|rewrite lookup_insert_ne by done];
      intros E; [left|right]; [by injection E|done]. }
  cbn. split.
  - apply Ht.
  - intros x [[E ->] | [_ Hx]]%Hcase; [|by eapply tree_root_folder].
    destruct Hi. subst f. eapply tree_root_folder; [exact Ht|done].
  - intros p q Hp. rewrite lookup_insert_is_Some'. right. by eapply tree_live.
  - intros p q x ch c Hp [[E ->] | [_ Hx]]%Hcase Hb Hc; [by destruct Hi'; eexists|].
    destruct (tree_child _ _ _ Ht p q x ch c Hp Hx Hb Hc) as (j & Hj & Hg).
    destruct (decide (f = c)) as [<-|Hne].
    + exists i'. rewrite lookup_insert_eq. split; [done|]. rewrite Hf in Hj. injection Hj as <-. by rewrite Hname.
    + exists j. by rewrite lookup_insert_ne.
  - intros p q x Hp Hq [[-> ->] | [_ Hx]]%Hcase; [|by eapply tree_dir].
    rewrite Hdir. split; [intros Hd; by destruct Hi'|done].
Qed.

Definition clear_of (l : list entry) (e : entry) : Prop :=
  forall e', e' ∈ l -> ~ e_parts e' `prefix_of` e_parts e /\ ~ e_parts e `prefix_of` e_parts e'.

(** A new entry meets no file on its path, and nothing at its end. *)
Lemma no_conflict_entry G s l e :
  read_so_far G s l -> e_parts e <> [] -> clear_of l e -> no_conflict s root (e_parts e).
Proof.
  intros [Ha Hfound Helse] Hne Hclear. pose proof (archive_tree _ _ _ Ha) as Ht.
  assert (forall q r c, e_parts e = q ++ r -> resolve (inodes s) root q = Some c ->
            exists i, inodes s !! c = Some i /\
              (is_folder i /\ (q = [] \/ exists e' r', e' ∈ l /\ r' <> [] /\ e_parts e' = q ++ r'))) as Hq.
  { intros q r c Heq Hr. pose proof (resolve_tree _ _ _ Ht root [] q c (tree_root _ _ _ Ht) Hr) as HG.
    destruct (tree_live _ _ _ Ht c q HG) as [i Hi]. exists i. split; [done|].
    destruct (Helse c q i HG Hi) as [?|(e' & He' & -> & _)]; [done|]. exfalso.
    destruct (Hclear e' He') as [Hp _]. apply Hp. by exists r. }
  split.
  - destruct (resolve (inodes s) root (e_parts e)) as [c|] eqn:Hr; [|done]. exfalso.
    destruct (Hq (e_parts e) [] c) as (i & _ & _ & [?|(e' & r' & He' & _ & Heq)]); [by rewrite app_nil_r|done|done|].
    destruct (Hclear e' He') as [_ Hp]. apply Hp. by exists r'.
  - intros q r c Heq _ _ Hr. destruct (Hq q r c Heq Hr) as (i & Hi & Hfold & _). by exists i.
Qed.

Definition write_entry (e : entry) (i : Inode) : Inode :=
  set_i_mode (e_mode e) (set_i_size (data_size (e_data e)) (set_i_body (CpioFileInode (e_data e)) i)).

(** One entry more. *)
Lemma read_entry G s l e :
  read_so_far G s l -> entry_ok e -> clear_of l e ->
  exists G' s' f, makeFile root (relative_path (e_parts e)) s = Ok (Some f, s') /\
    exists s2, update_inode f (write_entry e) s' = Ok (tt, s2) /\
      read_so_far G' s2 (e :: l) /\ s2 = set_next_object (next_object s2) (set_inodes (inodes s2) s).
Proof.
  intros Hso [Hnames Hne _ Hmode _] Hclear. pose proof (no_conflict_entry _ _ _ _ Hso Hne Hclear) as Hconf.
  destruct Hso as [Ha Hfound Helse]. pose proof (archive_tree _ _ _ Ha) as Ht.
  destruct (tree_live _ _ _ Ht root [] (tree_root _ _ _ Ht)) as [ir Hir].
  destruct (makeFile_loop_parts root G s root [] ir (e_parts e) Ha (tree_root _ _ _ Ht) Hir
              (tree_root_folder _ _ _ Ht ir Hir) Hnames Hne Hconf)
    as (G' & s' & f & nm & Hrun & Ha' & Hx & Hgf & Hr & Hf & Hnew).
  destruct (relative_path_spec _ Hnames Hne) as (_ & H0 & _).
  exists G', s', f. split; [unfold makeFile; by rewrite c_str_id|].
  set (i' := write_entry e (set_i_name nm new_file)).
  assert (~ is_folder (set_i_name nm new_file)) as Hfile by (by intros []).
  assert (~ is_folder i') as Hfile' by (by intros []).
  exists (set_inodes (<[f := i']> (inodes s')) s'). split_and!.
  { unfold update_inode. by rewrite (bind_run _ _ _ _ _ (deref_inode_run _ _ _ Hf)). }
  2:{ cbn. rewrite (ext_rest _ _ _ _ Hx). done. }
  assert (holds_entry i' e) as Hholds by done.
  assert (forall x q, resolve (<[f:=i']> (inodes s')) x q = resolve (inodes s') x q) as Hres.
  { intros x q. by apply (resolve_write _ _ (set_i_name nm new_file)). }
  split.
  - by eapply archive_write.
  - cbn. intros e1 [->|He1]%elem_of_cons.
    + exists f, i'. by rewrite Hres, lookup_insert_eq.
    + destruct (Hfound e1 He1) as (c & i & Hc & Hi & Hh).
      assert (G !! c = Some (e_parts e1)) as HGc.
      { apply (resolve_tree _ _ _ Ht root [] _ c (tree_root _ _ _ Ht) Hc). }
      destruct (ext_old _ _ _ _ Hx c i) as (i2 & Hi2 & [-> | [[ch Hch] _]]); [by exists (e_parts e1)|done| |].
      * exists c, i. rewrite Hres, lookup_insert_ne by (intros <-; by rewrite HGc in Hgf).
        split_and!; [|done|done]. apply (ext_leads _ _ _ _ Hx); [by exists []; apply Ht|done].
      * destruct Hh as [Hh _]. by rewrite Hch in Hh.
  - cbn. intros p q i Hp Hi. destruct (decide (f = p)) as [<-|Hne'].
    { rewrite lookup_insert_eq in Hi. injection Hi as <-. right. exists e.
      split_and!; [by left| |done].
      pose proof (resolve_tree _ _ _ (archive_tree _ _ _ Ha') root [] _ _ (tree_root _ _ _ (archive_tree _ _ _ Ha')) Hr) as E.
      rewrite Hp in E. by injection E. }
    rewrite lookup_insert_ne in Hi by done. destruct (G !! p) as [q0|] eqn:HGp.
    + assert (q0 = q) as ->.
      { pose proof (lookup_weaken _ _ _ _ HGp (ext_paths _ _ _ _ Hx)) as E. rewrite Hp in E. by injection E. }
      destruct (tree_live _ _ _ Ht p q HGp) as [i0 Hi0].
      destruct (ext_old _ _ _ _ Hx p i0 (mk_is_Some _ _ HGp) Hi0) as (i2 & Hi2 & Hkind).
      rewrite Hi in Hi2. injection Hi2 as <-.
      destruct (Helse p q i0 HGp Hi0) as [[Hfold Hq]|(e1 & He1 & -> & Hh)].
      * left. split; [by destruct Hkind as [-> | []]|]. destruct Hq as [?|(e1 & r & He1 & ?)]; [by left|].
        right. exists e1, r. split; [by right|done].
      * right. exists e1. split_and!; [by right|done|].
        destruct Hkind as [-> | [[ch Hch] _]]; [done|]. destruct Hh as [Hh _]. by rewrite Hch in Hh.
    + destruct (Hnew p q Hp HGp) as [(i1 & Hi1 & Hfold) (r & Hrne & Hpath)]; [done|].
      rewrite Hi in Hi1. injection Hi1 as <-. left. split; [done|]. right. exists e, r.
      split; [by left|done].
Qed.

Lemma read_so_far_ext G s l l' :
  (forall e, e ∈ l <-> e ∈ l') -> read_so_far G s l -> read_so_far G s l'.
Proof.
  intros Hl [Ha Hf He]. split; [done| |].
  - intros e Hin. by apply Hf, Hl.
  - intros p q i Hp Hi. destruct (He p q i Hp Hi) as [[Hfold [?|(e & r & Hin & ?)]]|(e & Hin & ?)].
    + left. split; [done|by left].
    + left. split; [done|]. right. exists e, r. by rewrite <- Hl.
    + right. exists e. by rewrite <- Hl.
Qed.

Lemma compatible_clear l e entries : compatible (l ++ e :: entries) -> clear_of l e.
Proof.
  intros Hc e' [k Hk]%list_elem_of_lookup.
  assert ((l ++ e :: entries) !! length l = Some e) as H1 by (by apply list_lookup_middle).
  assert ((l ++ e :: entries) !! k = Some e') as H2 by (by apply lookup_app_l_Some).
  apply lookup_lt_Some in Hk. split; eapply Hc; (done || lia).
Qed.

Lemma readArchive_loop_spec entries l G s fuel rest :
  read_so_far G s l -> Forall entry_ok entries -> compatible (l ++ entries) ->
  (length entries < fuel)%nat ->
  Runs (readArchive_loop fuel root (encode_archive entries rest)) s (fun _ s' =>
    exists G', read_so_far G' s' (l ++ entries) /\
      s' = set_next_object (next_object s') (set_inodes (inodes s') s)).
Proof.
  revert l G s fuel. induction entries as [|e entries IH]; intros l G s fuel Hso Hok Hcomp Hfuel;
    (destruct fuel as [|fuel]; [simpl in Hfuel; lia|]).
  - unfold encode_archive, Runs. cbn [map concat]. rewrite app_nil_l, readArchive_loop_file by done.
    rewrite bool_decide_true by done. exists G. rewrite app_nil_r. split; [done|by destruct s].
  - apply Forall_cons_1 in Hok as [He Hok].
    destruct (read_entry G s l e Hso He (compatible_clear _ _ _ Hcomp)) as (G' & s1 & f & Hrun & s2 & Hwrite & Hso2 & Hs2).
    unfold encode_archive, Runs. cbn [map concat]. rewrite <- app_assoc.
    unfold encode_entry at 1. rewrite readArchive_loop_file by apply He.
    rewrite bool_decide_false by apply He. rewrite (bind_run _ _ _ _ _ Hrun).
    rewrite (bind_run _ _ _ _ _ Hwrite).
    assert (read_so_far G' s2 (l ++ [e])) as Hso3.
    { eapply read_so_far_ext; [|exact Hso2]. intros x. rewrite elem_of_cons, elem_of_app, list_elem_of_singleton. tauto. }
    rewrite cons_middle, app_assoc in Hcomp.
    specialize (IH (l ++ [e]) G' s2 fuel Hso3 Hok Hcomp ltac:(simpl in Hfuel; lia)).
    apply Runs_ok in IH as (u & s3 & E & G3 & Hso4 & Hs3). unfold encode_archive in E.
    rewrite E. exists G3. rewrite cons_middle, app_assoc. split; [done|]. rewrite Hs3. by rewrite Hs2.
Qed.

Lemma encode_archive_length entries rest :
  (length entries < length (encode_archive entries rest))%nat.
Proof.
  unfold encode_archive. rewrite length_app. induction entries as [|e entries IH]; simpl; [lia|].
  rewrite length_app. simpl in *. lia.
Qed.
End reading.

Lemma new_archive {C} (s : FsState C) (root := next_object s) :
  (forall p, next_object s <= p -> inodes s !! p = None) ->
  read_so_far root {[ root := [] ]}
    (set_next_object (root + 1) (set_inodes (<[root := new_folder]> (inodes s)) s)) [].
Proof.
  intros Hfresh. split; [split; [split|]| |]; cbn.
  - apply lookup_singleton_eq.
  - intros i. rewrite lookup_insert_eq. intros [= <-]. by eexists.
  - intros p q [<- <-]%lookup_singleton_Some. by rewrite lookup_insert_eq.
  - intros p q i ch c [<- <-]%lookup_singleton_Some. rewrite lookup_insert_eq.
    intros [= <-] [= <-] []%elem_of_nil.
  - intros p q i [<- <-]%lookup_singleton_Some. done.
  - intros p Hp. rewrite lookup_insert_ne by lia. apply Hfresh. lia.
  - by intros e []%elem_of_nil.
  - intros p q i [<- <-]%lookup_singleton_Some. rewrite lookup_insert_eq. intros [= <-].
    left. split; [by eexists|by left].
Qed.


Lemma readArchive_run {C} (s : FsState C) entries rest :
  (forall p, next_object s <= p -> inodes s !! p = None) ->
  Forall entry_ok entries -> compatible entries ->
  Runs (readArchive (encode_archive entries rest)) s (fun root s' =>
    root = next_object s /\ (exists G, read_so_far root G s' entries) /\
    s' = set_next_object (next_object s') (set_inodes (inodes s') s)).
Proof.
  intros Hfresh Hok Hcomp. unfold readArchive, make_inode. run_steps.
  eapply Runs_mono.
  { eapply (readArchive_loop_spec _ entries []); [by apply new_archive|done..|].
    eapply Nat.lt_le_trans; [apply encode_archive_length|done]. }
  intros _ s' (G & Hso & Hs'). run_steps. split_and!; [done|by exists G|by rewrite Hs'].
Qed.

(** C25. Reading an archive: the paths of the entries, and no others, lead from the root to files
    with their modes and data, whatever follows the trailer; folders are made for them. *)
Theorem readArchive_roundtrip {C} (s : FsState C) entries rest :
  (forall p, next_object s <= p -> inodes s !! p = None) ->
  Forall entry_ok entries -> compatible entries ->
  Runs (readArchive (encode_archive entries rest)) s (fun root s' =>
    (forall e, e ∈ entries -> exists c i,
       resolve (inodes s') root (e_parts e) = Some c /\ inodes s' !! c = Some i /\ holds_entry i e) /\
    (forall parts c i data, resolve (inodes s') root parts = Some c -> inodes s' !! c = Some i ->
       i_body i = CpioFileInode data ->
       exists e, e ∈ entries /\ parts = e_parts e /\ holds_entry i e) /\
    s' = set_next_object (next_object s') (set_inodes (inodes s') s)).
Proof.
  intros Hfresh Hok Hcomp. eapply Runs_mono; [by apply readArchive_run|].
  intros root s' (_ & (G & [Ha Hfound Helse]) & Hs').
  pose proof (archive_tree _ _ _ Ha) as Ht. split_and!; [done| |done].
  intros parts c i data Hr Hi Hb.
  pose proof (resolve_tree _ _ _ Ht _ [] parts c (tree_root _ _ _ Ht) Hr) as HG.
  destruct (Helse c parts i HG Hi) as [[[ch Hch] _]|Hfile]; [by rewrite Hb in Hch|done].
Qed.

(** ** A small archive *)
Definition empty_fs {C} (c : C) : FsState C := mkFs ∅ ∅ 1 0 c.

Definition example_entries : list entry :=
  [mkEntry [chars "bin"; chars "sh"] (S_IFREG + 493) [127; 69; 76; 70; 2] (replicate 4 1) (replicate 12 7);
   mkEntry [chars "etc"; chars "motd"] (S_IFREG + 420) (chars "hello") (replicate 4 2) (replicate 12 7);
   mkEntry [chars "bin"; chars "ls"] (S_IFLNK + 511) (chars "sh") (replicate 4 3) (replicate 12 7)].

Lemma good_name_dec (p : str) : bool_decide (p <> [] /\ (slash ∉ p) /\ (0 ∉ p)) = true -> good_name p.
Proof. by intros H%bool_decide_eq_true. Qed.

Lemma example_entries_ok : Forall entry_ok example_entries.
Proof.
  repeat constructor; try (by vm_compute); try (by apply good_name_dec; vm_compute); done.
Qed.

Lemma example_entries_compatible : compatible example_entries.
Proof.
  intros k1 k2 e1 e2 H1 H2 Hne.
  do 3 (destruct k1 as [|k1]; [do 3 (destruct k2 as [|k2]; [first
    [done | injection H1 as <-; injection H2 as <-; refine (bool_decide_unpack _ _); by vm_compute]|]); done|]).
  done.
Qed.

(** The archive read into an empty system: the path ["bin/ls"] leads to the link. *)
Lemma readArchive_roundtrip_witness :
  Runs (readArchive (encode_archive example_entries [1; 2; 3])) (empty_fs tt) (fun root s' =>
    exists c i, resolve (inodes s') root [chars "bin"; chars "ls"] = Some c /\
      inodes s' !! c = Some i /\ i_body i = CpioFileInode (chars "sh")).
Proof.
  eapply Runs_mono.
  - apply (readArchive_roundtrip (empty_fs tt) example_entries [1; 2; 3]);
      [done|exact example_entries_ok|exact example_entries_compatible].
  - intros root s' (Hfound & _). destruct (Hfound (nth 2 example_entries trailer_entry)) as (c & i & Hr & Hi & Hb & _).
    + do 2 right. left.
    + exists c, i. done.
Defined.

Definition with_root {C} (c : C) : FsState C := mkFs {[ 1 := new_folder ]} ∅ 2 0 c.

Lemma makeFile_first {C} (c : C) name :
  good_name name ->
  makeFile 1 name (with_root c) =
  Ok (Some 2, with_child (with_root c) 1 new_folder [] (set_i_name name new_file)).
Proof.
  intros (Hne & Hs & H0). unfold makeFile. rewrite c_str_id by done.
  rewrite <- (app_nil_r name) at 1. rewrite makeFile_loop_name by done. cbn [makeFile_loop app].
  rewrite bind_assertion by (by rewrite bool_decide_true).
  rewrite (add_child_run (with_root c) 1 new_folder []); [done| |done|done].
  intros p Hp. cbn in *. by rewrite lookup_singleton_ne by lia.
Qed.

(** A folder of the archive is a file inode with the mode of a folder: the entry of a file
    in it is cast to a class it is not of. *)
Theorem readArchive_folder_entry {C} (c : C) folder file rest :
  good_name folder -> good_name file -> data_size folder + data_size file + 2 < 2 ^ 16 -> folder <> TRAILER ->
  relative_path [folder; file] <> TRAILER ->
  let entries := [mkEntry [folder] (S_IFDIR + 493) [] (replicate 4 0) (replicate 12 0);
                  mkEntry [folder; file] (S_IFREG + 420) [] (replicate 4 0) (replicate 12 0)] in
  Fails (readArchive (encode_archive entries rest)) (empty_fs c) (Undefined "a file cast to a folder").
Proof.
  intros Hfolder Hfile Hlen Ht1 Ht2 entries. pose proof Hfolder as (Hd & Hds & Hd0). destruct Hfile as (Hf & Hfs & Hf0).
  assert (relative_path [folder] = folder) as Hr1 by (unfold relative_path, path_of; simpl; by rewrite app_nil_r).
  assert (relative_path [folder; file] = folder ++ slash :: file) as Hr2.
  { unfold relative_path, path_of. simpl. by rewrite app_nil_r. }
  pose proof (data_size_nonneg folder). pose proof (data_size_nonneg file).
  unfold Fails, readArchive. erewrite bind_run; [|unfold make_inode; by rewrite bind_read, bind_modify].
  apply bind_fail. unfold encode_archive, entries. cbn [map concat]. rewrite app_nil_r, <- app_assoc.
  set (fuel := length _). assert (exists n, fuel = S (S n)) as [n ->].
  { unfold fuel, encode_entry, encode_file. rewrite !length_app. simpl. eexists. done. }
  unfold encode_entry at 1. rewrite readArchive_loop_file.
  2:{ split; cbn [e_parts e_mode e_data e_head e_mid]; try done. rewrite Hr1. unfold data_size in *. simpl. lia. }
  cbn [e_parts]. rewrite Hr1, bool_decide_false by done.
  erewrite bind_run.
  2:{ by apply (makeFile_first c folder). }
  cbv iota. erewrite bind_run; [|done].
  unfold encode_entry. rewrite readArchive_loop_file.
  2:{ split; cbn [e_parts e_mode e_data e_head e_mid]; try done. rewrite Hr2. unfold data_size in *.
      rewrite length_app. simpl. lia. }
  cbn [e_parts]. rewrite bool_decide_false by done. apply bind_fail.
  rewrite Hr2. unfold makeFile. rewrite c_str_id.
  2:{ rewrite elem_of_app, elem_of_cons. intros [?|[?|?]]; done. }
  rewrite makeFile_loop_name by done. cbn [makeFile_loop app]. rewrite Z.eqb_refl.
  rewrite bind_assertion by (by rewrite bool_decide_true). rewrite c_str_id by done.
  erewrite bind_run; [|eapply (inode_lookup_run _ 1); reflexivity]. cbn [i_body set_i_body app].
  match goal with |- context [find_child ?m folder ?l] =>
    assert (find_child m folder l = Some 2) as -> by (simpl; by rewrite bool_decide_true)
  end.
  reflexivity.
Qed.

Lemma readArchive_folder_entry_witness :
  Fails (readArchive (encode_archive
      [mkEntry [chars "bin"] (S_IFDIR + 493) [] (replicate 4 0) (replicate 12 0);
       mkEntry [chars "bin"; chars "sh"] (S_IFREG + 420) [] (replicate 4 0) (replicate 12 0)] []))
    (empty_fs tt) (Undefined "a file cast to a folder").
Proof.
  apply (readArchive_folder_entry tt (chars "bin") (chars "sh") []);
    [by apply good_name_dec; vm_compute|by apply good_name_dec; vm_compute|done|done|done].
Defined.
