(* ===== verification/FileManager.v ===== *)
(** * The open files of a task: [FileManager.hpp], [FileManager.cpp], and the system calls on
      them ([Syscall.cpp])

    [_files] is a vector of shared pointers, null for a descriptor that is free.  The system
    calls are those of the active task, whose [FileManager] is part of the state. *)

From Stdlib Require Import ZArith Lia.
From stdpp Require Import list numbers gmap strings.
From S2P Require Import Prelude Words Fs Cpio.

Record FileManager : Type := mkFileManager { _files : list Z }.

Definition set_files (l : list Z) (fm : FileManager) : FileManager := mkFileManager l.

(** The loop of [open]: the first free entry, from [i] on. *)
Fixpoint find_free (l : list Z) (i : Z) : option Z :=
  match l with
  | [] => None
  | p :: l' => if p =? 0 then Some i else find_free l' (i + 1)
  end.

Section file_manager.
Context {C : Type} `{!Console C}.

Definition FileState : Type := FileManager * FsState C.
Definition on_fs {A} (m : ST (FsState C) A) : ST FileState A := zoom snd (fun f s => (s.1, f)) m.
Definition set_fm (l : list Z) (s : FileState) : FileState := (set_files l s.1, s.2).

(** [FileManager()] *)
Definition new_FileManager : ST (FsState C) FileManager :=
  i ← make_handle StdIn;
  o ← make_handle StdOut;
  e ← make_handle StdOut;
  mret (mkFileManager [i; o; e]).

Definition fm_open (fuel : nat) (path : str) : ST FileState (IoExpected Z) :=
  einode ← on_fs (lookup_path fuel path LookupOptions_None);
  ehandle ← match einode with
            | Value inode => on_fs (inode_open inode)
            | Unexpected e => mret (Unexpected e)
            end;
  match ehandle with
  | Unexpected e => mret (Unexpected e)
  | Value h =>
      handle ← on_fs (make_handle h);
      s ← read_state;
      match find_free (_files s.1) 0 with
      | Some i => modify (set_fm (<[Z.to_nat i := handle]> (_files s.1))) ;; mret (Value i)
      | None =>
          modify (set_fm (_files s.1 ++ [handle])) ;;
          mret (Value (Z.of_nat (length (_files s.1))))
      end
  end.

Definition fm_close (fd : Z) : ST FileState Z :=
  assertion (0 <=? fd) "fd >= 0" ;;
  s ← read_state;
  if Z.of_nat (length (_files s.1)) <=? fd then mret (-1)
  else modify (set_fm (<[Z.to_nat fd := 0]> (_files s.1))) ;; mret 0.

(** The pointer, 0 for null. *)
Definition getHandle (fd : Z) : ST FileState Z :=
  assertion (0 <=? fd) "fd >= 0" ;;
  s ← read_state;
  if Z.of_nat (length (_files s.1)) <=? fd then mret 0
  else mret (default 0 (_files s.1 !! Z.to_nat fd)).

Definition deref_handle (p : Z) : ST (FsState C) Handle :=
  s ← read_state;
  from_option (handles s !! p) (Undefined "dereference of a handle").

Definition store_handle (p : Z) (h : Handle) : ST (FsState C) unit :=
  modify (fun s => set_handles (<[p := h]> (handles s)) s).

(** ** The system calls [open], [close], [read] and [write]; [None]: the caller sleeps *)
Definition sys_open (fuel : nat) (path : str) : ST FileState Z :=
  expfd ← fm_open fuel path;
  mret (match expfd with Value fd => fd | Unexpected _ => -1 end).

Definition sys_close (fd : Z) : ST FileState Z := fm_close fd.

(** The bytes put in the buffer, and the value returned. *)
Definition sys_read (fd count : Z) : ST FileState (option (str * Z)) :=
  handle ← getHandle fd;
  if handle =? 0 then mret (Some ([], -1))
  else
    h ← on_fs (deref_handle handle);
    r ← on_fs (handle_read h count);
    on_fs (store_handle handle r.2) ;;
    mret (match r.1 with
          | None => None
          | Some (Unexpected _) => Some ([], -1)
          | Some (Value bytes) => Some (bytes, data_size bytes)
          end).

Definition sys_write (fd : Z) (bytes : str) : ST FileState Z :=
  handle ← getHandle fd;
  if handle =? 0 then mret (-1)
  else
    h ← on_fs (deref_handle handle);
    r ← on_fs (handle_write h bytes);
    mret (match r with Value n => n | Unexpected _ => -1 end).
End file_manager.
Arguments FileState : clear implicits.

(** ** The table of descriptors *)

(** What is open as [fd]: a null pointer past the end of the table too. *)
Definition fd_handle (l : list Z) (fd : Z) : Z :=
  if 0 <=? fd then default 0 (l !! Z.to_nat fd) else 0.

Section table.
Context {C : Type} `{!Console C}.
Implicit Types (s : FileState C) (l : list Z).

Lemma find_free_Some l i j :
  find_free l i = Some j ->
  i <= j < i + Z.of_nat (length l) /\ l !! Z.to_nat (j - i) = Some 0 /\
  forall k, i <= k < j -> exists p, l !! Z.to_nat (k - i) = Some p /\ p <> 0.
Proof.
  revert i. induction l as [|p l IH]; intros i H; [done|]. simpl in *.
  destruct (Z.eqb_spec p 0) as [->|Hp].
  - injection H as <-. rewrite Z.sub_diag. split_and!; [lia|lia|done|]. intros; lia.
  - apply IH in H as (Hr & Hj & Hk). split_and!; [lia|lia| |].
    + by replace (Z.to_nat (j - i)) with (S (Z.to_nat (j - (i + 1)))) by lia.
    + intros k Hki. destruct (decide (k = i)) as [->|]; [rewrite Z.sub_diag; by exists p|].
      replace (Z.to_nat (k - i)) with (S (Z.to_nat (k - (i + 1)))) by lia. apply Hk. lia.
Qed.

Lemma find_free_None l i k :
  find_free l i = None -> i <= k < i + Z.of_nat (length l) ->
  exists p, l !! Z.to_nat (k - i) = Some p /\ p <> 0.
Proof.
  revert i. induction l as [|p l IH]; intros i H Hk; simpl in *; [lia|].
  destruct (Z.eqb_spec p 0) as [->|Hp]; [done|]. destruct (decide (k = i)) as [->|].
  - rewrite Z.sub_diag. by exists p.
  - replace (Z.to_nat (k - i)) with (S (Z.to_nat (k - (i + 1)))) by lia. apply IH; [done|lia].
Qed.

(** Putting [h] in the first free entry, or at the end. *)
Definition add_fd l (h : Z) : Z * list Z :=
  match find_free l 0 with
  | Some i => (i, <[Z.to_nat i := h]> l)
  | None => (Z.of_nat (length l), l ++ [h])
  end.

Lemma add_fd_spec l h fd l' :
  add_fd l h = (fd, l') ->
  0 <= fd /\ fd_handle l fd = 0 /\ (forall k, 0 <= k < fd -> fd_handle l k <> 0) /\
  forall k, fd_handle l' k = if k =? fd then h else fd_handle l k.
Proof.
  unfold add_fd, fd_handle. destruct (find_free l 0) as [i|] eqn:Hf; intros [= <- <-].
  - apply find_free_Some in Hf as (Hr & Hi & Hk). rewrite Z.sub_0_r in Hi.
    split_and!; [lia| | |].
    + by rewrite (proj2 (Z.leb_le 0 i)), Hi by lia.
    + intros k Hki. rewrite (proj2 (Z.leb_le 0 k)) by lia. destruct (Hk k Hki) as (p & Hp & Hne).
      rewrite Z.sub_0_r in Hp. by rewrite Hp.
    + intros k. destruct (Z.leb_spec 0 k).
      * destruct (Z.eqb_spec k i) as [->|]; [by rewrite list_lookup_insert_eq by lia|].
        by rewrite list_lookup_insert_ne by lia.
      * by rewrite (proj2 (Z.eqb_neq k i)) by lia.
  - set (n := Z.of_nat (length l)). split_and!; [lia| | |].
    + rewrite (proj2 (Z.leb_le 0 n)) by lia. by rewrite lookup_ge_None_2 by lia.
    + intros k Hk. rewrite (proj2 (Z.leb_le 0 k)) by lia.
      destruct (find_free_None _ _ k Hf) as (p & Hp & Hne); [lia|]. rewrite Z.sub_0_r in Hp. by rewrite Hp.
    + intros k. destruct (Z.leb_spec 0 k).
      * destruct (Z.eqb_spec k n) as [->|]; [unfold n; by rewrite Nat2Z.id, list_lookup_middle|].
        destruct (decide (k < n)); [by rewrite lookup_app_l by lia|].
        rewrite !lookup_ge_None_2; [done|lia|rewrite length_app; simpl; lia].
      * by rewrite (proj2 (Z.eqb_neq k n)) by lia.
Qed.

Lemma fm_open_run fuel path s c i data :
  lookup_path fuel path LookupOptions_None s.2 = Ok (Value c, s.2) ->
  inodes s.2 !! c = Some i -> i_body i = CpioFileInode data ->
  let h := next_object s.2 in
  let '(fd, l') := add_fd (_files s.1) h in
  fm_open fuel path s =
  Ok (Value fd, (mkFileManager l',
    set_next_object (h + 1) (set_handles (<[h := CpioFileHandle c 0]> (handles s.2)) s.2))).
Proof.
  intros Hl Hi Hb h. destruct (add_fd (_files s.1) h) as [fd l'] eqn:Hadd.
  destruct s as [fm fs]. cbn [fst snd] in *. unfold fm_open.
  erewrite bind_run; [|unfold on_fs, zoom; cbn [snd]; by rewrite Hl]. cbn [fst snd].
  erewrite bind_run.
  2:{ unfold on_fs, zoom, inode_open. cbn [snd]. rewrite (bind_run _ _ _ _ _ (deref_inode_run _ _ _ Hi)).
      rewrite Hb. done. }
  cbv iota. cbn [fst snd]. erewrite bind_run; [|done]. rewrite bind_read. cbn [fst snd].
  unfold add_fd in Hadd. by destruct (find_free (_files fm) 0); injection Hadd as <- <-.
Qed.

(** Opening a file takes the lowest descriptor that is free, at the start of the file, and
    leaves every other descriptor as it was. *)
Theorem open_lowest_fd fuel path s c i data :
  lookup_path fuel path LookupOptions_None s.2 = Ok (Value c, s.2) ->
  inodes s.2 !! c = Some i -> i_body i = CpioFileInode data -> next_object s.2 <> 0 ->
  Runs (sys_open fuel path) s (fun fd s' =>
    0 <= fd /\ fd_handle (_files s.1) fd = 0 /\
    (forall k, 0 <= k < fd -> fd_handle (_files s.1) k <> 0) /\
    fd_handle (_files s'.1) fd <> 0 /\
    handles s'.2 !! fd_handle (_files s'.1) fd = Some (CpioFileHandle c 0) /\
    forall k, k <> fd -> fd_handle (_files s'.1) k = fd_handle (_files s.1) k).
Proof.
  intros Hl Hi Hb H0. pose proof (fm_open_run fuel path s c i data Hl Hi Hb) as Hrun.
  destruct (add_fd (_files s.1) (next_object s.2)) as [fd l'] eqn:Hadd. cbv zeta in Hrun.
  rewrite Hadd in Hrun. apply add_fd_spec in Hadd as (Hfd & Hfree & Hlow & Hl').
  unfold sys_open. run_step. eapply Runs_of_ok; [exact Hrun|]. run_steps. cbn.
  rewrite !Hl', Z.eqb_refl, lookup_insert_eq. split_and!; try done.
  intros k Hk. by rewrite Hl', (proj2 (Z.eqb_neq k fd)).
Qed.

Lemma getHandle_run s fd : 0 <= fd -> getHandle fd s = Ok (fd_handle (_files s.1) fd, s).
Proof.
  intros Hfd. unfold getHandle, fd_handle. rewrite bind_assertion by (by apply Z.leb_le).
  rewrite bind_read, (proj2 (Z.leb_le 0 fd)) by done.
  destruct (Z.leb_spec (Z.of_nat (length (_files s.1))) fd); [|done].
  by rewrite lookup_ge_None_2 by lia.
Qed.

(** C40. Closing a descriptor frees it alone; the descriptors past the table are refused, and a
    negative one brings the kernel down. *)
Theorem close_spec s fd :
  (fd < 0 -> Fails (sys_close fd) s (AssertionFailed "fd >= 0")) /\
  (Z.of_nat (length (_files s.1)) <= fd -> sys_close fd s = Ok (-1, s)) /\
  (0 <= fd < Z.of_nat (length (_files s.1)) ->
   Runs (sys_close fd) s (fun r s' => r = 0 /\ s'.2 = s.2 /\
     forall k, fd_handle (_files s'.1) k = if k =? fd then 0 else fd_handle (_files s.1) k)).
Proof.
  split_and!; intros Hfd; unfold sys_close, fm_close.
  - unfold Fails, mbind, ST_bind, assertion. by rewrite (proj2 (Z.leb_gt 0 fd)) by lia.
  - rewrite bind_assertion by (apply Z.leb_le; lia). rewrite bind_read.
    by rewrite (proj2 (Z.leb_le (Z.of_nat _) fd)) by lia.
  - run_steps; [apply Z.leb_le; lia|]. rewrite (proj2 (Z.leb_gt (Z.of_nat _) fd)) by lia. run_steps.
    split_and!; [done|done|]. intros k. unfold fd_handle. cbn. destruct (Z.leb_spec 0 k).
    + destruct (Z.eqb_spec k fd) as [->|]; [by rewrite list_lookup_insert_eq by lia|].
      by rewrite list_lookup_insert_ne by lia.
    + by rewrite (proj2 (Z.eqb_neq k fd)) by lia.
Qed.

Lemma sys_read_run s fd h c pos i data count :
  0 <= fd -> fd_handle (_files s.1) fd = h -> h <> 0 ->
  handles s.2 !! h = Some (CpioFileHandle c pos) ->
  inodes s.2 !! c = Some i -> i_body i = CpioFileInode data ->
  0 <= pos <= data_size data -> data_size data < 2 ^ 64 -> 0 <= count ->
  let n := Z.min count (data_size data - pos) in
  sys_read fd count s =
  Ok (Some (take (Z.to_nat n) (drop (Z.to_nat pos) data), n),
      (s.1, set_handles (<[h := CpioFileHandle c (pos + n)]> (handles s.2)) s.2)).
Proof.
  intros Hfd Hh H0 Hp Hi Hb Hpos Hlen Hc n. unfold sys_read.
  rewrite (bind_run _ _ _ _ _ (getHandle_run s fd Hfd)), Hh, (proj2 (Z.eqb_neq h 0)) by done.
  destruct s as [fm fs]. cbn [fst snd] in *.
  erewrite bind_run; [|unfold on_fs, zoom, deref_handle; cbn [snd]; rewrite bind_read, Hp; done]. cbn [fst snd].
  erewrite bind_run.
  2:{ unfold on_fs, zoom. cbn [snd]. by rewrite (handle_read_run fs c i data pos count Hi Hb Hpos Hlen Hc). }
  cbn [fst snd]. erewrite bind_run; [|done]. cbn [fst snd]. fold n. unfold mret, ST_ret. do 4 f_equal.
  unfold data_size in *. rewrite length_take, length_drop. lia.
Qed.
End table.

(** The file system made from an archive, and a file opened and read from *)
Definition boot_and_read {C} `{!Console C} (fuel : nat) (archive path : str) (count : Z)
    : ST (FileState C) (option (str * Z)) :=
  root ← on_fs (readArchive archive);
  on_fs (setRoot root) ;;
  fd ← sys_open fuel path;
  sys_read fd count.

(** C3. From the archive in memory to the bytes a program reads: the file system is made from the
    archive, and the file of an entry, opened by its path and read from, gives its data. *)
Theorem boot_and_read_spec {C} `{!Console C} (s : FileState C) fuel entries rest e count :
  (forall p, next_object s.2 <= p -> inodes s.2 !! p = None) -> 0 < next_object s.2 ->
  Forall entry_ok entries -> compatible entries -> e ∈ entries ->
  Z.land (e_mode e) S_IFMT <> S_IFLNK -> 0 <= count ->
  Runs (boot_and_read (S fuel) (encode_archive entries rest) (path_of (e_parts e)) count) s (fun r _ =>
    r = Some (take (Z.to_nat count) (e_data e), Z.min count (data_size (e_data e)))).
Proof.
  intros Hfresh Hnext Hok Hcomp He Hlink Hcount. destruct s as [fm fs]. cbn [snd] in *.
  pose proof (proj1 (Forall_forall _ _) Hok e He) as [Hnames Hne _ _ Hblock].
  pose proof (readArchive_run fs entries rest Hfresh Hok Hcomp) as (root & fs1 & Erun & -> & (G & Hso) & Hfs1)%Runs_ok.
  destruct (so_found _ _ _ _ Hso e He) as (c & i & Hr & Hi & Hb & Hm & _).
  pose proof (archive_tree _ _ _ (so_archive _ _ _ _ Hso)) as Ht.
  destruct (tree_live _ _ _ Ht _ [] (tree_root _ _ _ Ht)) as [ir Hir].
  assert (next_object fs <= next_object fs1) as Hmono.
  { destruct (Z.le_gt_cases (next_object fs) (next_object fs1)) as [|Hgt]; [done|].
    by rewrite (archive_fresh _ _ _ (so_archive _ _ _ _ Hso)) in Hir by lia. }
  unfold boot_and_read. run_step. eapply Runs_of_ok; [unfold on_fs, zoom; cbn [snd]; by rewrite Erun|]. cbn [fst].
  run_step. eapply Runs_of_ok; [done|]. cbn [fst snd]. set (fs2 := set_g_root (next_object fs) fs1).
  assert (lookup_path (S fuel) (path_of (e_parts e)) LookupOptions_None fs2 = Ok (Value c, fs2)) as Hl.
  { rewrite (lookup_path_run fuel fs2 ir) by
      (cbn; first [lia | done | intros c' i' E1 E2; cbn in *; rewrite Hr in E1; injection E1 as <-;
                   rewrite Hi in E2; injection E2 as <-; left; unfold is_link; rewrite Hm;
                   by apply Z.eqb_neq]).
    cbn. by rewrite Hr. }
  pose proof (fm_open_run (S fuel) (path_of (e_parts e)) (fm, fs2) c i (e_data e) Hl Hi Hb) as Hopen.
  destruct (add_fd (_files fm) (next_object fs1)) as [fd l'] eqn:Hadd. cbn [fst snd] in Hopen.
  change (next_object fs2) with (next_object fs1) in Hopen. rewrite Hadd in Hopen.
  apply add_fd_spec in Hadd as (Hfd & _ & _ & Hl').
  run_step. eapply Runs_of_ok; [unfold sys_open; by rewrite (bind_run _ _ _ _ _ Hopen)|].
  pose proof (block_data _ _ Hblock).
  eapply Runs_of_ok.
  { apply (sys_read_run (mkFileManager l', _) fd (next_object fs1) c 0 i (e_data e) count); cbn [fst snd];
      try done; try lia.
    - by rewrite Hl', Z.eqb_refl.
    - cbn. by rewrite lookup_insert_eq.
    - split; [done|apply data_size_nonneg]. }
  rewrite Z.sub_0_r, drop_0. f_equal. f_equal.
  destruct (Z.le_ge_cases count (data_size (e_data e))).
  - by rewrite Z.min_l.
  - rewrite Z.min_r by done. unfold data_size in *. rewrite !take_ge; [done|lia|lia].
Qed.

(** A console that is never asked. *)
#[local] Instance no_console : Console unit := {|
  tty_readInto _ := mret None;
  screen_putString _ := mret tt;
|}.

Lemma boot_and_read_spec_witness :
  Runs (boot_and_read 1 (encode_archive example_entries []) (chars "/etc/motd") 4)
    (mkFileManager [], empty_fs tt) (fun r _ => r = Some (chars "hell", 4)).
Proof.
  apply (boot_and_read_spec (mkFileManager [], empty_fs tt) 0 example_entries []
           (nth 1 example_entries trailer_entry) 4);
    [done|done|exact example_entries_ok|exact example_entries_compatible|right; left|by vm_compute|done].
Defined.

(** A file, two descriptors that are taken, and one that is free. *)
Definition example_state : FileState unit :=
  (mkFileManager [5; 0; 6],
   mkFs {[ 1 := mkInode 0 0 [] (CpioFolderInode [2]);
           2 := mkInode S_IFREG 3 (chars "f") (CpioFileInode (chars "abc")) ]} ∅ 7 1 tt).

Lemma open_lowest_fd_witness :
  Runs (sys_open 1 (chars "/f")) example_state (fun fd s' =>
    fd_handle [5; 0; 6] fd = 0 /\
    handles s'.2 !! fd_handle (_files s'.1) fd = Some (CpioFileHandle 2 0)).
Proof.
  eapply Runs_mono.
  - apply (open_lowest_fd 1 (chars "/f") example_state 2
             (mkInode S_IFREG 3 (chars "f") (CpioFileInode (chars "abc"))) (chars "abc")); [by vm_compute|done..].
  - intros fd s' (_ & Hfree & _ & _ & Hh & _). done.
Defined.

Lemma close_spec_witness :
  Runs (sys_close 2) example_state (fun r s' => r = 0 /\ fd_handle (_files s'.1) 2 = 0).
Proof.
  destruct (close_spec example_state 2) as (_ & _ & Hc). eapply Runs_mono; [by apply Hc|].
  intros r s' (-> & _ & Hk). split; [done|]. by rewrite Hk.
Defined.
