(* ===== verification/Multiboot.v ===== *)
(** * The multiboot information: [Multiboot.cpp]

    The information is in memory, a function from addresses to bytes; the loader only reads it.
    It is read twice: [prepareMemory] marks the pages that are taken in the page map, before there
    is an allocator, and [handle] maps the module and makes the root file system of it. *)

From Stdlib Require Import ZArith Lia.
From stdpp Require Import list numbers gmap.
From S2P Require Import Prelude Words Memory PageManager PageDirectory Fs Cpio.

(** Little-endian members *)
Definition le_combine (mem : Z -> Z) (a : Z) (n : nat) : Z :=
  foldr (fun i rest => mem (a + i) + 256 * rest) 0 (seqZ 0 (Z.of_nat n)).
Definition u32_at (mem : Z -> Z) (a : Z) : Z := le_combine mem a 4.
Definition u64_at (mem : Z -> Z) (a : Z) : Z := le_combine mem a 8.

Definition TAGS_HEADER_SIZE : Z := 8.       (** [sizeof(TagsHeader)] *)
Definition MEMORY_MAP_SIZE : Z := 16.       (** [sizeof(MemoryMap)] *)

Section loader.
Context (mem : Z -> Z).

(** The members of [Tag], [Module], [MemoryMap] and [MemoryMapEntry] *)
Definition tag_type (tag : Z) : Z := u32_at mem tag.
Definition tag_size (tag : Z) : Z := u32_at mem (tag + 4).
Definition mod_start (mod_ : Z) : Z := u32_at mem (mod_ + 8).
Definition mod_end (mod_ : Z) : Z := u32_at mem (mod_ + 12).
Definition entry_size (map : Z) : Z := u32_at mem (map + 8).
Definition entry_base_addr (entry : Z) : Z := u64_at mem entry.
Definition entry_length (entry : Z) : Z := u64_at mem (entry + 8).
Definition entry_type (entry : Z) : Z := u32_at mem (entry + 16).

(** The step of the loop over the tags *)
Definition next_tag (tag : Z) : Z := ptrAlignSup (ptrAdd tag (tag_size tag)) 8.

(** ** The first pass *)
Definition handleMemoryMapEntry (entry : Z) : ST Memory unit :=
  if entry_type entry =? 1 then mret tt
  else
    let page := entry_base_addr entry / 0x1000 in
    let lastPage := u64 (page + u64 (entry_length entry + 0xFFF) / 0x1000) in
    for_each (seqZ page (lastPage - page)) setPageUsed.

Fixpoint memory_map_loop (fuel : nat) (map end_ entry : Z) : ST Memory unit :=
  match fuel with
  | O => fail OutOfFuel
  | S fuel =>
      if ptrAdd entry (entry_size map) <? end_ then
        handleMemoryMapEntry entry ;;
        memory_map_loop fuel map end_ (ptrAdd entry (entry_size map))
      else mret tt
  end.

Definition prehandleMemoryMap (fuel : nat) (map : Z) : ST Memory unit :=
  let entry := map + MEMORY_MAP_SIZE in
  let end_ := ptrAdd entry (tag_size map) in
  memory_map_loop fuel map end_ entry.

(** The physical pages of a module, as the loop of [handleModule] steps through them *)
Definition module_pages (mod_ : Z) : list Z := page_steps (mod_start mod_) (mod_end mod_).

Definition prehandleModule (mod_ : Z) : ST Memory unit :=
  for_each (module_pages mod_) (fun paddr => setPageUsed (paddr / PAGE_SIZE)).

Definition prehandleTag (fuel : nat) (tag : Z) : ST Memory unit :=
  if tag_type tag =? 3 then prehandleModule tag
  else if tag_type tag =? 6 then prehandleMemoryMap fuel tag
  else mret tt.

(** The loop of [handle] for the memory; the value is [memFound]. *)
Fixpoint prepare_loop (fuel : nat) (tag : Z) (memFound : bool) : ST Memory bool :=
  match fuel with
  | O => fail OutOfFuel
  | S fuel =>
      if tag_type tag =? 0 then mret memFound
      else
        prehandleTag fuel tag ;;
        prepare_loop fuel (next_tag tag) (memFound || (tag_type tag =? 6))
  end.

Definition prepareMemory (fuel : nat) (mboot : Z) : ST Memory unit :=
  memFound ← prepare_loop fuel (mboot + TAGS_HEADER_SIZE) false;
  if memFound : bool then mret tt else panic "Memory tag not found in multiboot information".

(** ** The second pass *)
Section second_pass.
Context {C : Type} `{!Symbols, !TableAllocator MM}.
Context (refillPool : ST MM unit).

Record Boot : Type := mkBoot {
  _moduleRead : bool;
  boot_mm : MM;
  boot_fs : FsState C;
}.

Definition on_mm {A} (m : ST MM A) : ST Boot A :=
  zoom boot_mm (fun s b => mkBoot (_moduleRead b) s (boot_fs b)) m.
Definition on_boot_fs {A} (m : ST (FsState C) A) : ST Boot A :=
  zoom boot_fs (fun f b => mkBoot (_moduleRead b) (boot_mm b) f) m.

(** The bytes the processor reads from [va] on, as far as pages are mapped there. *)
Fixpoint mapped_bytes (k va : Z) (pages : nat) : ST MM (list Z) :=
  match pages with
  | O => mret []
  | S pages =>
      pa ← PageDirectory.resolve k va;
      if pa =? INVALID_PHYS then mret []
      else
        rest ← mapped_bytes k (va + PAGE_SIZE) pages;
        mret (map mem (seqZ pa PAGE_SIZE) ++ rest)
  end.

Definition handleModule (mod_ : Z) : ST Boot unit :=
  b ← read_state;
  if _moduleRead b then panic "More than one module specified on boot"
  else
    on_mm (for_each (module_pages mod_) (fun paddr =>
      k ← gets g_kernelDirectory;
      mapPageTo refillPool k (u64 (getStackBase + (paddr - mod_start mod_))) paddr Pte.ATTR_NOEXEC)) ;;
    data ← on_mm (k ← gets g_kernelDirectory;
      mapped_bytes k getStackBase (length (module_pages mod_)));
    root ← on_boot_fs (readArchive data);
    on_boot_fs (setRoot root) ;;
    modify (fun b => mkBoot true (boot_mm b) (boot_fs b)).

Definition handleTag (tag : Z) : ST Boot unit :=
  if tag_type tag =? 3 then handleModule tag else mret tt.

Fixpoint handle_loop (fuel : nat) (tag : Z) : ST Boot unit :=
  match fuel with
  | O => fail OutOfFuel
  | S fuel =>
      if tag_type tag =? 0 then mret tt
      else handleTag tag ;; handle_loop fuel (next_tag tag)
  end.

Definition handle (fuel : nat) (mboot : Z) : ST Boot unit :=
  handle_loop fuel (mboot + TAGS_HEADER_SIZE).
End second_pass.

(** ** What the information says

    The description of a list of tags that lies in memory from an address on. *)
Inductive TagDesc : Type :=
  | ModuleTag (start last : Z)
  | MapTag (size : Z) (entries : list (Z * Z * Z))   (** base, length, type *)
  | OtherTag (type : Z).

Fixpoint entries_at (size entry : Z) (l : list (Z * Z * Z)) : Prop :=
  match l with
  | [] => True
  | (base, len, ty) :: l =>
      entry_base_addr entry = base /\ entry_length entry = len /\ entry_type entry = ty /\
      entries_at size (entry + size) l
  end.

Definition tag_at (tag : Z) (d : TagDesc) : Prop :=
  match d with
  | ModuleTag s e => tag_type tag = 3 /\ mod_start tag = s /\ mod_end tag = e
  | MapTag size l =>
      tag_type tag = 6 /\ entry_size tag = size /\ 16 <= size /\
      tag_size tag = MEMORY_MAP_SIZE + size * Z.of_nat (length l) /\
      tag + tag_size tag + 16 + size < 2 ^ 64 /\
      entries_at size (tag + MEMORY_MAP_SIZE) l
  | OtherTag ty => tag_type tag = ty /\ ty <> 0 /\ ty <> 3 /\ ty <> 6
  end.

Fixpoint tags_at (tag : Z) (l : list TagDesc) : Prop :=
  match l with
  | [] => tag_type tag = 0
  | d :: l =>
      0 <= tag /\ tag_at tag d /\ tags_at (next_tag tag) l
  end.

(** The pages an entry or a tag reserves *)
Definition entry_pages (e : Z * Z * Z) : list Z :=
  let '(base, len, ty) := e in
  if ty =? 1 then [] else seqZ (base / 4096) ((len + 4095) / 4096).
Definition tag_pages (d : TagDesc) : list Z :=
  match d with
  | ModuleTag s e => map (fun p => p / 4096) (page_steps s e)
  | MapTag _ l => concat (map entry_pages l)
  | OtherTag _ => []
  end.

Definition entry_fits (e : Z * Z * Z) : Prop :=
  let '(base, len, _) := e in 0 <= base /\ 0 <= len /\ base + len < 2 ^ 62.
Definition tag_fits (d : TagDesc) : Prop :=
  match d with MapTag _ l => Forall entry_fits l | _ => True end.
Definition is_map (d : TagDesc) : bool := match d with MapTag _ _ => true | _ => false end.

(** Marking a list of pages, each free and in the list once *)
Definition marked (l : list Z) (m m' : Memory) : Prop :=
  memory_wf m' /\ (forall p, used m' p = bool_decide (p ∈ l) || used m p) /\
  forall b, frames_size m <= b -> Forall (fun p => p + 16 <= b) l -> frames_size m' <= b.

Definition markable (l : list Z) (m : Memory) : Prop :=
  memory_wf m /\ NoDup l /\ Forall (fun p => 0 <= p < 2 ^ 62 /\ used m p = false) l.

Lemma markable_app l1 l2 m :
  markable (l1 ++ l2) m -> markable l1 m /\ forall m', marked l1 m m' -> markable l2 m'.
Proof.
  intros (Hwf & Hnd & Hall). apply NoDup_app in Hnd as (H1 & Hd & H2). apply Forall_app in Hall as [A1 A2].
  split; [done|]. intros m' (Hwf' & Hu & _). split_and!; [done|done|].
  apply Forall_forall. intros p Hp. apply (proj1 (Forall_forall _ _) A2) in Hp as Hp'. split; [apply Hp'|].
  rewrite Hu, bool_decide_false; [apply Hp'|]. intros Hin. by eapply Hd.
Qed.

Lemma marked_app l1 l2 m m1 m2 : marked l1 m m1 -> marked l2 m1 m2 -> marked (l1 ++ l2) m m2.
Proof.
  intros (_ & H1 & S1) (Hwf & H2 & S2). split; [done|]. split; [intros p; rewrite H2, H1|intros b Hb [A1 A2]%Forall_app; by apply S2; [apply S1|]].
  rewrite (bool_decide_ext (p ∈ l1 ++ l2) (p ∈ l1 \/ p ∈ l2)) by apply elem_of_app.
  rewrite bool_decide_or. by destruct (bool_decide (p ∈ l1)), (bool_decide (p ∈ l2)).
Qed.

Lemma mark_list {A} (page : A -> Z) (l : list A) m :
  markable (map page l) m ->
  Runs (for_each l (fun x => setPageUsed (page x))) m (fun _ m' => marked (map page l) m m').
Proof.
  revert m. induction l as [|x l IH]; intros m Hm; [apply Runs_ret; split; [apply Hm|done]|].
  change (map page (x :: l)) with ([page x] ++ map page l) in *.
  apply markable_app in Hm as [(Hwf & _ & Hx) Hl]. apply Forall_singleton in Hx as [Hr Hf].
  cbn [for_each]. apply Runs_bind. eapply Runs_mono; [by apply setPageUsed_run|].
  intros [] m1 (Hwf1 & _ & Hu1 & Hs1).
  assert (marked [page x] m m1) as Hm1.
  { split; [done|]. split; [intros p; rewrite Hu1; f_equal|intros b Hb Hlt; rewrite Forall_singleton in Hlt; rewrite Hs1; by apply grown_bound].
    rewrite (bool_decide_ext (p ∈ [page x]) (page x = p)) by (rewrite list_elem_of_singleton; done).
    destruct (Z.eqb_spec (page x) p); [by rewrite bool_decide_true|by rewrite bool_decide_false]. }
  eapply Runs_mono; [by apply IH, Hl|]. intros [] m2 H2. by eapply marked_app.
Qed.

Lemma handleMemoryMapEntry_run entry e m :
  entries_at 0 entry [e] -> entry_fits e -> markable (entry_pages e) m ->
  Runs (handleMemoryMapEntry entry) m (fun _ m' => marked (entry_pages e) m m').
Proof.
  destruct e as [[base len] ty]. intros (Hb & Hl & Ht & _) (H1 & H2 & H3) Hm.
  unfold handleMemoryMapEntry, entry_pages in *. rewrite Hb, Hl, Ht.
  destruct (ty =? 1); [apply Runs_ret; split; [apply Hm|done]|].
  change 0x1000 with 4096. rewrite (wrap_small 64 (len + 0xFFF)) by (unfold in_word; lia).
  assert (0 <= base / 4096 + (len + 0xFFF) / 4096 < 2 ^ 64) as Hp by (Z.to_euclidean_division_equations; lia).
  rewrite (wrap_small 64 (base / 4096 + _)) by exact Hp.
  replace (base / 4096 + (len + 0xFFF) / 4096 - base / 4096) with ((len + 4095) / 4096) by lia.
  pose proof (mark_list (fun x => x) (seqZ (base / 4096) ((len + 4095) / 4096)) m) as H. rewrite map_id in H. by apply H.
Qed.

(** The test with the size of the tag, header included, stops after exactly the entries. *)
Lemma memory_map_loop_run fuel map size entry l m :
  entry_size map = size -> 16 <= size -> (length l < fuel)%nat ->
  0 <= entry -> entry + 16 + size * Z.of_nat (length l) + size < 2 ^ 64 ->
  entries_at size entry l -> Forall entry_fits l -> markable (concat (List.map entry_pages l)) m ->
  Runs (memory_map_loop fuel map (entry + 16 + size * Z.of_nat (length l)) entry) m
    (fun _ m' => marked (concat (List.map entry_pages l)) m m').
Proof.
  intros Hes H16. revert fuel entry m. induction l as [|[[base len] ty] l IH];
    intros fuel entry m Hf H0 Hb He Hfit Hm; (destruct fuel as [|fuel]; [cbn in Hf; lia|]);
    cbn [memory_map_loop]; rewrite Hes; unfold ptrAdd;
    rewrite (wrap_small 64 (entry + size)) by (unfold in_word; nia).
  - rewrite (proj2 (Z.ltb_ge _ _)) by (cbn [length]; lia). apply Runs_ret. split; [apply Hm|done].
  - rewrite (proj2 (Z.ltb_lt _ _)) by (cbn [length] in *; nia). cbn [List.map concat] in *.
    destruct He as (E1 & E2 & E3 & He). apply Forall_cons in Hfit as [Hx Hfit].
    apply markable_app in Hm as [Hm1 Hm2]. apply Runs_bind.
    eapply Runs_mono; [by apply (handleMemoryMapEntry_run entry (base, len, ty))|].
    intros [] m1 H1. cbn [length] in *.
    replace (entry + 16 + size * Z.of_nat (S (length l))) with (entry + size + 16 + size * Z.of_nat (length l)) by lia.
    eapply Runs_mono; [apply IH; [lia|lia|lia|done|done|by apply Hm2]|].
    intros [] m2 H2. by eapply marked_app.
Qed.

(** The fuel: one step for each tag, and for the entries of a map *)
Definition tag_steps (d : TagDesc) : nat := match d with MapTag _ l => S (length l) | _ => 0 end.
Definition enough (fuel : nat) (l : list TagDesc) : Prop :=
  (list_sum (map tag_steps l) + length l < fuel)%nat.

Lemma prehandleTag_run fuel tag d m :
  tag_at tag d -> 0 <= tag -> tag_fits d -> (tag_steps d <= fuel)%nat ->
  markable (tag_pages d) m -> Runs (prehandleTag fuel tag) m (fun _ m' => marked (tag_pages d) m m').
Proof.
  intros Ht H0 Hfit Hf Hm. unfold prehandleTag. destruct d as [s e|size l|ty]; cbn [tag_at tag_pages] in *.
  - destruct Ht as (-> & <- & <-). cbn [Z.eqb Pos.eqb]. unfold prehandleModule. rewrite PAGE_SIZE_eq.
    by apply (mark_list (fun p => p / 4096)).
  - destruct Ht as (-> & Hes & H16 & Hsz & Hb & He). cbn [Z.eqb Pos.eqb]. unfold prehandleMemoryMap, ptrAdd.
    rewrite Hsz in *. unfold MEMORY_MAP_SIZE in *.
    rewrite (wrap_small 64) by (unfold in_word; nia).
    replace (tag + 16 + (16 + size * Z.of_nat (length l))) with (tag + 16 + 16 + size * Z.of_nat (length l)) by lia.
    apply memory_map_loop_run; try done; lia.
  - destruct Ht as (-> & _ & H3 & H6). rewrite (proj2 (Z.eqb_neq ty 3)), (proj2 (Z.eqb_neq ty 6)) by done.
    apply Runs_ret. split; [apply Hm|done].
Qed.

Lemma prepare_loop_run fuel tag l found m :
  tags_at tag l -> enough fuel l -> Forall tag_fits l ->
  markable (concat (map tag_pages l)) m ->
  Runs (prepare_loop fuel tag found) m (fun b m' =>
    b = found || existsb is_map l /\ marked (concat (map tag_pages l)) m m').
Proof.
  unfold enough. revert fuel tag found m. induction l as [|d l IH];
    intros fuel tag found m Hl Hf Hfit Hm; (destruct fuel as [|fuel]; [cbn in Hf; lia|]); cbn [prepare_loop tags_at] in *.
  - rewrite Hl. cbn. apply Runs_ret. rewrite orb_false_r. split; [done|split; [apply Hm|done]].
  - destruct Hl as (H0 & Ht & Hl). apply Forall_cons in Hfit as [Hfd Hfit].
    cbn [map concat list_sum foldr length] in *. apply markable_app in Hm as [Hm1 Hm2].
    assert ((tag_type tag =? 0) = false /\ (tag_type tag =? 6) = is_map d) as [-> Hmap].
    { destruct d as [s e|size es|ty]; cbn [tag_at is_map] in *; [by destruct Ht as (-> & _)|by destruct Ht as (-> & _)|].
      destruct Ht as (-> & ? & ? & ?). split; by apply Z.eqb_neq. }
    apply Runs_bind. eapply Runs_mono; [apply (prehandleTag_run fuel tag d); try done|].
    { unfold list_sum in Hf. cbn [map foldr] in Hf. lia. }
    intros [] m1 H1. rewrite Hmap. eapply Runs_mono; [apply IH; try done; [unfold list_sum in *; lia|by apply Hm2]|].
    intros b m2 [-> H2]. cbn [existsb]. split; [by rewrite orb_assoc|by eapply marked_app].
Qed.
End loader.

(** ** What the first pass does *)

Lemma prepareMemory_run mem fuel mboot l m :
  tags_at mem (mboot + TAGS_HEADER_SIZE) l -> enough fuel l -> Forall tag_fits l ->
  existsb is_map l = true -> markable (concat (map tag_pages l)) m ->
  Runs (prepareMemory mem fuel mboot) m (fun _ m' => marked (concat (map tag_pages l)) m m').
Proof.
  intros Hl Hf Hfit Hmap Hm. unfold prepareMemory. apply Runs_bind.
  eapply Runs_mono; [by apply (prepare_loop_run _ _ _ l)|]. intros b m' [-> H]. cbn [orb].
  rewrite Hmap. by apply Runs_ret.
Qed.

(** *** The specification: the sections of physical memory that the loader's information names as taken *)
Definition sections (d : TagDesc) : list (Z * Z) :=
  match d with
  | ModuleTag s e => [(s, e - s)]
  | MapTag _ l => omap (fun '(base, len, ty) => if ty =? 1 then None else Some (base, len)) l
  | OtherTag _ => []
  end.

(** The page has a byte of the section. *)
Definition covers (sec : Z * Z) (p : Z) : Prop := exists a, sec.1 <= a < sec.1 + sec.2 /\ p = a / 4096.

(** The section does not begin and end within a page each that its length alone does not count. *)
Definition whole (sec : Z * Z) : Prop := sec.2 <= 0 \/ sec.1 mod 4096 + (sec.2 - 1) mod 4096 < 4096.

(** No page has bytes of two of them. *)
Definition apart (secs : list (Z * Z)) : Prop :=
  forall i j s1 s2 p, secs !! i = Some s1 -> secs !! j = Some s2 -> covers s1 p -> covers s2 p -> i = j.

Definition sec_pages (sec : Z * Z) : list Z := seqZ (sec.1 / 4096) ((sec.2 + 4095) / 4096).

Lemma tag_pages_sections d : tag_pages d = concat (map sec_pages (sections d)).
Proof.
  destruct d as [s e|size l|ty]; cbn [tag_pages sections]; [|induction l as [|[[base len] ty] l IH]; [done|]|done].
  - cbn [map concat sec_pages fst snd]. rewrite app_nil_r. unfold page_steps, sec_pages. rewrite map_map. cbn [fst snd].
    change 0xfff with 4095. change 0x1000 with 4096.
    transitivity (Z.add (s / 4096) <$> seqZ 0 ((e - s + 4095) / 4096)); [|by rewrite fmap_add_seqZ, Z.add_0_r].
    apply list_fmap_ext. intros _ i _. by apply Z.div_add.
  - cbn [map concat omap list_omap entry_pages]. rewrite IH. by destruct (ty =? 1).
Qed.

Lemma elem_of_sec_pages sec p : whole sec -> p ∈ sec_pages sec <-> covers sec p.
Proof.
  destruct sec as [s n]. unfold whole, covers, sec_pages. cbn [fst snd]. intros Hw. rewrite elem_of_seqZ. split.
  - intros Hp. exists (Z.max s (p * 4096)).
    destruct (Z.max_spec s (p * 4096)) as [[Hlt ->]|[Hle ->]]; Z.to_euclidean_division_equations; lia.
  - intros (a & Ha & ->). destruct Hw as [Hn|Hw]; Z.to_euclidean_division_equations; lia.
Qed.

Lemma elem_of_sections secs p :
  Forall whole secs -> (p ∈ concat (map sec_pages secs)) <-> exists sec, sec ∈ secs /\ covers sec p.
Proof.
  intros Hw. induction Hw as [|x secs Hx Hw IH]; cbn [map concat].
  - split; [by intros ?%elem_of_nil|by intros (? & ?%elem_of_nil & _)].
  - rewrite elem_of_app, IH, elem_of_sec_pages by done. split.
    + intros [Hp|(sec & Hs & Hp)]; [exists x|exists sec]; (split; [|done]); [left|by right].
    + intros (sec & [->|Hs]%elem_of_cons & Hp); [by left|right; by exists sec].
Qed.

Lemma NoDup_sections secs : Forall whole secs -> apart secs -> NoDup (concat (map sec_pages secs)).
Proof.
  induction secs as [|x secs IH]; intros Hw Ha; [by apply NoDup_nil|].
  apply Forall_cons in Hw as [Hx Hw]. cbn [map concat]. apply NoDup_app. split; [apply NoDup_seqZ|]. split.
  - intros p Hp (y & Hy & Hin)%elem_of_sections; [|done]. apply elem_of_sec_pages in Hp; [|done].
    apply list_elem_of_lookup in Hy as [j Hj]. by pose proof (Ha 0%nat (S j) x y p eq_refl Hj Hp Hin).
  - apply IH; [done|]. intros i j s1 s2 p H1 H2 C1 C2. by pose proof (Ha (S i) (S j) s1 s2 p H1 H2 C1 C2) as [= ->].
Qed.

(** C32. With a memory map among its tags, [prepareMemory] ends, and it marks as used exactly the pages with a
    byte of a section that the loader's information names as taken: the modules, and the entries of the map
    that are not free memory.  No two of them share a page, and none is cut over its pages in the
    way that [last_page_left_free] describes. *)
Theorem prepareMemory_spec mem fuel mboot l m :
  tags_at mem (mboot + TAGS_HEADER_SIZE) l -> enough fuel l -> Forall tag_fits l ->
  existsb is_map l = true -> memory_wf m ->
  let secs := concat (map sections l) in
  Forall whole secs -> apart secs ->
  (forall sec p, sec ∈ secs -> covers sec p -> 0 <= p < 2 ^ 62 /\ used m p = false) ->
  Runs (prepareMemory mem fuel mboot) m (fun _ m' => memory_wf m' /\
    forall p, used m' p = true <-> used m p = true \/ exists sec, sec ∈ secs /\ covers sec p).
Proof.
  intros Hl Hf Hfit Hmap Hwf secs Hw Ha Hfree.
  assert (concat (map tag_pages l) = concat (map sec_pages secs)) as E.
  { unfold secs. clear. induction l as [|d l IH]; [done|]. cbn [map concat].
    rewrite IH, tag_pages_sections. by rewrite map_app, concat_app. }
  assert (forall p, p ∈ concat (map sec_pages secs) <-> exists sec, sec ∈ secs /\ covers sec p) as Hin
    by (intros p; by apply elem_of_sections).
  assert (markable (concat (map tag_pages l)) m) as Hm.
  { rewrite E. split_and!; [done|by apply NoDup_sections|].
    apply Forall_forall. intros p (sec & Hsec & Hp)%Hin. by apply (Hfree sec). }
  eapply Runs_mono; [by apply (prepareMemory_run mem fuel mboot l)|]. intros [] m' (Hwf' & Hu & _).
  split; [done|]. intros p. rewrite Hu, orb_true_iff, bool_decide_eq_true, E, Hin. tauto.
Qed.

(** Without a map the kernel does not start. *)
Theorem prepareMemory_no_map mem fuel mboot l m :
  tags_at mem (mboot + TAGS_HEADER_SIZE) l -> enough fuel l -> Forall tag_fits l ->
  existsb is_map l = false -> markable (concat (map tag_pages l)) m ->
  Fails (prepareMemory mem fuel mboot) m (Panicked "Memory tag not found in multiboot information").
Proof.
  intros Hl Hf Hfit Hmap Hm. unfold prepareMemory.
  pose proof (prepare_loop_run mem fuel _ l false m Hl Hf Hfit Hm) as H.
  apply Runs_ok in H as (b & m' & Hrun & -> & _). unfold Fails. rewrite (bind_run _ _ _ _ _ Hrun).
  cbn [orb]. by rewrite Hmap.
Qed.

(** The base of an entry is rounded down and its length up, each for itself: when the entry starts
    and ends within a page, the page of its last byte may be left free. *)
Theorem last_page_left_free base len ty :
  ty <> 1 -> 0 < len -> 4096 <= base mod 4096 + (len - 1) mod 4096 ->
  ((base + len - 1) / 4096 ∉ entry_pages (base, len, ty)) /\ covers (base, len) ((base + len - 1) / 4096).
Proof.
  intros Hty Hlen Hcross. unfold entry_pages. rewrite (proj2 (Z.eqb_neq _ _) Hty), elem_of_seqZ. split.
  - Z.to_euclidean_division_equations. lia.
  - exists (base + len - 1). cbn [fst snd]. split; [lia|done].
Qed.

(** A second module stops the boot. *)
Theorem second_module `{!Symbols, !TableAllocator MM} {C} mem refill (b : Boot (C := C)) mod_ fuel :
  _moduleRead b = true -> tag_type mem mod_ = 3 ->
  Fails (handle_loop mem refill (S fuel) mod_) b
    (Panicked "More than one module specified on boot").
Proof.
  intros Hread Hty. unfold Fails. cbn [handle_loop]. unfold handleTag. rewrite Hty.
  cbn [Z.eqb Pos.eqb]. unfold handleModule, mbind, ST_bind, read_state, gets. by rewrite Hread.
Qed.

(** ** A witness: a map of two entries, a module and an unknown tag *)
Definition le32 (z : Z) : list Z := [z mod 256; z / 256 mod 256; z / 65536 mod 256; z / 16777216 mod 256].
Definition le64 (z : Z) : list Z := le32 (z mod 2 ^ 32) ++ le32 (z / 2 ^ 32).

Definition boot_information : list Z :=
  le32 120 ++ le32 0 ++
  le32 6 ++ le32 64 ++ le32 24 ++ le32 0 ++
    le64 0 ++ le64 0x9fc00 ++ le32 1 ++ le32 0 ++
    le64 0x9fc00 ++ le64 0x400 ++ le32 2 ++ le32 0 ++
  le32 3 ++ le32 19 ++ le32 0x200000 ++ le32 0x202000 ++ [105; 110; 0] ++ replicate 5 0 ++
  le32 9 ++ le32 8 ++
  le32 0 ++ le32 8.
Definition boot_memory (a : Z) : Z := nth (Z.to_nat (a - 0x1000)) boot_information 0.
Definition boot_tags : list TagDesc :=
  [MapTag 24 [(0, 0x9fc00, 1); (0x9fc00, 0x400, 2)]; ModuleTag 0x200000 0x202000; OtherTag 9].

Lemma boot_covers sec p :
  sec ∈ concat (map sections boot_tags) -> covers sec p ->
  sec = (0x9fc00, 0x400) /\ p = 0x9f \/ sec = (0x200000, 0x2000) /\ (p = 0x200 \/ p = 0x201).
Proof.
  change (concat (map sections boot_tags)) with [(0x9fc00, 0x400); (0x200000, 0x2000)].
  rewrite !elem_of_cons, elem_of_nil. intros [-> |[-> |[]]] (a & Ha & ->); cbn [fst snd] in Ha; [left|right];
    (split; [done|Z.to_euclidean_division_equations; lia]).
Qed.

Lemma prepareMemory_spec_witness :
  Runs (prepareMemory boot_memory 10 0x1000) small_memory
    (fun _ m' => used m' 0x9f = true /\ used m' 0x201 = true /\ used m' 0x202 = false).
Proof.
  eapply Runs_mono.
  - apply (prepareMemory_spec boot_memory 10 0x1000 boot_tags small_memory).
    + repeat (split; [vm_compute; congruence|]). vm_compute. done.
    + unfold enough. cbn. lia.
    + repeat constructor; lia.
    + done.
    + apply small_memory_wf.
    + change (concat (map sections boot_tags)) with [(0x9fc00, 0x400); (0x200000, 0x2000)].
      repeat (apply Forall_cons; split; [by right; vm_compute|]). by apply Forall_nil.
    + intros i j s1 s2 p H1 H2 C1 C2.
      pose proof (boot_covers s1 p (list_elem_of_lookup_2 _ _ _ H1) C1) as D1.
      pose proof (boot_covers s2 p (list_elem_of_lookup_2 _ _ _ H2) C2) as D2.
      assert (s1 = s2) as -> by (destruct D1 as [[-> ?]|[-> ?]], D2 as [[-> ?]|[-> ?]]; done || (exfalso; lia)).
      change (concat (map sections boot_tags)) with [(0x9fc00, 0x400); (0x200000, 0x2000)] in *.
      destruct i as [|[|i]], j as [|[|j]]; by simplify_eq/=.
    + intros sec p Hs Hc. destruct (boot_covers sec p Hs Hc) as [[_ ->]|[_ [-> | ->]]]; done.
  - intros [] m' [_ Hu]. change (concat (map sections boot_tags)) with [(0x9fc00, 0x400); (0x200000, 0x2000)] in Hu.
    split_and!.
    + apply Hu. right. exists (0x9fc00, 0x400). split; [left|]. by exists 0x9fc00.
    + apply Hu. right. exists (0x200000, 0x2000). split; [right; left|]. by exists 0x201000.
    + apply not_true_iff_false. intros [Hn|(sec & Hs & Hc)]%Hu; [done|].
      destruct (boot_covers sec _ Hs Hc) as [[_ ?]|[_ [?|?]]]; done.
Defined.

Lemma last_page_left_free_witness : (0x100 ∉ entry_pages (0xff800, 0xc00, 2)) /\ covers (0xff800, 0xc00) 0x100.
Proof. apply (last_page_left_free 0xff800 0xc00 2); done. Defined.
