(* ===== verification/Terminals.v ===== *)
(** * The files of a task and its terminal: [StdIn] and [StdOut] of [FileManager.cpp] over
      [Tty.cpp] and [Screen.cpp]

    [Fs] leaves open what the standard handles print on and read from; here it is the terminal,
    and what the system calls promise of the files becomes what a user sees. *)

From Stdlib Require Import ZArith Lia.
From stdpp Require Import list numbers gmap.
From S2P Require Import Prelude Words Interrupts Devices Sync Screen Fs Tty Cpio FileManager.

Section terminals.
(** The task that calls, and the address of its waiter *)
Context (p task : Z).

#[local] Instance tty_console : Console Terminal := {|
  tty_readInto size := r ← readInto p task size; mret r.1;
  screen_putString bytes := tty_print bytes;
|}.

Implicit Types (s : FileState Terminal) (t : Sheet).

(** [write] on a descriptor of the standard output *)
Lemma sys_write_run s fd bytes t lq :
  0 <= fd -> fd_handle (_files s.1) fd <> 0 ->
  handles s.2 !! fd_handle (_files s.1) fd = Some StdOut -> idle t lq (console s.2) ->
  stays LightGrey Black t bytes = true ->
  Runs (sys_write fd bytes) s (fun n s' =>
    n = data_size bytes /\ idle (fold_left (type_char LightGrey Black) bytes t) lq (console s'.2) /\
    (console s'.2).1 = (console s.2).1 /\ s' = (s.1, set_console (console s'.2) s.2)).
Proof.
  intros Hfd Hnz Hh [Hu Hm Hq Hs] Hstay. destruct s as [fm fs]. cbn [fst snd] in *.
  unfold sys_write. apply Runs_bind. eapply Runs_of_ok; [by apply getHandle_run|]. cbn [fst snd].
  rewrite (proj2 (Z.eqb_neq _ 0)) by done. apply Runs_bind, Runs_zoom.
  unfold deref_handle. apply Runs_bind, Runs_read. cbn [snd]. eapply Runs_from_option; [exact Hh|].
  apply Runs_bind, Runs_zoom. cbn [handle_write snd]. apply Runs_bind, Runs_zoom.
  cbn [screen_putString tty_console]. apply Runs_zoom.
  eapply Runs_mono; [exact (prints_in _ _ _ _ (putString_run t _ bytes LightGrey Black Hs) Hstay)|].
  intros [] scr (Hscr & Hcpu & _). apply Runs_ret, Runs_ret. cbn. split_and!; try done.
  split; [unfold unlocked in *; cbn in *; by rewrite Hcpu|done|done|done].
Qed.

(** A call of [write] after the other *)
Definition two_writes (fd : Z) (a b : str) : ST (FileState Terminal) (Z * Z) :=
  n ← sys_write fd a;
  m ← sys_write fd b;
  mret (n, m).

(** C35. What a task writes to its standard output is typed on the screen, all of it, behind what
    was there, as long as it stays on the screen's 24 lines; a call after the other is the same
    as one call with both texts. *)
Theorem stdout_shows s fd a b t lq :
  0 <= fd -> fd_handle (_files s.1) fd <> 0 ->
  handles s.2 !! fd_handle (_files s.1) fd = Some StdOut -> idle t lq (console s.2) ->
  stays LightGrey Black t (a ++ b) = true ->
  Runs (two_writes fd a b) s (fun r s' =>
    r = (data_size a, data_size b) /\ (console s'.2).1 = (console s.2).1 /\
    shows (fold_left (type_char LightGrey Black) (a ++ b) t) (console s'.2).2).
Proof.
  intros Hfd Hnz Hh Hidle Hstay. rewrite stays_app in Hstay. apply andb_true_iff in Hstay as [Hsa Hsb]. unfold two_writes. apply Runs_bind.
  eapply Runs_mono; [by apply (sys_write_run s fd a t lq)|]. intros n s1 (-> & Hi1 & E1 & Hs1). apply Runs_bind.
  rewrite Hs1 in Hi1, E1 |- *. eapply Runs_mono; [by apply (sys_write_run _ fd b (fold_left (type_char LightGrey Black) a t) lq)|].
  intros m s2 (-> & [_ _ _ Hscr] & E2 & _). apply Runs_ret. split_and!; [done|by rewrite E2|].
  by rewrite fold_left_app.
Qed.

(** A task that reads its standard input when there is some gets the first characters of it, no
    more than it asked for, and they leave the queue; when there is none, it sleeps. *)
Theorem stdin_reads s fd count t :
  0 <= fd -> fd_handle (_files s.1) fd <> 0 ->
  handles s.2 !! fd_handle (_files s.1) fd = Some StdIn -> idle t [] (console s.2) -> 0 < count ->
  task <> 0 -> p <> 0 -> waiters (cv_queue (tty_condvar (console s.2).1)) !! p = None ->
  let input := stdin (console s.2).1 in
  Runs (sys_read fd count) s (fun r s' =>
    _files s'.1 = _files s.1 /\ stdin (console s'.2).1 = drop (Z.to_nat count) input /\
    match input with
    | [] => r = None /\ queue (cv_queue (tty_condvar (console s'.2).1)) [p]
    | _ => r = Some (take (Z.to_nat count) input, Z.min count (data_size input))
    end).
Proof.
  intros Hfd Hnz Hh [Hu Hm Hq Hs] Hc Htask Hp Hfresh input. destruct s as [fm fs]. cbn [fst snd] in *.
  unfold sys_read. apply Runs_bind. eapply Runs_of_ok; [by apply getHandle_run|]. cbn [fst snd].
  rewrite (proj2 (Z.eqb_neq _ 0)) by done. apply Runs_bind, Runs_zoom.
  unfold deref_handle. apply Runs_bind, Runs_read. cbn [snd]. eapply Runs_from_option; [exact Hh|].
  apply Runs_bind, Runs_zoom. cbn [handle_read snd]. apply Runs_bind, Runs_zoom.
  cbn [tty_readInto tty_console]. apply Runs_bind.
  destruct input as [|c l] eqn:El; unfold input in El.
  - eapply Runs_mono; [by apply (readInto_none p task count [])|].
    intros r s1 (-> & E1 & _ & _ & Hq1 & _). apply Runs_ret, Runs_ret.
    apply Runs_bind, Runs_zoom, Runs_modify, Runs_ret. cbn. by rewrite drop_nil.
  - apply readInto_some; [done|done|by rewrite El|done|]. apply Runs_ret, Runs_ret.
    apply Runs_bind, Runs_zoom, Runs_modify, Runs_ret. cbn [fst snd console set_console set_handles set_stdin stdin].
    rewrite El. split_and!; [done|done|]. cbn [fmap option_fmap option_map]. do 2 f_equal.
    unfold data_size. rewrite length_take. lia.
Qed.
End terminals.

(** ** A task with the three standard descriptors *)
Definition example_task : FileState Terminal :=
  (mkFileManager [1; 2; 3],
   mkFs ∅ (<[1 := StdIn]> (<[2 := StdOut]> {[3 := StdOut]})) 4 0 example_tty).

Lemma stdout_shows_witness :
  Runs (two_writes 0x100 1 1 (chars "a") (chars "bc")) example_task (fun r _ => r = (1, 2)).
Proof.
  eapply Runs_mono.
  - apply (stdout_shows 0x100 1 example_task 1
      (chars "a") (chars "bc") example_sheet []); [done|done|done|exact example_idle|by vm_compute].
  - by intros r s' (-> & _).
Defined.

Lemma stdin_reads_witness :
  Runs (sys_read (Console0 := tty_console 0x100 1) 0 5) example_task (fun r _ => r = None).
Proof.
  eapply Runs_mono.
  - apply (stdin_reads 0x100 1 example_task 0 5 example_sheet);
      [done|done|done|exact example_idle|done|done|done|done].
  - by intros r s' (_ & _ & -> & _).
Defined.
