(* ===== verification/IntUtil.v ===== *)
(** * Printing integers: [IntUtil.cpp]

    The three functions write the digits from the end of a static buffer of 32 bytes and return a
    pointer into it, here its index; -1 is the pointer before the buffer. *)

From Stdlib Require Import ZArith Lia.
From stdpp Require Import list numbers.
From S2P Require Import Prelude Words Fs.

(** [m_buf] *)
Abbreviation Buf := (list Z).
Definition m_buf_size : nat := 32.

(** The character stored for a digit: a signed [char], and [+=] on it. *)
Definition digit_char (d : Z) : Z :=
  let c := wrap_signed 8 d in
  wrap_signed 8 (if 10 <=? c then c + (65 - 10) else c + 48).

(** The loop, with [ptr] at [m_buf + n - 1] *)
Fixpoint print_loop (n : nat) (value base : Z) (buf : Buf) : Buf * Z :=
  match n with
  | O => (buf, -1)
  | S n =>
      let buf := <[n := digit_char (value mod base)]> buf in
      let value := value / base in
      if value =? 0 then (buf, Z.of_nat n) else print_loop n value base buf
  end.

(** [uintToStr] and [ulongToStr], whose bodies are the same *)
Definition ulongToStr (value base : Z) : ST Buf Z :=
  modify (fun buf => <[31%nat := 0]> buf) ;;
  if base =? 0 then fail (Undefined "division by zero")
  else fun buf => let '(buf, ptr) := print_loop 31 value base buf in Ok (ptr, buf).

Definition uintToStr (value base : Z) : ST Buf Z := ulongToStr value base.

Definition intToStr (value base : Z) : ST Buf Z :=
  let neg := value <? 0 in
  if neg && (2 ^ 31 <=? - value) then fail (Undefined "signed overflow")
  else
    let value := if neg then - value else value in
    ptr ← ulongToStr value base;
    if neg && (0 <? ptr) then
      modify (fun buf => <[Z.to_nat (ptr - 1) := 45]> buf) ;; mret (ptr - 1)
    else mret ptr.

(** What the caller reads at the pointer *)
Definition text_at (buf : Buf) (ptr : Z) : str := c_str (drop (Z.to_nat ptr) buf).

(** ** The numeral of a number *)

(** The digits, most significant first; there are at most [n]. *)
Fixpoint digits (n : nat) (value base : Z) : list Z :=
  match n with
  | O => []
  | S n => (if value / base =? 0 then [] else digits n (value / base) base) ++ [value mod base]
  end.

Definition numeral (base : Z) (ds : list Z) : Z := fold_left (fun v d => v * base + d) ds 0.
Definition digit_text (d : Z) : Z := if d <? 10 then 48 + d else 55 + d.

(** Reading a numeral back *)
Definition digit_of (c : Z) : option Z :=
  if (48 <=? c) && (c <=? 57) then Some (c - 48)
  else if (65 <=? c) && (c <=? 90) then Some (c - 55) else None.
Definition parse (base : Z) (s : str) : option Z := numeral base <$> mapM digit_of s.

Section printing.
Context (base : Z) (Hbase : 2 <= base <= 36).

Lemma digits_snoc n value : digits (S n) value base =
  (if value / base =? 0 then [] else digits n (value / base) base) ++ [value mod base].
Proof. done. Qed.

Lemma numeral_snoc ds d : numeral base (ds ++ [d]) = numeral base ds * base + d.
Proof. unfold numeral. by rewrite fold_left_app. Qed.

Lemma pow_succ n : base ^ Z.of_nat (S n) = base * base ^ Z.of_nat n.
Proof. rewrite Nat2Z.inj_succ. by rewrite Z.pow_succ_r by lia. Qed.

Lemma digits_value n value :
  0 <= value < base ^ Z.of_nat n -> numeral base (digits n value base) = value.
Proof using Hbase.
  revert value. induction n as [|n IH]; intros value Hv; [cbn in *; lia|].
  rewrite digits_snoc, numeral_snoc. pose proof (Z.div_mod value base ltac:(lia)) as Hd.
  rewrite pow_succ in Hv. destruct (Z.eqb_spec (value / base) 0) as [E|E]; [cbn; lia|].
  rewrite IH; [lia|]. split; [apply Z.div_pos; lia|]. apply Z.div_lt_upper_bound; lia.
Qed.

Lemma digits_range n value : 0 <= value -> Forall (fun d => 0 <= d < base) (digits n value base).
Proof using Hbase.
  revert value. induction n as [|n IH]; intros value Hv; [constructor|]. rewrite digits_snoc.
  apply Forall_app. split; [destruct (_ =? _); [constructor|apply IH, Z.div_pos; lia]|].
  constructor; [apply Z.mod_pos_bound; lia|constructor].
Qed.

Lemma digits_length n value : (length (digits n value base) <= n)%nat.
Proof.
  revert value. induction n as [|n IH]; intros value; [done|]. rewrite digits_snoc, length_app.
  destruct (_ =? _); simpl; [lia|]. specialize (IH (value / base)). lia.
Qed.

(** The first digit is not zero, but for zero itself. *)
Lemma digits_head n value d ds :
  0 < value < base ^ Z.of_nat n -> digits n value base = d :: ds -> d <> 0.
Proof using Hbase.
  revert value d ds. induction n as [|n IH]; intros value d ds Hv E; [cbn in *; lia|].
  rewrite digits_snoc in E. rewrite pow_succ in Hv. pose proof (Z.div_mod value base ltac:(lia)).
  destruct (Z.eqb_spec (value / base) 0) as [Ez|Ez]; [injection E as <- _; lia|].
  assert (0 < value / base < base ^ Z.of_nat n) as Hq.
  { pose proof (Z.div_pos value base ltac:(lia) ltac:(lia)). split; [lia|]. apply Z.div_lt_upper_bound; lia. }
  destruct (digits n (value / base) base) as [|d' ds'] eqn:Ed.
  - pose proof (digits_value n (value / base) ltac:(lia)) as Hz. rewrite Ed in Hz. cbn in Hz. lia.
  - injection E as <- _. by apply (IH (value / base) d' ds').
Qed.

Lemma digit_char_text d : 0 <= d < base -> digit_char d = digit_text d.
Proof using Hbase.
  intros Hd. unfold digit_char, digit_text. rewrite (wrap_signed_small 8 d) by lia.
  destruct (Z.leb_spec 10 d); destruct (Z.ltb_spec d 10); try lia; rewrite wrap_signed_small; lia.
Qed.

Lemma digit_of_text d : 0 <= d < base -> digit_of (digit_text d) = Some d.
Proof using Hbase.
  intros Hd. unfold digit_of, digit_text. destruct (Z.ltb_spec d 10).
  - rewrite (proj2 (Z.leb_le 48 _)), (proj2 (Z.leb_le _ 57)) by lia. cbn [andb]. f_equal. lia.
  - rewrite (proj2 (Z.leb_gt (55 + d) 57)), andb_false_r by lia.
    rewrite (proj2 (Z.leb_le 65 _)), (proj2 (Z.leb_le _ 90)) by lia. cbn [andb]. f_equal. lia.
Qed.

(** The loop, when there is room for the digits: they end where it started, and what is
    behind is left alone. *)
Lemma print_loop_run n value buf :
  0 <= value < base ^ Z.of_nat n -> (0 < n <= length buf)%nat ->
  let ds := map digit_text (digits n value base) in
  print_loop n value base buf =
  (take (n - length ds) buf ++ ds ++ drop n buf, Z.of_nat (n - length ds)).
Proof using Hbase.
  revert value buf. induction n as [|n IH]; intros value buf Hv Hn ds; [lia|].
  cbn [print_loop]. pose proof (Z.div_mod value base ltac:(lia)) as Hd.
  pose proof (Z.mod_pos_bound value base ltac:(lia)) as Hm.
  rewrite digit_char_text by lia. unfold ds. rewrite digits_snoc. rewrite pow_succ in Hv.
  set (buf1 := <[n := digit_text (value mod base)]> buf).
  assert (drop n buf1 = digit_text (value mod base) :: drop (S n) buf) as Hdrop.
  { unfold buf1. rewrite insert_take_drop by lia. rewrite drop_app_length'; [done|rewrite length_take; lia]. }
  assert (take n buf1 = take n buf) as Htake.
  { unfold buf1. rewrite insert_take_drop by lia. rewrite take_app_length'; [done|rewrite length_take; lia]. }
  assert (length buf1 = length buf) as Hlen by apply length_insert.
  destruct (Z.eqb_spec (value / base) 0) as [E|E].
  - cbn [map app length Nat.sub]. rewrite Nat.sub_0_r. f_equal.
    rewrite <- (take_drop n buf1), Htake, Hdrop. done.
  - assert (n <> 0%nat) as Hn0.
    { intros ->. cbn in Hv. assert (value / base = 0) by (apply Z.div_small; lia). done. }
    rewrite IH; [|split; [apply Z.div_pos; lia|apply Z.div_lt_upper_bound; lia]|lia].
    pose proof (digits_length n (value / base)) as Hl.
    rewrite map_app, length_app, !length_map. cbn [map length].
    replace (S n - (length (digits n (value / base) base) + 1))%nat
      with (n - length (digits n (value / base) base))%nat by lia.
    rewrite Hdrop, <- app_assoc. cbn [app]. f_equal. f_equal.
    rewrite <- (take_drop n buf1), Htake.
    rewrite take_app_le by (rewrite length_take; lia). rewrite take_take. f_equal. lia.
Qed.

Lemma text_digits n value rest :
  0 <= value -> c_str (map digit_text (digits n value base) ++ 0 :: rest) = map digit_text (digits n value base).
Proof using Hbase.
  intros Hv. pose proof (digits_range n value Hv) as Hr. induction Hr as [|d ds Hd _ IH]; [done|].
  cbn. rewrite (proj2 (Z.eqb_neq (digit_text d) 0)); [by rewrite IH|].
  unfold digit_text. destruct (Z.ltb_spec d 10); lia.
Qed.

Lemma parse_digits n value :
  0 <= value < base ^ Z.of_nat n -> parse base (map digit_text (digits n value base)) = Some value.
Proof using Hbase.
  intros Hv. unfold parse.
  assert (mapM digit_of (map digit_text (digits n value base)) = Some (digits n value base)) as ->.
  { pose proof (digits_range n value ltac:(lia)) as Hr. induction Hr as [|d ds Hd _ IH]; [done|].
    cbn. by rewrite digit_of_text, IH. }
  simpl. by rewrite digits_value.
Qed.

Lemma ulongToStr_run value buf :
  0 <= value < base ^ 31 -> length buf = m_buf_size ->
  let ds := map digit_text (digits 31 value base) in
  exists pre, length pre = (31 - length ds)%nat /\ (length ds <= 31)%nat /\
    ulongToStr value base buf = Ok (Z.of_nat (length pre), pre ++ ds ++ [0]).
Proof using Hbase.
  intros Hv Hlen ds. unfold m_buf_size in Hlen. unfold ulongToStr. rewrite bind_modify.
  rewrite (proj2 (Z.eqb_neq base 0)) by lia.
  assert (length ds <= 31)%nat as Hds by (unfold ds; rewrite length_map; apply digits_length).
  rewrite print_loop_run; [|exact Hv|rewrite length_insert; lia]. fold ds.
  exists (take (31 - length ds) (<[31%nat := 0]> buf)).
  rewrite length_take, length_insert. split_and!; [lia|done|]. do 2 f_equal; [f_equal; lia|].
  do 2 f_equal. rewrite insert_take_drop by lia. rewrite drop_app_length'; [|rewrite length_take; lia].
  rewrite drop_ge by lia. done.
Qed.

(** Printing and reading back: the text at the pointer is the numeral of the number, with no
    leading zero, in a base from 2 to 36, provided the number has at most 31 digits; the buffer
    is not overrun. *)
Theorem ulongToStr_roundtrip value buf :
  0 <= value < base ^ 31 -> length buf = m_buf_size ->
  Runs (ulongToStr value base) buf (fun ptr buf' =>
    0 <= ptr < 31 /\ length buf' = m_buf_size /\
    parse base (text_at buf' ptr) = Some value /\
    (0 < value -> head (text_at buf' ptr) <> Some 48)).
Proof using Hbase.
  intros Hv Hlen. destruct (ulongToStr_run value buf Hv Hlen) as (pre & Hpre & Hds & E).
  eapply Runs_of_ok; [exact E|]. set (ds := digits 31 value base) in *.
  assert (ds <> []) as Hne.
  { unfold ds. rewrite digits_snoc. intros H%app_eq_nil. by destruct H. }
  assert (text_at (pre ++ map digit_text ds ++ [0]) (Z.of_nat (length pre)) = map digit_text ds) as ->.
  { unfold text_at. rewrite Nat2Z.id, drop_app_length. apply text_digits. lia. }
  split_and!.
  - lia.
  - assert (length ds <> 0)%nat by (by destruct ds). rewrite length_map in *. lia.
  - rewrite !length_app. cbn [length]. unfold m_buf_size. lia.
  - by apply parse_digits.
  - intros Hpos. destruct ds as [|d ds'] eqn:Ed; [done|]. cbn. intros [= Hz].
    pose proof (digits_head 31 value d ds' ltac:(lia) Ed) as Hd.
    pose proof (digits_range 31 value ltac:(lia)) as Hr. fold ds in Hr. rewrite Ed in Hr.
    apply Forall_cons in Hr as [Hr _]. unfold digit_text in Hz. destruct (Z.ltb_spec d 10); lia.
Qed.
End printing.

(** A number of at most [n] digits has at most [n] digits, with room for more. *)
Lemma digits_short base n w :
  2 <= base <= 36 -> 0 <= w < base ^ Z.of_nat n -> (0 < n)%nat -> (length (digits (S n) w base) <= n)%nat.
Proof.
  intros Hbase. revert w. induction n as [|n IH]; intros w Hw Hn; [lia|].
  change (digits (S (S n)) w base) with
    ((if w / base =? 0 then [] else digits (S n) (w / base) base) ++ [w mod base]).
  rewrite length_app. destruct (Z.eqb_spec (w / base) 0) as [|Hq]; [simpl; lia|].
  rewrite pow_succ in Hw. pose proof (Z.div_mod w base ltac:(lia)).
  assert (0 <= w / base < base ^ Z.of_nat n) as Hw'
    by (split; [apply Z.div_pos; lia|apply Z.div_lt_upper_bound; lia]).
  destruct n as [|n]; [cbn in Hw'; lia|]. specialize (IH (w / base) Hw' ltac:(lia)).
  cbn [length]. lia.
Qed.

(** What the buffer holds after the digits are printed *)
Lemma ulongToStr_text base v buf :
  2 <= base <= 36 -> 0 <= v < base ^ 31 -> length buf = m_buf_size ->
  exists pre ds, ulongToStr v base buf = Ok (Z.of_nat (length pre), pre ++ ds ++ [0]) /\
    (length pre + length ds = 31)%nat /\ (0 < length ds)%nat /\ parse base ds = Some v /\
    (forall rest, c_str (ds ++ 0 :: rest) = ds) /\ head ds <> Some 45 /\
    (v < base ^ 30 -> (length ds <= 30)%nat).
Proof.
  intros Hbase Hv Hlen. destruct (ulongToStr_run base Hbase v buf Hv Hlen) as (pre & Hpre & Hds & E).
  exists pre, (map digit_text (digits 31 v base)). split_and!; [done|lia| | |intros; by apply text_digits; lia| |].
  - rewrite digits_snoc, map_app, length_app. simpl length at 2. lia.
  - by apply parse_digits.
  - pose proof (digits_range base Hbase 31 v ltac:(lia)) as Hr.
    destruct (digits 31 v base) as [|d l]; [done|]. apply Forall_cons in Hr as [Hr _]. cbn.
    unfold digit_text. intros [= Hd]. destruct (Z.ltb_spec d 10); lia.
  - intros Hs. rewrite length_map. pose proof (digits_short base 30 v Hbase) as H30.
    change (Z.of_nat 30) with 30 in H30. apply H30; lia.
Qed.

(** Reading a signed numeral back *)
Definition parse_signed (base : Z) (s : str) : option Z :=
  match s with
  | c :: s' => if c =? 45 then Z.opp <$> parse base s' else parse base s
  | [] => parse base s
  end.

(** A signed number is printed with its sign in front when its digits leave room for it, which
    they do in every base but 2; the least integer, whose opposite is not an [int], is the exception. *)
Theorem intToStr_roundtrip base value buf :
  2 <= base <= 36 -> - 2 ^ 31 < value < 2 ^ 31 -> Z.abs value < base ^ 30 -> length buf = m_buf_size ->
  Runs (intToStr value base) buf (fun ptr buf' =>
    0 <= ptr < 31 /\ length buf' = m_buf_size /\ parse_signed base (text_at buf' ptr) = Some value).
Proof.
  intros Hbase Hv Habs Hlen. unfold intToStr.
  assert ((value <? 0) && (2 ^ 31 <=? - value) = false) as ->.
  { destruct (Z.ltb_spec value 0); [|done]. apply Z.leb_gt. lia. }
  set (v := if value <? 0 then - value else value).
  assert (v = Z.abs value) as Hva by (unfold v; destruct (Z.ltb_spec value 0); lia).
  assert (base ^ 31 = base * base ^ 30) as Hpow by (change 31 with (Z.succ 30); by rewrite Z.pow_succ_r).
  assert (0 < base ^ 30) by (apply Z.pow_pos_nonneg; lia).
  destruct (ulongToStr_text base v buf Hbase ltac:(lia) Hlen)
    as (pre & ds & E & Hl & Hne & Hparse & Hc & Hd & H30). specialize (H30 ltac:(lia)).
  apply Runs_bind. eapply Runs_of_ok; [exact E|]. destruct (Z.ltb_spec value 0) as [Hneg|Hpos]; cbn [andb].
  - rewrite (proj2 (Z.ltb_lt 0 _)) by lia. run_steps.
    replace (Z.to_nat (Z.of_nat (length pre) - 1)) with (length pre - 1)%nat by lia.
    destruct pre as [|c pre _] using rev_ind; [simpl in Hl; lia|].
    rewrite length_app in *. cbn [length] in *.
    replace (length pre + 1 - 1)%nat with (length pre) by lia. rewrite <- app_assoc.
    rewrite insert_app_r_alt by lia. rewrite Nat.sub_diag. cbn [app list_insert insert].
    split_and!; [lia|lia|rewrite !length_app; cbn [length]; rewrite length_app; cbn [length]; unfold m_buf_size; lia|].
    unfold text_at. replace (Z.to_nat _) with (length pre) by lia. rewrite drop_app_length.
    cbn [c_str Z.eqb Pos.eqb]. rewrite Hc. cbn [parse_signed Z.eqb Pos.eqb]. rewrite Hparse. simpl. f_equal. lia.
  - run_steps. split_and!; [lia|lia|rewrite !length_app; cbn [length]; unfold m_buf_size; lia|].
    unfold text_at. rewrite Nat2Z.id, drop_app_length, Hc.
    destruct ds as [|d ds']; [done|]. unfold parse_signed. cbn in Hd.
    assert (d <> 45) by congruence.
    rewrite (proj2 (Z.eqb_neq d 45)) by done.
    rewrite Hparse. f_equal; lia.
Qed.

(** A number with more digits than the buffer has room for: the pointer returned is the one
    before the buffer.  Of the 32-bit numbers these are the upper half in base 2. *)
Lemma print_loop_full n value base buf :
  2 <= base -> base ^ Z.of_nat n <= value -> (print_loop n value base buf).2 = -1.
Proof.
  intros Hbase. revert value buf. induction n as [|n IH]; intros value buf Hv; [done|].
  cbn [print_loop]. rewrite Nat2Z.inj_succ, Z.pow_succ_r in Hv by lia.
  assert (base ^ Z.of_nat n <= value / base) as Hq by (apply Z.div_le_lower_bound; lia).
  assert (0 < base ^ Z.of_nat n) by (apply Z.pow_pos_nonneg; lia).
  rewrite (proj2 (Z.eqb_neq (value / base) 0)) by lia. by apply IH.
Qed.

(** C39. The bounds of the buffer: a 32-bit number fits in every base but 2, where the upper half
    makes [uintToStr] return the pointer before its buffer; the least [int] overflows. *)
Theorem uintToStr_bounds base value buf :
  2 <= base <= 36 -> in_word 32 value -> length buf = m_buf_size ->
  (base <> 2 \/ value < 2 ^ 31 ->
   Runs (uintToStr value base) buf (fun ptr buf' => 0 <= ptr /\ parse base (text_at buf' ptr) = Some value)) /\
  (base = 2 -> 2 ^ 31 <= value -> Runs (uintToStr value base) buf (fun ptr _ => ptr = -1)) /\
  Fails (intToStr (- 2 ^ 31) base) buf (Undefined "signed overflow").
Proof.
  intros Hbase Hv Hlen. unfold uintToStr. split_and!; [| |done].
  - intros Hfit. assert (0 <= value < base ^ 31) as Hr.
    { unfold in_word in Hv. destruct (decide (base = 2)) as [->|].
      - destruct Hfit; [done|lia].
      - assert (3 ^ 31 <= base ^ 31) by (apply Z.pow_le_mono_l; lia).
        assert (2 ^ 32 < 3 ^ 31) by done. lia. }
    destruct (ulongToStr_text base value buf Hbase Hr Hlen) as (pre & ds & E & _ & _ & Hparse & Hc & _).
    eapply Runs_of_ok; [exact E|]. split; [lia|]. unfold text_at. by rewrite Nat2Z.id, drop_app_length, Hc.
  - intros -> Hbig. unfold ulongToStr. run_steps. cbn [Z.eqb].
    destruct (print_loop 31 value 2 (<[31%nat:=0]> buf)) as [buf' ptr] eqn:E.
    eapply Runs_of_ok; [by rewrite E|]. change ptr with (buf', ptr).2. rewrite <- E.
    by apply print_loop_full.
Qed.

(** ** The theorems at work *)
Lemma ulongToStr_roundtrip_witness :
  Runs (ulongToStr 0xdeadbeef 16) (replicate 32 7) (fun ptr buf' => parse 16 (text_at buf' ptr) = Some 0xdeadbeef).
Proof.
  eapply Runs_mono; [by apply (ulongToStr_roundtrip 16 ltac:(lia) 0xdeadbeef)|].
  by intros ptr buf' (_ & _ & E & _).
Defined.

Lemma intToStr_roundtrip_witness :
  Runs (intToStr (-1234) 10) (replicate 32 7) (fun ptr buf' => parse_signed 10 (text_at buf' ptr) = Some (-1234)).
Proof.
  eapply Runs_mono; [by apply (intToStr_roundtrip 10 (-1234))|].
  by intros ptr buf' (_ & _ & E).
Defined.

Lemma uintToStr_bounds_witness :
  Runs (uintToStr (2 ^ 32 - 1) 2) (replicate 32 7) (fun ptr _ => ptr = -1).
Proof. by apply (uintToStr_bounds 2 (2 ^ 32 - 1) (replicate 32 7)). Defined.
