(* ===== verification/Pools.v ===== *)
(** * Small containers over a given memory: [StaticMemoryPool.cpp], [ForwardAllocator.hpp],
      [BitVector.hpp]

    The pool is its three pointers; what it gives out is not looked at.  The bytes behind a bit
    vector are part of it. *)

From Stdlib Require Import ZArith Lia.
From stdpp Require Import list numbers.
From S2P Require Import Prelude Words.

(** ** [StaticMemoryPool] *)
Record StaticMemoryPool : Type := mkPool { m_start : Z; m_ptr : Z; m_end : Z }.

(** The two constructors *)
Definition null_pool : StaticMemoryPool := mkPool 0 0 0.
Definition set (pool size : Z) : StaticMemoryPool := mkPool pool pool (u64 (pool + size)).
Definition new_pool : Z -> Z -> StaticMemoryPool := set.

(** The address of the block, 0 for null *)
Definition allocate (size : Z) : ST StaticMemoryPool Z :=
  p ← read_state;
  if m_end p <? u64 (m_ptr p + size) then mret 0
  else
    let block := m_ptr p in
    modify (fun p => mkPool (m_start p) (u64 (m_ptr p + size)) (m_end p)) ;;
    mret block.

(** ** [ForwardAllocator]: a pointer to a pool, [None] for null, for objects of [sizeof_T] bytes *)
Section forward_allocator.
Context (sizeof_T : Z).

(** The copy constructor shares the pool, the move constructor takes it. *)
Definition FA_copy (o : option Z) : option Z := o.
Definition FA_move (o : option Z) : option Z * option Z := (o, None).

Definition FA_allocate (m_pool : option Z) (nb : Z) : ST StaticMemoryPool Z :=
  match m_pool with
  | None => mret 0
  | Some _ => allocate (u64 (nb * sizeof_T))
  end.
Definition FA_deallocate (m_pool : option Z) (p nb : Z) : ST StaticMemoryPool unit := mret tt.
Definition FA_eq (a b : option Z) : bool := bool_decide (a = b).
Definition FA_neq (a b : option Z) : bool := negb (FA_eq a b).
End forward_allocator.

(** ** [BitVector]: its bytes; [m_size] is how many there are *)
Definition BitVector : Type := list Z.

(** The bytes from an address on, as many as told, become the vector's. *)
Definition setData (size : Z) (data : list Z) : ST BitVector unit :=
  modify (fun _ => take (Z.to_nat size) data).

Definition bv_size (v : BitVector) : Z := u64 (Z.of_nat (length v) * 8).

Definition getBit (n : Z) : ST BitVector bool :=
  v ← read_state;
  byte ← from_option ((v : list Z) !! Z.to_nat (n / 8)) (Undefined "index out of the bit vector");
  mret (negb (Z.land byte (Z.shiftl 1 (n mod 8)) =? 0)).

Definition setBit (n : Z) (b : bool) : ST BitVector unit :=
  v ← read_state;
  byte ← from_option ((v : list Z) !! Z.to_nat (n / 8)) (Undefined "index out of the bit vector");
  let byte := if b then u8 (Z.lor byte (Z.shiftl 1 (n mod 8)))
              else u8 (Z.land byte (Z.lnot (Z.shiftl 1 (n mod 8)))) in
  modify (fun v : list Z => <[Z.to_nat (n / 8) := byte]> v).

Definition fill (b : bool) : ST BitVector unit :=
  modify (fun v : list Z => replicate (length v) (if b then 0xFF else 0x00)).

(** ** What the pool promises *)

(** The bump allocator: where each block starts, and where the next one will *)
Fixpoint bump (next limit : Z) (sizes : list Z) : list Z * Z :=
  match sizes with
  | [] => ([], next)
  | n :: sizes =>
      if limit <? next + n then let '(l, e) := bump next limit sizes in (0 :: l, e)
      else let '(l, e) := bump (next + n) limit sizes in (next :: l, e)
  end.

Fixpoint allocate_all (sizes : list Z) : ST StaticMemoryPool (list Z) :=
  match sizes with
  | [] => mret []
  | n :: sizes => p ← allocate n; l ← allocate_all sizes; mret (p :: l)
  end.

Lemma allocate_all_run p sizes :
  0 <= m_ptr p <= m_end p -> m_end p < 2 ^ 64 -> Forall (fun n => 0 <= n /\ m_end p + n < 2 ^ 64) sizes ->
  allocate_all sizes p =
  Ok ((bump (m_ptr p) (m_end p) sizes).1, mkPool (m_start p) (bump (m_ptr p) (m_end p) sizes).2 (m_end p)).
Proof.
  revert p. induction sizes as [|n sizes IH]; intros p Hp He Hs; [by destruct p|].
  apply Forall_cons in Hs as [Hn Hs]. cbn [allocate_all bump].
  assert (u64 (m_ptr p + n) = m_ptr p + n) as Hw by (apply wrap_small; unfold in_word; lia).
  destruct (Z.ltb_spec (m_end p) (m_ptr p + n)) as [Hlt|Hge].
  - erewrite bind_run.
    2:{ unfold allocate. rewrite bind_read, Hw, (proj2 (Z.ltb_lt _ _) Hlt). done. }
    erewrite bind_run; [|by apply IH]. by destruct (bump (m_ptr p) (m_end p) sizes).
  - erewrite bind_run.
    2:{ unfold allocate. rewrite bind_read, Hw, (proj2 (Z.ltb_ge _ _) Hge), bind_modify. done. }
    erewrite bind_run; [|by rewrite Hw; apply IH; cbn; [lia|lia|done]].
    cbn [m_ptr m_end m_start]. by destruct (bump (m_ptr p + n) (m_end p) sizes).
Qed.

(** The blocks of a run of the bump allocator lie in order, one behind the other. *)
Lemma bump_bounds next limit sizes k p n :
  Forall (fun n => 0 <= n) sizes -> 0 < next <= limit ->
  (bump next limit sizes).1 !! k = Some p -> sizes !! k = Some n -> p <> 0 ->
  next <= p /\ p + n <= limit.
Proof.
  revert next k. induction sizes as [|n0 sizes IH]; intros next k Hs Hn Hp Hk Hnz; [done|].
  apply Forall_cons in Hs as [H0 Hs]. cbn [bump] in Hp.
  destruct (Z.ltb_spec limit (next + n0)) as [Hlt|Hge].
  - destruct (bump next limit sizes) as [l e] eqn:E. destruct k as [|k]; simplify_eq/=.
    apply (IH next k); [done|done|by rewrite E|done|done].
  - destruct (bump (next + n0) limit sizes) as [l e] eqn:E. destruct k as [|k]; simplify_eq/=; [lia|].
    destruct (IH (next + n0) k Hs) as [? ?]; [lia|by rewrite E|done|done|]. lia.
Qed.

Lemma bump_disjoint next limit sizes j k p q m n :
  Forall (fun n => 0 <= n) sizes -> 0 < next <= limit -> (j < k)%nat ->
  (bump next limit sizes).1 !! j = Some p -> sizes !! j = Some m -> p <> 0 ->
  (bump next limit sizes).1 !! k = Some q -> sizes !! k = Some n -> q <> 0 ->
  p + m <= q.
Proof.
  revert next j k. induction sizes as [|n0 sizes IH]; intros next j k Hs Hn Hjk Hp Hm Hpz Hq Hk Hqz; [done|].
  apply Forall_cons in Hs as [H0 Hs]. cbn [bump] in Hp, Hq.
  destruct (Z.ltb_spec limit (next + n0)) as [Hlt|Hge].
  - destruct (bump next limit sizes) as [l e] eqn:E. destruct j as [|j], k as [|k]; simplify_eq/=; try lia.
    apply (IH next j k); try done; [lia|by rewrite E|by rewrite E].
  - destruct (bump (next + n0) limit sizes) as [l e] eqn:E. destruct j as [|j], k as [|k]; simplify_eq/=; try lia.
    + match type of E with bump ?a _ _ = _ =>
        destruct (bump_bounds a limit sizes k q n Hs) as [? ?]; [lia|by rewrite E|done|done|lia]
      end.
    + apply (IH (next + n0) j k); try done; [lia|lia|by rewrite E|by rewrite E].
Qed.

(** The pool: from a region of memory, requests of any sizes get blocks that lie in the region
    and do not overlap, and one is refused only when the rest of the region is too small; the
    sizes must be such that the end of the region plus the size is an address. *)
Theorem pool_blocks start size sizes :
  0 < start -> 0 <= size -> start + size < 2 ^ 64 ->
  Forall (fun n => 0 <= n /\ start + size + n < 2 ^ 64) sizes ->
  Runs (allocate_all sizes) (new_pool start size) (fun blocks p' =>
    length blocks = length sizes /\ start <= m_ptr p' <= start + size /\
    (forall k p n, blocks !! k = Some p -> sizes !! k = Some n -> p <> 0 -> start <= p /\ p + n <= start + size) /\
    (forall j k p q m n, (j < k)%nat -> blocks !! j = Some p -> sizes !! j = Some m -> p <> 0 ->
       blocks !! k = Some q -> sizes !! k = Some n -> q <> 0 -> p + m <= q) /\
    (forall k n, blocks !! k = Some 0 -> sizes !! k = Some n -> start + size < m_ptr p' + n)).
Proof.
  intros Hst Hsz Hend Hs. assert (u64 (start + size) = start + size) as Hw by (apply wrap_small; unfold in_word; lia).
  assert (Forall (fun n => 0 <= n) sizes) as Hpos by (eapply Forall_impl; [exact Hs|]; cbn; lia).
  eapply Runs_of_ok; [apply allocate_all_run; unfold new_pool, set; cbn [m_ptr m_end]; rewrite Hw; [lia|lia|done]|].
  unfold new_pool, set. cbn [m_ptr m_end m_start]. rewrite Hw.
  assert (forall next, start <= next <= start + size -> let b := bump next (start + size) sizes in
    length b.1 = length sizes /\ next <= b.2 <= start + size /\
    forall k n, b.1 !! k = Some 0 -> sizes !! k = Some n -> start + size < b.2 + n) as Hb.
  { clear Hs. induction Hpos as [|n l Hn Hl IH]; intros next Hnext; [cbn; split_and!; [done|lia|lia|done]|].
    cbn [bump]. destruct (Z.ltb_spec (start + size) (next + n)).
    - specialize (IH next Hnext). destruct (bump next (start + size) l) as [bl e]. cbn in IH |- *.
      destruct IH as (IH1 & IH2 & IH3). split_and!; [lia|lia|lia|].
      intros [|k] m Hk Hm; simplify_eq/=; [lia|by apply (IH3 k)].
    - specialize (IH (next + n) ltac:(lia)). destruct (bump (next + n) (start + size) l) as [bl e]. cbn in IH |- *.
      destruct IH as (IH1 & IH2 & IH3). split_and!; [lia|lia|lia|].
      intros [|k] m Hk Hm; simplify_eq/=; [lia|by apply (IH3 k)]. }
  destruct (Hb start ltac:(lia)) as (H1 & H2 & H3). split_and!; [done|apply H2|apply H2| | |done].
  - intros k p n Hk Hn Hp. by eapply bump_bounds; [..|lia|exact Hk| |].
  - intros j k p q m n Hjk Hp Hm Hpz Hq Hn Hqz.
    by eapply (bump_disjoint start (start + size) sizes j k p q m n); try done; lia.
Qed.

(** A size close to 2^64 wraps around the test: the request is granted, and the pointer of the
    pool moves back. *)
Theorem pool_overflow start size n :
  0 < start -> 0 <= size -> start + size < 2 ^ 64 -> 2 ^ 64 - start <= n < 2 ^ 64 ->
  allocate n (new_pool start size) = Ok (start, mkPool start (start + n - 2 ^ 64) (start + size)).
Proof.
  intros Hst Hsz Hend Hn. unfold allocate, new_pool, set. rewrite bind_read. cbn [m_ptr m_end].
  rewrite (wrap_small 64 (start + size)) by (unfold in_word; lia).
  assert (u64 (start + n) = start + n - 2 ^ 64) as E.
  { unfold wrap. rewrite <- (Z.mod_add _ (-1)) by lia. rewrite Z.mod_small; lia. }
  rewrite E, (proj2 (Z.ltb_ge _ _)), bind_modify by lia. cbn [m_start m_ptr m_end]. by rewrite E.
Qed.

(** An allocator for objects multiplies without looking at the overflow: a huge number of objects gets
    a tiny block. *)
Theorem allocator_overflow pool p :
  m_ptr p + 8 <= m_end p -> 0 <= m_ptr p -> m_end p < 2 ^ 64 ->
  FA_allocate 8 (Some pool) (2 ^ 61 + 1) p = Ok (m_ptr p, mkPool (m_start p) (m_ptr p + 8) (m_end p)).
Proof.
  intros H1 H2 H3. unfold FA_allocate, allocate. change (u64 ((2 ^ 61 + 1) * 8)) with 8. rewrite bind_read.
  pose proof (wrap_small 64 (m_ptr p + 8) ltac:(unfold in_word; lia)) as E.
  rewrite E, (proj2 (Z.ltb_ge _ _)), bind_modify by lia. by rewrite E.
Qed.

(** ** What the bit vector promises: a list of booleans *)
Definition byte_bits (b : Z) : list bool := map (fun i => Z.testbit b (Z.of_nat i)) (seq 0 8).
Definition bits (v : list Z) : list bool := concat (map byte_bits v).

Lemma bits_cons b v : bits (b :: v) = byte_bits b ++ bits v.
Proof. done. Qed.

Lemma bits_length v : length (bits v) = (8 * length v)%nat.
Proof. induction v as [|b v IH]; [done|]. unfold bits in *. cbn [map concat]. rewrite length_app, IH. cbn. lia. Qed.

Lemma bits_lookup (v : list Z) n byte :
  0 <= n -> v !! Z.to_nat (n / 8) = Some byte -> bits v !! Z.to_nat n = Some (Z.testbit byte (n mod 8)).
Proof.
  intros Hn. pose proof (Z.div_mod n 8 ltac:(lia)). pose proof (Z.mod_pos_bound n 8 ltac:(lia)).
  pose proof (Z.div_pos n 8 Hn ltac:(lia)).
  replace (Z.to_nat n) with (8 * Z.to_nat (n / 8) + Z.to_nat (n mod 8))%nat by lia.
  generalize (Z.to_nat (n / 8)) as k. intros k. revert k. induction v as [|b v IH]; intros [|k] Hk; try discriminate; rewrite bits_cons.
  - injection Hk as ->. rewrite lookup_app_l by (cbn [byte_bits length map seq]; lia). unfold byte_bits.
    rewrite list_lookup_fmap, lookup_seq_lt by lia. cbn [fmap option_fmap option_map].
    do 2 f_equal. lia.
  - rewrite lookup_app_r by (cbn [byte_bits length map seq]; lia).
    replace (_ - _)%nat with (8 * k + Z.to_nat (n mod 8))%nat by (cbn [byte_bits length map seq]; lia).
    by apply IH.
Qed.

Lemma land_bit byte i : 0 <= i -> negb (Z.land byte (Z.shiftl 1 i) =? 0) = Z.testbit byte i.
Proof.
  intros Hi. rewrite Z.shiftl_1_l. destruct (Z.testbit byte i) eqn:E.
  - apply negb_true_iff, Z.eqb_neq. intros H. assert (Z.testbit (Z.land byte (2 ^ i)) i = true) as Ht
      by (by rewrite Z.land_spec, E, Z.pow2_bits_true by lia).
    by rewrite H, Z.bits_0 in Ht.
  - apply negb_false_iff, Z.eqb_eq. apply Z.bits_inj'. intros j Hj.
    rewrite Z.land_spec, Z.pow2_bits_eqb, Z.bits_0 by lia.
    destruct (Z.eqb_spec i j) as [<-|]; [by rewrite E|apply andb_false_r].
Qed.

Lemma setBit_bits (v : list Z) n byte byte' (b : bool) :
  0 <= n -> v !! Z.to_nat (n / 8) = Some byte ->
  (forall i, 0 <= i < 8 -> Z.testbit byte' i = if i =? n mod 8 then b else Z.testbit byte i) ->
  bits (<[Z.to_nat (n / 8) := byte']> v) = <[Z.to_nat n := b]> (bits v).
Proof.
  intros Hn Hk Hb. pose proof (Z.div_mod n 8 ltac:(lia)). pose proof (Z.mod_pos_bound n 8 ltac:(lia)).
  pose proof (Z.div_pos n 8 Hn ltac:(lia)). pose proof (lookup_lt_Some _ _ _ Hk) as Hlt.
  apply list_eq. intros j. destruct (decide (j < 8 * length v)%nat) as [Hj|Hj].
  2:{ rewrite !lookup_ge_None_2; [done|..]; rewrite ?length_insert, bits_length, ?length_insert; lia. }
  pose proof (Z.div_mod (Z.of_nat j) 8 ltac:(lia)). pose proof (Z.mod_pos_bound (Z.of_nat j) 8 ltac:(lia)).
  assert (Z.to_nat (Z.of_nat j / 8) < length v)%nat as Hj8 by lia.
  destruct (lookup_lt_is_Some_2 v _ Hj8) as [bj Hbj].
  assert (bits v !! j = Some (Z.testbit bj (Z.of_nat j mod 8))) as Hold.
  { rewrite <- (Nat2Z.id j) at 1. by apply bits_lookup; [lia|]. }
  destruct (decide (Z.of_nat j / 8 = n / 8)) as [E|E].
  - rewrite <- (Nat2Z.id j) at 1. rewrite (bits_lookup _ _ byte'); [|lia|by rewrite E, list_lookup_insert_eq by lia].
    rewrite Hb by lia. rewrite E, Hk in Hbj. injection Hbj as ->.
    destruct (Z.eqb_spec (Z.of_nat j mod 8) (n mod 8)).
    + replace j with (Z.to_nat n) by lia. rewrite list_lookup_insert_eq; [done|]. rewrite bits_length. lia.
    + rewrite list_lookup_insert_ne by lia. by rewrite Hold.
  - rewrite <- (Nat2Z.id j) at 1. rewrite (bits_lookup _ _ bj); [|lia|].
    + rewrite list_lookup_insert_ne by (intros Heq; lia). by rewrite Hold.
    + rewrite list_lookup_insert_ne by lia. done.
Qed.

(** The bit vector implements a list of booleans: reading, writing and filling do on the
    bytes what they say on the list, within the vector, and nothing else is read or written. *)
Theorem bitvector_refines (v : list Z) n (b : bool) :
  Forall (in_word 8) v ->
  (forall x, 0 <= n -> bits v !! Z.to_nat n = Some x -> getBit n v = Ok (x, v)) /\
  (0 <= n < Z.of_nat (length (bits v)) ->
   Runs (setBit n b) v (fun _ v' => bits v' = <[Z.to_nat n := b]> (bits v) /\ Forall (in_word 8) v')) /\
  (Z.of_nat (length (bits v)) <= n -> Fails (getBit n) v (Undefined "index out of the bit vector")) /\
  Runs (fill b) v (fun _ v' => bits v' = replicate (length (bits v)) b /\ Forall (in_word 8) v').
Proof.
  intros Hv. pose proof (Z.div_mod n 8 ltac:(lia)). pose proof (Z.mod_pos_bound n 8 ltac:(lia)).
  rewrite bits_length. split_and!.
  - intros x Hn Hx. pose proof (lookup_lt_Some _ _ _ Hx) as Hlt. rewrite bits_length in Hlt.
    assert (Z.to_nat (n / 8) < length v)%nat as Hn8 by lia.
    destruct (lookup_lt_is_Some_2 v _ Hn8) as [byte Hbyte].
    rewrite (bits_lookup v n byte Hn Hbyte) in Hx. injection Hx as <-.
    unfold getBit. rewrite bind_read. erewrite bind_run; [|by unfold from_option; rewrite Hbyte].
    unfold mret, ST_ret. do 2 f_equal. apply land_bit. lia.
  - intros Hn. assert (Z.to_nat (n / 8) < length v)%nat as Hn8 by lia.
    destruct (lookup_lt_is_Some_2 v _ Hn8) as [byte Hbyte].
    unfold setBit. run_steps; [exact Hbyte|]. run_steps.
    assert (in_word 8 byte) as Hw by (by eapply (proj1 (Forall_lookup _ _) Hv)).
    split.
    + apply (setBit_bits v n byte); [lia|done|]. intros i Hi.
      destruct b; rewrite wrap_testbit by lia; rewrite (proj2 (Z.ltb_lt i 8)) by lia; cbn [andb].
      * rewrite Z.lor_spec, Z.shiftl_1_l, Z.pow2_bits_eqb, (Z.eqb_sym (n mod 8)) by lia.
        destruct (i =? n mod 8); [apply orb_true_r|apply orb_false_r].
      * rewrite Z.land_spec, Z.lnot_spec, Z.shiftl_1_l, Z.pow2_bits_eqb, (Z.eqb_sym (n mod 8)) by lia.
        destruct (i =? n mod 8); [apply andb_false_r|apply andb_true_r].
    + apply Forall_insert; [done|]. destruct b; by apply wrap_range.
  - intros Hn. unfold Fails, getBit. rewrite bind_read. apply bind_fail. unfold from_option.
    rewrite lookup_ge_None_2; [done|lia].
  - unfold fill. run_steps. split.
    + rewrite Nat.mul_comm. clear Hv. induction v as [|x v IH]; [done|]. unfold bits in *. cbn [length replicate map concat].
      rewrite IH. by destruct b.
    + apply Forall_replicate. by destruct b.
Qed.

(** ** The theorems at work *)
Lemma pool_blocks_witness :
  Runs (allocate_all [16; 100; 8]) (new_pool 0x1000 64) (fun blocks p' =>
    length blocks = 3%nat /\ 0x1000 <= m_ptr p' <= 0x1040).
Proof.
  eapply Runs_mono; [apply (pool_blocks 0x1000 64 [16; 100; 8]); [done|done|done|by repeat constructor]|].
  by intros blocks p' (H1 & H2 & _).
Defined.

Lemma bitvector_refines_witness :
  Runs (setBit 11 true) [0xFF; 0x00; 0x01] (fun _ v' => bits v' = <[11%nat := true]> (bits [0xFF; 0x00; 0x01])).
Proof.
  eapply Runs_mono; [apply (bitvector_refines [0xFF; 0x00; 0x01] 11 true); [by repeat constructor|done]|].
  by intros [] v' [E _].
Defined.
