(* ===== verification/DescTables.v ===== *)
(** * The descriptor tables: [DescTables.cpp]

    The tables are lists of entries.  [lgdt], [lidt], [ltr] and the loads of the segment registers change the registers of the
    processor: those of the tables are the pairs of the limit and the base, those of the segments their selectors.  The entries are
    specified by what the processor reads in them. *)

From Stdlib Require Import ZArith Lia.
From stdpp Require Import list numbers.
From S2P Require Import Prelude Words.

Definition TSS : Z := 0x28.

(** ** The interrupt descriptor table *)
Record IdtEntry : Type := mkIdtEntry {
  targetLow : Z;          (** 16 bits *)
  targetSelector : Z;     (** 16 bits *)
  flags : Z;              (** 16 bits *)
  targetMid : Z;          (** 16 bits *)
  targetHigh : Z;         (** 32 bits *)
  reserved : Z;           (** 32 bits *)
}.

Definition zero_gate : IdtEntry := mkIdtEntry 0 0 0 0 0 0.

Definition makeIdtGate (offset selector : Z) (pub : bool) : IdtEntry :=
  let ioff := offset in
  let fl := 0x8E01 in
  mkIdtEntry (Z.land ioff 0xFFFF) (u16 selector) (if pub then Z.lor fl 0x6000 else fl)
    (Z.land (Z.shiftr ioff 16) 0xFFFF) (Z.land (Z.shiftr ioff 32) 0xFFFFFFFF) 0.

(** The registers of the processor that say where the tables and the segments are *)
Record Registers : Type := mkRegisters {
  gdtr : Z * Z;
  idtr : Z * Z;
  reg_tr : Z;
  reg_cs : Z;
  reg_ss : Z;
  data_segments : list Z;   (** ds, es, fs and gs *)
}.

(** [g_gdtEntries] and [g_idtEntries], and the processor *)
Record Tables : Type := mkTables {
  g_gdtEntries : list Z;
  g_idtEntries : list IdtEntry;
  registers : Registers;
}.

Definition initial_gdt : list Z :=
  [0x0000000000000000; 0x0020980000000000; 0x0000920000000000; 0x0000F20000000000; 0x0020F80000000000; 0; 0].

Definition set_idt (l : list IdtEntry) (t : Tables) : Tables := mkTables (g_gdtEntries t) l (registers t).
Definition set_gdt (l : list Z) (t : Tables) : Tables := mkTables l (g_idtEntries t) (registers t).
Definition set_registers (f : Registers -> Registers) (t : Tables) : Tables := mkTables (g_gdtEntries t) (g_idtEntries t) (f (registers t)).

(** [g_gdtPtr] and [g_idtPtr] for tables at the address [base]: an entry of one has 8 bytes, of the other 16. *)
Definition g_gdtPtr (base : Z) : Z * Z := (7 * 8 - 1, base).
Definition g_idtPtr (base : Z) : Z * Z := (256 * 16 - 1, base).

(** [lgdt], the loads of ds, es, fs, gs and ss, and the far return that loads cs *)
Definition commitGdt (gdt : Z * Z) : ST Tables unit :=
  modify (set_registers (fun r => mkRegisters gdt (idtr r) (reg_tr r) 0x08 0x10 (replicate 4 0x10))).

Definition commitIdt (idt : Z * Z) : ST Tables unit :=
  modify (set_registers (fun r => mkRegisters (gdtr r) idt (reg_tr r) (reg_cs r) (reg_ss r) (data_segments r))).

(** [ltr]: the processor marks the segment busy in the table; it raises an exception for one that is not an available task segment. *)
Definition ltr (selector : Z) : ST Tables unit :=
  t ← read_state;
  let i := Z.to_nat (selector / 8) in
  match g_gdtEntries t !! i with
  | Some v =>
      if (v / 2 ^ 40 mod 2 ^ 5 =? 9) && Z.testbit v 47 then
        modify (fun t => set_gdt (<[i := Z.setbit v 41]> (g_gdtEntries t)) t) ;;
        modify (set_registers (fun r => mkRegisters (gdtr r) (idtr r) selector (reg_cs r) (reg_ss r) (data_segments r)))
      else fail (Undefined "general protection exception of ltr")
  | None => fail (Undefined "general protection exception of ltr")
  end.

(** [intVectors] is made in assembly; the code reads its first 49 entries. *)
Definition set_gate (intVectors : list Z) (i vector : nat) (pub : bool) : ST Tables unit :=
  offset ← from_option (intVectors !! vector) (Undefined "intVectors out of range");
  modify (fun t => set_idt (<[i := makeIdtGate offset 0x08 pub]> (g_idtEntries t)) t).

Section init.
(** The addresses of the tables *)
Context (gdt_base idt_base : Z).

Definition initGdt : ST Tables unit := commitGdt (g_gdtPtr gdt_base).

Definition initIdt (intVectors : list Z) : ST Tables unit :=
  modify (set_idt (replicate 256 zero_gate)) ;;
  for_each (seq 0 48) (fun i => set_gate intVectors i i false) ;;
  set_gate intVectors 128 48 true ;;
  commitIdt (g_idtPtr idt_base).

(** [DescTables::init] *)
Definition init (intVectors : list Z) : ST Tables unit := initGdt ;; initIdt intVectors.
End init.

(** ** The task segment *)

(** The bit fields of [SystemEntry], with their widths, from the lowest bit *)
Definition pack (fields : list (Z * Z)) : Z :=
  foldr (fun '(w, v) rest => wrap w v + 2 ^ w * rest) 0 fields.

Record SystemEntry : Type := mkSystemEntry {
  segmentLimit0 : Z; baseAddress0 : Z; baseAddress1 : Z; type : Z; dpl : Z; present : Z;
  segmentLimit1 : Z; available : Z; granularity : Z; baseAddress2 : Z; baseAddress3 : Z;
}.

Definition value0 (e : SystemEntry) : Z :=
  pack [(16, segmentLimit0 e); (16, baseAddress0 e); (8, baseAddress1 e); (4, type e); (1, 0); (2, dpl e);
        (1, present e); (4, segmentLimit1 e); (1, available e); (2, 0); (1, granularity e); (8, baseAddress2 e)].
Definition value1 (e : SystemEntry) : Z := pack [(32, baseAddress3 e); (8, 0); (5, 0); (19, 0)].

Definition tss_entry (itss : Z) : SystemEntry :=
  mkSystemEntry 0x67 itss (Z.shiftr itss 16) 9 0 1 0 0 0 (Z.shiftr itss 24) (Z.shiftr itss 32).

Definition initTr (tss : Z) : ST Tables unit :=
  let entry := tss_entry tss in
  modify (fun t => set_gdt (<[Z.to_nat (TSS / 8) := value0 entry]> (g_gdtEntries t)) t) ;;
  modify (fun t => set_gdt (<[Z.to_nat (TSS / 8 + 1) := value1 entry]> (g_gdtEntries t)) t) ;;
  ltr TSS.

(** ** What the processor reads *)

(** A 64-bit interrupt gate *)
Record Gate : Type := mkGate {
  gate_offset : Z; gate_selector : Z; gate_ist : Z; gate_type : Z; gate_dpl : Z; gate_present : bool;
}.

Definition read_gate (e : IdtEntry) : Gate :=
  mkGate (targetLow e + 2 ^ 16 * targetMid e + 2 ^ 32 * targetHigh e) (targetSelector e)
    (flags e mod 8) (flags e / 2 ^ 8 mod 16) (flags e / 2 ^ 13 mod 4) (negb (flags e / 2 ^ 15 =? 0)).

(** A 64-bit system segment descriptor, of two entries *)
Record Segment : Type := mkSegment {
  seg_base : Z; seg_limit : Z; seg_type : Z; seg_dpl : Z; seg_present : bool; seg_granular : bool;
}.

Definition read_segment (v0 v1 : Z) : Segment :=
  mkSegment (v0 / 2 ^ 16 mod 2 ^ 24 + 2 ^ 24 * (v0 / 2 ^ 56 mod 2 ^ 8) + 2 ^ 32 * (v1 mod 2 ^ 32))
    (v0 mod 2 ^ 16 + 2 ^ 16 * (v0 / 2 ^ 48 mod 2 ^ 4)) (v0 / 2 ^ 40 mod 2 ^ 4) (v0 / 2 ^ 45 mod 2 ^ 2)
    (negb (v0 / 2 ^ 47 mod 2 ^ 1 =? 0)) (negb (v0 / 2 ^ 55 mod 2 ^ 1 =? 0)).

Lemma land_low z w : 0 <= w -> Z.land z (2 ^ w - 1) = z mod 2 ^ w.
Proof. intros Hw. rewrite <- Z.land_ones by done. by rewrite Z.ones_equiv, Z.sub_1_r. Qed.

(** A field of [w] bits at the bit [k] *)
Lemma field_at v k w lo mid hi :
  0 <= k /\ 0 <= w /\ 0 <= lo < 2 ^ k /\ 0 <= mid < 2 ^ w /\ v = lo + 2 ^ k * (mid + 2 ^ w * hi) ->
  v / 2 ^ k mod 2 ^ w = mid.
Proof.
  intros (Hk & Hw & Hlo & Hmid & ->).
  rewrite <- (Z.div_unique_pos _ (2 ^ k) (mid + 2 ^ w * hi) lo Hlo) by lia.
  by rewrite <- (Z.mod_unique_pos _ (2 ^ w) hi mid Hmid) by lia.
Qed.

Lemma makeIdtGate_gate offset selector pub :
  in_word 64 offset -> in_word 16 selector ->
  read_gate (makeIdtGate offset selector pub) = mkGate offset selector 1 14 (if pub then 3 else 0) true.
Proof.
  intros Ho Hs. unfold read_gate, makeIdtGate. cbn [targetLow targetMid targetHigh targetSelector flags].
  rewrite (wrap_small 16 selector) by done.
  change 0xFFFF with (2 ^ 16 - 1). change 0xFFFFFFFF with (2 ^ 32 - 1). rewrite !land_low by lia.
  rewrite !Z.shiftr_div_pow2 by lia. unfold in_word in Ho.
  assert (offset mod 2 ^ 16 + 2 ^ 16 * (offset / 2 ^ 16 mod 2 ^ 16) + 2 ^ 32 * (offset / 2 ^ 32 mod 2 ^ 32) = offset) as ->.
  { rewrite (Z.mod_small (offset / 2 ^ 32)).
    2:{ split; [apply Z.div_pos; lia|apply Z.div_lt_upper_bound; lia]. }
    replace (2 ^ 32) with (2 ^ 16 * 2 ^ 16) by done. rewrite <- Z.div_div by lia.
    pose proof (Z.div_mod offset (2 ^ 16) ltac:(lia)). pose proof (Z.div_mod (offset / 2 ^ 16) (2 ^ 16) ltac:(lia)). lia. }
  by destruct pub.
Qed.

Lemma set_gates_run intVectors (k : nat) (t : Tables) (n : nat) :
  (forall i, (i < k + n)%nat -> is_Some (intVectors !! i)) -> (k + n <= length (g_idtEntries t))%nat ->
  exists l, for_each (seq k n) (fun i => set_gate intVectors i i false) t = Ok (tt, set_idt l t) /\
    length l = length (g_idtEntries t) /\
    (forall i, (k <= i < k + n)%nat -> l !! i = (fun o => makeIdtGate o 0x08 false) <$> intVectors !! i) /\
    (forall i, (i < k \/ k + n <= i)%nat -> l !! i = g_idtEntries t !! i).
Proof.
  revert k t. induction n as [|n IH]; intros k t Hv Hl.
  - exists (g_idtEntries t). split_and!; [by destruct t|done|lia|done].
  - destruct (Hv k ltac:(lia)) as [o Ho]. cbn [seq for_each].
    set (t1 := set_idt (<[k := makeIdtGate o 0x08 false]> (g_idtEntries t)) t).
    destruct (IH (S k) t1) as (l & E & Hlen & Hin & Hout).
    { intros i Hi. apply Hv. lia. }
    { unfold t1. cbn. rewrite length_insert. lia. }
    exists l. unfold t1 in *. cbn [g_idtEntries set_idt] in *. rewrite length_insert in Hlen. split_and!.
    + erewrite bind_run; [exact E|]. unfold set_gate. erewrite bind_run; [|by unfold from_option; rewrite Ho]. done.
    + done.
    + intros i Hi. destruct (decide (i = k)) as [->|]; [|apply Hin; lia].
      rewrite Hout by lia. rewrite list_lookup_insert_eq by lia. by rewrite Ho.
    + intros i Hi. rewrite Hout by lia. by rewrite list_lookup_insert_ne by lia.
Qed.

(** The tables and the segments of the kernel, where the processor has them, and the gates that it finds *)
Record descriptors (gdt_base idt_base : Z) (intVectors : list Z) (t : Tables) : Prop := {
  ds_tables : gdtr (registers t) = (55, gdt_base) /\ idtr (registers t) = (4095, idt_base);
  ds_segments : reg_cs (registers t) = 0x08 /\ reg_ss (registers t) = 0x10 /\ data_segments (registers t) = [0x10; 0x10; 0x10; 0x10];
  ds_length : length (g_idtEntries t) = 256%nat;
  ds_vectors i o : (i < 48)%nat -> intVectors !! i = Some o -> read_gate <$> g_idtEntries t !! i = Some (mkGate o 0x08 1 14 0 true);
  ds_calls o : intVectors !! 48%nat = Some o -> read_gate <$> g_idtEntries t !! 0x80%nat = Some (mkGate o 0x08 1 14 3 true);
  ds_others i : (48 <= i < 256)%nat -> i <> 0x80%nat -> gate_present <$> (read_gate <$> g_idtEntries t !! i) = Some false;
}.

(** [DescTables::init]: the processor has the two tables, of 7 and of 256 entries, and the segments of the kernel; it finds the handler of each of the first 48 vectors behind
    a gate for the kernel alone, that of the system calls behind the gate 0x80, which user code
    may use too, and every other gate is not present. *)
Theorem initIdt_gates (gdt_base idt_base : Z) (intVectors : list Z) t :
  Forall (in_word 64) intVectors -> (49 <= length intVectors)%nat ->
  Runs (init gdt_base idt_base intVectors) t (fun _ t' =>
    descriptors gdt_base idt_base intVectors t' /\ g_gdtEntries t' = g_gdtEntries t).
Proof.
  intros Hw Hl. unfold init, initGdt, commitGdt, initIdt. apply Runs_bind, Runs_modify, Runs_bind, Runs_modify, Runs_bind.
  match goal with |- Runs _ ?t0 _ => set (t1 := t0) end. destruct (set_gates_run intVectors 0 t1 48) as (l & E & Hlen & Hin & Hout).
  { intros i Hi. apply lookup_lt_is_Some_2. lia. }
  { unfold t1. cbn [g_idtEntries set_idt]. rewrite length_replicate. lia. }
  unfold t1 in Hlen, Hout. cbn [g_idtEntries set_idt] in Hlen, Hout. rewrite length_replicate in Hlen.
  eapply Runs_of_ok; [exact E|].
  destruct (lookup_lt_is_Some_2 intVectors 48) as [o48 Ho48]; [lia|].
  assert (forall k o, intVectors !! k = Some o -> in_word 64 o) as Hword by (by apply Forall_lookup).
  apply Runs_bind. unfold set_gate. apply Runs_bind. eapply Runs_from_option; [exact Ho48|]. apply Runs_modify. unfold commitIdt. apply Runs_modify.
  split; [|done]. split; cbn [g_idtEntries g_gdtEntries set_idt set_registers].
  - done.
  - done.
  - by rewrite length_insert.
  - intros i o Hi Ho. rewrite list_lookup_insert_ne by lia. rewrite Hin, Ho by lia. cbn [fmap option_fmap option_map].
    by rewrite makeIdtGate_gate by (by eauto || done).
  - intros o Ho. rewrite Ho48 in Ho. injection Ho as <-. rewrite list_lookup_insert_eq by lia.
    cbn [fmap option_fmap option_map]. by rewrite makeIdtGate_gate by (by eauto || done).
  - intros i Hi Hne. rewrite list_lookup_insert_ne by lia. rewrite Hout by lia.
    by rewrite lookup_replicate_2 by lia.
Qed.

(** The two entries of the task segment, field by field; [kind] is 9, or 11 when the processor has marked it busy. *)
Lemma tss_decodes b0 b1 b2 b3 kind (Hb : 0 <= b0 < 2 ^ 16 /\ 0 <= b1 < 2 ^ 8 /\ 0 <= b2 < 2 ^ 8 /\ 0 <= b3 < 2 ^ 32) :
  0 <= kind < 16 ->
  let v := 0x67 + 2 ^ 16 * b0 + 2 ^ 32 * b1 + 2 ^ 40 * kind + 2 ^ 47 + 2 ^ 56 * b2 in
  in_word 64 v /\ v / 2 ^ 40 mod 2 ^ 5 = kind /\ v / 2 ^ 47 mod 2 ^ 1 = 1 /\
  read_segment v b3 = mkSegment (b0 + 2 ^ 16 * b1 + 2 ^ 24 * b2 + 2 ^ 32 * b3) 0x67 kind 0 true false.
Proof.
  destruct Hb as (H0 & H1 & H2 & H3). intros Hk v.
  assert (v / 2 ^ 47 mod 2 ^ 1 = 1) as Hp by (apply (field_at v 47 1 (v - 2 ^ 47 - 2 ^ 56 * b2) 1 (2 ^ 8 * b2)); unfold v; lia).
  split; [unfold in_word, v; lia|]. split.
  { apply (field_at v 40 5 (v - 2 ^ 40 * kind - 2 ^ 47 - 2 ^ 56 * b2) kind (2 ^ 2 + 2 ^ 11 * b2)). unfold v; lia. }
  split; [done|]. unfold read_segment. rewrite Hp.
  rewrite (field_at v 16 24 0x67 (b0 + 2 ^ 16 * b1) (kind + 2 ^ 7 + 2 ^ 16 * b2)) by (unfold v; lia).
  rewrite (field_at v 56 8 (v - 2 ^ 56 * b2) b2 0) by (unfold v; lia).
  rewrite (field_at v 48 4 (v - 2 ^ 56 * b2) 0 (2 ^ 4 * b2)) by (unfold v; lia).
  rewrite (field_at v 40 4 (v - 2 ^ 40 * kind - 2 ^ 47 - 2 ^ 56 * b2) kind (2 ^ 3 + 2 ^ 12 * b2)) by (unfold v; lia).
  rewrite (field_at v 45 2 (v - 2 ^ 47 - 2 ^ 56 * b2) 0 (1 + 2 ^ 9 * b2)) by (unfold v; lia).
  rewrite (field_at v 55 1 (v - 2 ^ 56 * b2) 0 b2) by (unfold v; lia).
  replace (v mod 2 ^ 16) with (v / 2 ^ 0 mod 2 ^ 16) by (by rewrite Z.div_1_r).
  rewrite (field_at v 0 16 0 0x67 (b0 + 2 ^ 16 * b1 + 2 ^ 24 * kind + 2 ^ 31 + 2 ^ 40 * b2)) by (unfold v; lia).
  rewrite (Z.mod_small b3) by lia. f_equal; lia.
Qed.

(** The task segment that the processor has: the register and the two entries *)
Definition task_segment (tss : Z) (t : Tables) : Prop :=
  reg_tr (registers t) = 0x28 /\ exists v0 v1, g_gdtEntries t !! 5%nat = Some v0 /\ g_gdtEntries t !! 6%nat = Some v1 /\
    in_word 64 v0 /\ in_word 64 v1 /\ read_segment v0 v1 = mkSegment tss 0x67 11 0 true false.

(** [t'] is [t] with it: the other entries and the other registers stay. *)
Record segment_added (tss : Z) (t t' : Tables) : Prop := {
  sa_segment : task_segment tss t';
  sa_gates : g_idtEntries t' = g_idtEntries t;
  sa_length : length (g_gdtEntries t') = 7%nat;
  sa_others i : (i < 5)%nat -> g_gdtEntries t' !! i = g_gdtEntries t !! i;
  sa_registers : registers t' = mkRegisters (gdtr (registers t)) (idtr (registers t)) 0x28 (reg_cs (registers t)) (reg_ss (registers t))
    (data_segments (registers t));
}.

Lemma descriptors_added gdt_base idt_base intVectors tss t t' :
  descriptors gdt_base idt_base intVectors t -> segment_added tss t t' -> descriptors gdt_base idt_base intVectors t'.
Proof. intros [H1 H2 H3 H4 H5 H6] [_ Eg _ _ Er]. by split; rewrite ?Eg, ?Er. Qed.

Lemma tss_values tss : in_word 64 tss -> exists b0 b1 b2 b3,
  (0 <= b0 < 2 ^ 16 /\ 0 <= b1 < 2 ^ 8 /\ 0 <= b2 < 2 ^ 8 /\ 0 <= b3 < 2 ^ 32) /\ tss = b0 + 2 ^ 16 * b1 + 2 ^ 24 * b2 + 2 ^ 32 * b3 /\
  value0 (tss_entry tss) = 0x67 + 2 ^ 16 * b0 + 2 ^ 32 * b1 + 2 ^ 40 * 9 + 2 ^ 47 + 2 ^ 56 * b2 /\ value1 (tss_entry tss) = b3.
Proof.
  intros Hw. unfold in_word in Hw.
  set (b0 := tss mod 2 ^ 16). set (b1 := tss / 2 ^ 16 mod 2 ^ 8). set (b2 := tss / 2 ^ 24 mod 2 ^ 8).
  set (b3 := tss / 2 ^ 32).
  assert (tss = b0 + 2 ^ 16 * b1 + 2 ^ 24 * b2 + 2 ^ 32 * b3) as Htss.
  { unfold b0, b1, b2, b3. replace (2 ^ 32) with (2 ^ 24 * 2 ^ 8) by done. rewrite <- Z.div_div by lia.
    replace (2 ^ 24) with (2 ^ 16 * 2 ^ 8) at 2 3 4 by done. rewrite <- Z.div_div by lia.
    pose proof (Z.div_mod tss (2 ^ 16) ltac:(lia)). pose proof (Z.div_mod (tss / 2 ^ 16) (2 ^ 8) ltac:(lia)).
    pose proof (Z.div_mod (tss / 2 ^ 16 / 2 ^ 8) (2 ^ 8) ltac:(lia)). lia. }
  assert (0 <= b0 < 2 ^ 16 /\ 0 <= b1 < 2 ^ 8 /\ 0 <= b2 < 2 ^ 8 /\ 0 <= b3 < 2 ^ 32) as (H0 & H1 & H2 & H3).
  { unfold b0, b1, b2, b3. split_and!; try (apply Z.mod_pos_bound; lia); [apply Z.div_pos|apply Z.div_lt_upper_bound]; lia. }
  assert (value0 (tss_entry tss) = 0x67 + 2 ^ 16 * b0 + 2 ^ 32 * b1 + 2 ^ 40 * 9 + 2 ^ 47 + 2 ^ 56 * b2) as Hv.
  { unfold value0, tss_entry, pack, wrap. cbn [foldr segmentLimit0 baseAddress0 baseAddress1 type dpl present
      segmentLimit1 available granularity baseAddress2]. rewrite !Z.shiftr_div_pow2 by lia.
    fold b0 b1 b2. change (0x67 mod 2 ^ 16) with 0x67. change (9 mod 2 ^ 4) with 9. change (1 mod 2 ^ 1) with 1.
    rewrite !Zmod_0_l. lia. }
  exists b0, b1, b2, b3. split_and!; try lia; [done..|].
  unfold value1, tss_entry, pack, wrap. cbn [foldr baseAddress3]. rewrite Z.shiftr_div_pow2 by lia.
  rewrite !Zmod_0_l. fold b3. rewrite (Z.mod_small b3) by lia. lia.
Qed.

(** A bit that is not set is added. *)
Lemma setbit_add v n : 0 <= n -> Z.testbit v n = false -> Z.setbit v n = v + 2 ^ n.
Proof.
  intros Hn Hb. unfold Z.setbit. rewrite Z.shiftl_1_l. symmetry. rewrite <- Z.lxor_lor; [apply Z.add_nocarry_lxor|];
  (apply Z.bits_inj'; intros i Hi; rewrite Z.land_spec, Z.bits_0, Z.pow2_bits_eqb by lia;
   destruct (n =? i) eqn:E; [apply Z.eqb_eq in E as <-; by rewrite Hb|apply andb_false_r]).
Qed.

(** [initTr]: the processor has the task segment, with the address of the task state and its limit, marked busy; the other entries
    of the table and the other registers stay. *)
Theorem initTr_segment tss t :
  in_word 64 tss -> length (g_gdtEntries t) = 7%nat ->
  Runs (initTr tss) t (fun _ t' => segment_added tss t t').
Proof.
  intros Hw Hl. destruct (tss_values tss Hw) as (b0 & b1 & b2 & b3 & Hb & Htss & E0 & E1).
  destruct (tss_decodes b0 b1 b2 b3 9 Hb ltac:(lia)) as (_ & Hkind & Hp & _).
  destruct (tss_decodes b0 b1 b2 b3 11 Hb ltac:(lia)) as (Hw11 & _ & _ & Hread).
  rewrite <- E0 in Hkind, Hp. set (v0 := value0 (tss_entry tss)) in *. set (v1 := value1 (tss_entry tss)) in *.
  assert (Z.testbit v0 47 = true) as Hp' by (apply Z.b2z_inj; rewrite Z.testbit_spec' by lia; exact Hp).
  assert (Z.testbit v0 41 = false) as H41.
  { change 41 with (1 + 40). rewrite <- Z.div_pow2_bits by lia. rewrite <- (Z.mod_pow2_bits_low _ 5) by lia. by rewrite Hkind. }
  unfold initTr. apply Runs_bind, Runs_modify, Runs_bind, Runs_modify. fold v0 v1. unfold ltr. apply Runs_bind, Runs_read.
  cbn [g_gdtEntries set_gdt]. change (Z.to_nat (TSS / 8)) with 5%nat. change (Z.to_nat (TSS / 8 + 1)) with 6%nat.
  rewrite list_lookup_insert_ne, list_lookup_insert_eq by lia. rewrite Hkind, Hp'. cbn [Z.eqb andb Pos.eqb].
  apply Runs_bind, Runs_modify, Runs_modify.
  split; cbn [g_gdtEntries g_idtEntries registers set_gdt set_registers];
    [|done|by rewrite !length_insert|intros i Hi; by rewrite !list_lookup_insert_ne by lia|done].
  split; [done|]. cbn [g_gdtEntries g_idtEntries registers set_gdt set_registers]. exists (Z.setbit v0 41), v1. rewrite list_lookup_insert_eq by (rewrite !length_insert; lia).
  rewrite list_lookup_insert_ne, list_lookup_insert_eq by (rewrite ?length_insert; lia).
  assert (Z.setbit v0 41 = 0x67 + 2 ^ 16 * b0 + 2 ^ 32 * b1 + 2 ^ 40 * 11 + 2 ^ 47 + 2 ^ 56 * b2) as ->
    by (rewrite setbit_add, E0 by done; lia).
  rewrite E1, Htss. split_and!; [done|done|exact Hw11|unfold in_word; lia|exact Hread].
Qed.

(** The segments of the kernel's table are those the tasks are started with ([Tasks]): 0x08 and
    0x20 are code, 0x10 and 0x18 data, and the user ones have the privilege 3. *)
Definition seg_code (v : Z) : bool := Z.testbit v 43.
Definition seg_privilege (v : Z) : Z := v / 2 ^ 45 mod 4.

Example gdt_segments :
  map (fun s => (fun v => (seg_code v, seg_privilege v)) <$> initial_gdt !! Z.to_nat (s / 8)) [0x08; 0x10; 0x18; 0x20] =
  [Some (true, 0); Some (false, 0); Some (false, 3); Some (true, 3)].
Proof. done. Qed.

(** ** The theorems at work *)
Definition example_tables : Tables := mkTables initial_gdt [] (mkRegisters (0, 0) (0, 0) 0 8 16 [16; 16; 16; 16]).

Lemma initIdt_gates_witness :
  Runs (init 0xffffffffc0060000 0xffffffffc0061000 (replicate 49 0xffffffffc0001230)) example_tables (fun _ t' =>
    read_gate <$> g_idtEntries t' !! 0x80%nat = Some (mkGate 0xffffffffc0001230 0x08 1 14 3 true)).
Proof.
  eapply Runs_mono; [apply (initIdt_gates 0xffffffffc0060000 0xffffffffc0061000 (replicate 49 0xffffffffc0001230) example_tables)|].
  - by apply Forall_replicate.
  - by rewrite length_replicate.
  - intros [] t' [[_ _ _ _ H _] _]. by apply H.
Defined.

Lemma initTr_segment_witness :
  Runs (initTr 0xffffffffc0100040) example_tables (fun _ t' =>
    exists v0 v1, g_gdtEntries t' !! 5%nat = Some v0 /\ g_gdtEntries t' !! 6%nat = Some v1 /\
      seg_base (read_segment v0 v1) = 0xffffffffc0100040).
Proof.
  eapply Runs_mono; [by apply (initTr_segment 0xffffffffc0100040 example_tables)|].
  intros [] t' [(_ & v0 & v1 & E0 & E1 & _ & _ & E) _ _ _ _]. exists v0, v1. by rewrite E.
Defined.
