(* ===== verification/Elf.v ===== *)
(** * The program loader: [Elf.cpp], [ElfFormat.hpp]

    [exec] reads the headers of a program from a handle, maps and fills its segments, makes a stack with the
    arguments and sends the active task to its entry point.  The memory of the task is behind
    [UserOps] and its laws. *)

From Stdlib Require Import ZArith Lia.
From stdpp Require Import list numbers gmap.
From S2P Require Import Prelude Words Interrupts Tasks Fs PageManager PageDirectory UserSpace.

(** ** [ElfFormat.hpp]: the members that are used, at their offsets *)
Record ElfHeader : Type := mkElfHeader {
  e_ident : list Z;
  e_entry : Z;
  e_phoff : Z;
  e_phentsize : Z;
  e_phnum : Z;
}.

Record ElfProgramHeader : Type := mkElfProgramHeader {
  p_type : Z;
  p_offset : Z;
  p_vaddr : Z;
  p_filesz : Z;
  p_memsz : Z;
}.

Definition PT_LOAD : Z := 1.
Definition sizeof_ElfHeader : Z := 64.
Definition sizeof_ElfProgramHeader : Z := 56.

(** The [n] bytes of a structure at an offset *)
Definition member (bytes : str) (offset n : nat) : Z := le_value (take n (drop offset bytes)).

(** [read] may give less than the structure: the rest of it was never written. *)
Definition decode_header (bytes : str) : result ElfHeader :=
  if Z.of_nat (length bytes) =? sizeof_ElfHeader then
    Ok (mkElfHeader (take 16 bytes) (member bytes 24 8) (member bytes 32 8) (member bytes 54 2) (member bytes 56 2))
  else Err (Undefined "members that were not read").

Definition decode_program_header (bytes : str) : result ElfProgramHeader :=
  if Z.of_nat (length bytes) =? sizeof_ElfProgramHeader then
    Ok (mkElfProgramHeader (member bytes 0 4) (member bytes 8 8) (member bytes 16 8) (member bytes 32 8)
          (member bytes 40 8))
  else Err (Undefined "members that were not read").

Definition checkHeader (hdr : ElfHeader) : bool :=
  bool_decide (take 4 (e_ident hdr) = [0x7f; 69; 76; 70]).

(** ** [exec] *)
Section exec.
Context {C K : Type} `{!Console C, !UserOps K}.

(** What [exec] works on: the files, the memory of the active task, the tasks *)
Record Exec : Type := mkExec {
  ex_fs : FsState C;
  ex_user : K;
  ex_tm : TaskManager;
}.

Definition on_files {A} (m : ST (FsState C) A) : ST Exec A :=
  zoom ex_fs (fun f s => mkExec f (ex_user s) (ex_tm s)) m.
Definition on_user {A} (m : ST K A) : ST Exec A :=
  zoom ex_user (fun k s => mkExec (ex_fs s) k (ex_tm s)) m.
Definition on_tasks {A} (m : ST TaskManager A) : ST Exec A :=
  zoom ex_tm (fun t s => mkExec (ex_fs s) (ex_user s) t) m.

(** [f.lseek(offset, Begin)] and [f.read(.., size)]; [None] when one of them fails *)
Definition seek_read (f : Handle) (offset size : Z) : ST Exec (option str * Handle) :=
  l ← on_files (handle_lseek f offset Begin);
  match l.1 with
  | Unexpected _ => mret (None, l.2)
  | Value _ =>
      r ← on_files (handle_read l.2 size);
      mret (match r.1 with Some (Value bytes) => Some bytes | _ => None end, r.2)
  end.

(** One turn of the loop over the program headers; the boolean tells whether it goes on. *)
Definition load_segment (f : Handle) (currentOffset : Z) : ST Exec (bool * Handle) :=
  r ← seek_read f currentOffset sizeof_ElfProgramHeader;
  match r.1 with
  | None => mret (false, r.2)
  | Some bytes =>
      prgHdr ← lift_result (decode_program_header bytes);
      if negb (p_type prgHdr =? PT_LOAD) then mret (true, r.2)
      else
        on_user (for_each (page_steps (p_vaddr prgHdr) (u64 (p_vaddr prgHdr + p_memsz prgHdr)))
                   (fun cur => us_mapPage cur ATTR_USER)) ;;
        on_user (us_write (p_vaddr prgHdr) (replicate (Z.to_nat (p_memsz prgHdr)) 0)) ;;
        r ← seek_read r.2 (p_offset prgHdr) (p_filesz prgHdr);
        match r.1 with
        | None => mret (false, r.2)
        | Some bytes => on_user (us_write (p_vaddr prgHdr) bytes) ;; mret (true, r.2)
        end
  end.

(** [n] headers are left. *)
Fixpoint load_segments (n : nat) (phentsize : Z) (f : Handle) (currentOffset : Z) : ST Exec (bool * Handle) :=
  match n with
  | O => mret (true, f)
  | S n =>
      r ← load_segment f currentOffset;
      if r.1 : bool then load_segments n phentsize r.2 (u64 (currentOffset + phentsize))
      else mret r
  end.

Definition stack_bottom : Z := 0x000000f000000000.
Definition stack_top : Z := 0x000000f000004000.

(** The strings, from the top down; the values are [curPos] and [address]. *)
Fixpoint push_strings (args : list str) (curPos : Z) : ST Exec (Z * list Z) :=
  match args with
  | [] => mret (curPos, [])
  | arg :: args =>
      let curPos := u64 (curPos - (Z.of_nat (length arg) + 1)) in
      on_user (us_write curPos (arg ++ [0])) ;;
      r ← push_strings args curPos;
      mret (r.1, curPos :: r.2)
  end.

Fixpoint push_addresses (addresses : list Z) (curPosAddr : Z) : ST Exec unit :=
  match addresses with
  | [] => mret tt
  | add :: addresses =>
      on_user (us_write curPosAddr (le_bytes 8 add)) ;;
      push_addresses addresses (u64 (curPosAddr + 8))
  end.

(** The strings, the null pointer, their addresses and their number; the value is [endAddr]. *)
Definition push_arguments (args : list str) : ST Exec Z :=
  '(curPos, address) ← push_strings args stack_top;
  let curPosAddr := u64 (curPos - 8) in
  on_user (us_write curPosAddr (le_bytes 8 0)) ;;
  let endAddr := u64 (curPosAddr - 8 * Z.of_nat (length address)) in
  push_addresses address endAddr ;;
  let endAddr := u64 (endAddr - 8) in
  on_user (us_write endAddr (le_bytes 8 (Z.of_nat (length address)))) ;;
  mret endAddr.

Definition set_rsp (v : Z) (x : Context) : Context :=
  mkContext (r15 x) (r14 x) (r13 x) (r12 x) (rbx x) (rbp x) (r11 x) (r10 x) (r9 x) (r8 x)
    (rax x) (rcx x) (rdx x) (rsi x) (rdi x) (rip x) (cs x) (rflags x) v (ss x).
Definition set_rip (v : Z) (x : Context) : Context :=
  mkContext (r15 x) (r14 x) (r13 x) (r12 x) (rbx x) (rbp x) (r11 x) (r10 x) (r9 x) (r8 x)
    (rax x) (rcx x) (rdx x) (rsi x) (rdi x) v (cs x) (rflags x) (rsp x) (ss x).

(** [None] when [exec] returns [false]. *)
Definition exec (f : Handle) (args : list str) : ST Exec (option outcome) :=
  r ← seek_read f 0 sizeof_ElfHeader;
  match r.1 with
  | None => mret None
  | Some bytes =>
      hdr ← lift_result (decode_header bytes);
      if negb (checkHeader hdr) then mret None
      else
        task ← on_tasks getActiveTask;
        r ← load_segments (Z.to_nat (e_phnum hdr)) (e_phentsize hdr) r.2 (e_phoff hdr);
        if negb r.1 then mret None
        else
          on_user (for_each (page_steps stack_bottom stack_top) (fun cur => us_mapPage cur ATTR_USER)) ;;
          rsp ← push_arguments args;
          on_tasks (updateTask task.1 (fun t => set_context (set_rsp rsp (context t)) t)) ;;
          on_tasks (updateTask task.1 (fun t => set_context (set_rip (e_entry hdr) (context t)) t)) ;;
          on_tasks downgradeCurrentTask ;;
          o ← on_tasks rescheduleSelf;
          mret (Some o)
  end.
End exec.
Arguments Exec : clear implicits.

(** ** The files and the tasks *)

Definition file_slice (data : str) (offset size : Z) : str :=
  take (Z.to_nat size) (drop (Z.to_nat offset) data).

Lemma length_file_slice data offset size :
  0 <= offset -> 0 <= size -> offset + size <= data_size data -> Z.of_nat (length (file_slice data offset size)) = size.
Proof. unfold file_slice, data_size. rewrite length_take, length_drop. lia. Qed.

Lemma file_slice_word data offset size : Forall (in_word 8) data -> Forall (in_word 8) (file_slice data offset size).
Proof. intros H. by apply Forall_take, Forall_drop. Qed.

Section files.
Context {C K : Type} `{!Console C, !UserOps K}.

(** A file of the archive, opened *)
Definition is_file (fs : FsState C) (f : Handle) (data : str) : Prop :=
  exists c pos i, f = CpioFileHandle c pos /\ inodes fs !! c = Some i /\ i_body i = CpioFileInode data.

Lemma seek_read_run (s : Exec C K) f data offset size :
  is_file (ex_fs s) f data -> data_size data < 2 ^ 64 -> 0 <= offset -> 0 <= size -> offset + size <= data_size data ->
  exists f', is_file (ex_fs s) f' data /\
    seek_read f offset size s = Ok ((Some (file_slice data offset size), f'), s).
Proof.
  intros (c & pos & i & -> & Hi & Hb) Hlen Ho Hs Hfit.
  exists (CpioFileHandle c (offset + size)). split; [by exists c, (offset + size), i|].
  unfold seek_read, on_files, mbind, ST_bind, zoom. cbn [handle_lseek].
  rewrite (bind_run _ _ _ _ _ (file_data_run _ _ _ _ Hi Hb)). cbn -[handle_read].
  pose proof (handle_read_run (ex_fs s) c i data offset size Hi Hb ltac:(lia) Hlen Hs) as Hr. cbv zeta in Hr.
  replace (Z.min size (data_size data - offset)) with size in Hr by lia.
  rewrite Hr. by destruct s.
Qed.
End files.

(** What the task starts with: what it had, the stack, the entry point and the segments of user code *)
Definition start_context (entry rsp : Z) (c : Context) : Context :=
  set_segments (Z.lor USER_CS 3) (Z.lor USER_DS 3) (rflags c) (set_rip entry (set_rsp rsp c)).

Definition start_task (entry rsp : Z) : TaskManager -> TaskManager := fun m =>
  set_tasks (alter (fun t => set_context (start_context entry rsp (context t)) t) (activeTask m) (tasks m)) m.

Section start.
Context {C K : Type}.

Lemma on_tasks_run {A} (op : ST TaskManager A) (s : Exec C K) a m' :
  op (ex_tm s) = Ok (a, m') -> on_tasks op s = Ok (a, mkExec (ex_fs s) (ex_user s) m').
Proof. intros H. unfold on_tasks, zoom. by rewrite H. Qed.

Lemma on_tasks_same {A} (op : ST TaskManager A) (s : Exec C K) a :
  op (ex_tm s) = Ok (a, ex_tm s) -> on_tasks op s = Ok (a, s).
Proof. intros H. rewrite (on_tasks_run _ _ _ _ H). by destruct s. Qed.

Lemma start_run (s : Exec C K) t entry rsp :
  let m := ex_tm s in
  activeTask m <> 0 -> tasks m !! activeTask m = Some t -> Z.testbit (rflags (context t)) 9 = true ->
  (on_tasks (updateTask (activeTask m) (fun t => set_context (set_rsp rsp (context t)) t)) ;;
   on_tasks (updateTask (activeTask m) (fun t => set_context (set_rip entry (context t)) t)) ;;
   on_tasks downgradeCurrentTask ;;
   o ← on_tasks rescheduleSelf;
   mret (Some o)) s =
  Ok (Some (Jump (activeTask m) (start_context entry rsp (context t))),
      mkExec (ex_fs s) (ex_user s) (start_task entry rsp m)).
Proof.
  intros m Ha Ht Hif. destruct s as [fs k tm]. cbn [ex_tm] in *. subst m.
  set (t1 := set_context (set_rip entry (set_rsp rsp (context t))) t).
  set (m1 := set_tasks (<[activeTask tm := t1]> (tasks tm)) tm).
  rewrite (bind_run _ _ _ _ _ (on_tasks_run (updateTask _ _) _ tt _ eq_refl)). cbn [ex_fs ex_user ex_tm].
  rewrite (bind_run _ _ _ _ _ (on_tasks_run (updateTask _ _) _ tt _ eq_refl)). cbn [ex_fs ex_user ex_tm].
  assert (set_tasks (alter (fun t => set_context (set_rip entry (context t)) t) (activeTask tm)
            (tasks (set_tasks (alter (fun t => set_context (set_rsp rsp (context t)) t) (activeTask tm) (tasks tm)) tm)))
            (set_tasks (alter (fun t => set_context (set_rsp rsp (context t)) t) (activeTask tm) (tasks tm)) tm) = m1) as ->.
  { unfold m1, set_tasks. cbn [tasks activeTask nextTid timer_masked kernel_stack current_directory cpu]. f_equal.
    rewrite <- (insert_id (tasks tm) (activeTask tm) t Ht) at 1. by rewrite !alter_insert_eq. }
  assert (tasks m1 !! activeTask m1 = Some t1) as Ht1 by apply lookup_insert_eq.
  set (t2 := set_context (start_context entry rsp (context t)) t).
  set (m2 := set_tasks (<[activeTask tm := t2]> (tasks tm)) tm).
  assert (downgradeCurrentTask m1 = Ok (tt, m2)) as Hdown.
  { unfold downgradeCurrentTask. rewrite (bind_run _ _ _ _ _ (getActiveTask_run m1 t1 Ha Ht1)).
    unfold updateTask, modify, m2, m1, set_tasks. cbn [fst tasks activeTask nextTid timer_masked kernel_stack current_directory cpu].
    do 3 f_equal. rewrite alter_insert_eq. done. }
  rewrite (bind_run _ _ _ _ _ (on_tasks_run _ (mkExec fs k m1) _ _ Hdown)). cbn [ex_fs ex_user ex_tm].
  assert (tasks m2 !! activeTask m2 = Some t2) as Ht2 by apply lookup_insert_eq.
  assert (rescheduleSelf m2 = Ok (Jump (activeTask tm) (start_context entry rsp (context t)), m2)) as Hself.
  { unfold rescheduleSelf. rewrite bind_read, bind_assertion.
    2:{ rewrite bool_decide_false; [done|]. intros E. by rewrite E, lookup_empty in Ht2. }
    rewrite (bind_run _ _ _ _ _ (getActiveTask_run m2 t2 Ha Ht2)). cbn [snd fst].
    rewrite bind_assertion; [done|]. unfold context_ok.
    change (rflags (context t2)) with (rflags (context t)). rewrite Hif. apply orb_true_r. }
  rewrite (bind_run _ _ _ _ _ (on_tasks_run _ (mkExec fs k m2) _ _ Hself)). cbn [ex_fs ex_user ex_tm].
  unfold start_task, m2. rewrite <- (insert_id (tasks tm) (activeTask tm) t Ht) at 2. by rewrite alter_insert_eq.
Qed.
End start.

(** ** The segments *)

(** A segment that [exec] can load: it starts a page, and what the file has of it is in the file. *)
Definition segment_ok (data : str) (ph : ElfProgramHeader) : Prop :=
  p_vaddr ph mod 4096 = 0 /\ 0 <= p_vaddr ph /\ p_vaddr ph + p_memsz ph <= 2 ^ 47 - 4096 /\
  0 <= p_filesz ph <= p_memsz ph /\ 0 <= p_offset ph /\ p_offset ph + p_filesz ph <= data_size data.

Definition is_load (ph : ElfProgramHeader) : bool := p_type ph =? PT_LOAD.
Definition pages_of (n : Z) : nat := Z.to_nat ((n + 4095) / 4096).

(** The bytes of a segment: those of the file, and zeros *)
Definition segment_image (data : str) (ph : ElfProgramHeader) : list Z :=
  file_slice data (p_offset ph) (p_filesz ph) ++ replicate (Z.to_nat (p_memsz ph - p_filesz ph)) 0.

Definition segment_pages (ph : ElfProgramHeader) (a : Z) : Prop := in_pages (p_vaddr ph) (p_memsz ph) a.

Definition disjoint_pages (P Q : Z -> Prop) : Prop := forall a, user a -> P a -> Q a -> False.

Lemma in_pages_round a n a' : a mod 4096 = 0 -> 0 <= n -> in_pages a n a' <-> in_pages a (4096 * Z.of_nat (pages_of n)) a'.
Proof. intros Ha Hn. unfold in_pages, pages_of. Z.to_euclidean_division_equations. lia. Qed.

Lemma in_pages_range a n a' : 0 <= a -> a <= a' < a + n -> in_pages a n a'.
Proof. intros Ha H. unfold in_pages. Z.to_euclidean_division_equations. lia. Qed.

Lemma page_steps_pages a n : page_steps a (a + n) = map (fun i => a + i * 0x1000) (seqZ 0 (Z.of_nat (pages_of n))).
Proof.
  unfold page_steps, pages_of. replace (a + n - a) with n by lia. change 0xfff with 4095. change 0x1000 with 4096.
  f_equal. destruct (Z_le_gt_dec 0 ((n + 4095) / 4096)); [by rewrite Z2Nat.id|].
  by replace (Z.to_nat ((n + 4095) / 4096)) with 0%nat by lia; unfold seqZ; replace (Z.to_nat ((n + 4095) / 4096)) with 0%nat by lia.
Qed.

Section segments.
Context {C K : Type} `{!Console C, !UserOps K, !UserLaws K}.
Context (data : str) (Hdata : Forall (in_word 8) data) (Hlen : data_size data < 2 ^ 64).
Implicit Types (s : Exec C K) (k : K) (ph : ElfProgramHeader).

(** What the steps below leave: the files and the tasks, and memory for [b] more pages *)
Definition only_user (b : nat) s s' : Prop :=
  ex_fs s' = ex_fs s /\ ex_tm s' = ex_tm s /\ us_ready b (ex_user s').

Lemma Runs_on_user {A} (op : ST K A) s (Q : A -> Exec C K -> Prop) :
  Runs op (ex_user s) (fun a k' => Q a (mkExec (ex_fs s) k' (ex_tm s))) -> Runs (on_user op) s Q.
Proof. intros H. unfold on_user. by apply Runs_zoom. Qed.

Lemma map_range_run b k a n :
  us_ready (pages_of n + b) k -> a mod 4096 = 0 -> 0 <= a -> 0 <= n -> a + n <= 2 ^ 47 - 4096 -> unmapped k a n ->
  Runs (for_each (page_steps a (a + n)) (fun cur => us_mapPage cur ATTR_USER)) k (fun _ k' =>
    us_ready b k' /\ all_mapped k' a n /\ same_on (fun a' => ~ in_pages a n a') k k').
Proof.
  intros Hr Ha H0 Hn Hend Hun. rewrite page_steps_pages.
  eapply Runs_mono; [apply (map_pages_run b); try done|].
  - unfold pages_of. Z.to_euclidean_division_equations. lia.
  - intros a' Hu Hp. apply Hun; [done|]. by apply in_pages_round.
  - intros [] k' (Hr' & Hm & Hs). split_and!; [done| |].
    + intros i Hi. apply Hm. unfold pages_of. Z.to_euclidean_division_equations. lia.
    + eapply same_on_mono; [done|]. intros a' Hnot Hin. apply Hnot. by apply in_pages_round.
Qed.

Lemma fill_run b k a mem bytes :
  us_ready b k -> Forall (in_word 8) bytes -> 0 <= a -> Z.of_nat (length bytes) <= mem -> all_mapped k a mem ->
  Runs (us_write a (replicate (Z.to_nat mem) 0) ;; us_write a bytes) k (fun _ k' =>
    us_ready b k' /\ holds k' a (bytes ++ replicate (Z.to_nat (mem - Z.of_nat (length bytes))) 0) /\
    same_on (fun a' => ~ in_pages a mem a') k k').
Proof.
  intros Hr Hb H0 Hle Hm. apply Runs_bind.
  assert (Z.of_nat (length (replicate (Z.to_nat mem) 0)) = mem) as Hrep by (rewrite length_replicate; lia).
  eapply Runs_mono; [apply (write_run b); [done|by apply Forall_replicate|by rewrite Hrep]|].
  intros [] k1 (Hr1 & Hh1 & Hm1 & Hs1). rewrite Hrep in Hs1.
  eapply Runs_mono; [apply (write_run b); [done|done|]|].
  { intros i Hi. destruct (Hm i ltac:(lia)). split; [done|by apply Hm1]. }
  intros [] k2 (Hr2 & Hh2 & _ & Hs2). split_and!; [done| |].
  - intros i x Hi. destruct (decide (i < length bytes)%nat) as [Hlt|Hge].
    + apply Hh2. by rewrite lookup_app_l in Hi.
    + rewrite lookup_app_r in Hi by lia. apply lookup_replicate in Hi as [-> Hi].
      destruct (Hh1 i 0) as [Hu Hb1]; [apply lookup_replicate; split; [done|lia]|]. split; [done|].
      rewrite Hs2; [done|done|lia].
  - eapply same_on_trans; (eapply same_on_mono; [eassumption|]);
      (intros a' Hnot Hin; apply Hnot, in_pages_range; lia).
Qed.

Lemma Runs_seek_read s f offset size (Q : option str * Handle -> Exec C K -> Prop) :
  is_file (ex_fs s) f data -> 0 <= offset -> 0 <= size -> offset + size <= data_size data ->
  (forall f', is_file (ex_fs s) f' data -> Q (Some (file_slice data offset size), f') s) ->
  Runs (seek_read f offset size) s Q.
Proof.
  intros Hf Ho Hs Hfit HQ. destruct (seek_read_run s f data offset size) as (f' & Hf' & Hrun); try done.
  eapply Runs_of_ok; [exact Hrun|]. by apply HQ.
Qed.

Lemma Runs_lift {S A} (r : result A) a (s : S) (Q : A -> S -> Prop) : r = Ok a -> Q a s -> Runs (lift_result r) s Q.
Proof. by intros ->. Qed.

(** A segment is loaded where it asks, and nothing else changes. *)
Lemma load_segment_run b s f off ph :
  is_file (ex_fs s) f data -> 0 <= off -> off + sizeof_ElfProgramHeader <= data_size data ->
  decode_program_header (file_slice data off sizeof_ElfProgramHeader) = Ok ph ->
  is_load ph = true -> segment_ok data ph -> us_ready (pages_of (p_memsz ph) + b) (ex_user s) ->
  unmapped (ex_user s) (p_vaddr ph) (p_memsz ph) ->
  Runs (load_segment f off) s (fun r s' => r.1 = true /\ is_file (ex_fs s') r.2 data /\ only_user b s s' /\
    holds (ex_user s') (p_vaddr ph) (segment_image data ph) /\
    same_on (fun a => ~ segment_pages ph a) (ex_user s) (ex_user s')).
Proof.
  intros Hf H0 Hoff Hdec Hload (Hal & Hv & Hend & Hsz & Hpo & Hfit) Hr Hun. unfold load_segment.
  apply Runs_bind, Runs_seek_read; [done|done|done|done|]. intros f1 Hf1. cbn [fst snd].
  apply Runs_bind. eapply Runs_lift; [exact Hdec|]. unfold is_load in Hload. rewrite Hload. cbn [negb].
  rewrite (wrap_small 64) by (unfold in_word; lia).
  apply Runs_bind, Runs_on_user. eapply Runs_mono; [apply (map_range_run b); try done; lia|].
  intros [] k1 (Hr1 & Hm1 & Hs1).
  pose proof (fill_run b k1 (p_vaddr ph) (p_memsz ph) (file_slice data (p_offset ph) (p_filesz ph)) Hr1) as Hfill.
  rewrite length_file_slice in Hfill by lia.
  specialize (Hfill (file_slice_word _ _ _ Hdata) Hv ltac:(lia) Hm1). apply Runs_ok in Hfill as ([] & k3 & Hfill & Hr3 & Hh3 & Hs3).
  apply bind_ok in Hfill as ([] & k2 & Hw1 & Hw2).
  apply Runs_bind, Runs_on_user. eapply Runs_of_ok; [exact Hw1|].
  apply Runs_bind, Runs_seek_read; [done|done|lia|done|]. intros f2 Hf2. cbn [fst snd].
  apply Runs_bind, Runs_on_user. eapply Runs_of_ok; [exact Hw2|]. apply Runs_ret. cbn [fst snd ex_fs ex_user ex_tm].
  split_and!; try done. by eapply same_on_trans.
Qed.

(** A header of another type is skipped. *)
Lemma skip_segment_run s f off ph :
  is_file (ex_fs s) f data -> 0 <= off -> off + sizeof_ElfProgramHeader <= data_size data ->
  decode_program_header (file_slice data off sizeof_ElfProgramHeader) = Ok ph -> is_load ph = false ->
  Runs (load_segment f off) s (fun r s' => r.1 = true /\ is_file (ex_fs s') r.2 data /\ s' = s).
Proof.
  intros Hf H0 Hoff Hdec Hload. unfold load_segment.
  apply Runs_bind, Runs_seek_read; [done|done|done|done|]. intros f1 Hf1. cbn [fst snd].
  apply Runs_bind. eapply Runs_lift; [exact Hdec|]. unfold is_load in Hload. rewrite Hload. by apply Runs_ret.
Qed.

(** The program headers [l] are in the file from [off] on. *)
Fixpoint headers_at (entsize off : Z) (l : list ElfProgramHeader) : Prop :=
  match l with
  | [] => True
  | ph :: l =>
      0 <= off /\ off + sizeof_ElfProgramHeader <= data_size data /\
      decode_program_header (file_slice data off sizeof_ElfProgramHeader) = Ok ph /\
      headers_at entsize (u64 (off + entsize)) l
  end.

Definition loads (l : list ElfProgramHeader) : list ElfProgramHeader := List.filter is_load l.
Definition load_pages (l : list ElfProgramHeader) : nat := list_sum (map (fun ph => pages_of (p_memsz ph)) (loads l)).
Definition any_segment (l : list ElfProgramHeader) (a : Z) : Prop := Exists (fun ph => segment_pages ph a) (loads l).
Definition apart (l : list ElfProgramHeader) : Prop :=
  ForallOrdPairs (fun p q => disjoint_pages (segment_pages p) (segment_pages q)) (loads l).
Definition loaded k (l : list ElfProgramHeader) : Prop :=
  Forall (fun ph => holds k (p_vaddr ph) (segment_image data ph)) (loads l).

Lemma length_segment_image ph : segment_ok data ph -> Z.of_nat (length (segment_image data ph)) = p_memsz ph.
Proof.
  intros (_ & _ & _ & Hsz & Ho & Hfit). unfold segment_image. rewrite length_app, length_replicate.
  pose proof (length_file_slice data (p_offset ph) (p_filesz ph)). lia.
Qed.

Lemma loaded_same k k' P l :
  Forall (segment_ok data) (loads l) -> loaded k l -> same_on P k k' ->
  Forall (fun ph => forall a, user a -> segment_pages ph a -> P a) (loads l) -> loaded k' l.
Proof.
  unfold loaded. rewrite !Forall_forall. intros Hok Hl Hs HP ph Hph. specialize (Hl ph Hph). specialize (Hok ph Hph).
  intros i x Hi. destruct (Hl i x Hi) as [Hu Hb]. split; [done|]. rewrite Hs; [done|done|].
  apply (HP ph Hph); [done|]. apply in_pages_range; [apply Hok|]. apply lookup_lt_Some in Hi.
  pose proof (length_segment_image ph Hok). lia.
Qed.

Lemma loads_cons ph l : loads (ph :: l) = if is_load ph then ph :: loads l else loads l.
Proof. done. Qed.

Lemma load_segments_run l b s f entsize off :
  is_file (ex_fs s) f data -> headers_at entsize off l -> Forall (segment_ok data) (loads l) -> apart l ->
  us_ready (load_pages l + b) (ex_user s) ->
  Forall (fun ph => unmapped (ex_user s) (p_vaddr ph) (p_memsz ph)) (loads l) ->
  Runs (load_segments (length l) entsize f off) s (fun r s' => r.1 = true /\ only_user b s s' /\
    loaded (ex_user s') l /\ same_on (fun a => ~ any_segment l a) (ex_user s) (ex_user s')).
Proof.
  revert s f off. induction l as [|ph l IH]; intros s f off Hf Hh Hok Hap Hr Hun.
  { apply Runs_ret. split; [done|]. split; [by split_and!|]. split; [by constructor|done]. }
  cbn [length load_segments headers_at] in *. destruct Hh as (H0 & Hoff & Hdec & Hh).
  unfold load_pages, apart, any_segment, loaded in *. rewrite (loads_cons ph l) in *.
  apply Runs_bind. destruct (is_load ph) eqn:Hload.
  2:{ eapply Runs_mono; [by apply (skip_segment_run s f off ph)|]. intros [go f1] s1 (-> & Hf1 & ->). cbn [fst snd].
      by apply IH. }
  apply Forall_cons in Hok as [Hokp Hok]. apply Forall_cons in Hun as [Hunp Hun].
  inversion Hap as [|? ? Hapart Hap']; subst. cbn [map list_sum foldr] in Hr.
  rewrite <- Nat.add_assoc in Hr.
  eapply Runs_mono; [by eapply load_segment_run|].
  intros [go f1] s1 (-> & Hf1 & (Efs & Etm & Hr1) & Hh1 & Hs1). cbn [fst snd].
  assert (Forall (fun q => forall a, user a -> segment_pages q a -> ~ segment_pages ph a) (loads l)) as Hout.
  { eapply Forall_impl; [exact Hapart|]. intros q Hq a Hu Hqa Hpa. by apply (Hq a). }
  eapply Runs_mono; [apply IH; [done|done|done|done|exact Hr1|]|].
  { rewrite Forall_forall in Hout, Hun |- *. intros q Hq a Hu Hqa. rewrite Hs1; [by apply (Hun q Hq)|done|].
    by apply (Hout q Hq). }
  intros [go2 f2] s2 (-> & (Efs2 & Etm2 & Hr2) & Hl2 & Hs2). cbn [fst snd].
  split; [done|]. split; [unfold only_user; by rewrite Efs2, Etm2|]. split.
  - apply Forall_cons. split; [|exact Hl2].
    eapply (holds_same (segment_pages ph)); [|exact Hh1|].
    + intros a Hu Hpa. apply Hs2; [done|]. intros Hex. apply Exists_exists in Hex as (q & Hq & Hqa).
      rewrite Forall_forall in Hout. by apply (Hout q Hq a).
    + intros i Hi. rewrite length_segment_image in Hi by done. apply in_pages_range; [apply Hokp|lia].
  - eapply same_on_trans; (eapply same_on_mono; [eassumption|]); intros a Hnot Hin; apply Hnot.
    + by apply Exists_cons_hd.
    + by apply Exists_cons_tl.
Qed.
End segments.

(** ** The stack *)
Fixpoint strings_size (args : list str) : Z :=
  match args with [] => 0 | arg :: args => Z.of_nat (length arg) + 1 + strings_size args end.

(** Where the strings go, from [cur] down *)
Fixpoint string_addresses (args : list str) (cur : Z) : list Z :=
  match args with
  | [] => []
  | arg :: args => let cur := cur - (Z.of_nat (length arg) + 1) in cur :: string_addresses args cur
  end.

Lemma length_string_addresses args cur : length (string_addresses args cur) = length args.
Proof. revert cur. induction args as [|arg args IH]; intros cur; [done|]. cbn. by rewrite IH. Qed.

Lemma strings_size_nonneg args : 0 <= strings_size args.
Proof. induction args; cbn; lia. Qed.

(** What a program finds at its stack pointer: the number of arguments, their addresses and a null pointer *)
Definition argument_block (addresses : list Z) : list Z :=
  le_bytes 8 (Z.of_nat (length addresses)) ++ concat (map (le_bytes 8) addresses) ++ le_bytes 8 0.

Definition argument_pointer (args : list str) : Z :=
  stack_top - strings_size args - 8 * (Z.of_nat (length args) + 2).

Lemma length_addresses l : length (concat (map (le_bytes 8) l)) = (8 * length l)%nat.
Proof.
  induction l as [|x l IH]; [done|]. cbn [map concat]. rewrite length_app, IH, length_le_bytes. cbn [length]. lia.
Qed.

Lemma addresses_word l : Forall (in_word 8) (concat (map (le_bytes 8) l)).
Proof. induction l as [|x l IH]; [constructor|]. apply Forall_app. split; [apply le_bytes_word|exact IH]. Qed.

Section stack.
Context {C K : Type} `{!Console C, !UserOps K, !UserLaws K}.
Implicit Types (s : Exec C K) (k : K).

Lemma holds_app k a l1 l2 : holds k a l1 -> holds k (a + Z.of_nat (length l1)) l2 -> holds k a (l1 ++ l2).
Proof.
  intros H1 H2 i x Hi. destruct (decide (i < length l1)%nat) as [Hlt|Hge].
  - apply H1. by rewrite lookup_app_l in Hi.
  - rewrite lookup_app_r in Hi by lia. apply H2 in Hi.
    by replace (a + Z.of_nat (length l1) + Z.of_nat (i - length l1)) with (a + Z.of_nat i) in Hi by lia.
Qed.

(** A store within a mapped region *)
Definition stored (b : nat) (lo n from to : Z) s s' : Prop :=
  only_user b s s' /\ all_mapped (ex_user s') lo n /\ same_on (fun a => ~ (from <= a < to)) (ex_user s) (ex_user s').

Lemma stored_refl b lo n from to s : us_ready b (ex_user s) -> all_mapped (ex_user s) lo n -> stored b lo n from to s s.
Proof. intros Hr Hm. split; [by split_and!|]. by split. Qed.

Lemma stored_trans b lo n from mid to s1 s2 s3 :
  from <= mid <= to -> stored b lo n mid to s1 s2 -> stored b lo n from mid s2 s3 -> stored b lo n from to s1 s3.
Proof.
  intros Hmid ((E1 & E2 & _) & _ & Hs1) ((E3 & E4 & Hr) & Hm & Hs2).
  split; [split_and!; [by rewrite E3|by rewrite E4|done]|]. split; [done|].
  eapply same_on_trans; (eapply same_on_mono; [eassumption|]); intros a Ha; cbn beta in *; lia.
Qed.

Lemma store_run b lo n s a l :
  us_ready b (ex_user s) -> Forall (in_word 8) l -> all_mapped (ex_user s) lo n ->
  lo <= a -> a + Z.of_nat (length l) <= lo + n ->
  Runs (on_user (us_write a l)) s (fun _ s' =>
    stored b lo n a (a + Z.of_nat (length l)) s s' /\ holds (ex_user s') a l).
Proof.
  intros Hr Hl Hm Hlo Hhi. apply Runs_on_user. eapply Runs_mono; [apply (write_run b); [done|done|]|].
  { intros i Hi. replace (a + i) with (lo + (a + i - lo)) by lia. apply Hm. lia. }
  intros [] k' (Hr' & Hh & Hm' & Hs). cbn [ex_fs ex_user ex_tm]. split; [|done]. split; [by split_and!|].
  split; [|done]. intros i Hi. destruct (Hm i Hi) as [Hu Hb]. split; [done|]. by apply Hm'.
Qed.

Lemma push_strings_run b lo n args s cur :
  us_ready b (ex_user s) -> Forall (Forall (in_word 8)) args -> all_mapped (ex_user s) lo n ->
  0 <= lo -> lo <= cur - strings_size args -> cur <= lo + n -> cur < 2 ^ 64 ->
  Runs (push_strings args cur) s (fun r s' =>
    r = (cur - strings_size args, string_addresses args cur) /\
    stored b lo n (cur - strings_size args) cur s s' /\
    Forall2 (fun arg address => holds (ex_user s') address (arg ++ [0])) args (string_addresses args cur)).
Proof.
  revert s cur. induction args as [|arg args IH]; intros s cur Hr Hw Hm H0 Hlo Hhi Hlt;
    cbn [push_strings strings_size string_addresses] in *.
  { apply Runs_ret. rewrite Z.sub_0_r. split; [done|]. split; [by apply stored_refl|constructor]. }
  apply Forall_cons in Hw as [Harg Hw]. pose proof (strings_size_nonneg args).
  rewrite (wrap_small 64) by (unfold in_word; lia). set (cur' := cur - (Z.of_nat (length arg) + 1)) in *.
  assert (Z.of_nat (length (arg ++ [0])) = Z.of_nat (length arg) + 1) as Hlen by (rewrite length_app; cbn; lia).
  apply Runs_bind. eapply Runs_mono; [apply (store_run b lo n); [done| |done|lia|lia]|].
  { apply Forall_app. split; [done|]. by constructor. }
  intros [] s1 [Hst1 Hh1]. rewrite Hlen in Hst1. replace (cur' + (Z.of_nat (length arg) + 1)) with cur in Hst1 by lia.
  apply Runs_bind. eapply Runs_mono; [apply IH; [apply Hst1|done|apply Hst1|done|lia|lia|lia]|].
  intros r s2 (-> & Hst2 & Hall). apply Runs_ret. cbn [fst snd].
  replace (cur - (Z.of_nat (length arg) + 1 + strings_size args)) with (cur' - strings_size args) by lia.
  split; [done|]. split; [eapply stored_trans; [|exact Hst1|exact Hst2]; lia|].
  constructor; [|done]. eapply holds_same; [apply Hst2|done|]. cbn beta. lia.
Qed.

(** The strings are not touched by stores below them. *)
Lemma strings_kept k k' args cur low :
  low <= cur - strings_size args -> same_on (fun a => low <= a) k k' ->
  Forall2 (fun arg address => holds k address (arg ++ [0])) args (string_addresses args cur) ->
  Forall2 (fun arg address => holds k' address (arg ++ [0])) args (string_addresses args cur).
Proof.
  revert cur. induction args as [|arg args IH]; intros cur Hlow Hs H; cbn [string_addresses strings_size] in *; [done|].
  apply Forall2_cons in H as [H1 H2]. pose proof (strings_size_nonneg args). apply Forall2_cons. split.
  - eapply holds_same; [exact Hs|done|]. cbn beta. lia.
  - apply IH; [lia|done|done].
Qed.

Lemma push_addresses_run b lo n l s pos :
  us_ready b (ex_user s) -> all_mapped (ex_user s) lo n ->
  0 <= lo -> lo <= pos -> pos + 8 * Z.of_nat (length l) <= lo + n -> pos + 8 * Z.of_nat (length l) < 2 ^ 64 ->
  Runs (push_addresses l pos) s (fun _ s' =>
    stored b lo n pos (pos + 8 * Z.of_nat (length l)) s s' /\ holds (ex_user s') pos (concat (map (le_bytes 8) l))).
Proof.
  revert s pos. induction l as [|x l IH]; intros s pos Hr Hm H0 Hlo Hhi Hlt; cbn [push_addresses].
  { apply Runs_ret. split; [by apply stored_refl|]. intros i y Hi. done. }
  cbn [length] in *. apply Runs_bind.
  eapply Runs_mono; [apply (store_run b lo n); [done|apply le_bytes_word|done|lia|rewrite length_le_bytes; lia]|].
  intros [] s1 [Hst1 Hh1]. rewrite length_le_bytes in Hst1. change (Z.of_nat 8) with 8 in Hst1.
  rewrite (wrap_small 64) by (unfold in_word; lia).
  eapply Runs_mono; [apply IH; [apply Hst1|apply Hst1|done|lia|lia|lia]|].
  intros [] s2 [Hst2 Hh2]. destruct Hst1 as ((E1 & E2 & _) & _ & Hs1), Hst2 as ((E3 & E4 & Hr2) & Hm2 & Hs2). split.
  - split; [split_and!; [by rewrite E3|by rewrite E4|done]|]. split; [done|].
    eapply same_on_trans; (eapply same_on_mono; [eassumption|]); intros a Ha; cbn beta in *; lia.
  - cbn [map concat]. apply holds_app; [|by rewrite length_le_bytes].
    eapply holds_same; [exact Hs2|done|]. rewrite length_le_bytes. lia.
Qed.

Lemma push_arguments_run b args s :
  us_ready b (ex_user s) -> Forall (Forall (in_word 8)) args -> all_mapped (ex_user s) stack_bottom 0x4000 ->
  strings_size args + 8 * (Z.of_nat (length args) + 2) <= 0x4000 ->
  Runs (push_arguments args) s (fun rsp s' => rsp = argument_pointer args /\ only_user b s s' /\
    holds (ex_user s') rsp (argument_block (string_addresses args stack_top)) /\
    Forall2 (fun arg address => holds (ex_user s') address (arg ++ [0])) args (string_addresses args stack_top) /\
    same_on (fun a => ~ (stack_bottom <= a < stack_top)) (ex_user s) (ex_user s')).
Proof.
  intros Hr Hw Hm Hfit. unfold push_arguments. pose proof (strings_size_nonneg args).
  assert (stack_top = stack_bottom + 0x4000) as Htop by done. assert (stack_bottom = 2 ^ 36 * 15) as Hbot by done.
  apply Runs_bind. eapply Runs_mono; [apply (push_strings_run b stack_bottom 0x4000); [done|done|done|lia|lia|lia|lia]|].
  intros r s1 (-> & Hst1 & Hall1). set (top := stack_top - strings_size args) in *.
  set (l := string_addresses args stack_top) in *. assert (length l = length args) as Hl by apply length_string_addresses.
  rewrite (wrap_small 64 (top - 8)) by (unfold in_word; lia).
  apply Runs_bind. eapply Runs_mono; [apply (store_run b stack_bottom 0x4000);
    [apply Hst1|apply le_bytes_word|apply Hst1|lia|rewrite length_le_bytes; lia]|].
  intros [] s2 [Hst2 Hh2]. rewrite length_le_bytes in Hst2. replace (top - 8 + Z.of_nat 8) with top in Hst2 by lia.
  rewrite (wrap_small 64 (top - 8 - _)) by (unfold in_word; lia).
  apply Runs_bind. eapply Runs_mono; [apply (push_addresses_run b stack_bottom 0x4000);
    [apply Hst2|apply Hst2|lia|lia|lia|lia]|].
  intros [] s3 [Hst3 Hh3]. replace (top - 8 - 8 * Z.of_nat (length l) + 8 * Z.of_nat (length l)) with (top - 8) in Hst3 by lia.
  rewrite (wrap_small 64) by (unfold in_word; lia). set (rsp := top - 8 - 8 * Z.of_nat (length l) - 8).
  apply Runs_bind. eapply Runs_mono; [apply (store_run b stack_bottom 0x4000);
    [apply Hst3|apply le_bytes_word|apply Hst3|lia|rewrite length_le_bytes; lia]|].
  intros [] s4 [Hst4 Hh4]. rewrite length_le_bytes in Hst4. apply Runs_ret.
  replace (rsp + Z.of_nat 8) with (top - 8 - 8 * Z.of_nat (length l)) in Hst4 by lia.
  pose proof (stored_trans b stack_bottom 0x4000 (top - 8 - 8 * Z.of_nat (length l)) (top - 8) top s1 s2 s3 ltac:(lia) Hst2 Hst3) as Hst13.
  pose proof (stored_trans b stack_bottom 0x4000 rsp (top - 8 - 8 * Z.of_nat (length l)) top s1 s3 s4 ltac:(lia) Hst13 Hst4) as Hst14.
  pose proof (stored_trans b stack_bottom 0x4000 rsp top stack_top s s1 s4 ltac:(lia) Hst1 Hst14) as Hst.
  destruct Hst as (Hou & Hm4 & Hs). split; [unfold argument_pointer; lia|]. split; [done|]. split_and!.
  - unfold argument_block. apply holds_app; [done|]. rewrite length_le_bytes.
    replace (rsp + Z.of_nat 8) with (top - 8 - 8 * Z.of_nat (length l)) by lia. apply holds_app.
    + eapply holds_same; [apply Hst4|done|]. rewrite length_addresses. lia.
    + rewrite length_addresses.
      replace (top - 8 - 8 * Z.of_nat (length l) + Z.of_nat (8 * length l)) with (top - 8) by lia.
      eapply holds_same; [apply Hst4| |rewrite length_le_bytes; lia].
      eapply holds_same; [apply Hst3|done|rewrite length_le_bytes; lia].
  - eapply strings_kept; [|eapply same_on_mono; [apply Hst14|]|exact Hall1]; [reflexivity|]. cbn beta. lia.
  - eapply same_on_mono; [exact Hs|]. cbn beta. lia.
Qed.
End stack.

(** ** What [exec] does *)

(** A program that can be loaded: its headers are in the file, its segments start pages and share none, with each
    other or with the stack. *)
Record program (data : str) (hdr : ElfHeader) (l : list ElfProgramHeader) : Prop := {
  prog_word : Forall (in_word 8) data;
  prog_size : sizeof_ElfHeader <= data_size data < 2 ^ 64;
  prog_header : decode_header (file_slice data 0 sizeof_ElfHeader) = Ok hdr;
  prog_magic : checkHeader hdr = true;
  prog_count : e_phnum hdr = Z.of_nat (length l);
  prog_headers : headers_at data (e_phentsize hdr) (e_phoff hdr) l;
  prog_segments : Forall (segment_ok data) (loads l);
  prog_apart : apart l;
  prog_stack : Forall (fun ph => disjoint_pages (segment_pages ph) (in_pages stack_bottom 0x4000)) (loads l);
}.

Section spec.
Context {C K : Type} `{!Console C, !UserOps K, !UserLaws K}.

(** In an empty address space with room for its pages, [exec] loads a program and jumps to it: the
    task goes on at the entry point, in user mode, with each segment's bytes where the header says and zeros behind
    them, and at the stack pointer the number of the arguments, the addresses of their texts and a null
    pointer; nothing else is mapped, and the other registers are as they were. *)
Theorem exec_spec b (s : Exec C K) f data hdr l args t :
  program data hdr l -> is_file (ex_fs s) f data ->
  Forall (Forall (in_word 8)) args -> strings_size args + 8 * (Z.of_nat (length args) + 2) <= 0x4000 ->
  activeTask (ex_tm s) <> 0 -> tasks (ex_tm s) !! activeTask (ex_tm s) = Some t ->
  Z.testbit (rflags (context t)) 9 = true ->
  us_ready (load_pages l + (4 + b)) (ex_user s) -> (forall a, user a -> us_byte (ex_user s) a = None) ->
  Runs (exec f args) s (fun o s' =>
    let rsp := argument_pointer args in
    let addresses := string_addresses args stack_top in
    o = Some (Jump (activeTask (ex_tm s)) (start_context (e_entry hdr) rsp (context t))) /\
    ex_tm s' = start_task (e_entry hdr) rsp (ex_tm s) /\ ex_fs s' = ex_fs s /\ us_ready b (ex_user s') /\
    loaded data (ex_user s') l /\
    holds (ex_user s') rsp (argument_block addresses) /\
    Forall2 (fun arg address => holds (ex_user s') address (arg ++ [0])) args addresses /\
    forall a, user a -> ~ any_segment l a -> ~ in_pages stack_bottom 0x4000 a -> us_byte (ex_user s') a = None).
Proof.
  intros [Hw Hsz Hhdr Hmagic Hnum Hheaders Hsegs Hap Hst] Hf Hargs Hfit Ha Ht Hif Hr Hempty. unfold exec.
  apply Runs_bind, (Runs_seek_read data ltac:(lia)); [done|done|done|lia|]. intros f1 Hf1. cbn [fst snd].
  apply Runs_bind. eapply Runs_lift; [exact Hhdr|]. rewrite Hmagic. cbn [negb].
  apply Runs_bind. eapply Runs_of_ok; [apply on_tasks_same; by apply getActiveTask_run|]. cbn [fst].
  rewrite Hnum, Nat2Z.id. apply Runs_bind.
  eapply Runs_mono; [apply (load_segments_run data Hw ltac:(lia) l (4 + b)); try done|].
  { apply Forall_forall. intros ph _ a Hu _. by apply Hempty. }
  intros [go f2] s1 (-> & (Efs1 & Etm1 & Hr1) & Hl1 & Hs1). cbn [fst snd negb].
  change stack_top with (stack_bottom + 0x4000) at 1.
  apply Runs_bind, Runs_on_user. eapply Runs_mono; [apply (map_range_run b); try done|].
  { intros a Hu Hin. rewrite Hs1; [by apply Hempty|done|]. intros (ph & Hph & Hpa)%Exists_exists.
    rewrite Forall_forall in Hst. by apply (Hst ph Hph a). }
  intros [] k2 (Hr2 & Hm2 & Hs2). apply Runs_bind.
  eapply Runs_mono; [apply (push_arguments_run b args (mkExec (ex_fs s1) k2 (ex_tm s1))); done|].
  intros rsp s3 (-> & (Efs3 & Etm3 & Hr3) & Hblock & Hstr & Hs3). cbn [ex_fs ex_user ex_tm] in *.
  assert (Etm : ex_tm s3 = ex_tm s) by congruence. assert (Efs : ex_fs s3 = ex_fs s) by congruence.
  pose proof (start_run s3 t (e_entry hdr) (argument_pointer args)) as Hstart. cbv zeta in Hstart. rewrite Etm in Hstart.
  eapply Runs_of_ok; [by apply Hstart|]. cbn [ex_fs ex_user ex_tm]. rewrite Efs.
  assert (same_on (fun a => ~ in_pages stack_bottom 0x4000 a) (ex_user s1) (ex_user s3)) as Hs13.
  { eapply same_on_trans; [exact Hs2|]. eapply same_on_mono; [exact Hs3|]. intros a Hnot Hin. apply Hnot.
    apply in_pages_range; [done|exact Hin]. }
  split_and!; try done.
  - eapply loaded_same; [exact Hsegs|exact Hl1|exact Hs13|]. eapply Forall_impl; [exact Hst|].
    intros ph Hd a Hu Hp Hin. by apply (Hd a).
  - intros a Hu Hn1 Hn2. rewrite Hs13, Hs1 by done. by apply Hempty.
Qed.

(** A file without the magic number is refused, and nothing changes. *)
Theorem exec_not_elf (s : Exec C K) f data hdr args :
  is_file (ex_fs s) f data -> sizeof_ElfHeader <= data_size data < 2 ^ 64 ->
  decode_header (file_slice data 0 sizeof_ElfHeader) = Ok hdr -> checkHeader hdr = false ->
  exec f args s = Ok (None, s).
Proof.
  intros Hf Hsz Hhdr Hmagic. destruct (seek_read_run s f data 0 sizeof_ElfHeader) as (f' & _ & R); [done|lia|done|done|lia|].
  unfold exec. rewrite (bind_run _ _ _ _ _ R). cbn [fst snd]. rewrite Hhdr.
  unfold mbind, ST_bind, lift_result. by rewrite Hmagic.
Qed.

(** A file that is shorter than the header is not noticed: the members are used as they are in the memory of
    the kernel. *)
Theorem exec_short_file (s : Exec C K) f data args :
  is_file (ex_fs s) f data -> data_size data < sizeof_ElfHeader ->
  Fails (exec f args) s (Undefined "members that were not read").
Proof.
  intros (c & pos & i & -> & Hi & Hb) Hshort.
  assert (seek_read (CpioFileHandle c pos) 0 sizeof_ElfHeader s = Ok ((Some data, CpioFileHandle c (data_size data)), s)) as R.
  { unfold seek_read, on_files, mbind, ST_bind, zoom. cbn [handle_lseek].
    rewrite (bind_run _ _ _ _ _ (file_data_run _ _ _ _ Hi Hb)). cbn -[handle_read].
    assert (0 <= data_size data) by (unfold data_size; lia). unfold sizeof_ElfHeader in *.
    rewrite (handle_read_run (ex_fs s) c i data 0 64) by (done || lia).
    replace (Z.min 64 (data_size data - 0)) with (data_size data) by lia. cbn [snd fst].
    change (Z.to_nat 0) with O. rewrite drop_0, take_ge by (unfold data_size; lia). by destruct s. }
  unfold Fails, exec. rewrite (bind_run _ _ _ _ _ R). cbn [fst snd]. unfold decode_header.
  rewrite (proj2 (Z.eqb_neq _ _)) by (unfold data_size in Hshort; lia). done.
Qed.
End spec.

(** The loop over a segment's pages steps from its first byte: when that is not the start of a page, the page
    of the last byte may not be reached. *)
Theorem last_page_not_mapped vaddr memsz :
  0 <= vaddr -> 0 < memsz -> 4096 <= vaddr mod 4096 + (memsz - 1) mod 4096 ->
  (vaddr + memsz - 1) / 4096 ∉ map (fun a => a / 4096) (page_steps vaddr (vaddr + memsz)).
Proof.
  intros Hv Hm Hcross Hin. apply list_elem_of_fmap in Hin as (a & E & Ha).
  unfold page_steps in Ha. apply list_elem_of_fmap in Ha as (i & -> & Hi%elem_of_seqZ).
  change 0x1000 with 4096 in *. change 0xfff with 4095 in *. Z.to_euclidean_division_equations. lia.
Qed.

(** ** A program of one segment and a note, with two arguments *)
Definition example_code : str := [72; 49; 192; 195].
Definition example_elf : str :=
  [0x7f; 69; 76; 70] ++ replicate 12 0 ++ le_bytes 8 0 ++ le_bytes 8 0x400002 ++ le_bytes 8 64 ++
  le_bytes 8 0 ++ replicate 6 0 ++ le_bytes 2 56 ++ le_bytes 2 2 ++ replicate 6 0 ++
  le_bytes 4 4 ++ replicate 52 0 ++
  le_bytes 4 1 ++ replicate 4 0 ++ le_bytes 8 176 ++ le_bytes 8 0x400000 ++ le_bytes 8 0 ++
  le_bytes 8 4 ++ le_bytes 8 0x1800 ++ le_bytes 8 4096 ++
  example_code.

Definition example_header : ElfHeader := mkElfHeader ([0x7f; 69; 76; 70] ++ replicate 12 0) 0x400002 64 56 2.
Definition example_segments : list ElfProgramHeader :=
  [mkElfProgramHeader 4 0 0 0 0; mkElfProgramHeader 1 176 0x400000 4 0x1800].

Lemma example_program : program example_elf example_header example_segments.
Proof.
  split.
  - by apply (bool_decide_unpack _); vm_compute.
  - vm_compute. split; [discriminate|done].
  - by vm_compute.
  - by vm_compute.
  - done.
  - split_and!; vm_compute; try done; discriminate.
  - repeat constructor; vm_compute; (done || discriminate).
  - repeat constructor.
  - constructor; [|constructor]. intros a _ [H1 H2] [H3 H4].
    change (p_vaddr _) with 0x400000 in *. change (p_memsz _) with 0x1800 in *. unfold stack_bottom in *.
    change ((0x400000 + 0x1800 + 4095) / 4096) with 1026 in *. change (0xf000000000 / 4096) with 251658240 in *. lia.
Qed.

Definition example_task : Task := newUserTask 0x1000.
Definition example_tm : TaskManager := mkTM {[ 1 := example_task ]} 1 2 true 0 0x1000 (mkCpu false 0).
Definition example_exec : Exec unit PageStore :=
  mkExec (mkFs {[ 3 := mkInode S_IFREG 180 [] (CpioFileInode example_elf) ]} ∅ 4 0 tt) (mkPageStore ∅ (fun _ => 7) 9) example_tm.

#[local] Existing Instance no_console.

Lemma exec_spec_witness :
  Runs (exec (CpioFileHandle 3 0) [chars "sh"; chars "-c"]) example_exec (fun o s' =>
    o = Some (Jump 1 (start_context 0x400002 0xf000003fda (context example_task))) /\
    us_byte (ex_user s') 0x400003 = Some 195 /\ us_byte (ex_user s') 0x4017ff = Some 0 /\
    us_byte (ex_user s') 0x402000 = None /\ us_byte (ex_user s') 0xf000003fda = Some 2).
Proof.
  eapply Runs_mono.
  - apply (exec_spec 0 example_exec (CpioFileHandle 3 0) example_elf example_header example_segments [chars "sh"; chars "-c"] example_task).
    + exact example_program.
    + by exists 3, 0, (mkInode S_IFREG 180 [] (CpioFileInode example_elf)).
    + by apply (bool_decide_unpack _); vm_compute.
    + vm_compute. discriminate.
    + done.
    + done.
    + done.
    + change (6 <= 9)%nat. lia.
    + done.
  - intros o s' (-> & _ & _ & _ & Hl & Hb & _ & Hn). split; [done|].
    apply Forall_cons in Hl as [Hl _]. split_and!.
    + by apply (Hl 3%nat 195).
    + by apply (Hl 0x17ff%nat 0).
    + apply Hn; [unfold user; lia| |].
      * intros Hx. apply Exists_exists in Hx as (ph & [<-|[]]%list_elem_of_In & H1 & H2). vm_compute in H2. done.
      * intros [H1 _]. vm_compute in H1. by apply H1.
    + by apply (Hb 0%nat 2).
Defined.
