(* ===== verification/Processes.v ===== *)
(** * A program in the memory of a task: [Elf] over [AddressSpace]

    The loader works on the page directory of the running task.  Its theorem holds there, and what it maps and
    stores does not reach the memory of the other tasks. *)

From Stdlib Require Import ZArith Lia.
From stdpp Require Import list numbers gmap.
From S2P Require Import Prelude Words Memory Pte Tasks Fs FileManager PageManager PageHeap PageDirectory UserSpace AddressSpace Elf.

Section processes.
Context `{!TableAllocator MM, !TableAllocatorLaws MM mm_rest} (refillPool : ST MM unit) `{!MemoryLaws refillPool}.
Context {C : Type} `{!Console C} (R : Z -> Prop).

(** [elf::exec], the active task having the directory [this] *)
Definition exec_process (this : Z) (f : Handle) (args : list str) : ST (Exec C Space) (option outcome) :=
  @exec C Space _ (space_ops refillPool this) f args.

(** The bytes [l] at [a], as the task with the tables [r] sees them *)
Definition sees (k : Space) (r a : Z) (l : list Z) : Prop :=
  forall i x, l !! i = Some x -> view k r (a + Z.of_nat i) = Some x.

Lemma exec_process_run n room G this r (s : Exec C Space) f data hdr l args t :
  program data hdr l -> is_file (ex_fs s) f data ->
  Forall (Forall (in_word 8)) args -> strings_size args + 8 * (Z.of_nat (length args) + 2) <= 0x4000 ->
  activeTask (ex_tm s) <> 0 -> tasks (ex_tm s) !! activeTask (ex_tm s) = Some t ->
  Z.testbit (rflags (context t)) 9 = true ->
  running R n room G (ex_user s) this r ->
  (3 * (load_pages l + 4) <= n)%nat -> page_cost refillPool * Z.of_nat (load_pages l + 4) <= room ->
  (forall a, user a -> view (ex_user s) r a = None) ->
  Runs (exec_process this f args) s (fun o s' =>
    let rsp := argument_pointer args in
    let addresses := string_addresses args stack_top in
    o = Some (Jump (activeTask (ex_tm s)) (start_context (e_entry hdr) rsp (context t))) /\
    ex_tm s' = start_task (e_entry hdr) rsp (ex_tm s) /\
    Forall (fun ph => sees (ex_user s') r (p_vaddr ph) (segment_image data ph)) (loads l) /\
    sees (ex_user s') r rsp (argument_block addresses) /\
    Forall2 (fun arg address => sees (ex_user s') r address (arg ++ [0])) args addresses /\
    (forall r' a, R r' -> r' <> r -> user a -> view (ex_user s') r' a = view (ex_user s) r' a) /\
    (exists G' n' room', running R n' room' G' (ex_user s') this r) /\ ex_fs s' = ex_fs s).
Proof.
  intros Hprog Hf Hargs Hfit Ha Ht Hif Hrun Hn Hroom Hempty.
  set (laws := space_laws refillPool R this r (view (ex_user s))).
  eapply Runs_mono.
  - apply (@exec_spec C Space _ (space_ops refillPool this) laws 0 s f data hdr l args t); try done.
    exists G, n, room. split; [lia|]. split; [by rewrite Nat.add_0_r|]. done.
  - intros o s' (-> & Htm & Hfs & (G' & n' & room' & _ & _ & Hrun' & Hoth) & Hl & Hb & Hs & _). cbv zeta.
    split; [done|]. split; [done|]. split; [|split; [|split; [|split; [done|split; [by exists G', n', room'|done]]]]].
    + eapply Forall_impl; [exact Hl|]. intros ph Hh i x Hi. by apply Hh.
    + intros i x Hi. by apply Hb.
    + eapply Forall2_impl; [exact Hs|]. intros arg address Hh i x Hi. by apply Hh.
Qed.
(** C4. In an empty address space, with room for its tables and pages, [exec] loads a program and jumps to it: the
    task sees each segment's bytes, zeros behind them, and its arguments on the stack; every other task sees
    what it saw. *)
Theorem exec_process_spec n room G this r (s : Exec C Space) f data hdr l args t :
  program data hdr l -> is_file (ex_fs s) f data ->
  Forall (Forall (in_word 8)) args -> strings_size args + 8 * (Z.of_nat (length args) + 2) <= 0x4000 ->
  activeTask (ex_tm s) <> 0 -> tasks (ex_tm s) !! activeTask (ex_tm s) = Some t ->
  Z.testbit (rflags (context t)) 9 = true ->
  running R n room G (ex_user s) this r ->
  (3 * (load_pages l + 4) <= n)%nat -> page_cost refillPool * Z.of_nat (load_pages l + 4) <= room ->
  (forall a, user a -> view (ex_user s) r a = None) ->
  Runs (exec_process this f args) s (fun o s' =>
    let rsp := argument_pointer args in
    let addresses := string_addresses args stack_top in
    o = Some (Jump (activeTask (ex_tm s)) (start_context (e_entry hdr) rsp (context t))) /\
    ex_tm s' = start_task (e_entry hdr) rsp (ex_tm s) /\
    Forall (fun ph => sees (ex_user s') r (p_vaddr ph) (segment_image data ph)) (loads l) /\
    sees (ex_user s') r rsp (argument_block addresses) /\
    Forall2 (fun arg address => sees (ex_user s') r address (arg ++ [0])) args addresses /\
    (forall r' a, R r' -> r' <> r -> user a -> view (ex_user s') r' a = view (ex_user s) r' a) /\
    (exists G' n' room', running R n' room' G' (ex_user s') this r) /\ ex_fs s' = ex_fs s).
Proof. apply exec_process_run. Qed.
End processes.

(** ** Two tasks, and a program for the first *)

(** Directories that were just created *)
Lemma tables_wf_roots G :
  G !! 0 = None ->
  (forall p g, G !! p = Some g -> t_levels g = LevelCount /\ in_word 52 (t_phys g) /\ t_phys g mod 4096 = 0) ->
  (forall p p' g g', G !! p = Some g -> G !! p' = Some g' -> t_phys g = t_phys g' -> p = p') ->
  tables_wf G ((fun _ => PageManager) <$> G).
Proof.
  intros H0 Hg Hinj.
  assert (forall p i, entry_at ((fun _ => PageManager) <$> G) p i = zero_pte /\
                      next_at ((fun _ => PageManager) <$> G) p i = 0) as Hat.
  { intros p i. unfold entry_at, next_at. rewrite lookup_fmap. by destruct (G !! p). }
  constructor.
  - intros p. by rewrite lookup_fmap, fmap_is_Some.
  - done.
  - intros p g H. destruct (Hg p g H) as [-> _]. unfold LevelCount. lia.
  - intros p g H. by apply Hg in H as [_ H].
  - exact Hinj.
  - intros p i g _ _. apply Hat.
  - intros p i g _ _. destruct (Hat p i) as [-> ->]. split; [done|lia].
  - intros p i g _ Hn. by rewrite (proj2 (Hat p i)) in Hn.
  - intros p i. by rewrite (proj1 (Hat p i)).
Qed.

Section examples.
Existing Instances example_symbols.

Definition root_of (k : Z) : Z := (block k).1.
Definition both_tasks (r : Z) : Prop := r = root_of 0 \/ r = root_of 1.
Definition both_ghost : ghost :=
  <[ root_of 1 := mkInfo LevelCount 0 (block 1).2 ]> empty_ghost.
Definition both_tables : Tables := (fun _ => PageManager) <$> both_ghost.
Definition second_object : Z := 0xfffffffff0000200.
Definition both_mm : MM :=
  mkMM small_memory both_tables (mkPageHeap 32 true (replicate 32 true) (map block_of (seqZ 2 18)))
       (<[ second_object := mkPageDirectory (block 1).2 (root_of 1) ]>
          {[ AddressSpace.example_task := mkPageDirectory (block 0).2 (root_of 0) ]})
       AddressSpace.example_task AddressSpace.example_task true 0.

Lemma both_lookup p g : both_ghost !! p = Some g -> (p = root_of 0 /\ g = mkInfo LevelCount 0 (block 0).2) \/ (p = root_of 1 /\ g = mkInfo LevelCount 0 (block 1).2).
Proof. unfold both_ghost, empty_ghost. intros [[<- <-]|[_ [<- <-]%lookup_singleton_Some]]%lookup_insert_Some; [by right|by left]. Qed.

Lemma both_wf : tables_wf both_ghost both_tables.
Proof.
  apply tables_wf_roots; [by vm_compute| |].
  - intros p g [[-> ->]|[-> ->]]%both_lookup; split_and!; by vm_compute.
  - intros p p' g g' [[-> ->]|[-> ->]]%both_lookup [[-> ->]|[-> ->]]%both_lookup E; vm_compute in E |- *; done.
Qed.

Lemma both_pool : pool_ready 18 both_ghost both_mm.
Proof.
  split; [done|done| | |].
  - assert (Forall (fun b => block_ptr b <> 0 /\ both_ghost !! block_ptr b = None /\ in_word 52 b.2 /\ b.2 mod 4096 = 0 /\
      map_Forall (fun _ g => t_phys g <> b.2) both_ghost) (m_pool (mm_pageHeap both_mm))) as Hall
      by (refine (bool_decide_unpack _ _); by vm_compute).
    intros b Hb. rewrite Forall_forall in Hall. destruct (Hall b Hb) as (? & ? & ? & ? & ?). by apply fresh_table_dec.
  - refine (bool_decide_unpack _ _). by vm_compute.
  - refine (bool_decide_unpack _ _). by vm_compute.
Qed.

Lemma both_bare r a : both_tasks r -> path r both_mm a = [r] /\ pte_at (mm_tables both_mm) r a = zero_pte.
Proof. by intros [-> | ->]. Qed.

Lemma both_running room ram : 0 <= room < 2 ^ 32 ->
  @running (pd_allocator no_mapPage) (pool_laws no_mapPage) both_tasks 18 room both_ghost (mkSpace both_mm ram)
    AddressSpace.example_task (root_of 0).
Proof.
  intros Hroom. split; [|lia| |done|by left]; cbn [as_mm].
  - split.
    + exact both_wf.
    + intros r [-> | ->]; eexists; (split; [vm_compute; reflexivity|done]).
    + intros r r' a a' q Hr Hr' Hne _ _. rewrite (proj1 (both_bare r a Hr)), (proj1 (both_bare r' a' Hr')).
      rewrite !list_elem_of_singleton. congruence.
    + done.
    + apply small_memory_wf.
    + cbn [mm_memory both_mm]. assert (frames_size small_memory = 4) as -> by done. lia.
    + exact both_pool.
    + intros r a Hr _. by rewrite (proj2 (both_bare r a Hr)).
    + intros r r' a a' Hr _ _ _. by rewrite (proj2 (both_bare r a Hr)).
    + by intros r m _ [].
  - split; [exact both_wf|eexists; split; [vm_compute; reflexivity|done]|by exists (mkInfo LevelCount 0 (block 0).2)].
Qed.

Lemma both_view ram r a : both_tasks r -> view (mkSpace both_mm ram) r a = None.
Proof. intros Hr. unfold view. cbn [as_mm]. by rewrite (proj2 (both_bare r a Hr)). Qed.

Lemma second_directory : directory_ok both_ghost both_mm second_object (root_of 1).
Proof. split; [exact both_wf|eexists; split; [vm_compute; reflexivity|done]|by exists (mkInfo LevelCount 0 (block 1).2)]. Qed.

Definition process_exec : Exec unit Space :=
  mkExec (ex_fs example_exec) (mkSpace both_mm (fun _ => 7)) (ex_tm example_exec).

Lemma exec_process_spec_witness :
  Runs (@exec_process (pd_allocator no_mapPage) (refillPool pdPageHeap (on_kernel no_mapPage) 0) unit FileManager.no_console
          AddressSpace.example_task (CpioFileHandle 3 0) [chars "sh"; chars "-c"]) process_exec (fun o s' =>
    o = Some (Jump 1 (start_context 0x400002 0xf000003fda (context Elf.example_task))) /\
    view (ex_user s') (root_of 0) 0x400003 = Some 195 /\ view (ex_user s') (root_of 0) 0x4017ff = Some 0 /\
    view (ex_user s') (root_of 1) 0x400003 = None).
Proof.
  eapply Runs_mono.
  - apply (@exec_process_spec (pd_allocator no_mapPage) (pool_laws no_mapPage)
      (refillPool pdPageHeap (on_kernel no_mapPage) 0) (pool_memory_laws 0) unit FileManager.no_console both_tasks
      18 6 both_ghost AddressSpace.example_task (root_of 0) process_exec (CpioFileHandle 3 0)
      example_elf example_header example_segments [chars "sh"; chars "-c"] Elf.example_task).
    + exact example_program.
    + by exists 3, 0, (mkInode S_IFREG 180 [] (CpioFileInode example_elf)).
    + by apply (bool_decide_unpack _); vm_compute.
    + vm_compute. discriminate.
    + done.
    + done.
    + done.
    + by apply both_running.
    + change (18 <= 18)%nat. lia.
    + done.
    + intros a _. apply both_view. by left.
  - intros o s' (-> & _ & Hl & _ & _ & Hoth & _). split; [done|].
    apply Forall_cons in Hl as [Hl _]. split_and!.
    + by apply (Hl 3%nat 195).
    + by apply (Hl 0x17ff%nat 0).
    + rewrite Hoth; [|by right|by vm_compute|unfold user; lia].
      apply both_view. by right.
Defined.
End examples.
