(* ===== verification/Kernel.v ===== *)
(** * The kernel as one state: the tasks with their memory and files

    [Kernel] puts the components together as the objects of the program are: the task manager, the
    file manager of each task, the file system, the physical memory with the page directories, the heap of
    kernel stacks.  Here are the operations that work on several of them: the making and the end of a task.
    [Syscalls] and [Dispatch] are the ways into it. *)

From Stdlib Require Import ZArith Lia.
From stdpp Require Import list numbers gmap.
From S2P Require Import Prelude Words Memory Pte Interrupts Tasks Fs FileManager PageManager PageHeap PageDirectory.
From S2P Require Import UserSpace AddressSpace Elf.

(** ** [InterruptState]: the registers as the entry stubs push them *)
Record InterruptState : Type := mkInterruptState {
  s_r15 : Z; s_r14 : Z; s_r13 : Z; s_r12 : Z; s_rbx : Z; s_rbp : Z;
  s_r11 : Z; s_r10 : Z; s_r9 : Z; s_r8 : Z; s_rax : Z; s_rcx : Z; s_rdx : Z; s_rsi : Z; s_rdi : Z;
  intNo : Z;
  errCode : Z;
  s_rip : Z; s_cs : Z; s_rflags : Z; s_rsp : Z; s_ss : Z;
}.

Definition toTaskContext (s : InterruptState) : Context :=
  mkContext (s_r15 s) (s_r14 s) (s_r13 s) (s_r12 s) (s_rbx s) (s_rbp s) (s_r11 s) (s_r10 s) (s_r9 s) (s_r8 s)
    (s_rax s) (s_rcx s) (s_rdx s) (s_rsi s) (s_rdi s) (s_rip s) (s_cs s) (s_rflags s) (s_rsp s) (s_ss s).

Definition set_s_rax (v : Z) (s : InterruptState) : InterruptState :=
  mkInterruptState (s_r15 s) (s_r14 s) (s_r13 s) (s_r12 s) (s_rbx s) (s_rbp s) (s_r11 s) (s_r10 s) (s_r9 s) (s_r8 s)
    v (s_rcx s) (s_rdx s) (s_rsi s) (s_rdi s) (intNo s) (errCode s) (s_rip s) (s_cs s) (s_rflags s) (s_rsp s) (s_ss s).

(** "Interrupts were disabled in a user task" *)
Definition state_ok (s : InterruptState) : bool := (s_cs s =? SYSTEM_CS) || Z.testbit (s_rflags s) 9.

(** ** The state *)
Record Kernel (C : Type) : Type := mkKernel {
  k_files : gmap Z FileManager;     (** the [fileManager] of each task *)
  k_fs : FsState C;
  k_space : Space;
  k_tm : TaskManager;
  k_stackHeap : PageHeap;           (** [getStackPageHeap()] *)
  k_curPtr : Z;                     (** [curPtr] of [mmap] *)
  k_msr : gmap Z Z;                 (** the model-specific registers *)
}.
Arguments mkKernel {C}.
Arguments k_files {C}.
Arguments k_fs {C}.
Arguments k_space {C}.
Arguments k_tm {C}.
Arguments k_stackHeap {C}.
Arguments k_curPtr {C}.
Arguments k_msr {C}.

(** How a call into the kernel ends: it returns, it leaves for another context, or the task sleeps. *)
Inductive turn (A : Type) : Type :=
  | Returned (a : A)
  | Leaves (o : outcome)
  | Sleeps.
Arguments Returned {A}.
Arguments Leaves {A}.
Arguments Sleeps {A}.

Section kernel.
Context {C : Type}.
Implicit Types (k : Kernel C).

Definition set_k_files f k := mkKernel f (k_fs k) (k_space k) (k_tm k) (k_stackHeap k) (k_curPtr k) (k_msr k).
Definition set_k_fs (f : FsState C) k : Kernel C := mkKernel (k_files k) f (k_space k) (k_tm k) (k_stackHeap k) (k_curPtr k) (k_msr k).
Definition set_k_space m k := mkKernel (k_files k) (k_fs k) m (k_tm k) (k_stackHeap k) (k_curPtr k) (k_msr k).
Definition set_k_tm t k := mkKernel (k_files k) (k_fs k) (k_space k) t (k_stackHeap k) (k_curPtr k) (k_msr k).
Definition set_k_stackHeap h k := mkKernel (k_files k) (k_fs k) (k_space k) (k_tm k) h (k_curPtr k) (k_msr k).
Definition set_k_curPtr p k := mkKernel (k_files k) (k_fs k) (k_space k) (k_tm k) (k_stackHeap k) p (k_msr k).
Definition set_k_msr m k := mkKernel (k_files k) (k_fs k) (k_space k) (k_tm k) (k_stackHeap k) (k_curPtr k) m.

(** Running the operation of a part *)
Definition on_tm {A} (m : ST TaskManager A) : ST (Kernel C) A := zoom k_tm set_k_tm m.
Definition on_space {A} (m : ST Space A) : ST (Kernel C) A := zoom k_space set_k_space m.
Definition on_paging {A} (m : ST MM A) : ST (Kernel C) A := on_space (on_mm m).
Definition on_disk {A} (m : ST (FsState C) A) : ST (Kernel C) A := zoom k_fs set_k_fs m.
Definition on_exec {A} (m : ST (Exec C Space) A) : ST (Kernel C) A :=
  zoom (fun k => mkExec (k_fs k) (k_space k) (k_tm k))
    (fun e k => set_k_fs (ex_fs e) (set_k_space (ex_user e) (set_k_tm (ex_tm e) k))) m.

(** [getActiveTask().fileManager], and the file system *)
Definition on_files {A} (m : ST (FileState C) A) : ST (Kernel C) A :=
  t ← on_tm getActiveTask;
  k ← read_state;
  match k_files k !! t.1 with
  | None => fail (Undefined "dangling FileManager")
  | Some fm => zoom (fun k => (fm, k_fs k)) (fun s k => set_k_files (<[t.1 := s.1]> (k_files k)) (set_k_fs s.2 k)) m
  end.

(** The text behind a [const char*]: up to its zero *)
Fixpoint read_string (fuel : nat) (p : Z) : ST Space str :=
  match fuel with
  | O => fail OutOfFuel
  | S fuel =>
      c ← read_byte p;
      if c =? 0 then mret []
      else s ← read_string fuel (u64 (p + 1)); mret (c :: s)
  end.

(** ** [Cpu.hpp]: the model-specific registers *)
Definition MSR_EFER : Z := 0xC0000080.
Definition MSR_STAR : Z := 0xC0000081.
Definition MSR_LSTAR : Z := 0xC0000082.

Definition wrmsr (msr value : Z) : ST (Kernel C) unit := modify (fun k => set_k_msr (<[msr := value]> (k_msr k)) k).

Definition writeMsr (msr value : Z) : ST (Kernel C) unit :=
  wrmsr msr (u32 value + Z.shiftl (u32 (Z.shiftr value 32)) 32).

(** [rdmsr; btsl $0, %eax; wrmsr] *)
Definition readMsr (msr : Z) : ST (Kernel C) Z :=
  v ← gets (fun k => default 0 (k_msr k !! msr));
  let v := Z.lor v 1 in
  wrmsr msr v ;;
  mret v.

(** ** Tasks *)
Context `{!TableAllocator MM, !Symbols, !Console C} (refillPool : ST MM unit).

(** [PageDirectory::initKernelDirectory]; [object] is the address that [new] returns. *)
Definition initKernelDirectory (object : Z) : ST (Kernel C) Z :=
  efer ← readMsr MSR_EFER;
  writeMsr MSR_EFER (Z.lor efer (Z.shiftl 1 11)) ;;
  on_paging (makeKernelDirectory object).

(** [PageHeap<4, 0, 0>] *)
Definition stackPageHeap : HeapConfig (Kernel C) :=
  mkHeapConfig (Kernel C) 4 0 0 getStackPageHeapBase getKernelPageHeapStart k_stackHeap set_k_stackHeap
    (fun page => on_paging (memory (setPageFree page)))
    (fun vaddr => on_paging (kd ← gets g_kernelDirectory; unmapPage kd vaddr)).

Definition kernel_mapPage (vaddr attributes : Z) : ST (Kernel C) Z :=
  on_paging (kd ← gets g_kernelDirectory; mapPage refillPool kd vaddr attributes).

(** The object at [from] moves to [to]. *)
Definition move_directory (to from : Z) : ST MM unit :=
  d ← directory from;
  set_directory to (PD_move d).1 ;;
  set_directory from (PD_move d).2.

Definition set_kernel_stack_of (stack top : Z) (t : Task) : Task :=
  mkTask (hh t) (state t) (stateMutex_held t) (stateCond_waiters t) (context t) (pageDirectory t) top stack true.
Definition set_pageDirectory (d : Z) (t : Task) : Task :=
  mkTask (hh t) (state t) (stateMutex_held t) (stateCond_waiters t) (context t) d (kernelStackTop t)
    (kernelStack t) (releaseFunction t).

Definition bufferPage : Z := 0xffffffffaa000000.

(** Copying one page of the active task, whose directory is [pd], to the directory [newPd] *)
Definition clone_page (pd newPd : Z) (entry : slot) (addr : Z) : ST (Kernel C) unit :=
  e ← on_paging (load entry);
  physaddr ← on_paging (mapPage refillPool newPd addr (getAttributes e));
  e ← on_paging (load entry);
  if has_attr (getAttributes e) ATTR_DEFER then mret tt
  else
    on_paging (mapPageTo refillPool pd bufferPage physaddr (Z.lor ATTR_RW ATTR_NOEXEC)) ;;
    on_space (bytes ← read_bytes 4096 addr; write_bytes bufferPage bytes) ;;
    on_paging (unmapPage pd bufferPage) ;;
    mret tt.

(** [TaskManager::clone]; the page directory of the new task is made at [local], a variable, and
    moves to [node], in the set. *)
Definition clone (local node : Z) (st : InterruptState) : ST (Kernel C) Z :=
  on_paging (set_directory local new_PageDirectory ;; mapKernel local) ;;
  fm ← on_disk new_FileManager;
  stack ← kmalloc stackPageHeap kernel_mapPage;
  let task := set_kernel_stack_of stack.1 (u64 (stack.1 + 0x4000)) (newUserTask local) in
  activeTask ← on_tm getActiveTask;
  let pd := pageDirectory activeTask.2 in
  forEachUserPage_in (@on_paging) pd (fun entry addr _ => clone_page pd local entry addr) ;;
  let task := set_context (set_rax 0 (toTaskContext st)) (set_state Runnable task) in
  tid ← on_tm (addTask (set_pageDirectory node task));
  on_paging (move_directory node local) ;;
  modify (fun k => set_k_files (<[tid := fm]> (k_files k)) k) ;;
  mret tid.

(** [~Task] of the task [tid], and the members whose destructors do something; [newPd] and [var] are the variables
    of [unmapUserSpace]. *)
Definition Task_destroy (newPd var : Z) (tid : Z) (t : Task) : ST (Kernel C) unit :=
  d ← on_paging (directory (pageDirectory t));
  (if PD_isValid d then
     (if releaseFunction t then kfree stackPageHeap (kernelStack t) else mret tt) ;;
     on_paging (unmapUserSpace (pageDirectory t) newPd var)
   else mret tt) ;;
  modify (fun k => set_k_files (delete tid (k_files k)) k) ;;
  on_paging (
    d ← directory (pageDirectory t);
    release (m_manager d) ;;
    modify (fun s => set_mm_directories (delete (pageDirectory t) (mm_directories s)) s)).

(** Going to another task: [scheduleNext] also uses its page directory, [var] being a variable of it. *)
Definition switch {A} (var : Z) (m : ST TaskManager outcome) : ST (Kernel C) (turn A) :=
  o ← on_tm m;
  d ← on_tm (gets current_directory);
  (match o with
   | Jump _ _ => on_paging (use d var)
   | Halt => mret tt
   end) ;;
  mret (Leaves o).
End kernel.

(** ** Running the parts *)
Section parts.
Context {C : Type}.
Implicit Types (k : Kernel C).

Lemma on_tm_same {A} (op : ST TaskManager A) k a : op (k_tm k) = Ok (a, k_tm k) -> on_tm op k = Ok (a, k).
Proof. intros H. unfold on_tm, zoom. rewrite H. by destruct k. Qed.

Lemma on_space_run {A} (op : ST Space A) k a s : op (k_space k) = Ok (a, s) -> on_space op k = Ok (a, set_k_space s k).
Proof. intros H. unfold on_space, zoom. by rewrite H. Qed.

Lemma on_space_same {A} (op : ST Space A) k a : op (k_space k) = Ok (a, k_space k) -> on_space op k = Ok (a, k).
Proof. intros H. rewrite (on_space_run _ _ _ _ H). by destruct k. Qed.

Lemma Runs_on_space {A} (op : ST Space A) k (Q : A -> Kernel C -> Prop) :
  Runs op (k_space k) (fun a s => Q a (set_k_space s k)) -> Runs (on_space op) k Q.
Proof. intros H. unfold on_space. by apply Runs_zoom. Qed.

Lemma Runs_on_paging {A} (op : ST MM A) k (Q : A -> Kernel C -> Prop) :
  Runs (on_mm op) (k_space k) (fun a s => Q a (set_k_space s k)) -> Runs (on_paging op) k Q.
Proof. intros H. unfold on_paging. by apply Runs_on_space. Qed.

Lemma on_paging_same {A} (op : ST MM A) k a : op (as_mm (k_space k)) = Ok (a, as_mm (k_space k)) -> on_paging op k = Ok (a, k).
Proof. intros H. unfold on_paging, on_space, on_mm, zoom. rewrite H. by destruct k as [? ? [? ?] ? ? ? ?]. Qed.
End parts.

(** ** The registers *)
Lemma writeMsr_run {C} msr value (k : Kernel C) : writeMsr msr value k = Ok (tt, set_k_msr (<[msr := u64 value]> (k_msr k)) k).
Proof.
  unfold writeMsr, wrmsr, modify. do 4 f_equal. unfold wrap. rewrite Z.shiftl_mul_pow2, Z.shiftr_div_pow2 by done.
  change (2 ^ 64) with (2 ^ 32 * 2 ^ 32). rewrite (Z.rem_mul_r value (2 ^ 32) (2 ^ 32)) by done. lia.
Qed.

Lemma readMsr_run {C} msr (k : Kernel C) v :
  k_msr k !! msr = Some v -> readMsr msr k = Ok (Z.lor v 1, set_k_msr (<[msr := Z.lor v 1]> (k_msr k)) k).
Proof. intros E. unfold readMsr, gets, mbind, ST_bind. by rewrite E. Qed.

(** ** What an operation leaves alone

    [keeps m]: [m] does not change [part], a part of the kernel. *)
Section keeps.
Context {C X : Type} (part : Kernel C -> X).

Definition keeps {A} (m : ST (Kernel C) A) : Prop := forall k, Holds m k (fun _ k' => part k' = part k).

Lemma keeps_ret {A} (a : A) : keeps (mret a).
Proof. by intros k. Qed.

Lemma keeps_fail {A} e : keeps (fail (A := A) e).
Proof. by intros k. Qed.

Lemma keeps_gets {A} (f : Kernel C -> A) : keeps (gets f).
Proof. by intros k. Qed.

Lemma keeps_bind {A B} (m : ST (Kernel C) A) (f : A -> ST (Kernel C) B) :
  keeps m -> (forall a, keeps (f a)) -> keeps (m ≫= f).
Proof.
  intros Hm Hf k. apply Holds_bind. eapply Holds_mono; [apply Hm|]. intros a k1 <-. apply Hf.
Qed.

Lemma keeps_zoom {T A} (get : Kernel C -> T) (set : T -> Kernel C -> Kernel C) (m : ST T A) :
  (forall t k, part (set t k) = part k) -> keeps (zoom get set m).
Proof. intros Hset k. unfold Holds, zoom. by destruct (m (get k)) as [[]|]. Qed.

Lemma keeps_modify (f : Kernel C -> Kernel C) : (forall k, part (f k) = part k) -> keeps (modify f).
Proof. intros Hf k. apply Hf. Qed.

Lemma keeps_assertion b c : keeps (assertion b c).
Proof. intros k. by destruct b. Qed.

Lemma keeps_for_each {A} (l : list A) (f : A -> ST (Kernel C) unit) : (forall a, keeps (f a)) -> keeps (for_each l f).
Proof. intros Hf. induction l as [|a l IH]; [apply keeps_ret|]. by apply keeps_bind. Qed.
End keeps.

(** The operations that are made of those of the parts *)
Ltac keep :=
  cbv zeta;
  lazymatch goal with
  | |- keeps _ (_ ≫= _) => apply keeps_bind; [keep|intros ?; keep]
  | |- keeps _ (if ?b then _ else _) => destruct b; keep
  | |- keeps _ (match ?x with _ => _ end) => destruct x; keep
  | |- keeps _ (for_each _ _) => apply keeps_for_each; intros ?; keep
  | |- keeps _ (mret _) => apply keeps_ret
  | |- keeps _ (fail _) => apply keeps_fail
  | |- keeps _ (panic _) => apply keeps_fail
  | |- keeps _ (assertion _ _) => apply keeps_assertion
  | |- keeps _ read_state => apply keeps_gets
  | |- keeps _ (gets _) => apply keeps_gets
  | |- keeps _ (modify _) => apply keeps_modify; by intros ?; cbn; auto
  | |- keeps _ (heap_update _ _) => apply keeps_modify; by intros ?; cbn; auto
  | |- keeps _ (heap_setPageFree _ _) => cbn; keep
  | |- keeps _ (kernel_unmapPage _ _) => cbn; keep
  | |- keeps _ _ => first [apply keeps_zoom; by intros ? ?; cbn; auto|by eauto with keeps|idtac]
  end.

Create HintDb keeps.

Section keeping.
Context {C X : Type} `{!TableAllocator MM, !Symbols} (refillPool : ST MM unit) (part : Kernel C -> X).
Context (Hspace : forall m k, part (set_k_space m k) = part k) (Hstacks : forall h k, part (set_k_stackHeap h k) = part k).

Lemma keeps_on_paging {A} (m : ST MM A) : keeps part (on_paging m).
Proof using Hspace. by apply keeps_zoom. Qed.
#[local] Hint Resolve keeps_on_paging : keeps.

Lemma keeps_kfree p : keeps part (kfree stackPageHeap p).
Proof using Hspace Hstacks. unfold kfree. keep. Qed.

Lemma keeps_kmalloc : keeps part (kmalloc stackPageHeap (kernel_mapPage refillPool)).
Proof using Hspace Hstacks. unfold kmalloc, allocBlock, allocPage, map_block, kernel_mapPage. keep. Qed.
End keeping.
#[export] Hint Resolve keeps_on_paging keeps_kfree keeps_kmalloc : keeps.

(** [~Task], whatever it does to the memory and the files, leaves the set of the tasks alone, as [Family.wait_reaps] asks of it. *)
Theorem Task_destroy_leaves_tasks {C} `{!TableAllocator MM, !Symbols} newPd var tid t (k : Kernel C) :
  Holds (Task_destroy newPd var tid t) k (fun _ k' => k_tm k' = k_tm k).
Proof. revert k. change (keeps (@k_tm C) (Task_destroy newPd var tid t)). unfold Task_destroy. keep. Qed.
