(* ===== verification/Fork.v ===== *)
(** * The copy of an address space: [TaskManager::clone]

    A new directory gets the pages of the active task, page by page: each is mapped in the new directory, mapped a second
    time at a fixed address of the active one, filled through that address, and unmapped there.  The theorems say that the
    new task sees what the active one sees, on physical pages of its own, and that nobody else notices. *)

From Stdlib Require Import ZArith Lia.
From stdpp Require Import list numbers gmap.
From S2P Require Import Prelude Words Memory Pte Interrupts Tasks Fs FileManager PageManager PageHeap PageDirectory.
From S2P Require Import UserSpace AddressSpace UserWalk Elf Kernel.

(** ** The pages of the upper half that a directory has for itself *)

(** Below the gigabyte that [mapKernel] shares *)
Definition private (b : Z) : Prop := prefix_of 3 b = 511 /\ prefix_of 2 b < 2 ^ 18 - 1.

Lemma bufferPage_private : private bufferPage.
Proof. split; vm_compute; reflexivity. Qed.

Lemma prefix_shifted l l' a : (l + l' <= LevelCount)%nat -> prefix_of (l + l') a = prefix_of l a / 2 ^ (9 * Z.of_nat l').
Proof. intros _. by rewrite prefix_shift, Z.shiftr_div_pow2 by lia. Qed.

Lemma user_below a : user a -> prefix_of 0 a < 2 ^ 35.
Proof. intros Hu. rewrite user_page by done. destruct Hu. apply Z.div_lt_upper_bound; lia. Qed.

Lemma private_above b : prefix_of 3 b = 511 -> 2 ^ 35 <= prefix_of 0 b.
Proof. change 3%nat with (0 + 3)%nat. rewrite prefix_shifted by (unfold LevelCount; lia). intros E. change (9 * Z.of_nat 3) with 27 in E. Z.to_euclidean_division_equations; lia. Qed.

Lemma private_not_user b a : private b -> user a -> prefix_of 0 a <> prefix_of 0 b.
Proof. intros [Hb _] Hu. pose proof (user_below a Hu). pose proof (private_above b Hb). lia. Qed.

Section private_pages.
Context `{!TableAllocator MM, !TableAllocatorLaws MM mm_rest} (refillPool : ST MM unit) `{!MemoryLaws refillPool}.
Context (R : Z -> Prop).
Implicit Types (s : MM) (G : ghost).

Lemma private_heap l b n : private b -> (l <= 2)%nat -> heap_pages n -> Z.shiftr n (9 * Z.of_nat l) <> prefix_of l b.
Proof.
  intros [_ Hb] Hl Hn%heap_kernel E. replace 2%nat with (l + (2 - l))%nat in Hb by lia.
  rewrite prefix_shifted, <- E, <- Z.shiftr_div_pow2, Z.shiftr_shiftr in Hb by (unfold LevelCount; lia).
  replace (9 * Z.of_nat l + 9 * Z.of_nat (2 - l)) with 18 in Hb by lia. rewrite Z.shiftr_div_pow2 in Hb by lia.
  assert (2 ^ 18 - 1 <= n / 2 ^ 18) by (apply Z.div_le_lower_bound; lia). lia.
Qed.

Lemma private_not_heap b : private b -> ~ heap_pages (prefix_of 0 b).
Proof. intros Hb Hh. apply (private_heap 0 b _ Hb ltac:(lia) Hh). by rewrite Z.shiftr_0_r. Qed.

Lemma private_path_clear n room G s r b :
  spaces R n room G s -> R r -> private b -> path_clear heap_pages (mm_tables s) LevelCount 3 r b.
Proof.
  intros Hsp Hr Hb. unfold LevelCount. cbn [path_clear pred].
  destruct (Z.eqb_spec (next_at (mm_tables s) r (indexFromAddress 4 b)) 0) as [Hz|_].
  { intros (m & Hm & _). apply (sp_kernel _ _ _ _ _ Hsp r m Hr Hm). rewrite <- Hz. f_equal.
    pose proof (prefix_step 3 b ltac:(unfold LevelCount; lia)) as E. pose proof (prefix_top b) as Et. unfold LevelCount in Et. rewrite Et in E.
    destruct Hb as [Hb _]. lia. }
  repeat (case_match; [intros (m & Hm & E); by eapply private_heap; [exact Hb| |exact Hm|exact E]; lia|]). done.
Qed.

(** A table on a path has the prefix of its address. *)
Lemma path_tables_on_path G T levels rev p a q :
  tables_wf G T -> on_path G levels p a -> q ∈ path_tables T levels rev p a ->
  q = p \/ exists l, (l < levels)%nat /\ on_path G l q a.
Proof.
  intros Hwf. revert levels p. induction rev as [|rev IH]; intros levels p Hp Hq; cbn [path_tables] in Hq;
    apply elem_of_cons in Hq as [->|Hq]; try (by left).
  - by apply elem_of_nil in Hq.
  - destruct (Z.eqb_spec (next_at T p (indexFromAddress levels a)) 0) as [|Hn]; [by apply elem_of_nil in Hq|].
    destruct (on_path_next G T Hwf _ _ _ Hp Hn) as [Hl Hp']. right.
    destruct (IH _ _ Hp' Hq) as [->|(l & Hl' & Hon)]; [exists (pred levels)|exists l]; (split; [lia|done]).
Qed.

Lemma private_apart n room G s r b : spaces R n room G s -> is_root G r -> prefix_of 3 b = 511 -> AddressSpace.apart R s r b.
Proof.
  intros Hsp Hr Hb r' a q Hr' Hne Hu Hq Hq'. pose proof (sp_wf _ _ _ _ _ Hsp) as Hwf.
  pose proof (sp_root _ _ _ _ _ Hsp r' Hr') as Hroot'.
  assert (forall p l x, is_root G p -> on_path G l p x -> l = LevelCount) as Hlev.
  { intros p l x (g & Hg & Hl & _) (g' & Hg' & <- & _). congruence. }
  destruct (path_tables_on_path G _ _ _ _ _ _ Hwf (root_on_path G r b Hr) Hq) as [->|(l & Hl & Hon)];
    destruct (path_tables_on_path G _ _ _ _ _ _ Hwf (root_on_path G r' a Hroot') Hq') as [->|(l' & Hl' & Hon')].
  - done.
  - apply (Hlev r l' a Hr) in Hon'. lia.
  - apply (Hlev r' l b Hroot') in Hon. lia.
  - destruct Hon as (g & Hg & Hgl & Hgp), Hon' as (g' & Hg' & Hgl' & Hgp'). assert (g' = g) as -> by congruence.
    rewrite Hgp, <- Hgl, Hgl' in Hgp'. rewrite Hgl in Hgl'. subst l'.
    assert (prefix_of 3 b = prefix_of 3 a) as E by (eapply prefix_above; [|exact Hgp']; unfold LevelCount in Hl; lia).
    rewrite (user_prefix 3 a) in E by (done || lia). destruct Hu. change (12 + 9 * Z.of_nat 3) with 39 in E. Z.to_euclidean_division_equations; lia.
Qed.

Lemma no_user_page s r b e : private b -> page_owned R s r b e.
Proof. intros Hb a _ Hu E. by destruct (private_not_user b a Hb Hu). Qed.

Lemma private_kept s s' r b e : private b -> any_page_set R s s' r b e -> pages_kept R s s'.
Proof.
  intros Hb Hset r' a' Hr' Hu'. rewrite Hset by done. rewrite bool_decide_false; [done|].
  intros [_ E]. by apply (private_not_user b a').
Qed.

(** Mapping a private page shows no task a change. *)
Lemma mapPageTo_private n room G s this r b paddr attributes :
  spaces R (3 + n) (room + 4 * table_cost) G s -> 0 <= room -> directory_ok G s this r -> R r -> private b ->
  pte_p (pte_at (mm_tables s) r b) = false -> allowed b attributes = true ->
  Runs (mapPageTo refillPool this b paddr attributes) s (fun _ s' => exists G',
    spaces R n room G' s' /\ directory_ok G' s' this r /\ grown_but (page_of b) G G' s s' /\ mm_rest s' = mm_rest s /\
    mem_le (4 * table_cost) (mm_memory s) (mm_memory s') /\ pages_kept R s s' /\
    pte_at (mm_tables s') r b =
      AttributeSetter attributes (set_base (Z.shiftr paddr BASE_SHIFT) (set_p true (pte_at (mm_tables s) r b)))).
Proof.
  intros Hsp H0 Hdir Hr Hb Hnp Hall. pose proof table_cost_nonneg as Hcost. unfold mapPageTo. apply Runs_bind.
  eapply Runs_of_ok; [by eapply ready_run, sp_ready|]. apply Runs_bind.
  eapply Runs_mono.
  { apply (map_any refillPool R n (room + table_cost) G s this r b paddr attributes);
      [by replace (room + table_cost + 3 * table_cost) with (room + 4 * table_cost) by lia|lia|done|by apply private_not_heap
      |by eapply private_path_clear|eapply private_apart; [done|by eapply sp_root|apply Hb]|done|done|by apply no_user_page]. }
  intros [] s1 (G1 & Hsp1 & Hdir1 & Hbut1 & Hrest1 & Hmem1 & He1 & Hset1).
  eapply Runs_mono; [by apply (refill_spaces refillPool R n room G1)|].
  intros [] s2 (G2 & Hsp2 & Hbut2 & Hrest2 & Hmem2 & Hkept2). exists G2. split; [done|].
  split; [by eapply directory_kept; [apply Hbut2|..]|].
  split; [eapply grown_but_trans; [exact Hbut1|by eapply grown_but_mono; [|exact Hbut2]]|]. split; [congruence|]. split.
  { eapply mem_le_mono; [|by eapply mem_le_trans]. lia. }
  split.
  - intros r' a' Hr' Hu'. rewrite Hkept2 by done. by eapply private_kept.
  - rewrite <- He1. apply Hbut2; [by apply (sp_root _ _ _ _ _ Hsp1)|by apply private_not_heap|tauto].
Qed.

Lemma unmapPage_private n room G s this r b :
  spaces R n room G s -> directory_ok G s this r -> R r -> private b -> pte_p (pte_at (mm_tables s) r b) = true ->
  Runs (unmapPage this b) s (fun _ s' =>
    spaces R n room G s' /\ directory_ok G s' this r /\ grown_but (page_of b) G G s s' /\ mm_rest s' = mm_rest s /\
    mm_memory s' = mm_memory s /\ pages_kept R s s' /\ pte_p (pte_at (mm_tables s') r b) = false).
Proof.
  intros Hsp Hdir Hr Hb Hp. destruct (walk (mm_tables s) LevelCount 3 r b) as [[q i]|] eqn:Hw.
  2:{ unfold pte_at in Hp. by rewrite Hw in Hp. }
  eapply Runs_mono; [by apply (unmapPage_run G s this r Hdir b q i (sp_ready _ _ _ _ _ Hsp))|].
  intros phys s' [_ Hset]. pose proof (sp_root _ _ _ _ _ Hsp r Hr) as Hroot.
  destruct (spaces_any_set refillPool R n room G s s' this r b q i _ Hsp Hset Hroot) as [Hsp' Hany];
    [by apply private_not_heap|eapply private_apart; [done|done|apply Hb]|by apply no_user_page|].
  split; [done|]. split; [apply Hset|]. split; [|split; [by rewrite (set_rest _ _ _ _ _ _ _ _ _ Hset)|
    split; [by rewrite (set_rest _ _ _ _ _ _ _ _ _ Hset)|split; [by eapply private_kept|]]]].
  - split; [apply grown_nexts, (set_nexts _ _ _ _ _ _ _ _ _ Hset)|].
    intros r' a' Hr' _ Hn. apply (set_others _ _ _ _ _ _ _ _ _ Hset); [by apply not_true_is_false|done].
  - rewrite (set_pte _ _ _ _ _ _ _ _ _ Hset), same_page_refl. done.
Qed.
End private_pages.

(** The addresses of a page *)
Lemma prefix_page a : prefix_of 0 a = (a / 4096) mod 2 ^ 36.
Proof.
  unfold prefix_of, wrap, VIRT_ADDRESS_BITS. rewrite TOTAL_BITS_eq, Z.shiftr_div_pow2 by done.
  change (12 + 9 * Z.of_nat 0) with 12. change (2 ^ 12) with 4096. change (2 ^ 48) with (4096 * 2 ^ 36).
  rewrite Z.rem_mul_r by done. rewrite (Z.mul_comm 4096), Z.div_add by done. rewrite Z.div_small by (apply Z.mod_pos_bound; done). done.
Qed.

Lemma pte_at_page T r b i : b mod 4096 = 0 -> 0 <= i < 4096 -> pte_at T r (b + i) = pte_at T r b.
Proof.
  intros Hb Hi. unfold pte_at. rewrite (walk_same_page _ LevelCount 3 r (b + i) b); [done|unfold LevelCount; lia|].
  change (LevelCount - 3 - 1)%nat with 0%nat. rewrite !prefix_page. f_equal. Z.to_euclidean_division_equations; lia.
Qed.

(** ** Storing through a private page *)
Section stores.
Context `{!TableAllocator MM, !TableAllocatorLaws MM mm_rest} (refillPool : ST MM unit) `{!MemoryLaws refillPool}.
Context (R : Z -> Prop).
Implicit Types (k : Space) (G : ghost).

Lemma access_present n room G k this r a page :
  running R n room G k this r -> pte_p (pte_at (mm_tables (as_mm k)) r a) = true ->
  pte_base (pte_at (mm_tables (as_mm k)) r a) = page -> 0 <= page < 2 ^ 40 - 1 ->
  access a k = Ok (page * 4096 + a mod 4096, k).
Proof.
  intros [Hsp H0 Hdir Hcur Hr] Hp Hbase Hb. destruct (phys_of_base_page page Hb) as [Hpa Hni].
  unfold access, on_mm. unfold mbind, ST_bind, gets, zoom. rewrite Hcur.
  rewrite (resolve_run G (as_mm k) this r Hdir a (sp_ready _ _ _ _ _ Hsp)), Hp, Hbase, Hpa.
  rewrite (proj2 (Z.eqb_neq _ _) Hni). by destruct k.
Qed.

Lemma running_ram n room G k this r ram : running R n room G k this r -> running R n room G (mkSpace (as_mm k) ram) this r.
Proof. intros [H1 H2 H3 H4 H5]. by split. Qed.

(** [l] is stored at the offset [off] of the page of [b], which is the physical page [page]. *)
Lemma write_page_run n room G k this r b page off l :
  running R n room G k this r -> 0 <= page < 2 ^ 40 - 1 -> b mod 4096 = 0 -> 0 <= off -> off + Z.of_nat (length l) <= 4096 ->
  (forall i, 0 <= i < 4096 -> pte_p (pte_at (mm_tables (as_mm k)) r (b + i)) = true /\
     pte_base (pte_at (mm_tables (as_mm k)) r (b + i)) = page) ->
  Runs (write_bytes (b + off) l) k (fun _ k' => running R n room G k' this r /\ as_mm k' = as_mm k /\
    forall x, as_ram k' x =
      if bool_decide (page * 4096 + off <= x < page * 4096 + off + Z.of_nat (length l))
      then default 0 (l !! Z.to_nat (x - (page * 4096 + off))) else as_ram k x).
Proof.
  intros Hrun Hpage Hb. revert off k Hrun. induction l as [|y l IH]; intros off k Hrun Hoff Hlen Hpte; cbn [write_bytes length] in *.
  { apply Runs_ret. split; [done|]. split; [done|]. intros x. rewrite bool_decide_false by (cbn; lia). done. }
  destruct (Hpte off ltac:(lia)) as [Hp Hbase].
  assert ((b + off) mod 4096 = off) as Hmod by (rewrite Z.add_mod, Hb, Z.add_0_l, Z.mod_mod by done; apply Z.mod_small; lia).
  apply Runs_bind. unfold write_byte. apply Runs_bind.
  eapply Runs_of_ok; [by apply (access_present n room G k this r (b + off) page)|]. rewrite Hmod.
  apply Runs_modify. replace (b + off + 1) with (b + (off + 1)) by lia.
  eapply Runs_mono; [apply IH; [by apply running_ram|lia|lia|exact Hpte]|].
  intros [] k' (Hrun' & Emm & Hram). split; [done|]. split; [done|]. intros x. rewrite Hram. cbn [as_ram].
  destruct (Z.eqb_spec x (page * 4096 + off)) as [->|Hne].
  - rewrite bool_decide_false, bool_decide_true by lia. by rewrite Z.sub_diag.
  - destruct (decide (page * 4096 + (off + 1) <= x < page * 4096 + (off + 1) + Z.of_nat (length l))).
    + rewrite !bool_decide_true by lia.
      by replace (Z.to_nat (x - (page * 4096 + off))) with (S (Z.to_nat (x - (page * 4096 + (off + 1))))) by lia.
    + rewrite !bool_decide_false by lia. done.
Qed.
End stores.

(** ** Copying one page *)
Lemma attributes_of e :
  has_attr (getAttributes e) ATTR_DEFER = is_deferred e /\ has_attr (getAttributes e) ATTR_PUBLIC = pte_us e /\
  0 <= getAttributes e <= 0xf.
Proof.
  unfold getAttributes, is_deferred.
  destruct (pte_rw e), (pte_us e), (pte_nx e), (negb (pte_p e) && (pte_base e =? INVALID_PAGE)); by vm_compute.
Qed.

Lemma walk_grown G G' s s' levels rev p a sl :
  tables_wf G (mm_tables s) -> grown G G' s s' -> on_path G levels p a ->
  walk (mm_tables s) levels rev p a = Some sl -> walk (mm_tables s') levels rev p a = Some sl.
Proof.
  intros Hwf [_ Hn]. revert levels p. induction rev as [|rev IH]; intros levels p Hp Hw; cbn [walk] in *; [done|].
  destruct (Z.eqb_spec (next_at (mm_tables s) p (indexFromAddress levels a)) 0) as [|Hnz]; [done|].
  pose proof Hp as (g & Hg & _). rewrite (Hn p _ g Hg Hnz), (proj2 (Z.eqb_neq _ _) Hnz).
  apply IH; [|done]. by apply (on_path_next G (mm_tables s)).
Qed.

Section copying.
Context {C : Type} `{!Console C, !TableAllocator MM, !TableAllocatorLaws MM mm_rest, !Symbols}.
Context (refillPool : ST MM unit) `{!MemoryLaws refillPool} (R : Z -> Prop).
Implicit Types (k : Kernel C) (G : ghost).

(** The active task, with the directory [pd] and the tables [r], and the new directory *)
Record copying (n : nat) (room : Z) (G : ghost) (s : Space) (pd r newPd r2 : Z) : Prop := {
  cp_running : running R n room G s pd r;
  cp_new : directory_ok G (as_mm s) newPd r2;
  cp_new_root : R r2;
  cp_apart : r2 <> r;
  cp_buffer : pte_p (pte_at (mm_tables (as_mm s)) r bufferPage) = false;
}.

(** All but the page [N] of [r2] is as it was. *)
Definition elsewhere (s s' : Space) (r2 N : Z) : Prop :=
  forall r' a, R r' -> user a -> ~ (r' = r2 /\ a / 4096 = N) ->
    pte_at (mm_tables (as_mm s')) r' a = pte_at (mm_tables (as_mm s)) r' a /\ view s' r' a = view s r' a.

(** The copy of a page *)
Definition same_contents (s s' : Space) (r r2 a : Z) : Prop :=
  let e := pte_at (mm_tables (as_mm s)) r a in
  let e2 := pte_at (mm_tables (as_mm s')) r2 a in
  getAttributes e2 = getAttributes e /\ pte_p e2 = pte_p e /\ is_deferred e2 = is_deferred e /\
  view s' r2 a = view s r a.

Lemma page_offset N i : 0 <= i < 4096 -> (N * 4096 + i) mod 4096 = i /\ (N * 4096 + i) / 4096 = N /\ N * 4096 mod 4096 = 0.
Proof. intros Hi. Z.to_euclidean_division_equations; lia. Qed.

Lemma mapped_bytes n room G s this r N i base :
  running R n room G s this r -> 0 <= i < 4096 ->
  pte_p (pte_at (mm_tables (as_mm s)) r (N * 4096)) = true -> pte_base (pte_at (mm_tables (as_mm s)) r (N * 4096)) = base ->
  view s r (N * 4096 + i) = Some (as_ram s (base * 4096 + i)).
Proof.
  intros _ Hi Hp Hb. destruct (page_offset N i Hi) as (E1 & _ & E3). unfold view. rewrite pte_at_page by done.
  by rewrite Hp, Hb, E1.
Qed.

(** The bytes of the page [N] of the task go to the physical page that is mapped at the buffer. *)
Lemma copy_bytes n room G s this r N base page :
  running R n room G s this r -> 0 <= N < 2 ^ 35 -> 0 <= page < 2 ^ 40 - 1 ->
  pte_p (pte_at (mm_tables (as_mm s)) r (N * 4096)) = true -> pte_base (pte_at (mm_tables (as_mm s)) r (N * 4096)) = base ->
  pte_p (pte_at (mm_tables (as_mm s)) r bufferPage) = true -> pte_base (pte_at (mm_tables (as_mm s)) r bufferPage) = page ->
  Runs (bytes ← read_bytes 4096 (N * 4096); write_bytes bufferPage bytes) s (fun _ s' =>
    running R n room G s' this r /\ as_mm s' = as_mm s /\
    (forall i, 0 <= i < 4096 -> as_ram s' (page * 4096 + i) = as_ram s (base * 4096 + i)) /\
    forall p i, p <> page -> 0 <= i < 4096 -> as_ram s' (p * 4096 + i) = as_ram s (p * 4096 + i)).
Proof.
  intros Hrun HN Hpage Hp Hbase Hbp Hbb. set (l := map (fun i => as_ram s (base * 4096 + i)) (seqZ 0 4096)).
  assert (length l = 4096%nat) as Hlen by (unfold l; rewrite length_map, length_seqZ; lia).
  assert (forall i, (i < 4096)%nat -> l !! i = Some (as_ram s (base * 4096 + Z.of_nat i))) as Hl.
  { intros i Hi. unfold l. rewrite list_lookup_fmap, lookup_seqZ_lt by lia. by rewrite Z.add_0_l. }
  clearbody l.
  apply Runs_bind. rewrite <- Hlen at 1. eapply Runs_of_ok.
  { apply (read_bytes_run R n room G s this r (N * 4096) l Hrun). intros i x Hi. pose proof (lookup_lt_Some _ _ _ Hi) as Hlt.
    rewrite Hlen in Hlt. rewrite (Hl i Hlt) in Hi. injection Hi as <-. split; [unfold user; lia|].
    apply (mapped_bytes n room G s this); [done|lia|done|done]. }
  rewrite <- (Z.add_0_r bufferPage). eapply Runs_mono.
  { apply (write_page_run R n room G s this r bufferPage page 0 l Hrun Hpage); [done|done|rewrite Hlen; lia|].
    intros i Hi. rewrite pte_at_page by done. by split. }
  intros [] s' (Hrun' & Emm & Hram). split; [done|]. split; [done|]. split.
  - intros i Hi. rewrite Hram, bool_decide_true by (rewrite Hlen; lia).
    replace (page * 4096 + i - (page * 4096 + 0)) with i by lia. rewrite Hl by lia. by rewrite Z2Nat.id by lia.
  - intros p i Hne Hi. rewrite Hram, bool_decide_false by (rewrite Hlen; lia). done.
Qed.

Lemma view_same s s' r a :
  pte_at (mm_tables (as_mm s')) r a = pte_at (mm_tables (as_mm s)) r a -> as_ram s' = as_ram s -> view s' r a = view s r a.
Proof. intros E1 E2. unfold view. by rewrite E1, E2. Qed.

(** A page of the child is mapped, with the attributes that the page has. *)
Lemma clone_map_run n room G s pd r newPd r2 N sl :
  copying (3 + n) (room + page_cost refillPool) G s pd r newPd r2 -> 0 <= room -> 0 <= N < 2 ^ 35 ->
  let e := pte_at (mm_tables (as_mm s)) r (N * 4096) in
  walk (mm_tables (as_mm s)) LevelCount 3 r (N * 4096) = Some sl -> pte_us e = true ->
  pte_at (mm_tables (as_mm s)) r2 (N * 4096) = zero_pte ->
  Runs (on_mm (mapPage refillPool newPd (N * 4096) (getAttributes e))) s (fun physaddr s' => exists G' base,
    copying n room G' s' pd r newPd r2 /\ grown G G' (as_mm s) (as_mm s') /\ mm_rest (as_mm s') = mm_rest (as_mm s) /\
    elsewhere s s' r2 N /\ walk (mm_tables (as_mm s')) LevelCount 3 r (N * 4096) = Some sl /\
    pte_at (mm_tables (as_mm s')) r2 (N * 4096) = AttributeSetter (getAttributes e) (set_base base (set_p true zero_pte)) /\
    as_ram s' = as_ram s /\
    if is_deferred e then base = INVALID_PAGE else physaddr = base * 4096 /\ 0 <= base < 2 ^ 40 - 1).
Proof.
  intros [[Hsp Hroom Hdir Hcur Hr] Hnew Hr2 Hne Hbuf] H0 HN e Hw Hus Hz. destruct (attributes_of e) as (Hd & Hpub & Hrange).
  assert (user (N * 4096)) as Hu by (unfold user; lia). destruct (page_offset N 0 ltac:(lia)) as (_ & Hpn & _). rewrite Z.add_0_r in Hpn.
  unfold on_mm. apply Runs_zoom. eapply Runs_mono.
  - apply (mapPage_user refillPool R n room G (as_mm s) newPd r2 (N * 4096) (getAttributes e)); [exact Hsp|done|done|done|done|by rewrite Hz|].
    unfold allowed. rewrite Hpub, Hus, andb_false_r. rewrite (proj2 (Z.ltb_ge _ _)) by lia.
    by rewrite (proj2 (Z.leb_le _ _)), (proj2 (Z.leb_le _ _)) by apply Hrange.
  - intros pa m (G' & base & Hsp' & [Hgr Hoth] & Hrest & _ & Hset & Hpa). exists G', base. rewrite Hd in Hpa. rewrite Hz in Hset.
    cbn [as_mm as_ram]. split; [split|].
    + split; [done|done|by eapply directory_kept; [apply Hgr|..]|cbn [as_mm]; injection Hrest as _ _ -> _ _; done|done].
    + by eapply directory_kept; [apply Hgr|..].
    + done.
    + done.
    + cbn [as_mm]. rewrite Hoth; [done|by eapply sp_root|by apply (private_not_heap refillPool), bufferPage_private|].
      unfold page_of. intros E%Z.eqb_eq. by apply (private_not_user bufferPage (N * 4096) bufferPage_private Hu).
    + split; [done|]. split; [done|]. split; [|split; [eapply walk_grown; [exact (sp_wf _ _ _ _ _ Hsp)|exact Hgr|by eapply root_on_path, sp_root|exact Hw]|
        split; [|split; [done|by destruct (is_deferred e); intuition]]]].
      * intros r' a Hr' Hu' Hn. assert (pte_at (mm_tables m) r' a = pte_at (mm_tables (as_mm s)) r' a) as E.
        { rewrite Hset by done. rewrite Hpn, bool_decide_false by done. done. }
        split; [done|]. by apply view_same.
      * rewrite Hset by done. by rewrite bool_decide_true.
Qed.

(** What a page of the active task costs: tables for the page and for the buffer, and physical pages *)
Definition copy_cost : Z := page_cost refillPool + 4 * table_cost.

Lemma copying_room n room c G s pd r newPd r2 :
  copying n (room + c) G s pd r newPd r2 -> 0 <= c -> 0 <= room -> copying n room G s pd r newPd r2.
Proof.
  intros [[Hsp Hroom Hdir Hcur Hr] Hnew Hr2 Hne Hbuf] Hc H0. split; [split|..]; try done.
  destruct Hsp. split; try done. lia.
Qed.

Lemma copying_le n n' room G s pd r newPd r2 :
  (n <= n')%nat -> copying n' room G s pd r newPd r2 -> copying n room G s pd r newPd r2.
Proof.
  intros Hn [[Hsp Hroom Hdir Hcur Hr] Hnew Hr2 Hne Hbuf]. split; [split|..]; try done.
  destruct Hsp. split; try done. by eapply alloc_ready_le.
Qed.

(** The buffer is mapped to the new page, filled and unmapped. *)
Lemma fill_page_run n room G k pd r newPd r2 N base page :
  let s := k_space k in
  copying (3 + n) (room + 4 * table_cost) G s pd r newPd r2 -> 0 <= room -> 0 <= N < 2 ^ 35 -> 0 <= page < 2 ^ 40 - 1 ->
  pte_p (pte_at (mm_tables (as_mm s)) r (N * 4096)) = true -> pte_base (pte_at (mm_tables (as_mm s)) r (N * 4096)) = base ->
  Runs (on_paging (mapPageTo refillPool pd bufferPage (page * 4096) (Z.lor ATTR_RW ATTR_NOEXEC)) ;;
        on_space (bytes ← read_bytes 4096 (N * 4096); write_bytes bufferPage bytes) ;;
        on_paging (unmapPage pd bufferPage) ;; mret tt) k (fun _ k' => exists G' s',
    k' = set_k_space s' k /\ copying n room G' s' pd r newPd r2 /\ grown G G' (as_mm s) (as_mm s') /\
    mm_rest (as_mm s') = mm_rest (as_mm s) /\ pages_kept R (as_mm s) (as_mm s') /\
    (forall i, 0 <= i < 4096 -> as_ram s' (page * 4096 + i) = as_ram s (base * 4096 + i)) /\
    forall p i, p <> page -> 0 <= i < 4096 -> as_ram s' (p * 4096 + i) = as_ram s (p * 4096 + i)).
Proof.
  intros s [[Hsp Hroom Hdir Hcur Hr] Hnew Hr2 Hne Hbuf] H0 HN Hpage Hp Hbase.
  assert (user (N * 4096)) as Hu by (unfold user; lia). pose proof bufferPage_private as Hprv.
  apply Runs_bind, Runs_on_paging. unfold on_mm. apply Runs_zoom. eapply Runs_mono.
  { by apply (mapPageTo_private refillPool R n room G (as_mm s) pd r bufferPage (page * 4096) (Z.lor ATTR_RW ATTR_NOEXEC)). }
  intros [] m2 (G2 & Hsp2 & Hdir2 & [Hgr2 _] & Hrest2 & _ & Hkept2 & He2). set (s2 := mkSpace m2 (as_ram s)).
  assert (pte_p (pte_at (mm_tables m2) r bufferPage) = true /\ pte_base (pte_at (mm_tables m2) r bufferPage) = page) as [Hbp Hbb].
  { rewrite He2, AttributeSetter_p, AttributeSetter_base. split; [done|]. cbn [pte_base set_base]. unfold BASE_SHIFT.
    rewrite Z.shiftr_div_pow2 by lia. change (2 ^ 12) with 4096. rewrite Z.div_mul by done. apply wrap_small. unfold in_word. lia. }
  assert (running R n room G2 s2 pd r) as Hrun2.
  { split; [done|done|done| |done]. cbn. by injection Hrest2 as _ _ -> _ _. }
  apply Runs_bind, Runs_on_space. cbn [k_space set_k_space]. eapply Runs_mono.
  { apply (copy_bytes n room G2 s2 pd r N base page Hrun2 HN Hpage); [by cbn; rewrite Hkept2|by cbn; rewrite Hkept2|done|done]. }
  intros [] s3 (Hrun3 & Emm3 & Hnew3 & Hold3). cbn [as_mm] in Emm3.
  apply Runs_bind, Runs_on_paging. cbn [k_space set_k_space]. unfold on_mm. apply Runs_zoom. rewrite Emm3. eapply Runs_mono.
  { apply (unmapPage_private refillPool R n room G2 m2 pd r bufferPage Hsp2 Hdir2 Hr Hprv Hbp). }
  intros phys m4 (Hsp4 & Hdir4 & [Hgr4 _] & Hrest4 & _ & Hkept4 & Hbuf4). apply Runs_ret.
  assert (mm_rest m4 = mm_rest (as_mm s)) as Hrest by congruence.
  exists G2, (mkSpace m4 (as_ram s3)). split; [done|]. split; [split; [split|..]|]; cbn [as_mm as_ram]; try done.
  - by injection Hrest as _ _ -> _ _.
  - by eapply (directory_kept R n room G G2); [apply (proj1 (grown_trans _ _ _ _ _ _ Hgr2 Hgr4))|..].
  - split; [by eapply grown_trans|]. split; [done|]. split; [|done].
    intros r' a Hr' Hu'. by rewrite Hkept4, Hkept2.
Qed.

(** The whole of it *)
Lemma clone_page_run n room G k pd r newPd r2 N sl :
  let s := k_space k in
  copying (6 + n) (room + copy_cost) G s pd r newPd r2 -> 0 <= room -> 0 <= N < 2 ^ 35 ->
  let e := pte_at (mm_tables (as_mm s)) r (N * 4096) in
  walk (mm_tables (as_mm s)) LevelCount 3 r (N * 4096) = Some sl -> isValid e = true -> pte_us e = true ->
  pte_at (mm_tables (as_mm s)) r2 (N * 4096) = zero_pte ->
  Runs (clone_page refillPool pd newPd sl (N * 4096)) k (fun _ k' => exists G' s',
    k' = set_k_space s' k /\ copying n room G' s' pd r newPd r2 /\ grown G G' (as_mm s) (as_mm s') /\
    mm_rest (as_mm s') = mm_rest (as_mm s) /\ elsewhere s s' r2 N /\
    forall i, 0 <= i < 4096 -> same_contents s s' r r2 (N * 4096 + i)).
Proof.
  intros s Hcp H0 HN e Hw Hv Hus Hz. pose proof table_cost_nonneg as Htc.
  assert (forall m, walk (mm_tables m) LevelCount 3 r (N * 4096) = Some sl -> load sl m = Ok (pte_at (mm_tables m) r (N * 4096), m)) as Hload.
  { intros m E. unfold load, gets, pte_at. rewrite E. by destruct sl. }
  assert (user (N * 4096)) as Hu by (unfold user; lia). pose proof (cp_apart _ _ _ _ _ _ _ _ Hcp) as Hne.
  pose proof (run_root _ _ _ _ _ _ _ (cp_running _ _ _ _ _ _ _ _ Hcp)) as Hr. pose proof (cp_new_root _ _ _ _ _ _ _ _ Hcp) as Hr2.
  unfold clone_page. apply Runs_bind. eapply Runs_of_ok; [by apply on_paging_same, Hload|]. cbv beta. fold s e.
  apply Runs_bind, Runs_on_paging. eapply Runs_mono.
  { apply (clone_map_run (3 + n) (room + 4 * table_cost) G s pd r newPd r2 N sl); [|lia|done|done|done|done].
    replace (room + 4 * table_cost + page_cost refillPool) with (room + copy_cost) by (unfold copy_cost; lia). exact Hcp. }
  intros physaddr s1 (G1 & base2 & Hcp1 & Hgr1 & Hrest1 & Helse1 & Hw1 & He2 & Hram1 & Hphys). fold e in He2, Hphys.
  assert (pte_at (mm_tables (as_mm s1)) r (N * 4096) = e) as He1 by (apply Helse1; [done|done|by intros [? _]]).
  apply Runs_bind. eapply Runs_of_ok; [by apply on_paging_same, Hload|]. cbn [k_space set_k_space]. rewrite He1.
  assert (getAttributes (pte_at (mm_tables (as_mm s1)) r2 (N * 4096)) = getAttributes e) as Hattr.
  { rewrite He2. apply attributes_kept; [destruct (attributes_of e) as (_ & _ & ?); lia|].
    rewrite (proj1 (attributes_of e)). revert Hphys. destruct (is_deferred e); [by right|by left]. }
  assert (is_deferred (pte_at (mm_tables (as_mm s1)) r2 (N * 4096)) = is_deferred e) as Hdef
    by (by rewrite <- !(proj1 (attributes_of _)), Hattr).
  assert (forall b, is_deferred e = b -> pte_p e = negb b) as Hpe.
  { unfold is_deferred, isValid in *. intros b <-. by destruct (pte_p e), (pte_base e =? INVALID_PAGE). }
  assert (pte_p (pte_at (mm_tables (as_mm s1)) r2 (N * 4096)) = pte_p e) as Hp2.
  { rewrite He2, AttributeSetter_p, (proj1 (attributes_of e)). rewrite (Hpe _ eq_refl). cbn. apply andb_true_r. }
  rewrite (proj1 (attributes_of e)). destruct (is_deferred e) eqn:Hd.
  - apply Runs_ret. exists G1, s1. split; [done|]. split.
    { apply (copying_le _ (3 + n)); [lia|]. apply (copying_room _ _ (4 * table_cost)); [done|lia|done]. }
    do 3 (split; [done|]). intros i Hi. destruct (page_offset N i Hi) as (_ & _ & Hal).
    unfold same_contents, view. rewrite !pte_at_page by done. fold e. rewrite Hp2, Hdef, Hd. by rewrite (Hpe true).
  - destruct Hphys as [-> Hpage]. specialize (Hpe false eq_refl). cbn [negb] in Hpe.
    eapply Runs_mono.
    { apply (fill_page_run n room G1 (set_k_space s1 k) pd r newPd r2 N (pte_base e) base2); cbn [k_space set_k_space]; rewrite ?He1; done. }
    intros [] k' (G' & s' & -> & Hcp' & Hgr' & Hrest' & Hkept' & Hnew & Hold). cbn [k_space set_k_space] in *.
    exists G', s'. split; [done|]. split; [done|]. split; [by eapply grown_trans|]. split; [congruence|].
    assert (forall i, 0 <= i < 4096 -> user (N * 4096 + i)) as Hui by (intros i Hi; unfold user; lia).
    assert (pte_p (pte_at (mm_tables (as_mm s1)) r2 (N * 4096)) = true /\
            pte_base (pte_at (mm_tables (as_mm s1)) r2 (N * 4096)) = base2) as [Hp3 Hb3].
    { split; [congruence|]. rewrite He2, AttributeSetter_base. cbn [pte_base set_base]. apply wrap_small. unfold in_word. lia. }
    split.
    + intros r' a Hr' Hu' Hn. destruct (Helse1 r' a Hr' Hu' Hn) as [E1 E2].
      assert (pte_at (mm_tables (as_mm s')) r' a = pte_at (mm_tables (as_mm s1)) r' a) as E3 by by apply Hkept'.
      split; [congruence|]. rewrite <- E2. unfold view. rewrite E3.
      destruct (pte_p (pte_at (mm_tables (as_mm s1)) r' a)) eqn:Hpa; [|done]. f_equal. apply Hold; [|by apply Z.mod_pos_bound].
      intros Eb. apply Hn. rewrite <- Hb3 in Eb. destruct (page_offset N 0 ltac:(lia)) as (_ & Hpn & _). rewrite Z.add_0_r in Hpn.
      pose proof (run_spaces _ _ _ _ _ _ _ (cp_running _ _ _ _ _ _ _ _ Hcp1)) as Hsp1.
      destruct (sp_inj _ _ _ _ _ Hsp1 r' r2 a (N * 4096)) as [-> ->]; done.
    + intros i Hi. destruct (page_offset N i Hi) as (Eoff & Epn & Hal). unfold same_contents.
      assert (pte_at (mm_tables (as_mm s')) r2 (N * 4096 + i) = pte_at (mm_tables (as_mm s1)) r2 (N * 4096)) as E3.
      { rewrite pte_at_page by done. by apply Hkept'. }
      rewrite E3, (pte_at_page _ r) by done. fold e. rewrite Hattr, Hp2, Hdef. split_and!; [done|done|by rewrite Hd|].
      unfold view. rewrite E3, (pte_at_page _ r) by done. fold e. rewrite Hp3, Hb3, Hpe, Eoff, Hnew by done. by rewrite Hram1.
Qed.

(** ** Copying all the pages *)

(** What the new task has at [a] is what the other one had in [s]. *)
Definition copied (s s' : Space) (r r2 a : Z) : Prop :=
  let e := pte_at (mm_tables (as_mm s)) r a in
  let e2 := pte_at (mm_tables (as_mm s')) r2 a in
  view s' r2 a = view s r a /\ is_deferred e2 = is_deferred e /\ (isValid e = true -> getAttributes e2 = getAttributes e).

Lemma same_copied s s' r r2 a : same_contents s s' r r2 a -> copied s s' r r2 a.
Proof. by intros (H1 & H2 & H3 & H4). Qed.

Lemma unmapped_copied s s' r r2 a :
  isValid (pte_at (mm_tables (as_mm s)) r a) = false -> pte_at (mm_tables (as_mm s')) r2 a = zero_pte -> copied s s' r r2 a.
Proof.
  intros Hv Hz. unfold copied, view. rewrite Hz, Hv. unfold isValid in Hv. apply orb_false_iff in Hv as [Hp Hb].
  unfold is_deferred. by rewrite Hp, Hb.
Qed.

(** All tasks but the new one see what they saw. *)
Definition others_see (s s' : Space) (r2 : Z) : Prop :=
  forall r' a, R r' -> r' <> r2 -> user a ->
    pte_at (mm_tables (as_mm s')) r' a = pte_at (mm_tables (as_mm s)) r' a /\ view s' r' a = view s r' a.

Lemma valid_pages_le T r0 m n : 0 <= m -> m <= n -> (length (valid_pages T r0 m) <= length (valid_pages T r0 n))%nat.
Proof.
  intros Hm Hmn. replace n with (m + (n - m)) by lia. unfold valid_pages.
  rewrite (seqZ_app 0 m (n - m)), filter_app, length_app by lia. lia.
Qed.

Lemma set_k_space_id k : k = set_k_space (k_space k) k.
Proof. by destruct k. Qed.

Section loop.
Context (k0 : Kernel C) (pd r newPd r2 : Z) (n : nat) (room : Z) (pages : nat).
Let s0 := k_space k0.
Let T0 := mm_tables (as_mm s0).
Context (Hroom : 0 <= room) (Hpages : (length (valid_pages T0 r (2 ^ 35)) <= pages)%nat).
Context (Hpublic : forall a, user a -> isValid (pte_at T0 r a) = true -> pte_us (pte_at T0 r a) = true).

(** The valid pages from the page [N] on *)
Definition pages_left (N : Z) : nat := (pages - length (valid_pages T0 r N))%nat.

(** The pages before [N] are copied. *)
Record copied_before (N : Z) (G : ghost) (k : Kernel C) : Prop := {
  cb_kernel : k = set_k_space (k_space k) k0;
  cb_start : 0 <= N;
  cb_copying : copying (6 * pages_left N + n) (room + copy_cost * Z.of_nat (pages_left N)) G (k_space k) pd r newPd r2;
  cb_rest : mm_rest (as_mm (k_space k)) = mm_rest (as_mm s0);
  cb_others : others_see s0 (k_space k) r2;
  cb_done a : user a -> a / 4096 < N -> copied s0 (k_space k) r r2 a;
  cb_todo a : user a -> N <= a / 4096 -> pte_at (mm_tables (as_mm (k_space k))) r2 a = zero_pte;
}.

Lemma copied_before_parent N G k a :
  copied_before N G k -> user a ->
  pte_at (mm_tables (as_mm (k_space k))) r a = pte_at T0 r a /\ view (k_space k) r a = view s0 r a.
Proof.
  intros Hcb Hu. apply (cb_others _ _ _ Hcb); [|intros E; by apply (cp_apart _ _ _ _ _ _ _ _ (cb_copying _ _ _ Hcb))|done].
  apply (run_root _ _ _ _ _ _ _ (cp_running _ _ _ _ _ _ _ _ (cb_copying _ _ _ Hcb))).
Qed.

Lemma page_user a N : user a -> a / 4096 = N -> exists i, 0 <= i < 4096 /\ a = N * 4096 + i.
Proof. intros Hu <-. exists (a mod 4096). split; [by apply Z.mod_pos_bound|]. rewrite Z.mul_comm. by apply Z.div_mod. Qed.

Lemma pte_at_user T a N : user a -> a / 4096 = N -> pte_at T r a = pte_at T r (N * 4096).
Proof. intros Hu (i & Hi & ->)%page_user; [|done]. apply pte_at_page; [apply (page_offset N 0); lia|done]. Qed.

Lemma copied_before_skip N G k :
  0 <= N < 2 ^ 35 -> copied_before N G k -> isValid (pte_at (mm_tables (as_mm (k_space k))) r (N * 4096)) = false ->
  copied_before (N + 1) G k.
Proof.
  intros HN Hcb Hv. assert (user (N * 4096)) as Hu by (unfold user; lia).
  rewrite (proj1 (copied_before_parent N G k _ Hcb Hu)) in Hv. pose proof Hcb as [H1 H2 H3 H4 H5 H6 H7].
  assert (pages_left (N + 1) = pages_left N) as E by (unfold pages_left; by rewrite valid_pages_next, Hv, app_nil_r by lia).
  split; [exact H1|lia|rewrite E; exact H3|exact H4|exact H5| |].
  - intros a Hua Ha. destruct (Z.lt_ge_cases (a / 4096) N); [by apply H6|].
    apply unmapped_copied; [|apply H7; [done|lia]]. fold T0. by rewrite (pte_at_user T0 a N) by (done || lia).
  - intros a Hua Ha. apply H7; [done|lia].
Qed.

Lemma copied_before_visit N G k sl :
  0 <= N < 2 ^ 35 -> copied_before N G k -> isValid (pte_at (mm_tables (as_mm (k_space k))) r (N * 4096)) = true ->
  walk (mm_tables (as_mm (k_space k))) LevelCount 3 r (N * 4096) = Some sl ->
  Runs (clone_page refillPool pd newPd sl (N * 4096)) k (fun _ k' => exists G',
    copied_before (N + 1) G' k' /\ grown G G' (as_mm (k_space k)) (as_mm (k_space k'))).
Proof.
  intros HN Hcb Hv Hw. assert (user (N * 4096)) as Hu by (unfold user; lia).
  pose proof (proj1 (copied_before_parent N G k _ Hcb Hu)) as Hp. pose proof Hcb as [H1 H2 H3 H4 H5 H6 H7].
  assert (page_cost refillPool = 1 + 4 * table_cost) as Hpc by done. pose proof table_cost_nonneg as Htc.
  assert (0 <= copy_cost) as Hcost by (unfold copy_cost; lia).
  assert (pages_left N = S (pages_left (N + 1))) as E.
  { unfold pages_left. assert (length (valid_pages T0 r (N + 1)) <= pages)%nat as Hle by (etransitivity; [|exact Hpages]; apply valid_pages_le; lia).
    rewrite valid_pages_next, <- Hp, Hv, length_app in * by lia. cbn [length] in *. lia. }
  assert (Z.of_nat (pages_left N) = Z.of_nat (pages_left (N + 1)) + 1) as Ez by lia.
  eapply Runs_mono.
  { apply (clone_page_run (6 * pages_left (N + 1) + n) (room + copy_cost * Z.of_nat (pages_left (N + 1))) G k pd r newPd r2 N sl);
      [|nia|done|done|done| |].
    - replace (6 + (6 * pages_left (N + 1) + n))%nat with (6 * pages_left N + n)%nat by lia.
      replace (room + copy_cost * Z.of_nat (pages_left (N + 1)) + copy_cost) with (room + copy_cost * Z.of_nat (pages_left N)) by (rewrite Ez; lia).
      exact H3.
    - rewrite Hp in *. by apply Hpublic.
    - apply H7; [done|]. rewrite Z.div_mul by done. lia. }
  intros [] k' (G' & s' & -> & Hcp' & Hgr & Hrest & Helse & Hsame). exists G'. cbn [k_space set_k_space]. split; [|done].
  assert (forall a, user a -> copied (k_space k) s' r r2 a -> copied s0 s' r r2 a) as Hfrom.
  { intros a Hua. destruct (copied_before_parent N G k a Hcb Hua) as [E1 E2]. unfold copied. rewrite E1, E2. done. }
  split; cbn [k_space set_k_space]; [by rewrite H1|lia|done|congruence| | |].
  - intros r' a Hr' Hne Hua. destruct (Helse r' a Hr' Hua) as [-> ->]; [tauto|]. by apply H5.
  - intros a Hua Ha. destruct (decide (a / 4096 = N)) as [E'|E'].
    + apply Hfrom; [done|]. destruct (page_user a N Hua E') as (i & Hi & ->). by apply same_copied, Hsame.
    + destruct (Helse r2 a (cp_new_root _ _ _ _ _ _ _ _ H3) Hua) as [E1 E2]; [tauto|].
      unfold copied. rewrite E1, E2. apply H6; [done|lia].
  - intros a Hua Ha. destruct (Helse r2 a (cp_new_root _ _ _ _ _ _ _ _ H3) Hua) as [-> _]; [lia|]. apply H7; [done|lia].
Qed.

(** The loop of [clone] *)
Lemma copy_pages_run G :
  copying (6 * pages + n) (room + copy_cost * Z.of_nat pages) G s0 pd r newPd r2 ->
  (forall a, user a -> pte_at T0 r2 a = zero_pte) ->
  Runs (forEachUserPage_in (@on_paging C) pd (fun entry addr _ => clone_page refillPool pd newPd entry addr)) k0
    (fun _ k' => exists G' s', k' = set_k_space s' k0 /\ copying n room G' s' pd r newPd r2 /\
      mm_rest (as_mm s') = mm_rest (as_mm s0) /\ grown G G' (as_mm s0) (as_mm s') /\ others_see s0 s' r2 /\
      forall a, user a -> copied s0 s' r r2 a).
Proof.
  intros Hcp Hempty. eapply Runs_mono.
  - apply (walk_pages (@on_paging C) (fun k => as_mm (k_space k))) with (r := r) (I := copied_before) (G := G).
    + intros A op k a. apply on_paging_same.
    + intros N G' k Hcb. apply (run_directory _ _ _ _ _ _ _ (cp_running _ _ _ _ _ _ _ _ (cb_copying _ _ _ Hcb))).
    + intros N G' k HN Hcb Hv. by apply copied_before_skip.
    + intros N G' k sl HN Hcb Hv Hw. by apply copied_before_visit.
    + assert (pages_left 0 = pages) as E by (unfold pages_left; change (valid_pages T0 r 0) with (@nil Z); apply Nat.sub_0_r).
      split; [apply set_k_space_id|done|by rewrite E|done|done| |].
      * intros a [Hu _] Ha. assert (0 <= a / 4096) by (apply Z.div_pos; lia). lia.
      * intros a Hu _. by apply Hempty.
  - intros [] k' (G' & [H1 _ H3 H4 H5 H6 _] & Hgr). exists G', (k_space k'). split; [done|].
    split.
    { eapply copying_le; [|eapply copying_room; [exact H3| |exact Hroom]]; [lia|].
      unfold copy_cost, page_cost. pose proof table_cost_nonneg. nia. } do 3 (split; [done|]). intros a Hu. apply H6; [done|]. destruct Hu. apply Z.div_lt_upper_bound; lia.
Qed.
End loop.
End copying.
