(* ===== verification/Stacks.v ===== *)
(** * The kernel stacks: [StackPageHeap] over the directory of the kernel

    A kernel stack is four pages that the heap of stacks maps in the directory of the kernel.  [stacks_ok] ties the
    map of the heap to the page tables: no page of a free stack is present.  [stack_kmalloc_run]: a stack is given that nobody
    had, its pages are present, and no task sees a change. *)

From Stdlib Require Import ZArith Lia.
From stdpp Require Import list numbers gmap.
From S2P Require Import Prelude Words Memory Pte Interrupts Tasks Fs FileManager PageManager PageHeap PageDirectory.
From S2P Require Import UserSpace AddressSpace UserWalk NewDirectory Elf Kernel Fork.

(** ** A page of the upper half, of any directory *)
Section upper_pages.
Context `{!TableAllocator MM, !TableAllocatorLaws MM mm_rest} (refillPool : ST MM unit) `{!MemoryLaws refillPool}.
Context (R : Z -> Prop).
Implicit Types (s : MM) (G : ghost).

Lemma directory_grown G G' s s' this r :
  directory_ok G s this r -> tables_wf G' (mm_tables s') -> G ⊆ G' -> mm_rest s' = mm_rest s -> directory_ok G' s' this r.
Proof.
  intros [_ (g & Hg & ?) Hobj] Hwf Hsub Hrest. split; [done|exists g; split; [by eapply lookup_weaken|done]|].
  eapply directory_of_grown; [exact Hsub| |exact Hobj]. by injection Hrest as -> _ _ _ _.
Qed.

Lemma mapPageTo_upper n room G s this r b paddr attributes :
  spaces R (3 + n) (room + 4 * table_cost) G s -> 0 <= room -> directory_ok G s this r -> prefix_of 3 b = 511 ->
  ~ heap_pages (prefix_of 0 b) -> path_clear heap_pages (mm_tables s) LevelCount 3 r b ->
  pte_p (pte_at (mm_tables s) r b) = false -> allowed b attributes = true ->
  Runs (mapPageTo refillPool this b paddr attributes) s (fun _ s' => exists G',
    spaces R n room G' s' /\ directory_ok G' s' this r /\ grown_but (page_of b) G G' s s' /\ mm_rest s' = mm_rest s /\
    pages_kept R s s' /\ pte_at (mm_tables s') r b =
      AttributeSetter attributes (set_base (Z.shiftr paddr BASE_SHIFT) (set_p true (pte_at (mm_tables s) r b)))).
Proof.
  intros Hsp H0 Hdir Hb Hheap Hclear Hnp Hall. pose proof table_cost_nonneg as Hcost.
  assert (forall s0 e, page_owned R s0 r b e) as Howned.
  { intros s0 e a _ Hu E. pose proof (user_below a Hu). pose proof (private_above b Hb). lia. }
  unfold mapPageTo. apply Runs_bind. eapply Runs_of_ok; [by eapply ready_run, sp_ready|]. apply Runs_bind.
  replace (room + 4 * table_cost) with (room + table_cost + 3 * table_cost) in Hsp by lia.
  eapply Runs_mono.
  { apply (map_any refillPool R n (room + table_cost) G s this r b); [exact Hsp|lia|exact Hdir|exact Hheap|exact Hclear| |exact Hnp|exact Hall|apply Howned].
    eapply private_apart; [exact Hsp|by eapply dir_root|exact Hb]. }
  intros [] s2 (G2 & Hsp2 & Hdir2 & Hbut2 & Hrest2 & Hmem2 & He2 & Hset2).
  eapply Runs_mono; [by apply (refill_spaces refillPool R n room G2)|].
  intros [] s3 (G3 & Hsp3 & Hbut3 & Hrest3 & Hmem3 & Hkept3). exists G3. split; [done|].
  split; [eapply directory_grown; [exact Hdir2|apply Hsp3|apply Hbut3|done]|].
  split; [|split; [congruence|split]].
  - eapply grown_but_trans; [exact Hbut2|by eapply grown_but_mono; [|exact Hbut3]].
  - intros r' a Hr Hu. rewrite Hkept3 by done. rewrite Hset2 by done. rewrite bool_decide_false; [done|].
    intros [_ E]. pose proof (user_below a Hu). pose proof (private_above b Hb). lia.
  - rewrite (proj2 Hbut3 r b (dir_root _ _ _ _ Hdir2) Hheap) by tauto. exact He2.
Qed.

Lemma mapPage_upper n room G s this r b attributes :
  spaces R (3 + n) (room + page_cost refillPool) G s -> 0 <= room -> directory_ok G s this r -> prefix_of 3 b = 511 ->
  ~ heap_pages (prefix_of 0 b) -> path_clear heap_pages (mm_tables s) LevelCount 3 r b ->
  pte_p (pte_at (mm_tables s) r b) = false -> allowed b attributes = true -> has_attr attributes ATTR_DEFER = false ->
  Runs (mapPage refillPool this b attributes) s (fun _ s' => exists G',
    spaces R n room G' s' /\ directory_ok G' s' this r /\ grown_but (page_of b) G G' s s' /\ mm_rest s' = mm_rest s /\
    pages_kept R s s' /\ exists base, pte_at (mm_tables s') r b = AttributeSetter attributes (set_base base (set_p true (pte_at (mm_tables s) r b)))).
Proof.
  intros Hsp H0 Hdir Hb Hheap Hclear Hnp Hall Hd. pose proof table_cost_nonneg as Hcost.
  unfold mapPage. apply Runs_bind. eapply Runs_of_ok; [by eapply ready_run, sp_ready|]. rewrite Hd.
  apply Runs_bind, Runs_bind. replace (room + page_cost refillPool) with (room + 4 * table_cost + 1) in Hsp by (unfold page_cost; lia).
  eapply Runs_mono; [apply (take_page refillPool R (3 + n) (room + 4 * table_cost) G); [exact Hsp|lia]|].
  intros page s1 (Hsp1 & Htab & Hrest1 & Hmem1 & Hp & _).
  apply Runs_bind, Runs_assertion. { rewrite INVALID_PAGE_eq. apply negb_true_iff, Z.eqb_neq. lia. }
  apply Runs_ret, Runs_bind.
  assert (directory_ok G s1 this r) as Hdir1 by (eapply directory_grown; [exact Hdir|apply Hsp1|done|done]).
  eapply Runs_mono; [apply (mapPageTo_upper n room G s1 this r b); try done; by rewrite Htab|].
  intros [] s2 (G2 & Hsp2 & Hdir2 & Hbut2 & Hrest2 & Hkept2 & He2). apply Runs_ret. exists G2. split; [done|]. split; [done|].
  split; [|split; [congruence|split]].
  - eapply grown_but_trans; [by apply grown_but_same|exact Hbut2].
  - intros r' a Hr Hu. by rewrite Hkept2, Htab.
  - rewrite He2, Htab. by eexists.
Qed.
End upper_pages.

(** ** The area of the stacks *)
Section stacks.
Context {C : Type} `{!Console C, !TableAllocator MM, !TableAllocatorLaws MM mm_rest, !Symbols}.
Context (refillPool : ST MM unit) `{!MemoryLaws refillPool} (R : Z -> Prop).
Implicit Types (k : Kernel C) (G : ghost).

(** The area has room for so many stacks. *)
Definition StackCount : Z := 8192.
Definition stack_page (i j : Z) : Z := getStackPageHeapBase + i * 0x4000 + j * 4096.

(** The area is in the gigabyte of the kernel, aligned, and shares no table of pages with the heap of page tables. *)
Record stack_area : Prop := {
  area_start : 0xffffffff00000000 <= getStackPageHeapBase /\ getStackPageHeapBase + StackCount * 0x4000 <= 2 ^ 64;
  area_aligned : getStackPageHeapBase mod 4096 = 0;
  area_kernel i j : 0 <= i < StackCount -> 0 <= j < 4 -> prefix_of 2 (stack_page i j) = 2 ^ 18 - 1;
  area_heap i j m : 0 <= i < StackCount -> 0 <= j < 4 -> heap_pages m -> Z.shiftr m 9 <> prefix_of 1 (stack_page i j);
}.

(** The tables of the kernel down to those of its gigabyte *)
Record kernel_ready (G : ghost) (s : MM) (rk : Z) : Prop := {
  kr_directory : directory_ok G s (g_kernelDirectory s) rk;
  kr_table : next_at (mm_tables s) rk 511 <> 0;
  kr_gigabyte : next_at (mm_tables s) (next_at (mm_tables s) rk 511) 511 <> 0;
}.

(** No page of a free stack is present. *)
Record stacks_ok (T : Tables) (rk : Z) (h : PageHeap) : Prop := {
  so_idle : m_allocating h = false;
  so_size : map_size h <= StackCount;
  so_free i j : 0 <= i < StackCount -> 0 <= j < 4 -> nth_bool (m_map h) i = false -> pte_p (pte_at T rk (stack_page i j)) = false;
}.

Context (Harea : stack_area).

Lemma stack_page_same i j i' j' :
  0 <= i < StackCount -> 0 <= j < 4 -> 0 <= i' < StackCount -> 0 <= j' < 4 ->
  page_of (stack_page i j) (stack_page i' j') -> i' = i /\ j' = j.
Proof.
  intros Hi Hj Hi' Hj' E%Z.eqb_eq. rewrite !prefix_page in E. pose proof (area_aligned Harea) as Ha.
  unfold stack_page, StackCount in *. set (B := getStackPageHeapBase) in *.
  assert (B = 4096 * (B / 4096)) as EB by (pose proof (Z.div_mod B 4096); lia). set (P := B / 4096) in *.
  replace (B + i' * 0x4000 + j' * 4096) with ((P + 4 * i' + j') * 4096) in E by lia.
  replace (B + i * 0x4000 + j * 4096) with ((P + 4 * i + j) * 4096) in E by lia.
  rewrite !Z.div_mul in E by lia.
  assert ((P + 4 * i' + j' - (P + 4 * i + j)) mod 2 ^ 36 = 0) as E0 by (rewrite Zminus_mod, E, Z.sub_diag; done).
  apply Z.mod_divide in E0 as [x E0]; [|lia]. assert (x = 0) by lia. lia.
Qed.

Lemma kernel_kept G G' s s' rk :
  kernel_ready G s rk -> tables_wf G' (mm_tables s') -> grown G G' s s' -> mm_rest s' = mm_rest s -> kernel_ready G' s' rk.
Proof.
  intros [Hd H1 H2] Hwf [Hsub Hn] Hrest. pose proof Hrest as Hr2. injection Hr2 as _ Ek _ _ _.
  assert (next_at (mm_tables s') rk 511 = next_at (mm_tables s) rk 511) as E1 by (destruct (dir_root _ _ _ _ Hd) as (g & Hg & _); by apply (Hn rk 511 g)).
  split; [rewrite Ek; by eapply directory_grown|by rewrite E1|].
  rewrite E1. destruct (dir_root _ _ _ _ Hd) as (g & Hg & _).
  destruct (wf_child _ _ (dir_wf _ _ _ _ Hd) rk 511 g Hg H1) as (_ & g' & Hg' & _). by rewrite (Hn _ 511 g' Hg' H2).
Qed.

Lemma gigabyte_clear G s rk b :
  kernel_ready G s rk -> prefix_of 2 b = 2 ^ 18 - 1 -> (forall m, heap_pages m -> Z.shiftr m 9 <> prefix_of 1 b) ->
  path_clear heap_pages (mm_tables s) LevelCount 3 rk b /\ ~ heap_pages (prefix_of 0 b) /\ prefix_of 3 b = 511.
Proof.
  intros [_ H1 H2] Hb Hheap. destruct (VBase_indices b Hb) as [I4 I3]. split; [|split].
  - unfold LevelCount. cbn [path_clear pred]. rewrite I4, I3, (proj2 (Z.eqb_neq _ _) H1), (proj2 (Z.eqb_neq _ _) H2).
    destruct (_ =? 0); [|done]. intros (m & Hm & E). by apply (Hheap m Hm).
  - intros Hm. apply (Hheap _ Hm). change 1%nat with (0 + 1)%nat. rewrite prefix_shift. done.
  - change 3%nat with (2 + 1)%nat. rewrite prefix_shift, Hb. done.
Qed.

(** ** Mapping the pages of a stack *)
Abbreviation mm k := (as_mm (k_space k)).

(** The pages of the stack [i] before the [j]th have been mapped since [k0], and nothing else has been done. *)
Record mapping (i j : Z) (n : nat) (room : Z) (G0 G : ghost) (k0 k : Kernel C) (rk : Z) : Prop := {
  mp_spaces : spaces R n room G (mm k);
  mp_room : 0 <= room;
  mp_kernel : kernel_ready G (mm k) rk;
  mp_state : k = set_k_space (mkSpace (mm k) (as_ram (k_space k0))) k0;
  mp_grown : grown_but (fun a => exists j', 0 <= j' < j /\ page_of (stack_page i j') a) G0 G (mm k0) (mm k);
  mp_rest : mm_rest (mm k) = mm_rest (mm k0);
  mp_kept : pages_kept R (mm k0) (mm k);
  mp_present j' : 0 <= j' < j -> pte_p (pte_at (mm_tables (mm k)) rk (stack_page i j')) = true;
}.

Lemma stack_page_upper G s rk i j :
  kernel_ready G s rk -> 0 <= i < StackCount -> 0 <= j < 4 ->
  path_clear heap_pages (mm_tables s) LevelCount 3 rk (stack_page i j) /\ ~ heap_pages (prefix_of 0 (stack_page i j)) /\
  prefix_of 3 (stack_page i j) = 511 /\ allowed (stack_page i j) heap_attributes = true.
Proof.
  intros Hk Hi Hj. destruct (gigabyte_clear G s rk (stack_page i j) Hk) as (H1 & H2 & H3).
  - by apply (area_kernel Harea).
  - intros m Hm. by apply (area_heap Harea).
  - split_and!; [done|done|done|]. destruct (area_start Harea) as [Ha _]. unfold allowed, stack_page, StackCount in *.
    rewrite (proj2 (Z.ltb_ge _ _)) by lia. change (has_attr heap_attributes ATTR_PUBLIC) with false. by rewrite andb_false_r.
Qed.

Lemma map_stack_page i j n room G0 G k0 k rk :
  mapping i j (3 + n) (room + page_cost refillPool) G0 G k0 k rk -> 0 <= room -> is_root G0 rk ->
  0 <= i < StackCount -> 0 <= j < 4 -> pte_p (pte_at (mm_tables (mm k0)) rk (stack_page i j)) = false ->
  Runs (kernel_mapPage refillPool (stack_page i j) heap_attributes) k (fun _ k' => exists G', mapping i (j + 1) n room G0 G' k0 k' rk).
Proof.
  intros [Hsp Hr Hk Hst Hg Hrest Hkept Hpres] H0 Hroot Hi Hj Hnp.
  destruct (stack_page_upper G (mm k) rk i j Hk Hi Hj) as (Hclear & Hheap & Hb & Hall).
  assert (pte_p (pte_at (mm_tables (mm k)) rk (stack_page i j)) = false) as Hnp'.
  { rewrite (proj2 Hg rk (stack_page i j) Hroot Hheap); [done|]. intros (j' & Hj' & E).
    destruct (stack_page_same i j' i j Hi ltac:(lia) Hi Hj E). lia. }
  unfold kernel_mapPage. apply Runs_on_paging. unfold on_mm. apply Runs_zoom, Runs_bind, Runs_gets.
  eapply Runs_mono; [apply (mapPage_upper refillPool R n room G (mm k) (g_kernelDirectory (mm k)) rk (stack_page i j)); try done; apply Hk|].
  intros pa s' (G' & Hsp' & Hdir' & Hg' & Hrest' & Hkept' & [base Hp']). exists G'. split; cbn [k_space set_k_space as_mm as_ram].
  - exact Hsp'.
  - exact H0.
  - eapply kernel_kept; [exact Hk|apply Hsp'|apply Hg'|exact Hrest'].
  - rewrite Hst at 1. cbn. by rewrite Hst.
  - eapply grown_but_trans; [eapply grown_but_mono; [|exact Hg]|eapply grown_but_mono; [|exact Hg']].
    + intros a (j' & Hj' & E). exists j'. split; [lia|done].
    + intros a E. exists j. split; [lia|done].
  - congruence.
  - intros r a Hr' Hu. rewrite Hkept' by done. by apply Hkept.
  - intros j' Hj'. destruct (decide (j' = j)) as [->|Hne]; [by rewrite Hp', AttributeSetter_p|].
    rewrite (proj2 Hg' rk (stack_page i j') (dir_root _ _ _ _ (kr_directory _ _ _ Hk))); [apply Hpres; lia| |].
    + by apply (stack_page_upper G (mm k) rk i j' Hk Hi ltac:(lia)).
    + intros E. destruct (stack_page_same i j i j' Hi Hj Hi ltac:(lia) E). lia.
Qed.

Let heap : HeapConfig (Kernel C) := stackPageHeap.

Lemma stack_ptr i j :
  0 <= i < StackCount -> 0 <= j < 4 -> pageToPtr heap i = stack_page i 0 /\ u64 (pageToPtr heap i + u32 (j * PAGE_SIZE)) = stack_page i j.
Proof.
  intros Hi Hj. destruct (area_start Harea) as [H1 H2]. unfold stack_page, StackCount in *.
  assert (pageToPtr heap i = getStackPageHeapBase + i * 0x4000) as E.
  { unfold pageToPtr. cbn [BlockSize m_heapStart heap stackPageHeap]. rewrite PAGE_SIZE_eq.
    rewrite (wrap_small 32 (i * 4096)) by (unfold in_word; lia). rewrite (wrap_small 32) by (unfold in_word; lia).
    rewrite wrap_small by (unfold in_word; lia). lia. }
  rewrite E, PAGE_SIZE_eq. split; [lia|]. rewrite (wrap_small 32) by (unfold in_word; lia). apply wrap_small. unfold in_word. lia.
Qed.

Lemma map_stack_run i n room G k rk :
  spaces R (12 + n) (room + 4 * page_cost refillPool) G (mm k) -> 0 <= room -> kernel_ready G (mm k) rk -> 0 <= i < StackCount ->
  (forall j, 0 <= j < 4 -> pte_p (pte_at (mm_tables (mm k)) rk (stack_page i j)) = false) ->
  Runs (map_block heap (kernel_mapPage refillPool) i) k (fun _ k' => exists G', mapping i 4 n room G G' k k' rk).
Proof.
  intros Hsp H0 Hk Hi Hfree. pose proof table_cost_nonneg as Hcost. assert (0 <= page_cost refillPool) as Hpc by (unfold page_cost; lia).
  pose proof (dir_root _ _ _ _ (kr_directory _ _ _ Hk)) as Hroot.
  assert (mapping i 0 (12 + n) (room + 4 * page_cost refillPool) G G k k rk) as Hm0.
  { split; [exact Hsp|lia|exact Hk|by destruct k as [? ? [] ? ? ? ?]|by apply grown_but_same|done|done|lia]. }
  unfold map_block. apply Runs_bind. rewrite (proj1 (stack_ptr i 0 Hi ltac:(lia))).
  replace (room + 4 * page_cost refillPool) with (room + 3 * page_cost refillPool + page_cost refillPool) in Hm0 by lia.
  eapply Runs_mono; [apply (map_stack_page i 0 (9 + n) _ G G k k rk Hm0); auto with lia|].
  intros phys k1 (G1 & Hm1). apply Runs_bind. change (seqZ 1 (BlockSize heap - 1)) with [1; 2; 3]. cbn [for_each].
  replace (room + 3 * page_cost refillPool) with (room + 2 * page_cost refillPool + page_cost refillPool) in Hm1 by lia.
  apply Runs_bind, Runs_bind. rewrite <- (proj1 (stack_ptr i 0 Hi ltac:(lia))), (proj2 (stack_ptr i 1 Hi ltac:(lia))).
  eapply Runs_mono; [apply (map_stack_page i 1 (6 + n) _ G G1 k k1 rk Hm1); auto with lia|].
  intros _ k2 (G2 & Hm2). apply Runs_ret, Runs_bind, Runs_bind. rewrite (proj2 (stack_ptr i 2 Hi ltac:(lia))).
  replace (room + 2 * page_cost refillPool) with (room + 1 * page_cost refillPool + page_cost refillPool) in Hm2 by lia.
  eapply Runs_mono; [apply (map_stack_page i 2 (3 + n) _ G G2 k k2 rk Hm2); auto with lia|].
  intros _ k3 (G3 & Hm3). apply Runs_ret, Runs_bind, Runs_bind. rewrite (proj2 (stack_ptr i 3 Hi ltac:(lia))).
  replace (room + 1 * page_cost refillPool) with (room + page_cost refillPool) in Hm3 by lia.
  eapply Runs_mono; [apply (map_stack_page i 3 n room G G3 k k3 rk Hm3); auto with lia|].
  intros _ k4 (G4 & Hm4). apply Runs_ret, Runs_ret, Runs_ret. by exists G4.
Qed.

(** ** [kmalloc] *)

(** The stack [i], which was free, has been given out. *)
Record stack_given (n : nat) (room : Z) (G : ghost) (k : Kernel C) (rk ptr : Z) (k' : Kernel C) : Prop := {
  sg_state : exists i G' h' s', k' = set_k_stackHeap h' (set_k_space s' k) /\
    0 <= i < StackCount /\ ptr = stack_page i 0 /\
    nth_bool (m_map (k_stackHeap k)) i = false /\
    (forall x, nth_bool (m_map h') x = (x =? i) || nth_bool (m_map (k_stackHeap k)) x) /\
    stacks_ok (mm_tables (as_mm s')) rk h' /\
    (forall j, 0 <= j < 4 -> pte_p (pte_at (mm_tables (as_mm s')) rk (stack_page i j)) = true) /\
    spaces R n room G' (as_mm s') /\ kernel_ready G' (as_mm s') rk /\ as_ram s' = as_ram (k_space k) /\
    grown_but (fun a => exists j, 0 <= j < 4 /\ page_of (stack_page i j) a) G G' (mm k) (as_mm s') /\
    mm_rest (as_mm s') = mm_rest (mm k) /\ pages_kept R (mm k) (as_mm s');
}.

Lemma heap_update_run f k (Q : unit -> Kernel C -> Prop) :
  Q tt (set_k_stackHeap (f (k_stackHeap k)) k) -> Runs (heap_update heap f) k Q.
Proof. done. Qed.

(** The heap in the middle of [allocPage] *)
Definition taken (i : Z) (h : PageHeap) : PageHeap := set_map (<[Z.to_nat i := true]> (m_map h)) (set_allocating true h).

Lemma allocPage_run i n room G k rk (h : PageHeap) :
  spaces R (12 + n) (room + 4 * page_cost refillPool) G (mm k) -> 0 <= room -> kernel_ready G (mm k) rk ->
  stacks_ok (mm_tables (mm k)) rk h -> k_stackHeap k = h -> 0 <= i < map_size h -> nth_bool (m_map h) i = false ->
  Runs (allocPage heap (kernel_mapPage refillPool) i) k (fun r k' => r.1 = i /\ stack_given n room G k rk (stack_page i 0) k').
Proof.
  intros Hsp H0 Hk [Hidle Hsize Hfree] Eh Hi Hclear. unfold allocPage.
  apply Runs_bind, heap_update_run, Runs_bind, Runs_read. cbn [get_heap heap stackPageHeap k_stackHeap set_k_stackHeap].
  rewrite Eh. change (map_size (set_allocating true h)) with (map_size h). change (m_map (set_allocating true h)) with (m_map h).
  apply Runs_bind, Runs_assertion; [by rewrite Hclear, orb_true_r|].
  rewrite (proj2 (Z.leb_gt _ _)) by lia. apply Runs_bind, Runs_ret, Runs_bind, heap_update_run.
  cbn [k_stackHeap set_k_stackHeap]. set (k1 := set_k_stackHeap (taken i h) k).
  change (set_k_stackHeap _ _) with k1. apply Runs_bind.
  assert (isStatic heap i = false) as -> by (apply Z.ltb_ge, wrap_range; lia).
  assert (0 <= i < StackCount) as Hi' by lia.
  eapply Runs_mono; [apply (map_stack_run i n room G k1 rk Hsp H0 Hk Hi'); intros j Hj; by apply Hfree|].
  intros phys k2 (G2 & [Hsp2 _ Hk2 Hst2 Hg2 Hrest2 Hkept2 Hpres2]).
  apply Runs_bind, heap_update_run, Runs_bind, heap_update_run, Runs_ret. split; [done|]. split.
  set (h' := set_usedBlockCount (u64 (m_usedBlockCount (taken i h) + 1)) (set_map (<[Z.to_nat i := true]> (m_map h)) h)).
  assert (forall x, nth_bool (m_map h') x = (x =? i) || nth_bool (m_map h) x) as Hmap.
  { intros x. cbn. rewrite nth_bool_insert by exact Hi. rewrite (Z.eqb_sym i x). by destruct (x =? i). }
  exists i, G2, h', (mkSpace (mm k2) (as_ram (k_space k))).
  split_and!; try done; try lia.
  - rewrite Hst2. cbn. unfold h', taken. destruct h; cbn in *. by rewrite Hidle.
  - rewrite Eh. exact Hclear.
  - rewrite Eh. exact Hmap.
  - split; [done| |].
    + change (map_size h') with (Z.of_nat (length (<[Z.to_nat i:=true]> (m_map h)))). rewrite length_insert. exact Hsize.
    + intros x j Hx Hj Hn. rewrite Hmap in Hn. apply orb_false_iff in Hn as [Hne%Z.eqb_neq Hn]. cbn [as_mm].
      destruct (stack_page_upper G (mm k) rk x j Hk Hx Hj) as (_ & Hheap & _).
      rewrite (proj2 Hg2 rk (stack_page x j) (dir_root _ _ _ _ (kr_directory _ _ _ Hk)) Hheap); [by apply Hfree|].
      intros (j' & Hj' & E). destruct (stack_page_same i j' x j Hi' Hj' Hx Hj E). done.
Qed.

Lemma stack_kmalloc_run n room G k rk :
  spaces R (12 + n) (room + 4 * page_cost refillPool) G (mm k) -> 0 <= room -> kernel_ready G (mm k) rk ->
  stacks_ok (mm_tables (mm k)) rk (k_stackHeap k) -> map_size (k_stackHeap k) < StackCount ->
  Runs (kmalloc heap (kernel_mapPage refillPool)) k (fun r k' => stack_given n room G k rk r.1 k').
Proof.
  intros Hsp H0 Hk Hok Hroom. pose proof Hok as [Hidle Hsize Hfree]. unfold kmalloc. apply Runs_bind. unfold allocBlock.
  apply Runs_bind, Runs_read. cbn [get_heap heap stackPageHeap]. rewrite Hidle. set (h := k_stackHeap k) in *.
  destruct (find_clear (m_map h) 0) as [i|] eqn:Hf.
  - apply find_clear_Some in Hf as (Hr & Hi & _). rewrite Z.sub_0_r in Hi.
    eapply Runs_mono; [apply (allocPage_run i n room G k rk h); try done|].
    + unfold nth_bool. rewrite bool_decide_true by lia. by rewrite Hi.
    + intros [i' phys] k' [E Hg]. cbn in E. subst i'. apply Runs_ret. cbn [fst].
      rewrite (proj1 (stack_ptr i 0 ltac:(unfold map_size in *; lia) ltac:(lia))). exact Hg.
  - set (N := map_size h) in *. assert (0 <= N) as HN by (unfold N, map_size; lia). unfold StackCount in *.
    rewrite (wrap_small 32 N) by (unfold in_word; lia). rewrite (wrap_small 32 (N + 1)) by (unfold in_word; lia).
    apply Runs_bind, heap_update_run. fold h.
    set (h1 := set_map (resize (Z.to_nat (N + 1)) false (m_map h)) h). set (k1 := set_k_stackHeap h1 k).
    assert (map_size h1 = N + 1) as E1 by (unfold map_size; cbn; rewrite length_resize; lia).
    assert (forall x, nth_bool (m_map h1) x = nth_bool (m_map h) x) as Emap.
    { intros x. cbn. rewrite resize_ge by (unfold N, map_size; lia). apply nth_bool_app_false. }
    assert (nth_bool (m_map h) N = false) as Hclear.
    { apply not_true_is_false. intros Ht%nth_bool_range. unfold N, map_size in Ht. lia. }
    eapply Runs_mono; [apply (allocPage_run N n room G k1 rk h1); try done|].
    + split; [done|rewrite E1; unfold StackCount; lia|]. intros x j Hx Hj. rewrite Emap. by apply Hfree.
    + rewrite E1. lia.
    + by rewrite Emap.
    + intros [i' phys] k' [E [(i & G' & h' & s' & H1 & H2 & H3 & H4 & H5 & H6)]]. cbn in E. subst i'. apply Runs_ret. cbn [fst].
      rewrite (proj1 (stack_ptr N 0 ltac:(unfold StackCount; lia) ltac:(lia))). split. exists i, G', h', s'.
      change (k_stackHeap k1) with h1 in *. rewrite Emap in H4. split; [by rewrite H1|]. do 2 (split; [done|]). split; [exact H4|].
      split; [|exact H6]. intros x. by rewrite H5, Emap.
Qed.
End stacks.
