(* ===== verification/Loading.v ===== *)
(** * The module of the boot loader: the second pass of [Multiboot.cpp]

    The pages of the module are mapped one after the other in the gigabyte of the kernel, the bytes that are then
    read there are those of the module in physical memory, and the file system is made from them: a file of the archive is found
    under its path. *)

From Stdlib Require Import ZArith Lia.
From stdpp Require Import list numbers gmap.
From S2P Require Import Prelude Words Memory Pte Fs Cpio FileManager Multiboot PageManager PageHeap PageDirectory.
From S2P Require Import UserSpace AddressSpace UserWalk NewDirectory Elf Kernel Fork Stacks.

Section loading.
Context `{!TableAllocator MM, !TableAllocatorLaws MM mm_rest, !Symbols}.
Context (refillPool : ST MM unit) `{!MemoryLaws refillPool} (R : Z -> Prop) (mem : Z -> Z).
Implicit Types (s : MM) (G : ghost).

(** Where the pages of the module are mapped *)
Definition module_page (i : Z) : Z := getStackBase + i * 4096.

(** So many pages are in the gigabyte of the kernel and share no table of pages with the heap of page tables. *)
Record module_area (count : Z) : Prop := {
  ma_range : 0xffffffff00000000 <= getStackBase /\ getStackBase + count * 4096 <= 2 ^ 64 /\ getStackBase mod 4096 = 0;
  ma_kernel i : 0 <= i < count -> prefix_of 2 (module_page i) = 2 ^ 18 - 1;
  ma_heap i m : 0 <= i < count -> heap_pages m -> Z.shiftr m 9 <> prefix_of 1 (module_page i);
}.

Lemma module_page_same count i j :
  module_area count -> 0 <= i < count -> 0 <= j < count -> page_of (module_page i) (module_page j) -> i = j.
Proof.
  intros [(H1 & H2 & H3) _ _] Hi Hj E%Z.eqb_eq. rewrite !prefix_page in E. unfold module_page in E. set (B := getStackBase) in *.
  assert (B = 4096 * (B / 4096)) as EB by (pose proof (Z.div_mod B 4096); lia). set (P := B / 4096) in *.
  replace (B + i * 4096) with ((P + i) * 4096) in E by lia. replace (B + j * 4096) with ((P + j) * 4096) in E by lia.
  rewrite !Z.div_mul in E by lia.
  assert ((P + i - (P + j)) mod 2 ^ 36 = 0) as E0 by (rewrite Zminus_mod, E, Z.sub_diag; done).
  apply Z.mod_divide in E0 as [x E0]; [|lia]. assert (x = 0) by lia. lia.
Qed.

Lemma module_page_upper count G s rk i :
  module_area count -> kernel_ready G s rk -> 0 <= i < count ->
  path_clear heap_pages (mm_tables s) LevelCount 3 rk (module_page i) /\ ~ heap_pages (prefix_of 0 (module_page i)) /\
  prefix_of 3 (module_page i) = 511 /\ allowed (module_page i) ATTR_NOEXEC = true.
Proof.
  intros Ha Hk Hi. destruct (gigabyte_clear G s rk (module_page i) Hk) as (H1 & H2 & H3).
  - by apply (ma_kernel count).
  - intros m Hm. by apply (ma_heap count).
  - split_and!; [done|done|done|]. destruct (ma_range _ Ha) as (Hr & _). unfold allowed, module_page in *.
    rewrite (proj2 (Z.ltb_ge _ _)) by lia. change (has_attr ATTR_NOEXEC ATTR_PUBLIC) with false. by rewrite andb_false_r.
Qed.

(** The physical page [start + i * 4096] is mapped at the [i]th page. *)
Definition module_entry (T : Tables) (rk start i : Z) : Prop :=
  exists old, pte_p old = false /\ pte_at T rk (module_page i) =
    AttributeSetter ATTR_NOEXEC (set_base (Z.shiftr (start + i * 4096) BASE_SHIFT) (set_p true old)).

Definition on_module (l : list Z) (a : Z) : Prop := exists i, i ∈ l /\ page_of (module_page i) a.

Lemma map_module_run count start l n room G s rk :
  spaces R (3 * length l + n) (room + 4 * table_cost * Z.of_nat (length l)) G s -> 0 <= room -> kernel_ready G s rk ->
  module_area count -> NoDup l -> Forall (fun i => 0 <= i < count /\ pte_p (pte_at (mm_tables s) rk (module_page i)) = false) l ->
  Runs (for_each (map (fun i => start + i * 0x1000) l) (fun paddr =>
      k ← gets g_kernelDirectory;
      mapPageTo refillPool k (u64 (getStackBase + (paddr - start))) paddr ATTR_NOEXEC)) s (fun _ s' => exists G',
    spaces R n room G' s' /\ kernel_ready G' s' rk /\ grown_but (on_module l) G G' s s' /\ mm_rest s' = mm_rest s /\
    pages_kept R s s' /\ Forall (module_entry (mm_tables s') rk start) l).
Proof.
  intros Hsp H0 Hk Ha Hnd. pose proof table_cost_nonneg as Hcost. pose proof (ma_range _ Ha) as (Hr1 & Hr2 & _).
  revert G s Hsp Hk. induction l as [|i l IH]; intros G s Hsp Hk Hl; cbn [for_each length map] in *.
  - apply Runs_ret. exists G. rewrite Z.mul_0_r, Z.add_0_r in Hsp. by split_and!; try apply grown_but_same.
  - apply NoDup_cons in Hnd as [Hi Hnd]. apply Forall_cons in Hl as [[Hrange Hnp] Hl].
    destruct (module_page_upper count G s rk i Ha Hk Hrange) as (Hclear & Hheap & Hb & Hall).
    pose proof (dir_root _ _ _ _ (kr_directory _ _ _ Hk)) as Hroot.
    apply Runs_bind, Runs_bind, Runs_gets. replace (start + i * 0x1000 - start) with (i * 4096) by lia.
    rewrite (wrap_small 64) by (unfold in_word; lia). change (getStackBase + i * 4096) with (module_page i).
    eapply Runs_mono.
    { apply (mapPageTo_upper refillPool R (3 * length l + n) (room + 4 * table_cost * Z.of_nat (length l)) G s (g_kernelDirectory s) rk); try done.
      - replace (3 + (3 * length l + n))%nat with (3 * S (length l) + n)%nat by lia.
        by replace (room + 4 * table_cost * Z.of_nat (length l) + 4 * table_cost) with (room + 4 * table_cost * Z.of_nat (S (length l))) by lia.
      - nia.
      - apply Hk. }
    intros [] s1 (G1 & Hsp1 & _ & Hg1 & Hrest1 & Hk1 & He).
    assert (kernel_ready G1 s1 rk) as Hkr1 by (eapply kernel_kept; [exact Hk|apply Hsp1|apply Hg1|exact Hrest1]).
    assert (forall j, 0 <= j < count -> j <> i -> pte_at (mm_tables s1) rk (module_page j) = pte_at (mm_tables s) rk (module_page j)) as Hother.
    { intros j Hj Hne. apply (proj2 Hg1); [done|by apply (module_page_upper count G s rk j)|].
      intros E. by apply Hne, eq_sym, (module_page_same count). }
    eapply Runs_mono; [apply (IH Hnd G1 s1 Hsp1 Hkr1)|].
    { apply Forall_forall. intros j Hin. destruct (proj1 (Forall_forall _ _) Hl j Hin) as [Hj Hp]. split; [done|].
      rewrite Hother; [done|done|congruence]. }
    intros [] s2 (G2 & Hsp2 & Hkr2 & Hg2 & Hrest2 & Hk2 & He2). exists G2.
    split; [done|]. split; [done|]. split; [|split; [congruence|split]].
    + eapply grown_but_trans; [eapply grown_but_mono; [|exact Hg1]|eapply grown_but_mono; [|exact Hg2]].
      * intros a E. exists i. split; [left|done].
      * intros a (j & Hin & E). exists j. split; [by right|done].
    + intros r' a Hr' Hu. rewrite Hk2 by done. by apply Hk1.
    + apply Forall_cons. split; [|done]. exists (pte_at (mm_tables s) rk (module_page i)). split; [done|]. rewrite <- He.
      apply (proj2 Hg2); [by apply (dir_root _ _ _ _ (kr_directory _ _ _ Hkr1))|done|].
      intros (j & Hin & E). destruct (proj1 (Forall_forall _ _) Hl j Hin) as [Hj _].
      by rewrite (module_page_same count j i Ha Hj Hrange E) in Hin.
Qed.

(** What is read there *)
Lemma module_entry_reads T rk start i :
  module_entry T rk start i -> 0 <= start + i * 4096 < 2 ^ 52 - 4096 -> start mod 4096 = 0 ->
  let e := pte_at T rk (module_page i) in pte_p e = true /\ phys_of_base (pte_base e) = start + i * 4096 /\ start + i * 4096 <> INVALID_PHYS.
Proof.
  intros (old & _ & E) Hr Hal e. unfold e. rewrite E, AttributeSetter_p, AttributeSetter_base. split; [done|].
  set (p := start + i * 4096) in *. assert (p = p / 4096 * 4096) as Ep.
  { unfold p. rewrite Z.div_add by lia. pose proof (Z.div_mod start 4096). lia. }
  assert (0 <= p / 4096 < 2 ^ 40 - 1) as Hq by lia. cbn [pte_base set_base]. unfold BASE_SHIFT.
  rewrite Z.shiftr_div_pow2 by lia. change (2 ^ 12) with 4096. rewrite (wrap_small 40) by (unfold in_word; lia).
  destruct (phys_of_base_page (p / 4096) Hq) as [E1 E2]. rewrite E1. rewrite <- Ep in E2 |- *. done.
Qed.

Lemma seqZ_page_app start (n : nat) :
  seqZ start 4096 ++ seqZ (start + 4096) (4096 * Z.of_nat n) = seqZ start (4096 * Z.of_nat (S n)).
Proof. rewrite <- seqZ_app by lia. f_equal. lia. Qed.

Lemma mapped_bytes_run G s rk start (pages : nat) i :
  g_pagingReady s = true -> directory_ok G s (g_kernelDirectory s) rk -> start mod 4096 = 0 -> 0 <= i ->
  0 <= start -> start + (i + Z.of_nat pages) * 4096 < 2 ^ 52 - 4096 ->
  (forall j, i <= j < i + Z.of_nat pages -> module_entry (mm_tables s) rk start j) ->
  Multiboot.mapped_bytes mem (g_kernelDirectory s) (module_page i) pages s =
  Ok (map mem (seqZ (start + i * 4096) (4096 * Z.of_nat pages)), s).
Proof.
  intros Hrdy Hdir Hal. revert i. induction pages as [|pages IH]; intros i Hi H0 Hr He; [done|].
  cbn [Multiboot.mapped_bytes]. destruct (module_entry_reads _ rk start i (He i ltac:(lia)) ltac:(lia) Hal) as (Hp & Hb & Hn).
  rewrite (bind_run _ _ _ _ _ (resolve_run G s _ rk Hdir (module_page i) Hrdy)), Hp, Hb, (proj2 (Z.eqb_neq _ _)) by done.
  rewrite PAGE_SIZE_eq. replace (module_page i + 4096) with (module_page (i + 1)) by (unfold module_page; lia).
  erewrite bind_run; [|apply IH; [lia|lia|lia|intros j Hj; apply He; lia]].
  unfold mret, ST_ret. rewrite <- map_app. f_equal. f_equal. f_equal.
  replace (start + (i + 1) * 4096) with (start + i * 4096 + 4096) by lia. apply seqZ_page_app.
Qed.

(** ** [handleModule] *)
Context {C : Type} `{!Console C}.
Implicit Types (b : Boot (C := C)).

Definition module_count (start last : Z) : Z := (last - start + 0xfff) / 0x1000.

(** A module that starts with a page, with room for it in memory *)
Record module_ok (start last : Z) (G : ghost) s (rk : Z) : Prop := {
  mo_aligned : start mod 4096 = 0;
  mo_range : 0 <= start <= last /\ last < 2 ^ 32;
  mo_area : module_area (module_count start last);
  mo_free i : 0 <= i < module_count start last -> pte_p (pte_at (mm_tables s) rk (module_page i)) = false;
}.

(** The file system has been made from the entries, and the pages of the module are mapped. *)
Record module_loaded (start last : Z) (entries : list Cpio.entry) (n : nat) (room : Z) (G G' : ghost) b b' (rk : Z) : Prop := {
  ml_read : _moduleRead b' = true;
  ml_spaces : spaces R n room G' (boot_mm b');
  ml_kernel : kernel_ready G' (boot_mm b') rk;
  ml_grown : grown_but (on_module (seqZ 0 (module_count start last))) G G' (boot_mm b) (boot_mm b');
  ml_rest : mm_rest (boot_mm b') = mm_rest (boot_mm b);
  ml_kept : pages_kept R (boot_mm b) (boot_mm b');
  ml_root : g_root (boot_fs b') = next_object (boot_fs b);
  ml_console : console (boot_fs b') = console (boot_fs b);
  ml_files : exists Gf, read_so_far (next_object (boot_fs b)) Gf (boot_fs b') entries;
}.

Lemma read_so_far_root root x Gf (f : FsState C) entries : read_so_far root Gf f entries -> read_so_far root Gf (set_g_root x f) entries.
Proof. intros [[Ht Hfr] Hf Hn]. split; [by split|done|done]. Qed.

Lemma handleModule_run start last mod_ entries rest n room G b rk :
  mod_start mem mod_ = start -> mod_end mem mod_ = last -> _moduleRead b = false ->
  spaces R (3 * Z.to_nat (module_count start last) + n) (room + 4 * table_cost * module_count start last) G (boot_mm b) -> 0 <= room ->
  kernel_ready G (boot_mm b) rk -> module_ok start last G (boot_mm b) rk ->
  map mem (seqZ start (4096 * module_count start last)) = encode_archive entries rest ->
  (forall p, next_object (boot_fs b) <= p -> inodes (boot_fs b) !! p = None) ->
  Forall entry_ok entries -> compatible entries ->
  Runs (handleModule mem refillPool mod_) b (fun _ b' => exists G', module_loaded start last entries n room G G' b b' rk).
Proof.
  intros Es El Hread Hsp H0 Hk [Hal [Hb1 Hb2] Ha Hfree] Hdata Hfresh Hok Hcomp. unfold handleModule.
  assert (0 <= module_count start last) as Hc by (unfold module_count; apply Z.div_pos; lia).
  assert (module_pages mem mod_ = map (fun i => start + i * 0x1000) (seqZ 0 (module_count start last))) as Epages
    by (unfold module_pages, page_steps; by rewrite Es, El).
  assert (length (seqZ 0 (module_count start last)) = Z.to_nat (module_count start last)) as Elen by apply length_seqZ.
  apply Runs_bind, Runs_read. rewrite Hread. apply Runs_bind. unfold Multiboot.on_mm at 1. apply Runs_zoom. rewrite Epages, Es.
  eapply Runs_mono.
  { apply (map_module_run (module_count start last) start (seqZ 0 (module_count start last)) n room G (boot_mm b) rk).
    - rewrite Elen, Z2Nat.id by lia. exact Hsp.
    - exact H0.
    - exact Hk.
    - exact Ha.
    - apply NoDup_seqZ.
    - apply Forall_forall. intros i Hi%elem_of_seqZ. split; [lia|]. apply Hfree. lia. }
  intros [] s1 (G1 & Hsp1 & Hk1 & Hg1 & Hrest1 & Hkept1 & He1).
  apply Runs_bind. unfold Multiboot.on_mm at 1. apply Runs_zoom. cbn [boot_mm]. apply Runs_bind, Runs_gets.
  rewrite length_map, Elen.
  eapply Runs_of_ok.
  { pose proof (mapped_bytes_run G1 s1 rk start (Z.to_nat (module_count start last)) 0 (sp_ready _ _ _ _ _ Hsp1)
      (kr_directory _ _ _ Hk1) Hal ltac:(lia) (proj1 Hb1)) as Hbytes.
    unfold module_page at 1 in Hbytes. rewrite !Z.mul_0_l, !Z.add_0_r, Z2Nat.id in Hbytes by lia. apply Hbytes.
    - unfold module_count in *. Z.to_euclidean_division_equations. lia.
    - intros j Hj. rewrite Forall_forall in He1. apply He1, elem_of_seqZ. lia. }
  rewrite Hdata. apply Runs_bind. unfold on_boot_fs at 1. apply Runs_zoom. cbn [boot_fs].
  eapply Runs_mono; [by apply readArchive_run|]. intros root f1 (-> & (Gf & Hso) & Hf1).
  apply Runs_bind. unfold on_boot_fs, setRoot. apply Runs_zoom, Runs_modify, Runs_modify. cbn [boot_mm boot_fs].
  exists G1. split; cbn [boot_mm boot_fs _moduleRead]; try done.
  - by rewrite Hf1.
  - exists Gf. by apply read_so_far_root.
Qed.

(** ** The pass over the tags *)
Definition module_of (d : TagDesc) : list (Z * Z) := match d with ModuleTag s e => [(s, e)] | _ => [] end.
Definition modules (l : list TagDesc) : list (Z * Z) := concat (map module_of l).

Lemma tag_type_other mem0 tag d : tag_at mem0 tag d -> module_of d = [] -> tag_type mem0 tag <> 0 /\ tag_type mem0 tag <> 3.
Proof. destruct d as [s e|size es|ty]; cbn [tag_at module_of]; [done| |]; intros (-> & Hty) _; [done|tauto]. Qed.

(** Without a module nothing happens. *)
Lemma handle_loop_skip l fuel tag b :
  tags_at mem tag l -> (length l < fuel)%nat -> modules l = [] -> handle_loop mem refillPool fuel tag b = Ok (tt, b).
Proof.
  revert fuel tag. induction l as [|d l IH]; intros fuel tag Hl Hf Hm; (destruct fuel as [|fuel]; [cbn in Hf; lia|]);
    cbn [handle_loop tags_at] in *; [by rewrite Hl|].
  destruct Hl as (_ & Ht & Hl). unfold modules in Hm. cbn [map concat] in Hm. apply app_nil in Hm as [Hd Hm].
  destruct (tag_type_other mem tag d Ht Hd) as [H0 H3]. rewrite (proj2 (Z.eqb_neq _ 0)) by done.
  unfold handleTag. rewrite (proj2 (Z.eqb_neq _ 3)) by done. erewrite bind_run; [|reflexivity].
  apply IH; [done|cbn [length] in Hf; lia|done].
Qed.

Lemma handle_loop_run l fuel tag start last entries rest n room G b rk :
  tags_at mem tag l -> (length l < fuel)%nat -> modules l = [(start, last)] -> _moduleRead b = false ->
  spaces R (3 * Z.to_nat (module_count start last) + n) (room + 4 * table_cost * module_count start last) G (boot_mm b) -> 0 <= room ->
  kernel_ready G (boot_mm b) rk -> module_ok start last G (boot_mm b) rk ->
  map mem (seqZ start (4096 * module_count start last)) = encode_archive entries rest ->
  (forall p, next_object (boot_fs b) <= p -> inodes (boot_fs b) !! p = None) ->
  Forall entry_ok entries -> compatible entries ->
  Runs (handle_loop mem refillPool fuel tag) b (fun _ b' => exists G', module_loaded start last entries n room G G' b b' rk).
Proof.
  intros Hl Hf Hm Hread Hsp H0 Hk Hmod Hdata Hfresh Hok Hcomp. revert fuel tag Hl Hf Hm.
  induction l as [|d l IH]; intros fuel tag Hl Hf Hm; [done|]. destruct fuel as [|fuel]; [cbn in Hf; lia|].
  cbn [handle_loop tags_at length] in *. destruct Hl as (_ & Ht & Hl). unfold modules in Hm. cbn [map concat] in Hm.
  destruct (decide (module_of d = [])) as [Hd|Hd].
  - rewrite Hd in Hm. destruct (tag_type_other mem tag d Ht Hd) as [Hn0 Hn3]. rewrite (proj2 (Z.eqb_neq _ 0)) by done.
    apply Runs_bind. unfold handleTag. rewrite (proj2 (Z.eqb_neq _ 3)) by done. apply Runs_ret. apply IH; [done|lia|done].
  - destruct d as [s e|size es|ty]; cbn [module_of] in *; [|done|done]. injection Hm as -> -> Hm.
    destruct Ht as (Hty & Es & El). rewrite Hty. cbn [Z.eqb Pos.eqb]. apply Runs_bind. unfold handleTag. rewrite Hty. cbn [Z.eqb Pos.eqb].
    eapply Runs_mono.
    {
      by apply (handleModule_run start last tag entries rest n room G b rk). }
    intros [] b' (G' & Hloaded). eapply Runs_of_ok; [by eapply handle_loop_skip; [exact Hl|lia|]|]. by exists G'.
Qed.
End loading.
