(* ===== verification/Clone.v ===== *)
(** * [TaskManager::clone]: the whole system call

    The new directory ([NewDirectory]), the kernel stack ([Stacks]), the copy of the pages ([Fork]) and the new task
    in the set ([Family]) put together: the new task starts where the active one was, with 0 in [rax], on memory that holds the same
    bytes on other physical pages, and no task of the others can tell. *)

From Stdlib Require Import ZArith Lia.
From stdpp Require Import list numbers gmap.
From S2P Require Import Prelude Words Memory Pte Interrupts Tasks Family Fs FileManager PageManager PageHeap PageDirectory.
From S2P Require Import UserSpace AddressSpace UserWalk NewDirectory Elf Kernel Fork Stacks.

Lemma filter_same {A} (P Q : A -> Prop) `{!forall x, Decision (P x), !forall x, Decision (Q x)} (l : list A) :
  (forall x, x ∈ l -> P x <-> Q x) -> filter P l = filter Q l.
Proof.
  induction l as [|x l IH]; intros Hl; [done|]. rewrite !filter_cons.
  rewrite (decide_ext (P x) (Q x)) by (apply Hl; left). rewrite IH; [done|]. intros y Hy. apply Hl. by right.
Qed.

Lemma valid_pages_same T T' r :
  (forall a, user a -> pte_at T' r a = pte_at T r a) -> valid_pages T' r (2 ^ 35) = valid_pages T r (2 ^ 35).
Proof.
  intros H. unfold valid_pages. apply filter_same. intros N HN%elem_of_seqZ. rewrite H; [done|]. unfold user. lia.
Qed.

Section clone.
Context {C : Type} `{!Console C, !TableAllocator MM, !TableAllocatorLaws MM mm_rest, !Symbols}.
Context (refillPool : ST MM unit) `{!MemoryLaws refillPool} (R : Z -> Prop).
Implicit Types (k : Kernel C) (G : ghost).

Lemma new_FileManager_run (f : FsState C) :
  exists fm f', new_FileManager f = Ok (fm, f') /\ _files fm = [next_object f; next_object f + 1; next_object f + 1 + 1].
Proof. eexists _, _. split; [reflexivity|]. reflexivity. Qed.

(** The directory [pd] of the active task, with the tables [r], and the objects that [clone] makes *)
Record clonable (pages n : nat) (room : Z) (G : ghost) (k : Kernel C) (pd r rk local node : Z) : Prop := {
  cl_running : running R (14 + 6 * pages + n)
    (room + 2 * table_cost + 4 * page_cost refillPool + copy_cost refillPool * Z.of_nat pages) G (k_space k) pd r;
  cl_room : 0 <= room;
  cl_kernel : kernel_ready G (as_mm (k_space k)) rk;
  cl_gigabyte : prefix_of 2 getKernelVBase = 2 ^ 18 - 1;
  cl_area : stack_area;
  cl_stacks : stacks_ok (mm_tables (as_mm (k_space k))) rk (k_stackHeap k) /\ map_size (k_stackHeap k) < StackCount;
  cl_pages : (length (valid_pages (mm_tables (as_mm (k_space k))) r (2 ^ 35)) <= pages)%nat;
  cl_public a : user a -> isValid (pte_at (mm_tables (as_mm (k_space k))) r a) = true ->
    pte_us (pte_at (mm_tables (as_mm (k_space k))) r a) = true;
  cl_buffer : pte_p (pte_at (mm_tables (as_mm (k_space k))) r bufferPage) = false;
  cl_local : local <> g_kernelDirectory (as_mm (k_space k)) /\ local <> pd /\ node <> g_kernelDirectory (as_mm (k_space k)) /\
    node <> pd /\ node <> local;
}.

Abbreviation mm k := (as_mm (k_space k)).

(** ** The first part: the new directory *)
Record with_directory (n : nat) (room : Z) (G G' : ghost) (k k' : Kernel C) (rk local r2 : Z) : Prop := {
  wd_state : k' = set_k_space (mkSpace (mm k') (as_ram (k_space k))) k;
  wd_new : new_directory refillPool R n room G G' (mm k) (mm k') local rk r2;
}.

Lemma new_space_run n room G k local rk :
  spaces R (2 + n) (room + 2 * table_cost) G (mm k) -> 0 <= room -> kernel_ready G (mm k) rk -> prefix_of 2 getKernelVBase = 2 ^ 18 - 1 ->
  local <> g_kernelDirectory (mm k) ->
  Runs (on_paging (set_directory local new_PageDirectory ;; mapKernel local)) k (fun _ k' => exists G' r2,
    with_directory n room G G' k k' rk local r2).
Proof.
  intros Hsp H0 [Hdk Hk0 _] HV Hne. apply Runs_on_paging. unfold on_mm. apply Runs_zoom, Runs_bind, set_directory_run.
  set (s1 := set_mm_directories _ (mm k)).
  assert (directory_ok G s1 (g_kernelDirectory s1) rk) as Hdk1.
  { destruct Hdk as [H1 H2 (g & Hg & Hd)]. split; [done|done|]. exists g. cbn. by rewrite lookup_insert_ne. }
  eapply Runs_mono; [apply (mapKernel_run refillPool R n room G s1 local rk)|].
  - by apply (spaces_directory refillPool).
  - exact H0.
  - apply lookup_insert_eq.
  - exact Hne.
  - exact Hdk1.
  - exact Hk0.
  - exact HV.
  - intros [] s' (G' & r2 & [H1 H2 H3 H4 H5 H6 H7 [cr3 H8] H9]). exists G', r2. split; [done|].
    split; try done. exists cr3. etransitivity; [exact H8|]. cbn. by rewrite insert_insert_eq.
Qed.

(** ** The second part: the files and the stack *)
Definition joined (r2 x : Z) : Prop := R x \/ x = r2.

Record prepared (n : nat) (room : Z) (G2 : ghost) (k k2 : Kernel C) (pd r rk local r2 : Z) : Prop := {
  pr_copying : copying (joined r2) n room G2 (k_space k2) pd r local r2;
  pr_fresh : ~ R r2;
  pr_kernel : kernel_ready G2 (mm k2) rk;
  pr_same r' a : R r' -> user a -> pte_at (mm_tables (mm k2)) r' a = pte_at (mm_tables (mm k)) r' a;
  pr_ram : as_ram (k_space k2) = as_ram (k_space k);
  pr_empty a : user a -> pte_at (mm_tables (mm k2)) r2 a = zero_pte;
  pr_rest : exists cr3, mm_rest (mm k2) = (<[local := mkPageDirectory cr3 r2]> (mm_directories (mm k)), g_kernelDirectory (mm k),
    g_currentPageDirectory (mm k), g_pagingReady (mm k), cpu_cr3 (mm k));
}.

Lemma buffer_not_stack i j : stack_area -> 0 <= i < StackCount -> 0 <= j < 4 -> ~ page_of (stack_page i j) bufferPage.
Proof.
  intros Ha Hi Hj E%Z.eqb_eq. destruct bufferPage_private as [_ Hb].
  pose proof (area_kernel Ha i j Hi Hj) as Hs. change 2%nat with (0 + 2)%nat in Hs, Hb.
  rewrite prefix_shift in Hs, Hb. rewrite E in Hb. lia.
Qed.

(** What the first part keeps of the directory of the kernel and of the others *)
Lemma new_directory_kept n room G G1 s s1 this rk r2 pd r :
  new_directory refillPool R n room G G1 s s1 this rk r2 -> directory_ok G s pd r -> this <> pd -> directory_ok G1 s1 pd r.
Proof.
  intros [Hsp _ _ [[Hsub _] _] _ _ _ [cr3 Hrest] _] [_ (g & Hg & Hl) Ho] Hne.
  split; [apply Hsp|exists g; split; [by eapply lookup_weaken|done]|]. eapply directory_of_grown; [exact Hsub| |exact Ho].
  injection Hrest as -> _ _ _ _. by rewrite lookup_insert_ne.
Qed.

Lemma new_directory_kernel n room G G1 s s1 this rk r2 :
  new_directory refillPool R n room G G1 s s1 this rk r2 -> kernel_ready G s rk -> this <> g_kernelDirectory s -> kernel_ready G1 s1 rk.
Proof.
  intros Hnd [Hd H1 H2] Hne. pose proof (nd_rest _ _ _ _ _ _ _ _ _ _ _ Hnd) as [cr3 Hrest]. injection Hrest as _ Ek _ _ _.
  pose proof (nd_grown _ _ _ _ _ _ _ _ _ _ _ Hnd) as [[_ Hn] _].
  assert (next_at (mm_tables s1) rk 511 = next_at (mm_tables s) rk 511) as E1 by (destruct (dir_root _ _ _ _ Hd) as (g & Hg & _); by apply (Hn rk 511 g)).
  split; [rewrite Ek; by eapply new_directory_kept|by rewrite E1|]. rewrite E1.
  destruct (dir_root _ _ _ _ Hd) as (g & Hg & _).
  destruct (wf_child _ _ (dir_wf _ _ _ _ Hd) rk 511 g Hg H1) as (_ & g' & Hg' & _). by rewrite (Hn _ 511 g' Hg' H2).
Qed.

Lemma prepared_run n room G G1 k k1 f k2 pd r rk local r2 ptr N :
  with_directory N (room + 4 * page_cost refillPool) G G1 k k1 rk local r2 ->
  stack_given (joined r2) n room G1 (set_k_fs f k1) rk ptr k2 -> 0 <= room -> stack_area ->
  directory_ok G (mm k) pd r -> g_currentPageDirectory (mm k) = pd -> R r -> (forall x, R x -> is_root G x) -> local <> pd ->
  pte_p (pte_at (mm_tables (mm k)) r bufferPage) = false ->
  exists G2, prepared n room G2 k k2 pd r rk local r2.
Proof.
  intros [Hst1 Hnd] [(i & G2 & h' & s' & -> & Hi & _ & _ & _ & _ & _ & Hsp2 & Hk2 & Hram2 & Hg2 & Hrest2 & Hkept2)] H0 Ha Hdir Hcur Hr HR Hne Hbuf. pose proof (HR r Hr) as Hroot.
  exists G2. cbn [k_space set_k_space set_k_stackHeap set_k_fs as_mm] in *.
  pose proof (new_directory_kept _ _ _ _ _ _ _ _ _ _ _ Hnd Hdir Hne) as Hdir1. destruct Hnd as [Hsp1 Hdl1 Hf1 Hg1 Hkp1 He1 _ [cr3 Hrest1] _].
  assert (r2 <> r) as Hrr by (intros ->; destruct Hroot as (g & Hg & _); congruence).
  assert (mm_rest (as_mm s') = (<[local := mkPageDirectory cr3 r2]> (mm_directories (mm k)), g_kernelDirectory (mm k),
    g_currentPageDirectory (mm k), g_pagingReady (mm k), cpu_cr3 (mm k))) as Hrest by congruence.
  assert (is_root G1 r) as Hroot1 by apply (dir_root _ _ _ _ Hdir1).
  split; cbn [k_space set_k_space set_k_stackHeap set_k_fs as_mm].
  - split; [split; [exact Hsp2|exact H0| | |by left]| |by right|exact Hrr|].
    + eapply directory_grown; [exact Hdir1|apply Hsp2|apply Hg2|exact Hrest2].
    + injection Hrest as _ _ -> _ _. exact Hcur.
    + eapply directory_grown; [exact Hdl1|apply Hsp2|apply Hg2|exact Hrest2].
    + rewrite (proj2 Hg2 r bufferPage Hroot1), (proj2 Hg1 r bufferPage Hroot); [exact Hbuf|..].
      * apply private_not_heap with refillPool, bufferPage_private. exact MemoryLaws0.
      * tauto.
      * apply private_not_heap with refillPool, bufferPage_private. exact MemoryLaws0.
      * intros (j & Hj & E). by apply (buffer_not_stack i j Ha Hi Hj).
  - intros Hr2. destruct (HR r2 Hr2) as (g & Hg & _). congruence.
  - exact Hk2.
  - intros r' a Hr' Hu. rewrite Hkept2 by (done || by left). by apply Hkp1.
  - rewrite Hram2. by rewrite Hst1.
  - intros a Hu. rewrite Hkept2 by (done || by right). by apply He1.
  - by exists cr3.
Qed.

(** ** The end: the task in the set, and the directory in its place *)

(** What [clone] leaves: the child [tid] with the tables [r2], beside the parent with [r] *)
Record cloned (n : nat) (room : Z) (F : Z -> list Z) (k k' : Kernel C) (st : InterruptState) (pd r rk node r2 tid : Z) : Prop := {
  cd_running : exists G', running (joined r2) n room G' (k_space k') pd r /\ directory_ok G' (mm k') node r2 /\
    kernel_ready G' (mm k') rk;
  cd_fresh : ~ R r2;
  (** the memory *)
  cd_copied a : user a -> copied (k_space k) (k_space k') r r2 a;
  cd_others r' a : R r' -> user a ->
    pte_at (mm_tables (mm k')) r' a = pte_at (mm_tables (mm k)) r' a /\ view (k_space k') r' a = view (k_space k) r' a;
  (** the task *)
  cd_task : exists t, tasks (k_tm k') !! tid = Some t /\ tasks (k_tm k) !! tid = None /\
    context t = set_rax 0 (toTaskContext st) /\ state t = Runnable /\ pageDirectory t = node /\
    parent (hh t) = activeTask (k_tm k) /\ releaseFunction t = true /\
    kernelStackTop t = u64 (kernelStack t + 0x4000) /\
    exists i, 0 <= i < StackCount /\ kernelStack t = stack_page i 0 /\ nth_bool (m_map (k_stackHeap k)) i = false /\
      nth_bool (m_map (k_stackHeap k')) i = true;
  cd_family : family (update_family F (activeTask (k_tm k)) (tid :: F (activeTask (k_tm k)))) (tasks (k_tm k'));
  cd_active : activeTask (k_tm k') = activeTask (k_tm k) /\ ticking_ok (k_tm k');
  cd_tasks x u : tasks (k_tm k) !! x = Some u -> exists h, tasks (k_tm k') !! x = Some (set_hh h u) /\ parent h = parent (hh u);
  (** the files *)
  cd_files : exists p, k_files k' = <[tid := mkFileManager [p; p + 1; p + 1 + 1]]> (k_files k);
}.

(** Moving the object of a directory *)
Lemma move_directory_run to from d s (Q : unit -> MM -> Prop) :
  mm_directories s !! from = Some d ->
  Q tt (set_mm_directories (<[from := new_PageDirectory]> (<[to := d]> (mm_directories s))) s) ->
  Runs (move_directory to from) s Q.
Proof.
  intros Hd HQ. unfold move_directory. apply Runs_bind. eapply directory_run; [exact Hd|]. cbn [fst snd PD_move].
  apply Runs_bind, set_directory_run, set_directory_run. exact HQ.
Qed.

Lemma directory_insert G s this d pd r :
  directory_ok G s pd r -> this <> pd -> directory_ok G (set_mm_directories (<[this := d]> (mm_directories s)) s) pd r.
Proof. intros [H1 H2 (c & Hc & Hd)] Hne. split; [done|done|]. exists c. cbn. by rewrite lookup_insert_ne. Qed.

Lemma kernel_insert G s this d rk :
  kernel_ready G s rk -> this <> g_kernelDirectory s -> kernel_ready G (set_mm_directories (<[this := d]> (mm_directories s)) s) rk.
Proof. intros [H1 H2 H3] Hne. split; [by apply directory_insert|done|done]. Qed.

Lemma moved_running R' n room G s ram pd r rk node local r2 :
  running R' n room G (mkSpace s ram) pd r -> kernel_ready G s rk -> directory_ok G s local r2 ->
  local <> g_kernelDirectory s -> local <> pd -> node <> g_kernelDirectory s -> node <> pd -> node <> local ->
  forall d, mm_directories s !! local = Some d ->
  let s' := set_mm_directories (<[local := new_PageDirectory]> (<[node := d]> (mm_directories s))) s in
  running R' n room G (mkSpace s' ram) pd r /\ directory_ok G s' node r2 /\ kernel_ready G s' rk.
Proof.
  intros [Hsp H0 Hdir Hcur Hr] Hk [Hwf2 Hroot2 (c2 & Hc2 & Hd2)] H1 H2 H3 H4 H5 d Hd s'.
  set (s1 := set_mm_directories (<[node := d]> (mm_directories s)) s).
  change s' with (set_mm_directories (<[local := new_PageDirectory]> (mm_directories s1)) s1).
  split; [|split].
  - split; cbn [as_mm]; [|done| |done|done].
    + apply (spaces_directory refillPool); [by apply (spaces_directory refillPool)|done].
    + apply directory_insert; [by apply directory_insert|done].
  - assert (d = mkPageDirectory (t_phys c2) r2) as -> by congruence. apply directory_insert; [|done].
    split; [done|done|]. exists c2. cbn. by rewrite lookup_insert_eq.
  - apply kernel_insert; [by apply kernel_insert|done].
Qed.

(** The state when the copy of the pages begins: the new directory, the files and the stack are there. *)
Record begun (n : nat) (room : Z) (k k2 : Kernel C) (pd r rk local r2 ptr : Z) : Prop := {
  bg_prepared : exists G2, prepared n room G2 k k2 pd r rk local r2;
  bg_same : k_tm k2 = k_tm k /\ k_files k2 = k_files k;
  bg_stack : exists i, 0 <= i < StackCount /\ ptr = stack_page i 0 /\ nth_bool (m_map (k_stackHeap k)) i = false /\
    nth_bool (m_map (k_stackHeap k2)) i = true;
}.

Lemma stacks_kept G G1 s s1 rk h :
  stack_area -> kernel_ready G s rk -> grown_but (fun _ => False) G G1 s s1 -> stacks_ok (mm_tables s) rk h -> stacks_ok (mm_tables s1) rk h.
Proof.
  intros Ha Hk [_ Hg] [H1 H2 H3]. split; [done|done|]. intros i j Hi Hj Hn.
  destruct (stack_page_upper Ha G s rk i j Hk Hi Hj) as (_ & Hheap & _).
  rewrite Hg; [by apply H3|apply (dir_root _ _ _ _ (kr_directory _ _ _ Hk))|done|tauto].
Qed.

Lemma begin_run {A} n room G k pd r rk local (rest : FileManager -> Z * Z -> ST (Kernel C) A) Q :
  running R (14 + n) (room + 2 * table_cost + 4 * page_cost refillPool) G (k_space k) pd r -> 0 <= room ->
  kernel_ready G (mm k) rk -> prefix_of 2 getKernelVBase = 2 ^ 18 - 1 -> stack_area ->
  stacks_ok (mm_tables (mm k)) rk (k_stackHeap k) -> map_size (k_stackHeap k) < StackCount ->
  pte_p (pte_at (mm_tables (mm k)) r bufferPage) = false -> local <> g_kernelDirectory (mm k) -> local <> pd ->
  (forall fm stack k2 r2 p, _files fm = [p; p + 1; p + 1 + 1] -> begun n room k k2 pd r rk local r2 stack.1 -> Runs (rest fm stack) k2 Q) ->
  Runs (on_paging (set_directory local new_PageDirectory ;; mapKernel local) ;;
        fm ← on_disk new_FileManager;
        stack ← kmalloc stackPageHeap (kernel_mapPage refillPool);
        rest fm stack) k Q.
Proof.
  intros [Hsp _ Hdir Hcur Hr] H0 Hk HV Ha Hso Hsize Hbuf Hl1 Hl2 HQ. pose proof (sp_root _ _ _ _ _ Hsp) as HR.
  apply Runs_bind. eapply Runs_mono.
  { apply (new_space_run (12 + n) (room + 4 * page_cost refillPool) G k local rk); [|unfold page_cost; pose proof table_cost_nonneg; lia|exact Hk|exact HV|exact Hl1].
    change (2 + (12 + n))%nat with (14 + n)%nat.
    by replace (room + 4 * page_cost refillPool + 2 * table_cost) with (room + 2 * table_cost + 4 * page_cost refillPool) by lia. }
  intros [] k1 (G1 & r2 & Hwd). destruct (new_FileManager_run (k_fs k1)) as (fm & f1 & Efm & Hfm).
  apply Runs_bind. eapply Runs_of_ok; [unfold on_disk, zoom; by rewrite Efm|]. set (k1f := set_k_fs f1 k1).
  pose proof Hwd as [Hst1 Hnd]. assert (k_stackHeap k1f = k_stackHeap k) as Eh by (unfold k1f; by rewrite Hst1).
  apply Runs_bind. eapply Runs_mono.
  { apply (stack_kmalloc_run refillPool (joined r2) Ha n room G1 k1f rk).
    - apply (nd_spaces _ _ _ _ _ _ _ _ _ _ _ Hnd).
    - exact H0.
    - by eapply new_directory_kernel.
    - rewrite Eh. eapply stacks_kept; [exact Ha|exact Hk|apply (nd_grown _ _ _ _ _ _ _ _ _ _ _ Hnd)|exact Hso].
    - by rewrite Eh. }
  intros stack k2 Hg. apply (HQ fm stack k2 r2 _ Hfm). split.
  - exact (prepared_run n room G G1 k k1 f1 k2 pd r rk local r2 stack.1 (12 + n) Hwd Hg H0 Ha Hdir Hcur Hr HR Hl2 Hbuf).
  - destruct Hg as [(i & G2 & h' & s' & -> & _)]. unfold k1f. by rewrite Hst1.
  - destruct Hg as [(i & G2 & h' & s' & -> & Hi & -> & Hc & Hmap & _)]. exists i. rewrite Eh in Hc, Hmap.
    split; [done|]. split; [done|]. split; [done|]. cbn. by rewrite Hmap, Z.eqb_refl.
Qed.

(** The task that [clone] adds *)
Definition child_task (stack node : Z) (st : InterruptState) : Task :=
  mkTask new_HH Runnable false [] (set_rax 0 (toTaskContext st)) node (u64 (stack + 0x4000)) stack true.

(** The memory of the tasks, through the steps before and after the copy of the pages *)
Lemma copied_from k k2 s3 s' r r2 a :
  as_ram (k_space k2) = as_ram (k_space k) -> pte_at (mm_tables (mm k2)) r a = pte_at (mm_tables (mm k)) r a ->
  as_ram s' = as_ram s3 -> mm_tables (as_mm s') = mm_tables (as_mm s3) -> copied (k_space k2) s3 r r2 a -> copied (k_space k) s' r r2 a.
Proof. unfold copied, view. by intros -> -> -> ->. Qed.

Lemma finish_run n room F k k2 G3 s3 st fm pd r rk local node r2 stack ta p cr3 :
  let k3 := set_k_space s3 k2 in
  copying (joined r2) n room G3 s3 pd r local r2 -> kernel_ready G3 (as_mm s3) rk -> ~ R r2 ->
  k_tm k2 = k_tm k -> k_files k2 = k_files k -> _files fm = [p; p + 1; p + 1 + 1] ->
  (exists i, 0 <= i < StackCount /\ stack = stack_page i 0 /\ nth_bool (m_map (k_stackHeap k)) i = false /\
    nth_bool (m_map (k_stackHeap k2)) i = true) ->
  mm_directories (as_mm s3) !! local = Some (mkPageDirectory cr3 r2) ->
  local <> g_kernelDirectory (as_mm s3) -> local <> pd -> node <> g_kernelDirectory (as_mm s3) -> node <> pd -> node <> local ->
  (forall s', as_ram s' = as_ram s3 -> mm_tables (as_mm s') = mm_tables (as_mm s3) ->
    (forall a, user a -> copied (k_space k) s' r r2 a) /\
    forall r' a, R r' -> user a -> pte_at (mm_tables (as_mm s')) r' a = pte_at (mm_tables (mm k)) r' a /\ view s' r' a = view (k_space k) r' a) ->
  family F (tasks (k_tm k)) -> activeTask (k_tm k) <> 0 -> tasks (k_tm k) !! activeTask (k_tm k) = Some ta ->
  1 < nextTid (k_tm k) -> nextTid (k_tm k) + Z.of_nat (size (tasks (k_tm k))) < 2 ^ 32 ->
  Runs (tid ← on_tm (addTask (child_task stack node st));
        on_paging (move_directory node local) ;;
        modify (fun k => set_k_files (<[tid := fm]> (k_files k)) k) ;;
        mret tid) k3 (fun tid k' => cloned n room F k k' st pd r rk node r2 tid).
Proof.
  intros k3 Hcp Hk Hfresh Etm Efiles Hfm Hstack Hd H1 H2 H3 H4 H5 Hmem Hfam Hact Hta Hnext Hfull.
  apply Runs_bind. unfold on_tm. apply Runs_zoom. cbn [k_tm set_k_space k3]. rewrite Etm.
  eapply Runs_mono; [by apply (addTask_run F (k_tm k) (child_task stack node st) ta)|].
  intros tid m' [[Hn1 Hn2] _ _ Hf Ht Hoth _ (Ea & _) Htick]. apply Runs_bind, Runs_on_paging. unfold on_mm. apply Runs_zoom.
  cbn [k_space set_k_tm set_k_space k3]. eapply move_directory_run; [exact Hd|]. apply Runs_bind, Runs_modify, Runs_ret.
  set (s' := set_mm_directories _ (as_mm s3)). cbn [k_space k_files set_k_tm set_k_space k3].
  destruct (moved_running (joined r2) n room G3 (as_mm s3) (as_ram s3) pd r rk node local r2) with (d := mkPageDirectory cr3 r2)
    as (Hrun' & Hdir' & Hk'); try done.
  { destruct s3. apply Hcp. }
  { apply Hcp. }
  destruct (Hmem (mkSpace s' (as_ram s3)) eq_refl eq_refl) as [Hcopied Hothers].
  split; cbn [k_space k_files k_tm k_stackHeap set_k_files set_k_tm set_k_space].
  - by exists G3.
  - exact Hfresh.
  - exact Hcopied.
  - exact Hothers.
  - exists (set_hh (mkHH (activeTask (k_tm k)) 0 (hd 0 (F (activeTask (k_tm k)))) 0) (child_task stack node st)). by split_and!.
  - exact Hf.
  - split; [exact Ea|by apply Htick].
  - exact Hoth.
  - exists p. rewrite Efiles. destruct fm. cbn in Hfm. by rewrite Hfm.
Qed.

Lemma clone_run pages n room F G k st pd r rk local node ta :
  clonable pages n room G k pd r rk local node ->
  family F (tasks (k_tm k)) -> activeTask (k_tm k) <> 0 -> tasks (k_tm k) !! activeTask (k_tm k) = Some ta ->
  pageDirectory ta = pd -> 1 < nextTid (k_tm k) -> nextTid (k_tm k) + Z.of_nat (size (tasks (k_tm k))) < 2 ^ 32 ->
  Runs (clone refillPool local node st) k (fun tid k' => exists r2, cloned n room F k k' st pd r rk node r2 tid).
Proof.
  intros [Hrun H0 Hk HV Ha [Hso Hsize] Hpages Hpublic Hbuf (Hl1 & Hl2 & Hn1 & Hn2 & Hn3)] Hfam Hact Hta Hpd Hnext Hfull.
  pose proof table_cost_nonneg as Hcost. set (roomc := room + copy_cost refillPool * Z.of_nat pages).
  assert (0 <= roomc) as Hroomc by (unfold roomc, copy_cost, page_cost; nia).
  unfold clone. eapply (begin_run (6 * pages + n) roomc G k pd r rk local); try done.
  { replace (14 + (6 * pages + n))%nat with (14 + 6 * pages + n)%nat by lia.
    replace (roomc + 2 * table_cost + 4 * page_cost refillPool) with
      (room + 2 * table_cost + 4 * page_cost refillPool + copy_cost refillPool * Z.of_nat pages) by (unfold roomc; lia). exact Hrun. }
  intros fm stack k2 r2 p Hfm [(G2 & Hpr) [Etm Efiles] Hstack]. destruct Hpr as [Hcp Hfresh Hk2 Hsame Hram Hempty [cr3 Hrest]].
  apply Runs_bind. eapply Runs_of_ok; [apply on_tm_same; rewrite Etm; by apply (getActiveTask_run (k_tm k) ta)|]. cbn [snd].
  rewrite Hpd. apply Runs_bind. eapply Runs_mono.
  { apply (copy_pages_run refillPool (joined r2) k2 pd r local r2 n room pages H0) with (G := G2); [| |exact Hcp|exact Hempty].
    - rewrite (valid_pages_same (mm_tables (mm k))); [exact Hpages|]. intros a Hu. apply Hsame; [apply Hrun|done].
    - intros a Hu. rewrite Hsame by (done || apply Hrun). by apply Hpublic. }
  intros [] k3 (G3 & s3 & -> & Hcp3 & Hrest3 & Hg3 & Hoth3 & Hcopied).
  assert (R r) as Hr by apply Hrun. assert (r2 <> r) as Hrr by apply Hcp.
  assert (mm_rest (as_mm s3) = (<[local := mkPageDirectory cr3 r2]> (mm_directories (mm k)), g_kernelDirectory (mm k),
    g_currentPageDirectory (mm k), g_pagingReady (mm k), cpu_cr3 (mm k))) as Hrest' by congruence.
  injection Hrest' as Ed Ek _ _ _.
  apply (Runs_mono _ _ (fun tid k' => cloned n room F k k' st pd r rk node r2 tid)); [|intros tid k' Hc; by exists r2].
  apply (finish_run n room F k k2 G3 s3 st fm pd r rk local node r2 stack.1 ta p cr3); try done.
  - eapply kernel_kept; [exact Hk2|destruct Hcp3 as [_ [Hwf3 _ _] _ _ _]; exact Hwf3|exact Hg3|congruence].
  - rewrite Ed. apply lookup_insert_eq.
  - by rewrite Ek.
  - by rewrite Ek.
  - intros s' Eram Etab. split.
    + intros a Hu. eapply (copied_from k k2 s3); [exact Hram|by apply Hsame|exact Eram|exact Etab|by apply Hcopied].
    + intros r' a Hr' Hu. assert (r' <> r2) as Hne by (intros ->; done).
      destruct (Hoth3 r' a (or_introl Hr') Hne Hu) as [E1 E2]. rewrite Etab. unfold view in *. rewrite Etab, Eram, E2, E1.
      rewrite Hsame, Hram by done. done.
Qed.

(** C8. [clone] makes a child with the memory and the registers of the active task, whose own memory, like that of all the
    others, is as it was. *)
Theorem clone_spec pages n room F G k st pd r rk local node ta :
  clonable pages n room G k pd r rk local node ->
  family F (tasks (k_tm k)) -> activeTask (k_tm k) <> 0 -> tasks (k_tm k) !! activeTask (k_tm k) = Some ta ->
  pageDirectory ta = pd -> 1 < nextTid (k_tm k) -> nextTid (k_tm k) + Z.of_nat (size (tasks (k_tm k))) < 2 ^ 32 ->
  Runs (clone refillPool local node st) k (fun tid k' => exists r2, cloned n room F k k' st pd r rk node r2 tid).
Proof. apply clone_run. Qed.
End clone.

(** ** A task with one page, [text], makes a child *)
Section examples.
Existing Instances example_symbols pd_allocator pool_laws pool_memory_laws.
Existing Instance FileManager.no_console.
Abbreviation example_allocator := (pd_allocator no_mapPage).
Abbreviation example_laws := (pool_laws no_mapPage).
Abbreviation example_refill := (refillPool pdPageHeap (on_kernel no_mapPage) 0).
Abbreviation example_memory := (pool_memory_laws 0).
Abbreviation text := AddressSpace.user_text.
Abbreviation root := AddressSpace.example_task.

Definition parent_space : Space := mkSpace parent_mm (fun _ => 0).
Definition parent_task : Task :=
  mkTask new_HH Runnable false [] (set_segments SYSTEM_CS SYSTEM_DS 0x200 zero_Context) example_object 0x2000 0 false.
Definition parent_manager : TaskManager := mkTM {[ 1 := parent_task ]} 1 2 true 0 0 (mkCpu true 0).
Definition parent_kernel (m : Space) : Kernel unit := mkKernel ∅ (mkFs ∅ ∅ 4 0 tt) m parent_manager new_PageHeap 0 ∅.
Definition no_children (_ : Z) : list Z := [].
Definition call_state : InterruptState :=
  mkInterruptState 15 14 13 12 11 10 9 8 7 6 56 5 4 3 2 0x80 0 0x400010 0x20 0x202 0x7ffff0 0x18.

Lemma parent_ready : kernel_ready example_ghost parent_mm root.
Proof. split; [exact parent_directory|cbn [mm_tables parent_mm]; by rewrite root_next|by vm_compute]. Qed.

(** The pages of the stacks *)
Lemma example_prefix l i j :
  0 <= i < StackCount -> 0 <= j < 4 -> prefix_of l (stack_page i j) = (2 ^ 36 - 0x18000 + 4 * i + j) / 2 ^ (9 * Z.of_nat l).
Proof.
  intros Hi Hj. unfold StackCount in Hi. change l with (0 + l)%nat at 1. rewrite prefix_shift, prefix_page, Z.shiftr_div_pow2 by lia. f_equal.
  unfold stack_page. cbn [getStackPageHeapBase example_symbols].
  replace (0xffffffffe8000000 + i * 0x4000 + j * 4096) with ((2 ^ 36 * 0xffff + (2 ^ 36 - 0x18000 + 4 * i + j)) * 4096) by lia.
  rewrite Z.div_mul by lia. rewrite Z.mul_comm, Z.add_comm, Z.mod_add by lia. apply Z.mod_small. lia.
Qed.

Lemma example_area : @stack_area example_allocator example_laws example_symbols.
Proof.
  split.
  - unfold StackCount. cbn. lia.
  - by vm_compute.
  - intros i j Hi Hj. rewrite example_prefix by done. unfold StackCount in Hi. change (9 * Z.of_nat 2) with 18.
    Z.to_euclidean_division_equations; lia.
  - intros i j m _ _ [].
Qed.

Lemma parent_stacks : stacks_ok (mm_tables parent_mm) root new_PageHeap.
Proof.
  split; [done|by vm_compute|]. intros i j Hi Hj _. unfold pte_at. cbn [mm_tables parent_mm].
  destruct (VBase_indices (stack_page i j)) as [I4 I3]; [by apply example_area|].
  unfold LevelCount. cbn [walk pred]. rewrite I4, I3, root_next. change (511 =? 511) with true. cbv iota.
  change ((block 1).1 =? 0) with false. cbv iota. cbn [walk pred].
  assert (next_at example_path.1 (block 1).1 511 = (block 2).1) as -> by (vm_compute; reflexivity).
  change ((block 2).1 =? 0) with false. cbv iota. cbn [walk pred].
  assert (indexFromAddress 2 (stack_page i j) <> 0) as Hn.
  { pose proof (prefix_step 1 (stack_page i j) ltac:(unfold LevelCount; lia)) as E. rewrite !example_prefix in E by done.
    unfold StackCount in Hi. change (9 * Z.of_nat 2) with 18 in E. change (9 * Z.of_nat 1) with 9 in E.
    intros E0. rewrite E0 in E. Z.to_euclidean_division_equations; lia. }
  assert (next_at example_path.1 (block 2).1 (indexFromAddress 2 (stack_page i j)) = 0) as ->; [|done].
  unfold next_at. assert (example_path.1 !! (block 2).1 = Some (mkTable {[ 0 := upper_entry 3 ]} {[ 0 := (block 3).1 ]})) as -> by (vm_compute; reflexivity).
  cbn. by rewrite lookup_singleton_ne by done.
Qed.

(** After one page has been mapped at [text] *)
Record one_page (G1 : ghost) (s1 : MM) (e : PageTableEntry) : Prop := {
  op_running ram : @running example_allocator example_laws AddressSpace.example_tasks 20 5 G1 (mkSpace s1 ram) example_object root;
  op_grown : @grown_but example_allocator example_laws (page_of text) example_ghost G1 parent_mm s1;
  op_rest : mm_rest s1 = mm_rest parent_mm;
  op_pages a : user a -> pte_at (mm_tables s1) root a = if bool_decide (a / 4096 = 0x400) then e else zero_pte;
  op_entry : pte_us e = true /\ pte_p e = true;
}.

Lemma map_one_page ram :
  Runs (on_mm (@mapPage example_allocator example_refill example_object text UserSpace.ATTR_USER)) (mkSpace parent_mm ram) (fun _ m =>
    exists G1 s1 e, m = mkSpace s1 ram /\ one_page G1 s1 e).
Proof.
  unfold on_mm. apply Runs_zoom. eapply Runs_mono.
  - apply (@mapPage_user example_allocator example_laws example_refill example_memory AddressSpace.example_tasks 20 5 example_ghost
      parent_mm example_object root text UserSpace.ATTR_USER); [by apply parent_spaces|done|exact parent_directory|done|done| |by vm_compute].
    rewrite (proj2 (parent_bare text ltac:(done))). done.
  - intros pa s1 (G1 & base & Hsp & Hgr & Hrest & _ & Hset & _).
    eexists G1, s1, _. split; [done|]. split; [|exact Hgr|exact Hrest| |].
    + intros ram'. split; [exact Hsp|done|eapply directory_grown; [exact parent_directory|apply Hsp|apply Hgr|exact Hrest]| |done].
      injection Hrest as _ _ E _ _. exact E.
    + intros a Hu. rewrite (Hset root a eq_refl Hu), (proj2 (parent_bare a Hu)), (proj2 (parent_bare text ltac:(done))).
      change (text / 4096) with 0x400. destruct (decide (a / 4096 = 0x400)) as [E|E]; [by rewrite !bool_decide_true|].
      by rewrite !bool_decide_false by tauto.
    + by vm_compute.
Qed.

Lemma one_element (l : list Z) x : NoDup l -> (forall y, y ∈ l -> y = x) -> (length l <= 1)%nat.
Proof.
  intros Hd Hall. destruct l as [|y [|z l]]; cbn; [lia|lia|]. apply NoDup_cons in Hd as [Hy _].
  exfalso. apply Hy. rewrite (Hall y), (Hall z) by (rewrite !elem_of_cons; tauto). left.
Qed.

Lemma one_valid_page T e n :
  n <= 2 ^ 35 -> (forall a, user a -> pte_at T root a = if bool_decide (a / 4096 = 0x400) then e else zero_pte) ->
  (length (valid_pages T root n) <= 1)%nat.
Proof.
  intros Hn Hp. apply one_element with 0x400; [apply NoDup_filter, NoDup_seqZ|].
  intros N [HN Hv]%valid_pages_elem. rewrite Hp in Hv by (unfold user; lia). rewrite Z.div_mul in Hv by lia.
  destruct (decide (N = 0x400)) as [|Hne]; [done|]. by rewrite bool_decide_false in Hv.
Qed.

Lemma parent_clonable G1 s1 e m :
  as_mm m = s1 -> one_page G1 s1 e ->
  @clonable unit example_allocator example_laws example_symbols example_refill example_memory AddressSpace.example_tasks
    1 0 0 G1 (parent_kernel m) example_object root root 0x8000 0x9000.
Proof.
  intros Em [Hrun [Hgr Hpte] Hrest Hpages [He1 He2]].
  assert (is_root example_ghost root) as Hroot by exact (dir_root _ _ _ _ parent_directory).
  destruct m as [s0 ram]. cbn in Em. subst s1. specialize (Hrun ram).
  split; cbn [k_space parent_kernel k_stackHeap].
  - exact Hrun.
  - lia.
  - eapply kernel_kept; [exact parent_ready|apply Hrun|exact Hgr|exact Hrest].
  - by vm_compute.
  - exact example_area.
  - split; [|by vm_compute]. destruct parent_stacks as [H1 H2 H3]. split; [done|done|]. intros i j Hi Hj Hn.
    rewrite Hpte; [by apply H3|done|by intros []|]. intros E%Z.eqb_eq. rewrite example_prefix in E by done.
    unfold StackCount in Hi. change (prefix_of 0 text) with 0x400 in E. change (9 * Z.of_nat 0) with 0 in E. rewrite Z.div_1_r in E. lia.
  - eapply one_valid_page; [apply Z.le_refl|exact Hpages].
  - intros a Hu. rewrite Hpages by done. case_bool_decide; [by rewrite He1|done].
  - rewrite Hpte; [by vm_compute|done|by intros []|]. by vm_compute.
  - injection Hrest as _ Ek _ _ _. cbn [AddressSpace.as_mm]. rewrite Ek. done.
Qed.

Lemma parent_family : family no_children (tasks parent_manager).
Proof.
  assert (forall x t, tasks parent_manager !! x = Some t -> x = 1 /\ t = parent_task) as Hl by (intros x t Hx; cbn [tasks parent_manager] in Hx; by apply lookup_singleton_Some in Hx as [<- <-]).
  split; [done| |done| |intros; apply NoDup_nil_2|done].
  - by intros p t [-> ->]%Hl.
  - by intros c t [-> ->]%Hl.
Qed.

(** The child of a task that has stored "hi" finds it at the same address. *)
Lemma clone_spec_witness :
  Runs (on_paging (@mapPage example_allocator example_refill example_object text UserSpace.ATTR_USER) ;;
        on_space (write_bytes text [104; 105]) ;;
        @clone unit example_allocator example_symbols example_refill 0x8000 0x9000 call_state) (parent_kernel parent_space)
    (fun tid k' => exists r2 t, r2 <> root /\ tasks (k_tm k') !! tid = Some t /\ rax (context t) = 0 /\ rip (context t) = 0x400010 /\
      view (k_space k') r2 text = Some 104 /\ view (k_space k') r2 (text + 1) = Some 105 /\ view (k_space k') root text = Some 104).
Proof.
  apply Runs_bind, Runs_on_paging. eapply Runs_mono; [apply (map_one_page (fun _ => 0))|].
  intros pa m1 (G1 & s1 & e & -> & Hop). apply Runs_bind, Runs_on_space.
  eapply Runs_mono.
  - apply (@write_bytes_run example_allocator example_laws AddressSpace.example_tasks 20 5 G1 (mkSpace s1 (fun _ => 0)) example_object root text [104; 105] (op_running _ _ _ Hop _)).
    intros i Hi. cbn in Hi. assert (user (text + i)) as Hu by (unfold user, text; lia). split; [done|].
    unfold view. cbn [as_mm]. rewrite (op_pages _ _ _ Hop _ Hu), bool_decide_true by (unfold text; Z.to_euclidean_division_equations; lia).
    rewrite (proj2 (op_entry _ _ _ Hop)). done.
  - intros [] m2 (Hrun & Em & Hview). eapply Runs_mono.
    + apply (@clone_spec unit example_allocator example_laws example_symbols example_refill example_memory AddressSpace.example_tasks
        1 0 0 no_children G1 (parent_kernel m2) call_state example_object root root 0x8000 0x9000 parent_task);
        [by apply (parent_clonable G1 s1 e)|exact parent_family|done|done|done|done|by vm_compute].
    + intros tid k' (r2 & [_ Hfresh Hcopied Hothers (t & Ht & _ & Hctx & _) _ _ _ _]). exists r2, t.
      assert (forall i, 0 <= i < 2 -> view (k_space (parent_kernel m2)) root (text + i) = [104; 105] !! Z.to_nat i) as Hv.
      { intros i Hi. cbn [k_space parent_kernel]. assert (user (text + i)) as Hu by (unfold user, text; lia).
        rewrite Hview by done. rewrite bool_decide_true by (cbn [length]; split; [done|lia]). by rewrite Z.add_simpl_l. }
      split; [intros ->; by apply Hfresh|]. split; [exact Ht|]. rewrite Hctx. split; [done|]. split; [done|].
      rewrite (proj1 (Hcopied text ltac:(done))), (proj1 (Hcopied (text + 1) ltac:(done))), (proj2 (Hothers root text eq_refl ltac:(done))).
      split; [by apply (Hv 0)|]. split; [by apply (Hv 1)|by apply (Hv 0)].
Defined.
End examples.
