(* ===== verification/Syscalls.v ===== *)
(** * The system calls: [Syscall.hpp], [Syscall.cpp], [syscalls/syscall.tbl]

    A call arrives as the saved registers of the caller.  [handle] finds the handler of the number in
    [rax], the executor of its arity takes the arguments out of the registers and converts them to their
    types, and the handler works on the kernel and on the memory of the task. *)

From Stdlib Require Import ZArith Lia.
From stdpp Require Import list numbers gmap.
From S2P Require Import Prelude Words Memory Pte Interrupts Tasks Fs FileManager PageManager PageHeap PageDirectory.
From S2P Require Import UserSpace AddressSpace Elf Kernel.

(** ** [syscall.tbl] *)
Inductive ScId : Type :=
  | SC_read | SC_write | SC_open | SC_close | SC_fstat | SC_mmap | SC_clone | SC_execve | SC_wait4
  | SC_arch_prctl | SC_exit | SC_openat | SC_newfstatat | SC_print.

Definition sc_number (sc : ScId) : Z :=
  match sc with
  | SC_read => 0 | SC_write => 1 | SC_open => 2 | SC_close => 3 | SC_fstat => 5 | SC_mmap => 9
  | SC_clone => 56 | SC_execve => 59 | SC_wait4 => 61 | SC_arch_prctl => 158 | SC_exit => 231
  | SC_openat => 257 | SC_newfstatat => 262 | SC_print => 300
  end.

(** The enumerator after [print = 300] *)
Definition last_id : Z := 301.

(** ** [struct stat] *)
Definition AT_SYMLINK_NOFOLLOW : Z := 0x100.

Record Stat : Type := mkStat {
  st_nlink : Z;
  st_mode : Z;
  st_size : Z;
  st_blksize : Z;
  st_blocks : Z;
}.

(** The members that are written, at their offsets; the others are zero. *)
Definition stat_bytes (s : Stat) : list Z :=
  replicate 16 0 ++ le_bytes 8 (st_nlink s) ++ le_bytes 4 (st_mode s) ++ replicate 20 0 ++
  le_bytes 8 (st_size s) ++ le_bytes 8 (st_blksize s) ++ le_bytes 8 (st_blocks s) ++ replicate 72 0.

(** ** The conversions of the arguments *)
Definition as_int (r : Z) : Z := wrap_signed 32 r.
Definition as_pid (r : Z) : Z := u32 r.
Definition as_word (r : Z) : Z := r.

Section syscalls.
Context {C : Type} `{!Console C, !TableAllocator MM, !Symbols} (refillPool : ST MM unit).
(** [Symbols::getStackBase()] is in [Symbols]; [links] bounds the links that a path follows and [text] the length of a
    text, and [var], [local] and [node] are the addresses of a variable of [use], of a local page directory, and of the
    page directory of a task that is added. *)
Context (links text : nat) (var local node : Z).

Abbreviation K := (Kernel C).
Definition SyscallHandler : Type := InterruptState -> ST K (turn Z).

(** ** [HandlerCaller] and [SysCallExecutor] *)

(** A handler with a value, converted to [uint64_t] *)
Definition call_value (r : turn Z) : turn Z :=
  match r with Returned v => Returned (u64 v) | Leaves o => Leaves o | Sleeps => Sleeps end.

(** A handler that returns [void] *)
Definition call_void (r : turn unit) : turn Z :=
  match r with Returned _ => Returned 0 | Leaves o => Leaves o | Sleeps => Sleeps end.

Section executors.
Context {R : Type} (caller : turn R -> turn Z) (A1 A2 A3 A4 A5 : Z -> Z).

Definition executor0 (handler : ST K (turn R)) : SyscallHandler := fun st =>
  r ← handler; mret (caller r).
Definition executor1 (handler : Z -> ST K (turn R)) : SyscallHandler := fun st =>
  r ← handler (A1 (s_rdi st)); mret (caller r).
Definition executor2 (handler : Z -> Z -> ST K (turn R)) : SyscallHandler := fun st =>
  r ← handler (A1 (s_rdi st)) (A2 (s_rsi st)); mret (caller r).
Definition executor3 (handler : Z -> Z -> Z -> ST K (turn R)) : SyscallHandler := fun st =>
  r ← handler (A1 (s_rdi st)) (A2 (s_rsi st)) (A3 (s_rdx st)); mret (caller r).
Definition executor4 (handler : Z -> Z -> Z -> Z -> ST K (turn R)) : SyscallHandler := fun st =>
  r ← handler (A1 (s_rdi st)) (A2 (s_rsi st)) (A3 (s_rdx st)) (A4 (s_rcx st)); mret (caller r).
(** With the saved registers as first argument: [RegisterHandler<R, const InterruptState&, T...>] *)
Definition executor_state5 (handler : InterruptState -> Z -> Z -> Z -> Z -> Z -> ST K (turn R)) : SyscallHandler := fun st =>
  r ← handler st (A1 (s_rdi st)) (A2 (s_rsi st)) (A3 (s_rdx st)) (A4 (s_rcx st)) (A5 (s_r8 st)); mret (caller r).
End executors.

(** ** The handlers *)

(** [getActiveTask().pageDirectory] *)
Definition active_directory : ST K Z :=
  t ← on_tm getActiveTask;
  mret (pageDirectory t.2).

Definition hndl_open (path : Z) : ST K (turn Z) :=
  s ← on_space (read_string text path);
  fd ← on_files (sys_open links s);
  mret (Returned fd).

Definition hndl_openat (dirfd path : Z) : ST K (turn Z) := hndl_open path.

Definition hndl_close (fd : Z) : ST K (turn Z) :=
  r ← on_files (sys_close fd);
  mret (Returned r).

(** The bytes go to the buffer of the task. *)
Definition hndl_read (fd buf count : Z) : ST K (turn Z) :=
  r ← on_files (sys_read fd count);
  match r with
  | None => mret Sleeps
  | Some (bytes, n) => on_space (write_bytes buf bytes) ;; mret (Returned n)
  end.

(** The text is read for the log first. *)
Definition hndl_write (fd buf count : Z) : ST K (turn Z) :=
  bytes ← on_space (read_bytes (Z.to_nat count) buf);
  n ← on_files (sys_write fd bytes);
  mret (Returned n).

Definition MSR_FS : Z := 0xC0000100.

Definition hndl_arch_prctl (code addr : Z) : ST K (turn Z) :=
  (if code =? 0x1002 then writeMsr MSR_FS addr else mret tt) ;;
  mret (Returned 0).

Definition mmap_attributes : Z := Z.lor (Z.lor ATTR_RW ATTR_PUBLIC) (Z.lor ATTR_DEFER ATTR_NOEXEC).

(** [while (nbPages--)] *)
Fixpoint mmap_pages (nbPages : nat) (pd : Z) : ST K unit :=
  match nbPages with
  | O => mret tt
  | S nbPages =>
      curPtr ← gets k_curPtr;
      on_paging (mapPage refillPool pd curPtr mmap_attributes) ;;
      modify (fun k => set_k_curPtr (u64 (k_curPtr k + PAGE_SIZE)) k) ;;
      mmap_pages nbPages pd
  end.

(** The static variable [curPtr] starts here. *)
Definition mmap_base : Z := 0x00000000ff005000.

Definition hndl_mmap (addr length : Z) : ST K (turn Z) :=
  if length =? 0 then mret (Returned 0)
  else
    start ← gets k_curPtr;
    let nbPages := u64 (length + PAGE_SIZE - 1) / PAGE_SIZE in
    pd ← active_directory;
    mmap_pages (Z.to_nat nbPages) pd ;;
    mret (Returned start).

(** The end of [wait], the child being a zombie *)
Definition wait4_end (tid status : Z) : ST K (turn Z) :=
  r ← wait_remove (@on_tm C) (Task_destroy local var) tid;
  (if status =? 0 then mret tt else on_space (write_bytes status (le_bytes 4 0))) ;;
  mret (Returned r).

(** A child that is not a zombie puts the task to sleep; when it is woken it goes on with [wait4_end]. *)
Definition hndl_wait4 (pid status options rusage : Z) : ST K (turn Z) :=
  c ← on_tm (wait_child pid);
  match c with
  | None => mret (Returned no_pid)
  | Some (tid, task) =>
      if is_zombie task then wait4_end tid status
      else
        active ← on_tm getActiveTask;
        on_tm (updateTask tid (fun t => set_waiters (stateCond_waiters t ++ [active.1]) t)) ;;
        on_tm prepareMeForSleep ;;
        mret Sleeps
  end.

Definition hndl_exit : ST K (turn unit) := switch var (terminateCurrentTask getStackBase).

(** The text goes to the log. *)
Definition hndl_print (buf : Z) : ST K (turn unit) :=
  on_space (read_string text buf) ;;
  mret (Returned tt).

Definition hndl_fstat : ST K (turn Z) := mret (Returned (-1)).

(** The inode of [newfstatat] *)
Definition stat_target (dirfd : Z) (pathname : str) (flags : Z) : ST K (option (IoExpected Z)) :=
  let options := if negb (Z.land flags AT_SYMLINK_NOFOLLOW =? 0) then LookupOptions_NoFollowSymlink
                 else LookupOptions_None in
  match pathname with
  | c0 :: _ =>
      if c0 =? slash then
        r ← on_disk (lookup links 0 pathname options MAX_SYMLINK_INDIRECTIONS); mret (Some r)
      else if 0 <=? dirfd then
        handle ← on_files (getHandle dirfd);
        if handle =? 0 then mret None
        else
          h ← on_disk (deref_handle handle);
          match handle_getInode h with
          | Unexpected _ => mret None
          | Value inode =>
              r ← on_disk (lookup links inode pathname options MAX_SYMLINK_INDIRECTIONS); mret (Some r)
          end
      else mret None
  | [] => mret None
  end.

Definition stat_of (i : Inode) : Stat :=
  mkStat 1 (i_mode i) (i_size i) 1 (u64 (i_size i + 511) / 512).

Definition hndl_newfstatat (dirfd pathname buf flags : Z) : ST K (turn Z) :=
  s ← on_space (read_string text pathname);
  r ← stat_target dirfd s flags;
  match r with
  | Some (Value target) =>
      i ← on_disk (deref_inode target);
      on_space (write_bytes buf (stat_bytes (stat_of i))) ;;
      mret (Returned 0)
  | _ => mret (Returned (-1))
  end.

Definition hndl_clone (st : InterruptState) (flags child_stack ptid ctid regs : Z) : ST K (turn Z) :=
  if negb (ptid =? 0) || negb (regs =? 0) then mret (Returned (-1))
  else tid ← clone refillPool local node st; mret (Returned tid).

(** [while ( *argv )]: an array of pointers, up to a null one *)
Fixpoint read_argv (fuel : nat) (argv : Z) : ST Space (list str) :=
  match fuel with
  | O => fail OutOfFuel
  | S fuel =>
      p ← read_bytes 8 argv;
      if le_value p =? 0 then mret []
      else
        s ← read_string text (le_value p);
        args ← read_argv fuel (u64 (argv + 8));
        mret (s :: args)
  end.

Definition hndl_execve (filename argv envp : Z) : ST K (turn Z) :=
  name ← on_space (read_string text filename);
  if negb (bool_decide (head name = Some slash)) then mret (Returned (-1))
  else
    exptarget ← on_disk (lookup links 0 name LookupOptions_None MAX_SYMLINK_INDIRECTIONS);
    match exptarget with
    | Unexpected _ => mret (Returned (-1))
    | Value target =>
        exphandle ← on_disk (inode_open target);
        match exphandle with
        | Unexpected _ => mret (Returned (-1))
        | Value handle =>
            args ← on_space (read_argv text argv);
            on_paging (current ← gets g_currentPageDirectory; unmapUserSpace current local var) ;;
            pd ← active_directory;
            o ← on_exec (@exec C Space _ (space_ops refillPool pd) handle args);
            mret (match o with Some o => Leaves o | None => Returned (-1) end)
        end
    end.

(** ** The table of the handlers *)
Definition registerHandler (id : Z) (handler : SyscallHandler) (table : gmap Z SyscallHandler)
    : result (gmap Z SyscallHandler) :=
  if id <? last_id then Ok (<[id := handler]> table) else Err (AssertionFailed "id < last_id").

(** The lines of [syscall_register.hxx], each with the type of its handler *)
Definition handler_of (sc : ScId) : SyscallHandler :=
  match sc with
  | SC_read => executor3 call_value as_int as_word as_word hndl_read
  | SC_write => executor3 call_value as_int as_word as_word hndl_write
  | SC_open => executor1 call_value as_word hndl_open
  | SC_close => executor1 call_value as_int hndl_close
  | SC_fstat => executor0 call_value hndl_fstat
  | SC_mmap => executor2 call_value as_word as_word hndl_mmap
  | SC_clone => executor_state5 call_value as_word as_word as_word as_word as_word hndl_clone
  | SC_execve => executor3 call_value as_word as_word as_word hndl_execve
  | SC_wait4 => executor4 call_value as_pid as_word as_int as_word hndl_wait4
  | SC_arch_prctl => executor2 call_value as_int as_word hndl_arch_prctl
  | SC_exit => executor0 call_void hndl_exit
  | SC_openat => executor2 call_value as_int as_word hndl_openat
  | SC_newfstatat => executor4 call_value as_int as_word as_word as_int hndl_newfstatat
  | SC_print => executor1 call_void as_word hndl_print
  end.

Definition all_calls : list ScId :=
  [SC_read; SC_write; SC_open; SC_close; SC_fstat; SC_mmap; SC_clone; SC_execve; SC_wait4; SC_arch_prctl;
   SC_exit; SC_openat; SC_newfstatat; SC_print].

Fixpoint register_all (l : list ScId) (table : gmap Z SyscallHandler) : result (gmap Z SyscallHandler) :=
  match l with
  | [] => Ok table
  | sc :: l =>
      match registerHandler (sc_number sc) (handler_of sc) table with
      | Ok table => register_all l table
      | Err e => Err e
      end
  end.

(** [initSysCallGate]; [syscall_entry] is the address of the entry point. *)
Definition initSysCallGate (syscall_entry : Z) : ST K unit :=
  let star := Z.lor (Z.shiftl (u64 (USER_CS - 16)) 48) (Z.shiftl (u64 SYSTEM_CS) 32) in
  writeMsr MSR_STAR star ;;
  writeMsr MSR_LSTAR syscall_entry ;;
  efer ← readMsr MSR_EFER;
  writeMsr MSR_EFER (Z.lor efer 1).

(** The value is [g_syscallHandlers]. *)
Definition initSysCalls (syscall_entry : Z) : ST K (gmap Z SyscallHandler) :=
  initSysCallGate syscall_entry ;;
  lift_result (register_all all_calls ∅).

Definition handle (g_syscallHandlers : gmap Z SyscallHandler) (st : InterruptState) : ST K (turn Z) :=
  assertion (state_ok st) "Interrupts were disabled in a user task" ;;
  assertion (s_rax st <? last_id) "st.rax < last_id" ;;
  match g_syscallHandlers !! s_rax st with
  | Some handler => handler st
  | None => mret (Returned 0)
  end.

(** [syscallHandler]; the value is the state the caller goes on with. *)
Definition syscallHandler (g_syscallHandlers : gmap Z SyscallHandler) (st : InterruptState) : ST K (turn InterruptState) :=
  r ← handle g_syscallHandlers st;
  mret (match r with
        | Returned v => Returned (set_s_rax v st)
        | Leaves o => Leaves o
        | Sleeps => Sleeps
        end).
End syscalls.

(** ** [sys::call]: the registers with which a program traps *)
Definition set_args (number a1 a2 a3 a4 a5 : Z) (s : InterruptState) : InterruptState :=
  mkInterruptState (s_r15 s) (s_r14 s) (s_r13 s) (s_r12 s) (s_rbx s) (s_rbp s) (s_r11 s) (s_r10 s) (s_r9 s) a5
    number a4 a3 a2 a1 (intNo s) (errCode s) (s_rip s) (s_cs s) (s_rflags s) (s_rsp s) (s_ss s).

Definition call0 (sc : Z) (s : InterruptState) := set_args sc (s_rdi s) (s_rsi s) (s_rdx s) (s_rcx s) (s_r8 s) s.
Definition call1 (sc a1 : Z) (s : InterruptState) := set_args sc a1 (s_rsi s) (s_rdx s) (s_rcx s) (s_r8 s) s.
Definition call2 (sc a1 a2 : Z) (s : InterruptState) := set_args sc a1 a2 (s_rdx s) (s_rcx s) (s_r8 s) s.
Definition call3 (sc a1 a2 a3 : Z) (s : InterruptState) := set_args sc a1 a2 a3 (s_rcx s) (s_r8 s) s.
Definition call4 (sc a1 a2 a3 a4 : Z) (s : InterruptState) := set_args sc a1 a2 a3 a4 (s_r8 s) s.
Definition call5 (sc a1 a2 a3 a4 a5 : Z) (s : InterruptState) := set_args sc a1 a2 a3 a4 a5 s.

(** ** Running the parts *)
Section parts.
Context {C : Type}.
Implicit Types (k : Kernel C).

(** The active task, its files and its memory *)
Record calling `{!TableAllocator MM, !TableAllocatorLaws MM mm_rest} (R : Z -> Prop) (n : nat) (room : Z) (G : ghost)
    k (tid : Z) (t : Task) (fm : FileManager) (r : Z) : Prop := {
  cl_active : activeTask (k_tm k) = tid;
  cl_nonzero : tid <> 0;
  cl_task : tasks (k_tm k) !! tid = Some t;
  cl_files : k_files k !! tid = Some fm;
  cl_running : running R n room G (k_space k) (pageDirectory t) r;
}.
End parts.

Section calls.
Context {C : Type} `{!Console C, !TableAllocator MM, !TableAllocatorLaws MM mm_rest, !Symbols}.
Context (refillPool : ST MM unit) `{!MemoryLaws refillPool} (R : Z -> Prop) (links text : nat) (var local node : Z).
Implicit Types (k : Kernel C) (st : InterruptState).

Lemma getActiveTask_calling n room G k tid t fm r :
  calling R n room G k tid t fm r -> on_tm getActiveTask k = Ok ((tid, t), k).
Proof. intros [Ha H0 Ht _ _]. apply on_tm_same. subst tid. by apply getActiveTask_run. Qed.

Lemma on_files_run {A} (op : ST (FileState C) A) n room G k tid t fm r a s' :
  calling R n room G k tid t fm r -> op (fm, k_fs k) = Ok (a, s') ->
  on_files op k = Ok (a, set_k_files (<[tid := s'.1]> (k_files k)) (set_k_fs s'.2 k)).
Proof.
  intros Hc Hop. unfold on_files. rewrite (bind_run _ _ _ _ _ (getActiveTask_calling _ _ _ _ _ _ _ _ Hc)), bind_read.
  cbn [fst]. rewrite (cl_files _ _ _ _ _ _ _ _ _ Hc). unfold zoom. by rewrite Hop.
Qed.

(** The parts that the calls below leave alone *)
Lemma calling_kept n room G k tid t fm r n' room' G' k' fm' :
  calling R n room G k tid t fm r -> k_tm k' = k_tm k -> k_files k' !! tid = Some fm' ->
  running R n' room' G' (k_space k') (pageDirectory t) r -> calling R n' room' G' k' tid t fm' r.
Proof. intros [H1 H2 H3 _ _] E Hf Hr. split; [by rewrite E|done|by rewrite E|done|done]. Qed.

(** A text in the memory of the task *)
Definition text_at (m : Space) (r p : Z) (s : str) : Prop :=
  (forall i x, s !! i = Some x -> x <> 0 /\ user (p + Z.of_nat i) /\ view m r (p + Z.of_nat i) = Some x) /\
  user (p + Z.of_nat (length s)) /\ view m r (p + Z.of_nat (length s)) = Some 0.

Lemma read_string_run n room G m this r p (s : str) fuel :
  running R n room G m this r -> text_at m r p s -> (length s < fuel)%nat -> read_string fuel p m = Ok (s, m).
Proof.
  intros Hrun. revert p fuel. induction s as [|c s IH]; intros p fuel (Hs & Hu & Hz) Hf;
    (destruct fuel as [|fuel]; [lia|]); cbn [read_string length] in *.
  - rewrite Z.add_0_r in *. by rewrite (bind_run _ _ _ _ _ (read_byte_run _ _ _ _ _ _ _ _ _ Hrun Hu Hz)).
  - destruct (Hs 0%nat c eq_refl) as (Hc & Hu0 & Hv). rewrite Z.add_0_r in *.
    rewrite (bind_run _ _ _ _ _ (read_byte_run _ _ _ _ _ _ _ _ _ Hrun Hu0 Hv)).
    rewrite (proj2 (Z.eqb_neq _ _)) by done.
    assert (0 <= p /\ p + Z.of_nat (S (length s)) < 2 ^ 47) as [Hp0 Hp1] by (unfold user in *; lia).
    rewrite wrap_small by (unfold in_word; lia).
    erewrite bind_run; [done|]. apply IH; [|lia]. unfold text_at.
    replace (p + 1 + Z.of_nat (length s)) with (p + Z.of_nat (S (length s))) by lia.
    split; [|split; [exact Hu|exact Hz]]. intros i x Hi. replace (p + 1 + Z.of_nat i) with (p + Z.of_nat (S i)) by lia. by apply (Hs (S i)).
Qed.

(** ** The table *)
Abbreviation handler_of' := (handler_of refillPool links text var local node).

Lemma registered table sc :
  register_all refillPool links text var local node all_calls ∅ = Ok table ->
  table !! sc_number sc = Some (handler_of' sc).
Proof.
  unfold all_calls. cbn [register_all]. unfold registerHandler. cbn [Z.ltb Z.compare sc_number last_id].
  intros [= <-]. destruct sc; cbn [sc_number];
    repeat first [by rewrite lookup_insert_eq | rewrite lookup_insert_ne by done].
Qed.

(** ** [open] and [read] *)
Lemma open_run n room G k tid t fm r path (s : str) c i data st :
  calling R n room G k tid t fm r -> text_at (k_space k) r path s -> (length s < text)%nat ->
  lookup_path links s LookupOptions_None (k_fs k) = Ok (Value c, k_fs k) ->
  inodes (k_fs k) !! c = Some i -> i_body i = CpioFileInode data -> s_rdi st = path ->
  let h := next_object (k_fs k) in
  handler_of' SC_open st k =
  Ok (Returned (u64 (add_fd (_files fm) h).1),
    set_k_files (<[tid := mkFileManager (add_fd (_files fm) h).2]> (k_files k))
      (set_k_fs (set_next_object (h + 1) (set_handles (<[h := CpioFileHandle c 0]> (handles (k_fs k))) (k_fs k))) k)).
Proof.
  intros Hc Htext Hlen Hl Hi Hb <- h. cbn [handler_of]. unfold executor1, hndl_open, as_word.
  pose proof (fm_open_run links s (fm, k_fs k) c i data Hl Hi Hb) as Hopen. cbv zeta in Hopen. cbn [fst snd] in Hopen.
  fold h in Hopen. destruct (add_fd (_files fm) h) as [fd l'] eqn:Eadd. cbn [fst snd].
  assert (sys_open links s (fm, k_fs k) = Ok (fd, (mkFileManager l',
    set_next_object (h + 1) (set_handles (<[h := CpioFileHandle c 0]> (handles (k_fs k))) (k_fs k))))) as Hsys.
  { unfold sys_open. by rewrite (bind_run _ _ _ _ _ Hopen). }
  pose proof (on_space_same _ k _ (read_string_run _ _ _ _ _ _ _ _ _ (cl_running _ _ _ _ _ _ _ _ _ Hc) Htext Hlen)) as Hstr.
  erewrite bind_run.
  2:{ rewrite (bind_run _ _ _ _ _ Hstr), (bind_run _ _ _ _ _ (on_files_run _ _ _ _ _ _ _ _ _ _ _ Hc Hsys)). reflexivity. }
  done.
Qed.

Definition byte_count (count size pos : Z) : Z := Z.min count (size - pos).

Lemma read_run n room G k tid t fm r fd h c pos i data st :
  calling R n room G k tid t fm r -> 0 <= fd < 2 ^ 31 -> fd_handle (_files fm) fd = h -> h <> 0 ->
  handles (k_fs k) !! h = Some (CpioFileHandle c pos) -> inodes (k_fs k) !! c = Some i ->
  i_body i = CpioFileInode data -> 0 <= pos <= data_size data -> data_size data < 2 ^ 64 ->
  s_rdi st = fd -> 0 <= s_rdx st ->
  let m := byte_count (s_rdx st) (data_size data) pos in
  let bytes := take (Z.to_nat m) (drop (Z.to_nat pos) data) in
  (forall j, 0 <= j < m -> user (s_rsi st + j) /\ is_Some (view (k_space k) r (s_rsi st + j))) ->
  Runs (handler_of' SC_read st) k (fun o k' =>
    o = Returned m /\ calling R n room G k' tid t fm r /\ k_tm k' = k_tm k /\
    k_fs k' = set_handles (<[h := CpioFileHandle c (pos + m)]> (handles (k_fs k))) (k_fs k) /\
    forall r' a, R r' -> user a -> view (k_space k') r' a =
      if bool_decide (r' = r /\ s_rsi st <= a < s_rsi st + m) then bytes !! Z.to_nat (a - s_rsi st)
      else view (k_space k) r' a).
Proof.
  intros Hc Hfd Hh H0 Hp Hi Hb Hpos Hsz Hrdi Hcount m bytes Hbuf. cbn [handler_of]. unfold executor3, hndl_read, as_int, as_word.
  assert (0 <= m <= data_size data) as Hm by (unfold m, byte_count; lia).
  rewrite Hrdi, wrap_signed_small by lia.
  pose proof (sys_read_run (fm, k_fs k) fd h c pos i data (s_rdx st) ltac:(lia) Hh H0 Hp Hi Hb Hpos Hsz Hcount) as Hread.
  cbv zeta in Hread. cbn [fst snd] in Hread. fold (byte_count (s_rdx st) (data_size data) pos) in Hread. fold m in Hread. fold bytes in Hread.
  apply Runs_bind, Runs_bind. eapply Runs_of_ok; [exact (on_files_run _ _ _ _ _ _ _ _ _ _ _ Hc Hread)|]. cbn [fst snd].
  assert (Z.of_nat (length bytes) = m) as Hlen by (unfold bytes, data_size in *; rewrite length_take, length_drop; unfold m, byte_count in *; lia).
  set (k1 := set_k_files _ _). pose proof (cl_running _ _ _ _ _ _ _ _ _ Hc) as Hrun.
  apply Runs_bind, Runs_on_space.
  eapply Runs_mono; [apply (write_bytes_run R n room G (k_space k1) (pageDirectory t) r (s_rsi st) bytes); [exact Hrun|]|].
  { rewrite Hlen. exact Hbuf. }
  intros [] sp (Hrun' & _ & Hview). rewrite Hlen in Hview. apply Runs_ret, Runs_ret. cbn [call_value].
  rewrite wrap_small by (unfold in_word; lia). split; [done|]. split; [|split; [done|split; [done|exact Hview]]].
  eapply calling_kept; [exact Hc|done| |exact Hrun']. apply lookup_insert_eq.
Qed.

Lemma add_fd_bound l h : 0 <= (add_fd l h).1 <= Z.of_nat (length l).
Proof.
  unfold add_fd. destruct (find_free l 0) as [i|] eqn:Hf; cbn [fst]; [|lia].
  apply find_free_Some in Hf as (Hr & _). lia.
Qed.

Lemma syscall_run table sc k st (Q : turn InterruptState -> Kernel C -> Prop) :
  register_all refillPool links text var local node all_calls ∅ = Ok table ->
  s_rax st = sc_number sc -> state_ok st = true ->
  Runs (handler_of' sc st) k (fun o k' => Q (match o with
    | Returned v => Returned (set_s_rax v st) | Leaves o => Leaves o | Sleeps => Sleeps end) k') ->
  Runs (syscallHandler table st) k Q.
Proof.
  intros Ht Hrax Hok Hrun. unfold syscallHandler, handle. apply Runs_bind, Runs_bind, Runs_assertion; [done|].
  apply Runs_bind, Runs_assertion. { rewrite Hrax. by destruct sc. }
  rewrite Hrax. pose proof (registered table sc Ht) as E. unfold SyscallHandler in *. rewrite E. eapply Runs_mono; [exact Hrun|]. intros o k' HQ. by apply Runs_ret.
Qed.

(** A program that opens a file and reads from it: two system calls, the descriptor taken from the registers *)
Definition open_and_read (table : gmap Z (@SyscallHandler C)) (path buf count : Z) st : ST (Kernel C) (turn InterruptState) :=
  r ← syscallHandler table (call1 (sc_number SC_open) path st);
  match r with
  | Returned st => syscallHandler table (call3 (sc_number SC_read) (s_rax st) buf count st)
  | _ => mret r
  end.

(** The registers that the program does not set itself for the calls *)
Definition other_registers (s : InterruptState) : list Z :=
  [s_r15 s; s_r14 s; s_r13 s; s_r12 s; s_rbx s; s_rbp s; s_r11 s; s_r10 s; s_r9 s; s_r8 s; s_rcx s;
   s_rip s; s_cs s; s_rflags s; s_rsp s; s_ss s].

(** C10. Two system calls of a program, from its registers to its memory: [open] of a path that is in its memory, and
    [read] from the descriptor that was returned, put the beginning of the file in the buffer of the program and its
    length in [rax]; the program goes on where it was, with the registers that it did not set for the calls as they were, and
    nothing else of its memory or of the memory of another task changes. *)
Theorem open_read_calls table n room G k tid t fm r st path (s : str) c i data buf count :
  register_all refillPool links text var local node all_calls ∅ = Ok table ->
  calling R n room G k tid t fm r -> state_ok st = true ->
  text_at (k_space k) r path s -> (length s < text)%nat ->
  lookup_path links s LookupOptions_None (k_fs k) = Ok (Value c, k_fs k) ->
  inodes (k_fs k) !! c = Some i -> i_body i = CpioFileInode data -> data_size data < 2 ^ 64 ->
  next_object (k_fs k) <> 0 -> Z.of_nat (length (_files fm)) < 2 ^ 31 -> 0 <= count ->
  let m := Z.min count (data_size data) in
  (forall j, 0 <= j < m -> user (buf + j) /\ is_Some (view (k_space k) r (buf + j))) ->
  Runs (open_and_read table path buf count st) k (fun o k' => exists st',
    o = Returned st' /\ s_rax st' = m /\ other_registers st' = other_registers st /\
    k_tm k' = k_tm k /\
    (forall j x, 0 <= j < m -> data !! Z.to_nat j = Some x -> view (k_space k') r (buf + j) = Some x) /\
    forall r' a, R r' -> user a -> ~ (r' = r /\ buf <= a < buf + m) -> view (k_space k') r' a = view (k_space k) r' a).
Proof.
  intros Ht Hc Hok Htext Hlen Hl Hi Hb Hsz Hnext Hfds Hcount m Hbuf. unfold open_and_read.
  apply Runs_bind. eapply (syscall_run table SC_open); [done|done|exact Hok|].
  eapply Runs_of_ok; [by eapply (open_run _ _ _ _ _ _ _ _ path)|]. cbv zeta. cbv match.
  set (h := next_object (k_fs k)) in *. destruct (add_fd (_files fm) h) as [fd l'] eqn:Eadd.
  pose proof (add_fd_bound (_files fm) h) as Hfd. rewrite Eadd in Hfd. cbn [fst snd] in *.
  apply add_fd_spec in Eadd as (_ & _ & _ & Hl').
  set (k1 := set_k_files _ _).
  assert (calling R n room G k1 tid t (mkFileManager l') r) as Hc1.
  { eapply calling_kept; [exact Hc|done|apply lookup_insert_eq|]. exact (cl_running _ _ _ _ _ _ _ _ _ Hc). }
  eapply (syscall_run table SC_read); [done|done|exact Hok|].
  set (st1 := call3 _ _ _ _ _).
  assert (s_rdi st1 = fd) as Hrdi by (cbn; apply wrap_small; unfold in_word; lia).
  assert (byte_count (s_rdx st1) (data_size data) 0 = m) as Hm by (unfold byte_count; cbn [st1 call3 set_args s_rdx]; unfold m; lia).
  eapply Runs_mono.
  { eapply (read_run n room G k1 tid t (mkFileManager l') r fd h c 0 i data st1); try done.
    - lia.
    - cbn [_files]. by rewrite Hl', Z.eqb_refl.
    - cbn [k1 k_fs set_k_files set_k_fs handles set_handles set_next_object]. apply lookup_insert_eq.
    - split; [done|apply data_size_nonneg].
    - rewrite Hm. exact Hbuf. }
  rewrite Hm. intros o k2 (-> & _ & Etm & _ & Hview). exists (set_s_rax m st1). do 3 (split; [done|]). split; [by rewrite Etm|].
  change (s_rsi st1) with buf in Hview. change (Z.to_nat 0) with 0%nat in Hview. rewrite drop_0 in Hview. split.
  - intros j x Hj Hx. destruct (Hbuf j Hj) as [Hu _].
    rewrite Hview by (done || by eapply run_root, cl_running). rewrite bool_decide_true by lia.
    replace (buf + j - buf) with j by lia. rewrite lookup_take_lt by lia. done.
  - intros r' a Hr' Hu Hn. rewrite Hview, bool_decide_false by done. done.
Qed.

(** ** [mmap] *)
Definition deferred_page : PageTableEntry := AttributeSetter mmap_attributes (set_base INVALID_PAGE (set_p true zero_pte)).

Abbreviation tables_of k := (mm_tables (as_mm (k_space k))).

(** The pages of a range of a task are deferred, and nothing else changed. *)
Definition deferred_range k k' (r from to : Z) : Prop :=
  as_ram (k_space k') = as_ram (k_space k) /\
  forall r' a, R r' -> user a -> pte_at (tables_of k') r' a =
    if bool_decide (r' = r /\ from <= a < to) then deferred_page else pte_at (tables_of k) r' a.

Lemma user_allowed_mmap a : user a -> allowed a mmap_attributes = true.
Proof.
  intros [H0 H1]. unfold allowed. change (has_attr mmap_attributes ATTR_PUBLIC) with true. rewrite andb_false_r.
  by rewrite (proj2 (Z.ltb_ge 0xffffffffc0000000 a)) by lia.
Qed.

Lemma mmap_pages_run nb n room G k tid t fm r :
  calling R (3 * nb + n) (room + page_cost refillPool * Z.of_nat nb) G k tid t fm r -> 0 <= room ->
  let cur := k_curPtr k in
  cur mod 4096 = 0 -> 0 <= cur -> cur + 4096 * Z.of_nat nb <= 2 ^ 47 ->
  (forall a, cur <= a < cur + 4096 * Z.of_nat nb -> pte_at (tables_of k) r a = zero_pte) ->
  Runs (mmap_pages refillPool nb (pageDirectory t)) k (fun _ k' => exists G',
    calling R n room G' k' tid t fm r /\ k_curPtr k' = cur + 4096 * Z.of_nat nb /\
    k_fs k' = k_fs k /\ k_tm k' = k_tm k /\ deferred_range k k' r cur (cur + 4096 * Z.of_nat nb)).
Proof.
  revert k n room G. induction nb as [|nb IH]; intros k n room G Hc Hroom cur Hal H0 Hend Hz; cbn [mmap_pages].
  { apply Runs_ret. exists G. replace (room + page_cost refillPool * Z.of_nat 0) with room in Hc by lia.
    split; [exact Hc|]. split; [unfold cur; lia|]. do 3 (split; [done|]). intros r' a _ _. rewrite bool_decide_false by lia. done. }
  apply Runs_bind, Runs_gets. fold cur. pose proof (cl_running _ _ _ _ _ _ _ _ _ Hc) as [Hsp _ Hdir Hcur Hr].
  assert (user cur) as Hu by (unfold user; lia). assert (0 <= page_cost refillPool) as Hpc by (unfold page_cost; pose proof table_cost_nonneg; lia).
  assert (pte_at (tables_of k) r cur = zero_pte) as Hzc by (apply Hz; lia).
  apply Runs_bind, Runs_on_paging. unfold on_mm. apply Runs_zoom.
  eapply Runs_mono.
  { apply (mapPage_user refillPool R (3 * nb + n) (room + page_cost refillPool * Z.of_nat nb) G _ (pageDirectory t) r cur mmap_attributes);
      [|nia|exact Hdir|exact Hr|exact Hu|by rewrite Hzc|by apply user_allowed_mmap].
    replace (3 * S nb + n)%nat with (3 + (3 * nb + n))%nat in Hsp by lia.
    replace (room + page_cost refillPool * Z.of_nat (S nb)) with (room + page_cost refillPool * Z.of_nat nb + page_cost refillPool) in Hsp by lia.
    exact Hsp. }
  intros pa s1 (G1 & base & Hsp1 & Hsub & Hrest & Hmem & Hset & Hpa).
  change (has_attr mmap_attributes ATTR_DEFER) with true in Hpa. destruct Hpa as [_ ->]. rewrite Hzc in Hset.
  apply Runs_bind, Runs_modify. cbn [k_curPtr set_k_space]. fold cur. rewrite PAGE_SIZE_eq, (wrap_small 64) by (unfold in_word; lia).
  set (k1 := set_k_curPtr _ _).
  assert (calling R (3 * nb + n) (room + page_cost refillPool * Z.of_nat nb) G1 k1 tid t fm r) as Hc1.
  { eapply calling_kept; [exact Hc|done|exact (cl_files _ _ _ _ _ _ _ _ _ Hc)|].
    split; [done|nia|by eapply directory_kept; [apply Hsub|..]|cbn; injection Hrest as _ _ -> _ _; done|done]. }
  eapply Runs_mono.
  { apply (IH k1 n room G1 Hc1 Hroom); cbn [k1 k_curPtr set_k_curPtr].
    - rewrite Z.add_mod, Hal by done. done.
    - lia.
    - lia.
    - intros a Ha. cbn. rewrite Hset by (done || unfold user; lia). rewrite bool_decide_false; [apply Hz; lia|].
      intros [_ E]. Z.to_euclidean_division_equations; lia. }
  intros [] k2 (G2 & Hc2 & Hcur2 & Hfs2 & Htm2 & Hram2 & Hd2). exists G2. cbn [k1 k_curPtr set_k_curPtr] in *.
  split; [exact Hc2|]. split; [rewrite Hcur2; lia|]. split; [done|]. split; [done|]. split; [by rewrite Hram2|].
  intros r' a Hr' Hua. rewrite Hd2 by done.
  change (tables_of (set_k_curPtr (cur + 4096) (set_k_space _ k))) with (mm_tables s1).
  rewrite Hset by done.
  destruct (decide (r' = r)) as [->|Hne]; [|by rewrite !bool_decide_false by tauto].
  destruct (decide (cur <= a < cur + 4096)) as [Hin|Hout].
  - rewrite bool_decide_false by lia. rewrite bool_decide_true by (split; [done|]; Z.to_euclidean_division_equations; lia).
    by rewrite bool_decide_true by lia.
  - rewrite (bool_decide_false (r = r /\ a / 4096 = cur / 4096)) by (intros [_ E]; Z.to_euclidean_division_equations; lia).
    by rewrite (bool_decide_ext (r = r /\ cur + 4096 <= a < cur + 4096 + 4096 * Z.of_nat nb)
      (r = r /\ cur <= a < cur + 4096 * Z.of_nat (S nb))) by lia.
Qed.

(** A program that asks for memory, and stores in it *)
Definition mmap_and_store (table : gmap Z (@SyscallHandler C)) (len offset x : Z) st : ST (Kernel C) (turn InterruptState * Z) :=
  r ← syscallHandler table (call2 (sc_number SC_mmap) 0 len st);
  match r with
  | Returned st' =>
      y ← on_space (write_byte (s_rax st' + offset) x ;; read_byte (s_rax st' + offset));
      mret (r, y)
  | _ => mret (r, 0)
  end.

(** C9. Memory on demand, from the system call to the store: [mmap] returns the next addresses and takes no memory for them; a
    store to any of them finds a physical page that no task has and is read back, the next call starts behind them, and
    nothing changes in the rest of the memory of the task or in that of another. *)
Theorem mmap_store_spec table n room G k tid t fm r st len offset x :
  register_all refillPool links text var local node all_calls ∅ = Ok table ->
  let nb := Z.to_nat ((len + 4095) / 4096) in
  calling R (3 * nb + n) (room + 1 + page_cost refillPool * Z.of_nat nb) G k tid t fm r -> 0 <= room ->
  state_ok st = true -> 0 <= offset < len -> 
  let cur := k_curPtr k in
  cur mod 4096 = 0 -> 0 <= cur -> cur + 4096 * Z.of_nat nb <= 2 ^ 47 ->
  (forall a, cur <= a < cur + 4096 * Z.of_nat nb -> pte_at (tables_of k) r a = zero_pte) ->
  Runs (mmap_and_store table len offset x st) k (fun p k' => exists G',
    p = (Returned (set_s_rax cur (call2 (sc_number SC_mmap) 0 len st)), x) /\
    calling R n room G' k' tid t fm r /\ k_curPtr k' = cur + 4096 * Z.of_nat nb /\
    (forall a, user a -> a / 4096 = (cur + offset) / 4096 -> is_Some (view (k_space k') r a)) /\
    forall r' a, R r' -> user a -> ~ (r' = r /\ a / 4096 = (cur + offset) / 4096) ->
      view (k_space k') r' a = view (k_space k) r' a).
Proof.
  intros Ht nb Hc Hroom Hok Hoff cur Hal H0 Hend Hz.
  assert (0 < len <= 4096 * Z.of_nat nb) as Hlen by (unfold nb; Z.to_euclidean_division_equations; lia).
  unfold mmap_and_store. apply Runs_bind. eapply (syscall_run table SC_mmap); [done|done|exact Hok|].
  cbn [handler_of]. unfold executor2, hndl_mmap, as_word. apply Runs_bind. cbn [s_rsi s_rdi call2 set_args].
  rewrite (proj2 (Z.eqb_neq _ _)) by lia. apply Runs_bind, Runs_gets. fold cur. apply Runs_bind.
  eapply Runs_of_ok. { unfold active_directory. by rewrite (bind_run _ _ _ _ _ (getActiveTask_calling _ _ _ _ _ _ _ _ Hc)). }
  cbn [snd]. rewrite PAGE_SIZE_eq, (wrap_small 64) by (unfold in_word; lia).
  replace (len + 4096 - 1) with (len + 4095) by lia. fold nb. apply Runs_bind.
  eapply Runs_mono; [apply (mmap_pages_run nb n (room + 1) G k tid t fm r Hc); (done || lia)|].
  intros [] k1 (G1 & Hc1 & Hcur1 & Hfs1 & Htm1 & Hram1 & Hd1). fold cur in Hcur1, Hd1.
  apply Runs_ret, Runs_ret. cbn [call_value]. rewrite (wrap_small 64) by (unfold in_word; lia).
  change (s_rax (set_s_rax cur _)) with cur. set (a := cur + offset).
  assert (user a) as Hu by (unfold user, a; lia). pose proof (cl_running _ _ _ _ _ _ _ _ _ Hc1) as Hrun1.
  assert (forall r' a', R r' -> user a' -> view (k_space k1) r' a' = view (k_space k) r' a') as Hsame.
  { intros r' a' Hr' Hu'. unfold view. rewrite Hd1, Hram1 by done. case_bool_decide as Hin; [|done].
    destruct Hin as [-> Hin]. by rewrite Hz by done. }
  apply Runs_bind, Runs_on_space, Runs_bind.
  eapply Runs_mono; [apply (write_deferred_run refillPool R n room G1 (k_space k1) (pageDirectory t) r a x Hrun1 Hroom Hu)|].
  { rewrite Hd1 by (done || apply (run_root _ _ _ _ _ _ _ Hrun1)). by rewrite bool_decide_true by (unfold a; lia). }
  intros [] sp (Hrun2 & Hx & Hpage & Hoth).
  eapply Runs_of_ok; [eapply read_byte_run; [exact Hrun2|exact Hu|exact Hx]|]. apply Runs_ret. exists G1.
  split; [done|]. split; [eapply calling_kept; [exact Hc1|done|exact (cl_files _ _ _ _ _ _ _ _ _ Hc1)|exact Hrun2]|].
  split; [exact Hcur1|]. split; [exact Hpage|].
  intros r' a' Hr' Hu' Hn. cbn [k_space set_k_space]. rewrite Hoth by done. by apply Hsame.
Qed.

(** A length near the greatest word wraps around: [mmap] maps nothing, and says where. *)
Theorem mmap_overflow n room G k tid t fm r len :
  calling R n room G k tid t fm r -> 2 ^ 64 - 4096 < len < 2 ^ 64 ->
  hndl_mmap refillPool 0 len k = Ok (Returned (k_curPtr k), k).
Proof.
  intros Hc Hlen. unfold hndl_mmap. rewrite (proj2 (Z.eqb_neq _ _)) by lia.
  erewrite bind_run; [|reflexivity].
  erewrite bind_run; [|unfold active_directory; by rewrite (bind_run _ _ _ _ _ (getActiveTask_calling _ _ _ _ _ _ _ _ Hc))].
  rewrite PAGE_SIZE_eq. unfold wrap. replace ((len + 4096 - 1) mod 2 ^ 64) with (len + 4096 - 1 - 2 ^ 64) by (apply (Z.mod_unique_pos _ _ 1); lia).
  rewrite Z.div_small by lia. done.
Qed.
End calls.

(** ** A task that opens a file and reads from it *)
Section examples.
Existing Instances example_symbols pd_allocator pool_laws pool_memory_laws FileManager.no_console.

Abbreviation example_allocator := (pd_allocator no_mapPage).
Abbreviation example_laws := (pool_laws no_mapPage).
Abbreviation example_refill := (refillPool pdPageHeap (on_kernel no_mapPage) 0).
Abbreviation example_memory := (pool_memory_laws 0).
Abbreviation example_running := (@running example_allocator example_laws example_tasks).

Definition example_caller : Task := newUserTask example_object.
Definition example_kernel (m : Space) : Kernel unit :=
  mkKernel {[ 1 := mkFileManager [] ]} FileManager.example_state.2 m
    (mkTM {[ 1 := example_caller ]} 1 2 true 0 example_object (mkCpu false 0)) new_PageHeap mmap_base ∅.
Abbreviation example_registered :=
  (@register_all unit _ (pd_allocator no_mapPage) _ example_refill 1 4 0x8000 0x9000 0xa000 all_calls ∅).
Definition example_table : gmap Z (@SyscallHandler unit) :=
  match example_registered with Ok table => table | Err _ => ∅ end.

Lemma example_table_ok : example_registered = Ok example_table.
Proof. reflexivity. Qed.

Definition example_state : InterruptState :=
  mkInterruptState 0 0 0 0 0 0 0 0 0 0 0 0 0 0 0 0x80 0 0x400123 0x23 0x200 0x7000 0x1b.

Lemma example_calling n room G m :
  example_running n room G m example_object AddressSpace.example_task ->
  @calling unit example_allocator example_laws example_tasks n room G (example_kernel m) 1 example_caller
    (mkFileManager []) AddressSpace.example_task.
Proof. by split. Qed.

(** The page is mapped, and the path is put in it; then come the two calls. *)
Lemma open_read_calls_witness :
  Runs (on_paging (@mapPage example_allocator example_refill example_object user_text ATTR_USER) ;;
        on_space (write_bytes user_text (chars "/f" ++ [0])) ;;
        open_and_read example_table user_text (user_text + 8) 2 example_state) (example_kernel example_space)
    (fun o k' => (exists st', o = Returned st' /\ s_rax st' = 2 /\ s_rip st' = 0x400123) /\
      view (k_space k') AddressSpace.example_task (user_text + 9) = Some 98).
Proof.
  assert (forall i, 0 <= i < 4096 -> user (user_text + i) /\ (user_text + i) / 4096 = user_text / 4096) as Hpage.
  { intros i Hi. unfold user, user_text. split; [lia|]. Z.to_euclidean_division_equations; lia. }
  apply Runs_bind, Runs_on_paging. eapply Runs_mono.
  - apply (@map_running example_allocator example_laws example_refill example_memory example_tasks 0 0 empty_ghost
      example_space example_object AddressSpace.example_task user_text ATTR_USER); [by apply example_is_running|done|done|done|done|done].
  - intros pa m (G' & Hrun & Hmapped).
    assert (forall i, 0 <= i < 4096 -> is_Some (view m AddressSpace.example_task (user_text + i))) as Hv.
    { intros i Hi. destruct (Hpage i Hi) as [Hu E]. specialize (Hmapped AddressSpace.example_task (user_text + i) eq_refl Hu).
      by rewrite bool_decide_true in Hmapped. }
    apply Runs_bind, Runs_on_space. eapply Runs_mono.
    + apply (@write_bytes_run example_allocator example_laws example_tasks 0 0 G' m example_object
        AddressSpace.example_task user_text (chars "/f" ++ [0])); [exact Hrun|].
      intros i Hi. change (Z.of_nat (length (chars "/f" ++ [0]))) with 3 in Hi. split; [apply Hpage; lia|apply Hv; lia].
    + intros [] m2 (Hrun2 & _ & Hview). change (Z.of_nat (length (chars "/f" ++ [0]))) with 3 in Hview.
      assert (forall i, 0 <= i < 4096 -> view m2 AddressSpace.example_task (user_text + i) =
        if i <? 3 then (chars "/f" ++ [0]) !! Z.to_nat i else view m AddressSpace.example_task (user_text + i)) as Hv2.
      { intros i Hi. rewrite Hview by (done || by apply Hpage). replace (user_text + i - user_text) with i by lia.
        destruct (Z.ltb_spec i 3); [by rewrite bool_decide_true by lia|by rewrite bool_decide_false by lia]. }
      eapply Runs_mono.
      * apply (@open_read_calls unit _ example_allocator example_laws _ example_refill example_tasks 1 4
          0x8000 0x9000 0xa000 example_table 0 0 G' (example_kernel m2) 1 example_caller (mkFileManager [])
          AddressSpace.example_task example_state user_text (chars "/f") 2
          (mkInode S_IFREG 3 (chars "f") (CpioFileInode (chars "abc"))) (chars "abc") (user_text + 8) 2);
          [exact example_table_ok|by apply example_calling|done| |cbn; lia|by vm_compute|done|done|done|done|done|done|].
        -- split; [|split].
           ++ intros i x Hi. pose proof (lookup_lt_Some _ _ _ Hi) as Hl. change (length (chars "/f")) with 2%nat in Hl.
              rewrite Hv2 by lia. rewrite (proj2 (Z.ltb_lt _ _)), Nat2Z.id by lia.
              split; [|split; [apply Hpage; lia|by apply lookup_app_l_Some]].
              destruct i as [|[|]]; [by injection Hi as <-|by injection Hi as <-|lia].
           ++ apply (Hpage 2). lia.
           ++ change (user_text + Z.of_nat (length (chars "/f"))) with (user_text + 2). cbn [k_space example_kernel]. by rewrite (Hv2 2) by lia.
        -- intros j Hj. change (Z.min 2 (data_size (chars "abc"))) with 2 in Hj.
           replace (user_text + 8 + j) with (user_text + (8 + j)) by lia. split; [apply Hpage; lia|].
           rewrite Hv2 by lia. rewrite (proj2 (Z.ltb_ge _ _)) by lia. apply Hv. lia.
      * intros o k' (st' & -> & Hrax & Hregs & _ & Hbytes & _). split; [exists st'; by injection Hregs as ? ? ? ? ? ? ? ? ? ? ? ->|].
        apply (Hbytes 1); done.
Defined.

Lemma mmap_store_spec_witness :
  Runs (mmap_and_store (example_table) 100 50 7 example_state) (example_kernel example_space) (fun p k' =>
    p = (Returned (set_s_rax mmap_base (call2 (sc_number SC_mmap) 0 100 example_state)), 7) /\
    k_curPtr k' = mmap_base + 4096).
Proof.
  eapply Runs_mono.
  - apply (@mmap_store_spec unit _ example_allocator example_laws _ example_refill example_memory example_tasks 1 4
      0x8000 0x9000 0xa000 example_table 0 0 empty_ghost (example_kernel example_space) 1 example_caller (mkFileManager [])
      AddressSpace.example_task example_state 100 50 7);
      [exact example_table_ok|by apply example_calling, example_is_running|done|done|done|done|done| |].
    + change (mmap_base + 4096 <= 2 ^ 47). unfold mmap_base. lia.
    + intros a _. apply example_empty.
  - intros p k' (G' & -> & _ & Hcur & _). split; [done|]. exact Hcur.
Defined.
End examples.
