(* ===== verification/Dispatch.v ===== *)
(** * The interrupts: [Interrupt::handle] of [Interrupt.cpp], [printStackTrace] of [Debug.cpp]

    Every exception, device interrupt and trap arrives here with the saved registers; what is done is the work of the
    components: a page fault goes to the page directory, the timer to the scheduler, a key to the terminal, a trap to
    the system calls. *)

From Stdlib Require Import ZArith Lia.
From stdpp Require Import list numbers gmap sorting.
From S2P Require Import Prelude Words Memory Pte Interrupts Tasks Devices Fs FileManager PageManager PageHeap PageDirectory.
From S2P Require Import UserSpace AddressSpace Elf Screen Tty Terminals Processes Kernel Syscalls.

Section dispatch.
Context {C : Type} `{!Console C, !TableAllocator MM, !Symbols} (refillPool : ST MM unit).
(** The ports of the machine, and [Keyboard::handleInterrupt], whose value are the tasks to wake up *)
Context (get_ports : C -> Ports) (set_ports : Ports -> C -> C) (keyboard : ST C (option (list Z))).
(** The fuel of the stack trace, and the address of a variable of [use] *)
Context (frames : nat) (var : Z).

Definition on_machine {A} (m : ST C A) : ST (Kernel C) A := on_disk (on_console m).

(** ** The stack trace *)

(** The value is what is logged: the return addresses. *)
Fixpoint printStackTrace (fuel : nat) (stackFrame : Z) : ST Space (list Z) :=
  match fuel with
  | O => fail OutOfFuel
  | S fuel =>
      current ← gets (fun s => g_currentPageDirectory (as_mm s));
      m0 ← on_mm (isPageMapped current stackFrame);
      m1 ← (if m0 : bool then on_mm (isPageMapped current (u64 (stackFrame + 8))) else mret false);
      if negb (m0 && m1) then mret []
      else
        ret ← read_bytes 8 (u64 (stackFrame + 8));
        if le_value ret =? 0 then mret []
        else
          next ← read_bytes 8 stackFrame;
          if le_value next <=? stackFrame then mret [le_value ret]
          else l ← printStackTrace fuel (le_value next); mret (le_value ret :: l)
  end.

(** [ScopedExceptionHandling]: the flag while [m] runs, [busy] being its value before *)
Definition with_exception_handling {A} (busy : bool) (m : ST (Kernel C) A) : ST (Kernel C) A :=
  if busy then panic "Nested exception" else m.

(** ** [Interrupt::handle] *)

(** An exception of the processor; [cr2] is the address of the fault, and [None] that the task can go on. *)
Definition handle_exception (busy : bool) (cr2 : Z) (s : InterruptState) : ST (Kernel C) (option outcome) :=
  handled ← (if (intNo s =? 14) && (Z.land (errCode s) 1 =? 0)
             then on_paging (current ← gets g_currentPageDirectory; handleFault current cr2)
             else mret false);
  if handled : bool then mret None
  else
    with_exception_handling busy (on_space (printStackTrace frames (s_rbp s))) ;;
    o ← switch (A := unit) var (terminateCurrentTask getStackBase);
    mret (match o with Leaves o => Some o | _ => None end).

(** An interrupt of the controller; the boolean tells that the processor has left for another task. *)
Definition handle_irq (s : InterruptState) : ST (Kernel C) (option outcome) :=
  let irq := u8 (intNo s - 32) in
  if irq =? 0 then
    active ← on_tm isTaskActive;
    (if active : bool then on_tm (saveCurrentTask (toTaskContext s)) else mret tt) ;;
    o ← switch (A := unit) var (scheduleNext getStackBase);
    mret (match o with Leaves o => Some o | _ => None end)
  else if irq =? 1 then
    woken ← on_machine keyboard;
    match woken with
    | None => fail (Undefined "sleeping in an interrupt")
    | Some l => on_tm (for_each l wakeUpTask) ;; mret None
    end
  else if negb (irq =? 7) then panic "unhandled"
  else mret None.

(** [if (!tm->isTaskActive()) tm->scheduleNext();] *)
Definition resume (s : InterruptState) : ST (Kernel C) (turn InterruptState) :=
  active ← on_tm isTaskActive;
  if active : bool then mret (Returned s) else switch var (scheduleNext getStackBase).

Definition interrupt_handle (table : gmap Z (@SyscallHandler C)) (busy : bool) (cr2 : Z) (s : InterruptState)
    : ST (Kernel C) (turn InterruptState) :=
  assertion (state_ok s) "Interrupts were disabled in a user task" ;;
  on_machine (zoom get_ports set_ports (acknowledge (intNo s))) ;;
  if intNo s <? 32 then
    o ← handle_exception busy cr2 s;
    mret (match o with None => Returned s | Some o => Leaves o end)
  else if intNo s <? 48 then
    o ← handle_irq s;
    match o with
    | Some o => mret (Leaves o)
    | None => resume s
    end
  else if intNo s =? 0x80 then
    r ← handle table s;
    match r with
    | Returned v => resume (set_s_rax v s)
    | Leaves o => mret (Leaves o)
    | Sleeps => mret Sleeps
    end
  else resume s.
End dispatch.

(** ** The trace ends: its frames go up *)
Section trace.
Implicit Types (s : Space) (m : MM).

Lemma handleFault_ends this a m (Q : bool -> MM -> Prop) : (forall b m', Q b m') -> Ends (handleFault this a) m Q.
Proof.
  intros HQ. unfold handleFault. ends_steps. apply getPage_ends. intros o. unfold load, store, memory, getFreePage, setPageUsed.
  ends_steps; apply HQ.
Qed.

(** What reading memory keeps: the bytes *)
Lemma access_ends a s (Q : Z -> Space -> Prop) :
  (forall x s', as_ram s' = as_ram s -> Q x s') -> Ends (access a) s Q.
Proof.
  intros HQ. unfold access, on_mm. ends_steps. apply resolve_ends. intros pa. ends_steps; [by apply HQ|].
  apply handleFault_ends. intros b m'. destruct b; ends_steps. apply resolve_ends. intros pa'. ends_steps. by apply HQ.
Qed.

Lemma read_bytes_ends n a s (Q : list Z -> Space -> Prop) :
  (forall a, in_word 8 (as_ram s a)) ->
  (forall l s', length l = n -> Forall (in_word 8) l -> as_ram s' = as_ram s -> Q l s') -> Ends (read_bytes n a) s Q.
Proof.
  revert a s Q. induction n as [|n IH]; intros a s Q Hw HQ; cbn [read_bytes]; [ends_steps; by apply HQ|].
  unfold read_byte. do 2 ends_step. apply access_ends. intros pa s1 E1. ends_steps. apply IH; [by rewrite E1|].
  intros l s2 Hl Hf E2. ends_steps. apply HQ; [cbn; by rewrite Hl|by apply Forall_cons; rewrite E1|congruence].
Qed.

Lemma le_value_word l : Forall (in_word 8) l -> 0 <= le_value l < 256 ^ Z.of_nat (length l).
Proof.
  induction 1 as [|x l Hx Hl IH]; cbn [le_value length]; [done|]. unfold in_word in Hx. change (2 ^ 8) with 256 in Hx.
  rewrite Nat2Z.inj_succ, Z.pow_succ_r by lia. lia.
Qed.

(** C37. The stack trace of a task that crashed ends, whatever is in its memory: each frame is above the one before, so that
    there are at most as many as there are addresses left. *)
Theorem printStackTrace_ends fuel stackFrame s :
  (forall a, in_word 8 (as_ram s a)) -> (0 < fuel)%nat -> 2 ^ 64 - stackFrame <= Z.of_nat fuel ->
  printStackTrace fuel stackFrame s <> Err OutOfFuel.
Proof.
  intros Hw Hf Hfuel.
  assert (Ends (printStackTrace fuel stackFrame) s (fun _ _ => True)) as H.
  { revert stackFrame s Hw Hf Hfuel. induction fuel as [|fuel IH]; intros stackFrame s Hw Hf Hfuel; [lia|].
    cbn [printStackTrace]. unfold on_mm. ends_steps; apply isPageMapped_ends; intros b; ends_steps; try done.
    all: try (apply isPageMapped_ends; intros b'; ends_steps; try done).
    all: apply read_bytes_ends; [exact Hw|]; intros l1 s1 _ _ E1; ends_steps; try done.
    all: apply read_bytes_ends; [by rewrite E1|]; intros l2 s2 Hl2 Hf2 E2; cbn beta.
    all: destruct (Z.leb_spec (le_value l2) stackFrame); ends_steps; try done.
    all: apply le_value_word in Hf2; rewrite Hl2 in Hf2; change (256 ^ Z.of_nat 8) with (2 ^ 64) in Hf2.
    all: eapply Ends_mono; [apply IH; [intros ?; rewrite E2, E1; apply Hw|lia|lia]|]; intros l s' _; by ends_steps. }
  unfold Ends in H. intros E. rewrite E in H. done.
Qed.
End trace.

(** ** What reaches the components *)
Section theorems.
Context {C : Type} `{!Console C, !TableAllocator MM, !TableAllocatorLaws MM mm_rest, !Symbols}.
Context (refillPool : ST MM unit) `{!MemoryLaws refillPool} (R : Z -> Prop).
Context (get_ports : C -> Ports) (set_ports : Ports -> C -> C) (keyboard : ST C (option (list Z))) (frames : nat) (var : Z).
Implicit Types (k : Kernel C) (s : InterruptState).


Lemma acknowledge_total n p : exists p', acknowledge n p = Ok (tt, p').
Proof. unfold acknowledge. destruct (n <=? 47); [|by eexists]. by destruct (40 <=? n); eexists. Qed.

(** What the acknowledgement leaves alone *)
Definition acknowledged k k' : Prop :=
  k_files k' = k_files k /\ k_space k' = k_space k /\ k_tm k' = k_tm k /\ k_stackHeap k' = k_stackHeap k /\
  inodes (k_fs k') = inodes (k_fs k) /\ handles (k_fs k') = handles (k_fs k).

Lemma acknowledge_machine n k :
  exists k', on_machine (zoom get_ports set_ports (acknowledge n)) k = Ok (tt, k') /\ acknowledged k k'.
Proof.
  destruct (acknowledge_total n (get_ports (console (k_fs k)))) as [p' Hp].
  eexists. split; [unfold on_machine, on_disk, on_console, zoom; by rewrite Hp|]. by split_and!.
Qed.

(** C12. A fault on a page that was mapped without memory is invisible: the program goes on with the same registers, its page
    has a physical page that no task has, with the rights it was mapped with, and no other page of any task changes. *)
Theorem page_fault_resumes table busy n room G k this r s cr2 :
  running R n (room + 1) G (k_space k) this r -> 0 <= room -> state_ok s = true ->
  intNo s = 14 -> Z.land (errCode s) 1 = 0 -> user cr2 ->
  let T k := mm_tables (as_mm (k_space k)) in
  is_deferred (pte_at (T k) r cr2) = true ->
  Runs (interrupt_handle get_ports set_ports keyboard frames var table busy cr2 s) k (fun o k' =>
    o = Returned s /\ running R n room G (k_space k') this r /\ k_tm k' = k_tm k /\
    as_ram (k_space k') = as_ram (k_space k) /\
    exists page, used (mm_memory (as_mm (k_space k))) page = false /\
      forall r' a, R r' -> user a -> pte_at (T k') r' a =
        if bool_decide (r' = r /\ a / 4096 = cr2 / 4096) then set_base page (set_p true (pte_at (T k) r cr2))
        else pte_at (T k) r' a).
Proof.
  intros [Hsp _ Hdir Hcur Hr] H0 Hok Hno Herr Hu T Hdef. unfold interrupt_handle. apply Runs_bind, Runs_assertion; [done|].
  destruct (acknowledge_machine (intNo s) k) as (k1 & Hack & _ & Esp & Etm & _).
  apply Runs_bind. eapply Runs_of_ok; [exact Hack|]. rewrite Hno. cbn [Z.ltb Z.compare Pos.compare Pos.compare_cont].
  unfold handle_exception. rewrite Hno, Herr. cbn [Z.eqb Pos.eqb andb].
  apply Runs_bind, Runs_bind, Runs_on_paging. unfold on_mm. apply Runs_zoom, Runs_bind, Runs_gets. rewrite Esp, Hcur.
  eapply Runs_mono; [by apply (handleFault_user refillPool R n room G _ this r cr2)|].
  intros handled mm (-> & page & Hsp' & Hdir' & Hrest & Hp & Hfree & Hset).
  apply Runs_ret, Runs_ret. split; [done|]. split; [|split; [done|split; [done|by exists page]]].
  split; [done|done|done| |done]. cbn. by injection Hrest as _ _ -> _ _.
Qed.

(** ** The timer *)

(** Every task has a directory, which maps the variable [var] of the kernel's stack as the one in use does. *)
Definition directories_ready (G : ghost) k (r : Z) : Prop :=
  forall tid t, tasks (k_tm k) !! tid = Some t -> exists r', R r' /\
    directory_ok G (as_mm (k_space k)) (pageDirectory t) r' /\
    pte_at (mm_tables (as_mm (k_space k))) r var = pte_at (mm_tables (as_mm (k_space k))) r' var.

(** Going to a task: its page directory is the one in use afterwards, and the memory is as it was. *)
Lemma switch_run {A} (op : ST TaskManager outcome) n room G k this r m2 tid' t' r' (Q : turn A -> Kernel C -> Prop) :
  running R n room G (k_space k) this r -> op (k_tm k) = Ok (Jump tid' (context t'), m2) ->
  current_directory m2 = pageDirectory t' -> R r' ->
  directory_ok G (as_mm (k_space k)) (pageDirectory t') r' ->
  pte_at (mm_tables (as_mm (k_space k))) r var = pte_at (mm_tables (as_mm (k_space k))) r' var ->
  (forall sp, running R n room G sp (pageDirectory t') r' -> (forall r0 a, view sp r0 a = view (k_space k) r0 a) ->
     Q (Leaves (Jump tid' (context t'))) (set_k_space sp (set_k_tm m2 k))) ->
  Runs (switch var op) k Q.
Proof.
  intros [Hsp H0 Hdir Hcur Hr] Hop Hcd Hr' Hdir' Hvar HQ. unfold switch.
  apply Runs_bind. eapply Runs_of_ok; [unfold on_tm, zoom; by rewrite Hop|].
  apply Runs_bind. eapply Runs_of_ok; [apply on_tm_same; reflexivity|]. cbn [k_tm set_k_tm]. rewrite Hcd.
  destruct (use_run G (as_mm (k_space k)) this (pageDirectory t') r r' var Hcur Hdir Hdir' (sp_ready _ _ _ _ _ Hsp) Hvar) as [cr3 Huse].
  apply Runs_bind. eapply Runs_of_ok.
  { unfold on_paging, on_space, on_mm, zoom. cbn [k_space set_k_tm]. rewrite Huse. reflexivity. }
  apply Runs_ret. apply HQ; [|done].
  destruct Hsp as [Hwf Hroot Hap Hrdy Hmem Hroom Hal Hus Hinj]. split; [|done| |done|done].
  - split; try done. by apply alloc_ready_use.
  - split; [done|by apply Hroot|]. exact (dir_object _ _ _ _ Hdir').
Qed.

Lemma saveCurrentTask_run m tid t ctx :
  activeTask m = tid -> tid <> 0 -> tasks m !! tid = Some t -> context_ok ctx = true ->
  saveCurrentTask ctx m = Ok (tt, set_tasks (<[tid := set_context ctx t]> (tasks m)) m).
Proof.
  intros <- Ha Ht Hctx. unfold saveCurrentTask. apply masked_run; [|done]. intros c.
  rewrite (bind_run _ _ _ _ _ (getActiveTask_run (set_cpu c m) t Ha Ht)). cbn [fst].
  erewrite bind_run; [|reflexivity]. unfold assertion. rewrite Hctx. do 2 f_equal. unfold set_tasks, set_cpu. cbn. f_equal.
  rewrite <- (insert_id (tasks m) (activeTask m) t Ht) at 1. by rewrite alter_insert_eq.
Qed.

Lemma schedulable_saved m tid t ctx :
  schedulable m -> tasks m !! tid = Some t -> state t = Runnable -> context_ok ctx = true ->
  schedulable (set_tasks (<[tid := set_context ctx t]> (tasks m)) m).
Proof.
  intros [H1 H2 H3 H4 H5 H6] Ht Hst Hctx. split; cbn [tasks set_tasks activeTask cpu]; [| |done|done| |].
  - intros i t' Hi. apply lookup_insert_Some in Hi as [[<- _]|[_ Hi]]; by eapply H1.
  - unfold no_task_zero in *. rewrite lookup_insert_ne; [done|]. intros ->. congruence.
  - exists tid, (set_context ctx t). rewrite lookup_insert_eq. split; [done|]. cbn. by rewrite Hst.
  - intros i t' Hi. apply lookup_insert_Some in Hi as [[_ <-]|[_ Hi]]; [done|by eapply H6].
Qed.

(** C11. Preemption: the timer keeps the registers of the running task, all of them, as the context it will go on with, and gives
    the processor to the next runnable task in the round, with its own context and page directory; a task that is
    alone goes on with the registers it had. *)
Theorem timer_preempts table busy cr2 n room G k this r s tid t :
  running R n room G (k_space k) this r -> state_ok s = true -> intNo s = 32 ->
  schedulable (k_tm k) -> activeTask (k_tm k) = tid -> tid <> 0 -> tasks (k_tm k) !! tid = Some t -> state t = Runnable ->
  directories_ready G k r ->
  let saved := <[tid := set_context (toTaskContext s) t]> (tasks (k_tm k)) in
  Runs (interrupt_handle get_ports set_ports keyboard frames var table busy cr2 s) k (fun o k' => exists tid' t' r',
    round_robin tid (ordered saved) = Some (tid', t') /\ saved !! tid' = Some t' /\ state t' = Runnable /\
    o = Leaves (Jump tid' (context t')) /\ (tid' = tid -> context t' = toTaskContext s) /\
    tasks (k_tm k') = saved /\ activeTask (k_tm k') = tid' /\
    running R n room G (k_space k') (pageDirectory t') r' /\
    forall r0 a, view (k_space k') r0 a = view (k_space k) r0 a).
Proof.
  intros Hrun Hok Hno Hsched Hact Hnz Ht Hst Hdirs saved. unfold interrupt_handle. apply Runs_bind, Runs_assertion; [done|].
  destruct (acknowledge_machine (intNo s) k) as (k1 & Hack & _ & Esp & Etm & _).
  apply Runs_bind. eapply Runs_of_ok; [exact Hack|]. rewrite Hno. cbn [Z.ltb Z.compare Pos.compare Pos.compare_cont].
  unfold handle_irq. rewrite Hno. change (u8 (32 - 32) =? 0) with true. cbv match.
  assert (context_ok (toTaskContext s) = true) as Hctx by exact Hok.
  apply Runs_bind, Runs_bind. eapply Runs_of_ok.
  { apply on_tm_same. unfold isTaskActive, gets. by rewrite Etm, Hact, (proj2 (Z.eqb_neq _ _)). }
  cbn [negb]. cbv match. apply Runs_bind. eapply Runs_of_ok.
  { unfold on_tm, zoom. rewrite Etm, (saveCurrentTask_run _ tid t _ Hact Hnz Ht Hctx). reflexivity. }
  set (m1 := set_tasks _ (k_tm k)).
  assert (schedulable m1) as Hsched1 by by apply schedulable_saved.
  destruct (proj1 (Runs_ok _ _ _) (scheduleNext_run getStackBase m1 Hsched1)) as (o & m2 & Hnext & Htasks & Hrr).
  change (tasks m1) with saved in *. change (activeTask m1) with (activeTask (k_tm k)) in Hrr. rewrite Hact in Hrr.
  destruct (round_robin tid (ordered saved)) as [[tid' t']|] eqn:Hround.
  2:{ exfalso. destruct Hrr as (_ & _ & _ & _ & Hnone). apply (Hnone tid (set_context (toTaskContext s) t)); [apply lookup_insert_eq|done]. }
  destruct Hrr as (-> & Hst' & Ht' & Hact' & Hcd & _).
  assert (exists told, tasks (k_tm k) !! tid' = Some told /\ pageDirectory told = pageDirectory t') as (told & Htold & Epd).
  { unfold saved in Ht'. apply lookup_insert_Some in Ht' as [[<- <-]|[_ Ht']]; [by exists t|by exists t']. }
  destruct (Hdirs tid' told Htold) as (r' & Hr' & Hdir' & Hvar). rewrite Epd in Hdir'.
  apply Runs_bind, (switch_run _ n room G (set_k_tm m1 k1) this r m2 tid' t' r');
    cbn [k_space set_k_tm]; rewrite ?Esp; [exact Hrun|exact Hnext|exact Hcd|exact Hr'|exact Hdir'|exact Hvar|].
  intros sp Hrun' Hview. apply Runs_ret, Runs_ret. exists tid', t', r'.
  split; [done|]. split; [done|]. split; [done|]. split; [done|]. split.
  { intros ->. unfold saved in Ht'. rewrite lookup_insert_eq in Ht'. by injection Ht' as <-. }
  split; [exact Htasks|]. split; [exact Hact'|]. by split.
Qed.

(** ** The end of a task *)

(** The tasks once [tid] has ended: it is a zombie, and the first of those that wait for it is runnable again. *)
Definition ended (ts : gmap Z Task) (tid : Z) (i : Z) : option Task :=
  t ← ts !! tid;
  if i =? tid then Some (set_waiters (tail (stateCond_waiters t)) (set_state Zombie t))
  else if bool_decide (head (stateCond_waiters t) = Some i) then set_state Runnable <$> ts !! i
  else ts !! i.

Lemma after_death_ended m t i :
  tasks m !! activeTask m = Some t -> activeTask m ∉ stateCond_waiters t ->
  after_death m t !! i = ended (tasks m) (activeTask m) i.
Proof.
  intros Ht Hw. unfold after_death, ended. rewrite Ht. cbn [mbind option_bind].
  destruct (stateCond_waiters t) as [|w l] eqn:El; cbn [tail head].
  - rewrite bool_decide_false by done. destruct (Z.eqb_spec i (activeTask m)) as [->|Hi].
    + rewrite lookup_insert_eq. f_equal. destruct t. cbn in *. by subst.
    + by rewrite lookup_insert_ne.
  - apply not_elem_of_cons in Hw as [Hw _]. destruct (Z.eqb_spec i (activeTask m)) as [->|Hi].
    + by rewrite lookup_alter_ne, lookup_insert_eq.
    + case_bool_decide as E.
      * injection E as ->. by rewrite lookup_alter_eq, lookup_insert_ne.
      * rewrite lookup_alter_ne by congruence. by rewrite lookup_insert_ne.
Qed.

(** What a task keeps when another one ends *)
Lemma ended_kept ts tid i t' :
  ended ts tid i = Some t' -> exists t, ts !! i = Some t /\ pageDirectory t' = pageDirectory t /\ context t' = context t /\
    (i <> tid -> state t <> Zombie -> state t' <> Zombie).
Proof.
  unfold ended. destruct (ts !! tid) as [u|] eqn:Hu; [|done]. cbn [mbind option_bind].
  destruct (Z.eqb_spec i tid) as [->|Hi]; [intros [= <-]; by exists u|].
  case_bool_decide; [|intros Ht'; by exists t'].
  destruct (ts !! i) as [t|]; [|done]. intros [= <-]. by exists t.
Qed.

Lemma next_runnable_first id l x y :
  StronglySorted tid_lt l -> next_runnable id l = Some x -> y ∈ l -> id < y.1 -> is_runnable y.2 = true -> x.1 <= y.1.
Proof.
  induction l as [|z l IH]; intros Hs Hx Hy Hid Hr; [by apply elem_of_nil in Hy|].
  apply StronglySorted_inv in Hs as [Hs Hz]. cbn [next_runnable] in Hx.
  apply elem_of_cons in Hy as [->|Hy].
  - rewrite (proj2 (Z.ltb_lt _ _) Hid), Hr in Hx. injection Hx as ->. lia.
  - destruct ((id <? z.1) && is_runnable z.2); [|by apply IH].
    injection Hx as ->. apply list_elem_of_In in Hy. rewrite List.Forall_forall in Hz. apply Hz in Hy. unfold tid_lt in Hy. lia.
Qed.

Lemma schedulable_dead m t b :
  schedulable m -> tasks m !! activeTask m = Some t -> activeTask m ∉ stateCond_waiters t ->
  (exists tid' t', tid' <> activeTask m /\ tasks m !! tid' = Some t' /\ state t' <> Zombie) ->
  schedulable (set_timer_masked b (set_tasks (after_death m t) (set_activeTask 0 m))).
Proof.
  intros [H1 H2 H3 H4 _ H6] Ht Hw (tid' & t' & Hne & Ht' & Hz).
  split; cbn [tasks set_tasks set_timer_masked activeTask set_activeTask cpu]; [| |done|done| |].
  - intros i u Hi. rewrite after_death_ended in Hi by done. apply ended_kept in Hi as (u0 & Hi & _). by eapply H1.
  - unfold no_task_zero in *. destruct (after_death m t !! 0) as [u|] eqn:E; [|done].
    rewrite after_death_ended in E by done. apply ended_kept in E as (u0 & Hi & _). congruence.
  - exists tid'. destruct (after_death m t !! tid') as [u|] eqn:E.
    + exists u. split; [done|]. rewrite after_death_ended in E by done. apply ended_kept in E as (u0 & Hi & _ & _ & Hk).
      apply Hk; [done|]. by replace u0 with t' by congruence.
    + rewrite after_death_ended in E by done. unfold ended in E. rewrite Ht in E. cbn [mbind option_bind] in E.
      rewrite (proj2 (Z.eqb_neq tid' _)) in E by done. rewrite Ht' in E. by case_bool_decide.
  - intros i u Hi. rewrite after_death_ended in Hi by done. apply ended_kept in Hi as (u0 & Hi & _ & -> & _). by eapply H6.
Qed.

End theorems.

(** ** The machine: the terminal, its keyboard, and two tasks *)
Section machine.
Context (p task : Z).

#[local] Instance keyboard_console : Console Keyboard := {|
  tty_readInto size := zoom terminal set_terminal (@tty_readInto _ (tty_console p task) size);
  screen_putString bytes := zoom terminal set_terminal (@screen_putString _ (tty_console p task) bytes);
|}.

Definition keyboard_ports (k : Keyboard) : Ports := ports (terminal k).2.
Definition set_keyboard_ports (q : Ports) (k : Keyboard) : Keyboard :=
  set_terminal ((terminal k).1, Screen.set_ports q (terminal k).2) k.
End machine.

Section examples.
Existing Instances example_symbols pd_allocator pool_laws pool_memory_laws.
Abbreviation example_allocator := (pd_allocator no_mapPage).
Abbreviation example_laws := (pool_laws no_mapPage).
Abbreviation example_refill := (refillPool pdPageHeap (on_kernel no_mapPage) 0).
Abbreviation example_memory := (pool_memory_laws 0).
Abbreviation example_console := (keyboard_console 0x100 1).
Definition machine_table : gmap Z (@SyscallHandler Keyboard) :=
  match @register_all Keyboard example_console example_allocator _ example_refill 1 4 0x8000 0x9000 0xa000 all_calls ∅ with
  | Ok table => table
  | Err _ => ∅
  end.
Abbreviation example_handle := (@interrupt_handle Keyboard _ keyboard_ports set_keyboard_ports
  (handleInterrupt 0x100 1) 8 0xffffffffd0000000 machine_table false).

Definition first_task : Task := newUserTask AddressSpace.example_task.
Definition second_task : Task := newUserTask second_object.
Definition machine (m : Space) : Kernel Keyboard :=
  mkKernel {[ 1 := mkFileManager [] ]} (mkFs ∅ ∅ 1 0 (mkKeyboard false false example_tty)) m
    (mkTM (<[ 1 := first_task ]> {[ 2 := second_task ]}) 1 3 false 0 AddressSpace.example_task (mkCpu false 0)) new_PageHeap mmap_base ∅.
Definition interrupted (no err : Z) : InterruptState :=
  mkInterruptState 1 2 3 4 5 6 7 8 9 10 11 12 13 14 15 no err 0x400123 0x23 0x200 0x7000 0x1b.

(** The timer interrupts the first task: the second gets its turn. *)
Lemma timer_preempts_witness :
  Runs (example_handle 0 (interrupted 32 0)) (machine (mkSpace both_mm (fun _ => 0))) (fun o k' =>
    o = Leaves (Jump 2 (context second_task)) /\
    context <$> tasks (k_tm k') !! 1 = Some (mkContext 1 2 3 4 5 6 7 8 9 10 11 12 13 14 15 0x400123 0x23 0x200 0x7000 0x1b)).
Proof.
  eapply Runs_mono.
  - apply (@timer_preempts Keyboard example_allocator example_laws _ example_refill example_memory both_tasks keyboard_ports set_keyboard_ports
      (handleInterrupt 0x100 1) 8 0xffffffffd0000000 machine_table false 0 18 0 both_ghost
      (machine (mkSpace both_mm (fun _ => 0))) AddressSpace.example_task (root_of 0) (interrupted 32 0) 1 first_task).
    + by apply both_running.
    + done.
    + done.
    + split; [| |done|done|by exists 1, first_task|].
      * intros tid t Ht. cbn [tasks k_tm machine] in Ht. unfold in_word.
        apply lookup_insert_Some in Ht as [[<- _]|[_ [<- _]%lookup_singleton_Some]]; lia.
      * done.
      * intros tid t Ht. cbn [tasks k_tm machine] in Ht.
        by apply lookup_insert_Some in Ht as [[_ <-]|[_ [_ <-]%lookup_singleton_Some]].
    + done.
    + done.
    + done.
    + done.
    + intros tid t Ht. cbn [tasks k_tm machine] in Ht.
      apply lookup_insert_Some in Ht as [[_ <-]|[_ [_ <-]%lookup_singleton_Some]].
      * exists (root_of 0). split; [by left|]. split; [|done]. apply (run_directory _ _ _ _ _ _ _ (both_running 0 (fun _ => 0) ltac:(lia))).
      * exists (root_of 1). split; [by right|]. split; [exact second_directory|done].
  - intros o k' (tid' & t' & r' & Hrr & _ & _ & -> & _ & -> & _).
    replace (round_robin _ _) with (Some (2, second_task)) in Hrr by (by vm_compute). injection Hrr as <- <-.
    split; [done|]. by vm_compute.
Defined.

(** The task 2 ends, for which the task 1 waits. *)
Definition waiting_parent : Task := set_state Sleeping (newUserTask second_object).
Definition ending_child : Task := set_waiters [1] (newUserTask AddressSpace.example_task).
Definition family_machine : Kernel Keyboard :=
  mkKernel {[ 1 := mkFileManager [] ]} (mkFs ∅ ∅ 1 0 (mkKeyboard false false example_tty)) (mkSpace both_mm (fun _ => 0))
    (mkTM (<[ 1 := waiting_parent ]> {[ 2 := ending_child ]}) 2 3 false 0 AddressSpace.example_task (mkCpu false 0)) new_PageHeap mmap_base ∅.

Lemma family_tasks tid t :
  tasks (k_tm family_machine) !! tid = Some t -> tid = 1 /\ t = waiting_parent \/ tid = 2 /\ t = ending_child.
Proof.
  cbn [tasks k_tm family_machine]. intros Ht.
  apply lookup_insert_Some in Ht as [[<- <-]|[_ [<- <-]%lookup_singleton_Some]]; tauto.
Qed.

Lemma machine_table_ok :
  @register_all Keyboard example_console example_allocator _ example_refill 1 4 0x8000 0x9000 0xa000 all_calls ∅ = Ok machine_table.
Proof. reflexivity. Qed.


(** The page is mapped without memory; the fault at its first use goes unnoticed. *)
Lemma page_fault_resumes_witness :
  Runs (on_paging (@mapPage example_allocator example_refill AddressSpace.example_task user_text (Z.lor ATTR_USER ATTR_DEFER)) ;;
        example_handle (user_text + 5) (interrupted 14 4)) (machine (mkSpace both_mm (fun _ => 0))) (fun o k' =>
    o = Returned (interrupted 14 4) /\ is_Some (view (k_space k') (root_of 0) user_text)).
Proof.
  pose proof (both_running 2 (fun _ => 0) ltac:(lia)) as [Hsp _ Hdir Hcur Hr]. cbn [as_mm] in *.
  apply Runs_bind, Runs_on_paging. unfold on_mm. apply Runs_zoom. eapply Runs_mono.
  - apply (@mapPage_user example_allocator example_laws example_refill example_memory both_tasks 15 1 both_ghost
      both_mm AddressSpace.example_task (root_of 0) user_text (Z.lor ATTR_USER ATTR_DEFER)); [exact Hsp|done|exact Hdir|exact Hr|done|done|by vm_compute].
  - intros pa s (G' & base & Hsp' & Hsub & Hrest & Hmem & Hset & Hpa).
    change (has_attr (Z.lor ATTR_USER ATTR_DEFER) ATTR_DEFER) with true in Hpa. destruct Hpa as [-> ->].
    assert (@running example_allocator example_laws both_tasks 15 1 G' (mkSpace s (fun _ => 0)) AddressSpace.example_task (root_of 0)) as Hrun.
    { split; [exact Hsp'|done|by eapply directory_kept; [apply Hsub|exact Hdir|..]| |exact Hr]. injection Hrest as _ _ E _ _. exact E. }
    assert (pte_at (mm_tables s) (root_of 0) user_text =
      AttributeSetter (Z.lor ATTR_USER ATTR_DEFER) (set_base INVALID_PAGE (set_p true zero_pte))) as He.
    { rewrite (Hset (root_of 0) user_text Hr ltac:(done)). by rewrite bool_decide_true. }
    eapply Runs_mono.
    + apply (@page_fault_resumes Keyboard example_allocator example_laws _ example_refill example_memory both_tasks keyboard_ports
        set_keyboard_ports (handleInterrupt 0x100 1) 8 0xffffffffd0000000 machine_table false 15 0 G'
        (set_k_space (mkSpace s (fun _ => 0)) (machine (mkSpace both_mm (fun _ => 0)))) AddressSpace.example_task (root_of 0) (interrupted 14 4)
        (user_text + 5)); [exact Hrun|done|done|done|done|done|].
      change (is_deferred (pte_at (mm_tables s) (root_of 0) (user_text + 5)) = true).
      assert (pte_at (mm_tables s) (root_of 0) (user_text + 5) = pte_at (mm_tables s) (root_of 0) user_text) as ->.
      { unfold pte_at. rewrite (walk_same_page _ LevelCount 3 (root_of 0) (user_text + 5) user_text); [done|unfold LevelCount; lia|done]. }
      by rewrite He.
    + intros o k' (-> & _ & _ & _ & page & _ & Hpages). split; [done|]. unfold view.
      rewrite (Hpages (root_of 0) user_text Hr ltac:(done)), bool_decide_true by done. done.
Defined.

Lemma printStackTrace_ends_witness :
  printStackTrace 5 (2 ^ 64 - 5) (mkSpace both_mm (fun _ => 255)) <> Err OutOfFuel.
Proof. apply (printStackTrace_ends 5 (2 ^ 64 - 5) (mkSpace both_mm (fun _ => 255))); [done|lia|done]. Defined.
End examples.
