(* ===== verification/Returns.v ===== *)
(** * What the kernel goes back to

    However the kernel is entered, by a system call, an exception or an interrupt, it goes back with typed registers: the
    program it interrupted goes on with its own, a system call changing [rax] alone to a 64-bit value, or another task gets a
    context that may be interrupted. *)

From Stdlib Require Import ZArith Lia.
From stdpp Require Import list numbers gmap.
From S2P Require Import Prelude Words Interrupts Tasks Fs FileManager PageManager PageHeap PageDirectory.
From S2P Require Import UserSpace AddressSpace Elf Kernel Syscalls Devices Tty Dispatch.

(** The context that the processor goes to may be interrupted, or is the kernel's own. *)
Definition outcome_ok (o : outcome) : Prop := match o with Jump _ ctx => context_ok ctx = true | Halt => True end.

Definition turn_ok {A} (P : A -> Prop) (r : turn A) : Prop :=
  match r with Returned a => P a | Leaves o => outcome_ok o | Sleeps => True end.

Lemma scheduleNext_typed stackBase m : Holds (scheduleNext stackBase) m (fun o _ => outcome_ok o).
Proof.
  unfold scheduleNext. apply Holds_bind. apply (Holds_mono _ _ (fun o _ => match o with Some o => outcome_ok o | None => True end)).
  - unfold tryScheduleNext. apply Holds_then. intros m0 s0. apply Holds_assert. intros _. apply Holds_then. intros [[tid t]|] s1; [|done].
    apply Holds_then. intros _ s2. apply Holds_assert. intros Hok. apply Holds_then. intros _ s3. apply Holds_then. intros _ s4. exact Hok.
  - intros [o|] s Ho; [exact Ho|]. unfold enterSleep. do 3 (apply Holds_then; intros ? ?). done.
Qed.

Lemma terminate_typed stackBase m : Holds (terminateCurrentTask stackBase) m (fun o _ => outcome_ok o).
Proof.
  unfold terminateCurrentTask. do 3 (apply Holds_then; intros ? ?). destruct (_ =? 1); [done|].
  do 6 (apply Holds_then; intros ? ?). apply scheduleNext_typed.
Qed.

Lemma rescheduleSelf_typed m : Holds rescheduleSelf m (fun o _ => outcome_ok o).
Proof. unfold rescheduleSelf. do 3 (apply Holds_then; intros ? ?). apply Holds_assert. intros Hok. exact Hok. Qed.

Section returns.
Context {C : Type} `{!Console C, !TableAllocator MM, !Symbols} (refillPool : ST MM unit).
Context (links text : nat) (var local node : Z).

Lemma switch_typed {A} (P : A -> Prop) (m : ST TaskManager outcome) (k : Kernel C) :
  (forall s, Holds m s (fun o _ => outcome_ok o)) -> Holds (switch (A := A) var m) k (fun r _ => turn_ok P r).
Proof.
  intros Hm. unfold switch. apply Holds_bind. apply (Holds_mono _ _ (fun o _ => outcome_ok o)); [by apply Holds_zoom|].
  intros o s Ho. do 2 (apply Holds_then; intros ? ?). exact Ho.
Qed.

Lemma exec_typed {K} `{!UserOps K} f args (s : Exec C K) :
  Holds (exec f args) s (fun o _ => match o with Some o => outcome_ok o | None => True end).
Proof.
  unfold exec. apply Holds_then. intros [[bytes|] f'] s1; [|done]. apply Holds_then. intros hdr s2. destruct (negb _); [done|].
  do 2 (apply Holds_then; intros ? ?). destruct (negb _); [done|]. do 5 (apply Holds_then; intros ? ?).
  apply Holds_bind. apply (Holds_mono _ _ (fun o _ => outcome_ok o)); [|done]. apply Holds_zoom, rescheduleSelf_typed.
Qed.

(** A handler that does not go to another task *)
Definition stays {A} (m : ST (Kernel C) (turn A)) : Prop := forall k, Holds m k (fun r _ => match r with Leaves _ => False | _ => True end).

Ltac stays := intros k; repeat (first [done | apply Holds_then; intros ? ? | progress cbn beta iota | case_match]).

Lemma stays_all :
  (forall path, stays (@hndl_open C _ links text path)) /\ (forall fd, stays (hndl_close fd)) /\
  (forall fd buf n, stays (hndl_read fd buf n)) /\ (forall fd buf n, stays (hndl_write fd buf n)) /\
  (forall c a, stays (hndl_arch_prctl c a)) /\ (forall a n, stays (hndl_mmap refillPool a n)) /\
  (forall p s o r, stays (hndl_wait4 var local p s o r)) /\ (forall b, stays (hndl_print text b)) /\
  stays hndl_fstat /\ (forall d p b f, stays (hndl_newfstatat links text d p b f)) /\
  (forall st f s p c r, stays (hndl_clone refillPool local node st f s p c r)).
Proof.
  unfold hndl_open, hndl_close, hndl_read, hndl_write, hndl_arch_prctl, hndl_mmap, hndl_wait4, wait4_end, hndl_print, hndl_fstat, hndl_newfstatat, hndl_clone.
  split_and!; intros; stays.
Qed.

Lemma call_value_typed (m : ST (Kernel C) (turn Z)) k :
  Holds m k (fun r _ => match r with Leaves o => outcome_ok o | _ => True end) ->
  Holds (r ← m; mret (call_value r)) k (fun r _ => turn_ok (in_word 64) r).
Proof.
  intros Hm. apply Holds_bind. apply (Holds_mono _ _ _ _ Hm). intros [v|o|] s Ho; [by apply wrap_range|exact Ho|done].
Qed.

Lemma call_void_typed (m : ST (Kernel C) (turn unit)) k :
  Holds m k (fun r _ => match r with Leaves o => outcome_ok o | _ => True end) ->
  Holds (r ← m; mret (call_void r)) k (fun r _ => turn_ok (in_word 64) r).
Proof.
  intros Hm. apply Holds_bind. apply (Holds_mono _ _ _ _ Hm). intros [v|o|] s Ho; [done|exact Ho|done].
Qed.

Lemma stays_typed {A} (m : ST (Kernel C) (turn A)) k :
  stays m -> Holds m k (fun r _ => match r with Leaves o => outcome_ok o | _ => True end).
Proof. intros Hm. eapply Holds_mono; [apply Hm|]. by intros []. Qed.

Lemma execve_typed filename argv envp (k : Kernel C) :
  Holds (hndl_execve refillPool links text var local filename argv envp) k (fun r _ => match r with Leaves o => outcome_ok o | _ => True end).
Proof.
  unfold hndl_execve. apply Holds_then. intros name s1. destruct (negb _); [done|]. apply Holds_then. intros [target|] s2; [|done].
  apply Holds_then. intros [handle|] s3; [|done]. do 3 (apply Holds_then; intros ? ?).
  apply Holds_bind. eapply Holds_mono; [by apply Holds_zoom, exec_typed|]. by intros [o|] s Ho.
Qed.

Abbreviation calls := (handler_of refillPool links text var local node).

(** Every system call of the table *)
Lemma handler_typed sc st (k : Kernel C) : Holds (calls sc st) k (fun r _ => turn_ok (in_word 64) r).
Proof.
  destruct stays_all as (H1 & H2 & H3 & H4 & H5 & H6 & H7 & H8 & H9 & H10 & H11).
  destruct sc; unfold handler_of, executor0, executor1, executor2, executor3, executor4, executor_state5;
    first [apply call_value_typed | apply call_void_typed]; first [apply execve_typed | solve [apply stays_typed; try unfold hndl_openat; auto] | idtac].
  unfold hndl_exit. eapply Holds_mono; [apply (switch_typed (fun _ => True)); intros s; apply terminate_typed|]. by intros [].
Qed.

Lemma register_all_lookup l table0 table id h :
  register_all refillPool links text var local node l table0 = Ok table -> table !! id = Some h ->
  (exists sc, h = calls sc) \/ table0 !! id = Some h.
Proof.
  revert table0. induction l as [|sc l IH]; intros table0 Hr Hid; cbn [register_all] in Hr; [right; by injection Hr as ->|].
  unfold registerHandler in Hr. destruct (_ <? _); [|done]. destruct (IH _ Hr Hid) as [?|H0]; [by left|].
  apply lookup_insert_Some in H0 as [[_ <-]|[_ H0]]; [left; by exists sc|by right].
Qed.

Lemma handle_typed table st (k : Kernel C) :
  register_all refillPool links text var local node all_calls ∅ = Ok table ->
  Holds (handle table st) k (fun r _ => state_ok st = true /\ turn_ok (in_word 64) r).
Proof.
  intros Ht. unfold handle. apply Holds_assert. intros Hok. apply Holds_assert. intros _.
  destruct (table !! s_rax st) as [h|] eqn:Hh; [|by split].
  destruct (register_all_lookup _ _ _ _ _ Ht Hh) as [[sc ->]|Hn]; [|by rewrite lookup_empty in Hn].
  eapply Holds_mono; [apply handler_typed|]. by intros r s Hr.
Qed.

(** ** The entries *)
Context (get_ports : C -> Ports) (set_ports : Ports -> C -> C) (keyboard : ST C (option (list Z))) (frames : nat).

(** What the kernel, entered with the registers [st], goes back to; [value]: it was a system call. *)
Definition resumes (value : bool) (st : InterruptState) (r : turn InterruptState) : Prop :=
  turn_ok (fun st' => state_ok st' = true /\
    if value then exists v, in_word 64 v /\ st' = set_s_rax v st else st' = st) r.

Lemma set_rax_ok v st : state_ok (set_s_rax v st) = state_ok st.
Proof. done. Qed.

Lemma syscallHandler_typed table st (k : Kernel C) :
  register_all refillPool links text var local node all_calls ∅ = Ok table ->
  Holds (syscallHandler table st) k (fun r _ => resumes true st r).
Proof.
  intros Ht. unfold syscallHandler. apply Holds_bind. eapply Holds_mono; [by apply handle_typed|].
  intros [v|o|] s [Hok Hr]; [|exact Hr|done]. split; [by rewrite set_rax_ok|]. by exists v.
Qed.

Lemma resume_typed st (k : Kernel C) (P : InterruptState -> Prop) : P st -> Holds (resume var st) k (fun r _ => turn_ok P r).
Proof.
  intros HP. unfold resume. apply Holds_then. intros [] s; [exact HP|]. apply switch_typed. intros m. apply scheduleNext_typed.
Qed.

Lemma leaves_typed (m : ST (Kernel C) (turn unit)) k :
  Holds m k (fun r _ => turn_ok (fun _ => True) r) ->
  Holds (o ← m; mret (match o with Leaves o => Some o | _ => None end)) k (fun o _ => match o with Some o => outcome_ok o | None => True end).
Proof. intros Hm. apply Holds_bind. eapply Holds_mono; [exact Hm|]. by intros []. Qed.

Lemma interrupt_typed table busy cr2 st (k : Kernel C) :
  register_all refillPool links text var local node all_calls ∅ = Ok table ->
  Holds (interrupt_handle get_ports set_ports keyboard frames var table busy cr2 st) k (fun r _ => resumes (intNo st =? 0x80) st r).
Proof.
  intros Ht. unfold interrupt_handle. apply Holds_assert. intros Hok. apply Holds_then. intros _ s1. unfold resumes.
  destruct (Z.ltb_spec (intNo st) 32); [|destruct (Z.ltb_spec (intNo st) 48)].
  - rewrite (proj2 (Z.eqb_neq _ _)) by lia. apply Holds_bind. apply (Holds_mono _ _ (fun o _ => match o with Some o => outcome_ok o | None => True end)).
    + unfold handle_exception. apply Holds_then. intros [] s2; [done|]. apply Holds_then. intros _ s3. apply leaves_typed.
      apply switch_typed. intros m. apply terminate_typed.
    + by intros [o|] s Ho.
  - rewrite (proj2 (Z.eqb_neq _ _)) by lia. apply Holds_bind. apply (Holds_mono _ _ (fun o _ => match o with Some o => outcome_ok o | None => True end)).
    + unfold handle_irq. destruct (_ =? 0); [|destruct (_ =? 1); [|by destruct (negb _)]].
      * do 2 (apply Holds_then; intros ? ?). apply leaves_typed. apply switch_typed. intros m. apply scheduleNext_typed.
      * apply Holds_then. intros [l|] s2; [|done]. by apply Holds_then.
    + intros [o|] s Ho; [exact Ho|]. by apply resume_typed.
  - destruct (intNo st =? 0x80); [|by apply resume_typed]. apply Holds_bind. eapply Holds_mono; [by apply handle_typed|].
    intros [v|o|] s [_ Hr]; [|exact Hr|done]. apply resume_typed. split; [by rewrite set_rax_ok|]. by exists v.
Qed.

(** Whichever way the kernel is entered, the processor goes back to registers that may be interrupted: those of the program,
    but for a 64-bit [rax] when it has made a system call, or the context of another task. *)
Theorem kernel_returns_typed table busy cr2 st (k : Kernel C) r k' :
  register_all refillPool links text var local node all_calls ∅ = Ok table ->
  (syscallHandler table st k = Ok (r, k') -> resumes true st r) /\
  (interrupt_handle get_ports set_ports keyboard frames var table busy cr2 st k = Ok (r, k') -> resumes (intNo st =? 0x80) st r).
Proof.
  intros Ht. split; intros Hr.
  - exact (Holds_ok _ _ _ _ _ (syscallHandler_typed table st k Ht) Hr).
  - exact (Holds_ok _ _ _ _ _ (interrupt_typed table busy cr2 st k Ht) Hr).
Qed.
End returns.

(** ** The theorem at work: [close] of a descriptor that is not open gives [-1], as a 64-bit word *)
Section examples.
Existing Instances example_symbols pd_allocator pool_laws pool_memory_laws.
Existing Instance FileManager.no_console.

Definition close_call : InterruptState := call1 (sc_number SC_close) 5 example_state.

Lemma kernel_returns_typed_witness :
  exists v k', syscallHandler example_table close_call (example_kernel example_space) = Ok (Returned (set_s_rax v close_call), k') /\
    v = 2 ^ 64 - 1 /\ resumes true close_call (Returned (set_s_rax v close_call)).
Proof.
  destruct (syscallHandler example_table close_call (example_kernel example_space)) as [[r k']|] eqn:E; [|by vm_compute in E].
  exists (2 ^ 64 - 1), k'.
  pose proof (proj1 (@kernel_returns_typed unit _ (pd_allocator no_mapPage) _ (refillPool pdPageHeap (on_kernel no_mapPage) 0) 1 4 0x8000 0x9000 0xa000
    (fun _ => mkPorts (fun _ _ => 0) []) (fun _ c => c) (mret None) 1 example_table false 0 close_call (example_kernel example_space) r k' example_table_ok) E) as Hr.
  assert (r = Returned (set_s_rax (2 ^ 64 - 1) close_call)) as ->; [|done].
  vm_compute in E. by injection E.
Defined.
End examples.
