(* ===== verification/Boot.v ===== *)
(** * The first task: [main.cpp]

    [_main] makes the first task, with a stack of its own and one of the kernel, and leaves for it; the task runs [exec],
    which looks up the shell and becomes it.  The theorems follow the machine from the state in which [kmain] calls [_main]
    to the first instruction of the shell in user mode. *)

From Stdlib Require Import ZArith Lia.
From stdpp Require Import list numbers gmap.
From S2P Require Import Prelude Words Memory Pte Interrupts Tasks Family Fs FileManager PageManager PageHeap PageDirectory.
From S2P Require Import Devices Screen Tty Terminals UserSpace AddressSpace UserWalk NewDirectory Elf Processes Kernel Fork Stacks Clone Syscalls.

(** [0xffffffffa0000000 - 0x4000] and the end of that stack *)
Definition main_stack : Z := 0xffffffffa0000000 - 0x4000.
Definition main_stackTop : Z := main_stack + 0x4000.

(** "Booting Flix" and the end of the line *)
Definition greeting : str := chars "Booting Flix" ++ [10].

Section boot.
Context {C : Type} `{!Console C, !TableAllocator MM, !Symbols} (refillPool : ST MM unit).
(** [Screen::clear]; the addresses of the objects: a variable of [use], the local task and the one in the set *)
Context (screen_clear : ST C unit) (var local node : Z).

(** The registers of the new task, [exec] being the address of the function *)
Definition main_context (exec : Z) : Context :=
  set_rip exec (set_rsp main_stackTop (set_segments SYSTEM_CS SYSTEM_DS 0x0200 zero_Context)).

(** The block of [_main] that makes the task *)
Definition first_task (exec : Z) : ST (Kernel C) Z :=
  on_paging (set_directory local new_PageDirectory ;; mapKernel local) ;;
  fm ← on_disk new_FileManager;
  let task := newKernelTask local in
  kernelStack ← kmalloc stackPageHeap (kernel_mapPage refillPool);
  let task := mkTask (hh task) (state task) (stateMutex_held task) (stateCond_waiters task) (context task) local
                (u64 (kernelStack.1 + 0x4000)) kernelStack.1 (releaseFunction task) in
  on_paging (mapRange refillPool local main_stack main_stackTop ATTR_RW) ;;
  let task := set_context (set_rsp main_stackTop (context task)) task in
  let task := set_context (set_rip exec (context task)) task in
  tid ← on_tm (addTask (set_pageDirectory node task));
  on_paging (move_directory node local) ;;
  modify (fun k => set_k_files (<[tid := fm]> (k_files k)) k) ;;
  mret tid.

Definition _main (exec : Z) : ST (Kernel C) (turn unit) :=
  on_disk (on_console screen_clear) ;;
  on_disk (on_console (screen_putString greeting)) ;;
  first_task exec ;;
  switch var (scheduleNext getStackBase).

(** ** The function [exec] of [main.cpp], which the first task runs; [links] bounds the links of the path. *)
Definition init_path : str := chars "/bin/sh".
Definition init_args : list str := [chars "sh"].

Definition init_exec (links : nat) : ST (Kernel C) (turn unit) :=
  einode ← on_disk (lookup_path links init_path LookupOptions_None);
  match einode with
  | Unexpected _ => hndl_exit var
  | Value inode =>
      ehndl ← on_disk (inode_open inode);
      match ehndl with
      | Unexpected _ => fail (Undefined "dereference of an expected without a value")
      | Value hndl =>
          pd ← active_directory;
          o ← on_exec (@exec C Space _ (space_ops refillPool pd) hndl init_args);
          match o with
          | Some o => mret (Leaves o)
          | None => panic "init exec failed"
          end
      end
  end.

(** The processor after [_main]: it runs the function at the address it jumped to, and goes no further. *)
Definition boot_to_shell (exec : Z) (links : nat) : ST (Kernel C) (turn unit) :=
  o ← _main exec;
  match o with
  | Leaves (Jump _ c) => if rip c =? exec then init_exec links else mret o
  | _ => mret o
  end.

(** On the way the registers that [wrmsr] writes stay. *)
Lemma boot_keeps_msr exec links : keeps (@k_msr C) (boot_to_shell exec links).
Proof. unfold boot_to_shell, _main, first_task, init_exec, hndl_exit, switch, active_directory. keep. Qed.
End boot.

(** ** Pages that a directory has for itself, one after the other *)
Section private_range.
Context `{!TableAllocator MM, !TableAllocatorLaws MM mm_rest} (refillPool : ST MM unit) `{!MemoryLaws refillPool}.
Context (R : Z -> Prop).
Implicit Types (s : MM) (G : ghost).

Definition on_pages (l : list Z) (a : Z) : Prop := exists b, b ∈ l /\ page_of b a.

Lemma same_page_prefix a b : same_page a b = true <-> prefix_of 0 a = prefix_of 0 b.
Proof. apply Z.eqb_eq. Qed.

Lemma map_private_pages l n room G s this r attributes :
  spaces R (3 * length l + n) (room + page_cost refillPool * Z.of_nat (length l)) G s -> 0 <= room ->
  directory_ok G s this r -> R r -> NoDup (map (prefix_of 0) l) -> has_attr attributes ATTR_DEFER = false ->
  Forall (fun b => private b /\ allowed b attributes = true /\ pte_p (pte_at (mm_tables s) r b) = false) l ->
  Runs (for_each l (fun va => mapPage refillPool this va attributes ;; mret tt)) s (fun _ s' => exists G',
    spaces R n room G' s' /\ directory_ok G' s' this r /\ grown_but (on_pages l) G G' s s' /\ mm_rest s' = mm_rest s /\
    pages_kept R s s' /\
    Forall (fun b => exists base, pte_at (mm_tables s') r b =
      AttributeSetter attributes (set_base base (set_p true (pte_at (mm_tables s) r b)))) l).
Proof.
  intros Hsp H0 Hdir Hr Hnd Hd. pose proof table_cost_nonneg as Hcost. assert (0 <= page_cost refillPool) as Hpc by (unfold page_cost; lia).
  revert G s Hsp Hdir. induction l as [|b l IH]; intros G s Hsp Hdir Hl; cbn [for_each length] in *.
  - apply Runs_ret. exists G. rewrite Z.mul_0_r, Z.add_0_r in Hsp. by split_and!; try apply grown_but_same.
  - apply NoDup_cons in Hnd as [Hb Hnd]. apply Forall_cons in Hl as [(Hpb & Hal & Hnp) Hl].
    pose proof (dir_root _ _ _ _ Hdir) as Hroot.
    apply Runs_bind, Runs_bind. eapply Runs_mono.
    { apply (mapPage_upper refillPool R (3 * length l + n) (room + page_cost refillPool * Z.of_nat (length l)) G s this r b attributes); try done.
      - replace (3 + (3 * length l + n))%nat with (3 * S (length l) + n)%nat by lia.
        by replace (room + page_cost refillPool * Z.of_nat (length l) + page_cost refillPool) with
          (room + page_cost refillPool * Z.of_nat (S (length l))) by lia.
      - nia.
      - apply Hpb.
      - by apply (private_not_heap refillPool).
      - by eapply (private_path_clear refillPool). }
    intros pa s1 (G1 & Hsp1 & Hdir1 & Hg1 & Hrest1 & Hk1 & base & He). apply Runs_ret.
    assert (forall x, private x -> prefix_of 0 x <> prefix_of 0 b -> pte_at (mm_tables s1) r x = pte_at (mm_tables s) r x) as Hx.
    { intros x Hpx Hne. apply (proj2 Hg1); [done|by apply (private_not_heap refillPool)|]. by intros E%same_page_prefix. }
    assert (forall x, x ∈ l -> prefix_of 0 x <> prefix_of 0 b) as Hne.
    { intros x Hin E. apply Hb. rewrite <- E. by apply list_elem_of_fmap_2. }
    eapply Runs_mono; [apply (IH Hnd G1 s1 Hsp1 Hdir1)|].
    { apply Forall_forall. intros x Hin. destruct (proj1 (Forall_forall _ _) Hl x Hin) as (H1 & H2 & H3).
      split_and!; [done|done|]. by rewrite Hx by auto. }
    intros [] s2 (G2 & Hsp2 & Hdir2 & Hg2 & Hrest2 & Hk2 & He2). exists G2.
    split; [done|]. split; [done|]. split; [|split; [congruence|split]].
    + eapply grown_but_trans; [eapply grown_but_mono; [|exact Hg1]|eapply grown_but_mono; [|exact Hg2]].
      * intros a Ha. exists b. split; [left|done].
      * intros a (x & Hin & Ha). exists x. split; [by right|done].
    + intros r' a Hr' Hu. rewrite Hk2 by done. by apply Hk1.
    + apply Forall_cons. split.
      * exists base. rewrite <- He. apply (proj2 Hg2); [by apply (dir_root _ _ _ _ Hdir1)|by apply (private_not_heap refillPool)|].
        intros (x & Hin & E%same_page_prefix). by apply (Hne x).
      * apply Forall_forall. intros x Hin. destruct (proj1 (Forall_forall _ _) He2 x Hin) as [bx Ex]. exists bx.
        rewrite Ex. destruct (proj1 (Forall_forall _ _) Hl x Hin) as (H1 & _). by rewrite Hx by auto.
Qed.
End private_range.

(** ** The first task in the set *)
Lemma first_addTask_run t m :
  tasks m = ∅ -> nextTid m = 1 -> hh t = new_HH -> state t = Runnable ->
  Runs (addTask t) m (fun tid m' =>
    tid = 1 /\ tasks m' = {[ 1 := t ]} /\ activeTask m' = activeTask m /\ cpu m' = cpu m /\ ticking_ok m').
Proof.
  intros Hts Hn Ht Hst. unfold addTask. apply Runs_masked. set (c := set_if false (cpu m)).
  destruct (updateNextTid_run (set_cpu c m)) as (k & Hk & Hup & _); [cbn; rewrite Hn; done|cbn; by rewrite Hts|].
  cbn [tasks nextTid set_cpu] in *. rewrite Hts, map_size_empty in Hk. assert (k = O) as -> by lia. rewrite Hn in Hup.
  change (candidate 1 0) with 1 in Hup.
  apply Runs_bind. eapply Runs_of_ok; [exact Hup|]. apply Runs_bind, Runs_read. cbn [nextTid set_nextTid].
  apply Runs_bind, Runs_modify, Runs_bind, Runs_read. rewrite Ht. cbn [HH_move new_HH parent firstChild nextSibling prevSibling].
  apply Runs_bind, Runs_assertion; [cbn; by rewrite Hts|]. apply Runs_bind, Runs_modify. cbn [Z.ltb Z.compare Pos.compare Pos.compare_cont].
  apply Runs_bind, Runs_assertion; [done|]. change (is_runnable _) with (is_runnable t). unfold is_runnable. rewrite Hst, bool_decide_true by done.
  apply Runs_bind. eapply Runs_of_ok; [apply doInterruptMasking_run|]. apply Runs_ret.
  assert (set_hh (mkHH 0 0 0 0) t = t) as -> by (destruct t; cbn in Ht; by rewrite Ht).
  split; [done|]. split; [done|]. split; [|done]. cbn. by rewrite Hts.
Qed.

(** ** Making the first task *)
Section first_task.
Context {C : Type} `{!Console C, !TableAllocator MM, !TableAllocatorLaws MM mm_rest, !Symbols}.
Context (refillPool : ST MM unit) `{!MemoryLaws refillPool} (R : Z -> Prop) (var local node : Z).
Implicit Types (k : Kernel C) (G : ghost).
Abbreviation mm k := (as_mm (k_space k)).

(** When [kmain] calls [_main]: there is no task, the directory of the kernel is in use, and the variable [var] is on the
    stack of the boot code, in the gigabyte of the kernel. *)
Record boot_ready (n : nat) (room : Z) (G : ghost) k (rk : Z) : Prop := {
  bt_spaces : spaces R (26 + n) (room + 8 * page_cost refillPool + 2 * table_cost) G (mm k);
  bt_room : 0 <= room;
  bt_kernel : kernel_ready G (mm k) rk;
  bt_current : g_currentPageDirectory (mm k) = g_kernelDirectory (mm k);
  bt_gigabyte : prefix_of 2 getKernelVBase = 2 ^ 18 - 1 /\ prefix_of 2 var = 2 ^ 18 - 1;
  bt_area : stack_area;
  bt_stacks : stacks_ok (mm_tables (mm k)) rk (k_stackHeap k) /\ map_size (k_stackHeap k) < StackCount;
  bt_objects : local <> g_kernelDirectory (mm k) /\ node <> g_kernelDirectory (mm k) /\ node <> local;
  bt_tasks : tasks (k_tm k) = ∅ /\ nextTid (k_tm k) = 1 /\ activeTask (k_tm k) = 0;
  bt_masked : rflags_if (cpu (k_tm k)) = false;
}.

(** The first task, [stack] being its stack in the kernel *)
Definition main_task (exec stack : Z) : Task :=
  mkTask new_HH Runnable false [] (main_context exec) node (u64 (stack + 0x4000)) stack false.

(** A page of the kernel that can be written *)
Definition kernel_page (e : PageTableEntry) : Prop := pte_p e = true /\ pte_rw e = true /\ pte_us e = false.

(** The first task has been made: it has the tables [r2], the stack [i] of the kernel and no memory in the lower half. *)
Record made (exec : Z) (n : nat) (room : Z) (G : ghost) k k' (rk r2 i : Z) : Prop := {
  md_spaces : spaces (joined R r2) n room G (mm k');
  md_directory : directory_ok G (mm k') node r2;
  md_kernel : kernel_ready G (mm k') rk;
  md_current : g_currentPageDirectory (mm k') = g_kernelDirectory (mm k');
  md_shared : same_gigabyte (mm_tables (mm k')) r2 rk;
  md_empty a : user a -> pte_at (mm_tables (mm k')) r2 a = zero_pte;
  md_stack j : 0 <= j < 4 -> kernel_page (pte_at (mm_tables (mm k')) r2 (main_stack + j * 4096));
  md_kernelStack : 0 <= i < StackCount /\ nth_bool (m_map (k_stackHeap k)) i = false /\ nth_bool (m_map (k_stackHeap k')) i = true;
  md_present j : 0 <= j < 4 -> pte_p (pte_at (mm_tables (mm k')) r2 (stack_page i j)) = true;
  md_fresh : ~ R r2;
  md_tasks : tasks (k_tm k') = {[ 1 := main_task exec (stack_page i 0) ]};
  md_tm : activeTask (k_tm k') = activeTask (k_tm k) /\ cpu (k_tm k') = cpu (k_tm k) /\ ticking_ok (k_tm k');
  md_files : exists fm, new_FileManager (k_fs k) = Ok (fm, k_fs k') /\ k_files k' = <[ 1 := fm ]> (k_files k);
}.

Lemma main_pages : page_steps main_stack main_stackTop = map (fun j => main_stack + j * 4096) [0; 1; 2; 3].
Proof. by vm_compute. Qed.

Lemma main_page_private j : 0 <= j < 4 -> private (main_stack + j * 4096) /\ allowed (main_stack + j * 4096) ATTR_RW = true.
Proof. intros Hj. assert (j = 0 \/ j = 1 \/ j = 2 \/ j = 3) as [-> |[-> |[-> | ->]]] by lia; (split; [split|]; by vm_compute). Qed.

Lemma private_not_stack b i j : stack_area -> private b -> 0 <= i < StackCount -> 0 <= j < 4 -> ~ page_of (stack_page i j) b.
Proof.
  intros Ha [_ Hb] Hi Hj E%same_page_prefix. pose proof (area_kernel Ha i j Hi Hj) as Hs. change 2%nat with (0 + 2)%nat in Hs, Hb.
  rewrite prefix_shift in Hs, Hb. rewrite E in Hb. lia.
Qed.

(** The stack of the task is mapped *)
Lemma main_stack_run n room G s r2 :
  spaces (joined R r2) (12 + n) (room + 4 * page_cost refillPool) G s -> 0 <= room -> directory_ok G s local r2 ->
  (forall j, 0 <= j < 4 -> pte_at (mm_tables s) r2 (main_stack + j * 4096) = zero_pte) ->
  Runs (mapRange refillPool local main_stack main_stackTop ATTR_RW) s (fun _ s' => exists G',
    spaces (joined R r2) n room G' s' /\ directory_ok G' s' local r2 /\
    grown_but (on_pages (page_steps main_stack main_stackTop)) G G' s s' /\ mm_rest s' = mm_rest s /\
    pages_kept (joined R r2) s s' /\
    forall j, 0 <= j < 4 -> kernel_page (pte_at (mm_tables s') r2 (main_stack + j * 4096))).
Proof.
  intros Hsp H0 Hdir Hzero. unfold mapRange. rewrite main_pages. eapply Runs_mono.
  { apply (map_private_pages refillPool (joined R r2) _ n room G s local r2 ATTR_RW); try done.
    - replace (room + 4 * page_cost refillPool) with (room + page_cost refillPool * 4) in Hsp by lia. exact Hsp.
    - by right.
    - refine (bool_decide_unpack _ _). by vm_compute.
    - apply Forall_forall. intros b (j & -> & Hj)%list_elem_of_fmap.
      assert (0 <= j < 4) as Hj' by (repeat (apply elem_of_cons in Hj as [->|Hj]; [lia|]); by apply elem_of_nil in Hj).
      destruct (main_page_private j Hj') as [H1 H2]. split_and!; [done|done|by rewrite Hzero]. }
  intros [] s' (G' & Hsp' & Hdir' & Hg' & Hrest' & Hk' & He). exists G'. split_and!; try done.
  intros j Hj. rewrite Forall_forall in He. destruct (He (main_stack + j * 4096)) as [base E].
  { apply (list_elem_of_fmap_2 (fun j => main_stack + j * 4096)).
    assert (j = 0 \/ j = 1 \/ j = 2 \/ j = 3) as [-> |[-> |[-> | ->]]] by lia; by repeat constructor. }
  unfold kernel_page. by rewrite E, (Hzero j Hj).
Qed.

(** After the new directory, the files and the stack in the kernel *)
Record stacked (n : nat) (room : Z) (G : ghost) k k2 (rk r2 i : Z) : Prop := {
  sk_spaces : spaces (joined R r2) n room G (mm k2);
  sk_directory : directory_ok G (mm k2) local r2;
  sk_kernel : kernel_ready G (mm k2) rk;
  sk_shared : same_gigabyte (mm_tables (mm k2)) r2 rk;
  sk_empty a : user a \/ private a -> pte_at (mm_tables (mm k2)) r2 a = zero_pte;
  sk_rest : exists d, mm_rest (mm k2) = (<[local := d]> (mm_directories (mm k)), g_kernelDirectory (mm k),
    g_currentPageDirectory (mm k), g_pagingReady (mm k), cpu_cr3 (mm k));
  sk_stack : 0 <= i < StackCount /\ nth_bool (m_map (k_stackHeap k)) i = false /\ nth_bool (m_map (k_stackHeap k2)) i = true;
  sk_present j : 0 <= j < 4 -> pte_p (pte_at (mm_tables (mm k2)) r2 (stack_page i j)) = true;
  sk_fresh : ~ R r2;
  sk_same : k_tm k2 = k_tm k /\ k_files k2 = k_files k;
}.

Lemma stacked_run {A} n room G k rk (rest : FileManager -> Z * Z -> ST (Kernel C) A) Q :
  boot_ready n room G k rk ->
  (forall fm stack k2 G2 r2 i, new_FileManager (k_fs k) = Ok (fm, k_fs k2) -> stack.1 = stack_page i 0 ->
    stacked (12 + n) (room + 4 * page_cost refillPool) G2 k k2 rk r2 i -> Runs (rest fm stack) k2 Q) ->
  Runs (on_paging (set_directory local new_PageDirectory ;; mapKernel local) ;;
        fm ← on_disk new_FileManager;
        stack ← kmalloc stackPageHeap (kernel_mapPage refillPool);
        rest fm stack) k Q.
Proof.
  intros [Hsp H0 Hk _ [HV _] Ha [Hso Hsize] (Hl & _) _ _] HQ. pose proof table_cost_nonneg as Hcost.
  assert (0 <= page_cost refillPool) as Hpc by (unfold page_cost; lia).
  apply Runs_bind. eapply Runs_mono.
  { apply (new_space_run refillPool R (24 + n) (room + 8 * page_cost refillPool) G k local rk); [exact Hsp|lia|exact Hk|exact HV|exact Hl]. }
  intros [] k1 (G1 & r2 & Hwd). destruct (new_FileManager_run (k_fs k1)) as (fm & f1 & Efm & _).
  apply Runs_bind. eapply Runs_of_ok; [unfold on_disk, zoom; by rewrite Efm|]. set (k1f := set_k_fs f1 k1).
  pose proof Hwd as [Hst1 [Hsp1 Hdir1 Hf1 Hg1 Hkp1 He1 _ [cr3 Hrest1] _ Hsh1 Hpr1]].
  assert (k_stackHeap k1f = k_stackHeap k) as Eh by (unfold k1f; by rewrite Hst1).
  assert (kernel_ready G1 (mm k1f) rk) as Hk1 by (eapply new_directory_kernel; [apply Hwd|exact Hk|exact Hl]).
  apply Runs_bind. eapply Runs_mono.
  { apply (stack_kmalloc_run refillPool (joined R r2) Ha (12 + n) (room + 4 * page_cost refillPool) G1 k1f rk).
    - replace (room + 4 * page_cost refillPool + 4 * page_cost refillPool) with (room + 8 * page_cost refillPool) by lia. exact Hsp1.
    - lia.
    - exact Hk1.
    - rewrite Eh. eapply (stacks_kept R); [exact Ha|exact Hk|exact Hg1|exact Hso].
    - by rewrite Eh. }
  intros stack k2 [(i & G2 & h' & s' & E2 & Hi & Ep & Hfree & Hmap & _ & Hpres & Hsp2 & Hk2 & _ & Hg2 & Hrest2 & _)].
  rewrite Eh in Hfree, Hmap. pose proof (dir_root _ _ _ _ Hdir1) as Hroot1.
  apply (HQ fm stack k2 G2 r2 i); [rewrite E2; cbn; by rewrite <- Efm, Hst1|exact Ep|]. rewrite E2.
  assert (same_gigabyte (mm_tables (as_mm s')) r2 rk) as Hsh2.
  { apply (same_gigabyte_kept G1 G2 (mm k1f)); [apply Hsp1|exact Hroot1|apply Hk1|exact Hsh1|apply Hk1|apply Hg2]. }
  split; cbn [k_space k_stackHeap k_tm k_files set_k_space set_k_stackHeap k1f set_k_fs]; try done.
  - eapply directory_grown; [exact Hdir1|apply Hsp2|apply Hg2|exact Hrest2].
  - intros a Hap. rewrite (proj2 Hg2 r2 a Hroot1).
    + destruct Hap as [Hu|[H3 H2]]; [by apply He1|]. apply Hpr1; [exact H3|lia].
    + destruct Hap as [Hu|Hp]; [|by apply (private_not_heap refillPool)]. intros Hh%heap_upper. pose proof (user_below a Hu). lia.
    + intros (j & Hj & E). destruct Hap as [Hu|Hp]; [|by apply (private_not_stack a i j)].
      apply same_page_prefix in E. pose proof (user_below a Hu). rewrite E in *.
      destruct (stack_page_upper Ha G1 (mm k1f) rk i j Hk1 Hi Hj) as (_ & _ & Hup & _). pose proof (private_above _ Hup). lia.
  - exists (mkPageDirectory cr3 r2). etransitivity; [exact Hrest2|exact Hrest1].
  - split; [done|]. split; [exact Hfree|]. by rewrite Hmap, Z.eqb_refl.
  - intros j Hj. rewrite (same_gigabyte_pages _ r2 rk) by (done || by apply (area_kernel Ha)). by apply Hpres.
  - intros Hr2. destruct (sp_root R _ _ _ _ Hsp r2 Hr2) as (g & Hg & _). congruence.
  - by rewrite Hst1.
Qed.

(** The directory moves to its place in the set. *)
Lemma placed n room G s r2 rk d :
  spaces (joined R r2) n room G s -> directory_ok G s local r2 -> kernel_ready G s rk -> mm_directories s !! local = Some d ->
  local <> g_kernelDirectory s -> node <> g_kernelDirectory s -> node <> local ->
  let s' := set_mm_directories (<[local := new_PageDirectory]> (<[node := d]> (mm_directories s))) s in
  spaces (joined R r2) n room G s' /\ directory_ok G s' node r2 /\ kernel_ready G s' rk.
Proof.
  intros Hsp [Hwf Hroot (c & Hg & Hc)] Hk Hd H1 H2 H3 s'.
  set (s1 := set_mm_directories (<[node := d]> (mm_directories s)) s).
  change s' with (set_mm_directories (<[local := new_PageDirectory]> (mm_directories s1)) s1).
  assert (d = mkPageDirectory (t_phys c) r2) as -> by congruence. split; [|split].
  - apply (spaces_directory refillPool); [by apply (spaces_directory refillPool)|done].
  - apply directory_insert; [|done]. split; [done|done|]. exists c. cbn. by rewrite lookup_insert_eq.
  - apply kernel_insert; [by apply kernel_insert|done].
Qed.

Lemma first_task_run exec n room G k rk :
  boot_ready n room G k rk ->
  Runs (first_task refillPool local node exec) k (fun tid k' => tid = 1 /\ exists G' r2 i, made exec n room G' k k' rk r2 i).
Proof.
  intros Hb. pose proof Hb as [_ H0 _ Hcur _ Ha _ (Hl & Hn & Hnl) (Hts & Hnext & _) _].
  unfold first_task. eapply stacked_run; [exact Hb|].
  intros fm stack k2 G2 r2 i Efm Estack [Hsp2 Hdir2 Hk2 Hsh2 He2 [d2 Hrest2] Hst2 Hpres2 Hfresh [Etm Efiles]]. cbv zeta.
  pose proof (dir_root _ _ _ _ Hdir2) as Hroot2.
  apply Runs_bind, Runs_on_paging. unfold on_mm. apply Runs_zoom.
  eapply Runs_mono; [apply (main_stack_run n room G2 (mm k2) r2 Hsp2 H0 Hdir2)|].
  { intros j Hj. apply He2. right. by apply main_page_private. }
  intros [] s3 (G3 & Hsp3 & Hdir3 & Hg3 & Hrest3 & Hkept3 & Hmain).
  pose proof Hrest3 as Hrest32. rewrite Hrest2 in Hrest3. injection Hrest3 as Ed Ek Ec _ _.
  apply Runs_bind. unfold on_tm. apply Runs_zoom. cbn [k_tm set_k_space]. rewrite Etm.
  eapply Runs_mono; [by apply first_addTask_run|].
  intros tid m' (-> & Hts' & Ea & Ecpu & Htick). apply Runs_bind, Runs_on_paging. unfold on_mm. apply Runs_zoom.
  cbn [k_space set_k_tm set_k_space as_mm as_ram]. eapply move_directory_run; [rewrite Ed; apply lookup_insert_eq|].
  apply Runs_bind, Runs_modify, Runs_ret. split; [done|]. exists G3, r2, i.
  assert (kernel_ready G3 s3 rk) as Hk3.
  { eapply kernel_kept; [exact Hk2|apply Hsp3|apply Hg3|exact Hrest32]. }
  destruct (placed n room G3 s3 r2 rk d2) as (Hsp' & Hdir' & Hk'); try done; [rewrite Ed; apply lookup_insert_eq|congruence|congruence|].
  split; cbn [k_space k_files k_tm k_stackHeap k_fs set_k_files set_k_tm set_k_space as_mm mm_tables set_mm_directories]; try done.
  - cbn. congruence.
  - apply (same_gigabyte_kept G2 G3 (mm k2)); [apply Hsp2|exact Hroot2|apply Hk2|exact Hsh2|apply Hk2|apply Hg3].
  - intros a Hu. rewrite Hkept3 by (done || by right). apply He2. by left.
  - intros j Hj. rewrite (proj2 Hg3 r2 (stack_page i j) Hroot2).
    + by apply Hpres2.
    + by apply (stack_page_upper Ha G2 (mm k2) rk i j Hk2 (proj1 Hst2) Hj).
    + intros (b & Hin & E%same_page_prefix). rewrite main_pages in Hin. apply list_elem_of_fmap in Hin as (x & -> & Hx).
      assert (0 <= x < 4) as Hx' by (repeat (apply elem_of_cons in Hx as [->|Hx]; [lia|]); by apply elem_of_nil in Hx).
      apply (private_not_stack (main_stack + x * 4096) i j Ha); [by apply main_page_private|apply Hst2|exact Hj|].
      by apply same_page_prefix.
  - rewrite Hts', <- Estack. done.
  - exists fm. rewrite Efiles. done.
Qed.

(** ** [_main] *)

(** The processor has left for the first task, and the console is [c']. *)
Record launched (exec : Z) (n : nat) (room : Z) (G : ghost) k k' (c' : C) (rk r2 i : Z) : Prop := {
  ln_running : running (joined R r2) n room G (k_space k') node r2;
  ln_kernel : kernel_ready G (mm k') rk;
  ln_shared : same_gigabyte (mm_tables (mm k')) r2 rk;
  ln_empty a : user a -> view (k_space k') r2 a = None;
  ln_stack j : 0 <= j < 4 -> kernel_page (pte_at (mm_tables (mm k')) r2 (main_stack + j * 4096));
  ln_kernelStack : 0 <= i < StackCount /\ nth_bool (m_map (k_stackHeap k)) i = false /\ nth_bool (m_map (k_stackHeap k')) i = true;
  ln_present j : 0 <= j < 4 -> pte_p (pte_at (mm_tables (mm k')) r2 (stack_page i j)) = true;
  ln_fresh : ~ R r2;
  ln_tasks : tasks (k_tm k') = {[ 1 := main_task exec (stack_page i 0) ]} /\ activeTask (k_tm k') = 1;
  ln_tss : kernel_stack (k_tm k') = u64 (stack_page i 0 + 0x4000);
  ln_files : exists fm, new_FileManager (set_console c' (k_fs k)) = Ok (fm, k_fs k') /\ k_files k' = <[ 1 := fm ]> (k_files k);
}.

Lemma one_task_next t : state t = Runnable -> round_robin 0 (ordered {[ 1 := t ]}) = Some (1, t).
Proof.
  intros Ht. unfold ordered. rewrite map_to_list_singleton. cbn. unfold round_robin. cbn. unfold is_runnable. by rewrite Ht.
Qed.

(** [_main] makes the first task and leaves for it: in the mode of the kernel, with the interrupts enabled, at the
    function it was given and with a stack that is mapped; it is the only task, and its address space is empty. *)
Lemma main_run screen_clear exec n room G k rk c' :
  boot_ready n room G k rk -> (screen_clear ;; screen_putString greeting) (console (k_fs k)) = Ok (tt, c') ->
  Runs (_main refillPool screen_clear var local node exec) k (fun o k' =>
    o = Leaves (Jump 1 (main_context exec)) /\ exists G' r2 i, launched exec n room G' k k' c' rk r2 i).
Proof.
  intros Hb Hgreet. pose proof (bt_tasks _ _ _ _ _ Hb) as (_ & _ & Hact). unfold _main.
  apply bind_ok in Hgreet as ([] & c1 & Hclear & Hgreet). apply Runs_bind.
  eapply Runs_of_ok; [unfold on_disk, on_console, zoom; rewrite Hclear; reflexivity|]. apply Runs_bind.
  eapply Runs_of_ok; [unfold on_disk, on_console, zoom; cbn [k_fs set_k_fs console set_console]; rewrite Hgreet; reflexivity|].
  set (k1 := set_k_fs _ _). assert (boot_ready n room G k1 rk) as Hb1 by (destruct Hb; by split).
  apply Runs_bind. eapply Runs_mono; [apply (first_task_run exec n room G k1 rk Hb1)|].
  intros tid k2 (-> & G2 & r2 & i & [Hsp Hdir Hk Hcur Hsh He Hmain Hst Hpres Hfresh Hts (Ea & Ecpu & Htick) Hfiles]).
  unfold switch. apply Runs_bind. unfold on_tm at 1. apply Runs_zoom.
  eapply Runs_mono; [apply (scheduleNext_run getStackBase (k_tm k2))|].
  { split.
    - rewrite Hts. intros x t [<- _]%lookup_singleton_Some. done.
    - unfold no_task_zero. rewrite Hts. done.
    - rewrite Ea. cbn. by rewrite Hact.
    - rewrite Ecpu. apply (bt_masked _ _ _ _ _ Hb).
    - rewrite Hts. eexists 1, _. split; [apply lookup_singleton_eq|done].
    - rewrite Hts. intros x t [_ <-]%lookup_singleton_Some. done. }
  intros o m' [Hts' Hrr]. rewrite Ea, Hts in Hrr. change (activeTask (k_tm k1)) with (activeTask (k_tm k)) in Hrr.
  rewrite Hact, one_task_next in Hrr by done. destruct Hrr as (-> & _ & _ & Ha' & Hcd & Hks & _).
  apply Runs_bind. eapply Runs_of_ok; [apply on_tm_same; reflexivity|]. cbn [k_tm set_k_tm]. rewrite Hcd. cbn [pageDirectory main_task].
  destruct (use_run G2 (mm k2) (g_kernelDirectory (mm k2)) node rk r2 var Hcur (kr_directory _ _ _ Hk) Hdir (sp_ready _ _ _ _ _ Hsp)) as [cr3 Huse].
  { symmetry. apply same_gigabyte_pages; [exact Hsh|]. apply (bt_gigabyte _ _ _ _ _ Hb). }
  apply Runs_bind. eapply Runs_of_ok.
  { unfold on_paging, on_space, on_mm, zoom. cbn [k_space set_k_tm]. rewrite Huse. reflexivity. }
  apply Runs_ret. split; [done|]. exists G2, r2, i. split; cbn [k_space k_tm k_files k_fs k_stackHeap set_k_space set_k_tm]; try done.
  - split; [|apply (bt_room _ _ _ _ _ Hb)| |done|by right].
    + destruct Hsp as [Hwf Hroot Hap Hrdy Hmem Hroom Hal Hus Hinj]. split; try done. by apply alloc_ready_use.
    + split; [apply Hsp|apply Hdir|]. exact (dir_object _ _ _ _ Hdir).
  - destruct Hk as [[H1 H2 H3] H4 H5]. split; [split; [done|done|exact H3]|done|done].
  - intros a Hu. unfold view. cbn [as_mm mm_tables set_currentPageDirectory set_cr3]. by rewrite He.
  - by rewrite Hts'.
Qed.

(** ** The shell *)

(** The file system has the file [data] under the name that [exec] looks up. *)
Definition shell_file (f : FsState C) (data : str) : Prop :=
  exists c i i0, g_root f <> 0 /\ inodes f !! g_root f = Some i0 /\
    Fs.resolve (inodes f) (g_root f) [chars "bin"; chars "sh"] = Some c /\ inodes f !! c = Some i /\
    i_body i = CpioFileInode data /\ is_link i = false.

Lemma shell_lookup links f data :
  shell_file f data ->
  exists c i, lookup_path (S links) init_path LookupOptions_None f = Ok (Value c, f) /\ inodes f !! c = Some i /\ i_body i = CpioFileInode data.
Proof.
  intros (c & i & i0 & H0 & Hi0 & Hr & Hi & Hb & Hl). exists c, i. split; [|done].
  change init_path with (path_of [chars "bin"; chars "sh"]). rewrite (lookup_path_run links f i0); try done.
  - by rewrite Hr.
  - apply (bool_decide_unpack _). by vm_compute.
  - intros c' i' Hr' Hi'. left. congruence.
Qed.

(** The first task is the shell: the program [data] with the header [hdr] and the segments [l] is in its memory and its arguments
    on its stack. *)
Record shell_started (exec : Z) k' (r2 : Z) (data : str) (hdr : ElfHeader) (l : list ElfProgramHeader) : Prop := {
  ss_task : exists i, tasks (k_tm k') = {[ 1 := set_context (start_context (e_entry hdr) (argument_pointer init_args) (main_context exec))
    (main_task exec (stack_page i 0)) ]} /\ activeTask (k_tm k') = 1;
  ss_segments : Forall (fun ph => sees (k_space k') r2 (p_vaddr ph) (segment_image data ph)) (loads l);
  ss_arguments : sees (k_space k') r2 (argument_pointer init_args) (argument_block (string_addresses init_args stack_top));
  ss_strings : Forall2 (fun arg address => sees (k_space k') r2 address (arg ++ [0])) init_args (string_addresses init_args stack_top);
  ss_running : exists G' n' room', running (joined R r2) n' room' G' (k_space k') node r2;
}.

Lemma init_args_bytes : Forall (Forall (in_word 8)) init_args.
Proof. apply (bool_decide_unpack _). by vm_compute. Qed.

Lemma init_args_fit : strings_size init_args + 8 * (Z.of_nat (length init_args) + 2) <= 0x4000.
Proof. by vm_compute. Qed.

Lemma init_run links exec n room G k k0 c' rk r2 i data hdr l :
  launched exec n room G k0 k c' rk r2 i -> shell_file (k_fs k) data -> program data hdr l ->
  (3 * (load_pages l + 4) <= n)%nat -> page_cost refillPool * Z.of_nat (load_pages l + 4) <= room ->
  Runs (init_exec refillPool var (S links)) k (fun o k' =>
    o = Leaves (Jump 1 (start_context (e_entry hdr) (argument_pointer init_args) (main_context exec))) /\
    shell_started exec k' r2 data hdr l /\ k_fs k' = k_fs k).
Proof.
  intros [Hrun _ _ Hempty _ _ _ _ [Hts Hact] _ _] Hshell Hprog Hn Hroom.
  destruct (shell_lookup links _ _ Hshell) as (c & ino & Hl & Hi & Hb).
  unfold init_exec. apply Runs_bind. eapply Runs_of_ok; [unfold on_disk, zoom; rewrite Hl; reflexivity|].
  replace (set_k_fs (k_fs k) k) with k by (by destruct k). cbv match.
  apply Runs_bind. eapply Runs_of_ok.
  { unfold on_disk, zoom, inode_open. rewrite (bind_run _ _ _ _ _ (deref_inode_run _ _ _ Hi)), Hb. reflexivity. }
  replace (set_k_fs (k_fs k) k) with k by (by destruct k). cbv match.
  set (t := main_task exec (stack_page i 0)) in *.
  assert (tasks (k_tm k) !! activeTask (k_tm k) = Some t) as Ht by (rewrite Hact, Hts; apply lookup_singleton_eq).
  apply Runs_bind. unfold active_directory. apply Runs_bind.
  eapply Runs_of_ok; [apply on_tm_same, (getActiveTask_run (k_tm k) t); [by rewrite Hact|exact Ht]|]. apply Runs_ret. cbn [snd].
  apply Runs_bind. unfold on_exec. apply Runs_zoom. set (s := mkExec (k_fs k) (k_space k) (k_tm k)).
  assert (activeTask (ex_tm s) <> 0) as Hact0 by (cbn [ex_tm s]; by rewrite Hact).
  assert (is_file (ex_fs s) (CpioFileHandle c 0) data) as Hfile by (by exists c, 0, ino).
  pose proof (exec_process_run refillPool (joined R r2) n room G node r2 s (CpioFileHandle c 0) data hdr l init_args t
      Hprog Hfile init_args_bytes init_args_fit Hact0 Ht eq_refl Hrun Hn Hroom Hempty) as Hexec.
  unfold exec_process in Hexec.
  eapply Runs_mono; [exact Hexec|].
  intros o s' (-> & Etm & Hseg & Hblock & Hstr & _ & Hrun' & Efs). cbn [ex_tm s] in *. apply Runs_ret. split; [by rewrite Hact|]. split; [|exact Efs].
  split; cbn [k_tm k_space set_k_tm set_k_space set_k_fs]; try done.
  exists i. rewrite Etm. unfold start_task. cbn [tasks activeTask set_tasks]. rewrite Hts, Hact. split; [|done].
  apply map_eq. intros x. destruct (decide (x = 1)) as [->|Hx].
  - by rewrite lookup_alter_eq, !lookup_singleton_eq.
  - by rewrite lookup_alter_ne, !lookup_singleton_ne.
Qed.

Lemma boot_to_shell_run links screen_clear exec n room G k rk c' data hdr l :
  boot_ready (3 * (load_pages l + 4) + n) (page_cost refillPool * Z.of_nat (load_pages l + 4) + room) G k rk ->
  0 <= room -> (screen_clear ;; screen_putString greeting) (console (k_fs k)) = Ok (tt, c') ->
  shell_file (k_fs k) data -> program data hdr l ->
  Runs (boot_to_shell refillPool screen_clear var local node exec (S links)) k (fun o k' =>
    o = Leaves (Jump 1 (start_context (e_entry hdr) (argument_pointer init_args) (main_context exec))) /\
    console (k_fs k') = c' /\ exists r2, ~ R r2 /\ shell_started exec k' r2 data hdr l).
Proof.
  intros Hb H0 Hgreet Hshell Hprog. unfold boot_to_shell. apply Runs_bind.
  eapply Runs_mono; [exact (main_run screen_clear exec _ _ G k rk c' Hb Hgreet)|].
  intros o k1 (-> & G1 & r2 & i & Hln). cbn [rip main_context set_rip]. rewrite Z.eqb_refl.
  pose proof Hln as [_ _ _ _ _ _ _ Hfresh _ _ (fm & Efm & _)]. injection Efm as _ Efs.
  eapply Runs_mono.
  { apply (init_run links exec _ _ G1 k1 k c' rk r2 i data hdr l Hln); [by rewrite <- Efs|exact Hprog|lia|lia]. }
  intros o k2 (-> & Hss & Efs2). split; [done|]. split; [by rewrite Efs2, <- Efs|].
  by exists r2.
Qed.
End first_task.

(** ** With the screen *)
Section on_the_screen.
Context (p task : Z).
Context `{!TableAllocator MM, !TableAllocatorLaws MM mm_rest, !Symbols}.
Context (refillPool : ST MM unit) `{!MemoryLaws refillPool} (R : Z -> Prop) (var local node : Z).
#[local] Instance main_console : Console Terminal := tty_console p task.

Definition tty_clear : ST Terminal unit := on_screen clear.
Definition blank_sheet : Sheet := mkSheet (fun _ => 0) 0.

(** The screen as the machine has it when it starts: nobody holds its lock. *)
Definition screen_free (t : Terminal) : Prop :=
  _lock t.2 = None /\ in_word 8 (g_lockCount (screen_cpu t.2)) /\ length (cells t.2) = 2000%nat.

Lemma greeting_stays : stays LightGrey Black blank_sheet greeting = true.
Proof. by vm_compute. Qed.

Lemma greeting_run t :
  screen_free t ->
  Runs (tty_clear ;; tty_print greeting) t (fun _ t' =>
    t'.1 = t.1 /\ shows (fold_left (type_char LightGrey Black) greeting blank_sheet) t'.2).
Proof.
  intros (Hl & Hc & Hlen). unfold tty_clear, tty_print, on_screen. apply Runs_bind, Runs_zoom.
  eapply Runs_mono; [by apply clear_run|]. intros [] s1 [Hs1 _]. apply Runs_zoom. cbn [snd].
  eapply Runs_mono; [exact (prints_in _ _ _ _ (putString_run blank_sheet s1 greeting LightGrey Black Hs1) greeting_stays)|].
  intros [] s2 (Hs2 & _). by split.
Qed.

Lemma terminal_boot_run links exec n room G (k : Kernel Terminal) rk data hdr l :
  boot_ready refillPool R var local node (3 * (load_pages l + 4) + n) (page_cost refillPool * Z.of_nat (load_pages l + 4) + room) G k rk ->
  0 <= room -> screen_free (console (k_fs k)) -> shell_file (k_fs k) data -> program data hdr l ->
  Runs (boot_to_shell refillPool tty_clear var local node exec (S links)) k (fun o k' =>
    o = Leaves (Jump 1 (start_context (e_entry hdr) (argument_pointer init_args) (main_context exec))) /\
    shows (fold_left (type_char LightGrey Black) greeting blank_sheet) (console (k_fs k')).2 /\
    exists r2, ~ R r2 /\ shell_started R node exec k' r2 data hdr l).
Proof.
  intros Hb H0 Hfree Hshell Hprog. destruct (proj1 (Runs_ok _ _ _) (greeting_run _ Hfree)) as ([] & c' & Hgreet & _ & Hshow).
  eapply Runs_mono; [by apply (boot_to_shell_run refillPool R var local node links tty_clear exec n room G k rk c' data hdr l)|].
  intros o k' (-> & <- & Hss). done.
Qed.
(** From the end of the boot to the shell: [_main] clears the screen and greets, makes the first task and leaves for it;
    the task looks up "/bin/sh" and goes on at the entry point of that program, in user mode, with its
    segments in memory and its arguments on the stack. *)
Theorem boot_to_shell_spec links exec n room G (k : Kernel Terminal) rk data hdr l :
  boot_ready refillPool R var local node (3 * (load_pages l + 4) + n) (page_cost refillPool * Z.of_nat (load_pages l + 4) + room) G k rk ->
  0 <= room -> screen_free (console (k_fs k)) -> shell_file (k_fs k) data -> program data hdr l ->
  Runs (boot_to_shell refillPool tty_clear var local node exec (S links)) k (fun o k' =>
    o = Leaves (Jump 1 (start_context (e_entry hdr) (argument_pointer init_args) (main_context exec))) /\
    shows (fold_left (type_char LightGrey Black) greeting blank_sheet) (console (k_fs k')).2 /\
    exists r2, ~ R r2 /\ shell_started R node exec k' r2 data hdr l).
Proof. apply terminal_boot_run. Qed.
End on_the_screen.

(** ** A machine that has booted, with a program under "/bin/sh" *)
Section examples.
Existing Instances example_symbols pd_allocator pool_laws pool_memory_laws.
Abbreviation example_allocator := (pd_allocator no_mapPage).
Abbreviation example_laws := (pool_laws no_mapPage).
Abbreviation example_refill := (refillPool pdPageHeap (on_kernel no_mapPage) 0).
Abbreviation example_memory := (pool_memory_laws 0).
Abbreviation root := AddressSpace.example_task.

Definition nobody (_ : Z) : Prop := False.
Definition booted_mm : MM :=
  mkMM small_memory example_path.1 (mkPageHeap 64 true (replicate 64 true) (map block_of (seqZ 4 44)))
    {[ example_object := mkPageDirectory (block 0).2 (block 0).1 ]} example_object example_object true 0.

Lemma booted_pool : pool_ready 44 example_ghost booted_mm.
Proof.
  split; [done|done| | |].
  - assert (Forall (fun b => block_ptr b <> 0 /\ example_ghost !! block_ptr b = None /\ in_word 52 b.2 /\ b.2 mod 4096 = 0 /\
      map_Forall (fun _ g => t_phys g <> b.2) example_ghost) (m_pool (mm_pageHeap booted_mm))) as Hall
      by (refine (bool_decide_unpack _ _); by vm_compute).
    intros b Hb. rewrite Forall_forall in Hall. destruct (Hall b Hb) as (? & ? & ? & ? & ?). by apply fresh_table_dec.
  - refine (bool_decide_unpack _ _). by vm_compute.
  - refine (bool_decide_unpack _ _). by vm_compute.
Qed.

Lemma booted_spaces room : 0 <= room < 2 ^ 32 -> @spaces example_allocator example_laws nobody 44 room example_ghost booted_mm.
Proof.
  intros Hroom. split.
  - exact example_path_wf.
  - by intros r [].
  - by intros r r' a a' q [].
  - done.
  - apply small_memory_wf.
  - cbn [mm_memory booted_mm]. assert (frames_size small_memory = 4) as -> by done. lia.
  - exact booted_pool.
  - by intros r a [].
  - by intros r r' a a' [].
  - by intros r m [].
Qed.

Definition booted_files : FsState Terminal :=
  mkFs (<[ 1 := mkInode S_IFDIR 0 [] (CpioFolderInode [2]) ]>
         (<[ 2 := mkInode S_IFDIR 0 (chars "bin") (CpioFolderInode [3]) ]>
           {[ 3 := mkInode S_IFREG 180 (chars "sh") (CpioFileInode example_elf) ]}))
    ∅ 4 1 example_tty.

Definition booted : Kernel Terminal :=
  mkKernel ∅ booted_files (mkSpace booted_mm (fun _ => 0)) (new_TaskManager (mkCpu false 0)) new_PageHeap 0 ∅.

Definition boot_stack : Z := 0xffffffffcfffff00.

Lemma booted_ready :
  @boot_ready Terminal example_allocator example_laws example_symbols example_refill example_memory nobody boot_stack 0x8000 0x9000
    (3 * (load_pages example_segments + 4) + 0) (1 * Z.of_nat (load_pages example_segments + 4) + 0) example_ghost booted root.
Proof.
  assert (load_pages example_segments = 2%nat) as -> by by vm_compute.
  split.
  - by apply booted_spaces.
  - done.
  - destruct parent_ready as [[H1 H2 H3] H4 H5]. split; [split; [exact H1|exact H2|exact H3]|exact H4|exact H5].
  - done.
  - by vm_compute.
  - exact example_area.
  - split; [exact parent_stacks|by vm_compute].
  - cbn [g_kernelDirectory as_mm k_space booted booted_mm]. unfold example_object. lia.
  - done.
  - done.
Qed.

Lemma booted_shell : shell_file booted_files example_elf.
Proof. eexists 3, _, _. by vm_compute. Qed.

Lemma boot_to_shell_spec_witness :
  Runs (@boot_to_shell Terminal (main_console 0x100 1) example_allocator example_symbols example_refill
          tty_clear boot_stack 0x8000 0x9000 0xffffffffc0001000 1) booted (fun o k' =>
    exists c r2, o = Leaves (Jump 1 c) /\ rip c = 0x400002 /\ cs c = 0x23 /\
      view (k_space k') r2 0x400003 = Some 195 /\ shows (fold_left (type_char LightGrey Black) greeting blank_sheet) (console (k_fs k')).2).
Proof.
  eapply Runs_mono.
  - apply (@boot_to_shell_spec 0x100 1 example_allocator example_laws example_symbols
      example_refill example_memory nobody boot_stack 0x8000 0x9000 0 0xffffffffc0001000 0 0 example_ghost booted root
      example_elf example_header example_segments booted_ready).
    + done.
    + by vm_compute.
    + exact booted_shell.
    + exact example_program.
  - intros o k' (-> & Hshow & r2 & _ & [_ Hseg _ _ _]). eexists _, r2. split; [done|]. split; [done|]. split; [done|].
    split; [|exact Hshow]. apply Forall_cons in Hseg as [Hseg _]. by apply (Hseg 3%nat 195).
Defined.
End examples.
