(* ===== verification/Kmain.v ===== *)
(** * The boot: [kmain.cpp]

    [kmain] starts the components in the order in which they need each other: the interrupt tables and the controller, the
    heap, the page tables, the map of physical memory, the stacks, the system calls, the file system, the timer; then the first
    task.  Here are its steps on the whole machine, and the handler of the log. *)

From Stdlib Require Import ZArith Lia.
From stdpp Require Import list numbers gmap.
From S2P Require Import Prelude Words Memory KHeap Pte Interrupts Tasks Family Devices DescTables Multiboot Fs Cpio FileManager PageManager PageHeap PageDirectory.
From S2P Require Import Screen Tty Terminals UserSpace AddressSpace UserWalk NewDirectory Elf Processes Kernel Fork Stacks Loading Clone Syscalls Dispatch Boot.

(** ** The machine: the kernel with what the boot alone works on *)
Record Machine (C : Type) : Type := mkMachine {
  mc_kernel : Kernel C;
  mc_heap : KHeap;
  mc_tables : DescTables.Tables;
  mc_handlers : gmap Z (@SyscallHandler C);   (** [g_syscallHandlers] *)
  mc_ready : bool;                            (** [ready] *)
  mc_cr4 : Z;
}.
Arguments mkMachine {C}.
Arguments mc_kernel {C}.
Arguments mc_heap {C}.
Arguments mc_tables {C}.
Arguments mc_handlers {C}.
Arguments mc_ready {C}.
Arguments mc_cr4 {C}.

Section machine.
Context {C : Type}.
Implicit Types (m : Machine C).

Definition set_mc_kernel k m : Machine C := mkMachine k (mc_heap m) (mc_tables m) (mc_handlers m) (mc_ready m) (mc_cr4 m).
Definition set_mc_heap h m : Machine C := mkMachine (mc_kernel m) h (mc_tables m) (mc_handlers m) (mc_ready m) (mc_cr4 m).
Definition set_mc_tables t m : Machine C := mkMachine (mc_kernel m) (mc_heap m) t (mc_handlers m) (mc_ready m) (mc_cr4 m).
Definition set_mc_handlers h m : Machine C := mkMachine (mc_kernel m) (mc_heap m) (mc_tables m) h (mc_ready m) (mc_cr4 m).
Definition set_mc_ready b m : Machine C := mkMachine (mc_kernel m) (mc_heap m) (mc_tables m) (mc_handlers m) b (mc_cr4 m).
Definition set_mc_cr4 c m : Machine C := mkMachine (mc_kernel m) (mc_heap m) (mc_tables m) (mc_handlers m) (mc_ready m) c.

Definition in_kernel {A} (op : ST (Kernel C) A) : ST (Machine C) A := zoom mc_kernel set_mc_kernel op.
Definition on_tables {A} (op : ST DescTables.Tables A) : ST (Machine C) A := zoom mc_tables set_mc_tables op.
Definition on_heap {A} (op : ST (KHeap * unit) A) : ST (Machine C) A :=
  zoom (fun m => (mc_heap m, tt)) (fun h => set_mc_heap h.1) op.

(** [mbl], with the file system and the memory it works on *)
Definition on_loader {A} (op : ST (Boot (C := C)) A) : ST (Machine C) A :=
  in_kernel (zoom (fun k => mkBoot false (as_mm (k_space k)) (k_fs k))
    (fun b k => set_k_space (mkSpace (boot_mm b) (as_ram (k_space k))) (set_k_fs (boot_fs b) k)) op).
End machine.

(** ** [LogHandler] *)
Section log_handler.
Context {C : Type} (get_ports : C -> Ports) (set_ports : Ports -> C -> C).
(** What the library prints for ["%d"] *)
Context (decimal : Z -> str).

Definition on_ports {A} (op : ST Ports A) : ST (Machine C) A :=
  in_kernel (on_machine (zoom get_ports set_ports op)).

Definition sputc (ch : Z) : ST (Machine C) unit := on_ports (Devices.outb 0xe9 ch).

Definition sputn (s : str) : ST (Machine C) unit := for_each s sputc.

Definition beginLog (category : str) : ST (Machine C) unit :=
  m ← read_state;
  active ← (if mc_ready m then in_kernel (on_tm isTaskActive) else mret false);
  if active : bool then
    tid ← in_kernel (on_tm getActiveTid);
    sputn (decimal tid ++ chars ": " ++ category ++ chars ": ")
  else sputn (chars "0: " ++ category ++ chars ": ").

Definition feed (s : str) : ST (Machine C) unit := sputn s.

Definition endLog : ST (Machine C) unit := sputc 10.

(** The calls with which the library logs a line *)
Definition log_line (category text : str) : ST (Machine C) unit :=
  beginLog category ;; feed text ;; endLog.
End log_handler.

(** ** [kmain] *)
Section kmain.
Context {C : Type} `{!Console C, !TableAllocator MM, !Symbols} (refillPool : ST MM unit).
Context (get_ports : C -> Ports) (set_ports : Ports -> C -> C) (screen_clear : ST C unit).
(** The physical memory that the loader left, and the steps that the walk of its tags may take *)
Context (mem : Z -> Z) (fuel : nat).
(** What is under the headers of the heap before they are written *)
Context (fresh : Z -> BlockState).
(** The bounds of the links and of the texts; the addresses of a variable and of the objects; those of the functions *)
Context (links text : nat) (var local node directory tss gdt_base idt_base : Z) (intVectors : list Z) (syscall_entry exec : Z).
Abbreviation Mach := (Machine C).

(** [Cpu::enableSSEInstructions] *)
Definition enableSSEInstructions : ST Mach unit := modify (fun m => set_mc_cr4 (Z.setbit (mc_cr4 m) 9) m).

(** [TaskManager::get()] the first time, that is, the constructor *)
Definition TaskManager_get : ST Mach unit :=
  in_kernel (modify (fun k => set_k_tm (new_TaskManager (cpu (k_tm k))) k)) ;;
  on_ports get_ports set_ports (Devices.mask 0).

Definition setUpTss : ST Mach unit :=
  on_tables (initTr tss) ;;
  in_kernel (on_tm (setKernelStack getStackBase)).

(** Up to the map of physical memory *)
Definition kmain_memory (mboot : Z) : ST Mach unit :=
  enableSSEInstructions ;;
  on_tables (DescTables.init gdt_base idt_base intVectors) ;;
  on_ports get_ports set_ports initPic ;;
  on_heap (KHeap.init fresh getHeapBase (u32_at mem (ptrAlignSup (getHeapBase + HEADER_SIZE) 8))) ;;
  in_kernel (on_paging (modify (set_mm_pageHeap new_PageHeap))) ;;
  pd ← in_kernel (initKernelDirectory directory);
  in_kernel (on_paging (use pd var)) ;;
  in_kernel (on_paging (memory (prepareMemory mem fuel mboot))) ;;
  in_kernel (on_paging (memory (completeRangeUsed (0xa0000 / 0x1000) (0xb8000 / 0x1000)))) ;;
  in_kernel (on_paging (memory (completeRangeUsed (0xb9000 / 0x1000) (0xe8000 / 0x1000)))).

(** From there to the call of [_main] *)
Definition kmain_start (mboot : Z) : ST Mach unit :=
  in_kernel (modify (set_k_stackHeap new_PageHeap)) ;;
  TaskManager_get ;;
  setUpTss ;;
  modify (set_mc_ready true) ;;
  handlers ← in_kernel (initSysCalls refillPool links text var local node syscall_entry);
  modify (set_mc_handlers handlers) ;;
  on_loader (Multiboot.handle mem refillPool fuel mboot) ;;
  on_ports get_ports set_ports (Timer_init 1).

Definition kmain (mboot : Z) : ST Mach (turn unit) :=
  kmain_memory mboot ;;
  kmain_start mboot ;;
  in_kernel (_main refillPool screen_clear var local node exec).

(** The processor from the second half of [kmain] to the shell *)
Definition kmain_to_shell (mboot : Z) : ST Mach (turn unit) :=
  kmain_start mboot ;;
  in_kernel (boot_to_shell refillPool screen_clear var local node exec links).
End kmain.

(** ** The log *)
Section log_line.
Context {C : Type} (get_ports : C -> Ports) (set_ports : Ports -> C -> C) (decimal : Z -> str).
Context (ports_set : forall p c, get_ports (set_ports p c) = p) (ports_twice : forall p q c, set_ports q (set_ports p c) = set_ports q c).
Context (ports_same : forall c, set_ports (get_ports c) c = c).
Implicit Types (m : Machine C).

Definition machine_ports m : Ports := get_ports (console (k_fs (mc_kernel m))).
Definition set_machine_ports (q : Ports) m : Machine C :=
  set_mc_kernel (set_k_fs (set_console (set_ports q (console (k_fs (mc_kernel m)))) (k_fs (mc_kernel m))) (mc_kernel m)) m.

Lemma on_ports_run {A} (op : ST Ports A) m a q :
  op (machine_ports m) = Ok (a, q) -> on_ports get_ports set_ports op m = Ok (a, set_machine_ports q m).
Proof. intros H. unfold on_ports, in_kernel, on_machine, on_disk, on_console, zoom. unfold machine_ports in H. by rewrite H. Qed.

Lemma Runs_on_ports {A} (op : ST Ports A) m (Q : A -> Machine C -> Prop) :
  (exists a q, op (machine_ports m) = Ok (a, q)) -> (forall a q, Q a (set_machine_ports q m)) ->
  Runs (on_ports get_ports set_ports op) m Q.
Proof. intros (a & q & H) HQ. eapply Runs_of_ok; [by apply on_ports_run|]. apply HQ. Qed.

Lemma machine_ports_set q m : machine_ports (set_machine_ports q m) = q.
Proof. apply ports_set. Qed.

Lemma set_machine_ports_twice p q m : set_machine_ports q (set_machine_ports p m) = set_machine_ports q m.
Proof. unfold set_machine_ports. cbn. by rewrite ports_twice. Qed.

Lemma set_machine_ports_same m : set_machine_ports (machine_ports m) m = m.
Proof. unfold set_machine_ports, machine_ports. rewrite ports_same. by destruct m as [[? [] ? ? ? ? ?] ? ? ? ? ?]. Qed.

(** The characters that the port of the log gets *)
Definition logged (s : str) (p : Ports) : Ports := mkPorts (device p) (trace p ++ map (fun c => Out (u16 0xe9) (u8 c)) s).

Lemma sputn_run s m : sputn get_ports set_ports s m = Ok (tt, set_machine_ports (logged s (machine_ports m)) m).
Proof.
  revert m. induction s as [|c s IH]; intros m; unfold sputn in *; cbn [for_each].
  - unfold logged. cbn. rewrite app_nil_r. destruct (machine_ports m) as [d t] eqn:E. cbn. rewrite <- E. by rewrite set_machine_ports_same.
  - unfold sputc at 1. erewrite bind_run; [|apply on_ports_run; reflexivity]. rewrite IH, set_machine_ports_twice, machine_ports_set.
    unfold logged, add_event. cbn [device trace]. rewrite <- app_assoc. done.
Qed.

Lemma logged_app s s' p : logged s' (logged s p) = logged (s ++ s') p.
Proof. unfold logged. cbn. by rewrite map_app, app_assoc. Qed.

(** A line of the log is the number of the task that runs, 0 before there are tasks and between them, the category and the
    text, and nothing else happens. *)
Lemma log_line_run category text m :
  let tid := if mc_ready m && negb (activeTask (k_tm (mc_kernel m)) =? 0) then decimal (activeTask (k_tm (mc_kernel m))) else chars "0" in
  log_line get_ports set_ports decimal category text m =
  Ok (tt, set_machine_ports (logged (tid ++ chars ": " ++ category ++ chars ": " ++ text ++ [10]) (machine_ports m)) m).
Proof.
  intros tid. unfold log_line, feed, endLog. set (k := mc_kernel m) in *.
  assert (forall s, (sputn get_ports set_ports s ;; sputn get_ports set_ports text ;; sputc get_ports set_ports 10) m =
    Ok (tt, set_machine_ports (logged (s ++ text ++ [10]) (machine_ports m)) m)) as Hrest.
  { intros s. rewrite (bind_run _ _ _ _ _ (sputn_run s m)), (bind_run _ _ _ _ _ (sputn_run text _)).
    assert (forall q, sputc get_ports set_ports 10 q = sputn get_ports set_ports [10] q) as Hc by (intros q; rewrite sputn_run; reflexivity).
    rewrite Hc, sputn_run, !machine_ports_set, !set_machine_ports_twice, !logged_app, app_assoc. done. }
  assert (beginLog get_ports set_ports decimal category m = sputn get_ports set_ports (tid ++ chars ": " ++ category ++ chars ": ") m) as Hbegin.
  { unfold beginLog. assert ((if mc_ready m then in_kernel (on_tm isTaskActive) else mret false) m = Ok (mc_ready m && negb (activeTask (k_tm k) =? 0), m)) as Ha.
    { destruct (mc_ready m); [|done]. unfold in_kernel, zoom, on_tm, isTaskActive, gets. cbn. destruct m as [[] ? ? ? ? ?]. done. }
    rewrite bind_read, (bind_run _ _ _ _ _ Ha). unfold tid. destruct (_ && _); [|done].
    erewrite bind_run; [done|]. unfold in_kernel, zoom, on_tm, getActiveTid, gets. cbn. destruct m as [[] ? ? ? ? ?]. done. }
  pose proof (Hrest (tid ++ chars ": " ++ category ++ chars ": ")) as H. rewrite <- !app_assoc in H. rewrite <- H.
  unfold mbind, ST_bind. by rewrite Hbegin.
Qed.
End log_line.

(** ** From the map of physical memory to the shell *)
Definition tty_ports (t : Terminal) : Ports := ports t.2.
Definition set_tty_ports (q : Ports) (t : Terminal) : Terminal := (t.1, Screen.set_ports q t.2).

Section start.
Context (p task : Z).
Context `{!TableAllocator MM, !TableAllocatorLaws MM mm_rest, !Symbols}.
Context (refillPool : ST MM unit) `{!MemoryLaws refillPool} (R : Z -> Prop).
Context (mem : Z -> Z) (fuel depth text : nat) (var local node directory tss : Z) (syscall_entry exec : Z).
(** The bound of the links that are followed *)
Let links : nat := S depth.
#[local] Existing Instance main_console.
Implicit Types (m : Machine Terminal) (k : Kernel Terminal) (G : ghost).
Abbreviation mm k := (as_mm (k_space k)).

(** Paging is on, with the directory of the kernel; the module of the loader, from [start] to [last], and the stacks are not mapped
    yet, and there is room for them and for the first task. *)
Record paged (start last : Z) (n : nat) (room : Z) (G : ghost) k (rk : Z) : Prop := {
  pg_spaces : spaces R (3 * Z.to_nat (module_count start last) + (26 + n))
    (room + 8 * page_cost refillPool + 2 * table_cost + 4 * table_cost * module_count start last) G (mm k);
  pg_room : 0 <= room;
  pg_kernel : kernel_ready G (mm k) rk;
  pg_current : g_currentPageDirectory (mm k) = g_kernelDirectory (mm k);
  pg_gigabyte : prefix_of 2 getKernelVBase = 2 ^ 18 - 1 /\ prefix_of 2 var = 2 ^ 18 - 1;
  pg_area : stack_area;
  pg_stacks i j : 0 <= i < StackCount -> 0 <= j < 4 -> pte_p (pte_at (mm_tables (mm k)) rk (stack_page i j)) = false;
  pg_module : module_ok start last G (mm k) rk;
  pg_apart x i j : 0 <= x < module_count start last -> 0 <= i < StackCount -> 0 <= j < 4 -> ~ page_of (module_page x) (stack_page i j);
  pg_objects : local <> g_kernelDirectory (mm k) /\ node <> g_kernelDirectory (mm k) /\ node <> local;
  pg_masked : rflags_if (cpu (k_tm k)) = false;
  pg_files : 0 < next_object (k_fs k) /\ forall q, next_object (k_fs k) <= q -> inodes (k_fs k) !! q = None;
  pg_screen : screen_free (console (k_fs k));
}.

(** The archive of the module has the program [data] under "/bin/sh". *)
Record archived (start last : Z) (entries : list Cpio.entry) (rest data : str) : Prop := {
  ar_bytes : map mem (seqZ start (4096 * module_count start last)) = encode_archive entries rest;
  ar_entries : Forall entry_ok entries /\ compatible entries;
  ar_shell : exists e, e ∈ entries /\ e_parts e = [chars "bin"; chars "sh"] /\ e_data e = data /\ Z.land (e_mode e) S_IFMT <> S_IFLNK;
}.

(** The registers of the system calls: a call enters at [syscall_entry] with the segments 0x08 and 0x10 and returns to those from
    0x10 on; it is enabled, and the other bits of EFER are those before. *)
Record calls_enabled (msr msr' : gmap Z Z) : Prop := {
  ce_star : msr' !! MSR_STAR = Some 0x0010000800000000;
  ce_lstar : msr' !! MSR_LSTAR = Some syscall_entry;
  ce_efer : exists e, msr' !! MSR_EFER = Some e /\ Z.testbit e 0 = true /\
    forall i, 0 < i < 64 -> Z.testbit e i = Z.testbit (default 0 (msr !! MSR_EFER)) i;
}.

Definition calls_msr (msr : gmap Z Z) : gmap Z Z :=
  let e := Z.lor (default 0 (msr !! MSR_EFER)) 1 in
  <[MSR_EFER := u64 (Z.lor e 1)]> (<[MSR_EFER := e]> (<[MSR_LSTAR := u64 syscall_entry]> (<[MSR_STAR := 0x0010000800000000]> msr))).

Lemma calls_msr_enabled msr : in_word 64 syscall_entry -> calls_enabled msr (calls_msr msr).
Proof.
  intros Hw. unfold calls_msr. split.
  - by rewrite !lookup_insert_ne, lookup_insert_eq by done.
  - rewrite !(lookup_insert_ne _ MSR_EFER) by done. rewrite lookup_insert_eq. f_equal. by apply wrap_small.
  - rewrite lookup_insert_eq. eexists. split; [done|]. unfold wrap. split.
    + rewrite Z.mod_pow2_bits_low, Z.lor_spec by done. by rewrite orb_true_r.
    + intros i Hi. rewrite Z.mod_pow2_bits_low, !Z.lor_spec by lia.
      replace (Z.testbit 1 i) with false by (symmetry; apply Z.bits_above_log2; [done|simpl; lia]). by rewrite !orb_false_r.
Qed.

Lemma initSysCallGate_run k : initSysCallGate (C := Terminal) syscall_entry k = Ok (tt, set_k_msr (calls_msr (k_msr k)) k).
Proof.
  unfold initSysCallGate. rewrite (bind_run _ _ _ _ _ (writeMsr_run _ _ _)), (bind_run _ _ _ _ _ (writeMsr_run _ _ _)).
  unfold readMsr, wrmsr at 1.
  unfold mbind, ST_bind, gets, modify, mret, ST_ret. cbn [k_msr set_k_msr].
  rewrite writeMsr_run. cbn [k_msr set_k_msr].
  rewrite !(lookup_insert_ne _ _ MSR_EFER) by done. done.
Qed.

Lemma initSysCalls_run k : in_word 64 syscall_entry -> exists table msr,
  initSysCalls (C := Terminal) (Console0 := main_console p task) refillPool links text var local node syscall_entry k = Ok (table, set_k_msr msr k) /\
  register_all (Console0 := main_console p task) refillPool links text var local node all_calls ∅ = Ok table /\ calls_enabled (k_msr k) msr.
Proof.
  intros Hw. eexists _, (calls_msr (k_msr k)). split; [|split; [reflexivity|by apply calls_msr_enabled]].
  unfold initSysCalls. rewrite (bind_run _ _ _ _ _ (initSysCallGate_run k)). reflexivity.
Qed.

Lemma timer_programmed q : exists a q', Timer_init 1 q = Ok (a, q').
Proof. unfold Timer_init. cbn [Z.eqb]. eexists _, _. reflexivity. Qed.

Lemma boot_ready_kept n room G G' k k' rk start last :
  paged start last n room G k rk ->
  spaces R (26 + n) (room + 8 * page_cost refillPool + 2 * table_cost) G' (mm k') -> kernel_ready G' (mm k') rk ->
  grown_but (on_module (seqZ 0 (module_count start last))) G G' (mm k) (mm k') -> mm_rest (mm k') = mm_rest (mm k) ->
  k_stackHeap k' = new_PageHeap -> tasks (k_tm k') = ∅ -> nextTid (k_tm k') = 1 -> activeTask (k_tm k') = 0 -> cpu (k_tm k') = cpu (k_tm k) ->
  boot_ready refillPool R var local node n room G' k' rk.
Proof.
  intros [_ H0 Hk Hcur Hg Ha Hst _ Hap Hobj Hif _ _] Hsp Hk' Hgrown Hrest Hh Ht Hn Hact Hcpu.
  injection Hrest as Ed Ek Ec _ _.
  split; [exact Hsp|exact H0|exact Hk'|congruence|exact Hg|exact Ha| |by rewrite Ek|done|by rewrite Hcpu].
  rewrite Hh. split; [|by vm_compute]. split; [done|by vm_compute|]. intros i j Hi Hj _.
  rewrite (proj2 Hgrown rk (stack_page i j) (dir_root _ _ _ _ (kr_directory _ _ _ Hk))); [by apply Hst| |].
  - by apply (stack_page_upper Ha G (mm k) rk i j).
  - intros (x & Hx%elem_of_seqZ & E). by apply (Hap x i j); [lia|..].
Qed.

Lemma shell_file_read root Gf (f : FsState Terminal) entries data start last rest :
  read_so_far root Gf f entries -> g_root f = root -> root <> 0 -> is_Some (inodes f !! root) -> archived start last entries rest data -> shell_file f data.
Proof.
  intros Hso Hroot H0 [i0 Hi0] [_ _ (e & He & Hparts & <- & Hlink)].
  destruct (so_found _ _ _ _ Hso e He) as (c & i & Hr & Hi & Hb & Hm & _). rewrite Hparts in Hr.
  exists c, i, i0. rewrite Hroot. split_and!; try done. unfold is_link. rewrite Hm. by apply Z.eqb_neq.
Qed.

(** What [kmain] has made: the task segment, the table of the system calls, with the handler of each, and the registers through which
    they enter the kernel *)
Record components_made m m' : Prop := {
  cm_segment : segment_added tss (mc_tables m) (mc_tables m');
  cm_table : register_all (Console0 := main_console p task) refillPool links text var local node all_calls ∅ = Ok (mc_handlers m');
  cm_handlers sc : mc_handlers m' !! sc_number sc = Some (handler_of (Console0 := main_console p task) refillPool links text var local node sc);
  cm_calls : calls_enabled (k_msr (mc_kernel m)) (k_msr (mc_kernel m'));
  cm_log : mc_ready m' = true;
  cm_others : mc_cr4 m' = mc_cr4 m /\ mc_heap m' = mc_heap m;
}.

(** The machine when [_main] is called *)
Record started (n : nat) (room : Z) (data : str) m m' (rk : Z) : Prop := {
  sd_ready : exists G, boot_ready refillPool R var local node n room G (mc_kernel m') rk;
  sd_shell : shell_file (k_fs (mc_kernel m')) data;
  sd_screen : screen_free (console (k_fs (mc_kernel m')));
  sd_components : components_made m m';
}.

(** Where the task state and the entry point are, and the table of the segments that is extended *)
Context (Htss : in_word 64 tss) (Hentry : in_word 64 syscall_entry).

Lemma kmain_start_run n room G m rk mboot l start last entries rest data :
  length (g_gdtEntries (mc_tables m)) = 7%nat ->
  paged start last n room G (mc_kernel m) rk ->
  tags_at mem (mboot + TAGS_HEADER_SIZE) l -> (length l < fuel)%nat -> modules l = [(start, last)] ->
  archived start last entries rest data ->
  Runs (kmain_start (Console0 := main_console p task) refillPool tty_ports set_tty_ports mem fuel links text var local node tss
    syscall_entry mboot) m (fun _ m' => started n room data m m' rk).
Proof.
  intros Hgdt Hpg Htags Hf Hmod Har. pose proof Hpg as [Hsp H0 Hk _ _ _ _ Hm _ _ _ [Hn0 Hfresh] Hscr].
  destruct m as [k heap tables handlers ready cr4]. cbn [mc_kernel mc_tables] in *. unfold kmain_start.
  apply Runs_bind. unfold in_kernel at 1. apply Runs_zoom, Runs_modify. cbn [set_mc_kernel mc_kernel].
  apply Runs_bind. unfold TaskManager_get. apply Runs_bind. unfold in_kernel at 1. apply Runs_zoom, Runs_modify. cbn [set_mc_kernel mc_kernel].
  apply Runs_on_ports; [by eexists _, _|]. intros _ q1. unfold set_machine_ports. cbn [set_mc_kernel mc_kernel].
  apply Runs_bind. unfold setUpTss. apply Runs_bind. unfold on_tables. apply Runs_zoom.
  eapply Runs_mono; [exact (initTr_segment tss tables Htss Hgdt)|]. intros [] tables' Hsegment. unfold in_kernel at 1. apply Runs_zoom. unfold on_tm, setKernelStack. apply Runs_zoom, Runs_modify, Runs_bind, Runs_modify.
  cbn [set_mc_kernel set_mc_tables set_mc_ready mc_kernel mc_tables mc_heap mc_handlers mc_ready mc_cr4].
  set (k1 := set_k_tm (set_kernel_stack getStackBase _) _).
  destruct (initSysCalls_run k1 Hentry) as (table & msr & Hcalls & Htable & Hmsr).
  apply Runs_bind. unfold in_kernel at 1. apply Runs_zoom. cbn [mc_kernel]. eapply Runs_of_ok; [exact Hcalls|].
  apply Runs_bind, Runs_modify. apply Runs_bind. unfold on_loader at 1, in_kernel at 1. apply Runs_zoom, Runs_zoom.
  cbn [mc_kernel set_mc_kernel set_mc_handlers]. unfold Multiboot.handle. set (b := mkBoot false _ _).
  destruct Har as [Hbytes [Hok Hcomp] Hshell].
  eapply Runs_mono.
  { apply (handle_loop_run refillPool R mem l fuel (mboot + TAGS_HEADER_SIZE) start last entries rest (26 + n)
      (room + 8 * page_cost refillPool + 2 * table_cost) G b rk Htags Hf Hmod eq_refl); cbn [boot_mm boot_fs].
    - exact Hsp.
    - pose proof table_cost_nonneg. unfold page_cost. lia.
    - exact Hk.
    - exact Hm.
    - exact Hbytes.
    - exact Hfresh.
    - exact Hok.
    - exact Hcomp. }
  intros [] b' (G' & [_ Hsp' Hk' Hg' Hrest' _ Hroot' Hcons' [Gf Hso]]). cbn [boot_mm boot_fs] in *.
  apply Runs_on_ports; [by apply timer_programmed|]. intros _ q2. unfold set_machine_ports. cbn [set_mc_kernel mc_kernel].
  set (k2 := set_k_fs _ _).
  assert (console (k_fs k2) = set_tty_ports q2 (set_tty_ports q1 (console (k_fs k)))) as Econs.
  { cbn. by rewrite Hcons'. }
  split; cbn [mc_kernel mc_ready set_mc_kernel set_mc_handlers set_mc_ready].
  - exists G'. apply (boot_ready_kept n room G G' k k2 rk start last Hpg); try done.
  - assert (shell_file (boot_fs b') data) as Hsf; [|exact Hsf].
    apply (shell_file_read (next_object (k_fs k)) Gf _ entries data start last rest Hso Hroot' ltac:(lia)); [|by split].
    pose proof (archive_tree _ _ _ (so_archive _ _ _ _ Hso)) as Ht. by apply (tree_live _ _ _ Ht _ [] (tree_root _ _ _ Ht)).
  - change (mc_kernel _) with k2. rewrite Econs. exact Hscr.
  - split; [exact Hsegment|exact Htable| |exact Hmsr|done|done]. intros sc. exact (registered _ _ _ _ _ _ _ sc Htable).
Qed.

Lemma kmain_to_shell_run n room G m rk mboot l start last entries rest data hdr segments :
  length (g_gdtEntries (mc_tables m)) = 7%nat ->
  paged start last (3 * (load_pages segments + 4) + n) (page_cost refillPool * Z.of_nat (load_pages segments + 4) + room) G (mc_kernel m) rk ->
  0 <= room -> tags_at mem (mboot + TAGS_HEADER_SIZE) l -> (length l < fuel)%nat -> modules l = [(start, last)] ->
  archived start last entries rest data -> program data hdr segments ->
  Runs (kmain_to_shell (Console0 := main_console p task) refillPool tty_ports set_tty_ports tty_clear mem fuel links text
    var local node tss syscall_entry exec mboot) m (fun o m' =>
    o = Leaves (Jump 1 (start_context (e_entry hdr) (argument_pointer init_args) (main_context exec))) /\
    shows (fold_left (type_char LightGrey Black) greeting blank_sheet) (console (k_fs (mc_kernel m'))).2 /\
    components_made m m' /\ exists r2, ~ R r2 /\ shell_started R node exec (mc_kernel m') r2 data hdr segments).
Proof.
  intros Hgdt Hpg H0 Htags Hf Hmod Har Hprog. unfold kmain_to_shell. apply Runs_bind.
  eapply Runs_mono; [exact (kmain_start_run _ _ G m rk mboot l start last entries rest data Hgdt Hpg Htags Hf Hmod Har)|].
  intros [] m1 [[G1 Hb] Hshell Hscr Hmade]. unfold in_kernel. apply Runs_zoom.
  eapply Runs_mono; [apply Runs_and; [|apply (boot_keeps_msr (Console0 := main_console p task))];
    exact (terminal_boot_run p task refillPool R var local node depth exec n room G1 (mc_kernel m1) rk
    data hdr segments Hb H0 Hscr Hshell Hprog)|].
  intros o k' [(-> & Hshow & Hss) Hmsr]. split; [done|]. split; [exact Hshow|]. split; [|exact Hss].
  destruct Hmade as [H1 H2 H3 H4 H5 H6]. split; [exact H1|exact H2|exact H3|cbn; by rewrite Hmsr|exact H5|exact H6].
Qed.

(** C7. From the map of physical memory to the shell: [kmain] makes the task segment, as the processor reads it, and the table of the
    system calls, with the handler of each number, and enables them with their entry point; it maps the module of the boot loader
    and makes the file system from its archive; [_main] makes the first task; and the processor comes to the entry point of the archive's
    "/bin/sh", in user mode, with the program in memory and its arguments on the stack. *)
Theorem kmain_to_shell_spec n room G m rk mboot l start last entries rest data hdr segments :
  length (g_gdtEntries (mc_tables m)) = 7%nat ->
  paged start last (3 * (load_pages segments + 4) + n) (page_cost refillPool * Z.of_nat (load_pages segments + 4) + room) G (mc_kernel m) rk ->
  0 <= room -> tags_at mem (mboot + TAGS_HEADER_SIZE) l -> (length l < fuel)%nat -> modules l = [(start, last)] ->
  archived start last entries rest data -> program data hdr segments ->
  Runs (kmain_to_shell (Console0 := main_console p task) refillPool tty_ports set_tty_ports tty_clear mem fuel links text
    var local node tss syscall_entry exec mboot) m (fun o m' =>
    o = Leaves (Jump 1 (start_context (e_entry hdr) (argument_pointer init_args) (main_context exec))) /\
    shows (fold_left (type_char LightGrey Black) greeting blank_sheet) (console (k_fs (mc_kernel m'))).2 /\
    components_made m m' /\ exists r2, ~ R r2 /\ shell_started R node exec (mc_kernel m') r2 data hdr segments).
Proof. apply kmain_to_shell_run. Qed.
End start.

(** ** A machine with a map of its memory, and a module with a program *)
Section examples.
Existing Instances example_symbols pd_allocator pool_laws pool_memory_laws.
Abbreviation example_allocator := (pd_allocator no_mapPage).
Abbreviation example_laws := (pool_laws no_mapPage).
Abbreviation example_refill := (refillPool pdPageHeap (on_kernel no_mapPage) 0).
Abbreviation example_memory := (pool_memory_laws 0).
Abbreviation root := AddressSpace.example_task.

Definition shell_entries : list Cpio.entry :=
  [mkEntry [chars "bin"; chars "sh"] 0x81ed example_elf (replicate 4 0) (replicate 12 0)].
Definition shell_archive : str := encode_archive shell_entries [].
Definition behind_archive : str := replicate (Z.to_nat (0x2000 - data_size shell_archive)) 0.
Definition loader_memory (a : Z) : Z :=
  if a <? 0x200000 then boot_memory a else nth (Z.to_nat (a - 0x200000)) shell_archive 0.

Definition loaded_mm : MM :=
  mkMM small_memory example_path.1 (mkPageHeap 64 true (replicate 64 true) (map block_of (seqZ 4 50)))
    {[ example_object := mkPageDirectory (block 0).2 (block 0).1 ]} example_object example_object true 0.
Definition loaded_machine : Machine Terminal :=
  mkMachine (mkKernel ∅ (mkFs ∅ ∅ 1 0 example_tty) (mkSpace loaded_mm (fun _ => 0)) (new_TaskManager (mkCpu false 0)) new_PageHeap 0 ∅)
    (mkKHeap 0 0 0 ∅) DescTables.example_tables ∅ false 0.

Lemma loaded_pool : pool_ready 50 example_ghost loaded_mm.
Proof.
  split; [done|done| | |].
  - assert (Forall (fun b => block_ptr b <> 0 /\ example_ghost !! block_ptr b = None /\ in_word 52 b.2 /\ b.2 mod 4096 = 0 /\
      map_Forall (fun _ g => t_phys g <> b.2) example_ghost) (m_pool (mm_pageHeap loaded_mm))) as Hall
      by (refine (bool_decide_unpack _ _); by vm_compute).
    intros b Hb. rewrite Forall_forall in Hall. destruct (Hall b Hb) as (? & ? & ? & ? & ?). by apply fresh_table_dec.
  - refine (bool_decide_unpack _ _). by vm_compute.
  - refine (bool_decide_unpack _ _). by vm_compute.
Qed.

Lemma loaded_spaces room : 0 <= room < 2 ^ 32 -> @spaces example_allocator example_laws nobody 50 room example_ghost loaded_mm.
Proof.
  intros Hroom. split.
  - exact example_path_wf.
  - by intros r [].
  - by intros r r' a a' q [].
  - done.
  - apply small_memory_wf.
  - cbn [mm_memory loaded_mm]. assert (frames_size small_memory = 4) as -> by done. lia.
  - exact loaded_pool.
  - by intros r a [].
  - by intros r r' a a' [].
  - by intros r m [].
Qed.

Lemma example_module_ok : @module_ok example_allocator example_laws example_symbols 0x200000 0x202000 example_ghost loaded_mm root.
Proof.
  assert (forall i, 0 <= i < module_count 0x200000 0x202000 -> i = 0 \/ i = 1) as Hi
    by (intros i Hi; change (module_count 0x200000 0x202000) with 2 in Hi; lia).
  split.
  - done.
  - lia.
  - split; [by vm_compute| |by intros i m _ []]. by intros i [-> | ->]%Hi; vm_compute.
  - by intros i [-> | ->]%Hi; vm_compute.
Qed.

Lemma module_stack_apart x i j :
  0 <= x < 2 -> 0 <= i < StackCount -> 0 <= j < 4 -> ~ page_of (module_page x) (stack_page i j).
Proof.
  intros Hx Hi Hj E%same_page_prefix. rewrite example_prefix in E by done. change (9 * Z.of_nat 0) with 0 in E. rewrite Z.div_1_r in E.
  assert (x = 0 \/ x = 1) as [-> | ->] by lia.
  - assert (prefix_of 0 (module_page 0) = 2 ^ 36 - 0x30000) as Ep by (by vm_compute). unfold StackCount in Hi. lia.
  - assert (prefix_of 0 (module_page 1) = 2 ^ 36 - 0x30000 + 1) as Ep by (by vm_compute). unfold StackCount in Hi. lia.
Qed.

Lemma loaded_paged :
  @paged example_allocator example_laws example_symbols example_refill example_memory nobody boot_stack 0x8000 0x9000
    0x200000 0x202000 (3 * (load_pages example_segments + 4) + 0) (1 * Z.of_nat (load_pages example_segments + 4) + 0) example_ghost
    (mc_kernel loaded_machine) root.
Proof.
  assert (load_pages example_segments = 2%nat) as -> by by vm_compute.
  split.
  - by apply loaded_spaces.
  - done.
  - destruct parent_ready as [[H1 H2 H3] H4 H5]. split; [split; [exact H1|exact H2|exact H3]|exact H4|exact H5].
  - done.
  - by vm_compute.
  - exact example_area.
  - intros i j Hi Hj. apply (so_free _ _ _ parent_stacks i j Hi Hj). apply not_true_is_false. intros Hn%nth_bool_range. cbn in Hn. lia.
  - exact example_module_ok.
  - intros x i j Hx. by apply module_stack_apart.
  - cbn [g_kernelDirectory as_mm k_space mc_kernel loaded_machine loaded_mm]. unfold example_object. lia.
  - done.
  - done.
  - by vm_compute.
Qed.

Lemma shell_archived : archived loader_memory 0x200000 0x202000 shell_entries behind_archive example_elf.
Proof.
  split.
  - by vm_compute.
  - split.
    + apply Forall_singleton. split; try (by vm_compute). by apply (bool_decide_unpack _); vm_compute.
    + intros k1 k2 e1 e2 [-> _]%list_lookup_singleton_Some [-> _]%list_lookup_singleton_Some. done.
  - eexists. split; [left|]. by vm_compute.
Qed.

Lemma example_tss : in_word 64 0x3000.
Proof. done. Qed.
Lemma example_entry : in_word 64 0x1234.
Proof. done. Qed.

Lemma kmain_to_shell_spec_witness :
  Runs (@kmain_to_shell Terminal (main_console 0x100 1) example_allocator example_symbols example_refill
          tty_ports set_tty_ports tty_clear loader_memory 10 1 0 boot_stack 0x8000 0x9000 0x3000 0x1234 0xffffffffc0001000 0x1000)
    loaded_machine (fun o m' =>
    exists c r2, o = Leaves (Jump 1 c) /\ rip c = 0x400002 /\ cs c = 0x23 /\ view (k_space (mc_kernel m')) r2 0x400003 = Some 195 /\
      reg_tr (registers (mc_tables m')) = 0x28 /\ k_msr (mc_kernel m') !! MSR_LSTAR = Some 0x1234).
Proof.
  eapply Runs_mono.
  - apply (@kmain_to_shell_spec 0x100 1 example_allocator example_laws example_symbols
      example_refill example_memory nobody loader_memory 10 0 0 boot_stack 0x8000 0x9000 0x3000 0x1234 0xffffffffc0001000
      example_tss example_entry 0 0 example_ghost loaded_machine root 0x1000 boot_tags 0x200000 0x202000 shell_entries behind_archive
      example_elf example_header example_segments eq_refl loaded_paged).
    + done.
    + repeat (split; [vm_compute; congruence|]). vm_compute. done.
    + cbn. lia.
    + done.
    + exact shell_archived.
    + exact example_program.
  - intros o m' (-> & _ & [[[Htr _] _ _ _ _] _ _ [_ Hl _] _ _] & r2 & _ & [_ Hseg _ _ _]). eexists _, r2. split; [done|]. split; [done|]. split; [done|].
    apply Forall_cons in Hseg as [Hseg _]. split; [by apply (Hseg 3%nat 195)|done].
Defined.
End examples.
