(* ===== verification/Linked.v ===== *)
(** * The kernel as it is linked: its tables when paging starts

    [PageDirectory.makeKernelDirectory] on a machine where nothing is set up, with the addresses that "linker.ld" gives a kernel of some size, leaves
    tables that are well-formed and a heap of page tables that is ready.  The checks are functions on finite tables, evaluated on
    the state that the function leaves. *)

From Stdlib Require Import ZArith Lia.
From stdpp Require Import list numbers gmap.
From S2P Require Import Prelude Words Memory KHeap Pte Interrupts Tasks Family Devices DescTables Multiboot Fs Cpio FileManager PageManager PageHeap PageDirectory.
From S2P Require Import Screen Tty Terminals UserSpace AddressSpace UserWalk NewDirectory TableHeap Elf Processes Kernel Fork Stacks Loading Boot.

(** ** Tables that can be checked *)
Section checks.
Implicit Types (G : ghost) (T : Tables).

(** The tables under [p], as their pointers lead to them *)
Fixpoint table_infos T (levels : nat) (prefix phys p : Z) : list (Z * table_info) :=
  (p, mkInfo levels prefix phys) ::
  match levels with
  | O => []
  | S l => concat (map (fun iq => table_infos T l (prefix * 512 + iq.1) (pte_base (entry_at T p iq.1) * 4096) iq.2)
             (map_to_list (default ∅ (m_nextLayouts <$> T !! p))))
  end.

Definition entry_check (levels : nat) (nexts : gmap Z Z) (i : Z) (e : PageTableEntry) : Prop :=
  (in_word 3 (pte_avl e) /\ in_word 40 (pte_base e) /\ in_word 11 (pte_avl2 e)) /\
  ((1 < levels)%nat -> pte_p e = true -> default 0 (nexts !! i) <> 0).
Definition next_check G (g : table_info) (entries : gmap Z PageTableEntry) (i q : Z) : Prop :=
  let e := default zero_pte (entries !! i) in
  q <> 0 /\ 0 <= i < 512 /\ (1 < t_levels g)%nat /\ pte_p e = true /\
  G !! q = Some (mkInfo (pred (t_levels g)) (t_prefix g * 512 + i) (pte_base e * 4096)).
Definition table_check G T (p : Z) (g : table_info) : Prop :=
  let t := default PageManager (T !! p) in
  (1 <= t_levels g <= LevelCount)%nat /\ in_word 52 (t_phys g) /\ t_phys g mod 4096 = 0 /\
  map_Forall (entry_check (t_levels g) (m_nextLayouts t)) (m_entries t) /\
  map_Forall (next_check G g (m_entries t)) (m_nextLayouts t).
Definition tables_check G T : Prop :=
  map fst (map_to_list T) = map fst (map_to_list (G)) /\ G !! 0 = None /\
  NoDup (map (fun pg => t_phys pg.2) (map_to_list G)) /\ map_Forall (table_check G T) G.

#[export] Instance in_word_dec w x : Decision (in_word w x).
Proof. unfold in_word. apply _. Defined.
#[export] Instance tables_check_dec G T : Decision (tables_check G T).
Proof. unfold tables_check, table_check, entry_check, next_check. apply _. Defined.

Lemma map_dom_fst {A} (m : gmap Z A) p : is_Some (m !! p) <-> p ∈ map fst (map_to_list m).
Proof.
  rewrite list_elem_of_fmap. split.
  - intros [x Hx]. exists (p, x). split; [done|]. by apply elem_of_map_to_list.
  - intros ((q & x) & -> & Hx%elem_of_map_to_list). by exists x.
Qed.

Lemma tables_check_wf G T : tables_check G T -> tables_wf G T.
Proof.
  intros (Hdom & Hnull & Hphys & Hall).
  assert (forall p g, G !! p = Some g -> table_check G T p g) as Ht by apply Hall.
  assert (forall p, is_Some (T !! p) <-> is_Some (G !! p)) as Hd by (intros p; by rewrite !map_dom_fst, Hdom).
  assert (forall p i e, entry_at T p i = e -> e = zero_pte \/ exists t, T !! p = Some t /\ m_entries t !! i = Some e) as Hentry.
  { intros p i e <-. unfold entry_at. destruct (T !! p) as [t|] eqn:E; [|by left]. cbn. destruct (m_entries t !! i) eqn:Ei; [|by left].
    right. by exists t. }
  assert (forall p i, next_at T p i <> 0 -> exists t, T !! p = Some t /\ m_nextLayouts t !! i = Some (next_at T p i)) as Hnext.
  { intros p i Hn. unfold next_at in *. destruct (T !! p) as [t|] eqn:E; [|done]. cbn in *. destruct (m_nextLayouts t !! i) eqn:Ei; [|done]. by exists t. }
  assert (forall p t, T !! p = Some t -> exists g, G !! p = Some g /\ table_check G T p g) as Hof.
  { intros p t E. destruct (proj1 (Hd p) (mk_is_Some _ _ E)) as [g Hg]. exists g. auto. }
  split.
  - done.
  - done.
  - intros p g Hg. apply (Ht p g Hg).
  - intros p g Hg. destruct (Ht p g Hg) as (_ & H1 & H2 & _). done.
  - intros p p' g g' Hg Hg' E. apply elem_of_map_to_list in Hg as [i Hi]%list_elem_of_lookup. apply elem_of_map_to_list in Hg' as [j Hj]%list_elem_of_lookup.
    assert (i = j) as -> by (apply (proj1 (NoDup_alt _) Hphys i j (t_phys g)); apply list_lookup_fmap_Some; [by exists (p, g)|by exists (p', g')]).
    congruence.
  - intros p i g Hg Hlev. destruct (decide (next_at T p i = 0)) as [|Hn]; [done|]. destruct (Hnext p i Hn) as (t & E & Hi).
    destruct (Ht p g Hg) as (_ & _ & _ & _ & Hn2). rewrite E in Hn2. destruct (Hn2 _ _ Hi) as (_ & _ & H1 & _). lia.
  - intros p i g Hg Hlev. destruct (Ht p g Hg) as (_ & _ & _ & He & Hn2). split.
    + intros Hp. destruct (Hentry p i _ eq_refl) as [E|(t & E & Hi)]; [by rewrite E in Hp|]. rewrite E in He.
      unfold next_at. rewrite E. by apply (He _ _ Hi).
    + intros Hn. destruct (Hnext p i Hn) as (t & E & Hi). rewrite E in Hn2. destruct (Hn2 _ _ Hi) as (_ & _ & _ & Hp & _).
      unfold entry_at. by rewrite E.
  - intros p i g Hg Hn. destruct (Hnext p i Hn) as (t & E & Hi). destruct (Ht p g Hg) as (_ & _ & _ & _ & Hn2). rewrite E in Hn2.
    destruct (Hn2 _ _ Hi) as (_ & Hrange & Hlev & _ & Hg'). cbn [default from_option] in *. split; [done|]. eexists. split; [exact Hg'|].
    cbn [t_levels t_prefix t_phys]. split; [lia|]. split; [done|]. unfold entry_at. rewrite E. cbn.
    rewrite Z.shiftr_div_pow2 by done. change (2 ^ BASE_SHIFT) with 4096. by rewrite Z.div_mul.
  - intros p i. destruct (Hentry p i _ eq_refl) as [->|(t & E & Hi)]; [by vm_compute|].
    destruct (Hof p t E) as (g & _ & (_ & _ & _ & He & _)). rewrite E in He. by apply (He _ _ Hi).
Qed.
End checks.

(** ** The kernel as it is linked

    The addresses that "linker.ld" assigns, for sections of 0x50000, 0x10000 and 0x30000 bytes. *)
#[local] Instance linked_symbols : Symbols := {|
  getKernelBootstrapStart := 0x1f0000;
  getKernelTextStart := 0x200000;
  getKernelRodataStart := 0x250000;
  getKernelDataStart := 0x260000;
  getKernelBssEnd := 0x290000;
  getKernelPageHeapStart := 0x600000;
  getKernelVTextStart := 0xffffffffc0000000;
  getKernelVTextEnd := 0xffffffffc0050000;
  getKernelVRodataStart := 0xffffffffc0050000;
  getKernelVRodataEnd := 0xffffffffc0060000;
  getKernelVDataStart := 0xffffffffc0060000;
  getKernelVBssEnd := 0xffffffffc0090000;
  getKernelVVga := 0xffffffffcf000000;
  getStackBase := 0xffffffffd0000000;
  getPageHeapBase := 0xffffffffe0000000;
  getStackPageHeapBase := 0xffffffffe8000000;
  getHeapBase := 0xfffffffff0000000;
|}.

(** The object of the kernel's directory, in the kernel's heap *)
Definition linked_object : Z := 0xfffffffff0000100.

(** Nothing is set up. *)
Definition off_mm (h : PageHeap) : MM := mkMM (mkMemory [] 0) ∅ h ∅ 0 0 false 0.

(** What [makeKernelDirectory] and [use] leave; the tables all come from the static blocks *)
Definition linked_mm : MM :=
  match (pd ← @makeKernelDirectory (pd_allocator no_mapPage) _ linked_object; use pd 0) (off_mm new_PageHeap) with
  | Ok (_, s) => s
  | Err _ => off_mm new_PageHeap
  end.

Definition linked_root : Z := block_page 0 0.
Definition linked_ghost : ghost := list_to_map (table_infos (mm_tables linked_mm) LevelCount 0 getKernelPageHeapStart linked_root).

Lemma linked_run fuel nesting var :
  (pd ← @makeKernelDirectory (kernel_allocator fuel nesting) _ linked_object; use pd var) (off_mm new_PageHeap) = Ok (tt, linked_mm).
Proof. vm_compute. reflexivity. Qed.

Lemma linked_wf : tables_wf linked_ghost (mm_tables linked_mm).
Proof. apply tables_check_wf. refine (bool_decide_unpack _ _). by vm_compute. Qed.

Lemma linked_ghost_root : linked_ghost !! linked_root = Some (mkInfo LevelCount 0 getKernelPageHeapStart).
Proof. by vm_compute. Qed.

Lemma linked_object_at : mm_directories linked_mm !! linked_object = Some (mkPageDirectory getKernelPageHeapStart linked_root).
Proof. by vm_compute. Qed.

Lemma linked_globals :
  g_kernelDirectory linked_mm = linked_object /\ g_currentPageDirectory linked_mm = linked_object /\ g_pagingReady linked_mm = true.
Proof. by vm_compute. Qed.

Lemma linked_heap : map_size (mm_pageHeap linked_mm) = 8 /\ m_pool (mm_pageHeap linked_mm) = [] /\ m_allocating (mm_pageHeap linked_mm) = false.
Proof. by vm_compute. Qed.

Lemma linked_upper : next_at (mm_tables linked_mm) linked_root 511 <> 0 /\ l2_of (mm_tables linked_mm) linked_root <> 0.
Proof. by vm_compute. Qed.

Lemma linked_missing : missing 256 (mm_tables linked_mm) linked_root = 0.
Proof. by vm_compute. Qed.

Lemma linked_used : map_Forall (fun _ g => used (mm_memory linked_mm) (t_phys g / 4096) = true) linked_ghost.
Proof. refine (bool_decide_unpack _ _). by vm_compute. Qed.

Lemma Forall_seqZ (P : Z -> Prop) n `{!forall i, Decision (P i)} :
  bool_decide (Forall P (seqZ 0 n)) = true -> forall i, 0 <= i < n -> P i.
Proof. intros Hall%bool_decide_eq_true i Hi. apply (proj1 (Forall_forall _ _) Hall). apply elem_of_seqZ. lia. Qed.

Lemma forallb_seqZ f b n : forallb f (seqZ b n) = true -> forall i, b <= i < b + n -> f i = true.
Proof. intros Hall i Hi. rewrite forallb_forall in Hall. apply Hall, list_elem_of_In, elem_of_seqZ. lia. Qed.

(** What holds of each number below a bound, by evaluation *)
Ltac check_below n :=
  match goal with |- forall i, 0 <= i < n -> @?P i => apply (Forall_seqZ P n); vm_compute; reflexivity end.

(** The blocks that are free: their pages are not mapped, or they are static and theirs alone. *)
Lemma linked_chunks i : 0 <= i < 256 -> next_at (mm_tables linked_mm) (l2_of (mm_tables linked_mm) linked_root) (chunk i) <> 0.
Proof.
  revert i. assert (forall T, (forall i, 0 <= i < 256 -> chunk i = 256) -> next_at T (l2_of T linked_root) 256 <> 0 ->
    forall i, 0 <= i < 256 -> next_at T (l2_of T linked_root) (chunk i) <> 0) as Hall by (intros T H0 Hn i Hi; by rewrite H0).
  apply Hall; [check_below 256|by vm_compute].
Qed.

(** The blocks that are free are not tables. *)
Definition free_blocks_new (map : list bool) (G : ghost) : bool :=
  forallb (fun i => nth_bool map i || bool_decide (G !! block_page i 0 = None)) (seqZ 0 256).

Lemma free_block_new map G i : free_blocks_new map G = true -> 0 <= i < 256 -> nth_bool map i = false -> G !! block_page i 0 = None.
Proof. intros Hall Hi Hc. apply (forallb_seqZ _ 0 256 Hall) in Hi. rewrite Hc in Hi. by apply bool_decide_eq_true in Hi. Qed.

Lemma linked_fresh : free_blocks_new (m_map (mm_pageHeap linked_mm)) linked_ghost = true.
Proof. by vm_compute. Qed.

(** No page of a range is mapped. *)
Definition unmapped_pages (T : Tables) (base n : Z) : bool :=
  forallb (fun i => negb (pte_p (pte_at T linked_root (base + i * 4096)))) (seqZ 0 n).

Lemma unmapped_page T base n a i : unmapped_pages T base n = true -> a = base + i * 4096 -> 0 <= i < n -> pte_p (pte_at T linked_root a) = false.
Proof.
  intros Hall -> Hi. apply negb_true_iff. by apply (forallb_seqZ _ 0 n Hall).
Qed.

Lemma linked_ranges :
  unmapped_pages (mm_tables linked_mm) (getPageHeapBase + 32 * 4096) 480 = true /\
  forallb (fun c => next_at (mm_tables linked_mm) (l2_of (mm_tables linked_mm) linked_root) c =? 0) (seqZ 320 64) = true /\
  unmapped_pages (mm_tables linked_mm) getStackBase 64 = true.
Proof. by vm_compute. Qed.

Lemma linked_static i : 0 <= i < 16 -> nth_bool (m_map (mm_pageHeap linked_mm)) i = false ->
  used (mm_memory linked_mm) (static_phys pdPageHeap i / 4096) = true /\ map_Forall (fun _ g => t_phys g <> static_phys pdPageHeap i) linked_ghost.
Proof. revert i. check_below 16. Qed.

(** The pages of the kernel: the screen, the sections, the boot stack, the blocks of its heaps *)
Definition linked_page (p : Z) : bool :=
  (p =? 0xb8) || in_range 0x200 0x290 p || in_range 0x5fc 0x620 p || in_range 0x800 0xa00 p.

Lemma linked_memory : memory_wf (mm_memory linked_mm) /\ frames_size (mm_memory linked_mm) = 2560 /\
  forall p, 0 <= p < 2560 -> used (mm_memory linked_mm) p = linked_page p.
Proof. split; [by vm_compute|]. split; [by vm_compute|]. check_below 2560. Qed.

(** With 256 blocks, the heap is the area of the one table of pages that is there. *)
Lemma linked_layout : heap_layout 256.
Proof. split; [lia|done|done|done|split; [split|]; done]. Qed.


(** ** What the rest of the boot knows of that state *)
Record linked (G : ghost) (s : MM) : Prop := {
  ln_wf : tables_wf G (mm_tables s);
  ln_root : G !! linked_root = Some (mkInfo LevelCount 0 getKernelPageHeapStart);
  ln_object : mm_directories s !! linked_object = Some (mkPageDirectory getKernelPageHeapStart linked_root);
  ln_globals : g_kernelDirectory s = linked_object /\ g_currentPageDirectory s = linked_object /\ g_pagingReady s = true;
  ln_heap : map_size (mm_pageHeap s) = 8 /\ m_pool (mm_pageHeap s) = [] /\ m_allocating (mm_pageHeap s) = false;
  ln_upper : next_at (mm_tables s) linked_root 511 <> 0 /\ l2_of (mm_tables s) linked_root <> 0;
  ln_missing : missing 256 (mm_tables s) linked_root = 0;
  ln_used p g : G !! p = Some g -> used (mm_memory s) (t_phys g / 4096) = true;
  ln_chunks i : 0 <= i < 256 -> next_at (mm_tables s) (l2_of (mm_tables s) linked_root) (chunk i) <> 0;
  ln_fresh i : 0 <= i < 256 -> nth_bool (m_map (mm_pageHeap s)) i = false -> G !! block_page i 0 = None;
  ln_static i : 0 <= i < 16 -> nth_bool (m_map (mm_pageHeap s)) i = false ->
    used (mm_memory s) (static_phys pdPageHeap i / 4096) = true /\ forall p g, G !! p = Some g -> t_phys g <> static_phys pdPageHeap i;
  ln_blocks i j : 16 <= i < 256 -> 0 <= j < 2 -> pte_p (pte_at (mm_tables s) linked_root (block_page i j)) = false;
  ln_stacks c : 320 <= c < 384 -> next_at (mm_tables s) (l2_of (mm_tables s) linked_root) c = 0;
  ln_module i : 0 <= i < 64 -> pte_p (pte_at (mm_tables s) linked_root (module_page i)) = false;
  ln_memory : memory_wf (mm_memory s) /\ frames_size (mm_memory s) = 2560 /\
    forall p, 0 <= p < 2560 -> used (mm_memory s) p = linked_page p;
}.

Lemma linked_mm_linked : linked linked_ghost linked_mm.
Proof.
  destruct linked_ranges as (R1 & R2 & R3). split.
  - exact linked_wf.
  - exact linked_ghost_root.
  - exact linked_object_at.
  - exact linked_globals.
  - exact linked_heap.
  - exact linked_upper.
  - exact linked_missing.
  - exact linked_used.
  - exact linked_chunks.
  - intros i. exact (free_block_new _ _ i linked_fresh).
  - exact linked_static.
  - intros i j Hi Hj. apply (unmapped_page _ _ _ _ (2 * (i - 16) + j) R1); [unfold block_page; cbn [getPageHeapBase linked_symbols]; lia|lia].
  - intros c Hc. apply Z.eqb_eq. exact (forallb_seqZ _ _ _ R2 c Hc).
  - intros i Hi. exact (unmapped_page _ _ _ _ i R3 eq_refl Hi).
  - exact linked_memory.
Qed.

(** The addresses of the last gigabyte *)
Lemma gigabyte_prefix l a k : a = 2 ^ 64 - 2 ^ 30 + k * 4096 -> 0 <= k < 2 ^ 18 -> prefix_of l a = (2 ^ 36 - 2 ^ 18 + k) / 2 ^ (9 * Z.of_nat l).
Proof.
  intros -> Hk. change l with (0 + l)%nat at 1. rewrite prefix_shift, prefix_page, Z.shiftr_div_pow2 by lia. f_equal.
  replace (2 ^ 64 - 2 ^ 30 + k * 4096) with ((2 ^ 36 * 0xffff + (2 ^ 36 - 2 ^ 18 + k)) * 4096) by lia.
  rewrite Z.div_mul by lia. rewrite Z.mul_comm, Z.add_comm, Z.mod_add by lia. apply Z.mod_small. lia.
Qed.

Lemma linked_stack_prefix l i j :
  0 <= i < StackCount -> 0 <= j < 4 -> prefix_of l (stack_page i j) = (2 ^ 36 - 0x18000 + (4 * i + j)) / 2 ^ (9 * Z.of_nat l).
Proof.
  intros Hi Hj. unfold StackCount in Hi.
  rewrite (gigabyte_prefix l _ (0x28000 + (4 * i + j))); [by f_equal; lia|unfold stack_page; cbn [getStackPageHeapBase linked_symbols]; lia|lia].
Qed.

Lemma linked_module_prefix l i : 0 <= i < 64 -> prefix_of l (module_page i) = (2 ^ 36 - 0x30000 + i) / 2 ^ (9 * Z.of_nat l).
Proof.
  intros Hi.
  rewrite (gigabyte_prefix l _ (0x10000 + i)); [by f_equal; lia|unfold module_page; cbn [getStackBase linked_symbols]; lia|lia].
Qed.

Lemma linked_first_page : first_page = 2 ^ 36 - 0x20000.
Proof. by vm_compute. Qed.

Lemma linked_heap_page m : in_heap 256 m -> Z.shiftr m 9 = 2 ^ 27 - 256.
Proof.
  unfold in_heap. rewrite linked_first_page. intros Hm. rewrite Z.shiftr_div_pow2 by lia. change (2 ^ 9) with 512.
  Z.to_euclidean_division_equations; lia.
Qed.

Section linked.
Context (G : ghost) (s : MM) (Hs : linked G s) (m : Memory).

(** What the loader reserves is marked besides. *)
Record more_used : Prop := {
  mu_wf : memory_wf m;
  mu_used p : used (mm_memory s) p = true -> used m p = true;
  mu_size : frames_size m < 2 ^ 38;
}.

Context (Hm : more_used).
Abbreviation started_mm := (set_mm_memory m s).

Lemma linked_directory : directory_ok G started_mm linked_object linked_root.
Proof using Hs.
  split; [exact (ln_wf _ _ Hs)| |by exists (mkInfo LevelCount 0 getKernelPageHeapStart); split; [exact (ln_root _ _ Hs)|exact (ln_object _ _ Hs)]].
  eexists. split; [exact (ln_root _ _ Hs)|done].
Qed.

Lemma linked_heap_ready n : (n <= 232)%nat -> heap_ready 256 n G started_mm linked_root.
Proof using Hs Hm.
  intros Hn. destruct Hm as [Hwf Hused Hsize], Hs as [_ _ _ (Ek & _ & Ep) (Esize & Epool & Eall) [H3 H2] Emiss Hgu Hch Hfr Hst Hbl _ _ _].
  split; unfold pool_size; cbn [mm_memory mm_tables mm_pageHeap set_mm_memory]; rewrite ?Epool, ?Esize, ?Emiss;
    [|done|cbn [length]; lia|done|cbn [length]; lia].
  split; cbn [mm_memory mm_tables mm_pageHeap set_mm_memory]; rewrite ?Epool, ?Esize; [|done| | | | |by intros b Hb%not_elem_of_nil|cbn [length]; lia].
  - split; cbn [mm_memory mm_tables mm_pageHeap g_kernelDirectory g_pagingReady set_mm_memory]; rewrite ?Epool; try done.
    + rewrite Ek. exact linked_directory.
    + intros p g Hg. apply Hused. by apply (Hgu p g).
    + by intros b Hb%not_elem_of_nil.
    + constructor.
    + constructor.
  - intros i Hi _. by apply Hch.
  - intros i Hi. by apply Hfr.
  - intros i j Hi Hj _. by apply Hbl.
  - intros i Hi _ Hc. destruct (Hst i Hi Hc) as [Hu Hg]. split; [by apply Hused|]. split; [by intros Hb%not_elem_of_nil|exact Hg].
Qed.

Context (fuel nesting : nat).
Abbreviation allocator := (kernel_allocator fuel nesting).
Abbreviation laws := (kernel_laws 256 linked_layout fuel nesting).

Lemma linked_spaces n room : (n <= 232)%nat -> 0 <= room < 2 ^ 34 -> @spaces allocator laws nobody n room G started_mm.
Proof using Hs Hm.
  intros Hn Hroom. split.
  - exact (ln_wf _ _ Hs).
  - by intros r [].
  - by intros r r' a a' q [].
  - apply (ln_globals _ _ Hs).
  - apply Hm.
  - destruct Hm as [_ _ Hsize]. cbn [mm_memory set_mm_memory]. lia.
  - exists linked_root. by apply linked_heap_ready.
  - by intros r a [].
  - by intros r r' a a' [].
  - by intros r k [].
Qed.

Lemma linked_kernel : kernel_ready G started_mm linked_root.
Proof using Hs.
  destruct Hs as [_ _ _ (Ek & _ & _) _ [H3 H2] _ _ _ _ _ _ _ _ _]. split; [|exact H3|exact H2].
  cbn [g_kernelDirectory set_mm_memory]. rewrite Ek. exact linked_directory.
Qed.

Lemma linked_area : @stack_area allocator laws linked_symbols.
Proof.
  split.
  - unfold StackCount. cbn. lia.
  - by vm_compute.
  - intros i j Hi Hj. rewrite linked_stack_prefix by done. unfold StackCount in Hi. change (9 * Z.of_nat 2) with 18.
    Z.to_euclidean_division_equations; lia.
  - intros i j p Hi Hj Hp%linked_heap_page. rewrite linked_stack_prefix by done. unfold StackCount in Hi. change (9 * Z.of_nat 1) with 9.
    Z.to_euclidean_division_equations; lia.
Qed.

Lemma linked_module_area count : 0 <= count <= 64 -> @module_area allocator laws linked_symbols count.
Proof.
  intros Hc. split.
  - cbn. split; [lia|]. split; [lia|done].
  - intros i Hi. rewrite linked_module_prefix by lia. change (9 * Z.of_nat 2) with 18. Z.to_euclidean_division_equations; lia.
  - intros i p Hi Hp%linked_heap_page. rewrite linked_module_prefix by lia. change (9 * Z.of_nat 1) with 9. Z.to_euclidean_division_equations; lia.
Qed.

Lemma stack_unmapped i j : 0 <= i < StackCount -> 0 <= j < 4 -> pte_p (pte_at (mm_tables s) linked_root (stack_page i j)) = false.
Proof using Hs.
  intros Hi Hj. pose proof (linked_stack_prefix 2 i j Hi Hj) as E2. pose proof (linked_stack_prefix 1 i j Hi Hj) as E1.
  pose proof (prefix_step 1 (stack_page i j) ltac:(unfold LevelCount; lia)) as E. unfold StackCount in Hi.
  change (9 * Z.of_nat 2) with 18 in E2. change (9 * Z.of_nat 1) with 9 in E1. rewrite E1, E2 in E.
  assert (prefix_of 2 (stack_page i j) = 2 ^ 18 - 1) as Ep by (rewrite E2; Z.to_euclidean_division_equations; lia).
  destruct (VBase_indices _ Ep) as [I4 I3]. destruct Hs as [_ _ _ _ _ [H3 H2] _ _ _ _ _ _ Hst _ _].
  unfold pte_at, LevelCount. cbn [walk pred]. rewrite I4, I3, (proj2 (Z.eqb_neq _ _) H3). fold (l2_of (mm_tables s) linked_root).
  rewrite (proj2 (Z.eqb_neq _ _) H2), Hst; [done|]. Z.to_euclidean_division_equations; lia.
Qed.

Lemma linked_apart x i j : 0 <= x < 64 -> 0 <= i < StackCount -> 0 <= j < 4 -> ~ page_of (module_page x) (stack_page i j).
Proof.
  intros Hx Hi Hj E%same_page_prefix. rewrite linked_stack_prefix, linked_module_prefix in E by done. unfold StackCount in Hi.
  change (9 * Z.of_nat 0) with 0 in E. rewrite !Z.div_1_r in E. lia.
Qed.
End linked.
