(* ===== verification/KernelPages.v ===== *)
(** * The pages of a task, mapped with the kernel's own tables

    [AddressSpace] proves [mapPage] for any allocator of tables that keeps its promises, [TableHeap] that the kernel's does.  Together
    they say what the running kernel does when a task gets pages; the witness is the kernel that [Linked] has made. *)

From Stdlib Require Import ZArith Lia.
From stdpp Require Import list numbers gmap.
From S2P Require Import Prelude Words Memory Pte PageManager PageHeap PageDirectory UserSpace AddressSpace NewDirectory TableHeap Stacks Linked.

(** ** The kernel maps pages with tables that it maps itself *)
Section kernel.
Context `{Symbols} (limit : Z) (Hl : heap_layout limit) (fuel nesting : nat).

(** The spaces of the tasks [R], with [n] tables and [room] physical pages to spend, over the heap that the kernel keeps *)
Definition kernel_spaces (R : Z -> Prop) (n : nat) (room : Z) (G : ghost) (s : MM) : Prop :=
  @spaces (kernel_allocator fuel nesting) (kernel_laws limit Hl fuel nesting) R n room G s.

(** C6. The kernel gives a task as many pages as there are blocks for their tables: [mapPage] with the allocator that maps each
    table with [mapPage] again, and the pool that [refillPool] fills behind it, never fails for want of a table; each page
    is present with its attributes and a physical page that was free, no two share one, every other page of every task is
    as it was, and the heap of tables is ready for the next. *)
Theorem kernel_maps_pages R n room G s this r attributes l :
  (16 <= fuel)%nat -> has_attr attributes ATTR_DEFER = false ->
  kernel_spaces R (3 * length l + n) (room + (1 + 8 * Z.of_nat fuel) * Z.of_nat (length l)) G s -> 0 <= room ->
  directory_ok G s this r -> R r -> can_map r attributes s l ->
  Runs (for_each l (fun a => mapPage_nested fuel (2 + nesting) this a attributes ;; mret tt)) s (fun _ s' => exists G',
    kernel_spaces R n room G' s' /\ directory_ok G' s' this r /\ are_mapped R r attributes s s' l /\
    NoDup (map (fun a => pte_base (pte_at (mm_tables s') r a)) l)).
Proof.
  intros Hf Hattr Hsp H0 Hdir Hr Hcan. unfold kernel_spaces in *.
  assert (1 + 8 * Z.of_nat fuel = @page_cost _ _ (kernel_refill fuel nesting) (kernel_memory_laws limit Hl fuel nesting Hf)) as Hcost
    by (unfold page_cost; cbn [table_cost kernel_memory_laws]; lia).
  rewrite Hcost in Hsp. eapply Runs_mono; [by eapply map_list_run|].
  intros _ s' (G' & Hsp' & Hdir' & Hmapped). exists G'. split; [done|]. split; [done|]. split; [done|].
  apply (NoDup_bases r attributes s l _ Hcan). intros a b Ha Hb. destruct Hcan as [_ Hall], Hmapped as [Hm _].
  destruct (proj1 (Forall_forall _ _) Hall a Ha) as [Hua _], (proj1 (Forall_forall _ _) Hall b Hb) as [Hub _].
  destruct (proj1 (Forall_forall _ _) Hm a Ha) as [Hpa _], (proj1 (Forall_forall _ _) Hm b Hb) as [Hpb _].
  intros E. by apply (sp_inj _ _ _ _ _ Hsp' r r a b).
Qed.
End kernel.

(** ** Pages for the kernel as it is linked *)
Section examples.
#[local] Existing Instance linked_symbols.

Definition root_task (r : Z) : Prop := r = linked_root.
Definition first_pages : list Z := [0x400000; 0x401000; 0x7fffffffe000].

Lemma user_top a : user a -> 0 <= indexFromAddress 4 a < 0 + 256.
Proof.
  intros Ha. unfold user in Ha. rewrite indexFromAddress_mod, Z.shiftr_div_pow2, TOTAL_BITS_eq by (rewrite TOTAL_BITS_eq; lia).
  change (2 ^ (12 + 9 * Z.of_nat 3)) with (2 ^ 39). Z.to_euclidean_division_equations; lia.
Qed.

Section root_task.
Context (G : ghost) (s : MM) (Hs : linked G s).
Context (Hlow : forallb (fun i => next_at (mm_tables s) linked_root i =? 0) (seqZ 0 256) = true).
Abbreviation s0 := (set_mm_memory (mm_memory s) s).

Lemma user_empty a : user a -> pte_at (mm_tables s) linked_root a = zero_pte.
Proof using Hlow.
  intros Ha. pose proof (forallb_seqZ _ _ _ Hlow _ (user_top a Ha)) as E.
  unfold pte_at, LevelCount. cbn [walk]. by rewrite E.
Qed.

Lemma own_pages : more_used s (mm_memory s).
Proof using Hs. destruct (ln_memory _ _ Hs) as (Hwf & Hsize & _). split; [exact Hwf|done|lia]. Qed.

Lemma root_spaces n room : (n <= 232)%nat -> 0 <= room < 2 ^ 34 -> kernel_spaces 256 linked_layout 16 0 root_task n room G s0.
Proof using Hs Hlow.
  intros Hn Hroom. pose proof (linked_directory _ _ Hs (mm_memory s)) as [Hwf Hroot _]. split.
  - exact Hwf.
  - intros r ->. exact Hroot.
  - by intros r r' a a' q -> ->.
  - apply (ln_globals _ _ Hs).
  - apply own_pages.
  - pose proof (mu_size _ _ own_pages). cbn [mm_memory set_mm_memory]. lia.
  - exists linked_root. by apply linked_heap_ready; [|apply own_pages|].
  - intros r a -> Hu. cbn [mm_tables set_mm_memory]. by rewrite user_empty.
  - intros r r' a a' -> _ Hu _. cbn [mm_tables set_mm_memory]. by rewrite (user_empty a).
  - intros r m -> _. apply (ln_upper _ _ Hs).
Qed.

Lemma first_pages_free : can_map linked_root (Z.lor ATTR_RW ATTR_USER) s0 first_pages.
Proof using Hlow.
  split; [by apply (bool_decide_unpack _); vm_compute|].
  repeat (apply Forall_cons; split; [split; [unfold user; lia|split; [by vm_compute|apply user_empty; unfold user; lia]]|]). by apply Forall_nil.
Qed.
End root_task.

Lemma lower_half_empty : forallb (fun i => next_at (mm_tables linked_mm) linked_root i =? 0) (seqZ 0 256) = true.
Proof. by vm_compute. Qed.

Lemma budget : (3 * length first_pages + 0 <= 232)%nat /\ 0 <= 0 + (1 + 8 * Z.of_nat 16) * Z.of_nat (length first_pages) < 2 ^ 34.
Proof. cbn. lia. Qed.

Lemma kernel_maps_pages_witness :
  Runs (for_each first_pages (fun a => mapPage_nested 16 2 linked_object a (Z.lor ATTR_RW ATTR_USER) ;; mret tt))
    (set_mm_memory (mm_memory linked_mm) linked_mm)
    (fun _ s' => Forall (fun a => pte_p (pte_at (mm_tables s') linked_root a) = true) first_pages).
Proof.
  eapply Runs_mono.
  - apply (kernel_maps_pages 256 linked_layout 16 0 root_task 0 0 linked_ghost (set_mm_memory (mm_memory linked_mm) linked_mm)
      linked_object linked_root (Z.lor ATTR_RW ATTR_USER) first_pages).
    + lia.
    + done.
    + exact (root_spaces _ _ linked_mm_linked lower_half_empty _ _ (proj1 budget) (proj2 budget)).
    + lia.
    + exact (linked_directory _ _ linked_mm_linked _).
    + exact eq_refl.
    + exact (first_pages_free _ lower_half_empty).
  - intros _ s' (G' & _ & _ & [Hall _] & _). eapply Forall_impl; [exact Hall|]. by intros a [Hp _].
Defined.
End examples.
