(* ===== verification/PowerOn.v ===== *)
(** * From power-on to the shell

    [Kmain] starts from a kernel whose page tables are there, and from any allocator that keeps its promises.  Here both are the
    kernel's own: the tables that [Linked] has made, and the heap of [TableHeap].  The boot is then one statement, from the first
    line of [kmain] to the shell. *)

From Stdlib Require Import ZArith Lia.
From stdpp Require Import list numbers gmap.
From S2P Require Import Prelude Words Memory KHeap Pte Interrupts Tasks Family Devices DescTables Multiboot Fs Cpio FileManager PageManager PageHeap PageDirectory.
From S2P Require Import Screen Tty Terminals UserSpace AddressSpace UserWalk NewDirectory TableHeap Linked Elf Processes Kernel Fork Stacks Loading Clone Syscalls Dispatch Boot Kmain.

#[local] Existing Instance linked_symbols.

(** ** The first half of [kmain] *)
(** The machine when nothing has run *)
Record power_off (m : Machine Terminal) : Prop := {
  po_paging : exists h, as_mm (k_space (mc_kernel m)) = off_mm h;
  po_gdt : g_gdtEntries (mc_tables m) = initial_gdt;
  po_heap : headers (mc_heap m) = ∅;
  po_masked : rflags_if (cpu (k_tm (mc_kernel m))) = false;
  po_files : 0 < next_object (k_fs (mc_kernel m)) /\ forall q, next_object (k_fs (mc_kernel m)) <= q -> inodes (k_fs (mc_kernel m)) !! q = None;
  po_screen : screen_free (console (k_fs (mc_kernel m)));
}.

(** What the loader left: tags with a map of the memory and one module, that reserve no page of the kernel; their size *)
Record loader_ok (mem : Z -> Z) (fuel : nat) (mboot : Z) (l : list TagDesc) (start last : Z) : Prop := {
  lo_tags : tags_at mem (mboot + TAGS_HEADER_SIZE) l;
  lo_fuel : enough fuel l;
  lo_fits : Forall tag_fits l;
  lo_map : existsb is_map l = true;
  lo_reserved : NoDup (concat (map tag_pages l)) /\ Forall (fun p => 0 <= p < 2 ^ 37 /\ linked_page p = false) (concat (map tag_pages l));
  lo_module : modules l = [(start, last)];
  lo_range : start mod 4096 = 0 /\ 0 <= start <= last /\ last < 2 ^ 32 /\ module_count start last <= 60;
  lo_size : 4 < u32_at mem (ptrAlignSup (getHeapBase + HEADER_SIZE) 8) <= 2097152 - 16;
}.

(** The kernel of [m] with its tables, after the ports have been used *)
Definition with_tables (s : MM) (q : Ports) (k : Kernel Terminal) : Kernel Terminal :=
  set_k_space (mkSpace s (as_ram (k_space k))) (set_k_fs (set_console (set_tty_ports q (console (k_fs k))) (k_fs k)) k).

#[local, refine] Instance no_mapping : HeapMapper unit := {| KHeap.map_heap_page _ := mret tt; KHeap.heap_ready _ _ := True |}.
Proof. done. Defined.

Lemma Runs_boot_paging {A} (op : ST MM A) (m : Machine Terminal) (Q : A -> Machine Terminal -> Prop) :
  Runs op (as_mm (k_space (mc_kernel m))) (fun a s => Q a (set_mc_kernel (set_k_space (mkSpace s (as_ram (k_space (mc_kernel m)))) (mc_kernel m)) m)) ->
  Runs (in_kernel (on_paging op)) m Q.
Proof. intros Hop. by apply Runs_zoom, Runs_zoom, Runs_zoom. Qed.

Section first_half.
Context (G : ghost) (s : MM) (Hs : linked G s) (table_fuel nesting : nat).
Context (Hrun : forall var, (pd ← @makeKernelDirectory (kernel_allocator table_fuel nesting) _ linked_object; use pd var) (off_mm new_PageHeap) = Ok (tt, s)).
Context (mem : Z -> Z) (fuel : nat) (fresh : Z -> BlockState) (var gdt_base idt_base : Z) (intVectors : list Z).
Context (Hvectors : (49 <= length intVectors)%nat /\ Forall (in_word 64) intVectors).

Lemma reserved_markable l start last mboot : loader_ok mem fuel mboot l start last -> markable (concat (map tag_pages l)) (mm_memory s).
Proof using Hs.
  clear Hvectors. intros [_ _ _ _ [Hnd Hall] _ _ _]. destruct (ln_memory _ _ Hs) as (Hwf & Hsize & Hk). split; [done|]. split; [done|].
  eapply Forall_impl; [exact Hall|]. intros q [Hq Hkp]. split; [lia|].
  destruct (decide (q < 2560)); [by rewrite Hk by lia|]. apply not_true_is_false. intros Hu%used_range. lia.
Qed.

(** What the processor has when paging starts: its tables and the segments of the kernel, the instructions of SSE, and the bit that
    forbids to execute *)
Record processor_ready (m : Machine Terminal) : Prop := {
  pr_descriptors : descriptors gdt_base idt_base intVectors (mc_tables m);
  pr_sse : Z.testbit (mc_cr4 m) 9 = true;
  pr_nx : exists e, k_msr (mc_kernel m) !! MSR_EFER = Some e /\ Z.testbit e 11 = true;
}.

Lemma initKernelDirectory_run object (k : Kernel Terminal) a s1 :
  @makeKernelDirectory (kernel_allocator table_fuel nesting) _ object (as_mm (k_space k)) = Ok (a, s1) -> exists e,
  Z.testbit e 11 = true /\ exists msr, msr !! MSR_EFER = Some e /\
  @initKernelDirectory Terminal (kernel_allocator table_fuel nesting) _ object k =
    Ok (a, set_k_space (mkSpace s1 (as_ram (k_space k))) (set_k_msr msr k)).
Proof.
  clear. intros H. set (v := Z.lor (default 0 (k_msr k !! MSR_EFER)) 1). exists (u64 (Z.lor v (Z.shiftl 1 11))). split.
  { unfold wrap. rewrite Z.mod_pow2_bits_low, Z.lor_spec by lia. by rewrite orb_true_r. }
  exists (<[MSR_EFER := u64 (Z.lor v (Z.shiftl 1 11))]> (<[MSR_EFER := v]> (k_msr k))). split; [apply lookup_insert_eq|].
  unfold initKernelDirectory, readMsr, gets, wrmsr, modify, mbind, ST_bind, mret, ST_ret. rewrite writeMsr_run.
  unfold on_paging, on_space, on_mm, zoom. cbn [k_space set_k_msr]. by rewrite H.
Qed.

Lemma kmain_memory_run m mboot l start last :
  power_off m -> loader_ok mem fuel mboot l start last ->
  Runs (kmain_memory (TableAllocator0 := kernel_allocator table_fuel nesting) tty_ports set_tty_ports mem fuel fresh var linked_object gdt_base idt_base intVectors mboot) m
    (fun _ m' => processor_ready m' /\ length (g_gdtEntries (mc_tables m')) = 7%nat /\ exists pages q msr, more_used s pages /\
      mc_kernel m' = with_tables (set_mm_memory pages s) q (set_k_msr msr (mc_kernel m))).
Proof using Hs Hrun Hvectors.
  intros [[h Hmm] Hgdt Hheap _ _ _] Hlo. pose proof (reserved_markable _ _ _ _ Hlo) as Hmark. destruct Hlo as [Htags Hf Hfit Hmap [_ Hres] _ _ Hsize].
  destruct m as [k heap tables handlers ready cr4]. cbn [mc_kernel mc_heap mc_tables] in *. unfold kmain_memory.
  apply Runs_bind, Runs_modify. apply Runs_bind. unfold on_tables. apply Runs_zoom.
  eapply Runs_mono; [apply (initIdt_gates gdt_base idt_base intVectors tables); apply Hvectors|].
  intros _ tables' [Hdesc Hgdt']. cbn [set_mc_tables set_mc_cr4 mc_kernel].
  apply Runs_bind. apply Runs_on_ports; [by eexists _, _|]. intros _ q. unfold set_machine_ports. cbn [set_mc_kernel mc_kernel].
  apply Runs_bind. unfold on_heap. apply Runs_zoom. cbn [mc_heap].
  eapply Runs_mono; [apply (init_layout fresh heap tt getHeapBase); done|]. intros _ [heap' []] _. cbn [set_mc_heap mc_kernel fst].
  apply Runs_bind, Runs_boot_paging. match goal with |- Runs _ ?s0 _ => change s0 with (as_mm (k_space k)) end. rewrite Hmm. apply Runs_modify.
  change (set_mm_pageHeap new_PageHeap (off_mm h)) with (off_mm new_PageHeap). cbn [mc_kernel set_mc_kernel set_k_space k_space as_mm as_ram].
  specialize (Hrun var). apply bind_ok in Hrun as (pd & s1 & Hinit & Huse).
  apply Runs_bind. match goal with |- Runs _ ?m0 _ => destruct (initKernelDirectory_run linked_object (mc_kernel m0) _ _ Hinit) as (e & He & msr & Hmsr & Hrun1) end.
  unfold in_kernel at 1. apply Runs_zoom. eapply Runs_of_ok; [exact Hrun1|]. cbn [mc_kernel set_mc_kernel set_k_space k_space as_mm as_ram].
  apply Runs_bind, Runs_boot_paging. cbn [mc_kernel set_mc_kernel set_k_space k_space as_mm as_ram].
  eapply Runs_of_ok; [exact Huse|]. cbn [mc_kernel set_mc_kernel set_k_space k_space as_mm as_ram].
  apply Runs_bind, Runs_boot_paging. cbn [mc_kernel set_mc_kernel set_k_space k_space as_mm as_ram]. apply Runs_zoom.
  eapply Runs_mono; [by apply (prepareMemory_run mem fuel mboot l)|]. intros _ m1 (Hwf1 & Hu1 & Hs1).
  cbn [mc_kernel set_mc_kernel set_k_space k_space as_mm as_ram].
  apply Runs_bind, Runs_boot_paging. cbn [mc_kernel set_mc_kernel set_k_space k_space as_mm as_ram mm_memory set_mm_memory]. apply Runs_zoom.
  eapply Runs_mono; [apply (completeRangeUsed_spec m1); [exact Hwf1|split; by vm_compute|by vm_compute]|]. intros _ m2 (Hwf2 & Hu2 & Hs2).
  apply Runs_boot_paging. cbn [mc_kernel set_mc_kernel set_k_space k_space as_mm as_ram mm_memory set_mm_memory]. apply Runs_zoom.
  eapply Runs_mono; [apply (completeRangeUsed_spec m2); [exact Hwf2|split; by vm_compute|by vm_compute]|]. intros _ m3 (Hwf3 & Hu3 & Hs3).
  split; [split; [exact Hdesc|exact (Z.setbit_eq cr4 9 ltac:(done))|exists e; exact (conj Hmsr He)]|]. split; [cbn; by rewrite Hgdt', Hgdt|].
  exists m3, q, msr. split; [|done]. split; [done| |].
  - intros x Hx. by rewrite Hu3, Hu2, Hu1, Hx, !orb_true_r.
  - assert (frames_size m1 <= 2 ^ 37 + 16) as H1.
    { apply Hs1; [destruct (ln_memory _ _ Hs) as (_ & -> & _); lia|]. eapply Forall_impl; [exact Hres|]. cbn. lia. }
    cbn [mm_memory set_mm_memory] in *. change (0xb8000 / 0x1000) with 0xb8 in *. change (0xe8000 / 0x1000) with 0xe8 in *. lia.
Qed.
End first_half.

(** ** The whole boot *)
Section whole.
Context (p task : Z).
#[local] Existing Instance main_console.
(** [table_fuel] bounds the refilling of the pool, [nesting] how deep a table may be mapped for a table. *)
Context (table_fuel nesting : nat) (Hfuel : (16 <= table_fuel <= 1000)%nat).
Context (mem : Z -> Z) (fuel depth text : nat) (fresh : Z -> BlockState) (var local node tss gdt_base idt_base : Z) (intVectors : list Z) (syscall_entry exec : Z).
Abbreviation allocator := (kernel_allocator table_fuel nesting).
Abbreviation laws := (kernel_laws 256 linked_layout table_fuel nesting).
Abbreviation refill := (kernel_refill table_fuel nesting).
Abbreviation costs := (kernel_memory_laws 256 linked_layout table_fuel nesting (proj1 Hfuel)).

(** [kmain] with the allocator of the kernel, and the processor behind it *)
Definition power_on (mboot : Z) : ST (Machine Terminal) (turn unit) :=
  kmain_memory (TableAllocator0 := allocator) tty_ports set_tty_ports mem fuel fresh var linked_object gdt_base idt_base intVectors mboot ;;
  kmain_to_shell (Console0 := main_console p task) (TableAllocator0 := allocator) refill tty_ports set_tty_ports tty_clear mem fuel (S depth)
    text var local node tss syscall_entry exec mboot.

Lemma linked_page_cost : @page_cost allocator laws refill costs = 1 + 8 * Z.of_nat table_fuel.
Proof. unfold page_cost. cbn [table_cost kernel_memory_laws]. lia. Qed.

(** The addresses of the objects that [kmain] makes on its stack *)
Context (Hvar : prefix_of 2 var = 2 ^ 18 - 1) (Hobjects : local <> linked_object /\ node <> linked_object /\ node <> local).

Lemma power_on_paged G s pages q msr m l start last mboot n k :
  linked G s -> power_off m -> loader_ok mem fuel mboot l start last -> more_used s pages ->
  3 * module_count start last + 26 + Z.of_nat n <= 232 -> 0 <= k <= 232 ->
  @paged allocator laws linked_symbols refill costs nobody var local node start last n
    ((1 + 8 * Z.of_nat table_fuel) * k) G (with_tables (set_mm_memory pages s) q (set_k_msr msr (mc_kernel m))) linked_root.
Proof using Hvar Hobjects.
  intros Hs [_ _ _ Hmask Hfiles Hscreen] [_ _ _ _ _ _ (Hmod & Hrange & Hlast & Hcount) _] Hm Hn Hk.
  assert (0 <= module_count start last) as Hc by (unfold module_count; apply Z.div_pos; lia).
  destruct (ln_globals _ _ Hs) as (Ek & Ec & Ep). split.
  - rewrite linked_page_cost. apply linked_spaces; [done|done|lia|].
    change (@table_cost allocator laws refill costs) with (2 * Z.of_nat table_fuel). nia.
  - nia.
  - by apply linked_kernel.
  - cbn. congruence.
  - split; [by vm_compute|exact Hvar].
  - apply linked_area.
  - intros i j. by apply (stack_unmapped G s).
  - split; [exact Hmod|done|apply linked_module_area; lia|]. intros i Hi. apply (ln_module _ _ Hs). lia.
  - intros x i j Hx Hi Hj. apply linked_apart; [lia|done|done].
  - cbn. by rewrite Ek.
  - exact Hmask.
  - exact Hfiles.
  - exact Hscreen.
Qed.

Context (Hvectors : (49 <= length intVectors)%nat /\ Forall (in_word 64) intVectors) (Htss : in_word 64 tss) (Hentry : in_word 64 syscall_entry).

End whole.

(** ** A machine that is switched on *)
Section examples.
Definition information : list Z :=
  le32 112 ++ le32 0 ++
  le32 6 ++ le32 64 ++ le32 24 ++ le32 0 ++
    le64 0 ++ le64 0x9fc00 ++ le32 1 ++ le32 0 ++
    le64 0x9fc00 ++ le64 0x400 ++ le32 2 ++ le32 0 ++
  le32 3 ++ le32 19 ++ le32 0xa00000 ++ le32 0xa02000 ++ [105; 110; 0] ++ replicate 5 0 ++
  le32 9 ++ le32 8 ++
  le32 0 ++ le32 8.
Definition information_tags : list TagDesc := [MapTag 24 [(0, 0x9fc00, 1); (0x9fc00, 0x400, 2)]; ModuleTag 0xa00000 0xa02000; OtherTag 9].
Definition information_start : Z := 0xfffffffff0000008.
Definition loader_left (a : Z) : Z :=
  if a <? information_start then nth (Z.to_nat (a - 0xa00000)) shell_archive 0 else nth (Z.to_nat (a - information_start)) information 0.

Definition machine_off : Machine Terminal :=
  mkMachine (mkKernel ∅ (mkFs ∅ ∅ 1 0 example_tty) (mkSpace (off_mm new_PageHeap) (fun _ => 0)) (new_TaskManager (mkCpu false 0)) new_PageHeap 0 ∅)
    (mkKHeap 0 0 0 ∅) DescTables.example_tables ∅ false 0.

Lemma machine_is_off : power_off machine_off.
Proof. split; [by eexists|done|done|done|by split; [|intros; apply lookup_empty]|done]. Qed.

Lemma loader_left_ok : loader_ok loader_left 10 information_start information_tags 0xa00000 0xa02000.
Proof.
  split.
  - repeat (split; [vm_compute; congruence|]). vm_compute. done.
  - unfold enough. cbn. lia.
  - repeat constructor; lia.
  - done.
  - change (concat (map tag_pages information_tags)) with [0x9f; 0xa00; 0xa01]. split; [by apply (bool_decide_unpack _); vm_compute|].
    repeat (apply Forall_cons; split; [split; [lia|by vm_compute]|]). by apply Forall_nil.
  - done.
  - by vm_compute.
  - by vm_compute.
Qed.

Lemma loader_left_archive : archived loader_left 0xa00000 0xa02000 shell_entries behind_archive example_elf.
Proof.
  destruct shell_archived as [_ Hentries Hshell]. split; [by vm_compute|exact Hentries|exact Hshell].
Qed.

Lemma fuel_enough : (16 <= 16 <= 1000)%nat.
Proof. lia. Qed.
Lemma boot_stack_high : prefix_of 2 0xffffffffcfffff00 = 2 ^ 18 - 1.
Proof. by vm_compute. Qed.
Lemma boot_objects_apart : 0x8000 <> linked_object /\ 0x9000 <> linked_object /\ 0x9000 <> 0x8000.
Proof. unfold linked_object. lia. Qed.
Lemma vectors_enough : (49 <= length (map Z.of_nat (seq 0 49)))%nat /\ Forall (in_word 64) (map Z.of_nat (seq 0 49)).
Proof. split; [done|]. repeat (apply Forall_cons; split; [done|]). by apply Forall_nil. Qed.
Lemma segments_fit : 3 * module_count 0xa00000 0xa02000 + 3 * Z.of_nat (load_pages example_segments) + 38 <= 232.
Proof. by vm_compute. Qed.

End examples.
